(* ===== verification/_CoqProject ===== *)
-Q . S2P
Prelude.v
Text.v
Float64.v
Calendar.v
Graph.v
Tenancy.v
AuditTrail.v
Merkle.v
Leader.v
Scheduler.v
CoreModels.v
Canonical.v
Base64.v
Pipelines.v
PipelineEngine.v
Cron.v
Templates.v
Guards.v
Policy.v
Approvals.v
Budget.v
Cost.v
CostLedger.v
Admission.v
Triggers.v
TriggerEngine.v
TriggerHistory.v
TriggerIngest.v
Defense.v
RunStore.v
RunService.v
ToolGateway.v
Plane.v
PipelineRuns.v
Manifest.v
Binding.v
Certification.v
Registry.v
RegistryDemo.v
Transparency.v
Promotion.v
PromotionDemo.v
WorkerIdentity.v
Workers.v
WorkerLeases.v
WorkersDemo.v
Conflict.v
Reconcile.v
ReconcilePass.v
ReconcileDemo.v
Tenants.v
Auth.v
Secrets.v
SecretsSpec.v
Redaction.v
Identity.v
IdentityIsolation.v
IdentityDemo.v
Progressive.v
CanaryHistory.v
CanaryCap.v
CanaryServing.v
CanaryDemo.v
Rounding.v
Drift.v
DriftHistory.v
DriftFleet.v
DriftDemo.v
PackRegistry.v
Incident.v
Health.v
HealthFleet.v
Probes.v
Chaos.v
Delivery.v
Artifacts.v
Retention.v
Purge.v
PurgeFleet.v
ApprovalFlow.v
