(* ===== verification/Prelude.v ===== *)
(** * HivePlane: a verification development of the control-plane core

    HivePlane runs agents under a control plane: a manifest declares a workload
    (runtime, model, tools, budgets, sandbox, triggers), the registry certifies
    and admits it, events and operators submit runs, runs call tools through a
    gateway, and everything is accounted, scheduled, audited and reported.  This
    library models the plane's own logic (all paths below are under
    [src/src/hiveplane/]) as executable definitions, and proves what makes each
    part, and their composition, correct.

    ** Conventions

    - A method that reads or changes state is a computation of the monad [M]
      (below): it returns or raises, and in both cases yields the state it
      leaves; a Python method that raises keeps the mutations made before.
      Operations on values only are plain functions.
    - Enumerations are inductive types, pydantic models are records; a model's
      validators are boolean functions or functions into an error.  Dictionaries
      are association lists in insertion order ([odict]) where the order can be
      observed and [gmap] where it cannot.  The in-memory stores copy on write
      and on read, so records are values; where the code shares mutable objects
      the model shares the store.
    - Instants are microseconds since the epoch in [Z], days are numbers of days;
      [datetime] overflow is tested where the code can leave the range.
      Python's integers are unbounded and are [Z].  Floats are IEEE binary64
      ([Float64]), added in the order the code adds them.
    - Strings are their UTF-8 bytes; lengths counted in characters count the
      characters.  Where only some bytes are recognised (blanks, digits) the
      file says so.
    - Collaborators outside the modelled code (clocks, identifier factories,
      hashes, signatures, HMAC, parsers of the standard library, model and tool
      servers, callbacks) are parameters or fields of an environment that acts on
      a state [X] of its own.  Theorems hold for every such environment, or
      state as hypotheses what is documented of it (a hash is never assumed
      injective: tamper evidence is stated up to an explicit collision).
    - Each property's doc comment carries its number; its witness, where it has
      hypotheses, applies it to a concrete input.

    ** Parts

    Foundations: [Prelude] (the monad, ordered dictionaries, Python's sorting and
    [max]/[min], the relation calculus [keeps]), [Text] (decimal text, [int],
    string methods), [Float64], [Calendar] ([datetime]'s calendar), [Graph]
    (Kahn's algorithm and reachability), [Canonical] (canonical JSON and its
    injectivity), [Base64].

    Identity and records: [Tenancy] (tenancy/context.py), [CoreModels] (core/),
    [Manifest] (the whole workload manifest, core/spec.py and its parts).

    Integrity and coordination: [AuditTrail] (persistence/audit.py), [Merkle]
    (reporting/merkle.py), [Leader] (ha/), [Scheduler] (scheduler/).

    Deciding: [Policy] (policy/engine.py, packs.py), [Approvals]
    (policy/approvals.py, kill_switch.py), [Guards] (guards/), [Budget]
    (budget/), [Cost] and [CostLedger] (cost/), [Admission]
    (execution/admission.py, gates.py), [Defense] (defense/, sandbox/egress.py).

    Running: [RunStore] (execution/store.py), [RunService]
    (execution/service.py), [ToolGateway] (execution/tools.py), [Plane] (the
    gateway over the run service).

    Orchestrating: [Pipelines] (pipelines/spec.py, handoff.py), [PipelineEngine]
    (pipelines/engine.py), [PipelineRuns] (pipelines/executor.py: the engine over
    the run service and the approvals).

    Triggering: [Cron] (triggers/cron.py, scheduler.py), [Templates]
    (triggers/templating.py), [Triggers] (triggers/schema.py, store.py,
    limiter.py), [TriggerEngine] (triggers/engine.py, watch.py, runner.py),
    [TriggerHistory] (what sequences of deliveries leave behind),
    [TriggerIngest] (triggers/ingest.py, sources.py, freeze.py).

    Certifying: [Binding] (certification/binding.py, transparency/provenance.py),
    [Certification] (certification/models.py, engine.py, runner.py, diff.py,
    signing.py), [Registry] (registry/), [Transparency] (transparency/),
    [Promotion] (certification/service.py, promotion.py, workflow.py), with
    [RegistryDemo] and [PromotionDemo] running them on a concrete workload.

    Working: [WorkerIdentity] (worker/identity.py, models.py: signed tokens),
    [Workers] (worker/registry.py, store.py, daemon.py: leases and their
    reclaiming), [WorkerLeases] (sequences of their calls), [WorkersDemo].

    Reconciling: [Conflict] (reconcile/conflict.py: field classes, differences
    and merges of payloads), [Reconcile] (differ, planner, loader, store,
    executor and controller, over an interface of the registry),
    [ReconcilePass] (what a pass may remove and leaves behind; [Registry]
    implements the interface), [ReconcileDemo].

    Identity: [Tenants] (tenancy/store.py, admin.py), [Auth] (auth/: roles,
    keys, the access audit), [Secrets] (secrets/models.py, crypto.py, store.py,
    service.py), [SecretsSpec] (an abstract store and the simulation),
    [Redaction] (secrets/redaction.py, injection.py), [Identity] (api/deps.py,
    identity.py, tenants.py: from a request to an acting tenant, and the
    endpoints), [IdentityIsolation] (sequences of requests), [IdentityDemo].

    Delivering progressively: [Progressive] (progressive/: shadow runs, canaries,
    experiments, over an interface of the registry), [CanaryHistory] and
    [CanaryCap] (sequences of automated steps), [CanaryServing] (the router of
    the run service, and the registry under decisions), [CanaryDemo].

    Watching for drift: [Rounding] ([round] and fixed-point notation), [Drift]
    (drift/: detector, store, quarantine, monitor, reinstatement, scheduler, and
    the endpoints of api/drift.py, over an interface of the registry and the
    coordinator), [DriftHistory] (sequences of their calls), [DriftFleet] (the
    registry as that interface, quarantining, what is due), [DriftDemo].

    Packs that inherit: [PackRegistry] (policy/pack_registry.py: linting,
    resolving and applying, the recursion limit a parameter).

    Halting and watching: [Incident] (incident/, and the fleet endpoints: pausing
    scopes, the halt gate), [Health] (health/: objectives, burn rate,
    burn-through, sweeping), [HealthFleet] (their wiring over registry, drift and
    runs), [Probes] (probes/), [Chaos] (chaos/: drills and their guardrails).

    Deciding approvals: [ApprovalFlow] (delivery tokens over the store of [Delivery];
    api/approvals.py, delivery/approvals.py: an operator's or a token's decision,
    down to the paused run).

    Telling people: [Delivery], whose modules are [FanOut] (execution/fanout.py: a
    run's outcome to the manifest's destinations, the run service's notifications),
    the store of delivery/store.py, [Sending] (delivery/service.py, channels.py,
    templating.py: messages under a team's preferences) and [Escalation] (unanswered
    approvals climb the rotation).

    Keeping and deleting: [Artifacts] (artifacts/service.py, store.py), [Retention]
    (reporting/retention.py: the sweep over the stores), [Purge]
    (reporting/purge.py: signed certificates), [PurgeFleet] (the targets the plane
    wires, and what a purge leaves).

    How they interact: [RunService] uses [RunStore], [Scheduler], [Admission]
    and, through its environment, budgets, guards and executors; [ToolGateway]
    is proved against an interface for run access that [Plane] discharges with
    [RunService]; [PipelineEngine] is proved against an executor and a gate that
    [PipelineRuns] discharges with [RunService] and [Approvals]; the leader
    elector is proved against the class [LeaderStore] that both lease stores
    implement; [Promotion] composes [Certification], [Registry] and
    [Transparency]; [CostLedger] gives the cost service to [Budget]'s seam.

    ** What the theorems show

    Runs: histories follow the state machine under any sequence of service,
    gateway and pipeline calls ([RunService.Lifecycle.run_history],
    [run_records_consistent], [Plane.tool_calls_respect_lifecycle],
    [PipelineRuns.pipelines_refine_run_service]); admission is sound.  Tools:
    complete mediation, one call per approval, what an allow takes.
    Registry and certification: production admission rests on evidence,
    promotion is certified and survives, updates append versions, the artifact
    hash determines the agent, comparisons block exactly the regressions.
    Pipelines: acceptance is exactly well-formedness, dependencies are respected,
    valid pipelines complete.  Triggers: one run per event and per key, failed
    deliveries parked, nonces accepted once.  Money: run and period ledgers are
    the sums of what was recorded, carry-over is bounded.  Coordination and
    integrity: lease stores equivalent, stale leaders fenced, audit and
    transparency chains tamper-evident, Merkle proofs complete, no queued task
    lost.
    Workers: a superseded lease stays dead, a run is leased once, a reclaim pass
    moves exactly the due leases.
    Reconciling: merged payloads converge, removals are bounded by the
    guardrails whatever happens in a pass.
    Identity: requests of other tenants' keys change nothing of a tenant, a
    revoked key stays dead, the secret service answers like the abstract store,
    redacted texts hold no live value, a workload gets its declared secrets.
    Identifiers of keys and secrets are assumed not to be issued twice, AES to
    decrypt what it encrypted.
    Canaries: automation settles a rollout once, on the evidence of its window;
    a candidate exceeds its cap by the runs under way at most; what is served
    while a rollout is active, and that decisions leave it as it is.
    Drift: a quarantine follows a strong signal or an unbroken run of exceeding
    evaluations, and is lifted only by a reinstatement that found the workload
    admitted afresh; a quarantined workload is admitted nowhere but in a sandbox;
    what is due, and when nothing is answered.  What a quarantine's record shows
    needs no clock; the statements about what comes before a call in time
    ([quarantine_confirmed_in_order], [DriftFleet]) take readings that advance.
    Packs: lint finds a cycle exactly when resolving never ends; a resolved chain
    has every pack after its parents; what applying a chain stores.
    Halts: after any sequence of pauses and resumes the halt gate refuses exactly
    the covered runs; burn-through withdraws the workload it says; sweeps are
    debounced.
    Approvals: a decision that returns was taken once, on a pending approval of a
    paused run, and has moved the run; a token resolves one approval once.
    Deletion: a sweep deletes only what an unheld policy of the tenant makes due
    and leaves a verifying audit chain; a purge leaves no row of the tenant in the
    modelled stores and takes none of another's.
    Telling: every destination of an outcome gets one record; preferences alone
    decide what is held or suppressed; an unanswered approval is asked of each
    operator in turn.

    ** Bounds and fuel

    - Kahn's loop runs on fuel [nodes + 1] and reachability on one more than the
      number of nodes; [Graph] proves both enough.
    - [PipelineEngine] keeps the code's own bound of 200 rounds per call.
    - The cron search keeps the code's bound of 366 days of minutes; catch-up
      keeps [4 * max_catch_up].
    - Scanners of templates and handoffs recurse on fuel equal to the length of
      the text, of which every step consumes at least one byte.
    - The percentile rank of certification is stated for at most 1000 tasks,
      where the binary64 product it rounds is exact enough.

    ** Not modelled

    The HTTP API outside the endpoints named above, its wiring beyond what the
    composed files state, the command line, SDK, plugins and user interface,
    configuration, metrics and telemetry: request handling and side outputs
    around the services, with no decision of their own that the services do not
    take again.  PostgreSQL stores other than the leader's: SQL over the same
    operations as the in-memory stores, on a server the model would have to
    invent.  Execution adapters, sandbox containers, MCP, model and tool servers,
    notification transports, federation, blob backends and backups: processes,
    files and network, parameters where a modelled part calls them.  The injection
    scanner's and the PII scrubber's patterns and output shaping: regular
    expressions over fixed tables, parameters too.  Digests, evidence packs,
    exports, run stories, learning and replay: they assemble and render what other
    components keep, or judge it by calls to models. *)

From Stdlib Require Import Ascii String.
From stdpp Require Import base strings gmap sorting list.

(** ** Results and the state/exception monad

    Python code that raises keeps every mutation performed before the [raise];
    a computation therefore returns its outcome together with the final state,
    whether it returned or raised. *)

Inductive outcome (E A : Type) : Type :=
  | Ret (a : A)
  | Raise (e : E).
Arguments Ret {E A} a.
Arguments Raise {E A} e.

Definition outcome_ok {E A} (o : outcome E A) : bool :=
  match o with Ret _ => true | Raise _ => false end.

Definition M (W E A : Type) : Type := W → outcome E A * W.

Section StateExn.
Context {W E : Type}.

Definition ret {A} (a : A) : M W E A := λ w, (Ret a, w).

Definition raise {A} (e : E) : M W E A := λ w, (Raise e, w).

Definition bind {A B} (m : M W E A) (k : A → M W E B) : M W E B :=
  λ w, match m w with
       | (Ret a, w') => k a w'
       | (Raise e, w') => (Raise e, w')
       end.

Definition get : M W E W := λ w, (Ret w, w).

Definition gets {A} (f : W → A) : M W E A := λ w, (Ret (f w), w).

Definition modify (f : W → W) : M W E unit := λ w, (Ret tt, f w).

(** [try: m except Exception: handler]. *)
Definition try_except {A} (m : M W E A) (h : E → M W E A) : M W E A :=
  λ w, match m w with
       | (Ret a, w') => (Ret a, w')
       | (Raise e, w') => h e w'
       end.

(** [with contextlib.suppress(Exception): m]. *)
Definition suppress (m : M W E unit) : M W E unit :=
  try_except m (λ _, ret tt).

Definition when (b : bool) (m : M W E unit) : M W E unit :=
  if b then m else ret tt.

(** Lift a partial result into the monad. *)
Definition of_option {A} (e : E) (o : option A) : M W E A :=
  match o with Some a => ret a | None => raise e end.
End StateExn.

Declare Scope hp_scope.
Delimit Scope hp_scope with hp.
Notation "'let*' x ':=' m 'in' k" := (bind m (λ x, k))
  (at level 10, x name, m at level 100, k at level 200) : hp_scope.
Notation "m ';;;' k" := (bind m (λ _, k))
  (at level 100, k at level 200, right associativity) : hp_scope.

(** *** Relational reasoning about computations

    [keeps R m] says that, whatever [m] does (return or raise), the state after
    is related by [R] to the state before.  For a reflexive and transitive [R]
    it is closed under sequencing, which is how every handler's guarantee is
    derived from its calls' guarantees. *)

Section Keeps.
Context {W E : Type} (R : W → W → Prop) `{!PreOrder R}.

Definition keeps {A} (m : M W E A) : Prop := ∀ w, R w (m w).2.

Lemma keeps_ret {A} (a : A) : keeps (ret a).
Proof. intros w; reflexivity. Qed.

Lemma keeps_raise {A} (e : E) : keeps (raise (A := A) e).
Proof. intros w; reflexivity. Qed.

Lemma keeps_gets {A} (f : W → A) : keeps (gets (E := E) f).
Proof. intros w; reflexivity. Qed.

Lemma keeps_bind {A B} (m : M W E A) (k : A → M W E B) :
  keeps m → (∀ a, keeps (k a)) → keeps (bind m k).
Proof.
  intros Hm Hk w. unfold bind. specialize (Hm w).
  destruct (m w) as [[a|e] w']; simpl in *; [|done].
  etrans; [exact Hm | apply Hk].
Qed.

Lemma keeps_modify (f : W → W) : (∀ w, R w (f w)) → keeps (modify (E := E) f).
Proof. intros Hf w; apply Hf. Qed.

Lemma keeps_try {A} (m : M W E A) (h : E → M W E A) :
  keeps m → (∀ e, keeps (h e)) → keeps (try_except m h).
Proof.
  intros Hm Hh w. unfold try_except. specialize (Hm w).
  destruct (m w) as [[a|e] w']; simpl in *; [done|].
  etrans; [exact Hm | apply Hh].
Qed.

Lemma keeps_suppress (m : M W E unit) : keeps m → keeps (suppress m).
Proof. intros Hm. apply keeps_try; [done|intros; apply keeps_ret]. Qed.

Lemma keeps_when b (m : M W E unit) : keeps m → keeps (when b m).
Proof. destruct b; simpl; [done|intros; apply keeps_ret]. Qed.

Lemma keeps_of_option {A} (e : E) (o : option A) : keeps (of_option e o).
Proof. destruct o; [apply keeps_ret | apply keeps_raise]. Qed.
End Keeps.

Create HintDb keeps discriminated.
#[export] Hint Resolve keeps_ret keeps_raise keeps_gets keeps_bind keeps_try
  keeps_suppress keeps_when keeps_of_option : keeps.

Lemma bind_run {W E A B} (m : M W E A) (k : A → M W E B) w a w' : m w = (Ret a, w') → bind m k w = k a w'.
Proof. unfold bind. by intros ->. Qed.

Lemma bind_raise {W E A B} (m : M W E A) (k : A → M W E B) w e w' : m w = (Raise e, w') → bind m k w = (Raise e, w').
Proof. unfold bind. by intros ->. Qed.

Lemma bind_ext {W E A B} (m : M W E A) (k k' : A → M W E B) w :
  (∀ a w', k a w' = k' a w') → bind m k w = bind m k' w.
Proof. intros H. unfold bind. by destruct (m w) as [[a|e] w']. Qed.

(** A computation that returned took every step on the way. *)
Lemma bind_inv {W E A B} (m : M W E A) (k : A → M W E B) w b w' :
  bind m k w = (Ret b, w') → ∃ a w1, m w = (Ret a, w1) ∧ k a w1 = (Ret b, w').
Proof. unfold bind. destruct (m w) as [[a|e] w1]; [|done]. intros H. by exists a, w1. Qed.

(** ** Insertion-ordered dictionaries

    A Python [dict] iterates in insertion order; overwriting a key keeps its
    position.  [odict] is the association list in iteration order. *)

Abbreviation odict K V := (list (K * V)).

Section Odict.
Context {K V : Type} `{EqDecision K}.
Implicit Types (k : K) (v : V) (d : odict K V).

Definition od_keys d : list K := d.*1.

Definition od_values d : list V := d.*2.

(** [d.get(k)]. *)
Fixpoint od_get k d : option V :=
  match d with
  | [] => None
  | (k', v) :: d' => if decide (k = k') then Some v else od_get k d'
  end.

(** [d[k] = v]. *)
Fixpoint od_set k v d : odict K V :=
  match d with
  | [] => [(k, v)]
  | (k', v') :: d' => if decide (k = k') then (k', v) :: d' else (k', v') :: od_set k v d'
  end.

(** [d.pop(k, None)]. *)
Fixpoint od_del k d : odict K V :=
  match d with
  | [] => []
  | (k', v) :: d' => if decide (k = k') then d' else (k', v) :: od_del k d'
  end.

Definition od_mem k d : bool := match od_get k d with Some _ => true | None => false end.

Definition od_wf d : Prop := NoDup (od_keys d).

Lemma od_get_set_eq k v d : od_get k (od_set k v d) = Some v.
Proof. induction d as [|[k' v'] d IH]; simpl; repeat case_decide; simpl; by repeat case_decide. Qed.

Lemma od_get_set_ne k k' v d : k ≠ k' → od_get k (od_set k' v d) = od_get k d.
Proof.
  intros Hne. induction d as [|[k1 v1] d IH]; simpl; repeat case_decide; simplify_eq; simpl;
    by repeat case_decide.
Qed.

Lemma od_get_set k k' v d :
  od_get k (od_set k' v d) = if decide (k = k') then Some v else od_get k d.
Proof.
  case_decide as Hk; [by rewrite Hk, od_get_set_eq | by apply od_get_set_ne].
Qed.

Lemma od_get_None k d : od_get k d = None ↔ k ∉ od_keys d.
Proof.
  induction d as [|[k1 v1] d IH]; simpl; [set_solver|].
  case_decide; subst; rewrite ?IH; set_solver.
Qed.

Lemma od_get_Some_elem k v d : od_get k d = Some v → (k, v) ∈ d.
Proof.
  induction d as [|[k1 v1] d IH]; simpl; [done|].
  case_decide; intros; simplify_eq; set_solver.
Qed.

Lemma od_elem_get k v d : od_wf d → (k, v) ∈ d → od_get k d = Some v.
Proof.
  unfold od_wf, od_keys. induction d as [|[k1 v1] d IH]; simpl; [set_solver|].
  intros [Hk1 Hd]%NoDup_cons [Heq | Hin]%elem_of_cons.
  - simplify_eq. by case_decide.
  - case_decide as Hk; [subst k1|by apply IH].
    destruct Hk1. apply list_elem_of_fmap. by exists (k, v).
Qed.

Lemma od_keys_set k v d :
  od_keys (od_set k v d) = if od_mem k d then od_keys d else od_keys d ++ [k].
Proof.
  unfold od_mem. induction d as [|[k1 v1] d IH]; simpl; [done|].
  case_decide; simpl; [done|]. rewrite IH. by destruct (od_get k d).
Qed.

Lemma od_set_fresh k v d : od_mem k d = false → od_set k v d = d ++ [(k, v)].
Proof.
  unfold od_mem. induction d as [|[k1 v1] d IH]; simpl; [done|].
  case_decide; [done|]. intros ?. by rewrite IH.
Qed.

Lemma od_set_set k v v' d : od_set k v (od_set k v' d) = od_set k v d.
Proof.
  induction d as [|[k1 v1] d IH]; simpl; [by rewrite decide_True|].
  case_decide as Hk; simpl; rewrite ?IH; [by rewrite decide_True|by rewrite decide_False].
Qed.

Lemma od_wf_set k v d : od_wf d → od_wf (od_set k v d).
Proof.
  unfold od_wf. rewrite od_keys_set. unfold od_mem.
  destruct (od_get k d) eqn:Hk; [done|]. intros Hd.
  apply NoDup_app; split_and!; [done| |apply NoDup_singleton].
  apply od_get_None in Hk. set_solver.
Qed.

Lemma od_keys_del_subseteq k d k' : k' ∈ od_keys (od_del k d) → k' ∈ od_keys d.
Proof.
  induction d as [|[k1 v1] d IH]; simpl; [done|]. case_decide; set_solver.
Qed.

Lemma od_wf_del k d : od_wf d → od_wf (od_del k d).
Proof.
  unfold od_wf. induction d as [|[k1 v1] d IH]; simpl; [done|].
  intros [Hk1 Hd]%NoDup_cons. case_decide; [done|]. simpl. apply NoDup_cons. split; [|auto].
  intros ?%od_keys_del_subseteq. done.
Qed.

Lemma od_get_del_ne k k' d : k ≠ k' → od_get k (od_del k' d) = od_get k d.
Proof.
  intros Hne. induction d as [|[k1 v1] d IH]; simpl; [done|].
  repeat case_decide; simplify_eq; simpl; by repeat case_decide.
Qed.

Lemma od_get_del_eq k d : od_wf d → od_get k (od_del k d) = None.
Proof.
  unfold od_wf. induction d as [|[k1 v1] d IH]; simpl; [done|].
  intros [Hk1 Hd]%NoDup_cons. case_decide as Hk; simpl.
  - subst. by apply od_get_None.
  - rewrite decide_False by done. auto.
Qed.

Lemma od_get_del k k' d :
  od_wf d → od_get k (od_del k' d) = if decide (k = k') then None else od_get k d.
Proof.
  intros Hwf. case_decide as Hk; [by rewrite Hk, od_get_del_eq | by apply od_get_del_ne].
Qed.

Lemma od_mem_spec k d : od_mem k d = true ↔ k ∈ od_keys d.
Proof.
  unfold od_mem. destruct (od_get k d) eqn:Hk.
  - split; [|done]. intros _. destruct (decide (k ∈ od_keys d)) as [|Hn]; [done|].
    apply od_get_None in Hn. congruence.
  - apply od_get_None in Hk. by split.
Qed.

Lemma od_wf_nil : od_wf [].
Proof. apply NoDup_nil_2. Qed.

Lemma od_value_get v d : v ∈ od_values d → od_wf d → ∃ k, od_get k d = Some v.
Proof.
  unfold od_values. intros ([k v'] & ? & Hin)%list_elem_of_fmap Hwf; simplify_eq/=.
  exists k. by apply od_elem_get.
Qed.

Lemma od_get_value k v d : od_get k d = Some v → v ∈ od_values d.
Proof. intros H%od_get_Some_elem. apply list_elem_of_fmap. by exists (k, v). Qed.
End Odict.

Create HintDb odict discriminated.
#[export] Hint Resolve od_wf_nil od_wf_set od_wf_del : odict.

(** ** Selection and sorting as Python's builtins do it *)

Section Selection.
Context {A : Type}.

(** [max(xs, key=f)] / [min(xs, key=f)]: the running best is replaced only by
    a strictly better element, so the first of several best elements wins.
    [better x y] is the strict comparison of the keys. *)
Definition py_best (better : A → A → bool) (l : list A) : option A :=
  match l with
  | [] => None
  | x :: l' => Some (foldl (λ best y, if better y best then y else best) x l')
  end.

(** [sorted(xs, key=f)]: a stable sort; [le x y] compares the keys. *)
Fixpoint py_insert (le : A → A → bool) (x : A) (l : list A) : list A :=
  match l with
  | [] => [x]
  | y :: l' => if le x y then x :: y :: l' else y :: py_insert le x l'
  end.

Definition py_sort (le : A → A → bool) (l : list A) : list A :=
  foldr (py_insert le) [] l.

Lemma py_insert_perm le x l : py_insert le x l ≡ₚ x :: l.
Proof.
  induction l as [|y l IH]; simpl; [done|]. destruct (le x y); [done|].
  rewrite IH. apply Permutation_swap.
Qed.

Lemma py_sort_perm le l : py_sort le l ≡ₚ l.
Proof. induction l as [|x l IH]; simpl; [done|]. by rewrite py_insert_perm, IH. Qed.

Lemma py_best_elem better l x : py_best better l = Some x → x ∈ l.
Proof.
  destruct l as [|y l]; simpl; [done|]. intros Hx; injection Hx as <-.
  revert y. induction l as [|z l IH]; intros y; simpl; [set_solver|].
  destruct (better z y).
  - specialize (IH z). set_solver.
  - specialize (IH y). set_solver.
Qed.

(** The selected element is not beaten by any other one, for a strict order
    whose complement is transitive on the elements satisfying [P]. *)
Lemma py_best_not_beaten (P : A → Prop) better l x :
  (∀ a, P a → better a a = false) →
  (∀ a b c, P a → P b → P c → better a b = false → better b c = false → better a c = false) →
  (∀ a b, P a → P b → better a b = true → better b a = false) →
  Forall P l → py_best better l = Some x → ∀ y, y ∈ l → better y x = false.
Proof.
  intros Hirr Htr Has. destruct l as [|y0 l]; simpl; [done|].
  intros Hall Hx; injection Hx as <-. apply Forall_cons in Hall as [HP0 HPl].
  enough (∀ y0, P y0 → P (foldl (λ b y, if better y b then y else b) y0 l) ∧
    better y0 (foldl (λ b y, if better y b then y else b) y0 l) = false ∧
    ∀ y, y ∈ l → better y (foldl (λ b y, if better y b then y else b) y0 l) = false) as H.
  { destruct (H y0 HP0) as (_ & H1 & H2). intros y [->|Hy]%elem_of_cons; [done | auto]. }
  clear y0 HP0. induction HPl as [|z l HPz HPl IH]; intros y0 HP0; simpl; [split_and!; [done|auto|set_solver]|].
  destruct (better z y0) eqn:Hzy.
  - destruct (IH z HPz) as (G & IH1 & IH2). split_and!; [done|eauto|].
    intros y [->|Hy]%elem_of_cons; auto.
  - destruct (IH y0 HP0) as (G & IH1 & IH2). split_and!; [done|done|].
    intros y [->|Hy]%elem_of_cons; [eauto|auto].
Qed.

Lemma py_best_is_Some better l : l ≠ [] → is_Some (py_best better l).
Proof. destruct l; simpl; [done|eauto]. Qed.

Lemma py_insert_sorted le x l :
  (∀ a b, le a b = true ∨ le b a = true) →
  Sorted (λ a b, le a b = true) l → Sorted (λ a b, le a b = true) (py_insert le x l).
Proof.
  intros Htot. induction 1 as [|y l Hs IH Hd]; simpl; [repeat constructor|].
  destruct (le x y) eqn:Hxy; [repeat constructor; done|].
  assert (le y x = true) as Hyx by (destruct (Htot x y); congruence).
  constructor; [done|].
  destruct l as [|z l]; simpl in *; [by constructor|].
  destruct (le x z); constructor; [done|]. by inversion Hd.
Qed.

Lemma py_sort_sorted le l :
  (∀ a b, le a b = true ∨ le b a = true) → Sorted (λ a b, le a b = true) (py_sort le l).
Proof.
  intros Htot. induction l as [|x l IH]; simpl; [constructor|]. by apply py_insert_sorted.
Qed.

(** Sorting an already sorted list changes nothing (stability). *)
Lemma py_sort_id le l : Sorted (λ a b, le a b = true) l → py_sort le l = l.
Proof.
  induction 1 as [|x l Hs IH Hd]; simpl; [done|]. rewrite IH.
  destruct Hd as [|y l Hy]; simpl; [done|]. by rewrite Hy.
Qed.
End Selection.

(** ** Small shared lemmas *)

Lemma bool_decide_eqb_refl {A} `{EqDecision A} (a : A) : bool_decide (a = a) = true.
Proof. by apply bool_decide_eq_true. Qed.

(** Concatenation of strings computes on its first argument. *)
#[global] Arguments String.append : simpl nomatch.

Lemma string_app_assoc (a b c : string) : ((a +:+ b) +:+ c = a +:+ (b +:+ c))%string.
Proof. induction a as [|x a IH]; simpl; [done|]. by rewrite IH. Qed.

Lemma string_app_inj (a b c : string) : (a +:+ b = a +:+ c)%string → b = c.
Proof. induction a as [|x a IH]; simpl; [done|]. intros [= H]. auto. Qed.

(** Concatenations whose first parts have the same length split uniquely. *)
Lemma string_app_split (a a' b b' : string) :
  String.length a = String.length a' → (a +:+ b = a' +:+ b')%string → a = a' ∧ b = b'.
Proof.
  revert a'. induction a as [|x a IH]; intros [|x' a']; simpl; try done.
  intros [= Hl] [= -> H]. destruct (IH a' Hl H) as [-> ->]. done.
Qed.

(** Last element, as [xs[-1] if xs else default]. *)
Definition last_or {A} (d : A) (l : list A) : A := default d (last l).

Lemma last_or_snoc {A} (d x : A) l : last_or d (l ++ [x]) = x.
Proof. unfold last_or. by rewrite last_snoc. Qed.

Lemma length_filter_le {A} (P : A → Prop) `{∀ x, Decision (P x)} (l : list A) :
  (length (filter P l) ≤ length l)%nat.
Proof.
  induction l as [|x l IH]; simpl; [done|]. rewrite filter_cons. case_decide; simpl; lia.
Qed.

Lemma elem_of_concat {A} (x : A) (ls : list (list A)) : x ∈ concat ls ↔ ∃ l, x ∈ l ∧ l ∈ ls.
Proof.
  induction ls as [|l ls IH]; simpl; [set_solver|]. rewrite elem_of_app, IH. set_solver.
Qed.

Lemma existsb_elem {A} (f : A → bool) l : existsb f l = true ↔ ∃ x, x ∈ l ∧ f x = true.
Proof. rewrite existsb_exists. by setoid_rewrite list_elem_of_In. Qed.

Lemma existsb_none {A} (f : A → bool) l : existsb f l = false ↔ ∀ x, x ∈ l → f x = false.
Proof.
  rewrite <-not_true_iff_false, existsb_elem. split.
  - intros H x Hx. apply not_true_iff_false. intros Hf. apply H. by exists x.
  - intros H (x & Hx & Hf). by rewrite (H x Hx) in Hf.
Qed.

Lemma forallb_elem {A} (f : A → bool) l : forallb f l = true ↔ ∀ x, x ∈ l → f x = true.
Proof. rewrite forallb_forall. by setoid_rewrite list_elem_of_In. Qed.

(** Induction two elements at a time. *)
Lemma list_pair_ind {A} (P : list A → Prop) :
  P [] → (∀ x, P [x]) → (∀ x y l, P l → P (x :: y :: l)) → ∀ l, P l.
Proof.
  intros H0 H1 H2. cut (∀ l, P l ∧ ∀ x, P (x :: l)); [intros H l; apply H|].
  induction l as [|x l [IH1 IH2]]; [by split|]. split; [done|]. intros y. by apply H2.
Qed.

(** ** Tactics of the development *)

(** Decide the boolean tests of a goal produced by an executable definition. *)
Ltac bool_cases :=
  repeat match goal with
  | |- context [if ?b then _ else _] => destruct b eqn:?; simpl; try done
  end.

(** ** Instants

    An aware [datetime] is its distance from the epoch in microseconds. *)

(** The range of [datetime], in microseconds since the epoch. *)
Definition dt_min : Z := (-62135596800 * 1000000)%Z.
Definition dt_max : Z := (253402300800 * 1000000 - 1)%Z.

Definition dt_in_range (t : Z) : bool := (dt_min <=? t)%Z && (t <=? dt_max)%Z.

Definition day_us : Z := (86400 * 1000000)%Z.

(** [weekday()] (0 is Monday), [hour * 60 + minute] and [date()] (days since the
    epoch) of an instant of a UTC calendar; 1 January 1970 was a Thursday. *)
Definition dt_weekday (t : Z) : Z := ((t / day_us + 3) mod 7)%Z.
Definition dt_minutes (t : Z) : Z := (t mod day_us / 60000000)%Z.
Definition dt_date (t : Z) : Z := (t / day_us)%Z.

(** ** [repr] of a string

    Quotes are single unless the text has single quotes only; control
    characters are escaped, the bytes of characters beyond ASCII are copied (as
    [repr] does for printable ones). *)

Definition hex_digit (n : nat) : ascii :=
  nth n (String.list_ascii_of_string "0123456789abcdef") "0"%char.

Definition repr_char (quote c : ascii) : list ascii :=
  let n := nat_of_ascii c in
  if bool_decide (c = quote) || bool_decide (c = "\"%char) then ["\"%char; c]
  else if bool_decide (n = 10%nat) then ["\"%char; "n"%char]
  else if bool_decide (n = 13%nat) then ["\"%char; "r"%char]
  else if bool_decide (n = 9%nat) then ["\"%char; "t"%char]
  else if (n <? 32)%nat || bool_decide (n = 127%nat)
  then ["\"%char; "x"%char; hex_digit (n / 16); hex_digit (n mod 16)]
  else [c].

Definition py_repr (s : string) : string :=
  let l := String.list_ascii_of_string s in
  let quote := if bool_decide ("'"%char ∈ l) && negb (bool_decide ("034"%char ∈ l)) then "034"%char else "'"%char in
  String.string_of_list_ascii (quote :: mbind (repr_char quote) l ++ [quote]).

Example py_repr_ex : py_repr "a'b" = String "034" ("a'b" +:+ String "034" EmptyString).
Proof. vm_compute. reflexivity. Qed.

(** Python compares strings by code point, which is the byte order of their
    UTF-8 encodings. *)
Definition str_leb (a b : string) : bool :=
  match String.compare a b with Gt => false | _ => true end.

(** [filter is None or filter == value]. *)
Definition opt_is {A : Type} `{EqDecision A} (o : option A) (a : A) : bool :=
  match o with Some x => bool_decide (x = a) | None => true end.

