(* ===== verification/Text.v ===== *)
(** * Decimal text

    Integers as Python writes ([str], zero-padded format codes) and reads
    ([int]) them, and the string methods the parsers use.  Strings are their
    UTF-8 bytes; the white space and the digits recognised are ASCII. *)

From Stdlib Require Import Ascii.
From stdpp Require Import base strings pretty numbers list.
From S2P Require Import Prelude.

(** ** Digits *)

(** Decimal digits never contain the separator that follows them. *)
Definition is_digit (c : ascii) : bool :=
  bool_decide (48 ≤ N_of_ascii c)%N && bool_decide (N_of_ascii c ≤ 57)%N.

Fixpoint all_chars (p : ascii → bool) (s : string) : bool :=
  match s with EmptyString => true | String c s' => p c && all_chars p s' end.

Abbreviation all_digits := (all_chars is_digit).

Definition not_char (sep c : ascii) : bool := negb (bool_decide (c = sep)).

(** Texts without a separator, followed by one, are determined by the whole. *)
Lemma chars_cancel p a1 a2 c1 c2 r1 r2 :
  all_chars p a1 = true → all_chars p a2 = true → p c1 = false → p c2 = false →
  a1 +:+ String c1 r1 = a2 +:+ String c2 r2 → a1 = a2 ∧ r1 = r2.
Proof.
  revert a2. induction a1 as [|x a1 IH]; intros [|y a2]; simpl; intros H1 H2 Hc1 Hc2 Heq;
    simplify_eq; try done.
  - by rewrite Hc1 in H2.
  - by rewrite Hc2 in H1.
  - apply andb_true_iff in H1 as [_ H1], H2 as [_ H2].
    destruct (IH a2) as [-> ->]; done.
Qed.

Lemma all_chars_app p a b : all_chars p (a +:+ b) = all_chars p a && all_chars p b.
Proof. induction a as [|c a IH]; simpl; [done|]. by rewrite IH, andb_assoc. Qed.

(** The same, from the right. *)
Lemma chars_cancel_r p a1 a2 c r1 r2 :
  all_chars p r1 = true → all_chars p r2 = true → p c = false →
  a1 +:+ String c r1 = a2 +:+ String c r2 → a1 = a2 ∧ r1 = r2.
Proof.
  revert a2. induction a1 as [|x a1 IH]; intros [|y a2]; simpl; intros H1 H2 Hc Heq; simplify_eq; try done.
  - rewrite all_chars_app in H1. simpl in H1. by rewrite Hc, andb_false_r in H1.
  - rewrite all_chars_app in H2. simpl in H2. by rewrite Hc, andb_false_r in H2.
  - destruct (IH a2) as [-> ->]; done.
Qed.

Lemma all_chars_mono p q s : (∀ c, p c = true → q c = true) → all_chars p s = true → all_chars q s = true.
Proof.
  intros Hpq. induction s as [|c s IH]; simpl; [done|]. intros [Hc Hs]%andb_true_iff.
  rewrite (Hpq c Hc). auto.
Qed.

Definition digits_cancel := chars_cancel is_digit.

Lemma pretty_N_go_digits x s : all_digits s = true → all_digits (pretty_N_go x s) = true.
Proof.
  revert s. induction (N.lt_wf_0 x) as [x _ IH]; intros s Hs.
  destruct (decide (0 < x)%N) as [Hx|Hx].
  - rewrite pretty_N_go_step by done. apply IH; [apply N.div_lt; lia|].
    simpl. rewrite Hs, andb_true_r.
    assert (x `mod` 10 < 10)%N as Hlt by (apply N.mod_lt; lia).
    unfold pretty_N_char.
    destruct (x `mod` 10)%N as [|p]; [done|].
    do 4 (destruct p as [p|p|]; try done; try lia).
  - assert (x = 0)%N as -> by lia. by rewrite pretty_N_go_0.
Qed.

Lemma pretty_N_digits (n : N) : all_digits (pretty n) = true.
Proof. unfold pretty, pretty_N. case_decide; [done|]. by apply pretty_N_go_digits. Qed.

Definition digit_value (c : ascii) : N := (N_of_ascii c - 48)%N.

(** The value of a digit string read after [acc]. *)
Fixpoint undec (acc : N) (s : string) : N :=
  match s with EmptyString => acc | String c s' => undec (10 * acc + digit_value c) s' end.

Lemma digit_value_char x : (x < 10)%N → digit_value (pretty_N_char x) = x.
Proof. destruct x as [|p]; [done|]. do 4 (destruct p as [p|p|]; try done; try lia). Qed.

Lemma undec_pretty_go x s : undec 0 (pretty_N_go x s) = undec x s.
Proof.
  revert s. induction (N.lt_wf_0 x) as [x _ IH]; intros s. destruct (decide (0 < x)%N) as [Hx|Hx].
  - rewrite pretty_N_go_step by done. rewrite IH by (apply N.div_lt; lia). simpl.
    rewrite digit_value_char by (apply N.mod_lt; lia). f_equal. pose proof (N.div_mod x 10). lia.
  - assert (x = 0)%N as -> by lia. by rewrite pretty_N_go_0.
Qed.

Lemma undec_pretty (n : N) : undec 0 (pretty n) = n.
Proof. unfold pretty, pretty_N. case_decide; [by subst|]. by rewrite undec_pretty_go. Qed.

(** ** Zero-padded numbers: [f"{z:0wd}"] of a number that is not negative *)

Fixpoint zeros (n : nat) : string := match n with O => EmptyString | S n => String "0" (zeros n) end.

Definition zpad (width : nat) (z : Z) : string :=
  let s := pretty (Z.to_N z) in zeros (width - String.length s) +:+ s.

Lemma undec_zeros n s : undec 0 (zeros n +:+ s) = undec 0 s.
Proof. induction n as [|n IH]; [done|]. exact IH. Qed.

Lemma zpad_digits w z : all_digits (zpad w z) = true.
Proof.
  unfold zpad. rewrite all_chars_app, pretty_N_digits, andb_true_r. generalize (w - String.length (pretty (Z.to_N z))).
  intros n. by induction n.
Qed.

Lemma zpad_inj w z z' : (0 ≤ z)%Z → (0 ≤ z')%Z → zpad w z = zpad w z' → z = z'.
Proof.
  unfold zpad. intros Hz Hz' H. apply (f_equal (undec 0)) in H. rewrite !undec_zeros, !undec_pretty in H. lia.
Qed.

(** ** String methods *)

(** [s.split(sep)] for a one-character separator. *)
Fixpoint split_on (sep : ascii) (s : string) : list string :=
  match s with
  | EmptyString => [EmptyString]
  | String c s' =>
      if bool_decide (c = sep) then EmptyString :: split_on sep s'
      else match split_on sep s' with
           | w :: ws => String c w :: ws
           | [] => [String c EmptyString]
           end
  end.

Definition blank (c : ascii) : bool :=
  let n := nat_of_ascii c in ((9 <=? n) && (n <=? 13) || (28 <=? n) && (n <=? 32))%nat.

Fixpoint lstrip (l : list ascii) : list ascii :=
  match l with c :: l' => if blank c then lstrip l' else l | [] => [] end.

(** [s.strip()] *)
Definition strip (s : string) : string :=
  String.string_of_list_ascii (rev (lstrip (rev (lstrip (String.list_ascii_of_string s))))).

(** [s.split()]: the words between runs of white space. *)
Fixpoint words_of (word : list ascii) (l : list ascii) : list string :=
  let flush ws := match word with [] => ws | _ => String.string_of_list_ascii (rev word) :: ws end in
  match l with
  | [] => flush []
  | c :: l' => if blank c then flush (words_of [] l') else words_of (c :: word) l'
  end.

Definition split_words (s : string) : list string := words_of [] (String.list_ascii_of_string s).

(** [s.partition(sep)] for a one-character separator: the parts before and
    after its first occurrence; [None] when there is none. *)
Fixpoint partition_on (sep : ascii) (s : string) : option (string * string) :=
  match s with
  | EmptyString => None
  | String c s' =>
      if bool_decide (c = sep) then Some (EmptyString, s')
      else match partition_on sep s' with Some (a, b) => Some (String c a, b) | None => None end
  end.

(** [len(s)] of a text held as UTF-8: the bytes that start a character. *)
Definition starts_char (c : ascii) : bool := let n := nat_of_ascii c in ((n <? 128) || (192 <=? n))%nat.

Fixpoint chars (s : string) : nat :=
  match s with
  | EmptyString => O
  | String c s' => if starts_char c then S (chars s') else chars s'
  end.

(** A string field with [min_length] and [max_length]. *)
Definition between (lo hi : nat) (s : string) : bool := (lo <=? chars s)%nat && (chars s <=? hi)%nat.

Definition opt_between (lo hi : nat) (o : option string) : bool := from_option (between lo hi) true o.

Lemma chars_app a b : chars (a +:+ b) = (chars a + chars b)%nat.
Proof. induction a as [|c a IH]; [done|]. cbn [String.app chars]. destruct (starts_char c); simpl; by rewrite IH. Qed.

(** [sub in s] *)
Fixpoint contains (sub s : string) : bool :=
  String.prefix sub s || match s with EmptyString => false | String _ s' => contains sub s' end.

(** [s.split(sep, 1)[-1]] *)
Definition after_first (sep : ascii) (s : string) : string :=
  match partition_on sep s with Some (_, rest) => rest | None => s end.

(** [s.isdigit()] *)
Definition isdigit (s : string) : bool := bool_decide (s ≠ EmptyString) && all_digits s.

(** The digits of an integer literal: groups separated by single underscores. *)
Definition digit_groups (s : string) : option Z :=
  let groups := split_on "_"%char s in
  if forallb isdigit groups then Some (Z.of_N (undec 0 (String.concat EmptyString groups))) else None.

(** [int(s)]; [None] is a [ValueError]. *)
Definition py_int (s : string) : option Z :=
  match strip s with
  | String "-" s' => Z.opp <$> digit_groups s'
  | String "+" s' => digit_groups s'
  | s' => digit_groups s'
  end.

Example py_int_ex : py_int " -1_0 " = Some (-10)%Z ∧ py_int "1__0" = None ∧ py_int EmptyString = None.
Proof. vm_compute. done. Qed.

Example split_words_ex : split_words " a  bc d" = ["a"; "bc"; "d"].
Proof. vm_compute. done. Qed.

Lemma split_on_digits sep s : is_digit sep = false → all_digits s = true → split_on sep s = [s].
Proof.
  intros Hsep. induction s as [|c s IH]; simpl; [done|]. intros [Hc Hs]%andb_true_iff.
  rewrite IH by done. case_bool_decide; [by subst; rewrite Hsep in Hc|done].
Qed.
