(* ===== verification/Float64.v ===== *)
(** * Python floats

    CPython's [float] is IEEE-754 binary64 with round-to-nearest-even.  The
    arithmetic here is the executable specification of that format in the
    Standard Library ([SpecFloat], precision 53, maximal exponent 1024), so
    costs, rates and scores are rounded in the model exactly as they are in
    the program. *)

From Stdlib Require Import ZArith SpecFloat.
From S2P Require Import Prelude.
From stdpp Require Import base list numbers.

Abbreviation f64 := spec_float.

Definition f64_add : f64 → f64 → f64 := SFadd 53 1024.
Definition f64_sub : f64 → f64 → f64 := SFsub 53 1024.
Definition f64_mul : f64 → f64 → f64 := SFmul 53 1024.
Definition f64_div : f64 → f64 → f64 := SFdiv 53 1024.
Definition f64_opp : f64 → f64 := SFopp.
Definition f64_abs : f64 → f64 := SFabs.
Definition f64_eqb : f64 → f64 → bool := SFeqb.
Definition f64_ltb : f64 → f64 → bool := SFltb.
Definition f64_leb : f64 → f64 → bool := SFleb.

Definition f64_zero : f64 := S754_zero false.
Definition f64_inf : f64 := S754_infinity false.

(** [float(z)] for an integer. *)
Definition f64_of_Z (z : Z) : f64 := binary_normalize 53 1024 z 0 false.

(** [a / b] for two integers: the exact quotient, rounded once ([b > 0]). *)
Definition int_truediv (a b : Z) : f64 :=
  match a, b with
  | Zpos m, Zpos n =>
      let '(mz, ez, lz) := SFdiv_core_binary 53 1024 (Zpos m) 0 (Zpos n) 0 in
      binary_round_aux 53 1024 false mz ez lz
  | Zneg m, Zpos n =>
      let '(mz, ez, lz) := SFdiv_core_binary 53 1024 (Zpos m) 0 (Zpos n) 0 in
      binary_round_aux 53 1024 true mz ez lz
  | _, _ => f64_zero
  end.

(** A decimal literal of the source, [n / d] rounded to nearest. *)
Definition f64_lit (n d : Z) : f64 := int_truediv n d.

Definition f64_is_nan (x : f64) : bool := match x with S754_nan => true | _ => false end.

Definition f64_is_finite (x : f64) : bool :=
  match x with S754_zero _ | S754_finite _ _ _ => true | _ => false end.

(** [max(a, b)] and [min(a, b)] of two floats: the first argument wins ties. *)
Definition f64_max (a b : f64) : f64 := if f64_ltb a b then b else a.
Definition f64_min (a b : f64) : f64 := if f64_ltb b a then b else a.

(** [sum(xs)] over floats.  Since Python 3.12 (the version the project
    requires) the builtin carries a Neumaier compensation term, added at the
    end when it is non-zero and finite.  The accumulation starts from the
    integer 0, so the first float is added to 0 without compensation. *)
Definition f64_sum_step (acc : f64 * f64) (x : f64) : f64 * f64 :=
  let '(s, c) := acc in
  let t := f64_add s x in
  let c' := if f64_leb (f64_abs x) (f64_abs s)
            then f64_add c (f64_add (f64_sub s t) x)
            else f64_add c (f64_add (f64_sub x t) s) in
  (t, c').

Definition f64_sum (xs : list f64) : f64 :=
  match xs with
  | [] => f64_zero
  | x :: xs' =>
      let '(s, c) := foldl f64_sum_step (f64_add f64_zero x, f64_zero) xs' in
      if negb (f64_eqb c f64_zero) && f64_is_finite c then f64_add s c else s
  end.

(** [int(x)] truncates towards zero; [None] for infinities and NaN, where
    Python raises. *)
Definition f64_trunc (x : f64) : option Z :=
  match x with
  | S754_zero _ => Some 0%Z
  | S754_finite s m e =>
      let a := if (0 <=? e)%Z then (Zpos m * 2 ^ e)%Z else (Zpos m / 2 ^ (- e))%Z in
      Some (if s then (- a)%Z else a)
  | _ => None
  end.

(** [x <= z] for a float and an integer: Python compares them exactly. *)
Definition f64_leb_Z (x : f64) (z : Z) : bool :=
  match x with
  | S754_zero _ => (0 <=? z)%Z
  | S754_infinity s => s
  | S754_nan => false
  | S754_finite s m e =>
      let v := if s then Zneg m else Zpos m in
      if (0 <=? e)%Z then (v * 2 ^ e <=? z)%Z else (v <=? z * 2 ^ (- e))%Z
  end.

#[global] Arguments f64_of_Z : simpl never.
#[global] Arguments int_truediv : simpl never.
#[global] Arguments f64_lit : simpl never.
#[global] Arguments f64_add : simpl never.
#[global] Arguments f64_sub : simpl never.
#[global] Arguments f64_mul : simpl never.
#[global] Arguments f64_div : simpl never.

(** ** Order facts: away from NaN, the float comparisons are a total preorder. *)

Lemma SFcompare_antisym x y : SFcompare y x = option_map CompOpp (SFcompare x y).
Proof.
  destruct x as [[]|[]| |[] m e], y as [[]|[]| |[] m' e']; simpl; try done;
    rewrite (Z.compare_antisym e e'); destruct (Z.compare e e'); simpl; try done;
    rewrite (Pos.compare_antisym m m' : Pos.compare_cont Eq m' m = CompOpp (Pos.compare_cont Eq m m'));
    by rewrite ?CompOpp_involutive.
Qed.

Lemma SFcompare_is_Some x y :
  f64_is_nan x = false → f64_is_nan y = false → is_Some (SFcompare x y).
Proof.
  destruct x as [[]|[]| |[] m e], y as [[]|[]| |[] m' e']; simpl; try done; eauto;
    destruct (Z.compare e e'); eauto.
Qed.

Lemma f64_leb_negb_ltb x y :
  f64_is_nan x = false → f64_is_nan y = false → f64_leb x y = negb (f64_ltb y x).
Proof.
  intros Hx Hy. destruct (SFcompare_is_Some x y Hx Hy) as [c Hc].
  unfold f64_leb, f64_ltb, SFleb, SFltb. rewrite (SFcompare_antisym x y), Hc. by destruct c.
Qed.

Lemma f64_ltb_irrefl x : f64_ltb x x = false.
Proof.
  unfold f64_ltb, SFltb. destruct x as [[]|[]| |[] m e]; simpl; try done;
    rewrite Z.compare_refl, Pos.compare_cont_refl; done.
Qed.

Lemma f64_ltb_asym x y : f64_ltb x y = true → f64_ltb y x = false.
Proof.
  unfold f64_ltb, SFltb. rewrite (SFcompare_antisym x y). destruct (SFcompare x y) as [[]|]; done.
Qed.

Lemma f64_eqb_sym x y : f64_eqb x y = f64_eqb y x.
Proof.
  unfold f64_eqb, SFeqb. rewrite (SFcompare_antisym x y). by destruct (SFcompare x y) as [[]|].
Qed.

Lemma f64_ltb_not_eqb x y : f64_ltb x y = true → f64_eqb x y = false.
Proof. unfold f64_ltb, f64_eqb, SFltb, SFeqb. by destruct (SFcompare x y) as [[]|]. Qed.

Lemma f64_ltb_leb x y : f64_ltb x y = true → f64_leb x y = true.
Proof. unfold f64_ltb, f64_leb, SFltb, SFleb. by destruct (SFcompare x y) as [[]|]. Qed.

Lemma f64_leb_not_gt x y : f64_leb x y = true → f64_ltb y x = false.
Proof.
  unfold f64_leb, f64_ltb, SFleb, SFltb. rewrite (SFcompare_antisym x y). by destruct (SFcompare x y) as [[]|].
Qed.

Lemma f64_leb_trans x y z : f64_leb x y = true → f64_leb y z = true → f64_leb x z = true.
Proof.
  unfold f64_leb, SFleb.
  destruct x as [[]|[]| |[] m e], y as [[]|[]| |[] m' e'], z as [[]|[]| |[] m'' e'']; simpl; try done;
    change (Pos.compare_cont Eq) with Pos.compare;
    destruct (Z.compare_spec e e'), (Z.compare_spec e' e''), (Z.compare_spec e e'');
    try done; try lia; subst;
    destruct (Pos.compare_spec m m'), (Pos.compare_spec m' m''), (Pos.compare_spec m m'');
    simpl; try done; try lia.
Qed.

(** Negative transitivity of [<] on numbers that are not NaN. *)
Lemma f64_ltb_negtrans x y z :
  f64_is_nan x = false → f64_is_nan y = false → f64_is_nan z = false →
  f64_ltb x y = false → f64_ltb y z = false → f64_ltb x z = false.
Proof.
  intros Hx Hy Hz H1 H2. apply negb_true_iff. rewrite <-f64_leb_negb_ltb by done.
  apply f64_leb_trans with y; by rewrite f64_leb_negb_ltb, ?H1, ?H2 by done.
Qed.

(** ** Signs: a sum of numbers that are not negative is not negative. *)

Definition not_negative (x : f64) : bool := negb (f64_ltb x f64_zero).

Lemma binary_round_aux_not_negative m e l : not_negative (binary_round_aux 53 1024 false m e l) = true.
Proof.
  unfold binary_round_aux. destruct (shr_fexp 53 1024 m e l) as [mrs e'].
  destruct (shr_fexp 53 1024 _ e' loc_Exact) as [mrs' e''].
  destruct (shr_m mrs'); [done| |done]. by destruct (Z.leb e'' _).
Qed.

Lemma binary_round_not_negative m e : not_negative (binary_round 53 1024 false m e) = true.
Proof.
  unfold binary_round. destruct (shl_align m e _) as [mz ez]. apply binary_round_aux_not_negative.
Qed.

Lemma f64_add_not_negative x y : not_negative x = true → not_negative y = true → not_negative (f64_add x y) = true.
Proof.
  destruct x as [[]|[]| |[] m e], y as [[]|[]| |[] m' e']; try done.
  intros _ _. unfold f64_add. simpl. apply binary_round_not_negative.
Qed.

Lemma f64_max_not_negative x : not_negative (f64_max f64_zero x) = true.
Proof.
  unfold f64_max, not_negative. destruct (f64_ltb f64_zero x) eqn:H; [|done]. by rewrite (f64_ltb_asym _ _ H).
Qed.

Example f64_sum_ex : f64_sum (replicate 10 (f64_lit 1 10)) = f64_lit 1 1.
Proof. vm_compute. reflexivity. Qed.

Example f64_add_not_exact : f64_add (f64_lit 1 10) (f64_lit 2 10) ≠ f64_lit 3 10.
Proof. vm_compute. discriminate. Qed.
