(* ===== verification/Calendar.v ===== *)
(** * The proleptic Gregorian calendar of Python's [datetime]

    Dates are days since the epoch (as [dt_date] of [Prelude]), wall-clock
    times microseconds since the epoch on the clock they are read from.  The
    components use the conversions between a date and its year, month and day,
    the week day, and the ISO week.  They are total on [Z]; the range
    [date.min .. date.max] is tested where the code can leave it. *)

From stdpp Require Import base numbers sets list.
From S2P Require Import Prelude.
Open Scope Z_scope.

(** [date.min] and [date.max]. *)
Definition date_min : Z := -719162.
Definition date_max : Z := 2932896.

Definition date_in_range (d : Z) : bool := (date_min <=? d) && (d <=? date_max).

(** [date + timedelta(days=n)]; [None] is an [OverflowError]. *)
Definition date_add (d n : Z) : option Z := if date_in_range (d + n) then Some (d + n) else None.

Definition is_leap (y : Z) : bool := (y mod 4 =? 0) && (negb (y mod 100 =? 0) || (y mod 400 =? 0)).

Definition days_before_year (y : Z) : Z := 365 * (y - 1) + (y - 1) / 4 - (y - 1) / 100 + (y - 1) / 400.

Definition days_before_month (leap : bool) (m : Z) : Z :=
  (match m with
   | 1 => 0 | 2 => 31 | 3 => 59 | 4 => 90 | 5 => 120 | 6 => 151
   | 7 => 181 | 8 => 212 | 9 => 243 | 10 => 273 | 11 => 304 | 12 => 334 | _ => 365
   end) + (if (2 <? m) && leap then 1 else 0).

Definition days_in_month (leap : bool) (m : Z) : Z := days_before_month leap (m + 1) - days_before_month leap m.

(** [date(y, m, d)], as days since the epoch. *)
Definition of_civil (y m d : Z) : Z := days_before_year y + days_before_month (is_leap y) m + d - 719163.

Definition months : list Z := [1; 2; 3; 4; 5; 6; 7; 8; 9; 10; 11].

(** The month of the [n]-th day of a year, counted from 0. *)
Definition month_of (leap : bool) (n : Z) : Z :=
  default 12 (List.find (λ m, n <? days_before_month leap (m + 1)) months).

(** The year of an ordinal and the day of that year, both counted as
    [datetime] does: whole cycles of 400, 100, 4 years and 1 year. *)
Definition year_day (d : Z) : Z * Z :=
  let n := d + 719162 in
  let n400 := n / 146097 in let n := n mod 146097 in
  let n100 := n / 36524 in let n := n mod 36524 in
  let n4 := n / 1461 in let n := n mod 1461 in
  let n1 := n / 365 in
  let year := n400 * 400 + n100 * 100 + n4 * 4 + n1 in
  if (n1 =? 4) || (n100 =? 4) then (year, 365) else (year + 1, n mod 365).

Definition civil (d : Z) : Z * Z * Z :=
  let '(y, n) := year_day d in
  let m := month_of (is_leap y) n in
  (y, m, n - days_before_month (is_leap y) m + 1).

Definition year (d : Z) : Z := (civil d).1.1.
Definition month (d : Z) : Z := (civil d).1.2.
Definition day (d : Z) : Z := (civil d).2.

(** [weekday()]: 0 is Monday. *)
Definition weekday (d : Z) : Z := (d + 3) mod 7.

(** [isocalendar()]: year and week of the date's Thursday. *)
Definition iso_year_week (d : Z) : Z * Z :=
  let '(y, n) := year_day (d - weekday d + 3) in (y, n / 7 + 1).

#[global] Arguments of_civil : simpl never.
#[global] Arguments year_day : simpl never.

(** ** Correctness *)

(** Evaluate the table of month lengths at constants. *)
Ltac month_table :=
  repeat match goal with
  | |- context [days_before_month ?l ?k] =>
      let v := eval vm_compute in (days_before_month l k) in change (days_before_month l k) with v
  | H : context [days_before_month ?l ?k] |- _ =>
      let v := eval vm_compute in (days_before_month l k) in change (days_before_month l k) with v in H
  end.

Ltac divs := Z.to_euclidean_division_equations; lia.

Lemma is_leap_spec y : is_leap y = true ↔ y mod 4 = 0 ∧ (y mod 100 ≠ 0 ∨ y mod 400 = 0).
Proof. unfold is_leap. rewrite andb_true_iff, orb_true_iff, negb_true_iff, !Z.eqb_eq, Z.eqb_neq. done. Qed.

Lemma days_before_year_succ y : days_before_year (y + 1) = days_before_year y + 365 + (if is_leap y then 1 else 0).
Proof.
  unfold days_before_year. destruct (is_leap y) eqn:H.
  - apply is_leap_spec in H. divs.
  - apply not_true_iff_false in H. rewrite is_leap_spec in H. divs.
Qed.

Lemma days_before_year_mono y y' : y < y' → days_before_year y + 365 + (if is_leap y then 1 else 0) ≤ days_before_year y'.
Proof.
  intros H. rewrite <-days_before_year_succ. assert (y + 1 ≤ y') as Hle by divs. clear H. revert Hle.
  generalize (y + 1) as x. intros x Hle. unfold days_before_year.
  assert (∀ z, z / 100 = z / 4 / 25) as E by (intros; by rewrite Z.div_div).
  rewrite !E. assert ((x - 1) / 4 ≤ (y' - 1) / 4) by divs. assert ((x - 1) / 400 ≤ (y' - 1) / 400) by divs. divs.
Qed.

Lemma div_split n k : 0 < k → ∃ q r, n / k = q ∧ n mod k = r ∧ n = k * q + r ∧ 0 ≤ r < k.
Proof. intros Hk. exists (n / k), (n mod k). split_and!; try done; divs. Qed.

Lemma leap_cycle a b c e : 0 ≤ b ≤ 3 → 0 ≤ c ≤ 24 → 0 ≤ e ≤ 3 →
  let y := a * 400 + b * 100 + c * 4 + e in
  y / 4 = a * 100 + b * 25 + c ∧ y / 100 = a * 4 + b ∧ y / 400 = a.
Proof. intros. split_and!; subst y; divs. Qed.

Lemma year_day_spec d y n :
  year_day d = (y, n) → 0 ≤ n < 365 + (if is_leap y then 1 else 0) ∧ days_before_year y + n + 1 - 719163 = d.
Proof.
  unfold year_day.
  destruct (div_split (d + 719162) 146097) as (a & r & -> & -> & Hd & Hr); [lia|].
  destruct (div_split r 36524) as (b & s & -> & -> & Hb & Hs); [lia|].
  destruct (div_split s 1461) as (c & t & -> & -> & Hc & Ht); [lia|].
  destruct (div_split t 365) as (e & u & -> & Hu' & He & Hu); [lia|].
  assert (0 ≤ b ≤ 4 ∧ (b = 4 → s = 0)) as [Hb1 Hb4] by lia.
  assert (0 ≤ c ≤ 24 ∧ (c = 24 → t < 1460)) as [Hc1 Hc24] by lia.
  assert (0 ≤ e ≤ 4 ∧ (e = 4 → u = 0)) as [He1 He4] by lia.
  destruct ((e =? 4) || (b =? 4)) eqn:Hcase; intros [= <- <-].
  - assert (c = 0 ∧ e = 0 ∧ b = 4 ∨ e = 4 ∧ c ≠ 24 ∧ b ≤ 3) as Hcs.
    { apply orb_true_iff in Hcase as [H|H]; apply Z.eqb_eq in H; lia. }
    assert (is_leap (a * 400 + b * 100 + c * 4 + e) = true) as Hl by (apply is_leap_spec; divs).
    rewrite Hl. split; [lia|]. unfold days_before_year.
    destruct Hcs as [(-> & -> & ->)|(-> & ? & ?)]; divs.
  - apply orb_false_iff in Hcase as [H1%Z.eqb_neq H2%Z.eqb_neq].
    split; [destruct (is_leap _); lia|]. unfold days_before_year.
    destruct (leap_cycle a b c e) as (E1 & E2 & E3); [lia..|].
    replace (a * 400 + b * 100 + c * 4 + e + 1 - 1) with (a * 400 + b * 100 + c * 4 + e) by lia.
    rewrite E1, E2, E3. lia.
Qed.

Lemma month_of_spec (leap : bool) n :
  0 ≤ n < 365 + (if leap then 1 else 0) →
  1 ≤ month_of leap n ≤ 12 ∧ days_before_month leap (month_of leap n) ≤ n < days_before_month leap (month_of leap n + 1).
Proof.
  intros Hn. unfold month_of, months.
  destruct leap; simpl; repeat match goal with |- context [n <? ?k] => destruct (Z.ltb_spec n k); simpl end; month_table; lia.
Qed.

Lemma days_before_month_mono (leap : bool) m m' :
  1 ≤ m → m < m' → m' ≤ 13 → days_before_month leap (m + 1) ≤ days_before_month leap m'.
Proof.
  intros. assert (forallb (λ m, forallb (λ m', (m' <=? m) || (days_before_month leap (m + 1) <=? days_before_month leap m'))
    (seqZ 1 13)) (seqZ 1 12) = true) as H' by (destruct leap; vm_compute; reflexivity).
  rewrite forallb_elem in H'. specialize (H' m ltac:(apply elem_of_seqZ; lia)).
  rewrite forallb_elem in H'. specialize (H' m' ltac:(apply elem_of_seqZ; lia)). lia.
Qed.

Lemma days_before_month_range (leap : bool) m :
  1 ≤ m ≤ 12 → 0 ≤ days_before_month leap m ∧ days_before_month leap (m + 1) ≤ 365 + (if leap then 1 else 0).
Proof.
  intros. assert (forallb (λ m, (0 <=? days_before_month leap m) &&
    (days_before_month leap (m + 1) <=? 365 + (if leap then 1 else 0))) (seqZ 1 12) = true) as H'
    by (destruct leap; vm_compute; reflexivity).
  rewrite forallb_elem in H'. specialize (H' m ltac:(apply elem_of_seqZ; lia)). lia.
Qed.

Lemma civil_spec d y m dd :
  civil d = (y, m, dd) → 1 ≤ m ≤ 12 ∧ 1 ≤ dd ≤ days_in_month (is_leap y) m ∧ of_civil y m dd = d.
Proof.
  unfold civil. destruct (year_day d) as [y' n] eqn:H. apply year_day_spec in H as [Hn Hd]. intros [= <- <- <-].
  destruct (month_of_spec (is_leap y') n Hn) as [Hm Hb]. unfold days_in_month, of_civil. lia.
Qed.

(** A valid year, month and day are read back from their date. *)
Lemma of_civil_inj y m d y' m' d' :
  1 ≤ m ≤ 12 → 1 ≤ d ≤ days_in_month (is_leap y) m → 1 ≤ m' ≤ 12 → 1 ≤ d' ≤ days_in_month (is_leap y') m' →
  of_civil y m d = of_civil y' m' d' → y = y' ∧ m = m' ∧ d = d'.
Proof.
  unfold of_civil, days_in_month. intros Hm Hd Hm' Hd' E.
  pose proof (days_before_month_range (is_leap y) m Hm). pose proof (days_before_month_range (is_leap y') m' Hm').
  destruct (Z.lt_trichotomy y y') as [Hy|[<-|Hy]].
  - pose proof (days_before_year_mono y y' Hy). lia.
  - destruct (Z.lt_trichotomy m m') as [Hlt|[<-|Hlt]]; [|lia|].
    + pose proof (days_before_month_mono (is_leap y) m m' ltac:(lia) Hlt ltac:(lia)). lia.
    + pose proof (days_before_month_mono (is_leap y) m' m ltac:(lia) Hlt ltac:(lia)). lia.
  - pose proof (days_before_year_mono y' y Hy). lia.
Qed.

Lemma civil_of_civil y m d : 1 ≤ m ≤ 12 → 1 ≤ d ≤ days_in_month (is_leap y) m → civil (of_civil y m d) = (y, m, d).
Proof.
  intros Hm Hd. destruct (civil (of_civil y m d)) as [[y' m'] d'] eqn:H.
  apply civil_spec in H as (Hm' & Hd' & E). apply of_civil_inj in E as (-> & -> & ->); done.
Qed.

Lemma days_in_month_bounds (leap : bool) m : 1 ≤ m ≤ 12 → 28 ≤ days_in_month leap m ≤ 31.
Proof.
  intros. assert (forallb (λ m, (28 <=? days_in_month leap m) && (days_in_month leap m <=? 31)) (seqZ 1 12) = true) as H'
    by (destruct leap; vm_compute; reflexivity).
  rewrite forallb_elem in H'. specialize (H' m ltac:(apply elem_of_seqZ; lia)). lia.
Qed.

(** ** Months *)

(** [d.replace(day=k)], for a day every month has. *)
Definition replace_day (d k : Z) : Z := of_civil (year d) (month d) k.

(** [(start.replace(day=28) + timedelta(days=4)).replace(day=1)]; [None] is an
    [OverflowError]. *)
Definition next_month (d : Z) : option Z := (λ e, replace_day e 1) <$> date_add (replace_day d 28) 4.

Lemma of_civil_next y m :
  1 ≤ m ≤ 12 →
  let '(y', m') := if m =? 12 then (y + 1, 1) else (y, m + 1) in
  of_civil y m 1 + days_in_month (is_leap y) m = of_civil y' m' 1.
Proof.
  intros Hm. unfold of_civil, days_in_month. destruct (Z.eqb_spec m 12) as [->|Hne]; [|lia].
  rewrite days_before_year_succ. destruct (is_leap y), (is_leap (y + 1)); month_table; lia.
Qed.

(** Four days after the 28th is the next month. *)
Lemma next_month_start d s :
  next_month d = Some s → s = replace_day d 1 + days_in_month (is_leap (year d)) (month d) ∧ day s = 1.
Proof.
  unfold next_month, date_add. destruct (date_in_range _); [|done]. intros H. apply (inj Some) in H. subst s.
  unfold replace_day, year, month, day.
  destruct (civil d) as [[y m] dd] eqn:Hc. apply civil_spec in Hc as (Hm & _ & _). cbn [fst snd].
  pose proof (days_in_month_bounds (is_leap y) m Hm) as Hb. pose proof (of_civil_next y m Hm) as Hn.
  destruct (if m =? 12 then _ else _) as [y' m'] eqn:Hy'.
  assert (1 ≤ m' ≤ 12) as Hm' by (clear Hn Hb; destruct (Z.eqb_spec m 12); injection Hy' as <- <-; lia).
  pose proof (days_in_month_bounds (is_leap y') m' Hm') as Hb'.
  assert (of_civil y m 28 + 4 = of_civil y' m' (32 - days_in_month (is_leap y) m)) as ->
    by (unfold of_civil in *; lia).
  rewrite civil_of_civil by lia. cbn [fst snd]. rewrite civil_of_civil by lia. split; [lia|done].
Qed.

(** A date and the first of its month. *)
Lemma replace_day_first d :
  replace_day d 1 ≤ d < replace_day d 1 + days_in_month (is_leap (year d)) (month d) ∧
  ∀ d', replace_day d 1 ≤ d' < replace_day d 1 + days_in_month (is_leap (year d)) (month d) ↔
        year d' = year d ∧ month d' = month d.
Proof.
  unfold replace_day, year, month. destruct (civil d) as [[y m] dd] eqn:Hc. pose proof Hc as Hd.
  apply civil_spec in Hc as (Hm & Hdd & E). simpl. unfold of_civil in *. split; [lia|].
  intros d'. destruct (civil d') as [[y' m'] dd'] eqn:Hc'. simpl. pose proof Hc' as Hcc.
  apply civil_spec in Hc' as (Hm' & Hdd' & E'). split.
  - intros Hr. assert (civil d' = (y, m, d' - (days_before_year y + days_before_month (is_leap y) m - 719163))) as Heq.
    { rewrite <-(civil_of_civil y m) by lia. f_equal. unfold of_civil. lia. }
    rewrite Hcc in Heq. by simplify_eq.
  - intros [-> ->]. unfold of_civil in *. lia.
Qed.

(** ** Weeks *)

Lemma weekday_bounds d : 0 ≤ weekday d < 7.
Proof. unfold weekday. divs. Qed.

Lemma weekday_monday d : weekday (d - weekday d) = 0.
Proof. unfold weekday. divs. Qed.

(** A Monday is determined by its ISO year and week. *)
Lemma iso_year_week_inj d d' :
  weekday d = 0 → weekday d' = 0 → iso_year_week d = iso_year_week d' → d = d'.
Proof.
  unfold iso_year_week. intros Hw Hw'. rewrite Hw, Hw'.
  destruct (year_day (d - 0 + 3)) as [y n] eqn:E, (year_day (d' - 0 + 3)) as [y' n'] eqn:E'. simpl.
  apply year_day_spec in E as [Hn E], E' as [Hn' E']. unfold weekday in *. intros [= <- H]. divs.
Qed.

Lemma iso_week_bounds d : 1 ≤ (iso_year_week d).2 ≤ 53.
Proof.
  unfold iso_year_week. destruct (year_day _) as [y n] eqn:E. apply year_day_spec in E as [Hn _]. simpl.
  destruct (is_leap y); divs.
Qed.

(** A date in the range of [datetime] has a year between 1 and 9999. *)
Lemma year_range d : date_in_range d = true → 1 ≤ year d ≤ 9999.
Proof.
  unfold date_in_range, date_min, date_max, year, civil. intros H.
  destruct (year_day d) as [y n] eqn:E. apply year_day_spec in E as [Hn E]. simpl. unfold days_before_year in E.
  assert (0 ≤ n ≤ 365) by (destruct (is_leap y); lia). divs.
Qed.

#[global] Arguments replace_day : simpl never.
#[global] Arguments next_month : simpl never.
#[global] Arguments civil : simpl never.
#[global] Arguments iso_year_week : simpl never.
