(* ===== verification/Graph.v ===== *)
(** * Worklist algorithms on finite directed graphs

    Kahn's algorithm and the reachability loop, over a list of edges (parallel
    edges count).  [Pipelines] instantiates them with the loops of
    [pipelines/spec.py] and [pipelines/engine.py], which differ in the end of the
    worklist they take the next node from. *)

From stdpp Require Import base strings relations gmap sorting list.
From S2P Require Import Prelude.

(** ** Taking the next element of a worklist *)

(** [ready.pop()] *)
Definition pop_last {A} (l : list A) : option (A * list A) :=
  match last l with Some x => Some (x, removelast l) | None => None end.

(** [ready.pop(0)] *)
Definition pop_first {A} (l : list A) : option (A * list A) :=
  match l with [] => None | x :: l' => Some (x, l') end.

Definition pops {A} (pop : list A → option (A * list A)) : Prop :=
  ∀ l, match pop l with Some (x, l') => l ≡ₚ x :: l' | None => l = [] end.

Lemma pop_first_pops {A} : pops (@pop_first A).
Proof. intros [|x l]; simpl; done. Qed.

Lemma pop_last_pops {A} : pops (@pop_last A).
Proof.
  intros l. unfold pop_last. destruct l as [|x l] using rev_ind; [done|].
  rewrite last_snoc, removelast_last. by rewrite Permutation_app_comm.
Qed.

(** ** Counting *)
Section Count.
Context {A : Type} `{EqDecision A}.

Definition occurrences (x : A) (l : list A) : nat := length (filter (x =.) l).

Lemma occurrences_cons x y l : occurrences x (y :: l) = (if decide (x = y) then 1 else 0) + occurrences x l.
Proof. unfold occurrences. rewrite filter_cons. by case_decide. Qed.

Lemma occurrences_app x l k : occurrences x (l ++ k) = occurrences x l + occurrences x k.
Proof. unfold occurrences. by rewrite filter_app, length_app. Qed.

Lemma occurrences_pos x l : 0 < occurrences x l ↔ x ∈ l.
Proof.
  induction l as [|y l IH]; [unfold occurrences; simpl; set_solver by lia|].
  rewrite occurrences_cons, elem_of_cons. case_decide; subst; [intuition lia|]. rewrite <-IH. intuition lia.
Qed.

Lemma occurrences_zero x l : occurrences x l = 0 ↔ x ∉ l.
Proof. rewrite <-occurrences_pos. lia. Qed.
End Count.

(** ** Kahn's algorithm *)
Section Kahn.
Context {A : Type} `{EqDecision A}.
Implicit Types (u v : A) (E : list (A * A)) (ids ready order : list A).

(** The adjacency dictionary: every node's targets, in the order its edges are
    listed. *)
Definition targets E u : list A := (filter (λ e, e.1 = u) E).*2.

(** The initial indegrees. *)
Definition count_in E v : Z := Z.of_nat (occurrences v E.*2).

Definition indegrees ids E : odict A Z := foldl (λ d v, od_set v (count_in E v) d) [] ids.

(** [for neighbour in adjacency[current]: indegree[neighbour] -= 1; if zero: ready.append(neighbour)]. *)
Fixpoint relax (neighbours : list A) (indegree : odict A Z) ready : odict A Z * list A :=
  match neighbours with
  | [] => (indegree, ready)
  | v :: rest =>
      let d := (default 0 (od_get v indegree) - 1)%Z in
      relax rest (od_set v d indegree) (if bool_decide (d = 0%Z) then ready ++ [v] else ready)
  end.

Variable pop : list A → option (A * list A).

(** [while ready: ...]; [None] is running out of fuel. *)
Fixpoint kahn (fuel : nat) (adjacency : A → list A) (indegree : odict A Z) ready order : option (list A * odict A Z) :=
  match fuel with
  | O => None
  | S fuel =>
      match pop ready with
      | None => Some (order, indegree)
      | Some (current, ready') =>
          let '(indegree', ready'') := relax (adjacency current) indegree ready' in
          kahn fuel adjacency indegree' ready'' (order ++ [current])
      end
  end.

(** The whole loop; each node is taken at most once, so one more round than
    there are nodes is enough ([kahn_run_Some]). *)
Definition kahn_run ids E : option (list A * odict A Z) :=
  let indegree := indegrees ids E in
  kahn (S (length ids)) (targets E) indegree (filter (λ v, od_get v indegree = Some 0%Z) ids) [].

(** *** The loop's invariant *)

Definition edge E u v : Prop := (u, v) ∈ E.

(** Edges into [v] from nodes not yet taken. *)
Definition pending E order v : nat := occurrences v (filter (λ e, e.1 ∉ order) E).*2.

Definition sorted_for E (l : list A) : Prop := ∀ l1 v l2, l = l1 ++ v :: l2 → ∀ u, edge E u v → u ∈ l1.

Record kahn_inv ids E (indegree : odict A Z) ready order : Prop := {
  ki_nodup : NoDup (order ++ ready);
  ki_ids : ∀ v, v ∈ order ++ ready → v ∈ ids;
  ki_degree : ∀ v, v ∈ ids → od_get v indegree = Some (Z.of_nat (pending E order v));
  ki_zero : ∀ v, v ∈ ids → pending E order v = 0 ↔ v ∈ order ++ ready;
  ki_sorted : sorted_for E order;
}.

Lemma targets_occurrences E u v : occurrences v (targets E u) = occurrences v (filter (λ e, e.1 = u) E).*2.
Proof. done. Qed.

Lemma pending_nil E v : pending E [] v = occurrences v E.*2.
Proof.
  unfold pending. f_equal. f_equal. induction E as [|e E IH]; [done|]. rewrite filter_cons, decide_True by set_solver. by rewrite IH.
Qed.

Lemma pending_snoc E order u v : u ∉ order → pending E order v = pending E (order ++ [u]) v + occurrences v (targets E u).
Proof.
  intros Hu. unfold pending, targets. induction E as [|[a b] E IH]; [done|]. rewrite !filter_cons. cbn [fst].
  destruct (decide (a = u)) as [->|Hne].
  - rewrite (decide_True (P := u ∉ order)) by done. rewrite (decide_False (P := u ∉ order ++ [u])) by set_solver.
    cbn [fmap list_fmap snd]. rewrite !occurrences_cons. lia.
  - destruct (decide (a ∉ order)) as [Ha|Ha].
    + rewrite decide_True by set_solver. cbn [fmap list_fmap snd]. rewrite !occurrences_cons. lia.
    + rewrite decide_False by set_solver. lia.
Qed.

Lemma od_get_indegrees ids E v : v ∈ ids → od_get v (indegrees ids E) = Some (count_in E v).
Proof.
  unfold indegrees. generalize (@nil (A * Z)) as d.
  induction ids as [|w ids IH] using rev_ind; [by intros d ?%not_elem_of_nil|].
  intros d Hv. rewrite foldl_app. simpl. rewrite od_get_set. case_decide; [by subst|].
  apply IH. set_solver.
Qed.

Lemma relax_spec neighbours indegree ready :
  (∀ v, occurrences v neighbours > 0 → ∃ d, od_get v indegree = Some d ∧ (Z.of_nat (occurrences v neighbours) ≤ d)%Z) →
  let '(indegree', ready') := relax neighbours indegree ready in
  (∀ v d, od_get v indegree = Some d → od_get v indegree' = Some (d - Z.of_nat (occurrences v neighbours))%Z) ∧
  ∃ new, ready' = ready ++ new ∧ NoDup new ∧
    ∀ v, v ∈ new ↔ v ∈ neighbours ∧ od_get v indegree' = Some 0%Z.
Proof.
  revert indegree ready. induction neighbours as [|v rest IH]; intros indegree ready Hocc; simpl.
  - split; [intros v d Hd; unfold occurrences; simpl; rewrite Hd; f_equal; lia|].
    exists []. rewrite app_nil_r. split_and!; [done|constructor|]. intros v. set_solver.
  - destruct (Hocc v) as (d & Hd & Hle); [rewrite occurrences_cons, decide_True by done; lia|].
    rewrite occurrences_cons, decide_True in Hle by done. rewrite Hd. simpl.
    set (i1 := od_set v (d - 1)%Z indegree).
    assert (∀ w dw, od_get w indegree = Some dw → od_get w i1 = Some (dw - if decide (w = v) then 1 else 0)%Z) as Hi1.
    { intros w dw Hw. unfold i1. rewrite od_get_set. case_decide; subst; [congruence|rewrite Hw; f_equal; lia]. }
    specialize (IH i1 (if bool_decide (d - 1 = 0)%Z then ready ++ [v] else ready)).
    destruct (relax rest i1 _) as [indegree' ready'].
    destruct IH as [Hget (new & -> & Hnd & Hnew)].
    { intros w Hw. destruct (Hocc w) as (dw & Hdw & Hlew); [rewrite occurrences_cons; lia|].
      exists (dw - if decide (w = v) then 1 else 0)%Z. split; [by apply Hi1|].
      rewrite occurrences_cons in Hlew. case_decide; lia. }
    assert (∀ w dw, od_get w indegree = Some dw →
      od_get w indegree' = Some (dw - Z.of_nat (occurrences w (v :: rest)))%Z) as Hget'.
    { intros w dw Hw. rewrite (Hget _ _ (Hi1 _ _ Hw)), occurrences_cons. f_equal. case_decide; lia. }
    split; [done|].
    case_bool_decide as Hz.
    + assert (v ∉ rest) as Hv by (rewrite <-occurrences_zero; lia).
      exists (v :: new). rewrite <-app_assoc. split_and!; [done| |].
      * constructor; [rewrite Hnew; tauto|done].
      * intros w. rewrite !elem_of_cons, Hnew. split; [intros [->|[? ?]]; [|tauto]|intros [[->|?] ?]; tauto].
        split; [tauto|]. rewrite (Hget' _ _ Hd), occurrences_cons, decide_True by done.
        apply occurrences_zero in Hv. rewrite Hv. f_equal. lia.
    + exists new. split_and!; [done|done|]. intros w. rewrite Hnew, elem_of_cons. split; [tauto|].
      intros [[->|?] Hz0]; [|tauto]. split; [|done]. rewrite (Hget' _ _ Hd), occurrences_cons, decide_True in Hz0 by done.
      apply occurrences_pos. injection Hz0 as Hz0. lia.
Qed.

Section Invariant.
Context (ids : list A) (E : list (A * A)).
Hypothesis (Hpop : pops pop).
Hypothesis (Hids : NoDup ids).
Hypothesis (Hknown : ∀ u v, edge E u v → u ∈ ids ∧ v ∈ ids).

Lemma pending_pos order v : pending E order v ≠ 0 ↔ ∃ u, edge E u v ∧ u ∉ order.
Proof.
  unfold pending, edge. rewrite Nat.neq_0_lt_0, occurrences_pos, list_elem_of_fmap. split.
  - intros ([u w] & -> & [Hu He]%list_elem_of_filter). by exists u.
  - intros (u & He & Hu). exists (u, v). split; [done|]. by apply list_elem_of_filter.
Qed.

Lemma kahn_inv_start :
  kahn_inv ids E (indegrees ids E) (filter (λ v, od_get v (indegrees ids E) = Some 0%Z) ids) [].
Proof.
  split; simpl.
  - by apply NoDup_filter.
  - by intros v [_ Hv]%list_elem_of_filter.
  - intros v Hv. rewrite od_get_indegrees by done. by rewrite pending_nil.
  - intros v Hv. rewrite list_elem_of_filter, od_get_indegrees, pending_nil by done. unfold count_in.
    split; [intros ->; done|intros [[= H] _]; lia].
  - intros [|] v l2 H; discriminate H.
Qed.

Lemma kahn_inv_step indegree ready order current ready0 :
  kahn_inv ids E indegree ready order → pop ready = Some (current, ready0) →
  let '(indegree', ready') := relax (targets E current) indegree ready0 in
  kahn_inv ids E indegree' ready' (order ++ [current]).
Proof.
  intros [Hnd Hin Hdeg Hzero Hsort] Hp. specialize (Hpop ready). rewrite Hp in Hpop.
  assert (current ∈ order ++ ready) as Hcur by (rewrite Hpop; set_solver).
  assert (current ∉ order) as Hfresh.
  { rewrite Hpop in Hnd. apply NoDup_app in Hnd as (_ & Hd & _). intros Ho. apply (Hd _ Ho). left. }
  assert (∀ v, v ∈ targets E current → v ∈ ids) as Hv.
  { unfold targets. intros v ([a b] & -> & [_ He]%list_elem_of_filter)%list_elem_of_fmap. by destruct (Hknown a b). }
  pose proof (relax_spec (targets E current) indegree ready0) as Hr.
  destruct (relax (targets E current) indegree ready0) as [indegree' ready'].
  destruct Hr as [Hget (new & -> & Hndn & Hnew)].
  { intros v Ho. assert (v ∈ targets E current) as Hvt by (apply occurrences_pos; lia).
    exists (Z.of_nat (pending E order v)). split; [by apply Hdeg, Hv|].
    rewrite (pending_snoc E order current v Hfresh). lia. }
  assert (∀ v, v ∈ ids → od_get v indegree' = Some (Z.of_nat (pending E (order ++ [current]) v))) as Hdeg'.
  { intros v Hvi. rewrite (Hget _ _ (Hdeg v Hvi)), (pending_snoc E order current v Hfresh). f_equal. lia. }
  assert (∀ v, v ∈ new ↔ v ∈ ids ∧ (v ∉ order ++ ready) ∧ pending E (order ++ [current]) v = 0) as Hnew'.
  { intros v. rewrite Hnew. split.
    - intros [Hvt Hz]. pose proof (Hv v Hvt) as Hvi. rewrite Hdeg' in Hz by done. split_and!; [done| |injection Hz; lia].
      rewrite <-Hzero by done. rewrite (pending_snoc E order current v Hfresh). apply occurrences_pos in Hvt. lia.
    - intros (Hvi & Ho & Hz). rewrite Hdeg' by done. split; [|by rewrite Hz].
      rewrite <-Hzero in Ho by done. rewrite (pending_snoc E order current v Hfresh) in Ho. apply occurrences_pos. lia. }
  assert ((order ++ [current]) ++ ready0 ++ new ≡ₚ (order ++ ready) ++ new) as Hperm.
  { rewrite Hpop, <-!app_assoc. reflexivity. }
  split.
  - rewrite Hperm. apply NoDup_app; split_and!; [done| |done]. intros v Ho Hn. apply Hnew' in Hn as (_ & Hn & _). done.
  - intros v. rewrite Hperm, elem_of_app. intros [Ho|Hn]; [by apply Hin|]. by apply Hnew' in Hn as (? & _).
  - done.
  - intros v Hvi. rewrite Hperm, elem_of_app, Hnew', <-Hzero by done.
    rewrite (pending_snoc E order current v Hfresh). split; [intros ->|intros [?|(_&_&?)]; lia].
    destruct (decide (occurrences v (targets E current) = 0)); [left; lia|right; split_and!; [done|lia|done]].
  - intros l1 v l2 Heq u He. destruct l2 as [|x l2] using rev_ind.
    + apply app_inj_tail in Heq as [<- <-]. destruct (decide (u ∈ order)) as [|Hu]; [done|].
      assert (current ∈ ids) as Hci by by apply Hin. apply (Hzero current Hci) in Hcur.
      assert (pending E order current ≠ 0) by (apply pending_pos; by exists u). done.
    + rewrite app_comm_cons, app_assoc in Heq. apply app_inj_tail in Heq as [-> _]. by eapply Hsort.
Qed.

Lemma kahn_inv_length indegree ready order : kahn_inv ids E indegree ready order → length (order ++ ready) ≤ length ids.
Proof. intros [Hnd Hin _ _ _]. apply submseteq_length, NoDup_submseteq; done. Qed.

(** Enough fuel, and what the loop returns. *)
Lemma kahn_Some fuel indegree ready order :
  kahn_inv ids E indegree ready order → length ids < fuel + length order →
  ∃ order' indegree', kahn fuel (targets E) indegree ready order = Some (order', indegree') ∧
    kahn_inv ids E indegree' [] order'.
Proof.
  revert indegree ready order. induction fuel as [|fuel IH]; intros indegree ready order Hinv Hf.
  { apply kahn_inv_length in Hinv. rewrite length_app in Hinv. lia. }
  simpl. pose proof (Hpop ready) as Hp. destruct (pop ready) as [[current ready0]|] eqn:Heq.
  - pose proof (kahn_inv_step _ _ _ _ _ Hinv Heq) as Hs.
    destruct (relax (targets E current) indegree ready0) as [indegree' ready']. apply IH; [done|].
    rewrite length_app. simpl. lia.
  - subst ready. by exists order, indegree.
Qed.

Lemma kahn_run_Some : ∃ order indegree, kahn_run ids E = Some (order, indegree) ∧ kahn_inv ids E indegree [] order.
Proof. apply kahn_Some; [apply kahn_inv_start|simpl; lia]. Qed.

(** *** Complete exactly when acyclic *)

Definition acyclic : Prop := ∀ x, ¬ tc (edge E) x x.

Lemma sorted_before order u v l1 l2 : sorted_for E order → tc (edge E) u v → order = l1 ++ v :: l2 → u ∈ l1.
Proof.
  intros Hs Ht. revert l1 l2. induction Ht as [u v He|u w v He Ht IH]; intros l1 l2 Heq; [by eapply Hs|].
  destruct (list_elem_of_split _ _ (IH l1 l2 Heq)) as (a & b & ->). apply elem_of_app. left.
  apply (Hs a w (b ++ v :: l2)); [|done]. rewrite Heq, <-app_assoc. done.
Qed.

Lemma sorted_irrefl order v : NoDup order → sorted_for E order → v ∈ order → ¬ tc (edge E) v v.
Proof.
  intros Hnd Hs (l1 & l2 & ->)%list_elem_of_split Ht. pose proof (sorted_before _ _ _ _ _ Hs Ht eq_refl) as Hv.
  apply NoDup_app in Hnd as (_ & Hd & _). apply (Hd v Hv). left.
Qed.

(** Walking backwards from a node that always has a predecessor in [P]. *)
Lemma backward_walk (P : A → Prop) v n :
  P v → (∀ x, P x → ∃ u, edge E u x ∧ P u) →
  ∃ l, length l = S n ∧ Forall P l ∧ StronglySorted (tc (edge E)) l.
Proof.
  intros Hv Hpred. induction n as [|n (l & Hlen & Hall & Hs)]; [exists [v]; by repeat constructor|].
  destruct l as [|x l]; [done|]. apply Forall_cons in Hall as [Hx Hall]. destruct (Hpred x Hx) as (u & He & Hu).
  exists (u :: x :: l). split_and!; [simpl in *; lia|by repeat constructor|]. constructor; [done|].
  apply StronglySorted_inv in Hs as [_ Hxl]. constructor; [by apply tc_once|].
  eapply Forall_impl; [exact Hxl|]. intros w. by apply tc_l.
Qed.

Lemma strongly_sorted_nodup l : acyclic → StronglySorted (tc (edge E)) l → NoDup l.
Proof.
  intros Hac. induction 1 as [|x l Hs IH Hx]; constructor; [|done]. rewrite Forall_forall in Hx.
  intros Hin. by apply (Hac x), Hx.
Qed.

Lemma stuck_predecessor indegree order v :
  kahn_inv ids E indegree [] order → v ∈ ids → v ∉ order → ∃ u, edge E u v ∧ u ∈ ids ∧ u ∉ order.
Proof.
  intros [_ _ _ Hz _] Hv Ho. specialize (Hz v Hv). rewrite app_nil_r in Hz. rewrite <-Hz in Ho.
  apply pending_pos in Ho as (u & He & Hu). exists u. by destruct (Hknown u v He).
Qed.

Lemma kahn_complete_iff indegree order : kahn_inv ids E indegree [] order → length order = length ids ↔ acyclic.
Proof.
  intros Hinv. pose proof Hinv as [Hnd Hin _ _ Hsort]. rewrite app_nil_r in *. split.
  - intros Hlen x Ht. assert (x ∈ ids) as Hx.
    { inversion Ht as [? ? He|? y ? He _]; [by destruct (Hknown x x He)|by destruct (Hknown x y He)]. }
    assert (order ≡ₚ ids) as Hp by (apply submseteq_length_Permutation; [by apply NoDup_submseteq|lia]).
    rewrite <-Hp in Hx. by eapply sorted_irrefl in Ht.
  - intros Hac. destruct (decide (Forall (.∈ order) ids)) as [Hall|Hall].
    + apply Nat.le_antisymm; apply submseteq_length, NoDup_submseteq; [done|done|done|by rewrite Forall_forall in Hall].
    + apply not_Forall_Exists in Hall; [|apply _]. apply Exists_exists in Hall as (v & Hv & Ho). exfalso.
      destruct (backward_walk (λ x, x ∈ ids ∧ x ∉ order) v (length ids)) as (l & Hlen & Hl & Hs); [done| |].
      { intros x [Hx Hxo]. destruct (stuck_predecessor _ _ x Hinv Hx Hxo) as (u & ? & ? & ?). by exists u. }
      apply strongly_sorted_nodup in Hs; [|done].
      assert (length l ≤ length ids); [|lia]. apply submseteq_length, NoDup_submseteq; [done|].
      intros x Hx. rewrite Forall_forall in Hl. by apply Hl.
Qed.

(** The whole order is a permutation of the nodes when there is no cycle. *)
Lemma kahn_permutation indegree order : acyclic → kahn_inv ids E indegree [] order → order ≡ₚ ids.
Proof.
  intros Hac Hinv. pose proof (proj2 (kahn_complete_iff _ _ Hinv) Hac) as Hlen. destruct Hinv as [Hnd Hin _ _ _].
  rewrite app_nil_r in *. apply submseteq_length_Permutation; [by apply NoDup_submseteq|lia].
Qed.
End Invariant.
End Kahn.

(** ** The reachability loop

    [while frontier: current = frontier.pop(); if current in seen: continue;
    seen.add(current); frontier.extend(next(current))]. *)
Section Reach.
Context {A : Type} `{EqDecision A}.
Variable next : A → list A.

Fixpoint reach (fuel : nat) (frontier seen : list A) : option (list A) :=
  match fuel with
  | O => None
  | S fuel =>
      match pop_last frontier with
      | None => Some seen
      | Some (current, rest) =>
          if bool_decide (current ∈ seen) then reach fuel rest seen
          else reach fuel (rest ++ next current) (seen ++ [current])
      end
  end.

(** What is still to be pushed when the nodes of [universe] outside [seen] are
    visited. *)
Definition unseen_weight (universe seen : list A) : nat :=
  sum_list_with (λ x, length (next x)) (filter (.∉ seen) universe).

Definition reach_fuel (universe start : list A) : nat := S (length start + unseen_weight universe []).

Lemma unseen_weight_cons universe seen x :
  NoDup universe → x ∈ universe → x ∉ seen →
  unseen_weight universe seen = length (next x) + unseen_weight universe (seen ++ [x]).
Proof.
  unfold unseen_weight. intros Hnd Hx Hs. induction Hnd as [|y l Hy Hnd IH]; [set_solver|].
  rewrite !filter_cons. apply elem_of_cons in Hx as [->|Hx].
  - rewrite decide_True by done. rewrite decide_False by set_solver. simpl. f_equal.
    clear -Hy. induction l as [|z l IH]; [done|]. apply not_elem_of_cons in Hy as [Hyz Hy]. rewrite !filter_cons.
    destruct (decide (z ∈ seen)) as [Hz|Hz].
    + rewrite decide_False by tauto. rewrite decide_False by set_solver. by apply IH.
    + rewrite decide_True by done. rewrite decide_True by set_solver. simpl. by rewrite IH.
  - destruct (decide (y ∈ seen)) as [Hys|Hys].
    + rewrite decide_False by tauto. rewrite decide_False by set_solver. by apply IH.
    + rewrite decide_True by done. rewrite decide_True by set_solver. simpl. rewrite IH by done. lia.
Qed.

Lemma reach_Some universe fuel frontier seen :
  NoDup universe → (∀ x, x ∈ frontier → x ∈ universe) → (∀ x y, x ∈ universe → y ∈ next x → y ∈ universe) →
  length frontier + unseen_weight universe seen < fuel → is_Some (reach fuel frontier seen).
Proof.
  intros Hnd Hf Hclosed. revert frontier seen Hf. induction fuel as [|fuel IH]; intros frontier seen Hf Hlt; [lia|].
  simpl. pose proof (pop_last_pops frontier) as Hp. destruct (pop_last frontier) as [[current rest]|]; [|by eexists].
  assert (∀ x, x ∈ current :: rest → x ∈ universe) as Hcr by (intros x; rewrite <-Hp; apply Hf).
  apply Permutation_length in Hp. simpl in Hp. case_bool_decide as Hs.
  - apply IH; [intros x Hx; apply Hcr; by right|lia].
  - rewrite (unseen_weight_cons universe seen current) in Hlt by (done || (apply Hcr; left)). apply IH.
    + intros x [Hx|Hx]%elem_of_app; [apply Hcr; by right|]. apply (Hclosed current); [apply Hcr; left|done].
    + rewrite length_app. lia.
Qed.

Definition step x y : Prop := y ∈ next x.

Lemma reach_spec fuel frontier seen r :
  reach fuel frontier seen = Some r → (∀ x y, x ∈ seen → step x y → y ∈ seen ∨ y ∈ frontier) →
  (∀ x, x ∈ seen ∨ x ∈ frontier → x ∈ r) ∧ (∀ x y, x ∈ r → step x y → y ∈ r) ∧
  ∀ x, x ∈ r → x ∈ seen ∨ ∃ f, f ∈ frontier ∧ rtc step f x.
Proof.
  revert frontier seen. induction fuel as [|fuel IH]; intros frontier seen; simpl; [done|].
  pose proof (pop_last_pops frontier) as Hp. destruct (pop_last frontier) as [[current rest]|].
  - assert (∀ x, x ∈ frontier ↔ x = current ∨ x ∈ rest) as Hfr by (intros x; by rewrite Hp, elem_of_cons).
    case_bool_decide as Hs; intros Hr Hcl.
    + destruct (IH _ _ Hr) as (H1 & H2 & H3).
      { intros x y Hx Hy. destruct (Hcl x y Hx Hy) as [|[->|]%Hfr]; auto. }
      split_and!; [|done|].
      * intros x [Hx|[->|Hx]%Hfr]; auto.
      * intros x Hx. destruct (H3 x Hx) as [|(f & Hf & Hrt)]; [by left|]. right. exists f. rewrite Hfr. auto.
    + destruct (IH _ _ Hr) as (H1 & H2 & H3).
      { intros x y [Hx| ->%list_elem_of_singleton]%elem_of_app Hy; rewrite !elem_of_app; [|auto].
        destruct (Hcl x y Hx Hy) as [|[->|]%Hfr]; rewrite ?list_elem_of_singleton; auto. }
      split_and!; [|done|].
      * intros x [Hx|[->|Hx]%Hfr]; apply H1; rewrite !elem_of_app, ?list_elem_of_singleton; auto.
      * intros x Hx. destruct (H3 x Hx) as [[Hx'| ->%list_elem_of_singleton]%elem_of_app|(f & [Hf|Hf]%elem_of_app & Hrt)].
        -- by left.
        -- right. exists current. rewrite Hfr. split; [by left|reflexivity].
        -- right. exists f. rewrite Hfr. auto.
        -- right. exists current. rewrite Hfr. split; [by left|]. by eapply rtc_l.
  - subst frontier. intros [= <-] Hcl. split_and!; [|intros x y Hx Hy|by left].
    + intros x [|Hx]; [done|by apply not_elem_of_nil in Hx].
    + destruct (Hcl x y Hx Hy) as [|Hn]; [done|by apply not_elem_of_nil in Hn].
Qed.

(** From the empty set: exactly what the start reaches. *)
Lemma reach_iff fuel start r x : reach fuel start [] = Some r → x ∈ r ↔ ∃ f, f ∈ start ∧ rtc step f x.
Proof.
  intros Hr. destruct (reach_spec _ _ _ _ Hr) as (H1 & H2 & H3); [by intros ? ? ?%not_elem_of_nil|]. split.
  - intros Hx. destruct (H3 x Hx) as [Hn|?]; [by apply not_elem_of_nil in Hn|done].
  - intros (f & Hf & Hrt). assert (f ∈ r) as Hfr by (apply H1; by right). clear Hf.
    induction Hrt as [|f y x Hs _ IH]; [done|]. apply IH. by eapply H2.
Qed.
End Reach.
