(* ===== verification/Tenancy.v ===== *)
(** * Tenant contexts ([tenancy/context.py], [tenancy/models.py])

    The acting identity every store and service call carries, and the two
    tests all of them use: [scopes] for reads, [require] for writes. *)

From stdpp Require Import base strings list.
From S2P Require Import Prelude.

Inductive Role := ADMIN | APPROVER | VIEWER.

#[export] Instance Role_eq_dec : EqDecision Role.
Proof. solve_decision. Defined.

Record TenantContext := mkTenantContext {
  tc_tenant_id : string;
  tc_team_id : option string;
  tc_operator_id : option string;
  tc_role : Role;
  tc_attribution_key : option string;
  tc_is_system : bool;
}.

Definition DEFAULT_TENANT_ID : string := "default".
Definition SYSTEM_TENANT_ID : string := "system".

Definition scopes (ctx : TenantContext) (tenant_id : string) : bool :=
  tc_is_system ctx || bool_decide (tc_tenant_id ctx = tenant_id).

(** [ctx.require(tenant_id)] raises [TenantScopeError], the caller's [scope_error]. *)
Definition require {W E : Type} (scope_error : E) (ctx : TenantContext) (tenant_id : string) : M W E unit :=
  if scopes ctx tenant_id then ret tt else raise scope_error.

Definition SYSTEM_CONTEXT : TenantContext :=
  {| tc_tenant_id := SYSTEM_TENANT_ID; tc_team_id := None; tc_operator_id := None;
     tc_role := ADMIN; tc_attribution_key := None; tc_is_system := true |}.

Definition DEFAULT_CONTEXT : TenantContext :=
  {| tc_tenant_id := DEFAULT_TENANT_ID; tc_team_id := Some "default"; tc_operator_id := None;
     tc_role := ADMIN; tc_attribution_key := Some "default"; tc_is_system := false |}.

Definition context_for_run (tenant_id : string) (team_id attribution_key : option string) : TenantContext :=
  {| tc_tenant_id := tenant_id; tc_team_id := team_id; tc_operator_id := None;
     tc_role := ADMIN; tc_attribution_key := attribution_key; tc_is_system := false |}.

(** Only a system context sees another tenant's rows. *)
Lemma scopes_other ctx t :
  scopes ctx t = true → tc_is_system ctx = true ∨ tc_tenant_id ctx = t.
Proof. unfold scopes. intros [?|?%bool_decide_eq_true]%orb_true_iff; auto. Qed.

Lemma scopes_context_for_run t team key t' :
  scopes (context_for_run t team key) t' = bool_decide (t = t').
Proof. done. Qed.

Lemma scopes_own t team key : scopes (context_for_run t team key) t = true.
Proof. rewrite scopes_context_for_run. apply bool_decide_eqb_refl. Qed.

#[export] Hint Resolve scopes_own : core.
