(* ===== verification/AuditTrail.v ===== *)
(** * The tamper-evident audit log ([persistence/audit.py])

    Each record's hash covers the previous hash and the record's canonical
    JSON payload.  The hash function ([hashlib.sha256(...).hexdigest()]) and the
    timestamp rendering ([datetime.isoformat]) are parameters: every theorem
    holds for any such functions, and tamper evidence is stated, as it must
    be, up to an explicit collision of the hash.  Instants are microseconds
    since the epoch; a string is the list of its code points, restricted to
    the first 256. *)

From Stdlib Require Import Ascii.
From stdpp Require Import base strings pretty numbers relations list.
From S2P Require Import Prelude Text Tenancy.


(** ** [json.dumps] on the values the payload holds

    [json.dumps] with its default [ensure_ascii] escapes the quote, the
    backslash and everything outside printable ASCII. *)
Module Json.

Definition dquote : ascii := "034"%char.
Definition backslash : ascii := "092"%char.

Definition hex_digit (n : N) : ascii :=
  default "0"%char (String.get (N.to_nat n) "0123456789abcdef").

Definition hex_value (c : ascii) : N :=
  let n := N_of_ascii c in
  if bool_decide (97 ≤ n)%N then (n - 87)%N else (n - 48)%N.

Definition printable (c : ascii) : bool :=
  bool_decide (32 ≤ N_of_ascii c)%N && bool_decide (N_of_ascii c ≤ 126)%N.

(** One character of a string literal. *)
Definition escape_char (c : ascii) : string :=
  if bool_decide (c = dquote) then String backslash (String dquote EmptyString)
  else if bool_decide (c = backslash) then String backslash (String backslash EmptyString)
  else if bool_decide (c = "010"%char) then String backslash "n"
  else if bool_decide (c = "013"%char) then String backslash "r"
  else if bool_decide (c = "009"%char) then String backslash "t"
  else if bool_decide (c = "012"%char) then String backslash "f"
  else if bool_decide (c = "008"%char) then String backslash "b"
  else if printable c then String c EmptyString
  else String backslash ("u00" +:+
    String (hex_digit (N_of_ascii c / 16)) (String (hex_digit (N_of_ascii c mod 16)) EmptyString)).

Fixpoint escape (s : string) : string :=
  match s with
  | EmptyString => EmptyString
  | String c s' => escape_char c +:+ escape s'
  end.

(** A string value. *)
Definition dumps_str (s : string) : string :=
  String dquote (escape s +:+ String dquote EmptyString).

(** A [str | None] value. *)
Definition dumps_opt (o : option string) : string :=
  match o with Some s => dumps_str s | None => "null" end.

(** A non-negative integer value. *)
Definition dumps_nat (n : N) : string := pretty n.

Definition key (k : string) : string := dumps_str k +:+ ":".

(** The reader used to show that the rendering loses nothing: it consumes an
    escaped literal up to its closing quote. *)
Definition simple_escape (c : ascii) : ascii :=
  if bool_decide (c = "n"%char) then "010"%char
  else if bool_decide (c = "r"%char) then "013"%char
  else if bool_decide (c = "t"%char) then "009"%char
  else if bool_decide (c = "f"%char) then "012"%char
  else if bool_decide (c = "b"%char) then "008"%char
  else c.

Definition cons_char (c : ascii) (o : option (string * string)) : option (string * string) :=
  match o with Some (s, r) => Some (String c s, r) | None => None end.

Fixpoint unescape (s : string) : option (string * string) :=
  match s with
  | EmptyString => None
  | String c s1 =>
      if bool_decide (c = dquote) then Some (EmptyString, s1)
      else if bool_decide (c = backslash) then
        match s1 with
        | String d s2 =>
            if bool_decide (d = "u"%char) then
              match s2 with
              | String _ (String _ (String h (String l s3))) =>
                  cons_char (ascii_of_N (16 * hex_value h + hex_value l)) (unescape s3)
              | _ => None
              end
            else cons_char (simple_escape d) (unescape s2)
        | EmptyString => None
        end
      else cons_char c (unescape s1)
  end.

Lemma unescape_escape_char c t :
  unescape (escape_char c +:+ t) = cons_char c (unescape t).
Proof. destruct c as [[] [] [] [] [] [] [] []]; reflexivity. Qed.

Lemma unescape_escape s r :
  unescape (escape s +:+ String dquote r) = Some (s, r).
Proof.
  induction s as [|c s IH]; simpl; [done|].
  by rewrite string_app_assoc, unescape_escape_char, IH.
Qed.

Lemma dumps_str_cancel s1 s2 r1 r2 :
  dumps_str s1 +:+ r1 = dumps_str s2 +:+ r2 → s1 = s2 ∧ r1 = r2.
Proof.
  unfold dumps_str. simpl. rewrite !string_app_assoc. intros [= H].
  apply (f_equal unescape) in H. simpl in H. rewrite !unescape_escape in H. by simplify_eq.
Qed.

Lemma dumps_opt_cancel o1 o2 r1 r2 :
  dumps_opt o1 +:+ r1 = dumps_opt o2 +:+ r2 → o1 = o2 ∧ r1 = r2.
Proof.
  destruct o1 as [s1|], o2 as [s2|]; simpl.
  - intros [-> ->]%dumps_str_cancel. done.
  - done.
  - done.
  - by intros [= ->].
Qed.

Lemma dumps_nat_digits n : all_digits (dumps_nat n) = true.
Proof.
  apply pretty_N_digits.
Qed.

Lemma dumps_nat_cancel n1 n2 r1 r2 :
  dumps_nat n1 +:+ String "," r1 = dumps_nat n2 +:+ String "," r2 → n1 = n2 ∧ r1 = r2.
Proof.
  intros [Hn ->]%digits_cancel; try done; try apply dumps_nat_digits.
  split; [|done]. unfold dumps_nat in Hn. by apply (inj pretty) in Hn.
Qed.
End Json.

(** ** Records, the chain and the in-memory log *)

Record AuditRecord := mkAuditRecord {
  ar_sequence : N;
  ar_actor : string;
  ar_action : string;
  ar_subject : string;
  ar_created_at : Z;
  ar_detail : option string;
  ar_prev_hash : string;
  ar_hash : string;
  ar_tenant_id : string;
}.

(** [draft.model_copy(update={"hash": h})]. *)
Definition with_hash (r : AuditRecord) (h : string) : AuditRecord :=
  {| ar_sequence := ar_sequence r; ar_actor := ar_actor r; ar_action := ar_action r;
     ar_subject := ar_subject r; ar_created_at := ar_created_at r; ar_detail := ar_detail r;
     ar_prev_hash := ar_prev_hash r; ar_hash := h; ar_tenant_id := ar_tenant_id r |}.

(** The field constraints pydantic checks when a record is constructed. *)
Definition audit_record_valid (r : AuditRecord) : bool :=
  bool_decide (ar_actor r ≠ EmptyString) && bool_decide (ar_action r ≠ EmptyString)
  && bool_decide (ar_subject r ≠ EmptyString) && bool_decide (ar_tenant_id r ≠ EmptyString)
  && (String.length (ar_tenant_id r) <=? 64)%nat.

Definition NULL_HASH : string :=
  "0000000000000000000000000000000000000000000000000000000000000000".

Record AuditLog := mkAuditLog {
  al_records : list AuditRecord;
  al_anchor : string;
  al_sequence : N;
}.

Definition audit_init : AuditLog :=
  {| al_records := []; al_anchor := NULL_HASH; al_sequence := 0 |}.

Section Chain.
Variable sha256_hex : string → string.
Variable isoformat : Z → string.

Definition canonical (r : AuditRecord) : string :=
  "{" +:+ Json.key "action" +:+ Json.dumps_str (ar_action r)
  +:+ "," +:+ Json.key "actor" +:+ Json.dumps_str (ar_actor r)
  +:+ "," +:+ Json.key "created_at" +:+ Json.dumps_str (isoformat (ar_created_at r))
  +:+ "," +:+ Json.key "detail" +:+ Json.dumps_opt (ar_detail r)
  +:+ "," +:+ Json.key "sequence" +:+ Json.dumps_nat (ar_sequence r)
  +:+ "," +:+ Json.key "subject" +:+ Json.dumps_str (ar_subject r)
  +:+ "}".

Definition compute_hash (prev_hash : string) (r : AuditRecord) : string :=
  sha256_hex (prev_hash +:+ "|" +:+ canonical r).

(** [AuditChain.verify]: the index of the first broken link. *)
Fixpoint verify_from (prev : string) (index : nat) (records : list AuditRecord) : option nat :=
  match records with
  | [] => None
  | r :: rest =>
      if bool_decide (ar_prev_hash r ≠ prev) then Some index
      else if bool_decide (ar_hash r ≠ compute_hash prev r) then Some index
      else verify_from (ar_hash r) (S index) rest
  end.

Definition chain_verify (records : list AuditRecord) (anchor : string) : option nat :=
  verify_from anchor 0 records.

(** [InMemoryAuditLog.append]; [now] is the clock reading and [None] the
    validation error of a malformed record, which leaves the log unchanged. *)
Definition audit_append (now : Z) (actor action subject : string) (detail : option string)
    (ctx : TenantContext) (log : AuditLog) : option (AuditRecord * AuditLog) :=
  let prev_hash :=
    match last (al_records log) with Some r => ar_hash r | None => al_anchor log end in
  let draft :=
    {| ar_sequence := al_sequence log; ar_actor := actor; ar_action := action;
       ar_subject := subject; ar_created_at := now; ar_detail := detail;
       ar_prev_hash := prev_hash; ar_hash := EmptyString; ar_tenant_id := tc_tenant_id ctx |} in
  if audit_record_valid draft then
    let record := with_hash draft (compute_hash prev_hash draft) in
    Some (record,
      {| al_records := al_records log ++ [record]; al_anchor := al_anchor log;
         al_sequence := al_sequence log + 1 |})
  else None.

Definition audit_records (ctx : TenantContext) (log : AuditLog) : list AuditRecord :=
  filter (λ r, scopes ctx (ar_tenant_id r) = true) (al_records log).

(** [prune]: drop the leading records older than [before], stopping at the
    first protected one, moving the anchor along. *)
Fixpoint prune_loop (before : Z) (protect : option (AuditRecord → bool))
    (records : list AuditRecord) (anchor : string) (deleted : nat)
    : list AuditRecord * string * nat :=
  match records with
  | [] => ([], anchor, deleted)
  | head :: rest =>
      if (before <=? ar_created_at head)%Z then (records, anchor, deleted)
      else if match protect with Some f => f head | None => false end
      then (records, anchor, deleted)
      else prune_loop before protect rest (ar_hash head) (S deleted)
  end.

Definition audit_prune (before : Z) (protect : option (AuditRecord → bool)) (log : AuditLog)
    : nat * AuditLog :=
  let '(records, anchor, deleted) :=
    prune_loop before protect (al_records log) (al_anchor log) 0 in
  (deleted, {| al_records := records; al_anchor := anchor; al_sequence := al_sequence log |}).

Definition audit_verify (log : AuditLog) : bool :=
  bool_decide (chain_verify (al_records log) (al_anchor log) = None).

(** [ScrubbingAuditLog.append]: [scrub] is the wrapped scrubber. *)
Definition scrubbing_append (scrub : string → string) (now : Z) (actor action subject : string)
    (detail : option string) (ctx : TenantContext) (log : AuditLog)
    : option (AuditRecord * AuditLog) :=
  audit_append now actor action subject (scrub <$> detail) ctx log.

(** *** The chain as a relation *)

Fixpoint chained (prev : string) (records : list AuditRecord) : Prop :=
  match records with
  | [] => True
  | r :: rest => ar_prev_hash r = prev ∧ ar_hash r = compute_hash prev r ∧ chained (ar_hash r) rest
  end.

Definition chain_end (prev : string) (records : list AuditRecord) : string :=
  match last records with Some r => ar_hash r | None => prev end.

Lemma chain_end_cons prev r rest : chain_end prev (r :: rest) = chain_end (ar_hash r) rest.
Proof.
  unfold chain_end. destruct rest as [|r' rest]; [done|]. rewrite last_cons_cons.
  destruct (last (r' :: rest)) eqn:H; [done|]. by apply last_None in H.
Qed.

Lemma chain_end_snoc prev records r : chain_end prev (records ++ [r]) = ar_hash r.
Proof. unfold chain_end. by rewrite last_snoc. Qed.

Lemma verify_from_chained prev i records : verify_from prev i records = None ↔ chained prev records.
Proof.
  revert prev i. induction records as [|r rest IH]; intros prev i; simpl; [done|].
  case_bool_decide; [split; [done|intros (?&?&?); congruence]|].
  case_bool_decide; [split; [done|intros (?&?&?); congruence]|].
  rewrite IH. destruct (decide (ar_prev_hash r = prev)), (decide (ar_hash r = compute_hash prev r)); tauto.
Qed.

Lemma chain_verify_None records anchor :
  chain_verify records anchor = None ↔ chained anchor records.
Proof. apply verify_from_chained. Qed.

Lemma audit_verify_chained log :
  audit_verify log = true ↔ chained (al_anchor log) (al_records log).
Proof.
  unfold audit_verify. rewrite bool_decide_eq_true. apply chain_verify_None.
Qed.

Lemma chained_app prev l1 l2 :
  chained prev (l1 ++ l2) ↔ chained prev l1 ∧ chained (chain_end prev l1) l2.
Proof.
  revert prev. induction l1 as [|r l1 IH]; intros prev; simpl; [unfold chain_end; simpl; tauto|].
  rewrite IH, chain_end_cons. tauto.
Qed.

Lemma compute_hash_with_hash prev r h : compute_hash prev (with_hash r h) = compute_hash prev r.
Proof. done. Qed.
End Chain.

(** ** What the log guarantees *)

Section Guarantees.
Variable sha256_hex : string → string.
Variable isoformat : Z → string.
Local Abbreviation canonical := (canonical isoformat).
Local Abbreviation compute_hash := (compute_hash sha256_hex isoformat).
Local Abbreviation chained := (chained sha256_hex isoformat).
Local Abbreviation chain_verify := (chain_verify sha256_hex isoformat).

(** Two different inputs with the same digest. *)
Definition collision : Prop := ∃ x y, x ≠ y ∧ sha256_hex x = sha256_hex y.

(** The fields the hash covers. *)
Definition same_payload (r1 r2 : AuditRecord) : Prop :=
  ar_sequence r1 = ar_sequence r2 ∧ ar_actor r1 = ar_actor r2 ∧ ar_action r1 = ar_action r2 ∧
  ar_subject r1 = ar_subject r2 ∧ ar_detail r1 = ar_detail r2 ∧
  isoformat (ar_created_at r1) = isoformat (ar_created_at r2).

Local Ltac peel H :=
  repeat first
    [ apply Json.dumps_str_cancel in H as [? H]
    | apply Json.dumps_opt_cancel in H as [? H]
    | apply Json.dumps_nat_cancel in H as [? H]
    | apply string_app_inj in H ].

(** The canonical rendering is injective on what it covers. *)
Lemma canonical_inj r1 r2 : canonical r1 = canonical r2 → same_payload r1 r2.
Proof.
  unfold canonical, Json.key. rewrite !string_app_assoc. intros H.
  do 2 peel H. peel H. unfold same_payload. by split_and!.
Qed.

Lemma compute_hash_inj prev r1 r2 :
  compute_hash prev r1 = compute_hash prev r2 → canonical r1 = canonical r2 ∨ collision.
Proof.
  unfold AuditTrail.compute_hash. intros H.
  destruct (decide (canonical r1 = canonical r2)) as [|Hne]; [by left|right].
  exists (prev +:+ "|" +:+ canonical r1), (prev +:+ "|" +:+ canonical r2). split; [|done].
  intros Heq. by do 2 apply string_app_inj in Heq.
Qed.

(** With digests of one length, equal digests also have equal predecessors. *)
Lemma compute_hash_split p1 p2 r1 r2 :
  String.length p1 = String.length p2 →
  compute_hash p1 r1 = compute_hash p2 r2 → (p1 = p2 ∧ canonical r1 = canonical r2) ∨ collision.
Proof.
  unfold AuditTrail.compute_hash. intros Hlen H.
  destruct (decide (p1 +:+ "|" +:+ canonical r1 = p2 +:+ "|" +:+ canonical r2)) as [Heq|Hne].
  - left. apply string_app_split in Heq as [-> Heq]; [|done]. by apply string_app_inj in Heq.
  - right. by exists (p1 +:+ "|" +:+ canonical r1), (p2 +:+ "|" +:+ canonical r2).
Qed.

(** *** Every log built by the API verifies *)

Inductive audit_step : AuditLog → AuditLog → Prop :=
  | step_append now actor action subject detail ctx log record log' :
      audit_append sha256_hex isoformat now actor action subject detail ctx log = Some (record, log') →
      audit_step log log'
  | step_prune before protect log :
      audit_step log (audit_prune before protect log).2.

(** Records carry consecutive sequence numbers ending at the counter. *)
Definition sequenced (log : AuditLog) : Prop :=
  (N.of_nat (length (al_records log)) ≤ al_sequence log)%N ∧
  ∀ i r, al_records log !! i = Some r →
    ar_sequence r = (al_sequence log - N.of_nat (length (al_records log)) + N.of_nat i)%N.

Definition log_inv (log : AuditLog) : Prop :=
  chained (al_anchor log) (al_records log) ∧ sequenced log.

Lemma log_inv_append now actor action subject detail ctx log record log' :
  log_inv log →
  audit_append sha256_hex isoformat now actor action subject detail ctx log = Some (record, log') →
  log_inv log'.
Proof.
  intros [Hch [Hle Hseq]]. unfold audit_append. case_match; [|done]. intros Heq. simplify_eq/=.
  split; simpl.
  - apply chained_app. split; [done|]. by split_and!.
  - unfold sequenced; simpl. rewrite length_app; simpl. split; [lia|].
    intros i r Hr. apply lookup_app_Some in Hr as [Hr|[Hge Hr]].
    + rewrite (Hseq i r Hr). lia.
    + apply list_lookup_singleton_Some in Hr as [Hi <-]. simpl. lia.
Qed.

Lemma prune_loop_suffix before protect records anchor n records' anchor' n' :
  prune_loop before protect records anchor n = (records', anchor', n') →
  ∃ pre, records = pre ++ records' ∧ anchor' = chain_end anchor pre ∧ n' = (n + length pre)%nat ∧
    Forall (λ r, (ar_created_at r < before)%Z ∧ match protect with Some f => f r = false | None => True end) pre.
Proof.
  revert anchor n. induction records as [|r rest IH]; intros anchor n; simpl.
  - intros [= <- <- <-]. exists []. split_and!; [done|done|simpl; lia|constructor].
  - destruct (before <=? ar_created_at r)%Z eqn:Hb.
    { intros [= <- <- <-]. exists []. split_and!; [done|done|simpl; lia|constructor]. }
    destruct (match protect with Some f => f r | None => false end) eqn:Hp.
    { intros [= <- <- <-]. exists []. split_and!; [done|done|simpl; lia|constructor]. }
    intros (pre & -> & -> & -> & Hall)%IH. exists (r :: pre). split_and!; [done| |simpl; lia|].
    + by rewrite chain_end_cons.
    + constructor; [|done]. split; [lia|]. by destruct protect.
Qed.

Lemma log_inv_prune before protect log : log_inv log → log_inv (audit_prune before protect log).2.
Proof.
  intros [Hch [Hle Hseq]]. unfold audit_prune.
  destruct (prune_loop before protect (al_records log) (al_anchor log) 0) as [[records anchor] n] eqn:Hp.
  apply prune_loop_suffix in Hp as (pre & Heq & -> & _ & _). simpl. split; simpl.
  - rewrite Heq in Hch. by apply chained_app in Hch as [_ ?].
  - unfold sequenced; simpl. rewrite Heq, length_app in Hle, Hseq. split; [lia|].
    intros i r Hr. specialize (Hseq (length pre + i)%nat r).
    rewrite lookup_app_r in Hseq by lia. rewrite (Hseq ltac:(by replace (length pre + i - length pre)%nat with i by lia)). lia.
Qed.

Lemma log_inv_init : log_inv audit_init.
Proof. split; [done|]. split; simpl; [lia|]. intros i r Hr. by rewrite lookup_nil in Hr. Qed.

Lemma log_inv_reachable log : rtc audit_step audit_init log → log_inv log.
Proof.
  intros H. cut (log_inv audit_init → log_inv log); [intros Hc; apply Hc, log_inv_init|].
  induction H as [|x y z Hs _ IH]; [done|]. intros Hx. apply IH.
  destruct Hs; [by eapply log_inv_append | by apply log_inv_prune].
Qed.

(** C22: Whatever sequence of appends and prunes is applied to a fresh log,
    [verify] answers true and the remaining records are numbered
    consecutively up to the next sequence number. *)
Theorem audit_log_always_verifies log :
  rtc audit_step audit_init log →
  audit_verify sha256_hex isoformat log = true ∧ sequenced log.
Proof.
  intros [Hch Hseq]%log_inv_reachable. split; [|done]. by apply audit_verify_chained.
Qed.

(** Pruning removes exactly a leading block of records that are older
    than the cutoff and unprotected, reports how many, and stops at the first
    record that is recent or protected; the anchor becomes the hash of the
    last record removed. *)
Theorem audit_prune_spec before protect log :
  ∃ pre, al_records log = pre ++ al_records (audit_prune before protect log).2 ∧
    (audit_prune before protect log).1 = length pre ∧
    al_anchor (audit_prune before protect log).2 = chain_end (al_anchor log) pre ∧
    Forall (λ r, (ar_created_at r < before)%Z ∧
      match protect with Some f => f r = false | None => True end) pre ∧
    match al_records (audit_prune before protect log).2 with
    | [] => True
    | r :: _ => (before ≤ ar_created_at r)%Z ∨ ∃ f, protect = Some f ∧ f r = true
    end.
Proof.
  unfold audit_prune.
  destruct (prune_loop before protect (al_records log) (al_anchor log) 0) as [[records anchor] n] eqn:Hp.
  pose proof Hp as (pre & Heq & -> & -> & Hall)%prune_loop_suffix.
  exists pre. simpl. split_and!; try done. clear -Hp. revert Hp.
  generalize (al_anchor log) at 1, 0%nat at 1. generalize (chain_end (al_anchor log) pre), (0 + length pre)%nat.
  induction (al_records log) as [|r rest IH]; intros a' n' a n; simpl; [by intros [= <- _ _]|].
  destruct (before <=? ar_created_at r)%Z eqn:Hb; [intros [= <- _ _]; left; lia|].
  destruct protect as [f|]; [|apply IH].
  destruct (f r) eqn:Hf; [intros [= <- _ _]; right; eauto|apply IH].
Qed.

(** *** Tamper evidence *)

Lemma chain_end_length n anchor l :
  (∀ x, String.length (sha256_hex x) = n) → String.length anchor = n →
  chained anchor l → String.length (chain_end anchor l) = n.
Proof.
  intros Hn Ha. induction l as [|r l _] using rev_ind; [done|].
  rewrite chain_end_snoc. intros (_ & _ & -> & _)%chained_app. apply Hn.
Qed.

(** C34: two intact chains from the same anchor, of the same length and ending
    in the same hash, agree on every audited field of every record, unless the
    hash function has a collision (digests of one length, as SHA-256's). *)
Theorem audit_tamper_evident n anchor l1 l2 :
  (∀ x, String.length (sha256_hex x) = n) → String.length anchor = n →
  chain_verify l1 anchor = None → chain_verify l2 anchor = None →
  length l1 = length l2 → chain_end anchor l1 = chain_end anchor l2 →
  Forall2 same_payload l1 l2 ∨ collision.
Proof.
  intros Hn Ha. rewrite !chain_verify_None. intros H1 H2.
  revert l2 H1 H2. induction l1 as [|r1 l1 IH] using rev_ind; intros l2.
  { destruct l2; [|done]. intros. left. constructor. }
  destruct l2 as [|r2 l2 _] using rev_ind; [rewrite length_app; simpl; intros; lia|].
  rewrite !length_app, !chain_end_snoc. simpl.
  intros (Hc1 & _ & Hh1 & _)%chained_app (Hc2 & _ & Hh2 & _)%chained_app Hlen Hend.
  rewrite Hh1, Hh2 in Hend.
  apply compute_hash_split in Hend as [[Hp Hcan]|]; [|by right|].
  - destruct (IH l2) as [Hall|]; [done|done|lia|done| |by right].
    left. apply Forall2_app; [done|]. constructor; [|constructor]. by apply canonical_inj.
  - rewrite !(chain_end_length n) by done. done.
Qed.

(** Replacing one record that has a successor by any record whose audited
    fields differ, whatever hashes it carries, is reported at that record or
    at its successor, unless the hash function has a collision. *)
Theorem audit_edit_detected anchor l1 r r' next l2 :
  chain_verify (l1 ++ r :: next :: l2) anchor = None →
  ¬ same_payload r' r →
  chain_verify (l1 ++ r' :: next :: l2) anchor = Some (length l1) ∨
  chain_verify (l1 ++ r' :: next :: l2) anchor = Some (S (length l1)) ∨
  collision.
Proof.
  unfold AuditTrail.chain_verify. intros Hok Hdiff.
  assert (∀ a k, verify_from sha256_hex isoformat a k (l1 ++ r :: next :: l2) = None →
    verify_from sha256_hex isoformat a k (l1 ++ r' :: next :: l2) = Some (k + length l1)%nat ∨
    verify_from sha256_hex isoformat a k (l1 ++ r' :: next :: l2) = Some (S (k + length l1)) ∨
    collision) as H; [|apply (H anchor 0%nat Hok)]. clear Hok.
  induction l1 as [|r0 l1 IH]; intros a k; simpl.
  - case_bool_decide; [done|]. case_bool_decide as Hh; [done|].
    case_bool_decide as Hn; [done|]. intros _.
    case_bool_decide; [left; f_equal; lia|].
    case_bool_decide as Hh'; [left; f_equal; lia|].
    case_bool_decide as Hn'; [right; left; f_equal; lia|].
    assert (compute_hash a r' = compute_hash a r) as Heq by congruence.
    apply compute_hash_inj in Heq as [Hc|]; [by apply canonical_inj in Hc|by do 2 right].
  - case_bool_decide; [done|]. case_bool_decide; [done|]. intros Hrec%IH.
    by replace (k + S (length l1))%nat with (S k + length l1)%nat by lia.
Qed.

(** Dropping the last records leaves a chain that still verifies: the
    chain alone does not reveal truncation. *)
Theorem audit_truncation_undetected anchor l1 l2 :
  chain_verify (l1 ++ l2) anchor = None → chain_verify l1 anchor = None.
Proof.
  rewrite !chain_verify_None, chained_app. by intros [? _].
Qed.
End Guarantees.

(** ** Witnesses on a concrete log *)

(** A checksum with 4-character digests stands in for SHA-256. *)
Definition demo_hash (s : string) : string :=
  let n := foldl (λ acc c, (acc * 31 + N_of_ascii c) mod 9000)%N 7%N (String.list_ascii_of_string s) in
  pretty (1000 + n)%N.

Definition demo_isoformat (t : Z) : string := pretty t.

Definition demo_log : AuditLog :=
  let add log '(t, actor, action, subject) :=
    match audit_append demo_hash demo_isoformat t actor action subject None DEFAULT_CONTEXT log with
    | Some (_, log') => log' | None => log end in
  foldl add audit_init
    [(10%Z, "alice", "transition", "run-1"); (20%Z, "bob", "pause", "run-1"); (30%Z, "guard", "guard.pause", "run-2")].

Lemma demo_log_reachable :
  rtc (audit_step demo_hash demo_isoformat) audit_init (audit_prune 15 None demo_log).2.
Proof.
  eapply rtc_l; [eapply (step_append _ _ 10 "alice" "transition" "run-1" None DEFAULT_CONTEXT); reflexivity|].
  eapply rtc_l; [eapply (step_append _ _ 20 "bob" "pause" "run-1" None DEFAULT_CONTEXT); reflexivity|].
  eapply rtc_l; [eapply (step_append _ _ 30 "guard" "guard.pause" "run-2" None DEFAULT_CONTEXT); reflexivity|].
  eapply rtc_l; [eapply (step_prune _ _ 15 None)|apply rtc_refl].
Qed.

Lemma audit_log_always_verifies_witness :
  audit_verify demo_hash demo_isoformat (audit_prune 15 None demo_log).2 = true ∧
  length (al_records (audit_prune 15 None demo_log).2) = 2%nat.
Proof.
  split; [|vm_compute; reflexivity].
  exact (proj1 (audit_log_always_verifies demo_hash demo_isoformat _ demo_log_reachable)).
Defined.

(** The tamper-evidence witness: a digest of constant length 4. *)
Definition const_hash (s : string) : string := "ab12".

Definition const_record (i : N) (actor : string) : AuditRecord :=
  {| ar_sequence := i; ar_actor := actor; ar_action := "transition"; ar_subject := "run-1";
     ar_created_at := 10; ar_detail := None; ar_prev_hash := "ab12"; ar_hash := "ab12";
     ar_tenant_id := "default" |}.

Lemma audit_tamper_evident_witness :
  Forall2 (same_payload demo_isoformat) [const_record 0 "alice"] [const_record 0 "bob"] ∨
  collision const_hash.
Proof.
  apply (audit_tamper_evident const_hash demo_isoformat 4 "ab12"); reflexivity.
Defined.

Definition demo_record (i : nat) : AuditRecord :=
  default (const_record 0 "nobody") (al_records demo_log !! i).

Lemma audit_edit_detected_witness :
  chain_verify demo_hash demo_isoformat [demo_record 0; const_record 1 "mallory"; demo_record 2] NULL_HASH = Some 1%nat ∨
  chain_verify demo_hash demo_isoformat [demo_record 0; const_record 1 "mallory"; demo_record 2] NULL_HASH = Some 2%nat ∨
  collision demo_hash.
Proof.
  apply (audit_edit_detected demo_hash demo_isoformat NULL_HASH [demo_record 0] (demo_record 1)
           (const_record 1 "mallory") (demo_record 2) []).
  - vm_compute; reflexivity.
  - intros (_ & Hactor & _). discriminate Hactor.
Defined.

Lemma audit_truncation_undetected_witness :
  chain_verify demo_hash demo_isoformat (take 2 (al_records demo_log)) NULL_HASH = None.
Proof.
  apply (audit_truncation_undetected demo_hash demo_isoformat NULL_HASH _ (drop 2 (al_records demo_log))).
  vm_compute; reflexivity.
Defined.
