(* ===== verification/Merkle.v ===== *)
(** * Merkle integrity proofs ([reporting/merkle.py])

    The root over a list of values, the direction-tagged sibling path of one
    leaf and its verification.  As for the audit chain, SHA-256 is a parameter
    and binding is stated up to an explicit collision. *)

From Stdlib Require Import Ascii.
From stdpp Require Import base strings numbers list.
From S2P Require Import Prelude AuditTrail.

Section Merkle.
Variable sha256_hex : string → string.

Definition NULL_ROOT : string := NULL_HASH.

Definition leaf_hash (value : string) : string := sha256_hex value.

Definition combine (left right : string) : string := sha256_hex (left +:+ right).

(** [if len(level) % 2 == 1: level.append(level[-1])]. *)
Definition pad_odd (level : list string) : list string :=
  if Nat.odd (length level) then
    match last level with Some x => level ++ [x] | None => level end
  else level.

(** [[_combine(level[i], level[i + 1]) for i in range(0, len(level), 2)]]. *)
Fixpoint pair_up (level : list string) : list string :=
  match level with
  | a :: b :: rest => combine a b :: pair_up rest
  | _ => []
  end.

Definition next_level (level : list string) : list string := pair_up (pad_odd level).

(** The [while len(level) > 1] loop; [None] when the fuel runs out. *)
Fixpoint root_loop (fuel : nat) (level : list string) : option string :=
  match fuel with
  | O => None
  | S fuel' =>
      if (1 <? length level)%nat then root_loop fuel' (next_level level) else head level
  end.

Definition merkle_root (leaves : list string) : option string :=
  match leaves with
  | [] => Some NULL_ROOT
  | _ => root_loop (length leaves) (leaf_hash <$> leaves)
  end.

Definition LEFT : string := "L".
Definition RIGHT : string := "R".

(** One proof entry, [f"{side}:{hash}"]. *)
Definition proof_entry (side sibling : string) : string := side +:+ ":" +:+ sibling.

Fixpoint proof_loop (fuel : nat) (level : list string) (position : nat) : option (list string) :=
  match fuel with
  | O => None
  | S fuel' =>
      if (1 <? length level)%nat then
        let padded := pad_odd level in
        let sibling := Nat.lxor position 1 in
        let side := if (sibling <? position)%nat then LEFT else RIGHT in
        match padded !! sibling with
        | None => None
        | Some h =>
            match proof_loop fuel' (pair_up padded) (position / 2) with
            | Some rest => Some (proof_entry side h :: rest)
            | None => None
            end
        end
      else Some []
  end.

(** [merkle_proof]; [None] is the [IndexError]. *)
Definition merkle_proof (leaves : list string) (index : Z) : option (list string) :=
  if (index <? 0)%Z || (Z.of_nat (length leaves) <=? index)%Z then None
  else proof_loop (length leaves) (leaf_hash <$> leaves) (Z.to_nat index).

(** [step.partition(":")] at the first colon, [None] without one. *)
Fixpoint partition_colon (s : string) : option (string * string) :=
  match s with
  | EmptyString => None
  | String c s' =>
      if bool_decide (c = ":"%char) then Some (EmptyString, s')
      else match partition_colon s' with
           | Some (side, rest) => Some (String c side, rest)
           | None => None
           end
  end.

Fixpoint verify_loop (current : string) (proof : list string) : option string :=
  match proof with
  | [] => Some current
  | step :: rest =>
      match partition_colon step with
      | None => None
      | Some (side, sibling) =>
          if bool_decide (side = LEFT) then verify_loop (combine sibling current) rest
          else if bool_decide (side = RIGHT) then verify_loop (combine current sibling) rest
          else None
      end
  end.

Definition verify_proof (leaf : string) (proof : list string) (root : string) : bool :=
  bool_decide (verify_loop (leaf_hash leaf) proof = Some root).

(** ** Levels *)

Lemma pad_odd_even level : Nat.even (length (pad_odd level)) = true.
Proof.
  unfold pad_odd. destruct (Nat.odd (length level)) eqn:Ho.
  - destruct (last level) eqn:Hl.
    + rewrite length_app. simpl. rewrite Nat.add_1_r, Nat.even_succ. done.
    + apply last_None in Hl. by subst.
  - by rewrite <-Nat.negb_odd, Ho.
Qed.

Lemma pad_odd_length level :
  length (pad_odd level) = (length level + if Nat.odd (length level) then 1 else 0)%nat.
Proof.
  unfold pad_odd. destruct (Nat.odd (length level)) eqn:Ho; [|lia].
  destruct (last level) eqn:Hl; [by rewrite length_app|]. apply last_None in Hl. by subst.
Qed.

Lemma pad_odd_lookup level i x : level !! i = Some x → pad_odd level !! i = Some x.
Proof.
  intros Hi. unfold pad_odd. repeat case_match; try done.
  rewrite lookup_app_l; [done|]. by eapply lookup_lt_Some.
Qed.

Lemma pair_up_length level :
  Nat.even (length level) = true → (length (pair_up level) * 2 = length level)%nat.
Proof.
  induction level as [|a|a b rest IH] using list_pair_ind; simpl; [done|done|].
  intros Heven. rewrite IH by done. lia.
Qed.

Lemma pair_up_lookup level i a b :
  level !! (2 * i)%nat = Some a → level !! (2 * i + 1)%nat = Some b →
  pair_up level !! i = Some (combine a b).
Proof.
  revert i. induction level as [|x|x y rest IH] using list_pair_ind; intros i; cbn [pair_up].
  - by rewrite lookup_nil.
  - intros _ Hb. apply lookup_lt_Some in Hb. simpl in Hb. lia.
  - destruct i as [|i]; [by intros [= ->] [= ->]|].
    replace (2 * S i + 1)%nat with (S (S (2 * i + 1))) by lia.
    replace (2 * S i)%nat with (S (S (2 * i))) by lia. apply IH.
Qed.

Lemma next_level_length level :
  (1 < length level)%nat →
  (0 < length (next_level level) < length level)%nat ∧
  (length level ≤ 2 * length (next_level level))%nat.
Proof.
  intros Hlen. unfold next_level.
  pose proof (pair_up_length _ (pad_odd_even level)) as H. rewrite pad_odd_length in H.
  destruct (Nat.odd (length level)) eqn:Ho; [|lia].
  destruct (decide (length level = 2)) as [H2|]; [by rewrite H2 in Ho|]. lia.
Qed.

(** Enough fuel for the loop: each iteration strictly shortens the level. *)
Lemma root_loop_fuel f1 f2 level :
  level ≠ [] → (length level ≤ f1)%nat → (length level ≤ f2)%nat →
  root_loop f1 level = root_loop f2 level ∧ is_Some (root_loop f1 level).
Proof.
  revert f2 level. induction f1 as [|f1 IH]; intros [|f2] level Hne H1 H2; simpl;
    try (destruct level; simpl in *; done || lia).
  destruct (1 <? length level)%nat eqn:Hlen.
  - apply Nat.ltb_lt, next_level_length in Hlen as [[Hpos Hlt] _].
    apply IH; [|lia|lia]. intros Hn. rewrite Hn in Hpos. simpl in Hpos. lia.
  - destruct level; simpl; [done|]. eauto.
Qed.

(** ** Sibling positions *)

Lemma lxor_1_even n : Nat.lxor (2 * n) 1 = (2 * n + 1)%nat.
Proof.
  rewrite <-Nat.add_nocarry_lxor; [done|]. change 1%nat with (Nat.ones 1) at 2.
  rewrite Nat.land_ones. change (2 ^ 1)%nat with 2%nat. rewrite Nat.mul_comm. apply Nat.Div0.mod_mul.
Qed.

Lemma lxor_1_odd n : Nat.lxor (2 * n + 1) 1 = (2 * n)%nat.
Proof. by rewrite <-lxor_1_even, Nat.lxor_assoc, Nat.lxor_nilpotent, Nat.lxor_0_r. Qed.

Lemma position_cases p : ∃ n, (p = 2 * n ∨ p = 2 * n + 1)%nat ∧ (p / 2 = n)%nat.
Proof. exists (p / 2)%nat. split; [|done]. pose proof (Nat.div_mod_eq p 2). pose proof (Nat.mod_upper_bound p 2). lia. Qed.

Lemma partition_proof_entry_L h : partition_colon (proof_entry LEFT h) = Some (LEFT, h).
Proof. done. Qed.

Lemma partition_proof_entry_R h : partition_colon (proof_entry RIGHT h) = Some (RIGHT, h).
Proof. done. Qed.

(** The path of a position folds to the root of the level. *)
Lemma proof_loop_verify fuel level p cur :
  (length level ≤ fuel)%nat → level !! p = Some cur →
  ∃ proof, proof_loop fuel level p = Some proof ∧ verify_loop cur proof = root_loop fuel level.
Proof.
  revert level p cur. induction fuel as [|fuel IH]; intros level p cur Hfuel Hp; cbn [proof_loop root_loop].
  { apply lookup_lt_Some in Hp. lia. }
  destruct (1 <? length level)%nat eqn:Hlen; last first.
  { exists []. split; [done|]. simpl. apply Nat.ltb_ge in Hlen.
    destruct level as [|x [|]], p; simpl in *; try done; lia. }
  apply Nat.ltb_lt in Hlen. pose proof (next_level_length level Hlen) as [[_ Hlt] _].
  pose proof (pad_odd_lookup _ _ _ Hp) as Hpad.
  pose proof (pad_odd_even level) as Heven. apply Nat.even_spec in Heven as [m Hm].
  pose proof (lookup_lt_Some _ _ _ Hpad) as Hplt.
  destruct (position_cases p) as (n & Hcase & Hdiv). rewrite Hdiv. destruct Hcase as [->| ->].
  - rewrite lxor_1_even.
    destruct (lookup_lt_is_Some_2 (pad_odd level) (2 * n + 1)) as [h Hh]; [lia|]. rewrite Hh.
    replace (2 * n + 1 <? 2 * n)%nat with false by (symmetry; apply Nat.ltb_ge; lia).
    destruct (IH (next_level level) n (combine cur h)) as (proof & Hproof & Hver); [lia|by apply pair_up_lookup|].
    unfold next_level in Hproof. rewrite Hproof. eexists; split; [done|]. simpl. done.
  - rewrite lxor_1_odd.
    destruct (lookup_lt_is_Some_2 (pad_odd level) (2 * n)) as [h Hh]; [lia|]. rewrite Hh.
    replace (2 * n <? 2 * n + 1)%nat with true by (symmetry; apply Nat.ltb_lt; lia).
    destruct (IH (next_level level) n (combine h cur)) as (proof & Hproof & Hver); [lia|by apply pair_up_lookup|].
    unfold next_level in Hproof. rewrite Hproof. eexists; split; [done|]. simpl. done.
Qed.

(** ** Guarantees *)

(** C40: for every leaf, the generated sibling path exists and verifies against
    the root of the list (completeness), and the root computation terminates. *)
Theorem merkle_proof_complete leaves i leaf :
  leaves !! i = Some leaf →
  ∃ root proof, merkle_root leaves = Some root ∧
    merkle_proof leaves (Z.of_nat i) = Some proof ∧ verify_proof leaf proof root = true.
Proof.
  intros Hi. pose proof (lookup_lt_Some _ _ _ Hi) as Hlt.
  assert (leaves ≠ []) as Hne by (by intros ->).
  assert (merkle_root leaves = root_loop (length leaves) (leaf_hash <$> leaves)) as ->.
  { by destruct leaves. }
  assert ((leaf_hash <$> leaves) !! i = Some (leaf_hash leaf)) as Hi'.
  { by rewrite list_lookup_fmap, Hi. }
  destruct (proof_loop_verify (length leaves) (leaf_hash <$> leaves) i (leaf_hash leaf))
    as (proof & Hproof & Hver); [by rewrite length_fmap|done|].
  destruct (root_loop_fuel (length leaves) (length leaves) (leaf_hash <$> leaves)) as [_ [root Hroot]];
    rewrite ?length_fmap; try lia; [by destruct leaves|].
  exists root, proof. split_and!; [done| |].
  - unfold merkle_proof. rewrite Nat2Z.id.
    replace (Z.of_nat i <? 0)%Z with false by lia.
    by replace (Z.of_nat (length leaves) <=? Z.of_nat i)%Z with false by lia.
  - apply bool_decide_eq_true. congruence.
Qed.

(** A negative or too large index raises instead of producing a path. *)
Theorem merkle_proof_out_of_range leaves index :
  (index < 0 ∨ Z.of_nat (length leaves) ≤ index)%Z → merkle_proof leaves index = None.
Proof.
  intros H. unfold merkle_proof.
  replace ((index <? 0)%Z || (Z.of_nat (length leaves) <=? index)%Z) with true; [done|].
  symmetry. apply orb_true_iff. lia.
Qed.

Section Binding.
Context (n : nat) (Hlen : ∀ x, String.length (sha256_hex x) = n).
Local Abbreviation digests l := (Forall (λ h, String.length h = n) l).

Lemma combine_inj a b a' b' :
  String.length a = n → String.length a' = n →
  combine a b = combine a' b' → (a = a' ∧ b = b') ∨ collision sha256_hex.
Proof.
  intros Ha Ha' H. unfold combine in H.
  destruct (decide (a +:+ b = a' +:+ b')) as [Heq|Hne].
  - left. apply string_app_split in Heq; [done|congruence].
  - right. by exists (a +:+ b), (a' +:+ b').
Qed.

Lemma leaf_hash_inj v v' : leaf_hash v = leaf_hash v' → v = v' ∨ collision sha256_hex.
Proof.
  intros H. destruct (decide (v = v')) as [|Hne]; [by left|]. right. by exists v, v'.
Qed.

Lemma pair_up_digests l : digests (pair_up l).
Proof.
  induction l as [|x|x y l IH] using list_pair_ind; simpl; constructor; [apply Hlen|done].
Qed.

Lemma pad_odd_digests l : digests l → digests (pad_odd l).
Proof.
  intros Hl. unfold pad_odd. repeat case_match; try done.
  apply Forall_app. split; [done|]. constructor; [|constructor].
  eapply Forall_forall in Hl; [exact Hl|]. by eapply last_Some_elem_of.
Qed.

Lemma pair_up_inj l l' :
  length l = length l' → Nat.even (length l) = true → digests l → digests l' →
  pair_up l = pair_up l' → l = l' ∨ collision sha256_hex.
Proof.
  revert l'. induction l as [|x|x y l IH] using list_pair_ind; intros [|x' [|y' l']]; simpl; try done.
  { by left. }
  intros [= Hl] Heven Hd Hd' [= Hc Hr].
  inversion_clear Hd as [|? ? Hx Hd1]. inversion_clear Hd1 as [|? ? Hy Hd2].
  inversion_clear Hd' as [|? ? Hx' Hd1']. inversion_clear Hd1' as [|? ? Hy' Hd2'].
  destruct (combine_inj _ _ _ _ Hx Hx' Hc) as [[-> ->]|]; [|by right].
  destruct (IH l') as [->|]; auto.
Qed.

Lemma pad_odd_inj l l' : length l = length l' → pad_odd l = pad_odd l' → l = l'.
Proof.
  intros Hl. unfold pad_odd. rewrite <-Hl. destruct (Nat.odd (length l)); [|done].
  destruct (last l) eqn:H1, (last l') eqn:H2; intros Heq; try done.
  - by apply app_inj_tail in Heq as [-> _].
  - apply last_None in H2. subst. by destruct l.
  - apply last_None in H1. subst. by destruct l'.
Qed.

Lemma root_loop_inj fuel l l' :
  length l = length l' → l ≠ [] → digests l → digests l' → is_Some (root_loop fuel l) →
  root_loop fuel l = root_loop fuel l' → l = l' ∨ collision sha256_hex.
Proof.
  revert l l'. induction fuel as [|fuel IH]; intros l l' Hl Hne Hd Hd'; cbn [root_loop].
  { by intros [? ?]. }
  rewrite <-Hl. destruct (1 <? length l)%nat eqn:Hlt.
  - apply Nat.ltb_lt in Hlt. intros Hsome Heq.
    assert (length (pad_odd l) = length (pad_odd l')) as Hpl by (by rewrite !pad_odd_length, Hl).
    pose proof (pair_up_length _ (pad_odd_even l)) as Hp1.
    pose proof (pair_up_length _ (pad_odd_even l')) as Hp2.
    destruct (IH (next_level l) (next_level l')) as [Hn|]; auto using pair_up_digests.
    + unfold next_level. lia.
    + intros Hn. destruct (next_level_length l Hlt) as [[? _] _]. rewrite Hn in *. simpl in *. lia.
    + apply pair_up_digests.
    + apply pair_up_digests.
    + apply pair_up_inj in Hn as [Hn|]; auto using pad_odd_even, pad_odd_digests.
      left. by apply pad_odd_inj.
  - apply Nat.ltb_ge in Hlt. intros _ Heq. left.
    destruct l as [|x [|]], l' as [|x' [|]]; simpl in *; try done; try lia. by simplify_eq.
Qed.

(** Two lists of the same length with the same root are equal, unless the
    hash function has a collision (digests of one length, as SHA-256's). *)
Theorem merkle_root_binding leaves leaves' :
  length leaves = length leaves' → merkle_root leaves = merkle_root leaves' →
  leaves = leaves' ∨ collision sha256_hex.
Proof.
  intros Hl Heq. destruct (decide (leaves = [])) as [->|Hne].
  { destruct leaves'; [by left|done]. }
  assert (merkle_root leaves = root_loop (length leaves) (leaf_hash <$> leaves)) as H1 by (by destruct leaves).
  assert (merkle_root leaves' = root_loop (length leaves) (leaf_hash <$> leaves')) as H2
    by (rewrite Hl; by destruct leaves, leaves').
  rewrite H1, H2 in Heq.
  assert (∀ l, digests (leaf_hash <$> l)) as Hdig.
  { intros l. apply Forall_fmap, Forall_true. intros. apply Hlen. }
  assert (length (leaf_hash <$> leaves) = length (leaf_hash <$> leaves')) as Hlen' by (by rewrite !length_fmap).
  assert (leaf_hash <$> leaves ≠ []) as Hne' by (by destruct leaves).
  assert (is_Some (root_loop (length leaves) (leaf_hash <$> leaves))) as Hs.
  { apply root_loop_fuel with (f2 := length leaves); rewrite ?length_fmap; auto. }
  destruct (root_loop_inj _ _ _ Hlen' Hne' (Hdig _) (Hdig _) Hs Heq) as [He|]; [|by right].
  clear -He Hl. rename He into Heq. revert leaves' Hl Heq. induction leaves as [|v l IH]; intros [|v' l'] Hl Heq; try done.
  { by left. }
  simpl in *. injection Heq as Hv Heq. destruct (leaf_hash_inj v v' Hv) as [->|]; [|by right].
  destruct (IH l') as [->|]; auto.
Qed.

(** One proof path and root accept at most one leaf value, unless the hash
    function has a collision. *)
Theorem merkle_path_binds_leaf leaf leaf' proof root :
  verify_proof leaf proof root = true → verify_proof leaf' proof root = true →
  leaf = leaf' ∨ collision sha256_hex.
Proof.
  unfold verify_proof. intros H1%bool_decide_eq_true H2%bool_decide_eq_true.
  assert (∀ c c', String.length c = n → String.length c' = n →
    verify_loop c proof = Some root → verify_loop c' proof = Some root → c = c' ∨ collision sha256_hex) as H.
  { clear H1 H2. induction proof as [|step proof IH]; intros c c' Hc Hc'; simpl.
    { intros. left. congruence. }
    destruct (partition_colon step) as [[side sib]|]; [|done].
    case_bool_decide.
    - intros Hv Hv'. destruct (IH _ _ (Hlen _) (Hlen _) Hv Hv') as [Heq|]; [|by right].
      unfold combine in Heq. destruct (decide (c = c')) as [|Hne]; [by left|right].
      exists (sib +:+ c), (sib +:+ c'). split; [|done]. by intros ?%string_app_inj.
    - case_bool_decide; [|done]. intros Hv Hv'.
      destruct (IH _ _ (Hlen _) (Hlen _) Hv Hv') as [Heq|]; [|by right].
      by destruct (combine_inj _ _ _ _ Hc Hc' Heq) as [[? _]|]; [left|right]. }
  destruct (H _ _ (Hlen _) (Hlen _) H1 H2) as [Heq|]; [|by right]. by apply leaf_hash_inj.
Qed.
End Binding.

(** The root does not bind the number of leaves: repeating the last value
    of a list of odd length (at least three) leaves the root unchanged, for
    every hash function. *)
Theorem merkle_root_duplicate_last l x :
  Nat.even (length l) = true → l ≠ [] →
  merkle_root (l ++ [x]) = merkle_root (l ++ [x; x]).
Proof.
  intros Heven Hne.
  assert (∀ l', l' ≠ [] → merkle_root l' = root_loop (length l') (leaf_hash <$> l')) as Hroot.
  { by intros []. }
  rewrite !Hroot by (by destruct l). clear Hroot.
  assert (2 ≤ length l)%nat as H2 by (destruct l as [|? [|]]; simpl in *; done || lia).
  assert (∀ f lv, root_loop (S f) lv = if (1 <? length lv)%nat then root_loop f (next_level lv) else head lv)
    as Hs by done.
  rewrite !length_app. cbn [length]. rewrite (Nat.add_comm _ 1), (Nat.add_comm _ 2).
  change (1 + length l)%nat with (S (length l)). change (2 + length l)%nat with (S (S (length l))).
  rewrite (Hs (length l)), (Hs (S (length l))), !length_fmap, !length_app. cbn [length].
  replace (1 <? length l + 1)%nat with true by (symmetry; apply Nat.ltb_lt; lia).
  replace (1 <? length l + 2)%nat with true by (symmetry; apply Nat.ltb_lt; lia).
  assert (next_level (leaf_hash <$> (l ++ [x])) = next_level (leaf_hash <$> (l ++ [x; x]))) as ->.
  { unfold next_level, pad_odd. rewrite !length_fmap, !length_app. cbn [length].
    rewrite Nat.add_1_r, Nat.odd_succ, Heven.
    replace (length l + 2)%nat with (S (S (length l))) by lia.
    rewrite Nat.odd_succ, Nat.even_succ, <-Nat.negb_even, Heven. simpl.
    rewrite !fmap_app. simpl. by rewrite last_snoc, <-app_assoc. }
  pose proof (pair_up_length _ (pad_odd_even (leaf_hash <$> (l ++ [x; x])))) as Hp.
  rewrite pad_odd_length, length_fmap, length_app in Hp. cbn [length] in Hp.
  replace (length l + 2)%nat with (S (S (length l))) in Hp by lia.
  rewrite Nat.odd_succ, Nat.even_succ, <-Nat.negb_even, Heven in Hp. simpl in Hp.
  apply root_loop_fuel; unfold next_level; [|lia|lia].
  intros Hn. rewrite Hn in Hp. simpl in Hp. lia.
Qed.
End Merkle.

(** ** Witnesses *)

Lemma merkle_proof_complete_witness :
  ∃ root proof, merkle_root demo_hash ["a"; "b"; "c"] = Some root ∧
    merkle_proof demo_hash ["a"; "b"; "c"] 2 = Some proof ∧
    verify_proof demo_hash "c" proof root = true.
Proof. apply (merkle_proof_complete demo_hash ["a"; "b"; "c"] 2 "c"). reflexivity. Defined.

Lemma merkle_proof_out_of_range_witness : merkle_proof demo_hash ["a"; "b"] (-1) = None.
Proof. apply (merkle_proof_out_of_range demo_hash ["a"; "b"] (-1)). left. reflexivity. Defined.

Lemma merkle_root_binding_witness :
  ["a"; "b"; "c"] = ["a"; "b"; "c"] ∨ collision const_hash.
Proof.
  apply (merkle_root_binding const_hash 4); [intros; reflexivity|reflexivity|vm_compute; reflexivity].
Defined.

Lemma merkle_path_binds_leaf_witness : "a" = "b" ∨ collision const_hash.
Proof.
  apply (merkle_path_binds_leaf const_hash 4 (λ _, eq_refl) "a" "b" ["R:ffff"] "ab12"); vm_compute; reflexivity.
Defined.

Lemma merkle_root_duplicate_last_witness :
  merkle_root demo_hash ["a"; "b"; "c"] = merkle_root demo_hash ["a"; "b"; "c"; "c"].
Proof. apply (merkle_root_duplicate_last demo_hash ["a"; "b"] "c"); [reflexivity|discriminate]. Defined.
