(* ===== verification/Leader.v ===== *)
(** * Leader election ([ha/leader.py], [ha/store.py])

    A lease table with a fencing epoch, in its two implementations (the
    in-memory store and the row-locked PostgreSQL store, whose rows are a map
    since every method is one transaction on one locked row), and the elector
    that uses either through the [LeaderStore] protocol.  Instants are
    microseconds since the epoch. *)

From stdpp Require Import base strings gmap relations list.
From S2P Require Import Prelude.

Definition USEC : Z := 1000000.

Record LeaderLease := mkLease {
  ll_lock_key : string;
  ll_leader_id : string;
  ll_epoch : Z;
  ll_acquired_at : Z;
  ll_renewed_at : Z;
  ll_expires_at : Z;
}.

(** What pydantic checks on construction. *)
Definition lease_valid (l : LeaderLease) : bool :=
  bool_decide (ll_lock_key l ≠ EmptyString) && bool_decide (ll_leader_id l ≠ EmptyString)
  && (1 <=? ll_epoch l)%Z.

Inductive LeaderExn := ValidationError | OverflowError | StaleLeaderError (epoch : Z).

(** [now + timedelta(seconds=ttl_seconds)], which raises [OverflowError] outside
    the calendar. *)
Definition expiry (ttl_seconds now : Z) : option Z :=
  let t := (now + ttl_seconds * USEC)%Z in if dt_in_range t then Some t else None.

(** The renewed copy of a lease. *)
Definition lease_renewed (l : LeaderLease) (now expires_at : Z) : LeaderLease :=
  {| ll_lock_key := ll_lock_key l; ll_leader_id := ll_leader_id l; ll_epoch := ll_epoch l;
     ll_acquired_at := ll_acquired_at l; ll_renewed_at := now; ll_expires_at := expires_at |}.

(** ** The protocol *)

Class LeaderStore (S : Type) := {
  try_acquire : string → string → Z → Z → M S LeaderExn (option LeaderLease);
  renew : string → string → Z → Z → M S LeaderExn (option LeaderLease);
  release : string → string → M S LeaderExn unit;
  get_lease : string → M S LeaderExn (option LeaderLease);
  clear : M S LeaderExn unit;
}.

(** ** The in-memory store

    The counter of a lock is bumped before the lease is built, so an
    acquisition that raises has used up an epoch. *)

Module Mem.
Record t := mk { leases : gmap string LeaderLease; epochs : gmap string Z }.

Definition init : t := {| leases := ∅; epochs := ∅ |}.

Definition try_acquire (lock_key leader_id : string) (ttl_seconds now : Z)
    : M t LeaderExn (option LeaderLease) := λ s,
  let blocked :=
    match leases s !! lock_key with
    | Some current => (now <? ll_expires_at current)%Z && bool_decide (ll_leader_id current ≠ leader_id)
    | None => false
    end in
  if blocked then (Ret None, s)
  else
    let epoch := (default 0 (epochs s !! lock_key) + 1)%Z in
    let epochs' := <[lock_key := epoch]> (epochs s) in
    match expiry ttl_seconds now with
    | None => (Raise OverflowError, {| leases := leases s; epochs := epochs' |})
    | Some expires_at =>
        let lease := {| ll_lock_key := lock_key; ll_leader_id := leader_id; ll_epoch := epoch;
                        ll_acquired_at := now; ll_renewed_at := now; ll_expires_at := expires_at |} in
        if lease_valid lease
        then (Ret (Some lease), {| leases := <[lock_key := lease]> (leases s); epochs := epochs' |})
        else (Raise ValidationError, {| leases := leases s; epochs := epochs' |})
    end.

(** [renewed_at] of the stored lease is set before the new expiry is computed. *)
Definition renew (lock_key leader_id : string) (ttl_seconds now : Z)
    : M t LeaderExn (option LeaderLease) := λ s,
  match leases s !! lock_key with
  | None => (Ret None, s)
  | Some current =>
      if bool_decide (ll_leader_id current ≠ leader_id) || (ll_expires_at current <=? now)%Z
      then (Ret None, s)
      else
        match expiry ttl_seconds now with
        | None =>
            let current' := lease_renewed current now (ll_expires_at current) in
            (Raise OverflowError, {| leases := <[lock_key := current']> (leases s); epochs := epochs s |})
        | Some expires_at =>
            let current' := lease_renewed current now expires_at in
            (Ret (Some current'), {| leases := <[lock_key := current']> (leases s); epochs := epochs s |})
        end
  end.

Definition release (lock_key leader_id : string) : M t LeaderExn unit := λ s,
  match leases s !! lock_key with
  | Some current =>
      if bool_decide (ll_leader_id current = leader_id)
      then (Ret tt, {| leases := delete lock_key (leases s); epochs := epochs s |})
      else (Ret tt, s)
  | None => (Ret tt, s)
  end.

Definition get_lease (lock_key : string) : M t LeaderExn (option LeaderLease) :=
  λ s, (Ret (leases s !! lock_key), s).

Definition clear : M t LeaderExn unit := λ s, (Ret tt, init).
End Mem.

#[export] Instance Mem_store : LeaderStore Mem.t := {|
  try_acquire := Mem.try_acquire; renew := Mem.renew; release := Mem.release;
  get_lease := Mem.get_lease; clear := Mem.clear |}.

(** ** The PostgreSQL store

    A method that raises rolls its transaction back. *)

Module Pg.
Record Row := mkRow { row_leader_id : string; row_epoch : Z; row_expires_at : Z; row_payload : LeaderLease }.

Abbreviation t := (gmap string Row).

Definition RELEASED_LEADER : string := "__released__".

(** [datetime(1970, 1, 1, tzinfo=UTC)]. *)
Definition EPOCH : Z := 0.

Definition row_of (l : LeaderLease) : Row :=
  {| row_leader_id := ll_leader_id l; row_epoch := ll_epoch l;
     row_expires_at := ll_expires_at l; row_payload := l |}.

Definition try_acquire (lock_key leader_id : string) (ttl_seconds now : Z)
    : M t LeaderExn (option LeaderLease) := λ rows,
  let attempt (epoch : Z) :=
    match expiry ttl_seconds now with
    | None => (Raise OverflowError, rows)
    | Some expires_at =>
        let lease := {| ll_lock_key := lock_key; ll_leader_id := leader_id; ll_epoch := epoch;
                        ll_acquired_at := now; ll_renewed_at := now; ll_expires_at := expires_at |} in
        if lease_valid lease then (Ret (Some lease), <[lock_key := row_of lease]> rows)
        else (Raise ValidationError, rows)
    end in
  match rows !! lock_key with
  | Some row =>
      let existing := row_payload row in
      if (now <? ll_expires_at existing)%Z && bool_decide (ll_leader_id existing ≠ leader_id)
      then (Ret None, rows)
      else attempt (ll_epoch existing + 1)%Z
  | None => attempt 1%Z
  end.

Definition renew (lock_key leader_id : string) (ttl_seconds now : Z)
    : M t LeaderExn (option LeaderLease) := λ rows,
  match rows !! lock_key with
  | None => (Ret None, rows)
  | Some row =>
      let lease := row_payload row in
      if bool_decide (ll_leader_id lease ≠ leader_id) || (ll_expires_at lease <=? now)%Z
      then (Ret None, rows)
      else
        match expiry ttl_seconds now with
        | None => (Raise OverflowError, rows)
        | Some expires_at =>
            let lease' := lease_renewed lease now expires_at in
            (Ret (Some lease'),
             <[lock_key := {| row_leader_id := row_leader_id row; row_epoch := row_epoch row;
                              row_expires_at := ll_expires_at lease'; row_payload := lease' |}]> rows)
        end
  end.

Definition tombstone (l : LeaderLease) : LeaderLease :=
  {| ll_lock_key := ll_lock_key l; ll_leader_id := RELEASED_LEADER; ll_epoch := ll_epoch l;
     ll_acquired_at := ll_acquired_at l; ll_renewed_at := ll_renewed_at l; ll_expires_at := EPOCH |}.

Definition release (lock_key leader_id : string) : M t LeaderExn unit := λ rows,
  match rows !! lock_key with
  | Some row =>
      if bool_decide (row_leader_id row = leader_id)
      then (Ret tt, <[lock_key := {| row_leader_id := RELEASED_LEADER; row_epoch := row_epoch row;
                                     row_expires_at := EPOCH;
                                     row_payload := tombstone (row_payload row) |}]> rows)
      else (Ret tt, rows)
  | None => (Ret tt, rows)
  end.

Definition get_lease (lock_key : string) : M t LeaderExn (option LeaderLease) := λ rows,
  (Ret match rows !! lock_key with
       | Some row => if bool_decide (row_leader_id row = RELEASED_LEADER) then None else Some (row_payload row)
       | None => None
       end, rows).

Definition clear : M t LeaderExn unit := λ rows, (Ret tt, ∅).
End Pg.

#[export] Instance Pg_store : LeaderStore Pg.t := {|
  try_acquire := Pg.try_acquire; renew := Pg.renew; release := Pg.release;
  get_lease := Pg.get_lease; clear := Pg.clear |}.

(** ** The elector *)

Record LeaderElector := mkElector { el_leader_id : string; el_lock_key : string; el_ttl : Z }.

Section Elector.
Context {S : Type} `{!LeaderStore S}.
Local Open Scope hp_scope.
Implicit Types (e : LeaderElector) (now : Z).

Definition acquire e now : M S LeaderExn bool :=
  let* lease := try_acquire (el_lock_key e) (el_leader_id e) (el_ttl e) now in
  ret match lease with
      | Some l => bool_decide (ll_leader_id l = el_leader_id e)
      | None => false
      end.

Definition renew_lease e now : M S LeaderExn bool :=
  let* lease := renew (el_lock_key e) (el_leader_id e) (el_ttl e) now in
  ret match lease with Some _ => true | None => false end.

Definition release_lease e : M S LeaderExn unit := release (el_lock_key e) (el_leader_id e).

Definition current e : M S LeaderExn (option LeaderLease) := get_lease (el_lock_key e).

Definition is_leader e now : M S LeaderExn bool :=
  let* cur := get_lease (el_lock_key e) in
  ret match cur with
      | Some l => bool_decide (ll_leader_id l = el_leader_id e) && (now <? ll_expires_at l)%Z
      | None => false
      end.

Definition epoch e : M S LeaderExn Z :=
  let* cur := get_lease (el_lock_key e) in
  ret match cur with
      | Some l => if bool_decide (ll_leader_id l ≠ el_leader_id e) then 0%Z else ll_epoch l
      | None => 0%Z
      end.

(** [run_cycle]: the action runs only under an unexpired lease of this replica
    and receives its epoch. *)
Definition run_cycle {A} e now (action : Z → M S LeaderExn A) : M S LeaderExn (option A) :=
  let* cur := get_lease (el_lock_key e) in
  match cur with
  | Some l =>
      if bool_decide (ll_leader_id l ≠ el_leader_id e) || (ll_expires_at l <=? now)%Z
      then ret None
      else let* a := action (ll_epoch l) in ret (Some a)
  | None => ret None
  end.

Definition check_fence e now (ep : Z) : M S LeaderExn unit :=
  let* cur := get_lease (el_lock_key e) in
  match cur with
  | Some l =>
      if bool_decide (ll_epoch l ≠ ep) || (ll_expires_at l <=? now)%Z
      then raise (StaleLeaderError ep) else ret tt
  | None => raise (StaleLeaderError ep)
  end.
End Elector.

(** ** Traces of store operations *)

Inductive op :=
  | OpAcquire (lock_key leader_id : string) (ttl now : Z)
  | OpRenew (lock_key leader_id : string) (ttl now : Z)
  | OpRelease (lock_key leader_id : string)
  | OpGet (lock_key : string)
  | OpClear.

Inductive res := RLease (o : outcome LeaderExn (option LeaderLease)) | RUnit (o : outcome LeaderExn unit).

Definition exec {S} `{!LeaderStore S} (o : op) (s : S) : res * S :=
  match o with
  | OpAcquire k i ttl now => let '(r, s') := try_acquire k i ttl now s in (RLease r, s')
  | OpRenew k i ttl now => let '(r, s') := renew k i ttl now s in (RLease r, s')
  | OpRelease k i => let '(r, s') := release k i s in (RUnit r, s')
  | OpGet k => let '(r, s') := get_lease k s in (RLease r, s')
  | OpClear => let '(r, s') := clear s in (RUnit r, s')
  end.

Fixpoint exec_all {S} `{!LeaderStore S} (ops : list op) (s : S) : list res * S :=
  match ops with
  | [] => ([], s)
  | o :: ops' =>
      let '(r, s1) := exec o s in
      let '(rs, s2) := exec_all ops' s1 in (r :: rs, s2)
  end.

(** Callers name a lock and a replica, never use the store's tombstone marker
    as a replica id, live after 1970, and ask for leases that expire within the
    calendar. *)
Definition op_ok (o : op) : bool :=
  let id_ok (i : string) := bool_decide (i ≠ EmptyString) && bool_decide (i ≠ Pg.RELEASED_LEADER) in
  match o with
  | OpAcquire k i ttl now | OpRenew k i ttl now =>
      bool_decide (k ≠ EmptyString) && id_ok i && (0 <=? now)%Z && dt_in_range (now + ttl * USEC)
  | OpRelease k i => id_ok i
  | OpGet _ | OpClear => true
  end.

(** *** The two stores are observationally equivalent *)

(** One row of the table against one lock of the in-memory store. *)
Definition row_rel (row : option Pg.Row) (lease : option LeaderLease) (ep : option Z) : Prop :=
  match row with
  | None => lease = None ∧ ep = None
  | Some row =>
      ep = Some (ll_epoch (Pg.row_payload row)) ∧ (1 ≤ ll_epoch (Pg.row_payload row))%Z ∧
      Pg.row_leader_id row = ll_leader_id (Pg.row_payload row) ∧
      (if bool_decide (Pg.row_leader_id row = Pg.RELEASED_LEADER)
       then lease = None ∧ ll_expires_at (Pg.row_payload row) = Pg.EPOCH
       else lease = Some (Pg.row_payload row))
  end.

Definition store_rel (m : Mem.t) (rows : Pg.t) : Prop :=
  ∀ k, row_rel (rows !! k) (Mem.leases m !! k) (Mem.epochs m !! k).

Lemma store_rel_update m rows k row lease ep :
  store_rel m rows → row_rel (Some row) lease (Some ep) →
  store_rel {| Mem.leases := match lease with Some l => <[k := l]> (Mem.leases m) | None => delete k (Mem.leases m) end;
               Mem.epochs := <[k := ep]> (Mem.epochs m) |} (<[k := row]> rows).
Proof.
  intros Hrel Hrow k'. simpl. destruct (decide (k = k')) as [<-|Hne].
  - rewrite !lookup_insert_eq. destruct lease; rewrite ?lookup_insert_eq, ?lookup_delete_eq; exact Hrow.
  - rewrite !lookup_insert_ne by done.
    destruct lease; rewrite ?lookup_insert_ne, ?lookup_delete_ne by done; apply Hrel.
Qed.

Lemma store_rel_update' m rows k row lease ep :
  store_rel m rows → Mem.epochs m !! k = Some ep → row_rel (Some row) lease (Some ep) →
  store_rel {| Mem.leases := match lease with Some l => <[k := l]> (Mem.leases m) | None => delete k (Mem.leases m) end;
               Mem.epochs := Mem.epochs m |} (<[k := row]> rows).
Proof.
  intros Hrel Hep Hrow. pose proof (store_rel_update m rows k row lease ep Hrel Hrow) as H.
  by rewrite insert_id in H.
Qed.

Lemma acquire_sim m rows k i ttl now :
  store_rel m rows → k ≠ EmptyString → i ≠ EmptyString → i ≠ Pg.RELEASED_LEADER → (0 ≤ now)%Z →
  dt_in_range (now + ttl * USEC) = true →
  (Mem.try_acquire k i ttl now m).1 = (Pg.try_acquire k i ttl now rows).1 ∧
  store_rel (Mem.try_acquire k i ttl now m).2 (Pg.try_acquire k i ttl now rows).2.
Proof.
  intros Hrel Hk Hi Hr Hnow Hexpiry. pose proof (Hrel k) as Hrow.
  set (lease e := {| ll_lock_key := k; ll_leader_id := i; ll_epoch := e; ll_acquired_at := now;
    ll_renewed_at := now; ll_expires_at := now + ttl * USEC |}).
  assert (∀ e, (1 ≤ e)%Z → lease_valid (lease e) = true) as Hvalid.
  { intros e He. unfold lease_valid; simpl. rewrite !bool_decide_true by done. simpl. lia. }
  assert (∀ e, (1 ≤ e)%Z → row_rel (Some (Pg.row_of (lease e))) (Some (lease e)) (Some e)) as Hnew.
  { intros e He. simpl. by rewrite bool_decide_false by done. }
  unfold Mem.try_acquire, Pg.try_acquire, expiry. rewrite Hexpiry. fold (lease (default 0 (Mem.epochs m !! k) + 1)%Z).
  destruct (rows !! k) as [row|] eqn:Hrk; simpl in Hrow.
  - destruct Hrow as (Hep & Hge & Hid & Hcase). rewrite Hep. simpl.
    fold (lease (ll_epoch (Pg.row_payload row) + 1)%Z).
    case_bool_decide as Hrel'.
    + destruct Hcase as [Hl Hexp]. rewrite Hl, Hexp. simpl.
      replace (now <? Pg.EPOCH)%Z with false by (symmetry; apply Z.ltb_ge; unfold Pg.EPOCH; lia). simpl.
      rewrite Hvalid by lia. split; [done|]. apply (store_rel_update m rows k _ (Some _)); [done|]. apply Hnew. lia.
    + rewrite Hcase. destruct (_ && _); simpl; [done|].
      rewrite Hvalid by lia. split; [done|]. apply (store_rel_update m rows k _ (Some _)); [done|]. apply Hnew. lia.
  - destruct Hrow as [Hl Hep]. rewrite Hl, Hep. change (default 0 None + 1)%Z with 1%Z.
    fold (lease 1%Z). rewrite !Hvalid by lia. split; [done|]. apply (store_rel_update m rows k _ (Some _)); [done|]. apply Hnew. lia.
Qed.

Lemma renew_sim m rows k i ttl now :
  store_rel m rows → i ≠ Pg.RELEASED_LEADER → dt_in_range (now + ttl * USEC) = true →
  (Mem.renew k i ttl now m).1 = (Pg.renew k i ttl now rows).1 ∧
  store_rel (Mem.renew k i ttl now m).2 (Pg.renew k i ttl now rows).2.
Proof.
  intros Hrel Hr Hexpiry. pose proof (Hrel k) as Hrow. unfold Mem.renew, Pg.renew, expiry. rewrite Hexpiry.
  destruct (rows !! k) as [row|] eqn:Hrk; simpl in Hrow; last first.
  { destruct Hrow as [-> _]. done. }
  destruct Hrow as (Hep & Hge & Hid & Hcase). case_bool_decide as Hrel'.
  - destruct Hcase as [-> Hexp]. rewrite (bool_decide_true (_ ≠ i)) by congruence. done.
  - rewrite Hcase. destruct (_ || _) eqn:Hguard; simpl; [done|]. split; [done|].
    apply (store_rel_update' m rows k _ (Some _) (ll_epoch (Pg.row_payload row))); [done|done|].
    simpl. split_and!; [done|done|done|]. by rewrite bool_decide_false by done.
Qed.

Lemma release_sim m rows k i :
  store_rel m rows → i ≠ Pg.RELEASED_LEADER →
  (Mem.release k i m).1 = (Pg.release k i rows).1 ∧
  store_rel (Mem.release k i m).2 (Pg.release k i rows).2.
Proof.
  intros Hrel Hr. pose proof (Hrel k) as Hrow. unfold Mem.release, Pg.release.
  destruct (rows !! k) as [row|] eqn:Hrk; simpl in Hrow; last first.
  { destruct Hrow as [-> _]. done. }
  destruct Hrow as (Hep & Hge & Hid & Hcase). case_bool_decide as Hrel'.
  - destruct Hcase as [-> Hexp]. rewrite bool_decide_false by congruence. done.
  - rewrite Hcase, Hid. case_bool_decide; simpl; [|done]. split; [done|].
    apply (store_rel_update' m rows k _ None (ll_epoch (Pg.row_payload row))); [done|done|].
    simpl. by split_and!.
Qed.

Lemma get_sim m rows k :
  store_rel m rows → (Mem.get_lease k m).1 = (Pg.get_lease k rows).1.
Proof.
  intros Hrel. pose proof (Hrel k) as Hrow. unfold Mem.get_lease, Pg.get_lease. simpl. f_equal.
  destruct (rows !! k) as [row|]; simpl in Hrow; [|by destruct Hrow].
  destruct Hrow as (_ & _ & _ & Hcase). case_bool_decide; [by destruct Hcase|done].
Qed.

Lemma exec_sim o m rows :
  store_rel m rows → op_ok o = true →
  (exec o m).1 = (exec o rows).1 ∧ store_rel (exec o m).2 (exec o rows).2.
Proof.
  intros Hrel Hok. destruct o as [k i ttl now|k i ttl now|k i|k|]; cbn [op_ok] in Hok;
    cbn [exec try_acquire renew release get_lease clear Mem_store Pg_store];
    rewrite ?andb_true_iff, ?bool_decide_eq_true in Hok; destruct_and?.
  - destruct (acquire_sim m rows k i ttl now) as [Hs1 Hs2]; try done; [lia|].
    destruct (Mem.try_acquire k i ttl now m), (Pg.try_acquire k i ttl now rows); simpl in *. by subst.
  - destruct (renew_sim m rows k i ttl now) as [Hs1 Hs2]; try done.
    destruct (Mem.renew k i ttl now m), (Pg.renew k i ttl now rows); simpl in *. by subst.
  - destruct (release_sim m rows k i) as [Hs1 Hs2]; try done.
    destruct (Mem.release k i m), (Pg.release k i rows); simpl in *. by subst.
  - pose proof (get_sim m rows k Hrel) as Hg. simpl in *. injection Hg as Hg. by rewrite Hg.
  - simpl. split; [done|]. intros k. simpl. by rewrite !lookup_empty.
Qed.

Lemma exec_all_sim ops m rows :
  store_rel m rows → forallb op_ok ops = true →
  (exec_all ops m).1 = (exec_all ops rows).1 ∧ store_rel (exec_all ops m).2 (exec_all ops rows).2.
Proof.
  revert m rows. induction ops as [|o ops IH]; intros m rows Hrel; simpl; [done|].
  intros [Hok Hoks]%andb_true_iff. pose proof (exec_sim o m rows Hrel Hok) as [H1 H2].
  destruct (exec o m) as [r m1], (exec o rows) as [r' rows1]; simpl in *.
  pose proof (IH m1 rows1 H2 Hoks) as [H3 H4].
  destruct (exec_all ops m1), (exec_all ops rows1); simpl in *. by subst.
Qed.

(** C32: the PostgreSQL lease store and the in-memory one return the same answer
    to every operation of every trace that starts from empty stores, as long as
    the operations name a non-empty lock and replica, no replica is called
    ["__released__"] (the marker of a released row), and every acquire and renew
    is stamped after 1970 and asks for an expiry within the calendar. *)
Theorem leader_stores_equivalent ops :
  forallb op_ok ops = true →
  (exec_all ops Mem.init).1 = (exec_all ops (∅ : Pg.t)).1.
Proof.
  intros Hok. apply exec_all_sim; [|done]. intros k. simpl. by rewrite !lookup_empty.
Qed.

(** *** Fencing and mutual exclusion *)

Definition not_clear (o : op) : bool := match o with OpClear => false | _ => true end.

(** From epoch [e] on: the counter of [k] is at least [e], and so is the epoch
    of any lease held on it. *)
Definition fenced (k : string) (e : Z) (m : Mem.t) : Prop :=
  (e ≤ default 0 (Mem.epochs m !! k))%Z ∧
  ∀ l, Mem.leases m !! k = Some l → (e ≤ ll_epoch l)%Z.

Lemma fenced_exec k e o m : not_clear o = true → fenced k e m → fenced k e (exec o m).2.
Proof.
  intros Hnc [Hep Hl]. destruct o as [k' i ttl now|k' i ttl now|k' i|k'|]; [| | | |done];
    cbn [exec try_acquire renew release get_lease Mem_store].
  - unfold Mem.try_acquire.
    match goal with |- context [if ?b then (Ret None, m) else _] => destruct b end; [done|].
    destruct (decide (k' = k)) as [->|Hne].
    + destruct (expiry ttl now); simpl;
        [match goal with |- context [lease_valid ?x] => destruct (lease_valid x) end|];
        (split; simpl; rewrite ?lookup_insert_eq; simpl; [lia|try done; intros l [= <-]; simpl; lia]).
    + destruct (expiry ttl now); simpl;
        [match goal with |- context [lease_valid ?x] => destruct (lease_valid x) end|];
        (split; simpl; rewrite ?lookup_insert_ne by done; done).
  - unfold Mem.renew. destruct (Mem.leases m !! k') as [cur|] eqn:Hcur; [|done].
    destruct (_ || _); [done|]. destruct (expiry ttl now); (split; simpl; [done|]; intros l;
      destruct (decide (k' = k)) as [->|Hne]; [|rewrite lookup_insert_ne by done; apply Hl];
      rewrite lookup_insert_eq; intros [= <-]; simpl; by apply Hl).
  - unfold Mem.release. destruct (Mem.leases m !! k') as [cur|] eqn:Hcur; [|done].
    case_bool_decide; [|done]. split; simpl; [done|]. intros l.
    rewrite lookup_delete_Some. intros [_ ?]. by apply Hl.
  - done.
Qed.

Lemma fenced_exec_all k e ops m :
  forallb not_clear ops = true → fenced k e m → fenced k e (exec_all ops m).2.
Proof.
  revert m. induction ops as [|o ops IH]; intros m; simpl; [done|].
  intros [Ho Hops]%andb_true_iff Hf. apply (fenced_exec k e o) in Hf; [|done].
  destruct (exec o m) as [r m1]; simpl in *. specialize (IH m1 Hops Hf).
  by destruct (exec_all ops m1).
Qed.

(** A granted lease carries the epoch after the counter, and fences it. *)
Lemma acquire_fenced k i ttl now m l m' :
  Mem.try_acquire k i ttl now m = (Ret (Some l), m') →
  ll_epoch l = (default 0 (Mem.epochs m !! k) + 1)%Z ∧ fenced k (ll_epoch l) m'.
Proof.
  unfold Mem.try_acquire.
  match goal with |- context [if ?b then (Ret None, m) else _] => destruct b end; [done|].
  destruct (expiry ttl now); simpl; [|done]. case_match; [|done]. intros [= <- <-]. split; [done|].
  split; simpl; rewrite lookup_insert_eq; simpl; [done|]. by intros l [= <-].
Qed.

(** C33: once a lock has been granted again, a fence taken under the earlier
    grant is rejected for ever: after any further acquire, renew, release and
    read operations, [check_fence] with the old epoch raises
    [StaleLeaderError]; epochs of successive grants strictly increase. *)
Theorem stale_leader_fenced k i1 ttl1 t1 s l1 s1 between i2 ttl2 t2 l2 s2 after e now :
  Mem.try_acquire k i1 ttl1 t1 s = (Ret (Some l1), s1) →
  forallb not_clear between = true →
  Mem.try_acquire k i2 ttl2 t2 (exec_all between s1).2 = (Ret (Some l2), s2) →
  forallb not_clear after = true → el_lock_key e = k →
  (ll_epoch l1 < ll_epoch l2)%Z ∧
  (check_fence e now (ll_epoch l1) (exec_all after s2).2).1 = Raise (StaleLeaderError (ll_epoch l1)).
Proof.
  intros [_ Hf1]%acquire_fenced Hb Ha2 Haft <-.
  apply (fenced_exec_all _ _ between) in Hf1 as [Hge _]; [|done].
  apply acquire_fenced in Ha2 as [He2 Hf2].
  assert (ll_epoch l1 < ll_epoch l2)%Z as Hlt by lia. split; [done|].
  apply (fenced_exec_all _ _ after) in Hf2 as [_ Hl]; [|done].
  unfold check_fence, bind. cbn [get_lease Mem_store Mem.get_lease].
  destruct (Mem.leases _ !! _) as [l|] eqn:Hk; simpl; [|done].
  specialize (Hl l eq_refl). rewrite bool_decide_true by lia. done.
Qed.

(** Operations of replicas other than [i], stamped before [expiry]. *)
Definition other_before (i : string) (expiry : Z) (o : op) : bool :=
  match o with
  | OpAcquire _ i' _ now | OpRenew _ i' _ now => bool_decide (i' ≠ i) && (now <? expiry)%Z
  | OpRelease _ i' => bool_decide (i' ≠ i)
  | OpGet _ => true
  | OpClear => false
  end.

(** A leader is never displaced before its lease expires: whatever the other
    replicas do before the expiry, the lease is untouched, the holder still leads
    and no other replica does. *)
Theorem leader_not_displaced k i l s ops e e' now :
  Mem.leases s !! k = Some l → ll_leader_id l = i →
  forallb (other_before i (ll_expires_at l)) ops = true →
  el_lock_key e = k → el_leader_id e = i → el_lock_key e' = k → el_leader_id e' ≠ i →
  (now < ll_expires_at l)%Z →
  Mem.leases (exec_all ops s).2 !! k = Some l ∧
  (is_leader e now (exec_all ops s).2).1 = Ret true ∧
  (is_leader e' now (exec_all ops s).2).1 = Ret false.
Proof.
  intros Hl Hi Hops Hek Hei Hek' Hei' Hnow.
  enough (Mem.leases (exec_all ops s).2 !! k = Some l) as H.
  { split; [done|]. unfold is_leader, bind. cbn [get_lease Mem_store Mem.get_lease].
    rewrite Hek, Hek', H. simpl. rewrite (bool_decide_true (_ = el_leader_id e)) by congruence.
    rewrite (bool_decide_false (_ = el_leader_id e')) by congruence. simpl.
    by replace (now <? ll_expires_at l)%Z with true by (symmetry; apply Z.ltb_lt; lia). }
  clear Hek Hei Hek' Hei' Hnow e e' now. revert s Hl.
  induction ops as [|o ops IH]; intros s Hl; simpl; [done|].
  simpl in Hops. apply andb_true_iff in Hops as [Ho Hops].
  enough (Mem.leases (exec o s).2 !! k = Some l) as H1.
  { destruct (exec o s) as [r s1]; simpl in *. specialize (IH Hops s1 H1). by destruct (exec_all ops s1). }
  clear IH Hops ops. destruct o as [k' i' ttl t|k' i' ttl t|k' i'|k'|]; cbn [other_before] in Ho; [| | |done|done];
    rewrite ?andb_true_iff, ?bool_decide_eq_true in Ho;
    cbn [exec try_acquire renew release Mem_store];
    unfold Mem.try_acquire, Mem.renew, Mem.release; (destruct (decide (k' = k)) as [->|Hne]).
  - rewrite Hl. replace (t <? ll_expires_at l)%Z with true by lia.
    rewrite bool_decide_true by (destruct Ho; congruence). done.
  - match goal with |- context [if ?b then (Ret None, s) else _] => destruct b end; [done|].
    destruct (expiry ttl t); simpl; [match goal with |- context [lease_valid ?x] => destruct (lease_valid x) end|];
      simpl; by rewrite ?lookup_insert_ne by done.
  - rewrite Hl, bool_decide_true by (destruct Ho; congruence). done.
  - destruct (Mem.leases s !! k') as [cur|]; [|done]. destruct (_ || _); simpl; [done|].
    destruct (expiry ttl t); simpl; by rewrite lookup_insert_ne by done.
  - rewrite Hl, bool_decide_false by congruence. done.
  - destruct (Mem.leases s !! k') as [cur|]; [|done]. case_bool_decide; simpl; [|done].
    by rewrite lookup_delete_ne by done.
Qed.

(** Acquisition succeeds exactly when no other replica holds an unexpired
    lease; the new lease belongs to the caller, carries the next epoch and runs
    for the requested time.  When that time ends outside the calendar the
    acquisition raises, having used up the epoch. *)
Theorem acquire_spec k i ttl now s :
  k ≠ EmptyString → i ≠ EmptyString → (0 ≤ default 0 (Mem.epochs s !! k))%Z →
  if match Mem.leases s !! k with
     | Some l => (now <? ll_expires_at l)%Z && bool_decide (ll_leader_id l ≠ i)
     | None => false
     end
  then Mem.try_acquire k i ttl now s = (Ret None, s)
  else if negb (dt_in_range (now + ttl * USEC))
  then ∃ s', Mem.try_acquire k i ttl now s = (Raise OverflowError, s') ∧
    Mem.leases s' = Mem.leases s ∧
    Mem.epochs s' = <[k := (default 0 (Mem.epochs s !! k) + 1)%Z]> (Mem.epochs s)
  else ∃ l s', Mem.try_acquire k i ttl now s = (Ret (Some l), s') ∧
    Mem.leases s' !! k = Some l ∧ ll_leader_id l = i ∧
    ll_epoch l = (default 0 (Mem.epochs s !! k) + 1)%Z ∧ ll_expires_at l = (now + ttl * USEC)%Z.
Proof.
  intros Hk Hi Hep. unfold Mem.try_acquire, expiry.
  match goal with |- context [if ?b then _ = _ else _] => destruct b end; [done|].
  destruct (dt_in_range _); simpl; [|by eexists].
  unfold lease_valid; simpl. rewrite !bool_decide_true by done. simpl.
  replace (1 <=? default 0 (Mem.epochs s !! k) + 1)%Z with true by (symmetry; apply Z.leb_le; lia).
  eexists _, _. split; [done|]. simpl. by rewrite lookup_insert_eq.
Qed.

(** The two stores part on that exception: the transaction of the PostgreSQL
    store is rolled back, so the next lease it grants has the epoch the
    in-memory store has skipped. *)
Theorem overflow_splits_the_stores k i ttl now ttl' now' :
  k ≠ EmptyString → i ≠ EmptyString →
  dt_in_range (now + ttl * USEC) = false → dt_in_range (now' + ttl' * USEC) = true →
  ∃ l l', (exec_all [OpAcquire k i ttl now; OpAcquire k i ttl' now'] Mem.init).1
      = [RLease (Raise OverflowError); RLease (Ret (Some l))] ∧
    (exec_all [OpAcquire k i ttl now; OpAcquire k i ttl' now'] (∅ : Pg.t)).1
      = [RLease (Raise OverflowError); RLease (Ret (Some l'))] ∧
    ll_epoch l = 2%Z ∧ ll_epoch l' = 1%Z.
Proof.
  intros Hk Hi Hover Hin. cbn [exec_all exec try_acquire Mem_store Pg_store].
  unfold Mem.try_acquire, Pg.try_acquire, expiry, Mem.init, lease_valid. cbn.
  rewrite !lookup_empty, Hover, Hin. cbn. rewrite !lookup_insert_eq, !lookup_empty. cbn.
  rewrite !bool_decide_true by done. cbn. by do 2 eexists.
Qed.

(** [epoch()] ignores the expiry: a replica whose lease has run out is not
    the leader but is still given its old, non-zero epoch. *)
Theorem epoch_ignores_expiry e now l s :
  Mem.leases s !! el_lock_key e = Some l → ll_leader_id l = el_leader_id e →
  (ll_expires_at l ≤ now)%Z →
  (is_leader e now s).1 = Ret false ∧ (epoch e s).1 = Ret (ll_epoch l).
Proof.
  intros Hl Hi Hexp. unfold is_leader, epoch, bind. cbn [get_lease Mem_store Mem.get_lease].
  rewrite Hl. simpl. rewrite (bool_decide_false (ll_leader_id l ≠ _)) by congruence.
  by replace (now <? ll_expires_at l)%Z with false by (symmetry; apply Z.ltb_ge; lia); rewrite andb_false_r.
Qed.

(** ** Witnesses *)

Definition demo_ops : list op :=
  [OpAcquire "reconcile" "a" 30 100; OpAcquire "reconcile" "b" 30 200; OpRenew "reconcile" "a" 30 300;
   OpRelease "reconcile" "a"; OpAcquire "reconcile" "b" 30 400; OpGet "reconcile"].

Lemma leader_stores_equivalent_witness :
  (exec_all demo_ops Mem.init).1 = (exec_all demo_ops (∅ : Pg.t)).1.
Proof. apply leader_stores_equivalent. vm_compute. reflexivity. Defined.

Definition demo_lease (i : string) (ep t : Z) : LeaderLease :=
  {| ll_lock_key := "reconcile"; ll_leader_id := i; ll_epoch := ep; ll_acquired_at := t;
     ll_renewed_at := t; ll_expires_at := t + 30 * USEC |}.

Definition demo_held : Mem.t :=
  {| Mem.leases := {["reconcile" := demo_lease "a" 1 100]}; Mem.epochs := {["reconcile" := 1%Z]} |}.

Lemma stale_leader_fenced_witness :
  (check_fence (mkElector "a" "reconcile" 30) 500 1
     (exec_all [OpGet "reconcile"]
        (Mem.try_acquire "reconcile" "b" 30 400 (exec_all [OpRelease "reconcile" "a"] demo_held).2).2).2).1
  = Raise (StaleLeaderError 1).
Proof.
  refine (proj2 (stale_leader_fenced "reconcile" "a" 30 100 Mem.init (demo_lease "a" 1 100) demo_held
    [OpRelease "reconcile" "a"] "b" 30 400 (demo_lease "b" 2 400) _ [OpGet "reconcile"]
    (mkElector "a" "reconcile" 30) 500 _ _ _ _ _)); vm_compute; reflexivity.
Defined.

Lemma leader_not_displaced_witness :
  Mem.leases (exec_all [OpAcquire "reconcile" "b" 30 200; OpRelease "reconcile" "b"] demo_held).2 !! "reconcile"
  = Some (demo_lease "a" 1 100).
Proof.
  apply (leader_not_displaced "reconcile" "a" (demo_lease "a" 1 100) demo_held
    [OpAcquire "reconcile" "b" 30 200; OpRelease "reconcile" "b"]
    (mkElector "a" "reconcile" 30) (mkElector "b" "reconcile" 30) 300); try (vm_compute; reflexivity).
  vm_compute. discriminate.
Defined.

Lemma acquire_spec_witness :
  Mem.try_acquire "reconcile" "b" 30 200 demo_held = (Ret None, demo_held).
Proof.
  apply (acquire_spec "reconcile" "b" 30 200 demo_held); vm_compute; discriminate.
Defined.

Lemma epoch_ignores_expiry_witness :
  (is_leader (mkElector "a" "reconcile" 30) 40000000 demo_held).1 = Ret false ∧
  (epoch (mkElector "a" "reconcile" 30) demo_held).1 = Ret 1%Z.
Proof.
  apply (epoch_ignores_expiry (mkElector "a" "reconcile" 30) 40000000 (demo_lease "a" 1 100) demo_held);
    vm_compute; try reflexivity; discriminate.
Defined.
