(* ===== verification/Scheduler.v ===== *)
(** * The fleet scheduler ([scheduler/models.py], [scheduler/scheduler.py])

    Admission with backpressure, QoS/priority/aging order, checkpoint-safe
    preemption, maintenance freezes and the queue snapshot.  The queue and the
    running set are insertion-ordered dictionaries, because [max] and [min]
    over their values take the first best element; every clock reading is an
    argument. *)

From stdpp Require Import base strings gmap pretty numbers list.
From S2P Require Import Prelude Float64 Tenancy.

Inductive QosClass := GUARANTEED | BURSTABLE | BEST_EFFORT.

#[export] Instance QosClass_eq_dec : EqDecision QosClass.
Proof. solve_decision. Defined.

Definition qos_rank (q : QosClass) : Z :=
  match q with GUARANTEED => 2 | BURSTABLE => 1 | BEST_EFFORT => 0 end.

Definition preemptible (q : QosClass) : bool := bool_decide (q ≠ GUARANTEED).

Definition qos_value (q : QosClass) : string :=
  match q with GUARANTEED => "guaranteed" | BURSTABLE => "burstable" | BEST_EFFORT => "best_effort" end.

Inductive BackpressureReason := PER_TENANT_LIMIT | PER_WORKLOAD_LIMIT | QUEUE_DEPTH | MAINTENANCE.

Inductive AdmissionAction := QUEUED_ACTION | REJECTED_ACTION.

Record QueueEntry := mkEntry {
  qe_task_id : string;
  qe_tenant_id : string;
  qe_workload : string;
  qe_team : option string;
  qe_run_id : option string;
  qe_qos : QosClass;
  qe_priority : Z;
  qe_attempts : Z;
  qe_preempted_by : option string;
  qe_submitted_at : Z;
}.

Record AdmissionDecision := mkDecision {
  ad_entry : QueueEntry;
  ad_action : AdmissionAction;
  ad_reason : option BackpressureReason;
}.

Record PreemptionRecord := mkPreemption {
  pr_victim_task_id : string;
  pr_victim_workload : string;
  pr_victim_qos : QosClass;
  pr_preempted_by : string;
  pr_reason : string;
  pr_at : Z;
}.

Record WaitingReason := mkWaiting {
  wr_task_id : string; wr_workload : string; wr_qos : QosClass; wr_priority : Z; wr_reason : string }.

Record QueueSnapshot := mkSnapshot {
  qs_depth : nat;
  qs_by_qos : odict string Z;
  qs_by_priority : odict string Z;
  qs_waiting : list WaitingReason;
  qs_running_by_workload : odict string Z;
  qs_running_by_tenant : odict string Z;
}.

Record SchedulerConfig := mkConfig {
  per_workload_limit : nat;
  per_tenant_limit : nat;
  max_queue_depth : nat;
  aging_seconds : f64;
}.

Record Running := mkRunning { rn_entry : QueueEntry; rn_at_checkpoint : bool; rn_started_at : Z }.

Record Scheduler := mkScheduler {
  sc_config : SchedulerConfig;
  sc_queue : odict string QueueEntry;
  sc_running : odict string Running;
  sc_preemptions : list PreemptionRecord;
  sc_frozen_all : bool;
  sc_frozen_tenants : gset string;
  sc_frozen_workloads : gset string;
}.

Definition scheduler_init (config : SchedulerConfig) : Scheduler :=
  {| sc_config := config; sc_queue := []; sc_running := []; sc_preemptions := [];
     sc_frozen_all := false; sc_frozen_tenants := ∅; sc_frozen_workloads := ∅ |}.

Definition with_queue (s : Scheduler) (q : odict string QueueEntry) : Scheduler :=
  {| sc_config := sc_config s; sc_queue := q; sc_running := sc_running s;
     sc_preemptions := sc_preemptions s; sc_frozen_all := sc_frozen_all s;
     sc_frozen_tenants := sc_frozen_tenants s; sc_frozen_workloads := sc_frozen_workloads s |}.

Definition with_running (s : Scheduler) (r : odict string Running) : Scheduler :=
  {| sc_config := sc_config s; sc_queue := sc_queue s; sc_running := r;
     sc_preemptions := sc_preemptions s; sc_frozen_all := sc_frozen_all s;
     sc_frozen_tenants := sc_frozen_tenants s; sc_frozen_workloads := sc_frozen_workloads s |}.

Definition with_preemptions (s : Scheduler) (p : list PreemptionRecord) : Scheduler :=
  {| sc_config := sc_config s; sc_queue := sc_queue s; sc_running := sc_running s;
     sc_preemptions := p; sc_frozen_all := sc_frozen_all s;
     sc_frozen_tenants := sc_frozen_tenants s; sc_frozen_workloads := sc_frozen_workloads s |}.

Definition with_frozen (s : Scheduler) (all : bool) (tenants workloads : gset string) : Scheduler :=
  {| sc_config := sc_config s; sc_queue := sc_queue s; sc_running := sc_running s;
     sc_preemptions := sc_preemptions s; sc_frozen_all := all;
     sc_frozen_tenants := tenants; sc_frozen_workloads := workloads |}.

(** ** Admission and backpressure *)

Definition is_frozen (s : Scheduler) (workload tenant_id : string) : bool :=
  sc_frozen_all s || bool_decide (tenant_id ∈ sc_frozen_tenants s)
  || bool_decide (workload ∈ sc_frozen_workloads s).

Definition running_for_workload (s : Scheduler) (workload : string) : nat :=
  length (filter (λ r, qe_workload (rn_entry r) = workload) (od_values (sc_running s))).

Definition running_for_tenant (s : Scheduler) (tenant_id : string) : nat :=
  length (filter (λ r, qe_tenant_id (rn_entry r) = tenant_id) (od_values (sc_running s))).

Definition submit (entry : QueueEntry) (s : Scheduler) : AdmissionDecision * Scheduler :=
  let reject r := ({| ad_entry := entry; ad_action := REJECTED_ACTION; ad_reason := Some r |}, s) in
  if is_frozen s (qe_workload entry) (qe_tenant_id entry) then reject MAINTENANCE
  else if (per_workload_limit (sc_config s) <=? running_for_workload s (qe_workload entry))%nat
  then reject PER_WORKLOAD_LIMIT
  else if (per_tenant_limit (sc_config s) <=? running_for_tenant s (qe_tenant_id entry))%nat
  then reject PER_TENANT_LIMIT
  else if (max_queue_depth (sc_config s) <=? length (sc_queue s))%nat then reject QUEUE_DEPTH
  else ({| ad_entry := entry; ad_action := QUEUED_ACTION; ad_reason := None |},
        with_queue s (od_set (qe_task_id entry) entry (sc_queue s))).

(** ** Ordering and fairness *)

(** [timedelta.total_seconds()] of a difference in microseconds. *)
Definition total_seconds (usec : Z) : f64 := int_truediv usec 1000000.

Definition score (s : Scheduler) (entry : QueueEntry) (now : Z) : Z * f64 :=
  let age := f64_max f64_zero (total_seconds (now - qe_submitted_at entry)) in
  let aging := f64_min (f64_div age (aging_seconds (sc_config s))) (f64_lit 10 1) in
  (qos_rank (qe_qos entry), f64_add (f64_of_Z (qe_priority entry)) aging).

(** [a > b] on two score tuples: the first differing component decides. *)
Definition score_gt (a b : Z * f64) : bool :=
  if (a.1 =? b.1)%Z then
    if f64_eqb a.2 b.2 then false else f64_ltb b.2 a.2
  else (b.1 <? a.1)%Z.

Definition entry_better (s : Scheduler) (now : Z) (x y : QueueEntry) : bool :=
  score_gt (score s x now) (score s y now).

Definition dequeue (now : Z) (s : Scheduler) : option QueueEntry * Scheduler :=
  match py_best (entry_better s now) (od_values (sc_queue s)) with
  | None => (None, s)
  | Some entry =>
      (Some entry,
       with_running (with_queue s (od_del (qe_task_id entry) (sc_queue s)))
         (od_set (qe_task_id entry)
            {| rn_entry := entry; rn_at_checkpoint := false; rn_started_at := now |} (sc_running s)))
  end.

(** ** Running lifecycle *)

Definition mark_checkpoint (task_id : string) (s : Scheduler) : Scheduler :=
  match od_get task_id (sc_running s) with
  | Some r =>
      with_running s (od_set task_id
        {| rn_entry := rn_entry r; rn_at_checkpoint := true; rn_started_at := rn_started_at r |}
        (sc_running s))
  | None => s
  end.

Definition complete (task_id : string) (s : Scheduler) : Scheduler :=
  with_running s (od_del task_id (sc_running s)).

Definition requeue (now : Z) (task_id : string) (preempted_by : option string) (s : Scheduler)
    : option QueueEntry * Scheduler :=
  match od_get task_id (sc_running s) with
  | None => (None, s)
  | Some r =>
      let e := rn_entry r in
      let entry := {| qe_task_id := qe_task_id e; qe_tenant_id := qe_tenant_id e;
                      qe_workload := qe_workload e; qe_team := qe_team e; qe_run_id := qe_run_id e;
                      qe_qos := qe_qos e; qe_priority := qe_priority e;
                      qe_attempts := qe_attempts e + 1; qe_preempted_by := preempted_by;
                      qe_submitted_at := now |} in
      let s1 := with_running s (od_del task_id (sc_running s)) in
      (Some entry, with_queue s1 (od_set (qe_task_id entry) entry (sc_queue s1)))
  end.

(** ** Preemption *)

Definition preempt_candidates (incoming_task_id : string) (s : Scheduler) : list Running :=
  filter (λ r, rn_at_checkpoint r && preemptible (qe_qos (rn_entry r))
               && bool_decide (qe_task_id (rn_entry r) ≠ incoming_task_id) = true)
    (od_values (sc_running s)).

(** [preempt]; [now1] stamps the record and [now2] the requeued entry. *)
Definition preempt (now1 now2 : Z) (incoming_task_id : string) (s : Scheduler)
    : option PreemptionRecord * Scheduler :=
  match od_get incoming_task_id (sc_running s) with
  | None => (None, s)
  | Some incoming =>
      if bool_decide (qe_qos (rn_entry incoming) ≠ GUARANTEED) then (None, s)
      else
        match py_best (λ x y, (qos_rank (qe_qos (rn_entry x)) <? qos_rank (qe_qos (rn_entry y)))%Z)
                (preempt_candidates incoming_task_id s) with
        | None => (None, s)
        | Some victim =>
            let record := {| pr_victim_task_id := qe_task_id (rn_entry victim);
                             pr_victim_workload := qe_workload (rn_entry victim);
                             pr_victim_qos := qe_qos (rn_entry victim);
                             pr_preempted_by := incoming_task_id;
                             pr_reason := "preempted by guaranteed work at checkpoint";
                             pr_at := now1 |} in
            let s1 := with_preemptions s (sc_preemptions s ++ [record]) in
            (Some record,
             (requeue now2 (qe_task_id (rn_entry victim)) (Some incoming_task_id) s1).2)
        end
  end.

(** ** Maintenance windows *)

Definition freeze (tenant_id workload : option string) (s : Scheduler) : Scheduler :=
  with_frozen s
    (match tenant_id, workload with None, None => true | _, _ => sc_frozen_all s end)
    (match tenant_id with Some t => {[t]} ∪ sc_frozen_tenants s | None => sc_frozen_tenants s end)
    (match workload with Some w => {[w]} ∪ sc_frozen_workloads s | None => sc_frozen_workloads s end).

Definition unfreeze (tenant_id workload : option string) (s : Scheduler) : Scheduler :=
  with_frozen s
    (match tenant_id, workload with None, None => false | _, _ => sc_frozen_all s end)
    (match tenant_id with Some t => sc_frozen_tenants s ∖ {[t]} | None => sc_frozen_tenants s end)
    (match workload with Some w => sc_frozen_workloads s ∖ {[w]} | None => sc_frozen_workloads s end).

(** ** Visibility *)

(** [d[k] = d.get(k, 0) + 1]. *)
Definition count_key (d : odict string Z) (k : string) : odict string Z :=
  od_set k (default 0 (od_get k d) + 1)%Z d.

Definition snapshot (ctx : TenantContext) (s : Scheduler) : QueueSnapshot :=
  let queue := filter (λ e, scopes ctx (qe_tenant_id e) = true) (od_values (sc_queue s)) in
  let running := filter (λ r, scopes ctx (qe_tenant_id (rn_entry r)) = true) (od_values (sc_running s)) in
  {| qs_depth := length queue;
     qs_by_qos := foldl (λ d e, count_key d (qos_value (qe_qos e))) [] queue;
     qs_by_priority := foldl (λ d e, count_key d (pretty (qe_priority e))) [] queue;
     qs_waiting := (λ e, {| wr_task_id := qe_task_id e; wr_workload := qe_workload e;
                            wr_qos := qe_qos e; wr_priority := qe_priority e;
                            wr_reason := "awaiting capacity" |}) <$> queue;
     qs_running_by_workload := foldl (λ d r, count_key d (qe_workload (rn_entry r))) [] running;
     qs_running_by_tenant := foldl (λ d r, count_key d (qe_tenant_id (rn_entry r))) [] running |}.

(** ** The scheduler invariant *)

Definition keyed {V} (id : V → string) (d : odict string V) : Prop :=
  od_wf d ∧ ∀ k v, od_get k d = Some v → id v = k.

Definition sched_inv (s : Scheduler) : Prop :=
  keyed qe_task_id (sc_queue s) ∧
  keyed (λ r, qe_task_id (rn_entry r)) (sc_running s) ∧
  Forall (λ p, pr_victim_qos p ≠ GUARANTEED) (sc_preemptions s).

Lemma keyed_set {V} (id : V → string) k v d : keyed id d → id v = k → keyed id (od_set k v d).
Proof.
  intros [Hwf Hid] Hk. split; [by apply od_wf_set|]. intros k' v'. rewrite od_get_set.
  case_decide; [by intros [= <-]; subst|apply Hid].
Qed.

Lemma keyed_del {V} (id : V → string) k d : keyed id d → keyed id (od_del k d).
Proof.
  intros [Hwf Hid]. split; [by apply od_wf_del|]. intros k' v'. rewrite od_get_del by done.
  case_decide; [done|apply Hid].
Qed.

Lemma keyed_value {V} (id : V → string) v d : keyed id d → v ∈ od_values d → od_get (id v) d = Some v.
Proof. intros [Hwf Hid] Hv. destruct (od_value_get v d Hv Hwf) as [k Hk]. by rewrite (Hid _ _ Hk). Qed.

Create HintDb keyed discriminated.
#[local] Hint Resolve keyed_set keyed_del : keyed.

Lemma submit_inv entry s : sched_inv s → sched_inv (submit entry s).2.
Proof. intros (Hq & Hr & Hp). unfold submit. bool_cases. split_and!; simpl; auto with keyed. Qed.

Lemma dequeue_inv now s : sched_inv s → sched_inv (dequeue now s).2.
Proof.
  intros (Hq & Hr & Hp). unfold dequeue. case_match; simpl; [|done].
  split_and!; simpl; auto with keyed.
Qed.

Lemma mark_checkpoint_inv task s : sched_inv s → sched_inv (mark_checkpoint task s).
Proof.
  intros (Hq & Hr & Hp). unfold mark_checkpoint. case_match eqn:Hg; [|done].
  split_and!; simpl; auto. apply keyed_set; [done|]. simpl. by apply Hr.
Qed.

Lemma complete_inv task s : sched_inv s → sched_inv (complete task s).
Proof. intros (Hq & Hr & Hp). split_and!; simpl; auto with keyed. Qed.

Lemma requeue_inv now task by_ s : sched_inv s → sched_inv (requeue now task by_ s).2.
Proof.
  intros (Hq & Hr & Hp). unfold requeue. case_match; simpl; [|done].
  split_and!; simpl; auto with keyed.
Qed.

Lemma preempt_candidates_spec inc s r :
  r ∈ preempt_candidates inc s →
  r ∈ od_values (sc_running s) ∧ rn_at_checkpoint r = true ∧
  qe_qos (rn_entry r) ≠ GUARANTEED ∧ qe_task_id (rn_entry r) ≠ inc.
Proof.
  unfold preempt_candidates, preemptible. rewrite list_elem_of_filter, !andb_true_iff, !bool_decide_eq_true.
  tauto.
Qed.

Lemma preempt_inv now1 now2 inc s : sched_inv s → sched_inv (preempt now1 now2 inc s).2.
Proof.
  intros (Hq & Hr & Hp). unfold preempt. case_match; simpl; [|done].
  case_bool_decide; [done|]. case_match eqn:Hbest; [|done]. simpl. apply requeue_inv.
  split_and!; simpl; auto. apply Forall_app. split; [done|]. constructor; [|constructor]. simpl.
  by apply py_best_elem, preempt_candidates_spec in Hbest as (_ & _ & ? & _).
Qed.

Inductive sched_step : Scheduler → Scheduler → Prop :=
  | ss_submit entry s : sched_step s (submit entry s).2
  | ss_dequeue now s : sched_step s (dequeue now s).2
  | ss_mark task s : sched_step s (mark_checkpoint task s)
  | ss_complete task s : sched_step s (complete task s)
  | ss_requeue now task by_ s : sched_step s (requeue now task by_ s).2
  | ss_preempt now1 now2 inc s : sched_step s (preempt now1 now2 inc s).2
  | ss_freeze t w s : sched_step s (freeze t w s)
  | ss_unfreeze t w s : sched_step s (unfreeze t w s).

Lemma sched_step_inv s s' : sched_step s s' → sched_inv s → sched_inv s'.
Proof.
  destruct 1; auto using submit_inv, dequeue_inv, mark_checkpoint_inv, complete_inv, requeue_inv, preempt_inv.
Qed.

Lemma sched_init_inv c : sched_inv (scheduler_init c).
Proof. split_and!; simpl; [|..]; try constructor; try apply od_wf_nil; done. Qed.

(** In every reachable scheduler state the queue and the running set hold
    at most one entry per task id, filed under its own id, and no recorded
    preemption victim was guaranteed work. *)
Theorem scheduler_invariant c s : rtc sched_step (scheduler_init c) s → sched_inv s.
Proof.
  intros H. pose proof (sched_init_inv c) as Hi. revert Hi.
  induction H as [|x y z Hs _ IH]; [done|]. intros Hx. by apply IH, (sched_step_inv x).
Qed.

(** ** Admission *)

(** A task is queued exactly when its workload and tenant are not frozen,
    both have running capacity and the queue is not full; a rejected task changes
    nothing and carries the first applicable reason in the order maintenance,
    workload limit, tenant limit, queue depth. *)
Theorem submit_spec entry s :
  let frozen := is_frozen s (qe_workload entry) (qe_tenant_id entry) = true in
  let wfull := (per_workload_limit (sc_config s) ≤ running_for_workload s (qe_workload entry))%nat in
  let tfull := (per_tenant_limit (sc_config s) ≤ running_for_tenant s (qe_tenant_id entry))%nat in
  let qfull := (max_queue_depth (sc_config s) ≤ length (sc_queue s))%nat in
  let '(d, s') := submit entry s in
  match ad_reason d with
  | None => ad_action d = QUEUED_ACTION ∧ ¬ frozen ∧ ¬ wfull ∧ ¬ tfull ∧ ¬ qfull ∧
            od_get (qe_task_id entry) (sc_queue s') = Some entry ∧
            (length (sc_queue s') ≤ max_queue_depth (sc_config s))%nat
  | Some r => ad_action d = REJECTED_ACTION ∧ s' = s ∧
      match r with
      | MAINTENANCE => frozen
      | PER_WORKLOAD_LIMIT => ¬ frozen ∧ wfull
      | PER_TENANT_LIMIT => ¬ frozen ∧ ¬ wfull ∧ tfull
      | QUEUE_DEPTH => ¬ frozen ∧ ¬ wfull ∧ ¬ tfull ∧ qfull
      end
  end.
Proof.
  simpl. unfold submit.
  destruct (is_frozen s _ _) eqn:Hf; simpl; [done|].
  destruct (_ <=? running_for_workload _ _)%nat eqn:Hw; simpl.
  { apply Nat.leb_le in Hw. split_and!; done || lia. }
  destruct (_ <=? running_for_tenant _ _)%nat eqn:Ht; simpl.
  { apply Nat.leb_le in Ht. apply Nat.leb_gt in Hw. split_and!; done || lia. }
  destruct (_ <=? length (sc_queue s))%nat eqn:Hq; simpl.
  { apply Nat.leb_le in Hq. apply Nat.leb_gt in Hw, Ht. split_and!; done || lia. }
  apply Nat.leb_gt in Hw, Ht, Hq. split_and!; try done; try lia.
  - by rewrite od_get_set_eq.
  - unfold od_keys. enough (length (od_set (qe_task_id entry) entry (sc_queue s)) ≤ S (length (sc_queue s)))%nat by lia.
    rewrite <-(length_fmap fst), <-(length_fmap fst (sc_queue s)).
    change (fst <$> ?d) with (od_keys d). rewrite od_keys_set.
    destruct (od_mem _ _); [lia|]. rewrite length_app. simpl. lia.
Qed.

(** ** Order of execution *)

Lemma score_gt_rank a b : (b.1 < a.1)%Z → score_gt a b = true.
Proof.
  intros H. unfold score_gt. replace (a.1 =? b.1)%Z with false by (symmetry; apply Z.eqb_neq; lia).
  by apply Z.ltb_lt.
Qed.

Lemma score_gt_true_rank a b : score_gt a b = true → (b.1 ≤ a.1)%Z.
Proof. unfold score_gt. destruct (a.1 =? b.1)%Z eqn:H; lia. Qed.

Lemma py_best_rank s now l x y :
  py_best (entry_better s now) l = Some x → y ∈ l → (qos_rank (qe_qos y) ≤ qos_rank (qe_qos x))%Z.
Proof.
  destruct l as [|z l]; simpl; [done|]. intros [= <-].
  set (f := λ best y0, if entry_better s now y0 best then y0 else best).
  assert (∀ z, (qos_rank (qe_qos z) ≤ qos_rank (qe_qos (foldl f z l)))%Z ∧
    ∀ y, y ∈ l → (qos_rank (qe_qos y) ≤ qos_rank (qe_qos (foldl f z l)))%Z) as H.
  { clear z y. induction l as [|w l IH]; intros z; simpl; [split; [done|set_solver]|].
    destruct (IH (f z w)) as [IH1 IH2].
    assert (qos_rank (qe_qos z) ≤ qos_rank (qe_qos (f z w)) ∧
            qos_rank (qe_qos w) ≤ qos_rank (qe_qos (f z w)))%Z as [Hz Hw].
    { unfold f. destruct (entry_better s now w z) eqn:Hb.
      - apply score_gt_true_rank in Hb. simpl in Hb. lia.
      - destruct (decide (qos_rank (qe_qos z) < qos_rank (qe_qos w))%Z) as [Hlt|]; [|lia].
        unfold entry_better in Hb. rewrite score_gt_rank in Hb; done. }
    split; [lia|]. intros y [->|Hy]%elem_of_cons; [lia|auto]. }
  destruct (H z) as [H1 H2]. intros [->|Hy]%elem_of_cons; auto.
Qed.

(** Aging never crosses QoS classes: the task taken by [dequeue] belongs to
    the highest class present in the queue, however long tasks of lower classes
    have been waiting. *)
Theorem dequeue_highest_qos_class now s entry s' other :
  dequeue now s = (Some entry, s') → other ∈ od_values (sc_queue s) →
  (qos_rank (qe_qos other) ≤ qos_rank (qe_qos entry))%Z.
Proof.
  unfold dequeue. case_match eqn:Hb; [|done]. intros [= <- _] Ho. by eapply py_best_rank.
Qed.

(** The order on scores, away from NaN. *)
Lemma score_gt_irrefl a : score_gt a a = false.
Proof. unfold score_gt. rewrite Z.eqb_refl, f64_ltb_irrefl. by destruct (f64_eqb _ _). Qed.

Lemma score_gt_asym a b : score_gt a b = true → score_gt b a = false.
Proof.
  unfold score_gt. rewrite (Z.eqb_sym b.1). destruct (a.1 =? b.1)%Z; [|lia].
  rewrite (f64_eqb_sym b.2). destruct (f64_eqb _ _); [done|]. apply f64_ltb_asym.
Qed.

Lemma score_gt_false a b :
  f64_is_nan a.2 = false → f64_is_nan b.2 = false →
  score_gt a b = false ↔ (a.1 < b.1)%Z ∨ (a.1 = b.1 ∧ f64_leb a.2 b.2 = true).
Proof.
  intros Ha Hb. unfold score_gt. rewrite f64_leb_negb_ltb, negb_true_iff by done.
  destruct (Z.eqb_spec a.1 b.1) as [He|He]; last first.
  { rewrite Z.ltb_ge. split; [intros; left; lia|intros [?|[? _]]; lia]. }
  destruct (f64_eqb a.2 b.2) eqn:Hf; last first.
  { split; [by right|intros [?|[_ ?]]; [lia|done]]. }
  destruct (f64_ltb b.2 a.2) eqn:Hlt.
  - apply f64_ltb_not_eqb in Hlt. rewrite f64_eqb_sym in Hlt. congruence.
  - split; [by right|done].
Qed.

Lemma score_gt_negtrans a b c :
  f64_is_nan a.2 = false → f64_is_nan b.2 = false → f64_is_nan c.2 = false →
  score_gt a b = false → score_gt b c = false → score_gt a c = false.
Proof.
  intros Ha Hb Hc. rewrite !score_gt_false by done. intros [?|[? H1]] [?|[? H2]]; try (left; lia).
  right. split; [lia|]. by eapply f64_leb_trans.
Qed.

(** With well-defined scores, no queued task has a strictly better score
    (class, then priority plus aging) than the one taken; the task leaves the
    queue and enters the running set, not yet at a checkpoint; only an empty
    queue yields nothing. *)
Theorem dequeue_best_score now s :
  Forall (λ e, f64_is_nan (score s e now).2 = false) (od_values (sc_queue s)) → sched_inv s →
  match dequeue now s with
  | (None, s') => sc_queue s = [] ∧ s' = s
  | (Some entry, s') =>
      od_get (qe_task_id entry) (sc_queue s) = Some entry ∧
      (∀ other, other ∈ od_values (sc_queue s) → score_gt (score s other now) (score s entry now) = false) ∧
      od_get (qe_task_id entry) (sc_queue s') = None ∧
      od_get (qe_task_id entry) (sc_running s') = Some (mkRunning entry false now)
  end.
Proof.
  intros Hnan (Hq & Hr & _). unfold dequeue.
  destruct (py_best (entry_better s now) (od_values (sc_queue s))) as [entry|] eqn:Hb; last first.
  { split; [|done]. destruct (sc_queue s) as [|[]]; done. }
  split_and!; simpl.
  - apply py_best_elem in Hb. by apply (keyed_value qe_task_id).
  - apply (py_best_not_beaten _ (entry_better s now) _ entry) with (4 := Hnan); [..|done]; unfold entry_better.
    + intros. apply score_gt_irrefl.
    + intros a b c Ha Hb' Hc. by apply score_gt_negtrans.
    + intros a b _ _. apply score_gt_asym.
  - rewrite od_get_del_eq; [done|]. apply Hq.
  - by rewrite od_get_set_eq.
Qed.

(** ** Preemption *)

(** Preemption happens only on behalf of running guaranteed work; the victim
    was running, at a checkpoint, not guaranteed and of the lowest class among
    the eligible tasks; it stops running and returns to the queue with one more
    attempt, attributed to the preemptor, and the event is recorded.  Otherwise
    nothing changes. *)
Theorem preempt_spec now1 now2 inc s :
  sched_inv s →
  match preempt now1 now2 inc s with
  | (None, s') => s' = s
  | (Some record, s') => ∃ incoming victim,
      od_get inc (sc_running s) = Some incoming ∧ qe_qos (rn_entry incoming) = GUARANTEED ∧
      od_get (pr_victim_task_id record) (sc_running s) = Some victim ∧
      rn_at_checkpoint victim = true ∧ pr_victim_task_id record ≠ inc ∧
      qe_qos (rn_entry victim) ≠ GUARANTEED ∧
      (∀ other, other ∈ preempt_candidates inc s →
         (qos_rank (qe_qos (rn_entry victim)) ≤ qos_rank (qe_qos (rn_entry other)))%Z) ∧
      od_get (pr_victim_task_id record) (sc_running s') = None ∧
      (∃ e, od_get (pr_victim_task_id record) (sc_queue s') = Some e ∧
         qe_attempts e = (qe_attempts (rn_entry victim) + 1)%Z ∧ qe_preempted_by e = Some inc) ∧
      sc_preemptions s' = sc_preemptions s ++ [record]
  end.
Proof.
  intros (Hq & Hr & Hp). unfold preempt. destruct (od_get inc (sc_running s)) as [incoming|]; [|done].
  case_bool_decide as Hg; [done|]. destruct (py_best _ _) as [victim|] eqn:Hb; [|done].
  pose proof (py_best_elem _ _ _ Hb) as (Hv & Hc & Hnq & Hne)%preempt_candidates_spec.
  pose proof (keyed_value (λ r, qe_task_id (rn_entry r)) _ _ Hr Hv) as Hget. simpl in Hget.
  exists incoming, victim. simpl. unfold requeue. simpl. rewrite Hget. simpl.
  split_and!; try done.
  - intros other Ho. apply Z.ltb_ge.
    refine (py_best_not_beaten (λ _, True)
      (λ x y, (qos_rank (qe_qos (rn_entry x)) <? qos_rank (qe_qos (rn_entry y)))%Z)
      _ _ _ _ _ _ Hb other Ho); [lia..|by apply Forall_true].
  - rewrite od_get_del_eq; [done|]. apply Hr.
  - eexists. by rewrite od_get_set_eq.
Qed.

(** ** Conservation of tasks *)

Definition tracked (id : string) (s : Scheduler) : Prop :=
  is_Some (od_get id (sc_queue s)) ∨ is_Some (od_get id (sc_running s)).

Lemma requeue_tracked now task by_ s id :
  sched_inv s → tracked id (requeue now task by_ s).2 ↔ tracked id s.
Proof.
  intros (Hq & Hr & _). unfold requeue, tracked. destruct (od_get task (sc_running s)) as [r|] eqn:Hg; [|done].
  simpl. pose proof (proj2 Hr _ _ Hg) as Hid. simpl in Hid. rewrite Hid, od_get_set, od_get_del by apply Hr.
  case_decide; subst; rewrite ?Hg; split; intros; eauto.
Qed.

(** No task is lost or invented: dequeuing, checkpointing, requeuing and
    preempting keep exactly the same set of tracked task ids; submission adds at
    most its own id and completion removes at most its own. *)
Theorem scheduler_conserves_tasks s now now2 task by_ entry id :
  sched_inv s →
  (tracked id (dequeue now s).2 ↔ tracked id s) ∧
  (tracked id (mark_checkpoint task s) ↔ tracked id s) ∧
  (tracked id (requeue now task by_ s).2 ↔ tracked id s) ∧
  (tracked id (preempt now now2 task s).2 ↔ tracked id s) ∧
  (tracked id (submit entry s).2 ↔ tracked id s ∨
     (id = qe_task_id entry ∧ ad_action (submit entry s).1 = QUEUED_ACTION)) ∧
  (id ≠ task → tracked id (complete task s) ↔ tracked id s).
Proof.
  intros Hinv. pose proof Hinv as (Hq & Hr & _). split_and!.
  - unfold dequeue, tracked. destruct (py_best _ _) as [e|] eqn:Hb; [|done]. simpl.
    apply py_best_elem in Hb. pose proof (keyed_value qe_task_id _ _ Hq Hb) as Hg.
    rewrite od_get_set, od_get_del by apply Hq. case_decide; subst; rewrite ?Hg; split; intros; eauto.
  - unfold mark_checkpoint, tracked. destruct (od_get task (sc_running s)) eqn:Hg; [|done]. simpl.
    rewrite od_get_set. case_decide; subst; rewrite ?Hg; split; intros []; eauto.
  - by apply requeue_tracked.
  - unfold preempt. destruct (od_get task (sc_running s)) as [inc|]; [|done].
    case_bool_decide; [done|]. destruct (py_best _ _) as [v|] eqn:Hb; [|done]. simpl.
    rewrite requeue_tracked; [done|]. destruct Hinv as (? & ? & Hp). split_and!; simpl; auto.
    apply Forall_app. split; [done|]. constructor; [|constructor].
    by apply py_best_elem, preempt_candidates_spec in Hb as (_ & _ & ? & _).
  - unfold submit, tracked. bool_cases; try (split; [auto|]; intros [?|[_ [=]]]; done).
    rewrite od_get_set. case_decide; split; intros; subst; eauto. all: naive_solver.
  - intros Hne. unfold complete, tracked. simpl. rewrite od_get_del_ne by done. done.
Qed.

(** ** Concurrency limits are enforced on submission only *)

Definition demo_entry (id tenant : string) (q : QosClass) (t : Z) : QueueEntry :=
  {| qe_task_id := id; qe_tenant_id := tenant; qe_workload := "w"; qe_team := None;
     qe_run_id := Some id; qe_qos := q; qe_priority := 0; qe_attempts := 1;
     qe_preempted_by := None; qe_submitted_at := t |}.

Definition demo_config : SchedulerConfig :=
  {| per_workload_limit := 1; per_tenant_limit := 1; max_queue_depth := 10; aging_seconds := f64_lit 60 1 |}.

(** Two tasks of one workload submitted while nothing runs, then dequeued. *)
Definition demo_two_queued : Scheduler :=
  (submit (demo_entry "b" "t" BEST_EFFORT 20)
    (submit (demo_entry "a" "t" BEST_EFFORT 10) (scheduler_init demo_config)).2).2.

(** [dequeue] does not consult the limits: with a per-workload and a
    per-tenant limit of one, two queued tasks of the same workload are both
    started. *)
Theorem scheduler_limit_overshoot :
  let s := (dequeue 40 (dequeue 30 demo_two_queued).2).2 in
  running_for_workload s "w" = 2%nat ∧ running_for_tenant s "t" = 2%nat ∧
  per_workload_limit (sc_config s) = 1%nat ∧ per_tenant_limit (sc_config s) = 1%nat.
Proof. vm_compute. done. Qed.

(** ** Witnesses *)

Lemma demo_two_queued_inv : sched_inv demo_two_queued.
Proof. apply submit_inv, submit_inv, sched_init_inv. Qed.

Lemma scheduler_invariant_witness : sched_inv (dequeue 30 demo_two_queued).2.
Proof.
  apply (scheduler_invariant demo_config).
  eapply rtc_l; [apply (ss_submit (demo_entry "a" "t" BEST_EFFORT 10))|].
  eapply rtc_l; [apply (ss_submit (demo_entry "b" "t" BEST_EFFORT 20))|].
  eapply rtc_l; [apply (ss_dequeue 30)|apply rtc_refl].
Defined.

(** A best-effort task that has waited for an hour against guaranteed work
    submitted just now. *)
Definition demo_starved : Scheduler :=
  (submit (demo_entry "g" "t" GUARANTEED 3600000000)
    (submit (demo_entry "old" "t" BEST_EFFORT 0) (scheduler_init demo_config)).2).2.

Lemma dequeue_highest_qos_class_witness :
  (qos_rank (qe_qos (demo_entry "old" "t" BEST_EFFORT 0)) ≤
   qos_rank (qe_qos (demo_entry "g" "t" GUARANTEED 3600000000)))%Z.
Proof.
  apply (dequeue_highest_qos_class 3600000000 demo_starved _ (dequeue 3600000000 demo_starved).2).
  - vm_compute. reflexivity.
  - apply list_elem_of_In. left. reflexivity.
Defined.

Lemma dequeue_best_score_witness :
  ∃ s', dequeue 60000000 demo_two_queued = (Some (demo_entry "a" "t" BEST_EFFORT 10), s') ∧
  od_get "a" (sc_queue s') = None.
Proof.
  pose proof (dequeue_best_score 60000000 demo_two_queued) as H.
  assert (Forall (λ e, f64_is_nan (score demo_two_queued e 60000000).2 = false)
    (od_values (sc_queue demo_two_queued))) as Hn by (repeat constructor; vm_compute; reflexivity).
  specialize (H Hn demo_two_queued_inv).
  destruct (dequeue 60000000 demo_two_queued) as [[e|] s'] eqn:Hd; vm_compute in Hd; [|discriminate].
  injection Hd as <- <-. eexists. split; [reflexivity|]. exact (proj1 (proj2 (proj2 H))).
Defined.

Definition demo_preemptible : Scheduler :=
  let s := (submit (demo_entry "g" "t" GUARANTEED 20)
             (mark_checkpoint "v" (dequeue 15 (submit (demo_entry "v" "u" BEST_EFFORT 10)
                (scheduler_init {| per_workload_limit := 4; per_tenant_limit := 4; max_queue_depth := 10;
                                   aging_seconds := f64_lit 60 1 |})).2).2)).2 in
  (dequeue 25 s).2.

Lemma demo_preemptible_inv : sched_inv demo_preemptible.
Proof.
  apply dequeue_inv, submit_inv, mark_checkpoint_inv, dequeue_inv, submit_inv, sched_init_inv.
Qed.

Lemma preempt_spec_witness :
  ∃ record s', preempt 30 31 "g" demo_preemptible = (Some record, s') ∧ pr_victim_task_id record = "v" ∧
    od_get "v" (sc_running s') = None.
Proof.
  pose proof (preempt_spec 30 31 "g" demo_preemptible demo_preemptible_inv) as H.
  destruct (preempt 30 31 "g" demo_preemptible) as [[r|] s'] eqn:Hp; vm_compute in Hp; [|discriminate].
  injection Hp as <- <-. eexists _, _. split; [reflexivity|]. split; [reflexivity|].
  destruct H as (? & ? & _ & _ & _ & _ & _ & _ & _ & Hr & _). exact Hr.
Defined.

Lemma scheduler_conserves_tasks_witness : tracked "v" (preempt 30 31 "g" demo_preemptible).2.
Proof.
  apply (proj1 (proj2 (proj2 (proj2 (scheduler_conserves_tasks demo_preemptible 30 31 "g" None
    (demo_entry "x" "t" BURSTABLE 0) "v" demo_preemptible_inv))))).
  right. vm_compute. eexists. reflexivity.
Defined.
