(* ===== verification/CoreModels.v ===== *)
(** * Core domain models ([core/run.py], [core/event.py], [core/usage.py],
    [core/decision.py], [core/tools.py], [core/spec.py], [core/workload.py])

    The data the lifecycle, policy, budget and guard components share.  Enum
    members are constructors, pydantic models are records; instants are
    microseconds since the epoch and amounts of money are binary64 floats. *)

From stdpp Require Import base strings relations numbers list.
From S2P Require Import Prelude Float64 Tenancy.

(** ** JSON values *)

Inductive JsonValue :=
  | JNull
  | JBool (b : bool)
  | JInt (z : Z)
  | JFloat (x : f64)
  | JStr (s : string)
  | JList (l : list JsonValue)
  | JObj (d : list (string * JsonValue)).

(** ** Runs *)

Inductive RunState := QUEUED | RUNNING | PAUSED | COMPLETED | FAILED | CANCELLED.

#[export] Instance RunState_eq_dec : EqDecision RunState.
Proof. solve_decision. Defined.

Definition run_state_value (s : RunState) : string :=
  match s with
  | QUEUED => "queued" | RUNNING => "running" | PAUSED => "paused"
  | COMPLETED => "completed" | FAILED => "failed" | CANCELLED => "cancelled"
  end.

Inductive AdmissionContext := SANDBOX | STAGING | PRODUCTION.

#[export] Instance AdmissionContext_eq_dec : EqDecision AdmissionContext.
Proof. solve_decision. Defined.

Definition RUN_TRANSITIONS (current : RunState) : list RunState :=
  match current with
  | QUEUED => [RUNNING; CANCELLED]
  | RUNNING => [PAUSED; COMPLETED; FAILED; CANCELLED]
  | PAUSED => [RUNNING; FAILED; CANCELLED]
  | COMPLETED | FAILED | CANCELLED => []
  end.

Definition can_transition (current target : RunState) : bool :=
  bool_decide (target ∈ RUN_TRANSITIONS current).

Definition terminal (s : RunState) : bool :=
  bool_decide (s ∈ [COMPLETED; FAILED; CANCELLED]).

Record TriggerOrigin := mkTriggerOrigin { to_source : string; to_event_id : string; to_timestamp : Z }.

Record PipelineOrigin := mkPipelineOrigin {
  po_pipeline_run_id : string; po_pipeline_id : string; po_node_id : string;
  po_parent_run_id : option string; po_attempt : Z }.

Record AgentToolOrigin := mkAgentToolOrigin {
  ao_caller_run_id : string; ao_tool_id : string; ao_workload : string; ao_depth : Z; ao_chain : list string }.

Record Run := mkRun {
  run_id : string;
  run_workload_id : string;
  run_caller : string;
  run_state : RunState;
  run_model_identity : option string;
  run_created_at : Z;
  run_updated_at : Z;
  run_started_at : option Z;
  run_finished_at : option Z;
  run_trigger_origin : option TriggerOrigin;
  run_pipeline_origin : option PipelineOrigin;
  run_agent_tool_origin : option AgentToolOrigin;
  run_manifest_version : option Z;
  run_context : option AdmissionContext;
  run_sandbox : bool;
  run_task : list (string * JsonValue);
  run_result : option JsonValue;
  run_failure_reason : option string;
  run_cost_usd : f64;
  run_sandbox_id : option string;
  run_trace_id : option string;
  run_shadow_of : option string;
  run_probe : bool;
  run_read_only : bool;
  run_canary_rollout_id : option string;
  run_canary_arm : option string;
  run_tenant_id : string;
  run_team_id : option string;
  run_attribution_key : option string;
}.

(** The keys of the [updates] dictionaries given to [Run.model_copy]; [None]
    means the key is absent. *)
Record RunUpdate := mkRunUpdate {
  u_state : option RunState;
  u_updated_at : option Z;
  u_failure_reason : option (option string);
  u_result : option (option JsonValue);
  u_started_at : option (option Z);
  u_finished_at : option (option Z);
  u_trace_id : option (option string);
  u_sandbox : option bool;
  u_sandbox_id : option (option string);
  u_cost_usd : option f64;
  u_canary : option (string * string * option Z);
}.

Definition no_update : RunUpdate :=
  {| u_state := None; u_updated_at := None; u_failure_reason := None; u_result := None;
     u_started_at := None; u_finished_at := None; u_trace_id := None; u_sandbox := None;
     u_sandbox_id := None; u_cost_usd := None; u_canary := None |}.

(** [run.model_copy(update=updates)]; the canary key stands for the three
    fields [canary_rollout_id], [canary_arm] and [manifest_version] set
    together. *)
Definition run_copy (r : Run) (u : RunUpdate) : Run :=
  {| run_id := run_id r; run_workload_id := run_workload_id r; run_caller := run_caller r;
     run_state := default (run_state r) (u_state u);
     run_model_identity := run_model_identity r;
     run_created_at := run_created_at r;
     run_updated_at := default (run_updated_at r) (u_updated_at u);
     run_started_at := default (run_started_at r) (u_started_at u);
     run_finished_at := default (run_finished_at r) (u_finished_at u);
     run_trigger_origin := run_trigger_origin r; run_pipeline_origin := run_pipeline_origin r;
     run_agent_tool_origin := run_agent_tool_origin r;
     run_manifest_version := match u_canary u with Some (_, _, v) => v | None => run_manifest_version r end;
     run_context := run_context r;
     run_sandbox := default (run_sandbox r) (u_sandbox u);
     run_task := run_task r;
     run_result := default (run_result r) (u_result u);
     run_failure_reason := default (run_failure_reason r) (u_failure_reason u);
     run_cost_usd := default (run_cost_usd r) (u_cost_usd u);
     run_sandbox_id := default (run_sandbox_id r) (u_sandbox_id u);
     run_trace_id := default (run_trace_id r) (u_trace_id u);
     run_shadow_of := run_shadow_of r; run_probe := run_probe r; run_read_only := run_read_only r;
     run_canary_rollout_id := match u_canary u with Some (i, _, _) => Some i | None => run_canary_rollout_id r end;
     run_canary_arm := match u_canary u with Some (_, a, _) => Some a | None => run_canary_arm r end;
     run_tenant_id := run_tenant_id r; run_team_id := run_team_id r;
     run_attribution_key := run_attribution_key r |}.

(** ** Events, usage, budget checks *)

Inductive EventType :=
  | EV_ADMISSION | EV_STATE_CHANGE | EV_POLICY_DECISION | EV_TOOL_CALL | EV_USAGE
  | EV_OPERATOR_ACTION | EV_SANDBOX | EV_RECOVERY | EV_GUARD.

Record RunEvent := mkEvent {
  ev_run_id : string;
  ev_sequence : Z;
  ev_type : EventType;
  ev_actor : string;
  ev_timestamp : Z;
  ev_from_state : option RunState;
  ev_to_state : option RunState;
  ev_detail : option string;
}.

Record UsageReport := mkUsage {
  us_run_id : string;
  us_input_tokens : N;
  us_output_tokens : N;
  us_tool_calls : N;
  us_cost_usd : f64;
  us_timestamp : Z;
  us_model_identity : option string;
  us_prompt : option string;
  us_response : option string;
  us_latency_ms : option N;
}.

Definition usage_with_model (u : UsageReport) (m : option string) : UsageReport :=
  {| us_run_id := us_run_id u; us_input_tokens := us_input_tokens u; us_output_tokens := us_output_tokens u;
     us_tool_calls := us_tool_calls u; us_cost_usd := us_cost_usd u; us_timestamp := us_timestamp u;
     us_model_identity := m; us_prompt := us_prompt u; us_response := us_response u;
     us_latency_ms := us_latency_ms u |}.

Definition usage_with_cost (u : UsageReport) (c : f64) : UsageReport :=
  {| us_run_id := us_run_id u; us_input_tokens := us_input_tokens u; us_output_tokens := us_output_tokens u;
     us_tool_calls := us_tool_calls u; us_cost_usd := c; us_timestamp := us_timestamp u;
     us_model_identity := us_model_identity u; us_prompt := us_prompt u; us_response := us_response u;
     us_latency_ms := us_latency_ms u |}.

Inductive BudgetLevel := LEVEL_RUN | LEVEL_DAY | LEVEL_TEAM.

Definition budget_level_value (l : BudgetLevel) : string :=
  match l with LEVEL_RUN => "run" | LEVEL_DAY => "day" | LEVEL_TEAM => "team" end.

Record BudgetCheck := mkBudgetCheck {
  bc_allowed : bool;
  bc_level : BudgetLevel;
  bc_limit_usd : f64;
  bc_spent_usd : f64;
  bc_remaining_usd : f64;
  bc_reason : option string;
}.

Record BudgetOutcome := mkBudgetOutcome { bo_check : BudgetCheck; bo_cost_usd : f64 }.

(** ** Policy vocabulary *)

Inductive CertificationStatus := UNCERTIFIED | PROVISIONAL | CERTIFIED | QUARANTINED.

#[export] Instance CertificationStatus_eq_dec : EqDecision CertificationStatus.
Proof. solve_decision. Defined.

Inductive DecisionOutcome := ALLOW | DENY | ESCALATE | BLOCK_INJECTION.

#[export] Instance DecisionOutcome_eq_dec : EqDecision DecisionOutcome.
Proof. solve_decision. Defined.

Inductive DataSensitivity := PUBLIC | INTERNAL | PII | RESTRICTED.

#[export] Instance DataSensitivity_eq_dec : EqDecision DataSensitivity.
Proof. solve_decision. Defined.

Inductive ActionClass := AC_READ_ONLY | AC_DESTRUCTIVE | AC_PRODUCTION_WRITE | AC_HIGH_SPEND.

#[export] Instance ActionClass_eq_dec : EqDecision ActionClass.
Proof. solve_decision. Defined.

Inductive ToolTrustLevel := TRUST_READ_ONLY | TRUST_DESTRUCTIVE.

#[export] Instance ToolTrustLevel_eq_dec : EqDecision ToolTrustLevel.
Proof. solve_decision. Defined.

Record ToolRef := mkToolRef {
  tr_tool_id : string; tr_trust_level : ToolTrustLevel; tr_require_approval : bool; tr_allow_untrusted : bool }.

Record McpServer := mkMcpServer { ms_name : string; ms_endpoint : string }.

Record ToolsSpec := mkToolsSpec {
  ts_allow : list ToolRef; ts_deny : list string; ts_mcp_servers : list McpServer; ts_default_trust : ToolTrustLevel }.

Definition is_denied (t : ToolsSpec) (tool_id : string) : bool := bool_decide (tool_id ∈ ts_deny t).

Definition is_allowed (t : ToolsSpec) (tool_id : string) : bool :=
  if is_denied t tool_id then false
  else existsb (λ e, bool_decide (tr_tool_id e = tool_id)) (ts_allow t).

Definition approval_required (t : ToolsSpec) (tool_id : string) : bool :=
  existsb (λ e, bool_decide (tr_tool_id e = tool_id) && tr_require_approval e) (ts_allow t).

Definition allows_untrusted (t : ToolsSpec) (tool_id : string) : bool :=
  existsb (λ e, bool_decide (tr_tool_id e = tool_id) && tr_allow_untrusted e) (ts_allow t).

(** ** Sandboxes *)

Inductive EgressMode := EGRESS_OPEN | EGRESS_RESTRICTED | EGRESS_NONE.

#[export] Instance EgressMode_eq_dec : EqDecision EgressMode.
Proof. solve_decision. Defined.

Record EgressSpec := mkEgressSpec { eg_allow : list string; eg_deny : list string; eg_mode : EgressMode }.

Record EgressRule := mkEgressRule { er_host : string; er_port : option Z }.

Record NetworkSpec := mkNetwork { ns_egress : EgressMode; ns_allow : list EgressRule; ns_deny : list EgressRule }.

Record ResourceCaps := mkCaps { rc_memory_mb : Z; rc_cpu_cores : f64; rc_wall_clock_s : Z }.

(** The fields' bounds. *)
Definition resource_caps_valid (c : ResourceCaps) : bool :=
  (0 <? rc_memory_mb c)%Z && f64_ltb f64_zero (rc_cpu_cores c) && (0 <? rc_wall_clock_s c)%Z.

(** [FilesystemMode] has the one member [ISOLATED]. *)
Inductive FilesystemMode := FS_ISOLATED.

Record SandboxSpec := mkSandbox {
  sb_enabled : bool; sb_resource_caps : option ResourceCaps; sb_egress : EgressSpec; sb_network : option NetworkSpec;
  sb_filesystem : FilesystemMode }.

Definition CLOUD_METADATA_ENDPOINTS : list string := ["169.254.169.254"].

(** What the validator [_enforce_invariants] does to the egress lists. *)
Definition enforce_invariants (s : SandboxSpec) : SandboxSpec :=
  foldl (λ s endpoint,
    {| sb_enabled := sb_enabled s; sb_resource_caps := sb_resource_caps s; sb_filesystem := sb_filesystem s;
       sb_egress := if bool_decide (endpoint ∈ eg_deny (sb_egress s)) then sb_egress s
                    else {| eg_allow := eg_allow (sb_egress s); eg_deny := eg_deny (sb_egress s) ++ [endpoint];
                            eg_mode := eg_mode (sb_egress s) |};
       sb_network := match sb_network s with
                     | Some n =>
                         if forallb (λ r, bool_decide (er_host r ≠ endpoint)) (ns_deny n)
                         then Some {| ns_egress := ns_egress n; ns_allow := ns_allow n;
                                      ns_deny := ns_deny n ++ [mkEgressRule endpoint None] |}
                         else Some n
                     | None => None
                     end |}) s CLOUD_METADATA_ENDPOINTS.

(** The whole validator; [None] is its [ValueError]. *)
Definition check_sandbox (s : SandboxSpec) : option SandboxSpec :=
  if sb_enabled s && negb (match sb_resource_caps s with Some _ => true | None => false end) then None else Some (enforce_invariants s).

(** ** Time windows *)

Record TimeWindow := mkWindow {
  tw_action_class : option ActionClass;
  tw_tool_trust : option ToolTrustLevel;
  tw_days : list Z;
  tw_start : string;
  tw_end : string;
  tw_tz : string;
  tw_blackout : bool;
}.

(** ** Workloads: the parts of the manifest the modelled components read *)

Record BudgetSpec := mkBudgetSpec { bs_per_run_usd : f64; bs_per_day_usd : f64; bs_per_team_usd : option f64 }.

(** The validators of [BudgetSpec]. *)
Definition budget_spec_valid (b : BudgetSpec) : bool :=
  f64_ltb f64_zero (bs_per_run_usd b) && f64_ltb f64_zero (bs_per_day_usd b)
  && negb (f64_ltb (bs_per_day_usd b) (bs_per_run_usd b))
  && match bs_per_team_usd b with Some t => negb (f64_ltb t (bs_per_day_usd b)) | None => true end.

Record AgentWorkload := mkWorkload {
  wl_name : string;
  wl_owner : string;
  wl_team : option string;
  wl_budget : BudgetSpec;
  wl_tools : ToolsSpec;
  wl_approval_required_for : list ActionClass;
  wl_sandbox : option SandboxSpec;
  wl_time_windows : list TimeWindow;
  wl_output_shaping : bool; (* [spec.output_shaping] is given *)
  wl_certification : option CertificationStatus;
}.

(** [AgentWorkload.certification_status]. *)
Definition certification_status (w : AgentWorkload) : CertificationStatus :=
  default UNCERTIFIED (wl_certification w).

(** ** The run state machine *)

Definition rs_step (a b : RunState) : Prop := can_transition a b = true.

Lemma terminal_no_step a b : terminal a = true → can_transition a b = false.
Proof. by destruct a, b. Qed.

Lemma terminal_absorbing a b : rtc rs_step a b → terminal a = true → b = a.
Proof.
  destruct 1 as [|x y z Hs]; [done|]. intros Ht. unfold rs_step in Hs. by rewrite terminal_no_step in Hs.
Qed.

Lemma not_terminal_can_cancel a : terminal a = false → can_transition a CANCELLED = true.
Proof. by destruct a. Qed.
