(* ===== verification/Canonical.v ===== *)
(** * Canonical JSON ([json.dumps(..., sort_keys=True, separators=(",", ":"))])

    The text that hashes and signatures cover, and that it determines the
    document.  A string is the list of its code points up to 255, as in the
    audit trail; [repr] of a float is a parameter. *)

From Stdlib Require Import Ascii SpecFloat.
From stdpp Require Import base strings pretty numbers sorting list.
From S2P Require Import Prelude Text Float64 AuditTrail CoreModels.

(** ** Documents *)

Section JsonInd.
Variable P : JsonValue → Prop.
Hypotheses (Hnull : P JNull) (Hbool : ∀ b, P (JBool b)) (Hint : ∀ z, P (JInt z)) (Hfloat : ∀ x, P (JFloat x))
  (Hstr : ∀ s, P (JStr s)) (Hlist : ∀ l, Forall P l → P (JList l)) (Hobj : ∀ d, Forall (λ e, P e.2) d → P (JObj d)).

Fixpoint json_induction (v : JsonValue) : P v :=
  match v with
  | JNull => Hnull
  | JBool b => Hbool b
  | JInt z => Hint z
  | JFloat x => Hfloat x
  | JStr s => Hstr s
  | JList l => Hlist l ((fix go l := match l return Forall P l with
                         | [] => Forall_nil_2 _
                         | x :: l' => Forall_cons_2 _ _ _ (json_induction x) (go l') end) l)
  | JObj d => Hobj d ((fix go d := match d return Forall (λ e, P e.2) d with
                       | [] => Forall_nil_2 _
                       | (k, x) :: d' => Forall_cons_2 _ (k, x) _ (json_induction x) (go d') end) d)
  end.
End JsonInd.

#[export] Instance spec_float_eq_dec : EqDecision spec_float.
Proof. solve_decision. Defined.

#[export] Instance JsonValue_eq_dec : EqDecision JsonValue.
Proof.
  refine (fix go (v w : JsonValue) : Decision (v = w) :=
    let r : EqDecision JsonValue := go in
    match v, w with
    | JNull, JNull => left eq_refl
    | JBool a, JBool b => cast_if (decide (a = b))
    | JInt a, JInt b => cast_if (decide (a = b))
    | JFloat a, JFloat b => cast_if (decide (a = b))
    | JStr a, JStr b => cast_if (decide (a = b))
    | JList a, JList b => cast_if (decide (a = b))
    | JObj a, JObj b => cast_if (decide (a = b))
    | _, _ => right _
    end); clear r go; congruence.
Defined.

(** ** The text *)

Section Canonical.
Variable float_repr : f64 → string.

Definition item_text (dumps : JsonValue → string) (e : string * JsonValue) : string :=
  Json.dumps_str e.1 +:+ ":" +:+ dumps e.2.

Fixpoint dumps (v : JsonValue) : string :=
  match v with
  | JNull => "null"
  | JBool true => "true"
  | JBool false => "false"
  | JInt z => pretty z
  | JFloat x => float_repr x
  | JStr s => Json.dumps_str s
  | JList l => "[" +:+ String.concat "," (dumps <$> l) +:+ "]"
  | JObj d => "{" +:+ String.concat "," (item_text dumps <$> d) +:+ "}"
  end.

(** [sort_keys=True] *)
Fixpoint sort_keys (v : JsonValue) : JsonValue :=
  match v with
  | JList l => JList (sort_keys <$> l)
  | JObj d => JObj (py_sort (λ a b, str_leb a.1 b.1) ((λ e, (e.1, sort_keys e.2)) <$> d))
  | v => v
  end.

(** [canonical_json] *)
Definition canonical_json (v : JsonValue) : string := dumps (sort_keys v).


(** ** The text determines the document *)

(** What a number's text may hold, and how it may start. *)
Definition number_char (c : ascii) : bool := bool_decide (c ∉ String.list_ascii_of_string ",]}").
Definition int_char (c : ascii) : bool := is_digit c || bool_decide (c = "-"%char).
Definition number_start (s : string) : bool :=
  match s with String c _ => int_char c || bool_decide (c ∈ String.list_ascii_of_string "NI") | EmptyString => false end.

(** [repr] of the finite floats, infinities and not-a-number: injective, never
    the text of an integer, and free of JSON's delimiters. *)
Record float_text : Prop := {
  ft_chars : ∀ x, valid_binary 53 1024 x = true → all_chars number_char (float_repr x) = true;
  ft_start : ∀ x, valid_binary 53 1024 x = true → number_start (float_repr x) = true;
  ft_not_int : ∀ x, valid_binary 53 1024 x = true → all_chars int_char (float_repr x) = false;
  ft_inj : ∀ x y, valid_binary 53 1024 x = true → valid_binary 53 1024 y = true → float_repr x = float_repr y → x = y;
}.

(** Every float of the document is one. *)
Fixpoint json_wf (v : JsonValue) : bool :=
  match v with
  | JFloat x => valid_binary 53 1024 x
  | JList l => forallb json_wf l
  | JObj d => forallb (λ e, json_wf e.2) d
  | _ => true
  end.

Hypothesis Hfloat : float_text.

Definition delimiter (c : ascii) : bool := bool_decide (c ∈ String.list_ascii_of_string ",]}").

Lemma number_delimiter c : delimiter c = true → number_char c = false.
Proof. unfold delimiter, number_char. intros H%bool_decide_eq_true. apply bool_decide_eq_false_2. auto. Qed.

Lemma number_cancel a1 a2 c1 c2 r1 r2 :
  all_chars number_char a1 = true → all_chars number_char a2 = true → delimiter c1 = true → delimiter c2 = true →
  a1 +:+ String c1 r1 = a2 +:+ String c2 r2 → a1 = a2 ∧ String c1 r1 = String c2 r2.
Proof.
  intros H1 H2 Hc1%number_delimiter Hc2%number_delimiter H.
  destruct (chars_cancel number_char a1 a2 c1 c2 r1 r2 H1 H2 Hc1 Hc2 H) as [-> ->]. split; [done|]. by apply string_app_inj in H.
Qed.

Lemma pretty_Z_chars (z : Z) : all_chars int_char (pretty z) = true ∧ number_start (pretty z) = true.
Proof.
  assert (∀ n : N, all_chars int_char (pretty n) = true) as Hn.
  { intros n. eapply all_chars_mono; [|apply pretty_N_digits]. intros c H. unfold int_char. by rewrite H. }
  assert (∀ n : N, pretty n ≠ EmptyString) as Hne.
  { intros n E. pose proof (undec_pretty n) as H. rewrite E in H. simpl in H. subst n. by vm_compute in E. }
  destruct z as [|p|p]; [done| |].
  - change (pretty (Z.pos p)) with (pretty (N.pos p)). split; [done|]. specialize (Hn (N.pos p)). specialize (Hne (N.pos p)).
    destruct (pretty (N.pos p)) as [|c s]; [done|]. simpl in *. apply andb_true_iff in Hn as [-> _]. done.
  - change (pretty (Z.neg p)) with ("-" +:+ pretty (N.pos p)). split; [simpl; apply Hn|done].
Qed.

Lemma int_number s : all_chars int_char s = true → all_chars number_char s = true.
Proof. apply all_chars_mono. intros c. destruct c as [[] [] [] [] [] [] [] []]; vm_compute; done. Qed.

(** The character a document starts with tells its kind. *)
Inductive kind := KNull | KTrue | KFalse | KNum | KStr | KList | KObj.

Definition kind_of (v : JsonValue) : kind :=
  match v with
  | JNull => KNull | JBool true => KTrue | JBool false => KFalse | JInt _ | JFloat _ => KNum
  | JStr _ => KStr | JList _ => KList | JObj _ => KObj
  end.

Definition kind_at (s : string) : kind :=
  match s with
  | String c _ =>
      if bool_decide (c = "n"%char) then KNull else if bool_decide (c = "t"%char) then KTrue
      else if bool_decide (c = "f"%char) then KFalse else if bool_decide (c = Json.dquote) then KStr
      else if bool_decide (c = "["%char) then KList else if bool_decide (c = "{"%char) then KObj else KNum
  | EmptyString => KNum
  end.

Lemma number_kind s r : number_start s = true → kind_at (s +:+ r) = KNum.
Proof. destruct s as [|c s]; [done|]. simpl. destruct c as [[] [] [] [] [] [] [] []]; vm_compute; done. Qed.

Lemma dumps_kind v r : json_wf v = true → kind_at (dumps v +:+ r) = kind_of v.
Proof.
  destruct v as [|[]|z|x|s|l|d]; intros Hwf; try done.
  - by apply number_kind, pretty_Z_chars.
  - by apply number_kind, (ft_start Hfloat).
Qed.

Lemma dumps_not_close v c r : json_wf v = true → delimiter c = true → ∀ r', dumps v +:+ r ≠ String c r'.
Proof.
  intros Hwf Hc r' E. destruct v as [|[]|z|x|s|l|d]; simpl in E; try (injection E as <-; by vm_compute in Hc).
  - destruct (pretty_Z_chars z) as [_ H]. destruct (pretty z) as [|a t]; [done|]. injection E as -> _. simpl in H.
    destruct c as [[] [] [] [] [] [] [] []]; vm_compute in H, Hc; done.
  - pose proof (ft_start Hfloat x Hwf) as H. destruct (float_repr x) as [|a t]; [done|]. injection E as -> _. simpl in H.
    destruct c as [[] [] [] [] [] [] [] []]; vm_compute in H, Hc; done.
Qed.

(** A text of items followed by its closing character determines the items. *)
Lemma items_cancel {A} (f : A → string) close (P : A → Prop) l k r1 r2 :
  delimiter close = true → close ≠ ","%char →
  (∀ a r r', P a → f a +:+ r ≠ String close r') →
  (∀ a b c1 r1 c2 r2, a ∈ l → P a → P b → delimiter c1 = true → delimiter c2 = true →
    f a +:+ String c1 r1 = f b +:+ String c2 r2 → a = b ∧ String c1 r1 = String c2 r2) →
  Forall P l → Forall P k →
  String.concat "," (f <$> l) +:+ String close r1 = String.concat "," (f <$> k) +:+ String close r2 → l = k ∧ r1 = r2.
Proof.
  intros Hd Hcomma Hne Hcancel. revert k. induction l as [|a l IH]; intros [|b k] Hl Hk; simpl.
  - by intros [= ->].
  - intros E. exfalso. apply Forall_cons in Hk as [Hb _].
    destruct k; simpl in E; [by apply (Hne b (String close r2) r1)|].
    rewrite string_app_assoc in E. by eapply (Hne b _ r1).
  - intros E. exfalso. apply Forall_cons in Hl as [Ha _].
    destruct l; simpl in E; [by apply (Hne a (String close r1) r2)|].
    rewrite string_app_assoc in E. by eapply (Hne a _ r2).
  - apply Forall_cons in Hl as [Ha Hl], Hk as [Hb Hk].
    assert (a ∈ a :: l) as Hin by left.
    assert (∀ k, Forall P k → String.concat "," (f <$> l) +:+ String close r1 = String.concat "," (f <$> k) +:+ String close r2 →
      l = k ∧ r1 = r2) as IH'.
    { intros k' Hk' E. apply IH; [|done..]. intros a' b' c1 s1 c2 s2 Hin' Ha' Hb' H1 H2 E'.
      apply (Hcancel a' b' c1 s1 c2 s2); [by right|done..]. }
    destruct l as [|a' l], k as [|b' k]; simpl in *.
    + intros E. apply Hcancel in E as [-> E]; [|done..]. by injection E as ->.
    + rewrite string_app_assoc. simpl. intros E. apply Hcancel in E as [_ E]; [|done..]. injection E as E _. congruence.
    + rewrite string_app_assoc. simpl. intros E. apply Hcancel in E as [_ E]; [|done..]. injection E as E _. congruence.
    + rewrite !string_app_assoc. simpl. intros E. apply Hcancel in E as [-> E]; [|done..]. injection E as E.
      destruct (IH' (b' :: k)) as [E' ->]; [done|exact E|]. by rewrite E'.
Qed.

Lemma dumps_cancel v : ∀ w c1 r1 c2 r2, json_wf v = true → json_wf w = true → delimiter c1 = true → delimiter c2 = true →
  dumps v +:+ String c1 r1 = dumps w +:+ String c2 r2 → v = w ∧ String c1 r1 = String c2 r2.
Proof.
  induction v as [|b|z|x|s|l IH|d IH] using json_induction; intros w c1 r1 c2 r2 Hv Hw Hc1 Hc2 E;
    pose proof (f_equal kind_at E) as Hk; rewrite !dumps_kind in Hk by done.
  - destruct w as [|[]| | | | |]; try done. simpl in E. by simplify_eq/=.
  - destruct b, w as [|[]| | | | |]; try done; simpl in E; by simplify_eq/=.
  - destruct w as [|[]|z'|x'| | |]; try done; simpl in E.
    + apply number_cancel in E as [E' ?]; [|apply int_number, pretty_Z_chars..|done|done]. by apply (inj pretty) in E' as ->.
    + apply number_cancel in E as [E' ?]; [|apply int_number, pretty_Z_chars|by apply (ft_chars Hfloat)|done|done].
      pose proof (ft_not_int Hfloat x' Hw) as Hno. rewrite <-E' in Hno. by rewrite (proj1 (pretty_Z_chars z)) in Hno.
  - destruct w as [|[]|z'|x'| | |]; try done; simpl in E.
    + apply number_cancel in E as [E' ?]; [|by apply (ft_chars Hfloat)|apply int_number, pretty_Z_chars|done|done].
      pose proof (ft_not_int Hfloat x Hv) as Hno. rewrite E' in Hno. by rewrite (proj1 (pretty_Z_chars z')) in Hno.
    + apply number_cancel in E as [E' ?]; [|by apply (ft_chars Hfloat)..|done|done]. by apply (ft_inj Hfloat) in E' as ->.
  - destruct w as [|[]| | |s'| |]; try done. by apply Json.dumps_str_cancel in E as [-> E].
  - destruct w as [|[]| | | |l'|]; try done. cbn [dumps] in E. rewrite !string_app_assoc in E. simpl in E. injection E as E.
    rewrite ?string_app_assoc in E. simpl in E.
    apply (items_cancel _ "]"%char (λ v, json_wf v = true)) in E as [-> E]; [by injection E as -> ->|done|done| | | |].
    + intros a r r' Ha. by apply dumps_not_close.
    + intros a b c3 r3 c4 r4 Hin Ha Hb H3 H4 E'. rewrite Forall_forall in IH. by apply (IH a Hin).
    + apply Forall_forall. intros a Ha. simpl in Hv. rewrite forallb_elem in Hv. auto.
    + apply Forall_forall. intros a Ha. simpl in Hw. rewrite forallb_elem in Hw. auto.
  - destruct w as [|[]| | | | |d']; try done. cbn [dumps] in E. rewrite !string_app_assoc in E. simpl in E. injection E as E.
    rewrite ?string_app_assoc in E. simpl in E.
    apply (items_cancel _ "}"%char (λ e, json_wf e.2 = true)) in E as [-> E]; [by injection E as -> ->|done|done| | | |].
    + intros [k a] r r' Ha. unfold item_text, Json.dumps_str. simpl. intros [= Hq _].
    + intros [k a] [k' b] c3 r3 c4 r4 Hin Ha Hb H3 H4 E'. unfold item_text in E'. cbn [fst snd] in E'.
      rewrite !string_app_assoc in E'. apply Json.dumps_str_cancel in E' as [-> E']. simpl in E'. injection E' as E'.
      rewrite Forall_forall in IH. specialize (IH _ Hin b c3 r3 c4 r4 Ha Hb H3 H4 E'). simpl in IH. by destruct IH as [-> ?].
    + apply Forall_forall. intros a Ha. simpl in Hv. rewrite forallb_elem in Hv. auto.
    + apply Forall_forall. intros a Ha. simpl in Hw. rewrite forallb_elem in Hw. auto.
Qed.

Lemma dumps_inj v w : json_wf v = true → json_wf w = true → dumps v = dumps w → v = w.
Proof.
  intros Hv Hw E. apply (f_equal (λ s, s +:+ String ","%char EmptyString)) in E.
  by apply dumps_cancel in E as [-> _].
Qed.
End Canonical.

(** A rendering with these properties: mantissa and exponent. *)
Definition exact_repr (x : f64) : string :=
  match x with
  | S754_zero s => if s then "-0.0" else "0.0"
  | S754_infinity s => if s then "-Infinity" else "Infinity"
  | S754_nan => "NaN"
  | S754_finite s m e => (if s then "-" else EmptyString) +:+ pretty (N.pos m) +:+ "e" +:+ pretty e
  end.

Lemma exact_finite_e s m e : all_chars (not_char "e"%char) (exact_repr (S754_finite s m e)) = false.
Proof. simpl. rewrite !all_chars_app. simpl. by rewrite !andb_false_r. Qed.

Lemma pretty_pos_start p r : ∃ c t, pretty (N.pos p) +:+ r = String c t ∧ is_digit c = true.
Proof.
  pose proof (pretty_N_digits (N.pos p)) as H. pose proof (undec_pretty (N.pos p)) as Hu.
  destruct (pretty (N.pos p)) as [|c t]; [done|]. simpl in *. apply andb_true_iff in H as [? _]. by exists c, (t +:+ r).
Qed.

Lemma exact_finite_inj s m e s' m' e' :
  exact_repr (S754_finite s m e) = exact_repr (S754_finite s' m' e') → S754_finite s m e = S754_finite s' m' e'.
Proof.
  simpl. intros E.
  assert (s = s' ∧ pretty (N.pos m) +:+ "e" +:+ pretty e = pretty (N.pos m') +:+ "e" +:+ pretty e') as [-> E'].
  { destruct s, s'; simpl in E; [by injection E|..|done].
    - destruct (pretty_pos_start m' ("e" +:+ pretty e')) as (c & t & E2 & Hc). simpl in E2. rewrite E2 in E. by injection E as <- _.
    - destruct (pretty_pos_start m ("e" +:+ pretty e)) as (c & t & E2 & Hc). simpl in E2. rewrite E2 in E. by injection E as -> _. }
  apply (digits_cancel _ _ "e"%char "e"%char) in E' as [Em Er]; [|apply pretty_N_digits..|done|done].
  apply (inj pretty) in Em. apply (inj pretty) in Er. by simplify_eq.
Qed.

Lemma exact_repr_ok : float_text exact_repr.
Proof.
  split.
  - intros [[]|[]| |s m e] _; try done. unfold exact_repr. rewrite !all_chars_app.
    assert (all_chars number_char (pretty (N.pos m)) = true) as -> by apply int_number, (pretty_Z_chars (Z.pos m)).
    rewrite (int_number (pretty e)) by apply pretty_Z_chars. by destruct s.
  - intros [[]|[]| |[] m e] _; try done. unfold exact_repr. simpl.
    destruct (pretty_pos_start m ("e" +:+ pretty e)) as (c & t & E & Hc). simpl in E. rewrite E. simpl. unfold int_char. by rewrite Hc.
  - intros [[]|[]| |s m e] _; try done. unfold exact_repr. rewrite !all_chars_app. simpl. by rewrite !andb_false_r.
  - intros x y _ _ E. pose proof (f_equal (all_chars (not_char "e"%char)) E) as H.
    destruct x as [[]|[]| |s m e], y as [[]|[]| |s' m' e']; try done;
      first [by rewrite exact_finite_e in H|by apply exact_finite_inj].
Qed.
