(* ===== verification/Base64.v ===== *)
(** * Base64 ([base64.b64encode], [base64.b64decode(..., validate=True)])

    A byte string is a string of bytes. *)

From Stdlib Require Import Ascii.
From stdpp Require Import base strings numbers list.
From S2P Require Import Prelude Text Calendar.

Definition alphabet : list ascii :=
  String.list_ascii_of_string "ABCDEFGHIJKLMNOPQRSTUVWXYZabcdefghijklmnopqrstuvwxyz0123456789+/".

Definition digit64 (n : Z) : ascii := nth (Z.to_nat n) alphabet "A"%char.

Definition value64 (c : ascii) : option Z := (λ r, Z.of_nat r.1) <$> list_find (λ x, x = c) alphabet.

Definition byte_of (c : ascii) : Z := Z.of_nat (nat_of_ascii c).
Definition char_of (z : Z) : ascii := ascii_of_nat (Z.to_nat z).

Definition pad : ascii := "="%char.

(** Three bytes at a time. *)
Fixpoint encode (l : list ascii) : list ascii :=
  match l with
  | a :: b :: c :: l' =>
      let n := (byte_of a * 65536 + byte_of b * 256 + byte_of c)%Z in
      digit64 (n / 262144) :: digit64 (n / 4096 mod 64) :: digit64 (n / 64 mod 64) :: digit64 (n mod 64) :: encode l'
  | [a; b] =>
      let n := (byte_of a * 65536 + byte_of b * 256)%Z in
      [digit64 (n / 262144); digit64 (n / 4096 mod 64); digit64 (n / 64 mod 64); pad]
  | [a] => let n := (byte_of a * 65536)%Z in [digit64 (n / 262144); digit64 (n / 4096 mod 64); pad; pad]
  | [] => []
  end.

Definition b64encode (s : string) : string := String.string_of_list_ascii (encode (String.list_ascii_of_string s)).

(** The bytes of the digits, four at a time; what is left over must be padded. *)
Fixpoint decode (l : list Z) (pads : nat) : option (list ascii) :=
  match l with
  | w :: x :: y :: z :: l' =>
      let n := (w * 262144 + x * 4096 + y * 64 + z)%Z in
      (λ r, char_of (n / 65536) :: char_of (n / 256 mod 256) :: char_of (n mod 256) :: r) <$> decode l' pads
  | [w; x; y] =>
      let n := (w * 262144 + x * 4096 + y * 64)%Z in
      if (1 <=? pads)%nat then Some [char_of (n / 65536); char_of (n / 256 mod 256)] else None
  | [w; x] =>
      let n := (w * 262144 + x * 4096)%Z in
      if (2 <=? pads)%nat then Some [char_of (n / 65536)] else None
  | [w] => None
  | [] => Some []
  end.

(** The digits before the padding, and the padding. *)
Fixpoint split_pads (l : list ascii) : option (list Z * nat) :=
  match l with
  | [] => Some ([], O)
  | c :: l' =>
      if bool_decide (c = pad) then
        if forallb (λ x, bool_decide (x = pad)) l' && (length l <=? 2)%nat then Some ([], length l) else None
      else match value64 c, split_pads l' with Some v, Some (vs, n) => Some (v :: vs, n) | _, _ => None end
  end.

Definition b64decode (s : string) : option string :=
  match split_pads (String.list_ascii_of_string s) with
  | Some (vs, pads) => String.string_of_list_ascii <$> decode vs pads
  | None => None
  end.

(** ** Decoding undoes encoding *)

Lemma byte_bounds c : (0 ≤ byte_of c < 256)%Z.
Proof. unfold byte_of. pose proof (nat_ascii_bounded c). lia. Qed.

Lemma char_byte c : char_of (byte_of c) = c.
Proof. unfold char_of, byte_of. by rewrite Nat2Z.id, ascii_nat_embedding. Qed.

Lemma digit_value n : (0 ≤ n < 64)%Z → value64 (digit64 n) = Some n ∧ digit64 n ≠ pad.
Proof.
  intros Hn. assert (forallb (λ m, bool_decide (value64 (digit64 (Z.of_nat m)) = Some (Z.of_nat m)) &&
    negb (bool_decide (digit64 (Z.of_nat m) = pad))) (seq 0 64) = true) as H by by vm_compute.
  rewrite forallb_forall in H. specialize (H (Z.to_nat n)). rewrite Z2Nat.id in H by lia.
  rewrite in_seq in H. specialize (H ltac:(lia)). apply andb_true_iff in H as [Hv Hp].
  split; [by apply bool_decide_eq_true in Hv|]. by apply negb_true_iff, bool_decide_eq_false in Hp.
Qed.

Lemma split_digit n l : (0 ≤ n < 64)%Z →
  split_pads (digit64 n :: l) = match split_pads l with Some (vs, p) => Some (n :: vs, p) | None => None end.
Proof.
  intros Hn. destruct (digit_value n Hn) as [Hv Hp]. cbn [split_pads]. rewrite bool_decide_eq_false_2 by done. rewrite Hv.
  by destruct (split_pads l) as [[? ?]|].
Qed.

(** Induction three elements at a time. *)
Lemma list_triple_ind {A} (P : list A → Prop) :
  P [] → (∀ x, P [x]) → (∀ x y, P [x; y]) → (∀ x y z l, P l → P (x :: y :: z :: l)) → ∀ l, P l.
Proof.
  intros H0 H1 H2 H3. cut (∀ l, P l ∧ (∀ x, P (x :: l)) ∧ ∀ x y, P (x :: y :: l)); [intros H l; apply H|].
  induction l as [|x l (IH0 & IH1 & IH2)]; [done|]. split_and!; [done|done|]. intros y z. by apply H3.
Qed.

(** The four digits of a number of three bytes recompose it. *)
Definition digits_of (n : Z) : Prop :=
  ((0 ≤ n / 262144 < 64) ∧ (0 ≤ n / 4096 mod 64 < 64) ∧ (0 ≤ n / 64 mod 64 < 64) ∧ (0 ≤ n mod 64 < 64) ∧
  n / 262144 * 262144 + n / 4096 mod 64 * 4096 + n / 64 mod 64 * 64 + n mod 64 = n)%Z.

Lemma digits_ok n : (0 ≤ n < 16777216)%Z → digits_of n.
Proof.
  intros Hn. unfold digits_of. replace 262144%Z with (64 * (64 * 64))%Z by done. replace 4096%Z with (64 * 64)%Z by done.
  rewrite <-!Z.div_div by lia. pose proof (Z.div_mod n 64). pose proof (Z.div_mod (n / 64) 64). pose proof (Z.div_mod (n / 64 / 64) 64).
  pose proof (Z.mod_pos_bound n 64). pose proof (Z.mod_pos_bound (n / 64) 64). pose proof (Z.mod_pos_bound (n / 64 / 64) 64). lia.
Qed.

Lemma bytes_ok a b c : (0 ≤ a < 256)%Z → (0 ≤ b < 256)%Z → (0 ≤ c < 256)%Z →
  (let n := a * 65536 + b * 256 + c in (0 ≤ n < 16777216) ∧ n / 65536 = a ∧ n / 256 mod 256 = b ∧ n mod 256 = c)%Z.
Proof.
  intros Ha Hb Hc n. assert (n / 256 = a * 256 + b)%Z as H.
  { symmetry. apply Z.div_unique with c; subst n; lia. }
  split_and!; [lia|lia| | |].
  - symmetry. apply Z.div_unique with (b * 256 + c)%Z; subst n; lia.
  - rewrite H. symmetry. apply Z.mod_unique with a; lia.
  - symmetry. apply Z.mod_unique with (a * 256 + b)%Z; subst n; lia.
Qed.

Lemma decode_encode l : ∃ vs p, split_pads (encode l) = Some (vs, p) ∧ decode vs p = Some l.
Proof.
  induction l as [|a|a b|a b c l (vs & p & IH1 & IH2)] using list_triple_ind.
  - by exists [], O.
  - destruct (bytes_ok (byte_of a) 0 0 (byte_bounds a)) as (Hn & E & _); [done..|].
    rewrite !Z.add_0_r in *. destruct (digits_ok _ Hn) as (H1 & H2 & H3 & H4 & Hs).
    cbn [encode]. rewrite !split_digit by done. eexists _, _. split; [reflexivity|]. cbn [decode Nat.leb].
    assert ((byte_of a * 65536) / 64 mod 64 = 0 ∧ (byte_of a * 65536) mod 64 = 0)%Z as [Hz1 Hz2].
    { pose proof (byte_bounds a). split; symmetry; [|apply Z.mod_unique with (byte_of a * 1024)%Z; lia].
      rewrite <-(Z.div_unique _ 64 (byte_of a * 1024) 0); [|lia..]. apply Z.mod_unique with (byte_of a * 16)%Z; lia. }
    rewrite Hz1, Hz2, !Z.add_0_r in Hs. by rewrite Hs, E, char_byte.
  - destruct (bytes_ok (byte_of a) (byte_of b) 0 (byte_bounds a) (byte_bounds b)) as (Hn & E1 & E2 & _); [done..|].
    rewrite !Z.add_0_r in *. destruct (digits_ok _ Hn) as (H1 & H2 & H3 & H4 & Hs).
    cbn [encode]. rewrite !split_digit by done. eexists _, _. split; [reflexivity|]. cbn [decode Nat.leb].
    assert ((byte_of a * 65536 + byte_of b * 256) mod 64 = 0)%Z as Hz.
    { pose proof (byte_bounds a). pose proof (byte_bounds b). symmetry.
      apply Z.mod_unique with (byte_of a * 1024 + byte_of b * 4)%Z; lia. }
    rewrite Hz, Z.add_0_r in Hs. by rewrite Hs, E1, E2, !char_byte.
  - destruct (bytes_ok (byte_of a) (byte_of b) (byte_of c)) as (Hn & E1 & E2 & E3); [apply byte_bounds..|].
    destruct (digits_ok _ Hn) as (H1 & H2 & H3 & H4 & Hs).
    cbn [encode]. rewrite !split_digit by done. rewrite IH1. eexists _, _. split; [reflexivity|]. cbn [decode].
    by rewrite IH2, Hs, E1, E2, E3, !char_byte.
Qed.

Theorem b64_roundtrip s : b64decode (b64encode s) = Some s.
Proof.
  unfold b64decode, b64encode. rewrite String.list_ascii_of_string_of_list_ascii.
  destruct (decode_encode (String.list_ascii_of_string s)) as (vs & p & -> & ->). simpl.
  by rewrite String.string_of_list_ascii_of_string.
Qed.
