(* ===== verification/Pipelines.v ===== *)
(** * Pipeline specifications and handoffs ([pipelines/spec.py],
    [pipelines/handoff.py])

    The declarative graph with its validation, and the reference language that
    moves node outputs into inputs.  The regular expressions of the reference
    language are modelled by the scanner they denote; text is the byte string of
    its UTF-8 encoding, and only ASCII blanks are stripped.  [str] of a float and
    the text of a schema's own validation error are parameters. *)

From Stdlib Require Import Ascii.
From stdpp Require Import base strings relations pretty sorting list.
From S2P Require Import Prelude Text Float64 Tenancy CoreModels Graph.

(** ** Handoffs *)
Module Handoff.

Inductive SchemaType := T_OBJECT | T_ARRAY | T_STRING | T_NUMBER | T_INTEGER | T_BOOLEAN | T_NULL.

Inductive JsonSchema :=
  mkSchema (ty : option SchemaType) (required : list string) (properties : list (string * JsonSchema))
           (items : option JsonSchema).

Definition schema_type (s : string) : option SchemaType :=
  if String.eqb s "object" then Some T_OBJECT
  else if String.eqb s "array" then Some T_ARRAY
  else if String.eqb s "string" then Some T_STRING
  else if String.eqb s "number" then Some T_NUMBER
  else if String.eqb s "integer" then Some T_INTEGER
  else if String.eqb s "boolean" then Some T_BOOLEAN
  else if String.eqb s "null" then Some T_NULL
  else None.

Fixpoint json_strings (l : list JsonValue) : option (list string) :=
  match l with
  | [] => Some []
  | JStr s :: l' => cons s <$> json_strings l'
  | _ => None
  end.

(** [JsonSchema.model_validate]: unknown keys are kept out of the way
    ([extra="allow"]), the four known ones must have their types. *)
Fixpoint parse_schema (v : JsonValue) : option JsonSchema :=
  match v with
  | JObj d =>
      (fix fields (d : list (string * JsonValue)) : option JsonSchema :=
         match d with
         | [] => Some (mkSchema None [] [] None)
         | (k, x) :: d' =>
             '(mkSchema t r p i) ← fields d';
             if String.eqb k "type" then
               match x with
               | JNull => Some (mkSchema None r p i)
               | JStr s => t' ← schema_type s; Some (mkSchema (Some t') r p i)
               | _ => None
               end
             else if String.eqb k "required" then
               match x with JList l => r' ← json_strings l; Some (mkSchema t r' p i) | _ => None end
             else if String.eqb k "properties" then
               match x with
               | JObj ps =>
                   p' ← (fix props (ps : list (string * JsonValue)) : option (list (string * JsonSchema)) :=
                           match ps with
                           | [] => Some []
                           | (k', y) :: ps' => s ← parse_schema y; rest ← props ps'; Some ((k', s) :: rest)
                           end) ps;
                   Some (mkSchema t r p' i)
               | _ => None
               end
             else if String.eqb k "items" then
               match x with
               | JNull => Some (mkSchema t r p None)
               | _ => s ← parse_schema x; Some (mkSchema t r p (Some s))
               end
             else Some (mkSchema t r p i)
         end) d
  | _ => None
  end.

(** The first error of a list of checks. *)
Definition first_error {E A} (check : A → option E) (l : list A) : option E :=
  foldr (λ x rest, match check x with Some e => Some e | None => rest end) None l.

(** [_validate]; [None] is success, [Some m] the message of the [HandoffError]. *)
Fixpoint validate (schema : JsonSchema) (value : JsonValue) (path : string) : option string :=
  match schema with
  | mkSchema ty required properties items =>
      match ty with
      | None => None
      | Some T_OBJECT =>
          match value with
          | JObj d =>
              match first_error (λ key, if od_mem key d then None
                                        else Some (path +:+ ": missing required field " +:+ py_repr key)) required with
              | Some e => Some e
              | None =>
                  (fix props (ps : list (string * JsonSchema)) : option string :=
                     match ps with
                     | [] => None
                     | (key, sub) :: ps' =>
                         match match od_get key d with
                               | Some v => validate sub v (path +:+ "/" +:+ key)
                               | None => None
                               end with
                         | Some e => Some e
                         | None => props ps'
                         end
                     end) properties
              end
          | _ => Some (path +:+ ": expected object")
          end
      | Some T_ARRAY =>
          match value with
          | JList l =>
              match items with
              | Some sub =>
                  (fix elems (i : nat) (l : list JsonValue) : option string :=
                     match l with
                     | [] => None
                     | x :: l' => match validate sub x (path +:+ "/" +:+ pretty i) with
                                  | Some e => Some e
                                  | None => elems (S i) l'
                                  end
                     end) 0 l
              | None => None
              end
          | _ => Some (path +:+ ": expected array")
          end
      | Some T_STRING => match value with JStr _ => None | _ => Some (path +:+ ": expected string") end
      | Some T_NUMBER => match value with JInt _ | JFloat _ => None | _ => Some (path +:+ ": expected number") end
      | Some T_INTEGER => match value with JInt _ => None | _ => Some (path +:+ ": expected integer") end
      | Some T_BOOLEAN => match value with JBool _ => None | _ => Some (path +:+ ": expected boolean") end
      | Some T_NULL => match value with JNull => None | _ => Some (path +:+ ": expected null") end
      end
  end.

Inductive piece := Lit (s : list ascii) | Ref (body : string).

(** The matches of the pattern for a reference (a dollar and an opening brace,
    then one or more characters other than a closing brace, then one), left to
    right, with the text between them.  [inside] is the body read so far, last
    character first; without a closing brace the whole rest is literal. *)
Fixpoint scan (inside : option (list ascii)) (l : list ascii) : list piece :=
  match inside, l with
  | None, [] => []
  | None, c :: l' =>
      match l' with
      | d :: l'' => if bool_decide (c = "$"%char) && bool_decide (d = "{"%char)
                    then scan (Some []) l'' else Lit [c] :: scan None l'
      | [] => [Lit [c]]
      end
  | Some body, [] => [Lit ("$"%char :: "{"%char :: rev body)]
  | Some body, c :: l' =>
      if bool_decide (c = "}"%char)
      then if bool_decide (body = []) then Lit ["$"%char; "{"%char; "}"%char] :: scan None l'
           else Ref (String.string_of_list_ascii (rev body)) :: scan None l'
      else scan (Some (c :: body)) l'
  end.

Definition pieces (template : string) : list piece := scan None (String.list_ascii_of_string template).

(** The match of the whole stripped template with one brace-free reference. *)
Definition whole (template : string) : option string :=
  match String.list_ascii_of_string (strip template) with
  | c :: d :: l =>
      if bool_decide (c = "$"%char) && bool_decide (d = "{"%char) then
        match rev l with
        | e :: body => if bool_decide (e = "}"%char) && bool_decide (body ≠ [])
                          && forallb (λ c, negb (bool_decide (c ∈ ["{"%char; "}"%char]))) body
                       then Some (strip (String.string_of_list_ascii (rev body))) else None
        | [] => None
        end
      else None
  | _ => None
  end.

Record PipelineContext := mkContext {
  outputs : odict string (odict string JsonValue);
  variables : odict string JsonValue;
}.

Inductive result (A : Type) := Ok (a : A) | HandoffError (message : string).
#[global] Arguments Ok {A} a.
#[global] Arguments HandoffError {A} message.

Fixpoint descend (current : JsonValue) (segments : list string) : option JsonValue :=
  match segments with
  | [] => Some current
  | s :: rest => match current with JObj d => x ← od_get s d; descend x rest | _ => None end
  end.

Definition lookup (context : PipelineContext) (expression : string) : result JsonValue :=
  let missing := HandoffError ("pipeline context has no " +:+ py_repr expression) in
  match split_on "."%char expression with
  | [] => missing
  | root :: segments =>
      match od_get root (variables context) with
      | Some v => match descend v segments with Some x => Ok x | None => missing end
      | None =>
          match od_get root (outputs context) with
          | Some d => match descend (JObj d) segments with Some x => Ok x | None => missing end
          | None => missing
          end
      end
  end.

Section Text.
Variables (float_str : f64 → string) (schema_error : list (string * JsonValue) → string).

Definition stringify (v : JsonValue) : result string :=
  match v with
  | JObj _ | JList _ => HandoffError "cannot embed a container value in a string template"
  | JNull => Ok EmptyString
  | JBool b => Ok (if b then "true" else "false")
  | JInt z => Ok (pretty z)
  | JFloat x => Ok (float_str x)
  | JStr s => Ok s
  end.

Fixpoint substitute (context : PipelineContext) (l : list piece) : result string :=
  match l with
  | [] => Ok EmptyString
  | p :: l' =>
      match match p with
            | Lit s => Ok (String.string_of_list_ascii s)
            | Ref body => match lookup context (strip body) with Ok v => stringify v | HandoffError m => HandoffError m end
            end with
      | HandoffError m => HandoffError m
      | Ok s => match substitute context l' with Ok rest => Ok (s +:+ rest) | HandoffError m => HandoffError m end
      end
  end.

Definition render_ref (template : string) (context : PipelineContext) : result JsonValue :=
  match whole template with
  | Some expression => lookup context expression
  | None => match substitute context (pieces template) with Ok s => Ok (JStr s) | HandoffError m => HandoffError m end
  end.

Fixpoint map_inputs (mapping : odict string string) (context : PipelineContext) : result (odict string JsonValue) :=
  match mapping with
  | [] => Ok []
  | (field, template) :: rest =>
      match render_ref template context with
      | HandoffError m => HandoffError m
      | Ok v => match map_inputs rest context with Ok d => Ok ((field, v) :: d) | HandoffError m => HandoffError m end
      end
  end.

Definition validate_boundary (value : JsonValue) (schema : option (list (string * JsonValue))) (node boundary : string)
    : option string :=
  match schema with
  | None => None
  | Some d =>
      let mismatch m := Some (boundary +:+ " schema mismatch at node " +:+ py_repr node +:+ ": " +:+ m) in
      match parse_schema (JObj d) with
      | None => mismatch (schema_error d)
      | Some s => match validate s value "$" with Some m => mismatch m | None => None end
      end
  end.
End Text.
End Handoff.

(** ** Specifications *)

Inductive NodeKind := WORKLOAD | FAN_OUT | FAN_IN | GATE | TRANSFORM.
#[export] Instance NodeKind_eq_dec : EqDecision NodeKind.
Proof. solve_decision. Defined.

Inductive OnFailure := FAIL_FAST | CONTINUE.
#[export] Instance OnFailure_eq_dec : EqDecision OnFailure.
Proof. solve_decision. Defined.

Inductive ApprovalTiming := BEFORE | AFTER.
Inductive RetryMode := RESTART | CHECKPOINT.
Inductive Reducer := JSON_MERGE | CONCAT | SUM | FIRST_SUCCESS.
Inductive OnExceed := ON_EXCEED_PAUSE | ON_EXCEED_FAIL.

Record RetrySpec := mkRetry { max_attempts : Z; backoff_s : f64; retry_mode : RetryMode }.

Record PipelineNodeSpec := mkNode {
  pn_id : string;
  pn_kind : NodeKind;
  pn_workload : option string;
  pn_inputs : odict string string;
  pn_on_failure : OnFailure;
  pn_retry : RetrySpec;
  pn_requires_approval : option ApprovalTiming;
  pn_budget : option f64; (* [budget.usd] *)
  pn_depends_on : list string;
  pn_over : option string;
  pn_as_name : option string;
  pn_node : option string;
  pn_from_nodes : list string;
  pn_reducer : option Reducer;
  pn_transform : option (odict string string);
}.

Record PipelineEdgeSpec := mkEdge { pe_from : string; pe_to : string; pe_handoff : odict string string }.

Record PipelineSpec := mkSpec {
  ps_id : string;
  ps_tenant_id : string;
  ps_name : string;
  ps_version : Z;
  ps_nodes : list PipelineNodeSpec;
  ps_edges : list PipelineEdgeSpec;
  ps_budget_usd : f64;
  ps_on_exceed : OnExceed;
  ps_created_at : option Z;
}.

(** Python truth of an optional string and of a collection. *)
Definition given (o : option string) : bool := match o with Some s => bool_decide (s ≠ EmptyString) | None => false end.

Definition some_items {A} (l : list A) : bool := match l with [] => false | _ => true end.

Inductive SpecError :=
  | KindRequirement (node : string)
  | DuplicateIds
  | UnknownDependency (node dep : string)
  | SelfDependency (node : string)
  | UnknownTemplate (node : string)
  | UnknownSource (node source : string)
  | UnknownEdge (from to : string)
  | SelfLoop (node : string)
  | UnknownReference (node reference : string)
  | NotUpstream (node reference : string)
  | CycleError (nodes : list string).

(** [PipelineNodeSpec._kind_requirements] *)
Definition kind_requirements (n : PipelineNodeSpec) : option SpecError :=
  let failed := Some (KindRequirement (pn_id n)) in
  match pn_kind n with
  | WORKLOAD => if given (pn_workload n) then None else failed
  | FAN_OUT => if given (pn_over n) && given (pn_node n) && given (pn_as_name n) then None else failed
  | FAN_IN => if some_items (pn_from_nodes n) && bool_decide (is_Some (pn_reducer n)) then None else failed
  | TRANSFORM => match pn_transform n with Some t => if some_items t then None else failed | None => failed end
  | GATE => None
  end.

Definition node_ids (s : PipelineSpec) : list string := pn_id <$> ps_nodes s.

(** [node(node_id)] *)
Definition node (s : PipelineSpec) (node_id : string) : option PipelineNodeSpec :=
  List.find (λ n, String.eqb (pn_id n) node_id) (ps_nodes s).

Definition sorted_strings (l : list string) : list string := py_sort str_leb l.

(** [dependencies(node_id)] *)
Definition dependencies (s : PipelineSpec) (node_id : string) : list string :=
  sorted_strings (remove_dups ((pe_from <$> filter (λ e, pe_to e = node_id) (ps_edges s))
                               ++ match node s node_id with Some n => pn_depends_on n | None => [] end)).

(** [_ancestors(node_id)]; the fuel is enough on any graph ([ancestors_Some]). *)
Definition ancestors (s : PipelineSpec) (node_id : string) : option (list string) :=
  let universe := remove_dups ((pe_from <$> ps_edges s) ++ concat (pn_depends_on <$> ps_nodes s)) in
  reach (dependencies s) (reach_fuel (dependencies s) universe (dependencies s node_id)) (dependencies s node_id) [].

(** [_references(template)] *)
Definition references (template : string) : list string :=
  remove_dups (omap (λ p, match p with
    | Handoff.Ref body =>
        match split_on "."%char (strip body) with
        | n :: field :: _ => if bool_decide (field ∈ ["output"; "input"; "cost"; "status"]) then Some n else None
        | _ => None
        end
    | Handoff.Lit _ => None
    end) (Handoff.pieces template)).

Definition reference_values (n : PipelineNodeSpec) : list string :=
  (pn_inputs n).*2 ++ [default EmptyString (pn_over n)] ++ (default [] (pn_transform n)).*2.

Definition check_reference (s : PipelineSpec) (n : PipelineNodeSpec) (reference : string) : option SpecError :=
  if negb (bool_decide (reference ∈ node_ids s)) then Some (UnknownReference (pn_id n) reference)
  else match ancestors s (pn_id n) with
       | Some l => if bool_decide (reference ∈ l) then None else Some (NotUpstream (pn_id n) reference)
       | None => Some (NotUpstream (pn_id n) reference)
       end.

(** [_validate_references] *)
Definition validate_references (s : PipelineSpec) : option SpecError :=
  Handoff.first_error (λ n,
    Handoff.first_error (λ value, Handoff.first_error (check_reference s n) (references value)) (reference_values n))
    (ps_nodes s).

Definition check_node_names (known : list string) (n : PipelineNodeSpec) : option SpecError :=
  match Handoff.first_error (λ dep, if negb (bool_decide (dep ∈ known)) then Some (UnknownDependency (pn_id n) dep)
                                    else if bool_decide (dep = pn_id n) then Some (SelfDependency (pn_id n)) else None)
          (pn_depends_on n) with
  | Some e => Some e
  | None =>
      if bool_decide (pn_kind n = FAN_OUT)
         && negb (match pn_node n with Some t => bool_decide (t ∈ known) | None => false end)
      then Some (UnknownTemplate (pn_id n))
      else Handoff.first_error (λ source, if bool_decide (source ∈ known) then None
                                          else Some (UnknownSource (pn_id n) source)) (pn_from_nodes n)
  end.

Definition check_edge_names (known : list string) (e : PipelineEdgeSpec) : option SpecError :=
  if negb (bool_decide (pe_from e ∈ known)) || negb (bool_decide (pe_to e ∈ known))
  then Some (UnknownEdge (pe_from e) (pe_to e))
  else if bool_decide (pe_from e = pe_to e) then Some (SelfLoop (pe_from e)) else None.

(** The edges [_reject_cycles] feeds its dictionaries with, in order. *)
Definition declared_edges (s : PipelineSpec) : list (string * string) :=
  ((λ e, (pe_from e, pe_to e)) <$> ps_edges s)
  ++ concat ((λ n, (λ dep, (dep, pn_id n)) <$> pn_depends_on n) <$> ps_nodes s).

(** [_reject_cycles] *)
Definition reject_cycles (s : PipelineSpec) : option SpecError :=
  match kahn_run pop_last (node_ids s) (declared_edges s) with
  | Some (visited, indegree) =>
      if (length visited =? length (node_ids s))%nat then None
      else Some (CycleError (sorted_strings (filter (λ v, (0 < default 0 (od_get v indegree))%Z) (node_ids s))))
  | None => Some (CycleError [])
  end.

(** [_valid_dag] *)
Definition valid_dag (s : PipelineSpec) : option SpecError :=
  match Handoff.first_error (check_node_names (node_ids s)) (ps_nodes s) with
  | Some e => Some e
  | None =>
      match Handoff.first_error (check_edge_names (node_ids s)) (ps_edges s) with
      | Some e => Some e
      | None => match validate_references s with Some e => Some e | None => reject_cycles s end
      end
  end.

(** All the validators, in pydantic's order: the nodes' own, the node list's,
    the specification's. *)
Definition validate_spec (s : PipelineSpec) : option SpecError :=
  match Handoff.first_error kind_requirements (ps_nodes s) with
  | Some e => Some e
  | None => if bool_decide (NoDup (node_ids s)) then valid_dag s else Some DuplicateIds
  end.

(** [_topological_order] of the engine. *)
Definition dependency_edges (s : PipelineSpec) : list (string * string) :=
  concat ((λ n, (λ dep, (dep, pn_id n)) <$> dependencies s (pn_id n)) <$> ps_nodes s).

Definition topological_order (s : PipelineSpec) : list PipelineNodeSpec :=
  match kahn_run pop_first (node_ids s) (dependency_edges s) with
  | Some (order, _) => concat ((λ i, filter (λ n, pn_id n = i) (ps_nodes s)) <$> order)
  | None => []
  end.

(** ** What the validators establish *)

Lemma first_error_None {E A} (check : A → option E) l : Handoff.first_error check l = None ↔ ∀ x, x ∈ l → check x = None.
Proof.
  unfold Handoff.first_error. induction l as [|x l IH]; simpl; [set_solver|].
  destruct (check x) eqn:Hx; [|rewrite IH; set_solver].
  split; [done|]. intros H. rewrite <-Hx. apply H. left.
Qed.

(** [depends s u v]: [v] waits for [u]. *)
Definition depends (s : PipelineSpec) (u v : string) : Prop := u ∈ dependencies s v.

Lemma elem_of_dependencies s u v :
  depends s u v ↔ (∃ e, e ∈ ps_edges s ∧ pe_from e = u ∧ pe_to e = v) ∨ ∃ n, node s v = Some n ∧ u ∈ pn_depends_on n.
Proof.
  unfold depends, dependencies, sorted_strings. rewrite py_sort_perm, elem_of_remove_dups, elem_of_app, list_elem_of_fmap.
  setoid_rewrite list_elem_of_filter.
  assert (u ∈ match node s v with Some n => pn_depends_on n | None => [] end
          ↔ ∃ n, node s v = Some n ∧ u ∈ pn_depends_on n) as ->; [|naive_solver].
  destruct (node s v); [naive_solver|]. rewrite elem_of_nil. naive_solver.
Qed.

Lemma node_Some s v n : node s v = Some n → n ∈ ps_nodes s ∧ pn_id n = v.
Proof. unfold node. intros [Hin Heq]%List.find_some. rewrite String.eqb_eq in Heq. by rewrite list_elem_of_In. Qed.

Lemma node_of s n : NoDup (node_ids s) → n ∈ ps_nodes s → node s (pn_id n) = Some n.
Proof.
  unfold node, node_ids. induction (ps_nodes s) as [|m l IH]; simpl; [by intros _ ?%not_elem_of_nil|].
  intros [Hm Hnd]%NoDup_cons [->|Hn]%elem_of_cons; [by rewrite String.eqb_refl|].
  destruct (String.eqb_spec (pn_id m) (pn_id n)) as [Heq|]; [|by apply IH].
  destruct Hm. rewrite Heq. by apply list_elem_of_fmap_2.
Qed.

Lemma declared_edges_depends s u v : NoDup (node_ids s) → edge (declared_edges s) u v ↔ depends s u v.
Proof.
  intros Hnd. rewrite elem_of_dependencies. unfold edge, declared_edges.
  rewrite elem_of_app, list_elem_of_fmap, elem_of_concat. split.
  - intros [(e & [= -> ->] & He)|(l & Hl & (n & -> & Hn)%list_elem_of_fmap)]; [left; by exists e|right].
    apply list_elem_of_fmap in Hl as (d & [= -> ->] & Hd). exists n. by rewrite node_of.
  - intros [(e & He & <- & <-)|(n & [Hn <-]%node_Some & Hu)]; [left; by exists e|right].
    exists ((λ dep, (dep, pn_id n)) <$> pn_depends_on n). split; apply list_elem_of_fmap; [by exists u|by exists n].
Qed.

Lemma dependency_edges_depends s u v : edge (dependency_edges s) u v ↔ v ∈ node_ids s ∧ depends s u v.
Proof.
  unfold edge, dependency_edges. rewrite elem_of_concat. split.
  - intros (l & Hl & (n & -> & Hn)%list_elem_of_fmap). apply list_elem_of_fmap in Hl as (d & [= -> ->] & Hd).
    split; [by apply list_elem_of_fmap_2|done].
  - intros [(n & -> & Hn)%list_elem_of_fmap Hu]. exists ((λ dep, (dep, pn_id n)) <$> dependencies s (pn_id n)).
    split; apply list_elem_of_fmap; [by exists u|by exists n].
Qed.

Lemma tc_mono {A} (R S : relation A) x y : (∀ a b, R a b → S a b) → tc R x y → tc S x y.
Proof. intros H. induction 1 as [a b Hab|a b c Hab _ IH]; [by apply tc_once, H|eapply tc_l; [by apply H|done]]. Qed.

Lemma tc_last {A} (R : relation A) u v : tc R u v → ∃ f, R f v ∧ rtc R u f.
Proof.
  induction 1 as [u v Huv|u w v Huw _ (f & Hf & Hr)]; [by exists u|]. exists f. split; [done|by eapply rtc_l].
Qed.

(** Collecting a node's ancestors stops on every graph, cyclic ones
    included (it runs before the cycle check), and yields exactly the nodes the
    node transitively depends on. *)
Theorem ancestors_terminate s v : ∃ l, ancestors s v = Some l ∧ ∀ u, u ∈ l ↔ tc (depends s) u v.
Proof.
  unfold ancestors. set (universe := remove_dups _).
  assert (∀ x y, y ∈ dependencies s x → y ∈ universe) as Hclosed.
  { intros x y [(e & He & <- & _)|(n & [Hn _]%node_Some & Hy)]%elem_of_dependencies;
      apply elem_of_remove_dups, elem_of_app; [left; by apply list_elem_of_fmap_2|right].
    apply elem_of_concat. exists (pn_depends_on n). split; [done|by apply list_elem_of_fmap_2]. }
  destruct (reach_Some (dependencies s) universe (reach_fuel (dependencies s) universe (dependencies s v)) (dependencies s v) [])
    as [l Hl]; [apply NoDup_remove_dups|intros x; apply Hclosed|intros x y _; apply Hclosed|unfold reach_fuel; lia|].
  exists l. split; [done|]. intros u. rewrite (reach_iff _ _ _ _ u Hl).
  assert (∀ f, rtc (step (dependencies s)) f u ↔ rtc (depends s) u f) as Hflip.
  { intros f. split; induction 1 as [|a b c Hab _ IH]; try reflexivity; by eapply rtc_r. }
  setoid_rewrite Hflip. split.
  - intros (f & Hf & Hr). by eapply tc_rtc_l; [|apply tc_once].
  - exact (tc_last (depends s) u v).
Qed.

(** Well-formedness, declaratively. *)
Record well_formed (s : PipelineSpec) : Prop := {
  wf_kinds : ∀ n, n ∈ ps_nodes s → kind_requirements n = None;
  wf_ids : NoDup (node_ids s);
  wf_names : ∀ n x, n ∈ ps_nodes s → x ∈ pn_depends_on n ++ pn_from_nodes n → x ∈ node_ids s;
  wf_templates : ∀ n, n ∈ ps_nodes s → pn_kind n = FAN_OUT → ∃ t, pn_node n = Some t ∧ t ∈ node_ids s;
  wf_edges : ∀ e, e ∈ ps_edges s → pe_from e ∈ node_ids s ∧ pe_to e ∈ node_ids s;
  wf_acyclic : ∀ x, ¬ tc (depends s) x x;
  wf_upstream : ∀ n value r, n ∈ ps_nodes s → value ∈ reference_values n → r ∈ references value →
    r ∈ node_ids s ∧ tc (depends s) r (pn_id n);
}.

Lemma check_node_names_None s n :
  n ∈ ps_nodes s →
  check_node_names (node_ids s) n = None ↔
  (∀ x, x ∈ pn_depends_on n → x ∈ node_ids s ∧ x ≠ pn_id n) ∧
  (pn_kind n = FAN_OUT → ∃ t, pn_node n = Some t ∧ t ∈ node_ids s) ∧
  (∀ x, x ∈ pn_from_nodes n → x ∈ node_ids s).
Proof.
  intros Hn. unfold check_node_names.
  match goal with |- context [Handoff.first_error ?f (pn_depends_on n)] => set (check := f) end.
  assert ((∀ x, x ∈ pn_depends_on n → check x = None) ↔ ∀ x, x ∈ pn_depends_on n → x ∈ node_ids s ∧ x ≠ pn_id n) as Hc.
  { unfold check. split; intros H x Hx; specialize (H x Hx); repeat case_bool_decide; simpl in *; naive_solver. }
  assert ((∀ x, x ∈ pn_from_nodes n → (if bool_decide (x ∈ node_ids s) then None else Some (UnknownSource (pn_id n) x)) = None)
          ↔ ∀ x, x ∈ pn_from_nodes n → x ∈ node_ids s) as Hs.
  { split; intros H x Hx; specialize (H x Hx); case_bool_decide; naive_solver. }
  rewrite <-Hc, <-(first_error_None check). destruct (Handoff.first_error check (pn_depends_on n)); [naive_solver|].
  destruct (bool_decide_reflect (pn_kind n = FAN_OUT)) as [Hk|Hk]; simpl; [|rewrite first_error_None, Hs; tauto].
  destruct (pn_node n) as [t|]; simpl; [|naive_solver].
  destruct (bool_decide_reflect (t ∈ node_ids s)); simpl; [rewrite first_error_None, Hs|]; naive_solver.
Qed.

Lemma check_edge_names_None s e :
  check_edge_names (node_ids s) e = None ↔ pe_from e ∈ node_ids s ∧ pe_to e ∈ node_ids s ∧ pe_from e ≠ pe_to e.
Proof. unfold check_edge_names. repeat case_bool_decide; simpl; naive_solver. Qed.

Lemma check_reference_None s n r :
  check_reference s n r = None ↔ r ∈ node_ids s ∧ tc (depends s) r (pn_id n).
Proof.
  unfold check_reference. destruct (ancestors_terminate s (pn_id n)) as (l & -> & Hl).
  rewrite <-Hl. repeat case_bool_decide; simpl; naive_solver.
Qed.

Lemma validate_references_None s :
  validate_references s = None ↔
  ∀ n value r, n ∈ ps_nodes s → value ∈ reference_values n → r ∈ references value →
    r ∈ node_ids s ∧ tc (depends s) r (pn_id n).
Proof.
  unfold validate_references. rewrite first_error_None. setoid_rewrite first_error_None.
  setoid_rewrite first_error_None. setoid_rewrite check_reference_None. naive_solver.
Qed.

Lemma reject_cycles_None s :
  NoDup (node_ids s) → (∀ u v, edge (declared_edges s) u v → u ∈ node_ids s ∧ v ∈ node_ids s) →
  reject_cycles s = None ↔ ∀ x, ¬ tc (depends s) x x.
Proof.
  intros Hnd Hk. unfold reject_cycles.
  destruct (kahn_run_Some pop_last (node_ids s) (declared_edges s) pop_last_pops Hnd Hk) as (order & indegree & -> & Hinv).
  assert (acyclic (declared_edges s) ↔ ∀ x, ¬ tc (depends s) x x) as <-.
  { unfold acyclic. split; intros H x Ht; apply (H x); (eapply tc_mono; [|exact Ht]); intros a b Hab;
      by apply (declared_edges_depends s a b Hnd). }
  rewrite <-(kahn_complete_iff _ _ Hnd Hk _ _ Hinv). destruct (Nat.eqb_spec (length order) (length (node_ids s))); naive_solver.
Qed.

Lemma declared_edges_known s :
  NoDup (node_ids s) →
  (∀ n x, n ∈ ps_nodes s → x ∈ pn_depends_on n → x ∈ node_ids s) →
  (∀ e, e ∈ ps_edges s → pe_from e ∈ node_ids s ∧ pe_to e ∈ node_ids s) →
  ∀ u v, edge (declared_edges s) u v → u ∈ node_ids s ∧ v ∈ node_ids s.
Proof.
  intros Hnd Hd He u v. rewrite declared_edges_depends, elem_of_dependencies by done.
  intros [(e & Hin & <- & <-)|(n & [Hn <-]%node_Some & Hu)]; [by apply He|].
  split; [by eapply Hd|by apply list_elem_of_fmap_2].
Qed.

Lemma validate_spec_wf s : validate_spec s = None ↔ well_formed s.
Proof.
  unfold validate_spec, valid_dag. split.
  - destruct (Handoff.first_error kind_requirements (ps_nodes s)) eqn:Hk; [done|]. rewrite first_error_None in Hk.
    case_bool_decide as Hnd; [|done]. destruct (Handoff.first_error (check_node_names _) _) eqn:Hn; [done|].
    destruct (Handoff.first_error (check_edge_names _) _) eqn:He; [done|].
    destruct (validate_references s) eqn:Hr; [done|]. intros Hc. rewrite first_error_None in Hn. rewrite first_error_None in He.
    assert (∀ n, n ∈ ps_nodes s → _) as Hn' by (intros n Hin; exact (proj1 (check_node_names_None s n Hin) (Hn n Hin))).
    setoid_rewrite check_edge_names_None in He. rewrite validate_references_None in Hr.
    assert (∀ u v, edge (declared_edges s) u v → u ∈ node_ids s ∧ v ∈ node_ids s) as Hknown.
    { apply declared_edges_known; [done|intros n x Hin Hx; destruct (Hn' n Hin) as (H1 & _); by destruct (H1 x Hx)|intros e Hin; by destruct (He e Hin) as (?&?&_)]. }
    rewrite reject_cycles_None in Hc by done. split; try done.
    + intros n x Hin Hx. destruct (Hn' n Hin) as (H1 & _ & H3). apply elem_of_app in Hx as [Hx|Hx]; [by destruct (H1 x Hx)|by apply H3].
    + intros n Hin Hf. by apply (Hn' n Hin).
    + intros e Hin. by destruct (He e Hin) as (?&?&_).
  - intros [Hk Hnd Hn Ht He Hac Hr].
    rewrite (proj2 (first_error_None _ _)) by done. rewrite bool_decide_eq_true_2 by done.
    assert (∀ x, ¬ depends s x x) as Hself by (intros x Hx; by apply (Hac x), tc_once).
    rewrite (proj2 (first_error_None _ _)).
    2: { intros n Hin. apply check_node_names_None; [done|]. split_and!.
         - intros x Hx. split; [apply (Hn n); [done|apply elem_of_app; by left]|]. intros ->. apply (Hself (pn_id n)).
           apply elem_of_dependencies. right. exists n. by rewrite node_of.
         - by apply Ht.
         - intros x Hx. apply (Hn n); [done|apply elem_of_app; by right]. }
    rewrite (proj2 (first_error_None _ _)).
    2: { intros e Hin. apply check_edge_names_None. destruct (He e Hin) as [? ?]. split_and!; [done|done|].
         intros Heq. apply (Hself (pe_from e)). apply elem_of_dependencies. left. by exists e. }
    rewrite (proj2 (validate_references_None s)) by done. apply reject_cycles_None; [done| |done].
    apply declared_edges_known; [done|intros n x Hin Hx; apply (Hn n); [done|apply elem_of_app; by left]|done].
Qed.

(** a pipeline specification is accepted exactly when every node has what its
    kind requires, node ids are unique, every name refers to a node, no node
    transitively depends on itself, and every data reference points to a node
    upstream of the one that uses it. *)
Theorem pipeline_accepted_iff s : validate_spec s = None ↔ well_formed s.
Proof. apply validate_spec_wf. Qed.

Lemma node_filter s i :
  NoDup (node_ids s) → i ∈ node_ids s → ∃ n, node s i = Some n ∧ filter (λ n, pn_id n = i) (ps_nodes s) = [n].
Proof.
  unfold node, node_ids. induction (ps_nodes s) as [|m l IH]; simpl; [by intros _ ?%not_elem_of_nil|].
  intros [Hm Hnd]%NoDup_cons Hi. rewrite filter_cons. destruct (String.eqb_spec (pn_id m) i) as [<-|Hne].
  - exists m. split; [done|]. rewrite decide_True by done. f_equal. clear -Hm.
    induction l as [|k l IH]; [done|]. rewrite filter_cons, decide_False by (intros Hk; apply Hm; rewrite <-Hk; left).
    apply IH. intros H. apply Hm. by right.
  - rewrite decide_False by done. apply elem_of_cons in Hi as [->|Hi]; [done|]. by apply IH.
Qed.

Lemma order_nodes s order :
  NoDup (node_ids s) → (∀ i, i ∈ order → i ∈ node_ids s) →
  let l := concat ((λ i, filter (λ n, pn_id n = i) (ps_nodes s)) <$> order) in
  pn_id <$> l = order ∧ ∀ n, n ∈ l → n ∈ ps_nodes s.
Proof.
  intros Hnd. induction order as [|i order IH]; intros Hin; simpl; [split; [done|by intros ? ?%not_elem_of_nil]|].
  destruct (node_filter s i Hnd) as (n & Hn & ->); [apply Hin; left|]. apply node_Some in Hn as [Hn <-].
  destruct IH as [IH1 IH2]; [intros j Hj; apply Hin; by right|]. split; [exact (f_equal (cons (pn_id n)) IH1)|].
  intros m [->|Hm]%elem_of_cons; [done|by apply IH2].
Qed.

(** The order the engine visits the nodes in. *)
Lemma topological_order_ids s :
  validate_spec s = None →
  pn_id <$> topological_order s ≡ₚ node_ids s ∧ (∀ n, n ∈ topological_order s → n ∈ ps_nodes s) ∧
  ∀ l1 i l2, pn_id <$> topological_order s = l1 ++ i :: l2 → ∀ d, depends s d i → d ∈ l1.
Proof.
  intros Hv%validate_spec_wf. destruct Hv as [_ Hnd Hn _ He Hac _].
  assert (∀ u v, depends s u v → u ∈ node_ids s) as Hdep.
  { intros u v [(e & Hin & <- & _)|(n & [Hin _]%node_Some & Hu)]%elem_of_dependencies; [by apply He|].
    apply (Hn n); [done|]. apply elem_of_app. by left. }
  assert (∀ u v, edge (dependency_edges s) u v → u ∈ node_ids s ∧ v ∈ node_ids s) as Hk.
  { intros u v [Hv Hu]%dependency_edges_depends. split; [by eapply Hdep|done]. }
  unfold topological_order.
  destruct (kahn_run_Some pop_first (node_ids s) (dependency_edges s) pop_first_pops Hnd Hk) as (order & indegree & -> & Hinv).
  cbv iota beta.
  assert (acyclic (dependency_edges s)) as Hac'.
  { intros x Ht. apply (Hac x). eapply tc_mono; [|exact Ht]. by intros a b [_ Hab]%dependency_edges_depends. }
  pose proof (kahn_permutation _ _ Hnd Hk _ _ Hac' Hinv) as Hp. destruct Hinv as [_ Hin _ _ Hs]. rewrite app_nil_r in *.
  destruct (order_nodes s order Hnd Hin) as [-> Hsub]. split_and!; [done|done|].
  intros l1 i l2 -> d Hd. eapply Hs; [done|]. apply dependency_edges_depends. split; [|done]. apply Hin.
  rewrite elem_of_app, elem_of_cons. auto.
Qed.

(** The engine's order of an accepted pipeline lists every node exactly
    once, each after all the nodes it depends on. *)
Theorem topological_order_sound s :
  validate_spec s = None →
  topological_order s ≡ₚ ps_nodes s ∧
  ∀ l1 n l2, topological_order s = l1 ++ n :: l2 → ∀ d, d ∈ dependencies s (pn_id n) → d ∈ pn_id <$> l1.
Proof.
  intros Hv. destruct (topological_order_ids s Hv) as (Hp & Hsub & Hs). split.
  - apply validate_spec_wf in Hv as [_ Hnd _ _ _ _ _].
    assert (NoDup (topological_order s)) as HndT by (apply (NoDup_fmap_1 pn_id); by rewrite Hp).
    assert (NoDup (ps_nodes s)) as HndN by (by apply (NoDup_fmap_1 pn_id)).
    apply NoDup_Permutation; [done..|]. intros n. split; [apply Hsub|]. intros Hn.
    assert (pn_id n ∈ pn_id <$> topological_order s) as (m & Heq & Hm)%list_elem_of_fmap
      by (rewrite Hp; by apply list_elem_of_fmap_2).
    pose proof (node_of s n Hnd Hn) as H1. rewrite Heq, (node_of s m Hnd (Hsub m Hm)) in H1. by injection H1 as <-.
  - intros l1 n l2 Heq d Hd. eapply Hs; [|exact Hd]. by rewrite Heq, fmap_app.
Qed.

Lemma topological_order_sound_witness :
  let n id deps := {| pn_id := id; pn_kind := GATE; pn_workload := None; pn_inputs := []; pn_on_failure := FAIL_FAST;
    pn_retry := {| max_attempts := 1; backoff_s := f64_zero; retry_mode := RESTART |}; pn_requires_approval := None;
    pn_budget := None; pn_depends_on := deps; pn_over := None; pn_as_name := None; pn_node := None; pn_from_nodes := [];
    pn_reducer := None; pn_transform := None |} in
  let s := {| ps_id := "p"; ps_tenant_id := "default"; ps_name := "p"; ps_version := 1;
    ps_nodes := [n "b" ["a"]; n "a" []]; ps_edges := []; ps_budget_usd := f64_zero; ps_on_exceed := ON_EXCEED_PAUSE;
    ps_created_at := None |} in
  pn_id <$> topological_order s = ["a"; "b"] ∧ topological_order s ≡ₚ ps_nodes s.
Proof.
  intros n s. split; [vm_compute; reflexivity|]. apply (topological_order_sound s). vm_compute. reflexivity.
Defined.
