(* ===== verification/PipelineEngine.v ===== *)
(** * The pipeline engine ([pipelines/engine.py], [pipelines/models.py], the
    in-memory store of [pipelines/store.py])

    A parent run drives its nodes in topological order: reconcile the running
    children, stop at the budget, start what is ready, skip after failures,
    derive the parent's state; at most [MAX_ITERATIONS] rounds per call.  The
    executor of child runs, the approval gate, the schema and budget look-ups,
    the clock and the id factory are fields of an environment acting on a state
    of their own.  The parent record and its context are local to a call until
    they are saved; an exception loses them and keeps what was saved. *)

From Stdlib Require Import Ascii.
From stdpp Require Import base strings relations pretty sorting numbers list.
From S2P Require Import Prelude Text Float64 Tenancy CoreModels Graph Pipelines.

Import Handoff.
Open Scope hp_scope.

(** ** Records *)

Inductive PipelineState := P_PENDING | P_RUNNING | P_PAUSED | P_COMPLETED | P_FAILED | P_CANCELLED.
#[export] Instance PipelineState_eq_dec : EqDecision PipelineState.
Proof. solve_decision. Defined.

Inductive NodeStatus := PENDING | RUNNING | WAITING_APPROVAL | COMPLETED | FAILED | SKIPPED.
#[export] Instance NodeStatus_eq_dec : EqDecision NodeStatus.
Proof. solve_decision. Defined.

Definition node_status_value (s : NodeStatus) : string :=
  match s with
  | PENDING => "pending" | RUNNING => "running" | WAITING_APPROVAL => "waiting_approval"
  | COMPLETED => "completed" | FAILED => "failed" | SKIPPED => "skipped"
  end.

Record NodeResult := mkResult {
  nr_status : NodeStatus; nr_output : JsonValue; nr_cost_usd : f64; nr_error : option string; nr_artifacts : list string }.

Record FanOutInstance := mkInstance {
  fi_index : nat; fi_item : JsonValue; fi_child_run_id : option string; fi_status : NodeStatus;
  fi_output : JsonValue; fi_cost_usd : f64; fi_error : option string }.

Record PipelineNodeRun := mkNodeRun {
  n_pipeline_run_id : string;
  n_pipeline_id : string;
  n_node_id : string;
  n_tenant_id : string;
  n_attempt : Z;
  n_status : NodeStatus;
  n_child_run_id : option string;
  n_output : JsonValue;
  n_cost_usd : f64;
  n_error : option string;
  n_approval_id : option string;
  n_artifacts : list string;
  n_instances : list FanOutInstance;
  n_started_at : option Z;
  n_finished_at : option Z;
}.

Record PipelineRunHeader := mkHeader {
  h_pipeline_run_id : string;
  h_tenant_id : string;
  h_pipeline_id : string;
  h_version : Z;
  h_state : PipelineState;
  h_budget_usd : f64;
  h_spent_usd : f64;
  h_parent_run_id : option string;
  h_context : PipelineContext;
  h_admission_context : AdmissionContext;
  h_error : option string;
  h_started_at : Z;
  h_finished_at : option Z;
}.

(** The updates the engine makes; a field left out is unchanged. *)
Definition with_result (n : PipelineNodeRun) (status : NodeStatus) (output : JsonValue) (cost : f64)
    (error : option string) (artifacts : list string) (instances : list FanOutInstance) (finished : option Z) : PipelineNodeRun :=
  {| n_pipeline_run_id := n_pipeline_run_id n; n_pipeline_id := n_pipeline_id n; n_node_id := n_node_id n;
     n_tenant_id := n_tenant_id n; n_attempt := n_attempt n; n_status := status; n_child_run_id := n_child_run_id n;
     n_output := output; n_cost_usd := cost; n_error := error; n_approval_id := n_approval_id n;
     n_artifacts := artifacts; n_instances := instances; n_started_at := n_started_at n; n_finished_at := finished |}.

Definition with_status (n : PipelineNodeRun) (status : NodeStatus) (error : option string) (finished : option Z) : PipelineNodeRun :=
  with_result n status (n_output n) (n_cost_usd n) error (n_artifacts n) (n_instances n) finished.

Definition with_attempt (n : PipelineNodeRun) (attempt : Z) (status : NodeStatus) (child : option string)
    (error : option string) : PipelineNodeRun :=
  {| n_pipeline_run_id := n_pipeline_run_id n; n_pipeline_id := n_pipeline_id n; n_node_id := n_node_id n;
     n_tenant_id := n_tenant_id n; n_attempt := attempt; n_status := status; n_child_run_id := child;
     n_output := n_output n; n_cost_usd := n_cost_usd n; n_error := error; n_approval_id := n_approval_id n;
     n_artifacts := n_artifacts n; n_instances := n_instances n; n_started_at := n_started_at n;
     n_finished_at := n_finished_at n |}.

Definition with_start (n : PipelineNodeRun) (status : NodeStatus) (child approval : option string) (started : option Z)
    : PipelineNodeRun :=
  {| n_pipeline_run_id := n_pipeline_run_id n; n_pipeline_id := n_pipeline_id n; n_node_id := n_node_id n;
     n_tenant_id := n_tenant_id n; n_attempt := n_attempt n; n_status := status; n_child_run_id := child;
     n_output := n_output n; n_cost_usd := n_cost_usd n; n_error := n_error n; n_approval_id := approval;
     n_artifacts := n_artifacts n; n_instances := n_instances n; n_started_at := started;
     n_finished_at := n_finished_at n |}.

Definition with_header (h : PipelineRunHeader) (state : PipelineState) (spent : f64) (context : PipelineContext)
    (error : option string) (finished : option Z) : PipelineRunHeader :=
  {| h_pipeline_run_id := h_pipeline_run_id h; h_tenant_id := h_tenant_id h; h_pipeline_id := h_pipeline_id h;
     h_version := h_version h; h_state := state; h_budget_usd := h_budget_usd h; h_spent_usd := spent;
     h_parent_run_id := h_parent_run_id h; h_context := context; h_admission_context := h_admission_context h;
     h_error := error; h_started_at := h_started_at h; h_finished_at := finished |}.

Definition set_spent (h : PipelineRunHeader) (spent : f64) : PipelineRunHeader :=
  with_header h (h_state h) spent (h_context h) (h_error h) (h_finished_at h).

Definition set_context (h : PipelineRunHeader) (c : PipelineContext) : PipelineRunHeader :=
  with_header h (h_state h) (h_spent_usd h) c (h_error h) (h_finished_at h).

(** ** The in-memory store *)

Record PipelineStore := mkStore {
  st_specs : odict string (PipelineSpec * string);
  st_runs : odict string (PipelineRunHeader * string);
  st_nodes : odict (string * string * Z) PipelineNodeRun;
}.

Definition empty_store : PipelineStore := {| st_specs := []; st_runs := []; st_nodes := [] |}.

Definition get_spec (pipeline_id : string) (ctx : TenantContext) (s : PipelineStore) : option PipelineSpec :=
  match od_get pipeline_id (st_specs s) with
  | Some (spec, tenant) => if scopes ctx tenant then Some spec else None
  | None => None
  end.

Definition list_specs (ctx : TenantContext) (s : PipelineStore) : list PipelineSpec :=
  py_sort (λ a b, str_leb (ps_id a) (ps_id b)) (filter (λ e, scopes ctx e.2 = true) (od_values (st_specs s))).*1.

Definition get_run (pipeline_run_id : string) (ctx : TenantContext) (s : PipelineStore) : option PipelineRunHeader :=
  match od_get pipeline_run_id (st_runs s) with
  | Some (h, tenant) => if scopes ctx tenant then Some h else None
  | None => None
  end.

Definition header_leb (a b : PipelineRunHeader) : bool :=
  (h_started_at a <? h_started_at b)%Z
  || bool_decide (h_started_at a = h_started_at b) && str_leb (h_pipeline_run_id a) (h_pipeline_run_id b).

Definition list_runs (pipeline_id : option string) (ctx : TenantContext) (s : PipelineStore) : list PipelineRunHeader :=
  py_sort header_leb
    (filter (λ e, scopes ctx e.2 && opt_is pipeline_id (h_pipeline_id e.1) = true) (od_values (st_runs s))).*1.

Definition get_node_run (pipeline_run_id node_id : string) (attempt : Z) (ctx : TenantContext) (s : PipelineStore)
    : option PipelineNodeRun :=
  match od_get (pipeline_run_id, node_id, attempt) (st_nodes s) with
  | Some n => if scopes ctx (n_tenant_id n) then Some n else None
  | None => None
  end.

Definition node_run_leb (a b : PipelineNodeRun) : bool :=
  if String.eqb (n_node_id a) (n_node_id b) then (n_attempt a <=? n_attempt b)%Z else str_leb (n_node_id a) (n_node_id b).

Definition list_node_runs (pipeline_run_id : string) (ctx : TenantContext) (s : PipelineStore) : list PipelineNodeRun :=
  py_sort node_run_leb
    (filter (λ n, n_pipeline_run_id n = pipeline_run_id ∧ scopes ctx (n_tenant_id n) = true) (od_values (st_nodes s))).

(** ** The engine *)

Record IOSpec := mkIO { input_schema : option (list (string * JsonValue)); output_schema : option (list (string * JsonValue)) }.

Inductive PipelineExn :=
  | PipelineRunNotFoundError (pipeline_run_id : string)
  | PipelineSpecNotFoundError (pipeline_id : string)
  | PipelineScopeError
  | UncaughtHandoffError (message : string)
  | NodeAssertionError
  | ExternalError (what : string).

Abbreviation Op X A := (X → outcome PipelineExn A * X).

Record ApprovalGate (X : Type) := mkGate {
  ag_request : string → string → string → string → string → Op X string; (* run, workload, rule, reason, tenant *)
  ag_status : string → Op X string;
}.
Arguments mkGate {X}. Arguments ag_request {X}. Arguments ag_status {X}.

Record Env (X : Type) := mkEnv {
  pe_submit : string → odict string JsonValue → AdmissionContext → PipelineOrigin → TenantContext → Op X string;
  pe_result : string → TenantContext → Op X (option NodeResult);
  pe_cancel : string → TenantContext → Op X unit;
  pe_approvals : option (ApprovalGate X);
  pe_schema_lookup : string → option IOSpec;
  pe_budget_lookup : string → option f64;
  pe_clock : X → Z * X;
  pe_new_id : X → string * X;
  pe_float_str : f64 → string;
  pe_schema_error : list (string * JsonValue) → string;
}.
Arguments mkEnv {X}. Arguments pe_submit {X}. Arguments pe_result {X}. Arguments pe_cancel {X}.
Arguments pe_approvals {X}. Arguments pe_schema_lookup {X}. Arguments pe_budget_lookup {X}. Arguments pe_clock {X}.
Arguments pe_new_id {X}. Arguments pe_float_str {X}. Arguments pe_schema_error {X}.

Record World (X : Type) := mkWorld { pw_store : PipelineStore; pw_ext : X }.
Arguments mkWorld {X}. Arguments pw_store {X}. Arguments pw_ext {X}.

Definition terminal_state (s : PipelineState) : bool := bool_decide (s ∈ [P_COMPLETED; P_FAILED; P_CANCELLED]).

Definition done_status (s : NodeStatus) : bool := bool_decide (s ∈ [COMPLETED; FAILED; SKIPPED]).

Definition MAX_ITERATIONS : nat := 200.

Abbreviation Nodes := (odict string PipelineNodeRun).

(** [_spent] *)
Definition spent (nodes : Nodes) : f64 := f64_sum (n_cost_usd <$> od_values nodes).

(** [_fan_out_templates] *)
Definition fan_out_templates (s : PipelineSpec) : list string :=
  omap (λ n, if bool_decide (pn_kind n = FAN_OUT) && given (pn_node n) then pn_node n else None) (ps_nodes s).

(** [_publish] *)
Definition publish (c : PipelineContext) (n : PipelineNodeRun) : PipelineContext :=
  {| outputs := od_set (n_node_id n) [("output", n_output n); ("status", JStr (node_status_value (n_status n)));
                                      ("cost", JFloat (n_cost_usd n))] (outputs c);
     variables := variables c |}.

(** *** Reducers

    [sum] over JSON numbers as CPython computes it: machine integers first, then
    compensated floats; an integer beyond the machine word leaves both loops for
    plain addition. *)

Inductive sum_state :=
  | SumInts (z : Z)
  | SumFloats (s c : f64)
  | SumAny (v : Z + f64).

Definition fits_long (z : Z) : bool := ((- 2 ^ 63 <=? z) && (z <? 2 ^ 63))%Z.

(** [float(z)]; [None] is an [OverflowError]. *)
Definition to_float (z : Z) : option f64 := let x := f64_of_Z z in if f64_is_finite x then Some x else None.

Definition close_floats (s c : f64) : f64 := if negb (f64_eqb c f64_zero) && f64_is_finite c then f64_add s c else s.

Definition sum_int (st : sum_state) (n : Z) : option sum_state :=
  match st with
  | SumInts z => if fits_long n && fits_long (z + n) then Some (SumInts (z + n)) else Some (SumAny (inl (z + n)%Z))
  | SumFloats s c =>
      x ← to_float n;
      if fits_long n then Some (SumFloats (f64_add s x) c) else Some (SumAny (inr (f64_add (close_floats s c) x)))
  | SumAny (inl z) => Some (SumAny (inl (z + n)%Z))
  | SumAny (inr f) => x ← to_float n; Some (SumAny (inr (f64_add f x)))
  end.

Definition sum_float (st : sum_state) (x : f64) : option sum_state :=
  match st with
  | SumInts z => y ← to_float z; Some (SumFloats (f64_add y x) f64_zero)
  | SumFloats s c => let '(s', c') := f64_sum_step (s, c) x in Some (SumFloats s' c')
  | SumAny (inl z) => y ← to_float z; Some (SumAny (inr (f64_add y x)))
  | SumAny (inr f) => Some (SumAny (inr (f64_add f x)))
  end.

Definition sum_step (st : option sum_state) (v : JsonValue) : option sum_state :=
  s ← st;
  match v with
  | JBool b => sum_int s (if b then 1 else 0)
  | JInt n => sum_int s n
  | JFloat x => sum_float s x
  | _ => Some s
  end.

Definition sum_close (st : sum_state) : JsonValue :=
  match st with
  | SumInts z | SumAny (inl z) => JInt z
  | SumFloats s c => JFloat (close_floats s c)
  | SumAny (inr f) => JFloat f
  end.

(** One output merged into the dictionary; list items go under their position. *)
Definition merge_output (merged : odict string JsonValue) (v : JsonValue) : odict string JsonValue :=
  match v with
  | JObj d => foldl (λ m e, od_set e.1 e.2 m) merged d
  | JList l => foldl (λ m e, od_set (pretty e.1) e.2 m) merged (imap pair l)
  | _ => merged
  end.

(** [_reduce]; [None] is an [OverflowError] out of the sum. *)
Definition reduce (reducer : option Reducer) (l : list JsonValue) : option JsonValue :=
  match reducer with
  | Some JSON_MERGE => Some (JObj (foldl merge_output [] l))
  | Some CONCAT => Some (JList (mbind (λ v, match v with JList x => x | _ => [] end) l))
  | Some SUM => sum_close <$> foldl sum_step (Some (SumInts 0)) l
  | Some FIRST_SUCCESS => Some (default JNull (List.find (λ v, match v with JNull => false | _ => true end) l))
  | None => Some (default JNull (head l))
  end.

Section Engine.
Context {X : Type}.
Variable env : Env X.

Abbreviation PM := (M (World X) PipelineExn).

Definition on_ext {A} (f : Op X A) : PM A :=
  λ w, let '(o, x) := f (pw_ext w) in (o, mkWorld (pw_store w) x).

Definition clock : PM Z := on_ext (λ x, let '(t, x') := pe_clock env x in (Ret t, x')).

Definition on_store (f : PipelineStore → PipelineStore) : PM unit := modify (λ w, mkWorld (f (pw_store w)) (pw_ext w)).

(** *** Store writes *)

Definition save_spec (s : PipelineSpec) (ctx : TenantContext) : PM unit :=
  require PipelineScopeError ctx (ps_tenant_id s) ;;;
  on_store (λ st, {| st_specs := od_set (ps_id s) (s, ps_tenant_id s) (st_specs st); st_runs := st_runs st; st_nodes := st_nodes st |}).

Definition save_run (h : PipelineRunHeader) (ctx : TenantContext) : PM unit :=
  require PipelineScopeError ctx (h_tenant_id h) ;;;
  on_store (λ st, {| st_specs := st_specs st; st_runs := od_set (h_pipeline_run_id h) (h, h_tenant_id h) (st_runs st);
                     st_nodes := st_nodes st |}).

Definition node_key (n : PipelineNodeRun) : string * string * Z := (n_pipeline_run_id n, n_node_id n, n_attempt n).

Definition save_node_run (n : PipelineNodeRun) (ctx : TenantContext) : PM unit :=
  require PipelineScopeError ctx (n_tenant_id n) ;;;
  on_store (λ st, {| st_specs := st_specs st; st_runs := st_runs st; st_nodes := od_set (node_key n) n (st_nodes st) |}).

(** [_latest_nodes] *)
Definition later (latest : Nodes) (n : PipelineNodeRun) : Nodes :=
  match od_get (n_node_id n) latest with
  | None => od_set (n_node_id n) n latest
  | Some current => if (n_attempt current <? n_attempt n)%Z then od_set (n_node_id n) n latest else latest
  end.

Definition latest_nodes (pipeline_run_id : string) (ctx : TenantContext) (s : PipelineStore) : Nodes :=
  foldl later [] (list_node_runs pipeline_run_id ctx s).

(** [_node_run] *)
Definition node_run (h : PipelineRunHeader) (n : PipelineNodeSpec) : PM PipelineNodeRun :=
  let* t := clock in
  ret {| n_pipeline_run_id := h_pipeline_run_id h; n_pipeline_id := h_pipeline_id h; n_node_id := pn_id n;
         n_tenant_id := h_tenant_id h; n_attempt := 1; n_status := PENDING; n_child_run_id := None; n_output := JNull;
         n_cost_usd := f64_zero; n_error := None; n_approval_id := None; n_artifacts := []; n_instances := [];
         n_started_at := Some t; n_finished_at := None |}.

(** [node.started_at or self._clock()] *)
Definition started_or_now (n : PipelineNodeRun) : PM (option Z) :=
  match n_started_at n with Some t => ret (Some t) | None => let* t := clock in ret (Some t) end.

(** [_projected_cost] *)
Definition projected_cost (n : PipelineNodeSpec) : f64 :=
  match pn_budget n with
  | Some usd => usd
  | None => match pn_workload n with Some w => default f64_zero (pe_budget_lookup env w) | None => f64_zero end
  end.

(** [_budget_exceeded] *)
Definition budget_exceeded (h : PipelineRunHeader) : option (PipelineState * string) :=
  if f64_leb (h_budget_usd h) f64_zero || f64_leb (h_spent_usd h) (h_budget_usd h) then None
  else Some (P_PAUSED, "pipeline budget exhausted").

(** [_failed] *)
Definition failed (spec : PipelineNodeSpec) (n : PipelineNodeRun) (error : string) (cost : f64) : PM PipelineNodeRun :=
  if (n_attempt n <? max_attempts (pn_retry spec))%Z
  then ret (with_attempt n (n_attempt n + 1) PENDING None None)
  else let* t := clock in
       ret (with_result n FAILED (n_output n) cost (Some error) (n_artifacts n) (n_instances n) (Some t)).

(** A step returns the node's new record and the context, which [_publish]
    updates in place. *)
Abbreviation Step := (PM (PipelineNodeRun * PipelineContext)).

Definition keeping (c : PipelineContext) (m : PM PipelineNodeRun) : Step := let* n := m in ret (n, c).

(** [_finish] *)
Definition finish (spec : PipelineNodeSpec) (n : PipelineNodeRun) (r : NodeResult) (c : PipelineContext) : Step :=
  match nr_status r with
  | COMPLETED =>
      if match pn_budget spec with Some usd => f64_ltb usd (nr_cost_usd r) | None => false end
      then keeping c (failed spec n "per-step budget exceeded" (nr_cost_usd r))
      else
        let io := pe_schema_lookup env (default EmptyString (pn_workload spec)) in
        match validate_boundary (pe_schema_error env) (nr_output r) (i ← io; output_schema i) (pn_id spec) "output" with
        | Some message => keeping c (failed spec n message f64_zero)
        | None =>
            let* t := clock in
            let finished := with_result n COMPLETED (nr_output r) (nr_cost_usd r) (n_error n) (nr_artifacts r)
                              (n_instances n) (Some t) in
            ret (finished, publish c finished)
        end
  | _ => keeping c (failed spec n (if given (nr_error r) then default EmptyString (nr_error r) else "node failed") (nr_cost_usd r))
  end.

Definition origin_of (h : PipelineRunHeader) (spec : PipelineNodeSpec) (n : PipelineNodeRun) : PipelineOrigin :=
  {| po_pipeline_run_id := n_pipeline_run_id n; po_pipeline_id := n_pipeline_id n; po_node_id := pn_id spec;
     po_parent_run_id := h_parent_run_id h; po_attempt := n_attempt n |}.

(** [_workload] *)
Definition workload_step (spec : PipelineNodeSpec) (c : PipelineContext) (n : PipelineNodeRun) (h : PipelineRunHeader)
    (ctx : TenantContext) : Step :=
  match pn_workload spec with
  | None => raise NodeAssertionError
  | Some workload =>
      match map_inputs (pe_float_str env) (pn_inputs spec) c with
      | HandoffError message => keeping c (failed spec n message f64_zero)
      | Ok mapped =>
          let io := pe_schema_lookup env workload in
          match validate_boundary (pe_schema_error env) (JObj mapped) (i ← io; input_schema i) (pn_id spec) "input" with
          | Some message => keeping c (failed spec n message f64_zero)
          | None =>
              let* child := on_ext (pe_submit env workload mapped (h_admission_context h) (origin_of h spec n) ctx) in
              let* started := started_or_now n in
              let running := with_start n RUNNING (Some child) (n_approval_id n) started in
              let* r := on_ext (pe_result env child ctx) in
              match r with
              | None => ret (running, c)
              | Some r => finish spec running r c
              end
          end
      end
  end.

Definition fail_now (n : PipelineNodeRun) (error : string) : PM PipelineNodeRun :=
  let* t := clock in ret (with_status n FAILED (Some error) (Some t)).

(** [_gate] *)
Definition gate_step (spec : PipelineNodeSpec) (n : PipelineNodeRun) (c : PipelineContext) (h : PipelineRunHeader)
    (ctx : TenantContext) : Step :=
  match pe_approvals env with
  | None => keeping c (fail_now n "approval gate not configured")
  | Some gate =>
      match n_approval_id n with
      | None =>
          let* id := on_ext (ag_request gate (n_pipeline_run_id n)
                       (if given (pn_workload spec) then default EmptyString (pn_workload spec) else pn_id spec)
                       "pipeline.gate" ("approval required before " +:+ py_repr (pn_id spec)) (tc_tenant_id ctx)) in
          let* started := started_or_now n in
          ret (with_start n WAITING_APPROVAL (n_child_run_id n) (Some id) started, c)
      | Some id =>
          let* status := on_ext (ag_status gate id) in
          if String.eqb status "pending" then ret (n, c)
          else if String.eqb status "denied" then keeping c (fail_now n "approval denied")
          else if bool_decide (pn_kind spec = GATE)
          then let* t := clock in ret (with_status n COMPLETED (n_error n) (Some t), c)
          else workload_step spec c (with_start n (n_status n) (n_child_run_id n) None (n_started_at n)) h ctx
      end
  end.

(** *** Fan-out and fan-in *)

Definition item_key (i : FanOutInstance) : string :=
  match fi_item i with
  | JObj _ | JList _ => pretty (fi_index i)
  | JStr s => s
  | JNull => "None"
  | JBool b => if b then "True" else "False"
  | JInt z => pretty z
  | JFloat x => pe_float_str env x
  end.

(** [_fan_out_result] *)
Definition fan_out_result (n : PipelineNodeRun) (instances : list FanOutInstance) (c : PipelineContext) : Step :=
  let cost := f64_sum (fi_cost_usd <$> instances) in
  let '(status, error) :=
    match List.find (λ i, bool_decide (fi_status i = FAILED)) instances with
    | Some i => (FAILED, fi_error i)
    | None => if forallb (λ i, bool_decide (fi_status i = COMPLETED)) instances then (COMPLETED, None) else (RUNNING, None)
    end in
  let output := foldl (λ d i, od_set (item_key i) (fi_output i) d) [] instances in
  let* finished := if bool_decide (status ∈ [COMPLETED; FAILED]) then let* t := clock in ret (Some t) else ret None in
  let r := with_result n status (if bool_decide (status = COMPLETED) then JObj output else n_output n) cost error
             (n_artifacts n) instances finished in
  ret (r, if bool_decide (status = COMPLETED) then publish c r else c).

Definition instance_result (i : FanOutInstance) (r : NodeResult) : FanOutInstance :=
  mkInstance (fi_index i) (fi_item i) (fi_child_run_id i) (nr_status r) (nr_output r) (nr_cost_usd r) (nr_error r).

Definition instance_status (i : FanOutInstance) (status : NodeStatus) (child : option string) (error : option string) : FanOutInstance :=
  mkInstance (fi_index i) (fi_item i) child status (fi_output i) (fi_cost_usd i) error.

(** The polling of one instance; [None] when there is nothing new. *)
Definition poll_instance (i : FanOutInstance) (ctx : TenantContext) : PM (option FanOutInstance) :=
  match bool_decide (fi_status i = RUNNING), fi_child_run_id i with
  | true, Some child => let* r := on_ext (pe_result env child ctx) in ret (instance_result i <$> r)
  | _, _ => ret None
  end.

(** The body of the loop of [_fan_out] over one instance. *)
Definition drive_instance (spec template : PipelineNodeSpec) (workload : string) (c : PipelineContext)
    (n : PipelineNodeRun) (h : PipelineRunHeader) (ctx : TenantContext) (i : FanOutInstance) : PM FanOutInstance :=
  if bool_decide (fi_status i ∈ [COMPLETED; FAILED]) then ret i
  else
    let poll i := let* p := poll_instance i ctx in ret (default i p) in
    match fi_child_run_id i with
    | Some _ => poll i
    | None =>
        let name := if given (pn_as_name spec) then default EmptyString (pn_as_name spec) else "item" in
        let scope := {| outputs := outputs c; variables := od_set name (fi_item i) (variables c) |} in
        match map_inputs (pe_float_str env) (pn_inputs template) scope with
        | HandoffError message => ret (instance_status i FAILED (fi_child_run_id i) (Some message))
        | Ok mapped =>
            let* child := on_ext (pe_submit env workload mapped (h_admission_context h) (origin_of h spec n) ctx) in
            poll (instance_status i RUNNING (Some child) (fi_error i))
        end
    end.

Fixpoint map_instances (f : FanOutInstance → PM FanOutInstance) (l : list FanOutInstance) : PM (list FanOutInstance) :=
  match l with
  | [] => ret []
  | i :: l' => let* j := f i in let* rest := map_instances f l' in ret (j :: rest)
  end.

(** [_fan_out] *)
Definition fan_out_step (spec : PipelineNodeSpec) (s : PipelineSpec) (c : PipelineContext) (n : PipelineNodeRun)
    (h : PipelineRunHeader) (ctx : TenantContext) : Step :=
  match t ← node s (default EmptyString (pn_node spec)); pair t <$> pn_workload t with
  | None => keeping c (failed spec n "fan_out template node is missing" f64_zero)
  | Some (template, workload) =>
      match render_ref (pe_float_str env) (default EmptyString (pn_over spec)) c with
      | HandoffError message => keeping c (failed spec n message f64_zero)
      | Ok (JList items) =>
          let instances := match n_instances n with
                           | [] => imap (λ i item, mkInstance i item None PENDING JNull f64_zero None) items
                           | l => l
                           end in
          let* instances := map_instances (drive_instance spec template workload c n h ctx) instances in
          fan_out_result n instances c
      | Ok _ => keeping c (failed spec n "fan_out 'over' must resolve to a list" f64_zero)
      end
  end.

(** [_reconcile_fan_out] *)
Fixpoint poll_instances (l : list FanOutInstance) (ctx : TenantContext) : PM (bool * list FanOutInstance) :=
  match l with
  | [] => ret (false, [])
  | i :: l' =>
      let* p := poll_instance i ctx in
      let* rest := poll_instances l' ctx in
      ret (match p with Some _ => true | None => rest.1 end, default i p :: rest.2)
  end.

Definition reconcile_fan_out (n : PipelineNodeRun) (c : PipelineContext) (ctx : TenantContext)
    : PM (option (PipelineNodeRun * PipelineContext)) :=
  let* polled := poll_instances (n_instances n) ctx in
  if negb polled.1 then ret None else let* r := fan_out_result n polled.2 c in ret (Some r).

Definition source_output (c : PipelineContext) (source : string) : option JsonValue := o ← od_get source (outputs c); od_get "output" o.

(** [_fan_in] *)
Definition fan_in_step (spec : PipelineNodeSpec) (c : PipelineContext) (n : PipelineNodeRun) : Step :=
  match mapM (source_output c) (pn_from_nodes spec) with
  | None => keeping c (fail_now n "fan_in source output is missing")
  | Some l =>
      match reduce (pn_reducer spec) l with
      | None => raise (ExternalError "OverflowError")
      | Some reduced =>
          let* t := clock in
          let r := with_result n COMPLETED reduced (n_cost_usd n) (n_error n) (n_artifacts n) (n_instances n) (Some t) in
          ret (r, publish c r)
      end
  end.

(** *** One node *)

(** [_start] *)
Definition start_step (spec : PipelineNodeSpec) (s : PipelineSpec) (c : PipelineContext) (h : PipelineRunHeader)
    (ctx : TenantContext) (current : option PipelineNodeRun) : Step :=
  let* n := match current with Some n => ret n | None => node_run h spec end in
  if bool_decide (is_Some (pn_requires_approval spec)) || bool_decide (pn_kind spec = GATE)
  then gate_step spec n c h ctx
  else
    match pn_kind spec with
    | TRANSFORM =>
        match map_inputs (pe_float_str env) (default [] (pn_transform spec)) c with
        | HandoffError message => raise (UncaughtHandoffError message)
        | Ok output =>
            let* t := clock in
            ret (with_result n COMPLETED (JObj output) (n_cost_usd n) (n_error n) (n_artifacts n) (n_instances n) (Some t), c)
        end
    | FAN_OUT => fan_out_step spec s c n h ctx
    | FAN_IN => fan_in_step spec c n
    | _ => workload_step spec c n h ctx
    end.

(** [_reconcile] *)
Definition reconcile_step (n : PipelineNodeRun) (s : PipelineSpec) (c : PipelineContext) (ctx : TenantContext)
    : PM (option (PipelineNodeRun * PipelineContext)) :=
  match node s (n_node_id n) with
  | None => ret None
  | Some spec =>
      if bool_decide (pn_kind spec = FAN_OUT) then reconcile_fan_out n c ctx
      else match n_child_run_id n with
           | None => ret None
           | Some child =>
               let* r := on_ext (pe_result env child ctx) in
               match r with None => ret None | Some r => let* f := finish spec n r c in ret (Some f) end
           end
  end.

(** *** The rounds of [advance]

    What a call carries from step to step: the parent record (with its context),
    the latest node records, whether this round changed anything. *)
Record Local := mkLocal { lo_header : PipelineRunHeader; lo_nodes : Nodes; lo_changed : bool }.

(** [nodes[node_id] = node; self._store.save_node_run(node); changed = True] *)
Definition put_node (node_id : string) (n : PipelineNodeRun) (c : PipelineContext) (ctx : TenantContext) (l : Local) : PM Local :=
  save_node_run n ctx ;;;
  ret (mkLocal (set_context (lo_header l) c) (od_set node_id n (lo_nodes l)) true).

Fixpoint reconcile_nodes (snapshot : list PipelineNodeRun) (s : PipelineSpec) (ctx : TenantContext) (l : Local) : PM Local :=
  match snapshot with
  | [] => ret l
  | n :: rest =>
      let* l' := if bool_decide (n_status n = RUNNING)
                 then let* r := reconcile_step n s (h_context (lo_header l)) ctx in
                      match r with
                      | Some (n', c) => put_node (n_node_id n) n' c ctx l
                      | None => ret l
                      end
                 else ret l in
      reconcile_nodes rest s ctx l'
  end.

Definition dependency_states (s : PipelineSpec) (node_id : string) (nodes : Nodes) : list NodeStatus :=
  (λ dep, from_option n_status PENDING (od_get dep nodes)) <$> dependencies s node_id.

Definition exhausted (h : PipelineRunHeader) (projected : f64) : bool :=
  f64_ltb f64_zero (h_budget_usd h) && f64_ltb (h_budget_usd h) (f64_add (h_spent_usd h) projected).

(** The body of the loop over [_topological_order]; [inl] is an early return. *)
Definition visit (spec : PipelineNodeSpec) (s : PipelineSpec) (ctx : TenantContext) (l : Local)
    : PM (PipelineRunHeader + Local) :=
  let h := lo_header l in
  let current := od_get (pn_id spec) (lo_nodes l) in
  if bool_decide (pn_id spec ∈ fan_out_templates s) then ret (inr l)
  else if match current with Some n => done_status (n_status n) || bool_decide (n_status n = RUNNING) | None => false end
  then ret (inr l)
  else
    let states := dependency_states s (pn_id spec) (lo_nodes l) in
    if existsb (λ st, bool_decide (st ∈ [FAILED; SKIPPED])) states then
      let* n := node_run h spec in
      let* l' := put_node (pn_id spec) (with_status n SKIPPED (Some "dependency failed") (n_finished_at n)) (h_context h) ctx l in
      ret (inr l')
    else if existsb (λ st, bool_decide (st ≠ COMPLETED)) states then ret (inr l)
    else if exhausted h (projected_cost spec) then
      let h' := with_header h (match ps_on_exceed s with ON_EXCEED_PAUSE => P_PAUSED | ON_EXCEED_FAIL => P_FAILED end)
                  (h_spent_usd h) (h_context h) (Some "pipeline budget exhausted") (h_finished_at h) in
      save_run h' ctx ;;; ret (inl h')
    else
      let* r := start_step spec s (h_context h) h ctx current in
      let* l' := put_node (pn_id spec) r.1 r.2 ctx l in
      ret (inr (mkLocal (set_spent (lo_header l') (spent (lo_nodes l'))) (lo_nodes l') true)).

Fixpoint visit_nodes (order : list PipelineNodeSpec) (s : PipelineSpec) (ctx : TenantContext) (l : Local)
    : PM (PipelineRunHeader + Local) :=
  match order with
  | [] => ret (inr l)
  | spec :: rest =>
      let* r := visit spec s ctx l in
      match r with inl h => ret (inl h) | inr l' => visit_nodes rest s ctx l' end
  end.

(** [_skip_after_fail_fast] *)
Definition fails_fast (s : PipelineSpec) (e : string * PipelineNodeRun) : bool :=
  bool_decide (n_status e.2 = FAILED)
  && match node s e.1 with Some spec => bool_decide (pn_on_failure spec = FAIL_FAST) | None => true end.

Definition skip_node (spec : PipelineNodeSpec) (ctx : TenantContext) (l : Local) : PM Local :=
  let current := od_get (pn_id spec) (lo_nodes l) in
  match current with
  | Some n => match bool_decide (n_status n = RUNNING), n_child_run_id n with
              | true, Some child => on_ext (pe_cancel env child ctx)
              | _, _ => ret tt
              end
  | None => ret tt
  end ;;;
  if match current with Some n => done_status (n_status n) | None => false end then ret l
  else
    let* n := match current with Some n => ret n | None => node_run (lo_header l) spec end in
    let skipped := with_status n SKIPPED (Some "fail_fast") (n_finished_at n) in
    save_node_run skipped ctx ;;;
    ret (mkLocal (lo_header l) (od_set (pn_id spec) skipped (lo_nodes l)) (lo_changed l)).

Fixpoint skip_nodes (l : list PipelineNodeSpec) (ctx : TenantContext) (lo : Local) : PM Local :=
  match l with
  | [] => ret lo
  | spec :: rest => let* lo' := skip_node spec ctx lo in skip_nodes rest ctx lo'
  end.

Definition skip_after_fail_fast (s : PipelineSpec) (ctx : TenantContext) (l : Local) : PM Local :=
  if existsb (fails_fast s) (lo_nodes l) then skip_nodes (ps_nodes s) ctx l else ret l.

(** [_derive_state] *)
Definition derive_state (s : PipelineSpec) (nodes : Nodes) : PipelineState :=
  let required := filter (λ n, pn_id n ∉ fan_out_templates s) (ps_nodes s) in
  let statuses := omap (λ n, n_status <$> od_get (pn_id n) nodes) required in
  let all := n_status <$> od_values nodes in
  let complete := (length statuses =? length required)%nat in
  if existsb (λ st, bool_decide (st = WAITING_APPROVAL)) all then P_PAUSED
  else if complete && forallb (λ st, bool_decide (st = COMPLETED)) statuses then P_COMPLETED
  else if negb (existsb (λ st, bool_decide (st ∈ [FAILED; SKIPPED])) all) then P_RUNNING
  else if complete && forallb done_status statuses && forallb done_status all then P_FAILED else P_RUNNING.

(** One round in three parts, the last one after the visits; [inl] is an early
    return, [inr] the carried state at the round's end. *)
Definition finish_round (s : PipelineSpec) (ctx : TenantContext) (l : Local) : PM (PipelineRunHeader + Local) :=
  let* l := skip_after_fail_fast s ctx l in
  let h := lo_header l in
  let state := derive_state s (lo_nodes l) in
  let changed := lo_changed l || negb (bool_decide (state = h_state h)) in
  let* finished := if terminal_state state then let* t := clock in ret (Some t) else ret (h_finished_at h) in
  let h' := with_header h state (h_spent_usd h) (h_context h) (h_error h) finished in
  save_run h' ctx ;;; ret (inr (mkLocal h' (lo_nodes l) changed)).

Definition round_rest (s : PipelineSpec) (ctx : TenantContext) (l : Local) : PM (PipelineRunHeader + Local) :=
  let h := set_spent (lo_header l) (spent (lo_nodes l)) in
  match budget_exceeded h with
  | Some (state, error) =>
      let h' := with_header h state (h_spent_usd h) (h_context h) (Some error) (h_finished_at h) in
      save_run h' ctx ;;; ret (inl h')
  | None =>
      let* r := visit_nodes (topological_order s) s ctx (mkLocal h (lo_nodes l) (lo_changed l)) in
      match r with
      | inl h' => ret (inl h')
      | inr l => finish_round s ctx (mkLocal (set_spent (lo_header l) (spent (lo_nodes l))) (lo_nodes l) (lo_changed l))
      end
  end.

Definition round (pipeline_run_id : string) (s : PipelineSpec) (ctx : TenantContext) (h : PipelineRunHeader)
    : PM (PipelineRunHeader + Local) :=
  let* nodes := gets (λ w, latest_nodes pipeline_run_id ctx (pw_store w)) in
  let* l := reconcile_nodes (od_values nodes) s ctx (mkLocal h nodes false) in
  round_rest s ctx l.

Fixpoint rounds (fuel : nat) (pipeline_run_id : string) (s : PipelineSpec) (ctx : TenantContext) (h : PipelineRunHeader)
    : PM PipelineRunHeader :=
  match fuel with
  | O => ret h
  | S fuel =>
      let* r := round pipeline_run_id s ctx h in
      match r with
      | inl h' => ret h'
      | inr l => if negb (lo_changed l) || terminal_state (h_state (lo_header l)) then ret (lo_header l)
                 else rounds fuel pipeline_run_id s ctx (lo_header l)
      end
  end.

Definition require_run (pipeline_run_id : string) (ctx : TenantContext) : PM PipelineRunHeader :=
  let* o := gets (λ w, get_run pipeline_run_id ctx (pw_store w)) in
  of_option (PipelineRunNotFoundError pipeline_run_id) o.

Definition require_spec (pipeline_id : string) (ctx : TenantContext) : PM PipelineSpec :=
  let* o := gets (λ w, get_spec pipeline_id ctx (pw_store w)) in
  of_option (PipelineSpecNotFoundError pipeline_id) o.

Definition advance (pipeline_run_id : string) (ctx : TenantContext) : PM PipelineRunHeader :=
  let* h := require_run pipeline_run_id ctx in
  if terminal_state (h_state h) then ret h
  else let* s := require_spec (h_pipeline_id h) ctx in rounds MAX_ITERATIONS pipeline_run_id s ctx h.

Definition submit (s : PipelineSpec) (inputs : odict string JsonValue) (context : AdmissionContext) (ctx : TenantContext)
    : PM PipelineRunHeader :=
  save_spec s ctx ;;;
  let* id := on_ext (λ x, let '(i, x') := pe_new_id env x in (Ret i, x')) in
  let* t := clock in
  let h := {| h_pipeline_run_id := id; h_tenant_id := tc_tenant_id ctx; h_pipeline_id := ps_id s; h_version := ps_version s;
              h_state := P_RUNNING; h_budget_usd := ps_budget_usd s; h_spent_usd := f64_zero; h_parent_run_id := None;
              h_context := {| outputs := []; variables := foldl (λ d e, od_set e.1 e.2 d) [] inputs |};
              h_admission_context := context; h_error := None; h_started_at := t; h_finished_at := None |} in
  save_run h ctx ;;;
  advance id ctx.

Fixpoint advance_each (l : list PipelineRunHeader) : PM nat :=
  match l with
  | [] => ret 0
  | h :: rest =>
      if terminal_state (h_state h) then advance_each rest
      else
        let* _ := advance (h_pipeline_run_id h) (context_for_run (h_tenant_id h) None None) in
        let* n := advance_each rest in ret (S n)
  end.

Definition advance_pending (ctx : TenantContext) : PM nat :=
  let* l := gets (λ w, list_runs None ctx (pw_store w)) in advance_each l.

(** The new attempt is built without a tenant, so it gets the default one. *)
Definition new_attempt (pipeline_run_id node_id : string) (h : PipelineRunHeader) (current : PipelineNodeRun)
    : PM PipelineNodeRun :=
  let* t := clock in
  ret {| n_pipeline_run_id := pipeline_run_id; n_pipeline_id := h_pipeline_id h; n_node_id := node_id;
         n_tenant_id := DEFAULT_TENANT_ID; n_attempt := n_attempt current + 1; n_status := PENDING; n_child_run_id := None;
         n_output := JNull; n_cost_usd := f64_zero; n_error := None; n_approval_id := None; n_artifacts := [];
         n_instances := []; n_started_at := Some t; n_finished_at := None |}.

Fixpoint reset_skipped (node_id : string) (l : list PipelineNodeRun) (ctx : TenantContext) : PM unit :=
  match l with
  | [] => ret tt
  | other :: rest =>
      when (negb (bool_decide (n_node_id other = node_id)) && bool_decide (n_status other = SKIPPED))
        (save_node_run (with_attempt other (n_attempt other + 1) PENDING None None) ctx) ;;;
      reset_skipped node_id rest ctx
  end.

Definition retry_node (pipeline_run_id node_id : string) (ctx : TenantContext) : PM PipelineRunHeader :=
  let* h := require_run pipeline_run_id ctx in
  let* s := require_spec (h_pipeline_id h) ctx in
  let* nodes := gets (λ w, latest_nodes pipeline_run_id ctx (pw_store w)) in
  let* current := of_option (PipelineRunNotFoundError pipeline_run_id) (od_get node_id nodes) in
  let* attempt := new_attempt pipeline_run_id node_id h current in
  save_node_run attempt ctx ;;;
  reset_skipped node_id (od_values nodes) ctx ;;;
  save_run (with_header h P_RUNNING (h_spent_usd h) (h_context h) None None) ctx ;;;
  advance pipeline_run_id ctx.

Record PipelineTimeline := mkTimeline {
  pt_pipeline_run_id : string; pt_pipeline_id : string; pt_state : PipelineState; pt_budget_usd : f64; pt_spent_usd : f64;
  pt_error : option string; pt_nodes : list PipelineNodeRun }.

Definition timeline (pipeline_run_id : string) (ctx : TenantContext) : PM PipelineTimeline :=
  let* h := require_run pipeline_run_id ctx in
  let* s := gets (λ w, get_spec (h_pipeline_id h) ctx (pw_store w)) in
  let* latest := gets (λ w, latest_nodes pipeline_run_id ctx (pw_store w)) in
  let ordered := match s with
                 | Some s => omap (λ n, od_get (pn_id n) latest) (topological_order s)
                 | None => od_values latest
                 end in
  ret (mkTimeline (h_pipeline_run_id h) (h_pipeline_id h) (h_state h) (h_budget_usd h) (h_spent_usd h) (h_error h) ordered).
End Engine.

(** ** Steps leave the store alone and extend the node's record

    [steady Φ m]: whatever [m] does, the store is unchanged, and a result
    satisfies [Φ]. *)
Section Steps.
Context {X : Type}.
Variable env : Env X.

Definition steady {A} (Φ : A → Prop) (m : M (World X) PipelineExn A) : Prop :=
  ∀ w, let '(o, w') := m w in pw_store w' = pw_store w ∧ match o with Ret a => Φ a | Raise _ => True end.

Lemma steady_ret {A} (Φ : A → Prop) a : Φ a → steady Φ (ret a).
Proof. by intros Ha w. Qed.

Lemma steady_raise {A} (Φ : A → Prop) e : steady Φ (raise e).
Proof. by intros w. Qed.

Lemma steady_bind {A B} (Ψ : A → Prop) (Φ : B → Prop) m k :
  steady Ψ m → (∀ a, Ψ a → steady Φ (k a)) → steady Φ (bind m k).
Proof.
  intros Hm Hk w. unfold bind. specialize (Hm w). destruct (m w) as [[a|e] w']; destruct Hm as [Hs Ha]; [|by split].
  specialize (Hk a Ha w'). destruct (k a w') as [o w'']. destruct Hk as [Hs' Ho]. split; [congruence|done].
Qed.

Lemma steady_on_ext {A} (f : Op X A) : steady (λ _, True) (on_ext f).
Proof. intros w. unfold on_ext. destruct (f (pw_ext w)) as [[a|e] x]; done. Qed.

Lemma steady_clock : steady (λ _, True) (clock env).
Proof. apply steady_on_ext. Qed.

Lemma steady_weaken {A} (Φ Ψ : A → Prop) m : steady Φ m → (∀ a, Φ a → Ψ a) → steady Ψ m.
Proof. intros Hm H w. specialize (Hm w). destruct (m w) as [[a|e] w']; naive_solver. Qed.

(** The same node of the same run, at this attempt or a later one. *)
Definition follows (n n' : PipelineNodeRun) : Prop :=
  n_pipeline_run_id n' = n_pipeline_run_id n ∧ n_node_id n' = n_node_id n ∧ n_tenant_id n' = n_tenant_id n ∧
  (n_attempt n ≤ n_attempt n')%Z.

#[local] Instance follows_preorder : PreOrder follows.
Proof.
  split; [intros n; by repeat split|]. intros a b c (?&?&?&?) (?&?&?&?). split_and!; [congruence..|lia].
Qed.

Abbreviation step_ok n := (λ r : PipelineNodeRun * PipelineContext, follows n r.1).

Lemma keeping_ok n c m : steady (follows n) m → steady (step_ok n) (keeping c m).
Proof. intros Hm. eapply steady_bind; [exact Hm|]. intros a Ha. by apply steady_ret. Qed.

Ltac by_clock := eapply steady_bind; [apply steady_clock|intros ? _].
Ltac follow := apply steady_ret; repeat split; simpl; lia.

Lemma failed_ok spec n error cost : steady (follows n) (failed env spec n error cost).
Proof. unfold failed. destruct (_ <? _)%Z; [follow|by_clock; follow]. Qed.

Lemma fail_now_ok n error : steady (follows n) (fail_now env n error).
Proof. unfold fail_now. by_clock. follow. Qed.

Lemma started_ok n : steady (λ _, True) (started_or_now env n).
Proof. unfold started_or_now. destruct (n_started_at n); [by apply steady_ret|by_clock; by apply steady_ret]. Qed.

Lemma finish_ok spec n r c : steady (step_ok n) (finish env spec n r c).
Proof.
  unfold finish. destruct (nr_status r); try apply keeping_ok, failed_ok.
  destruct (match pn_budget spec with Some _ => _ | None => _ end); [apply keeping_ok, failed_ok|].
  destruct (validate_boundary _ _ _ _ _); [apply keeping_ok, failed_ok|]. by_clock. follow.
Qed.

Lemma step_ok_trans n m (s : M (World X) PipelineExn (PipelineNodeRun * PipelineContext)) :
  follows n m → steady (step_ok m) s → steady (step_ok n) s.
Proof. intros Hf Hs. eapply steady_weaken; [exact Hs|]. intros [n' c] H. cbn [fst] in *. by etrans. Qed.

Lemma workload_ok spec c n h ctx : steady (step_ok n) (workload_step env spec c n h ctx).
Proof.
  unfold workload_step. destruct (pn_workload spec); [|apply steady_raise].
  destruct (map_inputs _ _ _); [|apply keeping_ok, failed_ok].
  destruct (validate_boundary _ _ _ _ _); [apply keeping_ok, failed_ok|].
  eapply steady_bind; [apply steady_on_ext|intros child _]. eapply steady_bind; [apply started_ok|intros t _].
  eapply steady_bind; [apply steady_on_ext|intros [r|] _]; [|follow].
  eapply step_ok_trans; [|apply finish_ok]. by repeat split.
Qed.

Lemma gate_ok spec n c h ctx : steady (step_ok n) (gate_step env spec n c h ctx).
Proof.
  unfold gate_step. destruct (pe_approvals env) as [gate|]; [|apply keeping_ok, fail_now_ok].
  destruct (n_approval_id n).
  - eapply steady_bind; [apply steady_on_ext|intros status _]. case_match; [follow|].
    case_match; [apply keeping_ok, fail_now_ok|]. case_match; [by_clock; follow|].
    eapply step_ok_trans; [|apply workload_ok]. by repeat split.
  - eapply steady_bind; [apply steady_on_ext|intros id _]. eapply steady_bind; [apply started_ok|intros t _]. follow.
Qed.

Lemma fan_out_result_ok n instances c : steady (step_ok n) (fan_out_result env n instances c).
Proof.
  unfold fan_out_result. destruct (match List.find _ _ with Some _ => _ | None => _ end) as [status error].
  eapply (steady_bind (λ _, True)); [case_match; [by_clock|]; by apply steady_ret|intros t _]. follow.
Qed.

Lemma poll_instance_ok i ctx : steady (λ _, True) (poll_instance env i ctx).
Proof.
  unfold poll_instance. case_match; [case_match|]; [|by apply steady_ret..].
  eapply steady_bind; [apply steady_on_ext|intros r _]. by apply steady_ret.
Qed.

Lemma drive_instance_ok spec template workload c n h ctx i : steady (λ _, True) (drive_instance env spec template workload c n h ctx i).
Proof.
  unfold drive_instance. case_match; [by apply steady_ret|].
  assert (∀ i, steady (λ _, True) (bind (poll_instance env i ctx) (λ p, ret (default i p)))) as Hp.
  { intros j. eapply steady_bind; [apply poll_instance_ok|intros ? _; by apply steady_ret]. }
  case_match; [apply Hp|]. case_match; [|by apply steady_ret].
  eapply steady_bind; [apply steady_on_ext|intros child _]. apply Hp.
Qed.

Lemma map_instances_ok f l : (∀ i, steady (λ _, True) (f i)) → steady (λ _, True) (map_instances (X := X) f l).
Proof.
  intros Hf. induction l as [|i l IH]; simpl; [by apply steady_ret|].
  eapply steady_bind; [apply Hf|intros j _]. eapply steady_bind; [apply IH|intros rest _]. by apply steady_ret.
Qed.

Lemma poll_instances_ok l ctx : steady (λ _, True) (poll_instances env l ctx).
Proof.
  induction l as [|i l IH]; simpl; [by apply steady_ret|].
  eapply steady_bind; [apply poll_instance_ok|intros j _]. eapply steady_bind; [apply IH|intros rest _]. by apply steady_ret.
Qed.

Lemma fan_out_ok spec s c n h ctx : steady (step_ok n) (fan_out_step env spec s c n h ctx).
Proof.
  unfold fan_out_step. case_match; [|apply keeping_ok, failed_ok]. case_match. case_match; [|apply keeping_ok, failed_ok].
  case_match; try apply keeping_ok, failed_ok.
  eapply steady_bind; [apply map_instances_ok, drive_instance_ok|intros instances _]. apply fan_out_result_ok.
Qed.

Lemma fan_in_ok spec c n : steady (step_ok n) (fan_in_step env spec c n).
Proof.
  unfold fan_in_step. case_match; [|apply keeping_ok, fail_now_ok]. case_match; [|apply steady_raise]. by_clock. follow.
Qed.

(** The record a node starts from. *)
Definition fresh_for (h : PipelineRunHeader) (spec : PipelineNodeSpec) (n : PipelineNodeRun) : Prop :=
  n_pipeline_run_id n = h_pipeline_run_id h ∧ n_node_id n = pn_id spec ∧ n_tenant_id n = h_tenant_id h ∧
  n_attempt n = 1%Z ∧ n_status n = PENDING.

Lemma node_run_ok h spec : steady (fresh_for h spec) (node_run env h spec).
Proof. unfold node_run. by_clock. by apply steady_ret. Qed.

Lemma start_ok spec s c h ctx current :
  steady (λ r, match current with Some n => follows n r.1 | None => ∃ n, fresh_for h spec n ∧ follows n r.1 end)
    (start_step env spec s c h ctx current).
Proof.
  unfold start_step.
  eapply (steady_bind (λ n, match current with Some n0 => n = n0 | None => fresh_for h spec n end));
    [destruct current; [by apply steady_ret|apply node_run_ok]|intros n Hn].
  eapply (steady_weaken (step_ok n)).
  - destruct (_ || _); [apply gate_ok|]. destruct (pn_kind spec); try apply workload_ok; [apply fan_out_ok|apply fan_in_ok|].
    destruct (map_inputs _ _ _); [by_clock; follow|apply steady_raise].
  - intros r Hr. destruct current; [by subst|by exists n].
Qed.

Lemma reconcile_ok n s c ctx :
  steady (λ r, match r with Some r => follows n r.1 | None => True end) (reconcile_step env n s c ctx).
Proof.
  unfold reconcile_step. destruct (node s (n_node_id n)) as [spec|]; [|by apply steady_ret]. case_match.
  - unfold reconcile_fan_out. eapply steady_bind; [apply poll_instances_ok|intros polled _].
    case_match; [by apply steady_ret|]. eapply steady_bind; [apply fan_out_result_ok|intros r Hr]. by apply steady_ret.
  - destruct (n_child_run_id n); [|by apply steady_ret]. eapply steady_bind; [apply steady_on_ext|intros [r|] _];
      [|by apply steady_ret]. eapply steady_bind; [apply finish_ok|intros f Hf]. by apply steady_ret.
Qed.
End Steps.

(** ** A node runs only after everything it depends on *)
Section Dependencies.
Context {X : Type}.
Variable env : Env X.
Variables (p : string) (s : PipelineSpec) (ctx : TenantContext).

Definition latest_is (st : PipelineStore) (n : string) (r : PipelineNodeRun) : Prop :=
  od_get (p, n, n_attempt r) (st_nodes st) = Some r ∧
  ∀ a r', od_get (p, n, a) (st_nodes st) = Some r' → (a ≤ n_attempt r)%Z.

Definition none_is (st : PipelineStore) (n : string) : Prop := ∀ a, od_get (p, n, a) (st_nodes st) = None.

Definition started (r : PipelineNodeRun) : Prop := n_status r ∈ [RUNNING; WAITING_APPROVAL; COMPLETED; FAILED].

(** The latest record of every node that was started has all its dependencies'
    latest records completed. *)
Definition ordered (st : PipelineStore) : Prop :=
  ∀ n r, latest_is st n r → started r →
    ∀ d, d ∈ dependencies s n → ∃ rd, latest_is st d rd ∧ n_status rd = COMPLETED.

Definition header_ok (h : PipelineRunHeader) : Prop :=
  h_pipeline_run_id h = p ∧ h_pipeline_id h = ps_id s ∧ scopes ctx (h_tenant_id h) = true.

(** The store files records under their own keys, the run is one of [s] in the
    context's tenant, and the specification stored under its name is [s]. *)
Record filed (st : PipelineStore) : Prop := {
  fl_nodes : ∀ k r, od_get k (st_nodes st) = Some r →
    k = node_key r ∧ (1 ≤ n_attempt r)%Z ∧ (n_pipeline_run_id r = p → scopes ctx (n_tenant_id r) = true);
  fl_wf : od_wf (st_nodes st);
  fl_run : ∀ h t, od_get p (st_runs st) = Some (h, t) → header_ok h;
  fl_spec : ∀ s', get_spec (ps_id s) ctx st = Some s' → s' = s;
}.

Definition safe (st : PipelineStore) : Prop := filed st ∧ ordered st.

(** What the records a call carries say about the store.  A skipped record can
    be filed under an earlier attempt than the latest one. *)
Definition linked (st : PipelineStore) (nodes : Nodes) : Prop :=
  ∀ n, match od_get n nodes with
       | Some r => n_node_id r = n ∧ n_pipeline_run_id r = p ∧ scopes ctx (n_tenant_id r) = true ∧
           (latest_is st n r ∨ n_status r = SKIPPED ∧ ∃ r0, latest_is st n r0 ∧ ¬ started r0)
       | None => none_is st n
       end.

Definition completed_in (nodes : Nodes) (n : string) : Prop := ∃ r, od_get n nodes = Some r ∧ n_status r = COMPLETED.

Definition nodes_ok (nodes : Nodes) : Prop :=
  ∀ n r, od_get n nodes = Some r → started r → ∀ d, d ∈ dependencies s n → completed_in nodes d.

Definition inv (l : Local) (st : PipelineStore) : Prop :=
  filed st ∧ linked st (lo_nodes l) ∧ nodes_ok (lo_nodes l) ∧ header_ok (lo_header l).

Lemma latest_unique st n r r' : latest_is st n r → latest_is st n r' → r = r'.
Proof.
  intros [H1 H2] [H3 H4]. assert (n_attempt r = n_attempt r') as Heq by (apply Z.le_antisymm; eauto).
  rewrite Heq in H1. congruence.
Qed.

Lemma not_started_skipped r : n_status r = SKIPPED → ¬ started r.
Proof. unfold started. intros ->. set_solver. Qed.

Lemma inv_safe l st : inv l st → safe st.
Proof.
  intros (Hf & Hl & Hn & _). split; [done|]. intros n r Hr Hs d Hd. pose proof (Hl n) as H.
  destruct (od_get n (lo_nodes l)) as [r1|] eqn:Hg.
  - destruct H as (_ & _ & _ & [H|(_ & r0 & H & Hns)]); pose proof (latest_unique _ _ _ _ Hr H) as <-; [|done].
    destruct (Hn n r Hg Hs d Hd) as (rd & Hgd & Hc). exists rd. split; [|done].
    pose proof (Hl d) as Hld. rewrite Hgd in Hld. destruct Hld as (_ & _ & _ & [?|[Hsk _]]); congruence.
  - destruct Hr as [Hr _]. by rewrite H in Hr.
Qed.

(** *** Reading the latest records *)

Lemma later_spec l n :
  match od_get n (foldl later [] l) with
  | Some r => r ∈ l ∧ n_node_id r = n ∧ ∀ r', r' ∈ l → n_node_id r' = n → (n_attempt r' ≤ n_attempt r)%Z
  | None => ∀ r', r' ∈ l → n_node_id r' ≠ n
  end.
Proof.
  induction l as [|x l IH] using rev_ind; [by intros ? ?%not_elem_of_nil|].
  rewrite foldl_app. simpl. unfold later at 1.
  assert (∀ m, od_get n (od_set (n_node_id x) x m) = if decide (n = n_node_id x) then Some x else od_get n m) as Hset
    by (intros; apply od_get_set).
  destruct (decide (n = n_node_id x)) as [->|Hne].
  - destruct (od_get (n_node_id x) (foldl later [] l)) as [r|] eqn:Hr.
    + destruct IH as (Hin & Hid & Hmax). destruct (Z.ltb_spec (n_attempt r) (n_attempt x)).
      * rewrite Hset. split_and!; [set_solver|done|]. intros r' [Hr'| ->%list_elem_of_singleton]%elem_of_app Hi; [|done].
        specialize (Hmax r' Hr' Hi). lia.
      * rewrite Hr. split_and!; [set_solver|done|]. intros r' [Hr'| ->%list_elem_of_singleton]%elem_of_app Hi; [auto|lia].
    + rewrite Hset. split_and!; [set_solver|done|]. intros r' [Hr'| ->%list_elem_of_singleton]%elem_of_app Hi; [|done].
      by destruct (IH r' Hr').
  - assert (od_get n (match od_get (n_node_id x) (foldl later [] l) with
                      | Some current => if (n_attempt current <? n_attempt x)%Z then od_set (n_node_id x) x (foldl later [] l)
                                        else foldl later [] l
                      | None => od_set (n_node_id x) x (foldl later [] l) end) = od_get n (foldl later [] l)) as ->
      by (repeat case_match; by rewrite ?Hset).
    destruct (od_get n (foldl later [] l)) as [r|].
    + destruct IH as (Hin & Hid & Hmax). split_and!; [set_solver|done|].
      intros r' [Hr'| ->%list_elem_of_singleton]%elem_of_app Hi; [auto|done].
    + intros r' [Hr'| ->%list_elem_of_singleton]%elem_of_app; [auto|done].
Qed.

Lemma list_node_runs_in st r :
  filed st → r ∈ list_node_runs p ctx st ↔ od_get (node_key r) (st_nodes st) = Some r ∧ n_pipeline_run_id r = p.
Proof.
  intros [Hn Hwf _ _]. unfold list_node_runs. rewrite py_sort_perm, list_elem_of_filter. split.
  - intros [[Hp _] Hin]. destruct (od_value_get _ _ Hin Hwf) as [k Hk]. destruct (Hn k r Hk) as [-> _]. done.
  - intros [Hk Hp]. destruct (Hn _ _ Hk) as (_ & _ & Hs). split_and!; [done|auto|]. by eapply od_get_value.
Qed.

Lemma latest_nodes_get st n :
  filed st →
  match od_get n (latest_nodes p ctx st) with
  | Some r => n_node_id r = n ∧ n_pipeline_run_id r = p ∧ scopes ctx (n_tenant_id r) = true ∧ latest_is st n r
  | None => none_is st n
  end.
Proof.
  intros Hf. pose proof (later_spec (list_node_runs p ctx st) n) as H. unfold latest_nodes.
  assert (∀ a r, od_get (p, n, a) (st_nodes st) = Some r → a = n_attempt r ∧ n_node_id r = n ∧ r ∈ list_node_runs p ctx st) as Hall.
  { intros a r Hr. destruct (fl_nodes _ Hf _ _ Hr) as ([= Hp' Hn ->] & _ & _). split_and!; [done|done|].
    apply list_node_runs_in; [done|]. unfold node_key. by rewrite <-Hn, <-Hp'. }
  destruct (od_get n _) as [r|].
  - destruct H as (Hin & <- & Hmax). apply list_node_runs_in in Hin as [Hk Hp]; [|done].
    destruct (fl_nodes _ Hf _ _ Hk) as (_ & _ & Hs). unfold node_key in Hk. rewrite Hp in Hk. split_and!; [done|done|auto|].
    split; [done|]. intros a r' Hr'. destruct (Hall _ _ Hr') as (-> & Hid & Hin). by apply Hmax.
  - intros a. destruct (od_get (p, n, a) (st_nodes st)) as [r'|] eqn:Hr'; [|done].
    destruct (Hall _ _ Hr') as (_ & Hid & Hin). by destruct (H r').
Qed.

Lemma safe_inv st h : safe st → header_ok h → inv (mkLocal h (latest_nodes p ctx st) false) st.
Proof.
  intros [Hf Ho] Hh. split_and!; [done| | |done]; cbn [lo_nodes].
  - intros n. pose proof (latest_nodes_get st n Hf) as H. destruct (od_get n _); [|done]. destruct H as (?&?&?&?). auto.
  - intros n r Hr Hs d Hd. pose proof (latest_nodes_get st n Hf) as Hn. rewrite Hr in Hn. destruct Hn as (_&_&_&Hn).
    destruct (Ho n r Hn Hs d Hd) as (rd & Hrd & Hc). pose proof (latest_nodes_get st d Hf) as H. unfold completed_in.
    destruct (od_get d (latest_nodes p ctx st)) as [r1|].
    + exists r1. split; [done|]. destruct H as (_&_&_&H). by rewrite (latest_unique _ _ _ _ H Hrd).
    + destruct Hrd as [Hrd _]. by rewrite H in Hrd.
Qed.

(** *** Writing a record *)

Definition save_in (n' : PipelineNodeRun) (st : PipelineStore) : PipelineStore :=
  {| st_specs := st_specs st; st_runs := st_runs st; st_nodes := od_set (node_key n') n' (st_nodes st) |}.

Lemma save_node_run_eq n' (w : World X) :
  scopes ctx (n_tenant_id n') = true →
  save_node_run n' ctx w = (Ret tt, mkWorld (save_in n' (pw_store w)) (pw_ext w)).
Proof. intros Hs. unfold save_node_run, require. by rewrite Hs. Qed.

Lemma save_in_filed n' st :
  filed st → (1 ≤ n_attempt n')%Z → scopes ctx (n_tenant_id n') = true → filed (save_in n' st).
Proof.
  intros [H1 H2 H3 H4] Ha Hs. split; [|by apply od_wf_set|done|done].
  intros k r. simpl. rewrite od_get_set. case_decide as Hk; [intros [= <-]; by split_and!|apply H1].
Qed.

Lemma latest_other n' st n r : n_node_id n' ≠ n → latest_is (save_in n' st) n r ↔ latest_is st n r.
Proof.
  intros Hne. unfold latest_is. simpl. unfold node_key.
  setoid_rewrite od_get_set_ne; [done|intros [= _ H _]; congruence|intros ?; congruence].
Qed.

Lemma none_other n' st n : n_node_id n' ≠ n → none_is st n → none_is (save_in n' st) n.
Proof. intros Hne H a. simpl. unfold node_key. rewrite od_get_set_ne; [done|congruence]. Qed.

Lemma put_inv l st n' h c :
  inv l st → header_ok h → n_pipeline_run_id n' = p → scopes ctx (n_tenant_id n') = true → (1 ≤ n_attempt n')%Z →
  match od_get (n_node_id n') (lo_nodes l) with
  | Some r => n_status r ≠ COMPLETED ∧ latest_is st (n_node_id n') r ∧
              ((n_attempt r ≤ n_attempt n')%Z ∨ n_status n' = SKIPPED ∧ ¬ started r)
  | None => True
  end →
  (started n' → ∀ d, d ∈ dependencies s (n_node_id n') → completed_in (lo_nodes l) d) →
  inv (mkLocal h (od_set (n_node_id n') n' (lo_nodes l)) c) (save_in n' st).
Proof.
  intros (Hf & Hl & Hn & _) Hh Hp Hs Ha Hold Hdeps. set (n := n_node_id n') in *.
  assert (∀ d, completed_in (lo_nodes l) d → completed_in (od_set n n' (lo_nodes l)) d) as Hmono.
  { intros d (r & Hr & Hc). exists r. split; [|done]. rewrite od_get_set_ne; [done|]. intros ->.
    rewrite Hr in Hold. by destruct Hold. }
  split_and!; [by apply save_in_filed| | |done]; cbn [lo_nodes].
  - intros m. rewrite od_get_set. case_decide as Hm.
    + subst m. split_and!; [done|done|done|]. pose proof (Hl n) as Hln. unfold latest_is. simpl.
      assert (∀ a r', od_get (p, n, a) (od_set (node_key n') n' (st_nodes st)) = Some r' →
        a = n_attempt n' ∨ od_get (p, n, a) (st_nodes st) = Some r') as Hcases.
      { intros a r'. unfold node_key. rewrite Hp, od_get_set. case_decide as Hk; [injection Hk; auto|auto]. }
      assert (od_get (p, n, n_attempt n') (od_set (node_key n') n' (st_nodes st)) = Some n') as Hself
        by (unfold node_key; rewrite Hp; apply od_get_set_eq).
      destruct (od_get n (lo_nodes l)) as [r|].
      * destruct Hold as (_ & [Hr1 Hr2] & [Hle|[Hsk Hns]]).
        -- left. split; [done|]. intros a r' [->|Hr']%Hcases; [lia|]. specialize (Hr2 _ _ Hr'). lia.
        -- destruct (Z_le_gt_dec (n_attempt r) (n_attempt n')) as [Hle|Hgt].
           ++ left. split; [done|]. intros a r' [->|Hr']%Hcases; [lia|]. specialize (Hr2 _ _ Hr'). lia.
           ++ right. split; [done|]. exists r. split; [|done]. split.
              ** unfold node_key. rewrite Hp, od_get_set_ne; [done|]. intros [= H]. lia.
              ** intros a r' [->|Hr']%Hcases; [lia|eauto].
      * left. split; [done|]. intros a r' [->|Hr']%Hcases; [lia|]. by rewrite Hln in Hr'.
    + specialize (Hl m). destruct (od_get m (lo_nodes l)) as [r|]; [|by apply none_other].
      destruct Hl as (? & ? & ? & H). split_and!; [done..|].
      setoid_rewrite latest_other; done.
  - intros m r. rewrite od_get_set. case_decide as Hm.
    + intros [= <-] Hst d Hd. subst m. apply Hmono. by apply Hdeps.
    + intros Hr Hst d Hd. apply Hmono. by eapply Hn.
Qed.

(** *** The rounds keep it *)

(** From [P], the computation ends in [Q], or raises and leaves a safe store. *)
Definition hoare {A} (P : PipelineStore → Prop) (m : M (World X) PipelineExn A) (Q : A → PipelineStore → Prop) : Prop :=
  ∀ w, P (pw_store w) → let '(o, w') := m w in match o with Ret a => Q a (pw_store w') | Raise _ => safe (pw_store w') end.

Lemma hoare_ret {A} (P : PipelineStore → Prop) (a : A) (Q : A → PipelineStore → Prop) :
  (∀ st, P st → Q a st) → hoare P (ret a) Q.
Proof. intros H w. apply H. Qed.

Lemma hoare_bind {A B} P (m : M (World X) PipelineExn A) (k : A → M (World X) PipelineExn B) Q R :
  hoare P m Q → (∀ a, hoare (Q a) (k a) R) → hoare P (bind m k) R.
Proof.
  intros Hm Hk w HP. unfold bind. specialize (Hm w HP). destruct (m w) as [[a|e] w']; [|done]. exact (Hk a w' Hm).
Qed.

Lemma hoare_weaken {A} (P P' : PipelineStore → Prop) (m : M (World X) PipelineExn A) Q :
  hoare P' m Q → (∀ st, P st → P' st) → hoare P m Q.
Proof. intros Hm H w HP. apply Hm, H, HP. Qed.

Lemma hoare_steady {A} (Φ : A → Prop) P (m : M (World X) PipelineExn A) :
  steady Φ m → (∀ st, P st → safe st) → hoare P m (λ a st, P st ∧ Φ a).
Proof.
  intros Hm HP w Hw. specialize (Hm w). destruct (m w) as [[a|e] w']; destruct Hm as [Hs Ha]; rewrite Hs; auto.
Qed.

Lemma hoare_pure {A} (P : PipelineStore → Prop) (φ : Prop) (m : M (World X) PipelineExn A) Q :
  (φ → hoare P m Q) → hoare (λ st, P st ∧ φ) m Q.
Proof. intros H w [HP Hφ]. by apply H. Qed.

(** The node's record is the latest one, its status being that of a node still
    to be worked on. *)
Lemma inv_current l st n r :
  inv l st → od_get n (lo_nodes l) = Some r → n_status r ≠ SKIPPED →
  n_node_id r = n ∧ n_pipeline_run_id r = p ∧ scopes ctx (n_tenant_id r) = true ∧ latest_is st n r ∧ (1 ≤ n_attempt r)%Z.
Proof.
  intros (Hf & Hl & _) Hr Hs. specialize (Hl n). rewrite Hr in Hl. destruct Hl as (Hn & Hp & Ht & [Hlat|[? _]]); [|done].
  split_and!; [done..|]. destruct Hlat as [Hg _]. by destruct (fl_nodes _ Hf _ _ Hg) as (_ & ? & _).
Qed.

Lemma inv_header l st h c : inv l st → header_ok h → inv (mkLocal h (lo_nodes l) c) st.
Proof. intros (?&?&?&_) Hh. by split_and!. Qed.

Lemma header_inv l st : inv l st → header_ok (lo_header l).
Proof. by intros (_&_&_&?). Qed.

(** Replacing a record by one that follows it. *)
Lemma hoare_put l n r n' h c :
  od_get n (lo_nodes l) = Some r → n_status r ≠ SKIPPED → n_status r ≠ COMPLETED → follows r n' → header_ok h →
  (∀ st, inv l st → started n' → ∀ d, d ∈ dependencies s n → completed_in (lo_nodes l) d) →
  hoare (inv l) (save_node_run n' ctx) (λ _, inv (mkLocal h (od_set n n' (lo_nodes l)) c)).
Proof.
  intros Hr Hsk Hc (Fp & Fn & Ft & Fa) Hh Hd w Hw. destruct (inv_current _ _ _ _ Hw Hr Hsk) as (Hid & Hp & Ht & Hlat & Ha).
  rewrite save_node_run_eq by by rewrite Ft. cbn [pw_store]. rewrite <-Hid, <-Fn in *.
  apply put_inv; [done|done|congruence|congruence|lia| |by apply (Hd _ Hw)]. rewrite Hr. split_and!; [done|done|by left].
Qed.

(** Writing a first record, or a skipped one over a record not started. *)
Lemma hoare_put_fresh l spec n n' h c :
  fresh_for (lo_header l) spec n → follows n n' →
  (∀ st r, inv l st → od_get (pn_id spec) (lo_nodes l) = Some r →
    n_status r ≠ COMPLETED ∧ n_status r ≠ SKIPPED ∧ ¬ started r ∧ n_status n' = SKIPPED) →
  header_ok h → (∀ st, inv l st → started n' → ∀ d, d ∈ dependencies s (pn_id spec) → completed_in (lo_nodes l) d) →
  hoare (inv l) (save_node_run n' ctx) (λ _, inv (mkLocal h (od_set (pn_id spec) n' (lo_nodes l)) c)).
Proof.
  intros (Hp & Hid & Ht & Ha & _) (Fp & Fn & Ft & Fa) Hold Hh Hd w Hw.
  pose proof (header_inv _ _ Hw) as (Hhp & Hhi & Hhs).
  assert (scopes ctx (n_tenant_id n') = true) as Hs by by rewrite Ft, Ht.
  rewrite save_node_run_eq by done. cbn [pw_store]. rewrite <-Hid, <-Fn in *.
  apply put_inv; [done|done|congruence|done|lia| |by apply (Hd _ Hw)].
  destruct (od_get (n_node_id n') (lo_nodes l)) as [r|] eqn:Hr; [|done].
  destruct (Hold _ _ Hw eq_refl) as (? & Hsk & Hns & Hsk'). destruct (inv_current _ _ _ _ Hw Hr Hsk) as (_ & _ & _ & ? & _). split_and!; [done|done|by right].
Qed.

Lemma running_started r : n_status r = RUNNING → started r.
Proof. unfold started. intros ->. set_solver. Qed.

Lemma reconcile_nodes_ok snapshot l :
  NoDup (n_node_id <$> snapshot) → (∀ n, n ∈ snapshot → od_get (n_node_id n) (lo_nodes l) = Some n) → header_ok (lo_header l) →
  hoare (inv l) (reconcile_nodes env snapshot s ctx l) (λ l' st, inv l' st ∧ header_ok (lo_header l')).
Proof.
  revert l. induction snapshot as [|n rest IH]; intros l Hnd Hin Hh; simpl; [by apply hoare_ret|].
  apply NoDup_cons in Hnd as [Hn Hnd]. assert (od_get (n_node_id n) (lo_nodes l) = Some n) as Hg by (apply Hin; left).
  eapply (hoare_bind _ _ _ (λ l' st, inv l' st ∧ header_ok (lo_header l') ∧
    ∀ m, m ∈ rest → od_get (n_node_id m) (lo_nodes l') = Some m)).
  - case_bool_decide as Hrun.
    + eapply hoare_bind; [apply (hoare_steady _ _ _ (reconcile_ok env n s (h_context (lo_header l)) ctx)); apply inv_safe|].
      intros [[n' c]|]; apply hoare_pure; [intros Hf|intros _].
      * assert (header_ok (set_context (lo_header l) c)) as Hh' by done. unfold put_node.
        eapply hoare_bind; [eapply hoare_put with (c := true); [exact Hg|congruence|congruence|exact Hf|exact Hh'|]|].
        -- intros st (_ & _ & Hok & _) _. exact (Hok _ _ Hg (running_started _ Hrun)).
        -- intros []. apply hoare_ret. intros st Hst. split_and!; [done|done|]. intros m Hm. cbn [lo_nodes].
           rewrite od_get_set_ne; [apply Hin; by right|]. intros Heq. apply Hn. rewrite <-Heq. by apply list_elem_of_fmap_2.
      * apply hoare_ret. intros st Hst. split_and!; [done|done|]. intros m Hm. apply Hin. by right.
    + apply hoare_ret. intros st Hst. split_and!; [done|done|]. intros m Hm. apply Hin. by right.
  - intros l' w (Hi & Hh' & Hin'). exact (IH l' Hnd Hin' Hh' w Hi).
Qed.

Lemma save_run_ok l h : header_ok h → hoare (inv l) (save_run h ctx) (λ _, inv l).
Proof.
  intros Hh w (Hf & Hl & Hn & Hlh). pose proof Hh as (Hp & _ & Hs). unfold save_run, require, bind. rewrite Hs.
  cbn [ret on_store modify pw_store]. split_and!; [|done..]. destruct Hf as [H1 H2 H3 H4]. split; [done|done| |done].
  cbn [st_runs]. intros h' t. rewrite Hp, od_get_set_eq. by intros [= <- <-].
Qed.

Lemma dependency_state_in (nodes : Nodes) n d : d ∈ dependencies s n → from_option n_status PENDING (od_get d nodes) ∈ dependency_states s n nodes.
Proof. intros Hd. apply list_elem_of_fmap. by exists d. Qed.

Lemma dependencies_met spec nodes :
  existsb (λ st, bool_decide (st ≠ COMPLETED)) (dependency_states s (pn_id spec) nodes) = false →
  ∀ d, d ∈ dependencies s (pn_id spec) → completed_in nodes d.
Proof.
  rewrite existsb_none. intros He d Hd. specialize (He _ (dependency_state_in nodes _ d Hd)).
  apply bool_decide_eq_false, dec_stable in He. unfold completed_in. destruct (od_get d nodes) as [r|]; [by exists r|done].
Qed.

(** A node whose dependencies failed was not started. *)
Lemma dependencies_failed spec l st r :
  existsb (λ st, bool_decide (st ∈ [FAILED; SKIPPED])) (dependency_states s (pn_id spec) (lo_nodes l)) = true →
  inv l st → od_get (pn_id spec) (lo_nodes l) = Some r → ¬ started r.
Proof.
  rewrite existsb_elem. intros (x & (d & -> & Hd)%list_elem_of_fmap & Hx%bool_decide_eq_true) (_ & _ & Hok & _) Hr Hst.
  destruct (Hok _ _ Hr Hst d Hd) as (rd & Hrd & Hc). rewrite Hrd in Hx. simpl in Hx. rewrite Hc in Hx. set_solver.
Qed.

Definition result_ok (r : PipelineRunHeader + Local) (st : PipelineStore) : Prop :=
  match r with inl h => safe st | inr l => inv l st ∧ header_ok (lo_header l) end.

Lemma visit_ok spec l : header_ok (lo_header l) → hoare (inv l) (visit env spec s ctx l) result_ok.
Proof.
  intros Hh. assert (hoare (inv l) (ret (inr l)) result_ok) as Hid by (by apply hoare_ret).
  unfold visit. case_bool_decide; [done|]. destruct (match od_get (pn_id spec) (lo_nodes l) with Some _ => _ | None => _ end) eqn:Hcur; [done|].
  assert (∀ r, od_get (pn_id spec) (lo_nodes l) = Some r → n_status r ≠ COMPLETED ∧ n_status r ≠ SKIPPED) as Hopen.
  { intros r Hr. rewrite Hr in Hcur. apply orb_false_iff in Hcur as [Hd _]. unfold done_status in Hd.
    apply bool_decide_eq_false in Hd. split; set_solver. }
  destruct (existsb _ (dependency_states s (pn_id spec) (lo_nodes l))) eqn:Hfail.
  - eapply hoare_bind; [apply (hoare_steady _ _ _ (node_run_ok env (lo_header l) spec)); apply inv_safe|].
    intros n. apply hoare_pure. intros Hfresh. unfold put_node. eapply hoare_bind; [eapply hoare_bind|].
    + eapply (hoare_put_fresh l spec n _ (set_context (lo_header l) (h_context (lo_header l))) true);
        [exact Hfresh|by repeat split| |exact Hh|].
      * intros st r Hst Hr. destruct (Hopen r Hr) as [? ?]. split_and!; [done|done|by eapply dependencies_failed|done].
      * intros st _ Hst. exfalso. revert Hst. by apply not_started_skipped.
    + intros []. apply hoare_ret with (Q := λ l' st, inv l' st ∧ header_ok (lo_header l')). intros st Hst. by split.
    + intros l'. apply hoare_ret. done.
  - destruct (existsb (λ st, bool_decide (st ≠ COMPLETED)) _) eqn:Hmet; [done|]. pose proof (dependencies_met _ _ Hmet) as Hdeps.
    destruct (exhausted _ _).
    + eapply hoare_bind; [apply (save_run_ok l); exact Hh|]. intros []. apply hoare_ret. apply inv_safe.
    + eapply hoare_bind; [apply (hoare_steady _ _ _ (start_ok env spec s _ _ ctx (od_get (pn_id spec) (lo_nodes l)))); apply inv_safe|].
      intros [n c]. apply hoare_pure. cbn [fst snd]. intros Hn. unfold put_node.
      assert (hoare (inv l) (save_node_run n ctx)
        (λ _, inv (mkLocal (set_context (lo_header l) c) (od_set (pn_id spec) n (lo_nodes l)) true))) as Hput.
      { destruct (od_get (pn_id spec) (lo_nodes l)) as [r|] eqn:Hr.
        - destruct (Hopen r eq_refl). by eapply hoare_put.
        - destruct Hn as (n0 & Hfresh & Hn). eapply hoare_put_fresh; [done|done| |done|done]. intros st r _. congruence. }
      eapply hoare_bind; [eapply hoare_bind; [exact Hput|]|].
      * intros []. apply hoare_ret with (Q := λ l' st, inv l' st ∧ header_ok (lo_header l')). intros st Hst. by split.
      * intros l'. apply hoare_ret. intros st [Hst Hh']. split; [|done]. by apply inv_header with (l := l').
Qed.

Lemma visit_nodes_ok order l : header_ok (lo_header l) → hoare (inv l) (visit_nodes env order s ctx l) result_ok.
Proof.
  revert l. induction order as [|spec rest IH]; intros l Hh; simpl; [by apply hoare_ret|].
  eapply hoare_bind; [by apply visit_ok|]. intros [h|l']; [by apply hoare_ret|]. intros w [Hw Hh']. by apply (IH l' Hh').
Qed.

Lemma skip_node_ok spec l :
  header_ok (lo_header l) → hoare (inv l) (skip_node env spec ctx l) (λ l' st, inv l' st ∧ header_ok (lo_header l')).
Proof.
  intros Hh. unfold skip_node. eapply hoare_bind.
  { eapply (hoare_steady (λ _, True)); [|apply inv_safe].
    destruct (od_get (pn_id spec) (lo_nodes l)) as [n|]; [|by apply steady_ret].
    destruct (bool_decide _); [|by apply steady_ret]. destruct (n_child_run_id n); [apply steady_on_ext|by apply steady_ret]. }
  intros []. apply hoare_pure. intros _.
  destruct (od_get (pn_id spec) (lo_nodes l)) as [r|] eqn:Hr.
  - destruct (done_status (n_status r)) eqn:Hd; [by apply hoare_ret|]. unfold done_status in Hd. apply bool_decide_eq_false in Hd.
    unfold bind at 1, ret at 1. eapply hoare_bind.
    + eapply (hoare_put l (pn_id spec) r _ (lo_header l) (lo_changed l)); [done|set_solver|set_solver|by repeat split|done|].
      intros st _ Hst. exfalso. revert Hst. by apply not_started_skipped.
    + intros []. apply hoare_ret. intros st Hst. by split.
  - eapply hoare_bind; [apply (hoare_steady _ _ _ (node_run_ok env (lo_header l) spec)); apply inv_safe|].
    intros n. apply hoare_pure. intros Hfresh. eapply hoare_bind.
    + eapply (hoare_put_fresh l spec n _ (lo_header l) (lo_changed l)); [exact Hfresh|by repeat split| |done|].
      * intros st r _. congruence.
      * intros st _ Hst. exfalso. revert Hst. by apply not_started_skipped.
    + intros []. apply hoare_ret. intros st Hst. by split.
Qed.

Lemma skip_nodes_ok nodes l :
  header_ok (lo_header l) → hoare (inv l) (skip_nodes env nodes ctx l) (λ l' st, inv l' st ∧ header_ok (lo_header l')).
Proof.
  revert l. induction nodes as [|spec rest IH]; intros l Hh; simpl; [by apply hoare_ret|].
  eapply hoare_bind; [by apply skip_node_ok|]. intros l' w [Hw Hh']. by apply (IH l' Hh').
Qed.

Lemma od_wf_later l nodes : od_wf nodes → od_wf (foldl later nodes l).
Proof.
  revert nodes. induction l as [|r l IH]; intros nodes Hwf; simpl; [done|]. apply IH. unfold later.
  repeat case_match; auto using od_wf_set.
Qed.

Lemma snapshot_ok st :
  filed st → let nodes := latest_nodes p ctx st in
  NoDup (n_node_id <$> od_values nodes) ∧ ∀ n, n ∈ od_values nodes → od_get (n_node_id n) nodes = Some n.
Proof.
  intros Hf nodes. assert (od_wf nodes) as Hwf by apply od_wf_later, od_wf_nil.
  assert (∀ k r, od_get k nodes = Some r → n_node_id r = k) as Hk.
  { intros k r Hr. pose proof (latest_nodes_get st k Hf) as H. fold nodes in H. rewrite Hr in H. by destruct H. }
  assert (n_node_id <$> od_values nodes = od_keys nodes) as ->.
  { unfold od_values, od_keys. rewrite <-list_fmap_compose. apply list_fmap_ext. intros i [k r] Hi%list_elem_of_lookup_2. simpl.
    apply Hk. by apply od_elem_get. }
  split; [done|]. intros n Hn. destruct (od_value_get n nodes Hn Hwf) as [k Hkn]. by rewrite (Hk _ _ Hkn).
Qed.

Lemma finish_round_ok l : header_ok (lo_header l) → hoare (inv l) (finish_round env s ctx l) result_ok.
Proof.
  intros Hh. unfold finish_round. eapply hoare_bind.
  { unfold skip_after_fail_fast. destruct (existsb _ _); [by apply skip_nodes_ok|].
    apply hoare_ret with (Q := λ l' st, inv l' st ∧ header_ok (lo_header l')). by split. }
  intros l'. apply hoare_pure. intros Hh'. eapply hoare_bind.
  { eapply (hoare_steady (λ _, True)); [|apply inv_safe].
    destruct (terminal_state _); [eapply steady_bind; [apply steady_clock|intros ? _]|]; by apply steady_ret. }
  intros t. apply hoare_pure. intros _. eapply hoare_bind; [apply (save_run_ok l'); exact Hh'|].
  intros []. apply hoare_ret. intros st Hst. split; [by apply inv_header|done].
Qed.

Lemma round_ok h : header_ok h → hoare safe (round env p s ctx h) result_ok.
Proof.
  intros Hh w Hw. unfold round, bind at 1, gets at 1. destruct (snapshot_ok (pw_store w) (proj1 Hw)) as [Hnd Hin].
  set (nodes := latest_nodes p ctx (pw_store w)) in *. pose proof (safe_inv _ h Hw Hh) as Hinv. fold nodes in Hinv.
  clearbody nodes. enough (hoare (inv (mkLocal h nodes false)) (bind (reconcile_nodes env (od_values nodes) s ctx (mkLocal h nodes false))
    (round_rest env s ctx)) result_ok) as H by exact (H w Hinv). clear w Hw Hinv.
  eapply hoare_bind; [by apply reconcile_nodes_ok|]. intros l. apply hoare_pure. intros Hl. unfold round_rest.
  destruct (budget_exceeded _) as [[state error]|].
  - eapply hoare_bind; [apply (save_run_ok l); exact Hl|]. intros []. apply hoare_ret. apply inv_safe.
  - eapply hoare_bind.
    + eapply hoare_weaken; [apply visit_nodes_ok; exact Hl|]. intros st Hst. by apply inv_header with (l := l).
    + intros [h'|l']; [by apply hoare_ret|]. intros w [Hw Hh']. eapply finish_round_ok; [exact Hh'|]. by apply inv_header.
Qed.

Lemma rounds_ok fuel h : header_ok h → hoare safe (rounds env fuel p s ctx h) (λ _, safe).
Proof.
  revert h. induction fuel as [|fuel IH]; intros h Hh; simpl; [by apply hoare_ret|].
  eapply hoare_bind; [by apply round_ok|]. intros [h'|l]; [by apply hoare_ret|]. intros w [Hw Hh']. cbn [pw_store] in Hw.
  destruct (_ || _); [by eapply inv_safe|]. apply IH; [done|by eapply inv_safe].
Qed.

Lemma advance_safe w : safe (pw_store w) → safe (pw_store (advance env p ctx w).2).
Proof.
  intros Hw. unfold advance, require_run, bind, gets. destruct (get_run p ctx (pw_store w)) as [h|] eqn:Hr; [|done].
  cbn [of_option ret]. destruct (terminal_state (h_state h)); [done|]. unfold require_spec, bind, gets.
  assert (header_ok h) as Hh.
  { unfold get_run in Hr. destruct (od_get p _) as [[h' t]|] eqn:Hg; [|done]. destruct (scopes ctx t); [|done].
    injection Hr as ->. by apply (fl_run _ (proj1 Hw) _ _ Hg). }
  destruct Hh as (Hp & Hi & Hs) eqn:E. clear E. rewrite Hi. destruct (get_spec (ps_id s) ctx (pw_store w)) as [s'|] eqn:Hg; [|done].
  apply (fl_spec _ (proj1 Hw)) in Hg as ->. cbn [of_option ret].
  pose proof (rounds_ok MAX_ITERATIONS h ltac:(by split_and!) w Hw) as H. by destruct (rounds env _ _ _ _ _ w) as [[a|e] w'].
Qed.

(** A later call to [advance], after the outside world changed in any way. *)
Definition advanced (w w' : World X) : Prop := ∃ x, w' = (advance env p ctx (mkWorld (pw_store w) x)).2.

(** C26: from the submission of a pipeline on, through any number of later
    [advance] calls with arbitrary changes outside in between, and also when a
    call raises half-way: a node whose latest record shows that it was started
    (running, waiting for its approval, completed or failed) has the latest
    record of every node it depends on completed. *)
Theorem pipeline_respects_dependencies inputs context w w' :
  (∀ k r, od_get k (st_nodes (pw_store w)) = Some r → k = node_key r ∧ (1 ≤ n_attempt r)%Z ∧ n_pipeline_run_id r ≠ p) →
  od_wf (st_nodes (pw_store w)) → (pe_new_id env (pw_ext w)).1 = p → scopes ctx (ps_tenant_id s) = true →
  rtc advanced (submit env s inputs context ctx w).2 w' → ordered (pw_store w').
Proof.
  intros Hk Hwf Hid Hsc Hr. enough (safe (pw_store w')) as [_ ?] by done.
  assert (safe (pw_store (submit env s inputs context ctx w).2)) as Hsafe;
    [|clear -Hr Hsafe; induction Hr as [|a b c [x ->] _ IH]; [done|]; apply IH; by apply advance_safe].
  clear w' Hr. unfold submit, save_spec, require. rewrite Hsc. unfold bind, ret, on_store, modify. cbn [pw_store pw_ext].
  unfold on_ext at 1. cbn [pw_store pw_ext]. destruct (pe_new_id env (pw_ext w)) as [id x1]. cbn in Hid. subst id.
  unfold clock, on_ext at 1. cbn [pw_store pw_ext]. destruct (pe_clock env x1) as [t x2].
  unfold save_run at 1, require, bind. cbn [h_tenant_id].
  assert (scopes ctx (tc_tenant_id ctx) = true) as -> by (unfold scopes; apply orb_true_iff; right; by apply bool_decide_eq_true).
  cbn [ret on_store modify pw_store pw_ext]. apply advance_safe. cbn [pw_store st_specs st_runs st_nodes]. split.
  - split; cbn [st_specs st_runs st_nodes].
    + intros k r Hg. destruct (Hk k r Hg) as (? & ? & Hne). split_and!; [done|done|by intros ?].
    + done.
    + intros h t' Hg. cbn in Hg. rewrite od_get_set_eq in Hg. injection Hg as <- _. split_and!; [done|done|].
      unfold scopes. cbn. apply orb_true_iff. right. by apply bool_decide_eq_true.
    + intros s' Hg. unfold get_spec in Hg. cbn in Hg. rewrite od_get_set_eq, Hsc in Hg. congruence.
  - intros n r [Hg _] _. destruct (Hk _ _ Hg) as (Heq & _ & Hne). unfold node_key in Heq. congruence.
Qed.
End Dependencies.

(** ** Retrying a node of a tenant's pipeline *)
Section Retry.
Context {X : Type}.
Variable env : Env X.

(** Retrying a node fails for every tenant but the default one: the new
    attempt is filed under the default tenant, so its save raises a scope error
    and nothing is retried. *)
Theorem tenant_retry_raises p node_id ctx w h s current :
  get_run p ctx (pw_store w) = Some h → get_spec (h_pipeline_id h) ctx (pw_store w) = Some s →
  od_get node_id (latest_nodes p ctx (pw_store w)) = Some current →
  tc_is_system ctx = false → tc_tenant_id ctx ≠ DEFAULT_TENANT_ID →
  ∃ w', retry_node env p node_id ctx w = (Raise PipelineScopeError, w') ∧ pw_store w' = pw_store w.
Proof.
  intros Hr Hs Hc Hsys Hne. unfold retry_node, require_run, require_spec, bind, gets. rewrite Hr. cbn [of_option ret].
  rewrite Hs. cbn [of_option ret]. rewrite Hc. cbn [of_option ret]. unfold new_attempt, bind, clock, on_ext.
  destruct (pe_clock env (pw_ext w)) as [t x]. cbn [ret]. unfold save_node_run, require. cbn [n_tenant_id].
  assert (scopes ctx DEFAULT_TENANT_ID = false) as ->.
  { unfold scopes. rewrite Hsys. simpl. by apply bool_decide_eq_false. }
  by eexists.
Qed.
End Retry.

(** ** A pipeline whose children all succeed completes *)
Section Completes.
Context {X : Type}.
Variable env : Env X.
Variables (s : PipelineSpec) (ctx : TenantContext) (inputs : odict string JsonValue).

Definition submitted_variables : odict string JsonValue := foldl (λ d e, od_set e.1 e.2 d) [] inputs.

(** What a finished node publishes. *)
Definition published (c : PipelineContext) (n : string) : Prop :=
  ∃ v status cost, od_get n (outputs c) = Some [("output", v); ("status", status); ("cost", cost)].

(** Workload nodes without gates, caps or schemas; inputs that resolve once
    everything upstream is published; an executor that answers at once. *)
Record cooperative : Prop := {
  co_valid : validate_spec s = None;
  co_nodes : ∀ n, n ∈ ps_nodes s → pn_kind n = WORKLOAD ∧ pn_requires_approval n = None ∧ pn_budget n = None ∧
    ∀ c, variables c = submitted_variables → (∀ d, tc (depends s) d (pn_id n) → published c d) →
    ∃ m, map_inputs (pe_float_str env) (pn_inputs n) c = Ok m;
  co_budget : f64_leb (ps_budget_usd s) f64_zero = true;
  co_schema : ∀ w, pe_schema_lookup env w = None;
  co_executor : ∀ w i a o x, ∃ id x', pe_submit env w i a o ctx x = (Ret id, x') ∧
    ∃ out cost arts x'', pe_result env id ctx x' = (Ret (Some (mkResult COMPLETED out cost None arts)), x'');
}.
Hypothesis Hco : cooperative.

(** The carried state after the nodes of [before] were visited. *)
Definition progressed (p : string) (before : list string) (l : Local) : Prop :=
  (∀ i, match od_get i (lo_nodes l) with
        | Some r => i ∈ before ∧ n_status r = COMPLETED
        | None => i ∉ before
        end) ∧
  (∀ i, i ∈ before → published (h_context (lo_header l)) i) ∧
  variables (h_context (lo_header l)) = submitted_variables ∧ od_wf (lo_nodes l) ∧
  h_pipeline_run_id (lo_header l) = p ∧ scopes ctx (h_tenant_id (lo_header l)) = true ∧
  f64_leb (h_budget_usd (lo_header l)) f64_zero = true.

Lemma tc_mono_on {A} (R S : relation A) (P : A → Prop) x y :
  (∀ a b, P b → R a b → S a b) → (∀ a b, P b → R a b → P a) → P y → tc R x y → tc S x y.
Proof.
  intros H Hp Hy Ht. enough (P x ∧ tc S x y) as [_ ?] by done.
  induction Ht as [a b Hab|a b c Hab _ IH]; [split; [by eapply Hp|by apply tc_once, H]|].
  destruct (IH Hy) as [Hb Hbc]. split; [by eapply Hp|]. eapply tc_l; [by apply H|done].
Qed.

Lemma not_exhausted h projected : f64_leb (h_budget_usd h) f64_zero = true → exhausted h projected = false.
Proof.
  intros Hb. unfold exhausted. by rewrite (f64_leb_not_gt _ _ Hb).
Qed.

Lemma no_templates : fan_out_templates s = [].
Proof.
  unfold fan_out_templates. assert (∀ n, n ∈ ps_nodes s → pn_kind n = WORKLOAD) as H by (intros n Hn; by apply (co_nodes Hco)).
  induction (ps_nodes s) as [|n l IH]; [done|]. simpl. rewrite (H n) by left. simpl. apply IH. intros m Hm. apply H. by right.
Qed.

Lemma visit_completes p before l n w :
  progressed p before l → n ∈ ps_nodes s → pn_id n ∉ before → (∀ d, tc (depends s) d (pn_id n) → d ∈ before) →
  ∃ l' w', visit env n s ctx l w = (Ret (inr l'), w') ∧ progressed p (before ++ [pn_id n]) l'.
Proof.
  intros (Hn & Hpub & Hvar & Hwf & Hp & Hs & Hb) Hin Hnew Hbefore.
  destruct (co_nodes Hco n Hin) as (Hkind & Hap & Hbud & Hinp).
  assert (od_get (pn_id n) (lo_nodes l) = None) as Hcur.
  { specialize (Hn (pn_id n)). destruct (od_get _ _); [|done]. by destruct Hn. }
  assert (∀ st, st ∈ dependency_states s (pn_id n) (lo_nodes l) → st = COMPLETED) as Hdeps.
  { intros st (d & -> & Hd)%list_elem_of_fmap. specialize (Hn d).
    assert (d ∈ before) by (apply Hbefore; by apply (tc_once (depends s))). revert Hn. destruct (od_get d (lo_nodes l)); [by intros [_ ?]|done]. }
  unfold visit. rewrite no_templates, bool_decide_eq_false_2 by set_solver. rewrite Hcur.
  rewrite (proj2 (existsb_none _ _)) by (intros st Hst; rewrite (Hdeps st Hst); apply bool_decide_eq_false; set_solver).
  rewrite (proj2 (existsb_none _ _)) by (intros st Hst; rewrite (Hdeps st Hst); apply bool_decide_eq_false; by intros H).
  rewrite not_exhausted by done. unfold start_step, node_run, clock. unfold bind at 1 2 3, on_ext at 1.
  destruct (pe_clock env (pw_ext w)) as [t x1]. cbn [ret]. rewrite Hap, Hkind. cbn [bool_decide orb].
  rewrite (bool_decide_false (is_Some None)) by by intros [? ?]. rewrite (bool_decide_false (WORKLOAD = GATE)) by done. cbn [orb].
  unfold workload_step. pose proof (co_valid Hco) as Hv. apply validate_spec_wf in Hv.
  pose proof (wf_kinds _ Hv n Hin) as Hk. unfold kind_requirements in Hk. rewrite Hkind in Hk.
  destruct (pn_workload n) as [wl|] eqn:Hwl; [|done]. destruct (Hinp (h_context (lo_header l)) Hvar) as [m Hm];
    [intros d Hd; by apply Hpub, Hbefore|]. rewrite Hm, (co_schema Hco). cbn [mbind option_bind].
  unfold validate_boundary at 1. unfold bind at 1, on_ext at 1. cbn [pw_ext pw_store].
  match goal with |- context [pe_submit env wl m ?a ?o ctx x1] =>
    destruct (co_executor Hco wl m a o x1) as (id & x2 & -> & out & cost & arts & x3 & Hres) end.
  cbn [n_started_at started_or_now ret]. unfold bind at 1, ret at 1. unfold bind at 1, on_ext at 1. cbn [pw_ext pw_store]. rewrite Hres.
  unfold finish. cbn [nr_status nr_output nr_cost_usd nr_artifacts]. rewrite Hbud, (co_schema Hco). cbn [mbind option_bind].
  unfold validate_boundary at 1. unfold bind at 1, clock, on_ext at 1. cbn [pw_ext pw_store]. destruct (pe_clock env x3) as [t2 x4].
  cbn [ret fst snd]. unfold put_node. unfold bind at 1 2, save_node_run, require, bind at 1. cbn [n_tenant_id with_result with_start].
  rewrite Hs. cbn [ret on_store modify]. unfold bind, ret. eexists _, _. split; [reflexivity|].
  split_and!; cbn [lo_nodes lo_header h_context set_spent set_context with_header h_pipeline_run_id h_tenant_id h_budget_usd];
    [| |exact Hvar|by apply od_wf_set|done..].
  - intros i. rewrite od_get_set. case_decide as Hi; [split; [set_solver|done]|].
    specialize (Hn i). destruct (od_get i (lo_nodes l)); [destruct Hn; split; [set_solver|done]|set_solver].
  - intros i Hi. unfold published, publish. cbn [outputs n_node_id with_result with_start]. rewrite od_get_set.
    case_decide; [by eexists _, _, _|]. apply Hpub. set_solver.
Qed.

Lemma visit_nodes_completes p order before l w :
  progressed p before l → (∀ n, n ∈ order → n ∈ ps_nodes s) → NoDup (before ++ (pn_id <$> order)) →
  (∀ l1 i l2, before ++ (pn_id <$> order) = l1 ++ i :: l2 → ∀ d, depends s d i → d ∈ l1) →
  ∃ l' w', visit_nodes env order s ctx l w = (Ret (inr l'), w') ∧ progressed p (before ++ (pn_id <$> order)) l'.
Proof.
  revert before l w. induction order as [|n order IH]; intros before l w Hp Hin Hnd Hs; simpl.
  - rewrite app_nil_r. by exists l, w.
  - assert (∀ d, tc (depends s) d (pn_id n) → d ∈ before) as Hb.
    { intros d Ht. cbn [fmap list_fmap] in Hs.
      eapply (sorted_before (dependency_edges s) (before ++ (pn_id <$> n :: order)) d (pn_id n) before); [| |done].
      - intros l1 i l2 Heq u [_ Hu]%dependency_edges_depends. by eapply Hs.
      - apply (tc_mono_on (depends s) (edge (dependency_edges s)) (λ i, i ∈ node_ids s)); [| | |exact Ht].
        + intros a b Hb Hab. by apply dependency_edges_depends.
        + intros a b Hb Hab. pose proof (co_valid Hco) as Hv. apply validate_spec_wf in Hv.
          apply elem_of_dependencies in Hab as [(e & He & <- & _)|(m & [Hm _]%node_Some & Ha)]; [by apply (wf_edges _ Hv)|].
          apply (wf_names _ Hv m); [done|apply elem_of_app; by left].
        + apply list_elem_of_fmap_2, Hin. left. }
    destruct (visit_completes p before l n w Hp) as (l' & w' & Hv & Hp'); [apply Hin; left| |exact Hb|].
    { intros Hn. apply NoDup_app in Hnd as (_ & Hd & _). apply (Hd _ Hn). left. }
    unfold bind. rewrite Hv. destruct (IH (before ++ [pn_id n]) l' w' Hp') as (l'' & w'' & Hrest & Hp'').
    + intros m Hm. apply Hin. by right.
    + rewrite <-app_assoc. exact Hnd.
    + rewrite <-app_assoc. exact Hs.
    + exists l'', w''. split; [exact Hrest|]. rewrite <-app_assoc in Hp''. exact Hp''.
Qed.

Lemma derive_completed nodes :
  (∀ i, i ∈ node_ids s → ∃ r, od_get i nodes = Some r ∧ n_status r = COMPLETED) →
  (∀ i r, od_get i nodes = Some r → n_status r = COMPLETED) → od_wf nodes → derive_state s nodes = P_COMPLETED.
Proof.
  intros Hall Hc Hwf. unfold derive_state. rewrite no_templates.
  assert (∀ st, st ∈ n_status <$> od_values nodes → st = COMPLETED) as Hst.
  { intros st (r & -> & Hr)%list_elem_of_fmap. destruct (od_value_get r nodes Hr Hwf) as [k Hk]. by eapply Hc. }
  rewrite (proj2 (existsb_none _ _)) by (intros st Hx; rewrite (Hst st Hx); by apply bool_decide_eq_false).
  set (required := filter _ (ps_nodes s)).
  assert (∀ l, (∀ n, n ∈ l → n ∈ ps_nodes s) → omap (λ n, n_status <$> od_get (pn_id n) nodes) l = replicate (length l) COMPLETED) as Homap.
  { induction l as [|n l IH]; intros Hl; [done|]. destruct (Hall (pn_id n)) as (r & Hr & Hrc); [apply list_elem_of_fmap_2, Hl; left|].
    simpl. rewrite Hr. simpl. rewrite Hrc. f_equal. apply IH. intros m Hm. apply Hl. by right. }
  rewrite Homap by (intros n [_ Hn]%list_elem_of_filter; done). rewrite length_replicate, Nat.eqb_refl. cbn [andb].
  rewrite (proj2 (forallb_elem _ _)); [done|]. intros st [-> _]%elem_of_replicate. by apply bool_decide_eq_true.
Qed.

Lemma no_latest_nodes p st :
  (∀ k r, od_get k (st_nodes st) = Some r → n_pipeline_run_id r ≠ p) → od_wf (st_nodes st) → latest_nodes p ctx st = [].
Proof.
  intros Hne Hwf. unfold latest_nodes. enough (list_node_runs p ctx st = []) as -> by done.
  apply elem_of_nil_inv. intros r. unfold list_node_runs. rewrite py_sort_perm, list_elem_of_filter. intros [[Hp _] Hr].
  destruct (od_value_get r _ Hr Hwf) as [k Hk]. by destruct (Hne k r Hk).
Qed.

(** The first round of a fresh run visits every node with success. *)
Lemma fresh_round_completes h w :
  (∀ k r, od_get k (st_nodes (pw_store w)) = Some r → n_pipeline_run_id r ≠ h_pipeline_run_id h) → od_wf (st_nodes (pw_store w)) →
  scopes ctx (h_tenant_id h) = true → f64_leb (h_budget_usd h) f64_zero = true →
  variables (h_context h) = submitted_variables →
  ∃ l w', round env (h_pipeline_run_id h) s ctx h w = (Ret (inr l), w') ∧ h_state (lo_header l) = P_COMPLETED ∧
    h_pipeline_run_id (lo_header l) = h_pipeline_run_id h ∧
    get_run (h_pipeline_run_id h) ctx (pw_store w') = Some (lo_header l).
Proof.
  intros Hne Hwf Hs Hb Hvar. unfold round, bind at 1, gets. rewrite no_latest_nodes by done.
  unfold bind at 1. cbn [od_values fmap list_fmap reconcile_nodes ret]. unfold round_rest.
  cbn [lo_nodes lo_header lo_changed]. set (h1 := set_spent h (spent [])).
  assert (budget_exceeded h1 = None) as -> by (unfold budget_exceeded; cbn [h1 set_spent with_header h_budget_usd]; by rewrite Hb).
  pose proof (topological_order_ids s (co_valid Hco)) as (Hperm & Hin & Hsort).
  assert (NoDup (pn_id <$> topological_order s)) as Hnd.
  { rewrite Hperm. pose proof (co_valid Hco) as Hv. apply validate_spec_wf in Hv. apply (wf_ids _ Hv). }
  destruct (visit_nodes_completes (h_pipeline_run_id h) (topological_order s) [] (mkLocal h1 [] false) w)
    as (l & w1 & Hv & (Hn & _ & _ & Hwf' & Hp & Hs' & _)); [|exact Hin|exact Hnd|exact Hsort|].
  { split_and!; cbn; [by intros i ?%not_elem_of_nil|by intros i ?%not_elem_of_nil|exact Hvar|apply od_wf_nil|done|done|done]. }
  cbn [app] in Hn. unfold bind. rewrite Hv. unfold finish_round, skip_after_fail_fast, bind. cbn [lo_nodes lo_header].
  assert (∀ i r, od_get i (lo_nodes l) = Some r → n_status r = COMPLETED) as Hc.
  { intros i r Hr. specialize (Hn i). rewrite Hr in Hn. by destruct Hn. }
  rewrite (proj2 (existsb_none _ _)).
  2: { intros [i r] Hr%od_elem_get; [|done]. unfold fails_fast. cbn [fst snd]. rewrite (Hc i r Hr). done. }
  cbn [ret lo_nodes lo_header lo_changed].
  rewrite derive_completed; [|intros i Hi|exact Hc|exact Hwf'].
  2: { rewrite <-Hperm in Hi. specialize (Hn i). destruct (od_get i (lo_nodes l)) as [r|]; [by exists r; destruct Hn|done]. }
  change (terminal_state P_COMPLETED) with true. cbn match. unfold clock, on_ext.
  destruct (pe_clock env (pw_ext w1)) as [t x]. cbn [ret]. unfold save_run, require, bind. cbn [h_tenant_id with_header set_spent].
  rewrite Hs'. cbn [ret on_store modify]. eexists _, _. split; [reflexivity|]. split_and!; [done|exact Hp|].
  cbn [pw_store lo_header]. unfold get_run. cbn [st_runs h_pipeline_run_id with_header set_spent]. rewrite Hp, od_get_set_eq.
  by rewrite Hs'.
Qed.

(** C27: a valid pipeline of workload nodes (no gates, no approvals asked for), without
    a budget of its own or of a node (the pipeline's is zero or less) and without
    schemas for its workloads, whose inputs resolve from upstream outputs, with an
    executor that accepts every child and reports it completed at the first poll,
    is driven to completion by its submission alone, when the identifier drawn for
    the run is new and the caller's context covers the pipeline's tenant. *)
Theorem pipeline_completes context w :
  (∀ k r, od_get k (st_nodes (pw_store w)) = Some r → n_pipeline_run_id r ≠ (pe_new_id env (pw_ext w)).1) →
  od_wf (st_nodes (pw_store w)) → scopes ctx (ps_tenant_id s) = true →
  ∃ h w', submit env s inputs context ctx w = (Ret h, w') ∧ h_state h = P_COMPLETED ∧
    get_run (h_pipeline_run_id h) ctx (pw_store w') = Some h.
Proof.
  intros Hne Hwf Hsc. assert (scopes ctx (tc_tenant_id ctx) = true) as Hown
    by (unfold scopes; apply orb_true_iff; right; by apply bool_decide_eq_true).
  unfold submit, save_spec, require. rewrite Hsc. unfold bind at 1 2. cbn [ret on_store modify]. unfold bind at 1, on_ext at 1.
  cbn [pw_store pw_ext]. destruct (pe_new_id env (pw_ext w)) as [id x1]. cbn [fst] in Hne.
  unfold bind at 1, clock, on_ext at 1. cbn [pw_store pw_ext]. destruct (pe_clock env x1) as [t x2].
  unfold bind at 1, save_run, require, bind at 1. cbn [h_tenant_id]. rewrite Hown. cbn [ret on_store modify pw_store pw_ext st_specs st_runs st_nodes h_pipeline_run_id].
  match goal with |- context [od_set id (?h, _) _] => set (h0 := h) end.
  unfold advance, require_run, require_spec, bind at 1 2, gets at 1. cbn [pw_store pw_ext]. unfold get_run at 1.
  cbn [st_runs]. rewrite od_get_set_eq, Hown. cbn [of_option ret].
  change (terminal_state (h_state h0)) with false. cbn match. change (h_pipeline_id h0) with (ps_id s).
  unfold bind at 1 2, gets at 1. cbn [pw_store pw_ext]. unfold get_spec at 1. cbn [st_specs]. rewrite od_get_set_eq, Hsc.
  cbn [of_option ret]. change MAX_ITERATIONS with (S 199). cbn [rounds]. unfold bind.
  match goal with |- context [round env id s ctx ?h ?w1] =>
    destruct (fresh_round_completes h w1) as (l & w2 & Hr & Hst & Hid & Hget); [exact Hne|exact Hwf|exact Hown|exact (co_budget Hco)|reflexivity|] end.
  change (h_pipeline_run_id h0) with id in Hr, Hid, Hget. rewrite Hr, Hst.
  change (terminal_state P_COMPLETED) with true. rewrite orb_true_r.
  exists (lo_header l), w2. split_and!; [done|done|by rewrite Hid].
Qed.
End Completes.

(** ** Concrete pipelines *)
Module Demo.

Definition work (id : string) (inputs : odict string string) (deps : list string) : PipelineNodeSpec :=
  {| pn_id := id; pn_kind := WORKLOAD; pn_workload := Some "w"; pn_inputs := inputs; pn_on_failure := CONTINUE;
     pn_retry := {| max_attempts := 1; backoff_s := f64_zero; retry_mode := RESTART |}; pn_requires_approval := None;
     pn_budget := None; pn_depends_on := deps; pn_over := None; pn_as_name := None; pn_node := None; pn_from_nodes := [];
     pn_reducer := None; pn_transform := None |}.

Definition gate (id : string) : PipelineNodeSpec :=
  {| pn_id := id; pn_kind := GATE; pn_workload := None; pn_inputs := []; pn_on_failure := FAIL_FAST;
     pn_retry := {| max_attempts := 1; backoff_s := f64_zero; retry_mode := RESTART |}; pn_requires_approval := None;
     pn_budget := None; pn_depends_on := []; pn_over := None; pn_as_name := None; pn_node := None; pn_from_nodes := [];
     pn_reducer := None; pn_transform := None |}.

Definition spec (nodes : list PipelineNodeSpec) (edges : list PipelineEdgeSpec) : PipelineSpec :=
  {| ps_id := "pl"; ps_tenant_id := "acme"; ps_name := "demo"; ps_version := 1; ps_nodes := nodes; ps_edges := edges;
     ps_budget_usd := f64_zero; ps_on_exceed := ON_EXCEED_PAUSE; ps_created_at := None |}.

(** [b] reads [a]'s output; [c] comes after [b] through an edge. *)
Definition chain : PipelineSpec :=
  spec [work "c" [] []; work "b" [("x", "${a.output}")] ["a"]; work "a" [] []] [mkEdge "b" "c" []].

(** The external state counts the calls to the executor and to the gate. *)
Definition env (answer : NodeStatus) : Env nat :=
  {| pe_submit := λ _ _ _ _ _ x, (Ret "child", S x);
     pe_result := λ _ _ x, (Ret (Some (mkResult answer (JStr "out") (f64_lit 1 4) None [])), x);
     pe_cancel := λ _ _ x, (Ret tt, x);
     pe_approvals := Some {| ag_request := λ _ _ _ _ _ x, (Ret "ap", x); ag_status := λ _ x, (Ret "pending", S x) |};
     pe_schema_lookup := λ _, None; pe_budget_lookup := λ _, None; pe_clock := λ x, (0%Z, x);
     pe_new_id := λ x, ("prun-1", x); pe_float_str := λ _, "float"; pe_schema_error := λ _, "error" |}.

Definition acme : TenantContext := context_for_run "acme" None None.
Definition w0 : World nat := mkWorld empty_store 0.
Definition submitted (s : PipelineSpec) (answer : NodeStatus) (ctx : TenantContext) : World nat :=
  (submit (env answer) s [] STAGING ctx w0).2.

Definition state_in (w : World nat) (ctx : TenantContext) : option PipelineState := h_state <$> get_run "prun-1" ctx (pw_store w).

Definition latest_statuses (w : World nat) (ctx : TenantContext) : list (string * NodeStatus) :=
  (λ e, (e.1, n_status e.2)) <$> latest_nodes "prun-1" ctx (pw_store w).

Example chain_valid : validate_spec chain = None.
Proof. vm_compute. reflexivity. Qed.

Example chain_order : pn_id <$> topological_order chain = ["a"; "b"; "c"].
Proof. vm_compute. reflexivity. Qed.

Example cycle_named :
  validate_spec (spec [work "a" [] ["c"]; work "b" [] ["a"]; work "c" [] ["b"]; work "d" [] []] []) = Some (CycleError ["a"; "b"; "c"]).
Proof. vm_compute. reflexivity. Qed.

Example chain_runs : state_in (submitted chain COMPLETED acme) acme = Some P_COMPLETED.
Proof. vm_compute. reflexivity. Qed.

(** A gate waiting for its approval is asked once per round, and asking counts as
    a change: one call polls it until the rounds run out. *)
Example pending_gate_polled :
  pw_ext (submitted (spec [gate "g"] []) COMPLETED acme) = 199 ∧
  state_in (submitted (spec [gate "g"] []) COMPLETED acme) acme = Some P_PAUSED.
Proof. vm_compute. by split. Qed.

(** A second failure after a retry: the dependent's skipped record is filed
    under attempt 1 while its latest record, attempt 2, stays pending although
    the run has failed. *)
Definition default_chain : PipelineSpec :=
  {| ps_id := "pl"; ps_tenant_id := "default"; ps_name := "demo"; ps_version := 1;
     ps_nodes := [work "a" [] []; work "b" [] ["a"]]; ps_edges := [];
     ps_budget_usd := f64_zero; ps_on_exceed := ON_EXCEED_PAUSE; ps_created_at := None |}.

Example skipped_after_retry_stays_pending :
  let w := (retry_node (env FAILED) "prun-1" "a" DEFAULT_CONTEXT (submitted default_chain FAILED DEFAULT_CONTEXT)).2 in
  state_in w DEFAULT_CONTEXT = Some P_FAILED ∧ latest_statuses w DEFAULT_CONTEXT = [("a", FAILED); ("b", PENDING)].
Proof. vm_compute. by split. Qed.

(** A child that ends over the cap between two calls pauses the run, although
    the specification asks to fail it. *)
Definition slow : Env nat :=
  {| pe_submit := pe_submit (env COMPLETED); pe_result := λ _ _ x, (Ret None, x); pe_cancel := pe_cancel (env COMPLETED);
     pe_approvals := None; pe_schema_lookup := λ _, None; pe_budget_lookup := λ _, None; pe_clock := λ x, (0%Z, x);
     pe_new_id := λ x, ("prun-1", x); pe_float_str := λ _, "float"; pe_schema_error := λ _, "error" |}.

Definition capped : PipelineSpec :=
  {| ps_id := "pl"; ps_tenant_id := "acme"; ps_name := "demo"; ps_version := 1;
     ps_nodes := [work "a" [] []; work "b" [] ["a"]]; ps_edges := [];
     ps_budget_usd := f64_lit 1 5; ps_on_exceed := ON_EXCEED_FAIL; ps_created_at := None |}.

Example over_budget_pauses_despite_fail :
  let w := (advance (env COMPLETED) "prun-1" acme (submit slow capped [] STAGING acme w0).2).2 in
  state_in w acme = Some P_PAUSED.
Proof. vm_compute. reflexivity. Qed.

Lemma chain_cooperative : cooperative (env COMPLETED) chain acme [].
Proof.
  split.
  - vm_compute. reflexivity.
  - intros n Hn. repeat (apply elem_of_cons in Hn as [->|Hn]; [split_and!; [reflexivity|reflexivity|reflexivity|]|]);
      [| | |by apply not_elem_of_nil in Hn]; intros c Hv Hp; try (exists []; reflexivity).
    destruct (Hp "a") as (v & st & cost & Ha).
    { apply tc_once. apply (bool_decide_eq_true_1 ("a" ∈ dependencies chain "b")). vm_compute. reflexivity. }
    exists [("x", v)]. cbn [map_inputs pn_inputs work]. unfold render_ref.
    replace (whole "${a.output}") with (Some "a.output") by reflexivity. unfold lookup.
    replace (split_on "."%char "a.output") with ["a"; "output"] by reflexivity. rewrite Hv.
    replace (od_get "a" (submitted_variables [])) with (@None JsonValue) by reflexivity. by rewrite Ha.
  - reflexivity.
  - done.
  - intros w i a o x. eexists _, _. split; [reflexivity|]. by eexists _, _, _, _.
Qed.

Lemma no_nodes k r : od_get k (st_nodes (pw_store w0)) = Some r → n_pipeline_run_id r ≠ "prun-1".
Proof. done. Qed.
End Demo.

Lemma pipeline_completes_witness :
  ∃ h w', submit (Demo.env COMPLETED) Demo.chain [] STAGING Demo.acme Demo.w0 = (Ret h, w') ∧ h_state h = P_COMPLETED.
Proof.
  destruct (pipeline_completes (Demo.env COMPLETED) Demo.chain Demo.acme [] Demo.chain_cooperative STAGING Demo.w0
    Demo.no_nodes od_wf_nil eq_refl) as (h & w' & H & Hs & _).
  exists h, w'. split; [exact H|exact Hs].
Defined.

(** The last node ran, so the middle one is completed. *)
Lemma pipeline_respects_dependencies_witness :
  ∃ rd, latest_is "prun-1" (pw_store (Demo.submitted Demo.chain COMPLETED Demo.acme)) "b" rd ∧ n_status rd = COMPLETED.
Proof.
  assert (∃ r, latest_is "prun-1" (pw_store (Demo.submitted Demo.chain COMPLETED Demo.acme)) "c" r ∧ n_status r = COMPLETED)
    as (r & Hr & Hc).
  { assert (∃ r, od_get ("prun-1", "c", 1%Z) (st_nodes (pw_store (Demo.submitted Demo.chain COMPLETED Demo.acme))) = Some r ∧
      n_attempt r = 1%Z ∧ n_status r = COMPLETED) as (r & Hr & Ha1 & Hc) by (vm_compute; eexists; split_and!; reflexivity).
    exists r. split; [|exact Hc]. unfold latest_is. rewrite Ha1. split; [exact Hr|]. clear r Hr Ha1 Hc.
    intros a r' Ha%od_get_Some_elem. vm_compute in Ha.
    repeat (apply elem_of_cons in Ha as [Ha|Ha]; [try discriminate Ha; injection Ha; intros; subst; simpl; lia|]).
    by apply not_elem_of_nil in Ha. }
  refine (pipeline_respects_dependencies (Demo.env COMPLETED) "prun-1" Demo.chain Demo.acme [] STAGING Demo.w0 _ _ _ _ _ _
    "c" r Hr _ "b" _).
  - done.
  - apply od_wf_nil.
  - reflexivity.
  - reflexivity.
  - unfold Demo.submitted. apply rtc_refl.
  - unfold started. rewrite Hc. right. right. left.
  - apply (bool_decide_eq_true_1 ("b" ∈ dependencies Demo.chain "c")). vm_compute. reflexivity.
Defined.

Lemma tenant_retry_raises_witness :
  ∃ w', retry_node (Demo.env COMPLETED) "prun-1" "a" Demo.acme (Demo.submitted Demo.chain FAILED Demo.acme)
    = (Raise PipelineScopeError, w').
Proof.
  edestruct (tenant_retry_raises (Demo.env COMPLETED) "prun-1" "a" Demo.acme (Demo.submitted Demo.chain FAILED Demo.acme))
    as (w' & H & _); [vm_compute; reflexivity|vm_compute; reflexivity|vm_compute; reflexivity|reflexivity|discriminate|].
  exists w'. exact H.
Defined.
