(* ===== verification/Cron.v ===== *)
(** * Cron expressions ([triggers/cron.py]) and their schedule
    ([triggers/scheduler.py])

    A strict five-field parser, the wall-clock matcher, the forward search for
    the next matching minute, and the decision which scheduled instants of a
    trigger are due.  Sets of field values are strictly sorted lists.  Wall
    clocks are microseconds since the epoch on the zone's own clock; the zone's
    conversions are parameters. *)

From Stdlib Require Import Ascii.
From stdpp Require Import base strings numbers sorting sets list.
From S2P Require Import Prelude Text Calendar.
Open Scope Z_scope.

(** ** Parsing *)

Inductive CronError :=
  | WrongFieldCount (n : nat)
  | EmptyElement (field : string)
  | InvalidStep (field : string)
  | InvertedRange (field : string)
  | InvalidValue (text field : string)
  | MatchesNothing (field : string)
  | ValueOutOfRange (field : string).

Record CronExpression := mkCron {
  cron_expression : string;
  cron_minutes : list Z;
  cron_hours : list Z;
  cron_days : list Z;
  cron_months : list Z;
  cron_weekdays : list Z;
}.

(** A set of integers: its elements, sorted. *)
Definition zset (l : list Z) : list Z := py_sort Z.leb (remove_dups l).

(** [range(start, stop + 1, step)] for a positive step. *)
Definition range (start stop step : Z) : list Z :=
  (λ k, start + k * step) <$> seqZ 0 ((stop - start) / step + 1).

(** [_coerce] *)
Definition coerce (text field : string) : CronError + Z :=
  match py_int text with Some z => inr z | None => inl (InvalidValue text field) end.

(** One element of a comma list. *)
Definition parse_part (field : string) (low high : Z) (raw : string) : CronError + list Z :=
  let part := strip raw in
  if bool_decide (part = EmptyString) then inl (EmptyElement field)
  else
    let stepped :=
      match partition_on "/"%char part with
      | None => inr (part, 1, false)
      | Some (p, step_text) =>
          if isdigit step_text then
            match py_int step_text with
            | Some step => if bool_decide (step = 0) then inl (InvalidStep field) else inr (p, step, true)
            | None => inl (InvalidStep field)
            end
          else inl (InvalidStep field)
      end in
    match stepped with
    | inl e => inl e
    | inr (part, step, has_step) =>
        if bool_decide (part = "*") then inr (range low high step)
        else
          match partition_on "-"%char part with
          | Some (start_text, end_text) =>
              match coerce start_text field, coerce end_text field with
              | inr start, inr stop => if stop <? start then inl (InvertedRange field) else inr (range start stop step)
              | inl e, _ => inl e
              | _, inl e => inl e
              end
          | None =>
              match coerce part field with
              | inl e => inl e
              | inr start => inr (if has_step : bool then range start high step else [start])
              end
          end
    end.

Fixpoint parse_parts (field : string) (low high : Z) (l : list string) : CronError + list Z :=
  match l with
  | [] => inr []
  | raw :: rest =>
      match parse_part field low high raw with
      | inl e => inl e
      | inr values => match parse_parts field low high rest with inl e => inl e | inr more => inr (values ++ more) end
      end
  end.

(** [_parse_field] *)
Definition parse_field (field : string) (low high : Z) : CronError + list Z :=
  match parse_parts field low high (split_on ","%char field) with
  | inl e => inl e
  | inr [] => inl (MatchesNothing field)
  | inr values => if forallb (λ v, (low <=? v) && (v <=? high)) values then inr (zset values) else inl (ValueOutOfRange field)
  end.

(** [parse] *)
Definition parse (expression : string) : CronError + CronExpression :=
  match split_words expression with
  | [f0; f1; f2; f3; f4] =>
      match parse_field f0 0 59, parse_field f1 0 23, parse_field f2 1 31, parse_field f3 1 12, parse_field f4 0 7 with
      | inr minutes, inr hours, inr days, inr months, inr weekdays =>
          inr (mkCron expression minutes hours days months (zset ((λ v, v mod 7) <$> weekdays)))
      | inl e, _, _, _, _ => inl e
      | _, inl e, _, _, _ => inl e
      | _, _, inl e, _, _ => inl e
      | _, _, _, inl e, _ => inl e
      | _, _, _, _, inl e => inl e
      end
  | l => inl (WrongFieldCount (length l))
  end.

(** ** Matching *)

Definition minute_us : Z := 60000000.
Definition hour_us : Z := 3600000000.

Definition minute_of (t : Z) : Z := t / minute_us mod 60.
Definition hour_of (t : Z) : Z := t / hour_us mod 24.

(** [_day_matches] *)
Definition day_matches (c : CronExpression) (d : Z) : bool :=
  let dom_restricted := bool_decide (cron_days c ≠ seqZ 1 31) in
  let dow_restricted := bool_decide (cron_weekdays c ≠ seqZ 0 7) in
  let dom_match := bool_decide (day d ∈ cron_days c) in
  let dow_match := bool_decide ((weekday d + 1) mod 7 ∈ cron_weekdays c) in
  if dom_restricted && dow_restricted then dom_match || dow_match
  else if dom_restricted then dom_match
  else if dow_restricted then dow_match
  else true.

Definition matches (c : CronExpression) (t : Z) : bool :=
  if negb (bool_decide (minute_of t ∈ cron_minutes c)) || negb (bool_decide (hour_of t ∈ cron_hours c)) then false
  else if negb (bool_decide (month (dt_date t) ∈ cron_months c)) then false
  else day_matches c (dt_date t).

(** ** The next match *)

Inductive ScheduleExn := ScheduleOverflow | ScheduleParse (e : CronError).

(** The wall-clock times of a day, hours and minutes ascending. *)
Definition slots (c : CronExpression) (d : Z) : list Z :=
  concat ((λ h, (λ m, d * day_us + h * hour_us + m * minute_us) <$> cron_minutes c) <$> cron_hours c).

Fixpoint scan_days (fuel : nat) (c : CronExpression) (start d : Z) : ScheduleExn + option Z :=
  match fuel with
  | O => inr None
  | S fuel =>
      if negb (date_in_range d) then inl ScheduleOverflow
      else if negb (bool_decide (month d ∈ cron_months c)) || negb (day_matches c d) then scan_days fuel c start (d + 1)
      else match List.find (λ t, (start <=? t) && matches c t) (slots c d) with
           | Some t => inr (Some t)
           | None => scan_days fuel c start (d + 1)
           end
  end.

Definition MAX_DAYS : nat := 366.

(** [(local + timedelta(minutes=1)).replace(second=0, microsecond=0)] *)
Definition next_minute (local : Z) : Z := (local + minute_us) / minute_us * minute_us.

(** [next_after], on the wall clock of the zone. *)
Definition next_after (c : CronExpression) (local : Z) : ScheduleExn + option Z :=
  if negb (dt_in_range (local + minute_us)) then inl ScheduleOverflow
  else let start := next_minute local in scan_days (S MAX_DAYS) c start (dt_date start).

(** ** What is due *)

Inductive MissedSchedulePolicy := MISSED_SKIP | MISSED_CATCH_UP | MISSED_CATCH_UP_ALL.
#[export] Instance MissedSchedulePolicy_eq_dec : EqDecision MissedSchedulePolicy.
Proof. solve_decision. Defined.

Record Zone := mkZone {
  z_local : Z → Z;  (* the wall clock at an instant *)
  z_instant : Z → Z;  (* the instant a wall-clock time names *)
}.

(** The loop of [due]: wall-clock times matched one after the other. *)
Fixpoint missed_from (fuel : nat) (c : CronExpression) (z : Zone) (now local : Z) : ScheduleExn + list Z :=
  match fuel with
  | O => inr []
  | S fuel =>
      match next_after c local with
      | inl e => inl e
      | inr None => inr []
      | inr (Some next) =>
          if now <? z_instant z next then inr []
          else match missed_from fuel c z now next with inl e => inl e | inr rest => inr (next :: rest) end
      end
  end.

(** The policy applied to the missed times, as instants. *)
Definition apply_policy (policy : MissedSchedulePolicy) (tick_seconds : Z) (max_catch_up : nat) (now : Z) (missed : list Z)
    : list Z :=
  match last missed with
  | None => []
  | Some recent =>
      match policy with
      | MISSED_SKIP => if (now - recent) <=? tick_seconds * 1000000 then [recent] else []
      | MISSED_CATCH_UP => [recent]
      | MISSED_CATCH_UP_ALL => drop (length missed - max_catch_up) missed
      end
  end.

(** [due]; [anchor] is the trigger's last firing, if any. *)
Definition due (schedule : option string) (policy : MissedSchedulePolicy) (z : Zone) (tick_seconds : Z) (max_catch_up : nat)
    (now : Z) (anchor : option Z) : ScheduleExn + list Z :=
  match schedule with
  | None => inr []
  | Some expression =>
      match parse expression with
      | inl e => inl (ScheduleParse e)
      | inr c =>
          let anchor := default (now - tick_seconds * 1000000) anchor in
          match missed_from (max_catch_up * 4) c z now (z_local z anchor) with
          | inl e => inl e
          | inr missed => inr (apply_policy policy tick_seconds max_catch_up now (z_instant z <$> missed))
          end
      end
  end.

(** ** Well-formed expressions *)

Definition within (lo hi : Z) (l : list Z) : Prop := l ≠ [] ∧ StronglySorted Z.lt l ∧ Forall (λ v, lo ≤ v ≤ hi) l.

Record cron_wf (c : CronExpression) : Prop := {
  wf_minutes : within 0 59 (cron_minutes c);
  wf_hours : within 0 23 (cron_hours c);
  wf_days : within 1 31 (cron_days c);
  wf_months : within 1 12 (cron_months c);
  wf_weekdays : within 0 6 (cron_weekdays c);
}.

Lemma zset_elem l v : v ∈ zset l ↔ v ∈ l.
Proof. unfold zset. rewrite py_sort_perm. apply elem_of_remove_dups. Qed.

Lemma zset_sorted l : StronglySorted Z.lt (zset l).
Proof.
  assert (StronglySorted (λ a b, Z.leb a b = true) (zset l) ∧ NoDup (zset l)) as [Hs Hn].
  { split.
    - apply Sorted_StronglySorted; [intros a b c ? ?; lia|]. apply py_sort_sorted. intros a b. lia.
    - unfold zset. rewrite py_sort_perm. apply NoDup_remove_dups. }
  induction Hs as [|a l' Hs IH Ha]; [constructor|]. apply NoDup_cons in Hn as [Hna Hn]. constructor; [auto|].
  rewrite Forall_forall in *. intros x Hx. specialize (Ha x Hx). destruct (decide (a = x)) as [->|]; [done|lia].
Qed.

Lemma zset_within lo hi l : l ≠ [] → Forall (λ v, lo ≤ v ≤ hi) l → within lo hi (zset l).
Proof.
  intros Hne Hl. split_and!; [|apply zset_sorted|].
  - destruct l as [|x l]; [done|]. intros E. assert (x ∈ zset (x :: l)) as Hx by (apply zset_elem; left). rewrite E in Hx. set_solver.
  - rewrite Forall_forall in *. intros v Hv. apply Hl. by apply zset_elem.
Qed.

Lemma parse_field_within field lo hi l : parse_field field lo hi = inr l → within lo hi l.
Proof.
  unfold parse_field. destruct (parse_parts _ _ _ _) as [|[|v values]]; [done..|].
  destruct (forallb _ _) eqn:Hv; [|done]. intros [= <-]. apply zset_within; [done|].
  apply Forall_forall. intros x Hx. rewrite forallb_elem in Hv. specialize (Hv x Hx). lia.
Qed.

Lemma parse_wf expression c : parse expression = inr c → cron_wf c ∧ cron_expression c = expression.
Proof.
  unfold parse. destruct (split_words expression) as [|f0 [|f1 [|f2 [|f3 [|f4 [|? ?]]]]]]; try done.
  destruct (parse_field f0 0 59) eqn:H0; [by repeat case_match|]. destruct (parse_field f1 0 23) eqn:H1; [by repeat case_match|].
  destruct (parse_field f2 1 31) eqn:H2; [by repeat case_match|]. destruct (parse_field f3 1 12) eqn:H3; [by repeat case_match|].
  destruct (parse_field f4 0 7) as [|wd] eqn:H4; [done|]. intros [= <-]. split; [|done].
  apply parse_field_within in H0, H1, H2, H3, H4. split; simpl; try done. destruct H4 as (Hne & _ & _).
  apply zset_within; [by destruct wd|]. apply Forall_forall. intros x (v & -> & _)%list_elem_of_fmap. divs.
Qed.

(** C38: Parsing is the gate: an accepted expression has five non-empty fields, each
    a strictly ascending list of values of its range (Sunday is 0). *)
Theorem cron_parse_bounds expression c : parse expression = inr c → cron_wf c ∧ cron_expression c = expression.
Proof. apply parse_wf. Qed.

(** ** The search finds the first match *)

Definition on_minute (t : Z) : Prop := t mod minute_us = 0.

Lemma slot_parts d h m :
  0 ≤ h ≤ 23 → 0 ≤ m ≤ 59 → let t := d * day_us + h * hour_us + m * minute_us in
  dt_date t = d ∧ hour_of t = h ∧ minute_of t = m ∧ on_minute t.
Proof. intros Hh Hm t. unfold dt_date, hour_of, minute_of, on_minute, t, day_us, hour_us, minute_us. split_and!; divs. Qed.

Lemma slot_of t : on_minute t → t = dt_date t * day_us + hour_of t * hour_us + minute_of t * minute_us.
Proof. unfold on_minute, dt_date, hour_of, minute_of, day_us, hour_us, minute_us. intros. divs. Qed.

Lemma slots_elem c d t :
  cron_wf c → t ∈ slots c d ↔ on_minute t ∧ dt_date t = d ∧ hour_of t ∈ cron_hours c ∧ minute_of t ∈ cron_minutes c.
Proof.
  intros Hc. unfold slots. rewrite elem_of_concat. setoid_rewrite list_elem_of_fmap. split.
  - intros (l & Hl & h & -> & Hh). apply list_elem_of_fmap in Hl as (m & -> & Hm).
    destruct (wf_hours c Hc) as (_ & _ & Hhs). destruct (wf_minutes c Hc) as (_ & _ & Hms). rewrite Forall_forall in Hhs, Hms.
    destruct (slot_parts d h m (Hhs h Hh) (Hms m Hm)) as (-> & -> & -> & ?). done.
  - intros (Ht & <- & Hh & Hm). eexists. split; [|by exists (hour_of t)]. apply list_elem_of_fmap.
    exists (minute_of t). split; [|done]. by apply slot_of.
Qed.

Lemma sorted_app (l k : list Z) :
  StronglySorted Z.lt l → StronglySorted Z.lt k → (∀ x y, x ∈ l → y ∈ k → x < y) → StronglySorted Z.lt (l ++ k).
Proof.
  induction 1 as [|x l Hl IH Hx]; intros Hk Hlk; [done|]. simpl. constructor; [apply IH; [done|]; set_solver|].
  apply Forall_app. split; [done|]. apply Forall_forall. intros y Hy. apply Hlk; set_solver.
Qed.

Lemma sorted_fmap (f : Z → Z) l : (∀ x y, x < y → f x < f y) → StronglySorted Z.lt l → StronglySorted Z.lt (f <$> l).
Proof.
  intros Hf. induction 1 as [|x l Hl IH Hx]; simpl; constructor; [done|]. apply Forall_fmap.
  eapply Forall_impl; [exact Hx|]. intros y. apply Hf.
Qed.

Lemma slots_sorted c d : cron_wf c → StronglySorted Z.lt (slots c d).
Proof.
  intros Hc. destruct (wf_hours c Hc) as (_ & Hs & _). destruct (wf_minutes c Hc) as (_ & Hms & Hmb).
  unfold slots. induction Hs as [|h hs Hs IH Hh]; simpl; [constructor|].
  apply sorted_app; [apply sorted_fmap; [|done]; unfold minute_us; lia|done|].
  intros x y (m & -> & Hm)%list_elem_of_fmap (l & Hy & (h' & -> & Hh')%list_elem_of_fmap)%elem_of_concat.
  apply list_elem_of_fmap in Hy as (m' & -> & Hm'). rewrite Forall_forall in Hh, Hmb.
  specialize (Hh h' Hh'). pose proof (Hmb m Hm). pose proof (Hmb m' Hm'). unfold hour_us, minute_us. lia.
Qed.

(** The first element of an ascending list that passes a test is the least. *)
Lemma find_least (P : Z → bool) l :
  StronglySorted Z.lt l →
  match List.find P l with
  | Some x => x ∈ l ∧ P x = true ∧ ∀ y, y ∈ l → P y = true → x ≤ y
  | None => ∀ y, y ∈ l → P y = false
  end.
Proof.
  induction 1 as [|x l Hl IH Hx]; simpl; [set_solver|]. destruct (P x) eqn:HP.
  - split_and!; [left|done|]. intros y [->|Hy]%elem_of_cons ?; [lia|]. rewrite Forall_forall in Hx. specialize (Hx y Hy). lia.
  - destruct (List.find P l) as [z|].
    + destruct IH as (Hz & HPz & Hle). split_and!; [by right|done|]. intros y [->|Hy]%elem_of_cons HPy; [congruence|auto].
    + intros y [->|Hy]%elem_of_cons; [done|auto].
Qed.

Lemma matches_iff c t :
  matches c t = true ↔ minute_of t ∈ cron_minutes c ∧ hour_of t ∈ cron_hours c ∧ month (dt_date t) ∈ cron_months c ∧
    day_matches c (dt_date t) = true.
Proof.
  unfold matches. do 3 (case_bool_decide; simpl; [|naive_solver]). naive_solver.
Qed.

Lemma scan_days_spec fuel c start d :
  cron_wf c →
  match scan_days fuel c start d with
  | inl _ => ∃ d', d ≤ d' < d + Z.of_nat fuel ∧ date_in_range d' = false
  | inr (Some t) => on_minute t ∧ start ≤ t ∧ matches c t = true ∧ d ≤ dt_date t < d + Z.of_nat fuel ∧
      ∀ t', on_minute t' → start ≤ t' → d ≤ dt_date t' → matches c t' = true → t ≤ t'
  | inr None => ∀ t', on_minute t' → start ≤ t' → d ≤ dt_date t' < d + Z.of_nat fuel → matches c t' = false
  end.
Proof.
  intros Hc. revert d. induction fuel as [|fuel IH]; intros d; cbn [scan_days]; [intros; lia|].
  destruct (date_in_range d) eqn:Hr; simpl negb; cbv iota; [|exists d; split; [lia|done]].
  assert (∀ P : Prop, (∀ t', on_minute t' → start ≤ t' → dt_date t' = d → matches c t' = false) →
    match scan_days fuel c start (d + 1) with
    | inl _ => ∃ d', d ≤ d' < d + Z.of_nat (S fuel) ∧ date_in_range d' = false
    | inr (Some t) => on_minute t ∧ start ≤ t ∧ matches c t = true ∧ d ≤ dt_date t < d + Z.of_nat (S fuel) ∧
        ∀ t', on_minute t' → start ≤ t' → d ≤ dt_date t' → matches c t' = true → t ≤ t'
    | inr None => ∀ t', on_minute t' → start ≤ t' → d ≤ dt_date t' < d + Z.of_nat (S fuel) → matches c t' = false
    end) as Hnext.
  { intros _ Hnone. specialize (IH (d + 1)). destruct (scan_days fuel c start (d + 1)) as [e|[t|]].
    - destruct IH as (d' & ? & ?). exists d'. split; [lia|done].
    - destruct IH as (H1 & H2 & H3 & H4 & H5). split_and!; [done..|lia|lia|]. intros t' Ht' Hs Hd Hm.
      destruct (decide (dt_date t' = d)) as [E|]; [by rewrite (Hnone t') in Hm|]. apply H5; [done..|lia|done].
    - intros t' Ht' Hs Hd. destruct (decide (dt_date t' = d)) as [E|]; [by apply Hnone|]. apply IH; [done..|lia]. }
  destruct (negb (bool_decide (month d ∈ cron_months c)) || negb (day_matches c d)) eqn:Hday.
  { apply (Hnext True). intros t' _ _ E. apply not_true_iff_false. rewrite matches_iff, E.
    intros (_ & _ & Hm & Hd). rewrite Hd, bool_decide_eq_true_2 in Hday by done. done. }
  pose proof (find_least (λ t, (start <=? t) && matches c t) (slots c d) (slots_sorted c d Hc)) as Hfind.
  destruct (List.find _ _) as [t|].
  - destruct Hfind as (Ht & [Hs%Z.leb_le Hm]%andb_true_iff & Hleast). apply slots_elem in Ht as (Hon & Hd & _); [|done].
    split_and!; [done|done|done|lia|lia|]. intros t' Ht' Hs' Hd' Hm'. destruct (decide (dt_date t' = d)) as [E|].
    + apply Hleast; [|by apply andb_true_iff; split; [apply Z.leb_le|]]. apply matches_iff in Hm' as (? & ? & _ & _).
      by apply slots_elem.
    + unfold dt_date, day_us in *. divs.
  - apply (Hnext True). intros t' Ht' Hs' E. apply not_true_iff_false. intros Hm'.
    pose proof Hm' as (? & ? & _ & _)%matches_iff.
    assert (t' ∈ slots c d) as Hin by (by apply slots_elem). specialize (Hfind t' Hin). apply Z.leb_le in Hs'. simpl in Hfind.
    by rewrite Hs', Hm' in Hfind.
Qed.

Lemma next_minute_spec local :
  on_minute (next_minute local) ∧ local < next_minute local ∧ ∀ t, on_minute t → local < t → next_minute local ≤ t.
Proof. unfold on_minute, next_minute, minute_us. split_and!; [divs|divs|]. intros t ??. divs. Qed.

(** The search returns the first matching minute strictly after the given time,
    within 366 days, and no time only if there is none within 366 days. *)
Theorem cron_next_after_first c local :
  cron_wf c → dt_in_range local = true →
  match next_after c local with
  | inl _ => dt_in_range (local + 368 * day_us) = false
  | inr (Some t) => on_minute t ∧ local < t ∧ matches c t = true ∧
      ∀ t', on_minute t' → local < t' → matches c t' = true → t ≤ t'
  | inr None => ∀ t', on_minute t' → local < t' ≤ local + 366 * day_us → matches c t' = false
  end.
Proof.
  intros Hc Hlocal. unfold next_after. destruct (dt_in_range (local + minute_us)) eqn:Hr; cbn [negb].
  2: { unfold dt_in_range, dt_min, dt_max, minute_us, day_us in *. lia. }
  destruct (next_minute_spec local) as (Hon & Hlt & Hleast).
  pose proof (scan_days_spec (S MAX_DAYS) c (next_minute local) (dt_date (next_minute local)) Hc) as H.
  destruct (scan_days _ _ _ _) as [e|[t|]].
  - destruct H as (d & Hd & Hout). unfold date_in_range, date_min, date_max, dt_in_range, dt_min, dt_max in *.
    unfold next_minute, minute_us, dt_date, day_us, MAX_DAYS in *. divs.
  - destruct H as (H1 & H2 & H3 & H4 & H5). split_and!; [done|lia|done|]. intros t' Ht' Hl Hm.
    pose proof (Hleast t' Ht' Hl). apply H5; [done..| |done]. unfold dt_date, day_us. divs.
  - intros t' Ht' Hl. pose proof (Hleast t' Ht' ltac:(lia)). apply H; [done..|]. unfold dt_date, day_us, MAX_DAYS in *. divs.
Qed.

(** ** The schedule *)

Lemma next_after_Some c local t : cron_wf c → next_after c local = inr (Some t) → on_minute t ∧ local < t ∧ matches c t = true.
Proof.
  intros Hc. unfold next_after. destruct (dt_in_range (local + minute_us)); cbn [negb]; [|done].
  destruct (next_minute_spec local) as (_ & Hlt & _).
  pose proof (scan_days_spec (S MAX_DAYS) c (next_minute local) (dt_date (next_minute local)) Hc) as H.
  intros E. rewrite E in H. destruct H as (? & ? & ? & _). split_and!; [done|lia|done].
Qed.

Lemma missed_from_spec fuel c z now local l :
  cron_wf c → missed_from fuel c z now local = inr l →
  (length l ≤ fuel)%nat ∧ ∀ w, w ∈ l → on_minute w ∧ local < w ∧ matches c w = true ∧ z_instant z w ≤ now.
Proof.
  intros Hc. revert local l. induction fuel as [|fuel IH]; intros local l; cbn [missed_from];
    [intros [= <-]; split; [done|set_solver]|].
  destruct (next_after c local) as [e|[t|]] eqn:Hn; [done| |intros [= <-]; simpl; split; [lia|set_solver]].
  apply next_after_Some in Hn as (Hon & Hlt & Hm); [|done].
  destruct (now <? z_instant z t) eqn:Hnow; [intros [= <-]; simpl; split; [lia|set_solver]|].
  destruct (missed_from fuel c z now t) as [e|rest] eqn:Hrest; [done|]. intros [= <-].
  destruct (IH _ _ Hrest) as [Hlen Hrest']. split; [simpl; lia|].
  intros w [->|Hw]%elem_of_cons; [split_and!; [done..|lia]|].
  destruct (Hrest' w Hw) as (? & ? & ? & ?). split_and!; [done|lia|done|done].
Qed.

(** A backlog that fills the loop is the same at every later time. *)
Lemma missed_from_full fuel c z now now' local l :
  now ≤ now' → missed_from fuel c z now local = inr l → length l = fuel → missed_from fuel c z now' local = inr l.
Proof.
  intros Hle. revert local l. induction fuel as [|fuel IH]; intros local l; cbn [missed_from]; [done|].
  destruct (next_after c local) as [e|[t|]]; [done| |intros [= <-]; done].
  destruct (Z.ltb_spec now (z_instant z t)); [intros [= <-]; done|].
  destruct (missed_from fuel c z now t) as [e|rest] eqn:Hr; [done|]. intros [= <-] [= Hlen].
  destruct (Z.ltb_spec now' (z_instant z t)); [lia|]. by rewrite (IH _ _ Hr Hlen).
Qed.

(** What is due: matching wall-clock minutes after the last firing that have
    come, at most one of them unless the policy catches up on all, and then at
    most the configured number. *)
Theorem due_sound expression policy z tick max_catch_up now anchor l :
  due (Some expression) policy z tick max_catch_up now anchor = inr l →
  (length l ≤ match policy with MISSED_CATCH_UP_ALL => max_catch_up | _ => 1 end)%nat ∧
  ∃ c, parse expression = inr c ∧ ∀ t, t ∈ l → t ≤ now ∧
    ∃ w, t = z_instant z w ∧ on_minute w ∧ z_local z (default (now - tick * 1000000) anchor) < w ∧ matches c w = true.
Proof.
  unfold due. destruct (parse expression) as [e|c] eqn:Hp; [done|]. pose proof (parse_wf _ _ Hp) as [Hc _].
  destruct (missed_from _ _ _ _ _) as [e|missed] eqn:Hm; [done|]. intros [= <-].
  destruct (missed_from_spec _ _ _ _ _ _ Hc Hm) as [Hlen Hspec]. unfold apply_policy.
  assert (∀ t, t ∈ z_instant z <$> missed → t ≤ now ∧ ∃ w, t = z_instant z w ∧ on_minute w ∧
    z_local z (default (now - tick * 1000000) anchor) < w ∧ matches c w = true) as Hall.
  { intros t (w & -> & Hw)%list_elem_of_fmap. destruct (Hspec w Hw) as (? & ? & ? & ?). split; [done|]. by exists w. }
  destruct (last (z_instant z <$> missed)) as [recent|] eqn:Hlast; [|split; [simpl; lia|exists c; split; [done|set_solver]]].
  assert (recent ∈ z_instant z <$> missed) as Hin.
  { apply last_Some in Hlast as [l' ->]. set_solver. }
  destruct policy.
  - destruct (_ <=? _); (split; [simpl; lia|]); exists c; (split; [done|]); intros t Ht; [|set_solver].
    apply list_elem_of_singleton in Ht as ->. by apply Hall.
  - split; [simpl; lia|]. exists c. split; [done|]. intros t ->%list_elem_of_singleton. by apply Hall.
  - split; [rewrite length_drop; lia|]. exists c. split; [done|]. intros t Ht. apply Hall.
    apply list_elem_of_lookup in Ht as [i Hi]. rewrite lookup_drop in Hi. by eapply list_elem_of_lookup_2.
Qed.

(** The skip policy can stall: once an outage has left a backlog that fills the
    search loop with times older than a tick, nothing is due, and since nothing
    fires, nothing is ever due again. *)
Theorem skip_policy_stalls expression z tick max_catch_up now anchor c missed :
  parse expression = inr c → (0 < max_catch_up)%nat →
  missed_from (max_catch_up * 4) c z now (z_local z anchor) = inr missed →
  length missed = (max_catch_up * 4)%nat →
  due (Some expression) MISSED_SKIP z tick max_catch_up now (Some anchor) = inr [] →
  ∀ now', now ≤ now' → due (Some expression) MISSED_SKIP z tick max_catch_up now' (Some anchor) = inr [].
Proof.
  unfold due. intros -> Hmax Hm Hlen. simpl default. rewrite Hm. intros Hdue now' Hle.
  rewrite (missed_from_full _ _ _ _ _ _ _ Hle Hm Hlen). f_equal. injection Hdue as Hdue. unfold apply_policy in *.
  destruct (last (z_instant z <$> missed)) as [recent|]; [|done].
  destruct (Z.leb_spec (now - recent) (tick * 1000000)); [done|]. destruct (Z.leb_spec (now' - recent) (tick * 1000000)); [lia|done].
Qed.

(** ** Concrete schedules *)
Module Demo.

Definition utc : Zone := {| z_local := λ t, t; z_instant := λ t, t |}.

Definition first_of_month : CronExpression :=
  {| cron_expression := "30 9 1 * *"; cron_minutes := [30]; cron_hours := [9]; cron_days := [1];
     cron_months := seqZ 1 12; cron_weekdays := seqZ 0 7 |}.

Example parse_ok : parse "30 9 1 * *" = inr first_of_month.
Proof. vm_compute. reflexivity. Qed.

Example parse_steps :
  cron_minutes <$> (match parse "*/20,5-7 0 * * 5-7" with inr c => Some c | inl _ => None end) = Some [0; 5; 6; 7; 20; 40].
Proof. vm_compute. reflexivity. Qed.

Example parse_refused :
  parse "60 0 * * *" = inl (ValueOutOfRange "60") ∧ parse "* * * *" = inl (WrongFieldCount 4) ∧
  parse "5-1 * * * *" = inl (InvertedRange "5-1").
Proof. vm_compute. done. Qed.

(** From 31 January 1970, 12:00 to 1 February, 09:30. *)
Example next_ok : next_after first_of_month ((30 * 24 + 12) * hour_us) = inr (Some ((31 * 24 + 9) * hour_us + 30 * minute_us)).
Proof. vm_compute. reflexivity. Qed.

(** An hour without ticks stalls a trigger that fires every minute. *)
Definition minutely : string := "* * * * *".

Example minutely_stalls : due (Some minutely) MISSED_SKIP utc 60 10 hour_us (Some 0) = inr [].
Proof. vm_compute. reflexivity. Qed.

Example minutely_fires : due (Some minutely) MISSED_SKIP utc 60 10 (40 * minute_us) (Some 0) = inr [40 * minute_us].
Proof. vm_compute. reflexivity. Qed.
End Demo.

Lemma cron_parse_bounds_witness : cron_wf Demo.first_of_month.
Proof. apply (cron_parse_bounds "30 9 1 * *"). vm_compute. reflexivity. Defined.

(** The first match of 31 January, noon, comes no later than 1 March, 09:30. *)
Lemma cron_next_after_first_witness :
  matches Demo.first_of_month ((59 * 24 + 9) * hour_us + 30 * minute_us) = true ∧
  (31 * 24 + 9) * hour_us + 30 * minute_us ≤ (59 * 24 + 9) * hour_us + 30 * minute_us.
Proof.
  pose proof (cron_next_after_first Demo.first_of_month ((30 * 24 + 12) * hour_us)
    (proj1 (parse_wf "30 9 1 * *" _ Demo.parse_ok)) eq_refl) as H.
  rewrite Demo.next_ok in H. destruct H as (_ & _ & _ & Hfirst).
  split; [vm_compute; reflexivity|]. apply Hfirst; vm_compute; reflexivity.
Defined.

Lemma due_sound_witness : (length [(40 * minute_us)%Z] ≤ 1)%nat.
Proof. apply (due_sound Demo.minutely MISSED_SKIP Demo.utc 60 10 (40 * minute_us) (Some 0)). exact Demo.minutely_fires. Defined.

Lemma skip_policy_stalls_witness :
  due (Some Demo.minutely) MISSED_SKIP Demo.utc 60 10 (10 ^ 9 * hour_us) (Some 0) = inr [].
Proof.
  eapply (skip_policy_stalls Demo.minutely Demo.utc 60 10 hour_us 0); [vm_compute; reflexivity|lia|vm_compute; reflexivity| |
    exact Demo.minutely_stalls|unfold hour_us; lia].
  vm_compute. reflexivity.
Defined.
