(* ===== verification/Templates.v ===== *)
(** * Trigger templates ([triggers/templating.py])

    Value-only substitution of [event.*] paths into task fields, with byte
    limits.  Text is UTF-8 bytes; [str] of a float is a parameter.  Errors carry
    the message of [TemplateError]. *)

From Stdlib Require Import Ascii.
From stdpp Require Import base strings pretty numbers sets relations list.
From S2P Require Import Prelude Text Float64 CoreModels.

(** ** Placeholders *)

Inductive piece := Lit (c : ascii) | Place (body : list ascii).

Definition lbrace : ascii := "{"%char.
Definition rbrace : ascii := "}"%char.

Definition brace_free (c : ascii) : bool := negb (bool_decide (c = lbrace)) && negb (bool_decide (c = rbrace)).

(** The longest brace-free prefix, and the rest. *)
Fixpoint span_text (l : list ascii) : list ascii * list ascii :=
  match l with
  | c :: l' => if brace_free c then let '(a, b) := span_text l' in (c :: a, b) else ([], l)
  | [] => ([], [])
  end.

(** A match of the placeholder pattern at the start of the text. *)
Definition placeholder_at (l : list ascii) : option (list ascii * list ascii) :=
  match l with
  | a :: b :: l' =>
      if bool_decide (a = lbrace) && bool_decide (b = lbrace) then
        match span_text l' with
        | (body, c :: d :: rest) =>
            if bool_decide (c = rbrace) && bool_decide (d = rbrace) then Some (body, rest) else None
        | _ => None
        end
      else None
  | _ => None
  end.

(** The text cut at its placeholders, left to right; one round per character
    at most. *)
Fixpoint scan (fuel : nat) (l : list ascii) : list piece :=
  match fuel, l with
  | S fuel, c :: l' =>
      match placeholder_at l with
      | Some (body, rest) => Place body :: scan fuel rest
      | None => Lit c :: scan fuel l'
      end
  | _, _ => []
  end.

Definition pieces (template : string) : list piece :=
  let l := String.list_ascii_of_string template in scan (length l) l.

(** [template.count(cc)]: occurrences of a doubled character, not overlapping. *)
Fixpoint count_pairs (c : ascii) (l : list ascii) : nat :=
  match l with
  | a :: ((b :: l'') as l') => if bool_decide (a = c) && bool_decide (b = c) then S (count_pairs c l'') else count_pairs c l'
  | _ => O
  end.

Definition bodies (template : string) : list string :=
  omap (λ p, match p with Place b => Some (String.string_of_list_ascii b) | Lit _ => None end) (pieces template).

(** ** Validation *)

Definition letter (c : ascii) : bool :=
  let n := nat_of_ascii c in ((65 <=? n) && (n <=? 90) || (97 <=? n) && (n <=? 122))%nat.

Definition identifier (s : string) : bool :=
  match s with
  | String c s' => letter c && all_chars (λ c, letter c || is_digit c || bool_decide (c = "_"%char)) s'
  | EmptyString => false
  end.

(** [_validate_path]; the message of the error, if any. *)
Definition validate_path (path : string) : option string :=
  match split_on "."%char path with
  | event :: ((_ :: _) as segments) =>
      if negb (bool_decide (event = "event")) then Some ("template path must be 'event.<field>': " +:+ py_repr path)
      else match List.find (λ s, negb (identifier s)) segments with
           | Some s => Some ("invalid template path segment " +:+ py_repr s +:+ " in " +:+ py_repr path)
           | None => None
           end
  | _ => Some ("template path must be 'event.<field>': " +:+ py_repr path)
  end.

Fixpoint validate_paths (l : list string) : option string :=
  match l with
  | [] => None
  | p :: rest => match validate_path (strip p) with Some e => Some e | None => validate_paths rest end
  end.

(** [validate_template] *)
Definition validate_template (template : string) : option string :=
  let l := String.list_ascii_of_string template in
  if bool_decide (strip template = EmptyString) then None
  else if negb (count_pairs lbrace l =? count_pairs rbrace l)%nat
  then Some ("unbalanced placeholder braces in " +:+ py_repr template)
  else
    let paths := bodies template in
    if (0 <? count_pairs lbrace l)%nat && bool_decide (paths = [])
    then Some ("unbalanced or malformed placeholder in " +:+ py_repr template)
    else validate_paths paths.

(** ** Rendering *)

(** The path of a template that is one placeholder. *)
Definition whole (template : string) : option (list ascii) :=
  match placeholder_at (String.list_ascii_of_string (strip template)) with
  | Some (body, []) => Some body
  | _ => None
  end.

(** [_clean_path] *)
Definition clean_path (body : list ascii) : string + list string :=
  let path := String.string_of_list_ascii body in
  match split_on "."%char (strip path) with
  | event :: segments =>
      if bool_decide (event = "event") then inr (strip <$> segments)
      else inl ("template paths must start with 'event': " +:+ py_repr path)
  | [] => inl EmptyString
  end.

Fixpoint resolve_from (current : JsonValue) (segments : list string) : option JsonValue :=
  match segments with
  | [] => Some current
  | s :: rest => match current with JObj d => v ← od_get s d; resolve_from v rest | _ => None end
  end.

(** [_resolve] *)
Definition resolve (segments : list string) (event : odict string JsonValue) : string + JsonValue :=
  match resolve_from (JObj event) segments with
  | Some v => inr v
  | None => inl ("event has no field " +:+ py_repr (String.concat "." segments))
  end.

Section Rendering.
Variable float_str : f64 → string.

(** [_stringify] *)
Definition stringify (v : JsonValue) : string + string :=
  match v with
  | JObj _ | JList _ => inl "cannot embed a container value in a string template"
  | JNull => inr EmptyString
  | JBool b => inr (if b then "true" else "false")
  | JInt z => inr (pretty z)
  | JFloat x => inr (float_str x)
  | JStr s => inr s
  end.

Definition look_up (body : list ascii) (event : odict string JsonValue) : string + JsonValue :=
  match clean_path body with inl e => inl e | inr segments => resolve segments event end.

Fixpoint substitute (l : list piece) (event : odict string JsonValue) : string + string :=
  match l with
  | [] => inr EmptyString
  | Lit c :: rest => match substitute rest event with inl e => inl e | inr s => inr (String c s) end
  | Place body :: rest =>
      match look_up body event with
      | inl e => inl e
      | inr v =>
          match stringify v with
          | inl e => inl e
          | inr text => match substitute rest event with inl e => inl e | inr s => inr (text +:+ s) end
          end
      end
  end.

(** [render_template] *)
Definition render_template (template : string) (event : odict string JsonValue) : string + JsonValue :=
  match validate_template template with
  | Some e => inl e
  | None =>
      match whole template with
      | Some body => look_up body event
      | None => match substitute (pieces template) event with inl e => inl e | inr s => inr (JStr s) end
      end
  end.

(** [str(value)] of a JSON value, and [repr] of its parts. *)
Fixpoint json_repr (v : JsonValue) : string :=
  match v with
  | JNull => "None"
  | JBool b => if b then "True" else "False"
  | JInt z => pretty z
  | JFloat x => float_str x
  | JStr s => py_repr s
  | JList l => "[" +:+ String.concat ", " (json_repr <$> l) +:+ "]"
  | JObj d => "{" +:+ String.concat ", " ((λ e, py_repr e.1 +:+ ": " +:+ json_repr e.2) <$> d) +:+ "}"
  end.

Definition json_str (v : JsonValue) : string := match v with JStr s => s | _ => json_repr v end.

(** ** Sizes

    The length of [json.dumps(value, separators=(",", ":"))], which writes
    ASCII: a character beyond it becomes one escape of six characters, two
    beyond the basic plane. *)

Variable float_json : f64 → string.

Definition char_size (c : ascii) : Z :=
  let n := nat_of_ascii c in
  if bool_decide (n ∈ [34; 92; 8; 9; 10; 12; 13]) then 2
  else if (n <? 32)%nat || bool_decide (n = 127) then 6
  else if (n <? 127)%nat then 1
  else if (n <? 192)%nat then 0
  else if (n <? 240)%nat then 6 else 12.

Definition sum_Z (l : list Z) : Z := foldr Z.add 0%Z l.

Definition text_size (s : string) : Z := (2 + sum_Z (char_size <$> String.list_ascii_of_string s))%Z.

(** [_size] *)
Fixpoint json_size (v : JsonValue) : Z :=
  match v with
  | JNull => 4
  | JBool b => if b then 4 else 5
  | JInt z => Z.of_nat (String.length (pretty z))
  | JFloat x => Z.of_nat (String.length (float_json x))
  | JStr s => text_size s
  | JList l => 2 + sum_Z (json_size <$> l) + Z.of_nat (length l - 1)
  | JObj d => 2 + sum_Z ((λ e, text_size e.1 + 1 + json_size e.2)%Z <$> d) + Z.of_nat (length d - 1)
  end%Z.

(** [render_task]: [total] is the size of the fields rendered so far. *)
Fixpoint render_fields (mapping : odict string string) (event : odict string JsonValue) (max_field max_total total : Z)
    (task : odict string JsonValue) : string + odict string JsonValue :=
  match mapping with
  | [] => inr task
  | (field, template) :: rest =>
      match render_template template event with
      | inl e => inl e
      | inr v =>
          let size := json_size v in
          if (max_field <? size)%Z
          then inl ("rendered field " +:+ py_repr field +:+ " is " +:+ pretty size +:+ " bytes, over " +:+ pretty max_field)
          else if (max_total <? total + size)%Z then inl ("rendered task is over " +:+ pretty max_total +:+ " bytes")
          else render_fields rest event max_field max_total (total + size) (od_set field v task)
      end
  end.

Definition render_task (mapping : odict string string) (event : odict string JsonValue) (max_field max_total : Z)
    : string + odict string JsonValue := render_fields mapping event max_field max_total 0 [].

(** ** What rendering guarantees *)

Lemma render_fields_spec mapping event max_field max_total total task task' :
  render_fields mapping event max_field max_total total task = inr task' →
  od_wf mapping → (∀ f, f ∈ od_keys mapping → f ∉ od_keys task) →
  ∃ added, task' = task ++ added ∧ od_keys added = od_keys mapping ∧
    (∀ f v, (f, v) ∈ added → (json_size v ≤ max_field)%Z ∧ ∃ t, (f, t) ∈ mapping ∧ render_template t event = inr v) ∧
    (added = [] ∨ (total + sum_Z (json_size <$> od_values added) ≤ max_total)%Z).
Proof.
  revert total task. induction mapping as [|[field template] rest IH]; intros total task; cbn [render_fields].
  { intros [= <-] _ _. exists []. rewrite app_nil_r. split_and!; [done|done|set_solver|by left]. }
  destruct (render_template template event) as [e|v] eqn:Hv; [done|].
  destruct (Z.ltb_spec max_field (json_size v)); [done|]. destruct (Z.ltb_spec max_total (total + json_size v)); [done|].
  intros Hr Hwf Hfresh. unfold od_wf, od_keys in Hwf. simpl in Hwf. apply NoDup_cons in Hwf as [Hf Hwf].
  assert (od_set field v task = task ++ [(field, v)]) as Hset.
  { apply od_set_fresh. apply not_true_iff_false. rewrite od_mem_spec. apply Hfresh. left. }
  rewrite Hset in Hr. apply IH in Hr as (added & -> & Hk & Ha & Hs).
  - exists ((field, v) :: added). rewrite <-app_assoc. split_and!; [done|by unfold od_keys in *; simpl; f_equal| |].
    + intros f w [E|Hin]%elem_of_cons; [simplify_eq; split; [done|]; exists template; split; [left|done]|].
      destruct (Ha f w Hin) as (? & t & ? & ?). split; [done|]. exists t. split; [by right|done].
    + right. change (sum_Z (json_size <$> od_values ((field, v) :: added))) with (json_size v + sum_Z (json_size <$> od_values added))%Z.
      destruct Hs as [->|Hs]; [change (sum_Z _) with 0%Z|]; lia.
  - done.
  - intros f Hin. unfold od_keys. rewrite fmap_app. intros [Ht|Ht]%elem_of_app; [by apply (Hfresh f); [right|]|].
    apply list_elem_of_singleton in Ht as ->. done.
Qed.

(** A rendered task has exactly the template's fields, in order, each holding
    the value its template renders to; no field is over the field limit, and
    the task as a whole is within the total limit. *)
Theorem render_task_bounded mapping event max_field max_total task :
  od_wf mapping → render_task mapping event max_field max_total = inr task →
  od_keys task = od_keys mapping ∧
  (∀ f v, (f, v) ∈ task → (json_size v ≤ max_field)%Z ∧ ∃ t, (f, t) ∈ mapping ∧ render_template t event = inr v) ∧
  (task = [] ∨ (sum_Z (json_size <$> od_values task) ≤ max_total)%Z).
Proof.
  intros Hwf Hr. apply render_fields_spec in Hr as (added & -> & Hk & Ha & Hs); [|done|set_solver].
  done.
Qed.
End Rendering.

(** ** Concrete templates *)
Module Demo.

Definition event : odict string JsonValue := [("number", JInt 7); ("pr", JObj [("title", JStr "fix it")])].
Definition float_text (x : f64) : string := "0.0".

Example rendered :
  render_task float_text float_text [("n", "{{ event.number }}"); ("t", "PR {{event.number}}: {{ event.pr.title }}")] event 64 64
  = inr [("n", JInt 7); ("t", JStr "PR 7: fix it")].
Proof. vm_compute. reflexivity. Qed.

Example refused :
  render_template float_text "{{ event.pr }} x" event = inl "cannot embed a container value in a string template" ∧
  render_template float_text "{{ event.x }}" event = inl "event has no field 'x'" ∧
  render_template float_text "{{ os.system }}" event = inl "template path must be 'event.<field>': 'os.system'" ∧
  render_template float_text "{{ event.a }" event = inl "unbalanced placeholder braces in '{{ event.a }'".
Proof. vm_compute. done. Qed.

Example too_long :
  render_task float_text float_text [("t", "{{ event.pr.title }}")] event 7 64 = inl "rendered field 't' is 8 bytes, over 7".
Proof. vm_compute. reflexivity. Qed.
End Demo.

Lemma render_task_bounded_witness :
  ([("n", JInt 7)] = [] ∨ (sum_Z (json_size Demo.float_text <$> od_values [("n", JInt 7)]) ≤ 64)%Z).
Proof.
  apply (render_task_bounded Demo.float_text Demo.float_text [("n", "{{ event.number }}")] Demo.event 64 64).
  - apply NoDup_singleton.
  - vm_compute. reflexivity.
Defined.
