(* ===== verification/Guards.v ===== *)
(** * Runtime guards ([guards/])

    Circuit breakers, the context-window budget, the spend-velocity guard,
    retries with backoff, and the manager that runs the first two kinds of
    budget over a run's usage.  Clock readings are arguments, in the order the
    code takes them. *)

From stdpp Require Import base strings gmap numbers relations list.
From S2P Require Import Prelude Float64 Tenancy CoreModels.

(** ** Circuit breakers ([guards/breaker.py]) *)
Module Breaker.

Inductive BreakerState := CLOSED | OPEN | HALF_OPEN.

#[global] Instance BreakerState_eq_dec : EqDecision BreakerState.
Proof. solve_decision. Defined.

Record Breaker := mkBreaker {
  state : BreakerState;
  outcomes : list bool;
  opened_at : option Z;
  failure_rate : f64;
}.

Definition fresh : Breaker :=
  {| state := CLOSED; outcomes := []; opened_at := None; failure_rate := f64_zero |}.

(** The public snapshot, [CircuitBreaker]. *)
Record CircuitBreaker := mkCircuitBreaker {
  cb_scope : string; cb_scope_id : string; cb_state : BreakerState; cb_failure_rate : f64;
  cb_opened_at : option Z; cb_updated_at : Z }.

Record Config := mkConfig {
  failure_threshold : f64;
  min_calls : nat;
  open_for : Z; (* microseconds *)
  window : nat;
}.

Abbreviation Registry := (gmap (string * string) Breaker).

Inductive BreakerExn := ZeroDivisionError | ValidationError.

Section Ops.
Variable cfg : Config.
Implicit Types (scope scope_id : string) (r : Registry).

(** [self._breakers.setdefault(key, _Breaker())]. *)
Definition breaker scope scope_id r : Breaker * Registry :=
  match r !! (scope, scope_id) with
  | Some b => (b, r)
  | None => (fresh, <[(scope, scope_id) := fresh]> r)
  end.

Definition get_state scope scope_id r : BreakerState * Registry :=
  let '(b, r1) := breaker scope scope_id r in (state b, r1).

(** [allow]; [now1] is only read when the opening time is unknown. *)
Definition allow (now1 now2 : Z) scope scope_id r : bool * Registry :=
  let '(b, r1) := breaker scope scope_id r in
  match state b with
  | CLOSED => (true, r1)
  | OPEN =>
      let opened := default now1 (opened_at b) in
      if (open_for cfg <=? now2 - opened)%Z
      then (true, <[(scope, scope_id) :=
              {| state := HALF_OPEN; outcomes := outcomes b; opened_at := opened_at b;
                 failure_rate := failure_rate b |}]> r1)
      else (false, r1)
  | HALF_OPEN => (false, r1)
  end.

Definition snapshot_of scope scope_id (b : Breaker) (now : Z) : outcome BreakerExn CircuitBreaker :=
  if bool_decide (scope ∈ ["tool"; "workload"]) && bool_decide (scope_id ≠ EmptyString)
     && f64_leb f64_zero (failure_rate b) && f64_leb (failure_rate b) (f64_lit 1 1)
  then Ret {| cb_scope := scope; cb_scope_id := scope_id; cb_state := state b;
              cb_failure_rate := failure_rate b; cb_opened_at := opened_at b; cb_updated_at := now |}
  else Raise ValidationError.

(** [while len(outcomes) > window: outcomes.popleft()]. *)
Definition trim (l : list bool) : list bool := drop (length l - window cfg) l.

Definition failures (l : list bool) : nat := length (filter (λ ok, ok = false) l).

Definition record (now : Z) scope scope_id (success : bool) r
    : outcome BreakerExn CircuitBreaker * Registry :=
  let '(b, r1) := breaker scope scope_id r in
  let store b' := <[(scope, scope_id) := b']> r1 in
  match state b with
  | HALF_OPEN =>
      let b' := {| state := if success then CLOSED else OPEN; outcomes := [];
                   opened_at := if success then None else Some now;
                   failure_rate := if success then f64_zero else f64_lit 1 1 |} in
      (snapshot_of scope scope_id b' now, store b')
  | _ =>
      let outs := trim (outcomes b ++ [success]) in
      if bool_decide (outs = []) then
        (Raise ZeroDivisionError,
         store {| state := state b; outcomes := outs; opened_at := opened_at b;
                  failure_rate := failure_rate b |})
      else
        let rate := int_truediv (Z.of_nat (failures outs)) (Z.of_nat (length outs)) in
        let trips := (min_calls cfg <=? length outs)%nat && f64_leb (failure_threshold cfg) rate in
        let b' := {| state := if trips then OPEN else state b; outcomes := outs;
                     opened_at := if trips then Some now else opened_at b;
                     failure_rate := rate |} in
        (snapshot_of scope scope_id b' now, store b')
  end.

(** The public read; it still creates a missing breaker. *)
Definition snapshot (now : Z) scope scope_id r : outcome BreakerExn CircuitBreaker * Registry :=
  let '(b, r1) := breaker scope scope_id r in (snapshot_of scope scope_id b now, r1).

(** *** Invariant *)

(** A closed breaker has no opening time, the others have one, and the outcome
    window is bounded. *)
Definition breaker_inv (b : Breaker) : Prop :=
  (state b = CLOSED ↔ opened_at b = None) ∧ (length (outcomes b) ≤ window cfg)%nat.

Definition registry_inv r : Prop := map_Forall (λ _, breaker_inv) r.

Inductive step : Registry → Registry → Prop :=
  | st_allow now1 now2 scope scope_id r : step r (allow now1 now2 scope scope_id r).2
  | st_record now scope scope_id success r : step r (record now scope scope_id success r).2
  | st_snapshot now scope scope_id r : step r (snapshot now scope scope_id r).2
  | st_state scope scope_id r : step r (get_state scope scope_id r).2.

Lemma fresh_inv : breaker_inv fresh.
Proof. split; simpl; [done|lia]. Qed.

Lemma breaker_spec scope scope_id r :
  registry_inv r →
  ∃ b r1, breaker scope scope_id r = (b, r1) ∧ registry_inv r1 ∧ breaker_inv b ∧
    r1 !! (scope, scope_id) = Some b ∧ (∀ k, k ≠ (scope, scope_id) → r1 !! k = r !! k).
Proof.
  intros Hr. unfold breaker. destruct (r !! (scope, scope_id)) as [b|] eqn:Hb.
  - exists b, r. split_and!; try done. by apply (Hr _ _ Hb).
  - eexists _, _. split; [done|]. split_and!.
    + apply map_Forall_insert_2; [apply fresh_inv|done].
    + apply fresh_inv.
    + by rewrite lookup_insert_eq.
    + intros k Hk. by rewrite lookup_insert_ne by done.
Qed.

Lemma trim_length l : (length (trim l) ≤ window cfg)%nat.
Proof. unfold trim. rewrite length_drop. lia. Qed.

Lemma allow_inv now1 now2 scope scope_id r : registry_inv r → registry_inv (allow now1 now2 scope scope_id r).2.
Proof.
  intros Hr. unfold allow. destruct (breaker_spec scope scope_id r Hr) as (b & r1 & -> & Hr1 & [Hb Hl] & _).
  destruct (state b) eqn:Hs; simpl; [done| |done].
  destruct (_ <=? _)%Z; simpl; [|done]. apply map_Forall_insert_2; [|done].
  split; simpl; [|done]. split; [done|]. intros Hn. apply Hb in Hn. done.
Qed.

Lemma record_inv now scope scope_id success r :
  registry_inv r → registry_inv (record now scope scope_id success r).2.
Proof.
  intros Hr. unfold record. destruct (breaker_spec scope scope_id r Hr) as (b & r1 & -> & Hr1 & [Hb Hl] & _).
  destruct (state b) eqn:Hs; simpl; try case_bool_decide; simpl; apply map_Forall_insert_2; try done;
    (split; simpl; [|by apply trim_length || lia]).
  all: try (destruct success; done).
  all: destruct (_ && _); done.
Qed.

Lemma breaker_step_inv r r' : step r r' → registry_inv r → registry_inv r'.
Proof.
  destruct 1; intros Hr; auto using allow_inv, record_inv.
  - unfold snapshot. by destruct (breaker_spec scope scope_id r Hr) as (? & ? & -> & ? & _).
  - unfold get_state. by destruct (breaker_spec scope scope_id r Hr) as (? & ? & -> & ? & _).
Qed.

(** In every reachable registry each breaker has an opening time exactly
    when it is not closed, and remembers at most [window] outcomes. *)
Theorem breaker_invariant r : rtc step ∅ r → registry_inv r.
Proof.
  intros H. assert (registry_inv ∅) as H0 by apply map_Forall_empty. revert H0.
  induction H as [|x y z Hs _ IH]; [done|]. intros Hx. by apply IH, (breaker_step_inv x).
Qed.

(** *** Behaviour of one breaker *)

(** A series of [allow] calls on one breaker, at arbitrary times. *)
Fixpoint allow_many (times : list (Z * Z)) scope scope_id r : list bool * Registry :=
  match times with
  | [] => ([], r)
  | (now1, now2) :: rest =>
      let '(ok, r1) := allow now1 now2 scope scope_id r in
      let '(oks, r2) := allow_many rest scope scope_id r1 in (ok :: oks, r2)
  end.

Lemma allow_half_open now1 now2 scope scope_id r b :
  r !! (scope, scope_id) = Some b → state b = HALF_OPEN →
  allow now1 now2 scope scope_id r = (false, r).
Proof. intros Hb Hs. unfold allow, breaker. by rewrite Hb, Hs. Qed.

Lemma allow_many_half_open times scope scope_id r b :
  r !! (scope, scope_id) = Some b → state b = HALF_OPEN →
  allow_many times scope scope_id r = (replicate (length times) false, r).
Proof.
  intros Hb Hs. induction times as [|[n1 n2] times IH]; simpl; [done|].
  by rewrite (allow_half_open _ _ _ _ _ b), IH.
Qed.

(** A half-open breaker refuses every call, at any time, until an outcome is
    recorded: there is no timeout on the probe. *)
Theorem breaker_half_open_blocks times scope scope_id r b :
  r !! (scope, scope_id) = Some b → state b = HALF_OPEN →
  allow_many times scope scope_id r = (replicate (length times) false, r).
Proof. apply allow_many_half_open. Qed.

(** An open breaker refuses calls until its cool-down has elapsed, then lets
    exactly one probe through, after which every further call is refused. *)
Theorem breaker_single_probe now1 now2 times scope scope_id r b t :
  r !! (scope, scope_id) = Some b → state b = OPEN → opened_at b = Some t →
  if (open_for cfg <=? now2 - t)%Z
  then ∃ r', allow now1 now2 scope scope_id r = (true, r') ∧
         (∀ k, k ≠ (scope, scope_id) → r' !! k = r !! k) ∧
         allow_many times scope scope_id r' = (replicate (length times) false, r')
  else allow now1 now2 scope scope_id r = (false, r).
Proof.
  intros Hb Hs Ht. unfold allow, breaker. rewrite Hb, Hs, Ht. simpl.
  destruct (_ <=? _)%Z; [|done]. eexists. split; [done|]. split.
  - intros k Hk. by rewrite lookup_insert_ne by done.
  - by eapply allow_many_half_open; [apply lookup_insert_eq|].
Qed.

(** The probe's outcome decides: success closes the breaker, forgets the
    failures and lets calls through again; failure reopens it for a full
    cool-down from the time of the failure. *)
Theorem breaker_probe_outcome now success scope scope_id r b now1 now2 :
  r !! (scope, scope_id) = Some b → state b = HALF_OPEN →
  let r' := (record now scope scope_id success r).2 in
  if success
  then r' !! (scope, scope_id) = Some fresh ∧ (allow now1 now2 scope scope_id r').1 = true
  else (∃ b', r' !! (scope, scope_id) = Some b' ∧ state b' = OPEN ∧ opened_at b' = Some now) ∧
       ((now2 - now < open_for cfg)%Z → (allow now1 now2 scope scope_id r').1 = false).
Proof.
  intros Hb Hs. unfold record, breaker. rewrite Hb, Hs. destruct success; simpl.
  - rewrite lookup_insert_eq. split; [done|]. unfold allow, breaker. by rewrite lookup_insert_eq.
  - rewrite lookup_insert_eq. split; [by eexists|]. intros Hlt. unfold allow, breaker.
    rewrite lookup_insert_eq. simpl. by replace (open_for cfg <=? now2 - now)%Z with false by (symmetry; apply Z.leb_gt; lia).
Qed.

(** A closed breaker trips exactly when, with the new outcome counted and
    the window trimmed, enough calls are remembered and their failure rate
    reaches the threshold; a positive window never divides by zero. *)
Theorem breaker_trips_iff now success scope scope_id r b :
  (0 < window cfg)%nat →
  r !! (scope, scope_id) = Some b → state b = CLOSED →
  let outs := trim (outcomes b ++ [success]) in
  ∃ b', (record now scope scope_id success r).2 !! (scope, scope_id) = Some b' ∧ outcomes b' = outs ∧
    failure_rate b' = int_truediv (Z.of_nat (failures outs)) (Z.of_nat (length outs)) ∧
    (state b' = OPEN ↔ (min_calls cfg ≤ length outs)%nat ∧ f64_leb (failure_threshold cfg) (failure_rate b') = true) ∧
    (record now scope scope_id success r).1 ≠ Raise ZeroDivisionError.
Proof.
  intros Hw Hb Hs. simpl. unfold record, breaker. rewrite Hb, Hs.
  set (outs := trim (outcomes b ++ [success])).
  assert (outs ≠ []) as Hne.
  { intros Hn. apply (f_equal length) in Hn. unfold outs, trim in Hn. rewrite length_drop, length_app in Hn.
    simpl in Hn. lia. }
  rewrite bool_decide_false by done. simpl. rewrite lookup_insert_eq. eexists. split; [done|]. simpl.
  split_and!; [done|done| |].
  - destruct (_ <=? length outs)%nat eqn:Hm; simpl.
    + apply Nat.leb_le in Hm. destruct (f64_leb _ _); [tauto|]. split; [done|]. by intros [_ ?].
    + apply Nat.leb_gt in Hm. split; [done|]. intros [? _]. lia.
  - unfold snapshot_of. by destruct (_ && _).
Qed.
End Ops.

Definition demo_cfg : Config :=
  {| failure_threshold := f64_lit 1 2; min_calls := 2; open_for := 30000000; window := 20 |}.

Definition demo_open : Registry :=
  (record demo_cfg 20 "tool" "t" false (record demo_cfg 10 "tool" "t" false ∅).2).2.

Definition demo_half : Registry := (allow demo_cfg 0 40000000 "tool" "t" demo_open).2.

Lemma breaker_invariant_witness : registry_inv demo_cfg demo_half.
Proof.
  apply breaker_invariant.
  eapply rtc_l; [apply (st_record _ 10 "tool" "t" false)|].
  eapply rtc_l; [apply (st_record _ 20 "tool" "t" false)|].
  eapply rtc_l; [apply (st_allow _ 0 40000000 "tool" "t")|apply rtc_refl].
Defined.

Lemma breaker_half_open_blocks_witness :
  allow_many demo_cfg [(50000000, 50000000); (9000000000, 9000000000)]%Z "tool" "t" demo_half
  = ([false; false], demo_half).
Proof.
  apply (breaker_half_open_blocks demo_cfg [(50000000, 50000000); (9000000000, 9000000000)]%Z "tool" "t" demo_half
    {| state := HALF_OPEN; outcomes := [false; false]; opened_at := Some 20%Z; failure_rate := f64_lit 1 1 |});
    vm_compute; reflexivity.
Defined.

Lemma breaker_single_probe_witness :
  ∃ r', allow demo_cfg 0 40000000 "tool" "t" demo_open = (true, r') ∧
    (∀ k, k ≠ ("tool", "t") → r' !! k = demo_open !! k) ∧
    allow_many demo_cfg [(50000000, 50000000)]%Z "tool" "t" r' = ([false], r').
Proof.
  apply (breaker_single_probe demo_cfg 0 40000000 [(50000000, 50000000)]%Z "tool" "t" demo_open
    {| state := OPEN; outcomes := [false; false]; opened_at := Some 20%Z; failure_rate := f64_lit 1 1 |} 20);
    vm_compute; reflexivity.
Defined.

Lemma breaker_probe_outcome_witness :
  (record demo_cfg 41000000 "tool" "t" true demo_half).2 !! ("tool", "t") = Some fresh.
Proof.
  apply (breaker_probe_outcome demo_cfg 41000000 true "tool" "t" demo_half
    {| state := HALF_OPEN; outcomes := [false; false]; opened_at := Some 20%Z; failure_rate := f64_lit 1 1 |} 0 0);
    vm_compute; reflexivity.
Defined.

Lemma breaker_trips_iff_witness :
  ∃ b', (record demo_cfg 20 "tool" "t" false (record demo_cfg 10 "tool" "t" false ∅).2).2 !! ("tool", "t") = Some b' ∧
    outcomes b' = [false; false].
Proof.
  destruct (breaker_trips_iff demo_cfg 20 false "tool" "t" (record demo_cfg 10 "tool" "t" false ∅).2
    {| state := CLOSED; outcomes := [false]; opened_at := None; failure_rate := f64_lit 1 1 |})
    as (b' & H1 & H2 & _); [vm_compute; lia|vm_compute; reflexivity|reflexivity|].
  exists b'. split; [exact H1|exact H2].
Defined.
End Breaker.

(** ** Guard records ([guards/models.py]) *)

Inductive GuardKind := GK_CONTEXT | GK_VELOCITY | GK_RETRY | GK_BREAKER.

Inductive GuardAction := GA_PAUSE | GA_DENY | GA_THROTTLE | GA_ALLOW.

Inductive GuardExn := GValidationError | GOverflowError | GValueError | GZeroDivisionError.

Record GuardEvent := mkGuardEvent {
  ge_event_id : string; ge_guard : GuardKind; ge_action : GuardAction; ge_reason : string;
  ge_rule_id : string; ge_workload_id : string; ge_run_id : option string; ge_tool_id : option string;
  ge_observed : list (string * JsonValue); ge_threshold : list (string * JsonValue);
  ge_created_at : Z; ge_tenant_id : string }.

(** ** The context-window budget ([guards/context.py]) *)
Module Context.

Record ContextAccount := mkAccount {
  ca_run_id : string; ca_step : Z; ca_model_identity : string; ca_input_tokens : Z;
  ca_output_tokens : Z; ca_context_total : Z; ca_recorded_at : Z }.

Record ContextBreach := mkBreach {
  cbr_run_id : string; cbr_used : Z; cbr_limit : Z; cbr_step : Z; cbr_model_identity : string;
  cbr_rule_id : string; cbr_reason : string }.

Record t := mk { accounts_of : gmap string (list ContextAccount); totals_of : gmap string Z }.

Definition empty : t := {| accounts_of := ∅; totals_of := ∅ |}.

Definition total (run : string) (g : t) : Z := default 0%Z (totals_of g !! run).

Definition accounts (run : string) (g : t) : list ContextAccount := default [] (accounts_of g !! run).

(** The total is stored before the account is validated. *)
Definition record (now : Z) (run : string) (step : Z) (model_identity : string)
    (input_tokens output_tokens : Z) (g : t) : outcome GuardExn ContextAccount * t :=
  let tot := (total run g + input_tokens + output_tokens)%Z in
  let g1 := {| accounts_of := accounts_of g; totals_of := <[run := tot]> (totals_of g) |} in
  let account := {| ca_run_id := run; ca_step := step; ca_model_identity := model_identity;
                    ca_input_tokens := input_tokens; ca_output_tokens := output_tokens;
                    ca_context_total := tot; ca_recorded_at := now |} in
  if bool_decide (run ≠ EmptyString) && (0 <=? step)%Z && (0 <=? input_tokens)%Z
     && (0 <=? output_tokens)%Z && (0 <=? tot)%Z
  then (Ret account,
        {| accounts_of := <[run := accounts run g ++ [account]]> (accounts_of g1);
           totals_of := totals_of g1 |})
  else (Raise GValidationError, g1).

Definition release (run : string) (g : t) : t :=
  {| accounts_of := delete run (accounts_of g); totals_of := delete run (totals_of g) |}.

(** [warn_at] is accepted and not read. *)
Definition check (run : string) (limit : Z) (warn_at : f64) (g : t) : outcome GuardExn (option ContextBreach) :=
  let used := total run g in
  if (used <=? limit)%Z then Ret None
  else
    let lst := last (accounts run g) in
    let step := from_option ca_step 0%Z lst in
    if bool_decide (run ≠ EmptyString) && (0 <=? used)%Z && (0 <=? limit)%Z && (0 <=? step)%Z
    then Ret (Some {| cbr_run_id := run; cbr_used := used; cbr_limit := limit; cbr_step := step;
                      cbr_model_identity := from_option ca_model_identity "unspecified" lst;
                      cbr_rule_id := "guard.context"; cbr_reason := "context budget exceeded" |})
    else Raise GValidationError.

(** [limit * warn_at] converts the limit to a float; comparing the integer total
    with it is exact. *)
Definition is_warning (run : string) (limit : Z) (warn_at : f64) (g : t) : bool :=
  let used := total run g in
  (0 <? limit)%Z && f64_leb_Z (f64_mul (f64_of_Z limit) warn_at) used && (used <=? limit)%Z.

(** *** The running total is the sum of the accounts *)

Definition tokens (a : ContextAccount) : Z := (ca_input_tokens a + ca_output_tokens a)%Z.

Definition sum_tokens (l : list ContextAccount) : Z := foldr (λ a s, (tokens a + s)%Z) 0%Z l.

(** Every account of the list carries the sum up to and including itself. *)
Definition running (l : list ContextAccount) : Prop :=
  ∀ i a, l !! i = Some a → ca_context_total a = sum_tokens (take (S i) l).

Definition run_inv (run : string) (g : t) : Prop :=
  total run g = sum_tokens (accounts run g) ∧ running (accounts run g).

Definition inv (g : t) : Prop := ∀ run, run_inv run g.

Inductive step : t → t → Prop :=
  | st_record now run stp model i o g a g' :
      record now run stp model i o g = (Ret a, g') → step g g'
  | st_release run g : step g (release run g).

Lemma sum_tokens_app l1 l2 : sum_tokens (l1 ++ l2) = (sum_tokens l1 + sum_tokens l2)%Z.
Proof. induction l1; simpl; lia. Qed.

Lemma running_snoc l a :
  running l → ca_context_total a = (sum_tokens l + tokens a)%Z → running (l ++ [a]).
Proof.
  intros Hl Ha i b Hb. apply lookup_app_Some in Hb as [Hb|[Hge Hb]].
  - rewrite (Hl i b Hb). rewrite take_app_le; [done|]. apply lookup_lt_Some in Hb. lia.
  - apply list_lookup_singleton_Some in Hb as [Hi <-].
    rewrite take_ge by (rewrite length_app; simpl; lia).
    rewrite sum_tokens_app. simpl. lia.
Qed.

Lemma record_ok now run stp model i o g a g' :
  record now run stp model i o g = (Ret a, g') →
  accounts run g' = accounts run g ++ [a] ∧ total run g' = (total run g + i + o)%Z ∧
  ca_context_total a = (total run g + i + o)%Z ∧ tokens a = (i + o)%Z ∧ ca_step a = stp ∧
  (∀ r, r ≠ run → accounts r g' = accounts r g ∧ total r g' = total r g).
Proof.
  unfold record. destruct (_ && _); [|done]. intros [= <- <-]. unfold accounts, total; simpl.
  rewrite !lookup_insert_eq. split_and!; try done. intros r Hr. by rewrite !lookup_insert_ne by done.
Qed.

Lemma context_step_inv g g' : step g g' → inv g → inv g'.
Proof.
  destruct 1 as [now run stp model i o g a g' Hr|run g]; intros Hg r.
  - apply record_ok in Hr as (Ha & Ht & Hc & Hk & _ & Ho). destruct (decide (r = run)) as [->|Hne].
    + destruct (Hg run) as [Hs Hrun]. split.
      * rewrite Ha, Ht, sum_tokens_app, Hs. simpl. lia.
      * rewrite Ha. apply running_snoc; [done|]. rewrite Hc, Hs, Hk. lia.
    + unfold run_inv. destruct (Ho r Hne) as [-> ->]. apply Hg.
  - destruct (decide (r = run)) as [->|Hne].
    + unfold run_inv, total, accounts. simpl. rewrite !lookup_delete_eq. by split.
    + unfold run_inv, total, accounts. simpl. rewrite !lookup_delete_ne by done. apply Hg.
Qed.

Lemma context_reachable_inv g : rtc step empty g → inv g.
Proof.
  intros H. assert (inv empty) as H0 by (intros r; by split). revert H0.
  induction H as [|x y z Hs _ IH]; [done|]. intros Hx. by apply IH, (context_step_inv x).
Qed.

(** The check, given the total and the last account's step. *)
Lemma check_cases run limit warn_at g :
  run ≠ EmptyString → (0 ≤ limit)%Z → (0 ≤ from_option ca_step 0%Z (last (accounts run g)))%Z →
  if decide (limit < total run g)%Z
  then ∃ b, check run limit warn_at g = Ret (Some b) ∧ cbr_used b = total run g ∧ cbr_limit b = limit
  else check run limit warn_at g = Ret None.
Proof.
  intros Hne Hl Hstep. unfold check. case_decide as Hd.
  - replace (_ <=? limit)%Z with false by (symmetry; apply Z.leb_gt; lia).
    rewrite bool_decide_true by done. simpl. rewrite !(proj2 (Z.leb_le _ _)) by lia. simpl. eauto.
  - by replace (_ <=? limit)%Z with true by (symmetry; apply Z.leb_le; lia).
Qed.

(** After any sequence of recorded model calls and releases, a run breaches
    its context budget exactly when the tokens of its recorded accounts exceed
    the limit, and the breach reports that sum; releasing a run resets it
    without touching the others. *)
Theorem context_breach_iff g run limit warn_at :
  rtc step empty g → run ≠ EmptyString → (0 ≤ limit)%Z →
  (∀ a, a ∈ accounts run g → (0 ≤ ca_step a)%Z) →
  (if decide (limit < sum_tokens (accounts run g))%Z
   then ∃ b, check run limit warn_at g = Ret (Some b) ∧ cbr_used b = sum_tokens (accounts run g) ∧
             cbr_limit b = limit
   else check run limit warn_at g = Ret None) ∧
  check run limit warn_at (release run g) = Ret None ∧
  (∀ r, r ≠ run → total r (release run g) = total r g).
Proof.
  intros Hg Hne Hl Hst. destruct (context_reachable_inv g Hg run) as [Hs _]. split; [|split].
  - rewrite <-Hs. apply check_cases; [done|done|].
    destruct (last (accounts run g)) as [a|] eqn:Ha; simpl; [|lia]. apply Hst. by apply last_Some_elem_of.
  - unfold check, release, total; simpl. rewrite lookup_delete_eq. simpl.
    by replace (0 <=? limit)%Z with true by (symmetry; apply Z.leb_le; lia).
  - intros r Hr. unfold release, total; simpl. by rewrite lookup_delete_ne by done.
Qed.

Definition demo : t := (record 5 "r1" 1 "m" 30 40 (record 4 "r1" 0 "m" 10 20 empty).2).2.

Lemma context_breach_iff_witness :
  ∃ b, check "r1" 99 (f64_lit 8 10) demo = Ret (Some b) ∧ cbr_used b = 100%Z.
Proof.
  destruct (context_breach_iff demo "r1" 99 (f64_lit 8 10)) as [(b & Hb & Hu & _) _].
  - eapply rtc_l; [eapply (st_record 4 "r1" 0 "m" 10 20); vm_compute; reflexivity|].
    eapply rtc_l; [eapply (st_record 5 "r1" 1 "m" 30 40); vm_compute; reflexivity|apply rtc_refl].
  - done.
  - lia.
  - intros a Ha. unfold accounts, demo in Ha. vm_compute in Ha.
    repeat (apply elem_of_cons in Ha as [->|Ha]; [vm_compute; congruence|]). by apply elem_of_nil in Ha.
  - exists b. split; [exact Hb|]. rewrite Hu. vm_compute. reflexivity.
Defined.
End Context.

(** ** The spend-velocity guard ([guards/velocity.py]) *)
Module Velocity.

Record VelocityEvent := mkEvent { ve_workload : string; ve_cost_usd : f64; ve_at : Z }.

Record VelocityBreach := mkBreach {
  vb_workload : string; vb_spent_usd : f64; vb_limit_usd : f64; vb_window_seconds : Z;
  vb_multiplier : option f64; vb_baseline_usd : option f64; vb_rate_per_minute : f64;
  vb_projected_exhaustion_seconds : option Z; vb_rule_id : string; vb_reason : string }.

(** The guard's [_events], and the retention given at construction. *)
Record t := mk { events : gmap string (list VelocityEvent); retention_seconds : Z }.

(** [now - timedelta(seconds=s)]; a span or a result out of range raises. *)
Definition sub_seconds (now s : Z) : outcome GuardExn Z :=
  let r := (now - s * 1000000)%Z in
  if dt_in_range r then Ret r else Raise GOverflowError.

Definition recent (cutoff : Z) (l : list VelocityEvent) : list VelocityEvent :=
  filter (λ e, (cutoff ≤ ve_at e)%Z) l.

(** [_prune]. *)
Definition prune (workload : string) (now : Z) (window_seconds : option Z) (g : t) : outcome GuardExn unit * t :=
  let retention := Z.max (retention_seconds g) (default 0%Z window_seconds) in
  match sub_seconds now retention with
  | Raise e => (Raise e, g)
  | Ret cutoff =>
      match events g !! workload with
      | None | Some [] => (Ret tt, g)
      | Some evs =>
          let kept := recent cutoff evs in
          if bool_decide (length kept = length evs) then (Ret tt, g)
          else (Ret tt, {| events := <[workload := kept]> (events g); retention_seconds := retention_seconds g |})
      end
  end.

(** [self._events[workload]] creates the list before the event is validated. *)
Definition record (now : Z) (workload : string) (cost_usd : f64) (window_seconds : option Z) (g : t)
    : outcome GuardExn unit * t :=
  let evs := default [] (events g !! workload) in
  let put l := {| events := <[workload := l]> (events g); retention_seconds := retention_seconds g |} in
  if bool_decide (workload ≠ EmptyString) && f64_leb f64_zero cost_usd
  then prune workload now window_seconds
         (put (evs ++ [{| ve_workload := workload; ve_cost_usd := cost_usd; ve_at := now |}]))
  else (Raise GValidationError, put evs).

Definition spent (now : Z) (workload : string) (window_seconds : Z) (g : t) : outcome GuardExn f64 :=
  match sub_seconds now window_seconds with
  | Raise e => Raise e
  | Ret cutoff => Ret (f64_sum (ve_cost_usd <$> recent cutoff (default [] (events g !! workload))))
  end.

Definition event_count (workload : string) (g : t) : nat := length (default [] (events g !! workload)).

Definition f64_truncate (x : f64) : outcome GuardExn Z :=
  match f64_trunc x with
  | Some z => Ret z
  | None => Raise (if f64_is_nan x then GValueError else GOverflowError)
  end.

(** [check]; [now] is the explicit [at] or the clock. *)
Definition check (now : Z) (workload : string) (window_seconds : Z) (limit_usd : f64)
    (multiplier baseline_spent_usd budget_remaining_usd : option f64) (g : t)
    : outcome GuardExn (option VelocityBreach) :=
  match spent now workload window_seconds g with
  | Raise e => Raise e
  | Ret sp =>
      let absolute := f64_ltb limit_usd sp in
      let relative :=
        match multiplier, baseline_spent_usd with
        | Some m, Some b => f64_ltb (f64_mul m b) sp
        | _, _ => false
        end in
      if negb (absolute || relative) then Ret None
      else if (window_seconds =? 0)%Z then Raise GZeroDivisionError
      else
        let rate := f64_div sp (int_truediv window_seconds 60) in
        let exhaustion : outcome GuardExn (option Z) :=
          match budget_remaining_usd with
          | Some b =>
              if f64_ltb f64_zero rate
              then match f64_truncate (f64_mul (f64_div b rate) (f64_of_Z 60)) with
                   | Ret z => Ret (Some z)
                   | Raise e => Raise e
                   end
              else Ret None
          | None => Ret None
          end in
        match exhaustion with
        | Raise e => Raise e
        | Ret ex =>
            if bool_decide (workload ≠ EmptyString) && f64_leb f64_zero sp && (0 <? window_seconds)%Z
               && f64_leb f64_zero rate && from_option (λ z, (0 <=? z)%Z) true ex
            then Ret (Some {| vb_workload := workload; vb_spent_usd := sp; vb_limit_usd := limit_usd;
                              vb_window_seconds := window_seconds; vb_multiplier := multiplier;
                              vb_baseline_usd := baseline_spent_usd; vb_rate_per_minute := rate;
                              vb_projected_exhaustion_seconds := ex; vb_rule_id := "guard.velocity";
                              vb_reason := "spend velocity exceeded" |})
            else Raise GValidationError
        end
  end.

(** *** Pruning is invisible to the windows the guard retains *)

(** One recorded spend: the clock reading, the workload, the cost and the
    window the caller configured. *)
Record Spend := mkSpend { sp_at : Z; sp_workload : string; sp_cost : f64; sp_window : option Z }.

Definition record_all (l : list Spend) (g : t) : t :=
  foldl (λ g s, (record (sp_at s) (sp_workload s) (sp_cost s) (sp_window s) g).2) g l.

(** The reference: every valid spend of the workload, none pruned. *)
Definition history (l : list Spend) (workload : string) : list VelocityEvent :=
  (λ s, {| ve_workload := sp_workload s; ve_cost_usd := sp_cost s; ve_at := sp_at s |})
    <$> filter (λ s, sp_workload s = workload ∧ workload ≠ EmptyString ∧ f64_leb f64_zero (sp_cost s) = true) l.

Definition of_workload (workload : string) (g : t) : list VelocityEvent := default [] (events g !! workload).

Lemma recent_recent c1 c2 l : (c1 ≤ c2)%Z → recent c2 (recent c1 l) = recent c2 l.
Proof.
  intros Hc. unfold recent. rewrite list_filter_filter. apply list_filter_iff. intros e.
  split; [by intros [??]|intros; split; [done|lia]].
Qed.

Lemma recent_app c l1 l2 : recent c (l1 ++ l2) = recent c l1 ++ recent c l2.
Proof. apply filter_app. Qed.

(** Pruning at [now] leaves what a window ending no earlier can see, for any
    window within the retention. *)
Lemma prune_recent workload now w g c workload' :
  (now - retention_seconds g * 1000000 ≤ c)%Z →
  recent c (of_workload workload' (prune workload now w g).2) = recent c (of_workload workload' g) ∧
  retention_seconds (prune workload now w g).2 = retention_seconds g.
Proof.
  intros Hc. unfold prune, sub_seconds. destruct (dt_in_range _); simpl; [|done].
  destruct (events g !! workload) as [[|e evs]|] eqn:He; simpl; [done| |done].
  case_bool_decide; simpl; [done|]. split; [|done].
  unfold of_workload; simpl. destruct (decide (workload' = workload)) as [->|Hne].
  - rewrite lookup_insert_eq, He. cbn [from_option id]. apply recent_recent. lia.
  - by rewrite lookup_insert_ne by done.
Qed.

Lemma record_recent now workload cost w g c workload' :
  (now - retention_seconds g * 1000000 ≤ c)%Z →
  recent c (of_workload workload' (record now workload cost w g).2)
  = recent c (of_workload workload' g) ++
    recent c (history [{| sp_at := now; sp_workload := workload; sp_cost := cost; sp_window := w |}] workload') ∧
  retention_seconds (record now workload cost w g).2 = retention_seconds g.
Proof.
  intros Hc. unfold record, history. rewrite filter_cons; simpl.
  case_bool_decide as Hw; simpl; [destruct (f64_leb f64_zero cost) eqn:Hcost|]; simpl.
  2, 3: rewrite decide_False by naive_solver; simpl; rewrite app_nil_r; split; [|done];
    unfold of_workload; simpl; destruct (decide (workload' = workload)) as [->|];
    [by rewrite lookup_insert_eq|by rewrite lookup_insert_ne].
  match goal with |- context [prune _ _ _ ?g'] => set (g1 := g') end.
  destruct (prune_recent workload now w g1 c workload' Hc) as [-> ->]. split; [|done].
  unfold of_workload, g1; simpl. destruct (decide (workload' = workload)) as [->|Hne].
  - rewrite lookup_insert_eq. cbn [from_option id]. rewrite recent_app.
    rewrite decide_True by done. by simpl.
  - rewrite lookup_insert_ne by done. rewrite decide_False by naive_solver. simpl. by rewrite app_nil_r.
Qed.

Lemma record_all_recent l g c workload :
  Forall (λ s, sp_at s - retention_seconds g * 1000000 ≤ c)%Z l →
  recent c (of_workload workload (record_all l g)) =
  recent c (of_workload workload g) ++ recent c (history l workload).
Proof.
  revert g. induction l as [|s l IH]; intros g Hl.
  - simpl. unfold history. simpl. by rewrite app_nil_r.
  - apply Forall_cons in Hl as [Hs Hl].
    destruct (record_recent (sp_at s) (sp_workload s) (sp_cost s) (sp_window s) g c workload Hs) as [Hr Hret].
    change (record_all (s :: l) g) with
      (record_all l (record (sp_at s) (sp_workload s) (sp_cost s) (sp_window s) g).2).
    rewrite IH; [|by rewrite Hret]. rewrite Hr, <-app_assoc. f_equal.
    rewrite <-recent_app. f_equal. unfold history. rewrite <-fmap_app, <-filter_app.
    destruct s. reflexivity.
Qed.

Definition fresh (retention : Z) : t := {| events := ∅; retention_seconds := retention |}.

(** Pruning never changes the spend the guard reports: for any recorded
    history, a query no earlier than the spends and over a window no longer
    than the retention returns the sum over the unpruned history. *)
Theorem velocity_prune_equivalent l retention now workload window :
  Forall (λ s, sp_at s ≤ now)%Z l → (window ≤ retention)%Z →
  spent now workload window (record_all l (fresh retention)) =
  match sub_seconds now window with
  | Ret cutoff => Ret (f64_sum (ve_cost_usd <$> recent cutoff (history l workload)))
  | Raise e => Raise e
  end.
Proof.
  intros Hl Hw. unfold spent. destruct (sub_seconds now window) as [c|e] eqn:Hc; [|done].
  assert (c = now - window * 1000000)%Z as ->
    by (unfold sub_seconds in Hc; destruct (dt_in_range _); by inversion Hc).
  change (default [] (events (record_all l (fresh retention)) !! workload))
    with (of_workload workload (record_all l (fresh retention))).
  rewrite record_all_recent; [by rewrite (eq_refl : of_workload workload (fresh retention) = [])|].
  eapply Forall_impl; [done|]. simpl. lia.
Qed.

Definition demo : list Spend :=
  [ {| sp_at := 0; sp_workload := "w"; sp_cost := f64_lit 1 10; sp_window := None |};
    {| sp_at := 5000000000; sp_workload := "w"; sp_cost := f64_lit 2 10; sp_window := Some 60%Z |} ].

(** The old spend is pruned from the guard, and is outside the queried window. *)
Lemma velocity_prune_equivalent_witness :
  event_count "w" (record_all demo (fresh 3600)) = 1%nat ∧
  spent 5000000000 "w" 60 (record_all demo (fresh 3600)) = Ret (f64_lit 2 10).
Proof.
  split; [vm_compute; reflexivity|].
  rewrite (velocity_prune_equivalent demo 3600 5000000000 "w" 60);
    [vm_compute; reflexivity| |lia].
  repeat constructor; simpl; lia.
Defined.
End Velocity.

(** ** Retries ([guards/retry.py]) *)
Module Retry.

Inductive Jitter := J_NONE | J_FULL.

Record RetryPolicy := mkPolicy { max_attempts : Z; base_ms : Z; max_ms : Z; jitter : Jitter }.

(** The validators of [RetryPolicy]. *)
Definition policy_valid (p : RetryPolicy) : bool :=
  (1 <=? max_attempts p)%Z && (0 <? base_ms p)%Z && (0 <? max_ms p)%Z.

Section Run.
(** The injected effects: they may change the state and may raise. *)
Context {W E T : Type}.
Variables (assertion_error value_error : E) (fn : M W E T) (sleep : Z → M W E unit) (rand : M W E f64).

Open Scope hp_scope.

Definition backoff_delay_ms (p : RetryPolicy) (attempt : Z) : M W E Z :=
  let capped := Z.min (max_ms p) (base_ms p * 2 ^ attempt) in
  match jitter p with
  | J_FULL => let* r := rand in of_option value_error (f64_trunc (f64_mul r (f64_of_Z capped)))
  | J_NONE => ret capped
  end.

(** The loop over [range(max_attempts)]: [fuel] attempts are left. *)
Fixpoint retry_loop (p : RetryPolicy) (fuel : nat) (attempt : Z) (last_error : option E) : M W E (T * Z) :=
  match fuel with
  | O => raise (default assertion_error last_error)
  | S fuel' => λ w,
      match fn w with
      | (Ret a, w1) => (Ret (a, (attempt + 1)%Z), w1)
      | (Raise e, w1) =>
          (when (attempt <? max_attempts p - 1)%Z
             (let* d := backoff_delay_ms p attempt in sleep d) ;;;
           retry_loop p fuel' (attempt + 1) (Some e)) w1
      end
  end.

Definition run_with_retries (p : RetryPolicy) : M W E (T * Z) :=
  retry_loop p (Z.to_nat (max_attempts p)) 0 None.
End Run.

(** *** Behaviour against a scripted function

    The state counts the calls of [fn], whose outcomes are given by a script,
    and logs the delays slept. *)
Section Scripted.
Context {E T : Type}.
Variables (assertion_error value_error : E) (script : nat → outcome E T) (rand : M (nat * list Z) E f64).

Definition scripted_fn : M (nat * list Z) E T := λ w, (script w.1, (S w.1, w.2)).

Definition logged_sleep (d : Z) : M (nat * list Z) E unit := λ w, (Ret tt, (w.1, w.2 ++ [d])).

Definition scripted_run (p : RetryPolicy) : outcome E (T * Z) * (nat * list Z) :=
  run_with_retries assertion_error value_error scripted_fn logged_sleep rand p (0%nat, []).

Definition delay (p : RetryPolicy) (i : nat) : Z := Z.min (max_ms p) (base_ms p * 2 ^ Z.of_nat i).

Lemma retry_loop_success p fuel a calls slept i v le :
  jitter p = J_NONE → (Z.of_nat (calls + fuel) = max_attempts p)%Z → a = Z.of_nat calls →
  (i < fuel)%nat → (∀ j, (j < i)%nat → ∃ e, script (calls + j) = Raise e) → script (calls + i) = Ret v →
  retry_loop assertion_error value_error scripted_fn logged_sleep rand p fuel a le (calls, slept)
  = (Ret (v, Z.of_nat (calls + i) + 1)%Z,
     (S (calls + i), slept ++ (delay p <$> seq calls i))).
Proof.
  intros Hj. revert a calls slept i le. induction fuel as [|fuel IH]; intros a calls slept i le Hmax -> Hi Hfail Hok; [lia|].
  cbn [retry_loop]. unfold scripted_fn at 1; cbn [fst snd]. destruct i as [|i].
  - rewrite Nat.add_0_r in *. rewrite Hok. simpl. by rewrite app_nil_r.
  - destruct (Hfail 0%nat) as [e He]; [lia|]. rewrite Nat.add_0_r in He. rewrite He.
    rewrite (proj2 (Z.ltb_lt _ _)) by lia.
    unfold when, bind, backoff_delay_ms. rewrite Hj. unfold ret, logged_sleep. cbn [fst snd].
    rewrite (IH _ (S calls) _ i); [|lia|lia|lia| |].
    + cbn [seq fmap list_fmap]. rewrite <-app_assoc. simpl.
      by replace (S (calls + i)) with (calls + S i)%nat by lia.
    + intros j Hji. destruct (Hfail (S j)) as [e' He']; [lia|]. exists e'. by rewrite <-He', <-Nat.add_succ_comm.
    + by rewrite <-Hok, <-Nat.add_succ_comm.
Qed.

Lemma retry_loop_failure p fuel a calls slept le e :
  jitter p = J_NONE → (Z.of_nat (calls + fuel) = max_attempts p)%Z → a = Z.of_nat calls → (0 < fuel)%nat →
  (∀ j, (j < fuel)%nat → ∃ e, script (calls + j) = Raise e) → script (calls + fuel - 1) = Raise e →
  retry_loop assertion_error value_error scripted_fn logged_sleep rand p fuel a le (calls, slept)
  = (Raise e, ((calls + fuel)%nat, slept ++ (delay p <$> seq calls (fuel - 1)))).
Proof.
  intros Hj. revert a calls slept le. induction fuel as [|fuel IH]; intros a calls slept le Hmax -> Hf Hfail He; [lia|].
  cbn [retry_loop]. unfold scripted_fn at 1; cbn [fst snd].
  destruct (Hfail 0%nat) as [e0 He0]; [lia|]. rewrite Nat.add_0_r in He0. rewrite He0.
  destruct fuel as [|fuel].
  - replace (calls + 1 - 1)%nat with calls in He by lia. rewrite He0 in He. injection He as ->.
    rewrite (proj2 (Z.ltb_ge _ _)) by lia. simpl. unfold bind, ret, raise. simpl. rewrite app_nil_r.
    by rewrite Nat.add_1_r.
  - rewrite (proj2 (Z.ltb_lt _ _)) by lia.
    unfold when, bind at 1. unfold bind, backoff_delay_ms. rewrite Hj. unfold ret, logged_sleep. cbn [fst snd].
    rewrite (IH _ (S calls)); [|lia|lia|lia| |].
    + rewrite <-app_assoc. replace (S calls + S fuel)%nat with (calls + S (S fuel))%nat by lia.
      do 3 f_equal. replace (S (S fuel) - 1)%nat with (S (S fuel - 1)) by lia. done.
    + intros j Hji. destruct (Hfail (S j)) as [e' He']; [lia|]. exists e'. by rewrite <-He', <-Nat.add_succ_comm.
    + rewrite <-He. f_equal. lia.
Qed.

(** With a valid policy without jitter, [fn] is called until its first
    success, at most [max_attempts] times; the number of attempts made is
    returned with the result, the last error is raised when every attempt
    fails, and the delays slept are the capped powers of two, one between two
    attempts and none after the last. *)
Theorem run_with_retries_spec p :
  policy_valid p = true → jitter p = J_NONE →
  (∀ i v, (Z.of_nat i < max_attempts p)%Z → (∀ j, (j < i)%nat → ∃ e, script j = Raise e) → script i = Ret v →
     scripted_run p = (Ret (v, Z.of_nat i + 1)%Z, (S i, delay p <$> seq 0 i))) ∧
  (∀ e, (∀ j, (Z.of_nat j < max_attempts p)%Z → ∃ e, script j = Raise e) →
     script (Z.to_nat (max_attempts p) - 1) = Raise e →
     scripted_run p = (Raise e, (Z.to_nat (max_attempts p), delay p <$> seq 0 (Z.to_nat (max_attempts p) - 1)))) ∧
  (∀ i, (0 < delay p i ≤ max_ms p)%Z).
Proof.
  intros Hv Hj. unfold policy_valid in Hv. apply andb_true_iff in Hv as [Hv Hm].
  apply andb_true_iff in Hv as [Hv Hb]. apply Z.leb_le in Hv. apply Z.ltb_lt in Hb, Hm. split_and!.
  - intros i v Hi Hfail Hok. unfold scripted_run, run_with_retries.
    rewrite (retry_loop_success p _ 0 0 [] i v None); [done|done|lia|done|lia|done|done].
  - intros e Hfail He. unfold scripted_run, run_with_retries.
    rewrite (retry_loop_failure p _ 0 0 [] None e); [done|done|lia|done|lia| |done].
    intros j Hlt. apply Hfail. lia.
  - intros i. unfold delay. assert (0 < base_ms p * 2 ^ Z.of_nat i)%Z by (apply Z.mul_pos_pos; lia). lia.
Qed.
End Scripted.

Definition demo_policy : RetryPolicy := {| max_attempts := 3; base_ms := 500; max_ms := 800; jitter := J_NONE |}.

Lemma run_with_retries_spec_witness :
  scripted_run 0%Z 0%Z (λ n, if bool_decide (n = 2%nat) then Ret "ok" else Raise 7%Z) (ret f64_zero) demo_policy
  = (Ret ("ok", 3%Z), (3%nat, [500; 800]%Z)).
Proof.
  destruct (run_with_retries_spec 0%Z 0%Z (λ n, if bool_decide (n = 2%nat) then Ret "ok" else Raise 7%Z)
    (ret f64_zero) demo_policy) as (H & _ & _); [reflexivity|reflexivity|].
  apply (H 2%nat "ok"); [simpl; lia| |reflexivity].
  intros j Hj. exists 7%Z. rewrite bool_decide_false; [reflexivity|lia].
Defined.
End Retry.

(** ** The guard manager ([guards/manager.py]) *)
Module Manager.

Record GuardLimits := mkLimits {
  context_tokens : option Z; context_warn_at : f64; velocity_window_seconds : Z;
  velocity_limit_usd : option f64; velocity_multiplier : option f64 }.

(** The validators of [GuardLimits]. *)
Definition limits_valid (l : GuardLimits) : bool :=
  from_option (λ n, (1 <=? n)%Z) true (context_tokens l)
  && f64_leb f64_zero (context_warn_at l) && f64_leb (context_warn_at l) (f64_lit 1 1)
  && (0 <? velocity_window_seconds l)%Z
  && from_option (f64_ltb f64_zero) true (velocity_limit_usd l)
  && from_option (f64_ltb f64_zero) true (velocity_multiplier l).

Record t := mk { context : Context.t; velocity : Velocity.t }.

(** The clock readings one call takes (the context guard's, the velocity
    guard's two, the manager's) and the identifier it draws. *)
Record Ticks := mkTicks {
  tk_context : Z; tk_record : Z; tk_spent : Z; tk_event : Z; tk_event_id : string }.

(** [a or b] on optional strings: the empty string is falsy. *)
Definition str_or (a : option string) (b : string) : string :=
  match a with Some s => if bool_decide (s = EmptyString) then b else s | None => b end.

(** [limits.velocity_limit_usd or float("inf")]. *)
Definition limit_or_inf (l : option f64) : f64 :=
  match l with Some x => if f64_eqb x f64_zero then f64_inf else x | None => f64_inf end.

(** The construction of the event, which pydantic validates. *)
Definition guard_event (e : GuardEvent) : outcome GuardExn GuardEvent :=
  if bool_decide (ge_event_id e ≠ EmptyString) && bool_decide (ge_workload_id e ≠ EmptyString)
     && bool_decide (ge_tenant_id e ≠ EmptyString) && (String.length (ge_tenant_id e) <=? 64)%nat
  then Ret e else Raise GValidationError.

Definition check_context (tk : Ticks) (run : Run) (report : UsageReport) (limits : GuardLimits)
    (ctx : TenantContext) (g : t) : outcome GuardExn (option GuardEvent) * t :=
  let step := Z.of_nat (length (Context.accounts (run_id run) (context g))) in
  let model := str_or (us_model_identity report) (str_or (run_model_identity run) "unspecified") in
  let '(r, c1) := Context.record (tk_context tk) (run_id run) step model
                    (Z.of_N (us_input_tokens report)) (Z.of_N (us_output_tokens report)) (context g) in
  let g1 := {| context := c1; velocity := velocity g |} in
  match r with
  | Raise e => (Raise e, g1)
  | Ret _ =>
      match context_tokens limits with
      | None => (Ret None, g1)
      | Some limit =>
          match Context.check (run_id run) limit (context_warn_at limits) c1 with
          | Raise e => (Raise e, g1)
          | Ret None => (Ret None, g1)
          | Ret (Some b) =>
              (match guard_event
                 {| ge_event_id := tk_event_id tk; ge_guard := GK_CONTEXT; ge_action := GA_PAUSE;
                    ge_reason := Context.cbr_reason b; ge_rule_id := Context.cbr_rule_id b;
                    ge_workload_id := run_workload_id run; ge_run_id := Some (run_id run); ge_tool_id := None;
                    ge_observed := [("used", JInt (Context.cbr_used b)); ("step", JInt (Context.cbr_step b));
                                    ("model_identity", JStr (Context.cbr_model_identity b))];
                    ge_threshold := [("limit", JInt (Context.cbr_limit b))];
                    ge_created_at := tk_event tk; ge_tenant_id := tc_tenant_id ctx |} with
               | Ret e => Ret (Some e)
               | Raise e => Raise e
               end, g1)
          end
      end
  end.

Definition check_velocity (tk : Ticks) (run : Run) (report : UsageReport) (limits : GuardLimits)
    (budget_remaining_usd : option f64) (ctx : TenantContext) (g : t)
    : outcome GuardExn (option GuardEvent) * t :=
  let '(r, v1) := Velocity.record (tk_record tk) (run_workload_id run) (us_cost_usd report)
                    (Some (velocity_window_seconds limits)) (velocity g) in
  let g1 := {| context := context g; velocity := v1 |} in
  match r with
  | Raise e => (Raise e, g1)
  | Ret _ =>
      match velocity_limit_usd limits, velocity_multiplier limits with
      | None, None => (Ret None, g1)
      | lim, mult =>
          (match Velocity.check (tk_spent tk) (run_workload_id run) (velocity_window_seconds limits)
                   (limit_or_inf lim) mult None budget_remaining_usd v1 with
           | Raise e => Raise e
           | Ret None => Ret None
           | Ret (Some b) =>
               match guard_event
                 {| ge_event_id := tk_event_id tk; ge_guard := GK_VELOCITY; ge_action := GA_PAUSE;
                    ge_reason := Velocity.vb_reason b; ge_rule_id := Velocity.vb_rule_id b;
                    ge_workload_id := run_workload_id run; ge_run_id := Some (run_id run); ge_tool_id := None;
                    ge_observed := [("spent_usd", JFloat (Velocity.vb_spent_usd b));
                                    ("rate_per_minute", JFloat (Velocity.vb_rate_per_minute b))];
                    ge_threshold := [("limit_usd", JFloat (Velocity.vb_limit_usd b));
                                     ("window_seconds", JInt (Velocity.vb_window_seconds b))];
                    ge_created_at := tk_event tk; ge_tenant_id := tc_tenant_id ctx |} with
               | Ret e => Ret (Some e)
               | Raise e => Raise e
               end
           end, g1)
      end
  end.

Definition on_usage (limit_lookup : option (string → option GuardLimits)) (tk : Ticks) (run : Run)
    (report : UsageReport) (budget_remaining_usd : option f64) (ctx : TenantContext) (g : t)
    : outcome GuardExn (option GuardEvent) * t :=
  match limit_lookup with
  | None => (Ret None, g)
  | Some f =>
      match f (run_workload_id run) with
      | None => (Ret None, g)
      | Some limits =>
          match check_context tk run report limits ctx g with
          | (Raise e, g1) => (Raise e, g1)
          | (Ret (Some ev), g1) => (Ret (Some ev), g1)
          | (Ret None, g1) => check_velocity tk run report limits budget_remaining_usd ctx g1
          end
      end
  end.

Definition release (run : string) (g : t) : t :=
  {| context := Context.release run (context g); velocity := velocity g |}.

(** *** A relative limit alone never fires *)

Lemma f64_inf_max x : f64_ltb f64_inf x = false.
Proof. by destruct x as [[]|[]| |[] ? ?]. Qed.

Lemma velocity_check_no_baseline now w win lim m rem g :
  lim = f64_inf → ∀ b, Velocity.check now w win lim m None rem g ≠ Ret (Some b).
Proof.
  intros -> b. unfold Velocity.check. destruct (Velocity.spent _ _ _ _); [|done].
  rewrite f64_inf_max. by destruct m.
Qed.

(** A workload whose velocity limit is only relative (a multiplier of the
    baseline, no absolute limit) never gets a velocity event, whatever it
    spends: the manager passes no baseline to the check. *)
Theorem velocity_multiplier_alone_never_fires lookup tk run report rem ctx g limits ev :
  lookup (run_workload_id run) = Some limits → velocity_limit_usd limits = None →
  (on_usage (Some lookup) tk run report rem ctx g).1 = Ret (Some ev) → ge_guard ev = GK_CONTEXT.
Proof.
  intros Hl Hlim. unfold on_usage. rewrite Hl.
  destruct (check_context _ _ _ _ _ _) as [[[e|]|e] g1] eqn:Hc; simpl; [| |done].
  - intros [= ->]. unfold check_context in Hc. destruct (Context.record _ _ _ _ _ _ _) as [[a|?] c1]; [|done].
    destruct (context_tokens limits); [|done]. destruct (Context.check _ _ _ _) as [[b|]|?]; [|done|done].
    unfold guard_event in Hc. destruct (_ && _); [|done]. by injection Hc as <- _.
  - unfold check_velocity. destruct (Velocity.record _ _ _ _ _) as [[a|?] v1]; [|done]. rewrite Hlim. simpl.
    destruct (velocity_multiplier limits) as [m|]; [|done]. cbn [fst].
    destruct (Velocity.check _ _ _ _ _ _ _ _) as [[b|]|?] eqn:Hv; [|done|done].
    by apply velocity_check_no_baseline in Hv.
Qed.

Lemma check_velocity_frame tk run report limits rem ctx g r g' :
  check_velocity tk run report limits rem ctx g = (r, g') →
  context g' = context g ∧ ∀ ev, r = Ret (Some ev) → ge_guard ev = GK_VELOCITY.
Proof.
  unfold check_velocity. destruct (Velocity.record _ _ _ _ _) as [[a|?] v1]; [|by intros [= <- <-]].
  destruct (velocity_limit_usd limits), (velocity_multiplier limits); try by intros [= <- <-].
  all: destruct (Velocity.check _ _ _ _ _ _ _ _) as [[b|]|?]; intros [= <- <-]; (split; [done|]); try done.
  all: unfold guard_event; destruct (_ && _); intros ev Hev; inversion Hev; done.
Qed.

Lemma check_context_spec tk run report limits ctx g limit r g' :
  context_tokens limits = Some limit → (1 ≤ limit)%Z →
  run_id run ≠ EmptyString → run_workload_id run ≠ EmptyString → tk_event_id tk ≠ EmptyString →
  tc_tenant_id ctx ≠ EmptyString → (String.length (tc_tenant_id ctx) ≤ 64)%nat →
  (0 ≤ Context.total (run_id run) (context g))%Z →
  let used := (Context.total (run_id run) (context g) + Z.of_N (us_input_tokens report)
               + Z.of_N (us_output_tokens report))%Z in
  check_context tk run report limits ctx g = (r, g') →
  Context.total (run_id run) (context g') = used ∧ velocity g' = velocity g ∧
  if decide (limit < used)%Z
  then ∃ ev, r = Ret (Some ev) ∧ ge_guard ev = GK_CONTEXT ∧ ge_action ev = GA_PAUSE ∧
         ge_threshold ev = [("limit", JInt limit)] ∧ ("used", JInt used) ∈ ge_observed ev ∧
         ge_tenant_id ev = tc_tenant_id ctx ∧ velocity g' = velocity g
  else r = Ret None.
Proof.
  intros Hc Hlim Hid Hwl Hev Ht Htl Hnn used. unfold check_context.
  destruct (Context.record _ _ _ _ _ _ _) as [r0 c1] eqn:Hrec.
  destruct r0 as [a|e]; [|exfalso; revert Hrec; unfold Context.record; rewrite bool_decide_true by done;
    rewrite !(proj2 (Z.leb_le _ _)) by lia; done].
  apply Context.record_ok in Hrec as (Ha & Htot & _ & _ & Hstp & _). fold used in Htot. rewrite Hc.
  pose proof (Context.check_cases (run_id run) limit (context_warn_at limits) c1 Hid) as Hchk.
  rewrite Ha, last_snoc, Htot in Hchk. cbn [from_option] in Hchk. specialize (Hchk ltac:(lia) ltac:(lia)).
  case_decide as Hd.
  - destruct Hchk as (b & -> & Hu & Hlb). unfold guard_event. cbn [ge_event_id ge_workload_id ge_tenant_id].
    rewrite !bool_decide_true by done. rewrite (proj2 (Nat.leb_le _ _)) by lia. cbn [andb].
    intros [= <- <-]. split; [done|]. split; [done|]. eexists. split; [done|]. cbn. rewrite Hu, Hlb.
    split_and!; try done. set_solver.
  - rewrite Hchk. intros [= <- <-]. done.
Qed.

(** A usage report breaches the context budget exactly when the run's
    recorded tokens, the report included, exceed the workload's limit; the
    event pauses the run, names the limit and the total, and is returned
    before any velocity accounting. *)
Theorem on_usage_context_breach lookup tk run report rem ctx g limits limit :
  lookup (run_workload_id run) = Some limits → context_tokens limits = Some limit → (1 ≤ limit)%Z →
  run_id run ≠ EmptyString → run_workload_id run ≠ EmptyString → tk_event_id tk ≠ EmptyString →
  tc_tenant_id ctx ≠ EmptyString → (String.length (tc_tenant_id ctx) ≤ 64)%nat →
  (0 ≤ Context.total (run_id run) (context g))%Z →
  let used := (Context.total (run_id run) (context g) + Z.of_N (us_input_tokens report)
               + Z.of_N (us_output_tokens report))%Z in
  let '(r, g') := on_usage (Some lookup) tk run report rem ctx g in
  Context.total (run_id run) (context g') = used ∧
  ((limit < used)%Z ↔ ∃ ev, r = Ret (Some ev) ∧ ge_guard ev = GK_CONTEXT) ∧
  (∀ ev, r = Ret (Some ev) → ge_guard ev = GK_CONTEXT →
     ge_action ev = GA_PAUSE ∧ ge_threshold ev = [("limit", JInt limit)] ∧
     ("used", JInt used) ∈ ge_observed ev ∧ ge_tenant_id ev = tc_tenant_id ctx ∧ velocity g' = velocity g).
Proof.
  intros Hl Hc Hlim Hid Hwl Hev Ht Htl Hnn used. unfold on_usage. rewrite Hl.
  destruct (check_context _ _ _ _ _ _) as [r0 g1] eqn:H0.
  destruct (check_context_spec tk run report limits ctx g limit r0 g1) as (Htot & Hvel & Hcase); try done.
  fold used in Htot, Hcase. case_decide as Hd.
  - destruct Hcase as (ev & -> & Hg & Hrest). split; [done|]. split; [split; eauto|]. by intros ? [= <-] _.
  - subst r0. destruct (check_velocity _ _ _ _ _ _ _) as [r g'] eqn:Hv. apply check_velocity_frame in Hv as [Hctx Hk].
    rewrite Hctx. split; [done|].
    assert (∀ ev, r = Ret (Some ev) → ge_guard ev ≠ GK_CONTEXT) as Hno by (intros ev Hr; by rewrite (Hk ev Hr)).
    split; [split; [lia|intros (ev & Hr & He); by destruct (Hno ev)]|].
    intros ev Hr He. by destruct (Hno ev).
Qed.

Definition demo_run : Run :=
  {| run_id := "r1"; run_workload_id := "w"; run_caller := "op"; run_state := RUNNING;
     run_model_identity := None; run_created_at := 0; run_updated_at := 0; run_started_at := Some 0%Z;
     run_finished_at := None; run_trigger_origin := None; run_pipeline_origin := None;
     run_agent_tool_origin := None; run_manifest_version := None; run_context := None; run_sandbox := false;
     run_task := []; run_result := None; run_failure_reason := None; run_cost_usd := f64_zero;
     run_sandbox_id := None; run_trace_id := None; run_shadow_of := None; run_probe := false;
     run_read_only := false; run_canary_rollout_id := None; run_canary_arm := None;
     run_tenant_id := "default"; run_team_id := None; run_attribution_key := None |}.

Definition demo_usage : UsageReport :=
  {| us_run_id := "r1"; us_input_tokens := 60; us_output_tokens := 50; us_tool_calls := 0;
     us_cost_usd := f64_lit 900 1; us_timestamp := 0; us_model_identity := None; us_prompt := None;
     us_response := None; us_latency_ms := None |}.

Definition demo_limits : GuardLimits :=
  {| context_tokens := Some 100%Z; context_warn_at := f64_lit 8 10; velocity_window_seconds := 300;
     velocity_limit_usd := None; velocity_multiplier := Some (f64_lit 2 1) |}.

Definition demo_ticks : Ticks :=
  {| tk_context := 1; tk_record := 2; tk_spent := 3; tk_event := 4; tk_event_id := "guard-1" |}.

Definition demo_guards : t := {| context := Context.empty; velocity := Velocity.fresh 3600 |}.

Lemma velocity_multiplier_alone_never_fires_witness :
  ∃ ev, (on_usage (Some (λ _, Some demo_limits)) demo_ticks demo_run demo_usage None DEFAULT_CONTEXT demo_guards).1
        = Ret (Some ev) ∧ ge_guard ev = GK_CONTEXT.
Proof.
  eexists. split; [vm_compute; reflexivity|].
  apply (velocity_multiplier_alone_never_fires (λ _, Some demo_limits) demo_ticks demo_run demo_usage None
           DEFAULT_CONTEXT demo_guards demo_limits); vm_compute; reflexivity.
Defined.

Lemma on_usage_context_breach_witness :
  let '(r, g') := on_usage (Some (λ _, Some demo_limits)) demo_ticks demo_run demo_usage None DEFAULT_CONTEXT
                    demo_guards in
  ((100 < 110)%Z ↔ ∃ ev, r = Ret (Some ev) ∧ ge_guard ev = GK_CONTEXT).
Proof.
  apply (on_usage_context_breach (λ _, Some demo_limits) demo_ticks demo_run demo_usage None
           DEFAULT_CONTEXT demo_guards demo_limits 100); vm_compute; (reflexivity || congruence || lia).
Defined.
End Manager.
