(* ===== verification/Policy.v ===== *)
(** * Policy evaluation ([policy/engine.py], [policy/packs.py], [policy/models.py],
    [core/decision.py])

    The deny-by-default evaluator, branch by branch in the order of the code,
    the policy-pack store it consults, and the time windows.  Tracing spans and
    metrics around [PolicyEngine.evaluate] are not modelled. *)

From Stdlib Require Import Ascii.
From stdpp Require Import base strings numbers list.
From S2P Require Import Prelude Float64 Tenancy CoreModels.

(** ** Decision inputs *)

Record PolicyContext := mkContext {
  pc_run_id : string;
  pc_workload : string;
  pc_team : option string;
  pc_tenant_id : string;
  pc_environment : AdmissionContext;
  pc_action_class : option ActionClass;
  pc_tool_id : option string;
  pc_tool_trust : option ToolTrustLevel;
  pc_data_sensitivity : DataSensitivity;
  pc_certification_status : CertificationStatus;
  pc_tools : option ToolsSpec;
  pc_approval_required_for : list ActionClass;
  pc_injection_detected : bool;
  pc_budget_exhausted : bool;
  pc_taint_untrusted : bool;
  pc_at : option Z;
  pc_time_windows : list TimeWindow;
}.

Record BlastRadius := mkBlast { br_score : Z; br_factors : list (string * Z) }.

Record PolicyDecision := mkDecision {
  pd_run_id : string;
  pd_outcome : DecisionOutcome;
  pd_reason : string;
  pd_rule : string;
  pd_action_class : option ActionClass;
  pd_timestamp : Z;
  pd_blast_radius : option BlastRadius;
  pd_certification_status : option CertificationStatus;
  pd_pack_version : option string;
  pd_detector_set_version : option string;
  pd_dry_run : bool;
}.

Inductive PolicyExn := ZoneInfoNotFoundError | ValueError | OverflowError | TenantScopeError
  | PolicyPackAlreadyExistsError (name : string).

(** ** Policy packs *)

Record PolicyPackRule := mkRule {
  ru_action : DecisionOutcome; ru_action_class : option ActionClass; ru_tool_trust : option ToolTrustLevel }.

Record PolicyPackRuleMatch := mkMatch {
  rm_environment : option AdmissionContext; rm_data_sensitivity : option DataSensitivity }.

Record PolicyPackOverride := mkOverride { ov_match : PolicyPackRuleMatch; ov_rules : list PolicyPackRule }.

Record PolicyPack := mkPack {
  pp_name : string; pp_team : string; pp_version : string; pp_tenant_id : string; pp_default : bool;
  pp_overrides : list PolicyPackOverride; pp_inherits : list string }.

(** *** The in-memory pack store *)
Module Packs.

Abbreviation store := (odict (string * string) PolicyPack).

Open Scope hp_scope.

Definition save (pack : PolicyPack) (ctx : TenantContext) : M store PolicyExn unit :=
  require TenantScopeError ctx (pp_tenant_id pack) ;;;
  let* packs := get in
  let key := (pp_tenant_id pack, pp_name pack) in
  if od_mem key packs then raise (PolicyPackAlreadyExistsError (pp_name pack))
  else modify (od_set key pack).

Definition get_pack (name : string) (ctx : TenantContext) (packs : store) : option PolicyPack :=
  let candidates := (filter (λ kv, kv.1.2 = name ∧ scopes ctx kv.1.1 = true) packs).*2 in
  head (py_sort (λ a b, str_leb (pp_tenant_id a) (pp_tenant_id b)) candidates).

(** Tuples compare lexicographically. *)
Definition pack_leb (a b : PolicyPack) : bool :=
  if bool_decide (pp_name a = pp_name b) then str_leb (pp_tenant_id a) (pp_tenant_id b)
  else str_leb (pp_name a) (pp_name b).

Definition list_packs (ctx : TenantContext) (packs : store) : list PolicyPack :=
  py_sort pack_leb (filter (λ p, scopes ctx (pp_tenant_id p) = true) (od_values packs)).

Definition for_team (team : option string) (ctx : TenantContext) (packs : store) : list PolicyPack :=
  match team with
  | None => []
  | Some t => filter (λ p, pp_team p = t) (list_packs ctx packs)
  end.
End Packs.

(** ** Blast radius *)

Definition blast_factors (c : PolicyContext) : list (string * Z) :=
  (if bool_decide (pc_tool_trust c = Some TRUST_DESTRUCTIVE) then [("tool_trust", 35%Z)] else []) ++
  (match pc_environment c with
   | PRODUCTION => [("environment", 50%Z)] | STAGING => [("environment", 15%Z)] | SANDBOX => [] end) ++
  (match pc_data_sensitivity c with
   | RESTRICTED => [("data_sensitivity", 20%Z)] | PII => [("data_sensitivity", 15%Z)]
   | INTERNAL => [("data_sensitivity", 5%Z)] | PUBLIC => [] end) ++
  (match pc_action_class c with
   | Some AC_PRODUCTION_WRITE | Some AC_DESTRUCTIVE => [("action_class", 20%Z)]
   | Some AC_HIGH_SPEND => [("action_class", 10%Z)]
   | _ => [] end) ++
  (match pc_certification_status c with
   | UNCERTIFIED => [("certification", 15%Z)] | PROVISIONAL => [("certification", 8%Z)] | _ => [] end).

Definition compute_blast_radius (c : PolicyContext) : BlastRadius :=
  {| br_score := Z.min 100 (foldl Z.add 0%Z (blast_factors c).*2); br_factors := blast_factors c |}.

(** ** Time windows *)

Definition digit (c : Ascii.ascii) : option Z :=
  let n := Z.of_nat (Ascii.nat_of_ascii c) in
  if (48 <=? n)%Z && (n <=? 57)%Z then Some (n - 48)%Z else None.

(** [(int(part) for part in s.split(":"))] for the pattern the model validates,
    two digits, a colon, two digits. *)
Definition parse_hhmm (s : string) : option (Z * Z) :=
  match String.list_ascii_of_string s with
  | [a; b; ":"%char; d; e] =>
      a' ← digit a; b' ← digit b; d' ← digit d; e' ← digit e; Some (a' * 10 + b', d' * 10 + e')%Z
  | _ => None
  end.

Definition window_matches (w : TimeWindow) (c : PolicyContext) : bool :=
  if bool_decide (tw_action_class w ≠ None) && bool_decide (tw_action_class w ≠ pc_action_class c) then false
  else negb (bool_decide (tw_tool_trust w ≠ None) && bool_decide (tw_tool_trust w ≠ pc_tool_trust c)).

Section Engine.
(** The time-zone database: the offset of a zone from UTC at an instant, in
    microseconds; [None] for an unknown zone. *)
Variable utcoffset : string → Z → option Z.

Definition window_allows (w : TimeWindow) (when_ : Z) : outcome PolicyExn bool :=
  match utcoffset (tw_tz w) when_ with
  | None => Raise ZoneInfoNotFoundError
  | Some off =>
      let local := (when_ + off)%Z in
      if negb (dt_in_range local) then Raise OverflowError
      else if bool_decide (tw_days w ≠ []) && negb (bool_decide (dt_weekday local ∈ tw_days w)) then Ret false
      else
        match parse_hhmm (tw_start w), parse_hhmm (tw_end w) with
        | Some (sh, sm), Some (eh, em) =>
            let minutes := dt_minutes local in
            Ret ((sh * 60 + sm <=? minutes)%Z && (minutes <? eh * 60 + em)%Z)
        | _, _ => Raise ValueError
        end
  end.

(** ** The evaluator *)

(** [_decide]; [now] is read when the context carries no time. *)
Definition decide_ (now : Z) (c : PolicyContext) (o : DecisionOutcome) (rule reason : string)
    (blast : BlastRadius) (pack_version : option string) (dry_run : bool) : PolicyDecision :=
  {| pd_run_id := pc_run_id c; pd_outcome := o; pd_reason := reason; pd_rule := rule;
     pd_action_class := pc_action_class c; pd_timestamp := default now (pc_at c);
     pd_blast_radius := Some blast; pd_certification_status := Some (pc_certification_status c);
     pd_pack_version := pack_version; pd_detector_set_version := None; pd_dry_run := dry_run |}.

Definition override_matches (o : PolicyPackOverride) (c : PolicyContext) : bool :=
  let m := ov_match o in
  if bool_decide (rm_environment m ≠ None) && bool_decide (rm_environment m ≠ Some (pc_environment c)) then false
  else negb (bool_decide (rm_data_sensitivity m ≠ None)
             && bool_decide (rm_data_sensitivity m ≠ Some (pc_data_sensitivity c))).

(** The three [continue] guards of the inner loop, negated. *)
Definition rule_applies (c : PolicyContext) (r : PolicyPackRule) : bool :=
  if bool_decide (ru_action r = ALLOW) then false
  else if bool_decide (ru_action_class r ≠ None) && bool_decide (ru_action_class r ≠ pc_action_class c) then false
  else if bool_decide (ru_tool_trust r ≠ None) && bool_decide (ru_tool_trust r ≠ pc_tool_trust c) then false
  else true.

(** The first applicable rule, in pack, override and rule order. *)
Definition pack_hits (packs : list PolicyPack) (c : PolicyContext) : list (PolicyPack * PolicyPackRule) :=
  p ← packs; o ← filter (λ o, override_matches o c = true) (pp_overrides p);
  r ← filter (λ r, rule_applies c r = true) (ov_rules o); [(p, r)].

Definition decision_from_packs (now : Z) (packs : list PolicyPack) (c : PolicyContext) (blast : BlastRadius)
    (dry_run : bool) : option PolicyDecision :=
  match pack_hits packs c with
  | [] => None
  | (p, r) :: _ =>
      let rule_id := if bool_decide (ru_action r = DENY) then "pack.deny" else "pack.escalate" in
      Some (decide_ now c (ru_action r) rule_id ("policy pack " +:+ py_repr (pp_name p) +:+ " applies") blast
              (Some (pp_version p)) dry_run)
  end.

Definition default_packs (c : PolicyContext) (packs : Packs.store) : list PolicyPack :=
  let ctx := context_for_run (pc_tenant_id c) None None in
  let team_names := pp_name <$> Packs.for_team (pc_team c) ctx packs in
  filter (λ p, pp_default p = true ∧ pp_name p ∉ team_names) (Packs.list_packs ctx packs).

Definition pack_decision (now : Z) (packs : Packs.store) (c : PolicyContext) (blast : BlastRadius)
    (dry_run : bool) : option PolicyDecision :=
  let ctx := context_for_run (pc_tenant_id c) None None in
  match decision_from_packs now (Packs.for_team (pc_team c) ctx packs) c blast dry_run with
  | Some d => Some d
  | None => decision_from_packs now (default_packs c packs) c blast dry_run
  end.

Fixpoint time_loop (when_ now : Z) (ws : list TimeWindow) (c : PolicyContext) (blast : BlastRadius)
    (dry_run : bool) : outcome PolicyExn (option PolicyDecision) :=
  match ws with
  | [] => Ret None
  | w :: ws' =>
      if negb (window_matches w c) then time_loop when_ now ws' c blast dry_run
      else if tw_blackout w
      then Ret (Some (decide_ now c DENY "blackout" "action falls in a blackout calendar" blast None dry_run))
      else
        match window_allows w when_ with
        | Raise e => Raise e
        | Ret true => time_loop when_ now ws' c blast dry_run
        | Ret false =>
            Ret (Some (decide_ now c DENY "outside_time_window"
              ("action is outside the allowed window (" +:+ tw_start w +:+ "-" +:+ tw_end w +:+ " "
               +:+ tw_tz w +:+ ")") blast None dry_run))
        end
  end.

(** [_time_decision]: [now1] is its own clock reading, [now2] that of [_decide]. *)
Definition time_decision (now1 now2 : Z) (c : PolicyContext) (blast : BlastRadius) (dry_run : bool)
    : outcome PolicyExn (option PolicyDecision) :=
  time_loop (default now1 (pc_at c)) now2 (pc_time_windows c) c blast dry_run.

(** The part of [_evaluate] below the deny list and the packs, for a tool. *)
Definition tool_rules (now : Z) (c : PolicyContext) (tool_id : string) (blast : BlastRadius) (dry_run : bool)
    : PolicyDecision :=
  let decide o rule reason := decide_ now c o rule reason blast None dry_run in
  if bool_decide (pc_data_sensitivity c = RESTRICTED) && bool_decide (pc_action_class c ≠ None)
     && bool_decide (pc_action_class c ≠ Some AC_READ_ONLY)
  then decide DENY "sensitivity.restricted" "restricted data forbids write actions"
  else if bool_decide (pc_data_sensitivity c = RESTRICTED) && bool_decide (pc_action_class c = Some AC_READ_ONLY)
  then decide ESCALATE "sensitivity.restricted.read" "read-only access to restricted data requires approval"
  else if bool_decide (pc_data_sensitivity c = PII) && bool_decide (pc_tool_trust c = Some TRUST_DESTRUCTIVE)
  then decide DENY "sensitivity.pii" "PII forbids destructive tools"
  else
    match pc_tools c with
    | None => decide DENY "default.deny" ("tool " +:+ py_repr tool_id +:+ " is not allowed")
    | Some tools =>
        if negb (is_allowed tools tool_id)
        then decide DENY "default.deny" ("tool " +:+ py_repr tool_id +:+ " is not allowed")
        else if bool_decide (pc_environment c = SANDBOX)
        then decide ALLOW "sandbox.allow" "sandbox context allows the tool"
        else if bool_decide (pc_environment c = PRODUCTION)
                && bool_decide (pc_certification_status c ≠ CERTIFIED)
        then decide DENY "certification.production" "production requires a certified workload"
        else if bool_decide (pc_tool_trust c = Some TRUST_DESTRUCTIVE)
        then decide ESCALATE "trust.destructive" "destructive tools require approval"
        else if approval_required tools tool_id
                || match pc_action_class c with
                   | Some a => bool_decide (a ∈ pc_approval_required_for c) | None => false end
        then decide ESCALATE "approvals.required" "action requires approval"
        else if (71 <=? br_score blast)%Z
        then
          if bool_decide (pc_environment c = PRODUCTION) && bool_decide (pc_certification_status c = CERTIFIED)
          then decide ALLOW "blast_radius.high.certified" "high blast radius permitted by production certification"
          else decide_ now c DENY "blast_radius.high" "blast radius is high" blast None false
        else if (31 <=? br_score blast)%Z
        then decide ESCALATE "blast_radius.medium" "blast radius is medium"
        else decide_ now c ALLOW "manifest.allow" "tool is explicitly allowed" blast None false
    end.

Definition evaluate (now1 now2 : Z) (packs : Packs.store) (c : PolicyContext) (dry_run : bool)
    : outcome PolicyExn PolicyDecision :=
  let blast := compute_blast_radius c in
  let decide o rule reason := decide_ now2 c o rule reason blast None dry_run in
  if bool_decide (pc_certification_status c = QUARANTINED) && bool_decide (pc_environment c ≠ SANDBOX)
  then Ret (decide DENY "certification.quarantined" "workload is quarantined")
  else if pc_injection_detected c
  then Ret (decide BLOCK_INJECTION "injection.scan" "tool output contains injection patterns")
  else if pc_budget_exhausted c
  then Ret (decide DENY "budget.exhausted" "budget is exhausted")
  else
    match pc_tool_id c with
    | None =>
        match pack_decision now2 packs c blast dry_run with
        | Some d => Ret d
        | None => Ret (decide ALLOW "run.allow" "no tool policy applies")
        end
    | Some tool_id =>
        match time_decision now1 now2 c blast dry_run with
        | Raise e => Raise e
        | Ret (Some d) => Ret d
        | Ret None =>
            if pc_taint_untrusted c && bool_decide (pc_tool_trust c = Some TRUST_DESTRUCTIVE)
               && match pc_tools c with Some tools => negb (allows_untrusted tools tool_id) | None => true end
            then Ret (decide DENY "taint.block" "untrusted input may not reach a destructive tool")
            else if match pc_tools c with Some tools => is_denied tools tool_id | None => false end
            then Ret (decide DENY "manifest.deny" ("tool " +:+ py_repr tool_id +:+ " is explicitly denied"))
            else
              match pack_decision now2 packs c blast dry_run with
              | Some d => Ret d
              | None => Ret (tool_rules now2 c tool_id blast dry_run)
              end
        end
    end.

(** ** When a tool call is allowed *)

Definition pack_clear (packs : Packs.store) (c : PolicyContext) : Prop :=
  pack_hits (Packs.for_team (pc_team c) (context_for_run (pc_tenant_id c) None None) packs) c = [] ∧
  pack_hits (default_packs c packs) c = [].

(** A window that applies is no blackout and is open at [when_]. *)
Definition window_clear (when_ : Z) (c : PolicyContext) (w : TimeWindow) : Prop :=
  window_matches w c = true → tw_blackout w = false ∧ window_allows w when_ = Ret true.

Definition windows_clear (when_ : Z) (c : PolicyContext) : Prop :=
  Forall (window_clear when_ c) (pc_time_windows c).

(** The manifest and context rules below the packs, declaratively. *)
Definition rules_permit (c : PolicyContext) (tool_id : string) : Prop :=
  (pc_data_sensitivity c = RESTRICTED → pc_action_class c = None) ∧
  (pc_data_sensitivity c = PII → pc_tool_trust c ≠ Some TRUST_DESTRUCTIVE) ∧
  ∃ tools, pc_tools c = Some tools ∧ is_allowed tools tool_id = true ∧
    (pc_environment c = SANDBOX ∨
     ((pc_environment c = PRODUCTION → pc_certification_status c = CERTIFIED) ∧
      pc_tool_trust c ≠ Some TRUST_DESTRUCTIVE ∧
      approval_required tools tool_id = false ∧
      (∀ a, pc_action_class c = Some a → a ∉ pc_approval_required_for c) ∧
      (br_score (compute_blast_radius c) ≤ 30 ∨
       pc_environment c = PRODUCTION ∧ 71 ≤ br_score (compute_blast_radius c))%Z)).

Definition tool_call_permitted (when_ : Z) (packs : Packs.store) (c : PolicyContext) (tool_id : string) : Prop :=
  (pc_certification_status c = QUARANTINED → pc_environment c = SANDBOX) ∧
  pc_injection_detected c = false ∧ pc_budget_exhausted c = false ∧
  windows_clear when_ c ∧
  (pc_taint_untrusted c = true → pc_tool_trust c = Some TRUST_DESTRUCTIVE →
   ∃ tools, pc_tools c = Some tools ∧ allows_untrusted tools tool_id = true) ∧
  pack_clear packs c ∧ rules_permit c tool_id.

Lemma is_allowed_not_denied tools tool_id : is_allowed tools tool_id = true → is_denied tools tool_id = false.
Proof. unfold is_allowed. by destruct (is_denied _ _). Qed.

Lemma pack_hit_not_allow packs c p r : (p, r) ∈ pack_hits packs c → ru_action r ≠ ALLOW.
Proof.
  unfold pack_hits. rewrite list_elem_of_bind. intros (p' & Hin & _).
  apply list_elem_of_bind in Hin as (o & Hin & _). apply list_elem_of_bind in Hin as (r' & Hin & Hr).
  apply list_elem_of_singleton in Hin as [= <- <-]. apply list_elem_of_filter in Hr as [Hr _].
  unfold rule_applies in Hr. by case_bool_decide.
Qed.

Lemma decision_from_packs_spec now packs c blast dry_run :
  match decision_from_packs now packs c blast dry_run with
  | None => pack_hits packs c = []
  | Some d => pack_hits packs c ≠ [] ∧ pd_outcome d ≠ ALLOW ∧ pd_dry_run d = dry_run
  end.
Proof.
  unfold decision_from_packs. destruct (pack_hits packs c) as [|[p r] l] eqn:Hh; [done|]. simpl.
  split_and!; [done| |done]. apply (pack_hit_not_allow packs c p r). rewrite Hh. by left.
Qed.

Lemma pack_decision_spec now packs c blast dry_run :
  match pack_decision now packs c blast dry_run with
  | None => pack_clear packs c
  | Some d => ¬ pack_clear packs c ∧ pd_outcome d ≠ ALLOW ∧ pd_dry_run d = dry_run
  end.
Proof.
  unfold pack_decision, pack_clear.
  pose proof (decision_from_packs_spec now (Packs.for_team (pc_team c) (context_for_run (pc_tenant_id c) None None) packs)
                c blast dry_run) as H1.
  destruct (decision_from_packs now _ c blast dry_run); [naive_solver|].
  pose proof (decision_from_packs_spec now (default_packs c packs) c blast dry_run) as H2.
  destruct (decision_from_packs now (default_packs c packs) c blast dry_run); naive_solver.
Qed.

Lemma time_loop_spec when_ now ws c blast dry_run :
  match time_loop when_ now ws c blast dry_run with
  | Ret None => Forall (window_clear when_ c) ws
  | Ret (Some d) =>
      ¬ Forall (window_clear when_ c) ws ∧
      pd_outcome d = DENY ∧ pd_dry_run d = dry_run
  | Raise _ =>
      ¬ Forall (window_clear when_ c) ws
  end.
Proof.
  induction ws as [|w ws IH]; simpl; [constructor|].
  assert (window_clear when_ c w ↔ (window_matches w c = true → tw_blackout w = false ∧ window_allows w when_ = Ret true))
    as Hw by done.
  destruct (window_matches w c); simpl.
  2: { destruct (time_loop _ _ _ _ _ _) as [[d|]|e]; rewrite Forall_cons; intuition congruence. }
  destruct (tw_blackout w); simpl; [rewrite Forall_cons; intuition congruence|].
  destruct (window_allows w when_) as [[|]|e]; simpl; [|rewrite Forall_cons; intuition congruence..].
  destruct (time_loop _ _ _ _ _ _) as [[d|]|e]; rewrite Forall_cons; intuition congruence.
Qed.

(** The first three rules look at the data's sensitivity only. *)
Lemma sensitivity_clear c :
  bool_decide (pc_data_sensitivity c = RESTRICTED) && bool_decide (pc_action_class c ≠ None)
    && bool_decide (pc_action_class c ≠ Some AC_READ_ONLY) = false →
  bool_decide (pc_data_sensitivity c = RESTRICTED) && bool_decide (pc_action_class c = Some AC_READ_ONLY) = false →
  pc_data_sensitivity c = RESTRICTED → pc_action_class c = None.
Proof.
  intros H1 H2 Hr. rewrite bool_decide_true in H1, H2 by done. simpl in *.
  by destruct (pc_action_class c) as [[]|].
Qed.

Lemma tool_rules_allow_sound now c tool_id dry_run :
  pd_outcome (tool_rules now c tool_id (compute_blast_radius c) dry_run) = ALLOW → rules_permit c tool_id.
Proof.
  unfold tool_rules, rules_permit. generalize (compute_blast_radius c) as blast; intros blast.
  destruct (bool_decide _ && _ && _) eqn:H1; [done|]. destruct (bool_decide _ && bool_decide (_ = Some AC_READ_ONLY)) eqn:H2; [done|].
  pose proof (sensitivity_clear c H1 H2) as Hres. clear H1 H2.
  destruct (bool_decide (_ = PII) && _) eqn:H3; [done|].
  assert (pc_data_sensitivity c = PII → pc_tool_trust c ≠ Some TRUST_DESTRUCTIVE) as Hpii.
  { intros Hp Ht. by rewrite Hp, Ht in H3. }
  destruct (pc_tools c) as [tools|]; [|done]. destruct (is_allowed tools tool_id) eqn:Hal; simpl; [|done].
  destruct (bool_decide (pc_environment c = SANDBOX)) eqn:Hsb.
  { intros _. apply bool_decide_eq_true in Hsb. split; [done|]. split; [done|]. exists tools. by split_and!; [..|left]. }
  destruct (bool_decide (pc_environment c = PRODUCTION) && bool_decide (pc_certification_status c ≠ CERTIFIED)) eqn:Hc; [done|].
  destruct (bool_decide (pc_tool_trust c = Some TRUST_DESTRUCTIVE)) eqn:Htr; [done|]. apply bool_decide_eq_false in Htr.
  destruct (approval_required tools tool_id) eqn:Hap; [done|]. simpl.
  destruct (match pc_action_class c with Some a => _ | None => _ end) eqn:Hac; [done|].
  intros Hout. split; [done|]. split; [done|]. exists tools. split; [done|]. split; [done|]. right.
  split; [|split; [exact Htr|split; [done|split]]].
  - intros He. rewrite bool_decide_true in Hc by done. simpl in Hc.
    apply bool_decide_eq_false in Hc. by apply dec_stable.
  - intros a Ha. rewrite Ha in Hac. by apply bool_decide_eq_false in Hac.
  - revert Hout. destruct (Z.leb_spec 71 (br_score blast)) as [Hs|Hs].
    + destruct (bool_decide (pc_environment c = PRODUCTION)) eqn:He; [|done]. apply bool_decide_eq_true in He. intros _. right. by split.
    + destruct (Z.leb_spec 31 (br_score blast)); [done|]. intros _. left. lia.
Qed.

Lemma tool_rules_allow_complete now c tool_id dry_run :
  rules_permit c tool_id → pd_outcome (tool_rules now c tool_id (compute_blast_radius c) dry_run) = ALLOW.
Proof.
  unfold tool_rules, rules_permit. generalize (compute_blast_radius c) as blast; intros blast.
  intros (Hres & Hpii & tools & Hts & Hal & Hcase). rewrite Hts, Hal. simpl.
  replace (bool_decide (pc_data_sensitivity c = RESTRICTED) && bool_decide (pc_action_class c ≠ None)) with false
    by (symmetry; case_bool_decide; [by rewrite (Hres ltac:(done))|done]). simpl.
  replace (bool_decide (pc_data_sensitivity c = RESTRICTED) && bool_decide (pc_action_class c = Some AC_READ_ONLY)) with false
    by (symmetry; case_bool_decide; [by rewrite (Hres ltac:(done))|done]).
  replace (bool_decide (pc_data_sensitivity c = PII) && bool_decide (pc_tool_trust c = Some TRUST_DESTRUCTIVE)) with false
    by (symmetry; case_bool_decide; simpl; [apply bool_decide_eq_false; auto|done]).
  destruct Hcase as [->|(Hcert & Htr & Hap & Hac & Hbl)]; [done|].
  destruct (bool_decide (pc_environment c = SANDBOX)); [done|].
  replace (bool_decide (pc_environment c = PRODUCTION) && bool_decide (pc_certification_status c ≠ CERTIFIED)) with false
    by (symmetry; case_bool_decide; simpl; [apply bool_decide_eq_false; intros Hn; apply Hn; auto|done]).
  rewrite (bool_decide_false (pc_tool_trust c = _)) by done. rewrite Hap. simpl.
  replace (match pc_action_class c with Some a => _ | None => _ end) with false
    by (destruct (pc_action_class c) as [a|]; [symmetry; apply bool_decide_eq_false; auto|done]).
  destruct (Z.leb_spec 71 (br_score blast)).
  - destruct Hbl as [?|[He _]]; [lia|]. by rewrite (Hcert He), He.
  - destruct (Z.leb_spec 31 (br_score blast)); [|done]. destruct Hbl; lia.
Qed.

Lemma tool_rules_allow_iff now c tool_id dry_run :
  pd_outcome (tool_rules now c tool_id (compute_blast_radius c) dry_run) = ALLOW ↔ rules_permit c tool_id.
Proof. split; [apply tool_rules_allow_sound|apply tool_rules_allow_complete]. Qed.

Lemma evaluate_allow_iff now1 now2 packs c dry_run tool_id :
  pc_tool_id c = Some tool_id →
  (∃ d, evaluate now1 now2 packs c dry_run = Ret d ∧ pd_outcome d = ALLOW)
  ↔ tool_call_permitted (default now1 (pc_at c)) packs c tool_id.
Proof.
  intros Ht. unfold evaluate, tool_call_permitted. rewrite Ht.
  destruct (bool_decide (_ = QUARANTINED) && _) eqn:Hq.
  { apply andb_true_iff in Hq as [Hq He]. apply bool_decide_eq_true in Hq, He. naive_solver. }
  assert (pc_certification_status c = QUARANTINED → pc_environment c = SANDBOX) as Hquar.
  { intros Hs. rewrite bool_decide_true in Hq by done. simpl in Hq. apply bool_decide_eq_false in Hq.
    by apply dec_stable. }
  clear Hq. destruct (pc_injection_detected c); [naive_solver|].
  destruct (pc_budget_exhausted c); [naive_solver|].
  unfold time_decision, windows_clear.
  match goal with |- context [time_loop ?a ?b ?w c ?bl dry_run] =>
    pose proof (time_loop_spec a b w c bl dry_run) as Htime;
    destruct (time_loop a b w c bl dry_run) as [[d|]|e]; [naive_solver congruence| |naive_solver] end.
  match goal with |- context [if ?t then Ret (decide_ _ _ DENY "taint.block" _ _ _ _) else _] =>
    destruct t eqn:Htaint end.
  { split; [naive_solver congruence|intros (_ & _ & _ & _ & Hu & _); exfalso].
    apply andb_true_iff in Htaint as [Htaint Htools]. apply andb_true_iff in Htaint as [Htaint Hd].
    apply bool_decide_eq_true in Hd. destruct (Hu Htaint Hd) as (tools & Hts & Hau).
    by rewrite Hts, Hau in Htools. }
  assert (pc_taint_untrusted c = true → pc_tool_trust c = Some TRUST_DESTRUCTIVE →
          ∃ tools, pc_tools c = Some tools ∧ allows_untrusted tools tool_id = true) as Hu.
  { intros Hta Htr. rewrite Hta, bool_decide_true in Htaint by done. simpl in Htaint.
    destruct (pc_tools c) as [tools|]; [exists tools; by apply negb_false_iff in Htaint|done]. }
  match goal with |- context [if ?t then Ret (decide_ _ _ DENY "manifest.deny" _ _ _ _) else _] =>
    destruct t eqn:Hden end.
  { split; [naive_solver congruence|intros (_ & _ & _ & _ & _ & _ & _ & _ & tools & Hts & Hal & _); exfalso].
    rewrite Hts in Hden. apply is_allowed_not_denied in Hal. congruence. }
  match goal with |- context [pack_decision ?n packs c ?b dry_run] =>
    pose proof (pack_decision_spec n packs c b dry_run) as Hp;
    destruct (pack_decision n packs c b dry_run) as [d|]; [naive_solver congruence|] end.
  rewrite <-(tool_rules_allow_iff now2 c tool_id dry_run). naive_solver.
Qed.

(** C2: a tool call is allowed only when nothing denies it and everything required
    holds: the workload is not quarantined outside the sandbox, the tool is on the
    manifest's allow list and not denied, no pack rule, time window, taint,
    injection, exhausted budget or data sensitivity stands against it, and outside
    the sandbox production asks for a certified workload, the tool is not
    destructive, needs no approval, and its blast radius is low (or high, in
    production); for a certified workload this is also enough.  Any other call is
    denied, escalated or blocked, unless reading a time window raises. *)
Theorem policy_allow_iff now1 now2 packs c dry_run tool_id :
  pc_tool_id c = Some tool_id →
  let permitted := tool_call_permitted (default now1 (pc_at c)) packs c tool_id in
  let allowed := ∃ d, evaluate now1 now2 packs c dry_run = Ret d ∧ pd_outcome d = ALLOW in
  (allowed → permitted) ∧
  (pc_certification_status c = CERTIFIED → permitted → allowed) ∧
  (¬ permitted → match evaluate now1 now2 packs c dry_run with
                 | Ret d => pd_outcome d = DENY ∨ pd_outcome d = ESCALATE ∨ pd_outcome d = BLOCK_INJECTION
                 | Raise _ => True end).
Proof.
  intros Ht permitted allowed. pose proof (evaluate_allow_iff now1 now2 packs c dry_run tool_id Ht) as Hiff.
  fold permitted allowed in Hiff. split_and!; [apply Hiff|intros _; apply Hiff|]. intros Hn.
  assert (¬ allowed) as Hna by (intros Ha; by apply Hn, Hiff). unfold allowed in Hna.
  destruct (evaluate now1 now2 packs c dry_run) as [d|e]; [|done]. destruct (pd_outcome d) eqn:Ho; [|by left|by right; left|by right; right].
  destruct Hna. by exists d.
Qed.

(** ** Packs *)

Lemma pack_clear_nil c : pack_clear [] c.
Proof. unfold pack_clear, default_packs, Packs.for_team. by destruct (pc_team c). Qed.

(** Packs only ever take permissions away: a tool call allowed under some
    packs is allowed without packs. *)
Theorem policy_packs_never_allow now1 now2 packs c dry_run tool_id d :
  pc_tool_id c = Some tool_id →
  evaluate now1 now2 packs c dry_run = Ret d → pd_outcome d = ALLOW →
  ∃ d', evaluate now1 now2 [] c dry_run = Ret d' ∧ pd_outcome d' = ALLOW.
Proof.
  intros Ht He Ho. apply (evaluate_allow_iff now1 now2 [] c dry_run tool_id Ht).
  destruct (proj1 (evaluate_allow_iff now1 now2 packs c dry_run tool_id Ht)) as (?&?&?&?&?&?&?); [by eexists|].
  unfold tool_call_permitted. split_and!; try done. apply pack_clear_nil.
Qed.

(** A pack's escalation is decided before the built-in denials: for a tool
    the manifest does not list, the engine denies by default without the pack
    and asks for an approval with it. *)
Theorem policy_pack_escalation_overrides_default_deny now1 now2 packs c dry_run tool_id p r hits :
  pc_tool_id c = Some tool_id → pc_tools c = None →
  pc_certification_status c ≠ QUARANTINED → pc_injection_detected c = false →
  pc_budget_exhausted c = false → pc_taint_untrusted c = false → pc_time_windows c = [] →
  pc_data_sensitivity c = PUBLIC →
  pack_hits (Packs.for_team (pc_team c) (context_for_run (pc_tenant_id c) None None) packs) c = (p, r) :: hits →
  ru_action r = ESCALATE →
  (∃ d, evaluate now1 now2 [] c dry_run = Ret d ∧ pd_outcome d = DENY ∧ pd_rule d = "default.deny") ∧
  (∃ d, evaluate now1 now2 packs c dry_run = Ret d ∧ pd_outcome d = ESCALATE ∧ pd_rule d = "pack.escalate").
Proof.
  intros Ht Hts Hq Hi Hb Hta Hw Hds Hh Hr.
  unfold evaluate, time_decision. rewrite Ht, Hi, Hb, Hta, Hw, Hts. rewrite (bool_decide_false (_ = QUARANTINED)) by done.
  cbn [andb time_loop]. split.
  - pose proof (pack_decision_spec now2 [] c (compute_blast_radius c) dry_run) as Hp.
    destruct (pack_decision now2 [] c _ dry_run); [by destruct Hp as [[] _]; apply pack_clear_nil|].
    eexists. split; [done|]. unfold tool_rules. rewrite Hds, Hts. done.
  - unfold pack_decision, decision_from_packs. rewrite Hh. eexists. split; [done|]. cbn. by rewrite Hr.
Qed.

Lemma pack_tenant_eq packs1 packs2 now c blast dry_run :
  Packs.list_packs (context_for_run (pc_tenant_id c) None None) packs1
  = Packs.list_packs (context_for_run (pc_tenant_id c) None None) packs2 →
  pack_decision now packs1 c blast dry_run = pack_decision now packs2 c blast dry_run.
Proof.
  intros H. unfold pack_decision, default_packs, Packs.for_team. by rewrite H.
Qed.

Lemma save_other_tenant pack ctx packs t :
  pp_tenant_id pack ≠ t →
  Packs.list_packs (context_for_run t None None) (Packs.save pack ctx packs).2
  = Packs.list_packs (context_for_run t None None) packs.
Proof.
  intros Hne. unfold Packs.save, require, bind. destruct (scopes ctx _); simpl; [|done].
  destruct (od_mem _ packs) eqn:Hm; simpl; [done|]. unfold Packs.list_packs. f_equal.
  rewrite od_set_fresh by done. unfold od_values. rewrite fmap_app, filter_app. simpl.
  rewrite filter_cons_False; [by rewrite filter_nil, app_nil_r|]. simpl.
  unfold scopes; simpl. by intros Hs%bool_decide_eq_true.
Qed.

(** A tenant's decisions do not depend on other tenants' packs: whoever
    registers a pack for another tenant leaves every decision unchanged. *)
Theorem policy_tenant_isolation now1 now2 packs c dry_run pack ctx :
  pp_tenant_id pack ≠ pc_tenant_id c →
  evaluate now1 now2 (Packs.save pack ctx packs).2 c dry_run = evaluate now1 now2 packs c dry_run.
Proof.
  intros Hne. unfold evaluate.
  rewrite !(pack_tenant_eq _ packs) by by apply save_other_tenant. done.
Qed.

(** ** Blast radius and dry runs *)

Lemma blast_score_bounds c : (0 ≤ br_score (compute_blast_radius c) ≤ 100)%Z.
Proof.
  unfold compute_blast_radius, blast_factors; simpl.
  destruct (bool_decide _), (pc_environment c), (pc_data_sensitivity c), (pc_action_class c) as [[]|],
    (pc_certification_status c); simpl; lia.
Qed.

(** The branch that denies on a high blast radius needs a score that, after the
    earlier rules, no context reaches. *)
Lemma blast_staging_bound c :
  pc_environment c = STAGING → pc_tool_trust c ≠ Some TRUST_DESTRUCTIVE →
  (pc_data_sensitivity c = RESTRICTED → pc_action_class c = None) →
  (br_score (compute_blast_radius c) ≤ 65)%Z.
Proof.
  intros He Ht Hr. unfold compute_blast_radius, blast_factors; simpl. rewrite He, bool_decide_false by done.
  destruct (pc_data_sensitivity c); try rewrite (Hr eq_refl);
    destruct (pc_action_class c) as [[]|], (pc_certification_status c); simpl; lia.
Qed.

Definition set_dry (d : PolicyDecision) : PolicyDecision :=
  {| pd_run_id := pd_run_id d; pd_outcome := pd_outcome d; pd_reason := pd_reason d; pd_rule := pd_rule d;
     pd_action_class := pd_action_class d; pd_timestamp := pd_timestamp d; pd_blast_radius := pd_blast_radius d;
     pd_certification_status := pd_certification_status d; pd_pack_version := pd_pack_version d;
     pd_detector_set_version := pd_detector_set_version d; pd_dry_run := true |}.

(** What a dry run changes in the decision of the real run. *)
Definition marked (d : PolicyDecision) : PolicyDecision :=
  if bool_decide (pd_rule d = "manifest.allow") then d else set_dry d.

Lemma decision_from_packs_dry now packs c blast :
  decision_from_packs now packs c blast true = marked <$> decision_from_packs now packs c blast false.
Proof.
  unfold decision_from_packs. destruct (pack_hits packs c) as [|[p r] l]; [done|]. simpl.
  case_bool_decide; reflexivity.
Qed.

Lemma pack_decision_dry now packs c blast :
  pack_decision now packs c blast true = marked <$> pack_decision now packs c blast false.
Proof.
  unfold pack_decision. rewrite !decision_from_packs_dry.
  destruct (decision_from_packs now _ c blast false); done.
Qed.

Lemma time_loop_dry when_ now ws c blast :
  time_loop when_ now ws c blast true =
  match time_loop when_ now ws c blast false with
  | Ret d => Ret (marked <$> d) | Raise e => Raise e end.
Proof.
  induction ws as [|w ws IH]; simpl; [done|]. destruct (negb _); [done|]. destruct (tw_blackout w); [done|].
  by destruct (window_allows w when_) as [[]|].
Qed.

(** Past the earlier rules, a score of 71 means certified production. *)
Lemma high_blast_certified c :
  (bool_decide (pc_data_sensitivity c = RESTRICTED) && bool_decide (pc_action_class c ≠ None)
     && bool_decide (pc_action_class c ≠ Some AC_READ_ONLY) = false) →
  (bool_decide (pc_data_sensitivity c = RESTRICTED) && bool_decide (pc_action_class c = Some AC_READ_ONLY) = false) →
  bool_decide (pc_environment c = SANDBOX) = false →
  (bool_decide (pc_environment c = PRODUCTION) && bool_decide (pc_certification_status c ≠ CERTIFIED) = false) →
  bool_decide (pc_tool_trust c = Some TRUST_DESTRUCTIVE) = false →
  (71 <=? br_score (compute_blast_radius c))%Z = true →
  bool_decide (pc_environment c = PRODUCTION) && bool_decide (pc_certification_status c = CERTIFIED) = true.
Proof.
  intros H1 H2 Hs Hc Ht Hb. pose proof (sensitivity_clear c H1 H2) as Hr. apply bool_decide_eq_false in Ht.
  destruct (pc_environment c) eqn:He; [done| |by destruct (pc_certification_status c)].
  pose proof (blast_staging_bound c He Ht Hr). apply Z.leb_le in Hb. lia.
Qed.

Lemma tool_rules_dry now c tool_id :
  tool_rules now c tool_id (compute_blast_radius c) true
  = marked (tool_rules now c tool_id (compute_blast_radius c) false) ∧
  pd_rule (tool_rules now c tool_id (compute_blast_radius c) false) ≠ "blast_radius.high".
Proof.
  unfold tool_rules.
  destruct (bool_decide _ && _ && _) eqn:H1; [done|].
  destruct (bool_decide _ && bool_decide (_ = Some AC_READ_ONLY)) eqn:H2; [done|].
  destruct (bool_decide (_ = PII) && _); [done|].
  destruct (pc_tools c) as [tools|]; [|done]. destruct (negb _); [done|].
  destruct (bool_decide (pc_environment c = SANDBOX)) eqn:Hs; [done|].
  destruct (bool_decide (pc_environment c = PRODUCTION) && bool_decide (pc_certification_status c ≠ CERTIFIED)) eqn:Hc; [done|].
  destruct (bool_decide (pc_tool_trust c = Some TRUST_DESTRUCTIVE)) eqn:Ht; [done|].
  destruct (approval_required _ _ || _); [done|].
  destruct (71 <=? br_score (compute_blast_radius c))%Z eqn:Hb.
  - by rewrite (high_blast_certified c H1 H2 Hs Hc Ht Hb).
  - by destruct (31 <=? br_score (compute_blast_radius c))%Z.
Qed.

(** A dry run evaluates exactly like the real run (same outcome, rule,
    reason and errors) and marks its decision, except for a plain manifest
    allowance, whose decision is not marked. *)
Theorem policy_dry_run now1 now2 packs c :
  evaluate now1 now2 packs c true =
  match evaluate now1 now2 packs c false with
  | Ret d => Ret (if bool_decide (pd_rule d = "manifest.allow") then d else set_dry d)
  | Raise e => Raise e
  end.
Proof.
  change (λ d, if bool_decide (pd_rule d = "manifest.allow") then d else set_dry d) with marked.
  unfold evaluate. destruct (_ && _); [done|]. destruct (pc_injection_detected c); [done|].
  destruct (pc_budget_exhausted c); [done|]. rewrite pack_decision_dry. unfold time_decision.
  rewrite time_loop_dry. destruct (pc_tool_id c) as [tool_id|].
  2: by destruct (pack_decision now2 packs c _ false).
  destruct (time_loop _ _ _ _ _ _) as [[d|]|e]; [done| |done]. simpl.
  destruct (_ && _ && _); [done|]. destruct (match pc_tools c with Some _ => _ | None => _ end); [done|].
  destruct (pack_decision now2 packs c _ false); [done|]. simpl.
  by rewrite (proj1 (tool_rules_dry now2 c tool_id)).
Qed.

(** The rule that denies on a high blast radius never decides: whenever the
    score reaches 71 past the earlier rules, the workload is certified and in
    production, where the high score is permitted. *)
Theorem policy_high_blast_never_denies now c tool_id dry_run :
  pd_rule (tool_rules now c tool_id (compute_blast_radius c) dry_run) ≠ "blast_radius.high".
Proof.
  destruct (tool_rules_dry now c tool_id) as [Ht Hf]. destruct dry_run; [|done].
  rewrite Ht. unfold marked. by case_bool_decide.
Qed.
End Engine.

(** ** Concrete evaluations *)

Definition demo_tools : ToolsSpec :=
  {| ts_allow := [{| tr_tool_id := "search"; tr_trust_level := TRUST_READ_ONLY; tr_require_approval := false;
                     tr_allow_untrusted := false |}]; ts_deny := []; ts_mcp_servers := []; ts_default_trust := TRUST_READ_ONLY |}.

Definition demo_context (tools : option ToolsSpec) : PolicyContext :=
  {| pc_run_id := "r1"; pc_workload := "w"; pc_team := Some "platform"; pc_tenant_id := "acme";
     pc_environment := STAGING; pc_action_class := Some AC_READ_ONLY; pc_tool_id := Some "search";
     pc_tool_trust := Some TRUST_READ_ONLY; pc_data_sensitivity := PUBLIC;
     pc_certification_status := CERTIFIED; pc_tools := tools; pc_approval_required_for := [];
     pc_injection_detected := false; pc_budget_exhausted := false; pc_taint_untrusted := false;
     pc_at := Some 0%Z; pc_time_windows := [] |}.

Definition demo_rule : PolicyPackRule := {| ru_action := ESCALATE; ru_action_class := None; ru_tool_trust := None |}.

Definition demo_pack (tenant team : string) : PolicyPack :=
  {| pp_name := "pack"; pp_team := team; pp_version := "1"; pp_tenant_id := tenant; pp_default := false;
     pp_overrides := [{| ov_match := {| rm_environment := Some STAGING; rm_data_sensitivity := None |};
                         ov_rules := [demo_rule] |}]; pp_inherits := [] |}.

Definition demo_store : Packs.store := [(("acme", "pack"), demo_pack "acme" "platform")].

Definition no_zones (z : string) (t : Z) : option Z := None.

Lemma policy_allow_iff_witness :
  ∃ d, evaluate no_zones 0 0 [] (demo_context (Some demo_tools)) false = Ret d ∧ pd_outcome d = ALLOW.
Proof.
  apply (proj1 (proj2 (policy_allow_iff no_zones 0 0 [] (demo_context (Some demo_tools)) false "search" eq_refl))); [reflexivity|].
  unfold tool_call_permitted, windows_clear, pack_clear, rules_permit.
  split_and!; try (vm_compute; congruence); try apply Forall_nil_2.
  exists demo_tools. split; [reflexivity|]. split; [reflexivity|]. right.
  split; [done|]. split; [done|]. split; [reflexivity|]. split; [intros a _; apply not_elem_of_nil|left; vm_compute; congruence].
Defined.

Lemma policy_packs_never_allow_witness :
  ∃ d', evaluate no_zones 0 0 [] (demo_context (Some demo_tools)) false = Ret d' ∧ pd_outcome d' = ALLOW.
Proof.
  eapply (policy_packs_never_allow no_zones 0 0 [(("acme", "pack"), demo_pack "acme" "other")]
    (demo_context (Some demo_tools)) false "search"); vm_compute; reflexivity.
Defined.

Lemma policy_pack_escalation_overrides_default_deny_witness :
  (∃ d, evaluate no_zones 0 0 [] (demo_context None) false = Ret d ∧ pd_outcome d = DENY ∧ pd_rule d = "default.deny") ∧
  (∃ d, evaluate no_zones 0 0 demo_store (demo_context None) false = Ret d ∧ pd_outcome d = ESCALATE ∧
        pd_rule d = "pack.escalate").
Proof.
  apply (policy_pack_escalation_overrides_default_deny no_zones 0 0 demo_store (demo_context None) false "search"
    (demo_pack "acme" "platform") demo_rule []); vm_compute; (reflexivity || congruence).
Defined.

Lemma policy_tenant_isolation_witness :
  evaluate no_zones 0 0 (Packs.save (demo_pack "globex" "platform") (context_for_run "globex" None None) demo_store).2
    (demo_context None) false
  = evaluate no_zones 0 0 demo_store (demo_context None) false.
Proof. apply policy_tenant_isolation. vm_compute. congruence. Defined.
