(* ===== verification/Approvals.v ===== *)
(** * Approvals and the tool kill switch ([policy/approvals.py],
    [policy/store.py], [policy/kill_switch.py], [core/approval.py])

    The approval service over the in-memory approval store, and the fleet-wide
    kill switch with its audit trail.  Notification callbacks (the fleet-event
    sink, the on-call escalation hooks) are parameters that act on a state of
    their own and whose exceptions the code swallows. *)

From stdpp Require Import base strings numbers relations list.
From S2P Require Import Prelude Tenancy CoreModels.

Inductive ApprovalStatus := PENDING | APPROVED | DENIED.

#[export] Instance ApprovalStatus_eq_dec : EqDecision ApprovalStatus.
Proof. solve_decision. Defined.

Record ApprovalComment := mkComment { cm_author : string; cm_text : string; cm_created_at : Z }.

Record ApprovalRecord := mkApproval {
  ap_approval_id : string;
  ap_run_id : string;
  ap_workload : string;
  ap_rule : string;
  ap_reason : string;
  ap_action_class : option ActionClass;
  ap_tool_id : option string;
  ap_requested_at : Z;
  ap_status : ApprovalStatus;
  ap_decided_at : option Z;
  ap_decided_by : option string;
  ap_decision_reason : option string;
  ap_delegated_to : option string;
  ap_delegated_by : option string;
  ap_comments : list ApprovalComment;
  ap_tenant_id : string;
}.

Definition with_comments (r : ApprovalRecord) (cs : list ApprovalComment) : ApprovalRecord :=
  {| ap_approval_id := ap_approval_id r; ap_run_id := ap_run_id r; ap_workload := ap_workload r;
     ap_rule := ap_rule r; ap_reason := ap_reason r; ap_action_class := ap_action_class r;
     ap_tool_id := ap_tool_id r; ap_requested_at := ap_requested_at r; ap_status := ap_status r;
     ap_decided_at := ap_decided_at r; ap_decided_by := ap_decided_by r;
     ap_decision_reason := ap_decision_reason r; ap_delegated_to := ap_delegated_to r;
     ap_delegated_by := ap_delegated_by r; ap_comments := cs; ap_tenant_id := ap_tenant_id r |}.

Definition with_delegation (r : ApprovalRecord) (assignee operator : string) : ApprovalRecord :=
  {| ap_approval_id := ap_approval_id r; ap_run_id := ap_run_id r; ap_workload := ap_workload r;
     ap_rule := ap_rule r; ap_reason := ap_reason r; ap_action_class := ap_action_class r;
     ap_tool_id := ap_tool_id r; ap_requested_at := ap_requested_at r; ap_status := ap_status r;
     ap_decided_at := ap_decided_at r; ap_decided_by := ap_decided_by r;
     ap_decision_reason := ap_decision_reason r; ap_delegated_to := Some assignee;
     ap_delegated_by := Some operator; ap_comments := ap_comments r; ap_tenant_id := ap_tenant_id r |}.

Definition with_decision (r : ApprovalRecord) (status : ApprovalStatus) (now : Z) (operator : string)
    (reason : option string) : ApprovalRecord :=
  {| ap_approval_id := ap_approval_id r; ap_run_id := ap_run_id r; ap_workload := ap_workload r;
     ap_rule := ap_rule r; ap_reason := ap_reason r; ap_action_class := ap_action_class r;
     ap_tool_id := ap_tool_id r; ap_requested_at := ap_requested_at r; ap_status := status;
     ap_decided_at := Some now; ap_decided_by := Some operator; ap_decision_reason := reason;
     ap_delegated_to := ap_delegated_to r; ap_delegated_by := ap_delegated_by r;
     ap_comments := ap_comments r; ap_tenant_id := ap_tenant_id r |}.

Definition nonempty (s : string) : bool := bool_decide (s ≠ EmptyString).

Definition tenant_id_valid (s : string) : bool := nonempty s && (String.length s <=? 64)%nat.

(** The validators of [ApprovalRecord] and [ApprovalComment]. *)
Definition record_valid (r : ApprovalRecord) : bool :=
  nonempty (ap_approval_id r) && nonempty (ap_run_id r) && nonempty (ap_workload r) && nonempty (ap_rule r)
  && nonempty (ap_reason r) && tenant_id_valid (ap_tenant_id r).

Definition comment_valid (c : ApprovalComment) : bool := nonempty (cm_author c) && nonempty (cm_text c).

Inductive ApprovalExn :=
  | ApprovalNotFoundError (approval_id : string)
  | ApprovalAlreadyDecidedError (approval_id : string)
  | DecisionValueError
  | ApprovalScopeError
  | ApprovalValidationError.

Inductive ApprovalEvent := APPROVAL_REQUESTED | APPROVAL_RESOLVED.

Section Service.
(** [X] is the state the notification callbacks act on; [None] is an unbound
    callback. *)
Context {X : Type}.
Variables (event_sink : option (ApprovalEvent → ApprovalRecord → X → outcome ApprovalExn unit * X))
          (escalation_register : option (string → string → X → outcome ApprovalExn unit * X))
          (escalation_respond : option (string → X → outcome ApprovalExn unit * X)).

Record World := mkWorld { records : odict string ApprovalRecord; ext : X }.

Abbreviation AM := (M World ApprovalExn).

Open Scope hp_scope.

Definition on_ext (f : X → outcome ApprovalExn unit * X) : AM unit :=
  λ w, let '(o, x) := f (ext w) in (o, {| records := records w; ext := x |}).

(** *** The store *)

Definition store_save (r : ApprovalRecord) (ctx : TenantContext) : AM unit :=
  require ApprovalScopeError ctx (ap_tenant_id r) ;;;
  modify (λ w, {| records := od_set (ap_approval_id r) r (records w); ext := ext w |}).

Definition store_get (approval_id : string) (ctx : TenantContext) (d : odict string ApprovalRecord)
    : option ApprovalRecord :=
  match od_get approval_id d with
  | Some r => if scopes ctx (ap_tenant_id r) then Some r else None
  | None => None
  end.

Definition list_approvals (status : option ApprovalStatus) (workload run_id : option string)
    (ctx : TenantContext) (d : odict string ApprovalRecord) : list ApprovalRecord :=
  py_sort (λ a b, (ap_requested_at a <=? ap_requested_at b)%Z)
    (filter (λ r, scopes ctx (ap_tenant_id r) && opt_is status (ap_status r)
                  && opt_is workload (ap_workload r) && opt_is run_id (ap_run_id r) = true) (od_values d)).

(** *** The service; clock readings and fresh identifiers are arguments *)

Definition emit (ev : ApprovalEvent) (r : ApprovalRecord) : AM unit :=
  match event_sink with
  | None => ret tt
  | Some sink => suppress (on_ext (sink ev r))
  end.

Definition request_scope (tenant_id : option string) (ctx : option TenantContext) : TenantContext :=
  match ctx with
  | Some c => c
  | None => match tenant_id with
            | Some t => if nonempty t then context_for_run t None None else DEFAULT_CONTEXT
            | None => DEFAULT_CONTEXT
            end
  end.

Definition request (fresh_id : string) (now : Z) (run_id workload rule reason : string)
    (action_class : option ActionClass) (tool_id : option string) (tenant_id : option string)
    (ctx : option TenantContext) : AM ApprovalRecord :=
  let scope := request_scope tenant_id ctx in
  let record := {| ap_approval_id := fresh_id; ap_run_id := run_id; ap_workload := workload; ap_rule := rule;
                   ap_reason := reason; ap_action_class := action_class; ap_tool_id := tool_id;
                   ap_requested_at := now; ap_status := PENDING; ap_decided_at := None; ap_decided_by := None;
                   ap_decision_reason := None; ap_delegated_to := None; ap_delegated_by := None;
                   ap_comments := []; ap_tenant_id := tc_tenant_id scope |} in
  if negb (record_valid record) then raise ApprovalValidationError
  else
    store_save record scope ;;;
    emit APPROVAL_REQUESTED record ;;;
    match escalation_register with
    | Some reg => suppress (on_ext (reg (ap_approval_id record) (ap_tenant_id record)))
    | None => ret tt
    end ;;;
    ret record.

Definition get_approval (approval_id : string) (ctx : TenantContext) : AM ApprovalRecord :=
  let* d := gets records in of_option (ApprovalNotFoundError approval_id) (store_get approval_id ctx d).

Definition comment (now : Z) (approval_id author text : string) (ctx : TenantContext) : AM ApprovalRecord :=
  let* r := get_approval approval_id ctx in
  let c := {| cm_author := author; cm_text := text; cm_created_at := now |} in
  if negb (comment_valid c) then raise ApprovalValidationError
  else
    let updated := with_comments r (ap_comments r ++ [c]) in
    store_save updated ctx ;;; ret updated.

Definition delegate (now : Z) (approval_id assignee operator : string) (ctx : TenantContext) : AM ApprovalRecord :=
  let* r := get_approval approval_id ctx in
  let c := {| cm_author := operator; cm_text := "delegated to " +:+ assignee; cm_created_at := now |} in
  if negb (comment_valid c) then raise ApprovalValidationError
  else
    let updated := with_comments (with_delegation r assignee operator) (ap_comments r ++ [c]) in
    store_save updated ctx ;;; ret updated.

(** [decide] reads the record, then writes it back: nothing holds a lock in
    between, so the two halves are separate steps. *)
Definition decide_read (approval_id : string) (status : ApprovalStatus) (ctx : TenantContext) : AM ApprovalRecord :=
  if bool_decide (status = PENDING) then raise DecisionValueError
  else
    let* r := get_approval approval_id ctx in
    if bool_decide (ap_status r ≠ PENDING) then raise (ApprovalAlreadyDecidedError approval_id) else ret r.

Definition decide_write (now : Z) (r : ApprovalRecord) (status : ApprovalStatus) (operator : string)
    (reason : option string) (ctx : TenantContext) : AM ApprovalRecord :=
  let decided := with_decision r status now operator reason in
  store_save decided ctx ;;;
  emit APPROVAL_RESOLVED decided ;;;
  match escalation_respond with
  | Some resp => suppress (on_ext (resp (ap_approval_id decided)))
  | None => ret tt
  end ;;;
  ret decided.

Definition decide_approval (now : Z) (approval_id : string) (status : ApprovalStatus) (operator : string)
    (reason : option string) (ctx : TenantContext) : AM ApprovalRecord :=
  let* r := decide_read approval_id status ctx in decide_write now r status operator reason ctx.

(** *** Invariant and history *)

(** The store files each record under its own identifier, and a record has a
    decision time and an operator exactly when it is decided. *)
Definition decided_fields (r : ApprovalRecord) : Prop :=
  ap_status r = PENDING ↔ ap_decided_at r = None ∧ ap_decided_by r = None.

Definition winv (w : World) : Prop :=
  od_wf (records w) ∧ ∀ k r, od_get k (records w) = Some r → ap_approval_id r = k ∧ decided_fields r.

(** One record's history: the tenant and the request never change, comments
    are only appended, and a decision is final. *)
Definition evolves (r r' : ApprovalRecord) : Prop :=
  ap_tenant_id r' = ap_tenant_id r ∧ ap_run_id r' = ap_run_id r ∧ ap_requested_at r' = ap_requested_at r ∧
  ap_rule r' = ap_rule r ∧ ap_tool_id r' = ap_tool_id r ∧
  ap_comments r `prefix_of` ap_comments r' ∧
  (ap_status r ≠ PENDING →
   ap_status r' = ap_status r ∧ ap_decided_at r' = ap_decided_at r ∧ ap_decided_by r' = ap_decided_by r ∧
   ap_decision_reason r' = ap_decision_reason r).

#[local] Instance evolves_preorder : PreOrder evolves.
Proof.
  split.
  - intros r. unfold evolves. by split_and!.
  - intros a b c (?&?&?&?&?&?&Hab) (?&?&?&?&?&?&Hbc). unfold evolves. split_and!; try congruence.
    + by etrans.
    + intros Hp. destruct (Hab Hp) as (E1 & ? & ? & ?). rewrite E1 in Hbc. destruct (Hbc Hp) as (?&?&?&?).
      split_and!; congruence.
Qed.

(** What every operation other than a request guarantees. *)
Definition grows (w w' : World) : Prop :=
  winv w → winv w' ∧
  ∀ k, match od_get k (records w) with
       | Some r => ∃ r', od_get k (records w') = Some r' ∧ evolves r r'
       | None => True
       end.

#[local] Instance grows_preorder : PreOrder grows.
Proof.
  split.
  - intros w Hw. split; [done|]. intros k. destruct (od_get k (records w)) as [r|]; [|done]. by exists r.
  - intros a b c Hab Hbc Ha. destruct (Hab Ha) as [Hb H1]. destruct (Hbc Hb) as [Hc H2]. split; [done|].
    intros k. specialize (H1 k). specialize (H2 k). destruct (od_get k (records a)) as [r|]; [|done].
    destruct H1 as (r1 & Hr1 & E1). rewrite Hr1 in H2. destruct H2 as (r2 & Hr2 & E2). exists r2.
    split; [done|]. by etrans.
Qed.

Lemma grows_ext w x : grows w {| records := records w; ext := x |}.
Proof. intros Hw. split; [done|]. simpl. intros k. destruct (od_get k (records w)) as [r|]; [|done]. by exists r. Qed.

Lemma keeps_on_ext f : keeps grows (on_ext f).
Proof. intros w. unfold on_ext. destruct (f (ext w)). apply grows_ext. Qed.

Lemma keeps_emit ev r : keeps grows (emit ev r).
Proof. unfold emit. destruct event_sink; [apply keeps_suppress; [apply _|apply keeps_on_ext]|apply keeps_ret, _]. Qed.

(** Saving a new version of a record the store holds, or a record under a fresh
    identifier. *)
Lemma grows_put w r :
  decided_fields r →
  match od_get (ap_approval_id r) (records w) with Some r0 => evolves r0 r | None => True end →
  grows w {| records := od_set (ap_approval_id r) r (records w); ext := ext w |}.
Proof.
  intros Hd Hev [Hwf Hw]. split; [split; simpl|].
  - by apply od_wf_set.
  - intros k r'. rewrite od_get_set. case_decide as Hk; [|apply Hw]. intros [= <-]. by subst.
  - simpl. intros k. destruct (od_get k (records w)) as [r0|] eqn:Hk; [|done].
    rewrite od_get_set. case_decide as Heq; [subst|by exists r0]. exists r. rewrite Hk in Hev. done.
Qed.

Lemma store_save_grows w r ctx :
  decided_fields r →
  match od_get (ap_approval_id r) (records w) with Some r0 => evolves r0 r | None => True end →
  grows w (store_save r ctx w).2.
Proof.
  intros Hd Hev. unfold store_save, require, bind. destruct (scopes ctx _); simpl; [|reflexivity].
  by apply grows_put.
Qed.

Lemma get_approval_spec approval_id ctx w :
  match get_approval approval_id ctx w with
  | (Ret r, w') => w' = w ∧ od_get approval_id (records w) = Some r ∧ scopes ctx (ap_tenant_id r) = true
  | (Raise e, w') => w' = w ∧ e = ApprovalNotFoundError approval_id ∧
      ∀ r, od_get approval_id (records w) = Some r → scopes ctx (ap_tenant_id r) = false
  end.
Proof.
  unfold get_approval, store_get, gets, bind. destruct (od_get approval_id (records w)) as [r|]; simpl; [|done].
  destruct (scopes ctx _) eqn:Hs; simpl; [done|]. split_and!; try done. by intros ? [= <-].
Qed.

Lemma request_grows fresh_id now run_id workload rule reason ac tool tenant ctx w :
  od_get fresh_id (records w) = None →
  grows w (request fresh_id now run_id workload rule reason ac tool tenant ctx w).2.
Proof.
  intros Hf. unfold request. destruct (negb _); [reflexivity|].
  match goal with |- context [store_save ?r ?c] => pose proof (store_save_grows w r c) as Hs;
    unfold bind at 1; destruct (store_save r c w) as [[u|e] w1] eqn:Hsv end; simpl in Hs |- *.
  - rewrite Hf in Hs. etrans; [apply Hs; by repeat split|].
    refine (keeps_bind grows _ _ _ _ w1); [apply keeps_emit|intros _].
    apply keeps_bind; [apply _| |intros; apply keeps_ret, _].
    destruct escalation_register; [apply keeps_suppress; [apply _|apply keeps_on_ext]|apply keeps_ret, _].
  - rewrite Hf in Hs. apply Hs; by repeat split.
Qed.

(** Reading a record, then saving a successor of it. *)
Lemma save_update_grows w r r' ctx (m : AM ApprovalRecord) :
  winv w → od_get (ap_approval_id r') (records w) = Some r → evolves r r' → decided_fields r' →
  keeps grows m → grows w (bind (store_save r' ctx) (λ _, m) w).2.
Proof.
  intros Hw Hr Hev Hd Hm. unfold bind.
  pose proof (store_save_grows w r' ctx Hd) as Hs. rewrite Hr in Hs. specialize (Hs Hev).
  destruct (store_save r' ctx w) as [[u|e] w1]; [|done]. simpl in *. etrans; [exact Hs|apply Hm].
Qed.

Ltac read_record Hw w :=
  match goal with |- context [get_approval ?a ?c w] =>
    pose proof (get_approval_spec a c w) as Hg; destruct (get_approval a c w) as [[r|e] w1];
    [destruct Hg as (-> & Hr & Hsc); destruct (proj2 Hw _ _ Hr) as [Hid Hdf]|by destruct Hg as [-> _]] end.

Lemma comment_grows now approval_id author text ctx w : winv w → grows w (comment now approval_id author text ctx w).2.
Proof.
  intros Hw. unfold comment, bind at 1. read_record Hw w. destruct (negb _); [reflexivity|].
  apply save_update_grows with r; [done|by rewrite <-Hr, <-Hid| |done|apply keeps_ret, _].
  unfold evolves; split_and!; try done. by apply prefix_app_r.
Qed.

Lemma delegate_grows now approval_id assignee operator ctx w :
  winv w → grows w (delegate now approval_id assignee operator ctx w).2.
Proof.
  intros Hw. unfold delegate, bind at 1. read_record Hw w. destruct (negb _); [reflexivity|].
  apply save_update_grows with r; [done|by rewrite <-Hr, <-Hid| |done|apply keeps_ret, _].
  unfold evolves; split_and!; try done. by apply prefix_app_r.
Qed.

Lemma decide_read_spec approval_id status ctx w r w' :
  winv w → decide_read approval_id status ctx w = (Ret r, w') →
  w' = w ∧ status ≠ PENDING ∧ ap_approval_id r = approval_id ∧
  od_get approval_id (records w) = Some r ∧ ap_status r = PENDING ∧ scopes ctx (ap_tenant_id r) = true.
Proof.
  intros Hw. unfold decide_read. case_bool_decide as Hst; [done|]. unfold bind.
  pose proof (get_approval_spec approval_id ctx w) as Hg.
  destruct (get_approval approval_id ctx w) as [[r0|e] w1]; [|by intros [= ]].
  destruct Hg as (-> & Hr & Hsc). case_bool_decide as Hp; [by intros [= ]|]. intros [= <- <-].
  split_and!; try done. by destruct (proj2 Hw _ _ Hr).
Qed.

Lemma decide_read_state approval_id status ctx w : (decide_read approval_id status ctx w).2 = w.
Proof.
  unfold decide_read. case_bool_decide; [done|]. unfold bind. pose proof (get_approval_spec approval_id ctx w) as Hg.
  destruct (get_approval approval_id ctx w) as [[r0|e] w1]; [|by destruct Hg as [-> _]].
  destruct Hg as (-> & _). by case_bool_decide.
Qed.

Lemma decide_write_tail_keeps r :
  keeps grows (emit APPROVAL_RESOLVED r ;;;
    match escalation_respond with
    | Some resp => suppress (on_ext (resp (ap_approval_id r))) | None => ret tt end ;;; ret r).
Proof.
  apply keeps_bind; [apply _|apply keeps_emit|intros _]. apply keeps_bind; [apply _| |intros; apply keeps_ret, _].
  destruct escalation_respond; [apply keeps_suppress; [apply _|apply keeps_on_ext]|apply keeps_ret, _].
Qed.

Lemma decide_approval_grows now approval_id status operator reason ctx w :
  winv w → grows w (decide_approval now approval_id status operator reason ctx w).2.
Proof.
  intros Hw. unfold decide_approval, bind at 1.
  pose proof (decide_read_state approval_id status ctx w) as Hst.
  destruct (decide_read approval_id status ctx w) as [[r|e] w1] eqn:Hd; [|by simpl in *; subst].
  apply decide_read_spec in Hd as (-> & Hne & Hid & Hr & Hp & _); [|done].
  apply save_update_grows with r; [done|by simpl; rewrite Hid| | |apply decide_write_tail_keeps].
  - unfold evolves; split_and!; try done.
  - unfold decided_fields; simpl. naive_solver.
Qed.

(** One call of the service by anyone; a request draws an identifier that is
    not in use. *)
Inductive approval_step : World → World → Prop :=
  | as_request fresh_id now run_id workload rule reason ac tool tenant ctx w :
      od_get fresh_id (records w) = None →
      approval_step w (request fresh_id now run_id workload rule reason ac tool tenant ctx w).2
  | as_comment now approval_id author text ctx w : approval_step w (comment now approval_id author text ctx w).2
  | as_delegate now approval_id assignee operator ctx w :
      approval_step w (delegate now approval_id assignee operator ctx w).2
  | as_decide now approval_id status operator reason ctx w :
      approval_step w (decide_approval now approval_id status operator reason ctx w).2.

Lemma approval_step_grows w w' : winv w → approval_step w w' → grows w w'.
Proof.
  intros Hw. destruct 1; eauto using request_grows, comment_grows, delegate_grows, decide_approval_grows.
Qed.

Lemma approval_steps_grow w w' : rtc approval_step w w' → winv w → grows w w'.
Proof.
  induction 1 as [|a b c Hs _ IH]; intros Hw; [reflexivity|].
  pose proof (approval_step_grows a b Hw Hs) as Hab. etrans; [exact Hab|]. apply IH. by apply Hab.
Qed.

(** Whatever calls follow, a record keeps its tenant and its request, its
    comments are only appended to, and once decided its status, operator, time
    and reason never change; in particular every later decision is refused. *)
Theorem approval_decided_once w w' approval_id r now status operator reason ctx :
  winv w → rtc approval_step w w' → od_get approval_id (records w) = Some r →
  (∃ r', od_get approval_id (records w') = Some r' ∧ evolves r r') ∧
  (ap_status r ≠ PENDING → outcome_ok (decide_approval now approval_id status operator reason ctx w').1 = false).
Proof.
  intros Hw Hs Hr. destruct (approval_steps_grow w w' Hs Hw Hw) as [Hw' Hg]. specialize (Hg approval_id).
  rewrite Hr in Hg. destruct Hg as (r' & Hr' & Hev). split; [by exists r'|]. intros Hp.
  unfold decide_approval, bind. destruct (decide_read approval_id status ctx w') as [[r1|e] w1] eqn:Hd; [|done].
  apply decide_read_spec in Hd as (_ & _ & _ & Hr1 & Hp1 & _); [|done].
  rewrite Hr' in Hr1. injection Hr1 as <-. destruct Hev as (_&_&_&_&_&_&Hev). destruct (Hev Hp). congruence.
Qed.

(** *** Tenants *)

(** A step by a context that cannot see a tenant leaves that tenant's records
    alone, and cannot read them. *)
Lemma other_tenant_get approval_id ctx w r :
  od_get approval_id (records w) = Some r → scopes ctx (ap_tenant_id r) = false →
  get_approval approval_id ctx w = (Raise (ApprovalNotFoundError approval_id), w).
Proof. intros Hr Hs. unfold get_approval, store_get, gets, bind. rewrite Hr, Hs. done. Qed.

(** A caller whose context does not cover a record's tenant can neither
    comment on, delegate nor decide it: each call reports that the approval
    does not exist, and leaves every record as it was. *)
Theorem approval_tenant_isolation w approval_id r ctx now author text assignee operator status reason :
  od_get approval_id (records w) = Some r → scopes ctx (ap_tenant_id r) = false → status ≠ PENDING →
  let refused := Raise (ApprovalNotFoundError approval_id) in
  comment now approval_id author text ctx w = (refused, w) ∧
  delegate now approval_id assignee operator ctx w = (refused, w) ∧
  decide_approval now approval_id status operator reason ctx w = (refused, w) ∧
  (∀ st wl rn, r ∉ list_approvals st wl rn ctx (records w)).
Proof.
  intros Hr Hs Hst refused. unfold comment, delegate, decide_approval, decide_read.
  rewrite bool_decide_false by done. unfold bind. rewrite (other_tenant_get approval_id ctx w r Hr Hs).
  split_and!; try done. intros st wl rn. unfold list_approvals. rewrite py_sort_perm.
  rewrite list_elem_of_filter, Hs. by intros [? _].
Qed.

(** *** Concurrent decisions *)

(** Two operators decide at the same time: both read before either writes. *)
Definition racing_decisions (approval_id : string) (s1 s2 : ApprovalStatus) (t1 t2 : Z) (op1 op2 : string)
    (ctx : TenantContext) : AM (ApprovalRecord * ApprovalRecord) :=
  let* r1 := decide_read approval_id s1 ctx in
  let* r2 := decide_read approval_id s2 ctx in
  let* d1 := decide_write t1 r1 s1 op1 None ctx in
  let* d2 := decide_write t2 r2 s2 op2 None ctx in
  ret (d1, d2).

Lemma suppress_on_ext f w : ∃ x, suppress (on_ext f) w = (Ret tt, {| records := records w; ext := x |}).
Proof. unfold suppress, try_except, on_ext. destruct (f (ext w)) as [[[]|e] x]; simpl; by exists x. Qed.

Lemma emit_ok ev r w : ∃ x, emit ev r w = (Ret tt, {| records := records w; ext := x |}).
Proof. unfold emit. destruct event_sink; [apply suppress_on_ext|]. exists (ext w). by destruct w. Qed.

(** A request whose fields are given is filed as pending under its identifier,
    whatever the notification callbacks do. *)
Lemma request_ok fresh_id now run_id workload rule reason ac tool tenant ctx w :
  fresh_id ≠ EmptyString → run_id ≠ EmptyString → workload ≠ EmptyString → rule ≠ EmptyString → reason ≠ EmptyString →
  tenant_id_valid (tc_tenant_id ctx) = true →
  ∃ r x, request fresh_id now run_id workload rule reason ac tool tenant (Some ctx) w
         = (Ret r, {| records := od_set fresh_id r (records w); ext := x |}) ∧
    ap_approval_id r = fresh_id ∧ ap_status r = PENDING ∧ ap_run_id r = run_id ∧ ap_workload r = workload ∧
    ap_rule r = rule ∧ ap_tool_id r = tool ∧ ap_tenant_id r = tc_tenant_id ctx ∧ ap_requested_at r = now.
Proof.
  intros H1 H2 H3 H4 H5 H6. unfold request, request_scope.
  match goal with |- context [store_save ?r0 ctx] => set (r := r0) end.
  assert (record_valid r = true) as ->.
  { unfold record_valid, nonempty, r. cbn [ap_approval_id ap_run_id ap_workload ap_rule ap_reason ap_tenant_id].
    by rewrite !bool_decide_eq_true_2, H6 by done. }
  cbn [negb]. unfold store_save, require, bind at 1 2.
  assert (scopes ctx (ap_tenant_id r) = true) as ->.
  { unfold scopes, r. cbn [ap_tenant_id]. apply orb_true_iff. right. by apply bool_decide_eq_true. }
  unfold ret at 1, modify, bind.
  match goal with |- context [emit ?ev r ?w'] => destruct (emit_ok ev r w') as [x ->] end. cbn [records ext].
  destruct escalation_register as [reg|]; [|by exists r, x; split_and!].
  match goal with |- context [suppress (on_ext ?f) ?w'] => destruct (suppress_on_ext f w') as [y ->] end.
  by exists r, y; split_and!.
Qed.

Lemma decide_write_ok now r status operator reason ctx w :
  scopes ctx (ap_tenant_id r) = true →
  let d := with_decision r status now operator reason in
  ∃ x, decide_write now r status operator reason ctx w
       = (Ret d, {| records := od_set (ap_approval_id r) d (records w); ext := x |}).
Proof.
  intros Hs d. unfold decide_write. fold d. unfold store_save, require.
  change (ap_tenant_id d) with (ap_tenant_id r). rewrite Hs. unfold ret, modify, bind.
  match goal with |- context [emit ?ev d ?w'] => destruct (emit_ok ev d w') as [x ->] end. simpl.
  destruct escalation_respond as [resp|]; [|by exists x].
  match goal with |- context [suppress (on_ext ?f) ?w'] => destruct (suppress_on_ext f w') as [y ->] end.
  by exists y.
Qed.

(** When two operators decide a pending approval concurrently, both calls
    report success and the later write replaces the earlier decision. *)
Theorem approval_decision_race w approval_id r s1 s2 t1 t2 op1 op2 ctx :
  winv w → od_get approval_id (records w) = Some r → ap_status r = PENDING →
  scopes ctx (ap_tenant_id r) = true → s1 ≠ PENDING → s2 ≠ PENDING →
  let d1 := with_decision r s1 t1 op1 None in let d2 := with_decision r s2 t2 op2 None in
  ∃ w', racing_decisions approval_id s1 s2 t1 t2 op1 op2 ctx w = (Ret (d1, d2), w') ∧
        od_get approval_id (records w') = Some d2.
Proof.
  intros Hw Hr Hp Hs H1 H2 d1 d2. destruct (proj2 Hw _ _ Hr) as [Hid _].
  assert (∀ s, s ≠ PENDING → decide_read approval_id s ctx w = (Ret r, w)) as Hread.
  { intros s Hne. unfold decide_read, get_approval, store_get, gets, bind. rewrite bool_decide_false by done.
    rewrite Hr, Hs. simpl. rewrite Hp. done. }
  unfold racing_decisions, bind. rewrite !Hread by done.
  destruct (decide_write_ok t1 r s1 op1 None ctx w Hs) as [x ->].
  match goal with |- context [decide_write t2 r s2 op2 None ctx ?w1] =>
    destruct (decide_write_ok t2 r s2 op2 None ctx w1 Hs) as [y ->] end.
  eexists. split; [done|]. simpl. by rewrite Hid, od_get_set_eq.
Qed.
End Service.

(** ** The kill switch *)
Module KillSwitch.

Record KillSwitchRecord := mkKill {
  ks_tool_id : string; ks_disabled : bool; ks_reason : option string; ks_actor : string; ks_changed_at : Z }.

(** The store's records and the audit entries the switch has appended. *)
Record t := mk { kills : odict string KillSwitchRecord; audited : list (string * string * string * string) }.

Definition kill_set (now : Z) (tool_id : string) (disabled : bool) (actor : string) (reason : option string)
    (audit_bound : bool) (k : t) : outcome ApprovalExn KillSwitchRecord * t :=
  let r := {| ks_tool_id := tool_id; ks_disabled := disabled; ks_reason := reason; ks_actor := actor;
              ks_changed_at := now |} in
  if nonempty tool_id && nonempty actor
  then (Ret r,
        {| kills := od_set tool_id r (kills k);
           audited := if audit_bound
                      then audited k ++ [(actor, (if disabled then "tool.disabled" else "tool.enabled"), tool_id,
                             match reason with Some s => if nonempty s then s else "kill switch" | None => "kill switch" end)]
                      else audited k |})
  else (Raise ApprovalValidationError, k).

Definition disable (now : Z) (tool_id actor : string) (reason : option string) (audit_bound : bool) (k : t) :=
  kill_set now tool_id true actor reason audit_bound k.

Definition enable (now : Z) (tool_id actor : string) (audit_bound : bool) (k : t) :=
  kill_set now tool_id false actor None audit_bound k.

Definition is_disabled (tool_id : string) (k : t) : bool :=
  match od_get tool_id (kills k) with Some r => ks_disabled r | None => false end.

Definition kill_records (k : t) : list KillSwitchRecord :=
  py_sort (λ a b, str_leb (ks_tool_id a) (ks_tool_id b)) (od_values (kills k)).

Definition disabled_tools (k : t) : list string :=
  ks_tool_id <$> filter (λ r, ks_disabled r = true) (kill_records k).

Inductive step : t → t → Prop :=
  | ks_disable now tool actor reason b k : step k (disable now tool actor reason b k).2
  | ks_enable now tool actor b k : step k (enable now tool actor b k).2.

Definition inv (k : t) : Prop :=
  od_wf (kills k) ∧ ∀ tool r, od_get tool (kills k) = Some r → ks_tool_id r = tool.

Lemma set_inv now tool disabled actor reason b k : inv k → inv (kill_set now tool disabled actor reason b k).2.
Proof.
  intros [Hwf Hk]. unfold kill_set. destruct (_ && _); simpl; [|done]. split; [by apply od_wf_set|].
  simpl. intros tool' r. rewrite od_get_set. case_decide; [by intros [= <-]|apply Hk].
Qed.

Lemma kill_reachable_inv k : rtc step {| kills := []; audited := [] |} k → inv k.
Proof.
  intros H. assert (inv {| kills := []; audited := [] |}) as H0 by (split; [apply od_wf_nil|done]). revert H0.
  induction H as [|a b c Hs _ IH]; [done|]. intros Ha. apply IH. destruct Hs; by apply set_inv.
Qed.

(** In every reachable state the list of disabled tools holds exactly the
    tools the boundary refuses, and a disable (or enable) with a named actor
    takes effect for that tool at once and for no other. *)
Theorem kill_switch_spec k tool disabled actor reason b now :
  rtc step {| kills := []; audited := [] |} k → tool ≠ EmptyString → actor ≠ EmptyString →
  (∀ x, x ∈ disabled_tools k ↔ is_disabled x k = true) ∧
  (let k' := (kill_set now tool disabled actor reason b k).2 in
   is_disabled tool k' = disabled ∧ ∀ x, x ≠ tool → is_disabled x k' = is_disabled x k).
Proof.
  intros Hk Ht Ha. destruct (kill_reachable_inv k Hk) as [Hwf Hid]. split.
  - intros x. unfold disabled_tools, is_disabled, kill_records. rewrite list_elem_of_fmap. split.
    + intros (r & -> & Hr). apply list_elem_of_filter in Hr as [Hd Hr]. rewrite py_sort_perm in Hr.
      destruct (od_value_get _ _ Hr Hwf) as [key Hkey]. by rewrite (Hid _ _ Hkey), Hkey.
    + destruct (od_get x (kills k)) as [r|] eqn:Hx; [|done]. intros Hd. exists r. split; [by rewrite (Hid _ _ Hx)|].
      apply list_elem_of_filter. split; [done|]. rewrite py_sort_perm. by apply od_get_value in Hx.
  - unfold kill_set, nonempty. rewrite !bool_decide_true by done. simpl. unfold is_disabled; simpl. split.
    + by rewrite od_get_set_eq.
    + intros x Hx. by rewrite od_get_set_ne by done.
Qed.

Lemma kill_switch_spec_witness :
  is_disabled "rm" (disable 5 "rm" "ops" None true {| kills := []; audited := [] |}).2 = true.
Proof.
  apply (kill_switch_spec {| kills := []; audited := [] |} "rm" true "ops" None true 5);
    [apply rtc_refl|done|done].
Defined.
End KillSwitch.

(** ** Concrete approvals *)

Definition demo_world : World (X := unit) :=
  (request None None "ap-1" 10 "r1" "w" "trust.destructive" "needs approval" None None (Some "acme") None
     {| records := []; ext := tt |}).2.

Definition demo_decided : World (X := unit) :=
  (decide_approval None None 20 "ap-1" APPROVED "alice" None (context_for_run "acme" None None) demo_world).2.

Lemma demo_world_inv : winv demo_world.
Proof.
  apply (request_grows None None "ap-1" 10 "r1" "w" "trust.destructive" "needs approval" None None (Some "acme") None
           {| records := []; ext := tt |}); [reflexivity|]. split; [apply od_wf_nil|done].
Qed.

Lemma demo_decided_inv : winv demo_decided.
Proof. apply (decide_approval_grows None None 20 "ap-1" APPROVED "alice" None _ demo_world); apply demo_world_inv. Qed.

Lemma approval_decided_once_witness :
  outcome_ok (decide_approval (X := unit) None None 40 "ap-1" DENIED "bob" None (context_for_run "acme" None None)
    (comment 30 "ap-1" "bob" "why?" (context_for_run "acme" None None) demo_decided).2).1 = false.
Proof.
  refine (proj2 (approval_decided_once None None None demo_decided _ "ap-1" _ 40 DENIED "bob" None _
           demo_decided_inv (rtc_once _ _ (as_comment None None None 30 "ap-1" "bob" "why?" _ demo_decided))
           eq_refl) _).
  vm_compute. congruence.
Defined.

Lemma approval_tenant_isolation_witness :
  decide_approval None None 40 "ap-1" APPROVED "mallory" None (context_for_run "globex" None None) demo_world
  = (Raise (ApprovalNotFoundError "ap-1"), demo_world).
Proof.
  refine (proj1 (proj2 (proj2 (approval_tenant_isolation None None demo_world "ap-1" _
    (context_for_run "globex" None None) 40 "x" "y" "z" "mallory" APPROVED None eq_refl eq_refl _)))).
  congruence.
Defined.

Lemma approval_decision_race_witness :
  ∃ d1 d2 w', racing_decisions None None "ap-1" APPROVED DENIED 20 21 "alice" "bob"
                (context_for_run "acme" None None) demo_world = (Ret (d1, d2), w') ∧
    od_get "ap-1" (records w') = Some d2.
Proof.
  eexists _, _.
  apply (approval_decision_race None None demo_world "ap-1" _ APPROVED DENIED 20 21 "alice" "bob"
    (context_for_run "acme" None None) demo_world_inv eq_refl eq_refl eq_refl); congruence.
Defined.
