(* ===== verification/Budget.v ===== *)
(** * Budgets ([budget/pricing.py], [budget/store.py], [budget/service.py],
    [budget/summary.py], [cost/depth.py] (the estimator))

    Pricing of token usage, the tenant-keyed spend totals, and the service that
    records usage against run, day, team and tenant limits.  All amounts are
    binary64 floats, added in the order the code adds them.  A day (an ISO date
    string in the code) is its number since the epoch.  Metrics are not
    modelled. *)

From stdpp Require Import base strings gmap numbers relations list.
From S2P Require Import Prelude Float64 Tenancy CoreModels.

Inductive BudgetExn :=
  | UnknownModelPriceError (model_identity : string)
  | MissingModelIdentityError
  | BudgetScopeError
  | BudgetValidationError
  | BudgetIndexError
  | CostServiceError.

(** ** Pricing *)

Record ModelPrice := mkPrice { input_per_1k : f64; output_per_1k : f64 }.

Definition DEFAULT_PRICES : gmap string ModelPrice :=
  {[ "openai/gpt-4o/2024-08-06" := mkPrice (f64_lit 5 1000) (f64_lit 15 1000);
     "openai/gpt-4o-mini/2024-07-18" := mkPrice (f64_lit 15 100000) (f64_lit 6 10000);
     "anthropic/claude-3-5-sonnet/20241022" := mkPrice (f64_lit 3 1000) (f64_lit 15 1000) ]}.

Definition ZERO_COST_PREFIXES : list string := ["local/"; "fake/"; "omlx/"].

Record CostTable := mkTable { prices : gmap string ModelPrice; zero_cost_prefixes : list string }.

(** The constructor overlays the given prices on the defaults. *)
Definition cost_table (overlay : gmap string ModelPrice) (prefixes : list string) : CostTable :=
  {| prices := overlay ∪ DEFAULT_PRICES; zero_cost_prefixes := prefixes |}.

Definition price (tbl : CostTable) (model_identity : string) (input_tokens output_tokens : N) : outcome BudgetExn f64 :=
  if existsb (λ p, String.prefix p model_identity) (zero_cost_prefixes tbl) then Ret f64_zero
  else
    match prices tbl !! model_identity with
    | None => Raise (UnknownModelPriceError model_identity)
    | Some p =>
        let per_1k n := f64_div (f64_of_Z (Z.of_N n)) (f64_lit 1000 1) in
        Ret (f64_add (f64_mul (per_1k input_tokens) (input_per_1k p))
                     (f64_mul (per_1k output_tokens) (output_per_1k p)))
    end.

(** ** The cost estimator *)
Module Estimator.

Abbreviation history := (gmap (string * string) (list f64)).

Definition record (workload task_type : string) (cost : f64) (h : history) : history :=
  <[(workload, task_type) := default [] (h !! (workload, task_type)) ++ [f64_max f64_zero cost]]> h.

Definition percentile (ordered : list f64) (fraction : f64) : outcome BudgetExn f64 :=
  match ordered with
  | [x] => Ret x
  | _ =>
      let n := Z.of_nat (length ordered) in
      let index := f64_mul fraction (f64_of_Z (n - 1)) in
      match f64_trunc index with
      | None => Raise BudgetIndexError
      | Some lower =>
          let upper := Z.min (lower + 1) (n - 1) in
          let weight := f64_sub index (f64_of_Z lower) in
          match ordered !! Z.to_nat lower, ordered !! Z.to_nat upper with
          | Some a, Some b => Ret (f64_add (f64_mul a (f64_sub (f64_lit 1 1) weight)) (f64_mul b weight))
          | _, _ => Raise BudgetIndexError
          end
      end
  end.

(** [estimate(...).p90_usd], the only field the budget reads. *)
Definition estimate_p90 (workload task_type : string) (h : history) : outcome BudgetExn f64 :=
  match default [] (h !! (workload, task_type)) with
  | [] => Ret f64_zero
  | samples => percentile (py_sort (λ a b, negb (f64_ltb b a)) samples) (f64_lit 9 10)
  end.
End Estimator.

(** ** The store *)

Record CostAttribution := mkAttribution {
  at_run_id : string; at_workload : string; at_team : option string; at_model_identity : option string;
  at_input_tokens : N; at_output_tokens : N; at_tool_calls : N; at_cost_usd : f64; at_timestamp : Z;
  at_tenant_id : string; at_attribution_key : option string }.

Definition attribution_valid (a : CostAttribution) : bool :=
  bool_decide (at_run_id a ≠ EmptyString) && bool_decide (at_workload a ≠ EmptyString)
  && f64_leb f64_zero (at_cost_usd a)
  && bool_decide (at_tenant_id a ≠ EmptyString) && (String.length (at_tenant_id a) <=? 64)%nat.

(** The metering fact handed to the cost service. *)
Record CostEvent := mkCostEvent {
  ce_event_id : string; ce_tenant_id : string; ce_team_id : string; ce_workload_id : string; ce_run_id : string;
  ce_model : string; ce_cost_usd : f64; ce_occurred_at : Z }.

Definition cost_event_valid (e : CostEvent) : bool :=
  (1 <=? String.length (ce_event_id e))%nat && (String.length (ce_event_id e) <=? 128)%nat
  && (String.length (ce_tenant_id e) <=? 64)%nat
  && (1 <=? String.length (ce_team_id e))%nat && (String.length (ce_team_id e) <=? 64)%nat
  && (String.length (ce_workload_id e) <=? 253)%nat && (String.length (ce_run_id e) <=? 64)%nat
  && (String.length (ce_model e) <=? 253)%nat && f64_leb f64_zero (ce_cost_usd e).

Inductive CostPeriodKind := PERIOD_DAY | PERIOD_WEEK | PERIOD_MONTH.

(** What the budget service asks of the cost service: the cap that a period of
    this kind exceeds (with the spend), and the recording of an event, which
    may raise. *)
Record CostService (C : Type) := mkCostService {
  cs_check_cap : TenantContext → CostPeriodKind → Z → f64 → C → option (f64 * f64);
  cs_record : CostEvent → TenantContext → C → outcome BudgetExn unit * C }.
Arguments cs_check_cap {C}.
Arguments cs_record {C}.

Section Service.
Context {C : Type}.
Variables (pricing : CostTable) (cost_service : option (CostService C)) (estimator : option Estimator.history).

Record Store := mkStore {
  run_spends : gmap (string * string) f64;
  day_spends : gmap (string * string * Z) f64;
  team_spends : gmap (string * string * Z) f64;
  attributions : list CostAttribution;
  costs : C;
}.

Abbreviation BM := (M Store BudgetExn).

Open Scope hp_scope.

Definition spend_of {K : Type} `{Countable K} (k : K) (m : gmap K f64) : f64 := default f64_zero (m !! k).

Definition add_to {K : Type} `{Countable K} (k : K) (amount : f64) (m : gmap K f64) : gmap K f64 :=
  <[k := f64_add (spend_of k m) amount]> m.

Definition add_run_spend (run : string) (amount : f64) (ctx : TenantContext) : BM unit :=
  modify (λ s, {| run_spends := add_to (tc_tenant_id ctx, run) amount (run_spends s); day_spends := day_spends s;
                  team_spends := team_spends s; attributions := attributions s; costs := costs s |}).

Definition run_spend (run : string) (ctx : TenantContext) (s : Store) : f64 :=
  spend_of (tc_tenant_id ctx, run) (run_spends s).

Definition add_day_spend (workload : string) (day : Z) (amount : f64) (ctx : TenantContext) : BM unit :=
  modify (λ s, {| run_spends := run_spends s; day_spends := add_to (tc_tenant_id ctx, workload, day) amount (day_spends s);
                  team_spends := team_spends s; attributions := attributions s; costs := costs s |}).

Definition day_spend (workload : string) (day : Z) (ctx : TenantContext) (s : Store) : f64 :=
  spend_of (tc_tenant_id ctx, workload, day) (day_spends s).

Definition add_team_spend (team : string) (day : Z) (amount : f64) (ctx : TenantContext) : BM unit :=
  modify (λ s, {| run_spends := run_spends s; day_spends := day_spends s;
                  team_spends := add_to (tc_tenant_id ctx, team, day) amount (team_spends s);
                  attributions := attributions s; costs := costs s |}).

Definition team_spend (team : string) (day : Z) (ctx : TenantContext) (s : Store) : f64 :=
  spend_of (tc_tenant_id ctx, team, day) (team_spends s).

Definition record_attribution (a : CostAttribution) (ctx : TenantContext) : BM unit :=
  require BudgetScopeError ctx (at_tenant_id a) ;;;
  modify (λ s, {| run_spends := run_spends s; day_spends := day_spends s; team_spends := team_spends s;
                  attributions := attributions s ++ [a]; costs := costs s |}).

Definition list_attributions (workload : option string) (ctx : TenantContext) (s : Store) : list CostAttribution :=
  filter (λ a, scopes ctx (at_tenant_id a) && opt_is workload (at_workload a) = true) (attributions s).

(** ** The service *)

Definition exceeded (level : BudgetLevel) (limit : f64) : BudgetCheck :=
  {| bc_allowed := false; bc_level := level; bc_limit_usd := limit; bc_spent_usd := limit;
     bc_remaining_usd := f64_zero; bc_reason := Some (budget_level_value level +:+ " budget exceeded") |}.

(** The loop over the period kinds; [times] are its clock readings. *)
Definition tenant_cap (times : CostPeriodKind → Z) (ctx : TenantContext) (projected : f64) (s : Store)
    : option BudgetCheck :=
  match cost_service with
  | None => None
  | Some svc =>
      let hit k := cs_check_cap svc ctx k (times k) projected (costs s) in
      let denial '(cap, spent) :=
        {| bc_allowed := false; bc_level := LEVEL_DAY; bc_limit_usd := cap; bc_spent_usd := spent;
           bc_remaining_usd := f64_zero; bc_reason := Some "tenant spend cap exceeded" |} in
      match hit PERIOD_DAY with
      | Some c => Some (denial c)
      | None => match hit PERIOD_WEEK with
                | Some c => Some (denial c)
                | None => denial <$> hit PERIOD_MONTH
                end
      end
  end.

Definition projected_usd (w : AgentWorkload) : outcome BudgetExn f64 :=
  match estimator with
  | None => Ret f64_zero
  | Some h => Estimator.estimate_p90 (wl_name w) "default" h
  end.

(** [check]; [now] is the reading of [_today]. *)
Definition check (now : Z) (times : CostPeriodKind → Z) (w : AgentWorkload) (ctx : TenantContext) (s : Store)
    : outcome BudgetExn BudgetCheck :=
  let budget := wl_budget w in
  let day := dt_date now in
  let denied level limit spent reason :=
    {| bc_allowed := false; bc_level := level; bc_limit_usd := limit; bc_spent_usd := spent;
       bc_remaining_usd := f64_zero; bc_reason := Some reason |} in
  let day_spent := day_spend (wl_name w) day ctx s in
  if f64_leb (bs_per_day_usd budget) day_spent
  then Ret (denied LEVEL_DAY (bs_per_day_usd budget) day_spent ("day budget exhausted for " +:+ py_repr (wl_name w)))
  else
    let team_denial :=
      match bs_per_team_usd budget, wl_team w with
      | Some limit, Some team =>
          let team_spent := team_spend team day ctx s in
          if f64_leb limit team_spent
          then Some (denied LEVEL_TEAM limit team_spent ("team budget exhausted for " +:+ py_repr team))
          else None
      | _, _ => None
      end in
    match team_denial with
    | Some d => Ret d
    | None =>
        match projected_usd w with
        | Raise e => Raise e
        | Ret p =>
            match tenant_cap times ctx p s with
            | Some d => Ret d
            | None => Ret {| bc_allowed := true; bc_level := LEVEL_RUN; bc_limit_usd := bs_per_run_usd budget;
                             bc_spent_usd := f64_zero; bc_remaining_usd := bs_per_run_usd budget; bc_reason := None |}
            end
        end
    end.

(** [workload.team or ctx.team_id or DEFAULT_TEAM_ID]. *)
Definition event_team (w : AgentWorkload) (ctx : TenantContext) : string :=
  let truthy (o : option string) := match o with Some s => if bool_decide (s = EmptyString) then None else Some s | None => None end in
  match truthy (wl_team w) with
  | Some t => t
  | None => default "default" (truthy (tc_team_id ctx))
  end.

Definition attribution_of (w : AgentWorkload) (r : UsageReport) (model : string) (cost : f64) (ctx : TenantContext)
    : CostAttribution :=
  {| at_run_id := us_run_id r; at_workload := wl_name w; at_team := wl_team w; at_model_identity := Some model;
     at_input_tokens := us_input_tokens r; at_output_tokens := us_output_tokens r; at_tool_calls := us_tool_calls r;
     at_cost_usd := cost; at_timestamp := us_timestamp r; at_tenant_id := tc_tenant_id ctx;
     at_attribution_key := tc_attribution_key ctx |}.

Definition record_cost_event (event_id : string) (w : AgentWorkload) (r : UsageReport) (model : string) (cost : f64)
    (ctx : TenantContext) : BM unit :=
  match cost_service with
  | None => ret tt
  | Some svc =>
      let e := {| ce_event_id := event_id; ce_tenant_id := tc_tenant_id ctx; ce_team_id := event_team w ctx;
                  ce_workload_id := wl_name w; ce_run_id := us_run_id r; ce_model := model; ce_cost_usd := cost;
                  ce_occurred_at := us_timestamp r |} in
      if negb (cost_event_valid e) then raise BudgetValidationError
      else λ s, let '(o, c) := cs_record svc e ctx (costs s) in
                (o, {| run_spends := run_spends s; day_spends := day_spends s; team_spends := team_spends s;
                       attributions := attributions s; costs := c |})
  end.

(** The limit checks at the end of [record_usage]. *)
Definition usage_check (times : CostPeriodKind → Z) (w : AgentWorkload) (run : string) (day : Z) (ctx : TenantContext)
    (s : Store) : BudgetCheck :=
  let budget := wl_budget w in
  let run_spent := run_spend run ctx s in
  if f64_ltb (bs_per_run_usd budget) run_spent then exceeded LEVEL_RUN (bs_per_run_usd budget)
  else if f64_ltb (bs_per_day_usd budget) (day_spend (wl_name w) day ctx s)
  then exceeded LEVEL_DAY (bs_per_day_usd budget)
  else
    let team_denial :=
      match bs_per_team_usd budget, wl_team w with
      | Some limit, Some team =>
          if f64_ltb limit (team_spend team day ctx s) then Some (exceeded LEVEL_TEAM limit) else None
      | _, _ => None
      end in
    match team_denial with
    | Some d => d
    | None =>
        match tenant_cap times ctx f64_zero s with
        | Some d => d
        | None => {| bc_allowed := true; bc_level := LEVEL_RUN; bc_limit_usd := bs_per_run_usd budget;
                     bc_spent_usd := run_spent;
                     bc_remaining_usd := f64_max f64_zero (f64_sub (bs_per_run_usd budget) run_spent);
                     bc_reason := None |}
        end
    end.

Definition record_usage (now : Z) (times : CostPeriodKind → Z) (event_id : string) (w : AgentWorkload)
    (r : UsageReport) (ctx : TenantContext) : BM BudgetOutcome :=
  let* model := of_option MissingModelIdentityError (us_model_identity r) in
  let* cost := (λ s, (price pricing model (us_input_tokens r) (us_output_tokens r), s)) in
  let day := dt_date now in
  add_run_spend (us_run_id r) cost ctx ;;;
  add_day_spend (wl_name w) day cost ctx ;;;
  match wl_team w with Some team => add_team_spend team day cost ctx | None => ret tt end ;;;
  let a := attribution_of w r model cost ctx in
  when (negb (attribution_valid a)) (raise BudgetValidationError) ;;;
  record_attribution a ctx ;;;
  record_cost_event event_id w r model cost ctx ;;;
  let* s := get in
  ret {| bo_check := usage_check times w (us_run_id r) day ctx s; bo_cost_usd := cost |}.

Record BudgetSnapshot := mkSnapshot {
  sn_workload : string; sn_team : option string; sn_day : Z; sn_run_usd : f64; sn_day_usd : f64; sn_team_usd : f64 }.

Definition snapshot (now : Z) (w : AgentWorkload) (run : string) (ctx : TenantContext) (s : Store) : BudgetSnapshot :=
  let day := dt_date now in
  {| sn_workload := wl_name w; sn_team := wl_team w; sn_day := day; sn_run_usd := run_spend run ctx s;
     sn_day_usd := day_spend (wl_name w) day ctx s;
     sn_team_usd := match wl_team w with Some t => team_spend t day ctx s | None => f64_zero end |}.

(** ** What recording usage does *)

(** The state after the spends are added, before the attribution. *)
Definition after_spends (w : AgentWorkload) (r : UsageReport) (day : Z) (cost : f64) (ctx : TenantContext) (s : Store)
    : Store :=
  {| run_spends := add_to (tc_tenant_id ctx, us_run_id r) cost (run_spends s);
     day_spends := add_to (tc_tenant_id ctx, wl_name w, day) cost (day_spends s);
     team_spends := match wl_team w with
                    | Some team => add_to (tc_tenant_id ctx, team, day) cost (team_spends s)
                    | None => team_spends s end;
     attributions := attributions s; costs := costs s |}.

Lemma record_cost_event_frame event_id w r model cost ctx s :
  let s' := (record_cost_event event_id w r model cost ctx s).2 in
  run_spends s' = run_spends s ∧ day_spends s' = day_spends s ∧ team_spends s' = team_spends s ∧
  attributions s' = attributions s.
Proof.
  unfold record_cost_event. destruct cost_service as [svc|]; simpl; [|done].
  destruct (negb _); simpl; [done|]. by destruct (cs_record svc _ ctx (costs s)).
Qed.

Definition same_ledger (s s' : Store) : Prop :=
  run_spends s' = run_spends s ∧ day_spends s' = day_spends s ∧ team_spends s' = team_spends s.

Lemma record_usage_cases now times event_id w r ctx s o s' :
  record_usage now times event_id w r ctx s = (o, s') →
  match us_model_identity r with
  | None => o = Raise MissingModelIdentityError ∧ s' = s
  | Some model =>
      match price pricing model (us_input_tokens r) (us_output_tokens r) with
      | Raise e => o = Raise e ∧ s' = s
      | Ret cost =>
          let s1 := after_spends w r (dt_date now) cost ctx s in
          let a := attribution_of w r model cost ctx in
          same_ledger s1 s' ∧
          attributions s' = attributions s ++ (if attribution_valid a then [a] else []) ∧
          (∀ out, o = Ret out → bo_cost_usd out = cost ∧ attribution_valid a = true ∧
             bo_check out = usage_check times w (us_run_id r) (dt_date now) ctx s' ∧
             ∃ s2, costs s2 = costs s ∧ record_cost_event event_id w r model cost ctx s2 = (Ret tt, s'))
      end
  end.
Proof.
  unfold record_usage. destruct (us_model_identity r) as [model|]; [|by intros [= <- <-]].
  unfold bind at 1. unfold of_option, ret at 1. unfold bind at 1.
  destruct (price pricing model _ _) as [cost|e]; [|by intros [= <- <-]].
  set (a := attribution_of w r model cost ctx). set (s1 := after_spends w r (dt_date now) cost ctx s).
  assert (∀ (k : BM BudgetOutcome),
    (add_run_spend (us_run_id r) cost ctx ;;; add_day_spend (wl_name w) (dt_date now) cost ctx ;;;
     match wl_team w with Some team => add_team_spend team (dt_date now) cost ctx | None => ret tt end ;;; k) s
    = k s1) as -> by (intros k; unfold bind, add_run_spend, add_day_spend, add_team_spend, modify, s1, after_spends;
                      by destruct (wl_team w)).
  destruct (attribution_valid a) eqn:Hv; simpl.
  2: { unfold bind, when, raise; simpl. intros [= <- <-]. rewrite app_nil_r. by repeat split. }
  unfold bind at 1, ret at 1. unfold record_attribution, require. unfold a at 2; simpl.
  unfold scopes at 1. rewrite bool_decide_true, orb_true_r by done. unfold bind, ret, modify, get; simpl.
  match goal with |- context [record_cost_event event_id w r model cost ctx ?s2] =>
    pose proof (record_cost_event_frame event_id w r model cost ctx s2) as (F1 & F2 & F3 & F4);
    destruct (record_cost_event event_id w r model cost ctx s2) as [[u|e] s3] eqn:Hev end;
    simpl in F1, F2, F3, F4; simpl; intros [= <- <-]; (split; [split; [exact F1|split; [exact F2|exact F3]]|split; [exact F4|]]); [|done].
  intros ? [= <-]. destruct u. split_and!; [done..|]. eexists; split; [|exact Hev]; done.
Qed.

(** *** The ledger *)

Definition run_attributions (t run : string) (l : list CostAttribution) : list CostAttribution :=
  filter (λ a, at_tenant_id a = t ∧ at_run_id a = run) l.

(** Costs added in the order they were recorded, as the code adds them. *)
Definition total_cost (l : list CostAttribution) : f64 := foldl f64_add f64_zero (at_cost_usd <$> l).

Definition ledger_inv (s : Store) : Prop :=
  ∀ t run, spend_of (t, run) (run_spends s) = total_cost (run_attributions t run (attributions s)).

(** One usage report; its attribution, if it is priced, is well formed. *)
Inductive usage_step : Store → Store → Prop :=
  | us_record now times event_id w r ctx s :
      (∀ model cost, us_model_identity r = Some model →
         price pricing model (us_input_tokens r) (us_output_tokens r) = Ret cost →
         attribution_valid (attribution_of w r model cost ctx) = true) →
      usage_step s (record_usage now times event_id w r ctx s).2.

Lemma spend_of_add_to {K : Type} `{Countable K} (k k' : K) (x : f64) (m : gmap K f64) :
  spend_of k (add_to k' x m) = if decide (k = k') then f64_add (spend_of k' m) x else spend_of k m.
Proof.
  unfold add_to, spend_of at 1. case_decide; subst; [by rewrite lookup_insert_eq|by rewrite lookup_insert_ne by done].
Qed.

Lemma usage_step_ledger s s' : usage_step s s' → ledger_inv s → ledger_inv s'.
Proof.
  destruct 1 as [now times event_id w r ctx s Hval]. intros Hs t run.
  destruct (record_usage now times event_id w r ctx s) as [o s'] eqn:Hr. simpl.
  apply record_usage_cases in Hr. destruct (us_model_identity r) as [model|]; [|destruct Hr as [_ ->]; apply Hs].
  destruct (price pricing model _ _) as [cost|e] eqn:Hp; [|destruct Hr as [_ ->]; apply Hs].
  destruct Hr as ((Hrun & _ & _) & Hat & _). rewrite (Hval _ _ eq_refl Hp) in Hat.
  rewrite Hrun, Hat. simpl. rewrite spend_of_add_to. unfold run_attributions. rewrite filter_app, filter_cons; simpl.
  case_decide as Hk.
  - injection Hk as -> ->. rewrite decide_True by done. unfold total_cost. rewrite fmap_app, foldl_app. simpl.
    f_equal. apply Hs.
  - rewrite decide_False by naive_solver. rewrite filter_nil, app_nil_r. apply Hs.
Qed.

(** After any sequence of usage reports the spend recorded for a run is
    exactly the sum of the costs attributed to it, in order. *)
Theorem budget_run_ledger c s t run :
  rtc usage_step {| run_spends := ∅; day_spends := ∅; team_spends := ∅; attributions := []; costs := c |} s →
  spend_of (t, run) (run_spends s) = total_cost (run_attributions t run (attributions s)).
Proof.
  intros H. enough (ledger_inv s) as Hs by apply Hs.
  assert (ledger_inv {| run_spends := ∅; day_spends := ∅; team_spends := ∅; attributions := []; costs := c |}) as H0
    by done.
  revert H0. induction H as [|a b d Hs _ IH]; [done|]. intros Ha. by apply IH, (usage_step_ledger a).
Qed.

(** Usage recorded for one tenant never touches another tenant's spend
    totals or attributions, whether the call returns or raises. *)
Theorem budget_tenant_isolation now times event_id w r ctx s t :
  t ≠ tc_tenant_id ctx →
  let s' := (record_usage now times event_id w r ctx s).2 in
  (∀ run, spend_of (t, run) (run_spends s') = spend_of (t, run) (run_spends s)) ∧
  (∀ wl day, spend_of (t, wl, day) (day_spends s') = spend_of (t, wl, day) (day_spends s)) ∧
  (∀ team day, spend_of (t, team, day) (team_spends s') = spend_of (t, team, day) (team_spends s)) ∧
  filter (λ a, at_tenant_id a = t) (attributions s') = filter (λ a, at_tenant_id a = t) (attributions s).
Proof.
  intros Ht. destruct (record_usage now times event_id w r ctx s) as [o s'] eqn:Hr. simpl.
  apply record_usage_cases in Hr. destruct (us_model_identity r) as [model|]; [|by destruct Hr as [_ ->]].
  destruct (price pricing model _ _) as [cost|e]; [|by destruct Hr as [_ ->]].
  destruct Hr as ((-> & -> & ->) & -> & _). simpl. split_and!.
  - intros run. rewrite spend_of_add_to. by case_decide; simplify_eq.
  - intros wl day. rewrite spend_of_add_to. by case_decide; simplify_eq.
  - intros team day. destruct (wl_team w); [|done]. rewrite spend_of_add_to. by case_decide; simplify_eq.
  - rewrite filter_app. destruct (attribution_valid _); simpl; [|by rewrite app_nil_r].
    rewrite filter_cons_False by (simpl; congruence). by rewrite filter_nil, app_nil_r.
Qed.

(** *** Limits *)

(** Some limit is passed in [s]. *)
Definition over_limit (times : CostPeriodKind → Z) (w : AgentWorkload) (run : string) (day : Z) (ctx : TenantContext)
    (s : Store) : Prop :=
  f64_ltb (bs_per_run_usd (wl_budget w)) (run_spend run ctx s) = true ∨
  f64_ltb (bs_per_day_usd (wl_budget w)) (day_spend (wl_name w) day ctx s) = true ∨
  (∃ limit team, bs_per_team_usd (wl_budget w) = Some limit ∧ wl_team w = Some team ∧
     f64_ltb limit (team_spend team day ctx s) = true) ∨
  is_Some (tenant_cap times ctx f64_zero s).

Lemma tenant_cap_denies times ctx p s d : tenant_cap times ctx p s = Some d → bc_allowed d = false.
Proof.
  unfold tenant_cap. destruct cost_service as [svc|]; [|done].
  destruct (cs_check_cap svc ctx PERIOD_DAY _ _ _) as [[]|]; [by intros [= <-]|].
  destruct (cs_check_cap svc ctx PERIOD_WEEK _ _ _) as [[]|]; [by intros [= <-]|].
  destruct (cs_check_cap svc ctx PERIOD_MONTH _ _ _) as [[]|]; simpl; [by intros [= <-]|done].
Qed.

Lemma usage_check_denies_iff times w run day ctx s :
  bc_allowed (usage_check times w run day ctx s) = false ↔ over_limit times w run day ctx s.
Proof.
  unfold usage_check, over_limit. destruct (f64_ltb (bs_per_run_usd _) _) eqn:H1; [naive_solver|].
  destruct (f64_ltb (bs_per_day_usd _) _) eqn:H2; [naive_solver|].
  destruct (bs_per_team_usd (wl_budget w)) as [limit|], (wl_team w) as [team|];
    [destruct (f64_ltb limit _) eqn:H3; [naive_solver|]| | |];
    destruct (tenant_cap times ctx f64_zero s) as [d|] eqn:Hcap; simpl;
    try (apply tenant_cap_denies in Hcap; split; [eauto 10|done]);
    (split; [done|]; intros [?|[?|[(?&?&?&?&?)|[? ?]]]]; congruence).
Qed.

(** A priced usage report is added to the run's, the day's and the team's
    totals, and is answered with a denial exactly when one of the updated
    totals passes its limit or a tenant cap is hit. *)
Theorem budget_denies_iff_over_limit now times event_id w r ctx s out s' :
  record_usage now times event_id w r ctx s = (Ret out, s') →
  let day := dt_date now in
  run_spend (us_run_id r) ctx s' = f64_add (run_spend (us_run_id r) ctx s) (bo_cost_usd out) ∧
  day_spend (wl_name w) day ctx s' = f64_add (day_spend (wl_name w) day ctx s) (bo_cost_usd out) ∧
  (∀ team, wl_team w = Some team →
     team_spend team day ctx s' = f64_add (team_spend team day ctx s) (bo_cost_usd out)) ∧
  (bc_allowed (bo_check out) = false ↔ over_limit times w (us_run_id r) day ctx s').
Proof.
  intros Hr day. apply record_usage_cases in Hr. destruct (us_model_identity r) as [model|]; [|naive_solver].
  destruct (price pricing model _ _) as [cost|e]; [|naive_solver].
  destruct Hr as ((Hrun & Hday & Hteam) & _ & Hout). destruct (Hout out eq_refl) as (-> & _ & -> & _).
  unfold run_spend, day_spend, team_spend. rewrite Hrun, Hday, Hteam. simpl. split_and!.
  - by rewrite spend_of_add_to, decide_True.
  - by rewrite spend_of_add_to, decide_True.
  - intros team ->. by rewrite spend_of_add_to, decide_True.
  - apply usage_check_denies_iff.
Qed.

(** Once a usage report is refused because the day's or the team's budget is
    exceeded, the workload is not admitted again that day. *)
Theorem budget_exceeded_blocks_admission now now' times times' event_id w r ctx s out s' :
  record_usage now times event_id w r ctx s = (Ret out, s') →
  bo_check out = exceeded LEVEL_DAY (bs_per_day_usd (wl_budget w)) ∨
  (∃ limit, bs_per_team_usd (wl_budget w) = Some limit ∧ bo_check out = exceeded LEVEL_TEAM limit) →
  dt_date now' = dt_date now →
  ∃ d, check now' times' w ctx s' = Ret d ∧ bc_allowed d = false.
Proof.
  intros Hr Hex Hday. apply record_usage_cases in Hr. destruct (us_model_identity r) as [model|]; [|naive_solver].
  destruct (price pricing model _ _) as [cost|e]; [|naive_solver].
  destruct Hr as (_ & _ & Hout). destruct (Hout out eq_refl) as (_ & _ & Hc & _). clear Hout. rewrite Hc in Hex. clear Hc.
  unfold check. rewrite Hday. destruct (f64_leb (bs_per_day_usd _) _) eqn:Hd; [eauto|].
  unfold usage_check in Hex. destruct (f64_ltb (bs_per_run_usd _) _); [naive_solver|].
  destruct (f64_ltb (bs_per_day_usd _) _) eqn:H2; [by rewrite (f64_ltb_leb _ _ H2) in Hd|].
  destruct (bs_per_team_usd (wl_budget w)) as [limit|], (wl_team w) as [team|].
  1: destruct (f64_ltb limit _) eqn:H3; [rewrite (f64_ltb_leb _ _ H3); eauto|].
  all: exfalso; unfold tenant_cap in Hex; destruct cost_service as [svc|]; [|naive_solver].
  all: destruct (cs_check_cap svc ctx PERIOD_DAY _ _ _) as [[]|]; [naive_solver|].
  all: destruct (cs_check_cap svc ctx PERIOD_WEEK _ _ _) as [[]|]; [naive_solver|].
  all: destruct (cs_check_cap svc ctx PERIOD_MONTH _ _ _) as [[]|]; naive_solver.
Qed.
End Service.

(** ** The spend roll-up ([budget/summary.py]) *)
Module Summary.

Record SpendByWorkload := mkRow { sw_workload : string; sw_team : option string; sw_total_usd : f64; sw_run_count : nat }.

Record SpendByTeam := mkTeamRow { st_team : string; st_total_usd : f64; st_run_count : nat }.

(** The five dictionaries the loop fills; run sets are lists without
    repetition. *)
Record Acc := mkAcc {
  workload_totals : odict string f64; workload_runs : odict string (list string);
  workload_teams : odict string (option string); team_totals : odict string f64; team_runs : odict string (list string) }.

Definition set_add (x : string) (l : list string) : list string := if bool_decide (x ∈ l) then l else l ++ [x].

Definition bump (k : string) (x : f64) (d : odict string f64) : odict string f64 :=
  od_set k (f64_add (default f64_zero (od_get k d)) x) d.

Definition visit (k run : string) (d : odict string (list string)) : odict string (list string) :=
  od_set k (set_add run (default [] (od_get k d))) d.

Definition absorb (acc : Acc) (a : CostAttribution) : Acc :=
  {| workload_totals := bump (at_workload a) (at_cost_usd a) (workload_totals acc);
     workload_runs := visit (at_workload a) (at_run_id a) (workload_runs acc);
     workload_teams := match od_get (at_workload a) (workload_teams acc) with
                       | Some (Some _) => workload_teams acc
                       | _ => od_set (at_workload a) (at_team a) (workload_teams acc) end;
     team_totals := match at_team a with
                    | Some t => bump t (at_cost_usd a) (team_totals acc) | None => team_totals acc end;
     team_runs := match at_team a with
                  | Some t => visit t (at_run_id a) (team_runs acc) | None => team_runs acc end |}.

(** The sort key [(-total, name)]. *)
Definition row_leb (t1 t2 : f64) (n1 n2 : string) : bool :=
  if f64_ltb (f64_opp t1) (f64_opp t2) then true
  else if f64_eqb (f64_opp t1) (f64_opp t2) then str_leb n1 n2 else false.

Definition empty_acc : Acc :=
  {| workload_totals := []; workload_runs := []; workload_teams := []; team_totals := []; team_runs := [] |}.

Definition workload_rows (acc : Acc) : list SpendByWorkload :=
  (λ '(name, total), {| sw_workload := name; sw_team := default None (od_get name (workload_teams acc));
                        sw_total_usd := total; sw_run_count := length (default [] (od_get name (workload_runs acc))) |})
    <$> workload_totals acc.

Definition team_rows (acc : Acc) : list SpendByTeam :=
  (λ '(team, total), {| st_team := team; st_total_usd := total;
                        st_run_count := length (default [] (od_get team (team_runs acc))) |}) <$> team_totals acc.

Definition summarize_spend (l : list CostAttribution) : list SpendByWorkload * list SpendByTeam :=
  let acc := foldl absorb empty_acc l in
  (py_sort (λ a b, row_leb (sw_total_usd a) (sw_total_usd b) (sw_workload a) (sw_workload b)) (workload_rows acc),
   py_sort (λ a b, row_leb (st_total_usd a) (st_total_usd b) (st_team a) (st_team b)) (team_rows acc)).

(** *** The roll-up accounts for every attribution *)

Definition of_workload (name : string) (l : list CostAttribution) : list CostAttribution :=
  filter (λ a, at_workload a = name) l.

Definition distinct (l : list string) : list string := foldl (λ acc x, set_add x acc) [] l.

Definition acc_inv (l : list CostAttribution) (acc : Acc) : Prop :=
  od_wf (workload_totals acc) ∧
  (∀ name, od_get name (workload_totals acc) =
     if decide (of_workload name l = []) then None else Some (total_cost (of_workload name l))) ∧
  (∀ name, default [] (od_get name (workload_runs acc)) = distinct (at_run_id <$> of_workload name l)).

Lemma of_workload_snoc name l a :
  of_workload name (l ++ [a]) = of_workload name l ++ (if decide (at_workload a = name) then [a] else []).
Proof. unfold of_workload. rewrite filter_app, filter_cons, filter_nil. by case_decide. Qed.

Lemma absorb_inv l acc a : acc_inv l acc → acc_inv (l ++ [a]) (absorb acc a).
Proof.
  intros (Hwf & Htot & Hrun). split_and!; simpl; [by apply od_wf_set| |].
  - intros name. unfold bump. rewrite od_get_set, of_workload_snoc. destruct (decide (name = at_workload a)) as [->|Hne].
    + rewrite (decide_True (P := at_workload a = at_workload a)) by done.
      rewrite decide_False by by destruct (of_workload (at_workload a) l).
      f_equal. rewrite Htot. unfold total_cost. rewrite fmap_app, foldl_app. simpl. f_equal.
      case_decide as Hn; [by rewrite Hn|done].
    + rewrite (decide_False (P := at_workload a = name)) by done. rewrite app_nil_r. apply Htot.
  - intros name. unfold visit. rewrite od_get_set, of_workload_snoc. destruct (decide (name = at_workload a)) as [->|Hne].
    + rewrite decide_True by done. rewrite Hrun. unfold distinct. by rewrite fmap_app, foldl_app.
    + rewrite (decide_False (P := at_workload a = name)) by done. rewrite app_nil_r. apply Hrun.
Qed.

Lemma summarize_acc_inv l : acc_inv l (foldl absorb empty_acc l).
Proof.
  induction l as [|a l IH] using rev_ind; [by split; [apply od_wf_nil|]|].
  rewrite foldl_app. by apply absorb_inv.
Qed.

Lemma set_add_elem x y l : y ∈ set_add x l ↔ y = x ∨ y ∈ l.
Proof. unfold set_add. case_bool_decide; set_solver. Qed.

Lemma distinct_spec l : NoDup (distinct l) ∧ ∀ x, x ∈ distinct l ↔ x ∈ l.
Proof.
  induction l as [|a l [Hnd Hel]] using rev_ind; [split; [constructor|done]|].
  unfold distinct in *. rewrite foldl_app. simpl. split.
  - unfold set_add. case_bool_decide; [done|]. apply NoDup_app. split_and!; [done| |apply NoDup_singleton]. set_solver.
  - intros x. rewrite set_add_elem, Hel. set_solver.
Qed.

(** The roll-up has one row per workload that spent anything, and the row
    carries the sum of that workload's costs (in order) and the number of
    distinct runs behind it. *)
Theorem summarize_spend_rows l :
  NoDup (sw_workload <$> (summarize_spend l).1) ∧
  (∀ name, name ∈ sw_workload <$> (summarize_spend l).1 ↔ of_workload name l ≠ []) ∧
  (∀ row, row ∈ (summarize_spend l).1 →
     sw_total_usd row = total_cost (of_workload (sw_workload row) l) ∧
     sw_run_count row = length (distinct (at_run_id <$> of_workload (sw_workload row) l))) ∧
  (∀ runs, NoDup (distinct runs) ∧ ∀ x : string, x ∈ distinct runs ↔ x ∈ runs).
Proof.
  destruct (summarize_acc_inv l) as (Hwf & Htot & Hrun). set (acc := foldl absorb empty_acc l) in *.
  assert ((sw_workload <$> (summarize_spend l).1) ≡ₚ od_keys (workload_totals acc)) as Hperm.
  { simpl. fold acc. rewrite py_sort_perm. unfold workload_rows, od_keys. rewrite <-list_fmap_compose.
    apply Permutation_refl', list_fmap_ext. by intros i [name total] _. }
  split_and!.
  - by rewrite Hperm.
  - intros name. rewrite Hperm. destruct (decide (of_workload name l = [])) as [He|He].
    + split; [|done]. intros Hin%od_mem_spec. unfold od_mem in Hin. by rewrite Htot, decide_True in Hin.
    + split; [done|]. intros _. apply od_mem_spec. unfold od_mem. by rewrite Htot, decide_False.
  - intros row. simpl. fold acc. rewrite py_sort_perm. unfold workload_rows.
    intros ([name total] & -> & Hin)%list_elem_of_fmap. simpl. rewrite Hrun. split; [|done].
    apply od_elem_get in Hin; [|done]. rewrite Htot in Hin. by case_decide; [|injection Hin].
  - intros runs. apply distinct_spec.
Qed.
End Summary.

(** ** Concrete usage *)

Definition demo_table : CostTable := cost_table ∅ ZERO_COST_PREFIXES.

Definition demo_workload : AgentWorkload :=
  {| wl_name := "w"; wl_owner := "o"; wl_team := Some "platform";
     wl_budget := {| bs_per_run_usd := f64_lit 50 1; bs_per_day_usd := f64_lit 50 1; bs_per_team_usd := None |};
     wl_tools := {| ts_allow := []; ts_deny := []; ts_mcp_servers := []; ts_default_trust := TRUST_READ_ONLY |};
     wl_approval_required_for := []; wl_sandbox := None; wl_time_windows := []; wl_output_shaping := false; wl_certification := None |}.

Definition demo_report (run : string) (tokens : N) : UsageReport :=
  {| us_run_id := run; us_input_tokens := tokens; us_output_tokens := 0; us_tool_calls := 1;
     us_cost_usd := f64_zero; us_timestamp := 0; us_model_identity := Some "openai/gpt-4o/2024-08-06";
     us_prompt := None; us_response := None; us_latency_ms := None |}.

Definition demo_store : Store (C := unit) :=
  {| run_spends := ∅; day_spends := ∅; team_spends := ∅; attributions := []; costs := tt |}.

Definition demo_use (run : string) (tokens : N) (s : Store (C := unit)) :=
  record_usage demo_table None 0 (λ _, 0%Z) "e" demo_workload (demo_report run tokens) DEFAULT_CONTEXT s.

(** Six million tokens in one run, five million in another: the day's limit of
    50 USD is passed by the second run, which itself stays below 50. *)
Definition demo_after : Store := (demo_use "r1" 6000000 demo_store).2.

Lemma budget_run_ledger_witness :
  spend_of ("default", "r2") (run_spends (demo_use "r2" 5000000 demo_after).2)
  = total_cost (run_attributions "default" "r2" (attributions (demo_use "r2" 5000000 demo_after).2)).
Proof.
  apply (budget_run_ledger demo_table None tt).
  eapply rtc_l; [apply (us_record demo_table None 0 (λ _, 0%Z) "e" demo_workload (demo_report "r1" 6000000) DEFAULT_CONTEXT)|].
  { intros model cost [= <-] Hp. vm_compute in Hp. injection Hp as <-. vm_compute. reflexivity. }
  eapply rtc_l; [apply (us_record demo_table None 0 (λ _, 0%Z) "e" demo_workload (demo_report "r2" 5000000) DEFAULT_CONTEXT)|apply rtc_refl].
  intros model cost [= <-] Hp. vm_compute in Hp. injection Hp as <-. vm_compute. reflexivity.
Defined.

Lemma budget_tenant_isolation_witness :
  filter (λ a, at_tenant_id a = "acme") (attributions (demo_use "r2" 5000000 demo_after).2)
  = filter (λ a, at_tenant_id a = "acme") (attributions demo_after).
Proof.
  apply (budget_tenant_isolation demo_table None 0 (λ _, 0%Z) "e" demo_workload (demo_report "r2" 5000000)
           DEFAULT_CONTEXT demo_after "acme").
  vm_compute. congruence.
Defined.

Lemma budget_denies_iff_over_limit_witness :
  ∃ out s', demo_use "r2" 5000000 demo_after = (Ret out, s') ∧
    (bc_allowed (bo_check out) = false ↔ over_limit None (λ _, 0%Z) demo_workload "r2" 0 DEFAULT_CONTEXT s').
Proof.
  eexists _, _. split; [vm_compute; reflexivity|].
  eapply (budget_denies_iff_over_limit demo_table None 0 (λ _, 0%Z) "e" demo_workload (demo_report "r2" 5000000)
           DEFAULT_CONTEXT demo_after).
  vm_compute. reflexivity.
Defined.

Lemma budget_exceeded_blocks_admission_witness :
  ∃ d, check None None 7 (λ _, 0%Z) demo_workload DEFAULT_CONTEXT (demo_use "r2" 5000000 demo_after).2 = Ret d ∧
       bc_allowed d = false.
Proof.
  eapply (budget_exceeded_blocks_admission demo_table None None 0 7 (λ _, 0%Z) (λ _, 0%Z) "e" demo_workload
           (demo_report "r2" 5000000) DEFAULT_CONTEXT demo_after); [vm_compute; reflexivity| |reflexivity].
  left. vm_compute. reflexivity.
Defined.
