(* ===== verification/Cost.v ===== *)
(** * Showback and budget periods ([cost/service.py], [cost/models.py], the
    in-memory store of [cost/store.py], [cost/depth.py] without the estimator,
    the cache and the tier router)

    Attribution of usage to the budget periods of a tenant, threshold alerts,
    spend caps, roll-over, showback.  A time is an instant together with the
    offset of the clock it was read from, because periods are cut by the local
    date while events are compared as instants.  Amounts are binary64 floats. *)

From Stdlib Require Import Ascii.
From stdpp Require Import base strings pretty numbers sets relations list.
From S2P Require Import Prelude Float64 Text Calendar Tenancy CoreModels Budget.

Open Scope hp_scope.

(** ** Models *)

Inductive CostExn :=
  | UnattributedUsageError (event_id : string) (missing : list string)
  | SpendCapExceededError (tenant_id : string) (cap_usd spent_usd : f64)
  | CostScopeError
  | CostValidationError
  | CostOverflowError.

Inductive CarryRule := CARRY_NONE | CARRY_CAPPED | CARRY_FULL.
#[export] Instance CarryRule_eq_dec : EqDecision CarryRule.
Proof. solve_decision. Defined.

Inductive BudgetScope := SCOPE_TENANT | SCOPE_TEAM | SCOPE_WORKLOAD.
#[export] Instance BudgetScope_eq_dec : EqDecision BudgetScope.
Proof. solve_decision. Defined.

Definition scope_value (s : BudgetScope) : string :=
  match s with SCOPE_TENANT => "tenant" | SCOPE_TEAM => "team" | SCOPE_WORKLOAD => "workload" end.

#[export] Instance CostPeriodKind_eq_dec : EqDecision CostPeriodKind.
Proof. solve_decision. Defined.

Definition kind_value (k : CostPeriodKind) : string :=
  match k with PERIOD_DAY => "day" | PERIOD_WEEK => "week" | PERIOD_MONTH => "month" end.

(** An aware [datetime]: the instant, and the offset of its clock from UTC. *)
Record Moment := mkMoment { mo_utc : Z; mo_offset : Z }.

Definition at_utc (t : Z) : Moment := mkMoment t 0.

(** [when.date()] *)
Definition local_date (m : Moment) : Z := dt_date (mo_utc m + mo_offset m).

Record UsageEvent := mkUsageEvent {
  ue_event_id : string;
  ue_tenant_id : string;
  ue_team_id : string;
  ue_workload_id : string;
  ue_run_id : option string;
  ue_cost_usd : f64;
  ue_saved_usd : f64;
  ue_completed : bool;
  ue_retry : bool;
  ue_escalation : bool;
  ue_occurred_at : Moment;
}.

Record BudgetPeriod := mkPeriod {
  bp_period_id : string;
  bp_tenant_id : string;
  bp_scope : BudgetScope;
  bp_scope_id : string;
  bp_kind : CostPeriodKind;
  bp_period_key : string;
  bp_limit_usd : f64;
  bp_carry_rule : CarryRule;
  bp_carry_in_usd : f64;
  bp_spent_usd : f64;
  bp_cap_usd : option f64;
  bp_enforced : bool;
}.

Definition with_totals (p : BudgetPeriod) (spent carry : f64) : BudgetPeriod :=
  {| bp_period_id := bp_period_id p; bp_tenant_id := bp_tenant_id p; bp_scope := bp_scope p; bp_scope_id := bp_scope_id p;
     bp_kind := bp_kind p; bp_period_key := bp_period_key p; bp_limit_usd := bp_limit_usd p;
     bp_carry_rule := bp_carry_rule p; bp_carry_in_usd := carry; bp_spent_usd := spent; bp_cap_usd := bp_cap_usd p;
     bp_enforced := bp_enforced p |}.

Definition effective_limit_usd (p : BudgetPeriod) : f64 := f64_add (bp_limit_usd p) (bp_carry_in_usd p).

Definition remaining_usd (p : BudgetPeriod) : f64 := f64_max f64_zero (f64_sub (effective_limit_usd p) (bp_spent_usd p)).

Definition sized (lo hi : nat) (s : string) : bool := (lo <=? String.length s)%nat && (String.length s <=? hi)%nat.

(** The field constraints, checked when a period is built. *)
Definition period_valid (p : BudgetPeriod) : bool :=
  sized 1 64 (bp_tenant_id p) && sized 1 253 (bp_scope_id p) && sized 1 32 (bp_period_key p)
  && not_negative (bp_limit_usd p) && not_negative (bp_carry_in_usd p) && not_negative (bp_spent_usd p)
  && match bp_cap_usd p with Some cap => not_negative cap | None => true end.

Record ThresholdAlert := mkAlert {
  al_alert_id : string;
  al_tenant_id : string;
  al_scope : BudgetScope;
  al_scope_id : string;
  al_kind : CostPeriodKind;
  al_period_key : string;
  al_threshold : Z;
  al_spent_usd : f64;
  al_limit_usd : f64;
  al_fired_at : Moment;
}.

Definition alert_valid (a : ThresholdAlert) : bool :=
  (1 <=? al_threshold a)%Z && not_negative (al_spent_usd a) && not_negative (al_limit_usd a).

(** ** The store *)

Record CostStore := mkCostStore {
  ct_events : odict string UsageEvent;
  ct_periods : odict string BudgetPeriod;
  ct_alerts : odict string ThresholdAlert;
  ct_dead : list (UsageEvent * string);
}.

Definition empty_cost_store : CostStore := {| ct_events := []; ct_periods := []; ct_alerts := []; ct_dead := [] |}.

Definition with_periods (f : odict string BudgetPeriod → odict string BudgetPeriod) (s : CostStore) : CostStore :=
  {| ct_events := ct_events s; ct_periods := f (ct_periods s); ct_alerts := ct_alerts s; ct_dead := ct_dead s |}.

Definition with_events (f : odict string UsageEvent → odict string UsageEvent) (s : CostStore) : CostStore :=
  {| ct_events := f (ct_events s); ct_periods := ct_periods s; ct_alerts := ct_alerts s; ct_dead := ct_dead s |}.

(** [sorted(d.items())], values only. *)
Definition sorted_values {V} (d : odict string V) : list V := (py_sort (λ a b, str_leb a.1 b.1) d).*2.

Abbreviation CM := (M CostStore CostExn).

Definition save_event (e : UsageEvent) (ctx : TenantContext) : CM unit :=
  require CostScopeError ctx (ue_tenant_id e) ;;; modify (with_events (od_set (ue_event_id e) e)).

Definition dead_letter (e : UsageEvent) (reason : string) : CM unit :=
  modify (λ s, {| ct_events := ct_events s; ct_periods := ct_periods s; ct_alerts := ct_alerts s;
                  ct_dead := ct_dead s ++ [(e, reason)] |}).

Definition list_events (tenant : string) (start stop : option Z) (ctx : TenantContext) (s : CostStore) : list UsageEvent :=
  if negb (scopes ctx tenant) then []
  else filter (λ e, bool_decide (ue_tenant_id e = tenant)
                    && match start with Some t => (t <=? mo_utc (ue_occurred_at e))%Z | None => true end
                    && match stop with Some t => (mo_utc (ue_occurred_at e) <? t)%Z | None => true end = true)
         (sorted_values (ct_events s)).

Definition completed_event (e : UsageEvent) : UsageEvent :=
  {| ue_event_id := ue_event_id e; ue_tenant_id := ue_tenant_id e; ue_team_id := ue_team_id e;
     ue_workload_id := ue_workload_id e; ue_run_id := ue_run_id e; ue_cost_usd := ue_cost_usd e;
     ue_saved_usd := ue_saved_usd e; ue_completed := true; ue_retry := ue_retry e; ue_escalation := ue_escalation e;
     ue_occurred_at := ue_occurred_at e |}.

Definition completes (run : string) (ctx : TenantContext) (e : UsageEvent) : bool :=
  bool_decide (ue_run_id e = Some run) && scopes ctx (ue_tenant_id e) && negb (ue_completed e).

Definition mark_run_completed (run : string) (ctx : TenantContext) : CM nat :=
  let* s := get in
  modify (with_events (fmap (λ e, (e.1, if completes run ctx e.2 then completed_event e.2 else e.2)))) ;;;
  ret (length (filter (λ e, completes run ctx e.2 = true) (ct_events s))).

Definition delete_events_before (cutoff : Z) (tenant : string) (ctx : TenantContext) : CM nat :=
  let stale (e : string * UsageEvent) := bool_decide (ue_tenant_id e.2 = tenant) && (mo_utc (ue_occurred_at e.2) <? cutoff)%Z in
  if negb (scopes ctx tenant) then ret O
  else let* s := get in
       modify (with_events (filter (λ e, stale e = false))) ;;;
       ret (length (filter (λ e, stale e = true) (ct_events s))).

Definition unattributed (s : CostStore) : nat := length (ct_dead s).

Definition save_period (p : BudgetPeriod) (ctx : TenantContext) : CM unit :=
  require CostScopeError ctx (bp_tenant_id p) ;;; modify (with_periods (od_set (bp_period_id p) p)).

Definition get_period (id : string) (ctx : TenantContext) (s : CostStore) : option BudgetPeriod :=
  match od_get id (ct_periods s) with
  | Some p => if scopes ctx (bp_tenant_id p) then Some p else None
  | None => None
  end.

Definition list_periods (tenant : string) (ctx : TenantContext) (s : CostStore) : list BudgetPeriod :=
  if negb (scopes ctx tenant) then [] else filter (λ p, bp_tenant_id p = tenant) (sorted_values (ct_periods s)).

Definition period_tenants (s : CostStore) : list string :=
  py_sort str_leb (remove_dups (bp_tenant_id <$> od_values (ct_periods s))).

Definition save_alert (a : ThresholdAlert) (ctx : TenantContext) : CM unit :=
  require CostScopeError ctx (al_tenant_id a) ;;;
  modify (λ s, {| ct_events := ct_events s; ct_periods := ct_periods s;
                  ct_alerts := od_set (al_alert_id a) a (ct_alerts s); ct_dead := ct_dead s |}).

Definition list_alerts (tenant : string) (ctx : TenantContext) (s : CostStore) : list ThresholdAlert :=
  if negb (scopes ctx tenant) then [] else filter (λ a, al_tenant_id a = tenant) (sorted_values (ct_alerts s)).

Definition purge_tenant (tenant : string) : CM nat :=
  let* s := get in
  modify (λ s, {| ct_events := filter (λ e, ue_tenant_id e.2 ≠ tenant) (ct_events s);
                  ct_periods := filter (λ e, bp_tenant_id e.2 ≠ tenant) (ct_periods s);
                  ct_alerts := filter (λ e, al_tenant_id e.2 ≠ tenant) (ct_alerts s);
                  ct_dead := filter (λ e, ue_tenant_id e.1 ≠ tenant) (ct_dead s) |}) ;;;
  ret (length (filter (λ e, ue_tenant_id e.2 = tenant) (ct_events s))
       + length (filter (λ e, bp_tenant_id e.2 = tenant) (ct_periods s))
       + length (filter (λ e, al_tenant_id e.2 = tenant) (ct_alerts s))
       + length (filter (λ e, ue_tenant_id e.1 = tenant) (ct_dead s)))%nat.

(** ** Periods *)

Definition period_start (kind : CostPeriodKind) (when : Moment) : Z :=
  let moment := local_date when in
  match kind with
  | PERIOD_DAY => moment
  | PERIOD_WEEK => (moment - weekday moment)%Z
  | PERIOD_MONTH => replace_day moment 1
  end.

(** The key of a period that starts on this date. *)
Definition start_key (kind : CostPeriodKind) (start : Z) : string :=
  match kind with
  | PERIOD_DAY => zpad 4 (year start) +:+ "-" +:+ zpad 2 (month start) +:+ "-" +:+ zpad 2 (day start)
  | PERIOD_WEEK => let iso := iso_year_week start in zpad 0 iso.1 +:+ "-W" +:+ zpad 2 iso.2
  | PERIOD_MONTH => zpad 0 (year start) +:+ "-" +:+ zpad 2 (month start)
  end.

Definition period_key (kind : CostPeriodKind) (when : Moment) : string := start_key kind (period_start kind when).

(** The start of the following period; [None] is an [OverflowError]. *)
Definition following (kind : CostPeriodKind) (start : Z) : option Z :=
  match kind with
  | PERIOD_DAY => date_add start 1
  | PERIOD_WEEK => date_add start 7
  | PERIOD_MONTH => next_month start
  end.

Definition midnight (d : Z) : Z := (d * day_us)%Z.

Definition next_period_key (kind : CostPeriodKind) (when : Moment) : option string :=
  f ← following kind (period_start kind when); Some (period_key kind (at_utc (midnight f))).

Definition period_bounds (kind : CostPeriodKind) (when : Moment) : option (Z * Z) :=
  let start := period_start kind when in
  f ← following kind start; Some (midnight start, midnight f).

(** ** The service *)

Definition period_id_of (tenant : string) (scope : BudgetScope) (scope_id : string) (kind : CostPeriodKind) (key : string)
    : string :=
  tenant +:+ ":" +:+ scope_value scope +:+ ":" +:+ scope_id +:+ ":" +:+ kind_value kind +:+ ":" +:+ key.

(** The totals an existing row hands to the row that replaces it. *)
Definition inherit (existing : option BudgetPeriod) (p : BudgetPeriod) : BudgetPeriod :=
  match existing with Some e => with_totals p (bp_spent_usd e) (bp_carry_in_usd e) | None => p end.

(** Read the row with this id, hand its totals over and save. *)
Definition upsert (p : BudgetPeriod) (ctx : TenantContext) : CM BudgetPeriod :=
  let* existing := gets (get_period (bp_period_id p) ctx) in
  let p := inherit existing p in
  save_period p ctx ;;; ret p.

(** [set_budget]; [now] is [at] or the clock's reading. *)
Definition set_budget (now : Moment) (tenant : string) (scope : BudgetScope) (scope_id : string) (kind : CostPeriodKind)
    (limit : f64) (rule : CarryRule) (cap : option f64) (enforced : bool) (ctx : TenantContext) : CM BudgetPeriod :=
  let key := period_key kind now in
  let id := period_id_of tenant scope scope_id kind key in
  let p := {| bp_period_id := id; bp_tenant_id := tenant; bp_scope := scope; bp_scope_id := scope_id; bp_kind := kind;
              bp_period_key := key; bp_limit_usd := limit; bp_carry_rule := rule; bp_carry_in_usd := f64_zero;
              bp_spent_usd := f64_zero; bp_cap_usd := cap; bp_enforced := enforced |} in
  when (negb (period_valid p)) (raise CostValidationError) ;;; upsert p ctx.

(** [_matching_periods] *)
Definition matches (e : UsageEvent) (p : BudgetPeriod) : bool :=
  match bp_scope p with
  | SCOPE_TENANT => true
  | SCOPE_TEAM => bool_decide (bp_scope_id p = ue_team_id e)
  | SCOPE_WORKLOAD => bool_decide (bp_scope_id p = ue_workload_id e)
  end && bool_decide (bp_period_key p = period_key (bp_kind p) (ue_occurred_at e)).

Definition matching_periods (e : UsageEvent) (ctx : TenantContext) (s : CostStore) : list BudgetPeriod :=
  filter (λ p, matches e p = true) (list_periods (ue_tenant_id e) ctx s).

Definition alert_id (p : BudgetPeriod) (threshold : Z) : string := bp_period_id p +:+ ":" +:+ pretty threshold.

Definition reached (p : BudgetPeriod) (threshold : Z) : bool :=
  negb (f64_ltb (bp_spent_usd p)
          (f64_div (f64_mul (effective_limit_usd p) (f64_of_Z threshold)) (f64_of_Z 100))).

(** [_evaluate]: the loop over the thresholds. *)
Fixpoint evaluate_thresholds (p : BudgetPeriod) (when : Moment) (ctx : TenantContext) (thresholds : list Z)
    : CM (list ThresholdAlert) :=
  match thresholds with
  | [] => ret []
  | t :: rest =>
      if negb (reached p t) then evaluate_thresholds p when ctx rest
      else
        let* seen := gets (λ s, existsb (λ a, bool_decide (al_alert_id a = alert_id p t)) (list_alerts (bp_tenant_id p) ctx s)) in
        if seen then evaluate_thresholds p when ctx rest
        else
          let a := {| al_alert_id := alert_id p t; al_tenant_id := bp_tenant_id p; al_scope := bp_scope p;
                      al_scope_id := bp_scope_id p; al_kind := bp_kind p; al_period_key := bp_period_key p;
                      al_threshold := t; al_spent_usd := bp_spent_usd p; al_limit_usd := effective_limit_usd p;
                      al_fired_at := when |} in
          if negb (alert_valid a) then raise CostValidationError
          else
            save_alert a ctx ;;;
            let* fired := evaluate_thresholds p when ctx rest in
            ret (a :: fired)
  end.

Section Service.
Variable thresholds : list Z.

Definition evaluate (p : BudgetPeriod) (when : Moment) (ctx : TenantContext) : CM (list ThresholdAlert) :=
  if f64_leb (effective_limit_usd p) f64_zero then ret [] else evaluate_thresholds p when ctx thresholds.

Definition charge (p : BudgetPeriod) (e : UsageEvent) : BudgetPeriod :=
  with_totals p (f64_add (bp_spent_usd p) (ue_cost_usd e)) (bp_carry_in_usd p).

Fixpoint charge_periods (e : UsageEvent) (ctx : TenantContext) (l : list BudgetPeriod) : CM (list ThresholdAlert) :=
  match l with
  | [] => ret []
  | p :: rest =>
      save_period (charge p e) ctx ;;;
      let* fired := evaluate (charge p e) (ue_occurred_at e) ctx in
      let* more := charge_periods e ctx rest in
      ret (fired ++ more)
  end.

Definition missing_tags (e : UsageEvent) : list string :=
  (if bool_decide (ue_tenant_id e = EmptyString) then ["tenant_id"] else [])
  ++ (if bool_decide (ue_workload_id e = EmptyString) then ["workload_id"] else []).

Definition record_scope (e : UsageEvent) (ctx : TenantContext) : TenantContext :=
  if scopes ctx (ue_tenant_id e) then ctx else context_for_run (ue_tenant_id e) None None.

(** [record] *)
Definition record (e : UsageEvent) (ctx : TenantContext) : CM (list ThresholdAlert) :=
  match missing_tags e with
  | [] =>
      let scope := record_scope e ctx in
      save_event e scope ;;;
      let* periods := gets (matching_periods e scope) in
      charge_periods e scope periods
  | missing => dead_letter e "missing attribution" ;;; raise (UnattributedUsageError (ue_event_id e) missing)
  end.
End Service.

(** [check_cap]: the cap and the spend of the first period that refuses. *)
Definition over_cap (key : string) (projected : f64) (p : BudgetPeriod) : option (f64 * f64) :=
  match bp_cap_usd p with
  | Some cap =>
      if bool_decide (bp_scope p = SCOPE_TENANT) && bp_enforced p && bool_decide (bp_period_key p = key)
         && f64_ltb cap (f64_add (bp_spent_usd p) projected)
      then Some (cap, bp_spent_usd p) else None
  | None => None
  end.

Definition check_cap (now : Moment) (tenant : string) (kind : CostPeriodKind) (projected : f64) (ctx : TenantContext)
    (s : CostStore) : option (f64 * f64) :=
  head (omap (over_cap (period_key kind now) projected) (list_periods tenant ctx s)).

(** [rollover] *)
Definition carry_of (p : BudgetPeriod) : f64 :=
  match bp_carry_rule p with
  | CARRY_FULL => remaining_usd p
  | CARRY_CAPPED => f64_min (remaining_usd p) (bp_limit_usd p)
  | CARRY_NONE => f64_zero
  end.

Definition next_period (tenant : string) (kind : CostPeriodKind) (next_key : string) (p : BudgetPeriod) : BudgetPeriod :=
  {| bp_period_id := period_id_of tenant (bp_scope p) (bp_scope_id p) kind next_key; bp_tenant_id := tenant;
     bp_scope := bp_scope p; bp_scope_id := bp_scope_id p; bp_kind := kind; bp_period_key := next_key;
     bp_limit_usd := bp_limit_usd p; bp_carry_rule := bp_carry_rule p; bp_carry_in_usd := carry_of p;
     bp_spent_usd := f64_zero; bp_cap_usd := bp_cap_usd p; bp_enforced := bp_enforced p |}.

Fixpoint roll (tenant : string) (kind : CostPeriodKind) (next_key : string) (ctx : TenantContext) (l : list BudgetPeriod)
    : CM (list BudgetPeriod) :=
  match l with
  | [] => ret []
  | p :: rest =>
      let n := next_period tenant kind next_key p in
      when (negb (period_valid n)) (raise CostValidationError) ;;;
      let* n := upsert n ctx in
      let* rolled := roll tenant kind next_key ctx rest in
      ret (n :: rolled)
  end.

Definition rollover (now : Moment) (tenant : string) (kind : CostPeriodKind) (ctx : TenantContext) : CM (list BudgetPeriod) :=
  let current_key := period_key kind now in
  let* next_key := of_option CostOverflowError (next_period_key kind now) in
  let* periods := gets (list_periods tenant ctx) in
  roll tenant kind next_key ctx
    (filter (λ p, bp_kind p = kind ∧ bp_period_key p = current_key ∧ next_key ≠ current_key) periods).

(** ** Showback *)

Record ShowbackRow := mkRow {
  sr_team_id : option string;
  sr_workload_id : option string;
  sr_total_cost_usd : f64;
  sr_wasted_usd : f64;
  sr_cache_savings_usd : f64;
  sr_completed_tasks : Z;
  sr_cost_per_completed_task : f64;
}.

Record ShowbackReport := mkShowback {
  sb_tenant_id : string;
  sb_kind : CostPeriodKind;
  sb_period_key : string;
  sb_group_by : string;
  sb_rows : list ShowbackRow;
  sb_total_cost_usd : f64;
  sb_total_completed_tasks : Z;
  sb_fleet_cpct : f64;
  sb_cache_savings_usd : f64;
  sb_unattributed : nat;
}.

Definition group_of (group_by : string) (e : UsageEvent) : string :=
  if bool_decide (group_by = "team") then ue_team_id e else ue_workload_id e.

Definition new_row (group_by : string) (e : UsageEvent) : ShowbackRow :=
  let team := bool_decide (group_by = "team") in
  mkRow (if team then Some (ue_team_id e) else None) (if team then None else Some (ue_workload_id e))
    f64_zero f64_zero f64_zero 0 f64_zero.

Definition add_event (e : UsageEvent) (r : ShowbackRow) : ShowbackRow :=
  {| sr_team_id := sr_team_id r; sr_workload_id := sr_workload_id r;
     sr_total_cost_usd := f64_add (sr_total_cost_usd r) (ue_cost_usd e);
     sr_wasted_usd := if ue_retry e || ue_escalation e then f64_add (sr_wasted_usd r) (ue_cost_usd e) else sr_wasted_usd r;
     sr_cache_savings_usd := f64_add (sr_cache_savings_usd r) (ue_saved_usd e);
     sr_completed_tasks := if ue_completed e then (sr_completed_tasks r + 1)%Z else sr_completed_tasks r;
     sr_cost_per_completed_task := sr_cost_per_completed_task r |}.

Definition group_event (group_by : string) (groups : odict string ShowbackRow) (e : UsageEvent) : odict string ShowbackRow :=
  let g := group_of group_by e in
  od_set g (add_event e (default (new_row group_by e) (od_get g groups))) groups.

Definition price_row (r : ShowbackRow) : ShowbackRow :=
  if bool_decide (sr_completed_tasks r = 0) then r
  else {| sr_team_id := sr_team_id r; sr_workload_id := sr_workload_id r; sr_total_cost_usd := sr_total_cost_usd r;
          sr_wasted_usd := sr_wasted_usd r; sr_cache_savings_usd := sr_cache_savings_usd r;
          sr_completed_tasks := sr_completed_tasks r;
          sr_cost_per_completed_task := f64_div (sr_total_cost_usd r) (f64_of_Z (sr_completed_tasks r)) |}.

(** [row.team_id or row.workload_id or ""] *)
Definition row_key (r : ShowbackRow) : string :=
  match sr_team_id r with
  | Some (String _ _ as s) => s
  | _ => default EmptyString (sr_workload_id r)
  end.

Definition total_over {A} (f : A → f64) (l : list A) : f64 := foldl (λ t a, f64_add t (f a)) f64_zero l.

Definition showback_of (tenant : string) (kind : CostPeriodKind) (key group_by : string) (events : list UsageEvent)
    (dead : nat) : ShowbackReport :=
  let groups := foldl (group_event group_by) [] events in
  let total := total_over ue_cost_usd events in
  let completed := Z.of_nat (length (filter (λ e, ue_completed e = true) events)) in
  {| sb_tenant_id := tenant; sb_kind := kind; sb_period_key := key; sb_group_by := group_by;
     sb_rows := price_row <$> py_sort (λ a b, str_leb (row_key a) (row_key b)) (od_values groups);
     sb_total_cost_usd := total; sb_total_completed_tasks := completed;
     sb_fleet_cpct := if bool_decide (completed = 0%Z) then f64_zero else f64_div total (f64_of_Z completed);
     sb_cache_savings_usd := total_over ue_saved_usd events; sb_unattributed := dead |}.

Definition showback (now : Moment) (tenant : string) (kind : CostPeriodKind) (group_by : string) (ctx : TenantContext)
    : CM ShowbackReport :=
  let* b := of_option CostOverflowError (period_bounds kind now) in
  gets (λ s, showback_of tenant kind (period_key kind now) group_by
               (list_events tenant (Some b.1) (Some b.2) ctx s) (unattributed s)).

(** [chargeback] *)
Record ChargebackRow := mkChargeback { cb_attribution_key : string; cb_cost_usd : f64; cb_events : Z }.

Definition attribution_key (e : UsageEvent) : string :=
  ue_tenant_id e +:+ "/" +:+ ue_team_id e +:+ "/" +:+ ue_workload_id e.

Definition charge_back (totals : odict string (f64 * Z)) (e : UsageEvent) : odict string (f64 * Z) :=
  let '(cost, count) := default (f64_zero, 0%Z) (od_get (attribution_key e) totals) in
  od_set (attribution_key e) (f64_add cost (ue_cost_usd e), (count + 1)%Z) totals.

Definition chargeback_rows (events : list UsageEvent) : list ChargebackRow :=
  (λ t, mkChargeback t.1 t.2.1 t.2.2) <$> py_sort (λ a b, str_leb a.1 b.1) (foldl charge_back [] events).

Definition chargeback (tenant : string) (ctx : TenantContext) (s : CostStore) : list ChargebackRow :=
  chargeback_rows (list_events tenant None None ctx s).

(** ** Depth *)

Record BurnForecast := mkForecast {
  bf_spent_usd : f64; bf_elapsed_fraction : f64; bf_projected_usd : f64; bf_projected_overrun_usd : f64;
  bf_overrun_probability : f64 }.

(** [forecast] of [cost/depth.py] *)
Definition burn_forecast (spent elapsed : f64) (limit : option f64) : BurnForecast :=
  let projected := if f64_leb elapsed f64_zero then spent else f64_div spent elapsed in
  let overrun := match limit with Some l => f64_max f64_zero (f64_sub projected l) | None => f64_zero end in
  let probability :=
    match limit with
    | None => f64_zero
    | Some l =>
        if f64_leb l f64_zero then f64_zero
        else if f64_leb l spent then f64_of_Z 1
        else if f64_leb l projected
        then f64_min (f64_of_Z 1) (f64_add (f64_sub (f64_div projected l) (f64_of_Z 1)) (f64_lit 1 2))
        else f64_max f64_zero (f64_mul (f64_div projected l) (f64_lit 1 2))
    end in
  mkForecast spent elapsed projected overrun probability.

(** [(b - a).total_seconds()] of a difference in microseconds. *)
Definition seconds (us : Z) : f64 := int_truediv us 1000000.

Definition elapsed_fraction (kind : CostPeriodKind) (start : Z) (now : Moment) : option f64 :=
  total ← match kind with
          | PERIOD_DAY => Some (f64_of_Z 86400)
          | PERIOD_WEEK => Some (f64_of_Z 604800)
          | PERIOD_MONTH => n ← next_month start; Some (seconds ((n - start) * day_us))
          end;
  let elapsed := seconds (mo_utc now - midnight start) in
  Some (f64_min (f64_of_Z 1) (f64_max f64_zero (f64_div elapsed total))).

(** [CostService.forecast]: the last matching tenant period is the budget. *)
Definition forecast (now : Moment) (tenant : string) (kind : CostPeriodKind) (ctx : TenantContext) : CM BurnForecast :=
  let key := period_key kind now in
  let* budget := gets (λ s, last (filter (λ p, bp_kind p = kind ∧ bp_period_key p = key ∧ bp_scope p = SCOPE_TENANT)
                                    (list_periods tenant ctx s))) in
  let* elapsed := of_option CostOverflowError (elapsed_fraction kind (period_start kind now) now) in
  ret (burn_forecast (from_option bp_spent_usd f64_zero budget) elapsed (effective_limit_usd <$> budget)).

Record RoiRow := mkRoiRow {
  rr_workload_id : string; rr_spend_usd : f64; rr_value_usd : f64; rr_completed_tasks : Z; rr_roi : f64;
  rr_expensive_low_value : bool; rr_evidence : list string }.

Record RoiReport := mkRoi { rp_rows : list RoiRow; rp_total_spend_usd : f64; rp_total_value_usd : f64; rp_fleet_roi : f64 }.

Section Roi.
(** [f"{x:.2f}"] *)
Variable fixed2 : f64 → string.

Definition roi_row (spend_threshold roi_threshold : f64) (r : ShowbackRow) : RoiRow :=
  let spend := sr_total_cost_usd r in
  let value := f64_of_Z (sr_completed_tasks r) in
  let roi := if f64_ltb f64_zero spend then f64_div value spend else f64_zero in
  let low_value := f64_leb spend_threshold spend && f64_ltb roi roi_threshold in
  {| rr_workload_id := default EmptyString (sr_workload_id r); rr_spend_usd := spend; rr_value_usd := value;
     rr_completed_tasks := sr_completed_tasks r; rr_roi := roi; rr_expensive_low_value := low_value;
     rr_evidence := if low_value
                    then ["spend=$" +:+ fixed2 spend +:+ " >= $" +:+ fixed2 spend_threshold;
                          "roi=" +:+ fixed2 roi +:+ " < " +:+ fixed2 roi_threshold]
                         ++ (if bool_decide (sr_completed_tasks r = 0%Z) then ["no completed tasks"] else [])
                    else [] |}.

(** [build_roi] over the rows of a showback by workload. *)
Definition build_roi (spend_threshold roi_threshold : f64) (rows : list ShowbackRow) : RoiReport :=
  let l := roi_row spend_threshold roi_threshold <$> rows in
  let total_spend := total_over rr_spend_usd l in
  let total_value := total_over rr_value_usd l in
  {| rp_rows := py_sort (λ a b, str_leb (rr_workload_id a) (rr_workload_id b)) l;
     rp_total_spend_usd := total_spend; rp_total_value_usd := total_value;
     rp_fleet_roi := if f64_eqb total_spend f64_zero then f64_zero else f64_div total_value total_spend |}.

Definition roi (now : Moment) (tenant : string) (kind : CostPeriodKind) (spend_threshold roi_threshold : f64)
    (ctx : TenantContext) : CM RoiReport :=
  let* report := showback now tenant kind "workload" ctx in
  ret (build_roi spend_threshold roi_threshold (sb_rows report)).
End Roi.

(** ** Periods as intervals *)

(** The first day of a period: what [period_start] returns. *)
Definition starts (kind : CostPeriodKind) (d : Z) : Prop :=
  match kind with PERIOD_DAY => True | PERIOD_WEEK => weekday d = 0%Z | PERIOD_MONTH => day d = 1%Z end.

Lemma period_start_starts kind when : starts kind (period_start kind when).
Proof.
  destruct kind; simpl; [done|apply weekday_monday|]. unfold replace_day, year, month, day.
  destruct (civil (local_date when)) as [[y m] dd] eqn:Hc. apply civil_spec in Hc as (Hm & Hd & _). cbn [fst snd].
  pose proof (days_in_month_bounds (is_leap y) m Hm). by rewrite civil_of_civil by lia.
Qed.

Lemma digit_pieces a b c d : all_digits a = true → all_digits c = true →
  (a +:+ "-" +:+ b = c +:+ "-" +:+ d)%string → a = c ∧ b = d.
Proof. intros Ha Hc H. by apply (digits_cancel a c "-"%char "-"%char b d) in H. Qed.

Lemma civil_parts d : (1 ≤ month d ≤ 12 ∧ 1 ≤ day d)%Z ∧ of_civil (year d) (month d) (day d) = d.
Proof.
  unfold year, month, day. destruct (civil d) as [[y m] dd] eqn:Hc. apply civil_spec in Hc as (Hm & Hd & E).
  cbn [fst snd]. lia.
Qed.

Lemma iso_year_range d : date_in_range d = true → weekday d = 0%Z → (0 ≤ (iso_year_week d).1)%Z.
Proof.
  unfold date_in_range, date_min, date_max, iso_year_week. intros H ->.
  destruct (year_day _) as [y n] eqn:E. apply year_day_spec in E as [Hn E]. simpl. unfold days_before_year in E.
  assert (0 ≤ n ≤ 365)%Z by (destruct (is_leap y); lia). divs.
Qed.

(** A period is determined by its key. *)
Lemma start_key_inj kind d d' :
  starts kind d → starts kind d' → date_in_range d = true → date_in_range d' = true → start_key kind d = start_key kind d' → d = d'.
Proof.
  intros Hs Hs' Hr Hr'. pose proof (year_range d Hr) as Hyr. pose proof (year_range d' Hr') as Hyr'.
  pose proof (civil_parts d) as ([Hm Hd] & E). pose proof (civil_parts d') as ([Hm' Hd'] & E').
  destruct kind; simpl.
  - intros H. apply digit_pieces in H as [H1 H]; [|apply zpad_digits..].
    apply digit_pieces in H as [H2 H3]; [|apply zpad_digits..].
    apply zpad_inj in H1, H2, H3; [|lia..]. rewrite <-E, <-E'. congruence.
  - intros H. pose proof (iso_week_bounds d) as Hw. pose proof (iso_week_bounds d') as Hw'.
    pose proof (iso_year_range d Hr Hs) as Hi. pose proof (iso_year_range d' Hr' Hs') as Hi'.
    apply (digits_cancel _ _ "-"%char "-"%char) in H as [H1 [= H2]]; [|apply zpad_digits..|done|done].
    apply zpad_inj in H1, H2; [|lia..]. apply iso_year_week_inj; [done..|].
    destruct (iso_year_week d), (iso_year_week d'). simpl in *. congruence.
  - intros H. apply digit_pieces in H as [H1 H2]; [|apply zpad_digits..].
    apply zpad_inj in H1, H2; [|lia..]. simpl in Hs, Hs'. rewrite <-E, <-E'. congruence.
Qed.

Lemma period_start_in_range kind when :
  date_in_range (local_date when) = true → date_in_range (period_start kind when) = true.
Proof.
  intros H. pose proof H as Hr. unfold date_in_range, date_min, date_max in *. destruct kind; simpl; [done| |].
  - pose proof (weekday_bounds (local_date when)). unfold weekday in *. divs.
  - pose proof (replace_day_first (local_date when)) as [Hb _]. apply year_range in Hr.
    assert (of_civil 1 1 1 ≤ replace_day (local_date when) 1)%Z; [|change (of_civil 1 1 1) with (-719162)%Z in *; lia].
    unfold replace_day, of_civil. destruct (civil_parts (local_date when)) as [[Hm _] _].
    pose proof (days_before_month_range (is_leap (year (local_date when))) (month (local_date when)) Hm) as [Hd _].
    change (days_before_month (is_leap 1) 1) with 0%Z. destruct (decide (year (local_date when) = 1%Z)) as [E|]; [rewrite E in *; lia|].
    pose proof (days_before_year_mono 1 (year (local_date when)) ltac:(lia)). change (if is_leap 1 then 1 else 0)%Z with 0%Z in *; lia.
Qed.

(** Two dates in range are in one period exactly when their keys agree. *)
Lemma period_key_start kind a b :
  date_in_range (local_date a) = true → date_in_range (local_date b) = true →
  period_key kind a = period_key kind b ↔ period_start kind a = period_start kind b.
Proof.
  intros Ha Hb. unfold period_key. split; [|by intros ->].
  apply start_key_inj; auto using period_start_starts, period_start_in_range.
Qed.

(** The days of a period are those between its start and the next one's. *)
Lemma period_days kind w f t :
  following kind (period_start kind w) = Some f →
  (period_start kind w ≤ local_date t < f)%Z ↔ period_start kind t = period_start kind w.
Proof.
  destruct kind; simpl.
  - unfold date_add. case_match; [|done]. intros [= <-]. lia.
  - unfold date_add. case_match; [|done]. intros [= <-]. pose proof (weekday_bounds (local_date t)).
    pose proof (weekday_monday (local_date t)). pose proof (weekday_monday (local_date w)).
    pose proof (weekday_bounds (local_date w)). unfold weekday in *. split; divs.
  - intros [-> _]%next_month_start.
    pose proof (period_start_starts PERIOD_MONTH w) as Hd. simpl in Hd.
    destruct (replace_day_first (local_date w)) as [Hw Hiff].
    destruct (replace_day_first (replace_day (local_date w) 1)) as [Hw' _].
    destruct (Hiff (replace_day (local_date w) 1)) as [[Hy Hm] _]; [lia|].
    assert (replace_day (replace_day (local_date w) 1) 1 = replace_day (local_date w) 1) as ->
      by (unfold replace_day at 1; rewrite Hy, Hm; done).
    rewrite Hy, Hm, Hiff. unfold replace_day. split; [by intros [-> ->]|].
    intros E. apply of_civil_inj in E; [tauto|..]; try apply civil_parts; split; try done;
      (etrans; [|apply days_in_month_bounds, civil_parts]; done).
Qed.

(** The period a time falls in, as the budgets see it (its key) and as the
    reports see it (its bounds), is the same for UTC times: a UTC time lies
    within the bounds of the period that contains [w] exactly when its period
    key is the key of that period. *)
Theorem period_key_iff_bounds kind w t lo hi :
  date_in_range (dt_date w) = true → date_in_range (dt_date t) = true →
  period_bounds kind (at_utc w) = Some (lo, hi) →
  (lo ≤ t < hi)%Z ↔ period_key kind (at_utc t) = period_key kind (at_utc w).
Proof.
  intros Hw Ht. assert (∀ x, local_date (at_utc x) = dt_date x) as El
    by (intros x; unfold local_date, at_utc; simpl; by rewrite Z.add_0_r).
  unfold period_bounds. destruct (following _ _) as [f|] eqn:Hf; [|done]. intros [= <- <-].
  rewrite period_key_start by (by rewrite El). rewrite <-(period_days _ _ _ _ Hf), El. unfold midnight, dt_date, day_us. divs.
Qed.
