(* ===== verification/CostLedger.v ===== *)
(** * The ledger of budget periods

    What a sequence of calls of the cost service does to the budget periods:
    identifiers, the store's invariant, the spend of a period as the sum of the
    events that fall in it, the alerts, the caps, the roll-over, and the cost
    service as the budget service sees it. *)

From Stdlib Require Import Ascii.
From stdpp Require Import base strings pretty numbers sets relations list.
From S2P Require Import Prelude Float64 Text Calendar Tenancy CoreModels Budget Cost.

Open Scope hp_scope.

(** ** Identifiers *)

Definition colon_free (s : string) : bool := all_chars (not_char ":"%char) s.

Lemma digits_colon_free s : all_digits s = true → colon_free s = true.
Proof. apply all_chars_mono. intros c. unfold not_char. case_bool_decide; [by subst|done]. Qed.

Lemma start_key_colon_free kind d : colon_free (start_key kind d) = true.
Proof.
  pose proof (λ w z, digits_colon_free _ (zpad_digits w z)) as H. unfold colon_free in *.
  destruct kind; simpl; rewrite ?all_chars_app, ?H; simpl; rewrite ?all_chars_app, ?H; simpl; by rewrite ?H.
Qed.

Lemma pretty_Z_colon_free (z : Z) : colon_free (pretty z) = true.
Proof.
  destruct z as [|p|p]; [done|apply digits_colon_free, (pretty_N_digits (Npos p))|].
  change (colon_free (pretty (Npos p)) = true). apply digits_colon_free, pretty_N_digits.
Qed.

Lemma scope_value_colon_free s : colon_free (scope_value s) = true.
Proof. by destruct s. Qed.

Lemma kind_value_colon_free k : colon_free (kind_value k) = true.
Proof. by destruct k. Qed.

Lemma regroup a b c : (a +:+ ":" +:+ b +:+ ":" +:+ c = (a +:+ ":" +:+ b) +:+ String ":" c)%string.
Proof. by rewrite string_app_assoc. Qed.

(** Budget rows of tenants without a colon in their name have distinct ids. *)
Lemma period_id_of_inj t sc sid k key t' sc' sid' k' key' :
  colon_free t = true → colon_free t' = true → colon_free key = true → colon_free key' = true →
  period_id_of t sc sid k key = period_id_of t' sc' sid' k' key' →
  t = t' ∧ sc = sc' ∧ sid = sid' ∧ k = k' ∧ key = key'.
Proof.
  unfold period_id_of, colon_free. intros Ht Ht' Hk Hk' H.
  apply chars_cancel with (p := not_char ":"%char) in H as [-> H]; [|done..].
  apply chars_cancel with (p := not_char ":"%char) in H as [Hs H]; [|try apply scope_value_colon_free; done..].
  rewrite !regroup in H. apply chars_cancel_r with (p := not_char ":"%char) in H as [H ->]; [|done..].
  apply chars_cancel_r with (p := not_char ":"%char) in H as [-> Hkk]; [|try apply kind_value_colon_free; done..].
  split_and!; try done; [by destruct sc, sc'|by destruct k, k'].
Qed.

(** ** The store's invariant *)

Record period_ok (id : string) (p : BudgetPeriod) : Prop := {
  ok_key : bp_period_id p = id;
  ok_id : bp_period_id p = period_id_of (bp_tenant_id p) (bp_scope p) (bp_scope_id p) (bp_kind p) (bp_period_key p);
  ok_tenant : colon_free (bp_tenant_id p) = true;
  ok_period_key : colon_free (bp_period_key p) = true;
  ok_limit : not_negative (bp_limit_usd p) = true;
  ok_carry : not_negative (bp_carry_in_usd p) = true;
  ok_spent : not_negative (bp_spent_usd p) = true;
}.

Record alert_ok (id : string) (a : ThresholdAlert) : Prop := {
  ok_alert_key : al_alert_id a = id;
  ok_alert_id : al_alert_id a =
    period_id_of (al_tenant_id a) (al_scope a) (al_scope_id a) (al_kind a) (al_period_key a) +:+ ":" +:+ pretty (al_threshold a);
  ok_alert_tenant : colon_free (al_tenant_id a) = true;
  ok_alert_period : colon_free (al_period_key a) = true;
}.

Record store_ok (s : CostStore) : Prop := {
  ok_periods_wf : od_wf (ct_periods s);
  ok_periods : ∀ id p, od_get id (ct_periods s) = Some p → period_ok id p;
  ok_alerts_wf : od_wf (ct_alerts s);
  ok_alerts : ∀ id a, od_get id (ct_alerts s) = Some a → alert_ok id a;
}.

(** Two rows are the same budget: everything but the totals and the terms. *)
Definition same_budget (p q : BudgetPeriod) : Prop :=
  bp_period_id p = bp_period_id q ∧ bp_tenant_id p = bp_tenant_id q ∧ bp_scope p = bp_scope q ∧
  bp_scope_id p = bp_scope_id q ∧ bp_kind p = bp_kind q ∧ bp_period_key p = bp_period_key q.

#[export] Instance same_budget_equiv : Equivalence same_budget.
Proof.
  unfold same_budget. split; [by intros ?|by intros ?? (? & ? & ? & ? & ? & ?)|].
  intros ??? (? & ? & ? & ? & ? & ?) (? & ? & ? & ? & ? & ?). split_and!; congruence.
Qed.

Lemma period_ok_same id p q : period_ok id p → period_ok id q → same_budget p q.
Proof.
  intros Hp Hq. pose proof (ok_id _ _ Hp) as H. pose proof (ok_id _ _ Hq) as H'.
  rewrite (ok_key _ _ Hp) in H. rewrite (ok_key _ _ Hq) in H'. rewrite H' in H.
  apply period_id_of_inj in H as (? & ? & ? & ? & ?); [|by apply Hp || apply Hq..].
  unfold same_budget. rewrite (ok_key _ _ Hp), (ok_key _ _ Hq). split_and!; congruence.
Qed.

Lemma sorted_values_elem {V} (d : odict string V) v : v ∈ sorted_values d ↔ v ∈ od_values d.
Proof. unfold sorted_values, od_values. by rewrite (py_sort_perm _ d). Qed.

Lemma sorted_values_get {V} (d : odict string V) v : od_wf d → v ∈ sorted_values d ↔ ∃ k, od_get k d = Some v.
Proof.
  intros Hwf. rewrite sorted_values_elem. split; [intros H; by apply od_value_get|].
  intros (k & Hk). by apply od_get_value in Hk.
Qed.

Lemma list_periods_spec s tenant ctx p :
  store_ok s → scopes ctx tenant = true →
  p ∈ list_periods tenant ctx s ↔ od_get (bp_period_id p) (ct_periods s) = Some p ∧ bp_tenant_id p = tenant.
Proof.
  intros Hs Hsc. unfold list_periods. rewrite Hsc. simpl. rewrite list_elem_of_filter, sorted_values_get by apply Hs.
  split; [intros (Ht & k & Hk)|intros [Hk Ht]; eauto].
  split; [|done]. by rewrite (ok_key _ _ (ok_periods s Hs k p Hk)).
Qed.

Lemma list_periods_NoDup s tenant ctx : store_ok s → NoDup (bp_period_id <$> list_periods tenant ctx s).
Proof.
  intros Hs. unfold list_periods. destruct (scopes ctx tenant); simpl; [|constructor].
  assert (bp_period_id <$> sorted_values (ct_periods s) = (py_sort (λ a b, str_leb a.1 b.1) (ct_periods s)).*1) as E.
  { unfold sorted_values. rewrite <-list_fmap_compose. apply list_fmap_ext. intros i [k p] Hi. simpl.
    apply (ok_key k p), (ok_periods s Hs). apply od_elem_get; [apply Hs|].
    apply list_elem_of_lookup_2 in Hi. by rewrite py_sort_perm in Hi. }
  assert (NoDup (bp_period_id <$> sorted_values (ct_periods s))) as Hn.
  { rewrite E, py_sort_perm. apply Hs. }
  clear E. revert Hn. induction (sorted_values (ct_periods s)) as [|p l IH]; [constructor|].
  rewrite filter_cons. simpl. rewrite NoDup_cons. intros [Hp Hl]. case_decide; simpl; [|auto].
  apply NoDup_cons. split; [|auto]. intros (q & E & Hq)%list_elem_of_fmap. apply Hp.
  apply list_elem_of_fmap. exists q. split; [done|]. by apply list_elem_of_filter in Hq as [_ ?].
Qed.

(** ** Saving a row *)

(** Every row stays, is the same budget, and its spend becomes [f] of the row. *)
Definition carried (f : BudgetPeriod → f64) (s s' : CostStore) : Prop :=
  ∀ id p, od_get id (ct_periods s) = Some p →
    ∃ p', od_get id (ct_periods s') = Some p' ∧ same_budget p p' ∧ bp_spent_usd p' = f p.

Lemma carried_refl s : carried bp_spent_usd s s.
Proof. intros id p Hp. by exists p. Qed.

Lemma carried_periods f s s1 s2 : ct_periods s1 = ct_periods s2 → carried f s s1 → carried f s s2.
Proof. intros E H id p Hp. rewrite <-E. by apply H. Qed.

Lemma carried_trans s s1 s2 : carried bp_spent_usd s s1 → carried bp_spent_usd s1 s2 → carried bp_spent_usd s s2.
Proof.
  intros H1 H2 id p Hp. destruct (H1 id p Hp) as (p1 & Hp1 & Hs1 & E1).
  destruct (H2 id p1 Hp1) as (p2 & Hp2 & Hs2 & E2). exists p2. split_and!; [done|by etrans|congruence].
Qed.

Lemma store_ok_set s p :
  store_ok s → period_ok (bp_period_id p) p → store_ok (with_periods (od_set (bp_period_id p) p) s).
Proof.
  intros Hs Hp. split; simpl; [apply od_wf_set, Hs| |apply Hs..].
  intros id q. rewrite od_get_set. case_decide; [by intros; simplify_eq|apply Hs].
Qed.

Lemma save_period_run p ctx s :
  scopes ctx (bp_tenant_id p) = true → save_period p ctx s = (Ret tt, with_periods (od_set (bp_period_id p) p) s).
Proof. intros H. unfold save_period, require, bind. by rewrite H. Qed.

Lemma same_budget_totals p spent carry : same_budget p (with_totals p spent carry).
Proof. done. Qed.

Lemma period_ok_totals p spent carry :
  period_ok (bp_period_id p) p → not_negative spent = true → not_negative carry = true →
  period_ok (bp_period_id p) (with_totals p spent carry).
Proof. intros [] ??. by split. Qed.

Lemma upsert_spec n ctx s :
  store_ok s → period_ok (bp_period_id n) n →
  store_ok (upsert n ctx s).2 ∧ carried bp_spent_usd s (upsert n ctx s).2 ∧
  ct_alerts (upsert n ctx s).2 = ct_alerts s.
Proof.
  intros Hs Hn. unfold upsert, bind, gets, save_period, require, get_period. simpl.
  assert (∀ p, bp_tenant_id (inherit p n) = bp_tenant_id n) as Et by by intros [].
  assert (∀ p, bp_period_id (inherit p n) = bp_period_id n) as Ei by by intros [].
  destruct (od_get (bp_period_id n) (ct_periods s)) as [e|] eqn:He.
  - pose proof (ok_periods s Hs _ _ He) as Hok. pose proof (period_ok_same _ _ _ Hok Hn) as Hsame.
    assert (bp_tenant_id e = bp_tenant_id n) as -> by apply Hsame. rewrite Et.
    destruct (scopes ctx (bp_tenant_id n)); simpl; [|split_and!; [done|apply carried_refl|done]].
    split_and!; [| |done].
    + apply (store_ok_set s (with_totals n _ _)); [done|].
      apply (period_ok_totals n); [done|apply Hok..].
    + intros id p Hp. simpl. rewrite od_get_set. case_decide as Hid.
      * rewrite Hid, He in Hp. injection Hp as <-. by eexists.
      * by exists p.
  - rewrite Et. simpl. destruct (scopes ctx (bp_tenant_id n)); simpl; [|split_and!; [done|apply carried_refl|done]].
    split_and!; [by apply store_ok_set| |done]. intros id p Hp. simpl. rewrite od_get_set.
    case_decide as Hid; [by rewrite Hid, He in Hp|by exists p].
Qed.

(** ** Alerts *)

Definition alert_mem (id : string) (s : CostStore) : Prop := is_Some (od_get id (ct_alerts s)).

(** The alerts fired between two states are new ones, filed under different ids. *)
Record new_alerts (s s' : CostStore) (fired : list ThresholdAlert) : Prop := {
  na_distinct : NoDup (al_alert_id <$> fired);
  na_new : ∀ a, a ∈ fired → ¬ alert_mem (al_alert_id a) s ∧ alert_mem (al_alert_id a) s';
  na_kept : ∀ id, alert_mem id s → alert_mem id s';
}.

Lemma new_alerts_nil s s' : ct_alerts s' = ct_alerts s → new_alerts s s' [].
Proof. intros E. split; [constructor|set_solver|]. unfold alert_mem. by rewrite E. Qed.

Lemma new_alerts_app s s1 s2 f1 f2 : new_alerts s s1 f1 → new_alerts s1 s2 f2 → new_alerts s s2 (f1 ++ f2).
Proof.
  intros [D1 N1 K1] [D2 N2 K2]. split.
  - rewrite fmap_app. apply NoDup_app. split_and!; [done| |done].
    intros id (a & -> & Ha)%list_elem_of_fmap (b & E & Hb)%list_elem_of_fmap.
    destruct (N1 a Ha) as [_ H]. destruct (N2 b Hb) as [H' _]. rewrite <-E in H'. done.
  - intros a [Ha|Ha]%elem_of_app.
    + destruct (N1 a Ha). split; [done|auto].
    + destruct (N2 a Ha). split; [|done]. auto.
  - auto.
Qed.

Lemma new_alerts_frame s s1 s2 f :
  ct_alerts s1 = ct_alerts s → new_alerts s1 s2 f → new_alerts s s2 f.
Proof. intros E H. apply (new_alerts_app s s1 s2 [] f); [by apply new_alerts_nil|done]. Qed.

Lemma alert_id_tenant s id p t a :
  store_ok s → period_ok id p → od_get (alert_id p t) (ct_alerts s) = Some a → al_tenant_id a = bp_tenant_id p.
Proof.
  intros Hs Hp Ha. pose proof (ok_alerts s Hs _ _ Ha) as [Hk Hi Ht Hpk]. unfold alert_id in Hk. rewrite Hi in Hk.
  rewrite (ok_id _ _ Hp) in Hk.
  apply chars_cancel_r with (p := not_char ":"%char) in Hk as [Hk _]; [|apply pretty_Z_colon_free..|done].
  apply period_id_of_inj in Hk as [-> _]; [done|done|apply Hp|done|apply Hp].
Qed.

Lemma effective_not_negative id p : period_ok id p → not_negative (effective_limit_usd p) = true.
Proof. intros Hp. apply f64_add_not_negative; apply Hp. Qed.

Lemma evaluate_thresholds_spec p when ctx l s :
  store_ok s → period_ok (bp_period_id p) p → scopes ctx (bp_tenant_id p) = true → Forall (λ t, 1 ≤ t)%Z l →
  ∃ fired s', evaluate_thresholds p when ctx l s = (Ret fired, s') ∧
    ct_periods s' = ct_periods s ∧ store_ok s' ∧ new_alerts s s' fired.
Proof.
  intros Hs Hp Hsc Hl. revert s Hs. induction Hl as [|t l Ht Hl IH]; intros s Hs; cbn [evaluate_thresholds].
  { exists [], s. split_and!; [done..|by apply new_alerts_nil]. }
  destruct (reached p t); simpl; [|by apply IH]. unfold bind at 1, gets.
  destruct (existsb _ _) eqn:Hseen; [by apply IH|].
  assert (od_get (alert_id p t) (ct_alerts s) = None) as Hnone.
  { destruct (od_get (alert_id p t) (ct_alerts s)) as [a|] eqn:Ha; [|done].
    pose proof (alert_id_tenant s _ p t a Hs Hp Ha) as Hten.
    rewrite existsb_none in Hseen. specialize (Hseen a). rewrite bool_decide_eq_false in Hseen. exfalso. apply Hseen.
    - unfold list_alerts. rewrite Hsc. simpl. apply list_elem_of_filter. split; [done|].
      apply sorted_values_get; [apply Hs|]. by exists (alert_id p t).
    - by apply (ok_alerts s Hs). }
  match goal with |- context [save_alert ?x ctx] => set (a := x) end.
  assert (alert_valid a = true) as Hv.
  { unfold alert_valid, a. simpl. rewrite (effective_not_negative _ _ Hp), (ok_spent _ _ Hp).
    apply Z.leb_le in Ht. by rewrite Ht. }
  rewrite Hv. simpl. unfold bind, save_alert, require, modify. unfold bind. simpl. rewrite Hsc. simpl.
  match goal with |- context [evaluate_thresholds p when ctx l ?x] => set (s1 := x) end.
  assert (store_ok s1) as Hs1.
  { split; simpl; [apply Hs..|apply od_wf_set, Hs|]. intros id b. rewrite od_get_set. case_decide as E; [|apply Hs].
    intros [= <-]. split; simpl; [done| |apply Hp|apply Hp]. by rewrite <-(ok_id _ _ Hp). }
  destruct (IH s1 Hs1) as (fired & s2 & -> & Hper & Hs2 & Hna). exists (a :: fired), s2.
  split_and!; [done|done|done|]. apply (new_alerts_app s s1 s2 [a] fired); [|done].
  split.
  - apply NoDup_singleton.
  - intros b ->%list_elem_of_singleton. unfold alert_mem. simpl. rewrite Hnone, od_get_set_eq. split; [by intros []|by eexists].
  - intros id [b Hb]. unfold alert_mem. simpl. rewrite od_get_set. case_decide; by eexists.
Qed.

(** ** Recording an event *)

Definition charges (e : UsageEvent) (p : BudgetPeriod) : bool :=
  bool_decide (bp_tenant_id p = ue_tenant_id e) && matches e p.

Definition spend_after (e : UsageEvent) (p : BudgetPeriod) : f64 :=
  if charges e p then f64_add (bp_spent_usd p) (ue_cost_usd e) else bp_spent_usd p.

(** What falling in a period means: the event names the row's tenant, and its
    team or workload when the row is theirs; its local date is a day of the
    period the row's key stands for. *)
Definition day_of_period (kind : CostPeriodKind) (start d : Z) : Prop :=
  match kind with
  | PERIOD_DAY => d = start
  | PERIOD_WEEK => weekday start = 0 ∧ start ≤ d < start + 7
  | PERIOD_MONTH => day start = 1 ∧ start ≤ d < start + days_in_month (is_leap (year start)) (month start)
  end%Z.

Record falls_in (e : UsageEvent) (p : BudgetPeriod) : Prop := {
  fi_tenant : bp_tenant_id p = ue_tenant_id e;
  fi_team : bp_scope p = SCOPE_TEAM → bp_scope_id p = ue_team_id e;
  fi_workload : bp_scope p = SCOPE_WORKLOAD → bp_scope_id p = ue_workload_id e;
  fi_period : ∃ start, bp_period_key p = start_key (bp_kind p) start ∧
    day_of_period (bp_kind p) start (local_date (ue_occurred_at e));
}.

Lemma replace_day_of_first d : day d = 1%Z → replace_day d 1 = d.
Proof. intros E. pose proof (civil_parts d) as [_ H]. unfold replace_day. by rewrite E in H. Qed.

Lemma day_of_period_start kind start when : day_of_period kind start (local_date when) ↔ start = period_start kind when.
Proof.
  destruct kind; simpl.
  - split; congruence.
  - unfold weekday. split; [intros [H1 H2]|intros ->]; [divs|]. pose proof (weekday_bounds (local_date when)).
    pose proof (weekday_monday (local_date when)). unfold weekday in *. divs.
  - split; [intros [H1 H2]|intros ->].
    + destruct (replace_day_first start) as [_ H]. rewrite (replace_day_of_first start H1) in H.
      apply H in H2 as [Hy Hm]. rewrite <-(replace_day_of_first start H1). unfold replace_day. by rewrite Hy, Hm.
    + split; [apply (period_start_starts PERIOD_MONTH)|]. destruct (replace_day_first (local_date when)) as [H1 H2].
      destruct (H2 (replace_day (local_date when) 1)) as [[Hy Hm] _]; [lia|]. by rewrite Hy, Hm.
Qed.

Lemma charges_falls_in e p : charges e p = true ↔ falls_in e p.
Proof.
  assert (bp_period_key p = period_key (bp_kind p) (ue_occurred_at e) ↔
          ∃ start, bp_period_key p = start_key (bp_kind p) start ∧
            day_of_period (bp_kind p) start (local_date (ue_occurred_at e))) as Hper.
  { setoid_rewrite day_of_period_start. unfold period_key. naive_solver. }
  unfold charges, matches. rewrite !andb_true_iff, !bool_decide_eq_true, Hper. split.
  - intros (Ht & Hs & Hp). split; [done| | |done]; intros E; rewrite E in Hs; by apply bool_decide_eq_true in Hs.
  - intros [Ht H1 H2 Hp]. split_and!; [done| |done]. destruct (bp_scope p); rewrite ?bool_decide_eq_true; auto.
Qed.

#[export] Instance falls_in_dec e p : Decision (falls_in e p).
Proof. destruct (charges e p) eqn:H; [left|right]; rewrite <-charges_falls_in, H; done. Defined.

Section Ledger.
Variable thresholds : list Z.
Hypothesis thresholds_positive : Forall (λ t, 1 ≤ t)%Z thresholds.

Lemma evaluate_spec p when ctx s :
  store_ok s → period_ok (bp_period_id p) p → scopes ctx (bp_tenant_id p) = true →
  ∃ fired s', evaluate thresholds p when ctx s = (Ret fired, s') ∧
    ct_periods s' = ct_periods s ∧ store_ok s' ∧ new_alerts s s' fired.
Proof.
  intros Hs Hp Hsc. unfold evaluate. destruct (f64_leb _ _); [|by apply evaluate_thresholds_spec].
  exists [], s. split_and!; [done..|by apply new_alerts_nil].
Qed.

(** The rows listed before the loop are charged one after the other. *)
Lemma charge_periods_spec e ctx l s :
  store_ok s → not_negative (ue_cost_usd e) = true → NoDup (bp_period_id <$> l) →
  (∀ p, p ∈ l → od_get (bp_period_id p) (ct_periods s) = Some p ∧ scopes ctx (bp_tenant_id p) = true) →
  ∃ fired s', charge_periods thresholds e ctx l s = (Ret fired, s') ∧ store_ok s' ∧ new_alerts s s' fired ∧
    ∀ id, od_get id (ct_periods s') =
      (p ← od_get id (ct_periods s); Some (if bool_decide (id ∈ bp_period_id <$> l) then charge p e else p)).
Proof.
  intros Hs Hc. revert s Hs. induction l as [|p l IH]; intros s Hs Hn Hl; cbn [charge_periods].
  { exists [], s. split_and!; [done|done|by apply new_alerts_nil|]. intros id. by destruct (od_get id _). }
  simpl in Hn. apply NoDup_cons in Hn as [Hp Hn]. destruct (Hl p) as [Hget Hsc]; [left|].
  pose proof (ok_periods s Hs _ _ Hget) as Hok.
  assert (period_ok (bp_period_id p) (charge p e)) as Hok'.
  { apply period_ok_totals; [done|apply f64_add_not_negative; [apply Hok|done]|apply Hok]. }
  rewrite (bind_run _ _ _ _ _ (save_period_run (charge p e) ctx s Hsc)).
  set (s1 := with_periods _ s).
  assert (store_ok s1) as Hs1 by (apply (store_ok_set s (charge p e)); done).
  destruct (evaluate_spec (charge p e) (ue_occurred_at e) ctx s1) as (f1 & s2 & E1 & Hper & Hs2 & Hna1); [done..|].
  rewrite (bind_run _ _ _ _ _ E1).
  destruct (IH s2 Hs2 Hn) as (f2 & s3 & E2 & Hs3 & Hna2 & Hget3).
  { intros q Hq. rewrite Hper. simpl. rewrite od_get_set_ne; [by apply Hl; right|].
    intros E. apply Hp. rewrite <-E. by apply list_elem_of_fmap_2. }
  rewrite (bind_run _ _ _ _ _ E2). exists (f1 ++ f2), s3. split_and!; [done|done| |].
  { apply (new_alerts_frame s s1); [done|]. by eapply new_alerts_app. }
  intros id. rewrite Hget3, Hper. simpl. rewrite od_get_set. case_decide as Hid.
  - simpl in Hid. subst id. rewrite Hget. simpl. rewrite (bool_decide_eq_false_2 (_ ∈ bp_period_id <$> l)) by done.
    by rewrite bool_decide_eq_true_2 by left.
  - simpl in Hid. destruct (od_get id (ct_periods s)) as [q|]; [|done]. simpl. f_equal.
    destruct (decide (id ∈ bp_period_id <$> l)); [by rewrite !bool_decide_eq_true_2 by (try right; done)|].
    rewrite !bool_decide_eq_false_2; [done|by intros [?|?]%elem_of_cons|done].
Qed.

(** Recording an attributed event returns, whatever the caller's context, and
    charges exactly the rows of the event's tenant that it falls in. *)
Lemma record_spec e ctx s :
  store_ok s → not_negative (ue_cost_usd e) = true → missing_tags e = [] →
  ∃ fired s', record thresholds e ctx s = (Ret fired, s') ∧ store_ok s' ∧ new_alerts s s' fired ∧
    ∀ id, od_get id (ct_periods s') =
      (p ← od_get id (ct_periods s); Some (if charges e p then charge p e else p)).
Proof.
  intros Hs Hc Htags. unfold record. rewrite Htags.
  set (scope := record_scope e ctx). assert (scopes scope (ue_tenant_id e) = true) as Hsc.
  { unfold scope, record_scope. destruct (scopes ctx _) eqn:H; [done|apply scopes_own]. }
  assert (save_event e scope s = (Ret tt, with_events (od_set (ue_event_id e) e) s)) as Hsave
    by (unfold save_event, require, bind; by rewrite Hsc).
  rewrite (bind_run _ _ _ _ _ Hsave). unfold bind at 1, gets.
  match goal with |- context [charge_periods _ _ _ _ ?x] => set (s1 := x) end.
  assert (store_ok s1) as Hs1 by (split; apply Hs).
  destruct (charge_periods_spec e scope (matching_periods e scope s1) s1) as (fired & s' & E & Hs' & Hna & Hget); [done..| | |].
  - unfold matching_periods. pose proof (list_periods_NoDup s1 (ue_tenant_id e) scope Hs1) as Hn. revert Hn.
    induction (list_periods _ _ _) as [|p l IH]; [constructor|]. simpl. rewrite filter_cons, NoDup_cons. intros [Hp Hl].
    case_decide; simpl; [|auto]. apply NoDup_cons. split; [|auto].
    intros (q & Eq & [_ Hq]%list_elem_of_filter)%list_elem_of_fmap. apply Hp. rewrite Eq. by apply list_elem_of_fmap_2.
  - intros p [_ Hp]%list_elem_of_filter. apply list_periods_spec in Hp as [Hp Ht]; [|done..]. by rewrite Ht.
  - exists fired, s'. split_and!; [done..|by apply (new_alerts_frame s s1)|].
    intros id. rewrite Hget. simpl. destruct (od_get id (ct_periods s)) as [p|] eqn:Hp; [|done]. simpl. f_equal.
    assert (bp_period_id p = id) as Hid by apply (ok_periods s Hs _ _ Hp).
    assert (id ∈ bp_period_id <$> matching_periods e scope s1 ↔ charges e p = true) as Hiff.
    { rewrite list_elem_of_fmap. unfold matching_periods, charges. setoid_rewrite list_elem_of_filter.
      setoid_rewrite list_periods_spec; [|done..]. rewrite andb_true_iff, bool_decide_eq_true. split.
      - intros (q & -> & Hm & Hq & Ht). simpl in Hq. assert (p = q) as -> by congruence. done.
      - intros [Ht Hm]. exists p. rewrite Hid. done. }
    destruct (charges e p); [by rewrite bool_decide_eq_true_2 by tauto|].
    rewrite bool_decide_eq_false_2; [done|]. rewrite Hiff. done.
Qed.

Lemma record_refused e ctx s :
  missing_tags e ≠ [] →
  ct_periods (record thresholds e ctx s).2 = ct_periods s ∧ ct_alerts (record thresholds e ctx s).2 = ct_alerts s ∧
  (record thresholds e ctx s).1 = Raise (UnattributedUsageError (ue_event_id e) (missing_tags e)).
Proof. unfold record. by destruct (missing_tags e). Qed.

(** ** Roll-over *)

Lemma next_period_ok tenant kind key p :
  period_ok (bp_period_id p) p → bp_tenant_id p = tenant → colon_free key = true →
  period_ok (bp_period_id (next_period tenant kind key p)) (next_period tenant kind key p).
Proof.
  intros Hp Ht Hk. split; simpl; try done; [rewrite <-Ht; apply Hp|apply Hp|].
  unfold carry_of. destruct (bp_carry_rule p); [done| |apply f64_max_not_negative].
  unfold f64_min. destruct (f64_ltb _ _); [apply Hp|apply f64_max_not_negative].
Qed.

Lemma roll_spec tenant kind key ctx l s :
  store_ok s → colon_free key = true → (∀ p, p ∈ l → period_ok (bp_period_id p) p ∧ bp_tenant_id p = tenant) →
  store_ok (roll tenant kind key ctx l s).2 ∧ carried bp_spent_usd s (roll tenant kind key ctx l s).2 ∧
  ct_alerts (roll tenant kind key ctx l s).2 = ct_alerts s.
Proof.
  intros Hs Hk. revert s Hs. induction l as [|p l IH]; intros s Hs Hl; cbn [roll]; [split_and!; [done|apply carried_refl|done]|].
  destruct (Hl p) as [Hp Ht]; [left|]. destruct (negb (period_valid (next_period tenant kind key p))).
  { rewrite (bind_raise (when true (raise CostValidationError)) _ s _ s eq_refl). split_and!; [done|apply carried_refl|done]. }
  rewrite (bind_run (when false _) _ s tt s eq_refl).
  pose proof (upsert_spec (next_period tenant kind key p) ctx s Hs (next_period_ok _ _ _ _ Hp Ht Hk)) as (H1 & H2 & H3).
  destruct (upsert _ ctx s) as [[n|x] s1] eqn:Hu; [|by rewrite (bind_raise _ _ _ _ _ Hu)].
  rewrite (bind_run _ _ _ _ _ Hu). destruct (IH s1 H1) as (G1 & G2 & G3); [set_solver|].
  destruct (roll tenant kind key ctx l s1) as [[r|x] s2] eqn:Hr;
    rewrite ?(bind_run _ _ _ _ _ Hr), ?(bind_raise _ _ _ _ _ Hr); simpl in *;
    (split_and!; [done|by eapply carried_trans|congruence]).
Qed.

Lemma rollover_spec now tenant kind ctx s :
  store_ok s →
  store_ok (rollover now tenant kind ctx s).2 ∧ carried bp_spent_usd s (rollover now tenant kind ctx s).2 ∧
  ct_alerts (rollover now tenant kind ctx s).2 = ct_alerts s.
Proof.
  intros Hs. unfold rollover. unfold bind at 1.
  destruct (next_period_key kind now) as [key|] eqn:Hk; simpl; [|split_and!; [done|apply carried_refl|done]].
  unfold bind, gets. apply roll_spec; [done| |].
  - unfold next_period_key in Hk. destruct (following _ _); [|done]. injection Hk as <-. apply start_key_colon_free.
  - intros p [_ Hp]%list_elem_of_filter. unfold list_periods in Hp. destruct (scopes ctx tenant); [|set_solver].
    simpl in Hp. apply list_elem_of_filter in Hp as [Ht (k & Hp)%sorted_values_get]; [|apply Hs].
    pose proof (ok_periods s Hs k p Hp) as Hok. by rewrite (ok_key _ _ Hok).
Qed.

(** ** Sequences of calls *)

Inductive CostCall :=
  | CSetBudget (now : Moment) (tenant : string) (scope : BudgetScope) (scope_id : string) (kind : CostPeriodKind)
      (limit : f64) (rule : CarryRule) (cap : option f64) (enforced : bool) (ctx : TenantContext)
  | CRecord (e : UsageEvent) (ctx : TenantContext)
  | CRollover (now : Moment) (tenant : string) (kind : CostPeriodKind) (ctx : TenantContext)
  | CCompleted (run : string) (ctx : TenantContext)
  | CExpire (cutoff : Z) (tenant : string) (ctx : TenantContext).

(** The alerts a call fires, and the store after it. *)
Definition run_call (c : CostCall) (s : CostStore) : list ThresholdAlert * CostStore :=
  match c with
  | CSetBudget now tenant scope sid kind limit rule cap enforced ctx =>
      ([], (set_budget now tenant scope sid kind limit rule cap enforced ctx s).2)
  | CRecord e ctx =>
      let '(o, s') := record thresholds e ctx s in (match o with Ret fired => fired | Raise _ => [] end, s')
  | CRollover now tenant kind ctx => ([], (rollover now tenant kind ctx s).2)
  | CCompleted run ctx => ([], (mark_run_completed run ctx s).2)
  | CExpire cutoff tenant ctx => ([], (delete_events_before cutoff tenant ctx s).2)
  end.

Fixpoint run_calls (l : list CostCall) (s : CostStore) : list ThresholdAlert * CostStore :=
  match l with
  | [] => ([], s)
  | c :: rest =>
      let '(fired, s1) := run_call c s in
      let '(more, s2) := run_calls rest s1 in
      (fired ++ more, s2)
  end.

(** What callers supply: tenants named without a colon, costs that are not
    negative (the event model's own constraint). *)
Definition call_ok (c : CostCall) : Prop :=
  match c with
  | CSetBudget _ tenant _ _ _ _ _ _ _ _ => colon_free tenant = true
  | CRecord e _ => not_negative (ue_cost_usd e) = true
  | _ => True
  end.

(** The event a call charges, if it does. *)
Definition charged_event (c : CostCall) : option UsageEvent :=
  match c with
  | CRecord e _ => if bool_decide (ue_tenant_id e ≠ EmptyString ∧ ue_workload_id e ≠ EmptyString) then Some e else None
  | _ => None
  end.

Lemma attributed_tags e : missing_tags e = [] ↔ ue_tenant_id e ≠ EmptyString ∧ ue_workload_id e ≠ EmptyString.
Proof. unfold missing_tags. repeat case_bool_decide; simpl; naive_solver. Qed.

Definition spend_step (c : CostCall) (p : BudgetPeriod) : f64 :=
  match charged_event c with Some e => spend_after e p | None => bp_spent_usd p end.

Lemma run_call_spec c s :
  store_ok s → call_ok c →
  store_ok (run_call c s).2 ∧ carried (spend_step c) s (run_call c s).2 ∧ new_alerts s (run_call c s).2 (run_call c s).1.
Proof.
  intros Hs Hc. destruct c as [now tenant scope sid kind limit rule cap enf ctx|e ctx|now tenant kind ctx|run ctx|cutoff tenant ctx];
    unfold spend_step; cbn [charged_event run_call fst snd].
  - unfold set_budget. match goal with |- context [period_valid ?x] => set (p := x) end.
    destruct (period_valid p) eqn:Hv.
    2: { rewrite (bind_raise (when true (raise CostValidationError)) _ s _ s eq_refl).
         split_and!; [done|apply carried_refl|by apply new_alerts_nil]. }
    rewrite (bind_run (when false _) _ s tt s eq_refl).
    destruct (upsert_spec p ctx s Hs) as (H1 & H2 & H3); [|split_and!; [done|done|by apply new_alerts_nil]].
    unfold period_valid in Hv. repeat (apply andb_true_iff in Hv as [Hv ?]).
    split; try done. apply start_key_colon_free.
  - rewrite <-(bool_decide_ext _ _ (attributed_tags e)). destruct (missing_tags e) as [|m ms] eqn:Hm.
    + rewrite bool_decide_eq_true_2 by done. destruct (record_spec e ctx s Hs Hc Hm) as (f & s' & -> & Hs' & Hna & Hget).
      split_and!; [done| |done]. intros id p Hp. rewrite Hget, Hp. simpl. eexists. split; [done|].
      unfold spend_after. by destruct (charges e p).
    + rewrite bool_decide_eq_false_2 by done. destruct (record_refused e ctx s) as (H1 & H2 & H3); [by rewrite Hm|].
      destruct (record thresholds e ctx s) as [o s']. simpl in *. subst o. split_and!.
      * destruct Hs. split; [by rewrite H1|by rewrite H1|by rewrite H2|by rewrite H2].
      * apply (carried_periods _ _ s); [done|apply carried_refl].
      * by apply new_alerts_nil.
  - destruct (rollover_spec now tenant kind ctx s Hs) as (H1 & H2 & H3). split_and!; [done|done|by apply new_alerts_nil].
  - split_and!; [by split; apply Hs|by apply (carried_periods _ s s); [|apply carried_refl]|by apply new_alerts_nil].
  - unfold delete_events_before. destruct (scopes ctx tenant); simpl;
      (split_and!; [by split; apply Hs|by apply (carried_periods _ s s); [|apply carried_refl]|by apply new_alerts_nil]).
Qed.

Lemma spend_step_same c p q : same_budget p q → bp_spent_usd p = bp_spent_usd q → spend_step c p = spend_step c q.
Proof.
  intros (E1 & E2 & E3 & E4 & E5 & E6) E. unfold spend_step, spend_after, charges, matches.
  destruct (charged_event c); [|done]. by rewrite E2, E3, E4, E5, E6, E.
Qed.

Lemma run_calls_spec l s :
  store_ok s → Forall call_ok l →
  store_ok (run_calls l s).2 ∧ new_alerts s (run_calls l s).2 (run_calls l s).1 ∧
  ∀ id p, od_get id (ct_periods s) = Some p → ∃ p', od_get id (ct_periods (run_calls l s).2) = Some p' ∧ same_budget p p' ∧
    bp_spent_usd p' = foldl f64_add (bp_spent_usd p)
      (ue_cost_usd <$> filter (λ e, charges e p = true) (omap charged_event l)).
Proof.
  intros Hs Hl. revert s Hs. induction Hl as [|c l Hc Hl IH]; intros s Hs; cbn [run_calls].
  { split_and!; [done|by apply new_alerts_nil|]. intros id p Hp. by exists p. }
  destruct (run_call_spec c s Hs Hc) as (H1 & H2 & H3). destruct (run_call c s) as [f1 s1]. simpl in H1, H2, H3.
  destruct (IH s1 H1) as (G1 & G2 & G3). destruct (run_calls l s1) as [f2 s2]. simpl in G1, G2, G3.
  split_and!; [done|by eapply new_alerts_app|]. intros id p Hp. simpl.
  destruct (H2 id p Hp) as (p1 & Hp1 & Hsame & E1). destruct (G3 id p1 Hp1) as (p2 & Hp2 & Hsame2 & E2).
  exists p2. split_and!; [done|by etrans|]. rewrite E2, E1. unfold spend_step.
  assert (∀ e, charges e p1 = charges e p) as Hch.
  { intros e. destruct Hsame as (? & E3 & E4 & E5 & E6 & E7). unfold charges, matches. by rewrite E3, E4, E5, E6, E7. }
  assert (filter (λ e, charges e p1 = true) (omap charged_event l) = filter (λ e, charges e p = true) (omap charged_event l)) as ->
    by (apply list_filter_iff; intros e; by rewrite Hch).
  simpl. destruct (charged_event c) as [e|]; [|done]. unfold spend_after. rewrite filter_cons.
  destruct (charges e p) eqn:He; [by rewrite decide_True|by rewrite decide_False].
Qed.

Lemma empty_ledger_ok : store_ok empty_cost_store.
Proof. split; simpl; [apply od_wf_nil|done|apply od_wf_nil|done]. Qed.

(** C35: The ledger of the in-memory store: take a store made by any calls of
    the cost service, and any further calls (budgets set again, periods rolled
    over, events recorded, marked complete or expired), in whatever order and
    under whatever contexts. A budget period stays, and its spend is its spend
    before plus the costs of exactly the attributed events that fall in it and
    were recorded, added in order: those of its tenant, of its team or workload
    when it is theirs, whose local date is a day of the period its key names.
    This is for budgets set for tenants without a colon in their name (two
    tenants with one can share a row, [Demo.colliding_budgets]), for events
    whose cost is not negative, and for alert thresholds of at least one
    percent. *)
Theorem period_spend_ledger before l id p :
  Forall call_ok before → Forall call_ok l →
  let s := (run_calls before empty_cost_store).2 in
  od_get id (ct_periods s) = Some p →
  ∃ p', od_get id (ct_periods (run_calls l s).2) = Some p' ∧ same_budget p p' ∧
    bp_spent_usd p' = foldl f64_add (bp_spent_usd p)
      (ue_cost_usd <$> filter (λ e, falls_in e p) (omap charged_event l)).
Proof.
  intros Hb Hl s Hp. destruct (run_calls_spec before _ empty_ledger_ok Hb) as (Hs & _ & _).
  destruct (run_calls_spec l s Hs Hl) as (_ & _ & H). destruct (H id p Hp) as (p' & Hp' & Hsame & E).
  exists p'. split_and!; [done|done|]. rewrite E. do 2 f_equal. apply list_filter_iff. intros e. apply charges_falls_in.
Qed.

(** Every threshold of a period fires at most once: the alerts fired by any
    calls are filed under different ids, none of which was filed before. *)
Theorem alerts_fire_once l s :
  store_ok s → Forall call_ok l →
  NoDup (al_alert_id <$> (run_calls l s).1) ∧
  ∀ a, a ∈ (run_calls l s).1 → od_get (al_alert_id a) (ct_alerts s) = None.
Proof.
  intros Hs Hl. destruct (run_calls_spec l s Hs Hl) as (_ & [Hd Hn _] & _). split; [done|].
  intros a Ha. destruct (Hn a Ha) as [H _]. unfold alert_mem in H. by apply eq_None_not_Some.
Qed.
End Ledger.

(** ** Carry-over *)

Lemma next_period_id_inj tenant kind key p q :
  period_ok (bp_period_id p) p → period_ok (bp_period_id q) q → bp_tenant_id p = tenant → bp_tenant_id q = tenant →
  bp_kind p = bp_kind q → bp_period_key p = bp_period_key q → colon_free key = true →
  bp_period_id (next_period tenant kind key p) = bp_period_id (next_period tenant kind key q) →
  bp_period_id p = bp_period_id q.
Proof.
  intros Hp Hq Ht Ht' Hk Hkey Hc H. simpl in H.
  apply period_id_of_inj in H as (_ & Hs & Hi & _); [|rewrite <-Ht; apply Hp|rewrite <-Ht; apply Hp|done..].
  rewrite (ok_id _ _ Hp), (ok_id _ _ Hq). congruence.
Qed.

Lemma roll_cons tenant kind key ctx p l s rs s' :
  roll tenant kind key ctx (p :: l) s = (Ret rs, s') →
  ∃ e rs1 s1, let n := inherit e (next_period tenant kind key p) in
    e = get_period (bp_period_id (next_period tenant kind key p)) ctx s ∧ rs = n :: rs1 ∧ scopes ctx tenant = true ∧
    s1 = with_periods (od_set (bp_period_id n) n) s ∧ roll tenant kind key ctx l s1 = (Ret rs1, s').
Proof.
  cbn [roll]. destruct (negb (period_valid (next_period tenant kind key p))).
  { by rewrite (bind_raise (when true (raise CostValidationError)) _ s _ s eq_refl). }
  rewrite (bind_run (when false _) _ s tt s eq_refl).
  set (np := next_period tenant kind key p). set (n := inherit (get_period (bp_period_id np) ctx s) np).
  assert (bp_period_id n = bp_period_id np) as Hid by (unfold n; by destruct (get_period _ _ _)).
  assert (bp_tenant_id n = tenant) as Hten by (unfold n; by destruct (get_period _ _ _)).
  destruct (scopes ctx tenant) eqn:Hsc.
  - rewrite (bind_run (upsert np ctx) _ s n (with_periods (od_set (bp_period_id n) n) s));
      [|unfold upsert, bind at 1, gets; fold n; rewrite (bind_run _ _ _ _ _ (save_period_run n ctx s ltac:(by rewrite Hten))); done].
    destruct (roll tenant kind key ctx l (with_periods (od_set (bp_period_id n) n) s)) as [[rs1|x] s2] eqn:Hr;
      [rewrite (bind_run _ _ _ _ _ Hr)|by rewrite (bind_raise _ _ _ _ _ Hr)].
    intros [= <- <-]. exists (get_period (bp_period_id np) ctx s), rs1. eexists. cbv zeta. fold np. fold n.
    split_and!; [done|done|done|reflexivity|exact Hr].
  - rewrite (bind_raise (upsert np ctx) _ s CostScopeError s); [done|].
    unfold upsert, bind at 1, gets. fold n. apply bind_raise. unfold save_period, require, bind. by rewrite Hten, Hsc.
Qed.

Lemma roll_ids tenant kind key ctx l s rs s' :
  roll tenant kind key ctx l s = (Ret rs, s') → bp_period_id <$> rs = bp_period_id ∘ next_period tenant kind key <$> l.
Proof.
  revert s rs. induction l as [|p l IH]; intros s rs H; [by injection H as <- <-|].
  apply roll_cons in H as (e & rs1 & s1 & _ & -> & _ & _ & Hr). simpl. f_equal; [by destruct e|]. by eapply IH.
Qed.

(** A row made by a roll-over either replaces one that was there, or is the
    next period of a listed row. *)
Lemma roll_results tenant kind key ctx l s rs s' :
  roll tenant kind key ctx l s = (Ret rs, s') → NoDup (bp_period_id ∘ next_period tenant kind key <$> l) →
  ∀ r, r ∈ rs → od_get (bp_period_id r) (ct_periods s) = None → ∃ p, p ∈ l ∧ r = next_period tenant kind key p.
Proof.
  revert s rs. induction l as [|p l IH]; intros s rs H Hn r Hin Hnone; [injection H as <- <-; set_solver|].
  apply roll_cons in H as (e & rs1 & s1 & -> & -> & _ & -> & Hr). simpl in Hn. apply NoDup_cons in Hn as [Hp Hn].
  apply elem_of_cons in Hin as [->|Hin].
  - exists p. split; [left|]. assert (od_get (bp_period_id (next_period tenant kind key p)) (ct_periods s) = None) as Hg.
    { rewrite <-Hnone. by destruct (get_period _ _ _). }
    unfold get_period. by rewrite Hg.
  - destruct (IH _ _ Hr Hn r Hin) as (q & Hq & ->); [|exists q; split; [by right|done]].
    simpl. rewrite od_get_set_ne; [done|]. intros E. apply Hp.
    change (bp_period_id (next_period tenant kind key p) ∈ (bp_period_id ∘ next_period tenant kind key <$> l)).
    rewrite <-(roll_ids _ _ _ _ _ _ _ _ Hr).
    apply list_elem_of_fmap. exists r. split; [|done]. simpl in E. rewrite E. by destruct (get_period _ _ _).
Qed.

(** Bounds of the carry-over: a period that a roll-over creates starts with no
    spend and with a carry that is never negative: nothing, the remaining
    budget, or the remaining budget capped at the limit, as its rule says. *)
Theorem rollover_carry_bounds now tenant kind ctx s rs s' :
  store_ok s → rollover now tenant kind ctx s = (Ret rs, s') →
  ∀ r, r ∈ rs → od_get (bp_period_id r) (ct_periods s) = None →
  ∃ p, od_get (bp_period_id p) (ct_periods s) = Some p ∧ bp_tenant_id p = tenant ∧ bp_kind p = kind ∧
    bp_period_key p = period_key kind now ∧ bp_scope r = bp_scope p ∧ bp_scope_id r = bp_scope_id p ∧
    bp_limit_usd r = bp_limit_usd p ∧ bp_spent_usd r = f64_zero ∧
    not_negative (bp_carry_in_usd r) = true ∧
    match bp_carry_rule p with
    | CARRY_NONE => bp_carry_in_usd r = f64_zero
    | CARRY_FULL => bp_carry_in_usd r = remaining_usd p
    | CARRY_CAPPED => f64_ltb (bp_limit_usd p) (bp_carry_in_usd r) = false ∧ f64_ltb (remaining_usd p) (bp_carry_in_usd r) = false
    end.
Proof.
  intros Hs. unfold rollover. destruct (next_period_key kind now) as [key|] eqn:Hk; [|done].
  rewrite (bind_run (of_option _ (Some key)) _ s key s eq_refl). unfold bind, gets. intros Hroll r Hr Hnone.
  assert (colon_free key = true) as Hkey.
  { unfold next_period_key in Hk. destruct (following _ _); [|done]. injection Hk as <-. apply start_key_colon_free. }
  destruct (scopes ctx tenant) eqn:Hsc.
  2: { unfold list_periods in Hroll. rewrite Hsc in Hroll. injection Hroll as <- <-. set_solver. }
  set (P := λ p, bp_kind p = kind ∧ bp_period_key p = period_key kind now ∧ key ≠ period_key kind now) in *.
  assert (NoDup (bp_period_id ∘ next_period tenant kind key <$> filter P (list_periods tenant ctx s))) as Hnd.
  { pose proof (list_periods_NoDup s tenant ctx Hs) as Hn.
    assert (∀ p, p ∈ list_periods tenant ctx s → period_ok (bp_period_id p) p ∧ bp_tenant_id p = tenant) as Hok.
    { intros p Hp. apply list_periods_spec in Hp as [Hp ?]; [|done..]. split; [by apply (ok_periods s Hs)|done]. }
    clear Hroll. revert Hn Hok. induction (list_periods tenant ctx s) as [|p l IH]; [constructor|].
    simpl. rewrite NoDup_cons. intros [Hp Hl] Hok. rewrite filter_cons. destruct (decide (P p)) as [HP|]; [|by apply IH; [|intros q Hq; apply Hok; right]].
    simpl. apply NoDup_cons. split; [|by apply IH; [|intros q Hq; apply Hok; right]]. intros (q & E & [HQ Hq]%list_elem_of_filter)%list_elem_of_fmap.
    apply Hp, list_elem_of_fmap. exists q. split; [|done]. destruct HP as (K1 & K2 & _), HQ as (K3 & K4 & _).
    destruct (Hok p) as [O1 T1]; [left|]. destruct (Hok q) as [O2 T2]; [by right|].
    apply (next_period_id_inj tenant kind key); [done..|congruence|congruence|done|exact E]. }
  destruct (roll_results _ _ _ _ _ _ _ _ Hroll Hnd r Hr Hnone) as (p & [HP Hp]%list_elem_of_filter & ->).
  apply list_periods_spec in Hp as [Hp Ht]; [|done..]. exists p. destruct HP as (HP1 & HP2 & _).
  pose proof (ok_periods s Hs _ _ Hp) as Hok. split_and!; try done.
  - by apply (next_period_ok tenant kind key p).
  - simpl. unfold carry_of. destruct (bp_carry_rule p); [done| |done]. unfold f64_min.
    destruct (f64_ltb (bp_limit_usd p) (remaining_usd p)) eqn:Hlt; [split; [apply f64_ltb_irrefl|by apply f64_ltb_asym]|].
    split; [done|apply f64_ltb_irrefl].
Qed.

(** ** The cost service of the budget service *)

Definition usage_of (e : CostEvent) : UsageEvent :=
  {| ue_event_id := ce_event_id e; ue_tenant_id := ce_tenant_id e; ue_team_id := ce_team_id e;
     ue_workload_id := ce_workload_id e; ue_run_id := Some (ce_run_id e); ue_cost_usd := ce_cost_usd e;
     ue_saved_usd := f64_zero; ue_completed := false; ue_retry := false; ue_escalation := false;
     ue_occurred_at := at_utc (ce_occurred_at e) |}.

(** The interface the budget service is written against, implemented. *)
Definition budget_cost_service (thresholds : list Z) : CostService CostStore :=
  {| cs_check_cap := λ ctx kind t projected s, check_cap (at_utc t) (tc_tenant_id ctx) kind projected ctx s;
     cs_record := λ e ctx s, let '(o, s') := record thresholds (usage_of e) ctx s in
                             (match o with Ret _ => Ret tt | Raise _ => Raise CostServiceError end, s') |}.

Lemma f64_ltb_add_zero c x : f64_ltb c (f64_add x f64_zero) = f64_ltb c x.
Proof. destruct x as [[]|[]| |[] m e], c as [[]|[]| |[] m' e']; reflexivity. Qed.

Lemma over_cap_Some key projected p cap :
  bp_scope p = SCOPE_TENANT → bp_enforced p = true → bp_period_key p = key → bp_cap_usd p = Some cap →
  f64_ltb cap (f64_add (bp_spent_usd p) projected) = true → over_cap key projected p = Some (cap, bp_spent_usd p).
Proof.
  intros H1 H2 H3 H4 H5. unfold over_cap. rewrite H4, H2, H5. by rewrite !bool_decide_eq_true_2 by done.
Qed.

(** A cap is exceeded exactly when some enforced tenant row with this period
    key would be. *)
Lemma check_cap_spec now tenant kind projected ctx s :
  store_ok s → scopes ctx tenant = true →
  is_Some (check_cap now tenant kind projected ctx s) ↔
  ∃ id p, od_get id (ct_periods s) = Some p ∧ bp_tenant_id p = tenant ∧
    is_Some (over_cap (period_key kind now) projected p).
Proof.
  intros Hs Hsc. unfold check_cap.
  assert (∀ l : list (f64 * f64), is_Some (head l) ↔ ∃ x, x ∈ l) as Hhead.
  { intros [|x l]; simpl; [split; [by intros []|set_solver]|]. split; [intros; exists x; left|by eexists]. }
  rewrite Hhead. setoid_rewrite list_elem_of_omap. split.
  - intros (x & p & Hp & Hx). apply list_periods_spec in Hp as [Hp Ht]; [|done..]. exists (bp_period_id p), p.
    split_and!; [done..|by exists x].
  - intros (id & p & Hp & Ht & [x Hx]). exists x, p. split; [|done].
    apply list_periods_spec; [done..|]. by rewrite (ok_key _ _ (ok_periods s Hs id p Hp)).
Qed.

(** An enforced tenant cap stops the spending that crosses it: when recording
    a usage report takes a capped period of the tenant above its cap, the
    budget service, running over the cost service, denies. *)
Theorem tenant_cap_stops_spend thresholds pricing now times event_id w r ctx st out st' id p cap :
  Forall (λ t, 1 ≤ t)%Z thresholds →
  record_usage pricing (Some (budget_cost_service thresholds)) now times event_id w r ctx st = (Ret out, st') →
  store_ok (costs st) → od_get id (ct_periods (costs st)) = Some p →
  bp_tenant_id p = tc_tenant_id ctx → bp_scope p = SCOPE_TENANT → bp_enforced p = true → bp_cap_usd p = Some cap →
  bp_period_key p = period_key (bp_kind p) (at_utc (us_timestamp r)) →
  bp_period_key p = period_key (bp_kind p) (at_utc (times (bp_kind p))) →
  f64_ltb cap (f64_add (bp_spent_usd p) (bo_cost_usd out)) = true →
  bc_allowed (bo_check out) = false.
Proof.
  intros Hth Hrec Hok Hp Ht Hsc Henf Hcap Hkey Hkey' Hover.
  apply record_usage_cases in Hrec. destruct (us_model_identity r) as [model|]; [|naive_solver].
  destruct (price pricing model _ _) as [cost|e]; [|naive_solver].
  destruct Hrec as (_ & _ & Hout). destruct (Hout out eq_refl) as (Hc & Hv & Hcheck & s2 & Hs2 & Hev). clear Hout.
  unfold record_cost_event in Hev. destruct (cost_event_valid _) eqn:Hvalid; simpl in Hev; [|done].
  match type of Hev with context [record thresholds (usage_of ?x)] => set (ev := x) in * end.
  assert (not_negative cost = true) as Hnn.
  { unfold cost_event_valid in Hvalid. apply andb_true_iff in Hvalid as [_ Hz]. simpl in Hz.
    unfold not_negative. by rewrite (f64_leb_not_gt _ _ Hz). }
  destruct (decide (missing_tags (usage_of ev) = [])) as [Hm|Hm].
  2: { destruct (record_refused thresholds (usage_of ev) ctx (costs s2) Hm) as (_ & _ & Hraise).
       destruct (record thresholds (usage_of ev) ctx (costs s2)) as [o c]. simpl in Hraise. by subst o. }
  rewrite Hs2 in Hev.
  destruct (record_spec thresholds Hth (usage_of ev) ctx (costs st) Hok Hnn Hm) as (fired & c' & Hr & Hok' & _ & Hget).
  rewrite Hr in Hev. injection Hev as <-. simpl in Hcheck.
  assert (charges (usage_of ev) p = true) as Hch.
  { unfold charges, matches. rewrite Hsc, Hkey. simpl. by rewrite Ht, !bool_decide_eq_true_2 by done. }
  specialize (Hget id). rewrite Hp in Hget. simpl in Hget. rewrite Hch in Hget.
  set (svc := budget_cost_service thresholds) in *.
  match type of Hcheck with context [usage_check _ _ _ _ _ ctx ?x] => set (s' := x) in * end.
  assert (is_Some (check_cap (at_utc (times (bp_kind p))) (tc_tenant_id ctx) (bp_kind p) f64_zero ctx c')) as [d Hd].
  { rewrite check_cap_spec; [|done|unfold scopes; by rewrite bool_decide_true, orb_true_r].
    exists id, (charge p (usage_of ev)). split; [exact Hget|]. split; [exact Ht|]. eexists.
    apply (over_cap_Some _ _ _ cap); [exact Hsc|exact Henf|exact Hkey'|exact Hcap|].
    rewrite f64_ltb_add_zero. rewrite Hc in Hover. exact Hover. }
  change (cs_check_cap svc ctx (bp_kind p) (times (bp_kind p)) f64_zero (costs s') = Some d) in Hd.
  assert (is_Some (tenant_cap (Some svc) times ctx f64_zero s')) as [dn Hdn].
  { clear Hcheck. unfold tenant_cap. clearbody s' svc.
    destruct (cs_check_cap svc ctx PERIOD_DAY _ _ _) as [[]|] eqn:E1; [by eexists|].
    destruct (cs_check_cap svc ctx PERIOD_WEEK _ _ _) as [[]|] eqn:E2; [by eexists|].
    destruct (cs_check_cap svc ctx PERIOD_MONTH _ _ _) as [[]|] eqn:E3; [by eexists|].
    destruct (bp_kind p); congruence. }
  rewrite Hcheck. pose proof (tenant_cap_denies _ _ _ _ _ _ Hdn) as Hdeny. clear Hcheck. clearbody s' svc.
  unfold usage_check. rewrite Hdn. destruct (f64_ltb (bs_per_run_usd _) _); [done|].
  destruct (f64_ltb (bs_per_day_usd _) _); [done|].
  destruct (bs_per_team_usd (wl_budget w)) as [f|], (wl_team w) as [s|]; try done. destruct (f64_ltb f (team_spend s _ ctx s')); [reflexivity|exact Hdeny].
Qed.

(** ** Concrete calls *)
Module Demo.

Definition usd (n : Z) : f64 := f64_of_Z n.

(** 14 November 2023, 22:13:20 UTC. *)
Definition evening : Moment := at_utc (1700000000 * 1000000).

Definition acme : TenantContext := context_for_run "acme" None None.

Definition event (id tenant : string) (cost : Z) (at_ : Moment) : UsageEvent :=
  {| ue_event_id := id; ue_tenant_id := tenant; ue_team_id := "core"; ue_workload_id := "triage"; ue_run_id := Some "r1";
     ue_cost_usd := usd cost; ue_saved_usd := f64_zero; ue_completed := false; ue_retry := false; ue_escalation := false;
     ue_occurred_at := at_ |}.

Definition budget (kind : CostPeriodKind) (ctx : TenantContext) : CostCall :=
  CSetBudget evening (tc_tenant_id ctx) SCOPE_TENANT (tc_tenant_id ctx) kind (usd 10) CARRY_CAPPED (Some (usd 5)) true ctx.

Definition calls : list CostCall :=
  [CRecord (event "e1" "acme" 6 evening) acme; CRollover evening "acme" PERIOD_MONTH acme;
   CRecord (event "e2" "acme" 3 evening) DEFAULT_CONTEXT; CRecord (event "e3" "other" 9 evening) acme].

Definition start : CostStore := (run_calls [50; 100] [budget PERIOD_MONTH acme] empty_cost_store).2.

Definition month_id : string := "acme:tenant:acme:month:2023-11".

Definition row (id : string) (s : CostStore) : option BudgetPeriod := od_get id (ct_periods s).

Definition start_row : BudgetPeriod :=
  {| bp_period_id := month_id; bp_tenant_id := "acme"; bp_scope := SCOPE_TENANT; bp_scope_id := "acme";
     bp_kind := PERIOD_MONTH; bp_period_key := "2023-11"; bp_limit_usd := usd 10; bp_carry_rule := CARRY_CAPPED;
     bp_carry_in_usd := f64_zero; bp_spent_usd := f64_zero; bp_cap_usd := Some (usd 5); bp_enforced := true |}.

Lemma start_store_ok : store_ok start.
Proof.
  apply (run_calls_spec [50; 100]%Z); [repeat constructor; done|split; simpl; try apply od_wf_nil; done|].
  repeat constructor.
Qed.

(** The weeks and months of the keys. *)
Example keys :
  period_key PERIOD_DAY evening = "2023-11-14" ∧ period_key PERIOD_WEEK evening = "2023-W46" ∧
  period_key PERIOD_MONTH evening = "2023-11" ∧ next_period_key PERIOD_MONTH evening = Some "2023-12" ∧
  next_period_key PERIOD_DAY (at_utc dt_max) = None.
Proof. vm_compute. done. Qed.

Example spend_counted :
  bp_spent_usd <$> row month_id (run_calls [50; 100] calls start).2 = Some (usd 9) ∧
  al_alert_id <$> (run_calls [50; 100] calls start).1 = ["acme:tenant:acme:month:2023-11:50"].
Proof. vm_compute. done. Qed.

(** Row identifiers join their parts with colons, and names may contain them:
    the team budget [b] of the tenant [a:team] takes the place of the team
    budget [team:b] of the tenant [a], whose spend is lost. *)
Example colliding_budgets :
  let team tenant scope_id ctx := CSetBudget evening tenant SCOPE_TEAM scope_id PERIOD_DAY (usd 10) CARRY_NONE None false ctx in
  let a := context_for_run "a" None None in
  let b := context_for_run "a:team" None None in
  let spend := CRecord {| ue_event_id := "e"; ue_tenant_id := "a"; ue_team_id := "team:b"; ue_workload_id := "w";
                          ue_run_id := None; ue_cost_usd := usd 4; ue_saved_usd := f64_zero; ue_completed := false;
                          ue_retry := false; ue_escalation := false; ue_occurred_at := evening |} a in
  (λ p, (bp_tenant_id p, bp_spent_usd p)) <$>
    od_values (ct_periods (run_calls [] [team "a" "team:b" a; spend; team "a:team" "b" b] empty_cost_store).2)
  = [("a:team", f64_zero)].
Proof. vm_compute. reflexivity. Qed.

(** The period a time falls in is cut by its local date, the reports' window by
    UTC: an event stamped just after local midnight in a zone ahead of UTC is
    spend of the new day's budget and a row of the old day's showback. *)
Example local_date_showback :
  let ahead := mkMoment (1699999200 * 1000000) (2 * 3600 * 1000000) in
  period_key PERIOD_DAY ahead = "2023-11-15" ∧
  period_bounds PERIOD_DAY evening = Some (1699920000 * 1000000, 1700006400 * 1000000)%Z.
Proof. vm_compute. done. Qed.

Definition rolled : list BudgetPeriod :=
  match (rollover evening "acme" PERIOD_MONTH acme start).1 with Ret rs => rs | Raise _ => [] end.

Definition zero_store : Budget.Store :=
  {| run_spends := ∅; day_spends := ∅; team_spends := ∅; attributions := [];
     costs := (run_calls [50; 100] [CSetBudget (at_utc 0) "default" SCOPE_TENANT "default" PERIOD_DAY (usd 100) CARRY_NONE
                                     (Some (usd 20)) true DEFAULT_CONTEXT] empty_cost_store).2 |}.
End Demo.

Lemma period_key_iff_bounds_witness :
  (1698796800000000 ≤ 1700000000000000 < 1701388800000000)%Z ↔
  period_key PERIOD_MONTH (at_utc 1700000000000000) = period_key PERIOD_MONTH (at_utc 1699000000000000).
Proof. apply period_key_iff_bounds; vm_compute; reflexivity. Defined.

Lemma period_spend_ledger_witness :
  ∃ p', Demo.row Demo.month_id (run_calls [50; 100] Demo.calls Demo.start).2 = Some p' ∧
    bp_spent_usd p' = foldl f64_add f64_zero [Demo.usd 6; Demo.usd 3].
Proof.
  destruct (period_spend_ledger [50; 100]%Z ltac:(repeat constructor; done) [Demo.budget PERIOD_MONTH Demo.acme]
              Demo.calls Demo.month_id Demo.start_row)
    as (p' & Hp' & _ & E); [repeat constructor|repeat constructor|vm_compute; reflexivity|].
  exists p'. split; [exact Hp'|]. rewrite E. vm_compute. reflexivity.
Defined.

Lemma alerts_fire_once_witness :
  NoDup (al_alert_id <$> (run_calls [50; 100] Demo.calls Demo.start).1) ∧
  al_alert_id <$> (run_calls [50; 100] Demo.calls Demo.start).1 = ["acme:tenant:acme:month:2023-11:50"].
Proof.
  split; [|vm_compute; reflexivity].
  apply (alerts_fire_once [50; 100]%Z); [repeat constructor; done|apply Demo.start_store_ok|repeat constructor].
Defined.

Lemma rollover_carry_bounds_witness :
  bp_period_key <$> Demo.rolled = ["2023-12"] ∧ Forall (λ r, not_negative (bp_carry_in_usd r) = true) Demo.rolled.
Proof.
  split; [vm_compute; reflexivity|].
  assert (rollover Demo.evening "acme" PERIOD_MONTH Demo.acme Demo.start
          = (Ret Demo.rolled, (rollover Demo.evening "acme" PERIOD_MONTH Demo.acme Demo.start).2)) as E by (vm_compute; reflexivity).
  assert (Forall (λ r, od_mem (bp_period_id r) (ct_periods Demo.start) = false) Demo.rolled) as Hnew
    by (apply (bool_decide_eq_true_1 (Forall (λ r, od_mem (bp_period_id r) (ct_periods Demo.start) = false) Demo.rolled));
        vm_compute; reflexivity).
  apply Forall_forall. intros r Hr. rewrite Forall_forall in Hnew.
  assert (od_get (bp_period_id r) (ct_periods Demo.start) = None) as Hnone.
  { specialize (Hnew r Hr). unfold od_mem in Hnew. by destruct (od_get (bp_period_id r) (ct_periods Demo.start)). }
  pose proof (rollover_carry_bounds _ _ _ _ _ _ _ Demo.start_store_ok E r Hr Hnone)
    as (p & _ & _ & _ & _ & _ & _ & _ & _ & H & _). exact H.
Defined.

Lemma tenant_cap_stops_spend_witness :
  ∃ out st', record_usage demo_table (Some (budget_cost_service [50; 100])) 0 (λ _, 0%Z) "e" demo_workload
               (demo_report "r1" 6000000) DEFAULT_CONTEXT Demo.zero_store = (Ret out, st') ∧
    bc_allowed (bo_check out) = false ∧ f64_ltb (Demo.usd 20) (bo_cost_usd out) = true.
Proof.
  eexists _, _. split; [vm_compute; reflexivity|]. split; [|vm_compute; reflexivity].
  eapply (tenant_cap_stops_spend [50; 100]%Z demo_table 0 (λ _, 0%Z) "e" demo_workload (demo_report "r1" 6000000)
            DEFAULT_CONTEXT Demo.zero_store _ _ "default:tenant:default:day:1970-01-01"
            {| bp_period_id := "default:tenant:default:day:1970-01-01"; bp_tenant_id := "default"; bp_scope := SCOPE_TENANT;
               bp_scope_id := "default"; bp_kind := PERIOD_DAY; bp_period_key := "1970-01-01"; bp_limit_usd := Demo.usd 100;
               bp_carry_rule := CARRY_NONE; bp_carry_in_usd := f64_zero; bp_spent_usd := f64_zero;
               bp_cap_usd := Some (Demo.usd 20); bp_enforced := true |} (Demo.usd 20));
    [repeat constructor; done|vm_compute; reflexivity| |vm_compute; reflexivity|reflexivity|reflexivity|reflexivity|reflexivity
    |vm_compute; reflexivity|vm_compute; reflexivity|vm_compute; reflexivity].
  apply (run_calls_spec [50; 100]%Z); [repeat constructor; done|split; simpl; try apply od_wf_nil; done|repeat constructor].
Defined.
