(* ===== verification/Admission.v ===== *)
(** * Admission ([execution/admission.py], [execution/models.py],
    [execution/errors.py], [execution/gates.py])

    The pipeline every run passes before it is queued: incident halt,
    certification, model binding, budget, policy, sandbox.  Each gate is a
    seam of the code (a protocol); here it is a field of a record, and the
    pipeline's theorems hold for every implementation of the gates. *)

From stdpp Require Import base strings sets numbers list.
From S2P Require Import Prelude Float64 Tenancy CoreModels Policy.

Inductive AdmissionOutcome := ADMITTED | SANDBOX_ONLY | REFUSED.

#[export] Instance AdmissionOutcome_eq_dec : EqDecision AdmissionOutcome.
Proof. solve_decision. Defined.

Definition admission_outcome_value (o : AdmissionOutcome) : string :=
  match o with ADMITTED => "admitted" | SANDBOX_ONLY => "sandbox_only" | REFUSED => "refused" end.

Record AdmissionCheck := mkCheck {
  ack_step : string; ack_passed : bool; ack_reason : option string; ack_rule : option string }.

Record AdmissionResult := mkResult {
  ar_run_id : string;
  ar_workload : string;
  ar_context : AdmissionContext;
  ar_outcome : AdmissionOutcome;
  ar_checks : list AdmissionCheck;
  ar_sandbox : bool;
  ar_escalation_required : bool;
  ar_refused_reason : option string;
}.

Definition policy_check (r : AdmissionResult) : option AdmissionCheck :=
  head (filter (λ c, ack_step c = "policy") (ar_checks r)).

Inductive InterventionAction := PAUSE | RESUME | STOP.

Definition intervention_value (a : InterventionAction) : string :=
  match a with PAUSE => "pause" | RESUME => "resume" | STOP => "stop" end.

Inductive ExecExn :=
  | RunNotFoundError (run_id : string)
  | IllegalTransitionError (run_id : string) (current target : RunState)
  | RunAdmissionRefusedError (result : AdmissionResult)
  | RunNotIntervenableError (run_id action : string)
  | ExecScopeError
  | ExecValueError
  | ExternalError (what : string).

(** ** The gates *)

Record Gates := mkGates {
  g_halt : option (string → string → outcome ExecExn bool);
  g_check_admission : string → AdmissionContext → TenantContext → outcome ExecExn (bool * option string);
  g_attestation_model : string → TenantContext → outcome ExecExn (option string);
  g_budget : AgentWorkload → AdmissionContext → TenantContext → outcome ExecExn BudgetCheck;
  g_policy : PolicyContext → outcome ExecExn PolicyDecision;
  g_sandbox : AgentWorkload → AdmissionContext → option ActionClass → outcome ExecExn bool;
}.

(** [ManifestSandboxGate.required]. *)
Definition manifest_sandbox_required (w : AgentWorkload) (context : AdmissionContext) (a : option ActionClass) : bool :=
  if bool_decide (context = SANDBOX) then true
  else if bool_decide (a = Some AC_DESTRUCTIVE) then true
  else from_option sb_enabled false (wl_sandbox w).

(** [UnlimitedBudgetGate]. *)
Definition unlimited_check (w : AgentWorkload) : BudgetCheck :=
  let limit := bs_per_run_usd (wl_budget w) in
  {| bc_allowed := true; bc_level := LEVEL_RUN; bc_limit_usd := limit; bc_spent_usd := f64_zero;
     bc_remaining_usd := limit; bc_reason := None |}.

Definition unlimited_record_usage (w : AgentWorkload) (r : UsageReport) : BudgetOutcome :=
  let limit := bs_per_run_usd (wl_budget w) in
  {| bo_check := {| bc_allowed := true; bc_level := LEVEL_RUN; bc_limit_usd := limit;
                    bc_spent_usd := us_cost_usd r;
                    bc_remaining_usd := f64_max f64_zero (f64_sub limit (us_cost_usd r)); bc_reason := None |};
     bo_cost_usd := us_cost_usd r |}.

(** [PermissivePolicyGate.evaluate]. *)
Definition permissive_evaluate (now : Z) (c : PolicyContext) : PolicyDecision :=
  {| pd_run_id := pc_run_id c; pd_outcome := ALLOW; pd_reason := "policy engine not configured";
     pd_rule := "default-allow"; pd_action_class := pc_action_class c; pd_timestamp := now;
     pd_blast_radius := None; pd_certification_status := Some (pc_certification_status c);
     pd_pack_version := None; pd_detector_set_version := None; pd_dry_run := false |}.

(** ** The pipeline *)

Definition run_ctx (r : Run) : TenantContext :=
  context_for_run (run_tenant_id r) (run_team_id r) (run_attribution_key r).

Definition refused (r : Run) (context : AdmissionContext) (checks : list AdmissionCheck) (reason : string)
    : AdmissionResult :=
  {| ar_run_id := run_id r; ar_workload := run_workload_id r; ar_context := context; ar_outcome := REFUSED;
     ar_checks := checks; ar_sandbox := false; ar_escalation_required := false; ar_refused_reason := Some reason |}.

Definition admission_policy_context (r : Run) (w : AgentWorkload) (context : AdmissionContext) : PolicyContext :=
  {| pc_run_id := run_id r; pc_workload := wl_name w; pc_team := wl_team w; pc_tenant_id := run_tenant_id r;
     pc_environment := context; pc_action_class := None; pc_tool_id := None; pc_tool_trust := None;
     pc_data_sensitivity := INTERNAL; pc_certification_status := certification_status w; pc_tools := None;
     pc_approval_required_for := []; pc_injection_detected := false; pc_budget_exhausted := false;
     pc_taint_untrusted := false; pc_at := None; pc_time_windows := [] |}.

(** [reason or default]: an absent or empty reason takes the default. *)
Definition reason_or (r : option string) (d : string) : string :=
  match r with Some s => if bool_decide (s = EmptyString) then d else s | None => d end.

Section Pipeline.
Variable g : Gates.

(** The halt gate: an exception counts as halted. *)
Definition halted (r : Run) (w : AgentWorkload) : bool :=
  match g_halt g with
  | None => false
  | Some h => match h (run_tenant_id r) (wl_name w) with Ret b => b | Raise _ => true end
  end.

Definition halt_checks (r : Run) (w : AgentWorkload) : list AdmissionCheck :=
  match g_halt g with
  | None => []
  | Some _ =>
      [{| ack_step := "halt"; ack_passed := negb (halted r w);
          ack_reason := if halted r w then Some "fleet halted: incident mode is active" else None;
          ack_rule := Some "incident" |}]
  end.

Definition model_ok (r : Run) (bound : option string) : bool :=
  match run_model_identity r, bound with
  | Some m, Some b => bool_decide (m = b)
  | _, _ => true
  end.

Definition admission_check (r : Run) (w : AgentWorkload) (require_approval : bool) : outcome ExecExn AdmissionResult :=
  match run_context r with
  | None => Raise ExecValueError
  | Some context =>
      let ctx := run_ctx r in
      let checks0 := halt_checks r w in
      if halted r w then Ret (refused r context checks0 "fleet halted: incident mode is active")
      else
        match g_check_admission g (wl_name w) context ctx with
        | Raise e => Raise e
        | Ret (admitted, reason) =>
            let checks1 := checks0 ++ [{| ack_step := "certification"; ack_passed := admitted; ack_reason := reason;
                                          ack_rule := Some "certification" |}] in
            if negb admitted then Ret (refused r context checks1 (reason_or reason "admission refused"))
            else
              match g_attestation_model g (wl_name w) ctx with
              | Raise e => Raise e
              | Ret bound =>
                  let ok := model_ok r bound in
                  let checks2 := checks1 ++
                    [{| ack_step := "model_identity"; ack_passed := ok;
                        ack_reason := if ok then None else Some "runtime model does not match attestation model";
                        ack_rule := Some "model_binding" |}] in
                  if negb ok
                  then Ret (refused r context checks2 "model swap: runtime model differs from attestation")
                  else
                    match g_budget g w context ctx with
                    | Raise e => Raise e
                    | Ret budget =>
                        let checks3 := checks2 ++
                          [{| ack_step := "budget"; ack_passed := bc_allowed budget; ack_reason := bc_reason budget;
                              ack_rule := Some (budget_level_value (bc_level budget)) |}] in
                        if negb (bc_allowed budget)
                        then Ret (refused r context checks3 (reason_or (bc_reason budget) "budget exhausted"))
                        else
                          match g_policy g (admission_policy_context r w context) with
                          | Raise e => Raise e
                          | Ret policy =>
                              let checks4 := checks3 ++
                                [{| ack_step := "policy"; ack_passed := bool_decide (pd_outcome policy = ALLOW);
                                    ack_reason := Some (pd_reason policy); ack_rule := Some (pd_rule policy) |}] in
                              if bool_decide (pd_outcome policy ∈ [DENY; BLOCK_INJECTION])
                              then Ret (refused r context checks4 (pd_reason policy))
                              else
                                match g_sandbox g w context (pd_action_class policy) with
                                | Raise e => Raise e
                                | Ret sandbox_required =>
                                    Ret {| ar_run_id := run_id r; ar_workload := wl_name w; ar_context := context;
                                           ar_outcome := if bool_decide (context = SANDBOX) || sandbox_required
                                                         then SANDBOX_ONLY else ADMITTED;
                                           ar_checks := checks4 ++ [{| ack_step := "sandbox"; ack_passed := true;
                                                                       ack_reason := None; ack_rule := Some "sandbox" |}];
                                           ar_sandbox := sandbox_required;
                                           ar_escalation_required :=
                                             bool_decide (pd_outcome policy = ESCALATE) || require_approval;
                                           ar_refused_reason := None |}
                                end
                          end
                    end
              end
        end
  end.

(** ** What admission guarantees *)

(** Every gate lets the run through. *)
Record gates_pass (r : Run) (w : AgentWorkload) (context : AdmissionContext) (policy : PolicyDecision) : Prop := {
  gp_halt : halted r w = false;
  gp_cert : ∃ reason, g_check_admission g (wl_name w) context (run_ctx r) = Ret (true, reason);
  gp_model : ∃ bound, g_attestation_model g (wl_name w) (run_ctx r) = Ret bound ∧ model_ok r bound = true;
  gp_budget : ∃ b, g_budget g w context (run_ctx r) = Ret b ∧ bc_allowed b = true;
  gp_policy : g_policy g (admission_policy_context r w context) = Ret policy;
  gp_policy_ok : pd_outcome policy = ALLOW ∨ pd_outcome policy = ESCALATE;
}.

Lemma not_denied_cases o : bool_decide (o ∈ [DENY; BLOCK_INJECTION]) = false → o = ALLOW ∨ o = ESCALATE.
Proof. intros H%bool_decide_eq_false. destruct o; set_solver. Qed.

(** C3: a run is admitted only when every gate passes: no incident halt is
    active (a failing halt check counts as one), the workload is certified for
    the context, the requested model is the attested one, the budget has
    headroom and policy does not deny it; the result then escalates exactly
    when policy asks for it or the caller required an approval, and runs in
    the sandbox whenever the sandbox gate or the sandbox context demands it. *)
Theorem admission_admits_sound r w require_approval res :
  admission_check r w require_approval = Ret res → ar_outcome res ≠ REFUSED →
  ∃ context policy sandbox, run_context r = Some context ∧ gates_pass r w context policy ∧
    g_sandbox g w context (pd_action_class policy) = Ret sandbox ∧
    ar_sandbox res = sandbox ∧
    (ar_outcome res = SANDBOX_ONLY ↔ context = SANDBOX ∨ sandbox = true) ∧
    (ar_escalation_required res = true ↔ pd_outcome policy = ESCALATE ∨ require_approval = true).
Proof.
  unfold admission_check. destruct (run_context r) as [context|]; [|done].
  destruct (halted r w) eqn:Hh; [by intros [= <-] []|].
  destruct (g_check_admission g _ _ _) as [[[] reason]|] eqn:Hc; simpl; [|by intros [= <-] []|done].
  destruct (g_attestation_model g _ _) as [bound|] eqn:Hm; [|done].
  destruct (model_ok r bound) eqn:Hok; simpl; [|by intros [= <-] []].
  destruct (g_budget g _ _ _) as [b|] eqn:Hb; [|done]. destruct (bc_allowed b) eqn:Hal; simpl; [|by intros [= <-] []].
  destruct (g_policy g _) as [p|] eqn:Hp; [|done].
  destruct (bool_decide (pd_outcome p ∈ _)) eqn:Hd; [by intros [= <-] []|]. apply not_denied_cases in Hd.
  destruct (g_sandbox g _ _ _) as [sb|] eqn:Hs; [|done]. intros [= <-] _.
  exists context, p, sb. split; [done|]. split; [split; eauto|]. split; [done|]. split; [done|]. simpl. split.
  - destruct sb, context; simpl; naive_solver.
  - destruct (pd_outcome p), require_approval; simpl; naive_solver.
Qed.

(** Requiring an approval never bypasses a gate: it changes nothing in the
    decision except that an admitted run is held for escalation. *)
Theorem admission_require_approval r w :
  admission_check r w true =
  match admission_check r w false with
  | Ret res =>
      Ret (if bool_decide (ar_outcome res = REFUSED) then res
           else {| ar_run_id := ar_run_id res; ar_workload := ar_workload res; ar_context := ar_context res;
                   ar_outcome := ar_outcome res; ar_checks := ar_checks res; ar_sandbox := ar_sandbox res;
                   ar_escalation_required := true; ar_refused_reason := ar_refused_reason res |})
  | Raise e => Raise e
  end.
Proof.
  unfold admission_check. destruct (run_context r) as [context|]; [|done].
  destruct (halted r w); [done|].
  destruct (g_check_admission g _ _ _) as [[[] reason]|]; simpl; [|done|done].
  destruct (g_attestation_model g _ _) as [bound|]; [|done]. destruct (model_ok r bound); simpl; [|done].
  destruct (g_budget g _ _ _) as [b|]; [|done]. destruct (bc_allowed b); simpl; [|done].
  destruct (g_policy g _) as [p|]; [|done]. destruct (bool_decide (pd_outcome p ∈ _)); [done|].
  destruct (g_sandbox g _ _ _) as [sb|]; [|done]. rewrite orb_true_r. cbn [ar_outcome].
  by destruct (bool_decide (context = SANDBOX) || sb).
Qed.

(** The checks are recorded in pipeline order, and a refusal ends the list with
    its failed check. *)
Lemma admission_checks_shape r w require_approval res :
  admission_check r w require_approval = Ret res →
  ∃ n, (ack_step <$> ar_checks res) =
    take n (ack_step <$> halt_checks r w) ++
    take (n - length (halt_checks r w)) ["certification"; "model_identity"; "budget"; "policy"; "sandbox"].
Proof.
  unfold admission_check. destruct (run_context r) as [context|]; [|done].
  assert (length (halt_checks r w) ≤ 1)%nat as Hl by (unfold halt_checks; destruct (g_halt g); simpl; lia).
  assert (∀ k, take (length (halt_checks r w) + k) (ack_step <$> halt_checks r w) = ack_step <$> halt_checks r w) as Ht
    by (intros k; apply take_ge; rewrite length_fmap; lia).
  assert (∀ k l, k = length l → l `prefix_of` ["certification"; "model_identity"; "budget"; "policy"; "sandbox"] →
    ∃ n, (ack_step <$> halt_checks r w) ++ l =
      take n (ack_step <$> halt_checks r w) ++
      take (n - length (halt_checks r w)) ["certification"; "model_identity"; "budget"; "policy"; "sandbox"]) as Hp.
  { intros k l -> [l' Hl']. exists (length (halt_checks r w) + length l)%nat. rewrite Ht. f_equal.
    replace (length (halt_checks r w) + length l - length (halt_checks r w))%nat with (length l) by lia.
    by rewrite Hl', take_app_length. }
  destruct (halted r w); [intros [= <-]; simpl; specialize (Hp 0%nat [] eq_refl (prefix_nil _)); by rewrite app_nil_r in Hp|].
  destruct (g_check_admission g _ _ _) as [[[] reason]|]; simpl; [| |done].
  2: intros [= <-]; simpl; rewrite fmap_app; apply (Hp 1%nat); [done|by eexists].
  destruct (g_attestation_model g _ _) as [bound|]; [|done]. destruct (model_ok r bound); simpl.
  2: intros [= <-]; simpl; rewrite <-app_assoc, fmap_app; apply (Hp 2%nat); [done|by eexists].
  destruct (g_budget g _ _ _) as [b|]; [|done]. destruct (bc_allowed b); simpl.
  2: intros [= <-]; simpl; rewrite <-!app_assoc, fmap_app; apply (Hp 3%nat); [done|by eexists].
  destruct (g_policy g _) as [p|]; [|done]. destruct (bool_decide (pd_outcome p ∈ _)).
  1: intros [= <-]; simpl; rewrite <-!app_assoc, fmap_app; apply (Hp 4%nat); [done|by eexists].
  destruct (g_sandbox g _ _ _) as [sb|]; [|done].
  intros [= <-]; simpl; rewrite <-!app_assoc, fmap_app; apply (Hp 5%nat); [done|by eexists].
Qed.
End Pipeline.

(** The policy engine as the pipeline's policy gate. *)
Definition engine_policy (utcoffset : string → Z → option Z) (now1 now2 : Z) (packs : Packs.store) (c : PolicyContext)
    : outcome ExecExn PolicyDecision :=
  match evaluate utcoffset now1 now2 packs c false with
  | Ret d => Ret d
  | Raise _ => Raise (ExternalError "policy")
  end.

(** With the policy engine behind the pipeline, a quarantined workload is
    never admitted outside the sandbox, whatever the other gates say. *)
Theorem admission_quarantined_refused g utcoffset now1 now2 packs r w require_approval res context :
  g_policy g = engine_policy utcoffset now1 now2 packs →
  run_context r = Some context → context ≠ SANDBOX → certification_status w = QUARANTINED →
  admission_check g r w require_approval = Ret res → ar_outcome res = REFUSED.
Proof.
  intros Hg Hctx Hne Hq. unfold admission_check. rewrite Hctx.
  destruct (halted g r w); [by intros [= <-]|].
  destruct (g_check_admission g _ _ _) as [[[] reason]|]; simpl; [|by intros [= <-]|done].
  destruct (g_attestation_model g _ _) as [bound|]; [|done]. destruct (model_ok r bound); simpl; [|by intros [= <-]].
  destruct (g_budget g _ _ _) as [b|]; [|done]. destruct (bc_allowed b); simpl; [|by intros [= <-]].
  rewrite Hg. unfold engine_policy, evaluate. simpl. rewrite Hq.
  rewrite (bool_decide_true (context ≠ SANDBOX)) by done. simpl. by intros [= <-].
Qed.

(** ** A concrete pipeline *)

Definition demo_gates (halt : outcome ExecExn bool) : Gates :=
  {| g_halt := Some (λ _ _, halt); g_check_admission := λ _ _ _, Ret (true, None);
     g_attestation_model := λ _ _, Ret None; g_budget := λ w _ _, Ret (unlimited_check w);
     g_policy := engine_policy no_zones 0 0 []; g_sandbox := λ w c a, Ret (manifest_sandbox_required w c a) |}.

Definition demo_admission_workload (status : CertificationStatus) : AgentWorkload :=
  {| wl_name := "w"; wl_owner := "o"; wl_team := None;
     wl_budget := {| bs_per_run_usd := f64_lit 1 1; bs_per_day_usd := f64_lit 5 1; bs_per_team_usd := None |};
     wl_tools := demo_tools; wl_approval_required_for := []; wl_sandbox := None; wl_time_windows := []; wl_output_shaping := false;
     wl_certification := Some status |}.

Definition demo_admission_run : Run :=
  {| run_id := "r1"; run_workload_id := "w"; run_caller := "op"; run_state := QUEUED;
     run_model_identity := None; run_created_at := 0; run_updated_at := 0; run_started_at := None;
     run_finished_at := None; run_trigger_origin := None; run_pipeline_origin := None;
     run_agent_tool_origin := None; run_manifest_version := Some 1%Z; run_context := Some STAGING; run_sandbox := false;
     run_task := []; run_result := None; run_failure_reason := None; run_cost_usd := f64_zero;
     run_sandbox_id := None; run_trace_id := None; run_shadow_of := None; run_probe := false;
     run_read_only := false; run_canary_rollout_id := None; run_canary_arm := None;
     run_tenant_id := "acme"; run_team_id := None; run_attribution_key := None |}.

Lemma admission_admits_sound_witness :
  ∃ res, admission_check (demo_gates (Ret false)) demo_admission_run (demo_admission_workload CERTIFIED) false = Ret res ∧
    ∃ context policy, run_context demo_admission_run = Some context ∧
      gates_pass (demo_gates (Ret false)) demo_admission_run (demo_admission_workload CERTIFIED) context policy.
Proof.
  eexists. split; [vm_compute; reflexivity|].
  destruct (admission_admits_sound (demo_gates (Ret false)) demo_admission_run (demo_admission_workload CERTIFIED) false
    _ eq_refl) as (context & policy & sb & H1 & H2 & _); [vm_compute; congruence|].
  exists context, policy. split; [exact H1|exact H2].
Defined.

(** A halt check that raises refuses the run. *)
Example admission_halt_fails_closed :
  ∃ res, admission_check (demo_gates (Raise (ExternalError "halt"))) demo_admission_run
           (demo_admission_workload CERTIFIED) false = Ret res ∧ ar_outcome res = REFUSED.
Proof. eexists. split; [vm_compute; reflexivity|reflexivity]. Qed.

Lemma admission_quarantined_refused_witness :
  ∃ res, admission_check (demo_gates (Ret false)) demo_admission_run (demo_admission_workload QUARANTINED) false = Ret res ∧
    ar_outcome res = REFUSED.
Proof.
  eexists. split; [vm_compute; reflexivity|].
  eapply (admission_quarantined_refused (demo_gates (Ret false)) no_zones 0 0 [] demo_admission_run
    (demo_admission_workload QUARANTINED) false _ STAGING); vm_compute; (reflexivity || congruence).
Defined.
