(* ===== verification/Triggers.v ===== *)
(** * Trigger declarations, history and limits ([triggers/schema.py],
    [fleet/triggers.py], [triggers/store.py], [triggers/limiter.py])

    The declaration and its validators, the in-memory history of events, runs,
    dead letters and nonces, and the limiter that decides on an event before
    anything is submitted.  The hash of a dedup key is a parameter. *)

From Stdlib Require Import Ascii.
From stdpp Require Import base strings pretty numbers sorting relations sets list.
From S2P Require Import Prelude Text Float64 Tenancy CoreModels Cron Templates.
Open Scope Z_scope.
Open Scope hp_scope.

(** ** Declarations *)

Inductive TriggerSource := WEBHOOK | GITHUB | ALERTMANAGER | CRON | WATCH.
#[export] Instance TriggerSource_eq_dec : EqDecision TriggerSource.
Proof. solve_decision. Defined.

Definition source_value (s : TriggerSource) : string :=
  match s with WEBHOOK => "webhook" | GITHUB => "github" | ALERTMANAGER => "alertmanager" | CRON => "cron" | WATCH => "watch" end.

Inductive TriggerTargetKind := WORKLOAD | PIPELINE.
#[export] Instance TriggerTargetKind_eq_dec : EqDecision TriggerTargetKind.
Proof. solve_decision. Defined.

Inductive AdmissionRule := STAGING_AUTO | GATED | DENY.
#[export] Instance AdmissionRule_eq_dec : EqDecision AdmissionRule.
Proof. solve_decision. Defined.

Inductive TriggerOutcome :=
  | ACCEPTED | DEDUPLICATED | SUPPRESSED_COOLDOWN | SUPPRESSED_FREEZE | REJECTED_RATE | REJECTED_BACKPRESSURE
  | REJECTED_SIGNATURE | SKIPPED_CONCURRENT | EVENT_FAILED.
#[export] Instance TriggerOutcome_eq_dec : EqDecision TriggerOutcome.
Proof. solve_decision. Defined.

Definition outcome_value (o : TriggerOutcome) : string :=
  match o with
  | ACCEPTED => "accepted" | DEDUPLICATED => "deduplicated" | SUPPRESSED_COOLDOWN => "suppressed_cooldown"
  | SUPPRESSED_FREEZE => "suppressed_freeze" | REJECTED_RATE => "rejected_rate"
  | REJECTED_BACKPRESSURE => "rejected_backpressure" | REJECTED_SIGNATURE => "rejected_signature"
  | SKIPPED_CONCURRENT => "skipped_concurrent" | EVENT_FAILED => "failed"
  end.

Inductive TriggerRunStatus := SUBMITTED | BLOCKED_CERT | BLOCKED_ADMISSION | FIRE_FAILED.
#[export] Instance TriggerRunStatus_eq_dec : EqDecision TriggerRunStatus.
Proof. solve_decision. Defined.

Record TriggerTarget := mkTarget { tt_kind : TriggerTargetKind; tt_ref : string }.

Record TriggerFilter := mkFilter {
  tf_events : list string; tf_actions : list string; tf_repo : option string; tf_service : option string }.

Record DedupSpec := mkDedup { ds_key : option string; ds_window_minutes : Z }.

Record RateLimitSpec := mkRate { rl_max_per_minute : Z; rl_burst : Z }.

Record TriggerSpec := mkSpec {
  ts_id : string;
  ts_tenant_id : string;
  ts_source : TriggerSource;
  ts_target : TriggerTarget;
  ts_filter : TriggerFilter;
  ts_task_template : odict string string;
  ts_dedup : option DedupSpec;
  ts_cooldown_seconds : Z;
  ts_rate_limit : option RateLimitSpec;
  ts_admission_rule : AdmissionRule;
  ts_timezone : string;
  ts_schedule : option string;
  ts_missed_schedule_policy : MissedSchedulePolicy;
  ts_max_concurrent_runs : option Z;
  ts_max_field_bytes : Z;
  ts_max_total_bytes : Z;
  ts_enabled : bool;
  ts_created_at : option Z;
}.

(** *** Validation *)

Definition in_range (lo hi z : Z) : bool := (lo <=? z) && (z <=? hi).

(** [_require_template] *)
Definition template_ok (t : string) : bool := match validate_template t with None => true | Some _ => false end.

Definition dedup_valid (d : DedupSpec) : bool :=
  opt_between 0 512 (ds_key d) && from_option template_ok true (ds_key d) && in_range 1 10080 (ds_window_minutes d).

Definition rate_limit_valid (r : RateLimitSpec) : bool :=
  in_range 1 100000 (rl_max_per_minute r) && in_range 0 100000 (rl_burst r).

(** [_templates_are_safe] *)
Definition templates_are_safe (mapping : odict string string) : bool :=
  forallb (λ e, bool_decide (e.1 ≠ EmptyString) && template_ok e.2) mapping.

Definition scheduled (s : TriggerSource) : bool := bool_decide (s = CRON) || bool_decide (s = WATCH).

(** [_schedule_requirements] *)
Definition schedule_requirements (s : TriggerSpec) : bool :=
  match ts_schedule s with
  | None => negb (scheduled (ts_source s))
  | Some expression =>
      scheduled (ts_source s) && bool_decide (expression ≠ EmptyString)
      && match parse expression with inr _ => true | inl _ => false end
  end.

(** The validators of [TriggerSpec]; [known_zone] is the time-zone database. *)
Definition spec_valid (known_zone : string → bool) (s : TriggerSpec) : bool :=
  between 1 64 (ts_id s) && between 1 64 (ts_tenant_id s) && between 1 253 (tt_ref (ts_target s))
  && opt_between 0 253 (tf_repo (ts_filter s)) && opt_between 0 253 (tf_service (ts_filter s))
  && templates_are_safe (ts_task_template s)
  && from_option dedup_valid true (ts_dedup s)
  && in_range 0 86400 (ts_cooldown_seconds s)
  && from_option rate_limit_valid true (ts_rate_limit s)
  && between 1 64 (ts_timezone s) && known_zone (ts_timezone s)
  && opt_between 0 128 (ts_schedule s)
  && from_option (in_range 1 1000) true (ts_max_concurrent_runs s)
  && in_range 1 1048576 (ts_max_field_bytes s) && in_range 1 10485760 (ts_max_total_bytes s)
  && schedule_requirements s.

(** ** History records *)

Record TriggerEvent := mkEvent {
  te_event_id : string; te_trigger_id : string; te_tenant_id : string; te_source : TriggerSource;
  te_payload : odict string JsonValue; te_received_at : Z; te_dedup_key : option string;
  te_outcome : TriggerOutcome; te_reason : option string }.

Record TriggerRun := mkTrigRun {
  tr_trigger_id : string; tr_event_id : string; tr_run_id : option string; tr_tenant_id : string; tr_fired_at : Z;
  tr_status : TriggerRunStatus; tr_reason : option string }.

Record TriggerDlqEntry := mkDlq {
  dq_entry_id : string; dq_trigger_id : string; dq_event_id : string; dq_tenant_id : string;
  dq_payload : odict string JsonValue; dq_failure_reason : string; dq_attempts : Z; dq_created_at : Z;
  dq_replayed_at : option Z }.

Definition event_valid (e : TriggerEvent) : bool :=
  between 1 128 (te_event_id e) && between 1 64 (te_trigger_id e) && between 1 64 (te_tenant_id e)
  && opt_between 0 512 (te_dedup_key e) && opt_between 0 2000 (te_reason e).

Definition fired_valid (r : TriggerRun) : bool :=
  between 1 64 (tr_trigger_id r) && between 1 128 (tr_event_id r) && opt_between 0 64 (tr_run_id r)
  && between 1 64 (tr_tenant_id r) && opt_between 0 2000 (tr_reason r).

Definition dlq_valid (d : TriggerDlqEntry) : bool :=
  between 1 128 (dq_entry_id d) && between 1 64 (dq_trigger_id d) && between 1 128 (dq_event_id d)
  && between 1 64 (dq_tenant_id d) && between 1 2000 (dq_failure_reason d) && (0 <=? dq_attempts d).

(** ** The in-memory store *)

Inductive TriggerExn :=
  | TriggerDisabledError (trigger_id : string)
  | DlqEntryNotFoundError (entry_id : string)
  | DlqEntryAlreadyReplayedError (entry_id : string)
  | TriggerScopeError
  | TriggerValidationError
  | TriggerOverflowError
  | TriggerTemplateError (message : string)
  | TriggerScheduleError (e : ScheduleExn)
  | TriggerExternalError (what : string).

Record Store := mkStore {
  st_triggers : odict string (TriggerSpec * string);
  st_events : odict string TriggerEvent;
  st_runs : odict (string * string) TriggerRun;
  st_dlq : odict string TriggerDlqEntry;
  st_nonces : odict (string * string) Z;
}.

Definition empty_store : Store := mkStore [] [] [] [] [].

Definition set_triggers (d : odict string (TriggerSpec * string)) (s : Store) : Store :=
  mkStore d (st_events s) (st_runs s) (st_dlq s) (st_nonces s).
Definition set_events (d : odict string TriggerEvent) (s : Store) : Store :=
  mkStore (st_triggers s) d (st_runs s) (st_dlq s) (st_nonces s).
Definition set_runs (d : odict (string * string) TriggerRun) (s : Store) : Store :=
  mkStore (st_triggers s) (st_events s) d (st_dlq s) (st_nonces s).
Definition set_dlq (d : odict string TriggerDlqEntry) (s : Store) : Store :=
  mkStore (st_triggers s) (st_events s) (st_runs s) d (st_nonces s).
Definition set_nonces (d : odict (string * string) Z) (s : Store) : Store :=
  mkStore (st_triggers s) (st_events s) (st_runs s) (st_dlq s) d.

Abbreviation StoreM := (M Store TriggerExn).

Definition save_trigger (spec : TriggerSpec) (ctx : TenantContext) : StoreM unit :=
  require TriggerScopeError ctx (ts_tenant_id spec) ;;;
  modify (λ s, set_triggers (od_set (ts_id spec) (spec, ts_tenant_id spec) (st_triggers s)) s).

Definition get_trigger (id : string) (ctx : TenantContext) (s : Store) : option TriggerSpec :=
  match od_get id (st_triggers s) with
  | Some (spec, tenant) => if scopes ctx tenant then Some spec else None
  | None => None
  end.

Definition list_triggers (enabled : option bool) (ctx : TenantContext) (s : Store) : list TriggerSpec :=
  py_sort (λ a b, str_leb (ts_id a) (ts_id b))
    (omap (λ e, if scopes ctx e.2 && opt_is enabled (ts_enabled e.1) then Some e.1 else None) (od_values (st_triggers s))).

Definition delete_trigger (id : string) (ctx : TenantContext) (s : Store) : bool * Store :=
  match od_get id (st_triggers s) with
  | Some (_, tenant) =>
      if scopes ctx tenant then
        (true, mkStore (od_del id (st_triggers s))
                 (filter (λ e, te_trigger_id e.2 ≠ id) (st_events s))
                 (filter (λ e, e.1.1 ≠ id) (st_runs s))
                 (filter (λ e, dq_trigger_id e.2 ≠ id) (st_dlq s)) (st_nonces s))
      else (false, s)
  | None => (false, s)
  end.

Definition add_event (e : TriggerEvent) (ctx : TenantContext) : StoreM unit :=
  require TriggerScopeError ctx (te_tenant_id e) ;;;
  modify (λ s, set_events (od_set (te_event_id e) e (st_events s)) s).

(** The order of [(received_at, event_id)]. *)
Definition event_leb (a b : TriggerEvent) : bool :=
  (te_received_at a <? te_received_at b)
  || (te_received_at a =? te_received_at b) && str_leb (te_event_id a) (te_event_id b).

Definition visible_events (trigger_id : option string) (since : option Z) (ctx : TenantContext) (s : Store) : list TriggerEvent :=
  filter (λ e, scopes ctx (te_tenant_id e) && opt_is trigger_id (te_trigger_id e)
    && match since with Some t => t <=? te_received_at e | None => true end) (od_values (st_events s)).

Definition list_events (trigger_id : option string) (since : option Z) (ctx : TenantContext) (s : Store) : list TriggerEvent :=
  py_sort event_leb (visible_events trigger_id since ctx s).

Definition last_event (trigger_id : string) (ctx : TenantContext) (s : Store) : option TriggerEvent :=
  last (list_events (Some trigger_id) None ctx s).

(** [max(events, key=lambda event: (event.received_at, event.event_id))] *)
Definition latest_event : list TriggerEvent → option TriggerEvent := py_best (λ a b, negb (event_leb a b)).

Definition last_accepted_event (trigger_id : string) (ctx : TenantContext) (s : Store) : option TriggerEvent :=
  latest_event (filter (λ e, te_outcome e = ACCEPTED) (visible_events (Some trigger_id) None ctx s)).

Definition find_dedup_event (trigger_id key : string) (since : Z) (ctx : TenantContext) (s : Store) : option TriggerEvent :=
  latest_event (filter (λ e, te_dedup_key e = Some key) (visible_events (Some trigger_id) (Some since) ctx s)).

Definition add_run (r : TriggerRun) (ctx : TenantContext) : StoreM unit :=
  require TriggerScopeError ctx (tr_tenant_id r) ;;;
  modify (λ s, set_runs (od_set (tr_trigger_id r, tr_event_id r) r (st_runs s)) s).

Definition visible_runs (trigger_id : option string) (ctx : TenantContext) (s : Store) : list TriggerRun :=
  filter (λ r, scopes ctx (tr_tenant_id r) && opt_is trigger_id (tr_trigger_id r)) (od_values (st_runs s)).

(** The order of [(fired_at, trigger_id, event_id)]. *)
Definition run_leb (a b : TriggerRun) : bool :=
  (tr_fired_at a <? tr_fired_at b)
  || (tr_fired_at a =? tr_fired_at b)
     && (if bool_decide (tr_trigger_id a = tr_trigger_id b) then str_leb (tr_event_id a) (tr_event_id b)
         else str_leb (tr_trigger_id a) (tr_trigger_id b)).

Definition list_runs (trigger_id : option string) (ctx : TenantContext) (s : Store) : list TriggerRun :=
  py_sort run_leb (visible_runs trigger_id ctx s).

Definition find_run_by_event (trigger_id event_id : string) (ctx : TenantContext) (s : Store) : option TriggerRun :=
  match od_get (trigger_id, event_id) (st_runs s) with
  | Some r => if scopes ctx (tr_tenant_id r) then Some r else None
  | None => None
  end.

Definition last_run (trigger_id : string) (ctx : TenantContext) (s : Store) : option TriggerRun :=
  py_best (λ a b, negb (run_leb a b)) (visible_runs (Some trigger_id) ctx s).

Definition add_dlq (d : TriggerDlqEntry) (ctx : TenantContext) : StoreM unit :=
  require TriggerScopeError ctx (dq_tenant_id d) ;;;
  modify (λ s, set_dlq (od_set (dq_entry_id d) d (st_dlq s)) s).

Definition get_dlq (entry_id : string) (ctx : TenantContext) (s : Store) : option TriggerDlqEntry :=
  match od_get entry_id (st_dlq s) with
  | Some d => if scopes ctx (dq_tenant_id d) then Some d else None
  | None => None
  end.

Definition dlq_leb (a b : TriggerDlqEntry) : bool :=
  (dq_created_at a <? dq_created_at b)
  || (dq_created_at a =? dq_created_at b) && str_leb (dq_entry_id a) (dq_entry_id b).

Definition list_dlq (ctx : TenantContext) (s : Store) : list TriggerDlqEntry :=
  py_sort dlq_leb (filter (λ d, scopes ctx (dq_tenant_id d)) (od_values (st_dlq s))).

Definition replayed (t : Z) (d : TriggerDlqEntry) : TriggerDlqEntry :=
  mkDlq (dq_entry_id d) (dq_trigger_id d) (dq_event_id d) (dq_tenant_id d) (dq_payload d) (dq_failure_reason d)
    (dq_attempts d) (dq_created_at d) (Some t).

Definition mark_dlq_replayed (entry_id : string) (t : Z) (ctx : TenantContext) : StoreM unit :=
  let* s := get in
  match get_dlq entry_id ctx s with
  | Some d => modify (λ s, set_dlq (od_set entry_id (replayed t d) (st_dlq s)) s)
  | None => raise TriggerScopeError
  end.

(** [t - timedelta] of a difference in microseconds. *)
Definition before {W} (t us : Z) : M W TriggerExn Z :=
  if dt_in_range (t - us) then ret (t - us) else raise TriggerOverflowError.

Definition claim_nonce (trigger_id nonce : string) (seen_at window_seconds : Z) : StoreM bool :=
  let* cutoff := before seen_at (window_seconds * 1000000) in
  let* s := get in
  match od_get (trigger_id, nonce) (st_nonces s) with
  | Some existing =>
      if cutoff <=? existing then ret false
      else modify (λ s, set_nonces (od_set (trigger_id, nonce) seen_at (st_nonces s)) s) ;;; ret true
  | None => modify (λ s, set_nonces (od_set (trigger_id, nonce) seen_at (st_nonces s)) s) ;;; ret true
  end.

Section Dedup.
Variable sha256_hex : string → string.

(** [_dedup_token] *)
Definition dedup_token (key : string) : string := "dedup:" +:+ sha256_hex key.

Definition claim_dedup (trigger_id key : string) (seen_at window_seconds : Z) : StoreM bool :=
  claim_nonce trigger_id (dedup_token key) seen_at window_seconds.

Definition release_dedup (trigger_id key : string) (s : Store) : Store :=
  set_nonces (od_del (trigger_id, dedup_token key) (st_nonces s)) s.
End Dedup.

(** ** Token buckets *)

Record TokenBucket := mkBucket { tb_rate : f64; tb_capacity : f64; tb_tokens : f64; tb_updated : Z }.

Definition new_bucket (rate_per_minute burst now : Z) : TokenBucket :=
  let capacity := f64_of_Z (rate_per_minute + burst) in
  mkBucket (int_truediv rate_per_minute 60) capacity capacity now.

Definition seconds_of (us : Z) : f64 := int_truediv us 1000000.

Definition allow (b : TokenBucket) (moment : Z) : bool * TokenBucket :=
  let elapsed := f64_max f64_zero (seconds_of (moment - tb_updated b)) in
  let tokens := f64_min (tb_capacity b) (f64_add (tb_tokens b) (f64_mul elapsed (tb_rate b))) in
  if f64_ltb tokens (f64_of_Z 1) then (false, mkBucket (tb_rate b) (tb_capacity b) tokens moment)
  else (true, mkBucket (tb_rate b) (tb_capacity b) (f64_sub tokens (f64_of_Z 1)) moment).

(** ** The limiter *)

Inductive LimiterDecision :=
  ACCEPT | LIM_DEDUPLICATED | LIM_SUPPRESSED_COOLDOWN | LIM_REJECTED_RATE | LIM_REJECTED_BACKPRESSURE.
#[export] Instance LimiterDecision_eq_dec : EqDecision LimiterDecision.
Proof. solve_decision. Defined.

(** [LimiterDecision.outcome] *)
Definition decision_outcome (d : LimiterDecision) : option TriggerOutcome :=
  match d with
  | ACCEPT => None
  | LIM_DEDUPLICATED => Some DEDUPLICATED
  | LIM_SUPPRESSED_COOLDOWN => Some SUPPRESSED_COOLDOWN
  | LIM_REJECTED_RATE => Some REJECTED_RATE
  | LIM_REJECTED_BACKPRESSURE => Some REJECTED_BACKPRESSURE
  end.

(** The store, the limiter's buckets and everything else. *)
Record World (X : Type) := mkWorld {
  w_store : Store; w_buckets : odict string TokenBucket; w_global : TokenBucket; w_ext : X }.
Arguments mkWorld {X}.
Arguments w_store {X}.
Arguments w_buckets {X}.
Arguments w_global {X}.
Arguments w_ext {X}.

Section Limiter.
Context {X : Type}.
Abbreviation EM := (M (World X) TriggerExn).

Definition with_store (s : Store) (w : World X) : World X := mkWorld s (w_buckets w) (w_global w) (w_ext w).
Definition with_ext (x : X) (w : World X) : World X := mkWorld (w_store w) (w_buckets w) (w_global w) x.

Definition on_store {A} (m : StoreM A) : EM A :=
  λ w, let '(o, s) := m (w_store w) in (o, with_store s w).

Definition on_ext {A} (f : X → outcome TriggerExn A * X) : EM A :=
  λ w, let '(o, x) := f (w_ext w) in (o, with_ext x w).

(** A call that always returns: a clock or an identifier. *)
Definition draw {A} (f : X → A * X) : EM A := λ w, let '(a, x) := f (w_ext w) in (Ret a, with_ext x w).

Variable sha256_hex : string → string.
Variable limiter_clock : X → Z * X.

(** [_bucket_for] *)
Definition bucket_for (id : string) (rl : RateLimitSpec) : EM TokenBucket :=
  let* found := gets (λ w, od_get id (w_buckets w)) in
  match found with
  | Some b => ret b
  | None =>
      let* now := draw limiter_clock in
      let b := new_bucket (rl_max_per_minute rl) (rl_burst rl) now in
      modify (λ w, mkWorld (w_store w) (od_set id b (w_buckets w)) (w_global w) (w_ext w)) ;;; ret b
  end.

Definition trigger_allows (spec : TriggerSpec) (now : Z) : EM bool :=
  match ts_rate_limit spec with
  | None => ret true
  | Some rl =>
      let* b := bucket_for (ts_id spec) rl in
      let '(ok, b') := allow b now in
      modify (λ w, mkWorld (w_store w) (od_set (ts_id spec) b' (w_buckets w)) (w_global w) (w_ext w)) ;;; ret ok
  end.

Definition global_allows (now : Z) : EM bool :=
  λ w, let '(ok, b') := allow (w_global w) now in (Ret ok, mkWorld (w_store w) (w_buckets w) b' (w_ext w)).

Definition seen_before (spec : TriggerSpec) (dedup_key : option string) (ctx : TenantContext) (now : Z) : EM bool :=
  match ts_dedup spec, dedup_key with
  | Some d, Some key =>
      let* since := before now (ds_window_minutes d * 60000000) in
      gets (λ w, match find_dedup_event (ts_id spec) key since ctx (w_store w) with Some _ => true | None => false end)
  | _, _ => ret false
  end.

Definition cooling (spec : TriggerSpec) (ctx : TenantContext) (now : Z) : EM bool :=
  if 0 <? ts_cooldown_seconds spec then
    gets (λ w, match last_accepted_event (ts_id spec) ctx (w_store w) with
               | Some e => f64_ltb (seconds_of (now - te_received_at e)) (f64_of_Z (ts_cooldown_seconds spec))
               | None => false
               end)
  else ret false.

Definition claimed (spec : TriggerSpec) (dedup_key : option string) (now : Z) : EM bool :=
  match ts_dedup spec, dedup_key with
  | Some d, Some key => on_store (claim_dedup sha256_hex (ts_id spec) key now (ds_window_minutes d * 60))
  | _, _ => ret true
  end.

(** [TriggerLimiter.check] *)
Definition check (spec : TriggerSpec) (dedup_key : option string) (ctx : TenantContext) : EM LimiterDecision :=
  let* now := draw limiter_clock in
  let* dup := seen_before spec dedup_key ctx now in
  if dup : bool then ret LIM_DEDUPLICATED
  else
    let* cold := cooling spec ctx now in
    if cold : bool then ret LIM_SUPPRESSED_COOLDOWN
    else
      let* rated := trigger_allows spec now in
      if negb rated then ret LIM_REJECTED_RATE
      else
        let* room := global_allows now in
        if negb room then ret LIM_REJECTED_BACKPRESSURE
        else
          let* won := claimed spec dedup_key now in
          ret (if won : bool then ACCEPT else LIM_DEDUPLICATED).

(** [TriggerLimiter.release_dedup] *)
Definition limiter_release (spec : TriggerSpec) (dedup_key : option string) : EM unit :=
  match ts_dedup spec, dedup_key with
  | Some _, Some key => modify (λ w, with_store (release_dedup sha256_hex (ts_id spec) key (w_store w)) w)
  | _, _ => ret tt
  end.
End Limiter.

(** ** Claims *)

(** A claim fails while an earlier one is inside the window, and replaces it
    after. *)
Lemma claim_nonce_cases tid nonce t win s :
  claim_nonce tid nonce t win s = (Raise TriggerOverflowError, s) ∨ 
  (∃ t0, od_get (tid, nonce) (st_nonces s) = Some t0 ∧ t - win * 1000000 ≤ t0 ∧ claim_nonce tid nonce t win s = (Ret false, s)) ∨
  ((∀ t0, od_get (tid, nonce) (st_nonces s) = Some t0 → t0 < t - win * 1000000) ∧
   claim_nonce tid nonce t win s = (Ret true, set_nonces (od_set (tid, nonce) t (st_nonces s)) s)).
Proof.
  unfold claim_nonce, before, bind. destruct (dt_in_range _); [|by left]. right. simpl.
  destruct (od_get _ _) as [t0|]; [|right; split; [done|done]].
  destruct (Z.leb_spec (t - win * 1000000) t0); [left; by exists t0|right; split; [|done]]. intros t1 [= <-]. lia.
Qed.

