(* ===== verification/TriggerEngine.v ===== *)
(** * From an event to a run ([triggers/engine.py], [triggers/watch.py],
    [triggers/runner.py])

    One event under a trigger: repeated event ids, freezes, the dedup key, the
    limiter, the rendered task, the admission rule, submission, and the rows,
    dead letters and audit records each way out leaves.  Submission, the audit
    log, the freeze check, clocks and identifiers are fields of an environment
    over an outer world.  The scheduled ticks drive the same entry point. *)

From Stdlib Require Import Ascii.
From stdpp Require Import base strings pretty numbers sorting relations sets list.
From S2P Require Import Prelude Text Float64 Tenancy CoreModels Cron Templates Triggers.
Open Scope Z_scope.
Open Scope hp_scope.

(** What the engine reads of an exception of the submitter: a refusal with its
    checks (step, passed) and reason, or the text of any other one. *)
Inductive SubmitExn :=
  | Refused (checks : list (string * bool)) (reason : option string)
  | SubmitFailed (message : string).

Record TriggerDecision := mkDecision {
  td_trigger_id : string; td_event_id : string; td_outcome : TriggerOutcome; td_run_id : option string;
  td_status : option TriggerRunStatus; td_reason : option string; td_dedup_key : option string }.

Definition Op (X A : Type) : Type := X → outcome TriggerExn A * X.

Record Env (X : Type) := mkEnv {
  (* workload, caller, context, task, origin, require_approval *)
  en_submit : string → string → AdmissionContext → odict string JsonValue → TriggerOrigin → bool → TenantContext →
    X → outcome SubmitExn string * X;
  (* pipeline, inputs, context; an exception is its text *)
  en_pipeline_submit : option (string → odict string JsonValue → AdmissionContext → TenantContext →
    X → outcome string string * X);
  en_clock : X → Z * X;
  en_limiter_clock : X → Z * X;
  en_new_id : X → string * X;
  en_audit : option (string → string → string → string → TenantContext → Op X unit);
  en_freeze_check : option (TriggerSpec → TenantContext → Op X (option string));
  en_sha256 : string → string;
  en_float_str : f64 → string;
  en_float_json : f64 → string;
}.
Arguments mkEnv {X}.
Arguments en_submit {X}.
Arguments en_pipeline_submit {X}.
Arguments en_clock {X}.
Arguments en_limiter_clock {X}.
Arguments en_new_id {X}.
Arguments en_audit {X}.
Arguments en_freeze_check {X}.
Arguments en_sha256 {X}.
Arguments en_float_str {X}.
Arguments en_float_json {X}.

(** [_LIMIT_REASONS] *)
Definition limit_reason (d : LimiterDecision) : option string :=
  match d with
  | ACCEPT => None
  | LIM_DEDUPLICATED => Some "duplicate dedup key within window"
  | LIM_SUPPRESSED_COOLDOWN => Some "within cooldown window"
  | LIM_REJECTED_RATE => Some "per-trigger rate limit exceeded"
  | LIM_REJECTED_BACKPRESSURE => Some "global ingest backpressure"
  end.

(** [_certification_failed] *)
Definition certification_failed (checks : list (string * bool)) : bool :=
  existsb (λ c, bool_decide (c.1 = "certification") && negb c.2) checks.

(** [a or b] of texts. *)
Definition or_text (o : option string) (d : string) : string :=
  match o with Some s => if bool_decide (s = EmptyString) then d else s | None => d end.

Section Engine.
Context {X : Type}.
Variable env : Env X.
Abbreviation EM := (M (World X) TriggerExn).

(** [_audit_append] *)
Definition audit_append (actor action subject detail : string) (ctx : TenantContext) : EM unit :=
  match en_audit env with Some f => on_ext (f actor action subject detail ctx) | None => ret tt end.

(** Constructing a record validates it. *)
Definition validated (ok : bool) : EM unit := if ok then ret tt else raise TriggerValidationError.

Definition decide_ (d : TriggerDecision) : EM TriggerDecision :=
  validated (opt_between 0 2000 (td_reason d)) ;;; ret d.

(** [_record_event] *)
Definition record_event (spec : TriggerSpec) (event_id : string) (source : TriggerSource)
    (payload : odict string JsonValue) (dedup_key : option string) (outcome : TriggerOutcome) (now : Z)
    (ctx : TenantContext) (reason : option string) : EM unit :=
  let e := mkEvent event_id (ts_id spec) (tc_tenant_id ctx) source payload now dedup_key outcome reason in
  validated (event_valid e) ;;;
  on_store (add_event e ctx) ;;;
  when (negb (bool_decide (outcome = ACCEPTED)))
    (audit_append "trigger-engine" ("trigger.event." +:+ outcome_value outcome) (ts_id spec)
       (or_text reason (outcome_value outcome)) ctx).

(** [_record_run] *)
Definition record_run (spec : TriggerSpec) (event_id : string) (run_id : option string) (status : TriggerRunStatus)
    (reason : option string) (now : Z) (ctx : TenantContext) : EM unit :=
  let r := mkTrigRun (ts_id spec) event_id run_id (tc_tenant_id ctx) now status reason in
  validated (fired_valid r) ;;; on_store (add_run r ctx).

(** [_fail] *)
Definition fail (spec : TriggerSpec) (event_id : string) (source : TriggerSource) (payload : odict string JsonValue)
    (reason : string) (ctx : TenantContext) (dedup_key : option string) : EM TriggerDecision :=
  limiter_release (en_sha256 env) spec dedup_key ;;;
  let* now := draw (en_clock env) in
  record_event spec event_id source payload None EVENT_FAILED now ctx (Some reason) ;;;
  let d := mkDlq ("dlq-" +:+ event_id) (ts_id spec) event_id (tc_tenant_id ctx) payload reason 1 now None in
  validated (dlq_valid d) ;;;
  on_store (add_dlq d ctx) ;;;
  audit_append "trigger-engine" "trigger.run.failed" (ts_id spec) reason ctx ;;;
  decide_ (mkDecision (ts_id spec) event_id EVENT_FAILED None None (Some reason) None).

(** The dedup key of an event: the caller's, or the rendered template. *)
Definition event_key (spec : TriggerSpec) (payload : odict string JsonValue) (dedup_key : option string)
    : string + option string :=
  match dedup_key with
  | Some key => inr (Some key)
  | None =>
      match ts_dedup spec with
      | Some (mkDedup (Some template) _) =>
          match render_template (en_float_str env) template payload with
          | inl e => inl e
          | inr v => inr (Some (json_str (en_float_str env) v))
          end
      | _ => inr None
      end
  end.

Definition rendered (spec : TriggerSpec) (payload : odict string JsonValue) : string + odict string JsonValue :=
  render_task (en_float_str env) (en_float_json env) (ts_task_template spec) payload
    (ts_max_field_bytes spec) (ts_max_total_bytes spec).

(** An accepted event whose run did or did not start, on record. *)
Definition settled (spec : TriggerSpec) (eid : string) (src : TriggerSource) (payload : odict string JsonValue)
    (key : option string) (now : Z) (ctx : TenantContext) (run : option string) (status : TriggerRunStatus)
    (reason : option string) : EM unit :=
  record_event spec eid src payload key ACCEPTED now ctx reason ;;;
  record_run spec eid run status reason now ctx.

Definition submitted (spec : TriggerSpec) (eid run : string) (key : option string) : TriggerDecision :=
  mkDecision (ts_id spec) eid ACCEPTED (Some run) (Some SUBMITTED) None key.

Definition blocked (spec : TriggerSpec) (eid : string) (status : TriggerRunStatus) (reason : string) (key : option string)
    : TriggerDecision := mkDecision (ts_id spec) eid ACCEPTED None (Some status) (Some reason) key.

(** A call of a submitter, with what it raised as a value. *)
Definition attempt {E} (f : X → outcome E string * X) : EM (E + string) :=
  λ w, let '(o, x) := f (w_ext w) in
       (Ret (match o with Ret a => inr a | Raise e => inl e end), with_ext x w).

(** Handing an admitted event to the pipelines. *)
Definition hand_to_pipeline (spec : TriggerSpec) (eid : string) (src : TriggerSource) (payload task : odict string JsonValue)
    (key : option string) (context : AdmissionContext) (now : Z) (ctx : TenantContext) : EM TriggerDecision :=
  match en_pipeline_submit env with
  | None => fail spec eid src payload "pipeline submission is not configured" ctx key
  | Some submit =>
      let* r := attempt (submit (tt_ref (ts_target spec)) task context ctx) in
      match r with
      | inl message => fail spec eid src payload message ctx key
      | inr run =>
          settled spec eid src payload key now ctx (Some run) SUBMITTED None ;;;
          audit_append "trigger-engine" "trigger.pipeline.submitted" (ts_id spec) ("pipeline run " +:+ run) ctx ;;;
          decide_ (submitted spec eid run key)
      end
  end.

(** [TriggerOrigin] wants an event id. *)
Definition submit_run (spec : TriggerSpec) (eid : string) (src : TriggerSource) (task : odict string JsonValue)
    (context : AdmissionContext) (now : Z) (ctx : TenantContext) : X → outcome SubmitExn string * X :=
  if bool_decide (eid = EmptyString) then λ x, (Raise (SubmitFailed "TriggerOrigin event_id"), x)
  else en_submit env (tt_ref (ts_target spec)) ("trigger:" +:+ ts_id spec) context task
         (mkTriggerOrigin (source_value src) eid now) (bool_decide (ts_admission_rule spec = GATED)) ctx.

(** Handing it to the run service. *)
Definition hand_to_runs (spec : TriggerSpec) (eid : string) (src : TriggerSource) (payload task : odict string JsonValue)
    (key : option string) (context : AdmissionContext) (now : Z) (ctx : TenantContext) : EM TriggerDecision :=
  let* r := attempt (submit_run spec eid src task context now ctx) in
  match r with
  | inl (Refused checks refused) =>
      let status := if certification_failed checks then BLOCKED_CERT else BLOCKED_ADMISSION in
      let reason := or_text refused "admission refused" in
      settled spec eid src payload key now ctx None status (Some reason) ;;;
      decide_ (blocked spec eid status reason key)
  | inl (SubmitFailed message) => fail spec eid src payload message ctx key
  | inr run =>
      settled spec eid src payload key now ctx (Some run) SUBMITTED None ;;;
      audit_append "trigger-engine" "trigger.run.submitted" (ts_id spec) ("run " +:+ run) ctx ;;;
      decide_ (submitted spec eid run key)
  end.

(** An event the limiter let through. *)
Definition fire (spec : TriggerSpec) (eid : string) (src : TriggerSource) (payload : odict string JsonValue)
    (key : option string) (now : Z) (ctx : TenantContext) : EM TriggerDecision :=
  match rendered spec payload with
  | inl e => fail spec eid src payload ("template: " +:+ e) ctx key
  | inr task =>
      match ts_admission_rule spec with
      | DENY =>
          let reason := "admission rule denies" in
          settled spec eid src payload key now ctx None BLOCKED_ADMISSION (Some reason) ;;;
          decide_ (blocked spec eid BLOCKED_ADMISSION reason key)
      | rule =>
          let context := if bool_decide (rule = STAGING_AUTO) then STAGING else PRODUCTION in
          match tt_kind (ts_target spec) with
          | PIPELINE => hand_to_pipeline spec eid src payload task key context now ctx
          | WORKLOAD => hand_to_runs spec eid src payload task key context now ctx
          end
      end
  end.

(** The dedup key and the limiter. *)
Definition evaluate (spec : TriggerSpec) (eid : string) (src : TriggerSource) (payload : odict string JsonValue)
    (dedup_key : option string) (now : Z) (ctx : TenantContext) : EM TriggerDecision :=
  match event_key spec payload dedup_key with
  | inl e => fail spec eid src payload ("dedup key: " +:+ e) ctx None
  | inr key =>
      let* decision := check (en_sha256 env) (en_limiter_clock env) spec key ctx in
      match decision_outcome decision with
      | None => fire spec eid src payload key now ctx
      | Some outcome =>
          record_event spec eid src payload key outcome now ctx (limit_reason decision) ;;;
          decide_ (mkDecision (ts_id spec) eid outcome None None (limit_reason decision) key)
      end
  end.

Definition freeze_reason (spec : TriggerSpec) (ctx : TenantContext) : EM (option string) :=
  match en_freeze_check env with Some f => on_ext (f spec ctx) | None => ret None end.

(** An event id not seen before. *)
Definition process (spec : TriggerSpec) (eid : string) (src : TriggerSource) (payload : odict string JsonValue)
    (dedup_key : option string) (now : Z) (ctx : TenantContext) : EM TriggerDecision :=
  let* frozen := freeze_reason spec ctx in
  match frozen with
  | Some reason =>
      record_event spec eid src payload None SUPPRESSED_FREEZE now ctx (Some reason) ;;;
      decide_ (mkDecision (ts_id spec) eid SUPPRESSED_FREEZE None None (Some reason) None)
  | None => evaluate spec eid src payload dedup_key now ctx
  end.

Definition fresh_or (event_id : option string) : EM string :=
  match event_id with
  | Some id => if bool_decide (id = EmptyString) then draw (en_new_id env) else ret id
  | None => draw (en_new_id env)
  end.

(** [TriggerEngine.ingest] *)
Definition ingest (spec : TriggerSpec) (payload : odict string JsonValue) (event_id : option string)
    (source : option TriggerSource) (dedup_key : option string) (ctx : TenantContext) : EM TriggerDecision :=
  if negb (ts_enabled spec) then raise (TriggerDisabledError (ts_id spec))
  else
    let* eid := fresh_or event_id in
    let* now := draw (en_clock env) in
    let* existing := gets (λ w, find_run_by_event (ts_id spec) eid ctx (w_store w)) in
    match existing with
    | Some r =>
        decide_ (mkDecision (ts_id spec) eid DEDUPLICATED (tr_run_id r) (Some (tr_status r)) (Some "duplicate event id") None)
    | None => process spec eid (default (ts_source spec) source) payload dedup_key now ctx
    end.

(** [TriggerEngine.preview] *)
Definition preview (spec : TriggerSpec) (payload : odict string JsonValue)
    : outcome TriggerExn (option string * odict string JsonValue) :=
  match event_key spec payload None with
  | inl e => Raise (TriggerTemplateError e)
  | inr key => match rendered spec payload with inl e => Raise (TriggerTemplateError e) | inr task => Ret (key, task) end
  end.

(** [TriggerEngine.replay_dlq] *)
Definition replay_dlq (entry_id : string) (ctx : TenantContext) : EM TriggerDecision :=
  let* found := gets (λ w, get_dlq entry_id ctx (w_store w)) in
  match found with
  | None => raise (DlqEntryNotFoundError entry_id)
  | Some entry =>
      match dq_replayed_at entry with
      | Some _ => raise (DlqEntryAlreadyReplayedError entry_id)
      | None =>
          let* spec := gets (λ w, get_trigger (dq_trigger_id entry) ctx (w_store w)) in
          match spec with
          | None => raise (DlqEntryNotFoundError entry_id)
          | Some spec =>
              audit_append "trigger-engine" "trigger.dlq.replay" (dq_trigger_id entry) entry_id ctx ;;;
              let* decision := ingest spec (dq_payload entry) None None None ctx in
              let* now := draw (en_clock env) in
              on_store (mark_dlq_replayed entry_id now ctx) ;;;
              ret decision
          end
      end
  end.

(** ** Scheduled ticks *)

Variable zone : string → Zone.
Variable isoformat : Z → string.
Variables (scheduler_clock watch_clock : X → Z * X) (watch_id : X → string * X) (active_runs : string → X → Z * X).
Variables (tick_seconds : Z) (max_catch_up : nat).

(** [TriggerScheduler.due], its anchor the trigger's last run. *)
Definition due_now (spec : TriggerSpec) (last_fired : option Z) (ctx : TenantContext) : EM (list Z) :=
  match ts_schedule spec with
  | None => ret []
  | Some _ =>
      let* now := draw scheduler_clock in
      let* run := gets (λ w, last_run (ts_id spec) ctx (w_store w)) in
      let anchor := match last_fired with Some t => Some t | None => tr_fired_at <$> run end in
      match due (ts_schedule spec) (ts_missed_schedule_policy spec) (zone (ts_timezone spec)) tick_seconds max_catch_up
              now anchor with
      | inl e => raise (TriggerScheduleError e)
      | inr l => ret l
      end
  end.

Definition scheduled_payload (t : Z) : odict string JsonValue := [("scheduled_at", JStr (isoformat t))].

(** [_record_skipped] *)
Definition record_skipped (spec : TriggerSpec) (t : Z) (ctx : TenantContext) : EM unit :=
  let* id := draw watch_id in
  let* now := draw watch_clock in
  let limit := default 1 (ts_max_concurrent_runs spec) in
  let e := mkEvent id (ts_id spec) (tc_tenant_id ctx) WATCH (scheduled_payload t) now None SKIPPED_CONCURRENT
             (Some ("max_concurrent_runs=" +:+ pretty limit +:+ " already active")) in
  validated (event_valid e) ;;; on_store (add_event e ctx).

Fixpoint watch_fires (spec : TriggerSpec) (instants : list Z) (ctx : TenantContext) : EM (list TriggerDecision) :=
  match instants with
  | [] => ret []
  | t :: rest =>
      let* active := draw (active_runs (tt_ref (ts_target spec))) in
      if default 1 (ts_max_concurrent_runs spec) <=? active then
        record_skipped spec t ctx ;;; watch_fires spec rest ctx
      else
        let* d := ingest spec (scheduled_payload t) None (Some WATCH) None ctx in
        let* ds := watch_fires spec rest ctx in
        ret (d :: ds)
  end.

(** [WatchRunner.tick] *)
Definition watch_tick (spec : TriggerSpec) (last_fired : option Z) (ctx : TenantContext) : EM (list TriggerDecision) :=
  if negb (bool_decide (ts_source spec = WATCH)) then ret []
  else let* instants := due_now spec last_fired ctx in watch_fires spec instants ctx.

Fixpoint cron_fires (spec : TriggerSpec) (instants : list Z) (ctx : TenantContext) : EM (list TriggerDecision) :=
  match instants with
  | [] => ret []
  | t :: rest =>
      let* d := ingest spec (scheduled_payload t) None (Some CRON) None ctx in
      let* ds := cron_fires spec rest ctx in
      ret (d :: ds)
  end.

Definition tick_one (spec : TriggerSpec) : EM (list TriggerDecision) :=
  let ctx := context_for_run (ts_tenant_id spec) None None in
  match ts_source spec with
  | CRON => let* instants := due_now spec None ctx in cron_fires spec instants ctx
  | WATCH => watch_tick spec None ctx
  | _ => ret []
  end.

Fixpoint tick_all (specs : list TriggerSpec) : EM (list TriggerDecision) :=
  match specs with
  | [] => ret []
  | spec :: rest =>
      let* ds := tick_one spec in
      let* more := tick_all rest in
      ret (ds ++ more)
  end.

(** [TriggerRunner.tick] *)
Definition tick (ctx : TenantContext) : EM (list TriggerDecision) :=
  let* specs := gets (λ w, list_triggers (Some true) ctx (w_store w)) in
  tick_all specs.
End Engine.

(** ** What a call keeps

    A relation between the worlds before and after that survives the writes a
    delivery of one event under one trigger may perform. *)

Section Kept.
Context {X : Type} (env : Env X) (R : World X → World X → Prop) `{!PreOrder R}.
Context (spec : TriggerSpec) (eid : string) (key : option string).
Hypothesis (Hext : ∀ x w, R w (with_ext x w)).
Hypothesis (Hevents : ∀ e w, R w (with_store (set_events (od_set (te_event_id e) e (st_events (w_store w))) (w_store w)) w)).
Hypothesis (Hdlq : ∀ e w, R w (with_store (set_dlq (od_set (dq_entry_id e) e (st_dlq (w_store w))) (w_store w)) w)).
Hypothesis (Hruns : ∀ r w, tr_trigger_id r = ts_id spec → tr_event_id r = eid →
  R w (with_store (set_runs (od_set (ts_id spec, eid) r (st_runs (w_store w))) (w_store w)) w)).
Hypothesis (Hrelease : ∀ w k, key = Some k → R w (with_store (release_dedup (en_sha256 env) (ts_id spec) k (w_store w)) w)).

Lemma kept_ext {A} (f : X → outcome TriggerExn A * X) : keeps R (on_ext f).
Proof. intros w. unfold on_ext. destruct (f (w_ext w)). apply Hext. Qed.
Lemma kept_draw {A} (f : X → A * X) : keeps R (draw f).
Proof. intros w. unfold draw. destruct (f (w_ext w)). apply Hext. Qed.
Lemma kept_attempt {E} (f : X → outcome E string * X) : keeps R (attempt f).
Proof. intros w. unfold attempt. destruct (f (w_ext w)). apply Hext. Qed.
Lemma with_store_id (w : World X) : with_store (w_store w) w = w.
Proof. by destruct w. Qed.
Lemma kept_require_store (m : Store → Store) ctx t :
  (∀ w, R w (with_store (m (w_store w)) w)) → keeps R (on_store (X := X) (require TriggerScopeError ctx t ;;; modify m)).
Proof.
  intros Hm w. unfold on_store, require. destruct (scopes ctx t); cbn; [apply Hm|]. rewrite with_store_id. reflexivity.
Qed.
Lemma kept_audit a b c d ctx : keeps R (audit_append env a b c d ctx).
Proof. unfold audit_append. destruct (en_audit env); [apply kept_ext|apply keeps_ret, _]. Qed.
Lemma kept_validated b : keeps R (validated b).
Proof. destruct b; [apply keeps_ret, _|apply keeps_raise, _]. Qed.
Lemma kept_decide d : keeps R (decide_ d).
Proof. apply keeps_bind; [apply _|apply kept_validated|intros _; apply keeps_ret, _]. Qed.
Lemma kept_record_event id src p k o now ctx reason : keeps R (record_event env spec id src p k o now ctx reason).
Proof.
  repeat (apply keeps_bind; [apply _| |intros _]); [apply kept_validated|apply kept_require_store; intros; apply Hevents|].
  apply keeps_when; [apply _|apply kept_audit].
Qed.
Lemma kept_record_run run st reason now ctx : keeps R (record_run spec eid run st reason now ctx).
Proof.
  apply keeps_bind; [apply _|apply kept_validated|intros _]. apply kept_require_store. intros. by apply Hruns.
Qed.
Lemma kept_settled src p k now ctx run st reason : keeps R (settled env spec eid src p k now ctx run st reason).
Proof. apply keeps_bind; [apply _|apply kept_record_event|intros _; apply kept_record_run]. Qed.
Lemma kept_release k : k = None ∨ k = key → keeps R (limiter_release (en_sha256 env) spec k).
Proof.
  intros Hk. unfold limiter_release. destruct (ts_dedup spec); [|apply keeps_ret, _].
  destruct k as [k|]; [|apply keeps_ret, _]. apply keeps_modify. intros w. apply Hrelease. by destruct Hk.
Qed.
Lemma kept_fail src p reason ctx k : k = None ∨ k = key → keeps R (fail env spec eid src p reason ctx k).
Proof.
  intros Hk. apply keeps_bind; [apply _|by apply kept_release|intros _].
  apply keeps_bind; [apply _|apply kept_draw|intros now].
  apply keeps_bind; [apply _|apply kept_record_event|intros _].
  apply keeps_bind; [apply _|apply kept_validated|intros _].
  apply keeps_bind; [apply _|apply kept_require_store; intros; apply Hdlq|intros _].
  apply keeps_bind; [apply _|apply kept_audit|intros _; apply kept_decide].
Qed.
Lemma kept_fire src p now ctx : keeps R (fire env spec eid src p key now ctx).
Proof.
  unfold fire. destruct (rendered env spec p) as [e|task]; [apply kept_fail; by right|].
  assert (∀ st reason k, keeps R (settled env spec eid src p key now ctx None st (Some reason) ;;;
    decide_ (blocked spec eid st reason k))) as Hblocked.
  { intros. apply keeps_bind; [apply _|apply kept_settled|intros _; apply kept_decide]. }
  assert (∀ run a b c d k, keeps R (settled env spec eid src p key now ctx (Some run) SUBMITTED None ;;;
    (audit_append env a b c d ctx ;;; decide_ (submitted spec eid run k)))) as Hsubmitted.
  { intros. apply keeps_bind; [apply _|apply kept_settled|intros _].
    apply keeps_bind; [apply _|apply kept_audit|intros _; apply kept_decide]. }
  assert (∀ context, keeps R (match tt_kind (ts_target spec) with
    | PIPELINE => hand_to_pipeline env spec eid src p task key context now ctx
    | WORKLOAD => hand_to_runs env spec eid src p task key context now ctx end)) as Hhand.
  { intros context. unfold hand_to_pipeline, hand_to_runs. destruct (tt_kind (ts_target spec)).
    - apply keeps_bind; [apply _|apply kept_attempt|]. intros [[checks refused|m]|run]; [auto|apply kept_fail; by right|auto].
    - destruct (en_pipeline_submit env); [|apply kept_fail; by right].
      apply keeps_bind; [apply _|apply kept_attempt|]. intros [e|run]; [apply kept_fail; by right|auto]. }
  destruct (ts_admission_rule spec); auto.
Qed.
End Kept.

Section Checks.
Context {X : Type} (env : Env X) (R : World X → World X → Prop) `{!PreOrder R}.
Context (spec : TriggerSpec) (key : option string).
Hypothesis (Hext : ∀ x w, R w (with_ext x w)).
Hypothesis (Hbuckets : ∀ b g w, R w (mkWorld (w_store w) b g (w_ext w))).
Hypothesis (Hclaim : ∀ x, keeps R (claimed (en_sha256 env) spec key (en_limiter_clock env x).1)).

Lemma kept_seen k ctx now : keeps R (seen_before (X := X) spec k ctx now).
Proof.
  unfold seen_before. destruct (ts_dedup spec); [|apply keeps_ret, _]. destruct k; [|apply keeps_ret, _].
  apply keeps_bind; [apply _| |intros; apply keeps_gets, _].
  unfold before. destruct (dt_in_range _); [apply keeps_ret, _|apply keeps_raise, _].
Qed.
Lemma kept_cooling ctx now : keeps R (cooling (X := X) spec ctx now).
Proof. unfold cooling. destruct (0 <? _); [apply keeps_gets, _|apply keeps_ret, _]. Qed.
Lemma kept_trigger_allows now : keeps R (trigger_allows (en_limiter_clock env) spec now).
Proof.
  unfold trigger_allows. destruct (ts_rate_limit spec) as [rl|]; [|apply keeps_ret, _].
  apply keeps_bind; [apply _| |].
  - apply keeps_bind; [apply _|apply keeps_gets, _|]. intros [b|]; [apply keeps_ret, _|].
    apply keeps_bind; [apply _|apply kept_draw, Hext|]. intros t.
    apply keeps_bind; [apply _|apply keeps_modify; intros; apply Hbuckets|intros; apply keeps_ret, _].
  - intros b. destruct (allow b now) as [ok b'].
    apply keeps_bind; [apply _|apply keeps_modify; intros; apply Hbuckets|intros; apply keeps_ret, _].
Qed.
Lemma kept_global_allows now : keeps R (global_allows (X := X) now).
Proof. intros w. unfold global_allows. destruct (allow _ _). apply Hbuckets. Qed.
Lemma kept_check ctx : keeps R (check (en_sha256 env) (en_limiter_clock env) spec key ctx).
Proof.
  intros w. unfold check. destruct (draw (en_limiter_clock env) w) as [o w1] eqn:Hdraw.
  pose proof Hdraw as Hd. unfold draw in Hd. destruct (en_limiter_clock env (w_ext w)) as [now x] eqn:Hnow. injection Hd as <- <-.
  rewrite (bind_run _ _ _ _ _ Hdraw). etrans; [apply (Hext x)|].
  pose proof (Hclaim (w_ext w)) as Hc. rewrite Hnow in Hc. simpl in Hc.
  match goal with |- R ?w0 (?m ?w0).2 => enough (keeps R m) as Hk by apply Hk end.
  apply keeps_bind; [apply _|apply kept_seen|]. intros []; [apply keeps_ret, _|].
  apply keeps_bind; [apply _|apply kept_cooling|]. intros []; [apply keeps_ret, _|].
  apply keeps_bind; [apply _|apply kept_trigger_allows|]. intros []; cbn [negb]; [|apply keeps_ret, _].
  apply keeps_bind; [apply _|apply kept_global_allows|]. intros []; cbn [negb]; [|apply keeps_ret, _].
  apply keeps_bind; [apply _|exact Hc|intros; apply keeps_ret, _].
Qed.

(** An accepted event went through every test and won its claim. *)
Lemma check_accept ctx w w' :
  check (en_sha256 env) (en_limiter_clock env) spec key ctx w = (Ret ACCEPT, w') →
  ∃ x w1, R w w1 ∧ claimed (en_sha256 env) spec key (en_limiter_clock env x).1 w1 = (Ret true, w').
Proof.
  unfold check. intros H. apply bind_inv in H as (now & w1 & Hdraw & H). exists (w_ext w).
  pose proof (kept_draw R Hext (en_limiter_clock env) w) as K1. rewrite Hdraw in K1.
  assert (now = (en_limiter_clock env (w_ext w)).1) as ->.
  { unfold draw in Hdraw. destruct (en_limiter_clock env (w_ext w)); by injection Hdraw. }
  apply bind_inv in H as (dup & w2 & Hs & H). pose proof (kept_seen key ctx (en_limiter_clock env (w_ext w)).1 w1) as K2.
  rewrite Hs in K2. destruct dup; [done|].
  apply bind_inv in H as (cold & w3 & Hc & H). pose proof (kept_cooling ctx (en_limiter_clock env (w_ext w)).1 w2) as K3.
  rewrite Hc in K3. destruct cold; [done|].
  apply bind_inv in H as (rated & w4 & Hr & H). pose proof (kept_trigger_allows (en_limiter_clock env (w_ext w)).1 w3) as K4.
  rewrite Hr in K4. destruct rated; [|done]. cbn [negb] in H.
  apply bind_inv in H as (room & w5 & Hg & H). pose proof (kept_global_allows (en_limiter_clock env (w_ext w)).1 w4) as K5.
  rewrite Hg in K5. destruct room; [|done]. cbn [negb] in H.
  apply bind_inv in H as (won & w6 & Hw & H). destruct won; [|done]. injection H as <-.
  exists w5. split; [|done]. simpl in *. by repeat (etrans; [eassumption|]).
Qed.
End Checks.
