(* ===== verification/TriggerHistory.v ===== *)
(** * What a trigger's deliveries leave behind

    The ways a delivery returns, and the guarantees over sequences of
    deliveries: one accepted event per event id, one per dedup key and window,
    parked failures, and the retries a rate rejection blocks. *)

From Stdlib Require Import Ascii.
From stdpp Require Import base strings pretty numbers sorting relations sets list.
From S2P Require Import Prelude Text Float64 Tenancy CoreModels Cron Templates Triggers TriggerEngine.
Open Scope Z_scope.
Open Scope hp_scope.

(** ** What the ways out leave behind *)

Section Ways.
Context {X : Type} (env : Env X).

Lemma draw_inv {A} (f : X → A * X) w o w' : draw f w = (o, w') → ∃ x, o = Ret (f (w_ext w)).1 ∧ w' = with_ext x w.
Proof. unfold draw. destruct (f (w_ext w)) as [a x]. intros [= <- <-]. by exists x. Qed.

Lemma audit_inv a b c d ctx (w : World X) o w' : audit_append env a b c d ctx w = (o, w') → ∃ x, w' = with_ext x w.
Proof.
  unfold audit_append. destruct (en_audit env) as [f|].
  - unfold on_ext. destruct (f _ _ _ _ _ _) as [r x]. intros [= <- <-]. by exists x.
  - intros [= <- <-]. exists (w_ext w). by destruct w.
Qed.

Lemma attempt_inv {E} (f : X → outcome E string * X) (w : World X) o w' : attempt f w = (o, w') → ∃ x, w' = with_ext x w.
Proof. unfold attempt. destruct (f (w_ext w)) as [r x]. intros [= <- <-]. by exists x. Qed.

Lemma validated_inv b (w : World X) a w' : validated b w = (Ret a, w') → b = true ∧ w' = w.
Proof. destruct b; [by intros [= <- <-]|done]. Qed.

Lemma decide_inv d (w : World X) d' w' : decide_ d w = (Ret d', w') → d' = d ∧ w' = w.
Proof. intros (a & w1 & [_ ->]%validated_inv & H)%bind_inv. by injection H as <- <-. Qed.

Lemma on_store_require_inv (m : Store → Store) ctx t (w : World X) a w' :
  on_store (require TriggerScopeError ctx t ;;; modify m) w = (Ret a, w') → w' = with_store (m (w_store w)) w.
Proof. unfold on_store, require. destruct (scopes ctx t); cbn; [|done]. by intros [= _ <-]. Qed.

(** The store after a recorded event, and the store after a recorded run. *)
Definition with_event (e : TriggerEvent) (s : Store) : Store := set_events (od_set (te_event_id e) e (st_events s)) s.
Definition with_run (r : TriggerRun) (s : Store) : Store := set_runs (od_set (tr_trigger_id r, tr_event_id r) r (st_runs s)) s.
Definition with_dlq (d : TriggerDlqEntry) (s : Store) : Store := set_dlq (od_set (dq_entry_id d) d (st_dlq s)) s.

Lemma record_event_inv spec eid src p k o now ctx reason (w : World X) a w' :
  record_event env spec eid src p k o now ctx reason w = (Ret a, w') →
  let e := mkEvent eid (ts_id spec) (tc_tenant_id ctx) src p now k o reason in
  event_valid e = true ∧ ∃ x, w' = with_ext x (with_store (with_event e (w_store w)) w).
Proof.
  intros H e. apply bind_inv in H as (a1 & w1 & [Hv ->]%validated_inv & H).
  apply bind_inv in H as (a2 & w2 & Hs & H). apply on_store_require_inv in Hs as ->. split; [done|].
  destruct (bool_decide (o = ACCEPTED)); simpl in H; [injection H as <- <-; eexists; by destruct w|].
  apply audit_inv in H as [x ->]. by exists x.
Qed.

Lemma event_valid_id e : event_valid e = true → between 1 128 (te_event_id e) = true.
Proof. unfold event_valid. intros H. do 4 apply andb_true_iff in H as [H _]. done. Qed.

Lemma settled_inv spec eid src p k now ctx run st reason (w : World X) a w' :
  settled env spec eid src p k now ctx run st reason w = (Ret a, w') →
  between 1 128 eid = true ∧ ∃ x, w' = with_ext x (with_store
    (with_run (mkTrigRun (ts_id spec) eid run (tc_tenant_id ctx) now st reason)
      (with_event (mkEvent eid (ts_id spec) (tc_tenant_id ctx) src p now k ACCEPTED reason) (w_store w))) w).
Proof.
  intros H. apply bind_inv in H as (a1 & w1 & [Hv [x ->]]%record_event_inv & H).
  apply bind_inv in H as (a2 & w2 & [_ ->]%validated_inv & H). apply on_store_require_inv in H as ->.
  split; [|by exists x]. exact (event_valid_id _ Hv).
Qed.

Lemma limiter_release_inv spec k (w : World X) a w' :
  limiter_release (en_sha256 env) spec k w = (Ret a, w') →
  w' = with_store (match ts_dedup spec, k with
                   | Some _, Some key => release_dedup (en_sha256 env) (ts_id spec) key (w_store w)
                   | _, _ => w_store w end) w.
Proof. unfold limiter_release. destruct (ts_dedup spec), k; intros [= _ <-]; by destruct w. Qed.

(** A delivery that failed: the event and the payload are kept, the claim on
    the key is given back. *)
Lemma fail_inv spec eid src p reason ctx k (w : World X) d w' :
  fail env spec eid src p reason ctx k w = (Ret d, w') →
  d = mkDecision (ts_id spec) eid EVENT_FAILED None None (Some reason) None ∧ between 1 128 eid = true ∧
  ∃ x now, w' = with_ext x (with_store
    (with_dlq (mkDlq ("dlq-" +:+ eid) (ts_id spec) eid (tc_tenant_id ctx) p reason 1 now None)
      (with_event (mkEvent eid (ts_id spec) (tc_tenant_id ctx) src p now None EVENT_FAILED (Some reason))
        (match ts_dedup spec, k with
         | Some _, Some key => release_dedup (en_sha256 env) (ts_id spec) key (w_store w)
         | _, _ => w_store w end))) w).
Proof.
  intros H. apply bind_inv in H as (a1 & w1 & ->%limiter_release_inv & H).
  apply bind_inv in H as (now & w2 & (x & _ & ->)%draw_inv & H).
  apply bind_inv in H as (a2 & w3 & [Hv [x2 ->]]%record_event_inv & H).
  apply bind_inv in H as (a3 & w4 & [_ ->]%validated_inv & H).
  apply bind_inv in H as (a4 & w5 & ->%on_store_require_inv & H).
  apply bind_inv in H as (a5 & w6 & [x3 ->]%audit_inv & H). apply decide_inv in H as [-> ->].
  split; [done|]. split; [exact (event_valid_id _ Hv)|]. by exists x3, now.
Qed.

Definition accepted_as (spec : TriggerSpec) (eid : string) (src : TriggerSource) (p : odict string JsonValue)
    (k : option string) (now : Z) (ctx : TenantContext) (w : World X) (d : TriggerDecision) (w' : World X) : Prop :=
  d = mkDecision (ts_id spec) eid ACCEPTED (td_run_id d) (td_status d) (td_reason d) k ∧
   ∃ st reason x, td_status d = Some st ∧ between 1 128 eid = true ∧ w' = with_ext x (with_store
    (with_run (mkTrigRun (ts_id spec) eid (td_run_id d) (tc_tenant_id ctx) now st reason)
      (with_event (mkEvent eid (ts_id spec) (tc_tenant_id ctx) src p now k ACCEPTED reason) (w_store w))) w).

(** An event the limiter let through is accepted, with its run on record, or
    failed. *)
Lemma fire_inv spec eid src p k now ctx (w : World X) d w' :
  fire env spec eid src p k now ctx w = (Ret d, w') →
  (∃ reason w1, fail env spec eid src p reason ctx k w1 = (Ret d, w') ∧ w_store w1 = w_store w) ∨
  accepted_as spec eid src p k now ctx w d w'.
Proof.
  unfold fire. destruct (rendered env spec p) as [e|task]; [intros H; left; by eexists _, w|].
  assert (∀ st reason x0, (settled env spec eid src p k now ctx None st (Some reason) ;;;
      decide_ (blocked spec eid st reason k)) (with_ext x0 w) = (Ret d, w') →
    accepted_as spec eid src p k now ctx w d w') as Hblocked.
  { intros st reason x0 H. apply bind_inv in H as (a & w1 & [He [x ->]]%settled_inv & H). apply decide_inv in H as [-> ->].
    split; [done|]. by exists st, (Some reason), x. }
  assert (∀ run x0 a b c e, (settled env spec eid src p k now ctx (Some run) SUBMITTED None ;;;
      (audit_append env a b c e ctx ;;; decide_ (submitted spec eid run k))) (with_ext x0 w) = (Ret d, w') →
    accepted_as spec eid src p k now ctx w d w') as Hsub.
  { intros run x0 a b c e H. apply bind_inv in H as (a1 & w1 & [He [x ->]]%settled_inv & H).
    apply bind_inv in H as (a2 & w2 & [x2 ->]%audit_inv & H). apply decide_inv in H as [-> ->].
    split; [done|]. by exists SUBMITTED, None, x2. }
  assert (∀ context, (match tt_kind (ts_target spec) with
    | PIPELINE => hand_to_pipeline env spec eid src p task k context now ctx
    | WORKLOAD => hand_to_runs env spec eid src p task k context now ctx end) w = (Ret d, w') →
    (∃ reason w1, fail env spec eid src p reason ctx k w1 = (Ret d, w') ∧ w_store w1 = w_store w) ∨
    accepted_as spec eid src p k now ctx w d w') as Hhand.
  { intros context. unfold hand_to_pipeline, hand_to_runs. destruct (tt_kind (ts_target spec)).
    - intros (r & w1 & [x ->]%attempt_inv & H)%bind_inv. destruct r as [[checks refused|m]|run];
        [right; by eapply Hblocked|left; by eexists _, _|right; by eapply Hsub].
    - destruct (en_pipeline_submit env); [|intros H; left; by eexists _, w].
      intros (r & w1 & [x ->]%attempt_inv & H)%bind_inv. destruct r as [e|run]; [left; by eexists _, _|right; by eapply Hsub]. }
  destruct (ts_admission_rule spec); [intros H; exact (Hhand _ H)..|]. intros H. right. eapply (Hblocked _ _ (w_ext w)). destruct w; exact H.
Qed.
End Ways.

(** ** Deliveries one after the other *)

Record Call := mkCall {
  c_spec : TriggerSpec; c_payload : odict string JsonValue; c_event_id : option string;
  c_source : option TriggerSource; c_key : option string; c_ctx : TenantContext }.

Definition deliver {X} (env : Env X) (c : Call) : M (World X) TriggerExn TriggerDecision :=
  ingest env (c_spec c) (c_payload c) (c_event_id c) (c_source c) (c_key c) (c_ctx c).

Fixpoint run_calls {X} (env : Env X) (l : list Call) (w : World X) : list (outcome TriggerExn TriggerDecision) * World X :=
  match l with
  | [] => ([], w)
  | c :: l' => let '(o, w') := deliver env c w in let '(os, w'') := run_calls env l' w' in (o :: os, w'')
  end.

(** The event a delivery records. *)
Definition event_of (c : Call) (eid : string) (src : TriggerSource) (k : option string) (now : Z) (o : TriggerOutcome)
    (reason : option string) : TriggerEvent :=
  mkEvent eid (ts_id (c_spec c)) (tc_tenant_id (c_ctx c)) src (c_payload c) now k o reason.

(** The ways a delivery returns: the event id has a run, a freeze is on, the
    dedup key cannot be rendered, the limiter holds the event back, or lets it
    through. *)
Inductive ingested {X} (env : Env X) (c : Call) (w : World X) (d : TriggerDecision) (w' : World X) : Prop :=
  | Duplicate eid x r :
      find_run_by_event (ts_id (c_spec c)) eid (c_ctx c) (w_store w) = Some r → w' = with_ext x w →
      d = mkDecision (ts_id (c_spec c)) eid DEDUPLICATED (tr_run_id r) (Some (tr_status r)) (Some "duplicate event id") None →
      ingested env c w d w'
  | Frozen eid x e reason :
      te_event_id e = eid → w' = with_ext x (with_store (with_event e (w_store w)) w) →
      d = mkDecision (ts_id (c_spec c)) eid SUPPRESSED_FREEZE None None (Some reason) None →
      ingested env c w d w'
  | Unkeyed eid src reason x e :
      find_run_by_event (ts_id (c_spec c)) eid (c_ctx c) (w_store w) = None →
      event_key env (c_spec c) (c_payload c) (c_key c) = inl e →
      fail env (c_spec c) eid src (c_payload c) reason (c_ctx c) None (with_ext x w) = (Ret d, w') →
      ingested env c w d w'
  | Limited eid src k y decision o x x' w2 :
      event_key env (c_spec c) (c_payload c) (c_key c) = inr k →
      check (en_sha256 env) (en_limiter_clock env) (c_spec c) k (c_ctx c) (with_ext x w) = (Ret decision, w2) →
      decision_outcome decision = Some o →
      w' = with_ext x' (with_store (with_event (event_of c eid src k (en_clock env y).1 o (limit_reason decision)) (w_store w2)) w2) →
      d = mkDecision (ts_id (c_spec c)) eid o None None (limit_reason decision) k →
      ingested env c w d w'
  | Fired eid src k y x w2 :
      find_run_by_event (ts_id (c_spec c)) eid (c_ctx c) (w_store w) = None →
      event_key env (c_spec c) (c_payload c) (c_key c) = inr k →
      check (en_sha256 env) (en_limiter_clock env) (c_spec c) k (c_ctx c) (with_ext x w) = (Ret ACCEPT, w2) →
      fire env (c_spec c) eid src (c_payload c) k (en_clock env y).1 (c_ctx c) w2 = (Ret d, w') →
      ingested env c w d w'.

Section Deliveries.
Context {X : Type} (env : Env X).

Lemma with_ext_twice x y (w : World X) : with_ext x (with_ext y w) = with_ext x w.
Proof. done. Qed.

Lemma fresh_or_inv o (w : World X) a w' : fresh_or env o w = (Ret a, w') → ∃ x, w' = with_ext x w.
Proof.
  unfold fresh_or. intros H. destruct o as [id|]; [destruct (bool_decide (id = EmptyString))|].
  - apply draw_inv in H as (x & _ & ->). by exists x.
  - injection H as _ <-. exists (w_ext w). by destruct w.
  - apply draw_inv in H as (x & _ & ->). by exists x.
Qed.

Lemma freeze_inv spec ctx (w : World X) a w' : freeze_reason env spec ctx w = (Ret a, w') → ∃ x, w' = with_ext x w.
Proof.
  unfold freeze_reason. destruct (en_freeze_check env) as [f|].
  - unfold on_ext. destruct (f _ _ _) as [r x]. intros [= _ <-]. by exists x.
  - intros [= _ <-]. exists (w_ext w). by destruct w.
Qed.

Lemma ingest_inv c (w : World X) d w' : deliver env c w = (Ret d, w') → ingested env c w d w'.
Proof.
  unfold deliver, ingest. destruct (ts_enabled (c_spec c)); simpl negb; cbv iota; [|done].
  intros H. apply bind_inv in H as (eid & w1 & [x1 ->]%fresh_or_inv & H).
  apply bind_inv in H as (now & w2 & (x2 & [= ->] & ->)%draw_inv & H). rewrite with_ext_twice in H.
  apply bind_inv in H as (o & w3 & [= <- <-] & H).
  change (w_store (with_ext x2 w)) with (w_store w) in H. change (w_ext (with_ext x1 w)) with x1 in H.
  destruct (find_run_by_event (ts_id (c_spec c)) eid (c_ctx c) (w_store w)) as [r|] eqn:Hr.
  { apply decide_inv in H as [-> ->]. by eapply Duplicate. }
  unfold process in H. apply bind_inv in H as (frozen & w3 & [x3 ->]%freeze_inv & H). rewrite with_ext_twice in H.
  destruct frozen as [reason|].
  { apply bind_inv in H as (u & w4 & [_ [x4 ->]]%record_event_inv & H). apply decide_inv in H as [-> ->].
    eapply (Frozen _ _ _ _ _ _ x4 (mkEvent eid _ _ _ _ _ _ _ _)); [done|done|done]. }
  unfold evaluate in H. destruct (event_key env _ _ _) as [e|k] eqn:Hk; [by eapply Unkeyed|].
  apply bind_inv in H as (decision & w4 & Hc & H). destruct (decision_outcome decision) as [o|] eqn:Ho.
  - apply bind_inv in H as (u & w5 & [_ [x5 ->]]%record_event_inv & H). apply decide_inv in H as [-> ->].
    by eapply Limited.
  - destruct decision; try done. by eapply Fired.
Qed.

(** *** Recorded runs stay *)

Definition row_kept (k : string * string) (r : TriggerRun) (w w' : World X) : Prop :=
  od_get k (st_runs (w_store w)) = Some r → od_get k (st_runs (w_store w')) = Some r.

#[local] Instance row_kept_preorder k r : PreOrder (row_kept k r).
Proof. split; [intros w ?; done|intros a b c Hab Hbc ?; auto]. Qed.

Lemma row_process spec eid src p dk now ctx k r :
  (ts_id spec, eid) ≠ k → keeps (row_kept k r) (process env spec eid src p dk now ctx).
Proof.
  intros Hk. assert (∀ s (w : World X), st_runs s = st_runs (w_store w) → row_kept k r w (with_store s w)) as Hs.
  { intros s w Hs Hr. simpl. by rewrite Hs. }
  assert (∀ x w, row_kept k r w (with_ext x w)) as Hext by (intros x w Hr; exact Hr).
  assert (∀ r' w, tr_trigger_id r' = ts_id spec → tr_event_id r' = eid →
    row_kept k r w (with_store (set_runs (od_set (ts_id spec, eid) r' (st_runs (w_store w))) (w_store w)) w)) as Hruns.
  { intros r' w _ _ Hr. simpl. by rewrite od_get_set_ne. }
  apply keeps_bind; [apply _| |].
  { unfold freeze_reason. destruct (en_freeze_check env); [apply kept_ext; exact Hext|apply keeps_ret, _]. }
  intros [reason|].
  { apply keeps_bind; [apply _|apply kept_record_event; intros; auto; apply _|intros _; apply kept_decide, _]. }
  unfold evaluate. destruct (event_key env spec p dk) as [e|key].
  { apply (kept_fail env _ spec eid None); intros; auto. }
  apply keeps_bind; [apply _| |].
  { apply kept_check; [apply _|exact Hext|intros b g w Hr; exact Hr|]. intros x. unfold claimed.
    destruct (ts_dedup spec), key; try apply keeps_ret, _.
    intros w. unfold on_store, claim_dedup, claim_nonce, bind, before. destruct (dt_in_range _); simpl; [|by apply Hs].
    destruct (od_get _ _); [destruct (_ <=? _)|]; by apply Hs. }
  intros decision. destruct (decision_outcome decision).
  - apply keeps_bind; [apply _|apply kept_record_event; intros; auto; apply _|intros _; apply kept_decide, _].
  - apply kept_fire; intros; auto; apply _.
Qed.

Lemma row_deliver c k r : scopes (c_ctx c) (tr_tenant_id r) = true → keeps (row_kept k r) (deliver env c).
Proof.
  intros Hs. unfold deliver, ingest. destruct (ts_enabled (c_spec c)); simpl negb; cbv iota; [|apply keeps_raise, _].
  apply keeps_bind; [apply _| |].
  { unfold fresh_or. destruct (c_event_id c) as [id|]; [destruct (bool_decide _)|]; try apply keeps_ret, _;
    apply kept_draw; intros x w Hr; exact Hr. }
  intros eid. apply keeps_bind; [apply _|apply kept_draw; intros x w Hr; exact Hr|]. intros now w Hr. unfold bind at 1, gets at 1. cbn [fst snd].
  destruct (find_run_by_event _ _ _ _) eqn:Hf.
  - by apply (kept_decide (row_kept k r)).
  - assert ((ts_id (c_spec c), eid) ≠ k).
    { intros <-. unfold find_run_by_event in Hf. by rewrite Hr, Hs in Hf. }
    by apply row_process.
Qed.

Lemma row_calls calls k r (w : World X) os w' :
  Forall (λ c, scopes (c_ctx c) (tr_tenant_id r) = true) calls → run_calls env calls w = (os, w') → row_kept k r w w'.
Proof.
  intros Hs. revert w os. induction Hs as [|c calls Hc Hs IH]; intros w os; simpl; [intros [= <- <-]; by intros ?|].
  pose proof (row_deliver c k r Hc w) as Hd. destruct (deliver env c w) as [o w1].
  destruct (run_calls env calls w1) as [os' w2] eqn:Hrun. intros [= <- <-]. etrans; [exact Hd|by eapply IH].
Qed.

(** An accepted event has its run row, with what the decision says. *)
Lemma accepted_row c (w : World X) d w' :
  deliver env c w = (Ret d, w') → td_outcome d = ACCEPTED →
  td_event_id d ≠ EmptyString ∧ ∃ r, od_get (ts_id (c_spec c), td_event_id d) (st_runs (w_store w')) = Some r ∧
    tr_run_id r = td_run_id d ∧ Some (tr_status r) = td_status d ∧ tr_tenant_id r = tc_tenant_id (c_ctx c).
Proof.
  intros H Hacc. apply ingest_inv in H. destruct H as [| | ? ? ? ? ? ? ? Hf |? ? ? ? decision ? ? ? ? ? ? Hd ? ->|? ? ? ? ? ? ? ? ? Hf];
    [by subst; simpl in Hacc..| | |].
  - by apply fail_inv in Hf as (-> & _).
  - simpl in Hacc. subst. by destruct decision.
  - apply fire_inv in Hf as [(reason & w1 & Hf & _)|(-> & st & reason & z & Hst & Heid & ->)].
    { by apply fail_inv in Hf as (-> & _). }
    simpl in *. split; [by destruct eid|]. eexists. split; [apply od_get_set_eq|]. by simpl.
Qed.
End Deliveries.

(** C36: One event, one run.  After an event was accepted, whatever is delivered in
    between under contexts that see its tenant, delivering the same event id to
    the same trigger again reports the first decision's run and status as a
    duplicate, and changes neither the history nor the limits. *)
Theorem event_fires_once {X} (env : Env X) c (w : World X) d w1 calls os w2 c' :
  deliver env c w = (Ret d, w1) → td_outcome d = ACCEPTED →
  Forall (λ k, scopes (c_ctx k) (tc_tenant_id (c_ctx c)) = true) (calls ++ [c']) → run_calls env calls w1 = (os, w2) →
  ts_id (c_spec c') = ts_id (c_spec c) → ts_enabled (c_spec c') = true → c_event_id c' = Some (td_event_id d) →
  ∃ w3, deliver env c' w2 =
      (Ret (mkDecision (ts_id (c_spec c)) (td_event_id d) DEDUPLICATED (td_run_id d) (td_status d)
              (Some "duplicate event id") None), w3) ∧
    w_store w3 = w_store w2 ∧ w_buckets w3 = w_buckets w2 ∧ w_global w3 = w_global w2.
Proof.
  intros H Hacc [Hcalls Hc']%Forall_app Hrun Hid Hen Heid. apply Forall_cons in Hc' as [Hc' _].
  destruct (accepted_row env c w d w1 H Hacc) as (Hne & r & Hr & Hrun_id & Hst & Ht). rewrite <-Ht in Hcalls, Hc'.
  pose proof (row_calls env calls _ r w1 os w2 Hcalls Hrun Hr) as Hr2.
  unfold deliver, ingest. rewrite Hen, Heid, Hid. cbn [negb]. unfold fresh_or. rewrite bool_decide_eq_false_2 by done.
  rewrite (bind_run (ret (td_event_id d)) _ w2 _ w2 eq_refl).
  destruct (draw (en_clock env) w2) as [o w3] eqn:Hd. pose proof Hd as Hd'. apply draw_inv in Hd' as (x & -> & ->).
  rewrite (bind_run _ _ _ _ _ Hd). unfold bind at 1, gets at 1. change (w_store (with_ext x w2)) with (w_store w2).
  unfold find_run_by_event. rewrite Hr2, Hc'. cbv iota. exists (with_ext x w2). by rewrite Hrun_id, Hst.
Qed.

(** *** Claims on dedup keys *)

Section Claims.
Context {X : Type} (env : Env X) (id key : string) (window_minutes : Z).

(** The clock readings of the period lie within one window of each other. *)
Hypothesis Hspread : ∀ x y, (en_limiter_clock env x).1 - (en_limiter_clock env y).1 ≤ window_minutes * 60000000.

(** The trigger deduplicates, over at least that window. *)
Definition dedups (spec : TriggerSpec) : Prop :=
  ts_id spec = id → ∃ d, ts_dedup spec = Some d ∧ window_minutes ≤ ds_window_minutes d.

Definition held (w : World X) : Prop :=
  ∃ x, od_get (id, dedup_token (en_sha256 env) key) (st_nonces (w_store w)) = Some (en_limiter_clock env x).1.

Definition held_kept (w w' : World X) : Prop := held w → held w'.

#[local] Instance held_kept_preorder : PreOrder held_kept.
Proof. split; [intros w ?; done|intros a b c Hab Hbc ?; auto]. Qed.

Lemma held_same s (w : World X) : st_nonces s = st_nonces (w_store w) → held_kept w (with_store s w).
Proof. intros E [x H]. exists x. simpl. by rewrite E. Qed.

Lemma claimed_held spec k x : keeps held_kept (claimed (en_sha256 env) spec k (en_limiter_clock env x).1).
Proof.
  unfold claimed. destruct (ts_dedup spec) as [dd|]; [|apply keeps_ret, _]. destruct k as [k|]; [|apply keeps_ret, _].
  intros w [y Hy]. unfold on_store, claim_dedup.
  destruct (claim_nonce_cases (ts_id spec) (dedup_token (en_sha256 env) k) (en_limiter_clock env x).1 (ds_window_minutes dd * 60)
    (w_store w)) as [-> | [(? & _ & _ & ->)|[_ ->]]]; [by exists y..|].
  destruct (decide ((id, dedup_token (en_sha256 env) key) = (ts_id spec, dedup_token (en_sha256 env) k))) as [E|Hne].
  - exists x. simpl. by rewrite E, od_get_set_eq.
  - exists y. simpl. by rewrite od_get_set_ne.
Qed.

(** While the key is held no other delivery wins it. *)
Lemma held_excludes spec k x (w w' : World X) :
  dedups spec → held w → claimed (en_sha256 env) spec (Some k) (en_limiter_clock env x).1 w = (Ret true, w') →
  (ts_id spec, dedup_token (en_sha256 env) k) ≠ (id, dedup_token (en_sha256 env) key).
Proof.
  intros Hd [y Hy] H [Hid Hk]%pair_equal_spec. destruct (Hd Hid) as (dd & Hdd & Hwin). unfold claimed in H. rewrite Hdd in H.
  unfold on_store, claim_dedup in H. rewrite Hid, Hk in H. pose proof (Hspread x y).
  destruct (claim_nonce_cases id (dedup_token (en_sha256 env) key) (en_limiter_clock env x).1 (ds_window_minutes dd * 60)
    (w_store w)) as [E | [(? & _ & _ & E)|[Hlt E]]]; rewrite E in H; [done..|]. specialize (Hlt _ Hy). nia.
Qed.

Lemma winner_holds dd k x (w w' : World X) spec :
  ts_id spec = id → ts_dedup spec = Some dd → k = Some key →
  claimed (en_sha256 env) spec k (en_limiter_clock env x).1 w = (Ret true, w') → held w'.
Proof.
  intros Hid Hdd -> H. unfold claimed in H. rewrite Hdd in H. unfold on_store, claim_dedup in H. rewrite Hid in H.
  destruct (claim_nonce_cases id (dedup_token (en_sha256 env) key) (en_limiter_clock env x).1 (ds_window_minutes dd * 60)
    (w_store w)) as [E | [(? & _ & _ & E)|[Hlt E]]]; rewrite E in H; [done..|]. injection H as <-.
  exists x. simpl. by rewrite od_get_set_eq.
Qed.

Lemma release_held spec k (w : World X) :
  (ts_id spec, dedup_token (en_sha256 env) k) ≠ (id, dedup_token (en_sha256 env) key) →
  held_kept w (with_store (release_dedup (en_sha256 env) (ts_id spec) k (w_store w)) w).
Proof. intros Hne [x Hx]. exists x. simpl. by rewrite od_get_del_ne. Qed.

Lemma held_fire spec eid src p k now ctx :
  (∀ k', k = Some k' → (ts_id spec, dedup_token (en_sha256 env) k') ≠ (id, dedup_token (en_sha256 env) key)) →
  keeps held_kept (fire env spec eid src p k now ctx).
Proof.
  intros Hk. apply kept_fire; [apply _|intros x w H; exact H|intros; by apply held_same..|].
  intros w k' E. apply release_held. auto.
Qed.

Definition accepted_with (o : outcome TriggerExn TriggerDecision) : bool :=
  match o with
  | Ret d => bool_decide (td_trigger_id d = id) && bool_decide (td_outcome d = ACCEPTED) && bool_decide (td_dedup_key d = Some key)
  | Raise _ => false
  end.

Lemma held_process spec eid src p dk now ctx : dedups spec → keeps held_kept (process env spec eid src p dk now ctx).
Proof.
  intros Hd. assert (∀ x w, held_kept w (with_ext x w)) as Hext by (intros x w H; exact H).
  assert (∀ e w, held_kept w (with_store (set_events (od_set (te_event_id e) e (st_events (w_store w))) (w_store w)) w)) as Hev
    by (intros; by apply held_same).
  apply keeps_bind; [apply _| |].
  { unfold freeze_reason. destruct (en_freeze_check env); [by apply kept_ext|apply keeps_ret, _]. }
  intros [reason|].
  { apply keeps_bind; [apply _|by apply kept_record_event; [apply _| |]|intros _; apply kept_decide, _]. }
  unfold evaluate. destruct (event_key env spec p dk) as [e|k].
  { eapply (kept_fail env _ spec eid None); [done|done|intros; by apply held_same|done|by left]. }
  intros w Hw. destruct (bind _ _ w) as [o w'] eqn:H. cbn [snd].
  assert (keeps held_kept (check (en_sha256 env) (en_limiter_clock env) spec k ctx)) as Hcheck.
  { apply kept_check; [apply _|done|intros b g w0 H0; exact H0|apply claimed_held]. }
  specialize (Hcheck w Hw). unfold bind in H. destruct (check _ _ _ _ _ w) as [[decision|e] w1] eqn:Hc;
    [|by injection H as <- <-]. cbn [snd] in Hcheck.
  destruct (decision_outcome decision) eqn:Ho.
  - pose proof (keeps_bind held_kept (record_event env spec eid src p k t now ctx (limit_reason decision))
      (λ _, decide_ (mkDecision (ts_id spec) eid t None None (limit_reason decision) k))) as Hb.
    pose proof (f_equal snd H) as Hs. cbn [snd] in Hs. rewrite <-Hs. apply Hb; [|intros; apply kept_decide, _|done].
    apply kept_record_event; [apply _|done|done].
  - destruct decision; try done. pose proof (f_equal snd H) as Hs. cbn [snd] in Hs. rewrite <-Hs.
    apply held_fire; [|done]. intros k' ->.
    apply (check_accept env held_kept) in Hc as (x & w2 & Hk2 & Hwon); [|done|intros b g w0 H0; exact H0].
    eapply held_excludes; [done|by apply Hk2|done].
Qed.

Lemma held_deliver c : dedups (c_spec c) → keeps held_kept (deliver env c).
Proof.
  intros Hd. unfold deliver, ingest. destruct (ts_enabled (c_spec c)); simpl negb; cbv iota; [|apply keeps_raise, _].
  assert (∀ x w, held_kept w (with_ext x w)) as Hext by (intros x w H; exact H).
  apply keeps_bind; [apply _| |].
  { unfold fresh_or. destruct (c_event_id c) as [e|]; [destruct (bool_decide _)|]; try apply keeps_ret, _; by apply kept_draw. }
  intros eid. apply keeps_bind; [apply _|by apply kept_draw|]. intros now.
  apply keeps_bind; [apply _|apply keeps_gets, _|]. intros [r|]; [apply kept_decide, _|by apply held_process].
Qed.

(** A delivery accepted under the key wins it, so it did not run while the key
    was held, and leaves it held. *)
Lemma accepted_wins c (w w' : World X) d :
  dedups (c_spec c) → deliver env c w = (Ret d, w') → accepted_with (Ret d) = true → ¬ held w ∧ held w'.
Proof.
  intros Hd H [[Hid Hacc]%andb_true_iff Hkey]%andb_true_iff. apply bool_decide_eq_true in Hid, Hacc, Hkey.
  apply ingest_inv in H.
  destruct H as [| |? ? ? ? ? ? ? Hf|? ? ? ? decision ? ? ? ? ? ? Hd' ? ->|eid src k y x w2 _ _ Hc Hf]; [by subst..| | |].
  - by apply fail_inv in Hf as (-> & _).
  - simpl in Hacc. subst. by destruct decision.
  - apply fire_inv in Hf as [(reason & w1 & Hf & _)|(E & st & reason & z & Hst & Heid & ->)].
    { by apply fail_inv in Hf as (-> & _). }
    rewrite E in Hid, Hkey. simpl in Hid, Hkey. subst k.
    apply (check_accept env held_kept) in Hc as (x' & w1 & Hk2 & Hwon); [|intros x0 w0 H0; exact H0|intros b g w0 H0; exact H0].
    destruct (Hd Hid) as (dd & Hdd & _). split.
    + intros Hw. eapply (held_excludes (c_spec c) key x' w1); [done|by apply Hk2|done|by rewrite Hid].
    + assert (held w2) as [u Hu] by (by eapply winner_holds). by exists u.
Qed.

Lemma held_blocks calls (w : World X) os w' :
  Forall (λ c, dedups (c_spec c)) calls → held w → run_calls env calls w = (os, w') → List.filter accepted_with os = [].
Proof.
  intros Hd. revert w os. induction Hd as [|c calls Hc Hd IH]; intros w os Hw; simpl; [by intros [= <- <-]|].
  destruct (deliver env c w) as [o w1] eqn:Ho. destruct (run_calls env calls w1) as [os' w2] eqn:Hrun. intros [= <- <-].
  assert (held w1) as Hw1. { pose proof (held_deliver c Hc w Hw) as H. by rewrite Ho in H. }
  simpl. destruct (accepted_with o) eqn:Ha; [|by eapply IH]. destruct o as [d|]; [|done].
  destruct (accepted_wins c w w1 d Hc Ho Ha) as [Hn _]. done.
Qed.
End Claims.

(** One key, one run.  While the clock readings stay within one dedup window,
    at most one of any number of deliveries to a deduplicating trigger is
    accepted under a key, whatever else is delivered, fails or is replayed in
    between. *)
Theorem dedup_accepts_once {X} (env : Env X) id key window_minutes calls (w : World X) os w' :
  (∀ x y, (en_limiter_clock env x).1 - (en_limiter_clock env y).1 ≤ window_minutes * 60000000) →
  Forall (λ c, dedups id window_minutes (c_spec c)) calls → run_calls env calls w = (os, w') →
  (length (List.filter (accepted_with id key) os) ≤ 1)%nat.
Proof.
  intros Hs Hd. revert w os. induction Hd as [|c calls Hc Hd IH]; intros w os; simpl; [intros [= <- <-]; simpl; lia|].
  destruct (deliver env c w) as [o w1] eqn:Ho. destruct (run_calls env calls w1) as [os' w2] eqn:Hrun. intros [= <- <-].
  simpl. destruct (accepted_with id key o) eqn:Ha; [|by eapply IH]. destruct o as [d|]; [|done].
  destruct (accepted_wins env id key window_minutes Hs c w w1 d Hc Ho Ha) as [_ Hw1].
  simpl. erewrite (held_blocks env id key window_minutes Hs calls w1 os' w2); [simpl; lia|done..].
Qed.

(** *** Deliveries that fail, and deliveries held back *)


Section Failing.
Context {X : Type} (env : Env X).

Definition nonces_wf (w w' : World X) : Prop := od_wf (st_nonces (w_store w)) → od_wf (st_nonces (w_store w')).

#[local] Instance nonces_wf_preorder : PreOrder nonces_wf.
Proof. split; [intros w ?; done|intros a b c Hab Hbc ?; auto]. Qed.

Lemma claimed_nonces_wf spec k t : keeps nonces_wf (claimed (X := X) (en_sha256 env) spec k t).
Proof.
  unfold claimed. destruct (ts_dedup spec) as [dd|]; [|apply keeps_ret, _]. destruct k as [k|]; [|apply keeps_ret, _].
  intros w Hw. unfold on_store, claim_dedup.
  destruct (claim_nonce_cases (ts_id spec) (dedup_token (en_sha256 env) k) t (ds_window_minutes dd * 60) (w_store w))
    as [-> | [(? & _ & _ & ->)|[_ ->]]]; [done..|]. by apply od_wf_set.
Qed.


(** The limiter writes nothing but its buckets and claims. *)
Definition history_kept (w w' : World X) : Prop :=
  st_runs (w_store w') = st_runs (w_store w) ∧ st_events (w_store w') = st_events (w_store w).

#[local] Instance history_kept_preorder : PreOrder history_kept.
Proof. split; [done|]. intros a b c [H1 H2] [H3 H4]. split; congruence. Qed.

Lemma claimed_history spec k t : keeps history_kept (claimed (X := X) (en_sha256 env) spec k t).
Proof.
  unfold claimed. destruct (ts_dedup spec) as [dd|]; [|apply keeps_ret, _]. destruct k as [k|]; [|apply keeps_ret, _].
  intros w. unfold on_store, claim_dedup.
  destruct (claim_nonce_cases (ts_id spec) (dedup_token (en_sha256 env) k) t (ds_window_minutes dd * 60) (w_store w))
    as [-> | [(? & _ & _ & ->)|[_ ->]]]; done.
Qed.

Lemma check_history spec k ctx (w : World X) o w' :
  check (en_sha256 env) (en_limiter_clock env) spec k ctx w = (o, w') → history_kept w w' ∧ nonces_wf w w'.
Proof.
  intros H. replace w' with (check (en_sha256 env) (en_limiter_clock env) spec k ctx w).2 by (by rewrite H). split.
  - apply kept_check; [apply _|done|done|intros; apply claimed_history].
  - apply kept_check; [apply _|intros x w0 H0; exact H0|intros b g w0 H0; exact H0|intros; apply claimed_nonces_wf].
Qed.
End Failing.

(** What the decision that a delivery failed says: the payload is parked. *)
Lemma failed_decision_parked {X} (env : Env X) c (w : World X) d w' :
  deliver env c w = (Ret d, w') → td_outcome d = EVENT_FAILED → od_wf (st_nonces (w_store w)) →
  ∃ reason entry e, td_reason d = Some reason ∧ td_run_id d = None ∧
    get_dlq ("dlq-" +:+ td_event_id d) (c_ctx c) (w_store w') = Some entry ∧
    dq_payload entry = c_payload c ∧ dq_failure_reason entry = reason ∧ dq_replayed_at entry = None ∧
    od_get (td_event_id d) (st_events (w_store w')) = Some e ∧ te_outcome e = EVENT_FAILED ∧ te_payload e = c_payload c ∧
    find_run_by_event (ts_id (c_spec c)) (td_event_id d) (c_ctx c) (w_store w') = None ∧
    ∀ key, event_key env (c_spec c) (c_payload c) (c_key c) = inr (Some key) → ts_dedup (c_spec c) ≠ None →
      od_get (ts_id (c_spec c), dedup_token (en_sha256 env) key) (st_nonces (w_store w')) = None.
Proof.
  intros H Hf Hwf. apply ingest_inv in H.
  assert (∀ eid src reason k (w1 : World X), fail env (c_spec c) eid src (c_payload c) reason (c_ctx c) k w1 = (Ret d, w') →
    find_run_by_event (ts_id (c_spec c)) eid (c_ctx c) (w_store w1) = None → od_wf (st_nonces (w_store w1)) →
    (∀ key, event_key env (c_spec c) (c_payload c) (c_key c) = inr (Some key) → k = Some key) →
    ∃ reason entry e, td_reason d = Some reason ∧ td_run_id d = None ∧
    get_dlq ("dlq-" +:+ td_event_id d) (c_ctx c) (w_store w') = Some entry ∧
    dq_payload entry = c_payload c ∧ dq_failure_reason entry = reason ∧ dq_replayed_at entry = None ∧
    od_get (td_event_id d) (st_events (w_store w')) = Some e ∧ te_outcome e = EVENT_FAILED ∧ te_payload e = c_payload c ∧
    find_run_by_event (ts_id (c_spec c)) (td_event_id d) (c_ctx c) (w_store w') = None ∧
    ∀ key, event_key env (c_spec c) (c_payload c) (c_key c) = inr (Some key) → ts_dedup (c_spec c) ≠ None →
      od_get (ts_id (c_spec c), dedup_token (en_sha256 env) key) (st_nonces (w_store w')) = None) as Hpark.
  { intros eid src reason k w1 Hfail Hrun Hwf1 Hkey. apply fail_inv in Hfail as (-> & _ & x & now & ->). simpl.
    assert (scopes (c_ctx c) (tc_tenant_id (c_ctx c)) = true) as Hown.
    { unfold scopes. by rewrite bool_decide_eqb_refl, orb_true_r. }
    eexists reason, _, _. split; [done|]. split; [done|]. split.
    { unfold get_dlq. cbn [st_dlq set_dlq with_dlq dq_entry_id]. rewrite od_get_set_eq. cbn [dq_tenant_id]. by rewrite Hown. }
    do 3 (split; [done|]). split; [cbn [st_events set_events with_event set_dlq with_dlq te_event_id]; apply od_get_set_eq|].
    do 2 (split; [done|]). split.
    { unfold find_run_by_event in *. destruct (ts_dedup (c_spec c)), k; exact Hrun. }
    intros key Hk Hdd. rewrite (Hkey key Hk). destruct (ts_dedup (c_spec c)); [|done]. simpl. by apply od_get_del_eq. }
  destruct H as [| |? ? ? ? ? Hnone Hke Hfail|? ? ? ? decision ? ? ? ? ? ? Hd' ? ->|eid src k y x w2 Hnone Hke Hc Hfire].
  - by subst.
  - by subst.
  - eapply Hpark; [exact Hfail|exact Hnone|exact Hwf|]. intros key E. by rewrite Hke in E.
  - simpl in Hf. subst. by destruct decision.
  - apply check_history in Hc as [[Hruns _] Hwf2].
    apply fire_inv in Hfire as [(reason & w1 & Hfail & Hw1)|(E & _)]; [|by rewrite E in Hf].
    eapply Hpark; [exact Hfail| | |].
    + unfold find_run_by_event in *. rewrite Hw1. by rewrite Hruns.
    + rewrite Hw1. by apply Hwf2.
    + intros key E. rewrite Hke in E. by injection E.
Qed.

(** How an event that the limiter let through would fail, its payload being
    handed over in this state: the templates do not render, or the submitter
    answers with an exception, whose text is the reason. *)
Definition handover_failure {X} (env : Env X) (c : Call) (eid : string) (src : TriggerSource) (now : Z) (w : World X)
    : option string :=
  let spec := c_spec c in
  match rendered env spec (c_payload c) with
  | inl e => Some ("template: " +:+ e)
  | inr task =>
      if bool_decide (ts_admission_rule spec = DENY) then None
      else
        let context := if bool_decide (ts_admission_rule spec = STAGING_AUTO) then STAGING else PRODUCTION in
        match tt_kind (ts_target spec), en_pipeline_submit env with
        | PIPELINE, None => Some "pipeline submission is not configured"
        | PIPELINE, Some submit =>
            match (submit (tt_ref (ts_target spec)) task context (c_ctx c) (w_ext w)).1 with
            | Raise message => Some message
            | Ret _ => None
            end
        | WORKLOAD, _ =>
            match (submit_run env spec eid src task context now (c_ctx c) (w_ext w)).1 with
            | Raise (SubmitFailed message) => Some message
            | _ => None
            end
        end
  end.

(** The delivery of an event that has no run yet, on an enabled trigger and
    outside any freeze, fails for a reason: its dedup key cannot be rendered, or
    the limiter lets it through and the payload cannot be handed over. *)
Inductive fails {X} (env : Env X) (c : Call) (w : World X) (eid reason : string) : Prop :=
  | fails_at now w1 w2 w3 :
      ts_enabled (c_spec c) = true →
      fresh_or env (c_event_id c) w = (Ret eid, w1) →
      draw (en_clock env) w1 = (Ret now, w2) →
      find_run_by_event (ts_id (c_spec c)) eid (c_ctx c) (w_store w2) = None →
      freeze_reason env (c_spec c) (c_ctx c) w2 = (Ret None, w3) →
      match event_key env (c_spec c) (c_payload c) (c_key c) with
      | inl e => reason = "dedup key: " +:+ e
      | inr key => ∃ w4,
          check (en_sha256 env) (en_limiter_clock env) (c_spec c) key (c_ctx c) w3 = (Ret ACCEPT, w4) ∧
          handover_failure env c eid (default (ts_source (c_spec c)) (c_source c)) now w4 = Some reason
      end →
      fails env c w eid reason.

(** The audit log, when there is one, does not raise. *)
Definition audit_returns {X} (env : Env X) : Prop :=
  ∀ f, en_audit env = Some f → ∀ actor action subject detail ctx x, (f actor action subject detail ctx x).1 = Ret tt.

(** The texts fit the fields of a dead letter, whose own id is the event's with
    a prefix of four characters. *)
Definition parkable (c : Call) (eid reason : string) : bool :=
  between 1 124 eid && between 1 64 (ts_id (c_spec c)) && between 1 64 (tc_tenant_id (c_ctx c)) && between 1 2000 reason.

Section Parked.
Context {X : Type} (env : Env X).
Hypothesis Haudit : audit_returns env.

(** Operations that return in every state. *)
Definition returns {A} (m : M (World X) TriggerExn A) : Prop := ∀ w, ∃ a w', m w = (Ret a, w').

Lemma returns_bind {A B} (m : M (World X) TriggerExn A) (k : A → M (World X) TriggerExn B) :
  returns m → (∀ a, returns (k a)) → returns (bind m k).
Proof. intros Hm Hk w. destruct (Hm w) as (a & w' & H). rewrite (bind_run _ _ _ _ _ H). apply Hk. Qed.

Lemma returns_ret {A} (a : A) : returns (ret a).
Proof. intros w. by exists a, w. Qed.

Lemma returns_draw {A} (f : X → A * X) : returns (draw f).
Proof. intros w. unfold draw. destruct (f (w_ext w)) as [a x]. by eexists _, _. Qed.

Lemma returns_validated b : b = true → returns (validated (X := X) b).
Proof. intros ->. apply returns_ret. Qed.

Lemma returns_store (m : Store → Store) ctx :
  returns (on_store (require TriggerScopeError ctx (tc_tenant_id ctx) ;;; modify m)).
Proof.
  intros w. unfold on_store, require, bind, scopes. rewrite bool_decide_eqb_refl, orb_true_r. by eexists _, _.
Qed.

Lemma returns_audit actor action subject detail ctx : returns (audit_append env actor action subject detail ctx).
Proof.
  unfold audit_append. destruct (en_audit env) as [f|] eqn:Hf; [|apply returns_ret]. intros w.
  unfold on_ext. pose proof (Haudit f Hf actor action subject detail ctx (w_ext w)) as Hr.
  destruct (f _ _ _ _ _ _) as [o x]. simpl in Hr. subst o. by eexists _, _.
Qed.

Lemma returns_release spec key : returns (limiter_release (en_sha256 env) spec key).
Proof. intros w. unfold limiter_release, modify. destruct (ts_dedup spec), key; by eexists _, _. Qed.

Lemma between_iff lo hi t : between lo hi t = true ↔ (lo ≤ chars t ≤ hi)%nat.
Proof. unfold between. by rewrite andb_true_iff, !Nat.leb_le. Qed.

Lemma fail_run c eid src reason key (w : World X) : parkable c eid reason = true →
  ∃ w', fail env (c_spec c) eid src (c_payload c) reason (c_ctx c) key w
        = (Ret (mkDecision (ts_id (c_spec c)) eid EVENT_FAILED None None (Some reason) None), w').
Proof.
  intros [[[He Ht]%andb_true_iff Hn]%andb_true_iff Hr]%andb_true_iff.
  assert (between 1 128 eid = true ∧ between 1 128 ("dlq-" +:+ eid) = true ∧ between 0 2000 reason = true) as (H1 & H2 & H3).
  { rewrite between_iff in *. rewrite !between_iff, chars_app. simpl. lia. }
  enough (returns (fail env (c_spec c) eid src (c_payload c) reason (c_ctx c) key)) as Hret.
  { destruct (Hret w) as (d & w' & H). exists w'. rewrite H. by apply fail_inv in H as [-> _]. }
  repeat first [apply returns_release|apply returns_draw|apply returns_audit|apply returns_store|apply returns_ret
    |apply returns_bind; [|intros ?]|apply returns_validated].
  - unfold event_valid. simpl. by rewrite H1, Ht, Hn, H3.
  - unfold dlq_valid. cbn [dq_entry_id dq_trigger_id dq_event_id dq_tenant_id dq_failure_reason dq_attempts].
    by rewrite H2, Ht, H1, Hn, Hr.
  - simpl. by rewrite H3.
Qed.

Lemma fire_fails c eid src now key (w : World X) reason :
  parkable c eid reason = true → handover_failure env c eid src now w = Some reason →
  ∃ w', fire env (c_spec c) eid src (c_payload c) key now (c_ctx c) w
        = (Ret (mkDecision (ts_id (c_spec c)) eid EVENT_FAILED None None (Some reason) None), w').
Proof.
  intros Hp. unfold handover_failure, fire. destruct (rendered env _ _) as [e|task]; [intros [= <-]; by apply fail_run|].
  case_bool_decide as Hd; [done|]. intros H.
  assert (∀ context, (if bool_decide (ts_admission_rule (c_spec c) = STAGING_AUTO) then STAGING else PRODUCTION) = context →
    ∃ w', match tt_kind (ts_target (c_spec c)) with
          | PIPELINE => hand_to_pipeline env (c_spec c) eid src (c_payload c) task key context now (c_ctx c)
          | WORKLOAD => hand_to_runs env (c_spec c) eid src (c_payload c) task key context now (c_ctx c) end w
        = (Ret (mkDecision (ts_id (c_spec c)) eid EVENT_FAILED None None (Some reason) None), w')) as Hgo.
  { intros context Hc. rewrite Hc in H. destruct (tt_kind (ts_target (c_spec c))).
    - unfold hand_to_runs, bind, attempt. destruct (submit_run _ _ _ _ _ _ _ _ _) as [[run|[checks refused|m]] x]; try done.
      simpl in H. injection H as ->. by apply fail_run.
    - unfold hand_to_pipeline. destruct (en_pipeline_submit env) as [submit|]; [|injection H as <-; by apply fail_run].
      unfold bind, attempt. destruct (submit _ _ _ _ _) as [[run|m] x]; [done|]. simpl in H. injection H as ->. by apply fail_run. }
  destruct (ts_admission_rule (c_spec c)); try done; by apply Hgo.
Qed.

Lemma fails_decides c (w : World X) eid reason :
  parkable c eid reason = true → fails env c w eid reason →
  ∃ w', deliver env c w = (Ret (mkDecision (ts_id (c_spec c)) eid EVENT_FAILED None None (Some reason) None), w').
Proof.
  intros Hp [now w1 w2 w3 Hen Hid Hnow Hnone Hfree Hk]. unfold deliver, ingest. rewrite Hen. cbn [negb].
  rewrite (bind_run _ _ _ _ _ Hid), (bind_run _ _ _ _ _ Hnow). unfold bind at 1, gets. rewrite Hnone.
  unfold process. rewrite (bind_run _ _ _ _ _ Hfree). unfold evaluate.
  destruct (event_key _ _ _ _) as [e|key]; [subst reason; by apply fail_run|].
  destruct Hk as (w4 & Hc & Hf). rewrite (bind_run _ _ _ _ _ Hc). by apply fire_fails.
Qed.
End Parked.

(** C37: A delivery that fails is parked, not lost: when the event of an enabled
    trigger has no run yet, no freeze is on, and its dedup key cannot be rendered,
    or the limiter lets it through and then the task cannot be rendered or the run
    service or the pipelines raise (anything but a refused admission, which blocks
    the event instead), the delivery returns the decision that it failed with the
    failure's text as its reason, the event is on record, the payload waits in the
    dead letters under the event's id, no run is on record for it, and the dedup
    key it had claimed is free again, so a replay is not swallowed as a duplicate.
    This is for failures a dead letter can hold, whose text has 1 to 2000
    characters, for event ids of 1 to 124 characters and trigger and tenant ids of
    1 to 64, and for an audit log that does not raise: a failure without a text
    raises instead and its payload is lost ([Demo.empty_message_stops_tick]). *)
Theorem failed_delivery_parked {X} (env : Env X) c (w : World X) eid reason :
  audit_returns env → od_wf (st_nonces (w_store w)) → fails env c w eid reason → parkable c eid reason = true →
  ∃ w' entry e,
    deliver env c w = (Ret (mkDecision (ts_id (c_spec c)) eid EVENT_FAILED None None (Some reason) None), w') ∧
    get_dlq ("dlq-" +:+ eid) (c_ctx c) (w_store w') = Some entry ∧
    dq_payload entry = c_payload c ∧ dq_failure_reason entry = reason ∧ dq_replayed_at entry = None ∧
    od_get eid (st_events (w_store w')) = Some e ∧ te_outcome e = EVENT_FAILED ∧ te_payload e = c_payload c ∧
    find_run_by_event (ts_id (c_spec c)) eid (c_ctx c) (w_store w') = None ∧
    ∀ key, event_key env (c_spec c) (c_payload c) (c_key c) = inr (Some key) → ts_dedup (c_spec c) ≠ None →
      od_get (ts_id (c_spec c), dedup_token (en_sha256 env) key) (st_nonces (w_store w')) = None.
Proof.
  intros Ha Hwf Hf Hp. destruct (fails_decides env Ha c w eid reason Hp Hf) as [w' H]. exists w'.
  destruct (failed_decision_parked env c w _ w' H eq_refl Hwf) as (r & entry & e & Hr & _ & H1 & H2 & H3 & Hrest).
  exists entry, e. injection Hr as <-. simpl in *. tauto.
Qed.

(** A delivery the rate limit turned away cannot be retried: it is recorded
    under its key, so for one window the retry counts as a duplicate. *)
Theorem rate_rejection_blocks_retry {X} (env : Env X) c (w : World X) d w1 key dd c' d' w2 :
  deliver env c w = (Ret d, w1) → td_outcome d = REJECTED_RATE → td_dedup_key d = Some key →
  ts_id (c_spec c') = ts_id (c_spec c) → ts_dedup (c_spec c') = Some dd →
  event_key env (c_spec c') (c_payload c') (c_key c') = inr (Some key) →
  scopes (c_ctx c') (tc_tenant_id (c_ctx c)) = true →
  (∀ x y, (en_limiter_clock env x).1 - (en_clock env y).1 ≤ ds_window_minutes dd * 60000000) →
  deliver env c' w1 = (Ret d', w2) → td_outcome d' = DEDUPLICATED ∨ td_outcome d' = SUPPRESSED_FREEZE.
Proof.
  intros H Hrate Hkey Hid Hdd Hke' Hsc Hwin H'. apply ingest_inv in H.
  assert (∃ e, e ∈ od_values (st_events (w_store w1)) ∧ te_trigger_id e = ts_id (c_spec c) ∧
    te_tenant_id e = tc_tenant_id (c_ctx c) ∧ te_dedup_key e = Some key ∧ ∃ y, te_received_at e = (en_clock env y).1)
    as (e & He & Hti & Hte & Hk & y & Ht).
  { destruct H as [| |? ? ? ? ? Hnone Hke Hfail|eid src k y decision o x x' w3 Hke Hc Ho -> ->|? ? ? ? ? ? ? ? ? Hfire];
      [by subst..| | |].
    - by apply fail_inv in Hfail as (-> & _).
    - simpl in Hkey. subst k. exists (event_of c eid src (Some key) (en_clock env y).1 o (limit_reason decision)).
      split; [apply (od_get_value eid), od_get_set_eq|]. do 3 (split; [done|]). by exists y.
    - apply fire_inv in Hfire as [(reason & w3 & Hfail & _)|(E & _)].
      + by apply fail_inv in Hfail as (-> & _).
      + by rewrite E in Hrate. }
  apply ingest_inv in H'.
  assert (∀ x decision w3, check (en_sha256 env) (en_limiter_clock env) (c_spec c') (Some key) (c_ctx c') (with_ext x w1)
    = (Ret decision, w3) → decision = LIM_DEDUPLICATED) as Hdup.
  { intros x decision w3 Hc. unfold check in Hc. apply bind_inv in Hc as (now & w4 & (x2 & [= ->] & ->)%draw_inv & Hc).
    apply bind_inv in Hc as (dup & w5 & Hs & Hc). unfold seen_before in Hs. rewrite Hdd in Hs.
    apply bind_inv in Hs as (since & w6 & Hb & Hs). unfold before in Hb. destruct (dt_in_range _); [|done]. injection Hb as <- <-.
    injection Hs as <- <-. destruct (find_dedup_event _ _ _ _ _) as [e'|] eqn:Hfind; [by injection Hc|]. exfalso.
    unfold find_dedup_event, latest_event in Hfind.
    match type of Hfind with py_best ?b ?l = None => destruct (py_best_is_Some b l) as [? E] end; [|by rewrite E in Hfind].
    apply (elem_of_not_nil e). apply list_elem_of_filter. split; [done|]. unfold visible_events. apply list_elem_of_filter.
    split; [|exact He]. rewrite Hti, Hte, Hsc, Hid. unfold opt_is. rewrite bool_decide_eqb_refl. simpl.
    pose proof (Hwin (w_ext (with_ext x w1)) y). apply Is_true_true, Z.leb_le. rewrite Ht. simpl in *. lia. }
  destruct H' as [| |? ? ? ? ? Hnone Hke Hfail|eid src k y' decision o x x' w3 Hke Hc Ho -> ->|eid src k y' x w3 Hnone Hke Hc Hfire].
  - subst. by left.
  - subst. by right.
  - by rewrite Hke' in Hke.
  - rewrite Hke' in Hke. injection Hke as <-. rewrite (Hdup _ _ _ Hc) in Ho. injection Ho as <-. by left.
  - rewrite Hke' in Hke. injection Hke as <-. by specialize (Hdup _ _ _ Hc).
Qed.

(** ** Concrete deliveries *)
Module Demo.

(** The outer world counts identifiers and lists the submitted event ids. *)
Definition X : Type := nat * list string.

Definition submit (workload caller : string) (context : AdmissionContext) (task : odict string JsonValue) (origin : TriggerOrigin)
    (gated : bool) (ctx : TenantContext) (x : X) : outcome SubmitExn string * X :=
  if bool_decide (workload = "broken") then (Raise (SubmitFailed "worker gone"), x)
  else if bool_decide (workload = "uncertified") then (Raise (Refused [("certification", false)] (Some "no certificate")), x)
  else (Ret ("run-" +:+ to_event_id origin), (x.1, x.2 ++ [to_event_id origin])).

Definition env : Env X := {|
  en_submit := submit; en_pipeline_submit := None;
  en_clock := λ x, (1700000000000000, x); en_limiter_clock := λ x, (1700000000000000, x);
  en_new_id := λ x, ("ev-" +:+ pretty x.1, (S x.1, x.2)); en_audit := None; en_freeze_check := None;
  en_sha256 := id; en_float_str := λ _, EmptyString; en_float_json := λ _, EmptyString |}.

Definition spec (workload : string) (rate : option RateLimitSpec) : TriggerSpec :=
  mkSpec "t1" "acme" WEBHOOK (mkTarget WORKLOAD workload) (mkFilter [] [] None None) [("n", "{{ event.number }}")]
    (Some (mkDedup (Some "{{ event.sha }}") 30)) 0 rate GATED "UTC" None MISSED_SKIP None 8192 65536 true None.

Definition ctx : TenantContext := context_for_run "acme" None None.
Definition event (sha : string) : odict string JsonValue := [("number", JInt 7); ("sha", JStr sha)].
Definition call (workload : string) (rate : option RateLimitSpec) (eid sha : string) : Call :=
  mkCall (spec workload rate) (event sha) (Some eid) None None ctx.
Definition start : World X := mkWorld empty_store [] (new_bucket 600 0 0) (O, []).

Example valid : spec_valid (λ _, true) (spec "w" None) = true.
Proof. vm_compute. reflexivity. Qed.

Definition first : World X := (deliver env (call "w" None "e1" "abc") start).2.
Definition second : World X := (run_calls env [call "w" None "e2" "abc"; call "broken" None "e3" "xyz"] first).2.

Example accepted :
  (deliver env (call "w" None "e1" "abc") start).1 = Ret (mkDecision "t1" "e1" ACCEPTED (Some "run-e1") (Some SUBMITTED) None (Some "abc"))
  ∧ (w_ext second).2 = ["e1"].
Proof. vm_compute. done. Qed.

Example blocked_uncertified :
  (deliver env (call "uncertified" None "e1" "abc") start).1
  = Ret (mkDecision "t1" "e1" ACCEPTED None (Some BLOCKED_CERT) (Some "no certificate") (Some "abc")).
Proof. vm_compute. reflexivity. Qed.

(** A dedup key over 512 characters: the run was submitted, but recording the
    event raises, so no row links the trigger to it. *)
Definition long_key : string := String.string_of_list_ascii (replicate 513 "a"%char).
Example long_key_loses_run :
  let '(o, w) := deliver env (call "w" None "e1" long_key) start in
  o = Raise TriggerValidationError ∧ (w_ext w).2 = ["e1"] ∧ st_runs (w_store w) = [] ∧ st_events (w_store w) = [].
Proof. vm_compute. done. Qed.

(** An event id that fits an event but, prefixed, no dead letter: the failure is
    on record, its payload is not parked. *)
Definition long_id : string := String.string_of_list_ascii (replicate 125 "e"%char).
Example long_id_not_parked :
  let '(o, w) := deliver env (call "broken" None long_id "abc") start in
  o = Raise TriggerValidationError ∧ st_dlq (w_store w) = [] ∧ length (st_events (w_store w)) = 1%nat.
Proof. vm_compute. done. Qed.

(** A submitter that fails without a message cannot be parked: a dead letter
    wants a reason, so the failure escapes, the tick stops, and the second
    trigger is not fired. *)
Definition mute (workload caller : string) (context : AdmissionContext) (task : odict string JsonValue) (origin : TriggerOrigin)
    (gated : bool) (ctx : TenantContext) (x : X) : outcome SubmitExn string * X :=
  if bool_decide (workload = "mute") then (Raise (SubmitFailed EmptyString), x) else submit workload caller context task origin gated ctx x.
Definition mute_env : Env X := {|
  en_submit := mute; en_pipeline_submit := None; en_clock := en_clock env; en_limiter_clock := en_limiter_clock env;
  en_new_id := en_new_id env; en_audit := None; en_freeze_check := None; en_sha256 := id;
  en_float_str := en_float_str env; en_float_json := en_float_json env |}.
Definition cron_spec (name workload : string) : TriggerSpec :=
  mkSpec name "acme" CRON (mkTarget WORKLOAD workload) (mkFilter [] [] None None) [] None 0 None GATED "UTC" (Some "* * * * *")
    MISSED_CATCH_UP None 8192 65536 true None.
Definition cron_world (first_workload : string) : World X :=
  with_store (set_triggers [("a", (cron_spec "a" first_workload, "acme")); ("b", (cron_spec "b" "w", "acme"))] empty_store) start.
Definition run_tick (w : World X) : outcome TriggerExn (list TriggerDecision) * World X :=
  tick mute_env (λ _, mkZone id id) (λ _, "then") (λ x, (1700000000000000, x)) (λ x, (1700000000000000, x)) (λ x, ("watch-1", x))
    (λ _ x, (0, x)) 60 10 SYSTEM_CONTEXT w.
Example empty_message_stops_tick :
  (run_tick (cron_world "mute")).1 = Raise TriggerValidationError ∧ (w_ext (run_tick (cron_world "mute")).2).2 = [] ∧
  (w_ext (run_tick (cron_world "w")).2).2 = ["ev-0"; "ev-1"].
Proof. vm_compute. done. Qed.

(** A bucket of one token a minute, spent. *)
Definition slow : option RateLimitSpec := Some (mkRate 1 0).
Definition spent : World X := (deliver env (call "w" slow "e1" "abc") start).2.
Definition turned_away : World X := (deliver env (call "w" slow "e2" "xyz") spent).2.
End Demo.

Lemma event_fires_once_witness :
  ∃ w3, deliver Demo.env (Demo.call "w" None "e1" "other") Demo.second =
      (Ret (mkDecision "t1" "e1" DEDUPLICATED (Some "run-e1") (Some SUBMITTED) (Some "duplicate event id") None), w3) ∧
    w_store w3 = w_store Demo.second ∧ w_buckets w3 = w_buckets Demo.second ∧ w_global w3 = w_global Demo.second.
Proof.
  apply (event_fires_once Demo.env (Demo.call "w" None "e1" "abc") Demo.start
    (mkDecision "t1" "e1" ACCEPTED (Some "run-e1") (Some SUBMITTED) None (Some "abc")) Demo.first
    [Demo.call "w" None "e2" "abc"; Demo.call "broken" None "e3" "xyz"]
    (run_calls Demo.env [Demo.call "w" None "e2" "abc"; Demo.call "broken" None "e3" "xyz"] Demo.first).1);
    [vm_compute; reflexivity|reflexivity|repeat constructor|apply surjective_pairing|reflexivity|reflexivity|reflexivity].
Defined.

Lemma dedup_accepts_once_witness :
  let calls := [Demo.call "w" None "e1" "abc"; Demo.call "w" None "e2" "abc"; Demo.call "broken" None "e3" "abc"] in
  (length (List.filter (accepted_with "t1" "abc") (run_calls Demo.env calls Demo.start).1) ≤ 1)%nat ∧
  List.filter (accepted_with "t1" "abc") (run_calls Demo.env calls Demo.start).1 ≠ [].
Proof.
  intros calls. split; [|vm_compute; done].
  apply (dedup_accepts_once Demo.env "t1" "abc" 30 calls Demo.start _ (run_calls Demo.env calls Demo.start).2);
    [|repeat constructor; intros _; by eexists|apply surjective_pairing].
  intros x y. simpl. lia.
Defined.

Lemma failed_delivery_parked_witness :
  ∃ w' entry, (deliver Demo.env (Demo.call "broken" None "e1" "abc") Demo.start).2 = w' ∧
    get_dlq "dlq-e1" Demo.ctx (w_store w') = Some entry ∧ dq_payload entry = Demo.event "abc" ∧
    dq_failure_reason entry = "worker gone".
Proof.
  destruct (failed_delivery_parked Demo.env (Demo.call "broken" None "e1" "abc") Demo.start "e1" "worker gone")
    as (w' & entry & e & H & Hd & Hp & Hr & _).
  - by intros f [=].
  - apply od_wf_nil.
  - eapply fails_at; [reflexivity|reflexivity|reflexivity|reflexivity|reflexivity|]. vm_compute. by eexists.
  - vm_compute. reflexivity.
  - exists w', entry. split_and!; [by rewrite H|exact Hd|exact Hp|exact Hr].
Defined.

Lemma rate_rejection_blocks_retry_witness :
  let '(o, w) := deliver Demo.env (Demo.call "w" None "e3" "xyz") Demo.turned_away in
  ∃ d, o = Ret d ∧ (td_outcome d = DEDUPLICATED ∨ td_outcome d = SUPPRESSED_FREEZE).
Proof.
  destruct (deliver Demo.env (Demo.call "w" None "e3" "xyz") Demo.turned_away) as [o w] eqn:E.
  assert (o = Ret (mkDecision "t1" "e3" DEDUPLICATED None None (limit_reason LIM_DEDUPLICATED) (Some "xyz"))) as ->.
  { replace o with (deliver Demo.env (Demo.call "w" None "e3" "xyz") Demo.turned_away).1 by (by rewrite E). vm_compute. reflexivity. }
  eexists. split; [reflexivity|].
  apply (rate_rejection_blocks_retry Demo.env (Demo.call "w" Demo.slow "e2" "xyz") Demo.spent
    (mkDecision "t1" "e2" REJECTED_RATE None None (limit_reason LIM_REJECTED_RATE) (Some "xyz")) Demo.turned_away "xyz"
    (mkDedup (Some "{{ event.sha }}") 30) (Demo.call "w" None "e3" "xyz") _ w);
    [vm_compute; reflexivity|reflexivity|reflexivity|reflexivity|reflexivity|vm_compute; reflexivity|reflexivity| |exact E].
  intros x y. simpl. lia.
Defined.
