(* ===== verification/TriggerIngest.v ===== *)
(** * Webhooks, provider deliveries and freezes ([triggers/ingest.py],
    [triggers/sources.py], [triggers/freeze.py])

    Signature, timestamp and nonce checks of a webhook; the GitHub and
    Alertmanager parsers; the freeze windows that suppress triggers and drain
    running work.  HMAC and the JSON parser are parameters. *)

From Stdlib Require Import Ascii.
From stdpp Require Import base strings pretty numbers sorting relations sets list.
From S2P Require Import Prelude Text Float64 Tenancy CoreModels Admission Templates Triggers TriggerEngine TriggerHistory.
Open Scope Z_scope.
Open Scope hp_scope.

(** ** Webhooks *)

Record WebhookRequest := mkRequest { wr_signature : string; wr_timestamp : string; wr_nonce : string; wr_body : string }.

Inductive IngestExn :=
  | SignatureError
  | TimestampError
  | ReplayError
  | IngestTypeError
  | IngestOverflowError
  | IngestValueError
  | IngestStoreError (e : TriggerExn).

Definition is_ascii (s : string) : bool := all_chars (λ c, (nat_of_ascii c <? 128)%nat) s.

Section Webhook.
Context {X : Type}.
Variable hmac_hex : string → string → string.
Variable clock : X → Z * X.
Variable audit : option (string → string → TenantContext → X → outcome IngestExn unit * X).
Variables (skew_seconds replay_window_seconds : Z).

Abbreviation IM := (M (World X) IngestExn).

(** [sign_webhook] *)
Definition sign_webhook (secret : string) (timestamp : Z) (nonce body : string) : string :=
  hmac_hex secret (pretty timestamp +:+ "." +:+ nonce +:+ "." +:+ body).

(** [hmac.compare_digest] of two texts refuses text beyond ASCII. *)
Definition compare_digest (expected provided : string) : outcome IngestExn bool :=
  if is_ascii provided && is_ascii expected then Ret (bool_decide (expected = provided)) else Raise IngestTypeError.

(** The signature without its scheme prefix. *)
Definition provided_signature (value : string) : string :=
  if bool_decide (value = EmptyString) then EmptyString else after_first "="%char value.

Definition of_outcome {A} (o : outcome IngestExn A) : IM A := λ w, (o, w).

Definition ticks : IM Z := λ w, let '(t, x) := clock (w_ext w) in (Ret t, with_ext x w).

(** [_reject] *)
Definition reject (trigger_id reason detail : string) (ctx : TenantContext) : IM unit :=
  match audit with
  | Some f => λ w, let '(o, x) := f trigger_id (reason +:+ ": " +:+ detail) ctx (w_ext w) in (o, with_ext x w)
  | None => ret tt
  end.

(** [_parse_timestamp] *)
Definition parse_timestamp (trigger_id : string) (request : WebhookRequest) (now : Z) (ctx : TenantContext) : IM Z :=
  match py_int (wr_timestamp request) with
  | None => reject trigger_id "timestamp" "non-numeric timestamp" ctx ;;; raise TimestampError
  | Some timestamp =>
      let t := f64_of_Z timestamp in
      if negb (f64_is_finite t) then raise IngestOverflowError
      else if negb (f64_leb_Z (f64_abs (f64_sub (seconds_of now) t)) skew_seconds) then
        reject trigger_id "timestamp" ("timestamp " +:+ pretty timestamp +:+ " outside " +:+ pretty skew_seconds +:+ "s skew") ctx ;;;
        raise TimestampError
      else ret timestamp
  end.

(** [_check_signature] *)
Definition check_signature (trigger_id : string) (request : WebhookRequest) (secret : string) (timestamp : Z)
    (ctx : TenantContext) : IM unit :=
  let provided := provided_signature (wr_signature request) in
  let expected := sign_webhook secret timestamp (wr_nonce request) (wr_body request) in
  let* good := if bool_decide (provided = EmptyString) then ret false else of_outcome (compare_digest expected provided) in
  if good : bool then ret tt else reject trigger_id "bad_signature" "signature mismatch" ctx ;;; raise SignatureError.

Definition on_nonces {A} (m : StoreM A) : IM A :=
  λ w, let '(o, s) := m (w_store w) in
       (match o with Ret a => Ret a | Raise e => Raise (IngestStoreError e) end, with_store s w).

(** The span a nonce is remembered for. *)
Definition nonce_window : Z := Z.max replay_window_seconds (2 * skew_seconds).

(** [WebhookVerifier.verify] *)
Definition verify (trigger_id : string) (request : WebhookRequest) (secret : string) (ctx : TenantContext) : IM unit :=
  let* now := ticks in
  let* timestamp := parse_timestamp trigger_id request now ctx in
  check_signature trigger_id request secret timestamp ctx ;;;
  let* fresh := on_nonces (claim_nonce trigger_id (wr_nonce request) now nonce_window) in
  if fresh : bool then ret tt
  else reject trigger_id "replay" ("nonce " +:+ py_repr (wr_nonce request) +:+ " already seen") ctx ;;; raise ReplayError.

(** *** No delivery is accepted twice *)

Record Delivery := mkDelivery { dl_trigger : string; dl_request : WebhookRequest; dl_secret : string; dl_ctx : TenantContext }.

Fixpoint verify_all (l : list Delivery) (w : World X) : list (outcome IngestExn unit) * World X :=
  match l with
  | [] => ([], w)
  | d :: l' =>
      let '(o, w') := verify (dl_trigger d) (dl_request d) (dl_secret d) (dl_ctx d) w in
      let '(os, w'') := verify_all l' w' in (o :: os, w'')
  end.

(** The deliveries of one nonce to one trigger that were accepted. *)
Definition accepted_nonce (tid nonce : string) (e : Delivery * outcome IngestExn unit) : bool :=
  bool_decide (dl_trigger e.1 = tid) && bool_decide (wr_nonce (dl_request e.1) = nonce) && outcome_ok e.2.

Section Replays.
Context (tid nonce : string).
Hypothesis Hspread : ∀ x y, (clock x).1 - (clock y).1 ≤ nonce_window * 1000000.

Definition seen (w : World X) : Prop := ∃ x, od_get (tid, nonce) (st_nonces (w_store w)) = Some (clock x).1.
Definition seen_kept (w w' : World X) : Prop := seen w → seen w'.
#[local] Instance seen_kept_preorder : PreOrder seen_kept.
Proof. split; [intros w ?; done|intros a b c Hab Hbc ?; auto]. Qed.

Definition store_same (w w' : World X) : Prop := w_store w' = w_store w.
#[local] Instance store_same_preorder : PreOrder store_same.
Proof. unfold store_same. split; [done|]. intros a b c ? ?. congruence. Qed.

Lemma reject_same i r d ctx : keeps store_same (reject i r d ctx).
Proof. unfold reject. destruct audit as [f|]; [|apply keeps_ret, _]. intros w. by destruct (f _ _ _ _). Qed.

Lemma parse_same i rq now ctx : keeps store_same (parse_timestamp i rq now ctx).
Proof.
  unfold parse_timestamp. destruct (py_int _); [destruct (f64_is_finite _); simpl; [destruct (f64_leb_Z _ _); simpl|]|];
    try apply keeps_ret, _; try apply keeps_raise, _; (apply keeps_bind; [apply _|apply reject_same|intros; apply keeps_raise, _]).
Qed.

Lemma signature_same i rq s t ctx : keeps store_same (check_signature i rq s t ctx).
Proof.
  unfold check_signature. apply keeps_bind; [apply _|destruct (bool_decide _); [apply keeps_ret, _|by intros w]|].
  intros []; [apply keeps_ret, _|]. apply keeps_bind; [apply _|apply reject_same|intros; apply keeps_raise, _].
Qed.

(** A verification up to its claim changes nothing in the store. *)
Lemma verify_cases d w o w' :
  verify (dl_trigger d) (dl_request d) (dl_secret d) (dl_ctx d) w = (o, w') →
  (outcome_ok o = false ∧ w_store w' = w_store w) ∨
  (∃ x, claim_nonce (dl_trigger d) (wr_nonce (dl_request d)) (clock x).1 nonce_window (w_store w)
       = (Ret true, w_store w') ∧ o = Ret tt).
Proof.
  unfold verify. intros H. unfold bind at 1, ticks in H. destruct (clock (w_ext w)) as [now x] eqn:Hnow.
  assert (now = (clock (w_ext w)).1) as En by (by rewrite Hnow).
  pose proof (parse_same (dl_trigger d) (dl_request d) now (dl_ctx d) (with_ext x w)) as Hp.
  unfold bind at 1 in H. destruct (parse_timestamp _ _ _ _ _) as [[t|e] w1]; [|injection H as <- <-; by left].
  pose proof (signature_same (dl_trigger d) (dl_request d) (dl_secret d) t (dl_ctx d) w1) as Hs.
  unfold bind at 1 in H. destruct (check_signature _ _ _ _ _ _) as [[[]|e] w2];
    [|injection H as <- <-; left; split; [done|]; unfold store_same in *; simpl in *; congruence].
  assert (w_store w2 = w_store w) as E2 by (unfold store_same in *; simpl in *; congruence).
  unfold bind at 1, on_nonces in H. rewrite E2, En in H.
  destruct (claim_nonce_cases (dl_trigger d) (wr_nonce (dl_request d)) (clock (w_ext w)).1 nonce_window (w_store w))
    as [Hc|[(t0 & _ & _ & Hc)|[_ Hc]]]; rewrite Hc in H; cbv iota in H.
  - injection H as <- <-. by left.
  - left. match type of H with bind ?m _ ?w0 = _ => pose proof (reject_same (dl_trigger d) "replay"
      ("nonce " +:+ py_repr (wr_nonce (dl_request d)) +:+ " already seen") (dl_ctx d) w0) as Hr end.
    unfold bind in H. destruct (reject _ _ _ _ _) as [[[]|e] w3]; injection H as <- <-; split; done.
  - injection H as <- <-. right. exists (w_ext w). split; [exact Hc|done].
Qed.

Lemma seen_verify d : keeps seen_kept (verify (dl_trigger d) (dl_request d) (dl_secret d) (dl_ctx d)).
Proof.
  intros w [y Hy]. destruct (verify _ _ _ _ w) as [o w'] eqn:E. apply verify_cases in E as [[_ E]|(x & Hc & _)].
  - exists y. simpl. by rewrite E.
  - simpl. destruct (claim_nonce_cases (dl_trigger d) (wr_nonce (dl_request d)) (clock x).1 nonce_window (w_store w))
      as [E|[(t0 & _ & _ & E)|[_ E]]]; rewrite E in Hc; try done. injection Hc as Hw'.
    destruct (decide ((tid, nonce) = (dl_trigger d, wr_nonce (dl_request d)))) as [Ek|Hne].
    + exists x. rewrite <-Hw'. simpl. by rewrite Ek, od_get_set_eq.
    + exists y. rewrite <-Hw'. simpl. by rewrite od_get_set_ne.
Qed.

Lemma accepted_claims d o w w' :
  verify (dl_trigger d) (dl_request d) (dl_secret d) (dl_ctx d) w = (o, w') → accepted_nonce tid nonce (d, o) = true →
  ¬ seen w ∧ seen w'.
Proof.
  intros E [[Ht%bool_decide_eq_true Hn%bool_decide_eq_true]%andb_true_iff Ho]%andb_true_iff. simpl in Ht, Hn, Ho. unfold seen. rewrite <-Ht, <-Hn.
  apply verify_cases in E as [[E _]|(x & Hc & _)]; [congruence|].
  destruct (claim_nonce_cases (dl_trigger d) (wr_nonce (dl_request d)) (clock x).1 nonce_window (w_store w))
    as [E|[(t0 & _ & _ & E)|[Hlt E]]]; rewrite E in Hc; try done. injection Hc as Hw'. split.
  - intros [y Hy]. pose proof (Hspread x y). specialize (Hlt _ Hy). lia.
  - exists x. rewrite <-Hw'. simpl. apply od_get_set_eq.
Qed.

Lemma seen_blocks l w os w' :
  seen w → verify_all l w = (os, w') → List.filter (accepted_nonce tid nonce) (zip l os) = [].
Proof.
  revert w os. induction l as [|d l IH]; intros w os Hw; simpl; [by intros [= <- <-]|].
  destruct (verify _ _ _ _ w) as [o w1] eqn:E. destruct (verify_all l w1) as [os' w2] eqn:Hrun. intros [= <- <-].
  cbn [zip_with List.filter]. destruct (accepted_nonce tid nonce (d, o)) eqn:Ha.
  - by destruct (accepted_claims d o w w1 E Ha).
  - eapply IH; [|done]. pose proof (seen_verify d w Hw) as H. by rewrite E in H.
Qed.
End Replays.

(** A webhook delivery is accepted at most once: whatever requests arrive, in
    whatever order, as long as the clock readings stay within the acceptance
    window of each other, at most one request with a given nonce passes. *)
Theorem webhook_nonce_once tid nonce l w os w' :
  (∀ x y, (clock x).1 - (clock y).1 ≤ nonce_window * 1000000) → verify_all l w = (os, w') →
  (length (List.filter (accepted_nonce tid nonce) (zip l os)) ≤ 1)%nat.
Proof.
  intros Hspread. revert w os. induction l as [|d l IH]; intros w os; simpl; [intros [= <- <-]; simpl; lia|].
  destruct (verify _ _ _ _ w) as [o w1] eqn:E. destruct (verify_all l w1) as [os' w2] eqn:Hrun. intros [= <- <-].
  cbn [zip_with List.filter]. destruct (accepted_nonce tid nonce (d, o)) eqn:Ha; [|by eapply IH].
  destruct (accepted_claims tid nonce Hspread d o w w1 E Ha) as [_ Hw1].
  simpl. erewrite seen_blocks; [simpl; lia|done|exact Hw1|done].
Qed.
End Webhook.

(** ** Provider deliveries *)

Record SourceEvent := mkSourceEvent {
  se_payload : odict string JsonValue; se_event_type : option string; se_dedup_key : option string }.

(** [bool(value)] of a JSON value. *)
Definition truthy (v : JsonValue) : bool :=
  match v with
  | JNull => false
  | JBool b => b
  | JInt z => negb (z =? 0)
  | JFloat x => negb (f64_eqb x f64_zero)
  | JStr s => bool_decide (s ≠ EmptyString)
  | JList l => match l with [] => false | _ => true end
  | JObj d => match d with [] => false | _ => true end
  end.

Definition field (k : string) (v : option JsonValue) : option JsonValue :=
  match v with Some (JObj d) => od_get k d | _ => None end.

(** [value in texts] for a JSON value that may be missing. *)
Definition among (v : option JsonValue) (texts : list string) : bool :=
  match v with Some (JStr s) => bool_decide (s ∈ texts) | _ => false end.

(** [_github_matches] *)
Definition github_matches (f : TriggerFilter) (event_type : string) (payload : odict string JsonValue) : bool :=
  let repo := field "full_name" (od_get "repository" payload) in
  let repo_ok := match tf_repo f with
                 | Some r => match repo with Some (JStr s) => bool_decide (s = r) | _ => false end
                 | None => true
                 end in
  if negb repo_ok then false
  else if bool_decide (event_type = "issue_comment") then
    let text := field "body" (od_get "comment" payload) in
    let is_pr := from_option truthy false (field "pull_request" (od_get "issue" payload)) in
    let commands := match text with Some (JStr s) => contains "/hiveplane" s | _ => false end in
    if negb is_pr || negb commands then false
    else bool_decide (tf_events f = []) || bool_decide ("pull_request" ∈ tf_events f) || bool_decide ("issue_comment" ∈ tf_events f)
  else if bool_decide (tf_events f ≠ []) && negb (bool_decide (event_type ∈ tf_events f)) then false
  else negb (bool_decide (tf_actions f ≠ []) && bool_decide (event_type ∈ ["pull_request"; "issues"; "label"])
             && negb (among (od_get "action" payload) (tf_actions f))).

(** [_normalize] *)
Definition normalize (payload : odict string JsonValue) : odict string JsonValue :=
  if od_mem "number" payload then payload
  else match field "number" (od_get "pull_request" payload) with
       | Some n => od_set "number" n payload
       | None => match field "number" (od_get "issue" payload) with
                 | Some n => od_set "number" n payload
                 | None => payload
                 end
       end.

Section Sources.
Variable hmac_hex : string → string → string.
Variable loads : string → option JsonValue.
Variable float_str : f64 → string.

(** [body_signature] *)
Definition body_signature (secret body : string) : string := hmac_hex secret body.

Definition signature_matches (secret body value : string) : outcome IngestExn bool :=
  let provided := provided_signature value in
  if bool_decide (provided = EmptyString) then Ret false else compare_digest (body_signature secret body) provided.

(** [json.loads(body)] of an object. *)
Definition load_object (body : string) : outcome IngestExn (odict string JsonValue) :=
  match loads body with Some (JObj d) => Ret d | _ => Raise IngestValueError end.

(** [GitHubSource.parse] *)
Definition github_parse (spec : TriggerSpec) (headers : odict string string) (body secret : string)
    : outcome IngestExn (list SourceEvent) :=
  match signature_matches secret body (default EmptyString (od_get "X-Hub-Signature-256" headers)) with
  | Raise e => Raise e
  | Ret false => Raise SignatureError
  | Ret true =>
      let event_type := default EmptyString (od_get "X-GitHub-Event" headers) in
      match load_object body with
      | Raise e => Raise e
      | Ret payload =>
          if github_matches (ts_filter spec) event_type payload
          then Ret [mkSourceEvent (normalize payload) (Some event_type) None]
          else Ret []
      end
  end.

(** One alert of a delivery, if it matches the filter. *)
Definition alert_event (spec : TriggerSpec) (payload : odict string JsonValue) (alert : JsonValue) : option SourceEvent :=
  match alert with
  | JObj a =>
      let status := od_get "status" a in
      if bool_decide (tf_events (ts_filter spec) ≠ []) && negb (among status (tf_events (ts_filter spec))) then None
      else
        let fingerprint := od_get "fingerprint" a in
        Some (mkSourceEvent (od_set "groupStatus" (default JNull (od_get "status" payload)) a)
                (match status with Some JNull | None => None | Some v => Some (json_str float_str v) end)
                (match fingerprint with
                 | Some v => if truthy v then Some (json_str float_str v) else None
                 | None => None
                 end))
  | _ => None
  end.

(** [AlertmanagerSource.parse] *)
Definition alertmanager_parse (spec : TriggerSpec) (headers : odict string string) (body : string) (secret : option string)
    : outcome IngestExn (list SourceEvent) :=
  let checked := match secret with
                 | Some s => signature_matches s body (default EmptyString (od_get "X-HivePlane-Signature" headers))
                 | None => Ret true
                 end in
  match checked with
  | Raise e => Raise e
  | Ret false => Raise SignatureError
  | Ret true =>
      match load_object body with
      | Raise e => Raise e
      | Ret payload =>
          match default (JList []) (od_get "alerts" payload) with
          | JList alerts => Ret (omap (alert_event spec payload) alerts)
          | _ => Raise IngestValueError
          end
      end
  end.

End Sources.

(** ** Freezes *)

Inductive FreezeScope := TENANT | TEAM | WORKLOAD_SCOPE.
#[export] Instance FreezeScope_eq_dec : EqDecision FreezeScope.
Proof. solve_decision. Defined.

Inductive FreezeDrain := GRACEFUL | ABORT.
#[export] Instance FreezeDrain_eq_dec : EqDecision FreezeDrain.
Proof. solve_decision. Defined.

Record FreezeSpec := mkFreeze {
  fz_freeze_id : string; fz_tenant_id : string; fz_scope : FreezeScope; fz_scope_ref : option string;
  fz_starts_at : Z; fz_ends_at : option Z; fz_drain : FreezeDrain; fz_declared_by : string; fz_reason : option string }.

Definition freeze_valid (f : FreezeSpec) : bool :=
  between 1 128 (fz_freeze_id f) && between 1 64 (fz_tenant_id f) && opt_between 0 253 (fz_scope_ref f)
  && between 1 253 (fz_declared_by f) && opt_between 0 2000 (fz_reason f)
  && (bool_decide (fz_scope f = TENANT) || bool_decide (or_text (fz_scope_ref f) EmptyString ≠ EmptyString))
  && match fz_ends_at f with Some t => fz_starts_at f <? t | None => true end.

Definition covers (f : FreezeSpec) (workload : string) (team : option string) : bool :=
  match fz_scope f with
  | TENANT => true
  | WORKLOAD_SCOPE => bool_decide (Some workload = fz_scope_ref f)
  | TEAM => match team with Some t => bool_decide (Some t = fz_scope_ref f) | None => false end
  end.

Definition active_at (f : FreezeSpec) (t : Z) : bool :=
  if t <? fz_starts_at f then false else match fz_ends_at f with Some e => t <? e | None => true end.

(** *** The in-memory store *)

Abbreviation Freezes := (odict string (FreezeSpec * string)).

Definition save_freeze (f : FreezeSpec) (ctx : TenantContext) : M Freezes TriggerExn unit :=
  require TriggerScopeError ctx (fz_tenant_id f) ;;; modify (od_set (fz_freeze_id f) (f, fz_tenant_id f)).

Definition get_freeze (id : string) (ctx : TenantContext) (s : Freezes) : option FreezeSpec :=
  match od_get id s with
  | Some (f, tenant) => if scopes ctx tenant then Some f else None
  | None => None
  end.

Definition freeze_leb (a b : FreezeSpec) : bool :=
  (fz_starts_at a <? fz_starts_at b) || (fz_starts_at a =? fz_starts_at b) && str_leb (fz_freeze_id a) (fz_freeze_id b).

Definition list_freezes (ctx : TenantContext) (s : Freezes) : list FreezeSpec :=
  py_sort freeze_leb (omap (λ e, if scopes ctx e.2 then Some e.1 else None) (od_values s)).

Definition delete_freeze (id : string) (ctx : TenantContext) (s : Freezes) : bool * Freezes :=
  match od_get id s with
  | Some (_, tenant) => if scopes ctx tenant then (true, od_del id s) else (false, s)
  | None => (false, s)
  end.

(** [FreezeService.active_for] *)
Definition active_for (workload : string) (team : option string) (now : Z) (ctx : TenantContext) (s : Freezes)
    : option FreezeSpec :=
  List.find (λ f, active_at f now && covers f workload team) (list_freezes ctx s).

(** The check the plane gives the trigger engine: the freeze over the target. *)
Definition scope_value (s : FreezeScope) : string :=
  match s with TENANT => "tenant" | TEAM => "team" | WORKLOAD_SCOPE => "workload" end.

Definition freeze_message (f : FreezeSpec) : string := or_text (fz_reason f) (scope_value (fz_scope f) +:+ " freeze active").

Section Drain.
Context {X : Type}.
Variable intervene : string → InterventionAction → string → TenantContext → Op X unit.

(** What a freeze does to a run: nothing, a pause or a stop. *)
Definition drain_action (f : FreezeSpec) (team : option string) (r : Run) : option InterventionAction :=
  if negb (bool_decide (run_state r = RUNNING) || bool_decide (run_state r = QUEUED)) then None
  else
    let owner := match run_team_id r with Some t => if bool_decide (t = EmptyString) then team else Some t | None => team end in
    if negb (covers f (run_workload_id r) owner) then None
    else if bool_decide (fz_drain f = ABORT) then Some STOP
    else if bool_decide (run_state r = RUNNING) then Some PAUSE else None.

(** [FreezeService.drain] *)
Fixpoint drain (f : FreezeSpec) (team : option string) (ctx : TenantContext) (runs : list Run) : M X TriggerExn (list string) :=
  match runs with
  | [] => ret []
  | r :: rest =>
      match drain_action f team r with
      | Some a =>
          intervene (run_id r) a ("freeze:" +:+ fz_freeze_id f) ctx ;;;
          let* acted := drain f team ctx rest in
          ret (run_id r :: acted)
      | None => drain f team ctx rest
      end
  end.
End Drain.

(** The freeze check the plane configures: the freeze over the trigger's target
    and its team. *)
Definition plane_freeze_check {X} (freezes : Freezes) (team_of : string → option string) (clock : X → Z * X)
    (spec : TriggerSpec) (ctx : TenantContext) : Op X (option string) :=
  λ x, let '(now, x') := clock x in
       (Ret (freeze_message <$> active_for (tt_ref (ts_target spec)) (team_of (tt_ref (ts_target spec))) now ctx freezes), x').

(** A freeze found is visible, active and covers the work; none is found only
    when there is none. *)
Lemma active_for_spec workload team now ctx s :
  match active_for workload team now ctx s with
  | Some f => f ∈ list_freezes ctx s ∧ active_at f now = true ∧ covers f workload team = true
  | None => ∀ f, f ∈ list_freezes ctx s → active_at f now = true → covers f workload team = false
  end.
Proof.
  unfold active_for. destruct (List.find _ _) as [f|] eqn:E.
  - apply List.find_some in E as [Hin [Ha Hc]%andb_true_iff]. split; [by apply list_elem_of_In|done].
  - intros f Hin Ha. pose proof (List.find_none _ _ E f) as H. cbv beta in H. rewrite Ha in H. apply H. by apply list_elem_of_In.
Qed.

Lemma list_freezes_elem ctx s f :
  f ∈ list_freezes ctx s ↔ ∃ tenant, (f, tenant) ∈ od_values s ∧ scopes ctx tenant = true.
Proof.
  unfold list_freezes. rewrite py_sort_perm, list_elem_of_omap. split.
  - intros ([g t] & Hin & Hg). simpl in Hg. destruct (scopes ctx t) eqn:Hs; [|done]. injection Hg as ->. by exists t.
  - intros (t & Hin & Hs). exists (f, t). split; [done|]. simpl. by rewrite Hs.
Qed.

Definition without_submitters {X} (env : Env X) : Env X := {|
  en_submit := λ _ _ _ _ _ _ _ x, (Raise (SubmitFailed "no submitter"), x); en_pipeline_submit := None;
  en_clock := en_clock env; en_limiter_clock := en_limiter_clock env; en_new_id := en_new_id env; en_audit := en_audit env;
  en_freeze_check := en_freeze_check env; en_sha256 := en_sha256 env; en_float_str := en_float_str env;
  en_float_json := en_float_json env |}.

(** While a declared freeze covers a trigger's target, no event of it reaches a
    submitter: a delivery behaves as if there were none, and what it decides is
    a suppression, or a duplicate of an earlier run. *)
Theorem freeze_blocks_delivery {X} (env : Env X) freezes team_of clock c f tenant (w : World X) :
  en_freeze_check env = Some (plane_freeze_check freezes team_of clock) →
  (f, tenant) ∈ od_values freezes → scopes (c_ctx c) tenant = true →
  covers f (tt_ref (ts_target (c_spec c))) (team_of (tt_ref (ts_target (c_spec c)))) = true →
  (∀ x, active_at f (clock x).1 = true) →
  deliver env c w = deliver (without_submitters env) c w ∧
  ∀ d w', deliver env c w = (Ret d, w') → td_outcome d = SUPPRESSED_FREEZE ∨ td_outcome d = DEDUPLICATED.
Proof.
  intros Hcheck Hf Hs Hc Ha.
  assert (∀ w1 : World X, ∃ reason x, freeze_reason env (c_spec c) (c_ctx c) w1 = (Ret (Some reason), with_ext x w1)) as Hfrozen.
  { intros w1. unfold freeze_reason, on_ext. rewrite Hcheck. unfold plane_freeze_check.
    pose proof (Ha (w_ext w1)) as Hnow. destruct (clock (w_ext w1)) as [now x]. simpl in Hnow.
    pose proof (active_for_spec (tt_ref (ts_target (c_spec c))) (team_of (tt_ref (ts_target (c_spec c)))) now (c_ctx c) freezes) as H.
    destruct (active_for _ _ _ _ _) as [g|]; [by eexists _, x|]. rewrite (H f) in Hc; [done| |done].
    apply list_freezes_elem. by exists tenant. }
  split.
  - unfold deliver, ingest. destruct (negb _); [done|].
    change (fresh_or (without_submitters env) (c_event_id c)) with (fresh_or env (c_event_id c)).
    change (en_clock (without_submitters env)) with (en_clock env).
    apply bind_ext. intros eid w1. apply bind_ext. intros now w2. apply bind_ext. intros o w3. destruct o as [r|]; [done|].
    unfold process. change (freeze_reason (without_submitters env)) with (freeze_reason env).
    destruct (Hfrozen w3) as (reason & x & Hr). by rewrite !(bind_run _ _ _ _ _ Hr).
  - intros d w' H. unfold deliver, ingest in H. destruct (negb _); [done|].
    apply bind_inv in H as (eid & w1 & _ & H). apply bind_inv in H as (now & w2 & _ & H).
    apply bind_inv in H as (o & w3 & _ & H). destruct o as [r|]; [apply decide_inv in H as [-> _]; by right|].
    unfold process in H. destruct (Hfrozen w3) as (reason & x & Hr). rewrite (bind_run _ _ _ _ _ Hr) in H.
    apply bind_inv in H as (u & w4 & _ & H). apply decide_inv in H as [-> _]. by left.
Qed.

(** ** Concrete requests *)
Module Demo.

Definition hmac (secret message : string) : string := "mac(" +:+ secret +:+ "," +:+ message +:+ ")".
Definition clock (x : unit) : Z * unit := (1700000000000000, x).

Definition request (signature nonce : string) : WebhookRequest := mkRequest signature "1700000100" nonce "{}".
Definition signed (nonce : string) : WebhookRequest :=
  request ("sha256=" +:+ sign_webhook hmac "key" 1700000100 nonce "{}") nonce.
Definition delivery (r : WebhookRequest) : Delivery := mkDelivery "t1" r "key" DEFAULT_CONTEXT.
Definition start : World unit := mkWorld empty_store [] (new_bucket 600 0 0) tt.

Definition deliveries : list Delivery :=
  [delivery (signed "n1"); delivery (signed "n2"); delivery (signed "n1"); delivery (request "sha256=wrong" "n3")].

Example answers :
  (verify_all hmac clock None 300 300 deliveries start).1 = [Ret tt; Ret tt; Raise ReplayError; Raise SignatureError].
Proof. vm_compute. reflexivity. Qed.

(** A signature header with a byte beyond ASCII is not a signature error. *)
Example signature_beyond_ascii :
  (verify_all hmac clock None 300 300 [delivery (request (String "233"%char EmptyString) "n1")] start).1 = [Raise IngestTypeError].
Proof. vm_compute. reflexivity. Qed.

Definition freeze : FreezeSpec := mkFreeze "fz1" "acme" WORKLOAD_SCOPE (Some "w") 0 None GRACEFUL "ops" None.
Definition freezes : Freezes := [("fz1", (freeze, "acme"))].

Definition frozen_env : Env TriggerHistory.Demo.X := {|
  en_submit := TriggerHistory.Demo.submit; en_pipeline_submit := None;
  en_clock := λ x, (1700000000000000, x); en_limiter_clock := λ x, (1700000000000000, x);
  en_new_id := λ x, (EmptyString, x); en_audit := None;
  en_freeze_check := Some (plane_freeze_check freezes (λ _, None) (λ x, (1700000000000000, x)));
  en_sha256 := id; en_float_str := λ _, EmptyString; en_float_json := λ _, EmptyString |}.

Example suppressed :
  (deliver frozen_env (TriggerHistory.Demo.call "w" None "e1" "abc") TriggerHistory.Demo.start).1
  = Ret (mkDecision "t1" "e1" SUPPRESSED_FREEZE None None (Some "workload freeze active") None).
Proof. vm_compute. reflexivity. Qed.

Definition pr : odict string JsonValue := [("action", JStr "opened"); ("pull_request", JObj [("number", JInt 3)])].
Example github : github_matches (mkFilter ["pull_request"] ["opened"] None None) "pull_request" pr = true
  ∧ od_get "number" (normalize pr) = Some (JInt 3).
Proof. vm_compute. done. Qed.
End Demo.

Lemma webhook_nonce_once_witness :
  (length (List.filter (accepted_nonce "t1" "n1")
    (zip Demo.deliveries (verify_all Demo.hmac Demo.clock None 300 300 Demo.deliveries Demo.start).1)) ≤ 1)%nat.
Proof.
  apply (webhook_nonce_once Demo.hmac Demo.clock None 300 300 "t1" "n1" Demo.deliveries Demo.start _
    (verify_all Demo.hmac Demo.clock None 300 300 Demo.deliveries Demo.start).2).
  - intros x y. vm_compute. intros H. discriminate H.
  - apply surjective_pairing.
Defined.

Lemma freeze_blocks_delivery_witness :
  deliver Demo.frozen_env (TriggerHistory.Demo.call "w" None "e1" "abc") TriggerHistory.Demo.start
  = deliver (without_submitters Demo.frozen_env) (TriggerHistory.Demo.call "w" None "e1" "abc") TriggerHistory.Demo.start.
Proof.
  refine (proj1 (freeze_blocks_delivery Demo.frozen_env Demo.freezes (λ _, None) (λ x, (1700000000000000, x))
    (TriggerHistory.Demo.call "w" None "e1" "abc") Demo.freeze "acme" TriggerHistory.Demo.start _ _ _ _ _)).
  - reflexivity.
  - left.
  - reflexivity.
  - reflexivity.
  - intros x. reflexivity.
Defined.
