(* ===== verification/Defense.v ===== *)
(** * Defense at the tool boundary ([defense/egress.py], [sandbox/egress.py],
    [core/sandbox.py], [defense/taint.py], [defense/events.py],
    [defense/escalation.py], [defense/guard.py])

    The deny-by-default egress policy, the taint tracker with its derived
    marks, the in-memory security-event store, the escalator that quarantines
    repeat offenders, and the guard in front of them.  The detectors of
    [defense/scanner.py], the quarantine service and the audit log are
    parameters of the guard.  Host names are ASCII. *)

From Stdlib Require Import Ascii.
From stdpp Require Import base strings gmap numbers pretty relations list.
From S2P Require Import Prelude Tenancy CoreModels Admission.

(** ** Egress *)
Module Egress.

Record EgressPolicy := mkPolicy { mode : EgressMode; allow : list EgressRule; deny : list EgressRule }.

Record EgressDecision := mkDecision { allowed : bool; reason : string; rule : option string }.

(** [str.lower] on ASCII. *)
Definition lower_ascii (c : ascii) : ascii :=
  let n := N_of_ascii c in
  if (65 <=? n)%N && (n <=? 90)%N then ascii_of_N (n + 32) else c.

Fixpoint lower (s : string) : string :=
  match s with EmptyString => EmptyString | String c s' => String (lower_ascii c) (lower s') end.

(** [str.endswith]. *)
Fixpoint endswith (suffix s : string) : bool :=
  if bool_decide (s = suffix) then true
  else match s with EmptyString => false | String _ s' => endswith suffix s' end.

Definition host_matches (pattern host : string) : bool :=
  match lower pattern with
  | String c (String d suffix) =>
      if bool_decide (c = "*"%char ∧ d = "."%char) then endswith ("." +:+ suffix) host
      else bool_decide (String c (String d suffix) = host)
  | candidate => bool_decide (candidate = host)
  end.

Definition port_matches (rule_port port : option Z) : bool :=
  match rule_port with None => true | Some _ => bool_decide (rule_port = port) end.

Definition rule_matches (r : EgressRule) (host : string) (port : option Z) : bool :=
  host_matches (er_host r) host && port_matches (er_port r) port.

Definition denied (reason rule : string) : EgressDecision :=
  {| allowed := false; reason := reason; rule := Some rule |}.

(** [EgressPolicy()] of the code: restricted, with empty lists. *)
Definition default_policy : EgressPolicy := {| mode := EGRESS_RESTRICTED; allow := []; deny := [] |}.

Definition host_rules (hosts : list string) : list EgressRule := (λ h, mkEgressRule h None) <$> hosts.

Definition from_spec (s : EgressSpec) : EgressPolicy :=
  {| mode := eg_mode s; allow := host_rules (eg_allow s); deny := host_rules (eg_deny s) |}.

Definition from_sandbox (sandbox : option SandboxSpec) : EgressPolicy :=
  match sandbox with
  | None => default_policy
  | Some s =>
      match sb_network s with
      | Some n => {| mode := ns_egress n; allow := ns_allow n; deny := ns_deny n |}
      | None => from_spec (sb_egress s)
      end
  end.

Definition check (p : EgressPolicy) (host : string) (port : option Z) : EgressDecision :=
  let normalized := lower host in
  if bool_decide (normalized ∈ CLOUD_METADATA_ENDPOINTS)
  then denied ("egress to " +:+ py_repr host +:+ " is blocked (cloud metadata)") "egress.denied"
  else if existsb (λ r, rule_matches r normalized port) (deny p)
  then denied ("egress to " +:+ py_repr host +:+ " is explicitly denied") "egress.denied"
  else
    match mode p with
    | EGRESS_NONE => denied "egress is disabled for this workload" "egress.none"
    | EGRESS_OPEN => {| allowed := true; reason := "egress.open"; rule := Some "egress.open" |}
    | EGRESS_RESTRICTED =>
        let hits := filter (λ r, host_matches (er_host r) normalized = true) (allow p) in
        if bool_decide (hits = [])
        then denied ("egress to " +:+ py_repr host +:+ " is not on the allow-list") "egress.default_deny"
        else if existsb (λ r, port_matches (er_port r) port) hits
        then {| allowed := true; reason := "egress to " +:+ py_repr host +:+ " is allow-listed";
                rule := Some "egress.allow" |}
        else denied ("egress to " +:+ py_repr host +:+ " is not permitted on this port") "egress.denied"
    end.

(** [EgressGuard.check]: raises exactly when the policy refuses. *)
Definition guard_check (s : EgressSpec) (host : string) (port : option Z) : bool := allowed (check (from_spec s) host port).

(** *** What a rule names *)

Lemma endswith_spec suffix s : endswith suffix s = true ↔ ∃ p, s = p +:+ suffix.
Proof.
  split.
  - induction s as [|c s IH]; simpl; case_bool_decide as H; try done.
    + intros _. by exists EmptyString.
    + intros _. by exists EmptyString.
    + intros [p ->]%IH. by exists (String c p).
  - intros [p ->]. induction p as [|c p IH]; simpl.
    + destruct suffix; simpl; [done|by rewrite bool_decide_true].
    + case_bool_decide; [done|exact IH].
Qed.

Lemma lower_app s t : lower (s +:+ t) = lower s +:+ lower t.
Proof. induction s as [|c s IH]; simpl; [done|]. by rewrite <-IH. Qed.

Lemma lower_ascii_idem c : lower_ascii (lower_ascii c) = lower_ascii c.
Proof. by destruct c as [[] [] [] [] [] [] [] []]. Qed.

Lemma lower_idem s : lower (lower s) = lower s.
Proof. induction s as [|c s IH]; simpl; [done|]. by rewrite lower_ascii_idem, IH. Qed.

(** A [*.] pattern names the proper subdomains of its suffix and nothing else;
    any other pattern names one host, whatever the case of its letters. *)
Definition names (pattern host : string) : Prop :=
  (∃ suffix sub, lower pattern = "*." +:+ suffix ∧ host = sub +:+ "." +:+ suffix) ∨
  ((∀ suffix, lower pattern ≠ "*." +:+ suffix) ∧ host = lower pattern).

Lemma host_matches_names pattern host : host_matches pattern host = true ↔ names pattern host.
Proof.
  unfold host_matches, names.
  assert (∀ l, (∀ s, l ≠ "*." +:+ s) → bool_decide (l = host) = true ↔
    (∃ suffix sub, l = "*." +:+ suffix ∧ host = sub +:+ "." +:+ suffix) ∨ ((∀ s, l ≠ "*." +:+ s) ∧ host = l)) as Hplain.
  { intros l Hl. rewrite bool_decide_eq_true. split; [intros ->; by right|].
    intros [(s & ? & H & _)|[_ ?]]; [by destruct (Hl s)|done]. }
  destruct (lower pattern) as [|c [|d suffix]] eqn:Hl; try (apply Hplain; by intros ? ?).
  case_bool_decide as Hw.
  - destruct Hw as [-> ->]. rewrite endswith_spec. split.
    + intros [p ->]. left. by exists suffix, p.
    + intros [(s & sub & Hs & ->)|[Hno _]]; [|by destruct (Hno suffix)]. injection Hs as ->. by exists sub.
  - apply Hplain. intros s [= -> ->]. by apply Hw.
Qed.

(** The rule covers the request. *)
Definition covers (r : EgressRule) (host : string) (port : option Z) : Prop :=
  names (er_host r) host ∧ (er_port r = None ∨ er_port r = port).

Lemma port_matches_spec rp port : port_matches rp port = true ↔ rp = None ∨ rp = port.
Proof. unfold port_matches. destruct rp; [rewrite bool_decide_eq_true|]; naive_solver. Qed.

Lemma rule_matches_covers r host port : rule_matches r host port = true ↔ covers r host port.
Proof. unfold rule_matches, covers. by rewrite andb_true_iff, host_matches_names, port_matches_spec. Qed.

(** A request leaves the sandbox exactly when it is not for a cloud metadata
    endpoint, no deny rule covers it, egress is not disabled, and egress is open
    or an allow rule covers host and port; host names are compared without case,
    and a wildcard covers only proper subdomains. *)
Theorem egress_allowed_iff p host port :
  allowed (check p host port) = true ↔
  lower host ∉ CLOUD_METADATA_ENDPOINTS ∧
  (∀ r, r ∈ deny p → ¬ covers r (lower host) port) ∧
  (mode p = EGRESS_OPEN ∨
   mode p = EGRESS_RESTRICTED ∧ ∃ r, r ∈ allow p ∧ covers r (lower host) port).
Proof.
  unfold check. case_bool_decide as Hm; [split; [done|by intros [[] _]]|].
  destruct (existsb _ (deny p)) eqn:Hd.
  { split; [done|]. intros (_ & Hno & _). apply existsb_exists in Hd as (r & Hr & Hc).
    apply rule_matches_covers in Hc. by destruct (Hno r); [apply list_elem_of_In|]. }
  assert (∀ r, r ∈ deny p → ¬ covers r (lower host) port) as Hden.
  { intros r Hr Hc. apply rule_matches_covers in Hc. apply not_true_iff_false in Hd. apply Hd.
    apply existsb_exists. exists r. by rewrite <-list_elem_of_In. }
  destruct (mode p) eqn:Hmode; cbn [allowed denied].
  - split; [intros _|done]. split_and!; [done|done|by left].
  - set (hits := filter _ _). transitivity (∃ r, r ∈ allow p ∧ covers r (lower host) port).
    2:{ naive_solver. }
    assert (∀ r, r ∈ hits ↔ r ∈ allow p ∧ names (er_host r) (lower host)) as Hhits.
    { intros r. unfold hits. rewrite list_elem_of_filter, host_matches_names. naive_solver. }
    case_bool_decide as Hnil; cbn [allowed denied].
    + split; [done|]. intros (r & Hr & Hn & _). rewrite Hnil in Hhits.
      by destruct (not_elem_of_nil r); apply Hhits.
    + destruct (existsb _ hits) eqn:He; cbn [allowed denied].
      * split; [intros _|done]. apply existsb_exists in He as (r & Hr & Hp). apply list_elem_of_In, Hhits in Hr as [? ?].
        exists r. split; [done|]. split; [done|by apply port_matches_spec].
      * split; [done|]. intros (r & Hr & Hn & Hp). apply not_true_iff_false in He. destruct He. apply existsb_exists.
        exists r. split; [apply list_elem_of_In, Hhits; done|by apply port_matches_spec].
  - split; [done|]. naive_solver.
Qed.
End Egress.

(** ** Taint ([defense/taint.py]) *)
Module Taint.

Inductive TrustTag := TRUSTED | UNTRUSTED | DERIVED.

#[global] Instance TrustTag_eq_dec : EqDecision TrustTag.
Proof. solve_decision. Defined.

Record TaintSource := mkSource { ts_kind : string; ts_source_id : string }.

Record TaintMark := mkMark {
  tm_mark_id : string; tm_tag : TrustTag; tm_source : TaintSource; tm_derived_from : list string }.

Record TaintDecision := mkDecision { blocked : bool; reason : string; sources : list TaintSource }.

Record TaintTracker := mkTracker { marks : list TaintMark; counter : nat }.

Definition fresh : TaintTracker := {| marks := []; counter := 0 |}.

(** [f"taint-{counter}"]. *)
Definition mark_id (n : nat) : string := "taint-" +:+ pretty n.

Definition push (tag : TrustTag) (source : TaintSource) (derived_from : list string) (t : TaintTracker) : TaintTracker :=
  let n := S (counter t) in
  {| marks := marks t ++ [mkMark (mark_id n) tag source derived_from]; counter := n |}.

Definition mark (kind source_id : string) (tag : TrustTag) (t : TaintTracker) : TaintTracker :=
  push tag (mkSource kind source_id) [] t.

Definition derived_tag (derived_from : list string) (l : list TaintMark) : TrustTag :=
  let parents := filter (λ m, tm_mark_id m ∈ derived_from) l in
  if existsb (λ m, bool_decide (tm_tag m ≠ TRUSTED)) parents then DERIVED else TRUSTED.

Definition mark_derived (kind source_id : string) (derived_from : list string) (t : TaintTracker) : TaintTracker :=
  push (derived_tag derived_from (marks t)) (mkSource kind source_id) derived_from t.

Definition untrusted_sources (t : TaintTracker) : list TaintSource :=
  tm_source <$> filter (λ m, tm_tag m ∈ [UNTRUSTED; DERIVED]) (marks t).

Definition has_untrusted (t : TaintTracker) : bool := bool_decide (untrusted_sources t ≠ []).

(** [", ".join(...)]. *)
Fixpoint join (l : list string) : string :=
  match l with
  | [] => EmptyString
  | [x] => x
  | x :: rest => x +:+ ", " +:+ join rest
  end.

Definition gate_destructive (tool_id : string) (allow_untrusted : bool) (t : TaintTracker) : TaintDecision :=
  if allow_untrusted
  then {| blocked := false; reason := "tool allow-listed for untrusted input"; sources := [] |}
  else
    let srcs := untrusted_sources t in
    if bool_decide (srcs = [])
    then {| blocked := false; reason := "no untrusted input"; sources := [] |}
    else {| blocked := true;
            reason := "untrusted input from " +:+ join (ts_source_id <$> srcs)
                      +:+ " cannot reach destructive tool " +:+ tool_id;
            sources := srcs |}.

(** *** The registry: one tracker per run, created on first use *)

Abbreviation registry := (gmap string TaintTracker).

Definition for_run (run : string) (g : registry) : TaintTracker := default fresh (g !! run).

(** [for_run] stores the tracker it creates. *)
Definition touch (run : string) (f : TaintTracker → TaintTracker) (g : registry) : registry :=
  <[run := f (for_run run g)]> g.

Definition clear (run : string) (g : registry) : registry := delete run g.

(** *** Lineage *)

(** The mark at position [i] carries untrusted content: it was marked so when it
    entered the run, or it was computed from an earlier mark that does. *)
Inductive untrusted_at (l : list TaintMark) : nat → Prop :=
  | ua_source i m : l !! i = Some m → tm_derived_from m = [] → tm_tag m ≠ TRUSTED → untrusted_at l i
  | ua_derived i j m p : l !! i = Some m → l !! j = Some p → j < i →
      tm_mark_id p ∈ tm_derived_from m → untrusted_at l j → untrusted_at l i.

Inductive step : TaintTracker → TaintTracker → Prop :=
  | st_mark t kind source_id tag : step t (mark kind source_id tag t)
  | st_derived t kind source_id derived_from : step t (mark_derived kind source_id derived_from t).

(** Every mark's tag agrees with its parents' tags. *)
Definition coherent (l : list TaintMark) : Prop :=
  ∀ i m, l !! i = Some m → tm_derived_from m ≠ [] →
    (tm_tag m ≠ TRUSTED ↔ ∃ j p, j < i ∧ l !! j = Some p ∧ tm_mark_id p ∈ tm_derived_from m ∧ tm_tag p ≠ TRUSTED).

Lemma derived_tag_spec derived_from l :
  derived_tag derived_from l ≠ TRUSTED ↔ ∃ j p, l !! j = Some p ∧ tm_mark_id p ∈ derived_from ∧ tm_tag p ≠ TRUSTED.
Proof.
  unfold derived_tag. destruct (existsb _ _) eqn:He.
  - apply existsb_exists in He as (p & Hp & Ht). apply list_elem_of_In, list_elem_of_filter in Hp as [Hd Hp].
    apply list_elem_of_lookup in Hp as [j Hj]. apply bool_decide_eq_true in Ht. split; [by exists j, p|done].
  - split; [done|]. intros (j & p & Hj & Hd & Ht). apply not_true_iff_false in He. destruct He. apply existsb_exists.
    exists p. split; [|by apply bool_decide_eq_true]. apply list_elem_of_In, list_elem_of_filter.
    split; [done|by eapply list_elem_of_lookup_2].
Qed.

Lemma coherent_snoc l m :
  coherent l →
  (tm_derived_from m ≠ [] →
     tm_tag m ≠ TRUSTED ↔ ∃ j p, l !! j = Some p ∧ tm_mark_id p ∈ tm_derived_from m ∧ tm_tag p ≠ TRUSTED) →
  coherent (l ++ [m]).
Proof.
  intros Hl Hm i x Hi Hne. apply lookup_snoc_Some in Hi as [[Hlt Hi]|[-> ->]].
  - rewrite (Hl i x Hi Hne). split; intros (j & p & Hj & Hp & ?); exists j, p; split_and!; try naive_solver.
    + by apply lookup_app_l_Some.
    + rewrite lookup_app_l in Hp by lia. done.
  - rewrite (Hm Hne). split.
    + intros (j & p & Hp & ?). exists j, p. split_and!; try naive_solver.
      * by eapply lookup_lt_Some.
      * by apply lookup_app_l_Some.
    + intros (j & p & Hj & Hp & ?). rewrite lookup_app_l in Hp by lia. by exists j, p.
Qed.

Lemma taint_step_coherent t t' : step t t' → coherent (marks t) → coherent (marks t').
Proof.
  intros [t0 kind source_id tag|t0 kind source_id derived_from] Hc; apply coherent_snoc; try done.
  intros _. apply derived_tag_spec.
Qed.

Lemma coherent_reachable t : rtc step fresh t → coherent (marks t).
Proof.
  assert (∀ t0, rtc step t0 t → coherent (marks t0) → coherent (marks t)) as H.
  { induction 1; eauto using taint_step_coherent. }
  intros Hr. by apply (H fresh).
Qed.

Lemma untrusted_at_tag l i m : coherent l → l !! i = Some m → untrusted_at l i ↔ tm_tag m ≠ TRUSTED.
Proof.
  intros Hc. revert m. induction i as [i IH] using (well_founded_induction Nat.lt_wf_0). intros m Hi. split.
  - destruct 1 as [i m' Hm Hd Ht|i j m' p Hm Hp Hj Hin Hu]; simplify_eq; [done|].
    apply (Hc i m Hi); [by intros Heq; rewrite Heq in Hin; apply elem_of_nil in Hin|].
    exists j, p. split_and!; try done. by apply (IH j Hj p Hp).
  - intros Ht. destruct (decide (tm_derived_from m = [])) as [Hd|Hd]; [by eapply ua_source|].
    apply (Hc i m Hi Hd) in Ht as (j & p & Hj & Hp & Hin & Htp).
    eapply ua_derived; [exact Hi|exact Hp|done|done|]. by apply (IH j Hj p Hp).
Qed.

(** Taint follows lineage: whatever marks a run has recorded and derived, a
    destructive tool that is not listed for untrusted input is blocked exactly
    when some live mark carries untrusted content, directly or through any
    chain of derivations, and the decision names the sources of all such marks;
    a listed tool is never blocked. *)
Theorem taint_gate_follows_lineage t tool_id allow_untrusted :
  rtc step fresh t →
  let d := gate_destructive tool_id allow_untrusted t in
  (blocked d = true ↔ allow_untrusted = false ∧ ∃ i, untrusted_at (marks t) i) ∧
  (blocked d = true → ∀ src, src ∈ sources d ↔
     ∃ i m, marks t !! i = Some m ∧ untrusted_at (marks t) i ∧ tm_source m = src).
Proof.
  intros Hr%coherent_reachable.
  assert (∀ src, src ∈ untrusted_sources t ↔
    ∃ i m, marks t !! i = Some m ∧ untrusted_at (marks t) i ∧ tm_source m = src) as Hsrc.
  { intros src. unfold untrusted_sources. rewrite list_elem_of_fmap. split.
    - intros (m & -> & Hm). apply list_elem_of_filter in Hm as [Ht [i Hi]%list_elem_of_lookup].
      exists i, m. split_and!; try done. apply (untrusted_at_tag _ _ m Hr Hi).
      intros Heq. rewrite Heq in Ht. by repeat (apply elem_of_cons in Ht as [|Ht]; [done|]); apply elem_of_nil in Ht.
    - intros (i & m & Hi & Hu & <-). exists m. split; [done|]. apply list_elem_of_filter.
      split; [|by eapply list_elem_of_lookup_2]. apply (untrusted_at_tag _ _ m Hr Hi) in Hu.
      destruct (tm_tag m); [done|by left|by right; left]. }
  unfold gate_destructive. destruct allow_untrusted; cbn [blocked sources]; [split; [naive_solver|done]|].
  case_bool_decide as Hnil; cbn [blocked sources]; (split; [|done]).
  - split; [done|]. intros (_ & i & Hu). rewrite Hnil in Hsrc.
    assert (∃ m, marks t !! i = Some m) as [m Hm] by (inversion Hu; eauto).
    destruct (not_elem_of_nil (tm_source m)). apply Hsrc. by exists i, m.
  - split; [intros _|done]. split; [done|].
    destruct (untrusted_sources t) as [|s l] eqn:Hs; [done|].
    destruct (proj1 (Hsrc s)) as (i & m & _ & Hu & _); [by left|]. by exists i.
Qed.
End Taint.

(** ** Security events, the escalator and the guard *)
Module Guard.

Inductive DetectorAction := SCAN_ALLOW | SCAN_ESCALATE | SCAN_BLOCK.

#[global] Instance DetectorAction_eq_dec : EqDecision DetectorAction.
Proof. solve_decision. Defined.

Definition detector_action_value (a : DetectorAction) : string :=
  match a with SCAN_ALLOW => "allow" | SCAN_ESCALATE => "escalate" | SCAN_BLOCK => "block" end.

(** The ids of the detectors that matched, in order. *)
Record ScanResult := mkScan { sr_action : DetectorAction; sr_matches : list string; sr_set_version : string }.

Inductive SecurityEventKind := INJECTION | EGRESS_DENIED | TAINT_BLOCK | REPEATED_ATTEMPT.

#[global] Instance SecurityEventKind_eq_dec : EqDecision SecurityEventKind.
Proof. solve_decision. Defined.

Record SecurityEvent := mkEvent {
  se_event_id : string; se_run_id : option string; se_workload_id : option string; se_kind : SecurityEventKind;
  se_detector_id : option string; se_detector_version : option string; se_detail : list (string * JsonValue);
  se_created_at : Z; se_tenant_id : string }.

(** The escalator's settings as its constructor normalises them, with the
    quarantine service its provider returns. *)
Record AttemptEscalator (X : Type) := mkEscalator {
  esc_threshold : Z;
  esc_window : Z; (* microseconds *)
  esc_quarantine : option (string → string → TenantContext → X → outcome ExecExn unit * X) }.
Arguments mkEscalator {X}. Arguments esc_threshold {X}. Arguments esc_window {X}. Arguments esc_quarantine {X}.

(** [AttemptEscalator.__init__]. *)
Definition escalator {X} (threshold window_seconds : Z) quarantine : AttemptEscalator X :=
  {| esc_threshold := Z.max 1 threshold; esc_window := (Z.max 0 window_seconds * 1000000)%Z;
     esc_quarantine := quarantine |}.

(** The bound collaborators; [gd_events] tells whether an event store is. *)
Record DefenseGuard (X : Type) := mkGuard {
  gd_scan : string → ScanResult;
  gd_events : bool;
  gd_escalator : option (AttemptEscalator X);
  gd_audit : option (string → string → string → option string → X → outcome ExecExn unit * X);
  gd_clock : X → Z * X;
  gd_new_id : X → string * X }.
Arguments gd_scan {X}. Arguments gd_events {X}. Arguments gd_escalator {X}. Arguments gd_audit {X}.
Arguments gd_clock {X}. Arguments gd_new_id {X}.

Record World (X : Type) := mkWorld { dw_events : list SecurityEvent; dw_taint : Taint.registry; dw_ext : X }.
Arguments mkWorld {X}. Arguments dw_events {X}. Arguments dw_taint {X}. Arguments dw_ext {X}.

(** [ctx.scopes] over the stored events. *)
Definition list_events (workload run_id : option string) (kind : option SecurityEventKind) (since : option Z)
    (ctx : TenantContext) (l : list SecurityEvent) : list SecurityEvent :=
  py_sort (λ a b, (se_created_at a <? se_created_at b)%Z
                  || (se_created_at a =? se_created_at b)%Z && str_leb (se_event_id a) (se_event_id b))
    (filter (λ e, scopes ctx (se_tenant_id e)
                  && match workload with None => true | Some w => bool_decide (se_workload_id e = Some w) end
                  && match run_id with None => true | Some r => bool_decide (se_run_id e = Some r) end
                  && match kind with None => true | Some k => bool_decide (se_kind e = k) end
                  && match since with None => true | Some t => (t <=? se_created_at e)%Z end = true) l).

(** [context_for_run(tenant_id) if tenant_id else DEFAULT_CONTEXT]. *)
Definition scope_of (tenant_id : option string) : TenantContext :=
  match tenant_id with
  | Some t => if bool_decide (t = EmptyString) then DEFAULT_CONTEXT else context_for_run t None None
  | None => DEFAULT_CONTEXT
  end.

Section Ops.
Context {X : Type}.
Variable g : DefenseGuard X.
Abbreviation DM := (M (World X) ExecExn).

Open Scope hp_scope.

Definition on_ext {A} (f : X → outcome ExecExn A * X) : DM A :=
  λ w, let '(o, x) := f (dw_ext w) in (o, mkWorld (dw_events w) (dw_taint w) x).

Definition clock : DM Z := on_ext (λ x, let '(t, x') := gd_clock g x in (Ret t, x')).

Definition new_id : DM string := on_ext (λ x, let '(i, x') := gd_new_id g x in (Ret i, x')).

(** [InMemorySecurityEventStore.add]. *)
Definition events_add (e : SecurityEvent) (ctx : TenantContext) : DM unit :=
  require ExecScopeError ctx (se_tenant_id e) ;;;
  modify (λ w, mkWorld (dw_events w ++ [e]) (dw_taint w) (dw_ext w)).

(** Constructing an event checks that its id is not empty. *)
Definition add_new (e : SecurityEvent) (ctx : TenantContext) : DM unit :=
  if bool_decide (se_event_id e = EmptyString) then raise ExecValueError else events_add e ctx.

(** [AttemptEscalator.record_injection]; [quarantine_reason] renders the count. *)
Definition quarantine_reason (n : nat) : string := pretty n +:+ " injection attempts within the repeat window".

Definition record_injection (esc : AttemptEscalator X) (run_id : option string) (workload : option string)
    (detector_id detector_version : option string) (detail : list (string * JsonValue)) (tenant_id : option string)
    : DM bool :=
  let* now := clock in
  let scope := scope_of tenant_id in
  let* id := new_id in
  add_new (mkEvent id run_id workload INJECTION detector_id detector_version detail now (tc_tenant_id scope)) scope ;;;
  match workload with
  | None => ret false
  | Some w =>
      if negb (dt_in_range (now - esc_window esc)) then raise (ExternalError "OverflowError")
      else
        let* events := gets dw_events in
        let recent := list_events (Some w) None (Some INJECTION) (Some (now - esc_window esc)%Z) scope events in
        if (Z.of_nat (length recent) <? esc_threshold esc)%Z then ret false
        else
          match esc_quarantine esc with
          | None => ret false
          | Some quarantine =>
              on_ext (quarantine w (quarantine_reason (length recent)) scope) ;;;
              let* id2 := new_id in
              add_new (mkEvent id2 run_id (Some w) REPEATED_ATTEMPT None None
                         [("attempts", JInt (Z.of_nat (length recent)))] now (tc_tenant_id scope)) scope ;;;
              ret true
          end
  end.

(** [DefenseGuard._record]. *)
Definition record (kind : SecurityEventKind) (run_id workload detector_id detector_version : option string)
    (detail : list (string * JsonValue)) (tenant_id : option string) : DM unit :=
  if negb (gd_events g) then ret tt
  else
    let scope := scope_of tenant_id in
    let* id := new_id in
    let* t := clock in
    add_new (mkEvent id run_id workload kind detector_id detector_version detail t (tc_tenant_id scope)) scope.

(** [_record_scan]: an exception of the escalator falls back to a plain record. *)
Definition record_scan (result : ScanResult) (run_id workload tool_id : string) (tenant_id : option string) : DM unit :=
  if bool_decide (sr_action result = SCAN_ALLOW) then ret tt
  else
    let first := head (sr_matches result) in
    let detail := [("tool_id", JStr tool_id); ("detectors", JList (JStr <$> sr_matches result));
                   ("action", JStr (detector_action_value (sr_action result)))] in
    let plain := record INJECTION (Some run_id) (Some workload) first (Some (sr_set_version result)) detail tenant_id in
    match gd_escalator g with
    | Some esc =>
        try_except (record_injection esc (Some run_id) (Some workload) first (Some (sr_set_version result)) detail tenant_id ;;;
                    ret tt)
                   (λ _, plain)
    | None => plain
    end.

Definition on_tracker (run : string) (f : Taint.TaintTracker → Taint.TaintTracker) : DM unit :=
  modify (λ w, mkWorld (dw_events w) (Taint.touch run f (dw_taint w)) (dw_ext w)).

Definition mark_untrusted (run_id source_id kind : string) : DM unit :=
  on_tracker run_id (Taint.mark kind source_id Taint.UNTRUSTED).

Definition scan_output (run_id workload tool_id text : string) (tenant_id : option string) : DM ScanResult :=
  let result := gd_scan g text in
  record_scan result run_id workload tool_id tenant_id ;;; ret result.

Definition scan_input (run_id workload text source_id : string) (tenant_id : option string) (mark : bool) : DM ScanResult :=
  when mark (mark_untrusted run_id source_id source_id) ;;;
  let result := gd_scan g text in
  record_scan result run_id workload source_id tenant_id ;;; ret result.

Definition gate_destructive (run_id workload tool_id : string) (allow_untrusted : bool) (tenant_id : option string)
    : DM Taint.TaintDecision :=
  on_tracker run_id (λ t, t) ;;;
  let* reg := gets dw_taint in
  let decision := Taint.gate_destructive tool_id allow_untrusted (Taint.for_run run_id reg) in
  when (Taint.blocked decision)
    (record TAINT_BLOCK (Some run_id) (Some workload) None None
       [("tool_id", JStr tool_id); ("sources", JList (JStr <$> (Taint.ts_source_id <$> Taint.sources decision)))]
       tenant_id) ;;;
  ret decision.

(** [f"{host}:{port} ({rule})"]. *)
Definition port_str (port : option Z) : string := match port with Some p => pretty p | None => "None" end.

Definition check_egress (run_id workload tool_id host : string) (port : option Z) (sandbox : option SandboxSpec)
    (tenant_id : option string) : DM Egress.EgressDecision :=
  let decision := Egress.check (Egress.from_sandbox sandbox) host port in
  when (negb (Egress.allowed decision))
    (record EGRESS_DENIED (Some run_id) (Some workload) None None
       [("tool_id", JStr tool_id); ("host", JStr host);
        ("port", match port with Some p => JInt p | None => JNull end);
        ("denied_by", match Egress.rule decision with Some r => JStr r | None => JNull end)] tenant_id ;;;
     match gd_audit g with
     | Some append =>
         on_ext (append "defense" "egress.denied" workload
                   (Some (host +:+ ":" +:+ port_str port +:+ " (" +:+ default "None" (Egress.rule decision) +:+ ")")))
     | None => ret tt
     end) ;;;
  ret decision.

(** *** Repeat offenders *)

(** The recorded injection attempts of a workload in a tenant since [since]. *)
Definition attempts (workload : string) (ctx : TenantContext) (since : Z) (l : list SecurityEvent) : list SecurityEvent :=
  filter (λ e, scopes ctx (se_tenant_id e) = true ∧ se_workload_id e = Some workload ∧ se_kind e = INJECTION ∧
               (since ≤ se_created_at e)%Z) l.

Lemma list_events_attempts w ctx since l :
  length (list_events (Some w) None (Some INJECTION) (Some since) ctx l) = length (attempts w ctx since l).
Proof.
  unfold list_events. rewrite (Permutation_length (py_sort_perm _ _)). f_equal. apply list_filter_iff. intros e.
  rewrite !andb_true_iff, !bool_decide_eq_true, Z.leb_le. naive_solver.
Qed.

Lemma scope_of_own tenant_id : scopes (scope_of tenant_id) (tc_tenant_id (scope_of tenant_id)) = true.
Proof. unfold scopes. by rewrite bool_decide_true, orb_true_r. Qed.

Lemma add_new_ok e ctx w : se_event_id e ≠ EmptyString → scopes ctx (se_tenant_id e) = true →
  add_new e ctx w = (Ret tt, mkWorld (dw_events w ++ [e]) (dw_taint w) (dw_ext w)).
Proof. intros Hid Hs. unfold add_new, events_add, require. by rewrite bool_decide_false, Hs. Qed.

(** An injection attempt is always put on record, and the workload is handed
    to the quarantine service exactly when this attempt brings the number of its
    tenant's recorded attempts within the window to the threshold; the escalation
    is then recorded too, unless the service fails. *)
Theorem injection_quarantines_iff esc quarantine run w det ver detail tenant_id s t x1 id x2 :
  (0 ≤ esc_window esc)%Z → esc_quarantine esc = Some quarantine →
  gd_clock g (dw_ext s) = (t, x1) → gd_new_id g x1 = (id, x2) → id ≠ EmptyString →
  (∀ x, (gd_new_id g x).1 ≠ EmptyString) → dt_in_range (t - esc_window esc) = true →
  let scope := scope_of tenant_id in
  let n := S (length (attempts w scope (t - esc_window esc) (dw_events s))) in
  let e := mkEvent id run (Some w) INJECTION det ver detail t (tc_tenant_id scope) in
  let '(o, s') := record_injection esc run (Some w) det ver detail tenant_id s in
  if (Z.of_nat n <? esc_threshold esc)%Z
  then o = Ret false ∧ s' = mkWorld (dw_events s ++ [e]) (dw_taint s) x2
  else match quarantine w (quarantine_reason n) scope x2 with
       | (Raise exn, x3) => o = Raise exn ∧ s' = mkWorld (dw_events s ++ [e]) (dw_taint s) x3
       | (Ret _, x3) => o = Ret true ∧ ∃ e2 x4, s' = mkWorld (dw_events s ++ [e; e2]) (dw_taint s) x4 ∧
           se_kind e2 = REPEATED_ATTEMPT ∧ se_workload_id e2 = Some w
       end.
Proof.
  intros Hw Hq Hc Hi Hid Hids Hr scope n e. unfold record_injection.
  unfold bind at 1, clock at 1, on_ext at 1. rewrite Hc.
  unfold bind at 1, new_id at 1, on_ext at 1. cbn [dw_ext dw_events dw_taint]. rewrite Hi.
  unfold bind at 1. rewrite add_new_ok by (done || apply scope_of_own). rewrite Hr. cbn [negb dw_events dw_taint dw_ext].
  unfold bind at 1, gets at 1. cbn [dw_events]. fold scope. fold e.
  assert (length (list_events (Some w) None (Some INJECTION) (Some (t - esc_window esc)%Z) scope (dw_events s ++ [e])) = n)
    as ->.
  { rewrite list_events_attempts. unfold attempts. rewrite filter_app, length_app. unfold n, attempts.
    rewrite filter_cons_True; [simpl; lia|]. split_and!; [apply scope_of_own|done|done|]. simpl. lia. }
  destruct (Z.of_nat n <? esc_threshold esc)%Z; [done|]. rewrite Hq.
  unfold bind at 1, on_ext at 1. cbn [dw_events dw_taint dw_ext].
  destruct (quarantine w (quarantine_reason n) scope x2) as [[[]|exn] x3]; [|done].
  unfold bind at 1, new_id at 1, on_ext at 1. cbn [dw_events dw_taint dw_ext].
  pose proof (Hids x3) as Hid2. destruct (gd_new_id g x3) as [id2 x4]. simpl in Hid2.
  unfold bind at 1. rewrite add_new_ok by (done || apply scope_of_own). split; [done|].
  eexists _, _. split; [cbn; by rewrite <-app_assoc|done].
Qed.
End Ops.

(** A guard over a counting clock that quarantines at the second attempt. *)
Definition demo_quarantine (w reason : string) (ctx : TenantContext) (x : Z) : outcome ExecExn unit * Z := (Ret tt, (x + 100)%Z).

Definition demo_escalator : AttemptEscalator Z := escalator 2 3600 (Some demo_quarantine).

Definition demo_guard : DefenseGuard Z :=
  {| gd_scan := λ s, mkScan (if bool_decide (s = "attack") then SCAN_BLOCK else SCAN_ALLOW) [] "1.0.0";
     gd_events := true; gd_escalator := Some demo_escalator; gd_audit := None;
     gd_clock := λ x, (x, (x + 1)%Z); gd_new_id := λ x, ("sec", x) |}.

Definition demo_attack (s : World Z) : outcome ExecExn bool * World Z :=
  record_injection demo_guard demo_escalator (Some "r") (Some "w") None None [] (Some "acme") s.

Lemma injection_quarantines_iff_witness :
  (demo_attack (mkWorld [] ∅ 0%Z)).1 = Ret false ∧ (demo_attack (demo_attack (mkWorld [] ∅ 0%Z)).2).1 = Ret true.
Proof.
  split; [vm_compute; reflexivity|].
  pose proof (injection_quarantines_iff demo_guard demo_escalator demo_quarantine (Some "r") "w" None None [] (Some "acme")
    (demo_attack (mkWorld [] ∅ 0%Z)).2 1%Z 2%Z "sec" 2%Z ltac:(vm_compute; discriminate) eq_refl ltac:(vm_compute; reflexivity)
    eq_refl ltac:(discriminate) ltac:(discriminate) ltac:(vm_compute; reflexivity)) as H.
  revert H. unfold demo_attack at 4. destruct (record_injection demo_guard demo_escalator _ _ _ _ _ _ _) as [o s'].
  vm_compute. intros [-> _]. reflexivity.
Defined.
End Guard.

(** *** Witnesses *)

Lemma taint_gate_follows_lineage_witness :
  let t := Taint.mark_derived "value" "summary" ["taint-1"] (Taint.mark "tool" "web" Taint.UNTRUSTED Taint.fresh) in
  Taint.blocked (Taint.gate_destructive "rm" false t) = true ∧ ∃ i, Taint.untrusted_at (Taint.marks t) i.
Proof.
  intros t. assert (rtc Taint.step Taint.fresh t) as Hr.
  { eapply rtc_l; [apply (Taint.st_mark Taint.fresh "tool" "web" Taint.UNTRUSTED)|].
    eapply rtc_once, (Taint.st_derived _ "value" "summary" ["taint-1"]). }
  assert (Taint.blocked (Taint.gate_destructive "rm" false t) = true) as Hb by (vm_compute; reflexivity).
  split; [exact Hb|]. exact (proj2 (proj1 (proj1 (Taint.taint_gate_follows_lineage t "rm" false Hr)) Hb)).
Defined.
