(* ===== verification/RunStore.v ===== *)
(** * The run store ([execution/store.py], [_BundleStore] and [InMemoryRunStore])

    Every run's bundle (the run, its admission, its event log, its usage and
    its deliveries), keyed by tenant and run identifier.  The file-backed
    subclass only adds persistence hooks and is not modelled. *)

From stdpp Require Import base strings gmap numbers relations sorting list.
From S2P Require Import Prelude Float64 Tenancy CoreModels Guards Policy Admission.

Inductive DeliveryStatus := DELIVERY_PENDING | DELIVERY_DELIVERED | DELIVERY_FAILED.

Record DeliveryRecord := mkDelivery {
  dl_run_id : string; dl_destination_type : string; dl_target : string; dl_status : DeliveryStatus;
  dl_attempts : N; dl_error : option string; dl_timestamp : Z }.

Record RunBundle := mkBundle {
  bu_run : Run;
  bu_admission : option AdmissionResult;
  bu_events : list RunEvent;
  bu_usage : list UsageReport;
  bu_deliveries : list DeliveryRecord;
}.

Abbreviation Bundles := (odict (string * string) RunBundle).
Abbreviation SM := (M Bundles ExecExn).

Open Scope hp_scope.

Definition with_sequence (e : RunEvent) (n : Z) : RunEvent :=
  {| ev_run_id := ev_run_id e; ev_sequence := n; ev_type := ev_type e; ev_actor := ev_actor e;
     ev_timestamp := ev_timestamp e; ev_from_state := ev_from_state e; ev_to_state := ev_to_state e;
     ev_detail := ev_detail e |}.

Definition with_run (b : RunBundle) (r : Run) : RunBundle :=
  {| bu_run := r; bu_admission := bu_admission b; bu_events := bu_events b; bu_usage := bu_usage b;
     bu_deliveries := bu_deliveries b |}.

(** ** Operations *)

(** [_find], with the key it finds the bundle under: the system context sees the
    first run of that identifier in any tenant. *)
Definition find_key (run : string) (ctx : TenantContext) (bs : Bundles) : option (string * string) :=
  if tc_is_system ctx then head (filter (λ k : string * string, k.2 = run) (od_keys bs))
  else if od_mem (tc_tenant_id ctx, run) bs then Some (tc_tenant_id ctx, run) else None.

Definition find (run : string) (ctx : TenantContext) (bs : Bundles) : option RunBundle :=
  k ← find_key run ctx bs; od_get k bs.

(** Apply [f] to the bundle [_require] finds. *)
Definition update_bundle (run : string) (ctx : TenantContext) (f : RunBundle → RunBundle) : SM unit :=
  λ bs, match find_key run ctx bs with
        | None => (Raise (RunNotFoundError run), bs)
        | Some k => match od_get k bs with
                    | None => (Raise (RunNotFoundError run), bs)
                    | Some b => (Ret tt, od_set k (f b) bs)
                    end
        end.

Definition read_bundle {A} (run : string) (ctx : TenantContext) (f : RunBundle → A) : SM A :=
  λ bs, match find run ctx bs with
        | None => (Raise (RunNotFoundError run), bs)
        | Some b => (Ret (f b), bs)
        end.

Definition save_run (r : Run) (ctx : TenantContext) : SM unit :=
  require ExecScopeError ctx (run_tenant_id r) ;;;
  modify (λ bs,
    let key := (run_tenant_id r, run_id r) in
    od_set key
      match od_get key bs with
      | None => {| bu_run := r; bu_admission := None; bu_events := []; bu_usage := []; bu_deliveries := [] |}
      | Some b => with_run b r
      end bs).

Definition get_run (run : string) (ctx : TenantContext) (bs : Bundles) : option Run := bu_run <$> find run ctx bs.

Definition run_matches (workload : option string) (state : option RunState) (finished_after : option Z)
    (states : option (list RunState)) (r : Run) : bool :=
  opt_is workload (run_workload_id r) && opt_is state (run_state r)
  && match states with Some ss => bool_decide (run_state r ∈ ss) | None => true end
  && match finished_after with
     | Some t => match run_finished_at r with Some f => (t <=? f)%Z | None => false end
     | None => true end.

Definition list_runs (workload : option string) (state : option RunState) (finished_after : option Z)
    (states : option (list RunState)) (ctx : TenantContext) (bs : Bundles) : list Run :=
  py_sort (λ a b, (run_created_at a <=? run_created_at b)%Z)
    (filter (λ r, run_matches workload state finished_after states r = true)
       ((λ kb, bu_run kb.2) <$> filter (λ kb : (string * string) * RunBundle, scopes ctx kb.1.1 = true) bs)).

Definition next_sequence (l : list RunEvent) : Z := (foldr (λ e m, Z.max (ev_sequence e) m) (-1) l + 1)%Z.

Definition add_event (e : RunEvent) (ctx : TenantContext) : SM unit :=
  update_bundle (ev_run_id e) ctx (λ b,
    {| bu_run := bu_run b; bu_admission := bu_admission b;
       bu_events := bu_events b ++ [with_sequence e (next_sequence (bu_events b))];
       bu_usage := bu_usage b; bu_deliveries := bu_deliveries b |}).

Definition list_events (run : string) (ctx : TenantContext) : SM (list RunEvent) :=
  read_bundle run ctx (λ b, py_sort (λ a b, (ev_sequence a <=? ev_sequence b)%Z) (bu_events b)).

Definition add_usage (u : UsageReport) (ctx : TenantContext) : SM unit :=
  update_bundle (us_run_id u) ctx (λ b,
    {| bu_run := bu_run b; bu_admission := bu_admission b; bu_events := bu_events b;
       bu_usage := bu_usage b ++ [u]; bu_deliveries := bu_deliveries b |}).

Definition list_usage (run : string) (ctx : TenantContext) : SM (list UsageReport) := read_bundle run ctx bu_usage.

Definition save_admission (a : AdmissionResult) (ctx : TenantContext) : SM unit :=
  update_bundle (ar_run_id a) ctx (λ b,
    {| bu_run := bu_run b; bu_admission := Some a; bu_events := bu_events b; bu_usage := bu_usage b;
       bu_deliveries := bu_deliveries b |}).

Definition get_admission (run : string) (ctx : TenantContext) : SM (option AdmissionResult) :=
  read_bundle run ctx bu_admission.

Definition add_delivery (d : DeliveryRecord) (ctx : TenantContext) : SM unit :=
  update_bundle (dl_run_id d) ctx (λ b,
    {| bu_run := bu_run b; bu_admission := bu_admission b; bu_events := bu_events b; bu_usage := bu_usage b;
       bu_deliveries := bu_deliveries b ++ [d] |}).

Definition list_deliveries (run : string) (ctx : TenantContext) : SM (list DeliveryRecord) :=
  read_bundle run ctx bu_deliveries.

Definition stale (cutoff : Z) (tenant_id : string) (skip : option (string → bool)) (kb : (string * string) * RunBundle)
    : bool :=
  bool_decide (kb.1.1 = tenant_id) && terminal (run_state (bu_run kb.2))
  && (run_updated_at (bu_run kb.2) <? cutoff)%Z
  && negb (match skip with Some f => f (run_id (bu_run kb.2)) | None => false end).

(** The context argument is accepted and ignored. *)
Definition delete_terminal_before (cutoff : Z) (tenant_id : string) (ctx : TenantContext)
    (skip : option (string → bool)) (bs : Bundles) : nat * Bundles :=
  let keys := (filter (λ kb, stale cutoff tenant_id skip kb = true) bs).*1 in
  (length keys, foldl (λ d k, od_del k d) bs keys).

(** Again [ctx] is ignored. *)
Definition purge_tenant (tenant_id : string) (ctx : TenantContext) (bs : Bundles) : nat * Bundles :=
  let keys := filter (λ k : string * string, k.1 = tenant_id) (od_keys bs) in
  (length keys, foldl (λ d k, od_del k d) bs keys).

(** ** The store's invariant *)

(** Bundles are filed under their run's tenant and identifier, and event logs
    are numbered 0, 1, 2, ... in append order. *)
Definition numbered (l : list RunEvent) : Prop := ∀ i e, l !! i = Some e → ev_sequence e = Z.of_nat i.

Definition bundle_inv (k : string * string) (b : RunBundle) : Prop :=
  k = (run_tenant_id (bu_run b), run_id (bu_run b)) ∧ numbered (bu_events b).

Definition store_inv (bs : Bundles) : Prop :=
  od_wf bs ∧ ∀ k b, od_get k bs = Some b → bundle_inv k b.

Lemma next_sequence_numbered l : numbered l → next_sequence l = Z.of_nat (length l).
Proof.
  unfold next_sequence. intros Hl.
  assert (∀ n, (∀ i e, l !! i = Some e → ev_sequence e = Z.of_nat (n + i)) →
    foldr (λ e m, Z.max (ev_sequence e) m) (-1)%Z l = if decide (l = []) then (-1)%Z else (Z.of_nat (n + length l) - 1)%Z) as H.
  { clear Hl. induction l as [|e l IH]; intros n Hn; [done|]. cbn [foldr].
    rewrite (IH (S n)); [|intros i e' Hi; rewrite (Hn (S i) e' Hi); f_equal; lia].
    rewrite (Hn 0%nat e eq_refl). rewrite (decide_False (P := e :: l = [])) by done. simpl.
    destruct l; simpl; case_decide; try done; lia. }
  rewrite (H 0%nat) by (intros i e Hi; by apply Hl). case_decide; [by subst|]. simpl. lia.
Qed.

Lemma numbered_snoc l e : numbered l → numbered (l ++ [with_sequence e (next_sequence l)]).
Proof.
  intros Hl i e'. rewrite lookup_app_Some. intros [Hi|[Hge Hi]]; [by apply Hl|].
  apply list_lookup_singleton_Some in Hi as [Hi <-]. simpl. rewrite next_sequence_numbered by done. lia.
Qed.

Lemma find_key_Some run ctx bs k : find_key run ctx bs = Some k → k.2 = run ∧ scopes ctx k.1 = true ∧ k ∈ od_keys bs.
Proof.
  unfold find_key, scopes. destruct (tc_is_system ctx); simpl.
  - intros Hk. assert (k ∈ filter (λ k : string * string, k.2 = run) (od_keys bs)) as Hin
      by (destruct (filter _ _); [done|]; injection Hk as ->; by left).
    apply list_elem_of_filter in Hin as [? ?]. done.
  - destruct (od_mem _ bs) eqn:Hm; [|done]. intros [= <-]. simpl. rewrite bool_decide_true by done.
    split; [done|]. split; [done|]. by apply od_mem_spec.
Qed.

Lemma find_Some run ctx bs b :
  find run ctx bs = Some b ↔ ∃ k, find_key run ctx bs = Some k ∧ od_get k bs = Some b.
Proof. unfold find. destruct (find_key run ctx bs) as [k|]; simpl; naive_solver. Qed.

Lemma update_bundle_cases run ctx f bs :
  (update_bundle run ctx f bs = (Raise (RunNotFoundError run), bs) ∧ find run ctx bs = None) ∨
  (∃ k b, update_bundle run ctx f bs = (Ret tt, od_set k (f b) bs) ∧
     find_key run ctx bs = Some k ∧ od_get k bs = Some b).
Proof.
  unfold update_bundle, find. destruct (find_key run ctx bs) as [k|] eqn:Hk; simpl; [|by left].
  destruct (od_get k bs) as [b|] eqn:Hb; [right; eauto|by left].
Qed.

Lemma update_bundle_inv run ctx f bs :
  (∀ k b, bundle_inv k b → bundle_inv k (f b)) → store_inv bs → store_inv (update_bundle run ctx f bs).2.
Proof.
  intros Hf [Hwf Hbs]. destruct (update_bundle_cases run ctx f bs) as [[-> _]|(k & b & -> & _ & Hb)]; simpl; [done|].
  split; [by apply od_wf_set|]. intros k' b'. rewrite od_get_set. case_decide as Hk; [|apply Hbs].
  intros [= <-]. subst. by apply Hf, Hbs.
Qed.

Lemma save_run_inv r ctx bs : store_inv bs → store_inv (save_run r ctx bs).2.
Proof.
  intros [Hwf Hbs]. unfold save_run, require, bind. destruct (scopes ctx _); simpl; [|done].
  split; [by apply od_wf_set|]. intros k' b'. rewrite od_get_set. case_decide as Hk; [|apply Hbs].
  intros [= <-]. subst. destruct (od_get _ bs) as [b|] eqn:Hb; [|by split].
  split; [done|]. by apply Hbs in Hb as [_ Hn].
Qed.

Lemma od_del_all {K V} `{EqDecision K} (keys : list K) (d : odict K V) k :
  od_wf d →
  od_wf (foldl (λ d k, od_del k d) d keys) ∧
  od_get k (foldl (λ d k, od_del k d) d keys) = if decide (k ∈ keys) then None else od_get k d.
Proof.
  revert d. induction keys as [|k0 keys IH]; intros d Hwf; simpl; [done|].
  destruct (IH (od_del k0 d) (od_wf_del k0 d Hwf)) as [Hw Hg]. split; [done|]. rewrite Hg, od_get_del by done.
  repeat case_decide; set_solver.
Qed.

Lemma del_all_inv keys bs : store_inv bs → store_inv (foldl (λ d k, od_del k d) bs keys).
Proof.
  intros [Hwf Hbs]. split; [by apply (od_del_all keys bs (EmptyString, EmptyString))|].
  intros k b. rewrite (proj2 (od_del_all keys bs k Hwf)). case_decide; [done|apply Hbs].
Qed.

Inductive store_step : Bundles → Bundles → Prop :=
  | st_save_run r ctx bs : store_step bs (save_run r ctx bs).2
  | st_add_event e ctx bs : store_step bs (add_event e ctx bs).2
  | st_add_usage u ctx bs : store_step bs (add_usage u ctx bs).2
  | st_save_admission a ctx bs : store_step bs (save_admission a ctx bs).2
  | st_add_delivery d ctx bs : store_step bs (add_delivery d ctx bs).2
  | st_delete cutoff t ctx skip bs : store_step bs (delete_terminal_before cutoff t ctx skip bs).2
  | st_purge t ctx bs : store_step bs (purge_tenant t ctx bs).2.

Lemma add_event_inv e ctx bs : store_inv bs → store_inv (add_event e ctx bs).2.
Proof. apply update_bundle_inv. intros k b [Hk Hn]. split; [done|]. by apply numbered_snoc. Qed.

Lemma store_step_inv bs bs' : store_step bs bs' → store_inv bs → store_inv bs'.
Proof.
  destruct 1; intros Hi; auto using save_run_inv, add_event_inv; try by apply del_all_inv.
  all: by apply update_bundle_inv.
Qed.

Lemma reachable_store_inv bs : rtc store_step [] bs → store_inv bs.
Proof.
  intros H. assert (store_inv []) as H0 by (split; [apply od_wf_nil|done]). revert H0.
  induction H as [|a b c Hs _ IH]; [done|]. intros Ha. by apply IH, (store_step_inv a).
Qed.

Lemma numbered_sorted l : numbered l → Sorted (λ a b, (ev_sequence a <=? ev_sequence b)%Z = true) l.
Proof.
  assert (∀ n, (∀ i e, l !! i = Some e → ev_sequence e = Z.of_nat (n + i)) →
    Sorted (λ a b, (ev_sequence a <=? ev_sequence b)%Z = true) l) as H.
  { induction l as [|e l IH]; intros n Hn; [constructor|]. constructor.
    - apply (IH (S n)). intros i e' Hi. rewrite (Hn (S i) e' Hi). f_equal. lia.
    - destruct l as [|e' l]; constructor. rewrite (Hn 0%nat e eq_refl), (Hn 1%nat e' eq_refl). apply Z.leb_le. lia. }
  intros Hl. apply (H 0%nat). intros i e Hi. by apply Hl.
Qed.

(** In every reachable store a run's events are numbered 0, 1, 2, ... in the
    order they were appended, without gaps or repetitions, and listing the
    events returns them in that order. *)
Theorem event_log_gapless bs run ctx events bs' :
  rtc store_step [] bs → list_events run ctx bs = (Ret events, bs') →
  (∀ i e, events !! i = Some e → ev_sequence e = Z.of_nat i) ∧ ∃ b, find run ctx bs = Some b ∧ events = bu_events b.
Proof.
  intros Hr. unfold list_events, read_bundle. destruct (find run ctx bs) as [b|] eqn:Hb; [|done].
  intros [= <- <-]. apply find_Some in Hb as (k & Hk & Hg).
  destruct (proj2 (reachable_store_inv bs Hr) _ _ Hg) as [_ Hn].
  rewrite py_sort_id by by apply numbered_sorted. split; [exact Hn|eauto].
Qed.

(** ** Retention *)

(** Retention deletes exactly the terminal runs of the given tenant that
    were last updated before the cutoff and are not held, and counts them; live
    runs, recent runs and other tenants' runs are kept unchanged. *)
Theorem retention_deletes_only_stale bs cutoff tenant_id ctx skip :
  rtc store_step [] bs →
  let '(n, bs') := delete_terminal_before cutoff tenant_id ctx skip bs in
  (∀ k b, od_get k bs = Some b →
     od_get k bs' = if stale cutoff tenant_id skip (k, b) then None else Some b) ∧
  (∀ k, od_get k bs = None → od_get k bs' = None) ∧
  n = length (filter (λ kb, stale cutoff tenant_id skip kb = true) bs) ∧
  (∀ k b, od_get k bs = Some b → stale cutoff tenant_id skip (k, b) = true →
     k.1 = tenant_id ∧ terminal (run_state (bu_run b)) = true ∧ (run_updated_at (bu_run b) < cutoff)%Z).
Proof.
  intros Hr. destruct (reachable_store_inv bs Hr) as [Hwf _]. unfold delete_terminal_before.
  set (keys := (filter _ bs).*1). split_and!.
  - intros k b Hb. rewrite (proj2 (od_del_all keys bs k Hwf)). case_decide as Hk.
    + apply list_elem_of_fmap in Hk as ([k' b'] & -> & Hin). apply list_elem_of_filter in Hin as [Hs Hin].
      apply od_elem_get in Hin; [|done]. cbn [fst] in *. rewrite Hin in Hb. injection Hb as ->. by rewrite Hs.
    + rewrite Hb. destruct (stale _ _ _ _) eqn:Hs; [|done]. destruct Hk. apply list_elem_of_fmap. exists (k, b).
      split; [done|]. apply list_elem_of_filter. split; [done|]. by apply od_get_Some_elem.
  - intros k Hk. rewrite (proj2 (od_del_all keys bs k Hwf)). by case_decide.
  - unfold keys. by rewrite length_fmap.
  - intros k b _. unfold stale; simpl. rewrite !andb_true_iff, bool_decide_eq_true, Z.ltb_lt. naive_solver.
Qed.

(** Purging a tenant removes all of that tenant's runs and no other, and
    does so for any caller: the tenant context is not consulted. *)
Theorem purge_ignores_context bs tenant_id ctx :
  rtc store_step [] bs →
  let '(n, bs') := purge_tenant tenant_id ctx bs in
  (∀ k, od_get k bs' = if decide (k.1 = tenant_id) then None else od_get k bs) ∧
  n = length (filter (λ k : string * string, k.1 = tenant_id) (od_keys bs)).
Proof.
  intros Hr. destruct (reachable_store_inv bs Hr) as [Hwf _]. unfold purge_tenant. split; [|done].
  intros k. rewrite (proj2 (od_del_all _ bs k Hwf)). case_decide as Hk.
  - apply list_elem_of_filter in Hk as [Hk _]. by rewrite decide_True.
  - case_decide as Ht; [|done]. destruct (od_get k bs) eqn:Hb; [|done]. destruct Hk. apply list_elem_of_filter.
    split; [done|]. apply od_mem_spec. unfold od_mem. by rewrite Hb.
Qed.

(** ** Tenant isolation *)

Lemma update_bundle_frame run ctx f bs k :
  scopes ctx k.1 = false → od_get k (update_bundle run ctx f bs).2 = od_get k bs.
Proof.
  intros Hs. destruct (update_bundle_cases run ctx f bs) as [[-> _]|(k' & b & -> & Hk & _)]; simpl; [done|].
  apply find_key_Some in Hk as (_ & Hsc & _). apply od_get_set_ne. intros ->. congruence.
Qed.

Lemma save_run_frame r ctx bs k : scopes ctx k.1 = false → od_get k (save_run r ctx bs).2 = od_get k bs.
Proof.
  intros Hs. unfold save_run, require, bind. destruct (scopes ctx (run_tenant_id r)) eqn:Hr; simpl; [|done].
  apply od_get_set_ne. intros ->. simpl in Hs. congruence.
Qed.

(** Under a tenant's context no write reaches another tenant's runs (a run
    of another tenant is reported as not found, and saving one raises), and no
    read returns them. *)
Theorem store_tenant_isolation bs ctx k r e u a d run :
  rtc store_step [] bs → scopes ctx k.1 = false →
  od_get k (save_run r ctx bs).2 = od_get k bs ∧
  od_get k (add_event e ctx bs).2 = od_get k bs ∧
  od_get k (add_usage u ctx bs).2 = od_get k bs ∧
  od_get k (save_admission a ctx bs).2 = od_get k bs ∧
  od_get k (add_delivery d ctx bs).2 = od_get k bs ∧
  (∀ r', get_run run ctx bs = Some r' → scopes ctx (run_tenant_id r') = true ∧ run_id r' = run) ∧
  (∀ w st fa sts r', r' ∈ list_runs w st fa sts ctx bs → scopes ctx (run_tenant_id r') = true).
Proof.
  intros Hr Hs. destruct (reachable_store_inv bs Hr) as [Hwf Hbs].
  split_and!; try (by apply update_bundle_frame); [by apply save_run_frame| |].
  - intros r'. unfold get_run. destruct (find run ctx bs) as [b|] eqn:Hf; simpl; [|done]. intros [= <-].
    apply find_Some in Hf as (k' & Hk & Hg). apply find_key_Some in Hk as (Hid & Hsc & _).
    destruct (Hbs _ _ Hg) as [Heq _]. rewrite Heq in *. done.
  - intros w st fa sts r'. unfold list_runs. rewrite py_sort_perm, list_elem_of_filter.
    intros [_ ([k' b] & -> & Hin)%list_elem_of_fmap]. apply list_elem_of_filter in Hin as [Hsc Hin]. simpl in *.
    apply od_elem_get in Hin; [|done]. destruct (Hbs _ _ Hin) as [Heq _]. by rewrite Heq in Hsc.
Qed.

(** ** A concrete store *)

Definition demo_event (t : Z) : RunEvent :=
  {| ev_run_id := "r1"; ev_sequence := 0; ev_type := EV_OPERATOR_ACTION; ev_actor := "op"; ev_timestamp := t;
     ev_from_state := None; ev_to_state := None; ev_detail := None |}.

Definition demo_ctx (t : string) : TenantContext := context_for_run t None None.

Definition demo_finished : Run :=
  run_copy demo_admission_run {| u_state := Some CANCELLED; u_updated_at := Some 7%Z; u_failure_reason := None;
    u_result := None; u_started_at := None; u_finished_at := Some (Some 7%Z); u_trace_id := None; u_sandbox := None;
    u_sandbox_id := None; u_cost_usd := None; u_canary := None |}.

Definition demo_bundles : Bundles :=
  (add_event (demo_event 2) (demo_ctx "acme")
    (add_event (demo_event 1) (demo_ctx "acme") (save_run demo_finished (demo_ctx "acme") []).2).2).2.

Lemma demo_bundles_reachable : rtc store_step [] demo_bundles.
Proof.
  eapply rtc_l; [apply (st_save_run demo_finished (demo_ctx "acme"))|].
  eapply rtc_l; [apply (st_add_event (demo_event 1) (demo_ctx "acme"))|].
  eapply rtc_l; [apply (st_add_event (demo_event 2) (demo_ctx "acme"))|apply rtc_refl].
Qed.

Lemma event_log_gapless_witness :
  ∃ events, list_events "r1" (demo_ctx "acme") demo_bundles = (Ret events, demo_bundles) ∧
    ∀ i e, events !! i = Some e → ev_sequence e = Z.of_nat i.
Proof.
  eexists. split; [vm_compute; reflexivity|].
  eapply (event_log_gapless demo_bundles "r1" (demo_ctx "acme") _ demo_bundles); [apply demo_bundles_reachable|].
  vm_compute. reflexivity.
Defined.

Lemma retention_deletes_only_stale_witness :
  od_get ("acme", "r1") (delete_terminal_before 10 "acme" (demo_ctx "acme") None demo_bundles).2 = None.
Proof.
  pose proof (retention_deletes_only_stale demo_bundles 10 "acme" (demo_ctx "acme") None demo_bundles_reachable) as H.
  destruct (delete_terminal_before 10 "acme" (demo_ctx "acme") None demo_bundles) as [n bs'].
  destruct H as (H & _). cbn [snd]. rewrite (H ("acme", "r1") _ eq_refl). vm_compute. reflexivity.
Defined.

Lemma purge_ignores_context_witness :
  od_get ("acme", "r1") (purge_tenant "acme" (demo_ctx "globex") demo_bundles).2 = None.
Proof.
  pose proof (purge_ignores_context demo_bundles "acme" (demo_ctx "globex") demo_bundles_reachable) as H.
  destruct (purge_tenant "acme" (demo_ctx "globex") demo_bundles) as [n bs'].
  destruct H as (H & _). cbn [snd]. rewrite H. reflexivity.
Defined.

Lemma store_tenant_isolation_witness :
  od_get ("acme", "r1") (add_event (demo_event 3) (demo_ctx "globex") demo_bundles).2
  = od_get ("acme", "r1") demo_bundles.
Proof.
  apply (store_tenant_isolation demo_bundles (demo_ctx "globex") ("acme", "r1") demo_finished (demo_event 3)
    Guards.Manager.demo_usage (refused demo_finished STAGING [] "x")
    {| dl_run_id := "r1"; dl_destination_type := "log"; dl_target := "t"; dl_status := DELIVERY_PENDING;
       dl_attempts := 0; dl_error := None; dl_timestamp := 0 |} "r1" demo_bundles_reachable).
  reflexivity.
Defined.
