(* ===== verification/RunService.v ===== *)
(** * The run service ([execution/service.py])

    Submission, the run state machine, operator interventions, usage accounting
    and preemption, over the run store and the scheduler.

    The other collaborators are the fields of [Env].  Those the code calls
    between reading a run and writing it back (clock, registry, budget, guards,
    sandbox provisioning, ...) act on their own state [X] and cannot touch the
    run store.  Those that may call back into the service while one of its
    methods is still running (executors start agents inline, hooks and fan-out
    run arbitrary code) are computations over the whole world; the theorems
    assume of them only what they prove of the service itself. *)

From stdpp Require Import base strings gmap numbers relations list.
From S2P Require Import Prelude Float64 Tenancy Scheduler CoreModels Guards Policy Budget Admission RunStore.

(** ** Collaborators *)

Record RegistryRecord := mkRegistryRecord {
  rr_manifest : AgentWorkload; rr_current_version : option Z; rr_team : option string }.

(** The whole world of the service: its store, the attached scheduler, and the
    state of everything else. *)
Record World (X : Type) := mkWorld { store : Bundles; sched : option Scheduler; ext : X }.
Arguments mkWorld {X}.
Arguments store {X}.
Arguments sched {X}.
Arguments ext {X}.

Abbreviation SvcM X := (M (World X) ExecExn).

(** A collaborator that only acts on [X]. *)
Abbreviation Op X A := (X → outcome ExecExn A * X).

Record Env (X : Type) := mkEnv {
  clock : X → Z * X;
  current_trace_id : X → option string;
  float_str : f64 → string; (* [str] of a float, recorded in event details *)
  require_active : option (TenantContext → string → Op X unit);
  registry_get : string → TenantContext → Op X RegistryRecord;
  (* [Ret None] stands for [VersionNotFoundError] *)
  registry_get_version : string → Z → TenantContext → Op X (option AgentWorkload);
  increment_production_runs : string → TenantContext → Op X unit;
  (* [true] when the detector action is BLOCK *)
  scan_input : option (Run → AgentWorkload → Op X bool);
  mark_untrusted : Run → Op X unit;
  gates : X → Gates;
  canary_route : option (Run → Op X (option (string * string * option Z)));
  canary_record : Run → SvcM X unit;
  approvals_request : option (Run → string → string → TenantContext → Op X unit);
  budget_record_usage : option (AgentWorkload → UsageReport → TenantContext → Op X BudgetOutcome);
  guards_on_usage : option (Run → UsageReport → option f64 → TenantContext → Op X (option GuardEvent));
  guards_release : string → X → X;
  taint_clear : string → X → X;
  audit_append : option (string → string → string → option string → TenantContext → Op X unit);
  sandbox_provision : option (string → AgentWorkload → Op X string);
  sandbox_destroy : string → Op X unit;
  executor_start : Run → AgentWorkload → bool → SvcM X unit;
  executor_pause : string → SvcM X bool;
  executor_resume : string → SvcM X bool;
  executor_cancel : string → SvcM X unit;
  fanout_notify : Run → AgentWorkload → SvcM X unit;
  fanout_notify_escalation : Run → AgentWorkload → SvcM X unit;
  eval_hook : option (Run → SvcM X unit);
  terminal_hook : option (string → SvcM X unit);
  event_sink : option (Run → SvcM X unit);
}.
Arguments clock {X}. Arguments current_trace_id {X}. Arguments float_str {X}. Arguments require_active {X}.
Arguments registry_get {X}. Arguments registry_get_version {X}. Arguments increment_production_runs {X}.
Arguments scan_input {X}. Arguments mark_untrusted {X}. Arguments gates {X}. Arguments canary_route {X}.
Arguments canary_record {X}. Arguments approvals_request {X}. Arguments budget_record_usage {X}.
Arguments guards_on_usage {X}. Arguments guards_release {X}. Arguments taint_clear {X}. Arguments audit_append {X}.
Arguments sandbox_provision {X}. Arguments sandbox_destroy {X}. Arguments executor_start {X}.
Arguments executor_pause {X}. Arguments executor_resume {X}. Arguments executor_cancel {X}. Arguments fanout_notify {X}.
Arguments fanout_notify_escalation {X}. Arguments eval_hook {X}. Arguments terminal_hook {X}. Arguments event_sink {X}.

Module Service.
Section Service.
Context {X : Type}.
Variable env : Env X.

Open Scope hp_scope.

Definition on_ext {A} (m : Op X A) : SvcM X A :=
  λ w, let '(o, x) := m (ext w) in (o, mkWorld (store w) (sched w) x).

Definition on_store {A} (m : M Bundles ExecExn A) : SvcM X A :=
  λ w, let '(o, s) := m (store w) in (o, mkWorld s (sched w) (ext w)).

(** A scheduler call, when a scheduler is attached. *)
Definition on_sched {A} (default : A) (f : Scheduler → A * Scheduler) : SvcM X A :=
  λ w, match sched w with
       | None => (Ret default, w)
       | Some s => let '(a, s') := f s in (Ret a, mkWorld (store w) (Some s') (ext w))
       end.

Definition now : SvcM X Z := on_ext (λ x, let '(t, x') := clock env x in (Ret t, x')).

Definition release_op (f : X → X) : SvcM X unit := on_ext (λ x, (Ret tt, f x)).

(** ** Reads and event appends *)

Definition require_run (run : string) (ctx : TenantContext) : SvcM X Run :=
  let* s := gets store in of_option (RunNotFoundError run) (get_run run ctx s).

(** [RunEvent] rejects an empty actor or run identifier. *)
Definition append_event (run : string) (t : EventType) (actor : string) (ctx : TenantContext)
    (from_state to_state : option RunState) (detail : option string) : SvcM X unit :=
  let* t0 := now in
  if bool_decide (actor = EmptyString) || bool_decide (run = EmptyString) then raise ExecValueError
  else on_store (add_event
    {| ev_run_id := run; ev_sequence := 0; ev_type := t; ev_actor := actor; ev_timestamp := t0;
       ev_from_state := from_state; ev_to_state := to_state; ev_detail := detail |} ctx).

Definition record_audit (actor action run : string) (detail : option string) (ctx : TenantContext) : SvcM X unit :=
  match audit_append env with
  | Some app => on_ext (app actor action run detail ctx)
  | None => ret tt
  end.

Definition opt_hook {A} (h : option (A → SvcM X unit)) (a : A) : SvcM X unit :=
  match h with Some f => f a | None => ret tt end.

(** Both hooks swallow exceptions. *)
Definition run_terminal_hook (run : string) : SvcM X unit := suppress (opt_hook (terminal_hook env) run).

Definition emit_run_event (r : Run) : SvcM X unit := suppress (opt_hook (event_sink env) r).

(** ** The transition *)

Definition is_terminal (s : RunState) : bool := bool_decide (s ∈ [COMPLETED; FAILED; CANCELLED]).

(** The manifest: a canary run uses the version it was assigned, if it exists. *)
Definition transition_manifest (r : Run) : SvcM X AgentWorkload :=
  let* rec := on_ext (registry_get env (run_workload_id r) (run_ctx r)) in
  match run_canary_rollout_id r, run_manifest_version r with
  | Some _, Some v =>
      let* m := on_ext (registry_get_version env (run_workload_id r) v (run_ctx r)) in
      ret (default (rr_manifest rec) m)
  | _, _ => ret (rr_manifest rec)
  end.

Definition transition_updates (r : Run) (target : RunState) (t : Z) (failure_reason : option string)
    (result : option JsonValue) (trace : option string) : RunUpdate :=
  {| u_state := Some target; u_updated_at := Some t;
     u_failure_reason := match failure_reason with Some f => Some (Some f) | None => None end;
     u_result := match result with Some v => Some (Some v) | None => None end;
     u_started_at := if bool_decide (target = RUNNING) && bool_decide (run_started_at r = None)
                     then Some (Some t) else None;
     u_finished_at := if is_terminal target then Some (Some t) else None;
     u_trace_id := match trace with Some x => Some (Some x) | None => None end;
     u_sandbox := None; u_sandbox_id := None; u_cost_usd := None; u_canary := None |}.

Definition sandbox_id_update (s : string) : RunUpdate :=
  {| u_state := None; u_updated_at := None; u_failure_reason := None; u_result := None; u_started_at := None;
     u_finished_at := None; u_trace_id := None; u_sandbox := None; u_sandbox_id := Some (Some s);
     u_cost_usd := None; u_canary := None |}.

Definition provision (r updated : Run) (target : RunState) (manifest : AgentWorkload) : SvcM X Run :=
  match sandbox_provision env with
  | Some prov =>
      if bool_decide (target = RUNNING) && bool_decide (run_state r = QUEUED) && run_sandbox updated
      then let* sid := on_ext (prov (run_id r) manifest) in ret (run_copy updated (sandbox_id_update sid))
      else ret updated
  | None => ret updated
  end.

Definition start_execution (r updated : Run) (target : RunState) (manifest : AgentWorkload) (actor : string) : SvcM X unit :=
  if bool_decide (target = RUNNING) && bool_decide (run_state r = QUEUED)
  then
    executor_start env updated manifest (run_sandbox updated) ;;;
    match run_sandbox_id updated with
    | Some sid => append_event (run_id r) EV_SANDBOX actor (run_ctx r) None None (Some ("provisioned " +:+ sid))
    | None => ret tt
    end
  else ret tt.

Definition destroy_sandbox (r updated : Run) (target : RunState) (actor : string) : SvcM X unit :=
  match run_sandbox_id updated, sandbox_provision env with
  | Some sid, Some _ =>
      if is_terminal target
      then on_ext (sandbox_destroy env sid) ;;;
           append_event (run_id r) EV_SANDBOX actor (run_ctx r) None None (Some ("destroyed " +:+ sid))
      else ret tt
  | _, _ => ret tt
  end.

Definition visible (updated : Run) : bool := bool_decide (run_shadow_of updated = None) && negb (run_probe updated).

Definition finish (r updated : Run) (target : RunState) (manifest : AgentWorkload) (actor : string) : SvcM X unit :=
  if is_terminal target
  then
    run_terminal_hook (run_id r) ;;;
    on_sched tt (λ s, (tt, complete (run_id r) s)) ;;;
    when (bool_decide (is_Some (guards_on_usage env))) (release_op (guards_release env (run_id r))) ;;;
    release_op (taint_clear env (run_id r)) ;;;
    when (bool_decide (target = COMPLETED) && bool_decide (run_context r = Some PRODUCTION))
      (on_ext (increment_production_runs env (run_workload_id r) (run_ctx r))) ;;;
    when (visible updated) (fanout_notify env updated manifest) ;;;
    when (bool_decide (run_context r = Some PRODUCTION) && visible updated) (opt_hook (eval_hook env) updated) ;;;
    when (bool_decide (is_Some (canary_route env)) && bool_decide (run_canary_rollout_id updated ≠ None))
      (suppress (canary_record env updated)) ;;;
    record_audit actor "transition" (run_id r) (Some (run_state_value target)) (run_ctx r) ;;;
    emit_run_event updated
  else ret tt.

Definition transition (run : string) (target : RunState) (actor : string) (detail failure_reason : option string)
    (result : option JsonValue) (ctx : TenantContext) : SvcM X Run :=
  let* r := require_run run ctx in
  if negb (can_transition (run_state r) target) then raise (IllegalTransitionError run (run_state r) target)
  else
    let* manifest := transition_manifest r in
    let* t := now in
    let* trace := gets (λ w, current_trace_id env (ext w)) in
    let* updated := provision r (run_copy r (transition_updates r target t failure_reason result trace)) target manifest in
    on_store (save_run updated (run_ctx r)) ;;;
    append_event run EV_STATE_CHANGE actor (run_ctx r) (Some (run_state r)) (Some target) detail ;;;
    start_execution r updated target manifest actor ;;;
    destroy_sandbox r updated target actor ;;;
    finish r updated target manifest actor ;;;
    ret updated.

Definition start (run actor : string) (ctx : TenantContext) : SvcM X Run := transition run RUNNING actor None None None ctx.

Definition fail (run actor reason : string) (ctx : TenantContext) : SvcM X Run :=
  let* r := require_run run ctx in
  if negb (can_transition (run_state r) FAILED) then raise (IllegalTransitionError run (run_state r) FAILED)
  else transition run FAILED actor (Some reason) (Some reason) None ctx.

Definition record_event (run : string) (t : EventType) (actor : string) (detail : option string) (ctx : TenantContext)
    : SvcM X unit :=
  let* r := require_run run ctx in append_event run t actor (run_ctx r) None None detail.

Definition checkpoint (run : string) (ctx : TenantContext) : SvcM X Run :=
  let* r := require_run run ctx in
  on_sched tt (λ s, (tt, mark_checkpoint run s)) ;;;
  append_event run EV_STATE_CHANGE "scheduler" (run_ctx r) None None (Some "checkpoint reached (preemptible)") ;;;
  ret r.

(** ** Interventions *)

Definition intervene (run : string) (action : InterventionAction) (actor : string) (ctx : TenantContext) : SvcM X Run :=
  let* r := require_run run ctx in
  let note := append_event run EV_OPERATOR_ACTION actor (run_ctx r) None None (Some (intervention_value action)) in
  let audit := record_audit actor (intervention_value action) run None (run_ctx r) in
  match action with
  | PAUSE =>
      if bool_decide (run_state r ≠ RUNNING) then raise (RunNotIntervenableError run (intervention_value action))
      else
        let* confirmed := executor_pause env run in
        note ;;;
        if negb confirmed then ret r
        else
          let* _ := now in
          let* paused := transition run PAUSED actor None None None ctx in
          audit ;;; ret paused
  | RESUME =>
      if bool_decide (run_state r ≠ PAUSED) then raise (RunNotIntervenableError run (intervention_value action))
      else
        let* resumed := transition run RUNNING actor None None None ctx in
        let* driven := executor_resume env run in
        when (negb driven)
          (let* rec := on_ext (registry_get env (run_workload_id r) (run_ctx r)) in
           executor_start env resumed (rr_manifest rec) (run_sandbox resumed)) ;;;
        note ;;;
        let* _ := now in
        audit ;;; ret resumed
  | STOP =>
      executor_cancel env run ;;;
      note ;;;
      let* _ := now in
      let* cancelled := transition run CANCELLED actor None None None ctx in
      audit ;;; ret cancelled
  end.

(** ** Usage *)

Definition guard_kind_value (k : GuardKind) : string :=
  match k with GK_CONTEXT => "context" | GK_VELOCITY => "velocity" | GK_RETRY => "retry" | GK_BREAKER => "breaker" end.

Definition usage_update (r : Run) (cost : f64) (t : Z) : RunUpdate :=
  {| u_state := None; u_updated_at := Some t; u_failure_reason := None; u_result := None; u_started_at := None;
     u_finished_at := None; u_trace_id := None; u_sandbox := None; u_sandbox_id := None;
     u_cost_usd := Some (f64_add (run_cost_usd r) cost); u_canary := None |}.

(** Price the report; without a budget its own cost stands. *)
Definition price_usage (workload : AgentWorkload) (report : UsageReport) (ctx : TenantContext)
    : SvcM X (f64 * option BudgetCheck) :=
  match budget_record_usage env with
  | Some rec => let* out := on_ext (rec workload report ctx) in ret (bo_cost_usd out, Some (bo_check out))
  | None => ret (us_cost_usd report, None)
  end.

Definition check_guards (run : string) (updated : Run) (report : UsageReport) (check : option BudgetCheck)
    (rctx ctx : TenantContext) : SvcM X Run :=
  match guards_on_usage env with
  | None => ret updated
  | Some on_usage =>
      let* ev := on_ext (on_usage updated report (bc_remaining_usd <$> check) rctx) in
      match ev with
      | None => ret updated
      | Some e =>
          append_event run EV_GUARD "guard" rctx None None (Some (guard_kind_value (ge_guard e) +:+ ": " +:+ ge_reason e)) ;;;
          match ge_action e with
          | GA_PAUSE =>
              if can_transition (run_state updated) PAUSED
              then record_audit "guard" "guard.pause" run (Some (ge_reason e)) rctx ;;;
                   transition run PAUSED "guard" (Some (ge_reason e)) None None ctx
              else ret updated
          | _ => ret updated
          end
      end
  end.

(** The report takes the run's model identity when it names none. *)
Definition identified_report (r : Run) (report : UsageReport) : UsageReport :=
  match us_model_identity report, run_model_identity r with
  | None, Some m => usage_with_model report (Some m)
  | _, _ => report
  end.

Definition record_usage (run : string) (report0 : UsageReport) (ctx : TenantContext) : SvcM X Run :=
  let* r := require_run run ctx in
  let rctx := run_ctx r in
  let* rec := on_ext (registry_get env (run_workload_id r) rctx) in
  let workload := rr_manifest rec in
  if is_terminal (run_state r)
  then append_event run EV_USAGE "adapter" rctx None None
         (Some ("late usage ignored (state=" +:+ run_state_value (run_state r) +:+ ")")) ;;;
       ret r
  else
    let report1 := identified_report r report0 in
    let* priced := price_usage workload report1 rctx in
    let '(cost, check) := priced in
    let report := if f64_eqb cost (us_cost_usd report1) then report1 else usage_with_cost report1 cost in
    on_store (add_usage report rctx) ;;;
    append_event run EV_USAGE "adapter" rctx None None (Some (float_str env cost)) ;;;
    let* t := now in
    let updated := run_copy r (usage_update r cost t) in
    on_store (save_run updated rctx) ;;;
    match check with
    | Some c =>
        if negb (bc_allowed c) then fail run "budget" (reason_or (bc_reason c) "budget exceeded") ctx
        else check_guards run updated report check rctx ctx
    | None => check_guards run updated report check rctx ctx
    end.

(** ** Preemption *)

Definition preempt_victim (rec : PreemptionRecord) (ctx : TenantContext) : SvcM X unit :=
  let detail := Some ("preempted by guaranteed run " +:+ pr_preempted_by rec +:+ " at checkpoint") in
  λ w, match require_run (pr_victim_task_id rec) ctx w with
       | (Raise _, w') => (Ret tt, w')
       | (Ret victim, w') =>
           (when (can_transition (run_state victim) CANCELLED)
              (let* _ := transition (pr_victim_task_id rec) CANCELLED "scheduler" detail None None ctx in ret tt) ;;;
            record_audit "scheduler" "scheduler.preempt" (pr_victim_task_id rec) detail ctx) w'
       end.

Definition register_with_scheduler (r : Run) (qos : QosClass) (priority : Z) (ctx : TenantContext) : SvcM X unit :=
  let* t := now in
  let entry := {| qe_task_id := run_id r; qe_tenant_id := run_tenant_id r; qe_workload := run_workload_id r;
                  qe_team := run_team_id r; qe_run_id := Some (run_id r); qe_qos := qos; qe_priority := priority;
                  qe_attempts := 1; qe_preempted_by := None; qe_submitted_at := t |} in
  let* action := on_sched REJECTED_ACTION (λ s, let '(d, s') := Scheduler.submit entry s in (ad_action d, s')) in
  match action with
  | REJECTED_ACTION => ret tt
  | QUEUED_ACTION =>
      let* t1 := now in
      let* running := on_sched None (dequeue t1) in
      match running with
      | Some e =>
          if bool_decide (qe_task_id e ≠ run_id r) then ret tt
          else if bool_decide (qos = GUARANTEED)
          then
            let* t2 := now in
            let* t3 := now in
            let* rec := on_sched None (preempt t2 t3 (run_id r)) in
            match rec with Some p => preempt_victim p ctx | None => ret tt end
          else ret tt
      | None => ret tt
      end
  end.

(** ** Submission *)

Record Submission := mkSubmission {
  sub_workload : string; sub_caller : string; sub_context : AdmissionContext; sub_task : list (string * JsonValue);
  sub_model_identity : option string; sub_trigger_origin : option TriggerOrigin;
  sub_pipeline_origin : option PipelineOrigin; sub_agent_tool_origin : option AgentToolOrigin;
  sub_require_approval : bool; sub_shadow_of : option string; sub_probe : bool; sub_read_only : bool;
  sub_qos : option QosClass; sub_priority : Z }.

Definition new_run (fresh_id : string) (sub : Submission) (rec : RegistryRecord) (t : Z) (trace : option string)
    (ctx : TenantContext) : Run :=
  {| run_id := fresh_id; run_workload_id := sub_workload sub; run_caller := sub_caller sub; run_state := QUEUED;
     run_model_identity := sub_model_identity sub; run_created_at := t; run_updated_at := t;
     run_started_at := None; run_finished_at := None; run_trigger_origin := sub_trigger_origin sub;
     run_pipeline_origin := sub_pipeline_origin sub; run_agent_tool_origin := sub_agent_tool_origin sub;
     run_manifest_version := rr_current_version rec; run_context := Some (sub_context sub); run_sandbox := false;
     run_task := sub_task sub; run_result := None; run_failure_reason := None; run_cost_usd := f64_zero;
     run_sandbox_id := None; run_trace_id := trace; run_shadow_of := sub_shadow_of sub; run_probe := sub_probe sub;
     run_read_only := sub_read_only sub; run_canary_rollout_id := None; run_canary_arm := None;
     run_tenant_id := tc_tenant_id ctx; run_team_id := tc_team_id ctx; run_attribution_key := tc_attribution_key ctx |}.

(** The validators of [Run] that a submission can violate. *)
Definition run_valid (r : Run) : bool :=
  bool_decide (run_id r ≠ EmptyString) && bool_decide (run_workload_id r ≠ EmptyString)
  && bool_decide (run_caller r ≠ EmptyString) && bool_decide (run_tenant_id r ≠ EmptyString)
  && (String.length (run_tenant_id r) <=? 64)%nat.

Definition scan_task_input (r : Run) (manifest : AgentWorkload) : SvcM X unit :=
  match scan_input env with
  | None => ret tt
  | Some scan =>
      let* block := on_ext (scan r manifest) in
      if negb block then ret tt
      else
        on_ext (mark_untrusted env r) ;;;
        raise (RunAdmissionRefusedError
          {| ar_run_id := run_id r; ar_workload := wl_name manifest; ar_context := default SANDBOX (run_context r);
             ar_outcome := REFUSED;
             ar_checks := [{| ack_step := "defense"; ack_passed := false;
                              ack_reason := Some "task input contains injection patterns";
                              ack_rule := Some "injection.scan" |}];
             ar_sandbox := false; ar_escalation_required := false;
             ar_refused_reason := Some "task input contains injection patterns" |})
  end.

Definition sandbox_update : RunUpdate :=
  {| u_state := None; u_updated_at := None; u_failure_reason := None; u_result := None; u_started_at := None;
     u_finished_at := None; u_trace_id := None; u_sandbox := Some true; u_sandbox_id := None; u_cost_usd := None;
     u_canary := None |}.

Definition state_update (s : RunState) : RunUpdate :=
  {| u_state := Some s; u_updated_at := None; u_failure_reason := None; u_result := None; u_started_at := None;
     u_finished_at := None; u_trace_id := None; u_sandbox := None; u_sandbox_id := None; u_cost_usd := None;
     u_canary := None |}.

Definition canary_update (a : string * string * option Z) : RunUpdate :=
  {| u_state := None; u_updated_at := None; u_failure_reason := None; u_result := None; u_started_at := None;
     u_finished_at := None; u_trace_id := None; u_sandbox := None; u_sandbox_id := None; u_cost_usd := None;
     u_canary := Some a |}.

(** [candidate_version or manifest_version]: version numbers start at one. *)
Definition assign_canary (sub : Submission) (r : Run) : SvcM X Run :=
  match canary_route env with
  | Some route =>
      if bool_decide (sub_context sub = PRODUCTION) && bool_decide (sub_shadow_of sub = None) && negb (sub_probe sub)
      then
        let* a := on_ext (route r) in
        match a with
        | Some (rollout, arm, version) =>
            ret (run_copy r (canary_update (rollout, arm,
                   match version with Some v => if (v =? 0)%Z then run_manifest_version r else Some v
                                    | None => run_manifest_version r end)))
        | None => ret r
        end
      else ret r
  | None => ret r
  end.

(** Hold an escalated run: record the pause, request the approval, notify. *)
Definition escalate (r : Run) (sub : Submission) (res : AdmissionResult) (manifest : AgentWorkload) : SvcM X unit :=
  append_event (run_id r) EV_STATE_CHANGE (sub_caller sub) (run_ctx r) None (Some PAUSED) (Some "escalation") ;;;
  let rule := reason_or (policy_check res ≫= ack_rule) "approvals.required" in
  let reason := reason_or (policy_check res ≫= ack_reason) "approval required" in
  match approvals_request env with
  | Some req => on_ext (req r rule reason (run_ctx r))
  | None => ret tt
  end ;;;
  fanout_notify_escalation env r manifest.

Definition submit (fresh_id : string) (sub : Submission) (ctx : TenantContext) : SvcM X Run :=
  match require_active env with
  | Some req => on_ext (req ctx (tc_tenant_id ctx))
  | None => ret tt
  end ;;;
  let* rec := on_ext (registry_get env (sub_workload sub) ctx) in
  let* t := now in
  let* trace := gets (λ w, current_trace_id env (ext w)) in
  let run0 := new_run fresh_id sub rec t trace ctx in
  if negb (run_valid run0) then raise ExecValueError
  else
    scan_task_input run0 (rr_manifest rec) ;;;
    let* res := (λ w, (admission_check (gates env (ext w)) run0 (rr_manifest rec) (sub_require_approval sub), w)) in
    if bool_decide (ar_outcome res = REFUSED) then raise (RunAdmissionRefusedError res)
    else
      let run1 := if ar_sandbox res then run_copy run0 sandbox_update else run0 in
      let run2 := if ar_escalation_required res then run_copy run1 (state_update PAUSED) else run1 in
      let* r := assign_canary sub run2 in
      on_store (save_run r (run_ctx r)) ;;;
      on_store (save_admission res (run_ctx r)) ;;;
      append_event (run_id r) EV_ADMISSION (sub_caller sub) (run_ctx r) None (Some (run_state r))
        (Some (admission_outcome_value (ar_outcome res))) ;;;
      when (ar_escalation_required res) (escalate r sub res (rr_manifest rec)) ;;;
      let* has_scheduler := gets (λ w, bool_decide (is_Some (sched w))) in
      match sub_qos sub with
      | Some qos =>
          when has_scheduler (register_with_scheduler r qos (sub_priority sub) (run_ctx r)) ;;; ret r
      | None => ret r
      end.
End Service.
End Service.

(** ** What the service guarantees about the store *)
Module Lifecycle.
Import Service.

(** The states a run's log records, in order. *)
Definition log_states (l : list RunEvent) : list RunState := omap ev_to_state l.

(** Consecutive recorded states are equal or a legal transition apart. *)
Definition legal_path (l : list RunState) : Prop :=
  ∀ i a b, l !! i = Some a → l !! S i = Some b → a = b ∨ can_transition a b = true.

(** A run has an identifier; finish times mark exactly the terminal runs; a running or completed run has
    started, a queued one has not. *)
Definition run_ok (r : Run) : Prop :=
  run_id r ≠ EmptyString ∧
  (is_Some (run_finished_at r) ↔ terminal (run_state r) = true) ∧
  (run_state r = RUNNING ∨ run_state r = COMPLETED → is_Some (run_started_at r)) ∧
  (run_state r = QUEUED → run_started_at r = None).

(** The log tells the run's state, and how it got there. *)
Definition bundle_ok (b : RunBundle) : Prop :=
  run_ok (bu_run b) ∧ last (log_states (bu_events b)) = Some (run_state (bu_run b)) ∧
  legal_path (log_states (bu_events b)).

Definition store_ok (s : Bundles) : Prop :=
  store_inv s ∧ ∀ k b, od_get k s = Some b → bundle_ok b.

(** What stays of a run: its identity and provenance, always; everything, once
    it is terminal.  Its state only moves along the state machine. *)
Record same_provenance (r r' : Run) : Prop := {
  pv_id : run_id r' = run_id r;
  pv_tenant : run_tenant_id r' = run_tenant_id r;
  pv_team : run_team_id r' = run_team_id r;
  pv_attribution : run_attribution_key r' = run_attribution_key r;
  pv_workload : run_workload_id r' = run_workload_id r;
  pv_caller : run_caller r' = run_caller r;
  pv_model : run_model_identity r' = run_model_identity r;
  pv_created : run_created_at r' = run_created_at r;
  pv_trigger : run_trigger_origin r' = run_trigger_origin r;
  pv_pipeline : run_pipeline_origin r' = run_pipeline_origin r;
  pv_agent_tool : run_agent_tool_origin r' = run_agent_tool_origin r;
  pv_context : run_context r' = run_context r;
  pv_task : run_task r' = run_task r;
  pv_shadow : run_shadow_of r' = run_shadow_of r;
  pv_probe : run_probe r' = run_probe r;
  pv_read_only : run_read_only r' = run_read_only r;
}.

Definition run_evolves (r r' : Run) : Prop :=
  rtc rs_step (run_state r) (run_state r') ∧ same_provenance r r' ∧ (terminal (run_state r) = true → r' = r).

Definition bundle_evolves (b b' : RunBundle) : Prop :=
  run_evolves (bu_run b) (bu_run b') ∧ bu_events b `prefix_of` bu_events b' ∧ bu_usage b `prefix_of` bu_usage b'.

#[local] Instance run_evolves_preorder : PreOrder run_evolves.
Proof.
  split; [intros r; repeat split; reflexivity|].
  intros a b c (Hab & P1 & Ht1) (Hbc & P2 & Ht2). split; [by etrans|].
  split; [destruct P1, P2; split; congruence|]. intros Ht. pose proof (Ht1 Ht). subst b. by apply Ht2.
Qed.

#[local] Instance bundle_evolves_preorder : PreOrder bundle_evolves.
Proof.
  split; [intros b; repeat split; reflexivity|].
  intros a b c (?&?&?) (?&?&?). split_and!; by etrans.
Qed.

Definition evolves (s s' : Bundles) : Prop :=
  store_ok s → store_ok s' ∧
  ∀ k b, od_get k s = Some b → ∃ b', od_get k s' = Some b' ∧ bundle_evolves b b'.

#[export] Instance evolves_preorder : PreOrder evolves.
Proof.
  split; [intros s Hs; split; [done|]; intros k b Hb; exists b; by split|].
  intros a b c Hab Hbc Ha. destruct (Hab Ha) as [Hb H1]. destruct (Hbc Hb) as [Hc H2]. split; [done|].
  intros k x Hx. destruct (H1 k x Hx) as (y & Hy & E1). destruct (H2 k y Hy) as (z & Hz & E2).
  exists z. split; [done|]. by etrans.
Qed.

Lemma evolves_refl s : evolves s s.
Proof. reflexivity. Qed.

Lemma evolves_assume s s' : (store_ok s → evolves s s') → evolves s s'.
Proof. intros H Hs. by apply H. Qed.

Lemma evolves_trans a b c : evolves a b → evolves b c → evolves a c.
Proof. intros. by etrans. Qed.

(** *** Single steps on the store *)

Lemma put_evolves s k b b' :
  od_get k s = Some b → bundle_inv k b' → bundle_ok b' → bundle_evolves b b' → evolves s (od_set k b' s).
Proof.
  intros Hb Hi Ho He [[Hwf Hs] Hok]. split; [split; [split|]|].
  - by apply od_wf_set.
  - intros k' x. rewrite od_get_set. case_decide; [by intros [= <-]; subst|apply Hs].
  - intros k' x. rewrite od_get_set. case_decide; [by intros [= <-]|apply Hok].
  - intros k' x Hx. rewrite od_get_set. case_decide as Hk; [|by exists x].
    subst. rewrite Hb in Hx. injection Hx as <-. by exists b'.
Qed.

Lemma log_states_snoc l e :
  log_states (l ++ [e]) = log_states l ++ (match ev_to_state e with Some s => [s] | None => [] end).
Proof. unfold log_states. rewrite omap_app. simpl. by destruct (ev_to_state e). Qed.

Lemma legal_path_snoc l a b :
  legal_path l → last l = Some a → a = b ∨ can_transition a b = true → legal_path (l ++ [b]).
Proof.
  intros Hl Ha Hab i x y Hx Hy. apply lookup_app_Some in Hy as [Hy|[Hge Hy]].
  - apply (Hl i x y); [|done]. apply lookup_lt_Some in Hy. rewrite lookup_app_l in Hx by lia. done.
  - apply list_lookup_singleton_Some in Hy as [Hi <-].
    rewrite lookup_app_l in Hx by lia. rewrite last_lookup in Ha.
    replace (pred (length l)) with i in Ha by lia. rewrite Hx in Ha. by injection Ha as ->.
Qed.

(** Appending an event that carries no state, or repeats the current one. *)
Lemma event_bundle_evolves k b e :
  bundle_inv k b → bundle_ok b → (∀ s, ev_to_state e = Some s → s = run_state (bu_run b)) →
  let b' := {| bu_run := bu_run b; bu_admission := bu_admission b;
               bu_events := bu_events b ++ [with_sequence e (next_sequence (bu_events b))];
               bu_usage := bu_usage b; bu_deliveries := bu_deliveries b |} in
  bundle_inv k b' ∧ bundle_ok b' ∧ bundle_evolves b b'.
Proof.
  intros [Hk Hn] (Hr & Hlast & Hpath) He b'. split_and!.
  - split; [done|]. by apply numbered_snoc.
  - split; [done|]. unfold b'; simpl. rewrite log_states_snoc. simpl. destruct (ev_to_state e) as [s|].
    + rewrite (He s eq_refl). split; [by rewrite last_snoc|]. eapply legal_path_snoc; [done..|by left].
    + by rewrite app_nil_r.
  - split; [reflexivity|]. split; [by apply prefix_app_r|done].
Qed.

Lemma add_event_evolves e ctx s :
  (∀ b st, find (ev_run_id e) ctx s = Some b → ev_to_state e = Some st → st = run_state (bu_run b)) →
  evolves s (add_event e ctx s).2.
Proof.
  intros He Hs. unfold add_event. destruct (update_bundle_cases (ev_run_id e) ctx (λ b,
    {| bu_run := bu_run b; bu_admission := bu_admission b;
       bu_events := bu_events b ++ [with_sequence e (next_sequence (bu_events b))];
       bu_usage := bu_usage b; bu_deliveries := bu_deliveries b |}) s) as [[-> _]|(k & b & -> & Hk & Hb)]; simpl.
  - by apply evolves_refl.
  - destruct Hs as [[Hwf Hi] Hok]. destruct (event_bundle_evolves k b e) as (Hi' & Ho' & He'); [by apply Hi|by eapply Hok| |].
    + intros st Hst. apply (He b); [|done]. apply find_Some. eauto.
    + by apply (put_evolves s k b).
Qed.

Lemma add_usage_evolves u ctx s : evolves s (add_usage u ctx s).2.
Proof.
  intros Hs. unfold add_usage. match goal with |- context [update_bundle ?r ?c ?f s] =>
    destruct (update_bundle_cases r c f s) as [[-> _]|(k & b & -> & Hk & Hb)] end; simpl.
  - by apply evolves_refl.
  - destruct Hs as [[Hwf Hi] Hok]. apply (put_evolves s k b); [done|by destruct (Hi _ _ Hb)|by destruct (Hok _ _ Hb)| |done].
    split; [reflexivity|]. split; [done|]. by apply prefix_app_r.
Qed.

(** *** Computations that start from a known store *)
Section Lifecycle.
Context {X : Type}.
Variable env : Env X.

Definition guarantee (w w' : World X) : Prop := evolves (store w) (store w').

#[export] Instance guarantee_preorder : PreOrder guarantee.
Proof. split; [intros w; apply evolves_refl|]. intros a b c Hab Hbc. unfold guarantee in *. by etrans. Qed.

Abbreviation safe m := (keeps guarantee m).

Definition from {A} (s : Bundles) (m : SvcM X A) : Prop := ∀ w, store w = s → evolves s (store (m w).2).

Lemma from_safe {A} (m : SvcM X A) s : safe m → from s m.
Proof. intros Hm w <-. apply Hm. Qed.

Lemma safe_from {A} (m : SvcM X A) : (∀ s, from s m) → safe m.
Proof. intros Hm w. by apply Hm. Qed.

Lemma from_raise {A} e s : from s (raise (A := A) e).
Proof. intros w <-. apply evolves_refl. Qed.

Lemma from_ext_bind {A B} (m : Op X A) (k : A → SvcM X B) s : (∀ a, from s (k a)) → from s (bind (on_ext m) k).
Proof.
  intros Hk w Hw. unfold bind, on_ext. destruct (m (ext w)) as [[a|e] x]; simpl.
  - by apply Hk.
  - rewrite Hw. apply evolves_refl.
Qed.

Lemma from_sched_bind {A B} (d : A) f (k : A → SvcM X B) s : (∀ a, from s (k a)) → from s (bind (on_sched d f) k).
Proof.
  intros Hk w Hw. unfold bind, on_sched. destruct (sched w) as [sc|]; [|by apply Hk].
  destruct (f sc) as [a sc']. by apply Hk.
Qed.

Lemma from_gets_bind {A B} (f : World X → A) (k : A → SvcM X B) s : (∀ a, from s (k a)) → from s (bind (gets f) k).
Proof. intros Hk w Hw. by apply Hk. Qed.

Lemma from_bind_safe {A B} (m : SvcM X A) (k : A → SvcM X B) s :
  from s m → (∀ a, safe (k a)) → from s (bind m k).
Proof.
  intros Hm Hk w Hw. specialize (Hm w Hw). unfold bind. destruct (m w) as [[a|e] w1]; simpl in *; [|done].
  etrans; [exact Hm|apply Hk].
Qed.

Lemma safe_ext {A} (m : Op X A) : safe (on_ext m).
Proof. intros w. unfold on_ext. destruct (m (ext w)). apply evolves_refl. Qed.

Lemma safe_sched {A} (d : A) f : safe (on_sched (X := X) d f).
Proof. intros w. unfold on_sched. destruct (sched w) as [s|]; [|apply evolves_refl]. destruct (f s). apply evolves_refl. Qed.

Lemma safe_now : safe (now env).
Proof. apply safe_ext. Qed.

(** Reading a run: the rest may use what the store says about it. *)
Lemma from_require {B} run ctx (k : Run → SvcM X B) s :
  (∀ b, find run ctx s = Some b → from s (k (bu_run b))) → from s (bind (require_run run ctx) k).
Proof.
  intros Hk w Hw. unfold require_run, bind, gets. rewrite Hw. unfold get_run.
  destruct (find run ctx s) as [b|] eqn:Hf; simpl; [by apply Hk|]. rewrite Hw. apply evolves_refl.
Qed.

(** An append stamps the event with some clock reading. *)
Lemma append_event_eq run t actor ctx fs ts d w :
  actor ≠ EmptyString → run ≠ EmptyString →
  ∃ t0 x, append_event env run t actor ctx fs ts d w =
    let '(o, s) := add_event {| ev_run_id := run; ev_sequence := 0; ev_type := t; ev_actor := actor;
      ev_timestamp := t0; ev_from_state := fs; ev_to_state := ts; ev_detail := d |} ctx (store w) in
    (o, mkWorld s (sched w) x).
Proof.
  intros Ha Hr. unfold append_event, now, bind, on_ext. destruct (clock env (ext w)) as [t0 x].
  rewrite !bool_decide_false by done. by exists t0, x.
Qed.

Lemma from_append_event run t actor ctx fs ts d s :
  (∀ b st, find run ctx s = Some b → ts = Some st → st = run_state (bu_run b)) →
  from s (append_event env run t actor ctx fs ts d).
Proof.
  intros Hst. unfold append_event, now. apply from_ext_bind. intros t0.
  destruct (_ || _); [apply from_raise|]. intros w <-. unfold on_store.
  pose proof (add_event_evolves {| ev_run_id := run; ev_sequence := 0; ev_type := t; ev_actor := actor;
    ev_timestamp := t0; ev_from_state := fs; ev_to_state := ts; ev_detail := d |} ctx (store w)) as Hev.
  destruct (add_event _ ctx (store w)) as [o s']; simpl in *. by apply Hev.
Qed.

Lemma safe_append_event run t actor ctx fs d : safe (append_event env run t actor ctx fs None d).
Proof. apply safe_from. intros s. by apply from_append_event. Qed.

Lemma safe_audit a1 a2 a3 a4 a5 : safe (record_audit env a1 a2 a3 a4 a5).
Proof. unfold record_audit. destruct (audit_append env); [apply safe_ext|apply keeps_ret, _]. Qed.

(** *** Committing a transition *)

Definition transition_result (r : Run) (target : RunState) (u : Run) : Prop :=
  run_state u = target ∧ run_ok u ∧ run_evolves r u.

Lemma nonterminal_not_finished r target : run_ok r → can_transition (run_state r) target = true → run_finished_at r = None.
Proof.
  intros (_ & Hf & _) Hc. destruct (run_finished_at r) as [t|]; [|done].
  rewrite (terminal_no_step (run_state r) target) in Hc; [done|]. apply Hf. eauto.
Qed.

Lemma transition_updates_result r target t fr res tr :
  run_ok r → can_transition (run_state r) target = true →
  transition_result r target (run_copy r (transition_updates r target t fr res tr)).
Proof.
  intros Hok Hc. pose proof (nonterminal_not_finished r target Hok Hc) as Hnf. destruct Hok as (Hid & _ & Hst & Hq).
  split; [done|]. split.
  - unfold run_ok. simpl. rewrite Hnf. split; [done|]. split; [|split].
    + destruct target; simpl; (split; [intros [? ?]; done || eauto|eauto || done]).
    + intros [->| ->]; simpl.
      * case_bool_decide as Hn; simpl; [eauto|]. destruct (run_started_at r); [eauto|done].
      * apply Hst. left. by destruct (run_state r).
    + intros ->. by destruct (run_state r).
  - split; [by apply rtc_once|]. split; [by split|]. intros Ht. by rewrite (terminal_no_step _ _ Ht) in Hc.
Qed.

Lemma sandbox_id_result r target u sid :
  terminal (run_state r) = false →
  transition_result r target u → transition_result r target (run_copy u (sandbox_id_update sid)).
Proof.
  intros Hnt (Hs & (Hid & Hf & Hst & Hq) & (Hp & P & _)). split; [done|]. split; [by split_and!|].
  split; [done|]. split; [by destruct P|]. congruence.
Qed.

(** The bundle [require_run] finds, for a context of any kind, is filed under the
    run's own tenant and identifier. *)
Lemma find_own_key run ctx s b :
  store_ok s → find run ctx s = Some b →
  run_id (bu_run b) = run ∧ od_get (run_tenant_id (bu_run b), run) s = Some b ∧ bundle_ok b ∧
  bundle_inv (run_tenant_id (bu_run b), run) b.
Proof.
  intros [[_ Hi] Hok] Hf. apply find_Some in Hf as (k & Hk & Hg). destruct (find_key_Some _ _ _ _ Hk) as (Hid & _ & _).
  destruct (Hi _ _ Hg) as [Heq Hn]. rewrite Heq in *. simpl in Hid. subst run. split_and!; try done. by eapply Hok.
Qed.

Lemma run_ctx_scopes r : scopes (run_ctx r) (run_tenant_id r) = true.
Proof. unfold scopes, run_ctx. simpl. by rewrite bool_decide_true. Qed.

Lemma find_run_ctx r s b run :
  od_get (run_tenant_id r, run) s = Some b → find_key run (run_ctx r) s = Some (run_tenant_id r, run).
Proof. intros Hb. unfold find_key. simpl. unfold od_mem. by rewrite Hb. Qed.

(** Saving a run under its own context replaces its bundle's run. *)
Lemma save_run_own r u s b :
  run_id u = run_id r → run_tenant_id u = run_tenant_id r → od_get (run_tenant_id r, run_id r) s = Some b →
  save_run u (run_ctx r) s = (Ret tt, od_set (run_tenant_id r, run_id r) (with_run b u) s).
Proof.
  intros Hid Ht Hb. unfold save_run, require, bind, modify. rewrite Ht, run_ctx_scopes. simpl.
  by rewrite Hid, Hb.
Qed.

Lemma add_event_own r e s b :
  ev_run_id e = run_id r → od_get (run_tenant_id r, run_id r) s = Some b →
  add_event e (run_ctx r) s =
  (Ret tt, od_set (run_tenant_id r, run_id r)
     {| bu_run := bu_run b; bu_admission := bu_admission b;
        bu_events := bu_events b ++ [with_sequence e (next_sequence (bu_events b))];
        bu_usage := bu_usage b; bu_deliveries := bu_deliveries b |} s).
Proof.
  intros Hid Hb. unfold add_event, update_bundle. rewrite Hid, (find_run_ctx r s b), Hb by done. done.
Qed.

(** The bundle after a commit: the new run, and the event that tells it. *)
Lemma commit_bundle k b u e :
  bundle_inv k b → bundle_ok b → transition_result (bu_run b) (run_state u) u →
  can_transition (run_state (bu_run b)) (run_state u) = true → ev_to_state e = Some (run_state u) →
  let b' := {| bu_run := u; bu_admission := bu_admission b;
               bu_events := bu_events b ++ [with_sequence e (next_sequence (bu_events b))];
               bu_usage := bu_usage b; bu_deliveries := bu_deliveries b |} in
  bundle_inv k b' ∧ bundle_ok b' ∧ bundle_evolves b b'.
Proof.
  intros [Hk Hn] (Hr & Hlast & Hpath) (Hs & Hok & Hev) Hc He b'. split_and!.
  - split; [|by apply numbered_snoc]. simpl. destruct Hev as (_ & P & _). by rewrite (pv_id _ _ P), (pv_tenant _ _ P).
  - split; [done|]. unfold b'; simpl. rewrite log_states_snoc. simpl. rewrite He.
    split; [by rewrite last_snoc|]. eapply legal_path_snoc; [done..|by right].
  - split; [done|]. split; [by apply prefix_app_r|done].
Qed.

(** A commit, computed: the bundle is replaced at once, then the rest runs. *)
Lemma commit_eq {A} run b u t actor detail (k : SvcM X A) w :
  od_get (run_tenant_id (bu_run b), run_id (bu_run b)) (store w) = Some b → run_id (bu_run b) = run →
  run_id u = run_id (bu_run b) → run_tenant_id u = run_tenant_id (bu_run b) →
  actor ≠ EmptyString → run ≠ EmptyString →
  ∃ e x, ev_to_state e = Some (run_state u) ∧
    bind (on_store (save_run u (run_ctx (bu_run b)))) (λ _,
            bind (append_event env run t actor (run_ctx (bu_run b)) (Some (run_state (bu_run b)))
                    (Some (run_state u)) detail) (λ _, k)) w
    = k (mkWorld (od_set (run_tenant_id (bu_run b), run_id (bu_run b))
           {| bu_run := u; bu_admission := bu_admission b;
              bu_events := bu_events b ++ [with_sequence e (next_sequence (bu_events b))];
              bu_usage := bu_usage b; bu_deliveries := bu_deliveries b |} (store w)) (sched w) x).
Proof.
  intros Hg Hid Hui Hut Ha Hrun.
  unfold bind at 1. unfold on_store at 1. rewrite (save_run_own (bu_run b) u (store w) b) by done. cbn [store sched ext].
  match goal with |- context [append_event env run t actor ?c ?f ?o detail] =>
    unfold bind at 1;
    match goal with |- context [append_event env run t actor c f o detail ?w1] =>
      destruct (append_event_eq run t actor c f o detail w1 Ha Hrun) as (t0 & x0 & ->) end end.
  cbn [store sched ext].
  match goal with |- context [add_event ?ev _ _] => set (e := ev) end.
  rewrite (add_event_own (bu_run b) e _ (with_run b u)); [|by simpl|by rewrite od_get_set_eq].
  rewrite od_set_set. by exists e, x0.
Qed.

Lemma from_commit {A} run ctx s b u t actor detail (k : SvcM X A) :
  find run ctx s = Some b → actor ≠ EmptyString →
  can_transition (run_state (bu_run b)) (run_state u) = true →
  (run_ok (bu_run b) → transition_result (bu_run b) (run_state u) u) → safe k →
  from s (bind (on_store (save_run u (run_ctx (bu_run b)))) (λ _,
            bind (append_event env run t actor (run_ctx (bu_run b)) (Some (run_state (bu_run b)))
                    (Some (run_state u)) detail) (λ _, k))).
Proof.
  intros Hf Ha Hc Hres Hk w <-. apply evolves_assume. intros Hok.
  destruct (find_own_key run ctx (store w) b Hok Hf) as (Hid & Hg & Hbok & Hinv).
  specialize (Hres (proj1 Hbok)). pose proof Hres as (_ & _ & (_ & P & _)). pose proof (pv_id _ _ P) as Hui. pose proof (pv_tenant _ _ P) as Hut. rewrite <-Hid in Hg.
  assert (run ≠ EmptyString) as Hrun by (rewrite <-Hid; apply Hbok).
  destruct (commit_eq run b u t actor detail k w Hg Hid Hui Hut Ha Hrun) as (e & x & He & ->).
  destruct (commit_bundle (run_tenant_id (bu_run b), run_id (bu_run b)) b u e) as (Hi' & Ho' & He');
    [by rewrite Hid|done|done|done|done|].
  match goal with |- context [k ?w'] => pose proof (Hk w') as Hkw end.
  exact (evolves_trans _ _ _ (put_evolves _ _ b _ Hg Hi' Ho' He') Hkw).
Qed.

(** *** The callbacks' side of the contract *)

(** Whatever runs inside a service call may change runs only in the ways the
    service itself may. *)
Record env_safe : Prop := {
  es_start : ∀ r m b, safe (executor_start env r m b);
  es_pause : ∀ id, safe (executor_pause env id);
  es_resume : ∀ id, safe (executor_resume env id);
  es_cancel : ∀ id, safe (executor_cancel env id);
  es_notify : ∀ r m, safe (fanout_notify env r m);
  es_notify_escalation : ∀ r m, safe (fanout_notify_escalation env r m);
  es_canary : ∀ r, safe (canary_record env r);
  es_eval : ∀ r, safe (opt_hook (eval_hook env) r);
  es_terminal : ∀ id, safe (opt_hook (terminal_hook env) id);
  es_sink : ∀ r, safe (opt_hook (event_sink env) r);
}.

Hypothesis Henv : env_safe.

Lemma safe_start_execution r u target m actor : safe (start_execution env r u target m actor).
Proof.
  unfold start_execution. destruct (_ && _); [|apply keeps_ret, _].
  apply keeps_bind; [apply _|apply Henv|intros _]. destruct (run_sandbox_id u); [apply safe_append_event|apply keeps_ret, _].
Qed.

Lemma safe_destroy r u target actor : safe (destroy_sandbox env r u target actor).
Proof.
  unfold destroy_sandbox. destruct (run_sandbox_id u), (sandbox_provision env); try apply keeps_ret, _.
  destruct (is_terminal target); [|apply keeps_ret, _].
  apply keeps_bind; [apply _|apply safe_ext|intros _; apply safe_append_event].
Qed.

Ltac safe_seq := repeat (apply keeps_bind; [apply _| |intros _]).

Lemma safe_finish r u target m actor : safe (finish env r u target m actor).
Proof.
  unfold finish. destruct (is_terminal target); [|apply keeps_ret, _]. safe_seq.
  - apply keeps_suppress; [apply _|apply Henv].
  - apply safe_sched.
  - apply keeps_when, safe_ext; apply _.
  - apply safe_ext.
  - apply keeps_when, safe_ext; apply _.
  - apply keeps_when; [apply _|apply Henv].
  - apply keeps_when; [apply _|apply Henv].
  - apply keeps_when; [apply _|]. apply keeps_suppress; [apply _|apply Henv].
  - apply safe_audit.
  - apply keeps_suppress; [apply _|apply Henv].
Qed.

Lemma from_manifest_bind {B} r (k : AgentWorkload → SvcM X B) s :
  (∀ m, from s (k m)) → from s (bind (transition_manifest env r) k).
Proof.
  intros Hk w Hw. unfold transition_manifest, bind, on_ext.
  destruct (registry_get env _ _ (ext w)) as [[rec|e] x]; simpl; [|rewrite Hw; apply evolves_refl].
  destruct (run_canary_rollout_id r), (run_manifest_version r) as [v|]; try by apply Hk.
  simpl. destruct (registry_get_version env _ _ _ x) as [[m|e] x']; simpl; [by apply Hk|rewrite Hw; apply evolves_refl].
Qed.

Lemma from_provision_bind {B} r u target m (k : Run → SvcM X B) s :
  (∀ u', u' = u ∨ (∃ sid, u' = run_copy u (sandbox_id_update sid)) → from s (k u')) →
  from s (bind (provision env r u target m) k).
Proof.
  intros Hk. unfold provision. destruct (sandbox_provision env) as [prov|]; [|intros w Hw; apply Hk; [by left|done]].
  destruct (_ && _); [|intros w Hw; apply Hk; [by left|done]].
  intros w Hw. unfold bind, on_ext. destruct (prov _ _ (ext w)) as [[sid|e] x]; simpl.
  - apply Hk; [right; by exists sid|done].
  - rewrite Hw. apply evolves_refl.
Qed.

(** *** Every operation is safe *)

Lemma safe_transition run target actor detail fr res ctx :
  actor ≠ EmptyString → safe (transition env run target actor detail fr res ctx).
Proof.
  intros Ha. apply safe_from. intros s. unfold transition. apply from_require. intros b Hb.
  destruct (can_transition (run_state (bu_run b)) target) eqn:Hc; simpl; [|apply from_raise].
  apply from_manifest_bind. intros m. unfold now. apply from_ext_bind. intros t. apply from_gets_bind. intros trace.
  apply from_provision_bind. intros u Hu.
  assert (run_ok (bu_run b) → transition_result (bu_run b) target u) as Hres.
  { intros Hok. pose proof (transition_updates_result (bu_run b) target t fr res trace Hok Hc) as Hr.
    destruct Hu as [->|[sid ->]]; [done|]. apply sandbox_id_result; [|done].
    destruct (terminal (run_state (bu_run b))) eqn:Ht; [|done]. by rewrite (terminal_no_step _ _ Ht) in Hc. }
  assert (run_state u = target) as <- by (by destruct Hu as [->|[sid ->]]).
  eapply from_commit; [done..|].
  safe_seq; [apply safe_start_execution|apply safe_destroy|apply safe_finish|apply keeps_ret, _].
Qed.

Lemma safe_fail run actor reason ctx : actor ≠ EmptyString → safe (fail env run actor reason ctx).
Proof.
  intros Ha. apply safe_from. intros s. unfold fail. apply from_require. intros b _.
  destruct (negb _); [apply from_raise|]. by apply from_safe, safe_transition.
Qed.

Lemma safe_record_event run t actor detail ctx : safe (record_event env run t actor detail ctx).
Proof.
  apply safe_from. intros s. unfold record_event. apply from_require. intros b _. apply from_safe, safe_append_event.
Qed.

Lemma safe_checkpoint run ctx : safe (checkpoint env run ctx).
Proof.
  apply safe_from. intros s. unfold checkpoint. apply from_require. intros b _. apply from_safe.
  safe_seq; [apply safe_sched|apply safe_append_event|apply keeps_ret, _].
Qed.

Lemma safe_intervene run action actor ctx : actor ≠ EmptyString → safe (intervene env run action actor ctx).
Proof.
  intros Ha. apply safe_from. intros s. unfold intervene. apply from_require. intros b _. apply from_safe.
  destruct action.
  - case_bool_decide; [apply keeps_raise, _|]. apply keeps_bind; [apply _|apply Henv|intros ok].
    apply keeps_bind; [apply _|apply safe_append_event|intros _]. destruct (negb ok); [apply keeps_ret, _|].
    apply keeps_bind; [apply _|apply safe_now|intros _]. apply keeps_bind; [apply _|by apply safe_transition|intros p].
    apply keeps_bind; [apply _|apply safe_audit|intros _; apply keeps_ret, _].
  - case_bool_decide; [apply keeps_raise, _|]. apply keeps_bind; [apply _|by apply safe_transition|intros p].
    apply keeps_bind; [apply _|apply Henv|intros ok].
    apply keeps_bind; [apply _| |intros _].
    { apply keeps_when; [apply _|]. apply keeps_bind; [apply _|apply safe_ext|intros rec; apply Henv]. }
    apply keeps_bind; [apply _|apply safe_append_event|intros _].
    apply keeps_bind; [apply _|apply safe_now|intros _].
    apply keeps_bind; [apply _|apply safe_audit|intros _; apply keeps_ret, _].
  - apply keeps_bind; [apply _|apply Henv|intros _]. apply keeps_bind; [apply _|apply safe_append_event|intros _].
    apply keeps_bind; [apply _|apply safe_now|intros _]. apply keeps_bind; [apply _|by apply safe_transition|intros p].
    apply keeps_bind; [apply _|apply safe_audit|intros _; apply keeps_ret, _].
Qed.

Lemma safe_preempt_victim rec ctx : safe (preempt_victim env rec ctx).
Proof.
  intros w. unfold preempt_victim, require_run, bind at 1, gets, of_option.
  destruct (get_run _ ctx (store w)) as [v|]; simpl; [|apply evolves_refl].
  refine (keeps_bind guarantee _ _ _ _ w); [|intros _; apply safe_audit].
  apply keeps_when; [apply _|]. apply keeps_bind; [apply _|by apply safe_transition|intros; apply keeps_ret, _].
Qed.

Lemma safe_register r qos priority ctx : safe (register_with_scheduler env r qos priority ctx).
Proof.
  unfold register_with_scheduler. apply keeps_bind; [apply _|apply safe_now|intros t].
  apply keeps_bind; [apply _|apply safe_sched|intros []]; [|apply keeps_ret, _].
  apply keeps_bind; [apply _|apply safe_now|intros t1]. apply keeps_bind; [apply _|apply safe_sched|intros [e|]]; [|apply keeps_ret, _].
  case_bool_decide; [apply keeps_ret, _|]. case_bool_decide; [|apply keeps_ret, _].
  apply keeps_bind; [apply _|apply safe_now|intros t2]. apply keeps_bind; [apply _|apply safe_now|intros t3].
  apply keeps_bind; [apply _|apply safe_sched|intros [p|]]; [apply safe_preempt_victim|apply keeps_ret, _].
Qed.

(** *** Usage *)

(** The store still holds [r] itself. *)
Definition holds (r : Run) (s : Bundles) : Prop :=
  ∃ b, od_get (run_tenant_id r, run_id r) s = Some b ∧ bu_run b = r.

Definition from_holding {A} (r : Run) (m : SvcM X A) : Prop :=
  ∀ w, holds r (store w) → guarantee w (m w).2.

Lemma from_holding_bind {A B} r (m : SvcM X A) (k : A → SvcM X B) :
  safe m → (∀ w, holds r (store w) → holds r (store (m w).2)) → (∀ a, from_holding r (k a)) →
  from_holding r (bind m k).
Proof.
  intros Hm Hh Hk w Hw. unfold bind. specialize (Hm w). specialize (Hh w Hw).
  destruct (m w) as [[a|e] w1]; simpl in *; [|done]. etrans; [exact Hm|by apply Hk].
Qed.

Lemma update_bundle_holds r run ctx f s :
  (∀ b, bu_run (f b) = bu_run b) → holds r s → holds r (update_bundle run ctx f s).2.
Proof.
  intros Hf (b & Hb & Hr). destruct (update_bundle_cases run ctx f s) as [[-> _]|(k & b0 & -> & _ & Hb0)]; simpl.
  - by exists b.
  - unfold holds. rewrite od_get_set. case_decide as Hk; [|by exists b].
    exists (f b0). split; [done|]. rewrite Hf. subst k. congruence.
Qed.

Lemma append_event_holds r run t actor ctx fs ts d w :
  holds r (store w) → holds r (store (append_event env run t actor ctx fs ts d w).2).
Proof.
  intros Hw. unfold append_event, now, bind, on_ext. destruct (clock env (ext w)) as [t0 x].
  destruct (_ || _); simpl; [done|]. unfold on_store; simpl.
  match goal with |- context [add_event ?e ctx (store w)] =>
    pose proof (update_bundle_holds r run ctx (λ b, {| bu_run := bu_run b; bu_admission := bu_admission b;
      bu_events := bu_events b ++ [with_sequence e (next_sequence (bu_events b))];
      bu_usage := bu_usage b; bu_deliveries := bu_deliveries b |}) (store w) (λ b, eq_refl) Hw) as H;
    change (holds r (add_event e ctx (store w)).2) in H; by destruct (add_event e ctx (store w)) end.
Qed.

Lemma safe_on_store_usage u ctx : safe (on_store (add_usage u ctx)).
Proof.
  intros w. unfold guarantee, on_store. pose proof (add_usage_evolves u ctx (store w)) as H.
  by destruct (add_usage u ctx (store w)).
Qed.

Lemma usage_save_from r cost t : terminal (run_state r) = false →
  from_holding r (on_store (save_run (run_copy r (usage_update r cost t)) (run_ctx r))).
Proof.
  intros Ht w (b & Hb & Hr). unfold guarantee, on_store. subst r.
  rewrite (save_run_own (bu_run b) (run_copy (bu_run b) (usage_update (bu_run b) cost t)) (store w) b) by done. simpl.
  apply evolves_assume. intros [[_ Hi] Hok]. destruct (Hok _ _ Hb) as (Hrok & Hlast & Hpath).
  destruct (Hi _ _ Hb) as [Hk Hn].
  apply (put_evolves _ _ b); [done|by split|by split|]. split; [|by split].
  split; [done|]. split_and!; try done. simpl. congruence.
Qed.

Lemma safe_check_guards run u report check rctx ctx : safe (check_guards env run u report check rctx ctx).
Proof.
  unfold check_guards. destruct (guards_on_usage env) as [on_usage|]; [|apply keeps_ret, _].
  apply keeps_bind; [apply _|apply safe_ext|intros [e|]]; [|apply keeps_ret, _].
  apply keeps_bind; [apply _|apply safe_append_event|intros _]. destruct (ge_action e); try apply keeps_ret, _.
  destruct (can_transition _ _); [|apply keeps_ret, _].
  apply keeps_bind; [apply _|apply safe_audit|intros _; by apply safe_transition].
Qed.

Lemma from_price_bind {B} wl report ctx (k : f64 * option BudgetCheck → SvcM X B) s :
  (∀ p, from s (k p)) → from s (bind (price_usage env wl report ctx) k).
Proof.
  intros Hk. unfold price_usage. destruct (budget_record_usage env) as [rec|]; [|intros w Hw; by apply Hk].
  intros w Hw. unfold bind, on_ext. destruct (rec _ _ _ (ext w)) as [[out|e] x]; simpl; [by apply Hk|].
  rewrite Hw. apply evolves_refl.
Qed.

Lemma safe_record_usage run report ctx : safe (record_usage env run report ctx).
Proof.
  apply safe_from. intros s. unfold record_usage. apply from_require. intros b Hb.
  apply from_ext_bind. intros rec. destruct (is_terminal (run_state (bu_run b))) eqn:Ht.
  { apply from_safe, keeps_bind; [apply _|apply safe_append_event|intros; apply keeps_ret, _]. }
  apply from_price_bind. intros [cost check]. set (rep := if f64_eqb _ _ then _ else _). set (r := bu_run b) in *.
  intros w Hw. apply evolves_assume. intros Hok. destruct (find_own_key run ctx s b Hok Hb) as (Hid & Hg & _ & _).
  assert (holds r (store w)) as Hh by (exists b; rewrite Hw; unfold r; by rewrite Hid).
  rewrite <-Hw. clear Hw Hok Hg. revert w Hh. refine (_ : from_holding r _).
  apply from_holding_bind; [apply safe_on_store_usage| |intros _].
  { intros w Hh. unfold on_store. pose proof (update_bundle_holds r (us_run_id rep) (run_ctx r) (λ b,
      {| bu_run := bu_run b; bu_admission := bu_admission b; bu_events := bu_events b;
         bu_usage := bu_usage b ++ [rep]; bu_deliveries := bu_deliveries b |}) (store w) (λ b, eq_refl) Hh) as H.
    change (holds r (add_usage rep (run_ctx r) (store w)).2) in H. by destruct (add_usage rep (run_ctx r) (store w)). }
  apply from_holding_bind; [apply safe_append_event|intros w; apply append_event_holds|intros _].
  apply from_holding_bind; [apply safe_now| |intros t].
  { intros w Hh. unfold now, on_ext. by destruct (clock env (ext w)). }
  intros w Hh. unfold bind. pose proof (usage_save_from r cost t Ht w Hh) as Hs.
  destruct (on_store _ w) as [[u|e] w1]; simpl in *; [|done]. etrans; [exact Hs|].
  destruct check as [c|]; [destruct (negb _); [by apply safe_fail|]|]; apply safe_check_guards.
Qed.

(** *** Submission *)

Lemma insert_evolves s k b : od_get k s = None → bundle_inv k b → bundle_ok b → evolves s (od_set k b s).
Proof.
  intros Hk Hi Ho [[Hwf Hs] Hok]. split; [split; [split|]|].
  - by apply od_wf_set.
  - intros k' x. rewrite od_get_set. case_decide; [by intros [= <-]; subst|apply Hs].
  - intros k' x. rewrite od_get_set. case_decide; [by intros [= <-]|apply Hok].
  - intros k' x Hx. rewrite od_get_set. case_decide as Hk'; [subst; congruence|]. by exists x.
Qed.

(** A run as admission leaves it: new, queued or held. *)
Definition admitted_run (fresh_id caller tenant : string) (r : Run) : Prop :=
  run_id r = fresh_id ∧ run_tenant_id r = tenant ∧ run_caller r = caller ∧ fresh_id ≠ EmptyString ∧
  caller ≠ EmptyString ∧ (run_state r = QUEUED ∨ run_state r = PAUSED) ∧ run_started_at r = None ∧
  run_finished_at r = None.

Lemma admitted_run_ok fresh_id caller tenant r : admitted_run fresh_id caller tenant r → run_ok r.
Proof.
  intros (Hid & _ & _ & Hne & _ & Hst & Hs & Hf). unfold run_ok. rewrite Hs, Hf, Hid. split_and!; try done.
  - by destruct Hst as [-> | ->]; (split; [intros [? ?]|]).
  - destruct Hst as [-> | ->]; naive_solver.
Qed.

Lemma admission_result_id g r w ra res : admission_check g r w ra = Ret res → ar_run_id res = run_id r.
Proof.
  unfold admission_check. destruct (run_context r); [|done]. destruct (halted g r w); [by intros [= <-]|].
  destruct (g_check_admission g _ _ _) as [[[] ?]|]; simpl; [|by intros [= <-]|done].
  destruct (g_attestation_model g _ _); [|done]. destruct (model_ok _ _); simpl; [|by intros [= <-]].
  destruct (g_budget g _ _ _) as [b|]; [|done]. destruct (bc_allowed b); simpl; [|by intros [= <-]].
  destruct (g_policy g _) as [p|]; [|done]. destruct (bool_decide (pd_outcome p ∈ _)); [by intros [= <-]|].
  destruct (g_sandbox g _ _ _); [|done]. by intros [= <-].
Qed.

Lemma save_run_new r s :
  od_get (run_tenant_id r, run_id r) s = None →
  save_run r (run_ctx r) s = (Ret tt, od_set (run_tenant_id r, run_id r)
    {| bu_run := r; bu_admission := None; bu_events := []; bu_usage := []; bu_deliveries := [] |} s).
Proof. intros Hn. unfold save_run, require, bind, modify. rewrite run_ctx_scopes. simpl. by rewrite Hn. Qed.

Lemma from_create {A} r res fresh_id caller tenant t detail (k : SvcM X A) s :
  admitted_run fresh_id caller tenant r → od_get (tenant, fresh_id) s = None → ar_run_id res = fresh_id →
  (∀ s', holds r s' → from s' k) →
  from s (bind (on_store (save_run r (run_ctx r))) (λ _,
          bind (on_store (save_admission res (run_ctx r))) (λ _,
          bind (append_event env (run_id r) t caller (run_ctx r) None (Some (run_state r)) detail) (λ _, k)))).
Proof.
  intros Hr Hfresh Hres Hk w Hw. pose proof (admitted_run_ok _ _ _ _ Hr) as Hok.
  destruct Hr as (Hid & Htn & Hcl & Hne & Hcne & _).
  assert (od_get (run_tenant_id r, run_id r) s = None) as Hnone by by rewrite Hid, Htn.
  unfold bind at 1, on_store at 1. rewrite Hw, save_run_new by done. cbn [store sched ext].
  unfold bind at 1, on_store at 1. cbn [store sched ext]. unfold save_admission, update_bundle.
  rewrite Hres, <-Hid. erewrite find_run_ctx by apply od_get_set_eq. rewrite od_get_set_eq, od_set_set. cbn [store sched ext].
  unfold bind at 1. match goal with |- context [append_event env ?i ?t caller ?c ?f ?o detail ?w1] =>
    destruct (append_event_eq i t caller c f o detail w1 Hcne ltac:(congruence)) as (t0 & x0 & ->) end.
  cbn [store sched ext]. match goal with |- context [add_event ?ev _ _] => set (e := ev) end.
  erewrite (add_event_own r e) by (done || apply od_get_set_eq). rewrite od_set_set. cbn [fst snd store sched ext bu_run bu_events].
  match goal with |- context [k (mkWorld ?s1 ?sc ?x)] =>
    pose proof (Hk s1 ltac:(eexists; split; [apply od_get_set_eq|done]) (mkWorld s1 sc x) eq_refl) as Hkw end.
  eapply evolves_trans; [|exact Hkw]. apply insert_evolves; [done| |].
  - split; [done|]. simpl. intros i e'. by destruct i; simpl; [intros [= <-]|].
  - split; [done|]. split; [done|]. intros i a b' Ha Hb. simpl in Hb. by destruct i.
Qed.

Lemma safe_escalate r sub res m s :
  (∀ b, find (run_id r) (run_ctx r) s = Some b → run_state (bu_run b) = PAUSED) →
  from s (escalate env r sub res m).
Proof.
  intros Hp. unfold escalate. apply from_bind_safe.
  - apply from_append_event. intros b st Hb [= <-]. by rewrite (Hp b).
  - intros _. apply keeps_bind; [apply _| |intros _; apply Henv].
    destruct (approvals_request env); [apply safe_ext|apply keeps_ret, _].
Qed.

Lemma from_scan_bind {B} r m (k : unit → SvcM X B) s : (∀ u, from s (k u)) → from s (bind (scan_task_input env r m) k).
Proof.
  intros Hk. unfold scan_task_input. destruct (scan_input env) as [scan|]; [|intros w Hw; by apply Hk].
  intros w Hw. unfold bind, on_ext. destruct (scan r m (ext w)) as [[blk|e] x]; simpl; [|rewrite Hw; apply evolves_refl].
  destruct blk; simpl; [|by apply Hk]. destruct (mark_untrusted env r x) as [[u|e] x']; simpl; rewrite Hw; apply evolves_refl.
Qed.

Lemma from_canary_bind {B} sub r (k : Run → SvcM X B) s :
  (∀ r', r' = r ∨ (∃ a, r' = run_copy r (canary_update a)) → from s (k r')) → from s (bind (assign_canary env sub r) k).
Proof.
  intros Hk. unfold assign_canary. destruct (canary_route env) as [route|]; [|intros w Hw; apply Hk; [by left|done]].
  destruct (_ && _ && _); [|intros w Hw; apply Hk; [by left|done]].
  intros w Hw. unfold bind, on_ext. destruct (route r (ext w)) as [[[[[ro arm] v]|]|e] x]; simpl.
  - apply Hk; [right; eauto|done].
  - apply Hk; [by left|done].
  - rewrite Hw. apply evolves_refl.
Qed.

Lemma from_submit fresh_id sub ctx s :
  od_get (tc_tenant_id ctx, fresh_id) s = None → from s (submit env fresh_id sub ctx).
Proof.
  intros Hfresh. unfold submit.
  assert (∀ k : unit → SvcM X Run, (∀ u, from s (k u)) →
    from s (bind (match require_active env with Some req => on_ext (req ctx (tc_tenant_id ctx)) | None => ret tt end) k)) as Hra.
  { intros k Hk. destruct (require_active env); [by apply from_ext_bind|intros w Hw; by apply Hk]. }
  apply Hra. intros _. apply from_ext_bind. intros rec. unfold now. apply from_ext_bind. intros t.
  apply from_gets_bind. intros trace. destruct (run_valid _) eqn:Hv; simpl; [|apply from_raise].
  apply from_scan_bind. intros _. set (run0 := new_run _ _ _ _ _ _) in *.
  intros w Hw. unfold bind at 1.
  destruct (admission_check (gates env (ext w)) run0 (rr_manifest rec) (sub_require_approval sub)) as [res|e] eqn:Hadm;
    [|simpl; rewrite Hw; apply evolves_refl].
  revert w Hw Hadm. intros w Hw Hadm. apply admission_result_id in Hadm. change (run_id run0) with fresh_id in Hadm.
  revert w Hw. refine (_ : from s _). case_bool_decide as Href; [apply from_raise|].
  set (run2 := if ar_escalation_required res then _ else _).
  assert (admitted_run fresh_id (sub_caller sub) (tc_tenant_id ctx) run2 ∧
          (ar_escalation_required res = true → run_state run2 = PAUSED)) as [H2 Hesc].
  { unfold run_valid in Hv. rewrite !andb_true_iff, !bool_decide_eq_true in Hv.
    destruct Hv as [[[[Hid _] Hcl] _] _]. unfold admitted_run, run2.
    destruct (ar_sandbox res), (ar_escalation_required res); simpl; split_and!; auto; done. }
  apply from_canary_bind. intros r Hr.
  assert (admitted_run fresh_id (sub_caller sub) (tc_tenant_id ctx) r ∧
          (ar_escalation_required res = true → run_state r = PAUSED)) as [Hadmr Hescr].
  { destruct Hr as [->|[a ->]]; [done|]. split; [|done]. by destruct H2 as (?&?&?&?&?&?&?&?). }
  eapply from_create; [exact Hadmr|done|done|]. intros s' (b & Hb & Hbr).
  apply from_bind_safe.
  - destruct (ar_escalation_required res); simpl; [|by apply from_safe, keeps_ret, _].
    apply safe_escalate. intros b' Hb'. apply find_Some in Hb' as (k & Hk & Hg).
    rewrite (find_run_ctx r s' b) in Hk by done. injection Hk as <-. rewrite Hb in Hg. injection Hg as <-.
    rewrite Hbr. by apply Hescr.
  - intros _. apply keeps_bind; [apply _|apply keeps_gets, _|intros has]. destruct (sub_qos sub) as [qos|]; [|apply keeps_ret, _].
    apply keeps_bind; [apply _| |intros _; apply keeps_ret, _]. apply keeps_when; [apply _|apply safe_register].
Qed.

(** *** The service as a transition system *)

(** One call of the service, returning or raising.  Submissions draw an
    identifier not in use; every call names its actor. *)
Inductive svc_step : World X → World X → Prop :=
  | sv_submit fresh_id sub ctx w :
      od_get (tc_tenant_id ctx, fresh_id) (store w) = None → svc_step w (submit env fresh_id sub ctx w).2
  | sv_transition run target actor detail fr res ctx w :
      actor ≠ EmptyString → svc_step w (transition env run target actor detail fr res ctx w).2
  | sv_fail run actor reason ctx w : actor ≠ EmptyString → svc_step w (fail env run actor reason ctx w).2
  | sv_intervene run action actor ctx w :
      actor ≠ EmptyString → svc_step w (intervene env run action actor ctx w).2
  | sv_usage run report ctx w : svc_step w (record_usage env run report ctx w).2
  | sv_event run t actor detail ctx w : svc_step w (record_event env run t actor detail ctx w).2
  | sv_checkpoint run ctx w : svc_step w (checkpoint env run ctx w).2.

Lemma svc_step_guarantee w w' : svc_step w w' → guarantee w w'.
Proof.
  destruct 1.
  - by apply from_submit.
  - by apply safe_transition.
  - by apply safe_fail.
  - by apply safe_intervene.
  - apply safe_record_usage.
  - apply safe_record_event.
  - apply safe_checkpoint.
Qed.

Lemma svc_steps_guarantee w w' : rtc svc_step w w' → guarantee w w'.
Proof.
  induction 1 as [|a b c Hs _ IH]; [reflexivity|]. etrans; [by apply svc_step_guarantee|done].
Qed.

Lemma empty_store_ok : store_ok [].
Proof. split; [|done]. split; [apply od_wf_nil|done]. Qed.

(** C1: along any sequence of service calls a run's state only moves along the
    state machine, its identity and provenance never change (identifier, tenant,
    team, attribution, workload, caller, model, creation time, the trigger,
    pipeline and agent-tool it came from, context, task, shadowed run, probe and
    read-only marks), its event and usage logs are only appended to, and once it is terminal it never changes
    again; this holds whatever executors, hooks and notifications do inside
    the calls, as long as they change runs through the service. *)
Theorem run_history w0 w w' k b :
  store w0 = [] → rtc svc_step w0 w → rtc svc_step w w' → od_get k (store w) = Some b →
  ∃ b', od_get k (store w') = Some b' ∧
    rtc rs_step (run_state (bu_run b)) (run_state (bu_run b')) ∧
    same_provenance (bu_run b) (bu_run b') ∧
    bu_events b `prefix_of` bu_events b' ∧ bu_usage b `prefix_of` bu_usage b' ∧
    (terminal (run_state (bu_run b)) = true → bu_run b' = bu_run b).
Proof.
  intros H0 Hw Hw' Hb. apply svc_steps_guarantee in Hw, Hw'. unfold guarantee in Hw, Hw'. rewrite H0 in Hw.
  destruct (Hw empty_store_ok) as [Hok _]. destruct (Hw' Hok) as [_ Hev].
  destruct (Hev k b Hb) as (b' & Hb' & (Hp & P & Ht) & Hes & Hus). exists b'. by split_and!.
Qed.

(** C4: in every reachable world each stored run is consistent: it has a finish
    time exactly when it is terminal, a start time whenever it is running or
    completed and none while queued; its events are numbered without gaps, the
    last state they record is the run's state, and consecutive recorded states
    are legal transitions. *)
Theorem run_records_consistent w0 w k b :
  store w0 = [] → rtc svc_step w0 w → od_get k (store w) = Some b →
  k = (run_tenant_id (bu_run b), run_id (bu_run b)) ∧ run_ok (bu_run b) ∧ numbered (bu_events b) ∧
  last (log_states (bu_events b)) = Some (run_state (bu_run b)) ∧ legal_path (log_states (bu_events b)).
Proof.
  intros H0 Hw Hb. apply svc_steps_guarantee in Hw. unfold guarantee in Hw. rewrite H0 in Hw.
  destruct (Hw empty_store_ok) as [[[_ Hi] Hok] _]. destruct (Hi _ _ Hb), (Hok _ _ Hb) as (?&?&?). by split_and!.
Qed.
End Lifecycle.

(** ** What single calls do *)
Section Outcomes.
Context {X : Type}.
Variable env : Env X.

Lemma require_run_eq run ctx (w : World X) b :
  find run ctx (store w) = Some b → require_run run ctx w = (Ret (bu_run b), w).
Proof. intros Hf. unfold require_run, bind, gets, get_run. by rewrite Hf. Qed.

(** A transition the state machine does not allow is refused and changes
    nothing at all: no write, no event, no callback. *)
Theorem illegal_transition_no_effect run target actor detail fr res ctx (w : World X) b :
  find run ctx (store w) = Some b → can_transition (run_state (bu_run b)) target = false →
  transition env run target actor detail fr res ctx w
  = (Raise (IllegalTransitionError run (run_state (bu_run b)) target), w).
Proof. intros Hf Hc. unfold transition, bind at 1. rewrite (require_run_eq run ctx w b Hf), Hc. done. Qed.

(** A usage report that cannot be priced leaves the run store untouched. *)
Theorem unpriceable_usage_no_effect run report ctx (w : World X) b rec_usage e :
  find run ctx (store w) = Some b → budget_record_usage env = Some rec_usage →
  is_terminal (run_state (bu_run b)) = false →
  (∀ wl rep c x, ∃ x', rec_usage wl rep c x = (Raise e, x')) →
  store (record_usage env run report ctx w).2 = store w ∧ outcome_ok (record_usage env run report ctx w).1 = false.
Proof.
  intros Hf Hb Ht He.
  enough (∃ o x, record_usage env run report ctx w = (Raise o, mkWorld (store w) (sched w) x)) as (o & x & ->) by done.
  unfold record_usage, bind at 1. rewrite (require_run_eq run ctx w b Hf).
  unfold bind at 1, on_ext at 1. destruct (registry_get env _ _ (ext w)) as [[rec|e'] x]; [|eauto].
  rewrite Ht. unfold price_usage. rewrite Hb. unfold bind, on_ext. simpl.
  match goal with |- context [rec_usage ?a ?b ?c ?d] => destruct (He a b c d) as [x' ->] end. eauto.
Qed.
(** *** Exceeding the budget *)

(** The registry answers every lookup. *)
Definition registry_total : Prop :=
  (∀ wl c x, ∃ rec x', registry_get env wl c x = (Ret rec, x')) ∧
  (∀ wl v c x, ∃ m x', registry_get_version env wl v c x = (Ret m, x')).

(** The budget gate answers the report with [out]. *)
Definition budget_answers (r : Run) (report : UsageReport) (w : World X) (out : BudgetOutcome) : Prop :=
  ∃ gate rec x x', budget_record_usage env = Some gate ∧
    registry_get env (run_workload_id r) (run_ctx r) (ext w) = (Ret rec, x) ∧
    gate (rr_manifest rec) (identified_report r report) (run_ctx r) x = (Ret out, x').

Lemma manifest_eq r w : registry_total → ∃ m x, transition_manifest env r w = (Ret m, mkWorld (store w) (sched w) x).
Proof.
  intros [H1 H2]. unfold transition_manifest, bind, on_ext.
  destruct (H1 (run_workload_id r) (run_ctx r) (ext w)) as (rec & x & ->).
  destruct (run_canary_rollout_id r), (run_manifest_version r) as [v|]; try by (exists (rr_manifest rec), x).
  simpl. destruct (H2 (run_workload_id r) v (run_ctx r) x) as (m & x' & ->). simpl. by eexists _, x'.
Qed.

Lemma now_eq w : ∃ t x, now env w = (Ret t, mkWorld (store w) (sched w) x).
Proof. unfold now, on_ext. destruct (clock env (ext w)) as [t x]. by exists t, x. Qed.

Lemma find_tenant run ctx s b :
  tc_is_system ctx = false → find run ctx s = Some b ↔ od_get (tc_tenant_id ctx, run) s = Some b.
Proof.
  intros Hs. unfold find, find_key. rewrite Hs. unfold od_mem.
  destruct (od_get (tc_tenant_id ctx, run) s) as [b0|] eqn:Hb; simpl; [by rewrite Hb|done].
Qed.

(** A transition to a terminal state, once committed, is final: whatever the
    callbacks do afterwards, the run ends as committed. *)
Lemma terminal_transition_final run target actor detail fr ctx w b :
  env_safe env → registry_total → store_ok (store w) → find run ctx (store w) = Some b →
  can_transition (run_state (bu_run b)) target = true → terminal target = true → actor ≠ EmptyString →
  ∃ b', od_get (run_tenant_id (bu_run b), run) (store (transition env run target actor detail fr None ctx w).2) = Some b' ∧
    run_state (bu_run b') = target ∧ (∀ f, fr = Some f → run_failure_reason (bu_run b') = Some f) ∧
    run_cost_usd (bu_run b') = run_cost_usd (bu_run b).
Proof.
  intros Henv Hreg Hok Hf Hc Ht Ha. destruct (find_own_key run ctx (store w) b Hok Hf) as (Hid & Hg & Hbok & Hinv).
  unfold transition. unfold bind at 1. rewrite (require_run_eq run ctx w b Hf), Hc. cbn [negb].
  unfold bind at 1. destruct (manifest_eq (bu_run b) w Hreg) as (m & x & ->).
  unfold bind at 1. destruct (now_eq (mkWorld (store w) (sched w) x)) as (t & x1 & ->). cbn [store sched ext].
  unfold bind at 1, gets at 1. cbn [store sched ext].
  set (u := run_copy (bu_run b) _). unfold bind at 1.
  assert (∀ w', provision env (bu_run b) u target m w' = (Ret u, w')) as ->.
  { intros w'. unfold provision. destruct (sandbox_provision env); [|done].
    by rewrite (bool_decide_false (target = RUNNING)) by by intros ->. }
  pose proof (transition_updates_result (bu_run b) target t fr None (current_trace_id env x1) (proj1 Hbok) Hc) as Hres.
  fold u in Hres. pose proof Hres as (Hut & _ & (_ & P & _)). pose proof (pv_id _ _ P) as Hui. pose proof (pv_tenant _ _ P) as Hutn. clear P.
  match goal with |- context [bind (on_store _) (λ _, bind (append_event _ _ ?ty _ _ _ _ _) (λ _, ?k))] =>
    set (k0 := k); replace (Some target) with (Some (run_state u)) by done;
    destruct (commit_eq env run b u ty actor detail k0 (mkWorld (store w) (sched w) x1)) as (e & x2 & He & ->);
      [by rewrite Hid|done|done|done|done|by rewrite <-Hid; apply Hbok|] end.
  cbn [store sched]. match goal with |- context [k0 ?w'] => set (w1 := w') end.
  assert (guarantee w1 (k0 w1).2) as Hk.
  { apply keeps_bind; [apply _|by apply safe_start_execution|intros _].
    apply keeps_bind; [apply _|apply safe_destroy|intros _].
    apply keeps_bind; [apply _|by apply safe_finish|intros _; apply keeps_ret, _]. }
  destruct (commit_bundle (run_tenant_id (bu_run b), run_id (bu_run b)) b u e) as (Hi' & Ho' & He');
    [by rewrite Hid|done|by rewrite Hut|by rewrite Hut|done|].
  rewrite <-Hid in Hg. pose proof (put_evolves _ _ b _ Hg Hi' Ho' He' Hok) as [Hok1 _].
  destruct (Hk Hok1) as [_ Hev]. rewrite <-Hid.
  destruct (Hev (run_tenant_id (bu_run b), run_id (bu_run b)) _ (od_get_set_eq _ _ _)) as (b' & Hb' & Hr & _).
  exists b'. split; [done|]. destruct Hr as (_ & _ & Hterm). simpl in Hterm.
  rewrite (Hterm Ht). split; [done|]. split; [|done]. intros f ->. done.
Qed.

(** The usage and the cost are on record; what remains is the budget's verdict. *)
Lemma usage_prefix run report ctx w b out :
  store_ok (store w) → tc_is_system ctx = false → find run ctx (store w) = Some b →
  terminal (run_state (bu_run b)) = false → us_run_id report = run →
  budget_answers (bu_run b) report w out → bc_allowed (bo_check out) = false →
  ∃ w1 b1 r, record_usage env run report ctx w = fail env run "budget" r ctx w1 ∧
    r = reason_or (bc_reason (bo_check out)) "budget exceeded" ∧
    store_ok (store w1) ∧ find run ctx (store w1) = Some b1 ∧ length (bu_usage b1) = S (length (bu_usage b)) ∧
    run_state (bu_run b1) = run_state (bu_run b) ∧
    run_cost_usd (bu_run b1) = f64_add (run_cost_usd (bu_run b)) (bo_cost_usd out) ∧
    run_tenant_id (bu_run b1) = run_tenant_id (bu_run b).
Proof.
  intros Hok Hsys Hf Ht Hrep (gate & rec & x & x0 & Hbud & Hreg & Hgate) Hden.
  destruct (find_own_key run ctx (store w) b Hok Hf) as (Hid & Hg & Hbok & Hinv).
  assert (tc_tenant_id ctx = run_tenant_id (bu_run b)) as Htn.
  { apply find_tenant in Hf; [|done]. destruct Hok as [[_ Hi] _]. destruct (Hi _ _ Hf) as [Heq _]. by injection Heq. }
  set (r := bu_run b) in *.
  unfold record_usage, bind at 1. rewrite (require_run_eq run ctx w b Hf). fold r.
  unfold bind at 1, on_ext at 1. rewrite Hreg.
  change (is_terminal (run_state r)) with (terminal (run_state r)). rewrite Ht.
  set (report1 := identified_report r report) in *. cbn zeta.
  unfold bind at 1, price_usage. rewrite Hbud. unfold bind at 1, on_ext at 1. cbn [store sched ext]. rewrite Hgate. unfold ret at 1.
  set (rep := if f64_eqb _ _ then _ else _).
  assert (us_run_id rep = run) as Hrid.
  { unfold rep, report1, identified_report. by destruct (f64_eqb _ _), (us_model_identity report), (run_model_identity r). }
  cbn [store sched ext]. unfold bind at 1, on_store at 1. cbn [store sched ext].
  unfold add_usage, update_bundle. rewrite Hrid, (find_run_ctx r (store w) b run Hg), Hg. cbn [store sched ext].
  unfold bind at 1. assert (run ≠ EmptyString) as Hrun by (rewrite <-Hid; apply Hbok).
  match goal with |- context [append_event env run ?t ?a ?c ?f ?o ?d ?w1] =>
    destruct (append_event_eq env run t a c f o d w1 ltac:(done) Hrun) as (t0 & x2 & ->) end. cbn [store sched ext].
  match goal with |- context [add_event ?ev _ _] => set (e := ev) end.
  rewrite <-Hid in Hg |- *. erewrite (add_event_own r e) by (done || apply od_get_set_eq). rewrite od_set_set.
  unfold bind at 1. match goal with |- context [now env ?w1] => destruct (now_eq w1) as (t1 & x3 & ->) end.
  cbn [store sched ext]. set (u := run_copy r (usage_update r (bo_cost_usd out) t1)).
  unfold bind at 1, on_store at 1. cbn [store sched ext].
  erewrite (save_run_own r u) by (done || apply od_get_set_eq). rewrite od_set_set. rewrite Hden. cbn [negb bu_run].
  match goal with |- context [fail env _ "budget" _ ctx ?w1] => exists w1 end. eexists _, _.
  split; [done|]. split; [done|]. cbn [store]. destruct Hok as [[Hwf Hi] Hok'].
  match goal with |- store_ok (od_set ?k ?bb _) ∧ _ => assert (bundle_inv k bb ∧ bundle_ok bb ∧ bundle_evolves b bb) as (Hi' & Ho' & He') end.
  { destruct (event_bundle_evolves (run_tenant_id r, run_id r) b e) as ([H1 H2] & (H3 & H4 & H5) & (H6 & H7 & H8));
      [by rewrite Hid|done|done|]. cbn in *. split_and!; [split; [done|exact H2]|split; [exact H3|by split]|].
    split; [split; [done|split_and!; try done; intros Htt; fold r in Htt; congruence]|]. split; [exact H7|by apply prefix_app_r]. }
  destruct (put_evolves (store w) (run_tenant_id r, run_id r) b _ Hg Hi' Ho' He' (conj (conj Hwf Hi) Hok')) as [Hst _].
  split; [exact Hst|]. split; [apply find_tenant; [done|]; rewrite Htn; apply od_get_set_eq|].
  cbn. rewrite length_app. simpl. split_and!; [lia|done..].
Qed.

(** When a usage report exceeds the budget, a running or paused run ends as
    failed, with the budget's reason and with the usage and its cost on
    record, whatever the callbacks of the transition do. *)
Theorem budget_exceeded_fails_run run report ctx w b out :
  env_safe env → store_ok (store w) → registry_total → tc_is_system ctx = false → find run ctx (store w) = Some b →
  run_state (bu_run b) ∈ [RUNNING; PAUSED] → us_run_id report = run →
  budget_answers (bu_run b) report w out → bc_allowed (bo_check out) = false →
  ∃ b', od_get (run_tenant_id (bu_run b), run) (store (record_usage env run report ctx w).2) = Some b' ∧
    run_state (bu_run b') = FAILED ∧
    run_failure_reason (bu_run b') = Some (reason_or (bc_reason (bo_check out)) "budget exceeded") ∧
    run_cost_usd (bu_run b') = f64_add (run_cost_usd (bu_run b)) (bo_cost_usd out).
Proof.
  intros Henv Hok Hreg Hsys Hf Hst Hrep Hans Hden.
  assert (can_transition (run_state (bu_run b)) FAILED = true ∧ terminal (run_state (bu_run b)) = false) as [Hc Ht]
    by (by destruct (run_state (bu_run b)); try (exfalso; set_solver)).
  destruct (usage_prefix run report ctx w b out) as (w1 & b1 & r & -> & -> & Hok1 & Hf1 & _ & Hs1 & Hc1 & Ht1);
    try done.
  unfold fail, bind at 1. rewrite (require_run_eq run ctx w1 b1 Hf1), Hs1, Hc. cbn [negb].
  match goal with |- context [transition env run FAILED ?a ?d ?f None ctx w1] =>
    destruct (terminal_transition_final run FAILED a d f ctx w1 b1) as (b' & Hb' & Hfs & Hfr & Hcost);
      [done..|by rewrite Hs1|done|done|] end.
  exists b'. rewrite <-Ht1. split_and!; [done|done|by apply Hfr|by rewrite Hcost].
Qed.

(** A queued run whose usage exceeds the budget is not failed: the call
    raises, the run stays queued, with the usage and its cost on record. *)
Theorem budget_exceeded_queued_run_stays run report ctx w b out :
  store_ok (store w) → tc_is_system ctx = false → find run ctx (store w) = Some b →
  run_state (bu_run b) = QUEUED → us_run_id report = run →
  budget_answers (bu_run b) report w out → bc_allowed (bo_check out) = false →
  ∃ w', record_usage env run report ctx w = (Raise (IllegalTransitionError run QUEUED FAILED), w') ∧
  ∃ b', find run ctx (store w') = Some b' ∧ run_state (bu_run b') = QUEUED ∧
    length (bu_usage b') = S (length (bu_usage b)) ∧
    run_cost_usd (bu_run b') = f64_add (run_cost_usd (bu_run b)) (bo_cost_usd out).
Proof.
  intros Hok Hsys Hf Hst Hrep Hans Hden.
  destruct (usage_prefix run report ctx w b out) as (w1 & b1 & r & -> & _ & Hok1 & Hf1 & Hl & Hs1 & Hc1 & _);
    try done; [by rewrite Hst|].
  exists w1. unfold fail, bind at 1. rewrite (require_run_eq run ctx w1 b1 Hf1), Hs1, Hst. split; [done|].
  exists b1. split_and!; try done. by rewrite Hs1.
Qed.
End Outcomes.
End Lifecycle.

(** ** A concrete service

    The clock counts; the registry knows one certified workload; budgets are
    absent or always refuse.  The inline executor drives each run to completion
    while [transition] is still running. *)
Module Demo.
Import Service Lifecycle.

Definition base_env (budget : option (AgentWorkload → UsageReport → TenantContext → Op Z BudgetOutcome))
    (run : Run → AgentWorkload → bool → SvcM Z unit) : Env Z :=
  {| clock := λ x, (x, (x + 1)%Z); current_trace_id := λ _, None; float_str := λ _, "cost";
     require_active := None;
     registry_get := λ _ _ x, (Ret {| rr_manifest := demo_admission_workload CERTIFIED;
                                      rr_current_version := Some 1%Z; rr_team := None |}, x);
     registry_get_version := λ _ _ _ x, (Ret None, x); increment_production_runs := λ _ _ x, (Ret tt, x);
     scan_input := None; mark_untrusted := λ _ x, (Ret tt, x); gates := λ _, demo_gates (Ret false);
     canary_route := None; canary_record := λ _, ret tt; approvals_request := None; budget_record_usage := budget;
     guards_on_usage := None; guards_release := λ _ x, x; taint_clear := λ _ x, x; audit_append := None;
     sandbox_provision := None; sandbox_destroy := λ _ x, (Ret tt, x); executor_start := run;
     executor_pause := λ _, ret true; executor_resume := λ _, ret true; executor_cancel := λ _, ret tt;
     fanout_notify := λ _ _, ret tt; fanout_notify_escalation := λ _ _, ret tt; eval_hook := None;
     terminal_hook := None; event_sink := None |}.

Definition null_start (r : Run) (m : AgentWorkload) (b : bool) : SvcM Z unit := ret tt.

Definition quiet : Env Z := base_env None null_start.

(** Completes the run from inside [executor.start]. *)
Definition inline_start (r : Run) (m : AgentWorkload) (b : bool) : SvcM Z unit :=
  bind (transition quiet (run_id r) COMPLETED "adapter" None None None (run_ctx r)) (λ _, ret tt).

Definition inline : Env Z := base_env None inline_start.

Definition denial : BudgetOutcome :=
  {| bo_check := Budget.exceeded LEVEL_DAY (f64_lit 5 1); bo_cost_usd := f64_lit 7 1 |}.

Definition broke : Env Z := base_env (Some (λ _ _ _ x, (Ret denial, 0%Z))) null_start.

Definition unpriced : Env Z :=
  base_env (Some (λ _ _ _ x, (Raise (ExternalError "UnknownModelPriceError"), x))) null_start.

Lemma base_env_safe budget run : (∀ r m b, keeps guarantee (run r m b)) → env_safe (base_env budget run).
Proof. intros Hr. split; intros; try apply Hr; apply keeps_ret, _. Qed.

Lemma quiet_safe budget : env_safe (base_env budget null_start).
Proof. apply base_env_safe. intros. apply keeps_ret, _. Qed.

Lemma inline_safe : env_safe inline.
Proof.
  apply base_env_safe. intros r m b. unfold inline_start.
  apply keeps_bind; [apply _| |intros; apply keeps_ret, _]. by apply safe_transition; [apply quiet_safe|].
Qed.

Definition sub (caller : string) (qos : option QosClass) : Submission :=
  {| sub_workload := "w"; sub_caller := caller; sub_context := STAGING; sub_task := []; sub_model_identity := None;
     sub_trigger_origin := None; sub_pipeline_origin := None; sub_agent_tool_origin := None;
     sub_require_approval := false; sub_shadow_of := None; sub_probe := false; sub_read_only := false;
     sub_qos := qos; sub_priority := 0 |}.

Definition acme : TenantContext := context_for_run "acme" None None.

Definition w0 : World Z := mkWorld [] None 0%Z.

Definition w_queued (env : Env Z) : World Z := (submit env "r1" (sub "op" None) acme w0).2.

Definition w_done : World Z := (transition inline "r1" RUNNING "op" None None None acme (w_queued inline)).2.

Lemma w_queued_reachable env : rtc (svc_step env) w0 (w_queued env).
Proof. apply rtc_once. by apply sv_submit. Qed.

Lemma w_queued_ok env : env_safe env → store_ok (store (w_queued env)).
Proof.
  intros He. destruct (svc_steps_guarantee env He _ _ (w_queued_reachable env) empty_store_ok) as [H _]. exact H.
Qed.

(** Started, the run is already complete when [transition] returns; it stays so
    under any later call, here a stop request. *)
Lemma run_history_witness :
  ∃ b', od_get ("acme", "r1") (store (intervene inline "r1" STOP "op" acme w_done).2) = Some b' ∧
    run_state (bu_run b') = COMPLETED.
Proof.
  destruct (run_history inline inline_safe w0 w_done (intervene inline "r1" STOP "op" acme w_done).2 ("acme", "r1")
    (default {| bu_run := demo_admission_run; bu_admission := None; bu_events := []; bu_usage := []; bu_deliveries := [] |}
       (od_get ("acme", "r1") (store w_done)))) as (b' & Hb' & _ & _ & _ & _ & Hterm).
  - reflexivity.
  - eapply rtc_r; [apply w_queued_reachable|]. by apply sv_transition.
  - apply rtc_once. by apply sv_intervene.
  - vm_compute. reflexivity.
  - exists b'. split; [exact Hb'|]. rewrite Hterm; vm_compute; reflexivity.
Defined.

Lemma run_records_consistent_witness :
  ∃ b, od_get ("acme", "r1") (store w_done) = Some b ∧ last (log_states (bu_events b)) = Some COMPLETED.
Proof.
  eexists. split; [vm_compute; reflexivity|].
  refine (proj1 (proj2 (proj2 (proj2 (run_records_consistent inline inline_safe w0 w_done ("acme", "r1") _ eq_refl _ _))))).
  - eapply rtc_r; [apply w_queued_reachable|]. by apply sv_transition.
  - vm_compute. reflexivity.
Defined.

Definition the_bundle (w : World Z) : RunBundle :=
  default {| bu_run := demo_admission_run; bu_admission := None; bu_events := []; bu_usage := []; bu_deliveries := [] |}
    (find "r1" acme (store w)).

Lemma illegal_transition_no_effect_witness :
  transition inline "r1" FAILED "op" None None None acme w_done
  = (Raise (IllegalTransitionError "r1" (run_state (bu_run (the_bundle w_done))) FAILED), w_done) ∧
  run_state (bu_run (the_bundle w_done)) = COMPLETED.
Proof.
  split; [|vm_compute; reflexivity].
  apply (illegal_transition_no_effect inline "r1" FAILED "op" None None None acme w_done (the_bundle w_done));
    vm_compute; reflexivity.
Defined.

Definition report : UsageReport :=
  {| us_run_id := "r1"; us_input_tokens := 10; us_output_tokens := 10; us_tool_calls := 0; us_cost_usd := f64_zero;
     us_timestamp := 0; us_model_identity := Some "m"; us_prompt := None; us_response := None; us_latency_ms := None |}.

Lemma unpriceable_usage_no_effect_witness :
  store (record_usage unpriced "r1" report acme (w_queued unpriced)).2 = store (w_queued unpriced).
Proof.
  eapply (unpriceable_usage_no_effect unpriced "r1" report acme (w_queued unpriced));
    [vm_compute; reflexivity|reflexivity|vm_compute; reflexivity|].
  intros wl rep c x. exists x. reflexivity.
Defined.

Lemma broke_total : registry_total broke.
Proof. split; intros; eauto. Qed.

Definition w_running : World Z := (transition broke "r1" RUNNING "op" None None None acme (w_queued broke)).2.

Lemma w_running_ok : store_ok (store w_running).
Proof.
  apply (safe_transition broke (quiet_safe _) "r1" RUNNING "op" None None None acme); [done|].
  apply w_queued_ok, quiet_safe.
Qed.

Lemma budget_exceeded_fails_run_witness :
  ∃ b', od_get ("acme", "r1") (store (record_usage broke "r1" report acme w_running).2) = Some b' ∧
    run_state (bu_run b') = FAILED.
Proof.
  destruct (budget_exceeded_fails_run broke "r1" report acme w_running
    (the_bundle w_running) denial) as (b' & Hb' & Hf & _);
    [apply quiet_safe|apply w_running_ok|apply broke_total|reflexivity|vm_compute; reflexivity| |reflexivity|
     |reflexivity|].
  - assert (run_state (bu_run (the_bundle w_running)) = RUNNING) as -> by (vm_compute; reflexivity). left.
  - eexists _, _, _, _. split_and!; reflexivity.
  - exists b'. split; [exact Hb'|exact Hf].
Defined.

Lemma budget_exceeded_queued_run_stays_witness :
  ∃ w', record_usage broke "r1" report acme (w_queued broke) = (Raise (IllegalTransitionError "r1" QUEUED FAILED), w').
Proof.
  destruct (budget_exceeded_queued_run_stays broke "r1" report acme (w_queued broke)
    (the_bundle (w_queued broke)) denial) as (w' & Hw' & _);
    [apply w_queued_ok, quiet_safe|reflexivity|vm_compute; reflexivity|vm_compute; reflexivity|reflexivity|
     |reflexivity|].
  { eexists _, _, _, _. split_and!; reflexivity. }
  exists w'. exact Hw'.
Defined.

(** *** Preemption through the service *)

Definition config : SchedulerConfig :=
  {| per_workload_limit := 8; per_tenant_limit := 32; max_queue_depth := 1000; aging_seconds := f64_lit 60 1 |}.

Definition ws : World Z := mkWorld [] (Some (scheduler_init config)) 0%Z.

(** A best-effort run is submitted, started and checkpointed; then a guaranteed
    run of [ctx] is submitted. *)
Definition scenario (ctx : TenantContext) : World Z :=
  (submit quiet "g" (sub "op" (Some GUARANTEED)) ctx
    (checkpoint quiet "v" acme
      (transition quiet "v" RUNNING "op" None None None acme
        (submit quiet "v" (sub "op" (Some BEST_EFFORT)) acme ws).2).2).2).2.

Definition state_of (k : string * string) (w : World Z) : option RunState := (λ b, run_state (bu_run b)) <$> od_get k (store w).

Definition queued_tasks (w : World Z) : list string := match sched w with Some s => od_keys (sc_queue s) | None => [] end.

(** Preempting a run of the same tenant cancels it, but its scheduler entry
    stays queued, so the scheduler will start a run that is already over;
    preempting another tenant's run takes its slot and requeues its entry
    while the run itself goes on running. *)
Theorem preempted_run_left_in_queue :
  (state_of ("acme", "v") (scenario acme) = Some CANCELLED ∧ queued_tasks (scenario acme) = ["v"]) ∧
  (let other := context_for_run "globex" None None in
   state_of ("acme", "v") (scenario other) = Some RUNNING ∧ queued_tasks (scenario other) = ["v"]).
Proof. split; split; vm_compute; reflexivity. Qed.
End Demo.
