(* ===== verification/ToolGateway.v ===== *)
(** * The tool gateway ([execution/tools.py])

    Every tool call of a run passes this boundary: run state, allow-list, kill
    switch, circuit breaker, read-only runs, taint, policy, approvals, egress,
    and the shaping and scanning of what the tool returned.

    The gateway's state holds the approvals it has consumed and the components
    it consults: breakers, kill switch, approval records, and the defense
    guard's events and taint.  What lies behind the run service, the registry,
    the tool executor and output shaping acts on a state [X] of its own and
    does not call back into the gateway. *)

From stdpp Require Import base strings gmap sets numbers relations list.
From S2P Require Import Prelude Float64 Tenancy CoreModels Guards Policy Approvals Admission Defense.

Inductive ToolCallOutcome := ALLOWED | DENIED | ESCALATED | BLOCKED_INJECTION.

#[export] Instance ToolCallOutcome_eq_dec : EqDecision ToolCallOutcome.
Proof. solve_decision. Defined.

Record ToolCallRequest := mkRequest {
  rq_tool_id : string;
  rq_action_class : option ActionClass;
  rq_data_sensitivity : DataSensitivity;
  rq_tool_trust : option ToolTrustLevel;
  rq_output : option string;
  rq_host : option string;
  rq_port : option Z;
}.

(** [so_blocked]: the shaped output's injection scan says BLOCK. *)
Record ShapedOutput := mkShaped { so_text : string; so_blocked : bool }.

Record ToolCallResult := mkResult {
  tc_run_id : string;
  tc_tool_id : string;
  tc_outcome : ToolCallOutcome;
  tc_rule : option string;
  tc_reason : option string;
  tc_shaped_output : option ShapedOutput;
  tc_approval_id : option string;
  tc_egress_checked : bool;
}.

(** ** What the gateway needs of the run service *)

Abbreviation Op X A := (X → outcome ExecExn A * X).

Class RunAccess (X : Type) := {
  ra_get : string → TenantContext → Op X Run;
  ra_intervene : string → InterventionAction → string → TenantContext → Op X unit;
  ra_record_event : string → EventType → string → option string → TenantContext → Op X unit;
}.

(** ** Collaborators and state *)

Record GatewayEnv (X : Type) := mkGatewayEnv {
  ge_registry_get : string → TenantContext → Op X AgentWorkload;
  ge_policy : PolicyContext → Op X PolicyDecision;
  ge_shaping : option (AgentWorkload → string → Op X ShapedOutput);
  ge_approvals : bool; (* an approval service is bound *)
  ge_event_sink : option (ApprovalEvent → ApprovalRecord → X → outcome ApprovalExn unit * X);
  ge_escalation_register : option (string → string → X → outcome ApprovalExn unit * X);
  ge_executor : option (string → Op X string);
  ge_defense : option (Guard.DefenseGuard X);
  ge_kill_switch : bool; (* a kill switch is bound *)
  ge_breaker : option Breaker.Config;
  ge_breaker_clock : X → Z * Z; (* the two readings of [allow]; [record] takes the first *)
  ge_clock : X → Z * X;
  ge_new_id : X → string * X; (* identifiers of approval requests *)
}.
Arguments ge_registry_get {X}. Arguments ge_policy {X}. Arguments ge_shaping {X}. Arguments ge_approvals {X}.
Arguments ge_event_sink {X}. Arguments ge_escalation_register {X}. Arguments ge_executor {X}.
Arguments ge_defense {X}. Arguments ge_kill_switch {X}. Arguments ge_breaker {X}. Arguments ge_breaker_clock {X}.
Arguments ge_clock {X}. Arguments ge_new_id {X}.

Record Gateway (X : Type) := mkGateway {
  gw_consumed : gmap string (gset string);
  gw_breakers : Breaker.Registry;
  gw_kill : KillSwitch.t;
  gw_approvals : odict string ApprovalRecord;
  gw_events : list Guard.SecurityEvent;
  gw_taint : Taint.registry;
  gw_ext : X;
}.
Arguments mkGateway {X}. Arguments gw_consumed {X}. Arguments gw_breakers {X}. Arguments gw_kill {X}.
Arguments gw_approvals {X}. Arguments gw_events {X}. Arguments gw_taint {X}. Arguments gw_ext {X}.

Definition trust_for (tools : ToolsSpec) (tool_id : string) : ToolTrustLevel :=
  match filter (λ e, tr_tool_id e = tool_id) (ts_allow tools) with
  | e :: _ => tr_trust_level e
  | [] => ts_default_trust tools
  end.

Definition is_destructive (action_class : option ActionClass) (trust : ToolTrustLevel) : bool :=
  bool_decide (action_class = Some AC_DESTRUCTIVE) || bool_decide (trust = TRUST_DESTRUCTIVE).

Definition terminal_run (s : RunState) : bool := bool_decide (s ∈ [COMPLETED; FAILED; CANCELLED]).

Section Gateway.
Context {X : Type} `{!RunAccess X}.
Variable env : GatewayEnv X.
Abbreviation GM := (M (Gateway X) ExecExn).

Open Scope hp_scope.

(** *** Running a component on its part of the state *)

Definition on_ext {A} (f : Op X A) : GM A :=
  λ w, let '(o, x) := f (gw_ext w) in
       (o, mkGateway (gw_consumed w) (gw_breakers w) (gw_kill w) (gw_approvals w) (gw_events w) (gw_taint w) x).

Definition clock : GM Z := on_ext (λ x, let '(t, x') := ge_clock env x in (Ret t, x')).

Definition on_guard {A} (m : M (Guard.World X) ExecExn A) : GM A :=
  λ w, let '(o, d) := m (Guard.mkWorld (gw_events w) (gw_taint w) (gw_ext w)) in
       (o, mkGateway (gw_consumed w) (gw_breakers w) (gw_kill w) (gw_approvals w)
             (Guard.dw_events d) (Guard.dw_taint d) (Guard.dw_ext d)).

(** The approval service raises its own exceptions. *)
Definition on_approvals {A} (m : M (Approvals.World (X := X)) ApprovalExn A) : GM A :=
  λ w, let '(o, a) := m (Approvals.mkWorld (gw_approvals w) (gw_ext w)) in
       (match o with Ret v => Ret v | Raise _ => Raise (ExternalError "ApprovalError") end,
        mkGateway (gw_consumed w) (gw_breakers w) (gw_kill w) (Approvals.records a) (gw_events w) (gw_taint w)
          (Approvals.ext a)).

Definition breaker_allow (cfg : Breaker.Config) (tool_id : string) : GM bool :=
  λ w, let '(now1, now2) := ge_breaker_clock env (gw_ext w) in
       let '(b, r) := Breaker.allow cfg now1 now2 "tool" tool_id (gw_breakers w) in
       (Ret b, mkGateway (gw_consumed w) r (gw_kill w) (gw_approvals w) (gw_events w) (gw_taint w) (gw_ext w)).

Definition breaker_record (cfg : Breaker.Config) (tool_id : string) (success : bool) : GM unit :=
  λ w, let '(now, _) := ge_breaker_clock env (gw_ext w) in
       let '(o, r) := Breaker.record cfg now "tool" tool_id success (gw_breakers w) in
       (match o with Ret _ => Ret tt | Raise _ => Raise (ExternalError "CircuitBreaker") end,
        mkGateway (gw_consumed w) r (gw_kill w) (gw_approvals w) (gw_events w) (gw_taint w) (gw_ext w)).

(** *** Consumed approvals *)

Definition with_consumed (c : gmap string (gset string)) (w : Gateway X) : Gateway X :=
  mkGateway c (gw_breakers w) (gw_kill w) (gw_approvals w) (gw_events w) (gw_taint w) (gw_ext w).

Definition reset_drive (run_id : string) : GM unit :=
  modify (λ w, with_consumed (delete run_id (gw_consumed w)) w).

Definition consume (run_id approval_id : string) : GM unit :=
  modify (λ w, with_consumed (<[run_id := {[approval_id]} ∪ default ∅ (gw_consumed w !! run_id)]> (gw_consumed w)) w).

Definition consumed_ids (run_id : string) : GM (gset string) := gets (λ w, default ∅ (gw_consumed w !! run_id)).

(** The first approved request for this run, rule and tool not consumed yet. *)
Definition granted_approval (run_id rule tool_id : string) (ctx : TenantContext) : GM (option ApprovalRecord) :=
  if negb (ge_approvals env) then ret None
  else
    let* used := consumed_ids run_id in
    let* d := gets gw_approvals in
    ret (head (filter (λ r, ap_rule r = rule ∧ ap_tool_id r = Some tool_id ∧ ap_approval_id r ∉ used)
                      (list_approvals (Some APPROVED) None (Some run_id) ctx d))).

Definition escalate (r : Run) (workload : string) (decision : PolicyDecision) (request : ToolCallRequest)
    (ctx : TenantContext) : GM (option string) :=
  when (bool_decide (run_state r = RUNNING)) (on_ext (ra_intervene (run_id r) PAUSE "policy" ctx)) ;;;
  if negb (ge_approvals env) then ret None
  else
    let* id := on_ext (λ x, let '(i, x') := ge_new_id env x in (Ret i, x')) in
    let* now := clock in
    let* record := on_approvals (Approvals.request (ge_event_sink env) (ge_escalation_register env) id now (run_id r)
                     workload (pd_rule decision) (pd_reason decision) (rq_action_class request)
                     (Some (rq_tool_id request)) (Some (run_tenant_id r)) (Some ctx)) in
    ret (Some (ap_approval_id record)).

(** *** The call *)

Definition denied (run_id : string) (request : ToolCallRequest) (rule reason : string) : ToolCallResult :=
  mkResult run_id (rq_tool_id request) DENIED (Some rule) (Some reason) None None false.

Definition result (run_id : string) (request : ToolCallRequest) (o : ToolCallOutcome) (d : PolicyDecision)
    (shaped : option ShapedOutput) (approval_id : option string) (egress_checked : bool) : ToolCallResult :=
  mkResult run_id (rq_tool_id request) o (Some (pd_rule d)) (Some (pd_reason d)) shaped approval_id egress_checked.

Definition check_egress (run_id : string) (w : AgentWorkload) (request : ToolCallRequest) (tenant_id : string)
    : GM (option ToolCallResult) :=
  match rq_host request with
  | None => ret None
  | Some host =>
      match ge_defense env with
      | Some g =>
          let* d := on_guard (Guard.check_egress g run_id (wl_name w) (rq_tool_id request) host (rq_port request)
                                (wl_sandbox w) (Some tenant_id)) in
          ret (if Egress.allowed d then None
               else Some (denied run_id request "egress.denied" (Egress.reason d)))
      | None =>
          let spec := match wl_sandbox w with
                      | Some s => sb_egress s | None => mkEgressSpec [] [] EGRESS_RESTRICTED end in
          ret (if Egress.guard_check spec host (rq_port request) then None
               else Some (denied run_id request "egress.denied" ("egress to " +:+ py_repr host +:+ " is blocked")))
      end
  end.

Definition resolve_output (request : ToolCallRequest) : GM (option string) :=
  match rq_output request with
  | Some out => ret (Some out)
  | None =>
      match ge_executor env with
      | None => ret None
      | Some execute => let* out := on_ext (execute (rq_tool_id request)) in ret (Some out)
      end
  end.

Definition opt_when {A} (o : option A) (f : A → GM unit) : GM unit := match o with Some a => f a | None => ret tt end.

(** An exception of the tool counts as a failure and is passed on. *)
Definition resolve_recorded (request : ToolCallRequest) : GM (option string) :=
  let* out := try_except (resolve_output request)
    (λ e, opt_when (ge_breaker env) (λ cfg, breaker_record cfg (rq_tool_id request) false) ;;; raise e) in
  opt_when (ge_breaker env) (λ cfg, breaker_record cfg (rq_tool_id request) true) ;;;
  ret out.

Definition shape (w : AgentWorkload) (output : option string) : GM (option ShapedOutput) :=
  match output, ge_shaping env with
  | Some out, Some apply =>
      if wl_output_shaping w then let* s := on_ext (apply w out) in ret (Some s) else ret None
  | _, _ => ret None
  end.

Definition injection_result (run_id : string) (request : ToolCallRequest) (shaped : option ShapedOutput) : ToolCallResult :=
  mkResult run_id (rq_tool_id request) BLOCKED_INJECTION (Some "injection.scan")
    (Some "tool output contains injection patterns") shaped None false.

(** The defense scan of the output: [true] when it blocks; otherwise the output
    taints the run. *)
Definition scan_blocks (run_id : string) (w : AgentWorkload) (request : ToolCallRequest) (output : option string)
    (tenant_id : string) : GM bool :=
  match ge_defense env, output with
  | Some g, Some out =>
      let* scan := on_guard (Guard.scan_output g run_id (wl_name w) (rq_tool_id request) out (Some tenant_id)) in
      if bool_decide (Guard.sr_action scan = Guard.SCAN_BLOCK) then ret true
      else on_guard (Guard.mark_untrusted run_id (rq_tool_id request) "tool") ;;; ret false
  | _, _ => ret false
  end.

(** Past every gate: egress, the tool itself, its breaker, shaping and scans. *)
Definition execute_call (run_id : string) (r : Run) (w : AgentWorkload) (request : ToolCallRequest) (ctx : TenantContext)
    (decision : PolicyDecision) (approval_id : option string) : GM ToolCallResult :=
  let* egress := check_egress run_id w request (run_tenant_id r) in
  match egress with
  | Some refusal => ret refusal
  | None =>
      let* output := resolve_recorded request in
      let* shaped := shape w output in
      let* blocked := scan_blocks run_id w request output (run_tenant_id r) in
      if (blocked : bool) then ret (injection_result run_id request shaped)
      else if from_option so_blocked false shaped then ret (injection_result run_id request shaped)
      else
        on_ext (ra_record_event run_id EV_TOOL_CALL "adapter" (Some (rq_tool_id request)) ctx) ;;;
        ret (result run_id request ALLOWED decision shaped approval_id (bool_decide (rq_host request ≠ None)))
  end.

(** The gates in front of the policy, in the order of the code. *)
Definition kill_gate (run_id : string) (request : ToolCallRequest) : GM (option ToolCallResult) :=
  let* k := gets gw_kill in
  ret (if ge_kill_switch env && KillSwitch.is_disabled (rq_tool_id request) k
       then Some (denied run_id request "kill_switch" ("tool " +:+ py_repr (rq_tool_id request) +:+ " is disabled fleet-wide"))
       else None).

Definition breaker_gate (run_id : string) (request : ToolCallRequest) : GM (option ToolCallResult) :=
  match ge_breaker env with
  | None => ret None
  | Some cfg =>
      let* ok := breaker_allow cfg (rq_tool_id request) in
      ret (if (ok : bool) then None
           else Some (denied run_id request "circuit_open"
                        ("circuit breaker is open for tool " +:+ py_repr (rq_tool_id request))))
  end.

Definition taint_gate (run_id : string) (r : Run) (w : AgentWorkload) (request : ToolCallRequest) (trust : ToolTrustLevel)
    : GM (option ToolCallResult) :=
  match ge_defense env with
  | Some g =>
      if is_destructive (rq_action_class request) trust
      then
        let* d := on_guard (Guard.gate_destructive g run_id (wl_name w) (rq_tool_id request)
                              (allows_untrusted (wl_tools w) (rq_tool_id request)) (Some (run_tenant_id r))) in
        ret (if Taint.blocked d then Some (denied run_id request "taint.block" (Taint.reason d)) else None)
      else ret None
  | None => ret None
  end.

Definition first_refusal (g : GM (option ToolCallResult)) (k : GM (option ToolCallResult)) : GM (option ToolCallResult) :=
  let* x := g in match x with Some refusal => ret (Some refusal) | None => k end.

Definition gates (run_id : string) (r : Run) (w : AgentWorkload) (request : ToolCallRequest) (trust : ToolTrustLevel)
    : GM (option ToolCallResult) :=
  let tool := rq_tool_id request in
  if terminal_run (run_state r)
  then ret (Some (denied run_id request "run_not_running"
                    ("run is " +:+ run_state_value (run_state r) +:+ "; tool calls are refused")))
  else if negb (is_allowed (wl_tools w) tool) && negb (is_denied (wl_tools w) tool)
  then ret (Some (denied run_id request "tool_not_allowed"
                    ("tool " +:+ py_repr tool +:+ " is not in the workload allow-list")))
  else
    first_refusal (kill_gate run_id request)
      (first_refusal (breaker_gate run_id request)
         (if run_read_only r && is_destructive (rq_action_class request) trust
          then ret (Some (denied run_id request "read_only.block" "shadow/read-only runs cannot call side-effecting tools"))
          else taint_gate run_id r w request trust)).

Definition tool_policy_context (run_id : string) (r : Run) (w : AgentWorkload) (request : ToolCallRequest)
    (trust : ToolTrustLevel) (now : Z) : PolicyContext :=
  {| pc_run_id := run_id; pc_workload := wl_name w; pc_team := wl_team w; pc_tenant_id := run_tenant_id r;
     pc_environment := default SANDBOX (run_context r); pc_action_class := rq_action_class request;
     pc_tool_id := Some (rq_tool_id request); pc_tool_trust := Some trust;
     pc_data_sensitivity := rq_data_sensitivity request; pc_certification_status := certification_status w;
     pc_tools := Some (wl_tools w); pc_approval_required_for := wl_approval_required_for w;
     pc_injection_detected := false; pc_budget_exhausted := false; pc_taint_untrusted := false;
     pc_at := Some now; pc_time_windows := wl_time_windows w |}.

(** An escalated call runs when an approval covers it; otherwise it is put to the
    operators.  [inl]: the approval that lets the call go on. *)
Definition settle (run_id : string) (r : Run) (w : AgentWorkload) (request : ToolCallRequest) (ctx : TenantContext)
    (decision : PolicyDecision) : GM (option string + ToolCallResult) :=
  match pd_outcome decision with
  | DENY => ret (inr (result run_id request DENIED decision None None false))
  | BLOCK_INJECTION => ret (inr (result run_id request BLOCKED_INJECTION decision None None false))
  | ESCALATE =>
      let* granted := granted_approval run_id (pd_rule decision) (rq_tool_id request) ctx in
      match granted with
      | Some record => consume run_id (ap_approval_id record) ;;; ret (inl (Some (ap_approval_id record)))
      | None =>
          let* id := escalate r (wl_name w) decision request ctx in
          ret (inr (result run_id request ESCALATED decision None id false))
      end
  | ALLOW => ret (inl None)
  end.

Definition invoke_inner (run_id : string) (r : Run) (w : AgentWorkload) (request : ToolCallRequest) (ctx : TenantContext)
    : GM ToolCallResult :=
  let trust := default (trust_for (wl_tools w) (rq_tool_id request)) (rq_tool_trust request) in
  let* refusal := gates run_id r w request trust in
  match refusal with
  | Some res => ret res
  | None =>
      let* now := clock in
      let* decision := on_ext (ge_policy env (tool_policy_context run_id r w request trust now)) in
      on_ext (ra_record_event run_id EV_POLICY_DECISION "policy"
                (Some (pd_rule decision +:+ ": " +:+ pd_reason decision)) ctx) ;;;
      let* settled := settle run_id r w request ctx decision in
      match settled with
      | inr res => ret res
      | inl approval_id => execute_call run_id r w request ctx decision approval_id
      end
  end.

Definition invoke (run_id : string) (request : ToolCallRequest) (ctx : option TenantContext) : GM ToolCallResult :=
  let* r := on_ext (ra_get run_id SYSTEM_CONTEXT) in
  if from_option (λ c, negb (scopes c (run_tenant_id r))) false ctx then raise (RunNotFoundError run_id)
  else
    let* w := on_ext (ge_registry_get env (run_workload_id r) (run_ctx r)) in
    invoke_inner run_id r w request (run_ctx r).

(** A sequence of calls, with their answers. *)
Fixpoint invoke_each (calls : list (string * ToolCallRequest * option TenantContext)) (w : Gateway X)
    : list (outcome ExecExn ToolCallResult) * Gateway X :=
  match calls with
  | [] => ([], w)
  | (run, rq, ctx) :: rest =>
      let '(o, w1) := invoke run rq ctx w in
      let '(os, w2) := invoke_each rest w1 in (o :: os, w2)
  end.
End Gateway.

(** ** Complete mediation *)
Section Mediation.
Context {X : Type} `{!RunAccess X}.
Variable env : GatewayEnv X.
(** The tools the executor has run, in order: a trace that [X] carries. *)
Variable log : X → list string.

Definition silent {A} (f : Op X A) : Prop := ∀ x, log (f x).2 = log x.

(** Only the executor runs tools; it runs the one it is asked for, whether it
    returns or raises. *)
Record traced : Prop := {
  tr_get : ∀ r c, silent (ra_get r c);
  tr_intervene : ∀ r a s c, silent (ra_intervene r a s c);
  tr_event : ∀ r t a d c, silent (ra_record_event r t a d c);
  tr_registry : ∀ n c, silent (ge_registry_get env n c);
  tr_policy : ∀ c, silent (ge_policy env c);
  tr_shaping : ∀ f w s, ge_shaping env = Some f → silent (f w s);
  tr_sink : ∀ f e r x, ge_event_sink env = Some f → log (f e r x).2 = log x;
  tr_register : ∀ f i t x, ge_escalation_register env = Some f → log (f i t x).2 = log x;
  tr_executor : ∀ f t x, ge_executor env = Some f → log (f t x).2 = log x ++ [t];
  tr_clock : ∀ x, log (ge_clock env x).2 = log x;
  tr_id : ∀ x, log (ge_new_id env x).2 = log x;
  tr_guard_clock : ∀ g x, ge_defense env = Some g → log (Guard.gd_clock g x).2 = log x;
  tr_guard_id : ∀ g x, ge_defense env = Some g → log (Guard.gd_new_id g x).2 = log x;
  tr_guard_audit : ∀ g f a b c d, ge_defense env = Some g → Guard.gd_audit g = Some f → silent (f a b c d);
  tr_guard_quarantine : ∀ g e f a b c, ge_defense env = Some g → Guard.gd_escalator g = Some e →
    Guard.esc_quarantine e = Some f → silent (f a b c);
}.
Hypothesis Htr : traced.

(** What no gate in front of the tool changes. *)
Definition frame (w w' : Gateway X) : Prop :=
  gw_consumed w' = gw_consumed w ∧ gw_kill w' = gw_kill w ∧ gw_approvals w' = gw_approvals w ∧
  log (gw_ext w') = log (gw_ext w).

#[local] Instance frame_preorder : PreOrder frame.
Proof. split; [by intros w|]. intros a b c (?&?&?&?) (?&?&?&?). unfold frame. split_and!; congruence. Qed.

Definition guard_frame (d d' : Guard.World X) : Prop := log (Guard.dw_ext d') = log (Guard.dw_ext d).

#[local] Instance guard_frame_preorder : PreOrder guard_frame.
Proof. split; [by intros w|]. intros a b c. unfold guard_frame. congruence. Qed.

Lemma frame_on_ext {A} (f : Op X A) : silent f → keeps frame (on_ext f).
Proof. intros Hf w. unfold on_ext. specialize (Hf (gw_ext w)). by destruct (f (gw_ext w)). Qed.

Lemma frame_on_guard {A} (m : M (Guard.World X) ExecExn A) : keeps guard_frame m → keeps frame (on_guard m).
Proof.
  intros Hm w. unfold on_guard. specialize (Hm (Guard.mkWorld (gw_events w) (gw_taint w) (gw_ext w))).
  by destruct (m _) as [o d].
Qed.

Lemma guard_on_ext {A} (f : Op X A) : silent f → keeps guard_frame (Guard.on_ext f).
Proof. intros Hf d. unfold Guard.on_ext, guard_frame. specialize (Hf (Guard.dw_ext d)). by destruct (f _). Qed.

Section WithGuard.
Context (g : Guard.DefenseGuard X) (Hg : ge_defense env = Some g).

Lemma guard_clock : keeps guard_frame (Guard.clock g).
Proof.
  apply guard_on_ext. intros x. pose proof (tr_guard_clock Htr g x Hg). by destruct (Guard.gd_clock g x).
Qed.

Lemma guard_new_id : keeps guard_frame (Guard.new_id g).
Proof.
  apply guard_on_ext. intros x. pose proof (tr_guard_id Htr g x Hg). by destruct (Guard.gd_new_id g x).
Qed.

Lemma guard_add e c : keeps guard_frame (Guard.add_new (X := X) e c).
Proof.
  unfold Guard.add_new. case_bool_decide; [apply keeps_raise, _|]. unfold Guard.events_add.
  apply keeps_bind; [apply _|unfold require; case_match; [apply keeps_ret, _|apply keeps_raise, _]|].
  intros _. by apply keeps_modify.
Qed.

Lemma guard_tracker run f : keeps guard_frame (Guard.on_tracker (X := X) run f).
Proof. by apply keeps_modify. Qed.

Lemma guard_record k r w d v l t : keeps guard_frame (Guard.record g k r w d v l t).
Proof.
  unfold Guard.record. case_match; [apply keeps_ret, _|].
  apply keeps_bind; [apply _|apply guard_new_id|intros id]. apply keeps_bind; [apply _|apply guard_clock|intros c].
  apply guard_add.
Qed.

Lemma guard_injection e r w d v l t : Guard.gd_escalator g = Some e → keeps guard_frame (Guard.record_injection g e r w d v l t).
Proof.
  intros He. unfold Guard.record_injection.
  apply keeps_bind; [apply _|apply guard_clock|intros c]. apply keeps_bind; [apply _|apply guard_new_id|intros id].
  apply keeps_bind; [apply _|apply guard_add|intros _]. destruct w as [w|]; [|apply keeps_ret, _].
  case_match; [apply keeps_raise, _|]. apply keeps_bind; [apply _|apply keeps_gets, _|intros evs].
  case_match; [apply keeps_ret, _|]. destruct (Guard.esc_quarantine e) as [q|] eqn:Hq; [|apply keeps_ret, _].
  apply keeps_bind; [apply _|apply guard_on_ext; by eapply tr_guard_quarantine|intros _].
  apply keeps_bind; [apply _|apply guard_new_id|intros id2].
  apply keeps_bind; [apply _|apply guard_add|intros _]. apply keeps_ret, _.
Qed.

Lemma guard_scan_output r w tool text t : keeps guard_frame (Guard.scan_output g r w tool text t).
Proof.
  unfold Guard.scan_output. apply keeps_bind; [apply _| |intros _; apply keeps_ret, _].
  unfold Guard.record_scan. case_bool_decide; [apply keeps_ret, _|].
  destruct (Guard.gd_escalator g) as [e|] eqn:He; [|apply guard_record].
  apply keeps_try; [apply _| |intros _; apply guard_record].
  apply keeps_bind; [apply _|by apply guard_injection|intros _; apply keeps_ret, _].
Qed.

Lemma guard_gate r w tool allow t : keeps guard_frame (Guard.gate_destructive g r w tool allow t).
Proof.
  unfold Guard.gate_destructive. apply keeps_bind; [apply _|apply guard_tracker|intros _].
  apply keeps_bind; [apply _|apply keeps_gets, _|intros reg].
  apply keeps_bind; [apply _|apply keeps_when; [apply _|apply guard_record]|intros _; apply keeps_ret, _].
Qed.

Lemma guard_egress r w tool host port sb t : keeps guard_frame (Guard.check_egress g r w tool host port sb t).
Proof.
  unfold Guard.check_egress. apply keeps_bind; [apply _| |intros _; apply keeps_ret, _].
  apply keeps_when; [apply _|]. apply keeps_bind; [apply _|apply guard_record|intros _].
  destruct (Guard.gd_audit g) as [f|] eqn:Hf; [|apply keeps_ret, _]. apply guard_on_ext. by eapply tr_guard_audit.
Qed.
End WithGuard.

(** *** The gates *)

Lemma frame_clock : keeps frame (clock env).
Proof. apply frame_on_ext. intros x. pose proof (tr_clock Htr x). by destruct (ge_clock env x). Qed.

Lemma frame_breaker_allow cfg tool : keeps frame (breaker_allow env cfg tool).
Proof. intros w. unfold breaker_allow. destruct (ge_breaker_clock env _), (Breaker.allow _ _ _ _ _ _). done. Qed.

Lemma frame_breaker_record cfg tool ok : keeps frame (breaker_record env cfg tool ok).
Proof. intros w. unfold breaker_record. destruct (ge_breaker_clock env _), (Breaker.record _ _ _ _ _ _). done. Qed.

Lemma frame_first_refusal (m k : M (Gateway X) ExecExn (option ToolCallResult)) :
  keeps frame m → keeps frame k → keeps frame (first_refusal m k).
Proof. intros Hm Hk. apply keeps_bind; [apply _|done|]. intros [res|]; [apply keeps_ret, _|done]. Qed.

Lemma frame_gates run r w rq trust : keeps frame (gates env run r w rq trust).
Proof.
  unfold gates. case_match; [apply keeps_ret, _|]. case_match; [apply keeps_ret, _|].
  apply frame_first_refusal.
  { apply keeps_bind; [apply _|apply keeps_gets, _|intros; apply keeps_ret, _]. }
  apply frame_first_refusal.
  { unfold breaker_gate. destruct (ge_breaker env); [|apply keeps_ret, _].
    apply keeps_bind; [apply _|apply frame_breaker_allow|intros; apply keeps_ret, _]. }
  case_match; [apply keeps_ret, _|]. unfold taint_gate. destruct (ge_defense env) as [g|] eqn:Hg; [|apply keeps_ret, _].
  case_match; [|apply keeps_ret, _].
  apply keeps_bind; [apply _|by apply frame_on_guard, guard_gate|intros; apply keeps_ret, _].
Qed.

(** The tool's breaker, if there is one, is closed, or has been open for as long as
    it must be, by the clock at the call. *)
Definition breaker_lets_through (rq : ToolCallRequest) (w : Gateway X) : Prop :=
  ∀ cfg b, ge_breaker env = Some cfg → gw_breakers w !! ("tool", rq_tool_id rq) = Some b →
    Breaker.state b = Breaker.CLOSED ∨
    Breaker.state b = Breaker.OPEN ∧
      (Breaker.open_for cfg ≤ (ge_breaker_clock env (gw_ext w)).2 - default (ge_breaker_clock env (gw_ext w)).1 (Breaker.opened_at b))%Z.

(** The call may reach the policy. *)
Record gates_open (run : string) (r : Run) (m : AgentWorkload) (rq : ToolCallRequest) (w : Gateway X) : Prop := {
  go_live : terminal (run_state r) = false;
  go_listed : is_allowed (wl_tools m) (rq_tool_id rq) = true ∨ is_denied (wl_tools m) (rq_tool_id rq) = true;
  go_kill : ge_kill_switch env = true → KillSwitch.is_disabled (rq_tool_id rq) (gw_kill w) = false;
  go_breaker : breaker_lets_through rq w;
  go_read_only : run_read_only r = true →
    is_destructive (rq_action_class rq) (default (trust_for (wl_tools m) (rq_tool_id rq)) (rq_tool_trust rq)) = false;
  go_taint : ge_defense env ≠ None →
    is_destructive (rq_action_class rq) (default (trust_for (wl_tools m) (rq_tool_id rq)) (rq_tool_trust rq)) = true →
    allows_untrusted (wl_tools m) (rq_tool_id rq) = false →
    Taint.has_untrusted (Taint.for_run run (gw_taint w)) = false;
}.

Lemma first_refusal_None (m k : M (Gateway X) ExecExn (option ToolCallResult)) w w' :
  first_refusal m k w = (Ret None, w') → ∃ w1, m w = (Ret None, w1) ∧ k w1 = (Ret None, w').
Proof.
  unfold first_refusal, bind. destruct (m w) as [[[res|]|e] w1]; [done| |done]. intros H. by exists w1.
Qed.

Lemma kill_gate_None run rq w w' : kill_gate env run rq w = (Ret None, w') →
  w' = w ∧ (ge_kill_switch env = true → KillSwitch.is_disabled (rq_tool_id rq) (gw_kill w) = false).
Proof.
  unfold kill_gate, bind, gets, ret. destruct (ge_kill_switch env); simpl; [|by intros [= <-]].
  destruct (KillSwitch.is_disabled _ _); [done|by intros [= <-]].
Qed.

Lemma breaker_gate_None run rq w w' : breaker_gate env run rq w = (Ret None, w') →
  gw_taint w' = gw_taint w ∧ breaker_lets_through rq w.
Proof.
  unfold breaker_gate, breaker_lets_through. destruct (ge_breaker env) as [cfg|]; [|by intros [= <-]].
  unfold bind, breaker_allow. destruct (ge_breaker_clock env (gw_ext w)) as [n1 n2].
  destruct (Breaker.allow cfg n1 n2 "tool" (rq_tool_id rq) (gw_breakers w)) as [[] reg] eqn:Ha; [|done].
  intros [= <-]. split; [done|]. intros cfg' b [= <-] Hb. revert Ha. unfold Breaker.allow, Breaker.breaker. rewrite Hb.
  destruct (Breaker.state b); [by left| |done]. destruct (_ <=? _)%Z eqn:Ho; [|done]. intros _. right. split; [done|]. cbn. lia.
Qed.

Lemma taint_gate_None run r m rq trust w w' : taint_gate env run r m rq trust w = (Ret None, w') →
  ge_defense env ≠ None → is_destructive (rq_action_class rq) trust = true →
  allows_untrusted (wl_tools m) (rq_tool_id rq) = false →
  Taint.has_untrusted (Taint.for_run run (gw_taint w)) = false.
Proof.
  unfold taint_gate. destruct (ge_defense env) as [g|]; [|done]. intros H _ Hd Hu. revert H. rewrite Hd, Hu.
  unfold bind at 1, on_guard, Guard.gate_destructive.
  unfold bind at 1, Guard.on_tracker at 1, modify at 1. unfold bind at 1, gets at 1. cbn [Guard.dw_taint].
  set (t := Taint.for_run run (Taint.touch run (λ t, t) (gw_taint w))).
  assert (t = Taint.for_run run (gw_taint w)) as <-.
  { unfold t, Taint.touch, Taint.for_run at 1. by rewrite lookup_insert_eq. }
  unfold bind. destruct (when _ _ _) as [[u|e] d']; [|done]. simpl.
  unfold Taint.has_untrusted, Taint.gate_destructive. by destruct (Taint.untrusted_sources t).
Qed.

Lemma gates_None run r m rq w w' :
  gates env run r m rq (default (trust_for (wl_tools m) (rq_tool_id rq)) (rq_tool_trust rq)) w = (Ret None, w') →
  gates_open run r m rq w.
Proof.
  unfold gates. destruct (terminal_run (run_state r)) eqn:Hterm; [done|].
  destruct (negb _ && negb _) eqn:Hl; [done|]. apply andb_false_iff in Hl. rewrite !negb_false_iff in Hl.
  intros (w1 & [-> Hkill]%kill_gate_None & H)%first_refusal_None.
  apply first_refusal_None in H as (w2 & [Ht Hb]%breaker_gate_None & H).
  destruct (run_read_only r && _) eqn:Hro; [done|].
  split; try done.
  - intros Hr. by rewrite Hr in Hro.
  - intros Hg Hd Hu. rewrite <-Ht. by eapply taint_gate_None.
Qed.

(** *** Approvals *)

(** No tool ran, and consumed approvals stay consumed. *)
Definition quiet (w w' : Gateway X) : Prop :=
  log (gw_ext w') = log (gw_ext w) ∧
  ∀ run, default ∅ (gw_consumed w !! run) ⊆@{gset string} default ∅ (gw_consumed w' !! run).

#[local] Instance quiet_preorder : PreOrder quiet.
Proof.
  split; [intros w; by split|]. intros a b c [H1 H2] [H3 H4]. split; [congruence|]. intros run. etrans; [apply H2|apply H4].
Qed.

Lemma frame_quiet w w' : frame w w' → quiet w w'.
Proof. intros (Hc & _ & _ & Hl). split; [done|]. intros run. by rewrite Hc. Qed.

Lemma quiet_keeps {A} (m : M (Gateway X) ExecExn A) : keeps frame m → keeps quiet m.
Proof. intros Hm w. apply frame_quiet, Hm. Qed.

Definition approvals_frame (a a' : Approvals.World (X := X)) : Prop := log (Approvals.ext a') = log (Approvals.ext a).

#[local] Instance approvals_frame_preorder : PreOrder approvals_frame.
Proof. split; [by intros w|]. intros a b c. unfold approvals_frame. congruence. Qed.

Lemma approvals_on_ext (f : X → outcome ApprovalExn unit * X) :
  (∀ x, log (f x).2 = log x) → keeps approvals_frame (Approvals.on_ext f).
Proof. intros Hf a. unfold Approvals.on_ext, approvals_frame. specialize (Hf (Approvals.ext a)). by destruct (f _). Qed.

Lemma approvals_request id now run wl rule reason ac tool tenant ctx :
  keeps approvals_frame
    (Approvals.request (ge_event_sink env) (ge_escalation_register env) id now run wl rule reason ac tool tenant ctx).
Proof.
  unfold Approvals.request. case_match; [apply keeps_raise, _|].
  apply keeps_bind; [apply _| |intros _].
  { unfold store_save. apply keeps_bind; [apply _| |intros _; by apply keeps_modify].
    unfold require. case_match; [apply keeps_ret, _|apply keeps_raise, _]. }
  apply keeps_bind; [apply _| |intros _].
  { unfold emit. destruct (ge_event_sink env) as [f|] eqn:Hf; [|apply keeps_ret, _].
    apply keeps_suppress; [apply _|]. apply approvals_on_ext. intros x. by eapply tr_sink. }
  apply keeps_bind; [apply _| |intros _; apply keeps_ret, _].
  destruct (ge_escalation_register env) as [f|] eqn:Hf; [|apply keeps_ret, _].
  apply keeps_suppress; [apply _|]. apply approvals_on_ext. intros x. by eapply tr_register.
Qed.

Lemma quiet_escalate r wl d rq ctx : keeps quiet (escalate env r wl d rq ctx).
Proof.
  unfold escalate. apply keeps_bind; [apply _| |intros _].
  { apply keeps_when; [apply _|]. apply quiet_keeps, frame_on_ext, tr_intervene, Htr. }
  case_match; [apply keeps_ret, _|].
  apply keeps_bind; [apply _| |intros id].
  { apply quiet_keeps, frame_on_ext. intros x. pose proof (tr_id Htr x). by destruct (ge_new_id env x). }
  apply keeps_bind; [apply _|apply quiet_keeps, frame_clock|intros t].
  apply keeps_bind; [apply _| |intros; apply keeps_ret, _].
  intros w. unfold on_approvals.
  match goal with |- context [Approvals.request _ _ ?p1 ?p2 ?p3 ?p4 ?p5 ?p6 ?p7 ?p8 ?p9 ?p10 ?w0] =>
    pose proof (approvals_request p1 p2 p3 p4 p5 p6 p7 p8 p9 p10 w0) as Hl;
    destruct (Approvals.request _ _ _ _ _ _ _ _ _ _ _ _ w0) as [oa wa] end.
  split; [exact Hl|done].
Qed.

(** An approval covers the call: approved for this run, this rule and this tool,
    in the run's tenant, and not yet used in this attempt. *)
Definition covered (run : string) (rq : ToolCallRequest) (ctx : TenantContext) (d : PolicyDecision) (w : Gateway X)
    (a : ApprovalRecord) : Prop :=
  a ∈ od_values (gw_approvals w) ∧ ap_status a = APPROVED ∧ ap_run_id a = run ∧ ap_rule a = pd_rule d ∧
  ap_tool_id a = Some (rq_tool_id rq) ∧ scopes ctx (ap_tenant_id a) = true ∧
  ap_approval_id a ∉@{gset string} default ∅ (gw_consumed w !! run).

Lemma granted_approval_eq run rule tool ctx w : ∃ o, granted_approval env run rule tool ctx w = (Ret o, w) ∧
  ∀ a, o = Some a → a ∈ od_values (gw_approvals w) ∧ ap_status a = APPROVED ∧ ap_run_id a = run ∧ ap_rule a = rule ∧
    ap_tool_id a = Some tool ∧ scopes ctx (ap_tenant_id a) = true ∧
    ap_approval_id a ∉@{gset string} default ∅ (gw_consumed w !! run).
Proof.
  unfold granted_approval. destruct (ge_approvals env); simpl; [|by exists None].
  unfold bind, consumed_ids, gets, ret. eexists. split; [done|]. intros a Ha.
  apply head_Some_elem_of, list_elem_of_filter in Ha as ((Hr & Ht & Hu) & Ha).
  unfold list_approvals in Ha. rewrite py_sort_perm in Ha. apply list_elem_of_filter in Ha as [Hf Ha].
  rewrite !andb_true_iff in Hf. destruct Hf as (((Hs & Hst) & _) & Hrun). unfold opt_is in Hst, Hrun.
  apply bool_decide_eq_true in Hst, Hrun. by split_and!.
Qed.

Lemma settle_spec run r m rq ctx d w o w' :
  settle env run r m rq ctx d w = (o, w') →
  match o with
  | Ret (inl id) => gw_kill w' = gw_kill w ∧ quiet w w' ∧
      (pd_outcome d = ALLOW ∧ id = None ∨
       pd_outcome d = ESCALATE ∧ ∃ a, covered run rq ctx d w a ∧ id = Some (ap_approval_id a) ∧
         ap_approval_id a ∈@{gset string} default ∅ (gw_consumed w' !! run))
  | Ret (inr res) => tc_outcome res ≠ ALLOWED ∧ quiet w w'
  | Raise _ => quiet w w'
  end.
Proof.
  unfold settle. destruct (pd_outcome d).
  - intros [= <- <-]. split_and!; [done|done|by left].
  - by intros [= <- <-].
  - unfold bind at 1. destruct (granted_approval_eq run (pd_rule d) (rq_tool_id rq) ctx w) as (g & -> & Hg).
    destruct g as [a|].
    + unfold bind, consume, modify, ret. intros [= <- <-]. split; [done|]. split.
      * split; [done|]. intros run'. simpl. destruct (decide (run' = run)) as [->|Hne].
        -- rewrite lookup_insert_eq. simpl. set_solver.
        -- by rewrite lookup_insert_ne.
      * right. split; [done|]. exists a. split_and!; [by apply Hg|done|]. simpl. rewrite lookup_insert_eq. set_solver.
    + unfold bind. pose proof (quiet_escalate r (wl_name m) d rq ctx w) as Hq.
      destruct (escalate env r (wl_name m) d rq ctx w) as [[id|e] w1]; intros [= <- <-]; done.
  - by intros [= <- <-].
Qed.

(** *** The tool itself *)

Definition egress_open (m : AgentWorkload) (rq : ToolCallRequest) : Prop :=
  ∀ host, rq_host rq = Some host →
    match ge_defense env with
    | Some _ => Egress.allowed (Egress.check (Egress.from_sandbox (wl_sandbox m)) host (rq_port rq)) = true
    | None => Egress.guard_check (match wl_sandbox m with Some s => sb_egress s
                                  | None => mkEgressSpec [] [] EGRESS_RESTRICTED end) host (rq_port rq) = true
    end.

Lemma check_egress_spec run m rq tenant w o w' :
  check_egress env run m rq tenant w = (o, w') →
  frame w w' ∧ match o with Ret None => egress_open m rq | Ret (Some res) => tc_outcome res ≠ ALLOWED | Raise _ => True end.
Proof.
  unfold check_egress, egress_open. destruct (rq_host rq) as [host|]; [|intros [= <- <-]; by split].
  destruct (ge_defense env) as [g|] eqn:Hg.
  - unfold bind. pose proof (frame_on_guard _ (guard_egress g Hg run (wl_name m) (rq_tool_id rq) host (rq_port rq)
      (wl_sandbox m) (Some tenant)) w) as Hf.
    assert (∀ d w1, on_guard (Guard.check_egress g run (wl_name m) (rq_tool_id rq) host (rq_port rq) (wl_sandbox m)
      (Some tenant)) w = (Ret d, w1) → d = Egress.check (Egress.from_sandbox (wl_sandbox m)) host (rq_port rq)) as Hd.
    { intros d w1. unfold on_guard, Guard.check_egress. unfold bind at 1. destruct (when _ _ _) as [[u|e] d'];
        by intros [= <- <-]. }
    destruct (on_guard _ w) as [[d|e] w1]; [|intros [= <- <-]; by split].
    rewrite (Hd d w1 eq_refl). simpl in *. intros [= <- <-]. split; [done|].
    destruct (Egress.allowed _) eqn:Ha; [|done]. by intros ? [= <-].
  - intros [= <- <-]. split; [done|]. destruct (Egress.guard_check _ _ _) eqn:Ha; [|done]. by intros ? [= <-].
Qed.

(** At most the one tool ran. *)
Definition ran (tool : string) (w w' : Gateway X) : Prop :=
  gw_consumed w' = gw_consumed w ∧
  (log (gw_ext w') = log (gw_ext w) ∨ log (gw_ext w') = log (gw_ext w) ++ [tool]).

Lemma ran_frame tool w w' w'' : ran tool w w' → frame w' w'' → ran tool w w''.
Proof. intros [H1 H2] (H3 & _ & _ & H4). split; [congruence|]. by rewrite H4. Qed.

Lemma resolve_recorded_ran rq w : ran (rq_tool_id rq) w (resolve_recorded env rq w).2.
Proof.
  assert (ran (rq_tool_id rq) w (resolve_output env rq w).2) as Hr.
  { unfold resolve_output. destruct (rq_output rq); [by split; [|left]|].
    destruct (ge_executor env) as [f|] eqn:Hf; [|by split; [|left]].
    unfold bind, on_ext. pose proof (tr_executor Htr f (rq_tool_id rq) (gw_ext w) Hf) as Hl.
    destruct (f (rq_tool_id rq) (gw_ext w)) as [[out|e] x]; (split; [done|by right]). }
  assert (∀ ok, keeps frame (opt_when (ge_breaker env) (λ cfg, breaker_record env cfg (rq_tool_id rq) ok))) as Hb.
  { intros ok. unfold opt_when. destruct (ge_breaker env); [apply frame_breaker_record|apply keeps_ret, _]. }
  unfold resolve_recorded, bind at 1, try_except. destruct (resolve_output env rq w) as [[out|e] w1]; simpl in Hr.
  - apply (ran_frame _ _ w1); [done|]. apply keeps_bind; [apply _|apply Hb|intros; apply keeps_ret, _].
  - assert (frame w1 ((opt_when (ge_breaker env) (λ cfg, breaker_record env cfg (rq_tool_id rq) false) ;;;
      raise (A := option string) e)%hp w1).2) as Hf
      by (apply keeps_bind; [apply _|apply Hb|intros; apply keeps_raise, _]).
    unfold bind in *. destruct (opt_when _ _ w1) as [[u|e'] w2]; simpl in *; by apply (ran_frame _ _ w1).
Qed.

Lemma execute_spec run r m rq ctx d id w o w' :
  execute_call env run r m rq ctx d id w = (o, w') →
  gw_consumed w' = gw_consumed w ∧
  (log (gw_ext w') = log (gw_ext w) ∧ (∀ res, o = Ret res → tc_outcome res ≠ ALLOWED) ∨
   egress_open m rq ∧ ran (rq_tool_id rq) w w' ∧
   ∀ res, o = Ret res → tc_outcome res = ALLOWED → tc_approval_id res = id).
Proof.
  unfold execute_call, bind at 1. destruct (check_egress env run m rq (run_tenant_id r) w) as [oe w1] eqn:He.
  apply check_egress_spec in He as [(Hc & _ & _ & Hl) He].
  destruct oe as [[res|]|e]; [intros [= <- <-]; split; [done|left]; naive_solver| |intros [= <- <-]; split; [done|by left]].
  unfold bind at 1. pose proof (resolve_recorded_ran rq w1) as [Hc1 Hl1].
  assert (∀ w2, gw_consumed w2 = gw_consumed w1 →
    log (gw_ext w2) = log (gw_ext w1) ∨ log (gw_ext w2) = log (gw_ext w1) ++ [rq_tool_id rq] → ran (rq_tool_id rq) w w2) as Hran.
  { intros w2 H1 H2. split; [congruence|]. by rewrite <-Hl. }
  destruct (resolve_recorded env rq w1) as [[out|e] w2]; simpl in Hc1, Hl1.
  2:{ intros [= <- <-]. split; [congruence|]. right. split_and!; [done|by apply Hran|done]. }
  match goal with |- ?m w2 = _ → _ => set (k := m) end.
  assert (keeps frame k) as Hk.
  { unfold k. apply keeps_bind; [apply _| |intros shaped].
    { unfold shape. destruct out; [|apply keeps_ret, _]. destruct (ge_shaping env) as [f|] eqn:Hf; [|apply keeps_ret, _].
      case_match; [|apply keeps_ret, _].
      apply keeps_bind; [apply _|by eapply frame_on_ext, tr_shaping|intros; apply keeps_ret, _]. }
    apply keeps_bind; [apply _| |intros b].
    { unfold scan_blocks. destruct (ge_defense env) as [g|] eqn:Hg; [|apply keeps_ret, _].
      destruct out; [|apply keeps_ret, _].
      apply keeps_bind; [apply _|by apply frame_on_guard, guard_scan_output|intros scan].
      case_bool_decide; [apply keeps_ret, _|].
      apply keeps_bind; [apply _|apply frame_on_guard, guard_tracker|intros; apply keeps_ret, _]. }
    case_match; [apply keeps_ret, _|]. case_match; [apply keeps_ret, _|].
    apply keeps_bind; [apply _|by apply frame_on_ext, tr_event|intros; apply keeps_ret, _]. }
  intros Hkw. pose proof (Hk w2) as Hf. rewrite Hkw in Hf. simpl in Hf.
  split; [destruct Hf as [-> _]; congruence|]. right. split; [done|]. split; [by apply (ran_frame _ _ w2); [apply Hran|]|].
  intros res -> Hres. revert Hkw. unfold k, bind.
  destruct (shape env m out w2) as [[sh|?] w3]; [|done].
  destruct (scan_blocks env run m rq out (run_tenant_id r) w3) as [[[]|?] w4]; [by intros [= <- _]| |done].
  destruct (from_option so_blocked false sh); [by intros [= <- _]|].
  destruct (on_ext _ w4) as [[[]|?] w5]; [|done]. by intros [= <- _].
Qed.

Lemma first_refusal_Some (m k : M (Gateway X) ExecExn (option ToolCallResult)) w w' res :
  first_refusal m k w = (Ret (Some res), w') →
  m w = (Ret (Some res), w') ∨ ∃ w1, m w = (Ret None, w1) ∧ k w1 = (Ret (Some res), w').
Proof.
  unfold first_refusal, bind. destruct (m w) as [[[res'|]|e] w1]; [|eauto|done]. intros [= -> ->]. by left.
Qed.

Lemma gates_refuse run r m rq trust w res w' : gates env run r m rq trust w = (Ret (Some res), w') → tc_outcome res = DENIED.
Proof.
  unfold gates. case_match; [by intros [= <- _]|]. case_match; [by intros [= <- _]|].
  intros [Hk|(w1 & _ & [Hb|(w2 & _ & Ht)]%first_refusal_Some)]%first_refusal_Some.
  - revert Hk. unfold kill_gate, bind, gets, ret. case_match; [by intros [= <- _]|done].
  - revert Hb. unfold breaker_gate. destruct (ge_breaker env); [|done]. unfold bind.
    destruct (breaker_allow env _ _ w1) as [[[]|?] ?]; [done| |done]. by intros [= <- _].
  - revert Ht. case_match; [by intros [= <- _]|]. unfold taint_gate. destruct (ge_defense env); [|done].
    case_match; [|done]. unfold bind. destruct (on_guard _ w2) as [[td|?] ?]; [|done].
    unfold ret. destruct (Taint.blocked td); [by intros [= <- _]|done].
Qed.

(** *** The whole call *)

(** The gateway once the run and its workload are looked up. *)
Definition at_ext (x : X) (w : Gateway X) : Gateway X :=
  mkGateway (gw_consumed w) (gw_breakers w) (gw_kill w) (gw_approvals w) (gw_events w) (gw_taint w) x.

(** Everything that must hold before a tool runs or its output is accepted: past
    the gates, the policy is asked at the clock's time. *)
Definition authorized (run : string) (r : Run) (m : AgentWorkload) (rq : ToolCallRequest) (w : Gateway X)
    (id : option string) : Prop :=
  let trust := default (trust_for (wl_tools m) (rq_tool_id rq)) (rq_tool_trust rq) in
  gates_open run r m rq w ∧ egress_open m rq ∧
  ∃ w1 now x decision x',
    gates env run r m rq trust w = (Ret None, w1) ∧ ge_clock env (gw_ext w1) = (now, x) ∧
    ge_policy env (tool_policy_context run r m rq trust now) x = (Ret decision, x') ∧
    (pd_outcome decision = ALLOW ∧ id = None ∨
     pd_outcome decision = ESCALATE ∧ ∃ a, covered run rq (run_ctx r) decision w a ∧ id = Some (ap_approval_id a)).

Lemma covered_frame run rq ctx d w w' a : frame w w' → covered run rq ctx d w' a → covered run rq ctx d w a.
Proof. intros (Hc & _ & Ha & _). unfold covered. by rewrite Hc, Ha. Qed.

(** What a call did: nothing visible, or it was authorized. *)
Definition mediated (run : string) (r : Run) (m : AgentWorkload) (rq : ToolCallRequest) (w : Gateway X)
    (o : outcome ExecExn ToolCallResult) (w' : Gateway X) : Prop :=
  quiet w w' ∧ (∀ res, o = Ret res → tc_outcome res ≠ ALLOWED) ∨
  ∃ id, authorized run r m rq w id ∧
    (log (gw_ext w') = log (gw_ext w) ∨ log (gw_ext w') = log (gw_ext w) ++ [rq_tool_id rq]) ∧
    (∀ run', default ∅ (gw_consumed w !! run') ⊆@{gset string} default ∅ (gw_consumed w' !! run')) ∧
    (∀ i, id = Some i → i ∈@{gset string} default ∅ (gw_consumed w' !! run)) ∧
    ∀ res, o = Ret res → tc_outcome res = ALLOWED → tc_approval_id res = id.

Lemma invoke_inner_mediated run r m rq w o w' :
  invoke_inner env run r m rq (run_ctx r) w = (o, w') → mediated run r m rq w o w'.
Proof.
  unfold invoke_inner. set (trust := default _ (rq_tool_trust rq)). unfold bind at 1.
  pose proof (frame_gates run r m rq trust w) as Hf1. destruct (gates env run r m rq trust w) as [og w1] eqn:Hg.
  simpl in Hf1. destruct og as [[res|]|e].
  { intros [= <- <-]. left. split; [by apply frame_quiet|]. intros res' [= <-]. by rewrite (gates_refuse _ _ _ _ _ _ _ _ Hg). }
  2:{ intros [= <- <-]. left. split; [by apply frame_quiet|done]. }
  pose proof (gates_None _ _ _ _ _ _ Hg) as Hopen. unfold bind at 1.
  pose proof (frame_clock w1) as Hf2.
  assert (∀ now w2, clock env w1 = (Ret now, w2) → ge_clock env (gw_ext w1) = (now, gw_ext w2)) as Hclk.
  { unfold clock, on_ext. intros now w2. destruct (ge_clock env (gw_ext w1)) as [t x]. by intros [= <- <-]. }
  destruct (clock env w1) as [[now|e] w2]; simpl in Hf2; [specialize (Hclk now w2 eq_refl)|].
  2:{ intros [= <- <-]. left. split; [apply frame_quiet; by etrans|done]. }
  unfold bind at 1. set (pc := tool_policy_context run r m rq trust now).
  pose proof (frame_on_ext (ge_policy env pc) (tr_policy Htr pc) w2) as Hf3. unfold on_ext at 1 in Hf3. unfold on_ext at 1.
  destruct (ge_policy env pc (gw_ext w2)) as [od x'] eqn:Hp. cbn [snd] in Hf3.
  match type of Hf3 with frame _ ?ww => set (w3 := ww) in * end.
  destruct od as [d|e]; [|intros [= <- <-]; left; split; [apply frame_quiet; by repeat (etrans; [eassumption|])|done]].
  unfold bind at 1.
  match goal with |- context [on_ext (ra_record_event ?a1 ?a2 ?a3 ?a4 ?a5) w3] =>
    pose proof (frame_on_ext _ (tr_event Htr a1 a2 a3 a4 a5) w3) as Hf4;
    destruct (on_ext (ra_record_event a1 a2 a3 a4 a5) w3) as [[u|e] w4] end; simpl in Hf4.
  2:{ intros [= <- <-]. left. split; [apply frame_quiet; by repeat (etrans; [eassumption|])|done]. }
  assert (frame w w4) as Hf by by repeat (etrans; [eassumption|]).
  unfold bind at 1. destruct (settle env run r m rq (run_ctx r) d w4) as [os w5] eqn:Hs. apply settle_spec in Hs.
  destruct os as [[id|res]|e].
  3:{ intros [= <- <-]. left. split; [etrans; [by apply frame_quiet|done]|done]. }
  2:{ intros [= <- <-]. destruct Hs as [Hr Hq]. left. split; [etrans; [by apply frame_quiet|done]|]. by intros res' [= <-]. }
  destruct Hs as (_ & [Hl5 Hc5] & Hid). intros He. apply execute_spec in He as [Hc6 He].
  pose proof Hf as (Hc & Hk & Ha & Hl).
  destruct He as [[Hl6 Hn]|(Heg & [_ Hran] & Hres)].
  { left. split; [|done]. split; [congruence|]. intros run'. rewrite Hc6, <-Hc. apply Hc5. }
  right. exists id. split_and!.
  - split; [done|]. split; [done|]. exists w1, now, (gw_ext w2), d, x'. split; [done|]. split; [done|]. split; [done|].
    destruct Hid as [Hid|(Ho & a & Hcov & -> & _)]; [by left|right]. split; [done|]. exists a.
    split; [by eapply covered_frame|done].
  - rewrite Hl5, Hl in Hran. exact Hran.
  - intros run'. rewrite Hc6, <-Hc. apply Hc5.
  - intros i ->. destruct Hid as [[_ ?]|(_ & a & _ & [= ->] & Hin)]; [done|]. by rewrite Hc6.
  - done.
Qed.

Lemma invoke_cases run rq ctx w o w' :
  invoke env run rq ctx w = (o, w') →
  quiet w w' ∧ (∀ res, o ≠ Ret res) ∨
  ∃ r x1 m x2, ra_get run SYSTEM_CONTEXT (gw_ext w) = (Ret r, x1) ∧
    ge_registry_get env (run_workload_id r) (run_ctx r) x1 = (Ret m, x2) ∧
    (∀ c, ctx = Some c → scopes c (run_tenant_id r) = true) ∧
    frame w (at_ext x2 w) ∧ mediated run r m rq (at_ext x2 w) o w'.
Proof.
  unfold invoke, bind at 1. pose proof (frame_on_ext _ (tr_get Htr run SYSTEM_CONTEXT) w) as Hf1.
  unfold on_ext at 1 in Hf1. unfold on_ext at 1. destruct (ra_get run SYSTEM_CONTEXT (gw_ext w)) as [[r|e] x1] eqn:Hr.
  2:{ intros [= <- <-]. left. split; [by apply frame_quiet|done]. }
  cbn [snd] in Hf1. match type of Hf1 with frame _ ?ww => set (w1 := ww) in * end.
  destruct (from_option _ false ctx) eqn:Hc.
  { intros [= <- <-]. left. split; [by apply frame_quiet|done]. }
  unfold bind at 1. pose proof (frame_on_ext _ (tr_registry Htr (run_workload_id r) (run_ctx r)) w1) as Hf2.
  unfold on_ext at 1 in Hf2. unfold on_ext at 1. cbn [gw_ext w1] in *.
  destruct (ge_registry_get env (run_workload_id r) (run_ctx r) x1) as [[m|e] x2] eqn:Hm.
  2:{ intros [= <- <-]. left. split; [apply frame_quiet; by etrans|done]. }
  cbn [snd] in Hf2. match type of Hf2 with frame _ ?ww => set (w2 := ww) in * end.
  intros Hi. right. exists r, x1, m, x2. change w2 with (at_ext x2 w) in *. split_and!; [done|done| | |].
  - intros c ->. simpl in Hc. by apply negb_false_iff in Hc.
  - by etrans.
  - by apply invoke_inner_mediated in Hi.
Qed.

(** C5: Complete mediation: a tool runs, or a reported output is accepted, only
    for a live run of the caller's tenant, for a tool the manifest lists, that
    is not killed, whose breaker is closed or has been open for its whole open
    time by the breaker's clock, not a side effect of a read-only run, not a
    destructive call of a tainted run unless the manifest exempts the tool from
    tainting, and only after the policy, asked past those gates at the clock's
    time, allowed it or escalated it to an approval granted for exactly this run,
    rule and tool and not used before, and egress permits the host; at most the
    one requested tool then runs. *)
Theorem gateway_complete_mediation run rq ctx w o w' :
  invoke env run rq ctx w = (o, w') →
  log (gw_ext w') ≠ log (gw_ext w) ∨ (∃ res, o = Ret res ∧ tc_outcome res = ALLOWED) →
  (log (gw_ext w') = log (gw_ext w) ∨ log (gw_ext w') = log (gw_ext w) ++ [rq_tool_id rq]) ∧
  ∃ r x1 m x2 id, ra_get run SYSTEM_CONTEXT (gw_ext w) = (Ret r, x1) ∧
    ge_registry_get env (run_workload_id r) (run_ctx r) x1 = (Ret m, x2) ∧
    (∀ c, ctx = Some c → scopes c (run_tenant_id r) = true) ∧ authorized run r m rq (at_ext x2 w) id.
Proof.
  intros Hi Hran. apply invoke_cases in Hi as [[[Hl _] Hn]|(r & x1 & m & x2 & Hr & Hm & Hc & (_ & _ & _ & Hf) & Hmed)].
  { exfalso. destruct Hran as [?|(res & -> & _)]; [done|by destruct (Hn res)]. }
  destruct Hmed as [[[Hl _] Hn]|(id & Hau & Hl & _)].
  { exfalso. destruct Hran as [Hne|(res & -> & ?)]; [by rewrite Hl, Hf in Hne|by destruct (Hn res)]. }
  rewrite Hf in Hl. split; [done|]. by exists r, x1, m, x2, id.
Qed.

(** *** One approval, one call *)

(** The approvals consumed in the run's execution attempt. *)
Definition used (run : string) (w : Gateway X) : gset string := default ∅ (gw_consumed w !! run).

(** The call took effect: a tool ran (whatever became of its output, and even if it
    raised), or a reported output was accepted. *)
Definition took_effect (w : Gateway X) (o : outcome ExecExn ToolCallResult) (w' : Gateway X) : Prop :=
  log (gw_ext w') ≠ log (gw_ext w) ∨ ∃ res, o = Ret res ∧ tc_outcome res = ALLOWED.

#[local] Instance took_effect_dec w o w' : Decision (took_effect w o w').
Proof.
  unfold took_effect. destruct (decide (log (gw_ext w') = log (gw_ext w))) as [He|He]; [|by left; left].
  destruct o as [res|e]; [|right; intros [?|(res & ? & _)]; done].
  destruct (decide (tc_outcome res = ALLOWED)) as [Ha|Ha]; [left; right; by exists res|].
  right. intros [?|(res' & [= <-] & ?)]; done.
Defined.

(** The calls of one run, each with the gateway before and after it. *)
Fixpoint call_steps (run : string) (calls : list (ToolCallRequest * option TenantContext)) (w : Gateway X)
    : list (Gateway X * ToolCallRequest * outcome ExecExn ToolCallResult * Gateway X) :=
  match calls with
  | [] => []
  | (rq, ctx) :: rest => let '(o, w1) := invoke env run rq ctx w in (w, rq, o, w1) :: call_steps run rest w1
  end.

(** [id]: the approval the call took effect under, none when the policy allowed it;
    none for a call without effect. *)
Definition under (run : string) (c : Gateway X * ToolCallRequest * outcome ExecExn ToolCallResult * Gateway X) (id : option string) : Prop :=
  let '(w, rq, o, w') := c in
  if decide (took_effect w o w') then
    ∃ r m x, authorized run r m rq (at_ext x w) id ∧ ∀ res, o = Ret res → tc_outcome res = ALLOWED → tc_approval_id res = id
  else id = None.

Lemma invoke_under run rq ctx w o w' : invoke env run rq ctx w = (o, w') →
  used run w ⊆ used run w' ∧ ∃ id, under run (w, rq, o, w') id ∧ ∀ i, id = Some i → i ∉ used run w ∧ i ∈ used run w'.
Proof.
  intros Hi. unfold used, under. apply invoke_cases in Hi as [[[Hl Hq] Hn]|(r & x1 & m & x2 & _ & _ & _ & (_ & _ & _ & Hf) & Hmed)].
  { split; [apply Hq|]. exists None. split; [|done]. destruct (decide _) as [[He|(res & -> & _)]|]; [done|by destruct (Hn res)|done]. }
  destruct Hmed as [[[Hl Hq] Hn]|(id & Hau & _ & Hq & Hin & Hres)].
  { split; [apply Hq|]. exists None. split; [|done]. rewrite Hf in Hl.
    destruct (decide _) as [[He|(res & -> & Ha)]|]; [done|by destruct (Hn res)|done]. }
  split; [apply Hq|]. destruct (decide _) as [He|He]; [|by exists None].
  exists id. split; [by exists r, m, x2|]. intros i ->. split; [|by apply Hin].
  destruct Hau as (_ & _ & w1 & now & x & d & x' & _ & _ & _ & [[_ ?]|(_ & a & Hcov & [= ->])]); [done|]. by apply Hcov.
Qed.

(** C6: Within one execution attempt an approval authorizes at most one call: of any
    sequence of calls of a run, those that took effect (a tool ran, even if it
    raised or its output was blocked, or a reported output was accepted) were each
    allowed by the policy or made under an approval that covered them, these
    approvals are all different, and none was consumed before the calls began. *)
Theorem approval_authorizes_one_call run calls w :
  ∃ ids, Forall2 (under run) (call_steps run calls w) ids ∧ NoDup (omap id ids) ∧ ∀ i, i ∈ omap id ids → i ∉ used run w.
Proof.
  revert w. induction calls as [|[rq ctx] calls IH]; intros w; cbn [call_steps].
  { exists []. split; [constructor|]. split; [constructor|]. intros i Hi. by apply not_elem_of_nil in Hi. }
  destruct (invoke env run rq ctx w) as [o w1] eqn:Hi. apply invoke_under in Hi as (Hmono & id0 & Hu & Hnew).
  destruct (IH w1) as (ids & Hids & Hnd & Hfresh). exists (id0 :: ids). split; [by constructor|].
  destruct id0 as [i0|]; cbn; [|split; [done|intros i Hi; specialize (Hfresh i Hi); set_solver]].
  destruct (Hnew i0 eq_refl) as [H1 H2]. split.
  - constructor; [intros Hin; by apply (Hfresh i0 Hin)|done].
  - intros i [->|Hin]%elem_of_cons; [done|]. specialize (Hfresh i Hin). set_solver.
Qed.
End Mediation.

(** ** A probe refused by a later gate *)
Section Wedged.
Context {X : Type} `{!RunAccess X}.
Variable env : GatewayEnv X.
Context (cfg : Breaker.Config) (Hcfg : ge_breaker env = Some cfg).

(** The breaker of [tool] waits for the outcome of a probe. *)
Definition probing (tool : string) (w : Gateway X) : Prop :=
  ∃ b, gw_breakers w !! ("tool", tool) = Some b ∧ Breaker.state b = Breaker.HALF_OPEN.

(** Every gate up to the breaker's refuses while it waits. *)
Lemma gates_probing run r m rq trust w o w' :
  probing (rq_tool_id rq) w → gates env run r m rq trust w = (o, w') →
  (∃ res, o = Ret (Some res) ∧ tc_outcome res = DENIED) ∧ gw_breakers w' = gw_breakers w.
Proof.
  intros (b & Hb & Hs). unfold gates.
  case_match; [intros [= <- <-]; eauto|]. case_match; [intros [= <- <-]; eauto|].
  unfold first_refusal, kill_gate, breaker_gate, bind, gets, ret. rewrite Hcfg.
  destruct (ge_kill_switch env && _); [intros [= <- <-]; eauto|]. unfold breaker_allow.
  destruct (ge_breaker_clock env (gw_ext w)) as [n1 n2].
  rewrite (Breaker.allow_half_open _ _ _ _ _ _ b Hb Hs). intros [= <- <-]. eauto.
Qed.

Lemma invoke_probing run rq ctx w o w' :
  probing (rq_tool_id rq) w → invoke env run rq ctx w = (o, w') →
  probing (rq_tool_id rq) w' ∧ ∀ res, o = Ret res → tc_outcome res = DENIED.
Proof.
  intros Hp. unfold invoke, bind at 1, on_ext at 1.
  destruct (ra_get run SYSTEM_CONTEXT (gw_ext w)) as [[r|e] x1]; [|by intros [= <- <-]].
  destruct (from_option _ false ctx); [by intros [= <- <-]|].
  unfold bind at 1, on_ext at 1. cbn [gw_ext gw_breakers gw_consumed gw_kill gw_approvals gw_events gw_taint].
  destruct (ge_registry_get env (run_workload_id r) (run_ctx r) x1) as [[m|e] x2]; [|by intros [= <- <-]].
  unfold invoke_inner, bind at 1. destruct (gates env run r m rq _ _) as [og w1] eqn:Hg.
  eapply gates_probing in Hg as ((res & -> & Hd) & Hb); [|exact Hp].
  intros [= <- <-]. split; [|by intros ? [= <-]]. unfold probing. by rewrite Hb.
Qed.

(** When the breaker lets the one probe through and the next gate refuses the
    call (here: a side effect asked for by a read-only run), no outcome is ever
    recorded for the probe: the breaker stays half-open and every later call of
    the tool, by any run and at any time, is denied. *)
Theorem refused_probe_wedges_breaker run r m rq w x1 x2 b t now1 now2 calls :
  ra_get run SYSTEM_CONTEXT (gw_ext w) = (Ret r, x1) →
  ge_registry_get env (run_workload_id r) (run_ctx r) x1 = (Ret m, x2) →
  terminal (run_state r) = false → is_allowed (wl_tools m) (rq_tool_id rq) = true →
  (ge_kill_switch env = true → KillSwitch.is_disabled (rq_tool_id rq) (gw_kill w) = false) →
  gw_breakers w !! ("tool", rq_tool_id rq) = Some b → Breaker.state b = Breaker.OPEN → Breaker.opened_at b = Some t →
  ge_breaker_clock env x2 = (now1, now2) → (Breaker.open_for cfg ≤ now2 - t)%Z →
  run_read_only r = true → rq_action_class rq = Some AC_DESTRUCTIVE →
  Forall (λ c, rq_tool_id c.1.2 = rq_tool_id rq) calls →
  let '(o, w1) := invoke env run rq None w in
  (∃ res, o = Ret res ∧ tc_outcome res = DENIED ∧ tc_rule res = Some "read_only.block") ∧
  ∀ res, Ret res ∈ (invoke_each env calls w1).1 → tc_outcome res = DENIED.
Proof.
  intros Hr Hm Hlive Hal Hk Hb Hs Ht Hclk Hcool Hro Hac Hcalls.
  destruct (invoke env run rq None w) as [o w1] eqn:Hi.
  assert ((∃ res, o = Ret res ∧ tc_outcome res = DENIED ∧ tc_rule res = Some "read_only.block") ∧ probing (rq_tool_id rq) w1)
    as [Ho Hp].
  { revert Hi. unfold invoke, bind at 1, on_ext at 1. rewrite Hr. cbn [from_option].
    unfold bind at 1, on_ext at 1. cbn [gw_ext gw_breakers gw_consumed gw_kill gw_approvals gw_events gw_taint]. rewrite Hm.
    unfold invoke_inner, bind at 1, gates. change (terminal_run (run_state r)) with (terminal (run_state r)).
    rewrite Hlive, Hal. cbn [negb andb].
    unfold first_refusal, kill_gate, breaker_gate, bind, gets, ret. rewrite Hcfg. cbn [gw_kill].
    destruct (ge_kill_switch env && _) eqn:Hkk; [apply andb_true_iff in Hkk as [Hk1 Hk2]; by rewrite Hk in Hk2|].
    unfold breaker_allow. cbn [gw_ext gw_breakers gw_consumed gw_kill gw_approvals gw_events gw_taint]. rewrite Hclk.
    unfold Breaker.allow, Breaker.breaker. rewrite Hb, Hs, Ht. simpl. rewrite (proj2 (Z.leb_le _ _) Hcool).
    rewrite Hro, Hac. simpl. intros [= <- <-]. split; [by eexists|].
    unfold probing. simpl. rewrite lookup_insert_eq. by eexists. }
  split; [done|]. revert Hp Hcalls. clear -Hcfg. revert w1.
  induction calls as [|[[run' rq'] ctx'] calls IH]; intros w1 Hp Hcalls res; simpl; [by intros ?%not_elem_of_nil|].
  apply Forall_cons in Hcalls as [Hrq Hcalls]. simpl in Hrq. rewrite <-Hrq in Hp.
  destruct (invoke env run' rq' ctx' w1) as [o w3] eqn:Hi. apply (invoke_probing _ _ _ _ _ _ Hp) in Hi as [Hp3 Hd].
  rewrite Hrq in Hp3. specialize (IH w3 Hp3 Hcalls res). destruct (invoke_each env calls w3) as [os w4].
  simpl in *. intros [<-|Hin]%elem_of_cons; [by apply Hd|by apply IH].
Qed.
End Wedged.

(** ** A concrete gateway

    [X] is the trace of executed tools.  The manifest lists a read-only and a
    destructive tool; the policy is the engine. *)
Module Demo.

Definition tool (name : string) (trust : ToolTrustLevel) : ToolRef := mkToolRef name trust false false.

Definition workload : AgentWorkload :=
  {| wl_name := "w"; wl_owner := "o"; wl_team := None;
     wl_budget := {| bs_per_run_usd := f64_lit 1 1; bs_per_day_usd := f64_lit 5 1; bs_per_team_usd := None |};
     wl_tools := {| ts_allow := [tool "search" TRUST_READ_ONLY; tool "deploy" TRUST_DESTRUCTIVE]; ts_deny := [];
                    ts_mcp_servers := []; ts_default_trust := TRUST_READ_ONLY |};
     wl_approval_required_for := []; wl_sandbox := None; wl_time_windows := []; wl_output_shaping := false;
     wl_certification := Some CERTIFIED |}.

Definition run (read_only : bool) : Run :=
  let r := demo_admission_run in
  {| run_id := run_id r; run_workload_id := "w"; run_caller := "op"; run_state := RUNNING;
     run_model_identity := None; run_created_at := 0; run_updated_at := 0; run_started_at := Some 0%Z;
     run_finished_at := None; run_trigger_origin := None; run_pipeline_origin := None;
     run_agent_tool_origin := None; run_manifest_version := Some 1%Z; run_context := Some STAGING; run_sandbox := false;
     run_task := []; run_result := None; run_failure_reason := None; run_cost_usd := f64_zero;
     run_sandbox_id := None; run_trace_id := None; run_shadow_of := None; run_probe := false;
     run_read_only := read_only; run_canary_rollout_id := None; run_canary_arm := None;
     run_tenant_id := "acme"; run_team_id := None; run_attribution_key := None |}.

Abbreviation T := (list string).

Definition access (read_only : bool) : RunAccess T :=
  {| ra_get := λ _ _ x, (Ret (run read_only), x); ra_intervene := λ _ _ _ _ x, (Ret tt, x);
     ra_record_event := λ _ _ _ _ _ x, (Ret tt, x) |}.

Definition guard : Guard.DefenseGuard T :=
  {| Guard.gd_scan := λ _, Guard.mkScan Guard.SCAN_ALLOW [] "1.0.0"; Guard.gd_events := true; Guard.gd_escalator := None;
     Guard.gd_audit := None; Guard.gd_clock := λ x, (0%Z, x); Guard.gd_new_id := λ x, ("sec", x) |}.

Definition env : GatewayEnv T :=
  {| ge_registry_get := λ _ _ x, (Ret workload, x); ge_policy := λ c x, (engine_policy no_zones 0 0 [] c, x);
     ge_shaping := None; ge_approvals := true; ge_event_sink := None; ge_escalation_register := None;
     ge_executor := Some (λ t x, (Ret "out", x ++ [t])); ge_defense := Some guard; ge_kill_switch := true;
     ge_breaker := Some Breaker.demo_cfg; ge_breaker_clock := λ _, (0%Z, 40000000%Z); ge_clock := λ x, (0%Z, x);
     ge_new_id := λ x, ("new", x) |}.

Definition approval : ApprovalRecord :=
  {| ap_approval_id := "a1"; ap_run_id := "r1"; ap_workload := "w"; ap_rule := "trust.destructive"; ap_reason := "r";
     ap_action_class := None; ap_tool_id := Some "deploy"; ap_requested_at := 0; ap_status := APPROVED;
     ap_decided_at := Some 1%Z; ap_decided_by := Some "op"; ap_decision_reason := None; ap_delegated_to := None;
     ap_delegated_by := None; ap_comments := []; ap_tenant_id := "acme" |}.

Definition start (breakers : Breaker.Registry) : Gateway T :=
  mkGateway ∅ breakers {| KillSwitch.kills := []; KillSwitch.audited := [] |} [("a1", approval)] [] ∅ [].

Definition call (t : string) (ac : option ActionClass) : ToolCallRequest :=
  {| rq_tool_id := t; rq_action_class := ac; rq_data_sensitivity := INTERNAL; rq_tool_trust := None; rq_output := None;
     rq_host := None; rq_port := None |}.

Definition identity_log (x : T) : T := x.

Lemma env_traced read_only : @traced T (access read_only) env identity_log.
Proof.
  split; try done.
  - intros f t x [= <-]. done.
  - intros g x [= <-]. done.
  - intros g x [= <-]. done.
  - intros g f a b c d [= <-]. done.
  - intros g e f a b c [= <-]. done.
Qed.

Definition invoke_as (read_only : bool) := @invoke T (access read_only) env.

Definition half : Breaker.Registry :=
  (Breaker.record Breaker.demo_cfg 20 "tool" "deploy" false (Breaker.record Breaker.demo_cfg 10 "tool" "deploy" false ∅).2).2.
End Demo.

Lemma gateway_complete_mediation_witness :
  gw_ext (Demo.invoke_as false "r1" (Demo.call "deploy" None) None (Demo.start ∅)).2 = ["deploy"] ∧
  ∃ m x id, is_allowed (wl_tools m) "deploy" = true ∧
    authorized Demo.env "r1" (Demo.run false) m (Demo.call "deploy" None) (at_ext x (Demo.start ∅)) id.
Proof.
  split; [vm_compute; reflexivity|].
  destruct (@gateway_complete_mediation _ (Demo.access false) Demo.env Demo.identity_log (Demo.env_traced false) "r1"
    (Demo.call "deploy" None) None (Demo.start ∅) _ _ (surjective_pairing _)) as (_ & r & x1 & m & x2 & id & Hr & Hm & _ & Hau).
  { right. eexists. split; [vm_compute; reflexivity|reflexivity]. }
  exists m, x2, id. simpl in Hr, Hm. injection Hr as <- <-. injection Hm as <- <-. split; [vm_compute; reflexivity|exact Hau].
Defined.

(** The approval lets one call through; its output taints the run, and the second is refused. *)
Lemma approval_authorizes_one_call_witness :
  let calls := [(Demo.call "deploy" None, None); (Demo.call "deploy" None, None)] in
  let steps := @call_steps _ (Demo.access false) Demo.env "r1" calls (Demo.start ∅) in
  (λ c, match c.1.2 with Ret res => Some (tc_outcome res) | Raise _ => None end) <$> steps = [Some ALLOWED; Some DENIED] ∧
  ∃ ids, Forall2 (@under _ Demo.env Demo.identity_log "r1") steps ids ∧ NoDup (omap id ids).
Proof.
  intros calls steps. split; [vm_compute; reflexivity|].
  destruct (@approval_authorizes_one_call _ (Demo.access false) Demo.env Demo.identity_log (Demo.env_traced false) "r1" calls (Demo.start ∅))
    as (ids & H1 & H2 & _). exists ids. split; [exact H1|exact H2].
Defined.

(** The same tool is refused afterwards to a run that may call it. *)
Lemma refused_probe_wedges_breaker_witness :
  let rq := Demo.call "deploy" (Some AC_DESTRUCTIVE) in
  let w1 := (Demo.invoke_as true "r1" rq None (Demo.start Demo.half)).2 in
  ∃ res, (@invoke_each _ (Demo.access true) Demo.env [("r2", Demo.call "deploy" None, None)] w1).1 = [Ret res] ∧
    tc_outcome res = DENIED.
Proof.
  intros rq w1.
  pose proof (@refused_probe_wedges_breaker _ (Demo.access true) Demo.env Breaker.demo_cfg eq_refl "r1" (Demo.run true)
    Demo.workload rq (Demo.start Demo.half) [] []
    (default Breaker.fresh (Demo.half !! ("tool", "deploy"))) 20%Z 0%Z 40000000%Z [("r2", Demo.call "deploy" None, None)]
    eq_refl eq_refl eq_refl ltac:(vm_compute; reflexivity) ltac:(intros; vm_compute; reflexivity)
    ltac:(vm_compute; reflexivity) ltac:(vm_compute; reflexivity) ltac:(vm_compute; reflexivity) eq_refl
    ltac:(vm_compute; discriminate) eq_refl eq_refl ltac:(repeat constructor)) as H.
  assert (∃ res, (@invoke_each _ (Demo.access true) Demo.env [("r2", Demo.call "deploy" None, None)] w1).1 = [Ret res])
    as [res Hres] by (vm_compute; eexists; reflexivity).
  exists res. split; [exact Hres|]. unfold w1, Demo.invoke_as in *.
  destruct (invoke Demo.env "r1" rq None (Demo.start Demo.half)) as [o w]. apply (proj2 H res). cbn [snd] in Hres.
  rewrite Hres. left.
Defined.
