(* ===== verification/Plane.v ===== *)
(** * The plane put together: the tool gateway over the run service

    [RunService] implements what the gateway asks of its run access, so the
    gateway's theorems hold of the pair; conversely, tool calls are one more
    source of service calls, and the runs' histories stay legal under them. *)

From stdpp Require Import base strings gmap sets numbers relations list.
From S2P Require Import Prelude Float64 Tenancy CoreModels Guards Policy Approvals Admission Defense RunStore RunService ToolGateway.

(** ** The run service as the gateway sees it *)

Definition drop_result {W E A} (m : M W E A) : M W E unit := bind m (λ _, ret tt).

Definition service_access {Y} (senv : Env Y) : RunAccess (RunService.World Y) := {|
  ra_get := λ run ctx, Service.require_run run ctx;
  ra_intervene := λ run a actor ctx, drop_result (Service.intervene senv run a actor ctx);
  ra_record_event := λ run t actor detail ctx, Service.record_event senv run t actor detail ctx;
|}.

(** ** What the gateway's collaborators keep, the gateway keeps *)
Section Lift.
Context {X : Type} `{!RunAccess X}.
Variable env : GatewayEnv X.
Context (R : X → X → Prop) `{!PreOrder R}.

Definition calm {A} (f : Op X A) : Prop := ∀ x, R x (f x).2.

Record calm_access : Prop := {
  ca_get : ∀ r c, calm (ra_get r c);
  ca_intervene : ∀ r a c, calm (ra_intervene r a "policy" c);
  ca_event : ∀ r t a d c, calm (ra_record_event r t a d c);
}.

Record calm_env : Prop := {
  ca_registry : ∀ n c, calm (ge_registry_get env n c);
  ca_policy : ∀ c, calm (ge_policy env c);
  ca_shaping : ∀ f w s, ge_shaping env = Some f → calm (f w s);
  ca_sink : ∀ f e r x, ge_event_sink env = Some f → R x (f e r x).2;
  ca_register : ∀ f i t x, ge_escalation_register env = Some f → R x (f i t x).2;
  ca_executor : ∀ f t, ge_executor env = Some f → calm (f t);
  ca_clock : ∀ x, R x (ge_clock env x).2;
  ca_id : ∀ x, R x (ge_new_id env x).2;
  ca_guard_clock : ∀ g x, ge_defense env = Some g → R x (Guard.gd_clock g x).2;
  ca_guard_id : ∀ g x, ge_defense env = Some g → R x (Guard.gd_new_id g x).2;
  ca_guard_audit : ∀ g f a b c d, ge_defense env = Some g → Guard.gd_audit g = Some f → calm (f a b c d);
  ca_guard_quarantine : ∀ g e f a b c, ge_defense env = Some g → Guard.gd_escalator g = Some e →
    Guard.esc_quarantine e = Some f → calm (f a b c);
}.
Hypothesis (Hac : calm_access) (Hca : calm_env).

Definition RG (w w' : Gateway X) : Prop := R (gw_ext w) (gw_ext w').
Definition RD (d d' : Guard.World X) : Prop := R (Guard.dw_ext d) (Guard.dw_ext d').
Definition RA (a a' : Approvals.World (X := X)) : Prop := R (Approvals.ext a) (Approvals.ext a').

#[local] Instance RG_preorder : PreOrder RG.
Proof. unfold RG. split; [intros w; reflexivity|intros a b c ? ?; by etrans]. Qed.
#[local] Instance RD_preorder : PreOrder RD.
Proof. unfold RD. split; [intros w; reflexivity|intros a b c ? ?; by etrans]. Qed.
#[local] Instance RA_preorder : PreOrder RA.
Proof. unfold RA. split; [intros w; reflexivity|intros a b c ? ?; by etrans]. Qed.

Lemma RG_ext {A} (f : Op X A) : calm f → keeps RG (on_ext f).
Proof. intros Hf w. unfold on_ext, RG. specialize (Hf (gw_ext w)). by destruct (f (gw_ext w)). Qed.
Lemma RG_guard {A} (m : M (Guard.World X) ExecExn A) : keeps RD m → keeps RG (on_guard m).
Proof.
  intros Hm w. unfold on_guard, RG. specialize (Hm (Guard.mkWorld (gw_events w) (gw_taint w) (gw_ext w))).
  by destruct (m _).
Qed.
Lemma RG_approvals {A} (m : M (Approvals.World (X := X)) ApprovalExn A) : keeps RA m → keeps RG (on_approvals m).
Proof.
  intros Hm w. unfold on_approvals, RG. specialize (Hm (Approvals.mkWorld (gw_approvals w) (gw_ext w))).
  by destruct (m _).
Qed.
Lemma RD_ext {A} (f : Op X A) : calm f → keeps RD (Guard.on_ext f).
Proof. intros Hf w. unfold Guard.on_ext, RD. specialize (Hf (Guard.dw_ext w)). by destruct (f _). Qed.
Lemma RA_ext (f : X → outcome ApprovalExn unit * X) : (∀ x, R x (f x).2) → keeps RA (Approvals.on_ext f).
Proof. intros Hf w. unfold Approvals.on_ext, RA. specialize (Hf (Approvals.ext w)). by destruct (f _). Qed.
Lemma calm_pair {A} (f : X → A * X) : (∀ x, R x (f x).2) → calm (λ x, let '(a, x') := f x in (Ret (E := ExecExn) a, x')).
Proof. intros Hf x. specialize (Hf x). by destruct (f x). Qed.
Lemma RG_same {A} (f : Gateway X → outcome ExecExn A * Gateway X) : (∀ w, gw_ext (f w).2 = gw_ext w) → keeps RG f.
Proof. intros Hf w. unfold RG. by rewrite Hf. Qed.

(** Walks through a handler: every step is a state update of the gateway, a
    control operator, or a collaborator's operation. *)
Local Ltac walk known :=
  repeat first
    [ solve [known] | apply keeps_ret, _ | apply keeps_raise, _ | apply keeps_gets, _
    | apply keeps_bind; [apply _| |intros] | apply keeps_when; [apply _|] | apply keeps_suppress; [apply _|]
    | apply keeps_try; [apply _| |intros]
    | simple apply RG_guard | simple apply RG_approvals | simple apply RG_ext | simple apply RD_ext | simple apply RA_ext
    | apply keeps_modify; intros; unfold RG, RD, RA; cbn; reflexivity
    | case_match ].

Local Ltac calm := eauto using ca_get, ca_intervene, ca_event, ca_registry, ca_policy, ca_shaping, ca_sink, ca_register,
  ca_executor, ca_clock, ca_id, ca_guard_clock, ca_guard_id, ca_guard_audit, ca_guard_quarantine, calm_pair.

Section WithGuard.
Context (g : Guard.DefenseGuard X) (Hg : ge_defense env = Some g).

Lemma RD_record k r w d v l t : keeps RD (Guard.record g k r w d v l t).
Proof. unfold Guard.record, Guard.new_id, Guard.clock, Guard.add_new, Guard.events_add, require. walk fail; calm. Qed.

Lemma RD_injection e r w d v l t : Guard.gd_escalator g = Some e → keeps RD (Guard.record_injection g e r w d v l t).
Proof.
  intros He. unfold Guard.record_injection, Guard.new_id, Guard.clock, Guard.add_new, Guard.events_add, require.
  walk fail; calm.
Qed.

Lemma RD_scan r w tool text t : keeps RD (Guard.scan_output g r w tool text t).
Proof. unfold Guard.scan_output, Guard.record_scan. walk ltac:(auto using RD_record, RD_injection). Qed.

Lemma RD_gate r w tool allow t : keeps RD (Guard.gate_destructive g r w tool allow t).
Proof. unfold Guard.gate_destructive, Guard.on_tracker. walk ltac:(auto using RD_record). Qed.

Lemma RD_egress r w tool host port sb t : keeps RD (Guard.check_egress g r w tool host port sb t).
Proof. unfold Guard.check_egress. walk ltac:(auto using RD_record); calm. Qed.
End WithGuard.

Lemma RA_request id now run wl rule reason ac tool tenant ctx :
  keeps RA (Approvals.request (ge_event_sink env) (ge_escalation_register env) id now run wl rule reason ac tool tenant ctx).
Proof. unfold Approvals.request, store_save, require, emit. walk fail; intros; calm. Qed.

Lemma RG_breaker_allow cfg tool : keeps RG (breaker_allow env cfg tool).
Proof. apply RG_same. intros w. unfold breaker_allow. by destruct (ge_breaker_clock env _), (Breaker.allow _ _ _ _ _ _). Qed.

Lemma RG_breaker_record cfg tool ok : keeps RG (breaker_record env cfg tool ok).
Proof. apply RG_same. intros w. unfold breaker_record. by destruct (ge_breaker_clock env _), (Breaker.record _ _ _ _ _ _). Qed.

Lemma RG_gates run r m rq trust : keeps RG (gates env run r m rq trust).
Proof.
  unfold gates, first_refusal, kill_gate, breaker_gate, taint_gate.
  walk ltac:(auto using RG_breaker_allow, RD_gate).
Qed.

Lemma RG_settle run r m rq ctx d : keeps RG (settle env run r m rq ctx d).
Proof.
  unfold settle, granted_approval, consumed_ids, consume, escalate, clock. walk ltac:(auto using RA_request); calm.
Qed.

Lemma RG_execute run r m rq ctx d id : keeps RG (execute_call env run r m rq ctx d id).
Proof.
  unfold execute_call, check_egress, resolve_recorded, resolve_output, opt_when, shape, scan_blocks, Guard.mark_untrusted,
    Guard.on_tracker.
  walk ltac:(auto using RD_egress, RD_scan, RG_breaker_record); calm.
Qed.

Lemma RG_invoke run rq ctx : keeps RG (invoke env run rq ctx).
Proof.
  unfold invoke, invoke_inner, clock. walk ltac:(auto using RG_gates, RG_settle, RG_execute); calm.
Qed.
End Lift.

(** ** Tool calls and run histories *)
Section Plane.
Context {Y : Type} (senv : Env Y) (genv : GatewayEnv (RunService.World Y)).

#[local] Instance plane_access : RunAccess (RunService.World Y) := service_access senv.

#[local] Existing Instance Lifecycle.guarantee_preorder.

Lemma service_calm : Lifecycle.env_safe senv → calm_access (Lifecycle.guarantee (X := Y)).
Proof.
  intros Hs. split.
  - intros r c w. simpl. unfold Service.require_run, bind, gets, of_option. destruct (get_run _ _ _); apply Lifecycle.guarantee_preorder.
  - intros r a c. apply keeps_bind; [apply _|by apply Lifecycle.safe_intervene|intros; apply keeps_ret, _].
  - intros r t a d c. by apply Lifecycle.safe_record_event.
Qed.

(** C7: Tool calls respect the run life cycle: whatever a call does (record
    decisions, pause the run, run tools that call back into the plane), as long
    as the collaborators change runs only through the service, every run keeps
    its identity, its state moves along the state machine, its logs only grow,
    a finished run does not change, and the records stay consistent. *)
Theorem tool_calls_respect_lifecycle run rq ctx w o w' k b :
  Lifecycle.env_safe senv → calm_env genv Lifecycle.guarantee → Lifecycle.store_ok (store (gw_ext w)) →
  invoke genv run rq ctx w = (o, w') → od_get k (store (gw_ext w)) = Some b →
  ∃ b', od_get k (store (gw_ext w')) = Some b' ∧
    rtc rs_step (run_state (bu_run b)) (run_state (bu_run b')) ∧
    run_id (bu_run b') = run_id (bu_run b) ∧ run_tenant_id (bu_run b') = run_tenant_id (bu_run b) ∧
    bu_events b `prefix_of` bu_events b' ∧ bu_usage b `prefix_of` bu_usage b' ∧
    (terminal (run_state (bu_run b)) = true → bu_run b' = bu_run b) ∧
    numbered (bu_events b') ∧ last (Lifecycle.log_states (bu_events b')) = Some (run_state (bu_run b')) ∧
    Lifecycle.legal_path (Lifecycle.log_states (bu_events b')).
Proof.
  intros Hs Hc Hok Hi Hb. pose proof (RG_invoke genv _ (service_calm Hs) Hc run rq ctx w) as Hg.
  rewrite Hi in Hg. destruct (Hg Hok) as [[[_ Hinv] Hok'] Hev]. destruct (Hev k b Hb) as (b' & Hb' & Hr & He & Hu).
  exists b'. destruct Hr as (Hst & [Hid Ht _ _ _ _ _ _ _ _ _ _ _ _ _ _] & Hterm).
  destruct (Hinv k b' Hb') as [_ Hn]. destruct (Hok' k b' Hb') as (_ & Hl & Hp). by split_and!.
Qed.

(** *** An escalated call *)

(** Collaborators outside the service leave the run store alone. *)
Definition same_store (x y : RunService.World Y) : Prop := store x = store y.

#[local] Instance same_store_preorder : PreOrder same_store.
Proof. unfold same_store. split; [by intros x|intros x y z ? ?; congruence]. Qed.

Lemma pause_transition b actor w :
  Lifecycle.registry_total senv → run_state (bu_run b) = RUNNING → actor ≠ EmptyString → run_id (bu_run b) ≠ EmptyString →
  od_get (run_tenant_id (bu_run b), run_id (bu_run b)) (store w) = Some b →
  ∃ u w', Service.transition senv (run_id (bu_run b)) PAUSED actor None None None (run_ctx (bu_run b)) w = (Ret u, w') ∧
    ∃ b', od_get (run_tenant_id (bu_run b), run_id (bu_run b)) (store w') = Some b' ∧ run_state (bu_run b') = PAUSED.
Proof.
  intros Hreg Hst Ha Hid Hg. set (r := bu_run b) in *.
  assert (find (run_id r) (run_ctx r) (store w) = Some b) as Hf.
  { unfold find. rewrite (Lifecycle.find_run_ctx r (store w) b (run_id r) Hg). done. }
  unfold Service.transition. unfold bind at 1. rewrite (Lifecycle.require_run_eq (run_id r) _ w b Hf). fold r. rewrite Hst.
  cbn [negb can_transition]. change (can_transition RUNNING PAUSED) with true. cbn [negb].
  unfold bind at 1. destruct (Lifecycle.manifest_eq senv r w Hreg) as (m & x & ->).
  unfold bind at 1. destruct (Lifecycle.now_eq senv (mkWorld (store w) (sched w) x)) as (t & x1 & ->).
  unfold bind at 1, gets at 1. cbn [store sched ext]. set (u := run_copy r _). unfold bind at 1.
  assert (∀ w', Service.provision senv r u PAUSED m w' = (Ret u, w')) as ->.
  { intros w'. unfold Service.provision. by destruct (sandbox_provision senv). }
  match goal with |- context [bind (Service.on_store _) (λ _, bind (Service.append_event _ _ ?ty _ _ _ _ _) (λ _, ?k))] =>
    set (k0 := k); change (Some PAUSED) with (Some (run_state u));
    destruct (Lifecycle.commit_eq senv (run_id r) b u ty actor None k0 (mkWorld (store w) (sched w) x1)) as (e & x2 & _ & Hk);
      [done..|fold r in Hk; rewrite Hst in Hk; rewrite Hk; clear Hk] end.
  unfold k0, Service.start_execution, Service.destroy_sandbox, Service.finish, bind, ret. cbn [bool_decide andb].
  destruct (run_sandbox_id u), (sandbox_provision senv); (eexists _, _; split; [reflexivity|]; cbn [store];
    rewrite od_get_set_eq; by eexists).
Qed.

(** The executor confirms a pause and leaves the run store alone; the audit log
    accepts the entry. *)
Definition pause_confirmed : Prop :=
  (∀ run w, ∃ w', executor_pause senv run w = (Ret true, w') ∧ store w' = store w) ∧
  match audit_append senv with Some f => ∀ a1 a2 a3 a4 a5 x, ∃ x', f a1 a2 a3 a4 a5 x = (Ret tt, x') | None => True end.

Lemma pause_intervention b w :
  Lifecycle.registry_total senv → pause_confirmed → run_state (bu_run b) = RUNNING → run_id (bu_run b) ≠ EmptyString →
  od_get (run_tenant_id (bu_run b), run_id (bu_run b)) (store w) = Some b →
  ∃ w', drop_result (Service.intervene senv (run_id (bu_run b)) PAUSE "policy" (run_ctx (bu_run b))) w = (Ret tt, w') ∧
    ∃ b', od_get (run_tenant_id (bu_run b), run_id (bu_run b)) (store w') = Some b' ∧ run_state (bu_run b') = PAUSED.
Proof.
  intros Hreg [Hpause Haudit] Hst Hid Hg. set (r := bu_run b) in *.
  assert (find (run_id r) (run_ctx r) (store w) = Some b) as Hf.
  { unfold find. by rewrite (Lifecycle.find_run_ctx r (store w) b (run_id r) Hg). }
  unfold drop_result, Service.intervene. cbn zeta. unfold bind at 1. unfold bind at 1.
  rewrite (Lifecycle.require_run_eq (run_id r) _ w b Hf). fold r. rewrite Hst. cbn [bool_decide].
  rewrite (bool_decide_false (RUNNING ≠ RUNNING)) by (intros H; by apply H).
  unfold bind at 1. destruct (Hpause (run_id r) w) as (w1 & -> & Hs1).
  unfold bind at 1. match goal with |- context [Service.append_event senv ?a1 ?a2 ?a3 ?a4 ?a5 ?a6 ?a7 w1] =>
    destruct (Lifecycle.append_event_eq senv a1 a2 a3 a4 a5 a6 a7 w1 ltac:(done) Hid) as (t0 & x0 & ->) end.
  rewrite Hs1. match goal with |- context [add_event ?ev _ _] => set (e := ev) end.
  rewrite (Lifecycle.add_event_own r e _ b) by done. fold r. cbn [negb].
  unfold bind at 1. match goal with |- context [Service.now senv ?w2] =>
    destruct (Lifecycle.now_eq senv w2) as (t & x1 & ->) end. cbn [store sched ext].
  unfold bind at 1.
  match goal with |- context [Service.transition senv _ _ _ _ _ _ _ ?w2] =>
    match w2 with context [od_set _ ?b1 _] =>
      destruct (pause_transition b1 "policy" w2) as (u & w4 & Htr & b' & Hb' & Hp); [done..|by cbn; rewrite od_get_set_eq|] end end.
  cbn [bu_run] in Htr, Hb'. fold r in Htr, Hb'. unfold bind at 1. rewrite Htr.
  assert (∃ w5, Service.record_audit senv "policy" (intervention_value PAUSE) (run_id r) None (run_ctx r) w4 = (Ret tt, w5) ∧
    store w5 = store w4) as (w5 & Ha & Hs5).
  { unfold Service.record_audit. destruct (audit_append senv) as [f|]; [|by exists w4].
    unfold Service.on_ext. destruct (Haudit "policy" (intervention_value PAUSE) (run_id r) None (run_ctx r) (ext w4)) as [x' ->].
    by eexists. }
  unfold bind. rewrite Ha. unfold ret. exists w5. split; [done|]. exists b'. by rewrite Hs5.
Qed.

(** A call of a running run that policy escalates and no approval covers
    leaves the run paused and a pending approval request for exactly this run,
    rule and tool, and runs no tool. *)
Theorem escalated_call_pauses_run b m rq d w :
  let r := bu_run b in
  Lifecycle.registry_total senv → pause_confirmed → calm_env genv same_store → ge_approvals genv = true →
  run_state r = RUNNING → run_id r ≠ EmptyString →
  od_get (run_tenant_id r, run_id r) (store (gw_ext w)) = Some b →
  pd_outcome d = ESCALATE → (∀ a, ¬ covered (run_id r) rq (run_ctx r) d w a) →
  (∀ y, (ge_new_id genv y).1 ≠ EmptyString) → wl_name m ≠ EmptyString →
  pd_rule d ≠ EmptyString → pd_reason d ≠ EmptyString → tenant_id_valid (run_tenant_id r) = true →
  ∃ id w', settle genv (run_id r) r m rq (run_ctx r) d w
      = (Ret (inr (ToolGateway.result (run_id r) rq ESCALATED d None (Some id) false)), w') ∧
    (∃ b', od_get (run_tenant_id r, run_id r) (store (gw_ext w')) = Some b' ∧ run_state (bu_run b') = PAUSED) ∧
    ∃ a, od_get id (gw_approvals w') = Some a ∧ ap_status a = Approvals.PENDING ∧ ap_run_id a = run_id r ∧
      ap_rule a = pd_rule d ∧ ap_tool_id a = Some (rq_tool_id rq) ∧ ap_tenant_id a = run_tenant_id r.
Proof.
  intros r Hreg Hp Hcalm Happ Hst Hrid Hg Ho Hnone Hid Hwl Hrule Hreason Hten.
  unfold settle. rewrite Ho. unfold bind at 1.
  destruct (granted_approval_eq genv (run_id r) (pd_rule d) (rq_tool_id rq) (run_ctx r) w) as (g & -> & Hgr).
  destruct g as [a|]; [by destruct (Hnone a), (Hgr a eq_refl)|]. unfold bind at 1, escalate.
  rewrite Hst, Happ. cbn [negb]. rewrite (bool_decide_true (RUNNING = RUNNING)) by done. cbn [when].
  unfold bind at 1, ToolGateway.on_ext at 1. destruct (pause_intervention b (gw_ext w)) as (y & Hy & Hb'); [done..|].
  cbn [ra_intervene plane_access service_access]. fold r in Hy. rewrite Hy.
  unfold bind at 1, ToolGateway.on_ext at 1. cbn [gw_ext].
  pose proof (ca_id genv _ Hcalm y) as Hs1. specialize (Hid y). destruct (ge_new_id genv y) as [id y1].
  unfold bind at 1, ToolGateway.clock, ToolGateway.on_ext at 1. cbn [gw_ext].
  pose proof (ca_clock genv _ Hcalm y1) as Hs2. destruct (ge_clock genv y1) as [t y2].
  unfold bind at 1, on_approvals. cbn [gw_approvals gw_ext gw_consumed gw_breakers gw_kill gw_events gw_taint].
  match goal with |- context [Approvals.request _ _ ?p1 ?p2 ?p3 ?p4 ?p5 ?p6 ?p7 ?p8 ?p9 (Some ?p10) ?w0] =>
    pose proof (RA_request genv _ Hcalm p1 p2 p3 p4 p5 p6 p7 p8 p9 (Some p10) w0) as Hs3;
    destruct (request_ok (ge_event_sink genv) (ge_escalation_register genv) p1 p2 p3 p4 p5 p6 p7 p8 p9 p10 w0)
      as (a & y3 & Ha & Haid & Hf); [done..|]; rewrite Ha in *; clear Ha end.
  cbn in Hs1, Hs2, Hs3. unfold same_store in Hs1, Hs2. unfold RA, same_store in Hs3. cbn in Hs3.
  cbn. rewrite Haid. exists id. eexists. split; [reflexivity|]. cbn. split.
  - rewrite <-Hs3, <-Hs2, <-Hs1. exact Hb'.
  - exists a. rewrite od_get_set_eq. by destruct Hf as (?&?&_&?&?&?&_).
Qed.
End Plane.

(** ** A concrete plane *)
Module Demo.

Abbreviation S := (RunService.World Z).

Definition env : GatewayEnv S :=
  {| ge_registry_get := λ _ _ x, (Ret ToolGateway.Demo.workload, x);
     ge_policy := λ c x, (engine_policy no_zones 0 0 [] c, x);
     ge_shaping := None; ge_approvals := true; ge_event_sink := None; ge_escalation_register := None;
     ge_executor := Some (λ t x, (Ret "out", x)); ge_defense := None; ge_kill_switch := true;
     ge_breaker := None; ge_breaker_clock := λ _, (0%Z, 0%Z); ge_clock := λ x, (0%Z, x);
     ge_new_id := λ x, ("a1", x) |}.

Definition running : S :=
  (Service.transition RunService.Demo.quiet "r1" RUNNING "op" None None None RunService.Demo.acme
     (RunService.Demo.w_queued RunService.Demo.quiet)).2.

Definition start : Gateway S :=
  mkGateway ∅ ∅ {| KillSwitch.kills := []; KillSwitch.audited := [] |} [] [] ∅ running.

Lemma env_calm (R : S → S → Prop) `{!PreOrder R} : calm_env env R.
Proof. split; try done; intros; simpl in *; simplify_eq; intros; simpl; try intros ?; reflexivity. Qed.

Lemma running_ok : Lifecycle.store_ok (store running).
Proof.
  apply (Lifecycle.safe_transition RunService.Demo.quiet (RunService.Demo.quiet_safe _) "r1" RUNNING "op" None None None
    RunService.Demo.acme); [done|]. apply RunService.Demo.w_queued_ok, RunService.Demo.quiet_safe.
Qed.

Definition bundle : RunBundle := RunService.Demo.the_bundle running.

(** The engine's answer to a destructive call of the running run. *)
Definition escalation : PolicyDecision :=
  match engine_policy no_zones 0 0 []
          (tool_policy_context "r1" (bu_run bundle) ToolGateway.Demo.workload (ToolGateway.Demo.call "deploy" None)
             TRUST_DESTRUCTIVE 0) with
  | Ret d => d
  | Raise _ => mkDecision "r1" ALLOW "" "" None 0 None None None None false
  end.
End Demo.

(** The destructive call is escalated: the run is paused, its log grew. *)
Lemma tool_calls_respect_lifecycle_witness :
  let senv := RunService.Demo.quiet in
  let w' := (@invoke _ (service_access senv) Demo.env "r1" (ToolGateway.Demo.call "deploy" None) None Demo.start).2 in
  ∃ b', od_get ("acme", "r1") (store (gw_ext w')) = Some b' ∧ run_state (bu_run b') = PAUSED ∧
    bu_events Demo.bundle `prefix_of` bu_events b'.
Proof.
  intros senv w'.
  destruct (tool_calls_respect_lifecycle senv Demo.env "r1" (ToolGateway.Demo.call "deploy" None) None Demo.start _ _
    ("acme", "r1") Demo.bundle (RunService.Demo.quiet_safe _) (@Demo.env_calm _ Lifecycle.guarantee_preorder) Demo.running_ok
    (surjective_pairing _)) as (b' & Hb' & _ & _ & _ & He & _).
  { vm_compute. reflexivity. }
  assert (∃ b1, od_get ("acme", "r1") (store (gw_ext w')) = Some b1 ∧ run_state (bu_run b1) = PAUSED) as (b1 & Hb1 & Hp)
    by (vm_compute; eexists; split; reflexivity).
  exists b'. pose proof (eq_trans (eq_sym Hb1) Hb') as H. injection H as ->. split_and!; [exact Hb'|exact Hp|exact He].
Defined.

Lemma escalated_call_pauses_run_witness :
  pd_outcome Demo.escalation = ESCALATE ∧
  ∃ id w', @settle _ (service_access RunService.Demo.quiet) Demo.env "r1" (bu_run Demo.bundle) ToolGateway.Demo.workload
      (ToolGateway.Demo.call "deploy" None) (run_ctx (bu_run Demo.bundle)) Demo.escalation Demo.start
    = (Ret (inr (ToolGateway.result "r1" (ToolGateway.Demo.call "deploy" None) ESCALATED Demo.escalation None (Some id) false)), w').
Proof.
  split; [vm_compute; reflexivity|].
  destruct (escalated_call_pauses_run RunService.Demo.quiet Demo.env Demo.bundle ToolGateway.Demo.workload
    (ToolGateway.Demo.call "deploy" None) Demo.escalation Demo.start) as (id & w' & H & _);
    [split; intros; eauto|split; [intros run w; exists w; done|done]|apply Demo.env_calm, same_store_preorder|reflexivity|vm_compute; reflexivity
    |vm_compute; discriminate|vm_compute; reflexivity|vm_compute; reflexivity| |intros y; vm_compute; discriminate
    |vm_compute; discriminate|vm_compute; discriminate|vm_compute; discriminate|vm_compute; reflexivity|].
  - intros a (Ha & _). by apply not_elem_of_nil in Ha.
  - exists id, w'. exact H.
Defined.
