(* ===== verification/PipelineRuns.v ===== *)
(** * Pipelines over the plane ([pipelines/executor.py])

    The adapters that give the pipeline engine its executor and its approval
    gate: child runs go through the run service, gates through the approval
    service.  Every engine call is then a sequence of run-service calls, so what
    is proved of runs under arbitrary service calls holds under pipelines. *)

From stdpp Require Import base strings relations numbers list.
From S2P Require Import Prelude Float64 Tenancy CoreModels Approvals Admission RunStore RunService Pipelines PipelineEngine.

Open Scope hp_scope.

(** The approval records and the run service's world. *)
Abbreviation PlaneOf Y := (Approvals.World (X := RunService.World Y)).

Section Adapters.
Context {Y : Type}.
Variable senv : RunService.Env Y.
(** The identifier the run service draws for a new run, and the identifier and
    the clock reading of an approval request. *)
Variables (fresh_run : RunService.World Y → string) (fresh_approval : RunService.World Y → string)
          (approval_clock : RunService.World Y → Z).
Variables (event_sink : option (ApprovalEvent → ApprovalRecord → RunService.World Y → outcome ApprovalExn unit * RunService.World Y))
          (escalation_register : option (string → string → RunService.World Y → outcome ApprovalExn unit * RunService.World Y)).

Definition run_exn (e : ExecExn) : PipelineExn := PipelineEngine.ExternalError "run service".
Definition approval_exn (e : ApprovalExn) : PipelineExn := PipelineEngine.ExternalError "approvals".

Definition on_runs {A} (m : M (RunService.World Y) ExecExn A) : PipelineEngine.Op (PlaneOf Y) A :=
  λ x, let '(o, w) := m (Approvals.ext x) in
       (match o with Ret a => Ret a | Raise e => Raise (run_exn e) end,
        Approvals.mkWorld (Approvals.records x) w).

Definition on_approvals {A} (m : M (PlaneOf Y) ApprovalExn A) : PipelineEngine.Op (PlaneOf Y) A :=
  λ x, let '(o, x') := m x in (match o with Ret a => Ret a | Raise e => Raise (approval_exn e) end, x').

(** [RunNodeExecutor.submit] *)
Definition child_submission (workload : string) (inputs : odict string JsonValue) (context : AdmissionContext)
    (origin : PipelineOrigin) : Service.Submission :=
  {| Service.sub_workload := workload; Service.sub_caller := "pipeline:" +:+ po_pipeline_run_id origin;
     Service.sub_context := context; Service.sub_task := inputs; Service.sub_model_identity := None;
     Service.sub_trigger_origin := None; Service.sub_pipeline_origin := Some origin; Service.sub_agent_tool_origin := None;
     Service.sub_require_approval := false; Service.sub_shadow_of := None; Service.sub_probe := false;
     Service.sub_read_only := false; Service.sub_qos := None; Service.sub_priority := 0 |}.

Definition executor_submit (workload : string) (inputs : odict string JsonValue) (context : AdmissionContext)
    (origin : PipelineOrigin) (ctx : TenantContext) : M (RunService.World Y) ExecExn string :=
  let* id := gets fresh_run in
  let* r := Service.submit senv id (child_submission workload inputs context origin) ctx in
  when (bool_decide (run_state r = QUEUED)) (let* _ := Service.start senv (run_id r) "pipeline" ctx in ret tt) ;;;
  ret (run_id r).

(** [RunNodeExecutor.result] *)
Definition executor_result (child : string) (ctx : TenantContext) : M (RunService.World Y) ExecExn (option NodeResult) :=
  let* r := Service.require_run child ctx in
  ret (match run_state r with
       | CoreModels.COMPLETED =>
           Some (mkResult PipelineEngine.COMPLETED (default JNull (run_result r)) (run_cost_usd r) None [])
       | CoreModels.FAILED | CANCELLED =>
           Some (mkResult PipelineEngine.FAILED JNull (run_cost_usd r)
                   (Some (if given (run_failure_reason r) then default EmptyString (run_failure_reason r)
                          else run_state_value (run_state r))) [])
       | _ => None
       end).

(** [RunNodeExecutor.cancel] *)
Definition executor_cancel (child : string) (ctx : TenantContext) : M (RunService.World Y) ExecExn unit :=
  let* _ := Service.intervene senv child STOP "pipeline" ctx in ret tt.

(** [ServiceApprovalGate.request]: no context is passed, only the tenant. *)
Definition gate_request (run workload rule reason tenant : string) : M (PlaneOf Y) ApprovalExn string :=
  let* id := gets (λ x, fresh_approval (Approvals.ext x)) in
  let* t := gets (λ x, approval_clock (Approvals.ext x)) in
  let* r := Approvals.request event_sink escalation_register id t run workload rule reason None None (Some tenant) None in
  ret (ap_approval_id r).

Definition approval_status_value (s : ApprovalStatus) : string :=
  match s with Approvals.PENDING => "pending" | APPROVED => "approved" | DENIED => "denied" end.

(** [ServiceApprovalGate.status]: looked up in the default context. *)
Definition gate_status (approval_id : string) : M (PlaneOf Y) ApprovalExn string :=
  let* r := get_approval approval_id DEFAULT_CONTEXT in ret (approval_status_value (ap_status r)).

Definition service_gate : ApprovalGate (PlaneOf Y) :=
  {| ag_request := λ run workload rule reason tenant, on_approvals (gate_request run workload rule reason tenant);
     ag_status := λ id, on_approvals (gate_status id) |}.

(** The engine's environment over the plane; look-ups, clock and texts stay
    parameters. *)
Definition plane_env (base : PipelineEngine.Env (PlaneOf Y)) : PipelineEngine.Env (PlaneOf Y) :=
  {| pe_submit := λ workload inputs context origin ctx, on_runs (executor_submit workload inputs context origin ctx);
     pe_result := λ child ctx, on_runs (executor_result child ctx);
     pe_cancel := λ child ctx, on_runs (executor_cancel child ctx);
     pe_approvals := Some service_gate;
     pe_schema_lookup := pe_schema_lookup base; pe_budget_lookup := pe_budget_lookup base; pe_clock := pe_clock base;
     pe_new_id := pe_new_id base; pe_float_str := pe_float_str base; pe_schema_error := pe_schema_error base |}.

(** [TriggerPipelineSubmitter.submit] *)
Definition trigger_submit (env : PipelineEngine.Env (PlaneOf Y)) (pipeline_id : string) (inputs : odict string JsonValue)
    (context : AdmissionContext) (ctx : TenantContext) : M (PipelineEngine.World (PlaneOf Y)) PipelineExn string :=
  let* s := gets (λ w, get_spec pipeline_id ctx (pw_store w)) in
  let* s := of_option (PipelineSpecNotFoundError pipeline_id) s in
  let* h := PipelineEngine.submit env s inputs context ctx in
  ret (h_pipeline_run_id h).
End Adapters.

(** ** What the engine's collaborators keep, the engine keeps *)
Section Lift.
Context {X : Type}.
Variable env : PipelineEngine.Env X.
Context (R : X → X → Prop) `{!PreOrder R}.

Definition calm {A} (f : PipelineEngine.Op X A) : Prop := ∀ x, R x (f x).2.

Record calm_env : Prop := {
  ca_submit : ∀ w i a o c, calm (pe_submit env w i a o c);
  ca_result : ∀ i c, calm (pe_result env i c);
  ca_cancel : ∀ i c, calm (pe_cancel env i c);
  ca_request : ∀ g a b c d e, pe_approvals env = Some g → calm (ag_request g a b c d e);
  ca_status : ∀ g i, pe_approvals env = Some g → calm (ag_status g i);
  ca_clock : ∀ x, R x (pe_clock env x).2;
  ca_id : ∀ x, R x (pe_new_id env x).2;
}.
Hypothesis Hca : calm_env.

Definition RW (w w' : PipelineEngine.World X) : Prop := R (pw_ext w) (pw_ext w').

#[local] Instance RW_preorder : PreOrder RW.
Proof. unfold RW. split; [intros w; reflexivity|intros a b c ? ?; by etrans]. Qed.

Lemma RW_ext {A} (f : PipelineEngine.Op X A) : calm f → keeps RW (PipelineEngine.on_ext f).
Proof. intros Hf w. unfold PipelineEngine.on_ext, RW. specialize (Hf (pw_ext w)). by destruct (f (pw_ext w)). Qed.

Lemma RW_clock : keeps RW (PipelineEngine.clock env).
Proof. apply RW_ext. intros x. pose proof (ca_clock Hca x). by destruct (pe_clock env x). Qed.

(** Walks through a computation: a control operator, a known part, or a
    collaborator's operation. *)
Local Ltac walk known :=
  repeat first
    [ solve [known] | apply keeps_ret, _ | apply keeps_raise, _ | apply keeps_gets, _ | apply RW_clock
    | apply keeps_bind; [apply _| |intros] | apply keeps_when; [apply _|] | apply keeps_of_option, _
    | simple apply RW_ext; first [apply (ca_submit Hca)|apply (ca_result Hca)|apply (ca_cancel Hca)
                                 |by apply (ca_request Hca)|by apply (ca_status Hca)]
    | apply keeps_modify; intros; unfold RW; cbn; reflexivity
    | case_match ].

Lemma RW_save_node n ctx : keeps RW (save_node_run n ctx).
Proof. unfold save_node_run, on_store, require. walk fail. Qed.
Lemma RW_save_run h ctx : keeps RW (PipelineEngine.save_run h ctx).
Proof. unfold PipelineEngine.save_run, on_store, require. walk fail. Qed.
Lemma RW_save_spec s ctx : keeps RW (save_spec s ctx).
Proof. unfold save_spec, on_store, require. walk fail. Qed.
Lemma RW_node_run h n : keeps RW (node_run env h n).
Proof. unfold node_run. walk fail. Qed.
Lemma RW_failed spec n error cost : keeps RW (failed env spec n error cost).
Proof. unfold failed. walk fail. Qed.
Lemma RW_finish spec n r c : keeps RW (finish env spec n r c).
Proof. unfold finish, keeping. walk ltac:(apply RW_failed). Qed.
Lemma RW_workload spec c n h ctx : keeps RW (workload_step env spec c n h ctx).
Proof. unfold workload_step, keeping, started_or_now. walk ltac:(apply RW_failed || apply RW_finish). Qed.
Lemma RW_gate spec n c h ctx : keeps RW (gate_step env spec n c h ctx).
Proof. unfold gate_step, keeping, fail_now, started_or_now. walk ltac:(apply RW_workload). Qed.
Lemma RW_fan_out_result n l c : keeps RW (fan_out_result env n l c).
Proof. unfold fan_out_result. walk fail. Qed.
Lemma RW_poll i ctx : keeps RW (poll_instance env i ctx).
Proof. unfold poll_instance. walk fail. Qed.
Lemma RW_drive spec template wl c n h ctx i : keeps RW (drive_instance env spec template wl c n h ctx i).
Proof. unfold drive_instance. walk ltac:(apply RW_poll). Qed.
Lemma RW_map f l : (∀ i, keeps RW (f i)) → keeps RW (map_instances f l).
Proof. intros Hf. induction l as [|i l IH]; simpl; walk ltac:(apply Hf || apply IH). Qed.
Lemma RW_polls l ctx : keeps RW (poll_instances env l ctx).
Proof. induction l as [|i l IH]; simpl; walk ltac:(apply RW_poll || apply IH). Qed.
Lemma RW_start spec s c h ctx current : keeps RW (start_step env spec s c h ctx current).
Proof.
  unfold start_step, fan_out_step, fan_in_step, keeping, fail_now.
  walk ltac:(apply RW_node_run || apply RW_gate || apply RW_workload || apply RW_failed || apply RW_fan_out_result
             || (apply RW_map; intros; apply RW_drive)).
Qed.
Lemma RW_reconcile n s c ctx : keeps RW (reconcile_step env n s c ctx).
Proof.
  unfold reconcile_step, reconcile_fan_out. walk ltac:(apply RW_finish || apply RW_polls || apply RW_fan_out_result).
Qed.
Lemma RW_reconcile_nodes l s ctx lo : keeps RW (reconcile_nodes env l s ctx lo).
Proof.
  revert lo. induction l as [|n l IH]; intros lo; simpl; unfold put_node;
    walk ltac:(apply RW_reconcile || apply RW_save_node || apply IH).
Qed.
Lemma RW_visit spec s ctx l : keeps RW (visit env spec s ctx l).
Proof.
  unfold visit, put_node.
  walk ltac:(apply RW_node_run || apply RW_save_node || apply RW_save_run || apply RW_start).
Qed.
Lemma RW_visits order s ctx l : keeps RW (visit_nodes env order s ctx l).
Proof. revert l. induction order as [|n o IH]; intros l; simpl; walk ltac:(apply RW_visit || apply IH). Qed.
Lemma RW_skips nodes ctx l : keeps RW (skip_nodes env nodes ctx l).
Proof.
  revert l. induction nodes as [|n o IH]; intros l; simpl; unfold skip_node;
    walk ltac:(apply RW_node_run || apply RW_save_node || apply IH).
Qed.
Lemma RW_round p s ctx h : keeps RW (round env p s ctx h).
Proof.
  unfold round, round_rest, finish_round, skip_after_fail_fast.
  walk ltac:(apply RW_reconcile_nodes || apply RW_visits || apply RW_save_run || apply RW_skips).
Qed.
Lemma RW_rounds fuel p s ctx h : keeps RW (rounds env fuel p s ctx h).
Proof. revert h. induction fuel as [|fuel IH]; intros h; simpl; walk ltac:(apply RW_round || apply IH). Qed.
Lemma RW_advance p ctx : keeps RW (advance env p ctx).
Proof. unfold advance, require_run, require_spec. walk ltac:(apply RW_rounds). Qed.
Lemma RW_submit s inputs context ctx : keeps RW (PipelineEngine.submit env s inputs context ctx).
Proof.
  unfold PipelineEngine.submit. walk ltac:(apply RW_save_spec || apply RW_save_run || apply RW_advance).
  apply RW_ext. intros x. pose proof (ca_id Hca x). by destruct (pe_new_id env x).
Qed.
Lemma RW_advance_each l : keeps RW (advance_each env l).
Proof. induction l as [|h l IH]; simpl; walk ltac:(apply RW_advance || apply IH). Qed.
Lemma RW_retry p n ctx : keeps RW (retry_node env p n ctx).
Proof.
  assert (∀ l, keeps RW (reset_skipped n l ctx)) as Hr
    by (induction l as [|o l IH]; simpl; walk ltac:(apply RW_save_node || apply IH)).
  unfold retry_node, require_run, require_spec, new_attempt.
  walk ltac:(apply RW_save_node || apply Hr || apply RW_save_run || apply RW_advance).
Qed.
End Lift.

(** ** Pipelines refine the run service *)
Section Refinement.
Context {Y : Type}.
Variable senv : RunService.Env Y.
Variables (fresh_run fresh_approval : RunService.World Y → string) (approval_clock : RunService.World Y → Z).
Variables (event_sink : option (ApprovalEvent → ApprovalRecord → RunService.World Y → outcome ApprovalExn unit * RunService.World Y))
          (escalation_register : option (string → string → RunService.World Y → outcome ApprovalExn unit * RunService.World Y)).
Variable base : PipelineEngine.Env (PlaneOf Y).

Abbreviation env := (plane_env senv fresh_run fresh_approval approval_clock event_sink escalation_register base).
Abbreviation service_calls := (rtc (Lifecycle.svc_step senv)).

(** Run identifiers are unique, the engine's clock and id factory leave the
    plane alone, and the notification callbacks change runs through the service
    only. *)
Record plane_ok : Prop := {
  pk_fresh : ∀ w t, od_get (t, fresh_run w) (store w) = None;
  pk_clock : ∀ x, (pe_clock base x).2 = x;
  pk_id : ∀ x, (pe_new_id base x).2 = x;
  pk_sink : ∀ f e r w, event_sink = Some f → service_calls w (f e r w).2;
  pk_register : ∀ f i t w, escalation_register = Some f → service_calls w (f i t w).2;
}.
Hypothesis Hok : plane_ok.

Definition RP (x y : PlaneOf Y) : Prop := service_calls (Approvals.ext x) (Approvals.ext y).

#[local] Instance RP_preorder : PreOrder RP.
Proof. unfold RP. split; [intros x; reflexivity|intros x y z ? ?; by etrans]. Qed.

Lemma on_runs_calm {A} (m : M (RunService.World Y) ExecExn A) : keeps service_calls m → calm RP (on_runs m).
Proof. intros Hm x. unfold on_runs, RP. specialize (Hm (Approvals.ext x)). by destruct (m (Approvals.ext x)). Qed.

Lemma call_step (m : M (RunService.World Y) ExecExn Run) :
  (∀ w, Lifecycle.svc_step senv w (m w).2) → keeps service_calls m.
Proof. intros Hm w. by apply rtc_once. Qed.

Lemma submit_calls workload inputs context origin ctx :
  keeps service_calls (executor_submit senv fresh_run workload inputs context origin ctx).
Proof.
  intros w. unfold executor_submit, bind at 1, gets.
  match goal with |- service_calls w ((bind ?m ?k) w).2 => set (sub := m); set (rest := k) end.
  assert (service_calls w (sub w).2) as Hs by (apply rtc_once, Lifecycle.sv_submit, (pk_fresh Hok)).
  unfold bind. destruct (sub w) as [[r|e] w1]; cbn [snd] in *; [|done]. etrans; [exact Hs|].
  enough (keeps service_calls (rest r)) as H by exact (H w1). unfold rest.
  apply keeps_bind; [apply _| |intros; apply keeps_ret, _]. apply keeps_when; [apply _|].
  apply keeps_bind; [apply _| |intros; apply keeps_ret, _]. apply call_step. intros w2. by apply Lifecycle.sv_transition.
Qed.

Lemma plane_calm : calm_env env RP.
Proof.
  split.
  - intros wl i a o c. apply on_runs_calm, submit_calls.
  - intros i c. apply on_runs_calm. unfold executor_result, Service.require_run.
    apply keeps_bind; [apply _| |intros; apply keeps_ret, _].
    apply keeps_bind; [apply _|apply keeps_gets, _|intros; apply keeps_of_option, _].
  - intros i c. apply on_runs_calm. unfold executor_cancel. apply keeps_bind; [apply _| |intros; apply keeps_ret, _].
    apply call_step. intros w. by apply Lifecycle.sv_intervene.
  - intros g a b c d e [= <-] x. cbn [ag_request service_gate]. unfold on_approvals.
    enough (keeps RP (gate_request fresh_approval approval_clock event_sink escalation_register a b c d e)) as H
      by (specialize (H x); by destruct (gate_request _ _ _ _ _ _ _ _ _ x)).
    unfold gate_request, Approvals.request. repeat (apply keeps_bind; [apply _|apply keeps_gets, _|intros]).
    apply keeps_bind; [apply _| |intros; apply keeps_ret, _]. destruct (negb _); [apply keeps_raise, _|].
    apply keeps_bind; [apply _| |intros _].
    { unfold store_save, require. destruct (scopes _ _); [|apply keeps_bind; [apply _|apply keeps_raise, _|intros; apply keeps_modify]].
      - apply keeps_bind; [apply _|apply keeps_ret, _|intros _]. apply keeps_modify. intros y. unfold RP. reflexivity.
      - intros y. unfold RP. reflexivity. }
    assert (∀ f, (∀ w, service_calls w (f w).2) → keeps RP (Approvals.on_ext f)) as Hext.
    { intros f Hf y. unfold Approvals.on_ext, RP. specialize (Hf (Approvals.ext y)). by destruct (f (Approvals.ext y)). }
    apply keeps_bind; [apply _| |intros _].
    { unfold emit. destruct event_sink as [sink|] eqn:E; [|apply keeps_ret, _].
      apply keeps_suppress; [apply _|]. apply Hext. intros w. by apply (pk_sink Hok). }
    apply keeps_bind; [apply _| |intros _; apply keeps_ret, _].
    destruct escalation_register as [reg|] eqn:E; [|apply keeps_ret, _].
    apply keeps_suppress; [apply _|]. apply Hext. intros w. by apply (pk_register Hok).
  - intros g i [= <-] x. cbn [ag_status service_gate]. unfold on_approvals, gate_status, get_approval, bind, gets, of_option.
    unfold RP. destruct (store_get i DEFAULT_CONTEXT (Approvals.records x)); reflexivity.
  - intros x. cbn [pe_clock plane_env]. rewrite (pk_clock Hok). reflexivity.
  - intros x. cbn [pe_new_id plane_env]. rewrite (pk_id Hok). reflexivity.
Qed.

(** The engine's entry points. *)
Inductive pipeline_call : PipelineEngine.World (PlaneOf Y) → PipelineEngine.World (PlaneOf Y) → Prop :=
  | pc_submit s inputs context ctx w : pipeline_call w (PipelineEngine.submit env s inputs context ctx w).2
  | pc_advance p ctx w : pipeline_call w (advance env p ctx w).2
  | pc_pending ctx w : pipeline_call w (advance_pending env ctx w).2
  | pc_retry p n ctx w : pipeline_call w (retry_node env p n ctx w).2
  | pc_trigger id inputs context ctx w : pipeline_call w (trigger_submit env id inputs context ctx w).2.

(** C28: over the plane, every pipeline operation (submission, advance, the
    ticker, a retry, a trigger), completed or failed half-way, does to the runs
    exactly what some sequence of run-service calls does; so the life-cycle
    theorems of the run service hold under pipelines. *)
Theorem pipelines_refine_run_service w w' :
  rtc pipeline_call w w' → service_calls (Approvals.ext (pw_ext w)) (Approvals.ext (pw_ext w')).
Proof.
  induction 1 as [w|w w1 w' Hc _ IH]; [reflexivity|]. etrans; [|exact IH]. clear IH. pose proof plane_calm as Hp.
  destruct Hc.
  - by apply (RW_submit env RP Hp).
  - by apply (RW_advance env RP Hp).
  - unfold advance_pending, bind, gets. by apply (RW_advance_each env RP Hp).
  - by apply (RW_retry env RP Hp).
  - enough (keeps (RW RP) (trigger_submit env id inputs context ctx)) as H by exact (H w).
    unfold trigger_submit. apply keeps_bind; [apply RW_preorder, _|apply keeps_gets, RW_preorder, _|intros o].
    apply keeps_bind; [apply RW_preorder, _|apply keeps_of_option, RW_preorder, _|intros s].
    apply keeps_bind; [apply RW_preorder, _|apply (RW_submit env RP Hp)|intros h]. apply keeps_ret, RW_preorder, _.
Qed.

(** A gate of a pipeline outside the default tenant can never be polled: the
    request was filed under the pipeline's tenant, the look-up uses the default
    one, so the poll raises out of the engine. *)
Theorem tenant_gate_unpollable spec n c h ctx w id r :
  n_approval_id n = Some id → od_get id (Approvals.records (pw_ext w)) = Some r → ap_tenant_id r ≠ DEFAULT_TENANT_ID →
  gate_step env spec n c h ctx w = (Raise (approval_exn (ApprovalNotFoundError id)), w).
Proof.
  intros Hid Hr Hne. unfold gate_step. cbn [pe_approvals plane_env]. rewrite Hid.
  unfold bind, PipelineEngine.on_ext. cbn [ag_status service_gate]. unfold on_approvals, gate_status, get_approval, bind, gets.
  unfold store_get. rewrite Hr. unfold scopes. cbn [tc_is_system tc_tenant_id DEFAULT_CONTEXT orb].
  rewrite bool_decide_eq_false_2 by congruence. cbn [of_option raise]. by destruct w.
Qed.
End Refinement.

(** ** A concrete plane: children complete inside their start *)
Module Demo.

Definition fresh_run (w : RunService.World Z) : string := fresh ((od_keys (store w)).*2).

Definition base : PipelineEngine.Env (PlaneOf Z) :=
  {| pe_submit := λ _ _ _ _ _ x, (Ret "", x); pe_result := λ _ _ x, (Ret None, x); pe_cancel := λ _ _ x, (Ret tt, x);
     pe_approvals := None; pe_schema_lookup := λ _, None; pe_budget_lookup := λ _, None; pe_clock := λ x, (0%Z, x);
     pe_new_id := λ x, ("prun-1", x); pe_float_str := λ _, "float"; pe_schema_error := λ _, "error" |}.

Definition env : PipelineEngine.Env (PlaneOf Z) :=
  plane_env RunService.Demo.inline fresh_run (λ _, "ap-1") (λ _, 0%Z) None None base.

Lemma ok : plane_ok RunService.Demo.inline fresh_run None None base.
Proof.
  split; try done. intros w t. apply od_get_None. intros Hin. apply (infinite_is_fresh ((od_keys (store w)).*2)).
  change (fresh_run w ∈ (od_keys (store w)).*2). apply list_elem_of_fmap. by exists (t, fresh_run w).
Qed.

Definition w0 : PipelineEngine.World (PlaneOf Z) :=
  PipelineEngine.mkWorld empty_store (Approvals.mkWorld [] RunService.Demo.w0).

Definition submitted (s : PipelineSpec) : PipelineEngine.World (PlaneOf Z) :=
  (PipelineEngine.submit env s [] STAGING PipelineEngine.Demo.acme w0).2.
End Demo.

(** The chain runs to completion over the run service: three child runs. *)
Lemma pipelines_refine_run_service_witness :
  let w' := Demo.submitted PipelineEngine.Demo.chain in
  h_state <$> get_run "prun-1" PipelineEngine.Demo.acme (pw_store w') = Some P_COMPLETED ∧
  length (store (Approvals.ext (pw_ext w'))) = 3 ∧
  rtc (Lifecycle.svc_step RunService.Demo.inline) RunService.Demo.w0 (Approvals.ext (pw_ext w')).
Proof.
  intros w'. split; [vm_compute; reflexivity|]. split; [vm_compute; reflexivity|].
  refine (pipelines_refine_run_service RunService.Demo.inline Demo.fresh_run (λ _, "ap-1") (λ _, 0%Z) None None Demo.base Demo.ok
    Demo.w0 w' _).
  apply rtc_once. apply pc_submit.
Defined.

Lemma tenant_gate_unpollable_witness :
  let w' := Demo.submitted (PipelineEngine.Demo.spec [PipelineEngine.Demo.gate "g"] []) in
  ∃ n h, gate_step Demo.env (PipelineEngine.Demo.gate "g") n {| Handoff.outputs := []; Handoff.variables := [] |} h
      PipelineEngine.Demo.acme w'
    = (Raise (approval_exn (ApprovalNotFoundError "ap-1")), w').
Proof.
  intros w'.
  assert (∃ n h r, n_approval_id n = Some "ap-1" ∧ get_run "prun-1" PipelineEngine.Demo.acme (pw_store w') = Some h ∧
    od_get "ap-1" (Approvals.records (pw_ext w')) = Some r ∧ ap_tenant_id r = "acme") as (n & h & r & Hn & _ & Hr & Ht).
  { vm_compute. eexists (PipelineEngine.mkNodeRun "prun-1" "pl" "g" "acme" 1 WAITING_APPROVAL None JNull f64_zero None
      (Some "ap-1") [] [] None None), _, _. split_and!; reflexivity. }
  exists n, h.
  refine (tenant_gate_unpollable RunService.Demo.inline Demo.fresh_run (λ _, "ap-1") (λ _, 0%Z) None None Demo.base _ n _ h _ w'
    "ap-1" r Hn Hr _).
  rewrite Ht. discriminate.
Defined.
