(* ===== verification/Manifest.v ===== *)
(** * Workload manifests ([core/spec.py], [core/workload.py], [core/types.py],
    [core/triggers.py], [core/fanout.py], [core/health.py], [core/shaping.py])

    The whole manifest as the registry stores it, the validators its models
    carry, and its projection on what the run-time components read.  The
    compilation of a filter pattern is a parameter; instants are microseconds
    and durations whole seconds. *)

From Stdlib Require Import Ascii SpecFloat.
From stdpp Require Import base strings pretty numbers gmap sorting list.
From S2P Require Import Prelude Text Float64 AuditTrail CoreModels Canonical.

(** ** Scalars ([core/types.py]) *)

Definition duration_unit (c : ascii) : option Z :=
  if bool_decide (c = "s"%char) then Some 1%Z else if bool_decide (c = "m"%char) then Some 60%Z
  else if bool_decide (c = "h"%char) then Some 3600%Z else if bool_decide (c = "d"%char) then Some 86400%Z else None.

(** The last character of a text and what precedes it. *)
Fixpoint split_last (s : string) : option (string * ascii) :=
  match s with
  | EmptyString => None
  | String c EmptyString => Some (EmptyString, c)
  | String c s' => (λ r, (String c r.1, r.2)) <$> split_last s'
  end.

(** [int(text)] of a text of digits: more than 4300 of them are refused. *)
Definition digits_int (s : string) : option Z :=
  if bool_decide (String.length s ≤ Z.to_nat 4300) then Some (Z.of_N (undec 0 s)) else None.

Definition duration_text (text : string) : option Z :=
  if isdigit text then digits_int text
  else match split_last text with
       | Some (amount, unit) =>
           if isdigit amount then u ← duration_unit unit; n ← digits_int amount; Some (n * u)%Z else None
       | None => None
       end.

(** [int(x)] when [float.is_integer(x)]. *)
Definition is_integer (x : f64) : option Z :=
  match x with
  | S754_finite _ m e => if (0 <=? e)%Z || (Zpos m mod 2 ^ (- e) =? 0)%Z then f64_trunc x else None
  | _ => f64_trunc x
  end.

(** [parse_duration]; [None] is the [ValueError]. *)
Definition parse_duration (value : JsonValue) : option Z :=
  seconds ← match value with
            | JInt z => Some z
            | JFloat x => is_integer x
            | JStr s => duration_text (strip s)
            | _ => None
            end;
  if (seconds <? 0)%Z then None else Some seconds.

Definition name_edge (c : ascii) : bool :=
  let n := nat_of_ascii c in ((97 <=? n) && (n <=? 122) || (48 <=? n) && (n <=? 57))%nat.
Definition name_inner (c : ascii) : bool := name_edge c || bool_decide (c = "-"%char).

(** The text matches [[a-z0-9]([-a-z0-9]*[a-z0-9])?] as a whole. *)
Definition dns_name (s : string) : bool :=
  all_chars name_inner s && match s with String c _ => name_edge c | EmptyString => false end
  && match split_last s with Some (_, c) => name_edge c | None => false end.

(** [_NAME_RE.match]: [$] also matches before a newline that ends the text. *)
Definition name_matches (s : string) : bool :=
  dns_name s || match split_last s with Some (t, c) => bool_decide (c = "010"%char) && dns_name t | None => false end.

Definition NAME_MAX_LENGTH : nat := 63.

(** [validate_name]; [None] is the [ValueError]. *)
Definition validate_name (value : string) : option string :=
  if bool_decide (value = EmptyString) then None
  else if bool_decide (NAME_MAX_LENGTH < String.length value) then None
  else if name_matches value then Some value else None.

(** ** Models *)

Inductive RuntimeAdapter := RAW_WORKER | LANGGRAPH | PYDANTIC_AI | OPENAI_AGENTS | CREWAI.

#[export] Instance RuntimeAdapter_eq_dec : EqDecision RuntimeAdapter.
Proof. solve_decision. Defined.

Definition runtime_value (a : RuntimeAdapter) : string :=
  match a with
  | RAW_WORKER => "raw-worker" | LANGGRAPH => "langgraph" | PYDANTIC_AI => "pydanticai"
  | OPENAI_AGENTS => "openai-agents" | CREWAI => "crewai"
  end.

Record RuntimeSpec := mkRuntime {
  rt_adapter : RuntimeAdapter; rt_entrypoint : string; rt_env : gmap string string; rt_adapter_contract : string }.

#[export] Instance RuntimeSpec_eq_dec : EqDecision RuntimeSpec.
Proof. solve_decision. Defined.

Definition runtime_valid (r : RuntimeSpec) : bool :=
  bool_decide (rt_entrypoint r ≠ EmptyString) && isdigit (rt_adapter_contract r).

Inductive ModelStrategy := FIXED | TIERED | ROUTER.

#[export] Instance ModelStrategy_eq_dec : EqDecision ModelStrategy.
Proof. solve_decision. Defined.

Definition strategy_value (s : ModelStrategy) : string :=
  match s with FIXED => "fixed" | TIERED => "tiered" | ROUTER => "router" end.

Record ModelIdentity := mkIdentity { mi_provider : string; mi_family : string; mi_version : string }.

#[export] Instance ModelIdentity_eq_dec : EqDecision ModelIdentity.
Proof. solve_decision. Defined.

Definition identity_valid (i : ModelIdentity) : bool :=
  bool_decide (mi_provider i ≠ EmptyString) && bool_decide (mi_family i ≠ EmptyString)
  && bool_decide (mi_version i ≠ EmptyString).

Definition canonical_model_identity (i : ModelIdentity) : string :=
  mi_provider i +:+ "/" +:+ mi_family i +:+ "/" +:+ mi_version i.

(** [validate_model_identity]; [None] is the [ValueError]. *)
Definition validate_model_identity (value : string) : option string :=
  let parts := split_on "/"%char value in
  if bool_decide (length parts = 3%nat) && forallb (λ p, bool_decide (strip p ≠ EmptyString)) parts
  then Some value else None.

Record ModelSpec := mkModel { mo_strategy : ModelStrategy; mo_identity : option ModelIdentity }.

#[export] Instance ModelSpec_eq_dec : EqDecision ModelSpec.
Proof. solve_decision. Defined.

Record GuardsSpec := mkGuardsSpec {
  gs_context_tokens : option Z; gs_context_warn_at : option f64; gs_velocity_window_seconds : option Z;
  gs_velocity_limit_usd : option f64; gs_velocity_multiplier : option f64 }.

Record ApprovalsSpec := mkApprovalsSpec {
  as_required_for : list ActionClass; as_contact : option string; as_auto_escalate_after : Z }.

#[export] Instance ApprovalsSpec_eq_dec : EqDecision ApprovalsSpec.
Proof. solve_decision. Defined.

Record ObservabilitySpec := mkObservability { ob_contract : string; ob_trace_sampling : f64 }.

Record CertificationSpec := mkCertSpec {
  ce_benchmark_corpus : option string;
  ce_staging_threshold : f64;
  ce_production_threshold : f64;
  ce_no_critical_failures : bool;
  ce_latency_budget_ms : Z;
  ce_re_cert_interval : Z;
  ce_status : CertificationStatus;
  ce_attestation_id : option string;
  ce_certified_at : option Z;
  ce_certified_by : option string;
  ce_expires_at : option Z;
}.

(** [bool(value)] of an optional text. *)
Definition truthy (o : option string) : bool := match o with Some s => bool_decide (s ≠ EmptyString) | None => false end.

Definition unit_interval (x : f64) : bool := f64_leb f64_zero x && f64_leb x (f64_lit 1 1).

(** The fields' bounds and [_check_thresholds_and_status]. *)
Definition certification_valid (now : Z) (c : CertificationSpec) : bool :=
  unit_interval (ce_staging_threshold c) && unit_interval (ce_production_threshold c) && (0 <? ce_latency_budget_ms c)%Z
  && (0 <=? ce_re_cert_interval c)%Z
  && negb (f64_ltb (ce_production_threshold c) (ce_staging_threshold c))
  && match ce_status c with
     | CERTIFIED => truthy (ce_attestation_id c) && match ce_expires_at c with Some e => negb (e <=? now)%Z | None => false end
     | _ => true
     end.

#[export] Instance McpServer_eq_dec : EqDecision McpServer.
Proof. solve_decision. Defined.
#[export] Instance ToolRef_eq_dec : EqDecision ToolRef.
Proof. solve_decision. Defined.
#[export] Instance ToolsSpec_eq_dec : EqDecision ToolsSpec.
Proof. solve_decision. Defined.

(** *** Triggers *)

Inductive TriggerType := TT_WEBHOOK | TT_ALERT | TT_GITHUB_PR | TT_CRON.
Inductive TriggerMode := TM_ONE_SHOT | TM_WATCH | TM_SCHEDULED.

#[export] Instance TriggerType_eq_dec : EqDecision TriggerType.
Proof. solve_decision. Defined.
#[export] Instance TriggerMode_eq_dec : EqDecision TriggerMode.
Proof. solve_decision. Defined.

Record TriggerMatch := mkMatch { tm_severity : list string; tm_service : option string; tm_paths : list string }.

#[export] Instance TriggerMatch_eq_dec : EqDecision TriggerMatch.
Proof. solve_decision. Defined.

Definition has_criteria (m : TriggerMatch) : bool :=
  bool_decide (tm_severity m ≠ []) || truthy (tm_service m) || bool_decide (tm_paths m ≠ []).

Record TriggerRule := mkRule {
  ru_type : TriggerType; ru_url : option string; ru_match : option TriggerMatch; ru_source : option string;
  ru_events : list string; ru_schedule : option string; ru_mode : option TriggerMode; ru_max_concurrent : option Z }.

#[export] Instance TriggerRule_eq_dec : EqDecision TriggerRule.
Proof. solve_decision. Defined.

(** The fields' bounds and [_check_type_requirements]. *)
Definition rule_valid (r : TriggerRule) : bool :=
  match ru_type r with
  | TT_WEBHOOK => truthy (ru_url r) | TT_ALERT => truthy (ru_source r)
  | TT_GITHUB_PR => bool_decide (ru_events r ≠ []) | TT_CRON => truthy (ru_schedule r)
  end
  && (bool_decide (ru_type r = TT_CRON) || from_option has_criteria false (ru_match r))
  && from_option (λ n, 1 <=? n)%Z true (ru_max_concurrent r).

(** *** Result destinations *)

Inductive FanOutType := FO_SLACK | FO_TEAMS | FO_JIRA | FO_WEBHOOK.

#[export] Instance FanOutType_eq_dec : EqDecision FanOutType.
Proof. solve_decision. Defined.

Record FanOutDestination := mkDestination {
  fd_type : FanOutType; fd_channel : option string; fd_url : option string; fd_project : option string;
  fd_issue_type : option string }.

#[export] Instance FanOutDestination_eq_dec : EqDecision FanOutDestination.
Proof. solve_decision. Defined.

Definition destination_valid (d : FanOutDestination) : bool :=
  match fd_type d with
  | FO_SLACK | FO_TEAMS => truthy (fd_channel d)
  | FO_JIRA => truthy (fd_project d) && truthy (fd_issue_type d)
  | FO_WEBHOOK => truthy (fd_url d)
  end.

Record FanOutSpec := mkFanOut {
  fo_on_completed : list FanOutDestination; fo_on_failed : list FanOutDestination;
  fo_on_escalation : list FanOutDestination; fo_always_include : list string }.

#[export] Instance FanOutSpec_eq_dec : EqDecision FanOutSpec.
Proof. solve_decision. Defined.

(** *** Health and output shaping *)

Record HealthSpec := mkHealth {
  he_probe_interval : Z; (* [readiness_probe.interval]; its [type] has one member *)
  he_availability_target : f64; he_quality_target : f64; he_error_budget_window : Z;
  he_failure_rate_threshold : f64 }.

Inductive TruncateStrategy := HEAD | TAIL | SUMMARY.
Inductive FilterAction := REDACT | MASK.

#[export] Instance TruncateStrategy_eq_dec : EqDecision TruncateStrategy.
Proof. solve_decision. Defined.
#[export] Instance FilterAction_eq_dec : EqDecision FilterAction.
Proof. solve_decision. Defined.

Definition truncate_value (s : TruncateStrategy) : string :=
  match s with HEAD => "head" | TAIL => "tail" | SUMMARY => "summary" end.
Definition filter_action_value (a : FilterAction) : string := match a with REDACT => "redact" | MASK => "mask" end.

Record FilterRule := mkFilterRule { fr_pattern : string; fr_action : FilterAction }.

#[export] Instance FilterRule_eq_dec : EqDecision FilterRule.
Proof. solve_decision. Defined.

Record OutputShapingSpec := mkShaping {
  os_max_bytes : Z; os_truncate_strategy : TruncateStrategy; os_filter_rules : list FilterRule; os_injection_scan : bool }.

#[export] Instance OutputShapingSpec_eq_dec : EqDecision OutputShapingSpec.
Proof. solve_decision. Defined.

Definition shaping_valid (compiles : string → bool) (o : OutputShapingSpec) : bool :=
  (0 <? os_max_bytes o)%Z && forallb (λ r, compiles (fr_pattern r)) (os_filter_rules o).

Record IOSpec := mkIO { io_input_schema : option JsonValue; io_output_schema : option JsonValue }.

Record SecretBinding := mkSecretBinding { sc_ref : string; sc_injection : option JsonValue }.

Record Metadata := mkMetadata {
  md_name : string; md_owner : string; md_team : option string; md_description : option string;
  md_labels : gmap string string }.

#[export] Instance Metadata_eq_dec : EqDecision Metadata.
Proof. solve_decision. Defined.

Record WorkloadSpec := mkWorkloadSpec {
  sp_runtime : RuntimeSpec;
  sp_budget : BudgetSpec;
  sp_model : ModelSpec;
  sp_certification : option CertificationSpec;
  sp_triggers : list TriggerRule;
  sp_sandbox : option SandboxSpec;
  sp_output_shaping : option OutputShapingSpec;
  sp_tools : ToolsSpec;
  sp_approvals : ApprovalsSpec;
  sp_guards : option GuardsSpec;
  sp_fan_out : FanOutSpec;
  sp_health : HealthSpec;
  sp_observability : ObservabilitySpec;
  sp_io : option IOSpec;
  sp_secrets : list SecretBinding;
  sp_time_windows : list TimeWindow;
}.

(** [_certification_requires_model_identity] *)
Definition identity_for_certification (s : WorkloadSpec) : bool :=
  match sp_certification s, mo_identity (sp_model s) with Some _, None => false | _, _ => true end.

(** [core.workload.AgentWorkload], whole; [api_version] and [kind] are literals. *)
Record Manifest := mkManifest { ma_metadata : Metadata; ma_spec : WorkloadSpec }.

Definition manifest_name (m : Manifest) : string := md_name (ma_metadata m).
Definition manifest_owner (m : Manifest) : string := md_owner (ma_metadata m).
Definition manifest_team (m : Manifest) : option string := md_team (ma_metadata m).

(** [AgentWorkload.certification_status] *)
Definition manifest_status (m : Manifest) : CertificationStatus :=
  match sp_certification (ma_spec m) with Some c => ce_status c | None => UNCERTIFIED end.

(** What the run-time components read of it. *)
Definition workload_of (m : Manifest) : AgentWorkload :=
  {| wl_name := manifest_name m; wl_owner := manifest_owner m; wl_team := manifest_team m;
     wl_budget := sp_budget (ma_spec m); wl_tools := sp_tools (ma_spec m);
     wl_approval_required_for := as_required_for (sp_approvals (ma_spec m));
     wl_sandbox := sp_sandbox (ma_spec m); wl_time_windows := sp_time_windows (ma_spec m);
     wl_output_shaping := match sp_output_shaping (ma_spec m) with Some _ => true | None => false end;
     wl_certification := ce_status <$> sp_certification (ma_spec m) |}.

Lemma workload_of_status m : certification_status (workload_of m) = manifest_status m.
Proof. unfold certification_status, manifest_status. simpl. by destruct (sp_certification (ma_spec m)). Qed.

(** ** Names and durations *)

Lemma split_last_app t c : split_last (t +:+ String c EmptyString) = Some (t, c).
Proof. induction t as [|a t IH]; [done|]. simpl. rewrite IH. by destruct t. Qed.

Lemma split_last_Some s t c : split_last s = Some (t, c) → s = t +:+ String c EmptyString.
Proof.
  revert t. induction s as [|a s IH]; intros t; [done|]. destruct s as [|b s].
  - intros [= <- <-]. done.
  - cbn [split_last] in *. intros ([t' c'] & Heq & E)%fmap_Some_1. simplify_eq/=. by rewrite (IH t').
Qed.

Lemma length_app_string a b : String.length (a +:+ b) = (String.length a + String.length b)%nat.
Proof. induction a as [|x a IH]; simpl; [done|]. by rewrite IH. Qed.

(** What the name validator accepts: DNS labels of at most 63 characters — and
    a label of at most 62 followed by a newline. *)
Theorem validate_name_spec s :
  validate_name s = Some s ↔
    (dns_name s = true ∧ (String.length s ≤ 63)%nat) ∨
    (∃ t, s = t +:+ String "010"%char EmptyString ∧ dns_name t = true ∧ (String.length t ≤ 62)%nat).
Proof.
  unfold validate_name, name_matches, NAME_MAX_LENGTH. split.
  - case_bool_decide as He; [done|]. case_bool_decide as Hl; [done|].
    destruct (dns_name s) eqn:Hd; simpl; [intros _; left; split; [done|lia]|].
    destruct (split_last s) as [[t c]|] eqn:Hs; [|done]. case_bool_decide as Hc; simpl; [|done].
    destruct (dns_name t) eqn:Ht; [|done]. intros _. right. subst c. apply split_last_Some in Hs. exists t.
    split_and!; [done|done|]. subst s. rewrite length_app_string in Hl. simpl in Hl. lia.
  - intros [[Hd Hl]|(t & -> & Ht & Hl)].
    + rewrite bool_decide_eq_false_2 by (by intros ->). rewrite bool_decide_eq_false_2 by lia. by rewrite Hd.
    + rewrite bool_decide_eq_false_2 by (by destruct t). rewrite bool_decide_eq_false_2
        by (rewrite length_app_string; simpl; lia).
      rewrite split_last_app, Ht. rewrite bool_decide_eq_true_2 by done. by rewrite orb_true_r.
Qed.

Lemma parse_duration_nonneg v z : parse_duration v = Some z → (0 ≤ z)%Z.
Proof.
  unfold parse_duration. intros (s & _ & H)%bind_Some. destruct (s <? 0)%Z eqn:E; simplify_eq. lia.
Qed.

Example parse_duration_ex :
  parse_duration (JStr " 14d ") = Some 1209600%Z ∧ parse_duration (JStr "90") = Some 90%Z ∧
  parse_duration (JStr "-5") = None ∧ parse_duration (JInt (-5)) = None ∧ parse_duration (JBool true) = None ∧
  parse_duration (JFloat (f64_lit 3 1)) = Some 3%Z ∧ parse_duration (JFloat (f64_lit 7 2)) = None ∧
  parse_duration (JFloat f64_inf) = None ∧ parse_duration (JStr "1.5h") = None.
Proof. vm_compute. done. Qed.
