(* ===== verification/Binding.v ===== *)
(** * What a certification is bound to ([certification/binding.py],
    [transparency/provenance.py])

    The artifact hash of a manifest and the signed bundle.  SHA-256, the
    signature scheme, [repr] of a float and the JSON form of an instant are
    parameters. *)

From stdpp Require Import base strings numbers gmap sorting list.
From S2P Require Import Prelude Text Float64 AuditTrail CoreModels Canonical Base64 Manifest.

(** ** Sorted documents determine their fields *)

Lemma perm_same_keys {V} (l k : list (string * V)) : l ≡ₚ k → l.*1 = k.*1 → NoDup l.*1 → l = k.
Proof.
  revert k. induction l as [|[a x] l IH]; intros [|[b y] k] Hp Hk Hd; simplify_eq/=; [done|].
  apply NoDup_cons in Hd as [Ha Hd].
  assert ((b, x) ∈ (b, y) :: k) as Hin by (rewrite <-Hp; left).
  apply elem_of_cons in Hin as [[= ->]|Hin].
  - f_equal. apply IH; [|done..]. by apply Permutation_cons_inv in Hp.
  - exfalso. apply Ha. match goal with E : l.*1 = k.*1 |- _ => rewrite E end. by apply (list_elem_of_fmap_2 fst) in Hin.
Qed.

Lemma sort_keys_perm d d' : sort_keys (JObj d) = sort_keys (JObj d') →
  (λ e, (e.1, sort_keys e.2)) <$> d ≡ₚ (λ e, (e.1, sort_keys e.2)) <$> d'.
Proof. intros [= H]. rewrite <-(py_sort_perm (λ a b, str_leb a.1 b.1)), H. apply py_sort_perm. Qed.

Lemma obj_values d d' : d.*1 = d'.*1 → NoDup d.*1 → sort_keys (JObj d) = sort_keys (JObj d') →
  sort_keys <$> d.*2 = sort_keys <$> d'.*2.
Proof.
  intros Hk Hd H%sort_keys_perm. apply perm_same_keys in H.
  - apply (f_equal (fmap snd)) in H. rewrite <-!list_fmap_compose in *. exact H.
  - rewrite <-!list_fmap_compose. exact Hk.
  - rewrite <-list_fmap_compose. exact Hd.
Qed.

Definition doc_inj {A} (f : A → JsonValue) : Prop := ∀ x y, sort_keys (f x) = sort_keys (f y) → x = y.

Definition opt_doc {A} (f : A → JsonValue) (o : option A) : JsonValue :=
  match o with Some x => f x | None => JNull end.

Definition list_doc {A} (f : A → JsonValue) (l : list A) : JsonValue := JList (f <$> l).

Definition map_doc (m : gmap string string) : JsonValue := JObj ((λ e, (e.1, JStr e.2)) <$> map_to_list m).

Lemma opt_doc_inj {A} (f : A → JsonValue) : doc_inj f → (∀ x, sort_keys (f x) ≠ JNull) → doc_inj (opt_doc f).
Proof.
  intros Hf Hn [x|] [y|]; simpl; [|intros H; by apply Hn in H|intros H; symmetry in H; by apply Hn in H|done].
  intros ->%Hf. done.
Qed.

Lemma list_doc_inj {A} (f : A → JsonValue) : doc_inj f → doc_inj (list_doc f).
Proof.
  intros Hf l k. simpl. intros [= H]. rewrite <-!list_fmap_compose in H. revert k H.
  induction l as [|x l IH]; intros [|y k] H; simplify_eq/=; [done|]. f_equal; [by apply Hf|by apply IH].
Qed.

Lemma map_doc_inj : doc_inj map_doc.
Proof.
  intros m m' H%sort_keys_perm. rewrite <-!list_fmap_compose in H.
  apply map_to_list_inj. apply (fmap_Permutation (λ e : string * JsonValue, (e.1, match e.2 with JStr s => s | _ => EmptyString end))) in H.
  rewrite <-!list_fmap_compose in H. assert (∀ l : list (string * string),
    ((λ e : string * JsonValue, (e.1, match e.2 with JStr s => s | _ => EmptyString end)) ∘
     ((λ e, (e.1, sort_keys e.2)) ∘ (λ e : string * string, (e.1, JStr e.2)))) <$> l = l) as E.
  { intros l. rewrite <-(list_fmap_id l) at 2. apply list_fmap_ext. by intros ? [? ?]. }
  by rewrite !E in H.
Qed.

(** Read the fields of two equal sorted documents. *)
Ltac fields H :=
  apply obj_values in H; [|reflexivity|apply (bool_decide_unpack _); vm_compute; exact I]; cbn [fmap list_fmap fst snd] in H.

(** ** The documents ([model_dump(mode="json")]) *)

Definition runtime_doc (r : RuntimeSpec) : JsonValue :=
  JObj [("adapter", JStr (runtime_value (rt_adapter r))); ("entrypoint", JStr (rt_entrypoint r));
        ("env", map_doc (rt_env r)); ("adapter_contract", JStr (rt_adapter_contract r))].

Definition identity_doc (i : ModelIdentity) : JsonValue :=
  JObj [("provider", JStr (mi_provider i)); ("family", JStr (mi_family i)); ("version", JStr (mi_version i))].

Definition model_doc (m : ModelSpec) : JsonValue :=
  JObj [("strategy", JStr (strategy_value (mo_strategy m))); ("identity", opt_doc identity_doc (mo_identity m))].

Definition trust_value (t : ToolTrustLevel) : string :=
  match t with TRUST_READ_ONLY => "read_only" | TRUST_DESTRUCTIVE => "destructive" end.

Definition tool_doc (t : ToolRef) : JsonValue :=
  JObj [("tool_id", JStr (tr_tool_id t)); ("trust_level", JStr (trust_value (tr_trust_level t)));
        ("require_approval", JBool (tr_require_approval t)); ("allow_untrusted", JBool (tr_allow_untrusted t))].

Definition server_doc (s : McpServer) : JsonValue :=
  JObj [("name", JStr (ms_name s)); ("endpoint", JStr (ms_endpoint s))].

Definition tools_doc (t : ToolsSpec) : JsonValue :=
  JObj [("allow", list_doc tool_doc (ts_allow t)); ("deny", list_doc JStr (ts_deny t));
        ("mcp_servers", list_doc server_doc (ts_mcp_servers t)); ("default_trust", JStr (trust_value (ts_default_trust t)))].

Definition budget_doc (b : BudgetSpec) : JsonValue :=
  JObj [("per_run_usd", JFloat (bs_per_run_usd b)); ("per_day_usd", JFloat (bs_per_day_usd b));
        ("per_team_usd", opt_doc JFloat (bs_per_team_usd b))].

Definition action_value (a : ActionClass) : string :=
  match a with
  | AC_READ_ONLY => "read_only" | AC_DESTRUCTIVE => "destructive" | AC_PRODUCTION_WRITE => "production_write"
  | AC_HIGH_SPEND => "high_spend"
  end.

Definition approvals_doc (a : ApprovalsSpec) : JsonValue :=
  JObj [("required_for", list_doc (JStr ∘ action_value) (as_required_for a)); ("contact", opt_doc JStr (as_contact a));
        ("auto_escalate_after", JInt (as_auto_escalate_after a))].

Definition filter_doc (r : FilterRule) : JsonValue :=
  JObj [("pattern", JStr (fr_pattern r)); ("action", JStr (filter_action_value (fr_action r)))].

Definition shaping_doc (o : OutputShapingSpec) : JsonValue :=
  JObj [("max_bytes", JInt (os_max_bytes o)); ("truncate_strategy", JStr (truncate_value (os_truncate_strategy o)));
        ("filter_rules", list_doc filter_doc (os_filter_rules o)); ("injection_scan", JBool (os_injection_scan o))].

Definition caps_doc (c : ResourceCaps) : JsonValue :=
  JObj [("memory_mb", JInt (rc_memory_mb c)); ("cpu_cores", JFloat (rc_cpu_cores c)); ("wall_clock_s", JInt (rc_wall_clock_s c))].

Definition mode_value (m : EgressMode) : string :=
  match m with EGRESS_OPEN => "open" | EGRESS_RESTRICTED => "restricted" | EGRESS_NONE => "none" end.

Definition egress_doc (e : EgressSpec) : JsonValue :=
  JObj [("allow", list_doc JStr (eg_allow e)); ("deny", list_doc JStr (eg_deny e)); ("mode", JStr (mode_value (eg_mode e)))].

Definition rule_doc (r : EgressRule) : JsonValue := JObj [("host", JStr (er_host r)); ("port", opt_doc JInt (er_port r))].

Definition network_doc (n : NetworkSpec) : JsonValue :=
  JObj [("egress", JStr (mode_value (ns_egress n))); ("allow", list_doc rule_doc (ns_allow n)); ("deny", list_doc rule_doc (ns_deny n))].

Definition filesystem_value (f : FilesystemMode) : string := match f with FS_ISOLATED => "isolated" end.

Definition sandbox_doc (s : SandboxSpec) : JsonValue :=
  JObj [("enabled", JBool (sb_enabled s)); ("resource_caps", opt_doc caps_doc (sb_resource_caps s));
        ("egress", egress_doc (sb_egress s)); ("network", opt_doc network_doc (sb_network s));
        ("filesystem", JStr (filesystem_value (sb_filesystem s)))].

(** [_behavioral_spec] *)
Definition behavioral_spec (m : Manifest) : JsonValue :=
  let spec := ma_spec m in
  JObj [("runtime", runtime_doc (sp_runtime spec)); ("model", model_doc (sp_model spec)); ("tools", tools_doc (sp_tools spec));
        ("budget", budget_doc (sp_budget spec)); ("approvals", approvals_doc (sp_approvals spec));
        ("output_shaping", opt_doc shaping_doc (sp_output_shaping spec)); ("sandbox", opt_doc sandbox_doc (sp_sandbox spec))].

(** [_toolset] *)
Definition toolset (m : Manifest) : JsonValue :=
  let tools := sp_tools (ma_spec m) in
  JObj [("allow", list_doc (λ t, JObj [("tool_id", JStr (tr_tool_id t)); ("trust_level", JStr (trust_value (tr_trust_level t)));
                                       ("require_approval", JBool (tr_require_approval t))])
                           (py_sort (λ a b, str_leb (tr_tool_id a) (tr_tool_id b)) (ts_allow tools)));
        ("deny", list_doc JStr (py_sort str_leb (ts_deny tools))); ("default_trust", JStr (trust_value (ts_default_trust tools)))].

(** *** They lose nothing *)

Lemma str_doc_inj : doc_inj JStr. Proof. by intros x y [= ->]. Qed.
Lemma float_doc_inj : doc_inj JFloat. Proof. by intros x y [= ->]. Qed.
Lemma int_doc_inj : doc_inj JInt. Proof. by intros x y [= ->]. Qed.
Lemma enum_doc_inj {A} (f : A → string) : Inj (=) (=) f → doc_inj (JStr ∘ f).
Proof. by intros Hf x y [= ->%(inj f)]. Qed.

Lemma action_value_inj : Inj (=) (=) action_value. Proof. by intros [] []. Qed.
Lemma trust_value_inj : Inj (=) (=) trust_value. Proof. by intros [] []. Qed.
Lemma mode_value_inj : Inj (=) (=) mode_value. Proof. by intros [] []. Qed.
Lemma runtime_value_inj : Inj (=) (=) runtime_value. Proof. by intros [] []. Qed.
Lemma strategy_value_inj : Inj (=) (=) strategy_value. Proof. by intros [] []. Qed.
Lemma truncate_value_inj : Inj (=) (=) truncate_value. Proof. by intros [] []. Qed.
Lemma filesystem_value_inj : Inj (=) (=) filesystem_value. Proof. by intros [] []. Qed.
Lemma filter_action_value_inj : Inj (=) (=) filter_action_value. Proof. by intros [] []. Qed.

Create HintDb docs.
#[export] Hint Resolve str_doc_inj float_doc_inj int_doc_inj map_doc_inj opt_doc_inj list_doc_inj enum_doc_inj action_value_inj
  trust_value_inj mode_value_inj runtime_value_inj strategy_value_inj truncate_value_inj filter_action_value_inj : docs.

(** One field of equal lists of sorted documents. *)
Lemma next_field {A} (f : A → JsonValue) x y (l k : list JsonValue) :
  doc_inj f → sort_keys (f x) :: l = sort_keys (f y) :: k → x = y ∧ l = k.
Proof. intros Hf [= H ->]. auto. Qed.

Lemma bool_doc_inj : doc_inj JBool. Proof. by intros x y [= ->]. Qed.
#[export] Hint Resolve bool_doc_inj : docs.

(** Equal sorted records: read their fields, then the documents of each. *)
Ltac doc_injection :=
  let H := fresh in
  intros [] [] H; fields H;
  repeat match type of H with
  | sort_keys (?F ?x) :: _ = sort_keys (?F ?y) :: _ =>
      let E := fresh in
      apply (next_field F x y) in H as [E H]; [simpl in E|solve [eauto with docs]]
  end;
  repeat match goal with
  | E : _ = _ |- _ => apply runtime_value_inj in E || apply strategy_value_inj in E || apply trust_value_inj in E
      || apply mode_value_inj in E || apply truncate_value_inj in E || apply filter_action_value_inj in E
      || apply filesystem_value_inj in E
  end; by subst.

Lemma runtime_doc_inj : doc_inj runtime_doc. Proof. doc_injection. Qed.
Lemma identity_doc_inj : doc_inj identity_doc. Proof. doc_injection. Qed.
Lemma tool_doc_inj : doc_inj tool_doc. Proof. doc_injection. Qed.
Lemma server_doc_inj : doc_inj server_doc. Proof. doc_injection. Qed.
Lemma filter_doc_inj : doc_inj filter_doc. Proof. doc_injection. Qed.
Lemma caps_doc_inj : doc_inj caps_doc. Proof. doc_injection. Qed.
Lemma egress_doc_inj : doc_inj egress_doc. Proof. doc_injection. Qed.

Lemma opt_str_inj : doc_inj (opt_doc JStr). Proof. by apply opt_doc_inj; [apply str_doc_inj|]. Qed.
Lemma opt_float_inj : doc_inj (opt_doc JFloat). Proof. by apply opt_doc_inj; [apply float_doc_inj|]. Qed.
Lemma opt_int_inj : doc_inj (opt_doc JInt). Proof. by apply opt_doc_inj; [apply int_doc_inj|]. Qed.
Lemma opt_identity_inj : doc_inj (opt_doc identity_doc). Proof. by apply opt_doc_inj; [apply identity_doc_inj|]. Qed.
Lemma opt_caps_inj : doc_inj (opt_doc caps_doc). Proof. by apply opt_doc_inj; [apply caps_doc_inj|]. Qed.
Lemma actions_inj : doc_inj (list_doc (JStr ∘ action_value)).
Proof. apply list_doc_inj, enum_doc_inj, action_value_inj. Qed.
#[export] Hint Resolve opt_str_inj opt_float_inj opt_int_inj opt_identity_inj opt_caps_inj actions_inj tool_doc_inj server_doc_inj
  filter_doc_inj egress_doc_inj runtime_doc_inj : docs.

Lemma rule_doc_inj : doc_inj rule_doc. Proof. doc_injection. Qed.
Lemma model_doc_inj : doc_inj model_doc. Proof. doc_injection. Qed.
Lemma budget_doc_inj : doc_inj budget_doc. Proof. doc_injection. Qed.
Lemma tools_doc_inj : doc_inj tools_doc. Proof. doc_injection. Qed.
Lemma approvals_doc_inj : doc_inj approvals_doc. Proof. doc_injection. Qed.
Lemma shaping_doc_inj : doc_inj shaping_doc. Proof. doc_injection. Qed.
#[export] Hint Resolve rule_doc_inj model_doc_inj budget_doc_inj tools_doc_inj approvals_doc_inj : docs.

Lemma network_doc_inj : doc_inj network_doc. Proof. doc_injection. Qed.
Lemma opt_network_inj : doc_inj (opt_doc network_doc). Proof. by apply opt_doc_inj; [apply network_doc_inj|]. Qed.
#[export] Hint Resolve opt_network_inj : docs.
Lemma sandbox_doc_inj : doc_inj sandbox_doc.
Proof. doc_injection. Qed.
Lemma opt_shaping_inj : doc_inj (opt_doc shaping_doc). Proof. by apply opt_doc_inj; [apply shaping_doc_inj|]. Qed.
Lemma opt_sandbox_inj : doc_inj (opt_doc sandbox_doc). Proof. by apply opt_doc_inj; [apply sandbox_doc_inj|]. Qed.
#[export] Hint Resolve opt_shaping_inj opt_sandbox_inj : docs.

(** The blocks that determine what an agent does. *)
Definition behaviour (m : Manifest) :=
  (sp_runtime (ma_spec m), sp_model (ma_spec m), sp_tools (ma_spec m), sp_budget (ma_spec m), sp_approvals (ma_spec m),
   sp_output_shaping (ma_spec m), sp_sandbox (ma_spec m)).

Lemma behavioral_spec_behaviour m m' :
  sort_keys (behavioral_spec m) = sort_keys (behavioral_spec m') → behaviour m = behaviour m'.
Proof.
  unfold behavioral_spec, behaviour. destruct m as [? []], m' as [? []]. intros H. fields H.
  repeat match type of H with
  | sort_keys (?F ?x) :: _ = sort_keys (?F ?y) :: _ =>
      let E := fresh in
      apply (next_field F x y) in H as [E H]; [simpl in E|solve [eauto with docs]]
  end. simpl. by subst.
Qed.

(** ** The artifact hash *)

Section Hash.
Variables (sha256 : string → string) (float_repr : f64 → string).

Record ArtifactBinding := mkBinding {
  ab_artifact_hash : string; ab_manifest_hash : string; ab_toolset_hash : string; ab_model_identity : string;
  ab_policy_version : option string }.

Definition manifest_text (m : Manifest) : string := canonical_json float_repr (behavioral_spec m).
Definition toolset_text (m : Manifest) : string := canonical_json float_repr (toolset m).

Definition model_binding (m : Manifest) : string :=
  match mo_identity (sp_model (ma_spec m)) with Some i => canonical_model_identity i | None => "unbound" end.

Definition artifact_doc (m : Manifest) (policy_version : option string) : JsonValue :=
  JObj [("manifest_hash", JStr (sha256 (manifest_text m))); ("toolset_hash", JStr (sha256 (toolset_text m)));
        ("model_binding", JStr (model_binding m)); ("policy_version", opt_doc JStr policy_version)].

Definition artifact_text (m : Manifest) (policy_version : option string) : string :=
  canonical_json float_repr (artifact_doc m policy_version).

Definition compute_binding (m : Manifest) (policy_version : option string) : ArtifactBinding :=
  {| ab_artifact_hash := sha256 (artifact_text m policy_version); ab_manifest_hash := sha256 (manifest_text m);
     ab_toolset_hash := sha256 (toolset_text m); ab_model_identity := model_binding m; ab_policy_version := policy_version |}.

Definition opt_text (o : option string) : string := default "None" o.

Definition changed_bindings (before : option ArtifactBinding) (after : ArtifactBinding) : list string :=
  match before with
  | None => ["manifest"; "toolset"; "model_binding"; "policy_version"]
  | Some b =>
      (if bool_decide (ab_manifest_hash b = ab_manifest_hash after) then [] else ["manifest"])
      ++ (if bool_decide (ab_toolset_hash b = ab_toolset_hash after) then [] else ["toolset"])
      ++ (if bool_decide (ab_model_identity b = ab_model_identity after) then []
          else ["model_binding: " +:+ ab_model_identity b +:+ " -> " +:+ ab_model_identity after])
      ++ (if bool_decide (ab_policy_version b = ab_policy_version after) then []
          else ["policy_version: " +:+ opt_text (ab_policy_version b) +:+ " -> " +:+ opt_text (ab_policy_version after)])
  end.

(** No change is reported exactly when every component is the same. *)
Lemma changed_bindings_nil b after :
  changed_bindings (Some b) after = [] ↔
    ab_manifest_hash b = ab_manifest_hash after ∧ ab_toolset_hash b = ab_toolset_hash after ∧
    ab_model_identity b = ab_model_identity after ∧ ab_policy_version b = ab_policy_version after.
Proof. unfold changed_bindings. repeat case_bool_decide; naive_solver. Qed.

(** The artifact hash is computed from the others. *)
Lemma changed_bindings_artifact m p m' p' :
  changed_bindings (Some (compute_binding m p)) (compute_binding m' p') = [] →
  ab_artifact_hash (compute_binding m p) = ab_artifact_hash (compute_binding m' p').
Proof.
  rewrite changed_bindings_nil. simpl. unfold artifact_text, artifact_doc. intros (-> & -> & -> & ->). done.
Qed.

Lemma json_wf_sort v : json_wf v = true → json_wf (sort_keys v) = true.
Proof.
  induction v as [|b|z|x|s|l IH|d IH] using json_induction; simpl; try done.
  - rewrite !forallb_elem. intros H x (y & -> & Hy)%list_elem_of_fmap. rewrite Forall_forall in IH. auto.
  - rewrite !forallb_elem. intros H x Hx. rewrite py_sort_perm in Hx. apply list_elem_of_fmap in Hx as (y & -> & Hy).
    rewrite Forall_forall in IH. simpl. auto.
Qed.

(** The texts hashed for a manifest. *)
Definition hashed_texts (m : Manifest) (p : option string) : list string :=
  [manifest_text m; toolset_text m; artifact_text m p].

(** The artifact hash determines the agent: two manifests with one artifact
    hash agree on runtime, model, tools, budget, approvals, output shaping,
    sandbox and policy version, as far as SHA-256 tells the hashed texts
    apart. *)
Theorem artifact_hash_behaviour m p m' p' :
  float_text float_repr → json_wf (behavioral_spec m) = true → json_wf (behavioral_spec m') = true →
  (∀ a b, a ∈ hashed_texts m p → b ∈ hashed_texts m' p' → sha256 a = sha256 b → a = b) →
  ab_artifact_hash (compute_binding m p) = ab_artifact_hash (compute_binding m' p') →
  behaviour m = behaviour m' ∧ p = p'.
Proof.
  intros Hf Hw Hw' Hc E. simpl in E. apply Hc in E; [|right; right; left..].
  unfold artifact_text, canonical_json in E. apply dumps_inj in E; [|done|by apply json_wf_sort; destruct p|by apply json_wf_sort; destruct p'].
  unfold artifact_doc in E. fields E. simpl in E. injection E as Em _ _ Ep.
  apply Hc in Em; [|left..]. unfold manifest_text, canonical_json in Em.
  apply dumps_inj in Em; [|done|by apply json_wf_sort..]. split; [by apply behavioral_spec_behaviour|].
  by apply opt_str_inj in Ep.
Qed.

(** The metadata and the certification block are not part of the artifact. *)
Lemma behaviour_binding m m' p : behaviour m = behaviour m' → compute_binding m p = compute_binding m' p.
Proof.
  unfold behaviour. intros H. injection H as Hr Hm Ht Hb Ha Ho Hs.
  assert (behavioral_spec m = behavioral_spec m') as E1 by (unfold behavioral_spec; by rewrite Hr, Hm, Ht, Hb, Ha, Ho, Hs).
  assert (toolset m = toolset m') as E2 by (unfold toolset; by rewrite Ht).
  unfold compute_binding, artifact_text, artifact_doc, manifest_text, toolset_text, model_binding. by rewrite E1, E2, Hm.
Qed.
End Hash.

(** ** Signed bundles *)

Section Bundle.
Variables (sha256 : string → string) (float_repr : f64 → string) (dump_time : Z → string).
Context {Key Pub : Type}.
Variables (sign : Key → string → string) (verify : Pub → string → string → bool).

Record WorkloadBundle := mkBundle {
  wb_workload_id : string; wb_bundle_digest : string; wb_entrypoint_digest : string; wb_manifest_hash : string;
  wb_key_id : string; wb_signature : string; wb_registered_at : Z }.

Definition entrypoint_digest (entrypoint : string) (source : option string) : string := sha256 (default entrypoint source).

Definition bundle_doc (m : Manifest) (source : option string) : JsonValue :=
  let runtime := sp_runtime (ma_spec m) in
  JObj [("workload_id", JStr (manifest_name m)); ("adapter", JStr (runtime_value (rt_adapter runtime)));
        ("entrypoint", JStr (rt_entrypoint runtime));
        ("entrypoint_digest", JStr (entrypoint_digest (rt_entrypoint runtime) source));
        ("manifest_hash", JStr (ab_manifest_hash (compute_binding sha256 float_repr m None)))].

Definition bundle_text (m : Manifest) (source : option string) : string := canonical_json float_repr (bundle_doc m source).

Definition compute_bundle_digest (m : Manifest) (source : option string) : string := sha256 (bundle_text m source).

Definition canonical_bundle_payload (b : WorkloadBundle) : string :=
  canonical_json float_repr
    (JObj [("workload_id", JStr (wb_workload_id b)); ("bundle_digest", JStr (wb_bundle_digest b));
           ("entrypoint_digest", JStr (wb_entrypoint_digest b)); ("manifest_hash", JStr (wb_manifest_hash b));
           ("key_id", JStr (wb_key_id b)); ("registered_at", JStr (dump_time (wb_registered_at b)))]).

Definition sign_bundle (m : Manifest) (private_key : Key) (key_id workload_id : string) (registered_at : Z)
    (source : option string) : WorkloadBundle :=
  let bundle signature :=
    {| wb_workload_id := workload_id; wb_bundle_digest := compute_bundle_digest m source;
       wb_entrypoint_digest := entrypoint_digest (rt_entrypoint (sp_runtime (ma_spec m))) source;
       wb_manifest_hash := ab_manifest_hash (compute_binding sha256 float_repr m None);
       wb_key_id := key_id; wb_signature := signature; wb_registered_at := registered_at |} in
  bundle (b64encode (sign private_key (canonical_bundle_payload (bundle "unsigned")))).

Definition verify_bundle (b : WorkloadBundle) (m : Manifest) (public_key : Pub) (source : option string) : bool :=
  if bool_decide (wb_bundle_digest b ≠ compute_bundle_digest m source) then false
  else match b64decode (wb_signature b) with
       | Some signature => verify public_key signature (canonical_bundle_payload b)
       | None => false
       end.

(** A bundle verifies against the manifest it was signed for, under the key
    that signed it. *)
Lemma sign_verify_bundle m k pub key_id workload_id at_ source :
  (∀ payload, verify pub (sign k payload) payload = true) →
  verify_bundle (sign_bundle m k key_id workload_id at_ source) m pub source = true.
Proof. intros Hs. unfold verify_bundle, sign_bundle. simpl. by rewrite bool_decide_eq_false_2, b64_roundtrip by auto. Qed.

(** Two manifests that verify against one bundle are the same agent, as far as
    SHA-256 tells the hashed texts apart. *)
Theorem bundle_identifies_agent b m m' pub source source' :
  float_text float_repr → json_wf (behavioral_spec m) = true → json_wf (behavioral_spec m') = true →
  (∀ s t, s ∈ [manifest_text float_repr m; bundle_text m source] → t ∈ [manifest_text float_repr m'; bundle_text m' source'] →
    sha256 s = sha256 t → s = t) →
  verify_bundle b m pub source = true → verify_bundle b m' pub source' = true →
  manifest_name m = manifest_name m' ∧ behaviour m = behaviour m'.
Proof.
  intros Hf Hw Hw' Hc. unfold verify_bundle. case_bool_decide as H1; [done|]. case_bool_decide as H2; [done|]. intros _ _.
  assert (compute_bundle_digest m source = compute_bundle_digest m' source') as E by (destruct (decide (wb_bundle_digest b =
    compute_bundle_digest m source)), (decide (wb_bundle_digest b = compute_bundle_digest m' source')); congruence).
  apply Hc in E; [|right; left..]. apply dumps_inj in E; [|done..]. fields E. simpl in E. injection E as En _ _ _ Em.
  split; [done|]. apply Hc in Em; [|left..]. apply dumps_inj in Em; [|done|by apply json_wf_sort..].
  by apply behavioral_spec_behaviour.
Qed.
End Bundle.
Arguments WorkloadBundle : clear implicits.
