(* ===== verification/Certification.v ===== *)
(** * Certification ([certification/models.py], [certification/engine.py],
    [certification/runner.py], [certification/diff.py],
    [certification/signing.py], [corpus/profiles.py])

    The status machine, the evaluation of benchmark results, their comparison,
    and signed attestations.  SHA-256, the signature scheme, the texts [repr]
    gives in failure reasons and the JSON form of instants are parameters. *)

From Stdlib Require Import Ascii.
From stdpp Require Import base strings pretty numbers gmap sorting list.
From S2P Require Import Prelude Text Float64 CoreModels Canonical Base64 Manifest Binding.

#[local] Open Scope hp_scope.

(** ** Status machine *)

Inductive CertificationEvent := STAGING_PASS | PRODUCTION_PASS | RECERT_FAIL | DRIFT | RECOVER.

#[export] Instance CertificationEvent_eq_dec : EqDecision CertificationEvent.
Proof. solve_decision. Defined.

Inductive TargetContext := TC_STAGING | TC_PRODUCTION.

#[export] Instance TargetContext_eq_dec : EqDecision TargetContext.
Proof. solve_decision. Defined.

Definition target_value (t : TargetContext) : string := match t with TC_STAGING => "staging" | TC_PRODUCTION => "production" end.

Definition status_value (s : CertificationStatus) : string :=
  match s with
  | UNCERTIFIED => "uncertified" | PROVISIONAL => "provisional" | CERTIFIED => "certified" | QUARANTINED => "quarantined"
  end.

(** [advance_status]; [None] is the [ValueError]. *)
Definition advance_status (current : CertificationStatus) (event : CertificationEvent) : option CertificationStatus :=
  match current, event with
  | UNCERTIFIED, STAGING_PASS => Some PROVISIONAL
  | PROVISIONAL, PRODUCTION_PASS => Some CERTIFIED
  | PROVISIONAL, RECERT_FAIL => Some QUARANTINED
  | CERTIFIED, PRODUCTION_PASS => Some CERTIFIED
  | CERTIFIED, RECERT_FAIL => Some QUARANTINED
  | CERTIFIED, DRIFT => Some QUARANTINED
  | QUARANTINED, RECOVER => Some PROVISIONAL
  | _, _ => None
  end.

(** [_try_transition] *)
Definition try_transition (current : CertificationStatus) (event : CertificationEvent) : CertificationStatus :=
  default current (advance_status current event).

(** ** Thresholds and policy *)

Record Thresholds := mkThresholds {
  th_min_pass_rate : f64; th_max_critical_failures : Z; th_max_p95_latency_ms : Z; th_min_production_runs_survived : Z }.

Definition thresholds_valid (t : Thresholds) : bool :=
  unit_interval (th_min_pass_rate t) && (0 <=? th_max_critical_failures t)%Z && (0 <? th_max_p95_latency_ms t)%Z
  && (0 <=? th_min_production_runs_survived t)%Z.

Record EvalSummary := mkSummary {
  ev_pass_rate : f64; ev_critical_failures : Z; ev_p95_latency_ms : Z; ev_tasks_passed : Z; ev_tasks_failed : Z }.

Record CertificationPolicy := mkPolicy {
  cp_staging : Thresholds; cp_production : Thresholds; cp_re_cert_interval : Z; cp_grace_margin : f64 }.

(** The fields' bounds and [_production_not_weaker_than_staging]. *)
Definition policy_valid (p : CertificationPolicy) : bool :=
  thresholds_valid (cp_staging p) && thresholds_valid (cp_production p) && (0 <=? cp_re_cert_interval p)%Z
  && f64_leb f64_zero (cp_grace_margin p) && f64_ltb (cp_grace_margin p) (f64_lit 1 2)
  && negb (f64_ltb (th_min_pass_rate (cp_production p)) (th_min_pass_rate (cp_staging p)))
  && negb (th_max_critical_failures (cp_staging p) <? th_max_critical_failures (cp_production p))%Z.

(** [workload_policy]; [None] is the validation error of the policy it builds. *)
Definition workload_policy (spec : CertificationSpec) (base : CertificationPolicy) : option CertificationPolicy :=
  let critical t := if ce_no_critical_failures spec then 0%Z else th_max_critical_failures t in
  let p :=
    {| cp_staging := {| th_min_pass_rate := ce_staging_threshold spec; th_max_critical_failures := critical (cp_staging base);
                        th_max_p95_latency_ms := ce_latency_budget_ms spec;
                        th_min_production_runs_survived := th_min_production_runs_survived (cp_staging base) |};
       cp_production := {| th_min_pass_rate := ce_production_threshold spec; th_max_critical_failures := critical (cp_production base);
                           th_max_p95_latency_ms := ce_latency_budget_ms spec;
                           th_min_production_runs_survived := th_min_production_runs_survived (cp_production base) |};
       cp_re_cert_interval := ce_re_cert_interval spec; cp_grace_margin := cp_grace_margin base |} in
  if policy_valid p then Some p else None.

(** [passes_threshold] *)
Definition passes_threshold (s : EvalSummary) (t : Thresholds) : bool :=
  if (th_max_critical_failures t <? ev_critical_failures s)%Z then false
  else if f64_ltb (ev_pass_rate s) (th_min_pass_rate t) then false
  else (ev_p95_latency_ms s <=? th_max_p95_latency_ms t)%Z.

(** ** Benchmarks *)

Inductive CheckType := EXACT_MATCH | ACTION_AUDIT | SCHEMA_MATCH | RUBRIC | CUSTOM.

#[export] Instance CheckType_eq_dec : EqDecision CheckType.
Proof. solve_decision. Defined.

Definition check_type_value (t : CheckType) : string :=
  match t with
  | EXACT_MATCH => "exact_match" | ACTION_AUDIT => "action_audit" | SCHEMA_MATCH => "schema_match" | RUBRIC => "rubric"
  | CUSTOM => "custom"
  end.

Record ExpectedOutcome := mkExpected {
  ex_outcome : option string; ex_required_fields : list string; ex_forbidden_actions : list string }.

(** A [null] value of a check is an absent one. *)
Record BenchmarkTaskCheck := mkCheck {
  ck_type : CheckType; ck_field : option string; ck_value : JsonValue; ck_required_actions : list string;
  ck_forbidden_actions : list string; ck_criteria : list string; ck_min_score : option Z; ck_callable : option string }.

(** [_check_type_requirements] *)
Definition check_valid (c : BenchmarkTaskCheck) : bool :=
  match ck_type c with
  | EXACT_MATCH => truthy (ck_field c) && bool_decide (ck_value c ≠ JNull)
  | ACTION_AUDIT => bool_decide (ck_required_actions c ≠ []) || bool_decide (ck_forbidden_actions c ≠ [])
  | RUBRIC => bool_decide (ck_criteria c ≠ []) && match ck_min_score c with Some _ => true | None => false end
  | CUSTOM => truthy (ck_callable c)
  | SCHEMA_MATCH => true
  end.

Record BenchmarkTask := mkTask {
  bt_id : string; bt_name : string; bt_input : list (string * JsonValue); bt_expected : option ExpectedOutcome;
  bt_check : BenchmarkTaskCheck; bt_critical : bool; bt_timeout_seconds : Z; bt_allow_network : bool; bt_profiles : list string }.

(** [_profiles_are_known] *)
Definition profiles_valid (p : list string) : bool :=
  bool_decide (p ≠ []) && forallb (λ s, bool_decide (s ∈ ["fast"; "full"])) p.

Record BenchmarkCorpus := mkCorpus { co_id : string; co_version : Z; co_tasks : list BenchmarkTask }.

(** The bounds and [_task_ids_must_be_unique]. *)
Definition corpus_valid (c : BenchmarkCorpus) : bool :=
  bool_decide (co_tasks c ≠ []) && forallb (λ t, check_valid (bt_check t) && profiles_valid (bt_profiles t)) (co_tasks c)
  && bool_decide (NoDup (bt_id <$> co_tasks c)).

Inductive Profile := FAST | FULL.

#[export] Instance Profile_eq_dec : EqDecision Profile.
Proof. solve_decision. Defined.

(** [select_profile]; [None] is [EmptyProfileError]. *)
Definition select_profile (c : BenchmarkCorpus) (p : Profile) : option BenchmarkCorpus :=
  match p with
  | FULL => Some c
  | FAST =>
      let tasks := filter (λ t, "fast" ∈ bt_profiles t) (co_tasks c) in
      if bool_decide (tasks = []) then None else Some {| co_id := co_id c; co_version := co_version c; co_tasks := tasks |}
  end.

(** [ensure_profile_allowed]; [false] is [ProfileNotAllowedError]. *)
Definition profile_allowed (p : Profile) (t : TargetContext) : bool :=
  negb (bool_decide (t = TC_PRODUCTION) && negb (bool_decide (p = FULL))).

Inductive CheckStatus := PASS | FAIL.

#[export] Instance CheckStatus_eq_dec : EqDecision CheckStatus.
Proof. solve_decision. Defined.

Record BenchmarkTaskResult := mkTaskResult {
  tr_task_id : string; tr_status : CheckStatus; tr_latency_ms : Z; tr_tokens : Z; tr_cost_usd : f64;
  tr_trace_id : option string; tr_critical : bool; tr_failure_reason : option string }.

Record BenchmarkAggregate := mkAggregate {
  ag_total : Z; ag_passed : Z; ag_failed : Z; ag_pass_rate : f64; ag_critical_failures : Z; ag_p50_latency_ms : Z;
  ag_p95_latency_ms : Z; ag_total_tokens : Z }.

Record Environment := mkEnvironment { en_sandbox_image : string; en_runtime_adapter : string; en_control_plane_version : string }.

Record BenchmarkResult := mkResult {
  br_benchmark_run_id : string; br_workload_id : string; br_manifest_version : Z; br_corpus_id : string;
  br_corpus_version : Z; br_model_identity : string; br_environment : Environment; br_started_at : Z; br_finished_at : Z;
  br_tasks : list BenchmarkTaskResult; br_aggregate : BenchmarkAggregate }.

Definition to_eval_summary (r : BenchmarkResult) : EvalSummary :=
  let a := br_aggregate r in
  {| ev_pass_rate := ag_pass_rate a; ev_critical_failures := ag_critical_failures a; ev_p95_latency_ms := ag_p95_latency_ms a;
     ev_tasks_passed := ag_passed a; ev_tasks_failed := ag_failed a |}.

(** ** The runner *)

Record TaskExecution := mkExecution {
  te_output : odict string JsonValue; te_actions : list string; te_latency_ms : Z; te_tokens : Z; te_cost_usd : f64;
  te_trace_id : option string; te_network_used : bool; te_model_identity : option string }.

(** [a == b] of two decoded values: [True == 1 == 1.0], and dictionaries
    compare by key. *)
Definition number_of (v : JsonValue) : option (Z + f64) :=
  match v with
  | JBool b => Some (inl (if b then 1%Z else 0%Z))
  | JInt z => Some (inl z)
  | JFloat x => Some (inr x)
  | _ => None
  end.

Definition number_eqb (a b : Z + f64) : bool :=
  match a, b with
  | inl x, inl y => bool_decide (x = y)
  | inr x, inr y => f64_eqb x y
  | inl z, inr x | inr x, inl z => bool_decide (is_integer x = Some z)
  end.

Fixpoint value_eqb (a b : JsonValue) {struct a} : bool :=
  match number_of a, number_of b with
  | Some x, Some y => number_eqb x y
  | None, None =>
      match a, b with
      | JNull, JNull => true
      | JStr s, JStr t => bool_decide (s = t)
      | JList l, JList k =>
          (fix go l k := match l, k with
                         | [], [] => true
                         | x :: l', y :: k' => value_eqb x y && go l' k'
                         | _, _ => false
                         end) l k
      | JObj d, JObj e =>
          bool_decide (length d = length e) &&
          (fix go d := match d with
                       | [] => true
                       | (k, x) :: d' => match od_get k e with Some y => value_eqb x y | None => false end && go d'
                       end) d
      | _, _ => false
      end
  | _, _ => false
  end.

Inductive RunnerExn := UnsupportedCheckError (t : CheckType) | ExecutorError (what : string).

Section Runner.
Variables (sha256 : string → string) (value_repr : JsonValue → string) (names_repr : list string → string).

(** [_enforce_bounds] *)
Definition enforce_bounds (task : BenchmarkTask) (x : TaskExecution) : bool * option string :=
  if (bt_timeout_seconds task * 1000 <? te_latency_ms x)%Z then
    (false, Some ("timeout: " +:+ pretty (te_latency_ms x) +:+ "ms exceeds " +:+ pretty (bt_timeout_seconds task) +:+ "s limit"))
  else if te_network_used x && negb (bt_allow_network task) then
    (false, Some "network: task used the network but allow_network is false")
  else (true, None).

(** [evaluate_check] *)
Definition evaluate_check (c : BenchmarkTaskCheck) (x : TaskExecution) : outcome RunnerExn (bool * option string) :=
  match ck_type c with
  | EXACT_MATCH =>
      let field := default EmptyString (ck_field c) in
      let actual := default JNull (od_get field (te_output x)) in
      if value_eqb actual (ck_value c) then Ret (true, None)
      else Ret (false, Some ("exact_match: expected " +:+ field +:+ "=" +:+ value_repr (ck_value c) +:+ ", got " +:+ value_repr actual))
  | ACTION_AUDIT =>
      let missing := filter (λ a, a ∉ te_actions x) (ck_required_actions c) in
      let present := filter (λ a, a ∈ te_actions x) (ck_forbidden_actions c) in
      if negb (bool_decide (missing = [])) then Ret (false, Some ("action_audit: missing required actions " +:+ names_repr missing))
      else if negb (bool_decide (present = [])) then
        Ret (false, Some ("action_audit: forbidden actions present " +:+ names_repr present))
      else Ret (true, None)
  | t => Raise (UnsupportedCheckError t)
  end.

Definition model_matches (model_identity : string) (x : TaskExecution) : bool :=
  match te_model_identity x with None => true | Some m => bool_decide (m = model_identity) end.

(** The body of [run]'s loop. *)
Definition run_task (model_identity : string) (task : BenchmarkTask) (x : TaskExecution) : outcome RunnerExn BenchmarkTaskResult :=
  let bounds := enforce_bounds task x in
  let bounds :=
    if bounds.1 && negb (model_matches model_identity x) then
      (false, Some ("model_identity: executed " +:+ value_repr (from_option JStr JNull (te_model_identity x))
                    +:+ " does not match pinned " +:+ value_repr (JStr model_identity)))
    else bounds in
  let finish (r : bool * option string) :=
    {| tr_task_id := bt_id task; tr_status := if r.1 then PASS else FAIL; tr_latency_ms := te_latency_ms x;
       tr_tokens := te_tokens x; tr_cost_usd := te_cost_usd x; tr_trace_id := te_trace_id x; tr_critical := bt_critical task;
       tr_failure_reason := r.2 |} in
  if bounds.1 then match evaluate_check (bt_check task) x with Ret r => Ret (finish r) | Raise e => Raise e end
  else Ret (finish bounds).

(** [math.ceil(quantile * n)] *)
Definition ceil_mul (quantile : f64) (n : nat) : Z :=
  let x := f64_mul quantile (f64_of_Z (Z.of_nat n)) in
  match f64_trunc x with Some z => if f64_leb_Z x z then z else (z + 1)%Z | None => 0%Z end.

(** [_percentile]; the rank is within the list, see [percentile_rank]. *)
Definition percentile (values : list Z) (quantile : f64) : Z :=
  if bool_decide (values = []) then 0%Z
  else default 0%Z (values !! Z.to_nat (Z.max 0 (ceil_mul quantile (length values) - 1))).

Definition count {A} (p : A → bool) (l : list A) : Z := Z.of_nat (length (filter (λ x, p x = true) l)).

Definition passed_result (r : BenchmarkTaskResult) : bool := bool_decide (tr_status r = PASS).

(** [_aggregate] *)
Definition aggregate (results : list BenchmarkTaskResult) : BenchmarkAggregate :=
  let latencies := py_sort Z.leb (tr_latency_ms <$> results) in
  let total := Z.of_nat (length results) in
  let passed := count passed_result results in
  {| ag_total := total; ag_passed := passed; ag_failed := total - passed;
     ag_pass_rate := if bool_decide (results = []) then f64_zero else int_truediv passed total;
     ag_critical_failures := count (λ r, negb (passed_result r) && tr_critical r) results;
     ag_p50_latency_ms := percentile latencies (f64_lit 1 2); ag_p95_latency_ms := percentile latencies (f64_lit 19 20);
     ag_total_tokens := foldr Z.add 0%Z (tr_tokens <$> results) |}.

(** [_run_id] *)
Definition benchmark_run_id (workload_id : string) (manifest_version : Z) (corpus : BenchmarkCorpus)
    (model_identity benchmark_version : string) : string :=
  "br-" +:+ String.substring 0 12 (sha256 (String.concat "|"
    [workload_id; pretty manifest_version; co_id corpus; pretty (co_version corpus); model_identity; benchmark_version])).

(** [BenchmarkRunner.run] over the executor's and the clock's state. *)
Section Run.
Context {W : Type}.
Variables (execute : BenchmarkTask → M W RunnerExn TaskExecution) (clock : M W RunnerExn Z).

Fixpoint run_tasks (model_identity : string) (tasks : list BenchmarkTask) : M W RunnerExn (list BenchmarkTaskResult) :=
  match tasks with
  | [] => ret []
  | task :: tasks =>
      let* x := execute task in
      let* r := (λ w, (run_task model_identity task x, w)) in
      let* rs := run_tasks model_identity tasks in
      ret (r :: rs)
  end.

Definition benchmark_run (model_identity benchmark_version : string) (environment : Environment) (corpus : BenchmarkCorpus)
    (workload_id : string) (manifest_version : Z) : M W RunnerExn BenchmarkResult :=
  let* started := clock in
  let* results := run_tasks model_identity (co_tasks corpus) in
  let* finished := clock in
  ret {| br_benchmark_run_id := benchmark_run_id workload_id manifest_version corpus model_identity benchmark_version;
         br_workload_id := workload_id; br_manifest_version := manifest_version; br_corpus_id := co_id corpus;
         br_corpus_version := co_version corpus; br_model_identity := model_identity; br_environment := environment;
         br_started_at := started; br_finished_at := finished; br_tasks := results; br_aggregate := aggregate results |}.
End Run.
End Runner.

(** ** The engine *)

Record Certification := mkCertification {
  cf_certification_id : string; cf_workload_id : string; cf_manifest_version : Z; cf_status : CertificationStatus;
  cf_target_context : TargetContext; cf_benchmark_run_id : string; cf_thresholds : Thresholds; cf_eval_summary : option EvalSummary;
  cf_timestamp : Z; cf_attestation_id : option string }.

Definition thresholds_for (p : CertificationPolicy) (t : TargetContext) : Thresholds :=
  match t with TC_PRODUCTION => cp_production p | TC_STAGING => cp_staging p end.

(** [_resolve_status] *)
Definition resolve_status (current : CertificationStatus) (s : EvalSummary) (t : Thresholds) (target : TargetContext)
    (production_runs_survived : Z) : CertificationStatus :=
  if negb (passes_threshold s t) then try_transition current RECERT_FAIL
  else match current with
       | QUARANTINED => try_transition current RECOVER
       | _ =>
           match target with
           | TC_PRODUCTION =>
               if (production_runs_survived <? th_min_production_runs_survived t)%Z then current
               else try_transition current PRODUCTION_PASS
           | TC_STAGING => try_transition current STAGING_PASS
           end
       end.

(** [_certification_id] *)
Definition certification_id (sha256 : string → string) (r : BenchmarkResult) (target : TargetContext) : string :=
  "cert-" +:+ String.substring 0 12 (sha256 (String.concat "|"
    [br_workload_id r; pretty (br_manifest_version r); br_benchmark_run_id r; target_value target])).

(** [CertificationEngine.evaluate], under the engine's own policy unless one is given. *)
Definition evaluate_result (sha256 : string → string) (engine_policy : CertificationPolicy) (now : Z) (r : BenchmarkResult)
    (current : CertificationStatus) (target : TargetContext) (survived : Z) (policy : option CertificationPolicy) : Certification :=
  let effective := default engine_policy policy in
  let thresholds := thresholds_for effective target in
  {| cf_certification_id := certification_id sha256 r target; cf_workload_id := br_workload_id r;
     cf_manifest_version := br_manifest_version r;
     cf_status := resolve_status current (to_eval_summary r) thresholds target survived; cf_target_context := target;
     cf_benchmark_run_id := br_benchmark_run_id r; cf_thresholds := thresholds; cf_eval_summary := Some (to_eval_summary r);
     cf_timestamp := now; cf_attestation_id := None |}.

(** ** Comparison of two results *)

Inductive Severity := SEV_NONE | SEV_WARNING | SEV_CRITICAL.

#[export] Instance Severity_eq_dec : EqDecision Severity.
Proof. solve_decision. Defined.

Definition severity_upper (s : Severity) : string :=
  match s with SEV_NONE => "NONE" | SEV_WARNING => "WARNING" | SEV_CRITICAL => "CRITICAL" end.

Record ReplayFrameSet := mkReplay {
  rf_task_id : string; rf_trace_id : option string; rf_input : list (string * JsonValue); rf_expected : JsonValue;
  rf_check : JsonValue; rf_replay_ref : string; rf_replayable : bool }.

Record TaskDelta := mkDelta {
  td_task_id : string; td_before : CheckStatus; td_after : CheckStatus; td_failure_reason : option string; td_critical : bool;
  td_severity : Severity; td_latency_delta_ms : Z; td_tokens_delta : Z; td_cost_delta_usd : f64; td_replay : ReplayFrameSet }.

Record RegressionDiff := mkDiff {
  rd_workload_id : string; rd_before_attestation_id : string; rd_after_attestation_id : string; rd_total : Z;
  rd_passed_before : Z; rd_passed_after : Z; rd_regressed : list TaskDelta; rd_improved : list TaskDelta;
  rd_added : list string; rd_removed : list string; rd_blocked : bool; rd_severity : Severity;
  rd_critical_regressions : list string; rd_warnings : list string; rd_baseline_attestation_id : option string;
  rd_summary : string }.

Definition expected_doc (e : ExpectedOutcome) : JsonValue :=
  JObj [("outcome", opt_doc JStr (ex_outcome e)); ("required_fields", list_doc JStr (ex_required_fields e));
        ("forbidden_actions", list_doc JStr (ex_forbidden_actions e))].

Definition check_doc (c : BenchmarkTaskCheck) : JsonValue :=
  JObj [("type", JStr (check_type_value (ck_type c))); ("field", opt_doc JStr (ck_field c)); ("value", ck_value c);
        ("required_actions", list_doc JStr (ck_required_actions c)); ("forbidden_actions", list_doc JStr (ck_forbidden_actions c));
        ("criteria", list_doc JStr (ck_criteria c)); ("min_score", opt_doc JInt (ck_min_score c)); ("callable", opt_doc JStr (ck_callable c))].

(** [_replay_frame] *)
Definition replay_frame (attestation_id task_id : string) (trace_id : option string) (catalog : odict string BenchmarkTask) : ReplayFrameSet :=
  let ref := "certification:" +:+ attestation_id +:+ "/task:" +:+ task_id in
  match od_get task_id catalog with
  | None => {| rf_task_id := task_id; rf_trace_id := trace_id; rf_input := []; rf_expected := JObj []; rf_check := JObj [];
               rf_replay_ref := ref; rf_replayable := false |}
  | Some task =>
      {| rf_task_id := task_id; rf_trace_id := trace_id; rf_input := bt_input task;
         rf_expected := from_option expected_doc (JObj []) (bt_expected task); rf_check := check_doc (bt_check task);
         rf_replay_ref := ref; rf_replayable := true |}
  end.

(** [{task.task_id: task for task in tasks}] *)
Definition by_id (tasks : list BenchmarkTaskResult) : odict string BenchmarkTaskResult :=
  foldl (λ d t, od_set (tr_task_id t) t d) [] tasks.

(** The pairs of a task's two results, over the tasks both have, by id. *)
Definition common_tasks (before after : odict string BenchmarkTaskResult) : list (string * (BenchmarkTaskResult * BenchmarkTaskResult)) :=
  omap (λ id, match od_get id before, od_get id after with Some p, Some c => Some (id, (p, c)) | _, _ => None end)
    (py_sort str_leb (od_keys before)).

Definition missing_from {V W} (d : odict string V) (e : odict string W) : list string :=
  py_sort str_leb (filter (λ id, od_mem id e = false) (od_keys d)).

Definition changed_task (after_attestation_id : string) (catalog : odict string BenchmarkTask) (b a : CheckStatus)
    (regression : bool) (p : string * (BenchmarkTaskResult * BenchmarkTaskResult)) : option TaskDelta :=
  let '(id, (prior, current)) := p in
  if bool_decide (tr_status prior = b) && bool_decide (tr_status current = a) then
    Some {| td_task_id := id; td_before := tr_status prior; td_after := tr_status current;
            td_failure_reason := if regression then tr_failure_reason current else None;
            td_critical := regression && tr_critical current;
            td_severity := if regression then if tr_critical current then SEV_CRITICAL else SEV_WARNING else SEV_NONE;
            td_latency_delta_ms := tr_latency_ms current - tr_latency_ms prior;
            td_tokens_delta := tr_tokens current - tr_tokens prior;
            td_cost_delta_usd := f64_sub (tr_cost_usd current) (tr_cost_usd prior);
            td_replay := replay_frame after_attestation_id id (tr_trace_id current) catalog |}
  else None.

(** [f"{z:+d}"] *)
Definition signed (z : Z) : string := if (z <? 0)%Z then pretty z else "+" +:+ pretty z.

(** [human_report]; [fmt] renders [f"{x:+.4f}"]. *)
Definition human_report (fmt : f64 → string) (blocked : bool) (improved regressed : list TaskDelta) (total passed_after : Z)
    (severity : Severity) (warnings : list string) : string :=
  if negb blocked && bool_decide (length improved = 0%nat) then
    "No regressions across " +:+ pretty total +:+ " tasks (" +:+ pretty passed_after +:+ "/" +:+ pretty total +:+ " passing)."
  else
    String.concat (String "010"%char EmptyString)
      ((severity_upper severity +:+ ": " +:+ pretty (Z.of_nat (length regressed)) +:+ " regression(s), "
        +:+ pretty (Z.of_nat (length improved)) +:+ " improvement(s) across " +:+ pretty total +:+ " tasks.")
       :: ((λ d, "  regressed [" +:+ (if td_critical d then "CRITICAL" else "warning") +:+ "] " +:+ td_task_id d +:+ ": latency "
                 +:+ signed (td_latency_delta_ms d) +:+ "ms, tokens " +:+ signed (td_tokens_delta d) +:+ ", cost $"
                 +:+ fmt (td_cost_delta_usd d)
                 +:+ match td_failure_reason d with
                     | Some r => if bool_decide (r = EmptyString) then EmptyString else " (" +:+ r +:+ ")"
                     | None => EmptyString
                     end) <$> regressed)
       ++ ((λ w, "  warning: " +:+ w) <$> warnings)).

(** [regression_diff] *)
Definition regression_diff (fmt : f64 → string) (before after : BenchmarkResult) (before_attestation_id after_attestation_id : string)
    (task_catalog : option (odict string BenchmarkTask)) (baseline_attestation_id : option string) : RegressionDiff :=
  let before_by_id := by_id (br_tasks before) in
  let after_by_id := by_id (br_tasks after) in
  let common := common_tasks before_by_id after_by_id in
  let removed := missing_from before_by_id after_by_id in
  let catalog := default [] task_catalog in
  let regressed := omap (changed_task after_attestation_id catalog PASS FAIL true) common in
  let improved := omap (changed_task after_attestation_id catalog FAIL PASS false) common in
  let critical_regressions := td_task_id <$> filter (λ d, td_critical d = true) regressed in
  let removed_passes :=
    filter (λ id, from_option passed_result false (od_get id before_by_id) = true) removed in
  let warnings := if bool_decide (removed_passes = []) then []
                  else ["removed passing tasks: " +:+ String.concat ", " removed_passes] in
  let blocked := negb (bool_decide (length regressed = 0%nat)) || negb (bool_decide (removed_passes = [])) in
  let severity := if negb (bool_decide (critical_regressions = [])) then SEV_CRITICAL
                  else if negb (bool_decide (length regressed = 0%nat)) then SEV_WARNING else SEV_NONE in
  let total := Z.of_nat (length common) in
  let passed_after := count passed_result (br_tasks after) in
  {| rd_workload_id := br_workload_id after; rd_before_attestation_id := before_attestation_id;
     rd_after_attestation_id := after_attestation_id; rd_total := total;
     rd_passed_before := count passed_result (br_tasks before); rd_passed_after := passed_after;
     rd_regressed := regressed; rd_improved := improved; rd_added := missing_from after_by_id before_by_id;
     rd_removed := removed; rd_blocked := blocked; rd_severity := severity; rd_critical_regressions := critical_regressions;
     rd_warnings := warnings;
     rd_baseline_attestation_id := if truthy baseline_attestation_id then baseline_attestation_id else Some before_attestation_id;
     rd_summary := human_report fmt blocked improved regressed total passed_after severity warnings |}.

(** ** Attestations *)

Record Signer := mkSigner { sg_identity : string; sg_key_id : string; sg_signature : string }.

Record Attestation := mkAttestation {
  at_attestation_id : string; at_workload_id : string; at_manifest_version : Z; at_benchmark_version : string;
  at_benchmark_run_id : string; at_corpus_id : string; at_corpus_version : Z; at_model_identity : string;
  at_status : CertificationStatus; at_target_context : TargetContext; at_eval_summary : EvalSummary; at_timestamp : Z;
  at_environment : Environment; at_signer : Signer; at_artifact_hash : option string; at_binding : option ArtifactBinding;
  at_previous_attestation_id : option string; at_profile : string }.

Definition summary_doc (s : EvalSummary) : JsonValue :=
  JObj [("pass_rate", JFloat (ev_pass_rate s)); ("critical_failures", JInt (ev_critical_failures s));
        ("p95_latency_ms", JInt (ev_p95_latency_ms s)); ("tasks_passed", JInt (ev_tasks_passed s)); ("tasks_failed", JInt (ev_tasks_failed s))].

Definition environment_doc (e : Environment) : JsonValue :=
  JObj [("sandbox_image", JStr (en_sandbox_image e)); ("runtime_adapter", JStr (en_runtime_adapter e));
        ("control_plane_version", JStr (en_control_plane_version e))].

Definition binding_doc (b : ArtifactBinding) : JsonValue :=
  JObj [("artifact_hash", JStr (ab_artifact_hash b)); ("manifest_hash", JStr (ab_manifest_hash b)); ("toolset_hash", JStr (ab_toolset_hash b));
        ("model_identity", JStr (ab_model_identity b)); ("policy_version", opt_doc JStr (ab_policy_version b))].

(** [model_dump(exclude={"signer": {"signature"}})] *)
Definition attestation_doc (dump_time : Z → string) (a : Attestation) : JsonValue :=
  JObj [("attestation_id", JStr (at_attestation_id a)); ("workload_id", JStr (at_workload_id a));
        ("manifest_version", JInt (at_manifest_version a)); ("benchmark_version", JStr (at_benchmark_version a));
        ("benchmark_run_id", JStr (at_benchmark_run_id a)); ("corpus_id", JStr (at_corpus_id a));
        ("corpus_version", JInt (at_corpus_version a)); ("model_identity", JStr (at_model_identity a));
        ("status", JStr (status_value (at_status a))); ("target_context", JStr (target_value (at_target_context a)));
        ("eval_summary", summary_doc (at_eval_summary a)); ("timestamp", JStr (dump_time (at_timestamp a)));
        ("environment", environment_doc (at_environment a));
        ("signer", JObj [("identity", JStr (sg_identity (at_signer a))); ("key_id", JStr (sg_key_id (at_signer a)))]);
        ("artifact_hash", opt_doc JStr (at_artifact_hash a)); ("binding", opt_doc binding_doc (at_binding a));
        ("previous_attestation_id", opt_doc JStr (at_previous_attestation_id a)); ("profile", JStr (at_profile a))].

(** [attestation.model_copy(update={"signer": ...})] with the signature [s]. *)
Definition with_signature (a : Attestation) (s : string) : Attestation :=
  {| at_attestation_id := at_attestation_id a; at_workload_id := at_workload_id a; at_manifest_version := at_manifest_version a;
     at_benchmark_version := at_benchmark_version a; at_benchmark_run_id := at_benchmark_run_id a; at_corpus_id := at_corpus_id a;
     at_corpus_version := at_corpus_version a; at_model_identity := at_model_identity a; at_status := at_status a;
     at_target_context := at_target_context a; at_eval_summary := at_eval_summary a; at_timestamp := at_timestamp a;
     at_environment := at_environment a;
     at_signer := {| sg_identity := sg_identity (at_signer a); sg_key_id := sg_key_id (at_signer a); sg_signature := s |};
     at_artifact_hash := at_artifact_hash a; at_binding := at_binding a;
     at_previous_attestation_id := at_previous_attestation_id a; at_profile := at_profile a |}.

Section Signing.
Variables (float_repr : f64 → string) (dump_time : Z → string).
Context {Key Pub : Type}.
Variables (sign : Key → string → string) (verify : Pub → string → string → bool).

(** [canonical_payload] *)
Definition canonical_payload (a : Attestation) : string := canonical_json float_repr (attestation_doc dump_time a).

Definition sign_attestation (a : Attestation) (private_key : Key) : Attestation :=
  with_signature a (b64encode (sign private_key (canonical_payload a))).

Definition verify_attestation (a : Attestation) (public_key : Pub) : bool :=
  match b64decode (sg_signature (at_signer a)) with
  | Some signature => verify public_key signature (canonical_payload a)
  | None => false
  end.

Lemma payload_with_signature a s : canonical_payload (with_signature a s) = canonical_payload a.
Proof. done. Qed.

(** A signed attestation verifies under the key that signed it. *)
Lemma sign_verify_attestation a k pub :
  (∀ payload, verify pub (sign k payload) payload = true) → verify_attestation (sign_attestation a k) pub = true.
Proof. intros H. unfold verify_attestation, sign_attestation. simpl. by rewrite b64_roundtrip. Qed.
End Signing.

(** *** The signature covers every field but itself *)

Lemma status_value_inj : Inj (=) (=) status_value. Proof. by intros [] []. Qed.
Lemma target_value_inj : Inj (=) (=) target_value. Proof. by intros [] []. Qed.

Lemma summary_doc_inj : doc_inj summary_doc. Proof. doc_injection. Qed.
Lemma environment_doc_inj : doc_inj environment_doc. Proof. doc_injection. Qed.
Lemma binding_doc_inj : doc_inj binding_doc. Proof. doc_injection. Qed.
Lemma opt_binding_inj : doc_inj (opt_doc binding_doc). Proof. by apply opt_doc_inj; [apply binding_doc_inj|]. Qed.
#[export] Hint Resolve summary_doc_inj environment_doc_inj opt_binding_inj : docs.

Lemma attestation_doc_inj dump_time a b :
  Inj (=) (=) dump_time → sort_keys (attestation_doc dump_time a) = sort_keys (attestation_doc dump_time b) →
  with_signature a EmptyString = with_signature b EmptyString.
Proof.
  intros Ht H. destruct a, b. fields H.
  repeat match type of H with
  | sort_keys (?F ?x) :: _ = sort_keys (?F ?y) :: _ =>
      let E := fresh in
      apply (next_field F x y) in H as [E H]; [simpl in E|solve [eauto with docs]]
  | _ :: _ = _ :: _ => injection H; clear H; intros
  end.
  repeat match goal with
  | E : sort_keys (opt_doc JStr _) = _ |- _ => apply opt_str_inj in E
  | E : sort_keys (opt_doc binding_doc _) = _ |- _ => apply opt_binding_inj in E
  | E : status_value _ = _ |- _ => apply status_value_inj in E
  | E : target_value _ = _ |- _ => apply target_value_inj in E
  | E : dump_time _ = _ |- _ => apply Ht in E
  end. subst. unfold with_signature. simpl in *. congruence.
Qed.

(** The pass rate the document holds is a float. *)
Definition attestation_wf (a : Attestation) : bool := SpecFloat.valid_binary 53 1024 (ev_pass_rate (at_eval_summary a)).

Lemma payload_inj float_repr dump_time a b :
  float_text float_repr → Inj (=) (=) dump_time → attestation_wf a = true → attestation_wf b = true →
  canonical_payload float_repr dump_time a = canonical_payload float_repr dump_time b →
  with_signature a EmptyString = with_signature b EmptyString.
Proof.
  intros Hf Ht Ha Hb E. apply dumps_inj in E; [|done|apply json_wf_sort..]; [by apply (attestation_doc_inj dump_time)|..].
  all: unfold attestation_wf in *; simpl; rewrite ?Ha, ?Hb; simpl; rewrite ?andb_true_r.
  - by destruct (at_artifact_hash a), (at_binding a) as [[? ? ? ? []]|], (at_previous_attestation_id a).
  - by destruct (at_artifact_hash b), (at_binding b) as [[? ? ? ? []]|], (at_previous_attestation_id b).
Qed.

(** ** What the engine decides *)

(** A workload becomes or stays certified only on results within the
    thresholds; it becomes certified only from provisional, on a production
    result, with the required number of production runs survived. *)
Lemma resolve_certified current s t target survived :
  resolve_status current s t target survived = CERTIFIED →
  passes_threshold s t = true ∧
  (current = CERTIFIED ∨
   current = PROVISIONAL ∧ target = TC_PRODUCTION ∧ (th_min_production_runs_survived t ≤ survived)%Z).
Proof.
  unfold resolve_status. destruct (passes_threshold s t); simpl; [|by destruct current].
  destruct current, target; simpl; try done; try (by auto).
  - destruct (survived <? _)%Z; done.
  - destruct (survived <? _)%Z eqn:E; [done|]. intros _. split; [done|]. right. split_and!; [done..|lia].
Qed.

(** A result outside the thresholds never leaves a workload admitted. *)
Lemma resolve_failed current s t target survived :
  passes_threshold s t = false →
  resolve_status current s t target survived = (if bool_decide (current = UNCERTIFIED) then UNCERTIFIED else QUARANTINED).
Proof. intros H. unfold resolve_status. rewrite H. by destruct current. Qed.

(** The status the engine resolves is reached by one event of the status
    machine, or is the current one. *)
Lemma resolve_step current s t target survived :
  resolve_status current s t target survived = current ∨
  ∃ event, advance_status current event = Some (resolve_status current s t target survived).
Proof.
  unfold resolve_status, try_transition.
  destruct (passes_threshold s t), current, target; simpl; try case_match;
    first [by left|right; by (exists STAGING_PASS)|right; by (exists PRODUCTION_PASS)|right; by (exists RECERT_FAIL)|right; by (exists RECOVER)].
Qed.

Lemma workload_policy_ok now spec base :
  certification_valid now spec = true → policy_valid base = true → (∃ p, workload_policy spec base = Some p).
Proof.
  unfold certification_valid, workload_policy, policy_valid, thresholds_valid. rewrite !andb_true_iff. intros Hspec Hbase.
  destruct_and!. destruct (ce_no_critical_failures spec); simpl; eexists;
    repeat match goal with E : _ = true |- _ => rewrite E; clear E end; reflexivity.
Qed.

(** ** What a passing task means *)

Theorem passed_task_sound value_repr names_repr model task x r :
  run_task value_repr names_repr model task x = Ret r → tr_status r = PASS →
  (te_latency_ms x ≤ bt_timeout_seconds task * 1000)%Z ∧ (te_network_used x = true → bt_allow_network task = true) ∧
  (te_model_identity x = None ∨ te_model_identity x = Some model) ∧
  match ck_type (bt_check task) with
  | EXACT_MATCH => value_eqb (default JNull (od_get (default EmptyString (ck_field (bt_check task))) (te_output x))) (ck_value (bt_check task)) = true
  | ACTION_AUDIT => (∀ a, a ∈ ck_required_actions (bt_check task) → a ∈ te_actions x) ∧
                    (∀ a, a ∈ ck_forbidden_actions (bt_check task) → a ∉ te_actions x)
  | _ => False
  end.
Proof.
  unfold run_task, enforce_bounds. destruct (_ <? te_latency_ms x)%Z eqn:El; simpl; [by intros [= <-]|].
  destruct (te_network_used x && negb (bt_allow_network task)) eqn:En; simpl; [by intros [= <-]|].
  destruct (model_matches model x) eqn:Em; simpl; [|by intros [= <-]].
  unfold evaluate_check. intros H Hpass. split; [lia|]. split; [intros E; rewrite E in En; by destruct (bt_allow_network task)|].
  split; [unfold model_matches in Em; destruct (te_model_identity x); [right; by apply bool_decide_eq_true in Em as ->|by left]|].
  destruct (ck_type (bt_check task)); try done.
  - destruct (value_eqb _ _); [done|]. by simplify_eq/=.
  - case_bool_decide as H1; simpl in H; [|by simplify_eq/=]. case_bool_decide as H2; simpl in H; [|by simplify_eq/=]. split.
    + intros a Ha. destruct (decide (a ∈ te_actions x)) as [|Hn]; [done|]. exfalso.
      assert (a ∈ filter (λ a, a ∉ te_actions x) (ck_required_actions (bt_check task))) as Hin by (by apply list_elem_of_filter).
      rewrite H1 in Hin. by apply elem_of_nil in Hin.
    + intros a Ha Hx. assert (a ∈ filter (λ a, a ∈ te_actions x) (ck_forbidden_actions (bt_check task))) as Hin by (by apply list_elem_of_filter).
      rewrite H2 in Hin. by apply elem_of_nil in Hin.
Qed.

Lemma count_le {A} (p q : A → bool) l : (∀ x, p x = true → q x = true) → (count p l ≤ count q l)%Z.
Proof.
  intros H. unfold count. induction l as [|x l IH]; [done|]. rewrite !filter_cons.
  destruct (decide (p x = true)) as [Hp|Hp]; destruct (decide (q x = true)) as [Hq|Hq]; simpl; try lia. by apply H in Hp.
Qed.

Lemma count_complement {A} (p : A → bool) l : (count p l + count (λ x, negb (p x)) l = Z.of_nat (length l))%Z.
Proof.
  unfold count. induction l as [|x l IH]; [done|]. rewrite !filter_cons. destruct (p x); simpl; lia.
Qed.

(** Critical failures are failures, and every task is counted once. *)
Lemma aggregate_counts rs :
  let a := aggregate rs in
  (ag_passed a + ag_failed a = ag_total a ∧ 0 ≤ ag_critical_failures a ≤ ag_failed a)%Z.
Proof.
  simpl. pose proof (count_complement passed_result rs).
  pose proof (count_le (λ r, negb (passed_result r) && tr_critical r) (λ r, negb (passed_result r)) rs) as Hle.
  assert (0 ≤ count (λ r, negb (passed_result r) && tr_critical r) rs)%Z by (unfold count; lia).
  assert (∀ x, negb (passed_result x) && tr_critical x = true → negb (passed_result x) = true) as Hi by
    (intros x [? _]%andb_true_iff; done).
  specialize (Hle Hi). lia.
Qed.

(** The nearest rank is an index of the list, for the two quantiles and any
    corpus of at most a thousand tasks. *)
Lemma percentile_rank n : (1 ≤ n ≤ 1000)%nat →
  (Z.to_nat (Z.max 0 (ceil_mul (f64_lit 1 2) n - 1)) < n)%nat ∧ (Z.to_nat (Z.max 0 (ceil_mul (f64_lit 19 20) n - 1)) < n)%nat.
Proof.
  intros Hn. assert (forallb (λ n, (Z.max 0 (ceil_mul (f64_lit 1 2) n - 1) <? Z.of_nat n)%Z &&
    (Z.max 0 (ceil_mul (f64_lit 19 20) n - 1) <? Z.of_nat n)%Z) (seq 1 1000) = true) as H by by vm_compute.
  rewrite forallb_forall in H. specialize (H n). rewrite in_seq in H. specialize (H ltac:(lia)). lia.
Qed.

(** ** What blocks a promotion *)

Lemma omap_empty {A B} (f : A → option B) l : length (omap f l) = 0%nat ↔ ∀ x, x ∈ l → f x = None.
Proof.
  induction l as [|x l IH]; simpl; [split; [intros _ ? []%elem_of_nil|done]|]. destruct (f x) eqn:E; simpl.
  - split; [done|]. intros H. rewrite (H x) in E; [done|left].
  - rewrite IH. split; [intros H y [->|?]%elem_of_cons; auto|]. intros H y ?. apply H. by right.
Qed.

Lemma by_id_wf l : od_wf (by_id l).
Proof.
  unfold by_id. assert (∀ d, od_wf d → od_wf (foldl (λ d t, od_set (tr_task_id t) t d) d l)) as H; [|apply H, od_wf_nil].
  induction l as [|t l IH]; intros d Hd; simpl; [done|]. by apply IH, od_wf_set.
Qed.

(** The pairs compared are exactly those of the ids both results have. *)
Lemma common_tasks_spec B A id p c :
  (id, (p, c)) ∈ common_tasks B A ↔ od_get id B = Some p ∧ od_get id A = Some c.
Proof.
  unfold common_tasks. rewrite list_elem_of_omap. split.
  - intros (k & _ & E). destruct (od_get k B) eqn:E1, (od_get k A) eqn:E2; simplify_eq/=. done.
  - intros [E1 E2]. exists id. rewrite E1, E2. split; [|done]. rewrite py_sort_perm. apply od_mem_spec. unfold od_mem. by rewrite E1.
Qed.

Lemma missing_from_spec {V W} (B : odict string V) (A : odict string W) id :
  id ∈ missing_from B A ↔ id ∈ od_keys B ∧ od_get id A = None.
Proof.
  unfold missing_from. rewrite py_sort_perm, list_elem_of_filter. unfold od_mem. destruct (od_get id A); naive_solver.
Qed.

(** A comparison blocks promotion exactly when a task that passed now fails or
    is gone; of several results for one task the last counts. *)
Theorem diff_blocked_iff fmt before after b_id a_id catalog baseline :
  rd_blocked (regression_diff fmt before after b_id a_id catalog baseline) = true ↔
  ∃ id p, od_get id (by_id (br_tasks before)) = Some p ∧ tr_status p = PASS ∧
    match od_get id (by_id (br_tasks after)) with Some c => tr_status c = FAIL | None => True end.
Proof.
  set (B := by_id (br_tasks before)). set (A := by_id (br_tasks after)).
  unfold regression_diff, rd_blocked. fold B A. rewrite orb_true_iff, !negb_true_iff, !bool_decide_eq_false, omap_empty. split.
  - intros [H|H].
    + destruct (decide (Exists (λ x, changed_task a_id (default [] catalog) PASS FAIL true x ≠ None) (common_tasks B A))) as [E|E].
      * apply Exists_exists in E as ([id [p c]] & Hin & Hne). apply common_tasks_spec in Hin as [HB HA]. exists id, p.
        rewrite HA. unfold changed_task in Hne. repeat case_bool_decide; simpl in Hne; done.
      * exfalso. apply H. intros x Hx. destruct (changed_task _ _ _ _ _ x) eqn:Ex; [|done]. exfalso. apply E, Exists_exists.
        exists x. split; [done|by rewrite Ex].
    + destruct (filter _ (missing_from B A)) as [|id l] eqn:E; [done|].
      assert (id ∈ filter (λ id, from_option passed_result false (od_get id B) = true) (missing_from B A)) as Hin by (rewrite E; left).
      apply list_elem_of_filter in Hin as [Hp [_ HA]%missing_from_spec]. destruct (od_get id B) as [p|] eqn:HB; [|done].
      exists id, p. simpl in Hp. unfold passed_result in Hp. rewrite HA. split_and!; [done|by apply bool_decide_eq_true in Hp|done].
  - intros (id & p & HB & Hp & HA). destruct (od_get id A) as [c|] eqn:EA.
    + left. intros H. specialize (H (id, (p, c))). rewrite common_tasks_spec in H. specialize (H (conj HB EA)).
      unfold changed_task in H. by rewrite Hp, HA in H.
    + right. intros E. assert (id ∈ filter (λ id, from_option passed_result false (od_get id B) = true) (missing_from B A)) as Hin.
      { apply list_elem_of_filter. split; [rewrite HB; simpl; unfold passed_result; by rewrite Hp|].
        apply missing_from_spec. split; [|done]. apply od_mem_spec. unfold od_mem. by rewrite HB. }
      rewrite E in Hin. by apply elem_of_nil in Hin.
Qed.

(** Identical results produce an empty diff. *)
Lemma diff_identical fmt r b_id a_id catalog baseline :
  let d := regression_diff fmt r r b_id a_id catalog baseline in
  rd_regressed d = [] ∧ rd_improved d = [] ∧ rd_added d = [] ∧ rd_removed d = [] ∧ rd_blocked d = false ∧ rd_severity d = SEV_NONE.
Proof.
  set (B := by_id (br_tasks r)).
  assert (missing_from B B = []) as Hm.
  { destruct (missing_from B B) as [|id l] eqn:E; [done|]. assert (id ∈ missing_from B B) as H by (rewrite E; left).
    apply missing_from_spec in H as [H Hn]. apply od_mem_spec in H. unfold od_mem in H. by rewrite Hn in H. }
  assert (∀ b a f x, b ≠ a → x ∈ common_tasks B B → changed_task a_id (default [] catalog) b a f x = None) as Hc.
  { intros b a f [id [p c]] Hne [H1 H2]%common_tasks_spec. rewrite H1 in H2. injection H2 as <-. unfold changed_task.
    repeat case_bool_decide; simpl; congruence. }
  assert (∀ b a f, b ≠ a → omap (changed_task a_id (default [] catalog) b a f) (common_tasks B B) = []) as Ho.
  { intros b a f Hne. apply nil_length_inv, omap_empty. auto. }
  unfold regression_diff. simpl. fold B. by rewrite !Hm, !Ho.
Qed.
