(* ===== verification/Registry.v ===== *)
(** * The workload registry ([registry/models.py], [registry/store.py] in
    memory, [registry/service.py], [registry/errors.py])

    Workloads, their versions, attestations, tools and triggers; admission to
    the target contexts.  The store copies on write and on read, so records are
    values.  The clock, the key resolver, SHA-256, the signature scheme and
    [repr] are parameters; metrics are left out. *)

From stdpp Require Import base strings pretty numbers gmap sorting list.
From S2P Require Import Prelude Text Float64 Tenancy CoreModels Canonical Base64 Manifest Binding Certification.

#[local] Open Scope hp_scope.

(** ** Records *)

Inductive VersionStatus := V_ACTIVE | V_PENDING | V_SUPERSEDED.

#[export] Instance VersionStatus_eq_dec : EqDecision VersionStatus.
Proof. solve_decision. Defined.

Record WorkloadRecord := mkRecord {
  wr_name : string;
  wr_manifest : Manifest;
  wr_current_version : Z;
  wr_certification_status : CertificationStatus;
  wr_owner : string;
  wr_team : option string;
  wr_runtime : RuntimeAdapter;
  wr_created_at : Z;
  wr_updated_at : Z;
  wr_needs_re_certification : bool;
  wr_artifact_hash : option string;
  wr_bundle : option WorkloadBundle;
  wr_production_runs_survived : Z;
  wr_last_run_at : option Z;
  wr_failure_count : Z;
  wr_last_failure_at : option Z;
  wr_tenant_id : string;
}.

(** The keys the service gives to [record.model_copy(update=...)]. *)
Record RecordUpdate := mkRecordUpdate {
  pu_manifest : option Manifest; pu_current_version : option Z; pu_certification_status : option CertificationStatus;
  pu_updated_at : option Z; pu_needs_re_certification : option bool; pu_production_runs_survived : option Z }.

Definition record_copy (r : WorkloadRecord) (u : RecordUpdate) : WorkloadRecord :=
  {| wr_name := wr_name r; wr_manifest := default (wr_manifest r) (pu_manifest u);
     wr_current_version := default (wr_current_version r) (pu_current_version u);
     wr_certification_status := default (wr_certification_status r) (pu_certification_status u);
     wr_owner := wr_owner r; wr_team := wr_team r; wr_runtime := wr_runtime r; wr_created_at := wr_created_at r;
     wr_updated_at := default (wr_updated_at r) (pu_updated_at u);
     wr_needs_re_certification := default (wr_needs_re_certification r) (pu_needs_re_certification u);
     wr_artifact_hash := wr_artifact_hash r; wr_bundle := wr_bundle r;
     wr_production_runs_survived := default (wr_production_runs_survived r) (pu_production_runs_survived u);
     wr_last_run_at := wr_last_run_at r; wr_failure_count := wr_failure_count r; wr_last_failure_at := wr_last_failure_at r;
     wr_tenant_id := wr_tenant_id r |}.

Record WorkloadVersion := mkVersion {
  wv_workload : string; wv_version : Z; wv_manifest : Manifest; wv_status : VersionStatus; wv_created_at : Z;
  wv_re_certification_required : bool; wv_changed_fields : list string }.

Definition version_with_status (v : WorkloadVersion) (s : VersionStatus) : WorkloadVersion :=
  {| wv_workload := wv_workload v; wv_version := wv_version v; wv_manifest := wv_manifest v; wv_status := s;
     wv_created_at := wv_created_at v; wv_re_certification_required := wv_re_certification_required v;
     wv_changed_fields := wv_changed_fields v |}.

Record ToolRecord := mkToolRecord {
  tl_tool_id : string; tl_name : string; tl_mcp_server : string; tl_trust_level : ToolTrustLevel; tl_description : option string;
  tl_parameters_schema : list (string * JsonValue); tl_registered_at : Z; tl_registered_by : string }.

Record TriggerRecord := mkTriggerRecord { tg_trigger_id : string; tg_workload : string; tg_rule : TriggerRule; tg_created_at : Z }.

Record EnforcementSummary := mkSummaryRecord {
  es_valid : bool; es_name : string; es_owner : string; es_team : option string; es_runtime : RuntimeAdapter;
  es_certification_status : CertificationStatus; es_production_admitted : bool; es_required : CertificationStatus;
  es_tools_allowed : list string; es_tools_denied : list string; es_approvals_required_for : list ActionClass;
  es_budget_per_run_usd : f64; es_budget_per_day_usd : f64; es_sandbox_enabled : bool; es_output_shaping_enabled : bool;
  es_trigger_count : Z; es_fan_out_destinations : Z; es_warnings : list string }.

Record AdmissionDecision := mkDecision {
  ad_workload : string; ad_context : AdmissionContext; ad_admitted : bool; ad_required_status : option CertificationStatus;
  ad_actual_status : CertificationStatus; ad_reason : option string }.

Record VersionDiff := mkVersionDiff {
  vd_workload : string; vd_from_version : Z; vd_to_version : Z; vd_changed_fields : list string; vd_re_certification_required : bool }.

Inductive RegistryExn :=
  | WorkloadNotFoundError (name : string)
  | WorkloadAlreadyExistsError (name : string)
  | VersionNotFoundError (name : string) (version : Z)
  | AdmissionRefusedError (name : string) (context : AdmissionContext) (required actual : CertificationStatus)
  | ReCertificationRequiredError (name : string) (changed_fields : list string)
  | UnknownToolError (tool_id : string)
  | ToolAlreadyExistsError (tool_id : string)
  | DestructiveToolRequiresApprovalError (tool_id : string)
  | AttestationNotFoundError (attestation_id : string)
  | AttestationVerificationError (attestation_id : string)
  | AttestationAlreadyExistsError (attestation_id : string)
  | RegistryScopeError
  | RegistryValueError (what : string)
  | RegistryOverflowError.

(** ** The in-memory store *)

Record RegistryStore := mkRegistryStore {
  rg_workloads : odict string WorkloadRecord;
  rg_versions : odict string (odict Z WorkloadVersion);
  rg_attestations : odict string Attestation;
  rg_attestation_tenants : odict string string;
  rg_tools : odict string ToolRecord;
  rg_tool_tenants : odict string string;
  rg_triggers : odict string (odict string TriggerRecord);
}.

Definition set_workloads (s : RegistryStore) d : RegistryStore :=
  {| rg_workloads := d; rg_versions := rg_versions s; rg_attestations := rg_attestations s;
     rg_attestation_tenants := rg_attestation_tenants s; rg_tools := rg_tools s; rg_tool_tenants := rg_tool_tenants s;
     rg_triggers := rg_triggers s |}.

Definition set_versions (s : RegistryStore) d : RegistryStore :=
  {| rg_workloads := rg_workloads s; rg_versions := d; rg_attestations := rg_attestations s;
     rg_attestation_tenants := rg_attestation_tenants s; rg_tools := rg_tools s; rg_tool_tenants := rg_tool_tenants s;
     rg_triggers := rg_triggers s |}.

Definition set_attestations (s : RegistryStore) d t : RegistryStore :=
  {| rg_workloads := rg_workloads s; rg_versions := rg_versions s; rg_attestations := d;
     rg_attestation_tenants := t; rg_tools := rg_tools s; rg_tool_tenants := rg_tool_tenants s;
     rg_triggers := rg_triggers s |}.

Definition set_tools (s : RegistryStore) d t : RegistryStore :=
  {| rg_workloads := rg_workloads s; rg_versions := rg_versions s; rg_attestations := rg_attestations s;
     rg_attestation_tenants := rg_attestation_tenants s; rg_tools := d; rg_tool_tenants := t; rg_triggers := rg_triggers s |}.

Definition set_triggers (s : RegistryStore) d : RegistryStore :=
  {| rg_workloads := rg_workloads s; rg_versions := rg_versions s; rg_attestations := rg_attestations s;
     rg_attestation_tenants := rg_attestation_tenants s; rg_tools := rg_tools s; rg_tool_tenants := rg_tool_tenants s;
     rg_triggers := d |}.

(** Reads. *)
Definition get_workload (s : RegistryStore) (ctx : TenantContext) (name : string) : option WorkloadRecord :=
  match od_get name (rg_workloads s) with
  | Some r => if scopes ctx (wr_tenant_id r) then Some r else None
  | None => None
  end.

Definition store_list_workloads (s : RegistryStore) (ctx : TenantContext) : list WorkloadRecord :=
  filter (λ r, scopes ctx (wr_tenant_id r) = true) (od_values (rg_workloads s)).

Definition workload_versions (s : RegistryStore) (name : string) : odict Z WorkloadVersion := default [] (od_get name (rg_versions s)).

Definition list_versions (s : RegistryStore) (ctx : TenantContext) (name : string) : list WorkloadVersion :=
  match get_workload s ctx name with
  | None => []
  | Some _ => py_sort (λ a b, wv_version a <=? wv_version b)%Z (od_values (workload_versions s name))
  end.

Definition get_version (s : RegistryStore) (ctx : TenantContext) (name : string) (version : Z) : option WorkloadVersion :=
  match get_workload s ctx name with
  | None => None
  | Some _ => od_get version (workload_versions s name)
  end.

Definition store_get_attestation (s : RegistryStore) (ctx : TenantContext) (id : string) : option Attestation :=
  match od_get id (rg_attestations s), od_get id (rg_attestation_tenants s) with
  | Some a, Some t => if scopes ctx t then Some a else None
  | _, _ => None
  end.

Definition store_list_attestations (s : RegistryStore) (ctx : TenantContext) (name : string) : list Attestation :=
  match get_workload s ctx name with
  | None => []
  | Some _ =>
      py_sort (λ a b, at_timestamp a <=? at_timestamp b)%Z
        (snd <$> filter (λ e, at_workload_id e.2 = name ∧
                              scopes ctx (default EmptyString (od_get e.1 (rg_attestation_tenants s))) = true) (rg_attestations s))
  end.

Definition store_get_tool (s : RegistryStore) (id : string) : option ToolRecord := od_get id (rg_tools s).

Definition store_list_triggers (s : RegistryStore) (ctx : TenantContext) (name : string) : list TriggerRecord :=
  match get_workload s ctx name with
  | None => []
  | Some _ => py_sort (λ a b, str_leb (tg_trigger_id a) (tg_trigger_id b)) (od_values (default [] (od_get name (rg_triggers s))))
  end.

Section Registry.
Variables (sha256 : string → string) (float_repr : f64 → string) (dump_time : Z → string) (str_repr : string → string).
Context {Key Pub X : Type}.
Variables (sign : Key → string → string) (verify : Pub → string → string → bool) (clock : X → Z * X).

(** The service's configuration. *)
Record RegistryConfig := mkConfig {
  rc_attestation_public_key : option Pub; rc_bundle_signing_key : option Key; rc_bundle_key_id : string;
  rc_key_resolver : option (string → option Pub) }.

Variable cfg : RegistryConfig.

Definition World : Type := RegistryStore * X.
Definition Reg (A : Type) : Type := M World RegistryExn A.

Definition store : Reg RegistryStore := gets fst.
Definition put_store (f : RegistryStore → RegistryStore) : Reg unit := modify (λ w, (f w.1, w.2)).

(** [self._now()] *)
Definition now : Reg Z := λ w, let '(t, x) := clock w.2 in (Ret t, (w.1, x)).

(** [_resolve_key] *)
Definition resolve_key (key_id : string) : option Pub :=
  match rc_key_resolver cfg with Some f => f key_id | None => rc_attestation_public_key cfg end.

(** Writes. *)
Definition save_workload (ctx : TenantContext) (r : WorkloadRecord) : Reg unit :=
  require RegistryScopeError ctx (wr_tenant_id r) ;;;
  let* s := store in
  match od_get (wr_name r) (rg_workloads s) with
  | Some existing =>
      if scopes ctx (wr_tenant_id existing) then put_store (λ s, set_workloads s (od_set (wr_name r) r (rg_workloads s)))
      else raise (WorkloadAlreadyExistsError (wr_name r))
  | None => put_store (λ s, set_workloads s (od_set (wr_name r) r (rg_workloads s)))
  end.

(** [delete_workload]; attestations are kept. *)
Definition delete_workload (ctx : TenantContext) (name : string) : Reg bool :=
  let* s := store in
  match get_workload s ctx name with
  | None => ret false
  | Some _ =>
      put_store (λ s, set_triggers (set_versions (set_workloads s (od_del name (rg_workloads s))) (od_del name (rg_versions s)))
                                   (od_del name (rg_triggers s))) ;;;
      ret true
  end.

(** [_parent] *)
Definition parent (ctx : TenantContext) (name : string) : Reg WorkloadRecord :=
  let* s := store in
  match od_get name (rg_workloads s) with
  | None => raise (WorkloadNotFoundError name)
  | Some r => require RegistryScopeError ctx (wr_tenant_id r) ;;; ret r
  end.

(** [add_version], which is [save_version] too. *)
Definition add_version (ctx : TenantContext) (v : WorkloadVersion) : Reg unit :=
  parent ctx (wv_workload v) ;;;
  put_store (λ s, set_versions s (od_set (wv_workload v) (od_set (wv_version v) v (workload_versions s (wv_workload v))) (rg_versions s))).

Definition add_attestation (ctx : TenantContext) (a : Attestation) : Reg unit :=
  let* p := parent ctx (at_workload_id a) in
  put_store (λ s, set_attestations s (od_set (at_attestation_id a) a (rg_attestations s))
                    (od_set (at_attestation_id a) (wr_tenant_id p) (rg_attestation_tenants s))).

Definition save_tool (ctx : TenantContext) (t : ToolRecord) : Reg unit :=
  put_store (λ s, set_tools s (od_set (tl_tool_id t) t (rg_tools s)) (od_set (tl_tool_id t) (tc_tenant_id ctx) (rg_tool_tenants s))).

Definition store_add_trigger (ctx : TenantContext) (t : TriggerRecord) : Reg unit :=
  parent ctx (tg_workload t) ;;;
  put_store (λ s, set_triggers s
    (od_set (tg_workload t) (od_set (tg_trigger_id t) t (default [] (od_get (tg_workload t) (rg_triggers s)))) (rg_triggers s))).

Definition store_delete_trigger (ctx : TenantContext) (name trigger_id : string) : Reg bool :=
  let* s := store in
  match get_workload s ctx name, od_get name (rg_triggers s) with
  | Some _, Some d =>
      if od_mem trigger_id d then
        put_store (λ s, set_triggers s (od_set name (od_del trigger_id d) (rg_triggers s))) ;;; ret true
      else ret false
  | _, _ => ret false
  end.

(** ** The service *)

Definition CERT_RELEVANT_FIELDS : list string :=
  ["spec.runtime"; "spec.model"; "spec.tools"; "spec.certification.benchmark_corpus"].

Definition opt_f64_eqb (a b : option f64) : bool :=
  match a, b with Some x, Some y => f64_eqb x y | None, None => true | _, _ => false end.

Definition budget_eqb (a b : BudgetSpec) : bool :=
  f64_eqb (bs_per_run_usd a) (bs_per_run_usd b) && f64_eqb (bs_per_day_usd a) (bs_per_day_usd b)
  && opt_f64_eqb (bs_per_team_usd a) (bs_per_team_usd b).

Definition health_eqb (a b : HealthSpec) : bool :=
  bool_decide (he_probe_interval a = he_probe_interval b) && f64_eqb (he_availability_target a) (he_availability_target b)
  && f64_eqb (he_quality_target a) (he_quality_target b) && bool_decide (he_error_budget_window a = he_error_budget_window b)
  && f64_eqb (he_failure_rate_threshold a) (he_failure_rate_threshold b).

Definition observability_eqb (a b : ObservabilitySpec) : bool :=
  bool_decide (ob_contract a = ob_contract b) && f64_eqb (ob_trace_sampling a) (ob_trace_sampling b).

Definition corpus_of (m : Manifest) : option string :=
  match sp_certification (ma_spec m) with Some c => ce_benchmark_corpus c | None => None end.

(** [changed_fields] of two manifests decoded separately. *)
Definition changed_fields (old new : Manifest) : list string :=
  let o := ma_spec old in let n := ma_spec new in
  let differ (same : bool) (field : string) := if same then [] else [field] in
  differ (bool_decide (sp_runtime o = sp_runtime n)) "spec.runtime"
  ++ differ (bool_decide (sp_model o = sp_model n)) "spec.model"
  ++ differ (bool_decide (sp_tools o = sp_tools n)) "spec.tools"
  ++ differ (bool_decide (corpus_of old = corpus_of new)) "spec.certification.benchmark_corpus"
  ++ differ (budget_eqb (sp_budget o) (sp_budget n)) "spec.budget"
  ++ differ (bool_decide (sp_approvals o = sp_approvals n)) "spec.approvals"
  ++ differ (bool_decide (sp_triggers o = sp_triggers n)) "spec.triggers"
  ++ differ (bool_decide (sp_fan_out o = sp_fan_out n)) "spec.fan_out"
  ++ differ (bool_decide (sp_output_shaping o = sp_output_shaping n)) "spec.output_shaping"
  ++ differ (health_eqb (sp_health o) (sp_health n)) "spec.health"
  ++ differ (observability_eqb (sp_observability o) (sp_observability n)) "spec.observability"
  ++ differ (bool_decide (ma_metadata old = ma_metadata new)) "metadata".

Definition requires_re_certification (changes : list string) : bool :=
  existsb (λ f, bool_decide (f ∈ CERT_RELEVANT_FIELDS)) changes.

(** [_survival_after_transition] *)
Definition survival_after_transition (current : Z) (status : CertificationStatus) : Z :=
  if bool_decide (status = PROVISIONAL) || bool_decide (status = QUARANTINED) then 0%Z else current.

(** [_with_status] *)
Definition with_certification (m : Manifest) (c : CertificationSpec) : Manifest :=
  let s := ma_spec m in
  {| ma_metadata := ma_metadata m;
     ma_spec :=
       {| sp_runtime := sp_runtime s; sp_budget := sp_budget s; sp_model := sp_model s; sp_certification := Some c;
          sp_triggers := sp_triggers s; sp_sandbox := sp_sandbox s; sp_output_shaping := sp_output_shaping s; sp_tools := sp_tools s;
          sp_approvals := sp_approvals s; sp_guards := sp_guards s; sp_fan_out := sp_fan_out s; sp_health := sp_health s;
          sp_observability := sp_observability s; sp_io := sp_io s; sp_secrets := sp_secrets s; sp_time_windows := sp_time_windows s |} |}.

Definition with_status (m : Manifest) (status : CertificationStatus) : Manifest :=
  match sp_certification (ma_spec m) with
  | None => m
  | Some c =>
      with_certification m
        {| ce_benchmark_corpus := ce_benchmark_corpus c; ce_staging_threshold := ce_staging_threshold c;
           ce_production_threshold := ce_production_threshold c; ce_no_critical_failures := ce_no_critical_failures c;
           ce_latency_budget_ms := ce_latency_budget_ms c; ce_re_cert_interval := ce_re_cert_interval c; ce_status := status;
           ce_attestation_id := ce_attestation_id c; ce_certified_at := ce_certified_at c; ce_certified_by := ce_certified_by c;
           ce_expires_at := ce_expires_at c |}
  end.

Definition registry_binding (m : Manifest) : ArtifactBinding := compute_binding sha256 float_repr m None.

(** [_sign_bundle] *)
Definition registry_sign_bundle (m : Manifest) : Reg (option WorkloadBundle) :=
  match rc_bundle_signing_key cfg with
  | None => ret None
  | Some k =>
      let* t := now in
      ret (Some (sign_bundle sha256 float_repr dump_time sign m k (rc_bundle_key_id cfg) (manifest_name m) t None))
  end.

(** [_build_record] *)
Definition build_record (m : Manifest) (version created_at : Z) (tenant_id : string) (needs : bool) : Reg WorkloadRecord :=
  let* bundle := registry_sign_bundle m in
  ret {| wr_name := manifest_name m; wr_manifest := m; wr_current_version := version;
         wr_certification_status := manifest_status m; wr_owner := manifest_owner m; wr_team := manifest_team m;
         wr_runtime := rt_adapter (sp_runtime (ma_spec m)); wr_created_at := created_at; wr_updated_at := created_at;
         wr_needs_re_certification := needs; wr_artifact_hash := Some (ab_artifact_hash (registry_binding m));
         wr_bundle := bundle; wr_production_runs_survived := 0; wr_last_run_at := None; wr_failure_count := 0;
         wr_last_failure_at := None; wr_tenant_id := tenant_id |}.

(** [get] *)
Definition get (ctx : TenantContext) (name : string) : Reg WorkloadRecord :=
  let* s := store in of_option (WorkloadNotFoundError name) (get_workload s ctx name).

(** The body of [_validate_tools]. *)
Definition check_tool (s : RegistryStore) (t : ToolRef) : option RegistryExn :=
  match store_get_tool s (tr_tool_id t) with
  | None => Some (UnknownToolError (tr_tool_id t))
  | Some _ =>
      if bool_decide (tr_trust_level t = TRUST_DESTRUCTIVE) && negb (tr_require_approval t)
      then Some (DestructiveToolRequiresApprovalError (tr_tool_id t)) else None
  end.

Definition tools_error (s : RegistryStore) (m : Manifest) : option RegistryExn :=
  head (omap (check_tool s) (ts_allow (sp_tools (ma_spec m)))).

Definition validate_tools (m : Manifest) : Reg unit :=
  let* s := store in
  match tools_error s m with Some e => raise e | None => ret tt end.

Definition trigger_name (name : string) (n : Z) : string := name +:+ "-t" +:+ pretty n.

(** [_sync_triggers] *)
Fixpoint delete_all (ctx : TenantContext) (name : string) (l : list TriggerRecord) : Reg unit :=
  match l with
  | [] => ret tt
  | t :: l => store_delete_trigger ctx name (tg_trigger_id t) ;;; delete_all ctx name l
  end.

Fixpoint add_all (ctx : TenantContext) (name : string) (index : Z) (rules : list TriggerRule) : Reg unit :=
  match rules with
  | [] => ret tt
  | r :: rules =>
      let* t := now in
      store_add_trigger ctx {| tg_trigger_id := trigger_name name index; tg_workload := name; tg_rule := r; tg_created_at := t |} ;;;
      add_all ctx name (index + 1) rules
  end.

Definition sync_triggers (ctx : TenantContext) (m : Manifest) : Reg unit :=
  let* s := store in
  delete_all ctx (manifest_name m) (store_list_triggers s ctx (manifest_name m)) ;;;
  add_all ctx (manifest_name m) 1 (sp_triggers (ma_spec m)).

(** [enforcement_summary] *)
Definition enforcement_summary (m : Manifest) : Reg EnforcementSummary :=
  let spec := ma_spec m in
  let* t := now in
  let* s := store in
  let status := manifest_status m in
  let admitted :=
    bool_decide (status = CERTIFIED)
    && match sp_certification spec with
       | Some c => truthy (ce_attestation_id c) && match ce_expires_at c with Some e => (t <? e)%Z | None => false end
       | None => false
       end in
  let tools := sp_tools spec in
  ret {| es_valid := true; es_name := manifest_name m; es_owner := manifest_owner m; es_team := manifest_team m;
         es_runtime := rt_adapter (sp_runtime spec); es_certification_status := status; es_production_admitted := admitted;
         es_required := CERTIFIED; es_tools_allowed := tr_tool_id <$> ts_allow tools; es_tools_denied := ts_deny tools;
         es_approvals_required_for := as_required_for (sp_approvals spec);
         es_budget_per_run_usd := bs_per_run_usd (sp_budget spec); es_budget_per_day_usd := bs_per_day_usd (sp_budget spec);
         es_sandbox_enabled := from_option sb_enabled false (sp_sandbox spec);
         es_output_shaping_enabled := match sp_output_shaping spec with Some _ => true | None => false end;
         es_trigger_count := Z.of_nat (length (sp_triggers spec));
         es_fan_out_destinations := Z.of_nat (length (fo_on_completed (sp_fan_out spec)) + length (fo_on_failed (sp_fan_out spec))
                                              + length (fo_on_escalation (sp_fan_out spec)));
         es_warnings :=
           (match sp_certification spec with
            | None => ["no certification block; production admission is refused"]
            | Some _ => if admitted then [] else ["certification status is " +:+ status_value status +:+ "; production admission is refused"]
            end)
           ++ (if bool_decide (ts_allow tools = []) && bool_decide (ts_deny tools = [])
               then ["no tools declared; default is deny-all"] else [])
           ++ omap (λ e, match store_get_tool s (tr_tool_id e) with
                         | None => Some ("tool " +:+ str_repr (tr_tool_id e) +:+ " is not registered") | Some _ => None end) (ts_allow tools) |}.

(** [create]; the dry run reports instead. *)
Definition create (ctx : TenantContext) (m : Manifest) : Reg WorkloadRecord :=
  let* s := store in
  match get_workload s ctx (manifest_name m) with
  | Some _ => raise (WorkloadAlreadyExistsError (manifest_name m))
  | None =>
      validate_tools m ;;;
      let* t := now in
      let* record := build_record m 1 t (tc_tenant_id ctx) false in
      save_workload ctx record ;;;
      add_version ctx {| wv_workload := manifest_name m; wv_version := 1; wv_manifest := m; wv_status := V_ACTIVE;
                         wv_created_at := t; wv_re_certification_required := false; wv_changed_fields := [] |} ;;;
      sync_triggers ctx m ;;;
      ret record
  end.

Fixpoint supersede (ctx : TenantContext) (l : list WorkloadVersion) : Reg unit :=
  match l with
  | [] => ret tt
  | v :: l => (if bool_decide (wv_status v = V_ACTIVE) then add_version ctx (version_with_status v V_SUPERSEDED) else ret tt) ;;; supersede ctx l
  end.

(** [_artifact_changed] *)
Definition artifact_changed (existing updated : WorkloadRecord) : bool :=
  match wr_artifact_hash existing, wr_artifact_hash updated with
  | Some a, Some b => negb (bool_decide (a = b))
  | _, _ => false
  end.

Definition no_copy : RecordUpdate :=
  {| pu_manifest := None; pu_current_version := None; pu_certification_status := None; pu_updated_at := None;
     pu_needs_re_certification := None; pu_production_runs_survived := None |}.

(** [_invalidate_for_production] *)
Definition invalidate_for_production (r : WorkloadRecord) : WorkloadRecord :=
  if bool_decide (wr_certification_status r = CERTIFIED) || bool_decide (wr_certification_status r = PROVISIONAL) then
    record_copy r {| pu_manifest := Some (with_status (wr_manifest r) UNCERTIFIED); pu_current_version := None;
                     pu_certification_status := Some UNCERTIFIED; pu_updated_at := None; pu_needs_re_certification := Some true;
                     pu_production_runs_survived := None |}
  else r.

Definition updated_at (t : Z) : RecordUpdate :=
  {| pu_manifest := None; pu_current_version := None; pu_certification_status := None; pu_updated_at := Some t;
     pu_needs_re_certification := None; pu_production_runs_survived := None |}.

(** [update] *)
Definition update (ctx : TenantContext) (name : string) (m : Manifest) : Reg WorkloadRecord :=
  let* existing := get ctx name in
  validate_tools m ;;;
  let changes := changed_fields (wr_manifest existing) m in
  let re_cert := requires_re_certification changes in
  let* t := now in
  let new_version := (wr_current_version existing + 1)%Z in
  let* s := store in
  supersede ctx (list_versions s ctx name) ;;;
  add_version ctx {| wv_workload := name; wv_version := new_version; wv_manifest := m; wv_status := V_ACTIVE; wv_created_at := t;
                     wv_re_certification_required := re_cert; wv_changed_fields := changes |} ;;;
  let* record := build_record m new_version (wr_created_at existing) (tc_tenant_id ctx) re_cert in
  let record := record_copy record (updated_at t) in
  let record := if artifact_changed existing record then invalidate_for_production record else record in
  save_workload ctx record ;;;
  sync_triggers ctx m ;;;
  ret record.

Definition delete (ctx : TenantContext) (name : string) : Reg unit :=
  let* deleted := delete_workload ctx name in
  if deleted then ret tt else raise (WorkloadNotFoundError name).

(** *** Versions *)

Definition versions (ctx : TenantContext) (name : string) : Reg (list WorkloadVersion) :=
  get ctx name ;;; let* s := store in ret (list_versions s ctx name).

Definition service_get_version (ctx : TenantContext) (name : string) (version : Z) : Reg WorkloadVersion :=
  get ctx name ;;; let* s := store in of_option (VersionNotFoundError name version) (get_version s ctx name version).

Definition version_diff (ctx : TenantContext) (name : string) (from_version to_version : Z) : Reg VersionDiff :=
  let* before := service_get_version ctx name from_version in
  let* s := store in
  let* after := of_option (VersionNotFoundError name to_version) (get_version s ctx name to_version) in
  let changes := changed_fields (wv_manifest before) (wv_manifest after) in
  ret {| vd_workload := name; vd_from_version := from_version; vd_to_version := to_version; vd_changed_fields := changes;
         vd_re_certification_required := requires_re_certification changes |}.

Definition promote (ctx : TenantContext) (name : string) (version : Z) : Reg WorkloadRecord :=
  let* record := get ctx name in
  let* s := store in
  let* target := of_option (VersionNotFoundError name version) (get_version s ctx name version) in
  if wv_re_certification_required target && wr_needs_re_certification record then
    raise (ReCertificationRequiredError name (wv_changed_fields target))
  else
    let* t := now in
    let updated := record_copy record
      {| pu_manifest := None; pu_current_version := Some version; pu_certification_status := None; pu_updated_at := Some t;
         pu_needs_re_certification := Some false; pu_production_runs_survived := None |} in
    save_workload ctx updated ;;;
    ret updated.

(** *** Certification lifecycle *)

Definition resolved (status : CertificationStatus) : bool :=
  bool_decide (status = PROVISIONAL) || bool_decide (status = CERTIFIED).

Definition record_certification_event (ctx : TenantContext) (name : string) (event : CertificationEvent) : Reg WorkloadRecord :=
  let* record := get ctx name in
  let* new_status := of_option (RegistryValueError "invalid transition") (advance_status (wr_certification_status record) event) in
  let* t := now in
  let updated := record_copy record
    {| pu_manifest := Some (with_status (wr_manifest record) new_status); pu_current_version := None;
       pu_certification_status := Some new_status; pu_updated_at := Some t;
       pu_needs_re_certification := Some (if resolved new_status then false else wr_needs_re_certification record);
       pu_production_runs_survived := Some (survival_after_transition (wr_production_runs_survived record) new_status) |} in
  save_workload ctx updated ;;;
  ret updated.

Definition increment_production_runs (ctx : TenantContext) (name : string) : Reg WorkloadRecord :=
  let* record := get ctx name in
  let updated := record_copy record
    {| pu_manifest := None; pu_current_version := None; pu_certification_status := None; pu_updated_at := None;
       pu_needs_re_certification := None; pu_production_runs_survived := Some (wr_production_runs_survived record + 1)%Z |} in
  save_workload ctx updated ;;;
  ret updated.

Definition request_re_certification (ctx : TenantContext) (name : string) : Reg WorkloadRecord :=
  let* record := get ctx name in
  let* t := now in
  let updated := record_copy record
    {| pu_manifest := None; pu_current_version := None; pu_certification_status := None; pu_updated_at := Some t;
       pu_needs_re_certification := Some true; pu_production_runs_survived := None |} in
  save_workload ctx updated ;;;
  ret updated.

Definition quarantine (ctx : TenantContext) (name : string) : Reg WorkloadRecord :=
  let* record := get ctx name in
  let* t := now in
  let updated := record_copy record
    {| pu_manifest := Some (with_status (wr_manifest record) QUARANTINED); pu_current_version := None;
       pu_certification_status := Some QUARANTINED; pu_updated_at := Some t; pu_needs_re_certification := None;
       pu_production_runs_survived := None |} in
  save_workload ctx updated ;;;
  ret updated.

Definition artifact_hash (ctx : TenantContext) (name : string) : Reg (option string) :=
  let* record := get ctx name in
  match wr_artifact_hash record with
  | Some h => ret (Some h)
  | None => ret (Some (ab_artifact_hash (registry_binding (wr_manifest record))))
  end.

Definition mark_uncertified_for_production (ctx : TenantContext) (name : string) : Reg WorkloadRecord :=
  let* record := get ctx name in
  if bool_decide (wr_certification_status record = UNCERTIFIED) then ret record
  else
    let* t := now in
    let updated := record_copy record
      {| pu_manifest := Some (with_status (wr_manifest record) UNCERTIFIED); pu_current_version := None;
         pu_certification_status := Some UNCERTIFIED; pu_updated_at := Some t; pu_needs_re_certification := Some true;
         pu_production_runs_survived := None |} in
    save_workload ctx updated ;;;
    ret updated.

(** What [apply_attestation] writes into the certification block. *)
Definition attested (c : CertificationSpec) (status : CertificationStatus) (a : Attestation) (expires_at : option Z) : CertificationSpec :=
  {| ce_benchmark_corpus := ce_benchmark_corpus c; ce_staging_threshold := ce_staging_threshold c;
     ce_production_threshold := ce_production_threshold c; ce_no_critical_failures := ce_no_critical_failures c;
     ce_latency_budget_ms := ce_latency_budget_ms c; ce_re_cert_interval := ce_re_cert_interval c; ce_status := status;
     ce_attestation_id := Some (at_attestation_id a); ce_certified_at := Some (at_timestamp a);
     ce_certified_by := Some (sg_identity (at_signer a)); ce_expires_at := expires_at |}.

Definition apply_attestation (ctx : TenantContext) (a : Attestation) (event : option CertificationEvent)
    (status : option CertificationStatus) (expires_at : option Z) : Reg WorkloadRecord :=
  let* record := get ctx (at_workload_id a) in
  let* new_status :=
    match status, event with
    | Some s, _ => ret s
    | None, Some e => of_option (RegistryValueError "invalid transition") (advance_status (wr_certification_status record) e)
    | None, None => raise (RegistryValueError "apply_attestation requires an event or a status")
    end in
  let* c := of_option (RegistryValueError "no certification block") (sp_certification (ma_spec (wr_manifest record))) in
  let survival := if bool_decide (new_status = wr_certification_status record) then wr_production_runs_survived record
                  else survival_after_transition (wr_production_runs_survived record) new_status in
  let* t := now in
  let updated := record_copy record
    {| pu_manifest := Some (with_certification (wr_manifest record) (attested c new_status a expires_at));
       pu_current_version := None; pu_certification_status := Some new_status; pu_updated_at := Some t;
       pu_needs_re_certification := Some (if resolved new_status then false else wr_needs_re_certification record);
       pu_production_runs_survived := Some survival |} in
  save_workload ctx updated ;;;
  ret updated.

(** *** Admission *)

Definition verified (a : Attestation) : bool :=
  match resolve_key (sg_key_id (at_signer a)) with Some k => verify_attestation float_repr dump_time verify a k | None => false end.

(** [_has_valid_bundle] *)
Definition has_valid_bundle (r : WorkloadRecord) : bool :=
  match rc_bundle_signing_key cfg with
  | None => true
  | Some _ =>
      match wr_bundle r with
      | None => false
      | Some b =>
          match resolve_key (wb_key_id b) with
          | None => false
          | Some k => verify_bundle sha256 float_repr dump_time verify b (wr_manifest r) k None
          end
      end
  end.

(** [_has_valid_attestation], whose lookup names no tenant. *)
Definition has_valid_attestation (r : WorkloadRecord) (target : option TargetContext) : Reg bool :=
  match sp_certification (ma_spec (wr_manifest r)) with
  | Some c =>
      match ce_expires_at c with
      | Some e =>
          let* t := now in
          let* s := store in
          ret (if (e <=? t)%Z then false
               else if match rc_attestation_public_key cfg, rc_key_resolver cfg with None, None => true | _, _ => false end then false
               else match ce_attestation_id c with
                    | None | Some EmptyString => false
                    | Some id =>
                        match store_get_attestation s DEFAULT_CONTEXT id with
                        | None => false
                        | Some a =>
                            bool_decide (at_workload_id a = wr_name r)
                            && match target with None => true | Some t => bool_decide (at_target_context a = t) end
                            && verified a
                        end
                    end)
      | None => ret false
      end
  | None => ret false
  end.

Definition admission_value (c : AdmissionContext) : string :=
  match c with SANDBOX => "sandbox" | STAGING => "staging" | PRODUCTION => "production" end.

(** The decision of [check_admission] once it has its verdict. *)
Definition decision (name : string) (context : AdmissionContext) (status required : CertificationStatus) (admitted : bool) : AdmissionDecision :=
  {| ad_workload := name; ad_context := context; ad_admitted := admitted; ad_required_status := Some required; ad_actual_status := status;
     ad_reason := if admitted then None
                  else Some ("certification status '" +:+ status_value status +:+ "' is insufficient for " +:+ admission_value context
                             +:+ "; requires '" +:+ status_value required +:+ "'") |}.

Definition check_admission (ctx : TenantContext) (name : string) (context : AdmissionContext) : Reg AdmissionDecision :=
  let* record := get ctx name in
  let status := wr_certification_status record in
  match context with
  | SANDBOX =>
      ret {| ad_workload := name; ad_context := context; ad_admitted := true; ad_required_status := None; ad_actual_status := status;
             ad_reason := None |}
  | STAGING => ret (decision name context status PROVISIONAL (resolved status))
  | PRODUCTION =>
      let gated target :=
        if wr_needs_re_certification record then ret false
        else let* ok := has_valid_attestation record target in ret (ok && has_valid_bundle record) in
      let* admitted := match status with
                       | CERTIFIED => gated None
                       | PROVISIONAL => gated (Some TC_PRODUCTION)
                       | _ => ret false
                       end in
      ret (decision name context status CERTIFIED admitted)
  end.

Definition require_admission (ctx : TenantContext) (name : string) (context : AdmissionContext) : Reg AdmissionDecision :=
  let* d := check_admission ctx name context in
  if ad_admitted d then ret d
  else raise (AdmissionRefusedError name context (default CERTIFIED (ad_required_status d)) (ad_actual_status d)).

(** *** Attestations, tools, triggers *)

Definition store_attestation (ctx : TenantContext) (a : Attestation) : Reg Attestation :=
  let* s := store in
  match store_get_attestation s ctx (at_attestation_id a) with
  | Some _ => raise (AttestationAlreadyExistsError (at_attestation_id a))
  | None => add_attestation ctx a ;;; ret a
  end.

Definition get_attestation (ctx : TenantContext) (id : string) : Reg Attestation :=
  let* s := store in
  let* a := of_option (AttestationNotFoundError id) (store_get_attestation s ctx id) in
  if verified a then ret a else raise (AttestationVerificationError id).

Definition find_attestation (ctx : TenantContext) (id : string) : Reg (option Attestation) :=
  let* s := store in ret (store_get_attestation s ctx id).

Definition list_attestations (ctx : TenantContext) (name : string) : Reg (list Attestation) :=
  get ctx name ;;;
  let* s := store in
  let l := store_list_attestations s ctx name in
  match head (filter (λ a, verified a = false) l) with
  | Some a => raise (AttestationVerificationError (at_attestation_id a))
  | None => ret l
  end.

Definition register_tool (ctx : TenantContext) (t : ToolRecord) : Reg ToolRecord :=
  let* s := store in
  match store_get_tool s (tl_tool_id t) with
  | Some _ => raise (ToolAlreadyExistsError (tl_tool_id t))
  | None => save_tool ctx t ;;; ret t
  end.

Definition get_tool (tool_id : string) : Reg ToolRecord :=
  let* s := store in of_option (UnknownToolError tool_id) (store_get_tool s tool_id).

Definition list_tools (trust_level : option ToolTrustLevel) (mcp_server : option string) : Reg (list ToolRecord) :=
  let* s := store in
  ret (filter (λ t, from_option (λ l, bool_decide (tl_trust_level t = l)) true trust_level
                    && from_option (λ m, bool_decide (tl_mcp_server t = m)) true mcp_server = true) (od_values (rg_tools s))).

Definition list_triggers (ctx : TenantContext) (name : string) : Reg (list TriggerRecord) :=
  get ctx name ;;; let* s := store in ret (store_list_triggers s ctx name).

(** [add_trigger], with [_next_trigger_id]. *)
Definition add_trigger (ctx : TenantContext) (name : string) (rule : TriggerRule) : Reg TriggerRecord :=
  get ctx name ;;;
  let* s := store in
  let id := trigger_name name (Z.of_nat (length (store_list_triggers s ctx name)) + 1) in
  let* t := now in
  let record := {| tg_trigger_id := id; tg_workload := name; tg_rule := rule; tg_created_at := t |} in
  store_add_trigger ctx record ;;;
  ret record.

Definition delete_trigger (ctx : TenantContext) (name trigger_id : string) : Reg unit :=
  get ctx name ;;;
  let* deleted := store_delete_trigger ctx name trigger_id in
  if deleted then ret tt else raise (WorkloadNotFoundError (name +:+ "/triggers/" +:+ trigger_id)).

(** *** The catalog *)

Definition status_of_value (s : string) : option CertificationStatus :=
  find (λ x, bool_decide (status_value x = s)) [UNCERTIFIED; PROVISIONAL; CERTIFIED; QUARANTINED].

Definition runtime_of_value (s : string) : option RuntimeAdapter :=
  find (λ x, bool_decide (runtime_value x = s)) [RAW_WORKER; LANGGRAPH; PYDANTIC_AI; OPENAI_AGENTS; CREWAI].

(** [_SORT_KEYS]: the order each key sorts by. *)
Definition sort_leb (sort : string) : option (WorkloadRecord → WorkloadRecord → bool) :=
  od_get sort
    [("name", λ a b, str_leb (wr_name a) (wr_name b)); ("owner", λ a b, str_leb (wr_owner a) (wr_owner b));
     ("team", λ a b, str_leb (default EmptyString (wr_team a)) (default EmptyString (wr_team b)));
     ("certification_status", λ a b, str_leb (status_value (wr_certification_status a)) (status_value (wr_certification_status b)));
     ("updated_at", λ a b, (wr_updated_at a <=? wr_updated_at b)%Z)].

(** A bound of a slice: negative ones count from the end. *)
Definition slice_bound (n : Z) (len : nat) : nat := Z.to_nat (if (n <? 0)%Z then Z.of_nat len + n else n).

(** A filter given as a text that names no member is a [ValueError]. *)
Definition coerce {A} (f : string → option A) (what : string) (o : option string) : Reg (option A) :=
  match o with None => ret None | Some s => let* a := of_option (RegistryValueError what) (f s) in ret (Some a) end.

Definition list_workloads (ctx : TenantContext) (owner team runtime certification_status : option string) (sort : string)
    (descending : bool) (limit : option Z) (offset : Z) : Reg (list WorkloadRecord) :=
  let* leb := of_option (RegistryValueError "invalid sort field") (sort_leb sort) in
  let* runtime := coerce runtime_of_value "invalid runtime filter" runtime in
  let* status := coerce status_of_value "invalid certification_status filter" certification_status in
  let* s := store in
  let records := filter (λ r,
    from_option (λ o, bool_decide (wr_owner r = o)) true owner
    && from_option (λ t, bool_decide (wr_team r = Some t)) true team
    && from_option (λ x, bool_decide (wr_runtime r = x)) true runtime
    && from_option (λ x, bool_decide (wr_certification_status r = x)) true status = true) (store_list_workloads s ctx) in
  let records := py_sort (λ a b, if descending then leb b a else leb a b) records in
  let records := drop (slice_bound offset (length records)) records in
  ret (match limit with Some n => take (slice_bound n (length records)) records | None => records end).

(** ** Effects of the operations *)

Lemma get_run ctx name s x :
  get ctx name (s, x) = (match get_workload s ctx name with Some r => Ret r | None => Raise (WorkloadNotFoundError name) end, (s, x)).
Proof. unfold get, bind, store, gets. simpl. by destruct (get_workload s ctx name). Qed.

Lemma get_workload_get s ctx name r :
  get_workload s ctx name = Some r ↔ od_get name (rg_workloads s) = Some r ∧ scopes ctx (wr_tenant_id r) = true.
Proof.
  unfold get_workload. destruct (od_get name (rg_workloads s)) as [r'|]; [|by split; [|intros [? _]]].
  destruct (scopes ctx (wr_tenant_id r')) eqn:E; split; [by intros [= <-]|by intros [[= <-] _]|done|intros [[= <-] H]; congruence].
Qed.

Lemma save_workload_inv ctx r s x u w :
  save_workload ctx r (s, x) = (Ret u, w) →
  w = (set_workloads s (od_set (wr_name r) r (rg_workloads s)), x) ∧ scopes ctx (wr_tenant_id r) = true.
Proof.
  unfold save_workload, require, bind. destruct (scopes ctx (wr_tenant_id r)); [|done]. simpl.
  destruct (od_get (wr_name r) (rg_workloads s)) as [e|]; [destruct (scopes ctx (wr_tenant_id e)); [|done]|]; by intros [= _ <-].
Qed.

Lemma save_workload_run ctx r s x :
  scopes ctx (wr_tenant_id r) = true →
  (∀ e, od_get (wr_name r) (rg_workloads s) = Some e → scopes ctx (wr_tenant_id e) = true) →
  save_workload ctx r (s, x) = (Ret tt, (set_workloads s (od_set (wr_name r) r (rg_workloads s)), x)).
Proof.
  intros Hr He. unfold save_workload, require, bind. rewrite Hr. simpl.
  destruct (od_get (wr_name r) (rg_workloads s)) as [e|] eqn:E; [by rewrite (He e)|done].
Qed.

(** What a step leaves alone: everything but the triggers. *)
Definition same_core (w w' : World) : Prop :=
  rg_workloads w'.1 = rg_workloads w.1 ∧ rg_versions w'.1 = rg_versions w.1 ∧
  rg_attestations w'.1 = rg_attestations w.1 ∧ rg_attestation_tenants w'.1 = rg_attestation_tenants w.1 ∧ rg_tools w'.1 = rg_tools w.1.

#[local] Instance same_core_preorder : PreOrder same_core.
Proof. split; [by intros w|]. intros a b c (?&?&?&?&?) (?&?&?&?&?). unfold same_core. split_and!; congruence. Qed.

Lemma keeps_now : keeps same_core now.
Proof. intros [s x]. unfold now. simpl. by destruct (clock x). Qed.

Lemma keeps_delete_trigger ctx name id : keeps same_core (store_delete_trigger ctx name id).
Proof.
  intros [s x]. unfold store_delete_trigger, bind, store, gets. simpl.
  destruct (get_workload s ctx name), (od_get name (rg_triggers s)) as [d|]; try done. by destruct (od_mem id d).
Qed.

Lemma keeps_parent ctx name : keeps same_core (parent ctx name).
Proof.
  intros [s x]. unfold parent, bind, store, gets. simpl. destruct (od_get name (rg_workloads s)) as [r|]; [|done].
  unfold require. by destruct (scopes ctx (wr_tenant_id r)).
Qed.

Lemma keeps_add_trigger ctx t : keeps same_core (store_add_trigger ctx t).
Proof. apply keeps_bind; [apply _|apply keeps_parent|]. intros _. by intros [s x]. Qed.

Lemma keeps_sync ctx m : keeps same_core (sync_triggers ctx m).
Proof.
  unfold sync_triggers. apply keeps_bind; [apply _|by apply keeps_gets, _|]. intros s. apply keeps_bind; [apply _| |].
  - induction (store_list_triggers s ctx (manifest_name m)) as [|t l IH]; simpl; [by apply keeps_ret, _|].
    apply keeps_bind; [apply _|apply keeps_delete_trigger|]. by intros _.
  - intros _. generalize 1%Z. induction (sp_triggers (ma_spec m)) as [|r l IH]; intros i; simpl; [by apply keeps_ret, _|].
    apply keeps_bind; [apply _|apply keeps_now|]. intros t. apply keeps_bind; [apply _|apply keeps_add_trigger|]. by intros _.
Qed.

Lemma keeps_sign_bundle m : ∀ w, same_core w (registry_sign_bundle m w).2 ∧ (registry_sign_bundle m w).2.1 = w.1.
Proof.
  intros [s x]. unfold registry_sign_bundle. destruct (rc_bundle_signing_key cfg) as [k|]; [|by split].
  unfold bind, now. simpl. by destruct (clock x).
Qed.

(** ** Admission *)

(** What the attestation check of a record rests on. *)
Definition attested_by (s : RegistryStore) (t : Z) (r : WorkloadRecord) (target : option TargetContext) (a : Attestation) : Prop :=
  ∃ c e id, sp_certification (ma_spec (wr_manifest r)) = Some c ∧ ce_expires_at c = Some e ∧ (t < e)%Z ∧
    ce_attestation_id c = Some id ∧ store_get_attestation s DEFAULT_CONTEXT id = Some a ∧ at_workload_id a = wr_name r ∧
    (∀ x, target = Some x → at_target_context a = x) ∧ verified a = true.

Lemma has_valid_attestation_inv r target s x b w :
  has_valid_attestation r target (s, x) = (Ret b, w) →
  w.1 = s ∧ (b = true → ∃ a, attested_by s (clock x).1 r target a).
Proof.
  unfold has_valid_attestation. destruct (sp_certification (ma_spec (wr_manifest r))) as [c|] eqn:Hc; [|by intros [= <- <-]].
  destruct (ce_expires_at c) as [e|] eqn:He; [|by intros [= <- <-]].
  unfold bind, now, store, gets, ret. simpl. destruct (clock x) as [t x'] eqn:Hx. simpl. intros [= <- <-]. split; [done|].
  destruct (e <=? t)%Z eqn:Ht; [done|]. destruct (match rc_attestation_public_key cfg with Some _ => _ | None => _ end); [done|].
  destruct (ce_attestation_id c) as [id|] eqn:Hid; [|done]. destruct id as [|ch id]; [done|].
  destruct (store_get_attestation s DEFAULT_CONTEXT (String ch id)) as [a|] eqn:Ha; [|done].
  rewrite !andb_true_iff, bool_decide_eq_true. intros [[Hw Htg] Hv]. exists a, c, e, (String ch id).
  split_and!; try done; [simpl; lia|]. intros y ->. by apply bool_decide_eq_true in Htg.
Qed.

Lemma check_production_inv ctx name s x d w :
  check_admission ctx name PRODUCTION (s, x) = (Ret d, w) →
  ∃ r, get_workload s ctx name = Some r ∧ w.1 = s ∧ ad_actual_status d = wr_certification_status r ∧
    (ad_admitted d = true → wr_needs_re_certification r = false ∧ has_valid_bundle r = true ∧
      (wr_certification_status r = CERTIFIED ∨ wr_certification_status r = PROVISIONAL) ∧
      ∃ a, attested_by s (clock x).1 r (if bool_decide (wr_certification_status r = PROVISIONAL) then Some TC_PRODUCTION else None) a).
Proof.
  unfold check_admission. unfold bind at 1. rewrite get_run. destruct (get_workload s ctx name) as [r|] eqn:Hr; [|done].
  intros H. exists r. apply bind_inv in H as (adm & w1 & H & Hret). injection Hret as <- <-. simpl. split; [done|].
  assert (∀ target, (if wr_needs_re_certification r then ret false
        else let* ok := has_valid_attestation r target in ret (ok && has_valid_bundle r)) (s, x) = (Ret adm, w1) →
    w1.1 = s ∧ (adm = true → wr_needs_re_certification r = false ∧ has_valid_bundle r = true ∧ ∃ a, attested_by s (clock x).1 r target a)) as Hg.
  { intros target Hg. destruct (wr_needs_re_certification r); [by injection Hg as <- <-|].
    apply bind_inv in Hg as (ok & w2 & Hg & Hret). injection Hret as <- <-. apply has_valid_attestation_inv in Hg as [Hs Hok].
    split; [done|]. intros [??]%andb_true_iff. auto. }
  destruct (wr_certification_status r) eqn:Hst; try (by injection H as <- <-).
  - apply Hg in H as [Hs Hok]. split_and!; [done..|]. intros Ha. destruct (Hok Ha) as (?&?&?). eauto.
  - apply Hg in H as [Hs Hok]. split_and!; [done..|]. intros Ha. destruct (Hok Ha) as (?&?&?). eauto.
Qed.

(** Outside the default tenant no attestation is ever found, so no workload is
    admitted to production. *)
Lemma other_tenant_refused ctx name s x d w r c id t :
  check_admission ctx name PRODUCTION (s, x) = (Ret d, w) →
  get_workload s ctx name = Some r → sp_certification (ma_spec (wr_manifest r)) = Some c → ce_attestation_id c = Some id →
  od_get id (rg_attestation_tenants s) = Some t → t ≠ DEFAULT_TENANT_ID → ad_admitted d = false.
Proof.
  intros H Hr Hc Hid Ht Hne. apply check_production_inv in H as (r' & Hr' & _ & _ & H). rewrite Hr in Hr'. injection Hr' as <-.
  destruct (ad_admitted d); [|done]. destruct H as (_ & _ & _ & a & c' & e & id' & Hc' & _ & _ & Hid' & Ha & _); [done|].
  rewrite Hc in Hc'. injection Hc' as <-. rewrite Hid in Hid'. injection Hid' as <-.
  unfold store_get_attestation in Ha. rewrite Ht in Ha. destruct (od_get id (rg_attestations s)); [|done].
  unfold scopes in Ha. simpl in Ha. case_bool_decide; congruence.
Qed.

(** ** Creation *)

Lemma validate_tools_inv m s x u w : validate_tools m (s, x) = (Ret u, w) → w = (s, x) ∧ tools_error s m = None.
Proof. unfold validate_tools, bind, store, gets. simpl. destruct (tools_error s m); [done|]. by intros [= _ <-]. Qed.

Lemma now_inv s x t w : now (s, x) = (Ret t, w) → w = (s, (clock x).2) ∧ t = (clock x).1.
Proof. unfold now. simpl. destruct (clock x). by intros [= <- <-]. Qed.

(** The record a manifest gives, but for the bundle. *)
Definition built (m : Manifest) (version created_at : Z) (tenant_id : string) (needs : bool) (r : WorkloadRecord) : Prop :=
  wr_name r = manifest_name m ∧ wr_manifest r = m ∧ wr_current_version r = version ∧
  wr_certification_status r = manifest_status m ∧ wr_needs_re_certification r = needs ∧ wr_tenant_id r = tenant_id ∧
  wr_artifact_hash r = Some (ab_artifact_hash (registry_binding m)) ∧ wr_created_at r = created_at ∧
  wr_production_runs_survived r = 0%Z.

Lemma build_record_inv m version created_at tenant_id needs s x r w :
  build_record m version created_at tenant_id needs (s, x) = (Ret r, w) →
  w.1 = s ∧ built m version created_at tenant_id needs r.
Proof.
  unfold build_record. intros H. apply bind_inv in H as (b & w1 & Hb & Hret). injection Hret as <- <-.
  pose proof (keeps_sign_bundle m (s, x)) as [_ Hk]. rewrite Hb in Hk. split; [exact Hk|]. unfold built. simpl. done.
Qed.

Lemma add_version_inv ctx v s x u w :
  add_version ctx v (s, x) = (Ret u, w) →
  w = (set_versions s (od_set (wv_workload v) (od_set (wv_version v) v (workload_versions s (wv_workload v))) (rg_versions s)), x).
Proof.
  unfold add_version. intros H. apply bind_inv in H as (p & w1 & Hp & H). revert Hp.
  unfold parent, bind, store, gets. simpl. destruct (od_get (wv_workload v) (rg_workloads s)) as [r|]; [|done].
  unfold require. destruct (scopes ctx (wr_tenant_id r)); [|done]. intros [= _ <-]. by injection H as _ <-.
Qed.

(** A created workload has the status its manifest declares. *)
Lemma create_inv ctx m s x r w :
  create ctx m (s, x) = (Ret r, w) →
  od_get (manifest_name m) (rg_workloads w.1) = Some r ∧ wr_tenant_id r = tc_tenant_id ctx ∧ wr_certification_status r = manifest_status m ∧
  wr_current_version r = 1%Z ∧ wr_name r = manifest_name m ∧
  ∃ v, od_get (manifest_name m) (rg_versions w.1) = Some (od_set 1%Z v (workload_versions s (manifest_name m))) ∧
    wv_version v = 1%Z ∧ wv_status v = V_ACTIVE ∧ wv_manifest v = m.
Proof.
  unfold create, store. rewrite (bind_run _ _ _ s (s, x)) by done.
  destruct (get_workload s ctx (manifest_name m)); [done|]. intros H.
  apply bind_inv in H as (u1 & w1 & [-> _]%validate_tools_inv & H).
  apply bind_inv in H as (t & w2 & [-> ->]%now_inv & H).
  apply bind_inv in H as (rec & [s3 x3] & Hb & H). apply build_record_inv in Hb as [Hs3 Hb]. simpl in Hs3. subst s3.
  apply bind_inv in H as (u4 & w4 & [-> _]%save_workload_inv & H).
  apply bind_inv in H as (u5 & w5 & ->%add_version_inv & H).
  apply bind_inv in H as (u6 & w6 & Hs & H). injection H as <- <-.
  pose proof (keeps_sync ctx m (set_versions (set_workloads s (od_set (wr_name rec) rec (rg_workloads s)))
    (od_set (manifest_name m) (od_set 1%Z {| wv_workload := manifest_name m; wv_version := 1; wv_manifest := m; wv_status := V_ACTIVE;
                         wv_created_at := (clock x).1; wv_re_certification_required := false; wv_changed_fields := [] |}
       (workload_versions s (manifest_name m))) (rg_versions s)), x3)) as Hk.
  simpl in Hs. unfold workload_versions in *. simpl in Hs. rewrite Hs in Hk. destruct Hk as (Hw & Hv & _). simpl in Hw, Hv.
  destruct Hb as (Hn & Hm & Hcv & Hst & _ & Ht & _). rewrite Hw, Hv, Hn, !od_get_set_eq. split_and!; [done..|]. by eexists.
Qed.

(** ** Versions *)

Definition retire (v : WorkloadVersion) : WorkloadVersion :=
  if bool_decide (wv_status v = V_ACTIVE) then version_with_status v V_SUPERSEDED else v.

Definition superseded (d : odict Z WorkloadVersion) (l : list WorkloadVersion) : odict Z WorkloadVersion :=
  foldl (λ d v, if bool_decide (wv_status v = V_ACTIVE) then od_set (wv_version v) (version_with_status v V_SUPERSEDED) d else d) d l.

Definition same_but_versions (s s' : RegistryStore) : Prop :=
  rg_workloads s' = rg_workloads s ∧ rg_attestations s' = rg_attestations s ∧
  rg_attestation_tenants s' = rg_attestation_tenants s ∧ rg_tools s' = rg_tools s ∧ rg_triggers s' = rg_triggers s.

Lemma workload_versions_set s name d : workload_versions (set_versions s (od_set name d (rg_versions s))) name = d.
Proof. unfold workload_versions. simpl. by rewrite od_get_set_eq. Qed.

Lemma supersede_core ctx l s x u w :
  supersede ctx l (s, x) = (Ret u, w) → w.2 = x ∧ same_but_versions s w.1.
Proof.
  revert s. induction l as [|v l IH]; intros s H; [by injection H as _ <-|].
  simpl in H. apply bind_inv in H as (u1 & w1 & H1 & H). case_bool_decide.
  - apply add_version_inv in H1 as ->. by apply IH in H.
  - injection H1 as _ <-. by apply IH in H.
Qed.

Lemma supersede_inv ctx name l s x u w :
  (∀ v, v ∈ l → wv_workload v = name) → supersede ctx l (s, x) = (Ret u, w) →
  workload_versions w.1 name = superseded (workload_versions s name) l.
Proof.
  revert s. induction l as [|v l IH]; intros s Hn H; [by injection H as _ <-|].
  simpl in H. apply bind_inv in H as (u1 & w1 & H1 & H). assert (wv_workload v = name) as Hv by (apply Hn; left).
  case_bool_decide as Ha.
  - apply add_version_inv in H1 as ->. simpl in H. rewrite Hv in H.
    apply IH in H as Hw; [|intros y Hy; apply Hn; by right].
    rewrite workload_versions_set in Hw. rewrite Hw. simpl. by rewrite bool_decide_eq_true_2.
  - injection H1 as _ <-. apply IH in H as Hw; [|intros y Hy; apply Hn; by right]. rewrite Hw. simpl. by rewrite bool_decide_eq_false_2.
Qed.

Lemma superseded_other d l k : k ∉ wv_version <$> l → od_get k (superseded d l) = od_get k d.
Proof.
  revert d. induction l as [|v l IH]; intros d H; [done|]. simpl in *. apply not_elem_of_cons in H as [Hne H].
  rewrite IH by done. case_bool_decide; [|done]. by rewrite od_get_set_ne.
Qed.

Lemma superseded_elem d l v :
  NoDup (wv_version <$> l) → (∀ v, v ∈ l → od_get (wv_version v) d = Some v) → v ∈ l →
  od_get (wv_version v) (superseded d l) = Some (retire v).
Proof.
  revert d. induction l as [|y l IH]; intros d Hd Hg Hv; [by apply elem_of_nil in Hv|]. simpl in *.
  apply NoDup_cons in Hd as [Hy Hd]. apply elem_of_cons in Hv as [->|Hv].
  - rewrite superseded_other by done. unfold retire. case_bool_decide; [by rewrite od_get_set_eq|apply Hg; left].
  - apply IH; [done| |done]. intros z Hz. assert (wv_version z ≠ wv_version y) as Hne.
    { intros E. apply Hy. rewrite <-E. by apply list_elem_of_fmap_2. }
    case_bool_decide; [rewrite od_get_set_ne by done|]; apply Hg; by right.
Qed.

(** The versions of a workload are 1 to [n]; the last alone is active. *)
Definition history (s : RegistryStore) (name : string) (n : Z) : Prop :=
  let d := workload_versions s name in
  od_wf d ∧ (∀ k, od_mem k d = true ↔ (1 ≤ k ≤ n)%Z) ∧
  ∀ k v, od_get k d = Some v → wv_version v = k ∧ wv_workload v = name ∧ (wv_status v = V_ACTIVE ↔ k = n).

(** The history of a new workload. *)
Lemma history_one s name v :
  workload_versions s name = [(1%Z, v)] → wv_version v = 1%Z → wv_workload v = name → wv_status v = V_ACTIVE → history s name 1.
Proof.
  intros E H1 H2 H3. unfold history. rewrite E. split_and!.
  - apply NoDup_singleton.
  - intros k. unfold od_mem. simpl. case_decide; split; intros; [lia|done|done|exfalso; lia].
  - intros k v'. simpl. case_decide; [|done]. intros [= <-]. subst k. by rewrite H1, H2, H3.
Qed.

Lemma od_value_get_elem {V} (d : odict Z V) v : od_wf d → v ∈ od_values d ↔ ∃ k, od_get k d = Some v.
Proof. intros Hwf. split; [intros H; by apply od_value_get in H|intros [k H]; by apply od_get_value in H]. Qed.

Lemma keys_are_versions (d : odict Z WorkloadVersion) :
  (∀ k v, (k, v) ∈ d → wv_version v = k) → wv_version <$> od_values d = od_keys d.
Proof.
  intros H. unfold od_values, od_keys. rewrite <-list_fmap_compose. apply list_fmap_ext. intros i [k v] Hi.
  simpl. apply H. by apply list_elem_of_lookup_2 in Hi.
Qed.

Lemma history_listed s ctx name n r :
  history s name n → get_workload s ctx name = Some r →
  let d := workload_versions s name in let l := list_versions s ctx name in
  NoDup (wv_version <$> l) ∧ (∀ v, v ∈ l ↔ ∃ k, od_get k d = Some v) ∧ (∀ v, v ∈ l → od_get (wv_version v) d = Some v ∧ wv_workload v = name).
Proof.
  intros (Hwf & _ & Hv) Hr d l. unfold l, list_versions. rewrite Hr.
  assert (∀ v, v ∈ py_sort (λ a b, wv_version a <=? wv_version b)%Z (od_values d) ↔ ∃ k, od_get k d = Some v) as He.
  { intros v. rewrite py_sort_perm. by apply od_value_get_elem. }
  split_and!; [|exact He|].
  - rewrite (fmap_Permutation wv_version _ _ (py_sort_perm _ _)), keys_are_versions; [exact Hwf|].
    intros k v Hin. apply od_elem_get in Hin; [|done]. by apply Hv in Hin as [? _].
  - intros v [k Hk]%He. destruct (Hv k v Hk) as (<- & ? & _). done.
Qed.

Lemma update_inv ctx name m s x r w :
  update ctx name m (s, x) = (Ret r, w) →
  ∃ existing t, get_workload s ctx name = Some existing ∧ tools_error s m = None ∧
    let changes := changed_fields (wr_manifest existing) m in
    let re_cert := requires_re_certification changes in
    let n := (wr_current_version existing + 1)%Z in
    (∃ b, built m n (wr_created_at existing) (tc_tenant_id ctx) re_cert b ∧
      r = (let b := record_copy b (updated_at t) in if artifact_changed existing b then invalidate_for_production b else b)) ∧
    rg_workloads w.1 = od_set (wr_name r) r (rg_workloads s) ∧
    rg_attestations w.1 = rg_attestations s ∧ rg_attestation_tenants w.1 = rg_attestation_tenants s ∧
    ((∀ v, v ∈ list_versions s ctx name → wv_workload v = name) →
     workload_versions w.1 name =
       od_set n {| wv_workload := name; wv_version := n; wv_manifest := m; wv_status := V_ACTIVE; wv_created_at := t;
                   wv_re_certification_required := re_cert; wv_changed_fields := changes |}
         (superseded (workload_versions s name) (list_versions s ctx name))).
Proof.
  unfold update. intros H. apply bind_inv in H as (e & w0 & He & H). rewrite get_run in He.
  destruct (get_workload s ctx name) as [existing|] eqn:Hr; [|done]. injection He as <- <-.
  apply bind_inv in H as (u1 & w1 & [-> Ht]%validate_tools_inv & H).
  apply bind_inv in H as (t & w2 & [-> ->]%now_inv & H). unfold store in H. rewrite (bind_run _ _ _ s (s, (clock x).2)) in H by done.
  apply bind_inv in H as (u3 & [s3 x3] & H3 & H). apply bind_inv in H as (u4 & w4 & ->%add_version_inv & H). simpl in H.
  apply bind_inv in H as (b & [s5 x5] & Hb & H). apply build_record_inv in Hb as [Hs5 Hb]. simpl in Hs5. subst s5.
  apply bind_inv in H as (u6 & w6 & [-> _]%save_workload_inv & H).
  apply bind_inv in H as (u7 & w7 & Hs & H). injection H as <- <-.
  match type of Hs with sync_triggers _ _ ?w0 = _ => pose proof (keeps_sync ctx m w0) as Hk end. rewrite Hs in Hk.
  destruct Hk as (Hw & Hv & Ha & Hat & _). simpl in Hw, Hv, Ha, Hat.
  exists existing, (clock x).1. split; [done|]. split; [done|]. split; [by exists b|].
  pose proof (supersede_core _ _ _ _ _ _ H3) as [_ (E1 & E2 & E3 & _)]. simpl in E1, E2, E3.
  split_and!; [by rewrite Hw, E1|congruence|congruence|]. intros Hn. apply supersede_inv with (name := name) in H3 as Hsup; [|done].
  simpl in Hsup. unfold workload_versions at 1. rewrite Hv. simpl. rewrite od_get_set_eq. simpl. by rewrite Hsup.
Qed.

(** One more version, the others retired and otherwise untouched. *)
Lemma update_history ctx name m s x r w existing :
  get_workload s ctx name = Some existing → history s name (wr_current_version existing) → (0 ≤ wr_current_version existing)%Z →
  update ctx name m (s, x) = (Ret r, w) →
  history w.1 name (wr_current_version existing + 1) ∧
  (∃ v, od_get (wr_current_version existing + 1)%Z (workload_versions w.1 name) = Some v ∧ wv_manifest v = m) ∧
  ∀ k v, od_get k (workload_versions s name) = Some v →
    ∃ v', od_get k (workload_versions w.1 name) = Some v' ∧ wv_manifest v' = wv_manifest v ∧ wv_created_at v' = wv_created_at v.
Proof.
  intros Hr Hh Hpos H. apply update_inv in H as (e & t & Hr' & _ & _ & _ & _ & _ & Hv). rewrite Hr in Hr'. injection Hr' as <-.
  destruct (history_listed s ctx name _ existing Hh Hr) as (Hnd & Hin & Hget). rewrite Hv by (intros v Hl; by apply Hget in Hl as [_ ?]).
  set (n := wr_current_version existing) in *. set (d := workload_versions s name) in *. set (l := list_versions s ctx name) in *.
  destruct Hh as (Hwf & Hkeys & Hval). fold d in Hwf, Hkeys, Hval.
  assert (∀ k v, od_get k d = Some v → od_get k (superseded d l) = Some (retire v)) as Hold.
  { intros k v Hk. destruct (Hval k v Hk) as (<- & _). apply superseded_elem; [done|intros z Hz; by apply Hget in Hz as [? _]|].
    apply Hin. by exists (wv_version v). }
  assert (∀ k, od_get k d = None → od_get k (superseded d l) = None) as Hnone.
  { intros k Hk. rewrite superseded_other; [done|]. intros (v & -> & Hl)%list_elem_of_fmap. apply Hget in Hl as [E _]. congruence. }
  assert (od_wf (superseded d l)) as Hwf'.
  { clear -Hwf. revert Hwf. generalize d. induction l as [|v l IH]; intros d0 Hwf; simpl; [done|]. apply IH. case_bool_decide; [by apply od_wf_set|done]. }
  split_and!.
  - unfold history. rewrite Hv by (intros v Hl; by apply Hget in Hl as [_ ?]). fold n d l. split_and!; [by apply od_wf_set| |].
    + intros k. unfold od_mem. rewrite od_get_set. specialize (Hkeys k). unfold od_mem in Hkeys. case_decide as Hk; [split; [lia|done]|].
      destruct (od_get k d) as [v|] eqn:Ek; [rewrite (Hold k v Ek)|rewrite (Hnone k Ek)].
      * assert (1 ≤ k ≤ n)%Z by (by apply Hkeys). split; [lia|done].
      * split; [done|]. intros ?. assert (1 ≤ k ≤ n)%Z as Hb by lia. by apply Hkeys in Hb.
    + intros k v. rewrite od_get_set. case_decide as Hk; [intros [= <-]; subst k; done|].
      destruct (od_get k d) as [v0|] eqn:Ek; [rewrite (Hold k v0 Ek)|by rewrite (Hnone k Ek)]. intros [= <-].
      destruct (Hval k v0 Ek) as (E1 & E2 & E3). unfold retire. case_bool_decide as Ha; simpl; (split_and!; [done|done|]); split; try done.
  - rewrite od_get_set_eq. by eexists.
  - intros k v Hk. assert (1 ≤ k ≤ n)%Z as Hb by (apply Hkeys; unfold od_mem; by rewrite Hk).
    rewrite od_get_set_ne by lia. rewrite (Hold k v Hk). exists (retire v). unfold retire. by case_bool_decide.
Qed.

(** ** What the registry guarantees *)

(** C10: Production admission rests on evidence: an admitted workload is
    certified, or provisional with a production attestation, awaits no
    re-certification, has a valid bundle, and its manifest names a stored
    attestation for it that has not expired.  Under a signature scheme that
    accepts only issued payloads, that attestation was issued as it stands, up
    to the text of its signature. *)
Theorem production_admission_sound (issued : list Attestation) ctx name s x d w :
  float_text float_repr → Inj (=) (=) dump_time →
  (∀ key signature payload, verify key signature payload = true → payload ∈ canonical_payload float_repr dump_time <$> issued) →
  Forall (λ a, attestation_wf a = true) issued →
  (∀ id a, od_get id (rg_attestations s) = Some a → attestation_wf a = true) →
  check_admission ctx name PRODUCTION (s, x) = (Ret d, w) → ad_admitted d = true →
  ∃ r a a0 c e id, get_workload s ctx name = Some r ∧ wr_needs_re_certification r = false ∧ has_valid_bundle r = true ∧
    (wr_certification_status r = CERTIFIED ∨ wr_certification_status r = PROVISIONAL ∧ at_target_context a = TC_PRODUCTION) ∧
    sp_certification (ma_spec (wr_manifest r)) = Some c ∧ ce_expires_at c = Some e ∧ ((clock x).1 < e)%Z ∧
    ce_attestation_id c = Some id ∧ od_get id (rg_attestations s) = Some a ∧ at_workload_id a = wr_name r ∧
    a0 ∈ issued ∧ with_signature a EmptyString = with_signature a0 EmptyString.
Proof.
  intros Hf Ht Hu Hi Hs H Ha. apply check_production_inv in H as (r & Hr & _ & _ & H).
  destruct (H Ha) as (Hn & Hb & Hst & a & c & e & id & Hc & He & Hlt & Hid & Hg & Hw & Htg & Hv). clear H.
  assert (od_get id (rg_attestations s) = Some a) as Hga.
  { unfold store_get_attestation in Hg. destruct (od_get id (rg_attestations s)), (od_get id (rg_attestation_tenants s)); [|done..].
    by destruct (scopes _ _). }
  unfold verified, verify_attestation in Hv. destruct (resolve_key _) as [k|]; [|done]. destruct (b64decode _) as [sig|]; [|done].
  apply Hu in Hv. apply list_elem_of_fmap in Hv as (a0 & Hp & Hin). rewrite Forall_forall in Hi.
  exists r, a, a0, c, e, id. split_and!; try done.
  - destruct Hst as [?|Hst]; [by left|right]. split; [done|]. apply Htg. by rewrite Hst.
  - apply (payload_inj float_repr dump_time); eauto.
Qed.

(** A workload's attestations are looked up in the default tenant whoever
    asks: outside the default tenant no certification ever admits a workload to
    production. *)
Theorem other_tenant_never_admitted ctx name s x d w r c id t :
  check_admission ctx name PRODUCTION (s, x) = (Ret d, w) →
  get_workload s ctx name = Some r → sp_certification (ma_spec (wr_manifest r)) = Some c → ce_attestation_id c = Some id →
  od_get id (rg_attestation_tenants s) = Some t → t ≠ DEFAULT_TENANT_ID → ad_admitted d = false.
Proof. exact (other_tenant_refused ctx name s x d w r c id t). Qed.

(** An update of an unchanged artifact sets the status the submitted
    manifest declares, whatever the status was — quarantine included — and a
    declared provisional workload is admitted to staging. *)
Theorem declared_status_wins ctx name m s x r w existing :
  get_workload s ctx name = Some existing → wr_artifact_hash existing = Some (ab_artifact_hash (registry_binding m)) →
  manifest_name m = name → update ctx name m (s, x) = (Ret r, w) →
  wr_certification_status r = manifest_status m ∧
  (resolved (manifest_status m) = true →
   ∃ d, check_admission ctx name STAGING w = (Ret d, w) ∧ ad_admitted d = true).
Proof.
  intros Hr Hh Hn H. apply update_inv in H as (e & t & Hr' & _ & (b & Hb & ->) & Hw & _). rewrite Hr in Hr'. injection Hr' as <-.
  destruct Hb as (Hbn & _ & _ & Hst & _ & Htn & Hbh & _).
  assert (artifact_changed existing (record_copy b (updated_at t)) = false) as E.
  { unfold artifact_changed. rewrite Hh. simpl. rewrite Hbh. by rewrite bool_decide_eq_true_2. }
  cbv zeta in *. rewrite E in *. simpl in *. split; [done|]. intros Hres. destruct w as [s' x']. simpl in Hw.
  assert (get_workload s' ctx name = Some (record_copy b (updated_at t))) as Hg.
  { apply get_workload_get. simpl. rewrite Hw, Hbn, Hn, od_get_set_eq, Htn. split; [done|]. unfold scopes.
    by rewrite bool_decide_eq_true_2, orb_true_r. }
  eexists. split; [unfold check_admission; unfold bind at 1; rewrite get_run, Hg; reflexivity|]. simpl. by rewrite Hst.
Qed.

(** An update appends one version: the history stays numbered from 1, only
    the new version is active and carries the manifest, and every earlier
    version keeps its manifest. *)
Theorem update_appends_history ctx name m s x r w existing :
  get_workload s ctx name = Some existing → history s name (wr_current_version existing) → (0 ≤ wr_current_version existing)%Z →
  update ctx name m (s, x) = (Ret r, w) →
  wr_current_version r = (wr_current_version existing + 1)%Z ∧
  history w.1 name (wr_current_version existing + 1) ∧
  (∃ v, od_get (wr_current_version existing + 1)%Z (workload_versions w.1 name) = Some v ∧ wv_manifest v = m) ∧
  ∀ k v, od_get k (workload_versions s name) = Some v →
    ∃ v', od_get k (workload_versions w.1 name) = Some v' ∧ wv_manifest v' = wv_manifest v ∧ wv_created_at v' = wv_created_at v.
Proof.
  intros Hr Hh Hp H. split; [|exact (update_history ctx name m s x r w existing Hr Hh Hp H)].
  apply update_inv in H as (e & t & Hr' & _ & (b & Hb & ->) & _). rewrite Hr in Hr'. injection Hr' as <-.
  destruct Hb as (_ & _ & Hv & _). cbv zeta. unfold invalidate_for_production. repeat case_match; exact Hv.
Qed.

Lemma promote_inv ctx name v s x r w :
  promote ctx name v (s, x) = (Ret r, w) →
  ∃ existing target t, get_workload s ctx name = Some existing ∧ get_version s ctx name v = Some target ∧
    wr_current_version r = v ∧ wr_manifest r = wr_manifest existing ∧ wr_needs_re_certification r = false ∧
    wr_name r = wr_name existing ∧ wr_tenant_id r = wr_tenant_id existing ∧ wr_updated_at r = t ∧
    w.1 = set_workloads s (od_set (wr_name r) r (rg_workloads s)).
Proof.
  unfold promote. intros H. apply bind_inv in H as (e & w0 & He & H). rewrite get_run in He.
  destruct (get_workload s ctx name) as [existing|] eqn:Hr; [|done]. injection He as <- <-.
  unfold store in H. rewrite (bind_run _ _ _ s (s, x)) in H by done.
  destruct (get_version s ctx name v) as [target|] eqn:Hv; [|done]. rewrite (bind_run _ _ _ target (s, x)) in H by done.
  destruct (wv_re_certification_required target && wr_needs_re_certification existing); [done|].
  apply bind_inv in H as (t & w2 & [-> ->]%now_inv & H).
  apply bind_inv in H as (u & w3 & [-> _]%save_workload_inv & H). injection H as <- <-.
  exists existing, target, (clock x).1. by split_and!.
Qed.

(** Promoting an earlier version moves the version number and clears the
    re-certification flag but leaves the manifest that runs in place, and the
    next update overwrites the version that follows the promoted one. *)
Theorem promotion_rewrites_history ctx name v m s x r s1 x1 r2 w2 old :
  promote ctx name v (s, x) = (Ret r, (s1, x1)) → update ctx name m (s1, x1) = (Ret r2, w2) →
  (∀ z, z ∈ list_versions s1 ctx name → wv_workload z = name) → od_get name (rg_workloads s) = Some old → wr_name old = name →
  wr_manifest r = wr_manifest old ∧ wr_needs_re_certification r = false ∧ wr_current_version r = v ∧
  ∃ row, od_get (v + 1)%Z (workload_versions w2.1 name) = Some row ∧ wv_manifest row = m.
Proof.
  intros Hp Hu Hn Ho Hon. apply promote_inv in Hp as (e & target & t & Hr & _ & Hv & Hm & Hnr & Hrn & Hrt & _ & Hs1). simpl in Hs1.
  apply get_workload_get in Hr as [Hr Hsc]. rewrite Ho in Hr. injection Hr as <-. split_and!; [done..|].
  apply update_inv in Hu as (e2 & t2 & Hr2 & _ & _ & _ & _ & _ & Hw). rewrite Hw by done.
  apply get_workload_get in Hr2 as [Hr2 _]. rewrite Hs1, Hrn, Hon in Hr2. simpl in Hr2. rewrite od_get_set_eq in Hr2. injection Hr2 as <-.
  rewrite Hv, od_get_set_eq. by eexists.
Qed.

Lemma changed_nothing_relevant a b :
  sp_runtime (ma_spec a) = sp_runtime (ma_spec b) → sp_model (ma_spec a) = sp_model (ma_spec b) →
  sp_tools (ma_spec a) = sp_tools (ma_spec b) → corpus_of a = corpus_of b →
  requires_re_certification (changed_fields a b) = false.
Proof.
  intros H1 H2 H3 H4. unfold changed_fields. rewrite H1, H2, H3, H4. rewrite !bool_decide_eq_true_2 by done. simpl.
  unfold requires_re_certification. rewrite !existsb_app.
  repeat match goal with |- context [if ?b then [] else [_]] => destruct b end; reflexivity.
Qed.

Lemma with_status_same m status :
  sp_runtime (ma_spec (with_status m status)) = sp_runtime (ma_spec m) ∧ sp_model (ma_spec (with_status m status)) = sp_model (ma_spec m) ∧
  sp_tools (ma_spec (with_status m status)) = sp_tools (ma_spec m) ∧ corpus_of (with_status m status) = corpus_of m.
Proof. unfold with_status, corpus_of. by destruct (sp_certification (ma_spec m)) eqn:E; rewrite ?E. Qed.

(** The status of a manifest is not part of its artifact. *)
Lemma with_status_behaviour m status : behaviour (with_status m status) = behaviour m.
Proof. unfold with_status. by destruct (sp_certification (ma_spec m)). Qed.

(** The first of two submissions of a manifest stores it, with its status
    withdrawn when its artifact is new; the second restores the status. *)
Lemma resubmitted ctx name m s x r1 s1 x1 r2 w2 :
  manifest_name m = name → update ctx name m (s, x) = (Ret r1, (s1, x1)) → update ctx name m (s1, x1) = (Ret r2, w2) →
  wr_certification_status r2 = manifest_status m ∧ wr_needs_re_certification r2 = false ∧ wr_manifest r2 = m ∧ wr_name r2 = name ∧
  get_workload w2.1 ctx name = Some r2 ∧ rg_attestations w2.1 = rg_attestations s ∧ rg_attestation_tenants w2.1 = rg_attestation_tenants s.
Proof.
  intros Hn H1 H2. apply update_inv in H1 as (e & t & _ & _ & (b & Hb & ->) & Hw1 & Ha1 & Ht1 & _).
  set (b1 := record_copy b (updated_at t)) in *.
  assert (wr_name b1 = name ∧ wr_artifact_hash b1 = Some (ab_artifact_hash (registry_binding m)) ∧ wr_tenant_id b1 = tc_tenant_id ctx ∧ wr_manifest b1 = m)
    as (Hb1n & Hb1h & Hb1t & Hb1m) by (destruct Hb as (E1 & ? & _ & _ & _ & ? & ? & _); unfold b1; simpl; by rewrite E1).
  set (r1 := if artifact_changed e b1 then invalidate_for_production b1 else b1) in *.
  assert (wr_name r1 = name ∧ wr_artifact_hash r1 = Some (ab_artifact_hash (registry_binding m)) ∧ wr_tenant_id r1 = tc_tenant_id ctx ∧
    (wr_manifest r1 = m ∨ wr_manifest r1 = with_status m UNCERTIFIED)) as (Hr1n & Hr1h & Hr1t & Hr1m).
  { unfold r1, invalidate_for_production. rewrite Hb1m. repeat case_match; split_and!; first [done|by left|by right]. }
  simpl in Hw1, Ha1, Ht1. assert (∀ t, scopes ctx t = true ∨ tc_tenant_id ctx ≠ t) as Hsc.
  { intros t'. unfold scopes. case_bool_decide; [left; by rewrite orb_true_r|by right]. }
  apply update_inv in H2 as (e2 & t2 & He2 & _ & (b2 & Hb2 & ->) & Hw2 & Ha2 & Ht2 & _).
  apply get_workload_get in He2 as [He2 _]. rewrite Hw1, Hr1n, od_get_set_eq in He2. injection He2 as <-.
  destruct Hb2 as (Hn2 & Hm2 & _ & Hst2 & Hneed2 & Htn2 & Hh2 & _).
  assert (artifact_changed r1 (record_copy b2 (updated_at t2)) = false) as Hac.
  { unfold artifact_changed. rewrite Hr1h. simpl. rewrite Hh2. by rewrite bool_decide_eq_true_2. }
  cbv zeta in *. rewrite Hac in *. simpl. split_and!; try done.
  - rewrite Hneed2. destruct Hr1m as [->| ->]; [by apply changed_nothing_relevant|].
    destruct (with_status_same m UNCERTIFIED) as (?&?&?&?). by apply changed_nothing_relevant.
  - by rewrite Hn2.
  - apply get_workload_get. rewrite Hw2. simpl. rewrite Hn2, Hn, od_get_set_eq, Htn2. split; [done|].
    destruct (Hsc (tc_tenant_id ctx)); [done|congruence].
  - congruence.
  - congruence.
Qed.

(** Submitting a changed agent twice restores its production admission: the
    first update withdraws the certified status the manifest declares, the
    second takes it back, and the attestation of the earlier artifact admits
    it. *)
Theorem changed_agent_readmitted ctx name m s x r1 s1 x1 r2 w2 c e id a :
  manifest_name m = name → sp_certification (ma_spec m) = Some c → ce_status c = CERTIFIED → ce_expires_at c = Some e →
  ce_attestation_id c = Some id → id ≠ EmptyString → store_get_attestation s DEFAULT_CONTEXT id = Some a → at_workload_id a = name →
  verified a = true → rc_bundle_signing_key cfg = None →
  update ctx name m (s, x) = (Ret r1, (s1, x1)) → update ctx name m (s1, x1) = (Ret r2, w2) → ((clock w2.2).1 < e)%Z →
  ∃ d w3, check_admission ctx name PRODUCTION w2 = (Ret d, w3) ∧ ad_admitted d = true.
Proof.
  intros Hn Hc Hst He Hid Hne Hga Hwl Hv Hk H1 H2 Hlt.
  destruct (resubmitted ctx name m s x r1 s1 x1 r2 w2 Hn H1 H2) as (Hs2 & Hneed & Hm & Hn2 & Hg & Ha & Ht). destruct w2 as [s2 x2].
  assert (rc_attestation_public_key cfg ≠ None ∨ rc_key_resolver cfg ≠ None) as Hkeys.
  { unfold verified, resolve_key in Hv. destruct (rc_key_resolver cfg); [by right|]. destruct (rc_attestation_public_key cfg); [by left|done]. }
  assert (has_valid_attestation r2 None (s2, x2) = (Ret true, (s2, (clock x2).2))) as Hva.
  { unfold has_valid_attestation. rewrite Hm, Hc, He. unfold bind, now, store, gets, ret. simpl in *.
    destruct (clock x2) as [t x3]. simpl in *. destruct (e <=? t)%Z eqn:E; [lia|].
    destruct (rc_attestation_public_key cfg), (rc_key_resolver cfg); try (by destruct Hkeys);
      rewrite Hid; destruct id; try done; unfold store_get_attestation in *; rewrite Ha, Ht, Hga;
      by rewrite bool_decide_eq_true_2 by congruence; rewrite Hv. }
  eexists _, _. split.
  - unfold check_admission. unfold bind at 1. rewrite get_run. simpl in Hg. rewrite Hg.
    assert (wr_certification_status r2 = CERTIFIED) as -> by (rewrite Hs2; unfold manifest_status; by rewrite Hc).
    rewrite Hneed. unfold bind at 1 2. rewrite Hva. reflexivity.
  - simpl. unfold has_valid_bundle. by rewrite Hk.
Qed.
End Registry.
