(* ===== verification/RegistryDemo.v ===== *)
(** * The registry on a concrete workload

    A certified workload, its attestation and its updates, with a hash that is
    the identity and a signature that lists what was issued: the theorems of
    Binding and Registry at inputs where their hypotheses hold. *)

From stdpp Require Import base strings pretty numbers gmap sorting list.
From S2P Require Import Prelude Text Float64 Tenancy CoreModels Canonical Base64 Manifest Binding Certification Registry.

Definition demo_hash (s : string) : string := s.
Definition demo_time (t : Z) : string := pretty t.

Definition demo_certification (status : CertificationStatus) : CertificationSpec :=
  {| ce_benchmark_corpus := Some "triage.yaml"; ce_staging_threshold := f64_lit 4 5; ce_production_threshold := f64_lit 9 10;
     ce_no_critical_failures := true; ce_latency_budget_ms := 30000; ce_re_cert_interval := 1209600; ce_status := status;
     ce_attestation_id := Some "att-1"; ce_certified_at := Some 1%Z; ce_certified_by := Some "certifier"; ce_expires_at := Some 1000%Z |}.

(** The manifest of an agent that runs [entrypoint], owned by [owner]. *)
Definition demo_manifest (owner entrypoint : string) (status : CertificationStatus) : Manifest :=
  {| ma_metadata := {| md_name := "triage"; md_owner := owner; md_team := Some "platform"; md_description := None; md_labels := ∅ |};
     ma_spec :=
       {| sp_runtime := {| rt_adapter := RAW_WORKER; rt_entrypoint := entrypoint; rt_env := {[ "MODE" := "safe" ]}; rt_adapter_contract := "2" |};
          sp_budget := {| bs_per_run_usd := f64_lit 1 1; bs_per_day_usd := f64_lit 5 1; bs_per_team_usd := None |};
          sp_model := {| mo_strategy := FIXED; mo_identity := Some {| mi_provider := "openai"; mi_family := "gpt-4o"; mi_version := "1" |} |};
          sp_certification := Some (demo_certification status); sp_triggers := []; sp_sandbox := None; sp_output_shaping := None;
          sp_tools := {| ts_allow := []; ts_deny := []; ts_mcp_servers := []; ts_default_trust := TRUST_READ_ONLY |};
          sp_approvals := {| as_required_for := []; as_contact := None; as_auto_escalate_after := 300 |}; sp_guards := None;
          sp_fan_out := {| fo_on_completed := []; fo_on_failed := []; fo_on_escalation := []; fo_always_include := [] |};
          sp_health := {| he_probe_interval := 60; he_availability_target := f64_lit 99 100; he_quality_target := f64_lit 9 10;
                          he_error_budget_window := 86400; he_failure_rate_threshold := f64_lit 15 100 |};
          sp_observability := {| ob_contract := "standard"; ob_trace_sampling := f64_lit 1 1 |}; sp_io := None; sp_secrets := [];
          sp_time_windows := [] |} |}.

Definition demo_summary : EvalSummary :=
  {| ev_pass_rate := f64_lit 1 1; ev_critical_failures := 0; ev_p95_latency_ms := 10; ev_tasks_passed := 3; ev_tasks_failed := 0 |}.

Definition demo_attestation : Attestation :=
  {| at_attestation_id := "att-1"; at_workload_id := "triage"; at_manifest_version := 1; at_benchmark_version := "1.0.0";
     at_benchmark_run_id := "br-1"; at_corpus_id := "triage"; at_corpus_version := 1; at_model_identity := "openai/gpt-4o/1";
     at_status := CERTIFIED; at_target_context := TC_PRODUCTION; at_eval_summary := demo_summary; at_timestamp := 1;
     at_environment := {| en_sandbox_image := "img"; en_runtime_adapter := "raw-worker"; en_control_plane_version := "0" |};
     at_signer := {| sg_identity := "certifier"; sg_key_id := "k"; sg_signature := b64encode "sig" |};
     at_artifact_hash := None; at_binding := None; at_previous_attestation_id := None; at_profile := "full" |}.

Definition demo_verify (_ : unit) (_ payload : string) : bool :=
  bool_decide (payload = canonical_payload exact_repr demo_time demo_attestation).

Definition demo_clock (t : Z) : Z * Z := (t, (t + 1)%Z).

Definition demo_cfg : RegistryConfig (Key := unit) (Pub := unit) :=
  {| rc_attestation_public_key := Some tt; rc_bundle_signing_key := None; rc_bundle_key_id := "k"; rc_key_resolver := None |}.

Definition empty_registry : RegistryStore :=
  {| rg_workloads := []; rg_versions := []; rg_attestations := []; rg_attestation_tenants := []; rg_tools := []; rg_tool_tenants := [];
     rg_triggers := [] |}.

Definition demo_sign (_ : unit) (payload : string) : string := payload.

Definition demo_create ctx := create demo_hash exact_repr demo_time demo_sign demo_clock demo_cfg ctx.
Definition demo_update ctx := update demo_hash exact_repr demo_time demo_sign demo_clock demo_cfg ctx.
Definition demo_check ctx := check_admission demo_hash exact_repr demo_time demo_verify demo_clock demo_cfg ctx.
Definition demo_store ctx a : Reg (X := Z) Attestation := store_attestation ctx a.
Definition demo_promote ctx := promote demo_clock ctx.

(** The value a computation returns, or [d]. *)
Definition returned {W E A} (d : A) (o : outcome E A * W) : A := match o.1 with Ret a => a | Raise _ => d end.

(** A certified workload with its attestation, in the context's tenant. *)
Definition certified_store (ctx : TenantContext) : RegistryStore :=
  (demo_store ctx demo_attestation (demo_create ctx (demo_manifest "a" "v1" CERTIFIED) (empty_registry, 10%Z)).2).2.1.

Definition demo_record (ctx : TenantContext) : WorkloadRecord :=
  returned (mkRecord EmptyString (demo_manifest "a" "v1" CERTIFIED) 0 UNCERTIFIED EmptyString None RAW_WORKER 0 0 false None None 0 None 0 None EmptyString)
    (demo_create ctx (demo_manifest "a" "v1" CERTIFIED) (empty_registry, 10%Z)).

Lemma demo_time_inj : Inj (=) (=) demo_time.
Proof. intros a b H. by apply (inj pretty) in H. Qed.

Definition other_ctx : TenantContext := context_for_run "acme" None None.
Definition system_ctx : TenantContext := SYSTEM_CONTEXT.

(** The default tenant's workload is admitted, another tenant's is not. *)
Example demo_admitted :
  demo_check DEFAULT_CONTEXT "triage" PRODUCTION (certified_store DEFAULT_CONTEXT, 20%Z) =
    (Ret (decision "triage" PRODUCTION CERTIFIED CERTIFIED true), (certified_store DEFAULT_CONTEXT, 21%Z)) ∧
  demo_check other_ctx "triage" PRODUCTION (certified_store other_ctx, 20%Z) =
    (Ret (decision "triage" PRODUCTION CERTIFIED CERTIFIED false), (certified_store other_ctx, 21%Z)).
Proof. vm_compute. done. Qed.

(** ** Witnesses *)

Lemma demo_hash_apart (l k : list string) a b : a ∈ l → b ∈ k → demo_hash a = demo_hash b → a = b.
Proof. done. Qed.

(** Another owner and another status are the same artifact. *)
Lemma artifact_hash_behaviour_witness :
  behaviour (demo_manifest "a" "v1" CERTIFIED) = behaviour (demo_manifest "b" "v1" UNCERTIFIED) ∧ (None : option string) = None.
Proof.
  apply (artifact_hash_behaviour demo_hash exact_repr (demo_manifest "a" "v1" CERTIFIED) None (demo_manifest "b" "v1" UNCERTIFIED) None).
  - exact exact_repr_ok.
  - vm_compute. reflexivity.
  - vm_compute. reflexivity.
  - exact (demo_hash_apart _ _).
  - vm_compute. reflexivity.
Defined.

Lemma production_admission_sound_witness :
  ∃ r a a0 c e id, get_workload (certified_store DEFAULT_CONTEXT) DEFAULT_CONTEXT "triage" = Some r ∧
    wr_needs_re_certification r = false ∧ has_valid_bundle demo_hash exact_repr demo_time demo_verify demo_cfg r = true ∧
    (wr_certification_status r = CERTIFIED ∨ wr_certification_status r = PROVISIONAL ∧ at_target_context a = TC_PRODUCTION) ∧
    sp_certification (ma_spec (wr_manifest r)) = Some c ∧ ce_expires_at c = Some e ∧ (20 < e)%Z ∧
    ce_attestation_id c = Some id ∧ od_get id (rg_attestations (certified_store DEFAULT_CONTEXT)) = Some a ∧ at_workload_id a = wr_name r ∧
    a0 ∈ [demo_attestation] ∧ with_signature a EmptyString = with_signature a0 EmptyString.
Proof.
  apply (production_admission_sound demo_hash exact_repr demo_time demo_verify demo_clock demo_cfg [demo_attestation] DEFAULT_CONTEXT
    "triage" (certified_store DEFAULT_CONTEXT) 20%Z (decision "triage" PRODUCTION CERTIFIED CERTIFIED true) (certified_store DEFAULT_CONTEXT, 21%Z)).
  - exact exact_repr_ok.
  - exact demo_time_inj.
  - intros k sg p H. unfold demo_verify in H. apply bool_decide_eq_true in H as ->. left.
  - repeat constructor.
  - intros id a H. assert (rg_attestations (certified_store DEFAULT_CONTEXT) = [("att-1", demo_attestation)]) as E by (vm_compute; reflexivity).
    rewrite E in H. simpl in H. case_decide; [|done]. by injection H as <-.
  - vm_compute. reflexivity.
  - reflexivity.
Defined.

Lemma other_tenant_never_admitted_witness :
  ad_admitted (decision "triage" PRODUCTION CERTIFIED CERTIFIED false) = false.
Proof.
  apply (other_tenant_never_admitted demo_hash exact_repr demo_time demo_verify demo_clock demo_cfg other_ctx "triage" (certified_store other_ctx)
    20%Z _ (certified_store other_ctx, 21%Z) (demo_record other_ctx) (demo_certification CERTIFIED) "att-1" "acme").
  - vm_compute. reflexivity.
  - vm_compute. reflexivity.
  - vm_compute. reflexivity.
  - reflexivity.
  - vm_compute. reflexivity.
  - done.
Defined.

(** A quarantined workload, updated with its own manifest. *)
Definition quarantined : World (X := Z) := (quarantine demo_clock DEFAULT_CONTEXT "triage" (certified_store DEFAULT_CONTEXT, 20%Z)).2.
Definition lifted := demo_update DEFAULT_CONTEXT "triage" (demo_manifest "a" "v1" CERTIFIED) quarantined.

Lemma declared_status_wins_witness :
  (wr_certification_status <$> get_workload quarantined.1 DEFAULT_CONTEXT "triage" = Some QUARANTINED) ∧
  wr_certification_status (returned (demo_record DEFAULT_CONTEXT) lifted) = CERTIFIED.
Proof.
  split; [vm_compute; reflexivity|].
  eapply (declared_status_wins demo_hash exact_repr demo_time demo_sign demo_verify demo_clock demo_cfg DEFAULT_CONTEXT "triage"
    (demo_manifest "a" "v1" CERTIFIED) quarantined.1 quarantined.2 _ lifted.2
    (returned (demo_record DEFAULT_CONTEXT) (get DEFAULT_CONTEXT "triage" quarantined))); vm_compute; reflexivity.
Defined.

Lemma demo_history : history (certified_store DEFAULT_CONTEXT) "triage" 1%Z.
Proof.
  apply history_one with (v := {| wv_workload := "triage"; wv_version := 1; wv_manifest := demo_manifest "a" "v1" CERTIFIED; wv_status := V_ACTIVE;
              wv_created_at := 10; wv_re_certification_required := false; wv_changed_fields := [] |}); vm_compute; reflexivity.
Qed.

Definition demo_updated := demo_update DEFAULT_CONTEXT "triage" (demo_manifest "a" "v2" CERTIFIED) (certified_store DEFAULT_CONTEXT, 20%Z).

Lemma update_appends_history_witness :
  wr_current_version (returned (demo_record DEFAULT_CONTEXT) demo_updated) = 2%Z ∧ history demo_updated.2.1 "triage" 2%Z.
Proof.
  destruct (update_appends_history demo_hash exact_repr demo_time demo_sign demo_clock demo_cfg DEFAULT_CONTEXT "triage"
    (demo_manifest "a" "v2" CERTIFIED) (certified_store DEFAULT_CONTEXT) 20%Z (returned (demo_record DEFAULT_CONTEXT) demo_updated) demo_updated.2
    (demo_record DEFAULT_CONTEXT)) as (H1 & H2 & _).
  - vm_compute. reflexivity.
  - exact demo_history.
  - vm_compute. done.
  - vm_compute. reflexivity.
  - split; [exact H1|exact H2].
Defined.

(** The same changed agent, submitted twice. *)
Definition demo_updated_again :=
  demo_update DEFAULT_CONTEXT "triage" (demo_manifest "a" "v2" CERTIFIED) demo_updated.2.

Lemma changed_agent_readmitted_witness :
  (ad_admitted (returned (decision EmptyString PRODUCTION CERTIFIED CERTIFIED true)
     (demo_check DEFAULT_CONTEXT "triage" PRODUCTION demo_updated.2)) = false) ∧
  ∃ d w3, demo_check DEFAULT_CONTEXT "triage" PRODUCTION demo_updated_again.2 = (Ret d, w3) ∧ ad_admitted d = true.
Proof.
  split; [vm_compute; reflexivity|].
  eapply (changed_agent_readmitted demo_hash exact_repr demo_time demo_sign demo_verify demo_clock demo_cfg DEFAULT_CONTEXT "triage"
    (demo_manifest "a" "v2" CERTIFIED) (certified_store DEFAULT_CONTEXT) 20%Z (returned (demo_record DEFAULT_CONTEXT) demo_updated)
    demo_updated.2.1 demo_updated.2.2 (returned (demo_record DEFAULT_CONTEXT) demo_updated_again) demo_updated_again.2
    (demo_certification CERTIFIED) 1000%Z "att-1" demo_attestation); try (vm_compute; reflexivity). done.
Defined.

(** Two updates, then the first version promoted again: the third update is
    stored as version 2. *)
Definition demo_promoted := demo_promote DEFAULT_CONTEXT "triage" 1%Z demo_updated_again.2.
Definition demo_after_promotion := demo_update DEFAULT_CONTEXT "triage" (demo_manifest "a" "v4" CERTIFIED) demo_promoted.2.

Lemma promotion_rewrites_history_witness :
  wr_manifest (returned (demo_record DEFAULT_CONTEXT) demo_promoted) = demo_manifest "a" "v2" CERTIFIED ∧
  ∃ row, od_get 2%Z (workload_versions demo_after_promotion.2.1 "triage") = Some row ∧ wv_manifest row = demo_manifest "a" "v4" CERTIFIED.
Proof.
  destruct (promotion_rewrites_history demo_hash exact_repr demo_time demo_sign demo_clock demo_cfg DEFAULT_CONTEXT "triage" 1%Z
    (demo_manifest "a" "v4" CERTIFIED) demo_updated_again.2.1 demo_updated_again.2.2 (returned (demo_record DEFAULT_CONTEXT) demo_promoted)
    demo_promoted.2.1 demo_promoted.2.2 (returned (demo_record DEFAULT_CONTEXT) demo_after_promotion) demo_after_promotion.2
    (returned (demo_record DEFAULT_CONTEXT) demo_updated_again)) as (H1 & _ & _ & H2).
  - vm_compute. reflexivity.
  - vm_compute. reflexivity.
  - apply Forall_forall. vm_compute. by repeat constructor.
  - vm_compute. reflexivity.
  - vm_compute. reflexivity.
  - split; [rewrite H1; vm_compute; reflexivity|exact H2].
Defined.

(** ** What identifiers collide with *)

Definition cron_rule (schedule : string) : TriggerRule :=
  {| ru_type := TT_CRON; ru_url := None; ru_match := None; ru_source := None; ru_events := []; ru_schedule := Some schedule;
     ru_mode := None; ru_max_concurrent := None |}.

(** The workload of [demo_manifest] under another name, with triggers. *)
Definition named (name : string) (rules : list TriggerRule) : Manifest :=
  let m := demo_manifest "a" "v1" UNCERTIFIED in let s := ma_spec m in
  {| ma_metadata := {| md_name := name; md_owner := "a"; md_team := None; md_description := None; md_labels := ∅ |};
     ma_spec :=
       {| sp_runtime := sp_runtime s; sp_budget := sp_budget s; sp_model := sp_model s; sp_certification := sp_certification s;
          sp_triggers := rules; sp_sandbox := None; sp_output_shaping := None; sp_tools := sp_tools s; sp_approvals := sp_approvals s;
          sp_guards := None; sp_fan_out := sp_fan_out s; sp_health := sp_health s; sp_observability := sp_observability s; sp_io := None;
          sp_secrets := []; sp_time_windows := [] |} |}.

Definition two_triggers : World (X := Z) := (demo_create DEFAULT_CONTEXT (named "w" [cron_rule "a"; cron_rule "b"]) (empty_registry, 10%Z)).2.
Definition one_deleted : World (X := Z) := (delete_trigger DEFAULT_CONTEXT "w" "w-t1" two_triggers).2.
Definition one_added : World (X := Z) := (add_trigger demo_clock DEFAULT_CONTEXT "w" (cron_rule "c") one_deleted).2.

Definition schedules (w : World (X := Z)) : list (string * option string) :=
  (λ t, (tg_trigger_id t, ru_schedule (tg_rule t))) <$> store_list_triggers w.1 DEFAULT_CONTEXT "w".

(** A new trigger replaces the remaining one. *)
Example trigger_id_reused :
  schedules two_triggers = [("w-t1", Some "a"); ("w-t2", Some "b")] ∧ schedules one_deleted = [("w-t2", Some "b")] ∧
  schedules one_added = [("w-t2", Some "c")].
Proof. vm_compute. done. Qed.

(** Another tenant's workload, and an attestation of it under a used identifier. *)
Definition intruder : Attestation :=
  {| at_attestation_id := "att-1"; at_workload_id := "theirs"; at_manifest_version := 1; at_benchmark_version := "1.0.0";
     at_benchmark_run_id := "br-9"; at_corpus_id := "theirs"; at_corpus_version := 1; at_model_identity := "openai/gpt-4o/1";
     at_status := CERTIFIED; at_target_context := TC_PRODUCTION; at_eval_summary := demo_summary; at_timestamp := 2;
     at_environment := at_environment demo_attestation; at_signer := at_signer demo_attestation;
     at_artifact_hash := None; at_binding := None; at_previous_attestation_id := None; at_profile := "full" |}.

Definition intruded : World (X := Z) :=
  (demo_store other_ctx intruder (demo_create other_ctx (named "theirs" []) (certified_store DEFAULT_CONTEXT, 20%Z)).2).2.

(** The default tenant's attestation is gone. *)
Example attestation_replaced :
  store_get_attestation (certified_store DEFAULT_CONTEXT) DEFAULT_CONTEXT "att-1" = Some demo_attestation ∧
  store_get_attestation intruded.1 DEFAULT_CONTEXT "att-1" = None ∧
  ad_admitted (returned (decision EmptyString PRODUCTION CERTIFIED CERTIFIED true) (demo_check DEFAULT_CONTEXT "triage" PRODUCTION intruded)) = false.
Proof. vm_compute. done. Qed.
