(* ===== verification/Transparency.v ===== *)
(** * The transparency log ([transparency/models.py], [transparency/store.py]
    in memory, [transparency/log.py], [transparency/verify.py])

    The hash-chained log of attestations and its public verification.  SHA-256,
    the signature scheme and the JSON form of instants are parameters. *)

From stdpp Require Import base strings pretty numbers list.
From S2P Require Import Prelude Text Float64 CoreModels Canonical Base64 Binding Certification.

#[local] Open Scope hp_scope.

(** ** Records *)

Definition ZERO_HASH : string := zeros 64.

Record TransparencyEntry := mkEntry {
  tn_seq : Z; tn_attestation_id : string; tn_prev_hash : string; tn_entry_hash : string; tn_created_at : Z; tn_attestation : Attestation }.

Record ChainVerification := mkChain { cv_valid : bool; cv_length : Z; cv_tampered_at : option Z; cv_reason : option string }.

Record TransparencyProof := mkProof { tp_attestation_id : string; tp_entry : TransparencyEntry; tp_valid : bool; tp_chain_length : Z }.

Record PublicVerification := mkPublic {
  pv_attestation_id : string; pv_valid : bool; pv_signer_key_id : option string; pv_issued_at : option Z; pv_status : option string;
  pv_target_context : option string; pv_log_seq : option Z; pv_chain_valid : bool; pv_chain_length : Z; pv_reason : option string }.

Inductive LogExn := DuplicateLogEntryError (attestation_id : string).

(** ** The log over the in-memory store *)

Section Log.
Variables (sha256 : string → string) (float_repr : f64 → string) (dump_time : Z → string).
Context {X : Type}.
Variable clock : X → Z * X.

(** The store's entries, the cached verification, the clock's state. *)
Record LogState := mkLog { ls_entries : list TransparencyEntry; ls_cache : option ChainVerification; ls_clock : X }.

Definition LogM (A : Type) : Type := M LogState LogExn A.

Definition entry_material (prev_hash : string) (seq : Z) (a : Attestation) : string :=
  prev_hash +:+ pretty seq +:+ at_attestation_id a +:+ canonical_payload float_repr dump_time a.

Definition compute_entry_hash (prev_hash : string) (seq : Z) (a : Attestation) : string := sha256 (entry_material prev_hash seq a).

Definition get_entry (l : list TransparencyEntry) (id : string) : option TransparencyEntry :=
  find (λ e, bool_decide (tn_attestation_id e = id)) l.

(** [store.add_entry] replaces an entry of the same attestation. *)
Fixpoint add_entry (e : TransparencyEntry) (l : list TransparencyEntry) : list TransparencyEntry :=
  match l with
  | [] => [e]
  | x :: l' => if bool_decide (tn_attestation_id x = tn_attestation_id e) then e :: l' else x :: add_entry e l'
  end.

Definition delete_entry (id : string) (l : list TransparencyEntry) : list TransparencyEntry :=
  filter (λ e, tn_attestation_id e ≠ id) l.

(** What [append] links a new entry to. *)
Definition head_hash (l : list TransparencyEntry) : string := from_option tn_entry_hash ZERO_HASH (last l).
Definition next_seq (l : list TransparencyEntry) : Z := from_option (λ e, tn_seq e + 1)%Z 0%Z (last l).

Definition build_entry (l : list TransparencyEntry) (now : Z) (a : Attestation) : TransparencyEntry :=
  {| tn_seq := next_seq l; tn_attestation_id := at_attestation_id a; tn_prev_hash := head_hash l;
     tn_entry_hash := compute_entry_hash (head_hash l) (next_seq l) a; tn_created_at := now; tn_attestation := a |}.

(** [append] *)
Definition log_append (a : Attestation) : LogM TransparencyEntry := λ w,
  match get_entry (ls_entries w) (at_attestation_id a) with
  | Some _ => (Raise (DuplicateLogEntryError (at_attestation_id a)), w)
  | None =>
      let '(t, x) := clock (ls_clock w) in
      let e := build_entry (ls_entries w) t a in
      (Ret e, {| ls_entries := ls_entries w ++ [e]; ls_cache := None; ls_clock := x |})
  end.

(** The loop of [_compute_chain]: the first inconsistent entry. *)
Fixpoint check_entries (prev_hash : string) (index : Z) (l : list TransparencyEntry) : option (Z * string) :=
  match l with
  | [] => None
  | e :: l' =>
      if negb (bool_decide (tn_seq e = index)) then
        Some (index, "expected sequence " +:+ pretty index +:+ ", found " +:+ pretty (tn_seq e))
      else if negb (bool_decide (tn_prev_hash e = prev_hash)) then Some (index, "broken hash link to previous entry")
      else if negb (bool_decide (tn_attestation_id e = at_attestation_id (tn_attestation e))) then
        Some (index, "entry attestation id does not match its attestation")
      else if negb (bool_decide (tn_entry_hash e = compute_entry_hash (tn_prev_hash e) (tn_seq e) (tn_attestation e))) then
        Some (index, "entry hash does not match its contents")
      else check_entries (tn_entry_hash e) (index + 1) l'
  end.

Definition compute_chain (l : list TransparencyEntry) : ChainVerification :=
  match check_entries ZERO_HASH 0 l with
  | None => {| cv_valid := true; cv_length := Z.of_nat (length l); cv_tampered_at := None; cv_reason := None |}
  | Some (i, why) => {| cv_valid := false; cv_length := Z.of_nat (length l); cv_tampered_at := Some i; cv_reason := Some why |}
  end.

(** [verify_chain], with its cache. *)
Definition verify_chain : LogM ChainVerification := λ w,
  match ls_cache w with
  | Some v => (Ret v, w)
  | None =>
      let v := compute_chain (ls_entries w) in
      (Ret v, {| ls_entries := ls_entries w; ls_cache := Some v; ls_clock := ls_clock w |})
  end.

(** [prove] *)
Definition prove (id : string) : LogM (option TransparencyProof) :=
  let* w := Prelude.get in
  match get_entry (ls_entries w) id with
  | None => ret None
  | Some e =>
      let* v := verify_chain in
      ret (Some {| tp_attestation_id := id; tp_entry := e; tp_valid := cv_valid v; tp_chain_length := cv_length v |})
  end.

(** *** Public verification *)

Section Verify.
Context {Pub : Type}.
Variables (verify : Pub → string → string → bool) (get_attestation : string → option Attestation) (key_resolver : string → option Pub).

Definition public_verify (id : string) : LogM (option PublicVerification) :=
  match get_attestation id with
  | None => ret None
  | Some a =>
      let* w := Prelude.get in
      let entry := get_entry (ls_entries w) id in
      let* chain := verify_chain in
      let signature_valid :=
        match key_resolver (sg_key_id (at_signer a)) with
        | Some k => verify_attestation float_repr dump_time verify a k
        | None => false
        end in
      let present := match entry with Some _ => true | None => false end in
      ret (Some
        {| pv_attestation_id := id; pv_valid := signature_valid && present && cv_valid chain;
           pv_signer_key_id := Some (sg_key_id (at_signer a)); pv_issued_at := Some (at_timestamp a);
           pv_status := Some (status_value (at_status a)); pv_target_context := Some (target_value (at_target_context a));
           pv_log_seq := tn_seq <$> entry; pv_chain_valid := cv_valid chain; pv_chain_length := cv_length chain;
           pv_reason := if negb signature_valid then Some "attestation signature could not be verified"
                        else if negb present then Some "attestation is not present in the transparency log"
                        else if negb (cv_valid chain) then Some "transparency log chain verification failed" else None |})
  end.
End Verify.

(** ** Appending keeps the chain valid *)

Definition chain_from (prev_hash : string) (index : Z) (l : list TransparencyEntry) : Prop := check_entries prev_hash index l = None.

Lemma chain_cons prev i e l :
  chain_from prev i (e :: l) ↔
    tn_seq e = i ∧ tn_prev_hash e = prev ∧ tn_attestation_id e = at_attestation_id (tn_attestation e) ∧
    tn_entry_hash e = compute_entry_hash prev i (tn_attestation e) ∧ chain_from (tn_entry_hash e) (i + 1) l.
Proof.
  unfold chain_from. cbn [check_entries]. case_bool_decide as H1; simpl; [|naive_solver].
  case_bool_decide as H2; simpl; [|naive_solver]. case_bool_decide as H3; simpl; [|naive_solver].
  rewrite H1, H2. case_bool_decide as H4; simpl; naive_solver.
Qed.

Definition last_hash (prev_hash : string) (l : list TransparencyEntry) : string := from_option tn_entry_hash prev_hash (last l).

Lemma last_hash_cons prev e l : last_hash prev (e :: l) = last_hash (tn_entry_hash e) l.
Proof. unfold last_hash. rewrite last_cons. by destruct (last l). Qed.

Lemma chain_app prev i l k :
  chain_from prev i (l ++ k) ↔ chain_from prev i l ∧ chain_from (last_hash prev l) (i + Z.of_nat (length l)) k.
Proof.
  revert prev i. induction l as [|e l IH]; intros prev i; simpl.
  - rewrite Z.add_0_r. unfold chain_from at 2. simpl. naive_solver.
  - rewrite !chain_cons, last_hash_cons, IH. replace (i + Z.of_nat (S (length l)))%Z with (i + 1 + Z.of_nat (length l))%Z by lia. naive_solver.
Qed.

Lemma chain_last_seq prev i l e : chain_from prev i l → last l = Some e → tn_seq e = (i + Z.of_nat (length l) - 1)%Z.
Proof.
  intros H He. apply last_Some in He as [l' ->]. apply chain_app in H as [_ H]. apply chain_cons in H as [-> _].
  rewrite length_app. simpl. lia.
Qed.

(** The log's invariant: a valid chain, and a cache that agrees with it. *)
Definition log_ok (w : LogState) : Prop :=
  chain_from ZERO_HASH 0 (ls_entries w) ∧ (∀ v, ls_cache w = Some v → v = compute_chain (ls_entries w)).

(** Appending keeps the log valid: the chain verifies after any append, and
    a cached verification is never older than the last entry. *)
Theorem append_keeps_chain a w : log_ok w → log_ok (log_append a w).2 ∧ log_ok (verify_chain w).2 ∧
  (verify_chain w).1 = Ret (compute_chain (ls_entries w)).
Proof.
  intros [Hc Hk]. split_and!.
  - unfold log_append. destruct (get_entry _ _); [by split|]. destruct (clock (ls_clock w)) as [t x]. split; [|done]. simpl.
    apply chain_app. split; [done|]. apply chain_cons. unfold chain_from. simpl.
    assert (next_seq (ls_entries w) = Z.of_nat (length (ls_entries w))) as E.
    { unfold next_seq. destruct (last (ls_entries w)) as [e|] eqn:El; simpl; [rewrite (chain_last_seq _ _ _ _ Hc El); lia|].
      apply last_None in El. by rewrite El. }
    by rewrite E.
  - unfold verify_chain. destruct (ls_cache w) as [v|] eqn:E; [split; [done|simpl; rewrite E; exact Hk]|]. split; [done|]. by intros v [= <-].
  - unfold verify_chain. destruct (ls_cache w) as [v|] eqn:E; [|done]. by rewrite (Hk v eq_refl).
Qed.

(** ** What the chain protects, and what it does not *)

(** Any prefix of a valid chain is valid: entries removed at the end go
    unnoticed. *)
Lemma chain_prefix l k : chain_from ZERO_HASH 0 (l ++ k) → chain_from ZERO_HASH 0 l.
Proof. by intros [? _]%chain_app. Qed.

(** The signature of a logged attestation is not covered by the chain. *)
Definition resign (s : string) (e : TransparencyEntry) : TransparencyEntry :=
  {| tn_seq := tn_seq e; tn_attestation_id := tn_attestation_id e; tn_prev_hash := tn_prev_hash e; tn_entry_hash := tn_entry_hash e;
     tn_created_at := tn_created_at e; tn_attestation := with_signature (tn_attestation e) s |}.

Lemma chain_resign s prev i l : chain_from prev i (resign s <$> l) ↔ chain_from prev i l.
Proof. revert prev i. induction l as [|e l IH]; intros prev i; [done|]. simpl. rewrite !chain_cons. simpl. by rewrite IH. Qed.

(** The chain does not show every edit: removing entries from its end, or
    replacing the signatures of the logged attestations, leaves a valid log. *)
Theorem undetected_log_edits l k s :
  cv_valid (compute_chain (l ++ k)) = true → cv_valid (compute_chain l) = true ∧ cv_valid (compute_chain (resign s <$> l)) = true.
Proof.
  unfold compute_chain. intros H. assert (chain_from ZERO_HASH 0 (l ++ k)) as Hc.
  { unfold chain_from. destruct (check_entries _ _ _) as [[? ?]|]; done. }
  apply chain_prefix in Hc. pose proof (proj2 (chain_resign s _ _ _) Hc) as Hs. unfold chain_from in *. by rewrite Hc, Hs.
Qed.

(** *** Tamper evidence *)

Lemma string_app_length_inj a a' b b' : String.length a = String.length a' → a +:+ b = a' +:+ b' → a = a' ∧ b = b'.
Proof.
  revert a'. induction a as [|c a IH]; intros [|c' a'] H E; [done|done|done|]. injection H as H. injection E as -> E.
  by apply IH in E as [-> ->].
Qed.

Definition materials (l : list TransparencyEntry) : list string :=
  (λ e, entry_material (tn_prev_hash e) (tn_seq e) (tn_attestation e)) <$> l.

Definition same_content (e e' : TransparencyEntry) : Prop :=
  with_signature (tn_attestation e) EmptyString = with_signature (tn_attestation e') EmptyString.

Lemma chain_unique (width : nat) l : ∀ l' prev prev' i,
  (∀ s, String.length (sha256 s) = 64%nat) → float_text float_repr → Inj (=) (=) dump_time →
  (∀ a b, a ∈ materials l → b ∈ materials l' → sha256 a = sha256 b → a = b) →
  Forall (λ e, attestation_wf (tn_attestation e) = true ∧ String.length (tn_attestation_id e) = width) (l ++ l') →
  String.length prev = 64%nat → String.length prev' = 64%nat → length l = length l' →
  chain_from prev i l → chain_from prev' i l' → last_hash prev l = last_hash prev' l' → prev = prev' ∧ Forall2 same_content l l'.
Proof.
  induction l as [|e l IH]; intros [|e' l'] prev prev' i Hlen Hf Ht Hc Hwf Hp Hp' Hl H H' E; [by split|done|done|]. injection Hl as Hl.
  apply chain_cons in H as (Hs & Hpe & Hid & Heh & H), H' as (Hs' & Hpe' & Hid' & Heh' & H').
  rewrite !last_hash_cons in E. apply Forall_cons in Hwf as [[Hw Hi] Hwf]. rewrite Forall_app in Hwf.
  destruct Hwf as [Hwl Hwf]. apply Forall_cons in Hwf as [[Hw' Hi'] Hwf].
  destruct (IH l' (tn_entry_hash e) (tn_entry_hash e') (i + 1)%Z) as [Ee Hrest]; try done.
  - intros a b Ha Hb. apply Hc; by right.
  - by apply Forall_app.
  - by rewrite Heh; apply Hlen.
  - by rewrite Heh'; apply Hlen.
  - rewrite Heh, Heh' in Ee. apply Hc in Ee; [|unfold materials; simpl; rewrite Hpe, Hs; left|unfold materials; simpl; rewrite Hpe', Hs'; left].
    unfold entry_material in Ee. apply string_app_length_inj in Ee as [-> Ee]; [|congruence]. split; [done|].
    apply string_app_inj in Ee. rewrite <-Hid, <-Hid' in Ee. apply string_app_length_inj in Ee as [_ Ee]; [|congruence].
    constructor; [|done]. by apply (payload_inj float_repr dump_time).
Qed.

(** The head of a valid log determines it: two valid logs of equal length
    whose last entries carry the same hash hold the same attestations, up to
    signatures, as far as SHA-256 tells the hashed texts apart (identifiers
    have one width). *)
Theorem log_head_determines_log (width : nat) l l' :
  (∀ s, String.length (sha256 s) = 64%nat) → float_text float_repr → Inj (=) (=) dump_time →
  (∀ a b, a ∈ materials l → b ∈ materials l' → sha256 a = sha256 b → a = b) →
  Forall (λ e, attestation_wf (tn_attestation e) = true ∧ String.length (tn_attestation_id e) = width) (l ++ l') →
  length l = length l' → cv_valid (compute_chain l) = true → cv_valid (compute_chain l') = true → head_hash l = head_hash l' →
  Forall2 same_content l l'.
Proof.
  intros Hlen Hf Ht Hc Hwf Hl Hv Hv' E.
  assert (∀ k, cv_valid (compute_chain k) = true → chain_from ZERO_HASH 0 k) as Hchain.
  { intros k. unfold compute_chain, chain_from. by destruct (check_entries _ _ _) as [[? ?]|]. }
  by destruct (chain_unique width l l' ZERO_HASH ZERO_HASH 0%Z Hlen Hf Ht Hc Hwf eq_refl eq_refl Hl (Hchain l Hv) (Hchain l' Hv') E).
Qed.
End Log.

(** ** Concrete logs *)

Definition demo_log_attestation (id signature : string) : Attestation :=
  {| at_attestation_id := id; at_workload_id := "triage"; at_manifest_version := 1; at_benchmark_version := "1.0.0";
     at_benchmark_run_id := "br-1"; at_corpus_id := "triage"; at_corpus_version := 1; at_model_identity := "openai/gpt-4o/1";
     at_status := CERTIFIED; at_target_context := TC_PRODUCTION;
     at_eval_summary := {| ev_pass_rate := f64_lit 1 1; ev_critical_failures := 0; ev_p95_latency_ms := 10; ev_tasks_passed := 3; ev_tasks_failed := 0 |};
     at_timestamp := 1;
     at_environment := {| en_sandbox_image := "img"; en_runtime_adapter := "raw-worker"; en_control_plane_version := "0" |};
     at_signer := {| sg_identity := "certifier"; sg_key_id := "k"; sg_signature := signature |};
     at_artifact_hash := None; at_binding := None; at_previous_attestation_id := None; at_profile := "full" |}.

(** A hash of one value: it tells the texts of logs of one entry apart. *)
Definition demo_log_hash (_ : string) : string := zeros 64.
Definition demo_log_time (t : Z) : string := pretty t.

Definition demo_log (signature : string) : LogState (X := Z) :=
  (log_append demo_log_hash exact_repr demo_log_time (λ t, (t, t)) (demo_log_attestation "att-1" signature)
     {| ls_entries := []; ls_cache := None; ls_clock := 7%Z |}).2.

Lemma append_keeps_chain_witness :
  log_ok demo_log_hash exact_repr demo_log_time (demo_log "s").
Proof.
  refine (proj1 (append_keeps_chain demo_log_hash exact_repr demo_log_time (λ t, (t, t)) (demo_log_attestation "att-1" "s")
    {| ls_entries := []; ls_cache := None; ls_clock := 7%Z |} _)).
  split; [reflexivity|done].
Defined.

Lemma undetected_log_edits_witness :
  cv_valid (compute_chain demo_log_hash exact_repr demo_log_time []) = true ∧
  cv_valid (compute_chain demo_log_hash exact_repr demo_log_time (resign "forged" <$> [])) = true.
Proof. apply (undetected_log_edits demo_log_hash exact_repr demo_log_time [] (ls_entries (demo_log "s")) "forged"). vm_compute. reflexivity. Defined.

Lemma log_head_determines_log_witness : Forall2 same_content (ls_entries (demo_log "s")) (ls_entries (demo_log "t")).
Proof.
  apply (log_head_determines_log demo_log_hash exact_repr demo_log_time 5).
  - intros s. reflexivity.
  - exact exact_repr_ok.
  - intros a b H. by apply (inj pretty) in H.
  - intros a b Ha Hb _. assert (materials exact_repr demo_log_time (ls_entries (demo_log "s")) = materials exact_repr demo_log_time (ls_entries (demo_log "t")))
      as E by (vm_compute; reflexivity).
    rewrite E in Ha. clear E. unfold materials, demo_log, log_append in Ha, Hb. simpl in Ha, Hb.
    apply list_elem_of_singleton in Ha, Hb. congruence.
  - vm_compute. by repeat constructor.
  - reflexivity.
  - vm_compute. reflexivity.
  - vm_compute. reflexivity.
  - reflexivity.
Defined.
