(* ===== verification/Promotion.v ===== *)
(** * Certifying and promoting workloads ([certification/service.py],
    [certification/promotion.py], [certification/promotion_store.py] and
    [certification/store.py] in memory, [certification/workflow.py])

    The certification service and the promotion gate over the registry.  The
    benchmark's executor, the corpus loader, identifiers, the transparency log,
    the audit log and the promotion callback are parameters; telemetry and
    metrics are left out. *)

From stdpp Require Import base strings pretty numbers gmap sorting list.
From S2P Require Import Prelude Text Float64 Tenancy CoreModels Canonical Base64 Manifest Binding Certification Registry.

#[local] Open Scope hp_scope.

(** ** Records *)

Record RegressionReport := mkReport {
  rr_workload_id : string; rr_before_attestation_id : string; rr_after_attestation_id : string; rr_severity : Severity;
  rr_blocked : bool; rr_critical_regressions : list string; (* of the machine report *)
  rr_human_report : string; rr_generated_at : Z }.

Record CertificationRecord := mkCertRecord {
  cr_record_id : string; cr_certification : Certification; cr_attestation : Attestation; cr_benchmark_result : BenchmarkResult;
  cr_regression_report : option RegressionReport }.

(** [build_regression_report]; the diff's summary is never empty. *)
Definition build_regression_report (d : RegressionDiff) (generated_at : Z) : RegressionReport :=
  {| rr_workload_id := rd_workload_id d; rr_before_attestation_id := rd_before_attestation_id d;
     rr_after_attestation_id := rd_after_attestation_id d; rr_severity := rd_severity d; rr_blocked := rd_blocked d;
     rr_critical_regressions := rd_critical_regressions d; rr_human_report := rd_summary d; rr_generated_at := generated_at |}.

Record PromotionRecord := mkPromotion {
  pr_promotion_id : string; pr_tenant_id : string; pr_workload : string; pr_manifest_version : Z; pr_artifact_hash : option string;
  pr_from_context : TargetContext; pr_to_context : TargetContext; pr_certification_id : option string; pr_status : string;
  pr_refusal_reason : option string; pr_changed_bindings : list string; pr_operator : string; pr_timestamp : Z }.

(** ** Stores *)

(** [InMemoryPromotionStore]: a record and the tenant it was saved under. *)
Definition PromotionStore : Type := odict string (PromotionRecord * string).

Definition save_record (ctx : TenantContext) (r : PromotionRecord) (s : PromotionStore) : option PromotionStore :=
  if scopes ctx (pr_tenant_id r) then Some (od_set (pr_promotion_id r) (r, pr_tenant_id r) s) else None.

Definition get_record (ctx : TenantContext) (id : string) (s : PromotionStore) : option PromotionRecord :=
  match od_get id s with Some (r, t) => if scopes ctx t then Some r else None | None => None end.

Definition promotion_leb (a b : PromotionRecord) : bool :=
  if (pr_timestamp a <? pr_timestamp b)%Z then true
  else if (pr_timestamp b <? pr_timestamp a)%Z then false else str_leb (pr_promotion_id a) (pr_promotion_id b).

Definition list_records (ctx : TenantContext) (s : PromotionStore) : list PromotionRecord :=
  py_sort promotion_leb (fst <$> filter (λ e, scopes ctx e.2 = true) (od_values s)).

(** [InMemoryCertificationStore]. *)
Record CertificationStore := mkCertStore { cs_records : odict string CertificationRecord; cs_tenants : odict string string }.

(** [None] is [TenantScopeError]. *)
Definition certification_add (ctx : TenantContext) (r : CertificationRecord) (s : CertificationStore) : option CertificationStore :=
  let foreign := match od_get (cr_record_id r) (cs_tenants s) with
                 | Some owner => negb (bool_decide (owner = tc_tenant_id ctx)) && negb (tc_is_system ctx)
                 | None => false
                 end in
  if foreign then None
  else Some {| cs_records := od_set (cr_record_id r) r (cs_records s);
               cs_tenants := od_set (cr_record_id r) (tc_tenant_id ctx) (cs_tenants s) |}.

Definition certification_get (ctx : TenantContext) (id : string) (s : CertificationStore) : option CertificationRecord :=
  match od_get id (cs_records s), od_get id (cs_tenants s) with
  | Some r, Some t => if scopes ctx t then Some r else None
  | _, _ => None
  end.

Definition certification_list (ctx : TenantContext) (workload : option string) (status : option CertificationStatus)
    (limit : option Z) (offset : Z) (s : CertificationStore) : list CertificationRecord :=
  let records :=
    snd <$> filter (λ e,
      scopes ctx (default EmptyString (od_get e.1 (cs_tenants s)))
      && from_option (λ w, bool_decide (cf_workload_id (cr_certification e.2) = w)) true workload
      && from_option (λ x, bool_decide (cf_status (cr_certification e.2) = x)) true status = true) (cs_records s) in
  let records := py_sort (λ a b, cf_timestamp (cr_certification a) <=? cf_timestamp (cr_certification b))%Z records in
  let records := drop (slice_bound offset (length records)) records in
  match limit with Some n => take (slice_bound n (length records)) records | None => records end.

(** ** The certification service *)

Section Service.
Variables (sha256 : string → string) (float_repr : f64 → string) (dump_time : Z → string) (fmt_cost : f64 → string).
Context {Key Pub X : Type}.
Variables (sign : Key → string → string) (verify : Pub → string → string → bool) (clock : X → Z * X).
Variable cfg : RegistryConfig (Key := Key) (Pub := Pub).

(** The state beside the registry's: what the service's callbacks change. *)
Notation R := (Reg (X := X)).

Record ServiceConfig := mkService {
  sv_policy : CertificationPolicy; (* the engine's *)
  sv_engine_now : R Z; (* the engine's clock *)
  sv_private_key : Key; sv_environment : Environment; sv_identity : string; sv_key_id : string; sv_benchmark_version : string;
  sv_new_id : R string;
  sv_policy_version : option (string → option string);
  sv_log_append : option (Attestation → R unit) }.

Variable sv : ServiceConfig.

(** [_event_for] *)
Definition event_for (current resolved : CertificationStatus) : option CertificationEvent :=
  match current, resolved with
  | QUARANTINED, PROVISIONAL => Some RECOVER
  | _, PROVISIONAL => Some STAGING_PASS
  | _, CERTIFIED => Some PRODUCTION_PASS
  | _, QUARANTINED => Some RECERT_FAIL
  | _, UNCERTIFIED => None
  end.

Definition UNSIGNED : string := "unsigned".

(** The attestation before it is signed. *)
Definition draft_attestation (id : string) (r : BenchmarkResult) (c : Certification) (target : TargetContext)
    (binding : ArtifactBinding) (previous : option string) (profile : string) : Attestation :=
  {| at_attestation_id := id; at_workload_id := br_workload_id r; at_manifest_version := br_manifest_version r;
     at_benchmark_version := sv_benchmark_version sv; at_benchmark_run_id := br_benchmark_run_id r; at_corpus_id := br_corpus_id r;
     at_corpus_version := br_corpus_version r; at_model_identity := br_model_identity r; at_status := cf_status c;
     at_target_context := target; at_eval_summary := default (to_eval_summary r) (cf_eval_summary c); at_timestamp := cf_timestamp c;
     at_environment := sv_environment sv;
     at_signer := {| sg_identity := sv_identity sv; sg_key_id := sv_key_id sv; sg_signature := UNSIGNED |};
     at_artifact_hash := Some (ab_artifact_hash binding); at_binding := Some binding; at_previous_attestation_id := previous;
     at_profile := profile |}.

(** Seconds in microseconds. *)
Definition seconds (n : Z) : Z := (n * 1000000)%Z.

(** [certify_with_result] *)
Definition certify_with_result (ctx : TenantContext) (result : BenchmarkResult) (target : TargetContext)
    (previous : option string) (profile : string) : R CertificationRecord :=
  let* record := get ctx (br_workload_id result) in
  let* policy :=
    match sp_certification (ma_spec (wr_manifest record)) with
    | Some spec => let* p := of_option (RegistryValueError "certification policy") (workload_policy spec (sv_policy sv)) in ret (Some p)
    | None => ret None
    end in
  let* now := sv_engine_now sv in
  let certification :=
    evaluate_result sha256 (sv_policy sv) now result (wr_certification_status record) target (wr_production_runs_survived record) policy in
  let policy_version := match sv_policy_version sv with Some f => f (br_workload_id result) | None => None end in
  let binding := compute_binding sha256 float_repr (wr_manifest record) policy_version in
  let* id := sv_new_id sv in
  let attestation :=
    sign_attestation float_repr dump_time sign (draft_attestation id result certification target binding previous profile) (sv_private_key sv) in
  let* stored := store_attestation ctx attestation in
  match sv_log_append sv with Some append => append stored | None => ret tt end ;;;
  let expiry :=
    let expires_at := (at_timestamp stored + seconds (cp_re_cert_interval (default (sv_policy sv) policy)))%Z in
    if dt_in_range expires_at then ret expires_at else raise RegistryOverflowError in
  (if negb (bool_decide (cf_status certification = wr_certification_status record)) then
     match event_for (wr_certification_status record) (cf_status certification) with
     | Some event => let* expires_at := expiry in apply_attestation clock ctx stored (Some event) None (Some expires_at) ;;; ret tt
     | None => ret tt
     end
   else if bool_decide (target = TC_PRODUCTION) && bool_decide (cf_status certification = PROVISIONAL) then
     let* expires_at := expiry in apply_attestation clock ctx stored None (Some (cf_status certification)) (Some expires_at) ;;; ret tt
   else ret tt) ;;;
  ret {| cr_record_id := at_attestation_id stored; cr_certification := certification; cr_attestation := stored;
         cr_benchmark_result := result; cr_regression_report := None |}.

(** ** The coordinator *)

Record CoordinatorConfig := mkCoordinator {
  co_load_corpus : string → R BenchmarkCorpus; (* resolving and reading the file, integrator included *)
  co_execute : option string → BenchmarkTask → R TaskExecution; (* the executor for the pinned identity *)
  co_now : R Z; co_benchmark_version : string; co_environment : Environment }.

Variable co : CoordinatorConfig.
Variables (value_repr : JsonValue → string) (names_repr : list string → string).

(** [_pinned_identity] *)
Definition pinned_identity (m : Manifest) (override : option string) : option string :=
  match override with
  | Some o => Some o
  | None => canonical_model_identity <$> mo_identity (sp_model (ma_spec m))
  end.

(** A runner's computation over the registry's state; its errors are values of
    the registry's. *)
Definition run_benchmark (pinned : option string) (corpus : BenchmarkCorpus) (workload : string) (version : Z) : R BenchmarkResult :=
  let* started := co_now co in
  let* results :=
    (fix go (tasks : list BenchmarkTask) : R (list BenchmarkTaskResult) :=
       match tasks with
       | [] => ret []
       | t :: tasks =>
           let* x := co_execute co pinned t in
           match run_task value_repr names_repr (default "unspecified" pinned) t x with
           | Ret r => let* rs := go tasks in ret (r :: rs)
           | Raise _ => raise (RegistryValueError "unsupported check")
           end
       end) (co_tasks corpus) in
  let* finished := co_now co in
  let model := default "unspecified" pinned in
  ret {| br_benchmark_run_id := benchmark_run_id sha256 workload version corpus model (co_benchmark_version co);
         br_workload_id := workload; br_manifest_version := version; br_corpus_id := co_id corpus; br_corpus_version := co_version corpus;
         br_model_identity := model; br_environment := co_environment co; br_started_at := started; br_finished_at := finished;
         br_tasks := results; br_aggregate := aggregate results |}.

(** [_execute] *)
Definition execute_corpus (record : WorkloadRecord) (workload : string) (corpus_ref model_identity : option string) (profile : Profile)
    : R (BenchmarkResult * BenchmarkCorpus) :=
  let reference := if truthy corpus_ref then corpus_ref else corpus_of (wr_manifest record) in
  match reference with
  | None | Some EmptyString => raise (RegistryValueError "no benchmark_corpus configured")
  | Some reference =>
      let* corpus := co_load_corpus co reference in
      let* corpus := of_option (RegistryValueError "empty profile") (select_profile corpus profile) in
      let* result := run_benchmark (pinned_identity (wr_manifest record) model_identity) corpus workload (wr_current_version record) in
      ret (result, corpus)
  end.

Definition record_leb (a b : CertificationRecord) : bool :=
  let ta := at_timestamp (cr_attestation a) in let tb := at_timestamp (cr_attestation b) in
  if (ta <? tb)%Z then true else if (tb <? ta)%Z then false else str_leb (cr_record_id a) (cr_record_id b).

(** [_baseline_record] *)
Definition baseline_record (ctx : TenantContext) (workload exclude_id : string) (s : CertificationStore) : option CertificationRecord :=
  let records := filter (λ r, cr_record_id r ≠ exclude_id) (certification_list ctx (Some workload) None None 0 s) in
  let certified := filter (λ r, cf_status (cr_certification r) = CERTIFIED) records in
  last (py_sort record_leb (match certified with [] => records | _ => certified end)).

Definition with_report (r : CertificationRecord) (report : RegressionReport) : CertificationRecord :=
  {| cr_record_id := cr_record_id r; cr_certification := cr_certification r; cr_attestation := cr_attestation r;
     cr_benchmark_result := cr_benchmark_result r; cr_regression_report := Some report |}.

(** [{task.id: task for task in corpus.tasks}] *)
Definition corpus_catalog (c : BenchmarkCorpus) : odict string BenchmarkTask := foldl (λ d t, od_set (bt_id t) t d) [] (co_tasks c).

Definition profile_value (p : Profile) : string := match p with FAST => "fast" | FULL => "full" end.

(** [certify] of the coordinator over its record store: the record with its
    report, and the store that holds it. *)
Definition certify (ctx : TenantContext) (store : CertificationStore) (workload : string) (target : TargetContext)
    (corpus_ref model_identity : option string) (profile : Profile) : R (CertificationRecord * CertificationStore) :=
  if negb (profile_allowed profile target) then raise (RegistryValueError "profile not allowed")
  else
    let* record := get ctx workload in
    let* executed := execute_corpus record workload corpus_ref model_identity profile in
    let result := executed.1 in
    let* previous := list_attestations float_repr dump_time verify cfg ctx workload in
    let* c := certify_with_result ctx result target (at_attestation_id <$> last previous) (profile_value profile) in
    let* c :=
      match baseline_record ctx workload (cr_record_id c) store with
      | None => ret c
      | Some baseline =>
          let id := at_attestation_id (cr_attestation baseline) in
          let diff := regression_diff fmt_cost (cr_benchmark_result baseline) result id (at_attestation_id (cr_attestation c))
                        (Some (corpus_catalog executed.2)) (Some id) in
          let* t := co_now co in
          ret (with_report c (build_regression_report diff t))
      end in
    let* store := of_option RegistryScopeError (certification_add ctx c store) in
    ret (c, store).

(** [benchmark]: the corpus without certifying. *)
Definition benchmark (ctx : TenantContext) (workload : string) (corpus_ref model_identity : option string) : R BenchmarkResult :=
  let* record := get ctx workload in
  let* executed := execute_corpus record workload corpus_ref model_identity FULL in
  ret executed.1.

(** ** The promotion gate *)

(** The registry's world and the promotion records. *)
Definition GateWorld : Type := (World (X := X) * PromotionStore)%type.
Definition Gate (A : Type) : Type := M GateWorld RegistryExn A.

(** A registry call from the gate. *)
Definition in_registry {A} (m : R A) : Gate A := λ w, let '(o, r) := m w.1 in (o, (r, w.2)).

Record GateConfig := mkGate {
  ga_new_id : R string; ga_now : R Z; ga_policy_version : option (string → option string);
  ga_audit : option (string → string → string → string → TenantContext → R unit);
  ga_on_promoted : option (string → Z → R unit);
  ga_keeps_records : bool (* a promotion store is configured *) }.

Variable ga : GateConfig.

Definition opt_default (d : string) (o : option string) : string :=
  match o with Some EmptyString | None => d | Some s => s end.

(** [_record] *)
Definition record_promotion (ctx : TenantContext) (p : PromotionRecord) (action : string) : Gate PromotionRecord :=
  (if ga_keeps_records ga then
     λ w, match save_record ctx p w.2 with Some s => (Ret tt, (w.1, s)) | None => (Raise RegistryScopeError, w) end
   else ret tt) ;;;
  match ga_audit ga with
  | Some append =>
      in_registry (append (pr_operator p) action (pr_workload p)
        (action +:+ " workload=" +:+ pr_workload p +:+ " version=" +:+ pretty (pr_manifest_version p) +:+ " hash="
         +:+ default "None" (pr_artifact_hash p) +:+ " reason=" +:+ opt_default "ok" (pr_refusal_reason p)) ctx)
  | None => ret tt
  end ;;;
  ret p.

(** [_refuse] *)
Definition refuse (ctx : TenantContext) (workload : string) (version : Z) (hash : option string) (target : TargetContext)
    (reason : string) (changed : list string) (operator : string) : Gate PromotionRecord :=
  let* id := in_registry (ga_new_id ga) in
  let* t := in_registry (ga_now ga) in
  ret {| pr_promotion_id := id; pr_tenant_id := tc_tenant_id ctx; pr_workload := workload; pr_manifest_version := version;
         pr_artifact_hash := hash; pr_from_context := TC_STAGING; pr_to_context := target; pr_certification_id := None;
         pr_status := "refused"; pr_refusal_reason := Some reason; pr_changed_bindings := changed; pr_operator := operator; pr_timestamp := t |}.

(** [_latest_binding] *)
Definition latest_binding (l : list Attestation) : option ArtifactBinding := last (omap at_binding l).

Definition listed_attestations (ctx : TenantContext) (name : string) : R (list Attestation) :=
  list_attestations float_repr dump_time verify cfg ctx name.

(** [_find_valid_attestation] *)
Definition find_valid_attestation (ctx : TenantContext) (workload : string) (version : Z) (hash : string) (target : TargetContext)
    (status : CertificationStatus) : R (option Attestation * string) :=
  let* record := get ctx workload in
  if negb (bool_decide (version = wr_current_version record)) then
    ret (None, "manifest version " +:+ pretty version +:+ " is not the current version " +:+ pretty (wr_current_version record)
               +:+ "; publish it before promoting")
  else if bool_decide (status = QUARANTINED) then ret (None, "workload is quarantined")
  else if negb (bool_decide (status = CERTIFIED)) then ret (None, "workload is " +:+ status_value status +:+ ", not certified")
  else if wr_needs_re_certification record then ret (None, "workload requires re-certification")
  else
    let* d := check_admission sha256 float_repr dump_time verify clock cfg ctx workload PRODUCTION in
    if negb (ad_admitted d) then ret (None, opt_default "production admission refused" (ad_reason d))
    else
      let* l := listed_attestations ctx workload in
      match last (filter (λ a, at_status a = CERTIFIED ∧ at_target_context a = target ∧ at_artifact_hash a = Some hash) l) with
      | Some a => ret (Some a, "admitted")
      | None => ret (None, "no valid " +:+ target_value target +:+ " certification for the current artifact")
      end.

(** [promote] of the gate *)
Definition gate_promote (ctx : TenantContext) (workload : string) (version : Z) (target : TargetContext) (operator : string)
    (reason_note : option string) : Gate PromotionRecord :=
  let* record := in_registry (get ctx workload) in
  let* row := in_registry (service_get_version ctx workload version) in
  let policy_version := match ga_policy_version ga with Some f => f workload | None => None end in
  let binding := compute_binding sha256 float_repr (wv_manifest row) policy_version in
  let* attestations := in_registry (listed_attestations ctx workload) in
  let* found := in_registry (find_valid_attestation ctx workload version (ab_artifact_hash binding) target (wr_certification_status record)) in
  match found.1 with
  | None =>
      let reason := if truthy reason_note then found.2 +:+ "; " +:+ default EmptyString reason_note else found.2 in
      let* refusal := refuse ctx workload version (Some (ab_artifact_hash binding)) target reason
                        (changed_bindings (latest_binding attestations) binding) operator in
      record_promotion ctx refusal "promotion.refused"
  | Some a =>
      let* id := in_registry (ga_new_id ga) in
      let* t := in_registry (ga_now ga) in
      let p := {| pr_promotion_id := id; pr_tenant_id := tc_tenant_id ctx; pr_workload := workload; pr_manifest_version := version;
                  pr_artifact_hash := Some (ab_artifact_hash binding); pr_from_context := TC_STAGING; pr_to_context := target;
                  pr_certification_id := Some (at_attestation_id a); pr_status := "promoted"; pr_refusal_reason := None;
                  pr_changed_bindings := []; pr_operator := operator; pr_timestamp := t |} in
      let* recorded := record_promotion ctx p "promotion.admitted" in
      match ga_on_promoted ga with Some f => in_registry (f workload version) | None => ret tt end ;;;
      ret recorded
  end.

(** [_blocked_note]; [names_repr] renders the list of task ids. *)
Definition blocked_note (r : CertificationRecord) : option string :=
  match cr_regression_report r with
  | Some report =>
      if rr_blocked report then
        Some (if bool_decide (rr_severity report = SEV_CRITICAL)
              then "critical regression on " +:+ names_repr (rr_critical_regressions report)
              else "regression report blocked promotion")
      else None
  | None => None
  end.

(** [recertify_and_promote] with a coordinator. *)
Definition recertify_and_promote (ctx : TenantContext) (store : CertificationStore) (workload : string)
    (corpus_ref model_identity : option string) (target : TargetContext) (operator : string)
    : Gate (CertificationRecord * PromotionRecord * CertificationStore) :=
  let* record := in_registry (get ctx workload) in
  let* store :=
    if bool_decide (wr_certification_status record = UNCERTIFIED) then
      let* c := in_registry (certify ctx store workload TC_STAGING corpus_ref model_identity FULL) in ret c.2
    else ret store in
  let* c := in_registry (certify ctx store workload target corpus_ref model_identity FULL) in
  let* current := in_registry (get ctx workload) in
  match blocked_note c.1 with
  | Some note =>
      let* refusal := refuse ctx workload (wr_current_version current) (at_artifact_hash (cr_attestation c.1)) target note [] operator in
      let* p := record_promotion ctx refusal "promotion.refused" in
      ret (c.1, p, c.2)
  | None =>
      let* p := gate_promote ctx workload (wr_current_version current) target operator None in
      ret (c.1, p, c.2)
  end.

(** ** What a promotion rests on *)

Lemma in_registry_inv {A} (m : R A) w p a w' :
  in_registry m (w, p) = (Ret a, w') → ∃ r, m w = (Ret a, r) ∧ w' = (r, p).
Proof. unfold in_registry. simpl. destruct (m w) as [[] r]; [|done]. intros [= <- <-]. by exists r. Qed.

Lemma record_promotion_value ctx p action w q w' : record_promotion ctx p action w = (Ret q, w') → q = p.
Proof.
  unfold record_promotion. intros H. apply bind_inv in H as ([] & w1 & _ & H). apply bind_inv in H as ([] & w2 & _ & H). by injection H as <- _.
Qed.

Lemma listed_inv ctx name s x l w :
  listed_attestations ctx name (s, x) = (Ret l, w) →
  w = (s, x) ∧ l = store_list_attestations s ctx name ∧ Forall (λ a, verified float_repr dump_time verify cfg a = true) l.
Proof.
  unfold listed_attestations, list_attestations. intros H. apply bind_inv in H as (r & w1 & Hg & H). rewrite get_run in Hg.
  destruct (get_workload s ctx name); [|done]. injection Hg as _ <-. unfold store in H. rewrite (bind_run _ _ _ s (s, x)) in H by done.
  destruct (filter _ _) as [|a k] eqn:E; [|done]. simpl in H. injection H as <- <-. split_and!; [done..|].
  apply Forall_forall. intros a Ha. destruct (verified _ _ _ _ a) eqn:Hv; [done|]. exfalso.
  assert (a ∈ filter (λ a, verified float_repr dump_time verify cfg a = false) (store_list_attestations s ctx name)) as Hin by
    (by apply list_elem_of_filter). rewrite E in Hin. by apply elem_of_nil in Hin.
Qed.

Lemma find_valid_inv ctx workload version hash target status s x a why w :
  find_valid_attestation ctx workload version hash target status (s, x) = (Ret (Some a, why), w) →
  ∃ record d, get_workload s ctx workload = Some record ∧ version = wr_current_version record ∧ status = CERTIFIED ∧
    wr_needs_re_certification record = false ∧
    (∃ w1, check_admission sha256 float_repr dump_time verify clock cfg ctx workload PRODUCTION (s, x) = (Ret d, w1)) ∧
    ad_admitted d = true ∧ a ∈ store_list_attestations s ctx workload ∧ verified float_repr dump_time verify cfg a = true ∧
    at_status a = CERTIFIED ∧ at_target_context a = target ∧ at_artifact_hash a = Some hash.
Proof.
  unfold find_valid_attestation. intros H. apply bind_inv in H as (record & w1 & Hg & H). rewrite get_run in Hg.
  destruct (get_workload s ctx workload) as [r|] eqn:Hr; [|done]. injection Hg as <- <-. case_bool_decide as Hv; simpl in H; [|done].
  case_bool_decide as Hq; [done|]. case_bool_decide as Hc; simpl in H; [|done].
  destruct (wr_needs_re_certification r) eqn:Hn; [done|].
  apply bind_inv in H as (d & w2 & Hd & H). destruct (ad_admitted d) eqn:Ha; simpl in H; [|done].
  assert (w2.1 = s) as Hs by (apply check_production_inv in Hd as (_ & _ & ? & _); done).
  apply bind_inv in H as (l & w3 & Hl & H). destruct w2 as [s2 x2]. simpl in Hs. subst s2. apply listed_inv in Hl as (-> & -> & Hall).
  destruct (last _) as [b|] eqn:El; [|done]. injection H as <- _ _. apply last_Some_elem_of in El.
  apply list_elem_of_filter in El as [(?&?&?) Hin]. rewrite Forall_forall in Hall. exists r, d. split_and!; eauto.
Qed.

(** C17: A promotion is recorded as promoted only for the current version of a
    certified workload that awaits no re-certification and is admitted to
    production, on a verified certified attestation for the target that is
    bound to the exact hash of that version's manifest. *)
Theorem promoted_only_certified ctx workload version target operator note s x p0 p w :
  gate_promote ctx workload version target operator note ((s, x), p0) = (Ret p, w) → pr_status p = "promoted" →
  ∃ record row a d w1, get_workload s ctx workload = Some record ∧ version = wr_current_version record ∧
    wr_certification_status record = CERTIFIED ∧ wr_needs_re_certification record = false ∧
    get_version s ctx workload version = Some row ∧
    check_admission sha256 float_repr dump_time verify clock cfg ctx workload PRODUCTION (s, x) = (Ret d, w1) ∧ ad_admitted d = true ∧
    a ∈ store_list_attestations s ctx workload ∧ verified float_repr dump_time verify cfg a = true ∧
    at_status a = CERTIFIED ∧ at_target_context a = target ∧ pr_certification_id p = Some (at_attestation_id a) ∧
    at_artifact_hash a = Some (ab_artifact_hash (compute_binding sha256 float_repr (wv_manifest row)
      (match ga_policy_version ga with Some f => f workload | None => None end))).
Proof.
  unfold gate_promote. intros H Hst. apply bind_inv in H as (record & w1 & Hg & H). apply in_registry_inv in Hg as (r1 & Hg & ->).
  rewrite get_run in Hg. destruct (get_workload s ctx workload) as [rec|] eqn:Hr; [|done]. injection Hg as <- <-.
  apply bind_inv in H as (row & w2 & Hv & H). apply in_registry_inv in Hv as (r2 & Hv & ->).
  unfold service_get_version in Hv. apply bind_inv in Hv as (rec' & r3 & Hg & Hv). rewrite get_run, Hr in Hg. injection Hg as _ <-.
  unfold store in Hv. rewrite (bind_run _ _ _ s (s, x)) in Hv by done. destruct (get_version s ctx workload version) as [row'|] eqn:Hgv; [|done].
  injection Hv as -> <-. apply bind_inv in H as (l & w3 & Hl & H). apply in_registry_inv in Hl as (r4 & Hl & ->). apply listed_inv in Hl as (-> & _ & _).
  apply bind_inv in H as ([found why] & w4 & Hf & H). apply in_registry_inv in Hf as (r5 & Hf & ->). simpl in H.
  destruct found as [a|].
  - apply find_valid_inv in Hf as (rec2 & d & Hr2 & Hver & Hcert & Hneed & (wd & Hd) & Hadm & Hin & Hvf & H1 & H2 & H3).
    rewrite Hr in Hr2. injection Hr2 as <-.
    apply bind_inv in H as (id & w5 & _ & H). apply bind_inv in H as (t & w6 & _ & H). apply bind_inv in H as (q & w7 & Hq & H).
    apply record_promotion_value in Hq as ->. apply bind_inv in H as ([] & w8 & _ & H). injection H as <- _.
    exists rec, row, a, d, wd. by split_and!.
  - apply bind_inv in H as (q & w5 & Hq & H). apply record_promotion_value in H as ->. unfold refuse in Hq.
    apply bind_inv in Hq as (id & w6 & _ & Hq). apply bind_inv in Hq as (t & w7 & _ & Hq). by injection Hq as <- _.
Qed.

(** ** What certifying changes *)

Lemma apply_attestation_inv ctx a event status expires s x r w :
  apply_attestation clock ctx a event status expires (s, x) = (Ret r, w) →
  ∃ old new, get_workload s ctx (at_workload_id a) = Some old ∧ wr_certification_status r = new ∧
    (status = Some new ∨ status = None ∧ ∃ e, event = Some e ∧ advance_status (wr_certification_status old) e = Some new).
Proof.
  unfold apply_attestation. intros H. apply bind_inv in H as (old & w1 & Hg & H). rewrite get_run in Hg.
  destruct (get_workload s ctx (at_workload_id a)) as [o|] eqn:Ho; [|done]. injection Hg as <- <-.
  apply bind_inv in H as (new & w2 & Hn & H). apply bind_inv in H as (c & w3 & _ & H). apply bind_inv in H as (t & w4 & _ & H).
  apply bind_inv in H as (u & w5 & _ & H). injection H as <- _. exists o, new. split_and!; [done..|].
  destruct status as [st|]; [by injection Hn as -> _; left|right; split; [done|]]. destruct event as [e|]; [|done]. exists e. split; [done|].
  destruct (advance_status (wr_certification_status o) e) as [n|]; [|done]. by injection Hn as -> _.
Qed.

(** The callbacks leave the registry alone. *)
Definition quiet {A} (m : R A) : Prop := ∀ w, (m w).2.1 = w.1.

Record quiet_service : Prop := {
  qs_now : quiet (sv_engine_now sv); qs_id : quiet (sv_new_id sv);
  qs_log : ∀ f a, sv_log_append sv = Some f → quiet (f a) }.

Lemma store_attestation_inv ctx (a : Attestation) s (x : X) (b : Attestation) (w : World (X := X)) :
  store_attestation ctx a (s, x) = (Ret b, w) → b = a ∧ w.2 = x ∧ rg_workloads w.1 = rg_workloads s ∧
  od_get (at_attestation_id a) (rg_attestations w.1) = Some a ∧ store_get_attestation s ctx (at_attestation_id a) = None.
Proof.
  unfold store_attestation, store. rewrite (bind_run _ _ _ s (s, x)) by done.
  destruct (store_get_attestation s ctx (at_attestation_id a)); [done|]. intros H. apply bind_inv in H as (u & w1 & H & Hr).
  injection Hr as <- <-. unfold add_attestation in H. apply bind_inv in H as (p & w2 & Hp & H).
  assert (w2 = (s, x)) as ->.
  { revert Hp. unfold parent, bind, store, gets. simpl. destruct (od_get _ _); [|done]. unfold require.
    destruct (scopes _ _); [|done]. by intros [= _ <-]. }
  injection H as _ <-. simpl. by rewrite od_get_set_eq.
Qed.

(** The certification a run of the service returns, and the registry before
    its last step. *)
Lemma certify_inv ctx result target previous profile s x c w :
  quiet_service → certify_with_result ctx result target previous profile (s, x) = (Ret c, w) →
  ∃ record policy s1 x1, get_workload s ctx (br_workload_id result) = Some record ∧
    cf_status (cr_certification c) =
      resolve_status (wr_certification_status record) (to_eval_summary result) (thresholds_for policy target) target
        (wr_production_runs_survived record) ∧
    match sp_certification (ma_spec (wr_manifest record)) with
    | Some spec => workload_policy spec (sv_policy sv) = Some policy
    | None => policy = sv_policy sv
    end ∧
    rg_workloads s1 = rg_workloads s ∧
    (cf_status (cr_certification c) = wr_certification_status record →
     target ≠ TC_PRODUCTION ∨ cf_status (cr_certification c) ≠ PROVISIONAL → w = (s1, x1)).
Proof.
  intros [Qn Qi Ql]. unfold certify_with_result. intros H. apply bind_inv in H as (record & w1 & Hg & H). rewrite get_run in Hg.
  destruct (get_workload s ctx (br_workload_id result)) as [rec|] eqn:Hr; [|done]. injection Hg as <- <-.
  apply bind_inv in H as (policy & w2 & Hp & H).
  assert (w2 = (s, x) ∧ match sp_certification (ma_spec (wr_manifest rec)) with
    | Some spec => workload_policy spec (sv_policy sv) = policy ∧ policy ≠ None | None => policy = None end) as [-> Hpol].
  { destruct (sp_certification (ma_spec (wr_manifest rec))) as [spec|]; [|by injection Hp as <- <-].
    apply bind_inv in Hp as (p & w3 & Hp & Hret). destruct (workload_policy spec (sv_policy sv)) as [q|]; [|done].
    injection Hp as <- <-. by injection Hret as <- <-. }
  apply bind_inv in H as (now & [s3 x3] & Hn & H). pose proof (Qn (s, x)) as E. rewrite Hn in E. simpl in E. subst s3.
  apply bind_inv in H as (id & [s4 x4] & Hi & H). pose proof (Qi (s, x3)) as E. rewrite Hi in E. simpl in E. subst s4.
  apply bind_inv in H as (stored & [s5 x5] & Hst & H). apply store_attestation_inv in Hst as (-> & _ & Hw5 & _ & _). simpl in Hw5.
  apply bind_inv in H as (u6 & [s6 x6] & Hlog & H).
  assert (s6 = s5) as ->.
  { destruct (sv_log_append sv) as [f|] eqn:Ef; [|by injection Hlog as _ <- _].
    match type of Hlog with f ?a _ = _ => pose proof (Ql f a eq_refl (s5, x5)) as E end. by rewrite Hlog in E. }
  apply bind_inv in H as (u7 & w7 & Hlast & H). injection H as <- <-.
  exists rec, (default (sv_policy sv) policy), s5, x6. simpl. split_and!; [done| | |done|].
  - reflexivity.
  - destruct (sp_certification (ma_spec (wr_manifest rec))); [destruct Hpol as [-> ?]; by destruct policy|by rewrite Hpol].
  - intros Hsame Hnp. rewrite bool_decide_eq_true_2 in Hlast by done. simpl in Hlast.
    destruct (bool_decide (target = TC_PRODUCTION) && bool_decide (_ = PROVISIONAL)) eqn:Eb.
    + apply andb_true_iff in Eb as [E1%bool_decide_eq_true E2%bool_decide_eq_true]. by destruct Hnp.
    + by injection Hlast as _ <-.
Qed.

(** The policy a workload is certified under: what its manifest sets over the
    service's, or the service's own. *)
Definition certified_under (record : WorkloadRecord) (policy : CertificationPolicy) : Prop :=
  match sp_certification (ma_spec (wr_manifest record)) with
  | Some spec => workload_policy spec (sv_policy sv) = Some policy
  | None => policy = sv_policy sv
  end.

(** The results meet every threshold. *)
Definition within_thresholds (s : EvalSummary) (t : Thresholds) : Prop :=
  (ev_critical_failures s ≤ th_max_critical_failures t)%Z ∧ f64_ltb (ev_pass_rate s) (th_min_pass_rate t) = false ∧
  (ev_p95_latency_ms s ≤ th_max_p95_latency_ms t)%Z.

Lemma passes_within s t : passes_threshold s t = true → within_thresholds s t.
Proof.
  unfold passes_threshold, within_thresholds. destruct (_ <? _)%Z eqn:H1; [done|]. destruct (f64_ltb _ _); [done|]. intros H2.
  split_and!; [lia|done|lia].
Qed.

(** C11: The service certifies a workload only when the results meet the thresholds
    that the policy of the workload (its manifest's certification block over the
    service's policy, or the service's policy) sets for the target, and only one
    already certified, or a provisional one evaluated for production that has
    survived the production runs the policy asks for (the service's clock, identifiers
    and transparency log leave the registry alone). *)
Theorem certified_after_survival ctx result target previous profile s x c w :
  quiet_service → certify_with_result ctx result target previous profile (s, x) = (Ret c, w) →
  cf_status (cr_certification c) = CERTIFIED →
  ∃ record policy, get_workload s ctx (br_workload_id result) = Some record ∧ certified_under record policy ∧
    within_thresholds (to_eval_summary result) (match target with TC_PRODUCTION => cp_production policy | TC_STAGING => cp_staging policy end) ∧
    (wr_certification_status record = CERTIFIED ∨
     wr_certification_status record = PROVISIONAL ∧ target = TC_PRODUCTION ∧
     (th_min_production_runs_survived (cp_production (sv_policy sv)) ≤ wr_production_runs_survived record)%Z).
Proof.
  intros Hq H Hc. apply certify_inv in H as (record & policy & s1 & x1 & Hr & Hs & Hp & _ & _); [|done].
  rewrite Hs in Hc. apply resolve_certified in Hc as [Hpass Hc]. exists record, policy. split_and!; [done|done|by apply passes_within|].
  destruct Hc as [?|(Hst & -> & Hn)]; [by left|right]. split_and!; [done..|]. simpl in Hn.
  destruct (sp_certification (ma_spec (wr_manifest record))) as [spec|]; [|by subst policy].
  unfold workload_policy in Hp. destruct (policy_valid _); [|done]. by injection Hp as <-.
Qed.

(** Re-certifying a certified workload renews nothing: with results within
    the thresholds the service signs and stores a new attestation and leaves
    the workload's record as it was — the attestation it names, its expiry and
    a pending re-certification included. *)
Theorem recertification_renews_nothing ctx result target previous profile s x c w record :
  quiet_service → certify_with_result ctx result target previous profile (s, x) = (Ret c, w) →
  get_workload s ctx (br_workload_id result) = Some record → wr_certification_status record = CERTIFIED →
  cf_status (cr_certification c) = CERTIFIED → rg_workloads w.1 = rg_workloads s.
Proof.
  intros Hq H Hr Hst Hc. apply certify_inv in H as (record' & policy & s1 & x1 & Hr' & _ & _ & Hw & Hlast); [|done].
  rewrite Hr in Hr'. injection Hr' as <-. rewrite Hlast; [done|congruence|right; congruence].
Qed.
End Service.
