(* ===== verification/PromotionDemo.v ===== *)
(** * From registration to promotion on a concrete workload

    A workload is registered, certified for staging, deferred by the survival
    gate, certified for production and promoted. *)

From stdpp Require Import base strings pretty numbers gmap sorting list.
From S2P Require Import Prelude Text Float64 Tenancy CoreModels Canonical Base64 Manifest Binding Certification Registry RegistryDemo Promotion.

#[local] Open Scope hp_scope.

Definition signed_ok (_ : unit) (signature payload : string) : bool := bool_decide (signature = payload).

Definition demo_thresholds (rate : f64) (survived : Z) : Thresholds :=
  {| th_min_pass_rate := rate; th_max_critical_failures := 0; th_max_p95_latency_ms := 30000; th_min_production_runs_survived := survived |}.

Definition demo_policy : CertificationPolicy :=
  {| cp_staging := demo_thresholds (f64_lit 4 5) 0; cp_production := demo_thresholds (f64_lit 9 10) 1; cp_re_cert_interval := 1209600;
     cp_grace_margin := f64_lit 1 20 |}.

(** The counter is the clock and the source of identifiers. *)
Definition demo_now : Reg (X := Z) Z := now demo_clock.
Definition demo_id (prefix : string) : Reg (X := Z) string := let* n := demo_now in ret (prefix +:+ pretty n).

Definition demo_sv : ServiceConfig (Key := unit) (X := Z) :=
  {| sv_policy := demo_policy; sv_engine_now := demo_now; sv_private_key := tt;
     sv_environment := {| en_sandbox_image := "img"; en_runtime_adapter := "raw-worker"; en_control_plane_version := "0" |};
     sv_identity := "certifier"; sv_key_id := "k"; sv_benchmark_version := "1.0.0"; sv_new_id := demo_id "att-";
     sv_policy_version := None; sv_log_append := None |}.

Definition demo_ga : GateConfig (X := Z) :=
  {| ga_new_id := demo_id "promo-"; ga_now := demo_now; ga_policy_version := None; ga_audit := None; ga_on_promoted := None;
     ga_keeps_records := true |}.

Definition demo_task_result : BenchmarkTaskResult :=
  {| tr_task_id := "t1"; tr_status := PASS; tr_latency_ms := 10; tr_tokens := 5; tr_cost_usd := f64_zero; tr_trace_id := None;
     tr_critical := false; tr_failure_reason := None |}.

Definition demo_result : BenchmarkResult :=
  {| br_benchmark_run_id := "br-1"; br_workload_id := "triage"; br_manifest_version := 1; br_corpus_id := "triage"; br_corpus_version := 1;
     br_model_identity := "openai/gpt-4o/1"; br_environment := sv_environment demo_sv; br_started_at := 0; br_finished_at := 1;
     br_tasks := [demo_task_result]; br_aggregate := aggregate [demo_task_result] |}.

Definition demo_certify (target : TargetContext) : Reg (X := Z) CertificationRecord :=
  certify_with_result demo_hash exact_repr demo_time demo_sign demo_clock demo_sv DEFAULT_CONTEXT demo_result target None "full".

Definition survive_run : Reg (X := Z) WorkloadRecord := increment_production_runs DEFAULT_CONTEXT "triage".

Definition registered : World (X := Z) := (demo_create DEFAULT_CONTEXT (demo_manifest "a" "v1" UNCERTIFIED) (empty_registry, 10%Z)).2.
Definition provisional : World (X := Z) := (demo_certify TC_STAGING registered).2.
Definition deferred : World (X := Z) := (demo_certify TC_PRODUCTION provisional).2.
Definition survived : World (X := Z) := (survive_run deferred).2.
Definition certified : World (X := Z) := (demo_certify TC_PRODUCTION survived).2.

Definition status_in (w : World (X := Z)) : option CertificationStatus :=
  wr_certification_status <$> get_workload w.1 DEFAULT_CONTEXT "triage".

(** The lifecycle: the survival gate defers the first production pass. *)
Example demo_lifecycle :
  status_in registered = Some UNCERTIFIED ∧ status_in provisional = Some PROVISIONAL ∧ status_in deferred = Some PROVISIONAL ∧
  status_in survived = Some PROVISIONAL ∧ status_in certified = Some CERTIFIED.
Proof. vm_compute. done. Qed.

Definition demo_gate (w : World (X := Z)) : outcome RegistryExn PromotionRecord * GateWorld (X := Z) :=
  gate_promote demo_hash exact_repr demo_time signed_ok demo_clock demo_cfg demo_ga DEFAULT_CONTEXT "triage" 1 TC_PRODUCTION "ops" None (w, []).

Definition some_promotion : PromotionRecord :=
  {| pr_promotion_id := EmptyString; pr_tenant_id := EmptyString; pr_workload := EmptyString; pr_manifest_version := 0;
     pr_artifact_hash := None; pr_from_context := TC_STAGING; pr_to_context := TC_STAGING; pr_certification_id := None;
     pr_status := EmptyString; pr_refusal_reason := None; pr_changed_bindings := []; pr_operator := EmptyString; pr_timestamp := 0 |}.

(** Refused while provisional, promoted once certified. *)
Example demo_gate_decides :
  pr_status (returned some_promotion (demo_gate deferred)) = "refused" ∧ pr_status (returned some_promotion (demo_gate certified)) = "promoted".
Proof. vm_compute. done. Qed.

Lemma demo_quiet : quiet_service demo_sv.
Proof. split; [by intros [s x]|by intros [s x]|done]. Qed.

Definition some_certification : CertificationRecord :=
  {| cr_record_id := EmptyString;
     cr_certification := evaluate_result demo_hash demo_policy 0 demo_result UNCERTIFIED TC_STAGING 0 None;
     cr_attestation := demo_attestation; cr_benchmark_result := demo_result; cr_regression_report := None |}.

Lemma promoted_only_certified_witness :
  ∃ record a, get_workload certified.1 DEFAULT_CONTEXT "triage" = Some record ∧ wr_certification_status record = CERTIFIED ∧
    a ∈ store_list_attestations certified.1 DEFAULT_CONTEXT "triage" ∧ at_status a = CERTIFIED.
Proof.
  destruct (promoted_only_certified demo_hash exact_repr demo_time signed_ok demo_clock demo_cfg demo_ga DEFAULT_CONTEXT "triage" 1%Z
    TC_PRODUCTION "ops" None certified.1 certified.2 [] (returned some_promotion (demo_gate certified)) (demo_gate certified).2)
    as (record & row & a & d & w1 & H1 & _ & H2 & _ & _ & _ & _ & H3 & _ & H4 & _).
  - vm_compute. reflexivity.
  - vm_compute. reflexivity.
  - exists record, a. split; [exact H1|]. split; [exact H2|]. split; [exact H3|exact H4].
Defined.

Lemma certified_after_survival_witness :
  ∃ record policy, get_workload survived.1 DEFAULT_CONTEXT "triage" = Some record ∧ certified_under demo_sv record policy ∧
    within_thresholds (to_eval_summary demo_result) (cp_production policy) ∧
    (wr_certification_status record = CERTIFIED ∨
     wr_certification_status record = PROVISIONAL ∧ TC_PRODUCTION = TC_PRODUCTION ∧ (1 ≤ wr_production_runs_survived record)%Z).
Proof.
  destruct (certified_after_survival demo_hash exact_repr demo_time demo_sign demo_clock demo_sv DEFAULT_CONTEXT demo_result TC_PRODUCTION
    None "full" survived.1 survived.2 (returned some_certification (demo_certify TC_PRODUCTION survived)) certified demo_quiet)
    as (record & policy & H1 & H2 & H3 & H4).
  - vm_compute. reflexivity.
  - vm_compute. reflexivity.
  - exists record, policy. split; [exact H1|]. split; [exact H2|]. split; [exact H3|exact H4].
Defined.

(** A certified workload is certified again. *)
Definition certified_again : World (X := Z) := (demo_certify TC_PRODUCTION certified).2.

Lemma recertification_renews_nothing_witness : rg_workloads certified_again.1 = rg_workloads certified.1.
Proof.
  eapply (recertification_renews_nothing demo_hash exact_repr demo_time demo_sign demo_clock demo_sv DEFAULT_CONTEXT demo_result TC_PRODUCTION
    None "full" certified.1 certified.2 (returned some_certification (demo_certify TC_PRODUCTION certified)) certified_again
    (returned (demo_record DEFAULT_CONTEXT) (get DEFAULT_CONTEXT "triage" certified)) demo_quiet); vm_compute; reflexivity.
Defined.
