(* ===== verification/WorkerIdentity.v ===== *)
(** * Worker identity tokens ([worker/identity.py], [worker/models.py],
    [fleet/workers.py])

    The records of the worker plane, its errors, and the signed token that binds
    a worker to its tenant until it expires.  HMAC-SHA256, the JSON parser and
    [str] of a float are parameters; a token is a string of bytes. *)

From Stdlib Require Import Ascii.
From stdpp Require Import base strings pretty numbers gmap list.
From S2P Require Import Prelude Text Float64 Tenancy CoreModels Canonical Base64 Templates Manifest.

#[local] Open Scope hp_scope.

(** ** Records *)

Inductive WorkerState := REGISTERING | READY | BUSY | DRAINING | MAINTENANCE | UNHEALTHY | DEREGISTERED.

#[export] Instance WorkerState_eq_dec : EqDecision WorkerState.
Proof. solve_decision. Defined.

Definition state_value (s : WorkerState) : string :=
  match s with
  | REGISTERING => "registering" | READY => "ready" | BUSY => "busy" | DRAINING => "draining"
  | MAINTENANCE => "maintenance" | UNHEALTHY => "unhealthy" | DEREGISTERED => "deregistered"
  end.

Record WorkerCapabilities := mkCapabilities {
  wc_adapters : list RuntimeAdapter;
  wc_labels : odict string string;
  wc_capacity : Z;
}.

Record Worker := mkWorker {
  wk_worker_id : string;
  wk_tenant_id : string;
  wk_state : WorkerState;
  wk_capabilities : WorkerCapabilities;
  wk_version : string;
  wk_registered_at : Z;
  wk_last_seen_at : Z;
}.

Record WorkerLease := mkWorkerLease {
  wl_lease_id : string;
  wl_tenant_id : string;
  wl_run_id : string;
  wl_worker_id : string;
  wl_workload_id : option string;
  wl_attempt : Z;
  wl_granted_at : Z;
  wl_expires_at : Z;
  wl_fencing_token : Z;
}.

Record WorkerHeartbeat := mkHeartbeat {
  hb_heartbeat_id : string;
  hb_tenant_id : string;
  hb_worker_id : string;
  hb_seen_at : Z;
  hb_status : WorkerState;
}.

Record WorkerToken := mkToken {
  tk_token_id : string;
  tk_worker_id : string;
  tk_tenant_id : string;
  tk_key_id : string;
  tk_issued_at : Z;
  tk_expires_at : Z;
  tk_revoked_at : option Z;
}.

Record WorkerTokenIssued := mkIssued { ti_token : string; ti_record : WorkerToken }.

Inductive WorkerExn :=
  | WorkerIdentityError (message : string)
  | UnknownWorkerError (worker_id : string)
  | WorkerNotReadyError (worker_id : string) (state : WorkerState)
  | StaleLeaseError (lease_id : string) (fencing_token : Z)
  | WorkerScopeError
  | WorkerValidationError
  | WorkerEncodeError
  | WorkerTypeError
  | WorkerValueError
  | WorkerOverflowError.

(** What pydantic checks when a record is constructed. *)
Definition sized (n : nat) (s : string) : bool := bool_decide (s ≠ EmptyString) && (chars s <=? n)%nat.

Definition token_valid (t : WorkerToken) : bool :=
  sized 128 (tk_token_id t) && sized 64 (tk_worker_id t) && sized 64 (tk_tenant_id t) && bool_decide (tk_key_id t ≠ EmptyString).

Definition worker_valid (w : Worker) : bool :=
  sized 64 (wk_worker_id w) && sized 64 (wk_tenant_id w) && sized 64 (wk_version w).

Definition worker_lease_valid (l : WorkerLease) : bool :=
  sized 128 (wl_lease_id l) && sized 64 (wl_tenant_id l) && sized 64 (wl_run_id l) && sized 64 (wl_worker_id l)
  && match wl_workload_id l with Some w => (chars w <=? 253)%nat | None => true end
  && (1 <=? wl_attempt l)%Z && (0 <=? wl_fencing_token l)%Z && (wl_granted_at l <? wl_expires_at l)%Z.

Definition heartbeat_valid (h : WorkerHeartbeat) : bool :=
  sized 128 (hb_heartbeat_id h) && sized 64 (hb_tenant_id h) && sized 64 (hb_worker_id h).

(** [now + timedelta(seconds=ttl)] *)
Definition plus_seconds {W : Type} (now ttl : Z) : M W WorkerExn Z :=
  let t := (now + ttl * 1000000)%Z in if dt_in_range t then ret t else raise WorkerOverflowError.

(** [int(now.timestamp())] *)
Definition int_timestamp (now : Z) : Z := default 0%Z (f64_trunc (int_truediv now 1000000)).

(** ** Base64 for URLs, without padding *)

Definition url_char (c : ascii) : ascii :=
  if bool_decide (c = "+"%char) then "-"%char else if bool_decide (c = "/"%char) then "_"%char else c.
Definition url_back (c : ascii) : ascii :=
  if bool_decide (c = "-"%char) then "+"%char else if bool_decide (c = "_"%char) then "/"%char else c.

(** [rstrip(b"=")] *)
Fixpoint drop_pads (l : list ascii) : list ascii :=
  match l with c :: l' => if bool_decide (c = Base64.pad) then drop_pads l' else l | [] => [] end.
Definition rstrip_pads (l : list ascii) : list ascii := rev (drop_pads (rev l)).

Definition b64_list (l : list ascii) : list ascii := rstrip_pads (url_char <$> Base64.encode l).

(** [_b64] *)
Definition b64 (data : string) : string := String.string_of_list_ascii (b64_list (String.list_ascii_of_string data)).

(** [binascii.a2b_base64] without strict mode: characters outside the alphabet
    are skipped, padding ends the data once it completes a quad. *)
Fixpoint a2b (l : list ascii) (quad : list Z) (pads : nat) : option (list ascii) :=
  match l with
  | [] => if bool_decide (quad = []) then Some [] else None
  | c :: l' =>
      if bool_decide (c = Base64.pad) then
        if (2 <=? length quad)%nat then
          if (4 <=? length quad + S pads)%nat then Base64.decode quad 2 else a2b l' quad (S pads)
        else a2b l' quad pads
      else
        match Base64.value64 c with
        | None => a2b l' quad pads
        | Some v =>
            if (length quad =? 3)%nat then b ← Base64.decode (quad ++ [v]) 0; r ← a2b l' [] 0; Some (b ++ r)
            else a2b l' (quad ++ [v]) 0
        end
  end.

(** [_unb64]; [None] is a [ValueError]. *)
Definition unb64_list (l : list ascii) : option (list ascii) :=
  let padding := Z.to_nat ((- Z.of_nat (length l)) mod 4) in
  a2b (url_back <$> (l ++ repeat Base64.pad padding)) [] 0.

Definition unb64 (text : string) : option string :=
  String.string_of_list_ascii <$> unb64_list (String.list_ascii_of_string text).

(** *** Decoding undoes encoding *)

Definition is_url (c : ascii) : Prop := ∃ n, (0 ≤ n < 64)%Z ∧ c = url_char (Base64.digit64 n).

Lemma url_digit n : (0 ≤ n < 64)%Z → url_back (url_char (Base64.digit64 n)) = Base64.digit64 n ∧ url_char (Base64.digit64 n) ≠ Base64.pad.
Proof.
  intros Hn. assert (forallb (λ m, let d := Base64.digit64 (Z.of_nat m) in
    bool_decide (url_back (url_char d) = d) && negb (bool_decide (url_char d = Base64.pad))) (seq 0 64) = true) as H by by vm_compute.
  rewrite forallb_forall in H. specialize (H (Z.to_nat n)). rewrite Z2Nat.id in H by lia.
  rewrite in_seq in H. specialize (H ltac:(lia)). apply andb_true_iff in H as [Hv Hp].
  split; [by apply bool_decide_eq_true in Hv|]. by apply negb_true_iff, bool_decide_eq_false in Hp.
Qed.

Lemma a2b_step n l quad pads : (0 ≤ n < 64)%Z →
  a2b (Base64.digit64 n :: l) quad pads =
  if (length quad =? 3)%nat then b ← Base64.decode (quad ++ [n]) 0; r ← a2b l [] 0; Some (b ++ r) else a2b l (quad ++ [n]) 0.
Proof.
  intros Hn. destruct (Base64.digit_value n Hn) as [Hv Hp]. cbn [a2b]. by rewrite bool_decide_eq_false_2, Hv by done.
Qed.

(** Every encoding is digits, then at most two signs of padding. *)
Lemma encode_shape l :
  ∃ ns k, Base64.encode l = (Base64.digit64 <$> ns) ++ repeat Base64.pad k ∧ Forall (λ n, 0 ≤ n < 64)%Z ns ∧
    (k ≤ 2)%nat ∧ Z.of_nat k = ((- Z.of_nat (length ns)) mod 4)%Z.
Proof.
  induction l as [|a|a b|a b c l (ns & k & IH1 & IH2 & IH3 & IH4)] using Base64.list_triple_ind.
  - exists [], O. split; [done|]. split; [apply Forall_nil_2|]. split; [lia|done].
  - destruct (Base64.bytes_ok (Base64.byte_of a) 0 0 (Base64.byte_bounds a)) as (Hn & _); [done..|].
    rewrite !Z.add_0_r in *. destruct (Base64.digits_ok _ Hn) as (H1 & H2 & _).
    eexists [_; _], 2%nat. split; [reflexivity|]. split; [|done]. by repeat apply Forall_cons_2; try apply Forall_nil_2.
  - destruct (Base64.bytes_ok (Base64.byte_of a) (Base64.byte_of b) 0) as (Hn & _); [apply Base64.byte_bounds..|done|].
    rewrite !Z.add_0_r in *. destruct (Base64.digits_ok _ Hn) as (H1 & H2 & H3 & _).
    eexists [_; _; _], 1%nat. split; [reflexivity|]. split; [|split; [lia|done]].
    by repeat apply Forall_cons_2; try apply Forall_nil_2.
  - destruct (Base64.bytes_ok (Base64.byte_of a) (Base64.byte_of b) (Base64.byte_of c)) as (Hn & _); [apply Base64.byte_bounds..|].
    destruct (Base64.digits_ok _ Hn) as (H1 & H2 & H3 & H4 & _).
    eexists (_ :: _ :: _ :: _ :: ns), k. cbn [Base64.encode]. rewrite IH1. split; [reflexivity|].
    split; [by repeat apply Forall_cons_2|]. split; [done|]. rewrite IH4. cbn [length].
    replace (- Z.of_nat (S (S (S (S (length ns))))))%Z with (- Z.of_nat (length ns) + (-1) * 4)%Z by lia.
    by rewrite Z_mod_plus_full.
Qed.

Lemma split_shape ns k : Forall (λ n, 0 ≤ n < 64)%Z ns → (k ≤ 2)%nat →
  Base64.split_pads ((Base64.digit64 <$> ns) ++ repeat Base64.pad k) = Some (ns, k).
Proof.
  intros Hns Hk. induction Hns as [|n ns Hn _ IH]; [|cbn [fmap list_fmap app]; by rewrite Base64.split_digit, IH].
  destruct k as [|[|[|]]]; [done..|lia].
Qed.

(** Induction four elements at a time. *)
Lemma list_quad_ind {A} (P : list A → Prop) :
  P [] → (∀ x, P [x]) → (∀ x y, P [x; y]) → (∀ x y z, P [x; y; z]) → (∀ w x y z l, P l → P (w :: x :: y :: z :: l)) → ∀ l, P l.
Proof.
  intros H0 H1 H2 H3 H4. cut (∀ l, P l ∧ (∀ x, P (x :: l)) ∧ (∀ x y, P (x :: y :: l)) ∧ ∀ x y z, P (x :: y :: z :: l)).
  { intros H l; apply H. }
  induction l as [|x l (IH0 & IH1 & IH2 & IH3)]; [done|]. split_and!; [done|done|done|]. intros a b c. by apply H4.
Qed.

(** On digits and their padding the lenient decoder is the strict one. *)
Lemma a2b_decode ns : Forall (λ n, 0 ≤ n < 64)%Z ns → ∀ k, Z.of_nat k = ((- Z.of_nat (length ns)) mod 4)%Z → (k ≤ 2)%nat →
  a2b ((Base64.digit64 <$> ns) ++ repeat Base64.pad k) [] 0 = Base64.decode ns k.
Proof.
  induction ns as [|x|x y|x y z|w x y z ns IH] using list_quad_ind; intros Hns k Hk Hle.
  - assert (Z.of_nat k = 0%Z) by exact Hk. by destruct k.
  - assert (Z.of_nat k = 3%Z) by exact Hk. lia.
  - assert (Z.of_nat k = 2%Z) by exact Hk. assert (k = 2%nat) as -> by lia. do 2 apply Forall_cons in Hns as [? Hns].
    cbn [fmap list_fmap app]. by rewrite !a2b_step.
  - assert (Z.of_nat k = 1%Z) by exact Hk. assert (k = 1%nat) as -> by lia. do 3 apply Forall_cons in Hns as [? Hns].
    cbn [fmap list_fmap app]. by rewrite !a2b_step.
  - do 4 apply Forall_cons in Hns as [? Hns]. cbn [fmap list_fmap app]. rewrite !a2b_step by done. cbn [app length Nat.eqb].
    rewrite IH; [| done | | done].
    + cbn [Base64.decode]. by destruct (Base64.decode ns k).
    + rewrite Hk. cbn [length]. replace (- Z.of_nat (S (S (S (S (length ns))))))%Z with (- Z.of_nat (length ns) + (-1) * 4)%Z by lia.
      by rewrite Z_mod_plus_full.
Qed.

Lemma drop_pads_repeat k l : drop_pads (repeat Base64.pad k ++ l) = drop_pads l.
Proof. induction k; [done|]. done. Qed.

Lemma rev_repeat {A} (x : A) k : rev (repeat x k) = repeat x k.
Proof. induction k as [|k IH]; [done|]. cbn. rewrite IH. symmetry. apply repeat_cons. Qed.

Lemma rev_fmap {A B} (f : A → B) l : rev (f <$> l) = f <$> rev l.
Proof. induction l as [|x l IH]; [done|]. rewrite fmap_cons. cbn [rev]. by rewrite fmap_app, IH. Qed.

Lemma url_digits_back ns : Forall (λ n, 0 ≤ n < 64)%Z ns → url_back <$> (url_char <$> (Base64.digit64 <$> ns)) = Base64.digit64 <$> ns.
Proof. induction 1 as [|n ns Hn _ IH]; [done|]. rewrite !fmap_cons, IH. by rewrite (proj1 (url_digit n Hn)). Qed.

Lemma strip_digits ns k : Forall (λ n, 0 ≤ n < 64)%Z ns →
  rstrip_pads (url_char <$> (Base64.digit64 <$> ns) ++ repeat Base64.pad k) = url_char <$> (Base64.digit64 <$> ns).
Proof.
  intros Hns. unfold rstrip_pads. rewrite fmap_app. replace (url_char <$> repeat Base64.pad k) with (repeat Base64.pad k).
  2: { clear. induction k as [|k IH]; [done|]. cbn. by rewrite <-IH. }
  rewrite rev_app_distr, rev_repeat, drop_pads_repeat. rewrite <-(rev_involutive (url_char <$> _)) at 2. f_equal.
  rewrite !rev_fmap. apply Forall_rev in Hns. destruct Hns as [|n ns' Hn _]; [done|].
  cbn. by rewrite bool_decide_eq_false_2 by apply (url_digit n Hn).
Qed.

Lemma unb64_b64 s : unb64 (b64 s) = Some s.
Proof.
  unfold unb64, b64, unb64_list, b64_list. rewrite String.list_ascii_of_string_of_list_ascii.
  destruct (encode_shape (String.list_ascii_of_string s)) as (ns & k & Henc & Hns & Hk & Hmod). rewrite Henc.
  rewrite strip_digits by done. rewrite !length_fmap, <-Hmod, Nat2Z.id, fmap_app, url_digits_back by done.
  replace (url_back <$> repeat Base64.pad k) with (repeat Base64.pad k).
  2: { clear. induction k as [|k IH]; [done|]. cbn. by rewrite <-IH. }
  rewrite a2b_decode by done. destruct (Base64.decode_encode (String.list_ascii_of_string s)) as (vs & p & Hsplit & Hdec).
  rewrite Henc, split_shape in Hsplit by done. injection Hsplit as <- <-. rewrite Hdec. cbn.
  by rewrite String.string_of_list_ascii_of_string.
Qed.

(** ** The identity service *)

Definition is_ascii_text (s : string) : bool := all_chars (λ c, (nat_of_ascii c <? 128)%nat) s.

(** [token.rsplit(".", 1)] *)
Fixpoint rsplit_dot (s : string) : option (string * string) :=
  match s with
  | EmptyString => None
  | String c s' =>
      match rsplit_dot s' with
      | Some (a, b) => Some (String c a, b)
      | None => if bool_decide (c = "."%char) then Some (EmptyString, s') else None
      end
  end.

(** The service's revocation list, over a state with the clock and the id factory. *)
Record Identity (X : Type) := mkIdentity { id_revoked : gset string; id_ext : X }.
Arguments mkIdentity {X}.
Arguments id_revoked {X}.
Arguments id_ext {X}.

Section Service.
Context {X : Type}.
Variable hmac_sha256 : string → string → string.
Variable loads : string → option JsonValue.

Variable float_repr : f64 → string.
Variable token_clock : X → Z * X.
Variable token_id_factory : X → string * X.
Variables (secret key_id : string) (ttl_seconds : Z).

Abbreviation IdM := (M (Identity X) WorkerExn).

Definition of_ext {A} (f : X → A * X) : IdM A :=
  λ s, let '(a, x) := f (id_ext s) in (Ret a, mkIdentity (id_revoked s) x).

(** The constructor: the secret must not be empty. *)
Definition identity_init (x : X) : outcome WorkerExn (Identity X) :=
  if bool_decide (secret = EmptyString) then Raise (WorkerIdentityError "worker identity secret must not be empty")
  else Ret (mkIdentity ∅ x).

Definition token_payload (r : WorkerToken) : odict string JsonValue :=
  [("jti", JStr (tk_token_id r)); ("wid", JStr (tk_worker_id r)); ("tid", JStr (tk_tenant_id r)); ("kid", JStr (tk_key_id r));
   ("iat", JInt (int_timestamp (tk_issued_at r))); ("exp", JInt (int_timestamp (tk_expires_at r)))].

Definition sign (encoded : string) : string := b64 (hmac_sha256 secret encoded).

Definition token_text (payload : odict string JsonValue) : string :=
  let encoded := b64 (Canonical.dumps float_repr (JObj payload)) in encoded +:+ "." +:+ sign encoded.

(** [issue] *)
Definition issue (worker_id tenant_id : string) (ttl : option Z) : IdM WorkerTokenIssued :=
  let* now := of_ext token_clock in
  let* jti := of_ext token_id_factory in
  let* expires := plus_seconds now (default ttl_seconds ttl) in
  let record := mkToken jti worker_id tenant_id key_id now expires None in
  if token_valid record then ret (mkIssued (token_text (token_payload record)) record) else raise WorkerValidationError.

(** [str(payload.get(key, ""))] and [int(payload.get(key, 0))] *)
Definition get_str (d : odict string JsonValue) (k : string) : string :=
  match od_get k d with Some v => json_str float_repr v | None => EmptyString end.

Definition get_int (d : odict string JsonValue) (k : string) : IdM Z :=
  match od_get k d with
  | None => ret 0%Z
  | Some (JInt z) => ret z
  | Some (JBool b) => ret (if b then 1 else 0)%Z
  | Some (JStr s) => of_option WorkerValueError (py_int s)
  | Some (JFloat x) => of_option (if f64_is_nan x then WorkerValueError else WorkerOverflowError) (f64_trunc x)
  | Some _ => raise WorkerTypeError
  end.

(** [datetime.fromtimestamp(n, tz=UTC)] *)
Definition from_timestamp (n : Z) : IdM Z :=
  if dt_in_range (n * 1000000) then ret (n * 1000000)%Z else raise WorkerOverflowError.

(** [verify]: signature, payload, revocation, expiry, binding to a worker. *)
Definition verify (token : string) (worker_id : option string) : IdM WorkerToken :=
  match rsplit_dot token with
  | None => raise (WorkerIdentityError "malformed worker token")
  | Some (encoded, signature) =>
      if negb (is_ascii_text encoded) then raise WorkerEncodeError
      else if negb (is_ascii_text signature) then raise WorkerTypeError
      else if bool_decide (signature ≠ sign encoded) then raise (WorkerIdentityError "invalid worker token signature")
      else
        match unb64 encoded ≫= loads with
        | None => raise (WorkerIdentityError "malformed worker token payload")
        | Some (JObj payload) =>
            let token_id := get_str payload "jti" in
            let* revoked := gets (λ s, bool_decide (token_id ∈ id_revoked s)) in
            if revoked : bool then raise (WorkerIdentityError "worker token revoked")
            else
              let* now := of_ext token_clock in
              let* expiry := get_int payload "exp" in
              if (expiry <=? int_timestamp now)%Z then raise (WorkerIdentityError "worker token expired")
              else
                let bound_worker := get_str payload "wid" in
                if match worker_id with Some w => bool_decide (bound_worker ≠ w) | None => false end
                then raise (WorkerIdentityError "worker token does not match worker id")
                else
                  let* issued := get_int payload "iat" in
                  let* issued_at := from_timestamp issued in
                  let* expires_at := from_timestamp expiry in
                  let record := mkToken token_id bound_worker (get_str payload "tid") (get_str payload "kid") issued_at expires_at None in
                  if token_valid record then ret record else raise WorkerValidationError
        | Some _ => raise WorkerTypeError
        end
  end.

(** [revoke] *)
Definition revoke (token_id : string) : IdM unit := modify (λ s, mkIdentity ({[token_id]} ∪ id_revoked s) (id_ext s)).

(** *** What an accepted token is *)

(** The facts behind an accepted token: signed under the secret, naming the
    worker, not revoked, and not expired by the clock reading [now]. *)
Definition token_facts (token : string) (worker_id : option string) (revoked : gset string) (now : Z) (r : WorkerToken) : Prop :=
  ∃ encoded payload,
    rsplit_dot token = Some (encoded, sign encoded) ∧ unb64 encoded ≫= loads = Some (JObj payload) ∧
    get_str payload "jti" = tk_token_id r ∧ tk_token_id r ∉ revoked ∧
    get_str payload "wid" = tk_worker_id r ∧ (∀ w, worker_id = Some w → tk_worker_id r = w) ∧
    get_str payload "tid" = tk_tenant_id r ∧ token_valid r = true ∧ tk_revoked_at r = None ∧
    (int_timestamp now * 1000000 < tk_expires_at r)%Z.

Lemma get_int_pure d k s : ∃ o, get_int d k s = (o, s).
Proof.
  unfold get_int. destruct (od_get k d) as [[]|]; try (by eexists); unfold of_option; [destruct (f64_trunc _)|destruct (py_int _)]; by eexists.
Qed.

Lemma verify_inv token worker_id s r s' : verify token worker_id s = (Ret r, s') →
  s' = mkIdentity (id_revoked s) (token_clock (id_ext s)).2 ∧
  token_facts token worker_id (id_revoked s) (token_clock (id_ext s)).1 r.
Proof.
  unfold verify. destruct (rsplit_dot token) as [[encoded signature]|] eqn:Hs; [|done].
  destruct (negb (is_ascii_text encoded)); [done|]. destruct (negb (is_ascii_text signature)); [done|].
  case_bool_decide as Hsig; [done|]. subst signature.
  destruct (unb64 encoded ≫= loads) as [[| | | | | |payload]|] eqn:Hp; try done.
  unfold bind, gets. case_bool_decide as Hrev; [done|]. unfold of_ext.
  destruct (token_clock (id_ext s)) as [now x] eqn:Hnow. set (s1 := mkIdentity (id_revoked s) x).
  destruct (get_int_pure payload "exp" s1) as [[expiry|e] ->]; [|done].
  destruct (expiry <=? int_timestamp now)%Z eqn:Hexp; [done|].
  destruct (match worker_id with Some w => _ | None => false end) eqn:Hw; [done|].
  destruct (get_int_pure payload "iat" s1) as [[issued|e] ->]; [|done].
  unfold from_timestamp. destruct (dt_in_range (issued * 1000000)); [|done]. cbn [ret].
  destruct (dt_in_range (expiry * 1000000)); [|done]. cbn [ret].
  destruct (token_valid _) eqn:Hv; [|done]. intros [= <- <-]. split; [done|].
  exists encoded, payload. cbn. split_and!; try done; [|lia].
  intros w ->. by case_bool_decide.
Qed.

(** Refusing a token changes nothing but the clock. *)
Lemma verify_revoked token worker_id s : id_revoked (verify token worker_id s).2 = id_revoked s.
Proof.
  unfold verify. destruct (rsplit_dot token) as [[encoded signature]|]; [|done].
  destruct (negb (is_ascii_text encoded)); [done|]. destruct (negb (is_ascii_text signature)); [done|].
  case_bool_decide; [done|]. destruct (unb64 encoded ≫= loads) as [[| | | | | |payload]|]; try done.
  unfold bind, gets. case_bool_decide; [done|]. unfold of_ext. destruct (token_clock _) as [now x]. set (s1 := mkIdentity _ x).
  destruct (get_int_pure payload "exp" s1) as [[expiry|e] ->]; [|done]. destruct (expiry <=? _)%Z; [done|].
  destruct (match worker_id with Some w => _ | None => false end); [done|].
  destruct (get_int_pure payload "iat" s1) as [[issued|e] ->]; [|done].
  unfold from_timestamp. destruct (dt_in_range (issued * 1000000)); [|done]. cbn [ret].
  destruct (dt_in_range (expiry * 1000000)); [|done]. cbn [ret]. by destruct (token_valid _).
Qed.

(** *** An issued token is accepted *)

Definition url_text (c : ascii) : bool := (nat_of_ascii c <? 128)%nat && negb (bool_decide (c = "."%char)).

Lemma url_char_text n : (0 ≤ n < 64)%Z → url_text (url_char (Base64.digit64 n)) = true.
Proof.
  intros Hn. assert (forallb (λ m, url_text (url_char (Base64.digit64 (Z.of_nat m)))) (seq 0 64) = true) as H by by vm_compute.
  rewrite forallb_forall in H. specialize (H (Z.to_nat n)). rewrite Z2Nat.id in H by lia. apply H, in_seq. lia.
Qed.

Lemma b64_text s : all_chars url_text (b64 s) = true.
Proof.
  unfold b64, b64_list. destruct (encode_shape (String.list_ascii_of_string s)) as (ns & k & -> & Hns & _).
  rewrite strip_digits by done. induction Hns as [|n ns Hn _ IH]; [done|].
  rewrite !fmap_cons. cbn [String.string_of_list_ascii all_chars]. rewrite url_char_text by done. exact IH.
Qed.

Lemma url_text_ascii s : all_chars url_text s = true → is_ascii_text s = true.
Proof. apply all_chars_mono. unfold url_text. by intros c [? _]%andb_true_iff. Qed.

Lemma rsplit_no_dot b : all_chars url_text b = true → rsplit_dot b = None.
Proof.
  induction b as [|c b IH]; [done|]. cbn. intros [Hc Hb]%andb_true_iff. rewrite IH by done.
  apply andb_true_iff in Hc as [_ Hc%negb_true_iff]. by rewrite Hc.
Qed.

Lemma rsplit_append a b : all_chars url_text b = true → rsplit_dot (a +:+ "." +:+ b) = Some (a, b).
Proof. intros Hb. induction a as [|c a IH]; cbn; [by rewrite rsplit_no_dot|]. cbn in IH. by rewrite IH. Qed.

(** Issue, then verify: the token is accepted as its record, times cut to whole
    seconds, as long as it is neither revoked nor expired. *)
Lemma issued_verifies worker_id tenant_id ttl s i s1 s2 :
  (∀ p, loads (Canonical.dumps float_repr (JObj (token_payload p))) = Some (JObj (token_payload p))) →
  issue worker_id tenant_id ttl s = (Ret i, s1) →
  let r := ti_record i in
  let iat := int_timestamp (tk_issued_at r) in let exp := int_timestamp (tk_expires_at r) in
  dt_in_range (iat * 1000000) = true → dt_in_range (exp * 1000000) = true →
  tk_token_id r ∉ id_revoked s2 → (int_timestamp (token_clock (id_ext s2)).1 < exp)%Z →
  verify (ti_token i) (Some worker_id) s2 =
    (Ret (mkToken (tk_token_id r) worker_id tenant_id key_id (iat * 1000000) (exp * 1000000) None),
     mkIdentity (id_revoked s2) (token_clock (id_ext s2)).2).
Proof.
  intros Hloads Hissue. unfold issue, bind, of_ext, plus_seconds in Hissue.
  destruct (token_clock (id_ext s)) as [now x1]. destruct (token_id_factory _) as [jti x2].
  destruct (dt_in_range (now + _)) eqn:Hr; [|done]. cbn [ret] in Hissue.
  destruct (token_valid _) eqn:Hv; [|done]. injection Hissue as <- <-. cbn. intros Hi He Hrev Hexp.
  set (p := token_payload _). unfold verify, token_text.
  rewrite rsplit_append by apply b64_text. rewrite !url_text_ascii by apply b64_text. cbn [negb].
  rewrite bool_decide_eq_false_2 by (intros H; by apply H). rewrite unb64_b64.
  assert (Some (Canonical.dumps float_repr (JObj p)) ≫= loads = Some (JObj p)) as -> by exact (Hloads _).
  set (exp := (now + _)%Z) in *.
  assert (get_int p "exp" = ret (int_timestamp exp)) as Ge by done. assert (get_int p "iat" = ret (int_timestamp now)) as Gi by done.
  assert (get_str p "jti" = jti ∧ get_str p "wid" = worker_id ∧ get_str p "tid" = tenant_id ∧ get_str p "kid" = key_id) as (-> & -> & -> & ->) by done.
  rewrite Ge, Gi. unfold bind, gets. rewrite bool_decide_eq_false_2 by exact Hrev. unfold of_ext.
  destruct (token_clock (id_ext s2)) as [t x]. unfold ret. rewrite (proj2 (Z.leb_gt _ _)) by exact Hexp.
  rewrite bool_decide_eq_false_2 by (intros H; by apply H). unfold from_timestamp. rewrite Hi, He. unfold ret, token_valid in *. cbn in Hv |- *. by rewrite Hv.
Qed.
End Service.
