(* ===== verification/Workers.v ===== *)
(** * Workers and their leases ([worker/registry.py], [worker/store.py] in
    memory, [worker/daemon.py])

    Enrolment, registration, heartbeats, the leases that give runs to workers,
    fenced reports, and the reclaiming of leases from expired or crashed
    workers.  The store copies on write and on read and lists in sorted order,
    so its dictionaries are maps.  The leader-gated reclaim pass of
    [api/app.py] is here too, over any store of [Leader].  Clocks and identifiers act on the state of
    the identity service's environment. *)

From stdpp Require Import base strings pretty numbers gmap fin_maps list.
From S2P Require Import Prelude Text Tenancy Leader WorkerIdentity.

#[local] Open Scope hp_scope.

Record RegistrationRequest := mkRegistration { rq_worker_id : string; rq_token : string; rq_version : string; rq_capabilities : WorkerCapabilities }.

Record HeartbeatRequest := mkHeartbeatRequest { hr_token : string; hr_running : Z; hr_max_concurrency : Z; hr_lease_ids : list string }.

Record RunAssignment := mkAssignment { as_lease : WorkerLease; as_workload_id : string; as_run_id : string; as_reassigned_from : option string }.

Record WorkerReport := mkReport {
  wr_worker_id : string; wr_lease_id : string; wr_run_id : string; wr_fencing_token : Z; wr_state : WorkerState; wr_usage_usd : Float64.f64 }.

Record FleetEntry := mkFleetEntry { fe_worker : Worker; fe_load : nat; fe_active_leases : list string }.

(** ** Store and environment *)

Record World (X : Type) := mkWorld {
  ww_workers : gmap (string * string) Worker;
  ww_leases : gmap string WorkerLease;
  ww_heartbeats : gmap string (list WorkerHeartbeat);
  ww_tokens : gmap string WorkerToken;
  ww_identity : Identity X;
}.
Arguments mkWorld {X}.
Arguments ww_workers {X}.
Arguments ww_leases {X}.
Arguments ww_heartbeats {X}.
Arguments ww_tokens {X}.
Arguments ww_identity {X}.

Record Env (X : Type) := mkEnv {
  en_hmac : string → string → string;
  en_loads : string → option CoreModels.JsonValue;
  en_float_repr : Float64.f64 → string;
  en_token_clock : X → Z * X;
  en_token_id : X → string * X;
  en_secret : string;
  en_key_id : string;
  en_ttl_seconds : Z;
  en_clock : X → Z * X;
  en_lease_id : X → string * X;
  en_heartbeat_id : X → string * X;
  en_heartbeat_timeout_s : Z;
  en_lease_ttl_s : Z;
}.
Arguments en_hmac {X}.
Arguments en_loads {X}.
Arguments en_float_repr {X}.
Arguments en_token_clock {X}.
Arguments en_token_id {X}.
Arguments en_secret {X}.
Arguments en_key_id {X}.
Arguments en_ttl_seconds {X}.
Arguments en_clock {X}.
Arguments en_lease_id {X}.
Arguments en_heartbeat_id {X}.
Arguments en_heartbeat_timeout_s {X}.
Arguments en_lease_ttl_s {X}.

Section Workers.
Context {X : Type}.

Abbreviation WM := (M (World X) WorkerExn).

Definition set_workers (f : gmap (string * string) Worker → gmap (string * string) Worker) (w : World X) : World X :=
  mkWorld (f (ww_workers w)) (ww_leases w) (ww_heartbeats w) (ww_tokens w) (ww_identity w).
Definition set_leases (f : gmap string WorkerLease → gmap string WorkerLease) (w : World X) : World X :=
  mkWorld (ww_workers w) (f (ww_leases w)) (ww_heartbeats w) (ww_tokens w) (ww_identity w).
Definition set_heartbeats (f : gmap string (list WorkerHeartbeat) → gmap string (list WorkerHeartbeat)) (w : World X) : World X :=
  mkWorld (ww_workers w) (ww_leases w) (f (ww_heartbeats w)) (ww_tokens w) (ww_identity w).
Definition set_tokens (f : gmap string WorkerToken → gmap string WorkerToken) (w : World X) : World X :=
  mkWorld (ww_workers w) (ww_leases w) (ww_heartbeats w) (f (ww_tokens w)) (ww_identity w).

(** *** [InMemoryWorkerStore] *)

Definition save_worker (worker : Worker) (ctx : TenantContext) : WM unit :=
  require WorkerScopeError ctx (wk_tenant_id worker) ;;;
  modify (set_workers <[(wk_tenant_id worker, wk_worker_id worker) := worker]>).

Definition get_worker (worker_id tenant_id : string) (ctx : TenantContext) : WM (option Worker) :=
  gets (λ w, if scopes ctx tenant_id then ww_workers w !! (tenant_id, worker_id) else None).

(** The order of [sorted] on the keys (tenant, worker). *)
Definition key_leb (a b : string * string) : bool :=
  if bool_decide (a.1 = b.1) then str_leb a.2 b.2 else str_leb a.1 b.1.

Definition sorted_workers (w : World X) : list Worker :=
  (py_sort (λ a b, key_leb a.1 b.1) (map_to_list (ww_workers w))).*2.

Definition list_workers (tenant_id : string) (ctx : TenantContext) : WM (list Worker) :=
  gets (λ w, if scopes ctx tenant_id
             then (filter (λ e, e.1.1 = tenant_id) (py_sort (λ a b, key_leb a.1 b.1) (map_to_list (ww_workers w)))).*2
             else []).

Definition list_all_workers (ctx : TenantContext) : WM (list Worker) :=
  if tc_is_system ctx then gets sorted_workers else raise WorkerScopeError.

Definition save_lease (lease : WorkerLease) (ctx : TenantContext) : WM unit :=
  require WorkerScopeError ctx (wl_tenant_id lease) ;;; modify (set_leases <[wl_lease_id lease := lease]>).

Definition lease_in (lease_id : string) (ctx : TenantContext) (w : World X) : option WorkerLease :=
  match ww_leases w !! lease_id with
  | Some lease => if scopes ctx (wl_tenant_id lease) then Some lease else None
  | None => None
  end.

Definition get_lease (lease_id : string) (ctx : TenantContext) : WM (option WorkerLease) := gets (lease_in lease_id ctx).

Definition sort_leases (l : list WorkerLease) : list WorkerLease := py_sort (λ a b, str_leb (wl_lease_id a) (wl_lease_id b)) l.

Definition list_all_leases (ctx : TenantContext) : WM (list WorkerLease) :=
  if tc_is_system ctx then gets (λ w, sort_leases (map_to_list (ww_leases w)).*2) else raise WorkerScopeError.

Definition leases_of (tenant_id : string) (worker_id : option string) (w : World X) : list WorkerLease :=
  sort_leases (filter (λ l, wl_tenant_id l = tenant_id ∧ opt_is worker_id (wl_worker_id l) = true)
    (map_to_list (ww_leases w)).*2).

Definition list_leases (tenant_id : string) (worker_id : option string) (ctx : TenantContext) : WM (list WorkerLease) :=
  gets (λ w, if scopes ctx tenant_id then leases_of tenant_id worker_id w else []).

Definition delete_lease (lease_id : string) (ctx : TenantContext) : WM unit :=
  λ w, (Ret tt, if lease_in lease_id ctx w then set_leases (delete lease_id) w else w).

Definition claim_lease (lease_id : string) (ctx : TenantContext) : WM (option WorkerLease) :=
  λ w, match lease_in lease_id ctx w with
       | Some lease => (Ret (Some lease), set_leases (delete lease_id) w)
       | None => (Ret None, w)
       end.

Definition save_heartbeat (h : WorkerHeartbeat) (ctx : TenantContext) : WM unit :=
  require WorkerScopeError ctx (hb_tenant_id h) ;;;
  modify (set_heartbeats (λ m, <[hb_worker_id h := default [] (m !! hb_worker_id h) ++ [h]]> m)).

Definition list_heartbeats (worker_id : string) (ctx : TenantContext) : WM (list WorkerHeartbeat) :=
  gets (λ w, filter (λ h, scopes ctx (hb_tenant_id h) = true) (default [] (ww_heartbeats w !! worker_id))).

Definition save_token (t : WorkerToken) (ctx : TenantContext) : WM unit :=
  require WorkerScopeError ctx (tk_tenant_id t) ;;; modify (set_tokens <[tk_token_id t := t]>).

Definition get_token (token_id : string) (ctx : TenantContext) : WM (option WorkerToken) :=
  gets (λ w, match ww_tokens w !! token_id with
             | Some t => if scopes ctx (tk_tenant_id t) then Some t else None
             | None => None
             end).

(** ** The registry *)

Variable env : Env X.

Definition on_identity {A} (m : M (Identity X) WorkerExn A) : WM A :=
  λ w, let '(o, i) := m (ww_identity w) in
       (o, mkWorld (ww_workers w) (ww_leases w) (ww_heartbeats w) (ww_tokens w) i).

Definition now_tick : WM Z := on_identity (of_ext (en_clock env)).

(** [_scope] *)
Definition scope (tenant_id : string) (ctx : TenantContext) : TenantContext :=
  if scopes ctx tenant_id then ctx else context_for_run tenant_id None None.

(** [enroll] *)
Definition enroll (worker_id tenant_id : string) (ttl : option Z) (ctx : TenantContext) : WM WorkerTokenIssued :=
  let* issued := on_identity (issue (en_hmac env) (en_float_repr env) (en_token_clock env) (en_token_id env)
                    (en_secret env) (en_key_id env) (en_ttl_seconds env) worker_id tenant_id ttl) in
  save_token (ti_record issued) (scope tenant_id ctx) ;;; ret issued.

Definition token_revoked_at (now : Z) (t : WorkerToken) : WorkerToken :=
  mkToken (tk_token_id t) (tk_worker_id t) (tk_tenant_id t) (tk_key_id t) (tk_issued_at t) (tk_expires_at t) (Some now).

(** [revoke_token] *)
Definition revoke_token (token_id tenant_id : string) (ctx : TenantContext) : WM (option WorkerToken) :=
  let* token := get_token token_id (scope tenant_id ctx) in
  match token with
  | None => ret None
  | Some token =>
      let* now := now_tick in
      let token := token_revoked_at now token in
      save_token token (scope tenant_id ctx) ;;; on_identity (revoke token_id) ;;; ret (Some token)
  end.

(** [_verify_token] *)
Definition verify_token (token worker_id : string) : WM WorkerToken :=
  let* record := on_identity (verify (en_hmac env) (en_loads env) (en_float_repr env) (en_token_clock env) (en_secret env)
                   token (Some worker_id)) in
  let* stored := get_token (tk_token_id record) SYSTEM_CONTEXT in
  if match stored with Some t => bool_decide (tk_revoked_at t ≠ None) | None => false end
  then raise (WorkerIdentityError "worker token revoked") else ret record.

(** [_require] *)
Definition require_worker (worker_id tenant_id : string) (ctx : TenantContext) : WM Worker :=
  let* worker := get_worker worker_id tenant_id (scope tenant_id ctx) in of_option (UnknownWorkerError worker_id) worker.

(** [register] *)
Definition register (request : RegistrationRequest) (tenant_id : string) (ctx : TenantContext) : WM Worker :=
  let* token := verify_token (rq_token request) (rq_worker_id request) in
  if bool_decide (tk_tenant_id token ≠ tenant_id) then raise (WorkerIdentityError "worker token tenant mismatch")
  else
    let* now := now_tick in
    let worker := mkWorker (rq_worker_id request) tenant_id READY (rq_capabilities request) (rq_version request) now now in
    if worker_valid worker then save_worker worker (scope tenant_id ctx) ;;; ret worker else raise WorkerValidationError.

Definition seen (now : Z) (w : Worker) : Worker :=
  mkWorker (wk_worker_id w) (wk_tenant_id w) (wk_state w) (wk_capabilities w) (wk_version w) (wk_registered_at w) now.
Definition in_state (s : WorkerState) (w : Worker) : Worker :=
  mkWorker (wk_worker_id w) (wk_tenant_id w) s (wk_capabilities w) (wk_version w) (wk_registered_at w) (wk_last_seen_at w).
Definition lease_until (t : Z) (l : WorkerLease) : WorkerLease :=
  mkWorkerLease (wl_lease_id l) (wl_tenant_id l) (wl_run_id l) (wl_worker_id l) (wl_workload_id l) (wl_attempt l)
    (wl_granted_at l) t (wl_fencing_token l).

(** The loop of [heartbeat] over the leases to renew. *)
Fixpoint renew_leases (lease_ids : list string) (worker_id tenant_id : string) (now : Z) (ctx : TenantContext) : WM unit :=
  match lease_ids with
  | [] => ret tt
  | lease_id :: rest =>
      let* lease := get_lease lease_id (scope tenant_id ctx) in
      match lease with
      | Some lease =>
          if bool_decide (wl_worker_id lease = worker_id)
          then let* t := plus_seconds now (en_lease_ttl_s env) in save_lease (lease_until t lease) (scope tenant_id ctx)
          else ret tt
      | None => ret tt
      end ;;; renew_leases rest worker_id tenant_id now ctx
  end.

Definition held (s : WorkerState) : bool := bool_decide (s = DRAINING) || bool_decide (s = MAINTENANCE).

(** [heartbeat] *)
Definition heartbeat (worker_id : string) (request : HeartbeatRequest) (tenant_id : string) (ctx : TenantContext) : WM Worker :=
  verify_token (hr_token request) worker_id ;;;
  let* worker := require_worker worker_id tenant_id ctx in
  let* now := now_tick in
  let worker := seen now worker in
  renew_leases (hr_lease_ids request) worker_id tenant_id now ctx ;;;
  let worker := if held (wk_state worker) then worker
                else in_state (if (hr_max_concurrency request <=? hr_running request)%Z then BUSY else READY) worker in
  save_worker worker (scope tenant_id ctx) ;;;
  let* hid := on_identity (of_ext (en_heartbeat_id env)) in
  let h := mkHeartbeat hid tenant_id worker_id now (wk_state worker) in
  (if heartbeat_valid h then ret tt else raise WorkerValidationError) ;;;
  save_heartbeat h (scope tenant_id ctx) ;;; ret worker.

Definition or_text (o : option string) (d : string) : string :=
  match o with Some s => if bool_decide (s = EmptyString) then d else s | None => d end.

(** [grant] *)
Definition grant (worker_id run_id : string) (workload_id : option string) (tenant_id : string) (attempt fencing_token : Z)
    (ctx : TenantContext) : WM RunAssignment :=
  let* worker := require_worker worker_id tenant_id ctx in
  if negb (bool_decide (wk_state worker = READY)) then raise (WorkerNotReadyError worker_id (wk_state worker))
  else
    let* now := now_tick in
    let* lease_id := on_identity (of_ext (en_lease_id env)) in
    let* expires := plus_seconds now (en_lease_ttl_s env) in
    let lease := mkWorkerLease lease_id tenant_id run_id worker_id workload_id attempt now expires fencing_token in
    (if worker_lease_valid lease then ret tt else raise WorkerValidationError) ;;;
    save_lease lease (scope tenant_id ctx) ;;;
    let* active := list_leases tenant_id (Some worker_id) (scope tenant_id ctx) in
    (if (Z.max (wc_capacity (wk_capabilities worker)) 1 <=? Z.of_nat (length active))%Z
     then save_worker (in_state BUSY worker) (scope tenant_id ctx) else ret tt) ;;;
    ret (mkAssignment lease (or_text workload_id run_id) run_id None).

(** [accept] *)
Definition accept (lease_id token : string) : WM WorkerLease :=
  let* lease := get_lease lease_id SYSTEM_CONTEXT in
  match lease with
  | None => raise (StaleLeaseError lease_id 0)
  | Some lease => verify_token token (wl_worker_id lease) ;;; ret lease
  end.

(** [report] *)
Definition report (r : WorkerReport) (token : string) : WM Worker :=
  verify_token token (wr_worker_id r) ;;;
  let* lease := get_lease (wr_lease_id r) SYSTEM_CONTEXT in
  match lease with
  | Some lease =>
      if negb (bool_decide (wl_fencing_token lease = wr_fencing_token r))
      then raise (StaleLeaseError (wr_lease_id r) (wr_fencing_token r))
      else
        let sc := context_for_run (wl_tenant_id lease) None None in
        delete_lease (wl_lease_id lease) sc ;;;
        let* worker := require_worker (wr_worker_id r) (wl_tenant_id lease) sc in
        let worker := if held (wk_state worker) then worker else in_state READY worker in
        let* now := now_tick in
        let worker := seen now worker in
        save_worker worker sc ;;; ret worker
  | None => raise (StaleLeaseError (wr_lease_id r) (wr_fencing_token r))
  end.

(** [leases] *)
Definition leases (worker_id tenant_id : string) (ctx : TenantContext) : WM (list WorkerLease) :=
  list_leases tenant_id (Some worker_id) (scope tenant_id ctx).

(** [_set_state], and [drain], [maintenance], [resume] *)
Definition set_state (worker_id : string) (state : WorkerState) (tenant_id : string) (ctx : TenantContext) : WM Worker :=
  let* worker := require_worker worker_id tenant_id ctx in
  let* now := now_tick in
  let worker := seen now (in_state state worker) in
  save_worker worker (scope tenant_id ctx) ;;; ret worker.

Definition drain (worker_id tenant_id : string) (ctx : TenantContext) : WM Worker := set_state worker_id DRAINING tenant_id ctx.
Definition maintenance (worker_id tenant_id : string) (ctx : TenantContext) : WM Worker := set_state worker_id MAINTENANCE tenant_id ctx.
Definition resume (worker_id tenant_id : string) (ctx : TenantContext) : WM Worker := set_state worker_id READY tenant_id ctx.

(** [_find_ready] *)
Fixpoint first_ready (candidates : list Worker) (tenant_id exclude : string) (ctx : TenantContext) : WM (option Worker) :=
  match candidates with
  | [] => ret None
  | worker :: rest =>
      if bool_decide (wk_worker_id worker = exclude) || negb (bool_decide (wk_state worker = READY))
      then first_ready rest tenant_id exclude ctx
      else
        let* active := list_leases tenant_id (Some (wk_worker_id worker)) (scope tenant_id ctx) in
        if (Z.of_nat (length active) <? Z.max (wc_capacity (wk_capabilities worker)) 1)%Z then ret (Some worker)
        else first_ready rest tenant_id exclude ctx
  end.

Definition find_ready (tenant_id exclude : string) (ctx : TenantContext) : WM (option Worker) :=
  let* candidates := list_workers tenant_id (scope tenant_id ctx) in first_ready candidates tenant_id exclude ctx.

(** [_reassign] *)
Definition reassign (lease : WorkerLease) : WM (option RunAssignment) :=
  let sc := context_for_run (wl_tenant_id lease) None None in
  let* target := find_ready (wl_tenant_id lease) (wl_worker_id lease) sc in
  match target with
  | None => ret None
  | Some target =>
      let* a := grant (wk_worker_id target) (wl_run_id lease) (wl_workload_id lease) (wl_tenant_id lease)
                  (wl_attempt lease + 1) (wl_fencing_token lease + 1) sc in
      ret (Some (mkAssignment (as_lease a) (as_workload_id a) (as_run_id a) (Some (wl_worker_id lease))))
  end.

(** The loop of [deregister] over the worker's leases. *)
Fixpoint hand_over (l : list WorkerLease) (sc : TenantContext) : WM unit :=
  match l with
  | [] => ret tt
  | lease :: rest =>
      let* claimed := claim_lease (wl_lease_id lease) sc in
      match claimed with Some c => reassign c ;;; ret tt | None => ret tt end ;;; hand_over rest sc
  end.

(** [deregister] *)
Definition deregister (worker_id tenant_id : string) (ctx : TenantContext) : WM Worker :=
  let* worker := set_state worker_id DEREGISTERED tenant_id ctx in
  let* l := list_leases tenant_id (Some worker_id) (scope tenant_id ctx) in
  hand_over l (scope tenant_id ctx) ;;; ret worker.

(** The loop of [mark_unhealthy]. *)
Fixpoint mark_stale (l : list Worker) (cutoff : Z) : WM (list string) :=
  match l with
  | [] => ret []
  | worker :: rest =>
      if bool_decide (wk_state worker = DEREGISTERED) || bool_decide (wk_state worker = MAINTENANCE) then mark_stale rest cutoff
      else if (wk_last_seen_at worker <? cutoff)%Z then
        save_worker (in_state UNHEALTHY worker) SYSTEM_CONTEXT ;;;
        let* ids := mark_stale rest cutoff in ret (wk_worker_id worker :: ids)
      else mark_stale rest cutoff
  end.

Definition moment (now : option Z) : WM Z := match now with Some t => ret t | None => now_tick end.

(** [mark_unhealthy] *)
Definition mark_unhealthy (now timeout_s : option Z) : WM (list string) :=
  let* t := moment now in
  let* cutoff := plus_seconds t (- default (en_heartbeat_timeout_s env) timeout_s) in
  let* l := list_all_workers SYSTEM_CONTEXT in mark_stale l cutoff.

(** A lease whose time is over or whose worker crashed. *)
Definition lease_due (t : Z) (lease : WorkerLease) (worker : option Worker) : bool :=
  (wl_expires_at lease <=? t)%Z || match worker with Some w => bool_decide (wk_state w = UNHEALTHY) | None => false end.

(** The loop of [reclaim]. *)
Fixpoint reclaim_each (l : list WorkerLease) (t : Z) : WM (list RunAssignment) :=
  match l with
  | [] => ret []
  | lease :: rest =>
      let sc := context_for_run (wl_tenant_id lease) None None in
      let* worker := get_worker (wl_worker_id lease) (wl_tenant_id lease) sc in
      if negb (lease_due t lease worker) then reclaim_each rest t
      else
        let* claimed := claim_lease (wl_lease_id lease) sc in
        match claimed with
        | None => reclaim_each rest t
        | Some c =>
            let* a := reassign c in
            let* others := reclaim_each rest t in
            ret match a with Some a => a :: others | None => others end
        end
  end.

(** [reclaim] *)
Definition reclaim (now : option Z) : WM (list RunAssignment) :=
  let* t := moment now in
  let* l := list_all_leases SYSTEM_CONTEXT in reclaim_each l t.

(** The loop of [fleet], and [fleet] *)
Fixpoint fleet_entries (l : list Worker) (tenant_id : string) (ctx : TenantContext) : WM (list FleetEntry) :=
  match l with
  | [] => ret []
  | worker :: rest =>
      let* ls := list_leases tenant_id (Some (wk_worker_id worker)) (scope tenant_id ctx) in
      let* entries := fleet_entries rest tenant_id ctx in
      ret (mkFleetEntry worker (length ls) (wl_lease_id <$> ls) :: entries)
  end.

Definition fleet (tenant_id : string) (ctx : TenantContext) : WM (list FleetEntry) :=
  let* l := list_workers tenant_id (scope tenant_id ctx) in fleet_entries l tenant_id ctx.

(** ** The daemon *)

Variable runner : RunAssignment → WM bool.

(** The loop of [tick]: a runner that raises has failed; a refused report ends
    the tick. *)
Fixpoint tick_each (l : list WorkerLease) (worker_id token : string) : WM (list WorkerReport) :=
  match l with
  | [] => ret []
  | lease :: rest =>
      let assignment := mkAssignment lease (or_text (wl_workload_id lease) (wl_run_id lease)) (wl_run_id lease) None in
      let* succeeded := try_except (runner assignment) (λ _, ret false) in
      let r := mkReport worker_id (wl_lease_id lease) (wl_run_id lease) (wl_fencing_token lease)
                 (if succeeded : bool then READY else UNHEALTHY) Float64.f64_zero in
      report r token ;;;
      let* reports := tick_each rest worker_id token in ret (r :: reports)
  end.

(** [WorkerDaemon.tick], [heartbeat], [enroll_and_register] *)
Definition tick (worker_id token tenant_id : string) : WM (list WorkerReport) :=
  let* l := leases worker_id tenant_id DEFAULT_CONTEXT in tick_each l worker_id token.

Definition daemon_heartbeat (worker_id token tenant_id : string) (running max_concurrency : Z) : WM unit :=
  let* l := leases worker_id tenant_id DEFAULT_CONTEXT in
  heartbeat worker_id (mkHeartbeatRequest token running max_concurrency (wl_lease_id <$> l)) tenant_id DEFAULT_CONTEXT ;;; ret tt.

Definition enroll_and_register (worker_id tenant_id version : string) (caps : WorkerCapabilities) : WM string :=
  let* issued := enroll worker_id tenant_id None DEFAULT_CONTEXT in
  register (mkRegistration worker_id (ti_token issued) version caps) tenant_id DEFAULT_CONTEXT ;;; ret (ti_token issued).

(** ** The leader-gated pass *)

Section Cycle.
Context {L : Type} `{!LeaderStore L}.
Variable elector_clock : X → Z * X.

Inductive CycleExn := CycleWorker (e : WorkerExn) | CycleLeader (e : LeaderExn).

Abbreviation CM := (M (L * World X) CycleExn).

Definition on_leader {A} (m : M L LeaderExn A) : CM A :=
  λ s, let '(o, l) := m s.1 in (match o with Ret a => Ret a | Raise e => Raise (CycleLeader e) end, (l, s.2)).
Definition on_workers {A} (m : WM A) : CM A :=
  λ s, let '(o, w) := m s.2 in (match o with Ret a => Ret a | Raise e => Raise (CycleWorker e) end, (s.1, w)).

Definition elector_now : CM Z := on_workers (on_identity (of_ext elector_clock)).

(** [run_worker_reclaim_cycle]; the result of [renew] is not looked at. *)
Definition run_worker_reclaim_cycle (e : LeaderElector) : CM (list RunAssignment) :=
  let* t := elector_now in
  let* leading := on_leader (is_leader e t) in
  let* t' := elector_now in
  let* go := (if leading : bool then on_leader (renew_lease e t') ;;; ret true else on_leader (Leader.acquire e t')) in
  if go : bool then on_workers (mark_unhealthy None None) ;;; on_workers (reclaim None) else ret [].
End Cycle.
End Workers.
