(* ===== verification/WorkerLeases.v ===== *)
(** * What a sequence of worker-registry calls does to the leases

    Superseded leases stay dead, a run is leased at most once, what a reclaim
    pass leaves behind, and what a report needs. *)

From stdpp Require Import base strings pretty numbers gmap fin_maps list.
From S2P Require Import Prelude Text Tenancy Leader WorkerIdentity Workers.

#[local] Open Scope hp_scope.

Inductive WorkerOp :=
  | OpEnroll (worker_id tenant_id : string) (ttl : option Z) (ctx : TenantContext)
  | OpRevoke (token_id tenant_id : string) (ctx : TenantContext)
  | OpRegister (request : RegistrationRequest) (tenant_id : string) (ctx : TenantContext)
  | OpHeartbeat (worker_id : string) (request : HeartbeatRequest) (tenant_id : string) (ctx : TenantContext)
  | OpGrant (worker_id run_id : string) (workload_id : option string) (tenant_id : string) (attempt fencing_token : Z) (ctx : TenantContext)
  | OpAccept (lease_id token : string)
  | OpReport (r : WorkerReport) (token : string)
  | OpSetState (worker_id : string) (state : WorkerState) (tenant_id : string) (ctx : TenantContext)
  | OpDeregister (worker_id tenant_id : string) (ctx : TenantContext)
  | OpMarkUnhealthy (now timeout_s : option Z)
  | OpReclaim (now : option Z).

Section Leases.
Context {X : Type} (env : Env X).

Definition run_op (o : WorkerOp) (w : World X) : World X :=
  match o with
  | OpEnroll i t ttl ctx => (enroll env i t ttl ctx w).2
  | OpRevoke i t ctx => (revoke_token env i t ctx w).2
  | OpRegister rq t ctx => (register env rq t ctx w).2
  | OpHeartbeat i rq t ctx => (heartbeat env i rq t ctx w).2
  | OpGrant i r wl t a f ctx => (grant env i r wl t a f ctx w).2
  | OpAccept i tok => (accept env i tok w).2
  | OpReport r tok => (report env r tok w).2
  | OpSetState i s t ctx => (set_state env i s t ctx w).2
  | OpDeregister i t ctx => (deregister env i t ctx w).2
  | OpMarkUnhealthy n t => (mark_unhealthy env n t w).2
  | OpReclaim n => (reclaim env n w).2
  end.

Fixpoint run_ops (l : list WorkerOp) (w : World X) : World X :=
  match l with [] => w | o :: l' => run_ops l' (run_op o w) end.

(** ** Lease steps

    Every call is a sequence of steps on the lease table and the environment:
    the environment is read, a lease is removed, renewed, granted, or moved to
    another worker.  Only [grant] called from outside takes grant steps. *)

Inductive quiet : X → X → Prop :=
  | QClock x : quiet x (en_clock env x).2
  | QTokenClock x : quiet x (en_token_clock env x).2
  | QTokenId x : quiet x (en_token_id env x).2
  | QHeartbeat x : quiet x (en_heartbeat_id env x).2
  | QLeaseId x : quiet x (en_lease_id env x).2.

Abbreviation table := (gmap string WorkerLease).

(** The lease that takes over the run of [old]. *)
Definition successor (old l : WorkerLease) : Prop :=
  wl_tenant_id l = wl_tenant_id old ∧ wl_run_id l = wl_run_id old ∧ wl_workload_id l = wl_workload_id old ∧
  wl_attempt l = (wl_attempt old + 1)%Z ∧ wl_fencing_token l = (wl_fencing_token old + 1)%Z ∧ wl_worker_id l ≠ wl_worker_id old.

Inductive lease_step (granting : bool) : table * X → table * X → Prop :=
  | LQuiet m x x' : quiet x x' → lease_step granting (m, x) (m, x')
  | LDelete m x i : lease_step granting (m, x) (delete i m, x)
  | LRenew m x i l t : m !! i = Some l → lease_step granting (m, x) (<[wl_lease_id l := lease_until t l]> m, x)
  | LMove m x x' i old l : m !! i = Some old → successor old l → rtc quiet x x' → wl_lease_id l = (en_lease_id env x').1 →
      lease_step granting (m, x) (<[wl_lease_id l := l]> (delete i m), (en_lease_id env x').2)
  | LGrant m x l : granting = true → wl_lease_id l = (en_lease_id env x).1 →
      lease_step granting (m, x) (<[wl_lease_id l := l]> m, (en_lease_id env x).2).

Definition ext (w : World X) : X := id_ext (ww_identity w).
Definition view (w : World X) : table * X := (ww_leases w, ext w).

Definition steps (granting : bool) (w w' : World X) : Prop := rtc (lease_step granting) (view w) (view w').

#[local] Instance steps_preorder g : PreOrder (steps g).
Proof. unfold steps. split; [intros w; reflexivity|intros a b c ? ?; by etrans]. Qed.

Lemma steps_same g w w' : view w' = view w → steps g w w'.
Proof. unfold steps. intros ->. reflexivity. Qed.

Lemma steps_quiet g (w w' : World X) : ww_leases w' = ww_leases w → rtc quiet (ext w) (ext w') → steps g w w'.
Proof.
  intros Hm Hx. unfold steps, view. rewrite Hm. revert Hx. generalize (ext w), (ext w').
  induction 1 as [|x y z Hxy _ IH]; [done|]. eapply rtc_l; [by apply LQuiet|done].
Qed.

Ltac same := intros ?; apply steps_same; reflexivity.

Lemma steps_gets g {A} (f : World X → A) : keeps (steps g) (gets (E := WorkerExn) f).
Proof. same. Qed.

Lemma steps_require g ctx t : keeps (steps g) (require (W := World X) WorkerScopeError ctx t).
Proof. unfold require. destruct (scopes ctx t); same. Qed.

Lemma steps_save_worker g worker ctx : keeps (steps g) (save_worker worker ctx).
Proof. apply keeps_bind; [apply _|apply steps_require|intros; same]. Qed.

Lemma steps_get_worker g i t ctx : keeps (steps g) (get_worker (X := X) i t ctx).
Proof. same. Qed.

Lemma steps_list_leases g t i ctx : keeps (steps g) (list_leases (X := X) t i ctx).
Proof. same. Qed.

Lemma steps_list_workers g t ctx : keeps (steps g) (list_workers (X := X) t ctx).
Proof. same. Qed.

Lemma steps_get_lease g i ctx : keeps (steps g) (get_lease (X := X) i ctx).
Proof. same. Qed.

Lemma steps_save_heartbeat g h ctx : keeps (steps g) (save_heartbeat (X := X) h ctx).
Proof. apply keeps_bind; [apply _|apply steps_require|intros; same]. Qed.

Lemma steps_save_token g t ctx : keeps (steps g) (save_token (X := X) t ctx).
Proof. apply keeps_bind; [apply _|apply steps_require|intros; same]. Qed.

Lemma steps_get_token g t ctx : keeps (steps g) (get_token (X := X) t ctx).
Proof. same. Qed.

Lemma steps_plus g now ttl : keeps (steps g) (plus_seconds (W := World X) now ttl).
Proof. unfold plus_seconds. destruct (dt_in_range _); same. Qed.

Lemma steps_delete g i ctx : keeps (steps g) (delete_lease (X := X) i ctx).
Proof. intros w. unfold delete_lease. destruct (lease_in _ _ _); [|by apply steps_same]. apply rtc_once, LDelete. Qed.

(** A computation of the identity service that only advances its environment. *)
Lemma steps_identity g {A} (m : M (Identity X) WorkerExn A) :
  (∀ i, rtc quiet (id_ext i) (id_ext (m i).2)) → keeps (steps g) (on_identity m).
Proof.
  intros Hm w. specialize (Hm (ww_identity w)). unfold on_identity. destruct (m (ww_identity w)) as [o i] eqn:Hi.
  by apply steps_quiet.
Qed.

Lemma steps_tick g : keeps (steps g) (now_tick env).
Proof.
  apply steps_identity. intros i. unfold of_ext. pose proof (QClock (id_ext i)) as H.
  destruct (en_clock env (id_ext i)). by apply rtc_once.
Qed.

Lemma steps_heartbeat_id g : keeps (steps g) (on_identity (of_ext (en_heartbeat_id env))).
Proof.
  apply steps_identity. intros i. unfold of_ext. pose proof (QHeartbeat (id_ext i)) as H.
  destruct (en_heartbeat_id env (id_ext i)). by apply rtc_once.
Qed.

Lemma steps_revoke g i : keeps (steps g) (on_identity (X := X) (revoke i)).
Proof. by apply steps_identity. Qed.

Lemma steps_issue g wid tid ttl :
  keeps (steps g) (on_identity (issue (en_hmac env) (en_float_repr env) (en_token_clock env) (en_token_id env) (en_secret env)
    (en_key_id env) (en_ttl_seconds env) wid tid ttl)).
Proof.
  apply steps_identity. intros i. unfold issue, bind, of_ext, plus_seconds.
  pose proof (QTokenClock (id_ext i)) as H1. destruct (en_token_clock env (id_ext i)) as [now x1]. cbn [id_ext].
  pose proof (QTokenId x1) as H2. destruct (en_token_id env x1) as [jti x2].
  assert (rtc quiet (id_ext i) x2) as H by (eapply rtc_l; [exact H1|]; by apply rtc_once).
  destruct (dt_in_range _); [|done]. cbn [ret]. by destruct (token_valid _).
Qed.

Lemma verify_ext tok wid i :
  let m := verify (en_hmac env) (en_loads env) (en_float_repr env) (en_token_clock env) (en_secret env) tok wid in
  id_ext (m i).2 = id_ext i ∨ id_ext (m i).2 = (en_token_clock env (id_ext i)).2.
Proof.
  cbv zeta. unfold verify. destruct (rsplit_dot tok) as [[encoded signature]|]; [|by left].
  destruct (negb (is_ascii_text encoded)); [by left|]. destruct (negb (is_ascii_text signature)); [by left|].
  case_bool_decide; [by left|]. destruct (unb64 encoded ≫= _) as [[| | | | | |payload]|]; try by left.
  unfold bind, gets. case_bool_decide; [by left|]. unfold of_ext. destruct (en_token_clock env (id_ext i)) as [now x].
  set (s1 := mkIdentity _ x). right.
  destruct (get_int_pure payload "exp" s1) as [[expiry|e] ->]; [|done]. destruct (expiry <=? _)%Z; [done|].
  destruct (match wid with Some w => _ | None => false end); [done|].
  destruct (get_int_pure payload "iat" s1) as [[issued|e] ->]; [|done].
  unfold from_timestamp. destruct (dt_in_range (issued * 1000000)); [|done]. cbn [ret].
  destruct (dt_in_range (expiry * 1000000)); [|done]. cbn [ret]. by destruct (token_valid _).
Qed.

Lemma steps_verify g tok wid : keeps (steps g) (verify_token env tok wid).
Proof.
  apply keeps_bind; [apply _| |].
  - apply steps_identity. intros i. destruct (verify_ext tok (Some wid) i) as [->| ->]; [done|]. apply rtc_once, QTokenClock.
  - intros r. apply keeps_bind; [apply _|apply steps_get_token|]. intros o.
    destruct (match o with Some _ => _ | None => _ end); [apply keeps_raise, _|apply keeps_ret, _].
Qed.

Lemma steps_require_worker g i t ctx : keeps (steps g) (require_worker (X := X) i t ctx).
Proof. apply keeps_bind; [apply _|apply steps_get_worker|intros; apply keeps_of_option, _]. Qed.

Create HintDb steps discriminated.
#[local] Hint Resolve steps_gets steps_require steps_save_worker steps_get_worker steps_list_leases steps_list_workers steps_get_lease
  steps_save_heartbeat steps_save_token steps_get_token steps_plus steps_delete steps_tick steps_heartbeat_id steps_revoke steps_issue
  steps_verify steps_require_worker : steps.

(** One bind, branch or primitive at a time. *)
Ltac walk :=
  repeat match goal with
  | |- keeps _ (ret _) => apply keeps_ret, _
  | |- keeps _ (raise _) => apply keeps_raise, _
  | |- keeps _ (bind _ _) => apply keeps_bind; [apply _| |intros]
  | |- keeps _ (match ?x with _ => _ end) => destruct x
  | |- keeps _ _ => solve [auto with steps]
  end.

Lemma steps_then g {A B} (m : M (World X) WorkerExn A) (k : A → M (World X) WorkerExn B) w :
  steps g w (m w).2 → (∀ a, keeps (steps g) (k a)) → steps g w (bind m k w).2.
Proof. intros Hm Hk. unfold bind. destruct (m w) as [[a|e] w1]; [|done]. etrans; [exact Hm|apply Hk]. Qed.

Lemma lease_in_lookup i ctx (w : World X) l : lease_in i ctx w = Some l → ww_leases w !! i = Some l.
Proof. unfold lease_in. destruct (ww_leases w !! i) as [l'|]; [|done]. by destruct (scopes _ _). Qed.

Lemma steps_renew g ids wid tid now ctx : keeps (steps g) (renew_leases env ids wid tid now ctx).
Proof.
  induction ids as [|i ids IH]; cbn [renew_leases]; [apply keeps_ret, _|]. intros w. unfold get_lease.
  rewrite (bind_run _ _ w _ w) by done. apply steps_then; [|intros; apply IH].
  destruct (lease_in i (scope tid ctx) w) as [l|] eqn:Hl; [|reflexivity]. apply lease_in_lookup in Hl.
  case_bool_decide as Hw; [|reflexivity]. unfold bind, plus_seconds. destruct (dt_in_range _); [|reflexivity]. cbn [ret].
  unfold save_lease, bind, require. destruct (scopes _ _); [|reflexivity]. apply rtc_once. exact (LRenew _ _ _ i l _ Hl).
Qed.
#[local] Hint Resolve steps_renew : steps.

(** ** Granting and moving *)

(** What [grant] does to the table: it reads the environment, then perhaps
    enters one lease with a fresh identifier. *)
Definition granted (m : table) (x : X) (fields : WorkerLease → Prop) (o : outcome WorkerExn RunAssignment) (w' : World X) : Prop :=
  (rtc quiet x (ext w') ∧ ww_leases w' = m ∧ ∀ a, o ≠ Ret a) ∨
  ∃ x' l, rtc quiet x x' ∧ wl_lease_id l = (en_lease_id env x').1 ∧ fields l ∧
    ww_leases w' = <[wl_lease_id l := l]> m ∧ ext w' = (en_lease_id env x').2 ∧ ∀ a, o = Ret a → as_lease a = l.

Lemma require_worker_pure i t ctx (w : World X) : ∃ o, require_worker i t ctx w =
  (match o with Some worker => Ret worker | None => Raise (UnknownWorkerError i) end, w) ∧ ∀ worker, o = Some worker → ww_workers w !! (t, i) = Some worker.
Proof.
  unfold require_worker, get_worker. rewrite (bind_run _ _ w _ w) by done.
  destruct (scopes _ t); [destruct (ww_workers w !! (t, i)) as [worker|]|].
  - exists (Some worker). by split.
  - by exists None.
  - by exists None.
Qed.

(** Granting may turn the ready worker it grants to busy. *)
Definition busied (w w' : World X) : Prop :=
  ww_workers w' = ww_workers w ∨
  ∃ k worker, ww_workers w !! k = Some worker ∧ wk_state worker = READY ∧
    ww_workers w' = <[(wk_tenant_id worker, wk_worker_id worker) := in_state BUSY worker]> (ww_workers w).

(** The world with its environment advanced. *)
Definition with_ext (x : X) (w : World X) : World X :=
  mkWorld (ww_workers w) (ww_leases w) (ww_heartbeats w) (ww_tokens w) (mkIdentity (id_revoked (ww_identity w)) x).

Lemma ext_run {A} (f : X → A * X) w : on_identity (of_ext f) w = (Ret (f (ext w)).1, with_ext (f (ext w)).2 w).
Proof. unfold on_identity, of_ext, ext. by destruct (f _). Qed.

Lemma scope_own t ctx : scopes (scope t ctx) t = true.
Proof. unfold scope. destruct (scopes ctx t) eqn:H; [done|apply scopes_own]. Qed.

Lemma plus_run (w : World X) now ttl :
  plus_seconds now ttl w = ((if dt_in_range (now + ttl * 1000000) then Ret (now + ttl * 1000000)%Z else Raise WorkerOverflowError), w).
Proof. unfold plus_seconds. by destruct (dt_in_range _). Qed.

Lemma save_lease_run l t ctx (w : World X) : wl_tenant_id l = t → save_lease l (scope t ctx) w = (Ret tt, set_leases <[wl_lease_id l := l]> w).
Proof. intros Ht. unfold save_lease, bind, require. by rewrite Ht, scope_own. Qed.

Lemma save_worker_view worker ctx (w : World X) : view (save_worker worker ctx w).2 = view w.
Proof. unfold save_worker, bind, require. by destruct (scopes ctx _). Qed.

Lemma grant_effect i r wl t a f ctx w :
  granted (ww_leases w) (ext w) (λ l, wl_tenant_id l = t ∧ wl_run_id l = r ∧ wl_workload_id l = wl ∧ wl_worker_id l = i ∧
    wl_attempt l = a ∧ wl_fencing_token l = f ∧ worker_lease_valid l = true) (grant env i r wl t a f ctx w).1 (grant env i r wl t a f ctx w).2 ∧
  busied w (grant env i r wl t a f ctx w).2.
Proof.
  set (P := λ l, _). unfold grant. destruct (require_worker_pure i t ctx w) as ([worker|] & Hreq & Hworker);
    [rewrite (bind_run _ _ _ _ _ Hreq)|rewrite (bind_raise _ _ _ _ _ Hreq); split; by left].
  destruct (negb _) eqn:Hready; [split; by left|]. apply negb_false_iff, bool_decide_eq_true in Hready.
  unfold now_tick. rewrite (bind_run _ _ _ _ _ (ext_run _ _)), (bind_run _ _ _ _ _ (ext_run _ _)).
  pose proof (QClock (ext w)) as Hq1. destruct (en_clock env (ext w)) as [now x1]. cbn [fst snd] in *.
  change (ext (with_ext x1 w)) with x1. pose proof (QLeaseId x1) as Hq2. destruct (en_lease_id env x1) as [lid x2] eqn:Hid. cbn [fst snd] in *.
  change (with_ext x2 (with_ext x1 w)) with (with_ext x2 w). set (w2 := with_ext x2 w).
  assert (∀ e, granted (ww_leases w) (ext w) P (Raise e) w2 ∧ busied w w2) as Hfail.
  { intros e. split; [|by left]. left. split; [|done]. eapply rtc_l; [exact Hq1|]. by apply rtc_once. }
  pose proof (plus_run w2 now (en_lease_ttl_s env)) as Hp.
  destruct (dt_in_range _); [rewrite (bind_run _ _ _ _ _ Hp)|rewrite (bind_raise _ _ _ _ _ Hp); apply Hfail].
  set (lease := mkWorkerLease lid t r i wl a now _ f).
  destruct (worker_lease_valid lease) eqn:Hv; [|rewrite (bind_raise _ _ w2 WorkerValidationError w2) by done; apply Hfail].
  rewrite (bind_run _ _ w2 _ w2) by done. rewrite (bind_run _ _ _ _ _ (save_lease_run lease t ctx w2 eq_refl)). set (w3 := set_leases _ w2).
  unfold list_leases. rewrite (bind_run _ _ w3 _ w3) by done. set (m := if (_ <=? _)%Z then _ else _).
  assert (view (m w3).2 = view w3) as Hview by (unfold m; destruct (_ <=? _)%Z; [apply save_worker_view|done]).
  assert (busied w (m w3).2) as Hbusy.
  { unfold m. destruct (_ <=? _)%Z; [|by left]. unfold save_worker, bind, require. destruct (scopes _ _); [|by left].
    right. exists (t, i), worker. split_and!; [by apply Hworker|done|reflexivity]. }
  unfold bind. destruct (m w3) as [[u|e] w4]; injection Hview as H1 H2; cbn [ret fst snd]; (split; [|exact Hbusy]); right; exists x1, lease;
    rewrite Hid; (split; [by apply rtc_once|]; split; [done|]; split; [done|]; split; [exact H1|]; split; [exact H2|]);
    [by intros ? [= <-]|done].
Qed.

Lemma first_ready_pure l t e ctx (w : World X) :
  ∃ o, first_ready l t e ctx w = (Ret o, w) ∧ ∀ target, o = Some target → wk_worker_id target ≠ e.
Proof.
  induction l as [|k l IH]; cbn [first_ready]; [by exists None|].
  case_bool_decide as He; [done|]. destruct (negb _); [done|]. cbn [orb]. unfold list_leases. rewrite (bind_run _ _ w _ w) by done.
  destruct (_ <? _)%Z; [|done]. exists (Some k). split; [done|]. by intros ? [= <-].
Qed.

Lemma find_ready_pure t e ctx (w : World X) :
  ∃ o, find_ready t e ctx w = (Ret o, w) ∧ ∀ target, o = Some target → wk_worker_id target ≠ e.
Proof. unfold find_ready, list_workers. rewrite (bind_run _ _ w _ w) by done. apply first_ready_pure. Qed.

(** Reassigning enters at most one successor. *)
Lemma reassign_effect old w : let r := reassign env old w in
  busied w r.2 ∧
  ((rtc quiet (ext w) (ext r.2) ∧ ww_leases r.2 = ww_leases w ∧ ∀ a, r.1 ≠ Ret (Some a)) ∨
  ∃ x' l, rtc quiet (ext w) x' ∧ wl_lease_id l = (en_lease_id env x').1 ∧ successor old l ∧
    ww_leases r.2 = <[wl_lease_id l := l]> (ww_leases w) ∧ ext r.2 = (en_lease_id env x').2 ∧
    ∀ o, r.1 = Ret o → ∃ a, o = Some a ∧ as_lease a = l ∧ as_reassigned_from a = Some (wl_worker_id old)).
Proof.
  cbv zeta. unfold reassign. destruct (find_ready_pure (wl_tenant_id old) (wl_worker_id old) (context_for_run (wl_tenant_id old) None None) w)
    as (target & Hf & Hne). rewrite (bind_run _ _ _ _ _ Hf). destruct target as [target|]; [|split; by left].
  pose proof (grant_effect (wk_worker_id target) (wl_run_id old) (wl_workload_id old) (wl_tenant_id old) (wl_attempt old + 1)
    (wl_fencing_token old + 1) (context_for_run (wl_tenant_id old) None None) w) as [Hg Hbusy]. unfold bind.
  destruct (grant env _ _ _ _ _ _ _ w) as [[a|e] w1]; cbn [ret fst snd] in *; (split; [exact Hbusy|]).
  - right. destruct Hg as [(_ & _ & Hg)|(x' & l & Hq & Hid & (? & ? & ? & ? & ? & ? & _) & Hl & He & Ha)]; [by destruct (Hg a)|].
    exists x', l. split_and!; try done.
    + unfold successor. specialize (Hne _ eq_refl). split_and!; congruence.
    + intros o [= <-]. eexists. split; [done|]. by rewrite (Ha a eq_refl).
  - destruct Hg as [(Hq & Hl & _)|(x' & l & Hq & Hid & (? & ? & ? & ? & ? & ? & _) & Hl & He & Ha)]; [by left|].
    right. exists x', l. split_and!; try done. unfold successor. specialize (Hne _ eq_refl). split_and!; congruence.
Qed.

Lemma steps_claimed g i sc c (w w1 : World X) : claim_lease i sc w = (Ret (Some c), w1) → steps g w (reassign env c w1).2.
Proof.
  unfold claim_lease. destruct (lease_in i sc w) as [l|] eqn:Hl; [|done]. intros [= <- <-].
  apply lease_in_lookup in Hl.
  destruct (reassign_effect l (set_leases (delete i) w)) as [_ [(Hq & Hm & _)|(x' & l' & Hq & Hid & Hs & Hm & He & _)]].
  - transitivity (set_leases (delete i) w); [apply rtc_once, LDelete|by apply steps_quiet].
  - apply rtc_once. unfold view. rewrite Hm, He. by apply LMove with l.
Qed.

Lemma steps_hand_over g l sc : keeps (steps g) (hand_over env l sc).
Proof.
  induction l as [|k l IH]; cbn [hand_over]; [apply keeps_ret, _|]. intros w. unfold bind at 1.
  destruct (claim_lease (wl_lease_id k) sc w) as [[[c|]|e] w1] eqn:Hc.
  - transitivity (reassign env c w1).2; [by eapply steps_claimed|]. unfold bind. destruct (reassign env c w1) as [[a|e] w2]; [|reflexivity].
    apply IH.
  - rewrite (bind_run _ _ w1 _ w1) by done. transitivity w1; [|apply IH]. unfold claim_lease in Hc. destruct (lease_in _ _ _); [done|].
    by injection Hc as <-.
  - unfold claim_lease in Hc. by destruct (lease_in _ _ _).
Qed.

Lemma steps_reclaim_each g l t : keeps (steps g) (reclaim_each env l t).
Proof.
  induction l as [|k l IH]; cbn [reclaim_each]; [apply keeps_ret, _|]. apply keeps_bind; [apply _|apply steps_get_worker|].
  intros worker. destruct (negb _); [done|]. intros w. unfold bind at 1.
  destruct (claim_lease (wl_lease_id k) _ w) as [[[c|]|e] w1] eqn:Hc.
  - transitivity (reassign env c w1).2; [by eapply steps_claimed|]. unfold bind. destruct (reassign env c w1) as [[a|e] w2]; [|reflexivity].
    pose proof (IH w2). by destruct (reclaim_each env l t w2) as [[]].
  - transitivity w1; [|apply IH]. unfold claim_lease in Hc. destruct (lease_in _ _ _); [done|]. by injection Hc as <-.
  - unfold claim_lease in Hc. by destruct (lease_in _ _ _).
Qed.

Lemma steps_mark g l cutoff : keeps (steps g) (mark_stale (X := X) l cutoff).
Proof. induction l as [|k l IH]; cbn [mark_stale]; walk; done. Qed.

Lemma steps_moment g now : keeps (steps g) (moment env now).
Proof. unfold moment. walk. Qed.
#[local] Hint Resolve steps_hand_over steps_reclaim_each steps_mark steps_moment : steps.

Lemma steps_set_state g i s t ctx : keeps (steps g) (set_state env i s t ctx).
Proof. unfold set_state. walk. Qed.

Lemma steps_grant i r wl t a f ctx : keeps (steps true) (grant env i r wl t a f ctx).
Proof.
  intros w. destruct (grant_effect i r wl t a f ctx w) as [[(Hq & Hm & _)|(x' & l & Hq & Hid & _ & Hm & He & _)] _]; [by apply steps_quiet|].
  unfold steps, view. rewrite Hm, He. transitivity (ww_leases w, x'); [|by apply rtc_once, LGrant].
  clear -Hq. revert Hq. generalize (ext w). induction 1 as [|x y z Hxy _ IH]; [done|]. eapply rtc_l; [by apply LQuiet|done].
Qed.

Definition is_grant (o : WorkerOp) : bool := match o with OpGrant _ _ _ _ _ _ _ => true | _ => false end.

(** Every call is a sequence of lease steps. *)
Lemma op_steps o w : steps (is_grant o) w (run_op o w).
Proof.
  destruct o; cbn [run_op is_grant]; [| | | |apply steps_grant| | |apply steps_set_state| | |].
  - unfold enroll. assert (keeps (steps false) (enroll env worker_id tenant_id ttl ctx)) as H by (unfold enroll; walk). apply H.
  - assert (keeps (steps false) (revoke_token env token_id tenant_id ctx)) as H by (unfold revoke_token; walk). apply H.
  - assert (keeps (steps false) (register env request tenant_id ctx)) as H by (unfold register; walk). apply H.
  - assert (keeps (steps false) (heartbeat env worker_id request tenant_id ctx)) as H by (unfold heartbeat; walk). apply H.
  - assert (keeps (steps false) (accept env lease_id token)) as H by (unfold accept; walk). apply H.
  - assert (keeps (steps false) (report env r token)) as H by (unfold report; walk). apply H.
  - assert (keeps (steps false) (deregister env worker_id tenant_id ctx)) as H.
    { unfold deregister. apply keeps_bind; [apply _|apply steps_set_state|]. intros. walk. }
    apply H.
  - assert (keeps (steps false) (mark_unhealthy env now timeout_s)) as H by (unfold mark_unhealthy, list_all_workers; walk). apply H.
  - assert (keeps (steps false) (reclaim env now)) as H by (unfold reclaim, list_all_leases; walk). apply H.
Qed.

(** ** A run is leased once *)

(** The store keys a lease by its identifier. *)
Definition table_wf (m : table) : Prop := ∀ i l, m !! i = Some l → wl_lease_id l = i.

Definition same_run (l l' : WorkerLease) : Prop := wl_tenant_id l = wl_tenant_id l' ∧ wl_run_id l = wl_run_id l'.

(** No run has two leases. *)
Definition single (m : table) : Prop := ∀ i j li lj, m !! i = Some li → m !! j = Some lj → same_run li lj → i = j.

Definition unleased (t r : string) (m : table) : Prop := ∀ i l, m !! i = Some l → wl_tenant_id l = t → wl_run_id l = r → False.

Lemma table_wf_insert m l : table_wf m → table_wf (<[wl_lease_id l := l]> m).
Proof. intros H i l' [[<- <-]|[_ Hi]]%lookup_insert_Some; [done|by apply H]. Qed.

Lemma table_wf_delete m i : table_wf m → table_wf (delete i m).
Proof. intros H j l [_ Hj]%lookup_delete_Some. by apply H. Qed.

Lemma step_wf g a b : lease_step g a b → table_wf a.1 → table_wf b.1.
Proof.
  destruct 1; intros Hwf; cbn in *; [done|by apply table_wf_delete| |by apply table_wf_insert, table_wf_delete|by apply table_wf_insert].
  by apply (table_wf_insert _ (lease_until t l)).
Qed.

Lemma single_delete m i : single m → single (delete i m).
Proof. intros H a b la lb [_ Ha]%lookup_delete_Some [_ Hb]%lookup_delete_Some. by apply H. Qed.

Lemma single_insert m l : single m → unleased (wl_tenant_id l) (wl_run_id l) m → single (<[wl_lease_id l := l]> m).
Proof.
  intros H Hun a b la lb [[<- <-]|[_ Ha]]%lookup_insert_Some [[<- <-]|[_ Hb]]%lookup_insert_Some [Ht Hr]; [done| | |by eapply H].
  - destruct (Hun b lb); congruence.
  - destruct (Hun a la); congruence.
Qed.

Lemma single_renew m i l t : table_wf m → single m → m !! i = Some l → single (<[wl_lease_id l := lease_until t l]> m).
Proof.
  intros Hwf H Hi a b la lb [[<- <-]|[_ Ha]]%lookup_insert_Some [[<- <-]|[_ Hb]]%lookup_insert_Some Hs; [done| | |by eapply H].
  - rewrite (Hwf i l Hi). by eapply (H i b l lb).
  - rewrite (Hwf i l Hi). by eapply (H a i la l).
Qed.

Lemma single_unleased m i l : single m → m !! i = Some l → unleased (wl_tenant_id l) (wl_run_id l) (delete i m).
Proof. intros H Hi j l' [Hne Hj]%lookup_delete_Some Ht Hr. destruct Hne. by apply (H i j l l'). Qed.

Lemma step_single a b : lease_step false a b → table_wf a.1 → single a.1 → single b.1.
Proof.
  destruct 1 as [| |m x i l t Hi|m x x' i old l Hi (Ht & Hr & _)|]; intros Hwf Hsing; cbn in *; [done|by apply single_delete| | |done].
  - by eapply single_renew.
  - apply single_insert; [by apply single_delete|]. rewrite Ht, Hr. by apply single_unleased.
Qed.

Lemma steps_wf g a b : rtc (lease_step g) a b → table_wf a.1 → table_wf b.1.
Proof. induction 1 as [|a b c Hab _ IH]; [done|]. intros Hwf. by apply IH, (step_wf g a b). Qed.

Lemma steps_single a b : rtc (lease_step false) a b → table_wf a.1 → single a.1 → single b.1.
Proof. induction 1 as [|a b c Hab _ IH]; [done|]. intros Hwf H. apply IH; [by eapply step_wf|by eapply step_single]. Qed.

(** The calls in which [grant] is only asked to lease runs that have no lease. *)
Fixpoint grants_unleased (l : list WorkerOp) (w : World X) : Prop :=
  match l with
  | [] => True
  | o :: l' =>
      match o with OpGrant _ r _ t _ _ _ => unleased t r (ww_leases w) | _ => True end ∧ grants_unleased l' (run_op o w)
  end.

Lemma grant_single i r wl t a f ctx w : single (ww_leases w) → unleased t r (ww_leases w) → single (ww_leases (grant env i r wl t a f ctx w).2).
Proof.
  intros H Hun. destruct (grant_effect i r wl t a f ctx w) as [[(_ & -> & _)|(x' & l & _ & _ & (<- & <- & _) & -> & _)] _]; [done|].
  by apply single_insert.
Qed.

Lemma op_single o w : table_wf (ww_leases w) → single (ww_leases w) →
  match o with OpGrant _ r _ t _ _ _ => unleased t r (ww_leases w) | _ => True end → single (ww_leases (run_op o w)).
Proof.
  intros Hwf H Hg. pose proof (op_steps o w) as Hs.
  destruct o; try (by apply (steps_single _ _ Hs)). by apply grant_single.
Qed.

Lemma op_wf o w : table_wf (ww_leases w) → table_wf (ww_leases (run_op o w)).
Proof. apply (steps_wf _ _ _ (op_steps o w)). Qed.

(** C30: A run is leased at most once: whatever calls are made (heartbeats,
    reports, deregistrations, reclaims, with any tokens), as long as [grant] is
    only asked for runs without a lease, no run of a tenant ever has two
    leases; reclaiming moves a lease, it never copies it. *)
Theorem run_leased_once ops w :
  table_wf (ww_leases w) → single (ww_leases w) → grants_unleased ops w → single (ww_leases (run_ops ops w)).
Proof.
  revert w. induction ops as [|o ops IH]; intros w Hwf H; [done|]. intros [Hg Hrest]. cbn [run_ops].
  apply IH; [by apply op_wf|by apply op_single|done].
Qed.

(** ** Superseded leases stay dead *)

Section Fresh.
Variable used : X → string → Prop.

(** Identifiers are not issued twice. *)
Record fresh_ids : Prop := {
  fi_quiet : ∀ x x' i, quiet x x' → used x i → used x' i;
  fi_new : ∀ x, ¬ used x (en_lease_id env x).1;
  fi_used : ∀ x, used (en_lease_id env x).2 (en_lease_id env x).1;
}.

Hypothesis Hfresh : fresh_ids.

Lemma quiets_used x x' i : rtc quiet x x' → used x i → used x' i.
Proof. induction 1 as [|x y z Hxy _ IH]; [done|]. intros H. apply IH. by eapply fi_quiet. Qed.

Definition gone (i : string) (a : table * X) : Prop := table_wf a.1 ∧ used a.2 i ∧ a.1 !! i = None.

Lemma step_gone g i a b : lease_step g a b → gone i a → gone i b.
Proof.
  intros Hs (Hwf & Hu & Hi). pose proof (step_wf _ _ _ Hs Hwf) as Hwf'. split; [done|]. clear Hwf'.
  destruct Hs as [m x x' Hq|m x j|m x j l t Hj|m x x' j old l Hj _ Hq Hid|m x l _ Hid]; cbn in *.
  - split; [by eapply fi_quiet|done].
  - split; [done|]. rewrite lookup_delete. by case_decide.
  - split; [done|]. rewrite lookup_insert_ne; [done|]. intros <-. rewrite (Hwf j l Hj) in Hi. congruence.
  - assert (used x' i) as Hu' by by eapply quiets_used. split; [eapply (fi_quiet Hfresh); [apply QLeaseId|done]|].
    rewrite lookup_insert_ne; [rewrite lookup_delete; by case_decide|]. intros <-. rewrite Hid in Hu'. by eapply fi_new.
  - split; [eapply (fi_quiet Hfresh); [apply QLeaseId|done]|]. rewrite lookup_insert_ne; [done|].
    intros <-. rewrite Hid in Hu. by eapply fi_new.
Qed.

Lemma ops_gone i ops w : gone i (view w) → gone i (view (run_ops ops w)).
Proof.
  revert w. induction ops as [|o ops IH]; intros w H; [done|]. cbn [run_ops]. apply IH.
  pose proof (op_steps o w) as Hs. unfold steps in Hs. revert Hs H. generalize (view w), (view (run_op o w)).
  induction 1 as [|a b c Hab _ IH']; [done|]. intros H. apply IH'. by eapply step_gone.
Qed.

Lemma grant_used i r wl t a f ctx w asg w' : grant env i r wl t a f ctx w = (Ret asg, w') → used (ext w') (wl_lease_id (as_lease asg)).
Proof.
  intros H. destruct (grant_effect i r wl t a f ctx w) as [[(_ & _ & Hn)|(x' & l & _ & Hid & _ & _ & He & Ha)] _]; rewrite H in *.
  - by destruct (Hn asg).
  - cbn in *. rewrite (Ha asg), Hid, He by done. by apply fi_used.
Qed.

Lemma verify_view tok i w : ww_leases (verify_token env tok i w).2 = ww_leases w ∧ ww_workers (verify_token env tok i w).2 = ww_workers w.
Proof.
  unfold verify_token, bind, on_identity. destruct (verify _ _ _ _ _ _ _ _) as [[r|e] x]; [|done].
  cbn. by destruct (match match _ with Some _ => _ | None => _ end with Some _ => _ | None => _ end).
Qed.

(** What a report and an acceptance see of a lease that is gone. *)
Lemma report_gone r tok w : ww_leases w !! wr_lease_id r = None →
  report env r tok w =
    let '(o, w') := verify_token env tok (wr_worker_id r) w in
    (match o with Ret _ => Raise (StaleLeaseError (wr_lease_id r) (wr_fencing_token r)) | Raise e => Raise e end, w').
Proof.
  intros H. unfold report. unfold bind at 1. pose proof (verify_view tok (wr_worker_id r) w) as [Hv _].
  destruct (verify_token env tok (wr_worker_id r) w) as [[t|e] w']; [|done]. unfold get_lease. rewrite (bind_run _ _ w' _ w') by done.
  unfold lease_in. cbn in Hv. by rewrite Hv, H.
Qed.

Lemma accept_gone i tok (w : World X) : ww_leases w !! i = None → accept env i tok w = (Raise (StaleLeaseError i 0), w).
Proof. intros H. unfold accept, get_lease. rewrite (bind_run _ _ w _ w) by done. unfold lease_in. by rewrite H. Qed.

(** C29: A superseded lease stays dead. Once a granted lease has left the store
    (reported, reclaimed or handed over), it is not in it again after any
    further calls, and every report under it, with whatever fence and token,
    is refused and changes neither leases nor workers; so is its acceptance. *)
Theorem superseded_lease_dead i r wl t a f ctx w0 asg w1 ops ops' :
  table_wf (ww_leases w0) → grant env i r wl t a f ctx w0 = (Ret asg, w1) →
  let id := wl_lease_id (as_lease asg) in
  let w2 := run_ops ops w1 in ww_leases w2 !! id = None →
  let w3 := run_ops ops' w2 in
  ww_leases w3 !! id = None ∧
  (∀ rep tok, wr_lease_id rep = id →
     (∀ worker, (report env rep tok w3).1 ≠ Ret worker) ∧
     (∀ token, (verify_token env tok (wr_worker_id rep) w3).1 = Ret token →
        (report env rep tok w3).1 = Raise (StaleLeaseError id (wr_fencing_token rep))) ∧
     ww_leases (report env rep tok w3).2 = ww_leases w3 ∧ ww_workers (report env rep tok w3).2 = ww_workers w3) ∧
  ∀ tok, accept env id tok w3 = (Raise (StaleLeaseError id 0), w3).
Proof.
  intros Hwf Hg id w2 Hw2 w3. assert (used (ext w1) id) as Hu.
  { exact (grant_used _ _ _ _ _ _ _ _ _ _ Hg). }
  assert (∀ ops w i, used (ext w) i → used (ext (run_ops ops w)) i) as Hkeep.
  { clear -Hfresh. induction ops as [|o ops IH]; intros w i H; [done|]. cbn [run_ops]. apply IH.
    pose proof (op_steps o w) as Hs. unfold steps in Hs. revert H. change (ext w) with (view w).2.
    change (ext (run_op o w)) with (view (run_op o w)).2. revert Hs. generalize (view w), (view (run_op o w)).
    induction 1 as [|a b c Hab _ IH']; [done|]. intros H. apply IH'.
    destruct Hab as [m x x' Hq|m x j|m x j l t Hj|m x x' j old l Hj _ Hq Hid|m x l _ Hid]; cbn in *; try done.
    - by eapply fi_quiet.
    - eapply (fi_quiet Hfresh); [apply QLeaseId|]. by eapply quiets_used.
    - eapply (fi_quiet Hfresh); [apply QLeaseId|done]. }
  assert (gone id (view w2)) as Hgone.
  { split; [|split; [by apply Hkeep|done]]. cbn. assert (table_wf (ww_leases w1)) as Hwf1.
    { pose proof (op_wf (OpGrant i r wl t a f ctx) w0 Hwf) as H. cbn [run_op] in H. by rewrite Hg in H. }
    revert Hwf1. unfold w2. generalize w1. clear. induction ops as [|o ops IH]; intros w H; [done|]. by apply IH, op_wf. }
  destruct (ops_gone id ops' w2 Hgone) as (_ & _ & Hn). fold w3 in Hn. cbn in Hn.
  split; [done|]. split; [|intros tok; by apply accept_gone]. intros rep tok Hid.
  rewrite report_gone by by rewrite Hid. pose proof (verify_view tok (wr_worker_id rep) w3) as [Hl Hk].
  destruct (verify_token env tok (wr_worker_id rep) w3) as [[token|e] w4]; cbn in *; rewrite <-Hid; by split_and!.
Qed.
(** ** What a reclaim pass leaves behind *)

Definition workers_wf (w : World X) : Prop := ∀ k worker, ww_workers w !! k = Some worker → (wk_tenant_id worker, wk_worker_id worker) = k.

(** Keys are identifiers, and every lease's identifier was issued. *)
Definition store_ok (w : World X) : Prop :=
  table_wf (ww_leases w) ∧ workers_wf w ∧ ∀ i l, ww_leases w !! i = Some l → used (ext w) i.

Definition due_in (w : World X) (t : Z) (l : WorkerLease) : bool := lease_due t l (ww_workers w !! (wl_tenant_id l, wl_worker_id l)).

Lemma busied_due w w' t l : workers_wf w → busied w w' → due_in w' t l = due_in w t l.
Proof.
  intros Hwf [Hw|(k & worker & Hk & Hr & Hw)]; unfold due_in; rewrite Hw; [done|]. rewrite (Hwf k worker Hk), lookup_insert.
  case_decide as He; [|done]. rewrite <-He, Hk. unfold lease_due. cbn. by rewrite Hr.
Qed.

Lemma busied_wf w w' : workers_wf w → busied w w' → workers_wf w'.
Proof.
  intros Hwf [Hw|(k & worker & Hk & Hr & Hw)] k' worker'; rewrite Hw; [apply Hwf|].
  intros [[<- <-]|[_ H]]%lookup_insert_Some; [done|by apply Hwf].
Qed.

(** The store after one lease was taken out and perhaps moved. *)
Definition moved (k : WorkerLease) (w : World X) (o : option RunAssignment) (w' : World X) : Prop :=
  match o with
  | None => ww_leases w' = delete (wl_lease_id k) (ww_leases w)
  | Some a => ww_leases w' = <[wl_lease_id (as_lease a) := as_lease a]> (delete (wl_lease_id k) (ww_leases w)) ∧
      ¬ used (ext w) (wl_lease_id (as_lease a)) ∧ successor k (as_lease a) ∧ as_reassigned_from a = Some (wl_worker_id k)
  end.

Lemma moved_store k w o w2 : store_ok w → ww_leases w !! wl_lease_id k = Some k →
  reassign env k (set_leases (delete (wl_lease_id k)) w) = (Ret o, w2) →
  store_ok w2 ∧ (∀ t l, due_in w2 t l = due_in w t l) ∧ (∀ i, used (ext w) i → used (ext w2) i) ∧ moved k w o w2.
Proof.
  intros (Hwf & Hww & Hu) Hk Ho. set (w1 := set_leases _ w) in Ho. pose proof (reassign_effect k w1) as H. cbv zeta in H.
  rewrite Ho in H. destruct H as [Hbusy Heff]. cbn [fst snd] in *. change (ext w1) with (ext w) in Heff.
  assert (workers_wf w1) as Hww1 by exact Hww. assert (workers_wf w2) as Hww2 by by eapply busied_wf.
  assert (∀ t l, due_in w2 t l = due_in w t l) as Hdue by (intros t l; by rewrite (busied_due w1 w2 t l Hww1 Hbusy)).
  destruct Heff as [(Hq & Hm & Hn)|(x' & l & Hq & Hid & Hs & Hm & He & Ha)]; change (ww_leases w1) with (delete (wl_lease_id k) (ww_leases w)) in Hm.
  - destruct o as [a|]; [by destruct (Hn a)|]. assert (∀ i, used (ext w) i → used (ext w2) i) as Hmono by (intros i; by apply quiets_used).
    split; [|done]. split; [by rewrite Hm; apply table_wf_delete|]. split; [done|]. intros i l. rewrite Hm. intros [_ Hi]%lookup_delete_Some.
    apply Hmono. by eapply Hu.
  - destruct (Ha o eq_refl) as (a & -> & <- & Hfrom). assert (∀ i, used (ext w) i → used x' i) as Hmono by (intros i; by apply quiets_used).
    assert (∀ i, used x' i → used (ext w2) i) as Hlast by (intros i Hi; rewrite He; eapply (fi_quiet Hfresh); [apply QLeaseId|done]).
    split; [|split; [done|split; [auto|split_and!; try done]]].
    + split; [rewrite Hm; by apply table_wf_insert, table_wf_delete|]. split; [done|]. intros i l'. rewrite Hm.
      intros [[<- <-]|[_ [_ Hi]%lookup_delete_Some]]%lookup_insert_Some; [rewrite Hid, He; by apply fi_used|].
      apply Hlast, Hmono. by eapply Hu.
    + intros H%Hmono. rewrite Hid in H. by eapply fi_new.
Qed.

Lemma moved_lookup k w o w' i l : store_ok w → moved k w o w' → ww_leases w !! i = Some l → i ≠ wl_lease_id k → ww_leases w' !! i = Some l.
Proof.
  intros (_ & _ & Hu) Hm Hi Hne. destruct o as [a|]; [destruct Hm as (-> & Hn & _)|rewrite Hm; by rewrite lookup_delete_ne].
  rewrite lookup_insert_ne; [by rewrite lookup_delete_ne|]. intros <-. by eapply Hn, Hu.
Qed.

Lemma moved_origin k w o w' i l : moved k w o w' → ww_leases w' !! i = Some l →
  (ww_leases w !! i = Some l ∧ i ≠ wl_lease_id k) ∨ ∃ a, o = Some a ∧ i = wl_lease_id (as_lease a) ∧ l = as_lease a.
Proof.
  intros Hm Hi. destruct o as [a|]; [destruct Hm as (Hm & Hn & _)|]; rewrite Hm in Hi; [|apply lookup_delete_Some in Hi as [? ?]; by left].
  apply lookup_insert_Some in Hi as [[<- <-]|[_ [? ?]%lookup_delete_Some]]; [right; by exists a|by left].
Qed.

Lemma moved_gone k w o w' : store_ok w → moved k w o w' → ww_leases w !! wl_lease_id k = Some k → ww_leases w' !! wl_lease_id k = None.
Proof.
  intros (_ & _ & Hu) Hm Hk. destruct (ww_leases w' !! wl_lease_id k) as [l|] eqn:H; [|done].
  destruct (moved_origin _ _ _ _ _ _ Hm H) as [[_ ?]|(a & -> & Hi & _)]; [done|]. destruct Hm as (_ & Hn & _).
  destruct Hn. rewrite <-Hi. by eapply Hu.
Qed.

(** A requeued lease: in place, new, and the successor of a due one. *)
Definition requeued (w : World X) (t : Z) (l : list WorkerLease) (w' : World X) (a : RunAssignment) : Prop :=
  ww_leases w' !! wl_lease_id (as_lease a) = Some (as_lease a) ∧ ¬ used (ext w) (wl_lease_id (as_lease a)) ∧
  ∃ old, old ∈ l ∧ due_in w t old = true ∧ successor old (as_lease a) ∧ as_reassigned_from a = Some (wl_worker_id old).

(** A lease that is new or not listed is not touched by the rest of the pass. *)
Definition pass_result (w : World X) (t : Z) (l : list WorkerLease) (asgs : list RunAssignment) (w' : World X) : Prop :=
  (∀ i k, ww_leases w !! i = Some k → ww_leases w' !! i = if bool_decide (i ∈ wl_lease_id <$> l) && due_in w t k then None else Some k) ∧
  (∀ i k, ww_leases w' !! i = Some k → ww_leases w !! i = Some k ∨ ∃ a, a ∈ asgs ∧ as_lease a = k ∧ i = wl_lease_id k) ∧
  Forall (requeued w t l w') asgs.

Lemma listed_cons i k l : i ≠ wl_lease_id k → bool_decide (i ∈ wl_lease_id <$> k :: l) = bool_decide (i ∈ wl_lease_id <$> l).
Proof. intros Hne. apply bool_decide_ext. rewrite fmap_cons, elem_of_cons. naive_solver. Qed.

Lemma pass_not_due w t k l asgs w' : ww_leases w !! wl_lease_id k = Some k → due_in w t k = false →
  pass_result w t l asgs w' → pass_result w t (k :: l) asgs w'.
Proof.
  intros Hk Hd (HA & HB & HC). split; [|split; [done|]].
  - intros i k' Hi. rewrite (HA i k' Hi). destruct (decide (i = wl_lease_id k)) as [->|Hne].
    + assert (k' = k) as -> by congruence. by rewrite Hd, !andb_false_r.
    + by rewrite listed_cons.
  - eapply Forall_impl; [exact HC|]. intros a (H1 & H2 & old & H3 & H4). split; [done|]. split; [done|]. exists old. split; [by right|done].
Qed.

Lemma pass_moved w t k l o w2 others w' :
  store_ok w → ww_leases w !! wl_lease_id k = Some k → wl_lease_id k ∉ wl_lease_id <$> l → due_in w t k = true →
  (∀ t l, due_in w2 t l = due_in w t l) → (∀ i, used (ext w) i → used (ext w2) i) → moved k w o w2 → pass_result w2 t l others w' →
  (∀ i, i ∈ wl_lease_id <$> l → used (ext w) i) →
  pass_result w t (k :: l) (match o with Some a => a :: others | None => others end) w'.
Proof.
  intros Hok Hk Hnk Hd Hdue Hmono Hm (HA & HB & HC) Hl. assert (used (ext w) (wl_lease_id k)) as Huk by by (eapply (proj2 (proj2 Hok))).
  assert (∀ a, a ∈ others → a ∈ match o with Some a => a :: others | None => others end) as Hsub.
  { intros a Ha. destruct o; [by right|done]. }
  split; [|split].
  - intros i k' Hi. destruct (decide (i = wl_lease_id k)) as [->|Hne].
    + rewrite bool_decide_eq_true_2 by (cbn; by left). assert (k' = k) as -> by congruence. rewrite Hd. cbn [andb].
      destruct (ww_leases w' !! wl_lease_id k) as [l'|] eqn:H'; [|done]. pose proof (moved_gone _ _ _ _ Hok Hm Hk) as Hg.
      destruct (HB _ _ H') as [H2|(a & Ha & <- & He)]; [congruence|]. rewrite Forall_forall in HC.
      destruct (HC a Ha) as (_ & H4 & _). destruct H4. rewrite <-He. by apply Hmono.
    + rewrite (HA i k') by by eapply moved_lookup. rewrite Hdue. by rewrite listed_cons.
  - intros i k' Hi. destruct (HB i k' Hi) as [H2|(a & Ha & He)]; [|right; exists a; auto].
    destruct (moved_origin _ _ _ _ _ _ Hm H2) as [[? _]|(a & -> & -> & ->)]; [by left|]. right. exists a. split; [by left|done].
  - assert (Forall (requeued w t (k :: l) w') others) as Hothers.
    { eapply Forall_impl; [exact HC|]. intros a (H1 & H2 & old & H3 & H4 & H5). split; [done|]. split; [by intros H%Hmono|].
      exists old. split; [by right|]. by rewrite <-Hdue. }
    destruct o as [a|]; [|done]. apply Forall_cons_2; [|done]. destruct Hm as (Hm & Hn & Hs & Hf).
    assert (ww_leases w2 !! wl_lease_id (as_lease a) = Some (as_lease a)) as Ha by (rewrite Hm; apply lookup_insert_eq).
    split; [|split; [done|]; exists k; split; [by left|done]]. rewrite (HA _ _ Ha), bool_decide_eq_false_2; [done|]. by intros H%Hl.
Qed.

Lemma reclaim_each_effect l t : ∀ w asgs w', store_ok w → NoDup (wl_lease_id <$> l) → Forall (λ k, ww_leases w !! wl_lease_id k = Some k) l →
  reclaim_each env l t w = (Ret asgs, w') → pass_result w t l asgs w'.
Proof.
  induction l as [|k l IH]; intros w asgs w' Hok Hnd Hin H; cbn [reclaim_each] in H.
  { injection H as <- <-. split; [|split; [by left|apply Forall_nil_2]]. intros i k Hi. by rewrite bool_decide_eq_false_2 by apply not_elem_of_nil. }
  apply NoDup_cons in Hnd as [Hnk Hnd]. apply Forall_cons in Hin as [Hk Hin].
  unfold get_worker in H. rewrite (bind_run _ _ w _ w) in H by done. rewrite scopes_own in H.
  change (lease_due t k _) with (due_in w t k) in H. destruct (due_in w t k) eqn:Hd; cbn [negb] in H; [|by apply pass_not_due; [..|apply IH]].
  assert (claim_lease (wl_lease_id k) (context_for_run (wl_tenant_id k) None None) w = (Ret (Some k), set_leases (delete (wl_lease_id k)) w)) as Hc.
  { unfold claim_lease, lease_in. by rewrite Hk, scopes_own. }
  rewrite (bind_run _ _ _ _ _ Hc) in H. apply bind_inv in H as (o & w2 & Hr & H). apply bind_inv in H as (others & w3 & Hrest & H).
  injection H as <- <-. destruct (moved_store k w o w2 Hok Hk Hr) as (Hok2 & Hdue2 & Hmono & Hm).
  assert (∀ k', k' ∈ l → ww_leases w !! wl_lease_id k' = Some k') as Hin' by by rewrite Forall_forall in Hin.
  eapply pass_moved; try done.
  - apply IH; [done..| |done]. rewrite Forall_forall. intros k' Hk'. eapply moved_lookup; [exact Hok|exact Hm|by apply Hin'|].
    intros He. apply Hnk. rewrite <-He. by apply list_elem_of_fmap_2.
  - intros i (k' & -> & Hk')%list_elem_of_fmap. eapply (proj2 (proj2 Hok)). by apply Hin'.
Qed.

(** A reclaim pass at [t] removes exactly the due leases (expired, or held
    by an unhealthy worker) and leaves every other one as it is; what it
    returns are the leases it put in their place, each under an identifier never
    issued before, for the same run of the same tenant, on another worker, with
    the attempt and the fencing token one higher. *)
Theorem reclaim_requeues t w asgs w' : store_ok w → reclaim env (Some t) w = (Ret asgs, w') →
  (∀ i k, ww_leases w !! i = Some k → ww_leases w' !! i = if due_in w t k then None else Some k) ∧
  (∀ i k, ww_leases w' !! i = Some k → ww_leases w !! i = Some k ∨ ∃ a, a ∈ asgs ∧ as_lease a = k) ∧
  Forall (λ a, ww_leases w' !! wl_lease_id (as_lease a) = Some (as_lease a) ∧ ¬ used (ext w) (wl_lease_id (as_lease a)) ∧
    ∃ old, ww_leases w !! wl_lease_id old = Some old ∧ due_in w t old = true ∧ successor old (as_lease a) ∧
      as_reassigned_from a = Some (wl_worker_id old)) asgs.
Proof.
  intros Hok H. unfold reclaim, moment, list_all_leases in H. rewrite (bind_run _ _ w _ w), (bind_run _ _ w _ w) in H by done.
  set (l := sort_leases _) in H. assert (l ≡ₚ (map_to_list (ww_leases w)).*2) as Hperm by apply py_sort_perm.
  assert (∀ k, k ∈ l ↔ ww_leases w !! wl_lease_id k = Some k) as Hin.
  { intros k. rewrite Hperm, list_elem_of_fmap. split.
    - intros ([i k'] & -> & Hi%elem_of_map_to_list). cbn. by rewrite (proj1 Hok i k' Hi).
    - intros Hk. exists (wl_lease_id k, k). split; [done|]. by apply elem_of_map_to_list. }
  destruct (reclaim_each_effect l t w asgs w') as (HA & HB & HC); [done| | |done|].
  - rewrite Hperm. rewrite <-list_fmap_compose. assert (wl_lease_id ∘ snd <$> map_to_list (ww_leases w) = (map_to_list (ww_leases w)).*1) as ->.
    { apply list_fmap_ext. intros n [i k] Hi. cbn. apply (proj1 Hok), elem_of_map_to_list. by eapply list_elem_of_lookup_2. }
    apply NoDup_fst_map_to_list.
  - apply Forall_forall. intros k. by apply Hin.
  - split_and!.
    + intros i k Hi. rewrite (HA i k Hi), bool_decide_eq_true_2; [done|]. apply list_elem_of_fmap. exists k.
      rewrite (proj1 Hok i k Hi). split; [done|]. apply Hin. by rewrite (proj1 Hok i k Hi).
    + intros i k Hi. destruct (HB i k Hi) as [?|(a & ? & ? & _)]; [by left|right; by exists a].
    + eapply Forall_impl; [exact HC|]. intros a (H1 & H2 & old & Hold%Hin & H4). split; [done|]. split; [done|]. by exists old.
Qed.

End Fresh.

(** ** Reports and standbys *)

(** A report needs the fence, not the lease: with a token of its own that
    verifies, any registered worker of any tenant ends any lease whose
    identifier and fence it names, whoever holds it; if it is not registered in
    the lease's tenant it is told so, and the lease is gone all the same. *)
Theorem report_ends_any_lease r tok w token w1 l :
  workers_wf w → table_wf (ww_leases w) →
  verify_token env tok (wr_worker_id r) w = (Ret token, w1) →
  ww_leases w !! wr_lease_id r = Some l → wl_fencing_token l = wr_fencing_token r →
  ww_leases (report env r tok w).2 = delete (wr_lease_id r) (ww_leases w) ∧
  (report env r tok w).1 =
    match ww_workers w !! (wl_tenant_id l, wr_worker_id r) with
    | None => Raise (UnknownWorkerError (wr_worker_id r))
    | Some worker => Ret (seen (en_clock env (ext w1)).1 (if held (wk_state worker) then worker else in_state READY worker))
    end.
Proof.
  intros Hww Hwf Hv Hl Hf. pose proof (verify_view tok (wr_worker_id r) w) as [Hvl Hvw]. rewrite Hv in Hvl, Hvw. cbn in Hvl, Hvw.
  unfold report. rewrite (bind_run _ _ _ _ _ Hv). unfold get_lease. rewrite (bind_run _ _ w1 _ w1) by done.
  assert (lease_in (wr_lease_id r) SYSTEM_CONTEXT w1 = Some l) as -> by by (unfold lease_in; rewrite Hvl, Hl).
  rewrite bool_decide_eq_true_2 by done. cbn [negb]. rewrite (Hwf _ _ Hl).
  set (sc := context_for_run (wl_tenant_id l) None None).
  assert (delete_lease (wr_lease_id r) sc w1 = (Ret tt, set_leases (delete (wr_lease_id r)) w1)) as Hd.
  { unfold delete_lease, lease_in, sc. by rewrite Hvl, Hl, scopes_own. }
  rewrite (bind_run _ _ _ _ _ Hd). set (w2 := set_leases _ w1). assert (ww_workers w2 = ww_workers w) as Hk by exact Hvw.
  assert (ww_leases w2 = delete (wr_lease_id r) (ww_leases w)) as Hl2 by (cbn; by rewrite Hvl).
  assert (scope (wl_tenant_id l) sc = sc) as Hsc by (unfold scope, sc; by rewrite scopes_own).
  assert (require_worker (wr_worker_id r) (wl_tenant_id l) sc w2 =
    (match ww_workers w !! (wl_tenant_id l, wr_worker_id r) with Some k => Ret k | None => Raise (UnknownWorkerError (wr_worker_id r)) end, w2)) as Hr.
  { unfold require_worker, get_worker. rewrite (bind_run _ _ w2 _ w2) by done. rewrite Hsc. unfold sc at 1. rewrite scopes_own, Hk. by destruct (ww_workers w !! _). }
  destruct (ww_workers w !! (wl_tenant_id l, wr_worker_id r)) as [worker|] eqn:Hworker.
  - rewrite (bind_run _ _ _ _ _ Hr). unfold now_tick. rewrite (bind_run _ _ _ _ _ (ext_run _ _)). set (worker' := if held _ then _ else _).
    assert (wk_tenant_id worker' = wl_tenant_id l) as Ht.
    { specialize (Hww _ _ Hworker). injection Hww as Ht _. unfold worker'. by destruct (held _). }
    unfold save_worker, bind, require, sc. cbn [seen wk_tenant_id]. rewrite Ht, scopes_own. split; [exact Hl2|done].
  - by rewrite (bind_raise _ _ _ _ _ Hr).
Qed.

Section Standby.
Variable elector_clock : X → Z * X.

(** A replica that finds another's live lease does no pass: it reads the clock
    twice and changes nothing else. *)
Lemma standby_reclaims_nothing e s w l : let t := elector_clock (ext w) in let t' := elector_clock t.2 in
  Mem.leases s !! el_lock_key e = Some l → ll_leader_id l ≠ el_leader_id e → (t'.1 < ll_expires_at l)%Z →
  run_worker_reclaim_cycle env elector_clock e (s, w) = (Ret [], (s, with_ext t'.2 w)).
Proof.
  intros t t' Hl Hne Ht. unfold run_worker_reclaim_cycle, elector_now, on_workers.
  assert (∀ w, on_identity (of_ext elector_clock) w = (Ret (elector_clock (ext w)).1, with_ext (elector_clock (ext w)).2 w)) as Hx by apply ext_run.
  unfold bind at 1. cbn [snd fst]. rewrite Hx. fold t. unfold bind at 1, on_leader, is_leader, bind at 1. cbn [fst snd]. cbn -[lookup].
  rewrite Hl. cbn -[lookup]. rewrite bool_decide_eq_false_2 by done. cbn -[lookup]. unfold bind at 1. rewrite Hx. cbn -[lookup].
  change (ext (with_ext t.2 w)) with t.2. fold t'. unfold bind at 1, Leader.acquire, bind at 1. cbn -[lookup Z.ltb].
  unfold Mem.try_acquire. rewrite Hl. cbn -[Z.ltb]. rewrite (proj2 (Z.ltb_lt _ _) Ht), bool_decide_eq_true_2 by done. done.
Qed.
End Standby.

End Leases.
