(* ===== verification/WorkersDemo.v ===== *)
(** * Two workers and a run

    A run is leased to a worker that falls silent and is moved to another one;
    the theorems of WorkerLeases at inputs where their hypotheses hold.
    The signature concatenates the secret, the JSON parser knows the payloads
    of the tokens that were issued, and identifiers count. *)

From stdpp Require Import base strings pretty numbers gmap fin_maps list.
From S2P Require Import Prelude Text Float64 Tenancy CoreModels Canonical Leader WorkerIdentity Workers WorkerLeases.

Module Demo.
Definition T0 : Z := 1700000000 * 1000000.

Definition counter (prefix : string) (x : Z) : string * Z := (prefix +:+ pretty x, (x + 1)%Z).

Definition token_of (id worker tenant : string) : WorkerToken := mkToken id worker tenant "worker-local" T0 (T0 + 3600 * 1000000) None.

Definition payloads : list (odict string JsonValue) :=
  token_payload <$> [token_of "wt-0" "w1" "default"; token_of "wt-1" "w2" "default"; token_of "wt-2" "w3" "acme"].

Definition float_text (x : f64) : string := "0.0".

Definition loads (s : string) : option JsonValue :=
  JObj <$> (snd <$> list_find (λ p, Canonical.dumps float_text (JObj p) = s) payloads).

Definition env : Env Z := {|
  en_hmac := λ secret text, secret +:+ "/" +:+ text;
  en_loads := loads;
  en_float_repr := float_text;
  en_token_clock := λ x, (T0, x);
  en_token_id := counter "wt-";
  en_secret := "secret";
  en_key_id := "worker-local";
  en_ttl_seconds := 3600;
  en_clock := λ x, (T0, x);
  en_lease_id := counter "lease-";
  en_heartbeat_id := counter "hb-";
  en_heartbeat_timeout_s := 30;
  en_lease_ttl_s := 60;
|}.

Definition empty_world : World Z := mkWorld ∅ ∅ ∅ ∅ (mkIdentity ∅ 0%Z).

Definition caps : WorkerCapabilities := mkCapabilities [] [] 1.
Definition acme : TenantContext := context_for_run "acme" None None.

Definition token (id worker tenant : string) : string :=
  token_text (en_hmac env) float_text "secret" (token_payload (token_of id worker tenant)).

(** Enrolled and registered. *)
Definition fleet : World Z :=
  let w := run_ops env [OpEnroll "w1" "default" None DEFAULT_CONTEXT; OpEnroll "w2" "default" None DEFAULT_CONTEXT;
    OpEnroll "w3" "acme" None acme] empty_world in
  run_ops env [OpRegister (mkRegistration "w1" (token "wt-0" "w1" "default") "1" caps) "default" DEFAULT_CONTEXT;
    OpRegister (mkRegistration "w2" (token "wt-1" "w2" "default") "1" caps) "default" DEFAULT_CONTEXT;
    OpRegister (mkRegistration "w3" (token "wt-2" "w3" "acme") "1" caps) "acme" acme] w.

Definition lease (id worker : string) (attempt : Z) : WorkerLease :=
  mkWorkerLease id "default" "run-1" worker None attempt T0 (T0 + 60 * 1000000) attempt.

Definition leased : World Z := (grant env "w1" "run-1" None "default" 1 1 DEFAULT_CONTEXT fleet).2.

Definition reclaimed : outcome WorkerExn (list RunAssignment) * World Z := reclaim env (Some (T0 + 61 * 1000000)%Z) leased.

Example demo_registered : (λ w, (wk_worker_id w, wk_state w)) <$> sorted_workers fleet = [("w3", READY); ("w1", READY); ("w2", READY)].
Proof. vm_compute. reflexivity. Qed.

Example demo_granted : (grant env "w1" "run-1" None "default" 1 1 DEFAULT_CONTEXT fleet).1 = Ret (mkAssignment (lease "lease-3" "w1" 1) "run-1" "run-1" None).
Proof. vm_compute. reflexivity. Qed.

Example demo_reclaimed : reclaimed.1 = Ret [mkAssignment (lease "lease-4" "w2" 2) "run-1" "run-1" (Some "w1")] ∧
  map_to_list (ww_leases reclaimed.2) = [("lease-4", lease "lease-4" "w2" 2)].
Proof. vm_compute. done. Qed.

(** Without another ready worker the lease is removed and the run is leased to
    nobody. *)
Example demo_lost :
  let w := (drain env "w2" "default" DEFAULT_CONTEXT leased).2 in
  let r := reclaim env (Some (T0 + 61 * 1000000)%Z) w in r.1 = Ret [] ∧ map_to_list (ww_leases r.2) = [].
Proof. vm_compute. done. Qed.

(** A heartbeat makes a deregistered worker ready again. *)
Example demo_revived :
  let w := (deregister env "w1" "default" DEFAULT_CONTEXT fleet).2 in
  wk_state <$> (ww_workers w !! ("default", "w1")) = Some DEREGISTERED ∧
  wk_state <$> (ww_workers (heartbeat env "w1" (mkHeartbeatRequest (token "wt-0" "w1" "default") 0 1 []) "default" DEFAULT_CONTEXT w).2
    !! ("default", "w1")) = Some READY.
Proof. vm_compute. done. Qed.

(** The same run can be granted twice. *)
Example demo_granted_twice :
  let w := (grant env "w2" "run-1" None "default" 1 1 DEFAULT_CONTEXT leased).2 in
  (λ e, (wl_run_id e.2, wl_worker_id e.2)) <$> map_to_list (ww_leases w) = [("run-1", "w1"); ("run-1", "w2")].
Proof. vm_compute. done. Qed.

Definition used (x : Z) (i : string) : Prop := ∃ n, (n < x)%Z ∧ i = "lease-" +:+ pretty n.

Lemma fresh : fresh_ids env used.
Proof.
  split.
  - intros x x' i Hq (n & Hn & ->). exists n. split; [|done]. destruct Hq; cbn; lia.
  - intros x (n & Hn & H). cbn in H. injection H as H. apply (inj pretty) in H. lia.
  - intros x. exists x. split; [cbn; lia|done].
Qed.

Lemma leased_table : ww_leases leased = {["lease-3" := lease "lease-3" "w1" 1]}.
Proof. by vm_compute. Qed.

Lemma leased_ok : store_ok used leased.
Proof.
  split; [|split].
  - intros i l. rewrite leased_table. by intros [<- <-]%lookup_singleton_Some.
  - intros k worker. assert (ww_workers leased = list_to_map (map_to_list (ww_workers leased))) as -> by by rewrite list_to_map_to_list.
    intros H%elem_of_list_to_map_2. revert H. apply (Forall_forall (λ e, (wk_tenant_id e.2, wk_worker_id e.2) = e.1)).
    vm_compute. repeat constructor.
  - intros i l. rewrite leased_table. intros [<- <-]%lookup_singleton_Some. exists 3%Z. split; [by vm_compute|done].
Qed.
End Demo.

Import Demo.

Lemma run_leased_once_witness :
  single (ww_leases (run_ops env [OpGrant "w1" "run-1" None "default" 1 1 DEFAULT_CONTEXT; OpReclaim (Some (T0 + 61 * 1000000)%Z)] fleet)).
Proof.
  set (ops := [_; _]). assert (ww_leases fleet = ∅) as He by by vm_compute.
  apply (run_leased_once env ops fleet).
  - intros i l. by rewrite He.
  - intros i j li lj. by rewrite He.
  - split; [intros i l; by rewrite He|]. exact (conj I I).
Defined.

Lemma superseded_lease_dead_witness :
  (report env (mkReport "w1" "lease-3" "run-1" 1 READY f64_zero) (token "wt-0" "w1" "default") reclaimed.2).1 = Raise (StaleLeaseError "lease-3" 1).
Proof.
  assert (grant env "w1" "run-1" None "default" 1 1 DEFAULT_CONTEXT fleet =
    (Ret (mkAssignment (lease "lease-3" "w1" 1) "run-1" "run-1" None), leased)) as Hg by by vm_compute.
  assert (table_wf (ww_leases fleet)) as Hwf by (intros i l; by assert (ww_leases fleet = ∅) as -> by by vm_compute).
  destruct (superseded_lease_dead env used fresh _ _ _ _ _ _ _ _ _ _ [OpReclaim (Some (T0 + 61 * 1000000)%Z)] [] Hwf Hg) as (_ & H & _).
  - by vm_compute.
  - destruct (verify_token env (token "wt-0" "w1" "default") "w1" reclaimed.2) as [[t|e] w] eqn:Hv.
    + destruct (H (mkReport "w1" "lease-3" "run-1" 1 READY f64_zero) (token "wt-0" "w1" "default") eq_refl) as (_ & H' & _).
      refine (H' t _). change ((verify_token env (token "wt-0" "w1" "default") "w1" reclaimed.2).1 = Ret t). by rewrite Hv.
    + exfalso. revert Hv. by vm_compute.
Defined.

Lemma reclaim_requeues_witness :
  reclaimed.1 = Ret [mkAssignment (lease "lease-4" "w2" 2) "run-1" "run-1" (Some "w1")] ∧ ww_leases reclaimed.2 !! "lease-3" = None.
Proof.
  assert (reclaimed.1 = Ret [mkAssignment (lease "lease-4" "w2" 2) "run-1" "run-1" (Some "w1")]) as Ho by by vm_compute.
  split; [exact Ho|]. assert (reclaim env (Some (T0 + 61 * 1000000)%Z) leased = (Ret [mkAssignment (lease "lease-4" "w2" 2) "run-1" "run-1" (Some "w1")], reclaimed.2)) as H.
  { rewrite <-Ho. unfold reclaimed. by destruct (reclaim _ _ _). }
  destruct (reclaim_requeues env used fresh _ _ _ _ leased_ok H) as (HA & _ & _).
  rewrite (HA "lease-3" (lease "lease-3" "w1" 1)); [by vm_compute|]. rewrite leased_table. apply lookup_singleton_eq.
Defined.

(** The worker of another tenant ends the lease, and is told it is unknown. *)
Lemma report_ends_any_lease_witness :
  (report env (mkReport "w3" "lease-3" "run-1" 1 READY f64_zero) (token "wt-2" "w3" "acme") leased).1 = Raise (UnknownWorkerError "w3") ∧
  ww_leases (report env (mkReport "w3" "lease-3" "run-1" 1 READY f64_zero) (token "wt-2" "w3" "acme") leased).2 = ∅.
Proof.
  set (r := mkReport _ _ _ _ _ _). destruct leased_ok as (Hwf & Hww & _).
  assert (ww_leases leased !! "lease-3" = Some (lease "lease-3" "w1" 1)) as Hl by (rewrite leased_table; apply lookup_singleton_eq).
  destruct (verify_token env (token "wt-2" "w3" "acme") "w3" leased) as [[t|e] w1] eqn:Hv.
  - destruct (report_ends_any_lease env r (token "wt-2" "w3" "acme") leased t w1 (lease "lease-3" "w1" 1) Hww Hwf Hv Hl eq_refl) as [-> ->].
    split; [by vm_compute|]. rewrite leased_table. apply delete_singleton_eq.
  - exfalso. revert Hv. by vm_compute.
Defined.
