(* ===== verification/Conflict.v ===== *)
(** * Field conflicts of desired-state reconciliation ([reconcile/conflict.py])

    Per-field classes, the flattening of payloads into paths, their difference,
    and the merge of declared fields onto observed ones.  A path is the keys
    joined by dots; equality of leaves is Python's, where booleans, integers and
    floats compare by value and a dictionary's order does not count. *)

From Stdlib Require Import Ascii SpecFloat.
From stdpp Require Import base strings numbers sets list.
From S2P Require Import Prelude Text Float64 CoreModels Canonical.

(** ** Python's equality of JSON values *)

(** [x == z] for a float and an integer. *)
Definition f64_eq_Z (x : f64) (z : Z) : bool :=
  match x with
  | S754_zero _ => (z =? 0)%Z
  | S754_finite s m e =>
      let v := if s then Zneg m else Zpos m in
      if (0 <=? e)%Z then (z =? v * 2 ^ e)%Z else (z * 2 ^ (- e) =? v)%Z
  | _ => false
  end.

Inductive number := NInt (z : Z) | NFloat (x : f64).

Definition as_number (v : JsonValue) : option number :=
  match v with
  | JBool b => Some (NInt (if b then 1 else 0))
  | JInt z => Some (NInt z)
  | JFloat x => Some (NFloat x)
  | _ => None
  end.

Definition num_eq (a b : number) : bool :=
  match a, b with
  | NInt x, NInt y => (x =? y)%Z
  | NInt x, NFloat y => f64_eq_Z y x
  | NFloat x, NInt y => f64_eq_Z x y
  | NFloat x, NFloat y => f64_eqb x y
  end.

Fixpoint json_eq (v w : JsonValue) {struct v} : bool :=
  match v, w with
  | JNull, JNull => true
  | JStr a, JStr b => bool_decide (a = b)
  | JList a, JList b =>
      (fix go (a b : list JsonValue) : bool :=
         match a, b with
         | [], [] => true
         | x :: a', y :: b' => json_eq x y && go a' b'
         | _, _ => false
         end) a b
  | JObj a, JObj b =>
      (length a =? length b)%nat &&
      (fix go (a : odict string JsonValue) : bool :=
         match a with
         | [] => true
         | (k, x) :: a' => match od_get k b with Some y => json_eq x y | None => false end && go a'
         end) a
  | _, _ => match as_number v, as_number w with Some x, Some y => num_eq x y | _, _ => false end
  end.

(** [a.get(path) == b.get(path)]: an absent path reads as [None]. *)
Definition opt_json (o : option JsonValue) : JsonValue := default JNull o.

(** ** Classes *)

Inductive FieldClass := DECLARATIVE | RUNTIME | CERTIFICATION | PINNED.

#[export] Instance FieldClass_eq_dec : EqDecision FieldClass.
Proof. solve_decision. Defined.

Inductive DriftResolution := UNRESOLVED | DECLARED_WINS | OBSERVED_WINS | IGNORED.

#[export] Instance DriftResolution_eq_dec : EqDecision DriftResolution.
Proof. solve_decision. Defined.

(** [_CERTIFICATION_OBSERVED] and [_RUNTIME_FIELDS] *)
Definition certification_observed : list string :=
  ["spec.certification.status"; "spec.certification.attestation_id"; "spec.certification.certified_at";
   "spec.certification.certified_by"; "spec.certification.expires_at"].

Definition runtime_fields : list string :=
  ["production_runs_survived"; "status"; "last_seen"; "lease"; "heartbeat"; "reconcile_run_id"].

Record FieldChange := mkChange { fc_path : string; fc_desired : JsonValue; fc_observed : JsonValue }.

(** A nested merge that is still to be given its desired part and prefix. *)
Abbreviation pending := (JsonValue * (odict string JsonValue → string → odict string JsonValue))%type.

Section Policy.
Variable pinned_fields : list string.

(** [ConflictPolicy.classify] *)
Definition classify (field : string) : FieldClass :=
  if bool_decide (field ∈ pinned_fields) then PINNED
  else if bool_decide (field ∈ certification_observed) then CERTIFICATION
  else if existsb (λ p, String.prefix p field) runtime_fields then RUNTIME
  else DECLARATIVE.

(** [ConflictPolicy.resolution_for] *)
Definition resolution_for (field : string) : DriftResolution :=
  if bool_decide (classify field = DECLARATIVE) then DECLARED_WINS else OBSERVED_WINS.

(** ** Flattening *)

(** [_flatten_into] *)
Fixpoint flatten_into (target : odict string JsonValue) (prefix : string) (v : JsonValue) {struct v} : odict string JsonValue :=
  match v with
  | JObj d =>
      (fix go (d : odict string JsonValue) (target : odict string JsonValue) : odict string JsonValue :=
         match d with
         | [] => target
         | (k, x) :: d' => go d' (flatten_into target (prefix +:+ "." +:+ k) x)
         end) d target
  | v => od_set prefix v target
  end.

(** [flatten] *)
Fixpoint flatten_from (payload : odict string JsonValue) (target : odict string JsonValue) : odict string JsonValue :=
  match payload with [] => target | (k, x) :: payload' => flatten_from payload' (flatten_into target k x) end.

Definition flatten (payload : odict string JsonValue) : odict string JsonValue := flatten_from payload [].

(** [sorted(set(desired) | set(observed))] *)
Definition all_paths (desired observed : odict string JsonValue) : list string :=
  py_sort str_leb (remove_dups (od_keys desired ++ od_keys observed)).

(** [diff_payloads] *)
Definition diff_payloads (desired observed : odict string JsonValue) : list FieldChange :=
  let d := flatten desired in
  let o := flatten observed in
  omap (λ path, let x := opt_json (od_get path d) in let y := opt_json (od_get path o) in
                if json_eq x y then None else Some (mkChange path x y)) (all_paths d o).

(** ** Merging *)

Definition sub_path (prefix key : string) : string := if bool_decide (prefix = EmptyString) then key else prefix +:+ "." +:+ key.

(** The first loop: what desired state does not mention. *)
Fixpoint keep_observed (subs : odict string pending) (desired : odict string JsonValue) (prefix : string) : odict string JsonValue :=
  match subs with
  | [] => []
  | (k, (v, f)) :: subs' =>
      let rest := keep_observed subs' desired prefix in
      if od_mem k desired then (k, v) :: rest
      else if bool_decide (classify (sub_path prefix k) = DECLARATIVE) then rest
      else match v with JObj _ => (k, JObj (f [] (sub_path prefix k))) :: rest | _ => (k, v) :: rest end
  end.

(** The second loop: declared fields win. *)
Fixpoint overlay (desired : odict string JsonValue) (subs : odict string pending) (prefix : string)
    (result : odict string JsonValue) : odict string JsonValue :=
  match desired with
  | [] => result
  | (k, v) :: desired' =>
      overlay desired' subs prefix
        (match v, od_get k subs with
         | JObj vd, Some (JObj _, f) => od_set k (JObj (f vd (sub_path prefix k))) result
         | _, _ => if bool_decide (classify (sub_path prefix k) = DECLARATIVE) then od_set k v result else result
         end)
  end.

(** [_merge], by recursion on the observed value. *)
Fixpoint merge_value (observed : JsonValue) (desired : odict string JsonValue) (prefix : string) {struct observed} : odict string JsonValue :=
  match observed with
  | JObj o =>
      let subs := (fix go (o : odict string JsonValue) : odict string pending :=
                     match o with [] => [] | (k, v) :: o' => (k, (v, merge_value v)) :: go o' end) o in
      overlay desired subs prefix (keep_observed subs desired prefix)
  | _ => []
  end.

(** [merge_declared_wins] *)
Definition merge_declared_wins (desired observed : odict string JsonValue) : odict string JsonValue :=
  merge_value (JObj observed) desired EmptyString.
End Policy.

Example classify_ex : classify [] "spec.certification.status" = CERTIFICATION ∧ classify [] "spec.certification" = DECLARATIVE ∧
  classify [] "statusline" = RUNTIME ∧ classify ["metadata.owner"] "metadata.owner" = PINNED.
Proof. by vm_compute. Qed.

Example merge_ex :
  merge_declared_wins [] [("a", JInt 1); ("b", JObj [("c", JInt 2)])] [("b", JObj [("c", JInt 3); ("d", JInt 4)]); ("status", JStr "x"); ("e", JNull)]
  = [("b", JObj [("c", JInt 2)]); ("status", JStr "x"); ("a", JInt 1)].
Proof. by vm_compute. Qed.

(** ** Trees and paths *)

(** A key: not empty and without dots; a tree: distinct keys everywhere. *)
Definition key_ok (k : string) : bool := bool_decide (k ≠ EmptyString) && all_chars (λ c, negb (bool_decide (c = "."%char))) k.

Fixpoint tree_ok (v : JsonValue) {struct v} : bool :=
  match v with
  | JObj d =>
      bool_decide (NoDup (od_keys d)) &&
      (fix go (d : odict string JsonValue) : bool := match d with [] => true | (k, x) :: d' => key_ok k && tree_ok x && go d' end) d
  | _ => true
  end.

Definition path_of (ks : list string) : string := String.concat "." ks.

Fixpoint leaf_at (ks : list string) (v : JsonValue) : option JsonValue :=
  match ks, v with
  | [], JObj _ => None
  | [], v => Some v
  | k :: ks', JObj d => x ← od_get k d; leaf_at ks' x
  | _ :: _, _ => None
  end.

Fixpoint object_at (ks : list string) (v : JsonValue) : bool :=
  match ks, v with
  | [], JObj _ => true
  | k :: ks', JObj d => match od_get k d with Some x => object_at ks' x | None => false end
  | _, _ => false
  end.

Definition path_ok (ks : list string) : Prop := ks ≠ [] ∧ Forall (λ k, key_ok k = true) ks.

Lemma tree_ok_obj d : tree_ok (JObj d) = true ↔ od_wf d ∧ Forall (λ e, key_ok e.1 = true ∧ tree_ok e.2 = true) d.
Proof.
  cbn [tree_ok]. rewrite andb_true_iff, bool_decide_eq_true. apply and_iff_compat_l.
  induction d as [|[k x] d IH]; [by split|]. rewrite !andb_true_iff, Forall_cons, IH. cbn. tauto.
Qed.

Lemma tree_ok_get d k x : tree_ok (JObj d) = true → od_get k d = Some x → key_ok k = true ∧ tree_ok x = true.
Proof. intros [_ H]%tree_ok_obj Hk%od_get_Some_elem. rewrite Forall_forall in H. by apply (H (k, x)). Qed.

Lemma partition_dot a r : all_chars (λ c, negb (bool_decide (c = "."%char))) a = true → partition_on "."%char (a +:+ "." +:+ r) = Some (a, r).
Proof.
  induction a as [|c a IH]; cbn; [done|]. intros [Hc%negb_true_iff Ha]%andb_true_iff. rewrite Hc. cbn in IH. by rewrite IH.
Qed.

Lemma partition_no_dot a : all_chars (λ c, negb (bool_decide (c = "."%char))) a = true → partition_on "."%char a = None.
Proof. induction a as [|c a IH]; cbn; [done|]. intros [Hc%negb_true_iff Ha]%andb_true_iff. rewrite Hc. by rewrite IH. Qed.

Lemma key_ok_chars k : key_ok k = true → all_chars (λ c, negb (bool_decide (c = "."%char))) k = true.
Proof. by intros [_ ?]%andb_true_iff. Qed.

Lemma path_of_cons k ks : ks ≠ [] → path_of (k :: ks) = k +:+ "." +:+ path_of ks.
Proof. by destruct ks. Qed.

Lemma path_of_inj ks ks' : path_ok ks → path_ok ks' → path_of ks = path_of ks' → ks = ks'.
Proof.
  revert ks'. induction ks as [|k ks IH]; intros [|k' ks'] [Hn Hk] [Hn' Hk'] H; try done.
  apply Forall_cons in Hk as [Hk Hks]. apply Forall_cons in Hk' as [Hk' Hks']. apply key_ok_chars in Hk, Hk'.
  destruct (decide (ks = [])) as [->|Hne], (decide (ks' = [])) as [->|Hne'].
  - cbn in H. by subst.
  - rewrite (path_of_cons k') in H by done. change (path_of [k]) with k in H. apply partition_no_dot in Hk. rewrite H, partition_dot in Hk by done. done.
  - rewrite path_of_cons in H by done. change (path_of [k']) with k' in H. apply partition_no_dot in Hk'. rewrite <-H, partition_dot in Hk' by done. done.
  - rewrite !path_of_cons in H by done. apply (f_equal (partition_on "."%char)) in H. rewrite !partition_dot in H by done.
    injection H as -> H. f_equal. by apply IH.
Qed.

Lemma path_of_snoc ks k : ks ≠ [] → path_of (ks ++ [k]) = path_of ks +:+ "." +:+ k.
Proof.
  induction ks as [|x ks IH]; [done|]. intros _. destruct (decide (ks = [])) as [->|Hne]; [done|].
  cbn [app]. rewrite !path_of_cons by (done || by destruct ks). rewrite IH by done. by rewrite !string_app_assoc.
Qed.

(** What is left of a path below a prefix. *)
Fixpoint below (pre qs : list string) : option (list string) :=
  match pre, qs with
  | [], qs => Some qs
  | k :: pre', q :: qs' => if decide (k = q) then below pre' qs' else None
  | _, [] => None
  end.

Lemma below_Some pre qs ks : below pre qs = Some ks ↔ qs = pre ++ ks.
Proof.
  revert qs. induction pre as [|k pre IH]; intros [|q qs]; cbn; try naive_solver. case_decide as H; [subst; rewrite IH|]; naive_solver.
Qed.

Lemma below_snoc pre k qs : below (pre ++ [k]) qs = match below pre qs with Some (k' :: ks) => if decide (k = k') then Some ks else None | _ => None end.
Proof.
  revert qs. induction pre as [|p pre IH]; intros [|q qs]; cbn; [done| |done|].
  - by case_decide.
  - case_decide; [apply IH|done].
Qed.

(** ** Flattening reads the leaves *)

Definition or_else (a b : option JsonValue) : option JsonValue := match a with Some x => Some x | None => b end.

Definition leaf_below (pre qs : list string) (v : JsonValue) : option JsonValue := ks ← below pre qs; leaf_at ks v.

Definition flat_go (prefix : string) : odict string JsonValue → odict string JsonValue → odict string JsonValue :=
  fix go d target := match d with [] => target | (k, x) :: d' => go d' (flatten_into target (prefix +:+ "." +:+ k) x) end.

Lemma path_ok_snoc pre k : path_ok pre → key_ok k = true → path_ok (pre ++ [k]).
Proof. intros [Hn Hp] Hk. split; [by destruct pre|]. apply Forall_app. by split; [|apply Forall_singleton]. Qed.

Lemma flatten_into_get v : ∀ pre t qs, tree_ok v = true → path_ok pre → path_ok qs →
  od_get (path_of qs) (flatten_into t (path_of pre) v) = or_else (leaf_below pre qs v) (od_get (path_of qs) t).
Proof.
  assert (∀ x t pre qs, path_ok pre → path_ok qs → (∀ ks, leaf_at ks x = match ks with [] => Some x | _ => None end) →
    od_get (path_of qs) (od_set (path_of pre) x t) = or_else (leaf_below pre qs x) (od_get (path_of qs) t)) as Hleaf.
  { intros x t pre qs Hp Hq Hx. rewrite od_get_set. unfold leaf_below. case_decide as H.
    - apply path_of_inj in H as ->; [|done..]. destruct (below pre pre) as [ks|] eqn:E; [apply below_Some in E|].
      + assert (ks = []) as -> by (apply (app_inv_head pre); by rewrite app_nil_r). cbn [mbind option_bind]. by rewrite Hx.
      + assert (below pre pre = Some []) by (apply below_Some; by rewrite app_nil_r). congruence.
    - destruct (below pre qs) as [ks|] eqn:E; [|done]. apply below_Some in E. cbn [mbind option_bind]. rewrite Hx. destruct ks; [|done].
      rewrite app_nil_r in E. by subst. }
  induction v as [| | | | | |d IH] using json_induction; intros pre t qs Hok Hp Hq; cbn [flatten_into]; try by (apply Hleaf; [done..|intros []]).
  change (od_get (path_of qs) (flat_go (path_of pre) d t) = or_else (leaf_below pre qs (JObj d)) (od_get (path_of qs) t)).
  apply tree_ok_obj in Hok as [Hwf Hok]. revert t. induction IH as [|[k x] d Hx _ IHd]; intros t.
  - cbn [flat_go]. unfold leaf_below. by destruct (below pre qs) as [[|]|].
  - apply Forall_cons in Hok as [[Hk Hxo] Hok]. unfold od_wf in Hwf. cbn in Hwf. apply NoDup_cons in Hwf as [Hnk Hwf].
    cbn [flat_go]. change (od_get (path_of qs) (flat_go (path_of pre) d (flatten_into t (path_of pre +:+ "." +:+ k) x)) = or_else (leaf_below pre qs (JObj ((k, x) :: d))) (od_get (path_of qs) t)).
    rewrite IHd by done. rewrite <-path_of_snoc by apply Hp. cbn [snd] in Hx. rewrite (Hx _ _ _ Hxo (path_ok_snoc _ _ Hp Hk) Hq).
    unfold leaf_below. rewrite below_snoc. destruct (below pre qs) as [[|k' ks]|]; [done| |done]. cbn [mbind option_bind leaf_at od_get].
    destruct (decide (k = k')) as [<-|Hne].
    + rewrite !decide_True by done. apply od_get_None in Hnk. by rewrite Hnk.
    + repeat case_decide; congruence || done.
Qed.

Lemma flatten_from_get d : tree_ok (JObj d) = true → ∀ t qs, path_ok qs →
  od_get (path_of qs) (flatten_from d t) = or_else (leaf_at qs (JObj d)) (od_get (path_of qs) t).
Proof.
  intros [Hwf Hok]%tree_ok_obj. induction d as [|[k x] d IH]; intros t qs Hq.
  - cbn. by destruct qs.
  - apply Forall_cons in Hok as [[Hk Hx] Hok]. unfold od_wf in Hwf. cbn in Hwf. apply NoDup_cons in Hwf as [Hnk Hwf].
    cbn [flatten_from]. rewrite IH by done. assert (flatten_into t k x = flatten_into t (path_of [k]) x) as -> by done.
    rewrite flatten_into_get; [|done|split; [done|by apply Forall_singleton]|done]. unfold leaf_below.
    destruct qs as [|q qs]; [by destruct Hq|]. cbn [below leaf_at od_get]. destruct (decide (k = q)) as [<-|Hne].
    + rewrite !decide_True by done. apply od_get_None in Hnk. by rewrite Hnk.
    + repeat case_decide; congruence || done.
Qed.

(** The flattened payload maps the path of each leaf to the leaf. *)
Lemma flatten_get d qs : tree_ok (JObj d) = true → path_ok qs → od_get (path_of qs) (flatten d) = leaf_at qs (JObj d).
Proof. intros Hd Hq. unfold flatten. rewrite flatten_from_get by done. by destruct (leaf_at qs (JObj d)). Qed.

Lemma flatten_into_keys v : ∀ pre (t : odict string JsonValue) p, tree_ok v = true → path_ok pre →
  p ∈ od_keys (flatten_into t (path_of pre) v) → p ∈ od_keys t ∨ ∃ qs, path_ok qs ∧ p = path_of qs.
Proof.
  assert (∀ x (t : odict string JsonValue) pre p, path_ok pre → p ∈ od_keys (od_set (path_of pre) x t) → p ∈ od_keys t ∨ ∃ qs, path_ok qs ∧ p = path_of qs) as Hleaf.
  { intros x t pre p Hp. rewrite od_keys_set. destruct (od_mem _ _); [by left|]. intros [?|H]%elem_of_app; [by left|].
    apply list_elem_of_singleton in H. right. by exists pre. }
  induction v as [| | | | | |d IH] using json_induction; intros pre t p Hok Hp; cbn [flatten_into]; try by apply Hleaf.
  change (p ∈ od_keys (flat_go (path_of pre) d t) → p ∈ od_keys t ∨ ∃ qs, path_ok qs ∧ p = path_of qs).
  apply tree_ok_obj in Hok as [_ Hok]. revert t. induction IH as [|[k x] d Hx _ IHd]; intros t; [by left|].
  apply Forall_cons in Hok as [[Hk Hxo] Hok]. cbn [flat_go]. intros H.
  destruct (IHd Hok _ H) as [H'|?]; [|by right]. clear H. rename H' into H.
  rewrite <-path_of_snoc in H by apply Hp. by eapply Hx in H; [|done|apply path_ok_snoc].
Qed.

Lemma flatten_keys d p : tree_ok (JObj d) = true → p ∈ od_keys (flatten d) → ∃ qs, path_ok qs ∧ p = path_of qs.
Proof.
  intros [_ Hok]%tree_ok_obj. cut (∀ t, p ∈ od_keys (flatten_from d t) → p ∈ od_keys t ∨ ∃ qs, path_ok qs ∧ p = path_of qs).
  { intros H Hp. destruct (H [] Hp) as [Hin|?]; [by apply not_elem_of_nil in Hin|done]. }
  induction d as [|[k x] d IH]; intros t; [by left|]. apply Forall_cons in Hok as [[Hk Hx] Hok]. cbn [flatten_from].
  intros H. destruct (IH Hok _ H) as [H'|?]; [|by right]. clear H. rename H' into H. change (flatten_into t k x) with (flatten_into t (path_of [k]) x) in H. eapply flatten_into_keys in H; [done|done|].
  split; [done|by apply Forall_singleton].
Qed.

(** ** The merge, key by key *)

Section Merging.
Variable pinned_fields : list string.
Abbreviation class := (classify pinned_fields).
Abbreviation merge := (merge_value pinned_fields).

Lemma mem_get {V} k (d : odict string V) : od_mem k d = match od_get k d with Some _ => true | None => false end.
Proof. done. Qed.

Lemma keep_get subs d prefix k : od_wf subs →
  od_get k (keep_observed pinned_fields subs d prefix) =
    match od_get k subs with
    | None => None
    | Some (v, f) =>
        if od_mem k d then Some v
        else if bool_decide (class (sub_path prefix k) = DECLARATIVE) then None
        else Some match v with JObj _ => JObj (f [] (sub_path prefix k)) | _ => v end
    end.
Proof.
  unfold od_wf, od_keys. induction subs as [|[k' [v f]] subs IH]; [done|]. cbn. intros [Hn Hwf]%NoDup_cons. specialize (IH Hwf).
  destruct (decide (k = k')) as [<-|Hne].
  - assert (od_get k (keep_observed pinned_fields subs d prefix) = None) as Hnone.
    { rewrite IH. apply od_get_None in Hn. by rewrite Hn. }
    destruct (od_mem k d); [cbn; by rewrite decide_True by done|]. destruct (bool_decide _); [done|].
    by destruct v; cbn; rewrite decide_True by done.
  - destruct (od_mem k' d); [cbn; rewrite decide_False by done; exact IH|].
    destruct (bool_decide (class (sub_path prefix k') = DECLARATIVE)); [exact IH|].
    destruct v; cbn; rewrite decide_False by done; exact IH.
Qed.

(** What the second loop writes for one key. *)
Definition written (v : JsonValue) (sub : option pending) (prefix k : string) (current : option JsonValue) : option JsonValue :=
  match v, sub with
  | JObj vd, Some (JObj _, f) => Some (JObj (f vd (sub_path prefix k)))
  | _, _ => if bool_decide (class (sub_path prefix k) = DECLARATIVE) then Some v else current
  end.

Lemma overlay_get d subs prefix k : od_wf d → ∀ r,
  od_get k (overlay pinned_fields d subs prefix r) =
    match od_get k d with Some v => written v (od_get k subs) prefix k (od_get k r) | None => od_get k r end.
Proof.
  unfold od_wf, od_keys. induction d as [|[k' v] d IH]; [done|]. cbn. intros [Hn Hwf]%NoDup_cons r. rewrite (IH Hwf).
  set (r' := match v with JObj _ => _ | _ => _ end). assert (k ≠ k' → od_get k r' = od_get k r) as Hne.
  { intros H. unfold r'. destruct v; try (destruct (bool_decide _); [by apply od_get_set_ne|done]).
    destruct (od_get k' subs) as [[[] f]|]; try (destruct (bool_decide _); [by apply od_get_set_ne|done]). by apply od_get_set_ne. }
  destruct (decide (k = k')) as [<-|H]; [|by rewrite Hne]. apply od_get_None in Hn. rewrite Hn. unfold r', written.
  destruct v; try (destruct (bool_decide _); [apply od_get_set_eq|done]).
  destruct (od_get k subs) as [[[] f]|]; try (destruct (bool_decide _); [apply od_get_set_eq|done]). apply od_get_set_eq.
Qed.

Definition subs_of : odict string JsonValue → odict string pending :=
  fix go o := match o with [] => [] | (k, v) :: o' => (k, (v, merge v)) :: go o' end.

Lemma merge_obj o d prefix :
  merge (JObj o) d prefix = overlay pinned_fields d (subs_of o) prefix (keep_observed pinned_fields (subs_of o) d prefix).
Proof. done. Qed.

Lemma subs_get o k : od_get k (subs_of o) = (λ v, (v, merge v)) <$> od_get k o.
Proof. induction o as [|[k' v] o IH]; [done|]. cbn. by case_decide. Qed.

Lemma subs_wf o : od_wf o → od_wf (subs_of o).
Proof.
  unfold od_wf, od_keys. assert ((subs_of o).*1 = o.*1) as ->; [|done]. induction o as [|[k' v] o IH]; [done|]. cbn. by f_equal.
Qed.

(** The merge of two objects at a key. *)
Lemma merge_get o d prefix k : od_wf o → od_wf d →
  od_get k (merge (JObj o) d prefix) =
    match od_get k d, od_get k o with
    | Some (JObj vd), Some (JObj vo) => Some (JObj (merge (JObj vo) vd (sub_path prefix k)))
    | Some v, current => if bool_decide (class (sub_path prefix k) = DECLARATIVE) then Some v else current
    | None, Some v =>
        if bool_decide (class (sub_path prefix k) = DECLARATIVE) then None
        else Some match v with JObj vo => JObj (merge (JObj vo) [] (sub_path prefix k)) | _ => v end
    | None, None => None
    end.
Proof.
  intros Ho Hd. rewrite merge_obj, overlay_get, keep_get, subs_get, mem_get by (done || by apply subs_wf).
  destruct (od_get k d) as [v|], (od_get k o) as [w|]; cbn; [|by destruct v| |done].
  - by destruct v, w.
  - by destruct w.
Qed.

(** ** What the merge keeps and what it takes *)

Lemma sub_path_of pre k : path_ok pre ∨ pre = [] → sub_path (path_of pre) k = path_of (pre ++ [k]).
Proof.
  intros [[Hn Hp]| ->]; [|done]. rewrite path_of_snoc by done. unfold sub_path. rewrite bool_decide_eq_false_2; [done|].
  destruct pre as [|p pre]; [done|]. apply Forall_cons in Hp as [Hp _]. unfold key_ok in Hp.
  destruct p; [done|]. by destruct pre.
Qed.

(** No pinned or certification field is an object: such a field is one leaf. *)
Definition leaves_only (pre : list string) (v : JsonValue) : Prop :=
  ∀ ks, (class (path_of (pre ++ ks)) = PINNED ∨ class (path_of (pre ++ ks)) = CERTIFICATION) → ks ≠ [] → object_at ks v = false.

Lemma leaves_below pre k d v : od_get k d = Some v → leaves_only pre (JObj d) → leaves_only (pre ++ [k]) v.
Proof. intros Hk H ks Hc Hn. rewrite <-app_assoc in Hc. specialize (H (k :: ks) Hc). cbn in H. rewrite Hk in H. by apply H. Qed.

Lemma leaves_empty pre : leaves_only pre (JObj []).
Proof. intros [|k ks] _ Hn; [done|]. done. Qed.

Lemma prefix_app (p a b : string) : String.prefix p a = true → String.prefix p (a +:+ b) = true.
Proof.
  revert a. induction p as [|c p IH]; intros [|c' a]; try done; [by destruct b|]. cbn. destruct (Ascii.ascii_dec c c'); [apply IH|done].
Qed.

(** Everything below a run-time field is observed. *)
Lemma runtime_below pre k ks : path_ok pre ∨ pre = [] → ks ≠ [] → class (path_of (pre ++ [k])) = RUNTIME → class (path_of (pre ++ k :: ks)) ≠ DECLARATIVE.
Proof.
  intros Hp Hks. assert (path_of (pre ++ k :: ks) = path_of (pre ++ [k]) +:+ "." +:+ path_of ks) as ->.
  { clear Hp. induction pre as [|p pre IH]; [by apply path_of_cons|]. cbn [app]. rewrite !path_of_cons by by destruct pre.
    rewrite IH. by rewrite !string_app_assoc. }
  generalize (path_of (pre ++ [k])), ("." +:+ path_of ks). intros a b. unfold classify.
  case_bool_decide; [done|]. case_bool_decide; [done|]. destruct (existsb _ runtime_fields) eqn:E; [|done]. intros _.
  assert (existsb (λ p, String.prefix p (a +:+ b)) runtime_fields = true) as ->.
  { apply existsb_elem in E as (p & Hin & Hpre). apply existsb_elem. exists p. split; [done|by apply prefix_app]. }
  case_bool_decide; [done|]. by case_bool_decide.
Qed.

Lemma class_cases f : class f = DECLARATIVE ∨ class f = RUNTIME ∨ class f = PINNED ∨ class f = CERTIFICATION.
Proof. destruct (class f); auto. Qed.

(** A declarative leaf of the merge is the desired one. *)
Lemma merge_declarative v : ∀ o d pre qs, v = JObj o → tree_ok (JObj o) = true → tree_ok (JObj d) = true → path_ok pre ∨ pre = [] → path_ok qs →
  leaves_only pre (JObj o) → leaves_only pre (JObj d) → class (path_of (pre ++ qs)) = DECLARATIVE →
  leaf_at qs (JObj (merge (JObj o) d (path_of pre))) = leaf_at qs (JObj d).
Proof.
  induction v as [| | | | | |o' IH] using json_induction; intros o d pre qs [= <-] Ho Hd Hp [Hn Hq] Hlo Hld Hc.
  destruct qs as [|k qs]; [done|]. apply Forall_cons in Hq as [Hk Hq]. cbn [leaf_at].
  pose proof (proj1 (tree_ok_obj _) Ho) as [Hwo _]. pose proof (proj1 (tree_ok_obj _) Hd) as [Hwd _].
  rewrite merge_get by done. rewrite sub_path_of by done. rewrite Forall_forall in IH.
  assert (path_ok (pre ++ [k])) as Hpk.
  { destruct Hp as [Hp| ->]; [by apply path_ok_snoc|]. split; [done|by apply Forall_singleton]. }
  assert (∀ vo vd, od_get k o' = Some (JObj vo) → tree_ok (JObj vd) = true → leaves_only (pre ++ [k]) (JObj vd) →
    leaf_at qs (JObj (merge (JObj vo) vd (path_of (pre ++ [k])))) = leaf_at qs (JObj vd)) as Hrec.
  { intros vo vd Hvo Hvd Hl. destruct (decide (qs = [])) as [->|Hqs]; [done|].
    refine (IH (k, JObj vo) _ vo vd (pre ++ [k]) qs eq_refl _ Hvd (or_introl Hpk) (conj Hqs Hq) _ Hl _).
    - by apply od_get_Some_elem.
    - exact (proj2 (tree_ok_get _ _ _ Ho Hvo)).
    - by eapply leaves_below.
    - by rewrite <-app_assoc. }
  assert (class (path_of (pre ++ [k])) ≠ DECLARATIVE → qs ≠ [] ∧ class (path_of (pre ++ [k])) ≠ RUNTIME) as Hnd.
  { intros Hne. assert (qs ≠ []) as Hqs by by intros ->. split; [done|]. intros Hr. by eapply runtime_below in Hr. }
  assert (class (path_of (pre ++ [k])) ≠ DECLARATIVE → object_at [k] (JObj o') = false ∧ object_at [k] (JObj d) = false) as Hleaf.
  { intros Hne. destruct (Hnd Hne) as [_ Hr]. destruct (class_cases (path_of (pre ++ [k]))) as [?|[?|?]]; [done|done|].
    split; [by apply Hlo; [tauto|]|by apply Hld; [tauto|]]. }
  assert (∀ x : JsonValue, object_at [] x = false → qs ≠ [] → leaf_at qs x = None) as Hflat by (intros [] Hx Hqs; by destruct qs).
  destruct (od_get k d) as [v|] eqn:Hkd, (od_get k o') as [w|] eqn:Hko; cbn [mbind option_bind].
  - assert (∀ r, (if bool_decide (class (path_of (pre ++ [k])) = DECLARATIVE) then Some v else Some w) = Some r → leaf_at qs r = leaf_at qs v) as Hplain.
    { intros r. case_bool_decide as Hcl; intros [= <-]; [done|]. destruct (Hnd Hcl) as [Hqs _]. destruct (Hleaf Hcl) as [H1 H2].
      cbn in H1, H2. rewrite Hko in H1. rewrite Hkd in H2. by rewrite !Hflat. }
    pose proof (proj2 (tree_ok_get _ _ _ Hd Hkd)) as Htv.
    destruct v as [| | | | | |vd]; try (case_bool_decide; cbn; by apply Hplain).
    destruct w as [| | | | | |vo]; try (case_bool_decide; cbn; by apply Hplain).
    cbn. apply Hrec; [done|done|]. by eapply leaves_below.
  - case_bool_decide as Hcl; [by destruct v|]. destruct (Hnd Hcl) as [Hqs _]. destruct (Hleaf Hcl) as [_ H2]. cbn in H2. rewrite Hkd in H2.
    destruct v; cbn; by rewrite Hflat.
  - case_bool_decide as Hcl; [done|]. destruct (Hnd Hcl) as [Hqs _]. destruct (Hleaf Hcl) as [H1 _]. cbn in H1. rewrite Hko in H1.
    destruct w; cbn; by rewrite ?Hflat.
  - done.
Qed.

Lemma keep_keys subs d prefix k : k ∈ od_keys (keep_observed pinned_fields subs d prefix) → k ∈ od_keys subs.
Proof.
  unfold od_keys. revert k. induction subs as [|[k' [v f]] subs IH]; [done|]. intros k. cbn.
  destruct (od_mem k' d); [set_solver|]. destruct (bool_decide _); [set_solver|]. destruct v; set_solver.
Qed.

Lemma keep_wf subs d prefix : od_wf subs → od_wf (keep_observed pinned_fields subs d prefix).
Proof.
  induction subs as [|[k' [v f]] subs IH]; [done|]. intros [Hn Hwf]%NoDup_cons. specialize (IH Hwf).
  assert (∀ v', od_wf ((k', v') :: keep_observed pinned_fields subs d prefix)) as Hc.
  { intros v'. apply NoDup_cons. split; [|done]. intros H. by apply keep_keys in H. }
  cbn. destruct (od_mem k' d); [apply Hc|]. destruct (bool_decide _); [done|]. by destruct v; apply Hc.
Qed.

Lemma overlay_wf d subs prefix r : od_wf r → od_wf (overlay pinned_fields d subs prefix r).
Proof.
  revert r. induction d as [|[k v] d IH]; intros r Hr; [done|]. cbn. apply IH.
  destruct v; try (destruct (bool_decide _); by auto with odict).
  destruct (od_get k subs) as [[[] f]|]; try (destruct (bool_decide _); by auto with odict). by auto with odict.
Qed.

Lemma tree_ok_intro d : od_wf d → (∀ k x, od_get k d = Some x → key_ok k = true ∧ tree_ok x = true) → tree_ok (JObj d) = true.
Proof.
  intros Hwf H. apply tree_ok_obj. split; [done|]. apply Forall_forall. intros [k x] Hin. by apply H, od_elem_get.
Qed.

Lemma merge_tree_ok v : ∀ o d prefix, v = JObj o → tree_ok (JObj o) = true → tree_ok (JObj d) = true →
  tree_ok (JObj (merge (JObj o) d prefix)) = true.
Proof.
  induction v as [| | | | | |o' IH] using json_induction; intros o d prefix [= <-] Ho Hd. rewrite Forall_forall in IH.
  pose proof (proj1 (tree_ok_obj _) Ho) as [Hwo _]. pose proof (proj1 (tree_ok_obj _) Hd) as [Hwd _].
  apply tree_ok_intro; [rewrite merge_obj; by apply overlay_wf, keep_wf, subs_wf|]. intros k x. rewrite merge_get by done.
  assert (∀ vo vd p, od_get k o' = Some (JObj vo) → tree_ok (JObj vd) = true → tree_ok (JObj (merge (JObj vo) vd p)) = true) as Hrec.
  { intros vo vd p Hvo Hvd. refine (IH (k, JObj vo) _ vo vd p eq_refl _ Hvd); [by apply od_get_Some_elem|].
    exact (proj2 (tree_ok_get _ _ _ Ho Hvo)). }
  destruct (od_get k d) as [v|] eqn:Hkd.
  - pose proof (tree_ok_get _ _ _ Hd Hkd) as [Hk Htv]. destruct (od_get k o') as [w|] eqn:Hko.
    + assert (∀ r, (if bool_decide (class (sub_path prefix k) = DECLARATIVE) then Some v else Some w) = Some r → key_ok k = true ∧ tree_ok r = true) as Hplain.
      { intros r. case_bool_decide; intros [= <-]; [done|]. exact (tree_ok_get _ _ _ Ho Hko). }
      destruct v as [| | | | | |vd]; try by apply Hplain. destruct w as [| | | | | |vo]; try by apply Hplain.
      intros [= <-]. split; [done|]. by apply Hrec.
    + intros Hx. assert ((if bool_decide (class (sub_path prefix k) = DECLARATIVE) then Some v else None) = Some x) as Hx' by by destruct v.
      case_bool_decide; [|done]. by injection Hx' as <-.
  - destruct (od_get k o') as [w|] eqn:Hko; [|done]. pose proof (tree_ok_get _ _ _ Ho Hko) as [Hk Htw].
    case_bool_decide; [done|]. intros [= <-]. split; [done|]. destruct w as [| | | | | |vo]; try done.
    by apply (Hrec vo []).
Qed.

(** A leaf of an observed-wins field is the observed one, where both sides have
    the objects that contain it. *)
Lemma merge_observed v : ∀ o d pre qs, v = JObj o → tree_ok (JObj o) = true → tree_ok (JObj d) = true → path_ok pre ∨ pre = [] → path_ok qs →
  class (path_of (pre ++ qs)) ≠ DECLARATIVE →
  (∀ ks k ks', qs = ks ++ k :: ks' → ks ≠ [] → object_at ks (JObj o) = true ∧ object_at ks (JObj d) = true) →
  object_at qs (JObj d) = false ∨ object_at qs (JObj o) = false →
  (∀ x, leaf_at qs (JObj o) = Some x → leaf_at qs (JObj (merge (JObj o) d (path_of pre))) = Some x) ∧
  (leaf_at qs (JObj o) = None → object_at qs (JObj o) = false → leaf_at qs (JObj (merge (JObj o) d (path_of pre))) = None).
Proof.
  induction v as [| | | | | |o' IH] using json_induction; intros o d pre qs [= <-] Ho Hd Hp [Hn Hq] Hc Hobj Hleaf.
  destruct qs as [|k qs]; [done|]. apply Forall_cons in Hq as [Hk Hq]. cbn [leaf_at object_at] in *.
  pose proof (proj1 (tree_ok_obj _) Ho) as [Hwo _]. pose proof (proj1 (tree_ok_obj _) Hd) as [Hwd _].
  rewrite merge_get by done. rewrite sub_path_of by done. rewrite Forall_forall in IH.
  destruct (decide (qs = [])) as [->|Hqs].
  - rewrite bool_decide_eq_false_2 by done. destruct (od_get k d) as [v|] eqn:Hkd, (od_get k o') as [w|] eqn:Hko; cbn.
    + destruct v; [..|destruct w]; cbn in *; try done; by destruct Hleaf.
    + by destruct v.
    + by destruct w.
    + done.
  - destruct qs as [|k2 qs]; [done|]. destruct (Hobj [k] k2 qs) as [H1 H2]; [done..|]. cbn in H1, H2.
    destruct (od_get k o') as [w|] eqn:Hko; [|done]. destruct w as [| | | | | |vo]; try done.
    destruct (od_get k d) as [v|] eqn:Hkd; [|done]. destruct v as [| | | | | |vd]; try done. cbn [mbind option_bind].
    assert (path_ok (pre ++ [k])) as Hpk.
    { destruct Hp as [Hp| ->]; [by apply path_ok_snoc|]. split; [done|by apply Forall_singleton]. }
    refine (IH (k, JObj vo) _ vo vd (pre ++ [k]) (k2 :: qs) eq_refl (proj2 (tree_ok_get _ _ _ Ho Hko)) (proj2 (tree_ok_get _ _ _ Hd Hkd))
      (or_introl Hpk) (conj Hqs Hq) _ _ Hleaf).
    + by apply od_get_Some_elem.
    + by rewrite <-app_assoc.
    + intros ks k' ks' He Hne. destruct (Hobj (k :: ks) k' ks') as [H3 H4]; [by rewrite He|done|].
      cbn in H3, H4. rewrite Hko in H3. by rewrite Hkd in H4.
Qed.
End Merging.

(** Leaves equal to themselves: anything but a not-a-number. *)
Definition comparable (v : JsonValue) : Prop := ∀ qs x, leaf_at qs v = Some x → json_eq x x = true.

(** Reconciliation converges: once the merged payload is what is observed,
    no declarative field differs from the desired state any more, so the same
    update is not planned again. Payloads are trees with dot-free keys; no
    pinned or certification field is an object; leaves are comparable. *)
Theorem merge_converges pinned d o :
  tree_ok (JObj d) = true → tree_ok (JObj o) = true → leaves_only pinned [] (JObj d) → leaves_only pinned [] (JObj o) → comparable (JObj d) →
  ∀ c, c ∈ diff_payloads d (merge_declared_wins pinned d o) → classify pinned (fc_path c) ≠ DECLARATIVE.
Proof.
  intros Hd Ho Hld Hlo Hcmp c. unfold diff_payloads. set (m := merge_declared_wins pinned d o).
  assert (tree_ok (JObj m) = true) as Hm by by eapply merge_tree_ok.
  intros (p & Hp & Hc)%list_elem_of_omap Hdecl. unfold all_paths in Hp. rewrite py_sort_perm in Hp.
  apply elem_of_remove_dups, elem_of_app in Hp. assert (∃ qs, path_ok qs ∧ p = path_of qs) as (qs & Hq & ->).
  { destruct Hp as [Hp|Hp]; [exact (flatten_keys _ _ Hd Hp)|exact (flatten_keys _ _ Hm Hp)]. }
  rewrite !flatten_get in Hc by done. destruct (json_eq _ _) eqn:He; [done|]. injection Hc as <-. cbn in Hdecl.
  assert (leaf_at qs (JObj m) = leaf_at qs (JObj d)) as Heq.
  { eapply (merge_declarative pinned (JObj o) o d [] qs); try done. by right. }
  rewrite Heq in He. destruct (leaf_at qs (JObj d)) as [x|] eqn:Hx; [|done]. cbn in He. by rewrite (Hcmp _ _ Hx) in He.
Qed.

(** *** Deciding the hypotheses *)

Lemma split_dot a r : all_chars (λ c, negb (bool_decide (c = "."%char))) a = true → split_on "."%char (a +:+ "." +:+ r) = a :: split_on "."%char r.
Proof. induction a as [|c a IH]; cbn; [done|]. intros [Hc%negb_true_iff Ha]%andb_true_iff. cbn in IH. by rewrite Hc, (IH Ha). Qed.

Lemma split_no_dot a : all_chars (λ c, negb (bool_decide (c = "."%char))) a = true → split_on "."%char a = [a].
Proof. induction a as [|c a IH]; cbn; [done|]. intros [Hc%negb_true_iff Ha]%andb_true_iff. by rewrite Hc, (IH Ha). Qed.

Lemma split_path ks : path_ok ks → split_on "."%char (path_of ks) = ks.
Proof.
  intros [Hn Hk]. induction Hk as [|k ks Hk _ IH]; [done|]. apply key_ok_chars in Hk. destruct (decide (ks = [])) as [->|Hne].
  - by apply split_no_dot.
  - rewrite path_of_cons, split_dot by done. by rewrite IH.
Qed.

Lemma object_keys ks v : tree_ok v = true → object_at ks v = true → Forall (λ k, key_ok k = true) ks.
Proof.
  revert v. induction ks as [|k ks IH]; intros v Hv Ho; [by apply Forall_nil_2|]. destruct v as [| | | | | |d]; try done. cbn in Ho.
  destruct (od_get k d) as [x|] eqn:Hx; [|done]. destruct (tree_ok_get _ _ _ Hv Hx). apply Forall_cons_2; [done|by eapply IH].
Qed.

Lemma leaves_only_check pinned v : tree_ok v = true →
  forallb (λ p, negb (object_at (split_on "."%char p) v)) (pinned ++ certification_observed) = true → leaves_only pinned [] v.
Proof.
  intros Hv H ks Hc Hn. cbn [app] in Hc. destruct (object_at ks v) eqn:Ho; [|done].
  assert (path_of ks ∈ pinned ++ certification_observed) as Hin.
  { unfold classify in Hc. rewrite elem_of_app. case_bool_decide; [by left|]. case_bool_decide; [by right|]. destruct (existsb _ _); naive_solver. }
  rewrite forallb_elem in H. specialize (H _ Hin). rewrite split_path, Ho in H; [done|]. split; [done|]. by eapply object_keys.
Qed.

(** Every leaf compared with itself. *)
Fixpoint self_equal (v : JsonValue) {struct v} : bool :=
  match v with
  | JObj d => (fix go (d : odict string JsonValue) : bool := match d with [] => true | (k, x) :: d' => self_equal x && go d' end) d
  | v => json_eq v v
  end.

Lemma self_equal_obj d : self_equal (JObj d) = true ↔ Forall (λ e, self_equal e.2 = true) d.
Proof.
  cbn [self_equal]. induction d as [|[k x] d IH]; [done|]. rewrite andb_true_iff, Forall_cons, IH. done.
Qed.

Lemma comparable_check v : self_equal v = true → comparable v.
Proof.
  intros H qs. revert v H. induction qs as [|k qs IH]; intros v H x Hx.
  - destruct v; [injection Hx as <-; exact H..|done].
  - destruct v as [| | | | | |d]; try done. cbn in Hx. destruct (od_get k d) as [y|] eqn:Hy; [|done]. cbn in Hx.
    apply self_equal_obj in H. rewrite Forall_forall in H. apply (IH y); [|done]. by apply (H (k, y)), od_get_Some_elem.
Qed.

Definition demo_desired : odict string JsonValue :=
  [("metadata", JObj [("name", JStr "w"); ("team", JStr "core")]);
   ("spec", JObj [("model", JStr "m2"); ("certification", JObj [("status", JStr "certified")])])].
Definition demo_observed : odict string JsonValue :=
  [("metadata", JObj [("name", JStr "w")]);
   ("spec", JObj [("model", JStr "m1"); ("tools", JList []); ("certification", JObj [("status", JStr "uncertified")])])].

Lemma merge_converges_witness :
  forallb (λ c, negb (bool_decide (classify ["metadata.owner"] (fc_path c) = DECLARATIVE)))
    (diff_payloads demo_desired (merge_declared_wins ["metadata.owner"] demo_desired demo_observed)) = true ∧
  length (diff_payloads demo_desired (merge_declared_wins ["metadata.owner"] demo_desired demo_observed)) = 1%nat.
Proof.
  split; [|by vm_compute]. apply forallb_elem. intros c Hc. apply negb_true_iff, bool_decide_eq_false.
  refine (merge_converges _ _ _ _ _ _ _ _ c Hc); [done|done|by apply leaves_only_check|by apply leaves_only_check|by apply comparable_check].
Defined.

(** ** Where it does not *)

(** A pinned object is not pinned: its fields are merged as declared ones. *)
Example pinned_object_overwritten :
  merge_declared_wins ["metadata.labels"] [("metadata", JObj [("labels", JObj [("a", JInt 1)])])]
    [("metadata", JObj [("labels", JObj [("a", JInt 2)])])] = [("metadata", JObj [("labels", JObj [("a", JInt 1)])])].
Proof. by vm_compute. Qed.

(** A pinned object that is declared but not observed is never applied, and is
    a declarative difference after every merge. *)
Example pinned_object_diverges :
  let d := [("metadata", JObj [("labels", JObj [("a", JInt 1)])])] in
  let o := [("metadata", JObj [("name", JStr "w")])] in
  let m := merge_declared_wins ["metadata.labels"] d o in
  (λ c, classify ["metadata.labels"] (fc_path c)) <$> diff_payloads d m = [DECLARATIVE] ∧ merge_declared_wins ["metadata.labels"] d m = m.
Proof. by vm_compute. Qed.

(** A certification status is asserted from desired state when the observed
    manifest has no certification block. *)
Example status_asserted :
  merge_declared_wins [] [("spec", JObj [("certification", JObj [("status", JStr "certified")])])] [("spec", JObj [])]
  = [("spec", JObj [("certification", JObj [("status", JStr "certified")])])].
Proof. by vm_compute. Qed.
