(* ===== verification/Reconcile.v ===== *)
(** * Desired-state reconciliation ([reconcile/], [fleet/reconcile.py])

    A pass of the controller: load the desired set of a source, observe the
    fleet, diff, plan under guardrails, execute, record.  The registry is seen
    through the class [RegistryApi], which [Registry] implements below.  The
    manifest parser and its dump, SHA-256, the other kinds of sources, the
    policy enforcer, clocks and run identifiers are parameters; inline sources,
    the in-memory store and the in-memory lock are modelled. *)

From Stdlib Require Import Ascii.
From stdpp Require Import base strings pretty numbers gmap sets list.
From S2P Require Import Prelude Text Float64 Tenancy CoreModels Canonical Templates Manifest Conflict Policy Registry.

#[local] Open Scope hp_scope.

(** ** Records *)

Inductive SpecSource := GIT | API.
Inductive SpecKind := WORKLOAD | POLICY | TRIGGER | BUDGET.
Inductive ReconcileStatus := RS_PENDING | RS_IN_SYNC | RS_DRIFTED | RS_ERROR.
Inductive ReconcileMode := PLAN | APPLY.
Inductive ReconcileOutcome := RO_IN_SYNC | RO_PLANNED | RO_APPLIED | RO_BLOCKED | RO_ERROR.
Inductive ActionKind :=
  | REGISTER_WORKLOAD | UPDATE_WORKLOAD | RECERTIFY_WORKLOAD | DEREGISTER_WORKLOAD | QUARANTINE_WORKLOAD | ENFORCE_POLICY_VERSION.
Inductive ActionDanger := ADDITIVE | SOFT | DESTRUCTIVE.
Inductive ActionStatus := AS_PLANNED | AS_APPLIED | AS_SKIPPED | AS_BLOCKED | AS_FAILED.
Inductive DeltaKind := CREATE | UPDATE | DEREGISTER | QUARANTINE | ENFORCE_POLICY.

#[export] Instance SpecKind_eq_dec : EqDecision SpecKind.
Proof. solve_decision. Defined.
#[export] Instance ActionKind_eq_dec : EqDecision ActionKind.
Proof. solve_decision. Defined.
#[export] Instance ActionDanger_eq_dec : EqDecision ActionDanger.
Proof. solve_decision. Defined.
#[export] Instance ActionStatus_eq_dec : EqDecision ActionStatus.
Proof. solve_decision. Defined.
#[export] Instance DeltaKind_eq_dec : EqDecision DeltaKind.
Proof. solve_decision. Defined.
#[export] Instance ReconcileMode_eq_dec : EqDecision ReconcileMode.
Proof. solve_decision. Defined.

Definition spec_kind_value (k : SpecKind) : string :=
  match k with WORKLOAD => "workload" | POLICY => "policy" | TRIGGER => "trigger" | BUDGET => "budget" end.
Definition action_kind_value (k : ActionKind) : string :=
  match k with
  | REGISTER_WORKLOAD => "register_workload" | UPDATE_WORKLOAD => "update_workload" | RECERTIFY_WORKLOAD => "recertify_workload"
  | DEREGISTER_WORKLOAD => "deregister_workload" | QUARANTINE_WORKLOAD => "quarantine_workload"
  | ENFORCE_POLICY_VERSION => "enforce_policy_version"
  end.
Definition delta_kind_value (k : DeltaKind) : string :=
  match k with
  | CREATE => "create" | UPDATE => "update" | DEREGISTER => "deregister" | QUARANTINE => "quarantine" | ENFORCE_POLICY => "enforce_policy"
  end.

Record DesiredSpec := mkSpec {
  ds_spec_id : string; ds_tenant_id : string; ds_source_id : string; ds_source : SpecSource; ds_kind : SpecKind; ds_name : string;
  ds_revision : string; ds_content_hash : string; ds_spec : odict string JsonValue; ds_updated_at : Z }.

Record DesiredSet := mkSet {
  de_source_id : string; de_source : SpecSource; de_revision : string; de_specs : list DesiredSpec; de_generated_at : Z }.

Record ReconcileState := mkState {
  st_source_id : string; st_tenant_id : string; st_source : SpecSource; st_last_revision : string; st_last_observed_hash : string;
  st_last_reconcile_at : option Z; st_status : ReconcileStatus }.

Record DriftRecord := mkDrift {
  dr_drift_id : string; dr_tenant_id : string; dr_object_ref : string; dr_field : string; dr_desired_value : JsonValue;
  dr_observed_value : JsonValue; dr_detected_at : Z; dr_resolution : DriftResolution; dr_reconcile_run_id : option string }.

Record ReconcileAction := mkAction {
  ra_action_id : string; ra_kind : ActionKind; ra_object_kind : SpecKind; ra_object_ref : string; ra_action_class : ActionDanger;
  ra_summary : string; ra_blocked : bool; ra_block_reason : option string; ra_details : odict string JsonValue }.

Record ActionResult := mkActionResult {
  ar_action_id : string; ar_kind : ActionKind; ar_object_kind : SpecKind; ar_object_ref : string; ar_status : ActionStatus;
  ar_detail : option string }.

Record ReconcilePlan := mkPlan {
  pl_source_id : string; pl_revision : string; pl_mode : ReconcileMode; pl_actions : list ReconcileAction; pl_created_at : Z }.

Record ReconcileRun := mkRun {
  rr_run_id : string; rr_tenant_id : string; rr_source_id : string; rr_source : SpecSource; rr_revision : string; rr_mode : ReconcileMode;
  rr_started_at : Z; rr_finished_at : option Z; rr_outcome : ReconcileOutcome; rr_actions : list ActionResult; rr_error : option string }.

Record StatusView := mkStatusView {
  sv_source_id : string; sv_source : SpecSource; sv_status : ReconcileStatus; sv_last_revision : option string;
  sv_last_reconcile_at : option Z; sv_open_drift : nat; sv_last_run_id : option string; sv_last_outcome : option ReconcileOutcome }.

Record ObservedState := mkObserved { ob_workloads : odict string (odict string JsonValue); ob_policy_versions : odict string string }.

Record Delta := mkDelta {
  dl_kind : DeltaKind; dl_object_kind : SpecKind; dl_object_ref : string; dl_desired : option DesiredSpec;
  dl_payload : option (odict string JsonValue); dl_recert : bool; dl_reason : option string; dl_drifts : list DriftRecord }.

Record DiffResult := mkDiff { di_deltas : list Delta; di_drifts : list DriftRecord }.

Inductive ReconcileExn :=
  | RcLoader (message : string)
  | RcManifest
  | RcRegistry (e : RegistryExn)
  | RcScope
  | RcEnforcer.

(** [destructive], [destructive_actions], [in_sync] *)
Definition destructive (a : ReconcileAction) : bool := bool_decide (ra_action_class a = DESTRUCTIVE).
Definition in_sync (p : ReconcilePlan) : bool := bool_decide (length (pl_actions p) = O).
Definition count_status (s : ActionStatus) (r : ReconcileRun) : nat := length (filter (λ a, ar_status a = s) (rr_actions r)).

(** [DesiredSet.get], [names] *)
Definition desired_get (kind : SpecKind) (name : string) (d : DesiredSet) : option DesiredSpec :=
  snd <$> list_find (λ s, ds_kind s = kind ∧ ds_name s = name) (de_specs d).
Definition desired_names (kind : SpecKind) (d : DesiredSet) : list string := ds_name <$> filter (λ s, ds_kind s = kind) (de_specs d).

Section Pure.
Variables (sha256 : string → string) (float_repr : f64 → string).

(** ** The differ ([reconcile/differ.py]) *)

Section Differ.
Variable pinned_fields : list string.

Definition RECERT_PREFIXES : list string :=
  ["spec.runtime"; "spec.model"; "spec.tools"; "spec.certification.benchmark_corpus"; "spec.certification.staging_threshold";
   "spec.certification.production_threshold"].

(** [f"drift-{sha256(...).hexdigest()[:24]}"] *)
Definition drift_id (run_id object_ref field : string) : string :=
  "drift-" +:+ String.substring 0 24 (sha256 (run_id +:+ "|" +:+ object_ref +:+ "|" +:+ field)).

(** [_drift] *)
Definition drift_of (run_id tenant_id object_ref : string) (detected_at : Z) (c : FieldChange) : DriftRecord :=
  mkDrift (drift_id run_id object_ref (fc_path c)) tenant_id object_ref (fc_path c) (fc_desired c) (fc_observed c) detected_at
    (resolution_for pinned_fields (fc_path c)) (Some run_id).

(** [_policy_version] *)
Definition policy_version (s : DesiredSpec) : string :=
  match od_get "metadata" (ds_spec s) with
  | Some (JObj m) => match od_get "version" m with Some JNull | None => EmptyString | Some v => json_str float_repr v end
  | _ => EmptyString
  end.

(** [{spec.name: spec for spec in desired.specs if spec.kind is kind}] *)
Definition by_name (kind : SpecKind) (l : list DesiredSpec) : odict string DesiredSpec :=
  foldl (λ d s, if bool_decide (ds_kind s = kind) then od_set (ds_name s) s d else d) [] l.

Definition declarative (changes : list FieldChange) : list FieldChange :=
  filter (λ c, classify pinned_fields (fc_path c) = DECLARATIVE) changes.

Definition needs_recert (changes : list FieldChange) : bool :=
  existsb (λ c, existsb (λ p, String.prefix p (fc_path c)) RECERT_PREFIXES) changes.

(** One declared workload: its delta and its drift records. *)
Definition diff_workload (observed : ObservedState) (run_id tenant_id : string) (detected_at : Z) (name : string) (s : DesiredSpec)
    : list Delta * list DriftRecord :=
  match od_get name (ob_workloads observed) with
  | None => ([mkDelta CREATE WORKLOAD name (Some s) None false (Some "declared but not registered") []], [])
  | Some payload =>
      let changes := diff_payloads (ds_spec s) payload in
      let drifts := drift_of run_id tenant_id name detected_at <$> changes in
      let decl := declarative changes in
      (if bool_decide (length decl = O) then []
       else [mkDelta UPDATE WORKLOAD name (Some s) (Some (merge_declared_wins pinned_fields (ds_spec s) payload)) (needs_recert decl)
               (Some "declared manifest differs from registered version") drifts],
       drifts)
  end.

(** One observed workload that is not declared. *)
Definition diff_undeclared (declared : odict string DesiredSpec) (previous other : gset string) (name : string) : option Delta :=
  if od_mem name declared || bool_decide (name ∈ other) then None
  else if bool_decide (name ∈ previous)
  then Some (mkDelta DEREGISTER WORKLOAD name None None false (Some "removed from desired state") [])
  else Some (mkDelta QUARANTINE WORKLOAD name None None false (Some "unmanaged workload outside desired state") []).

Definition diff_policy (observed : ObservedState) (name : string) (s : DesiredSpec) : option Delta :=
  let version := policy_version s in
  if bool_decide (od_get name (ob_policy_versions observed) = Some version) then None
  else Some (mkDelta ENFORCE_POLICY POLICY name (Some s) None false (Some ("observed policy version differs from " +:+ py_repr version)) []).

(** [Differ.diff] *)
Definition diff (desired : DesiredSet) (observed : ObservedState) (run_id tenant_id : string) (detected_at : Z)
    (previous other : gset string) : DiffResult :=
  let workloads := by_name WORKLOAD (de_specs desired) in
  let parts := (λ e, diff_workload observed run_id tenant_id detected_at e.1 e.2) <$> workloads in
  mkDiff
    (concat parts.*1 ++ omap (diff_undeclared workloads previous other) (od_keys (ob_workloads observed))
     ++ omap (λ e, diff_policy observed e.1 e.2) (by_name POLICY (de_specs desired)))
    (concat parts.*2).
End Differ.

(** ** The planner ([reconcile/planner.py]) *)

Record Guardrails := mkGuardrails {
  gr_allow_destructive : bool; gr_allow_empty : bool; gr_max_destructive_per_run : Z; gr_require_destructive_confirmation : bool }.

Definition default_guardrails : Guardrails := mkGuardrails false false 10 true.

(** [_ACTION_MAP], [_ORDER] *)
Definition action_of (k : DeltaKind) : ActionKind * ActionDanger :=
  match k with
  | CREATE => (REGISTER_WORKLOAD, ADDITIVE) | UPDATE => (UPDATE_WORKLOAD, SOFT) | DEREGISTER => (DEREGISTER_WORKLOAD, DESTRUCTIVE)
  | QUARANTINE => (QUARANTINE_WORKLOAD, DESTRUCTIVE) | ENFORCE_POLICY => (ENFORCE_POLICY_VERSION, SOFT)
  end.

Definition action_order (k : ActionKind) : nat :=
  match k with
  | REGISTER_WORKLOAD => 0 | UPDATE_WORKLOAD => 1 | RECERTIFY_WORKLOAD => 2 | ENFORCE_POLICY_VERSION => 3 | DEREGISTER_WORKLOAD => 4
  | QUARANTINE_WORKLOAD => 5
  end.

Definition action_id (source_id revision : string) (kind : ActionKind) (ref : string) : string :=
  "act-" +:+ String.substring 0 24 (sha256 (source_id +:+ "|" +:+ revision +:+ "|" +:+ action_kind_value kind +:+ "|" +:+ ref)).

Definition summary (kind : ActionKind) (ref : string) : string :=
  match kind with
  | REGISTER_WORKLOAD => "register" | UPDATE_WORKLOAD => "update" | RECERTIFY_WORKLOAD => "re-certify"
  | DEREGISTER_WORKLOAD => "deregister" | QUARANTINE_WORKLOAD => "quarantine" | ENFORCE_POLICY_VERSION => "enforce policy version for"
  end +:+ " " +:+ ref.

(** [_to_action], [_recert_action] *)
Definition to_action (d : Delta) (source_id revision : string) : ReconcileAction :=
  let '(kind, class) := action_of (dl_kind d) in
  mkAction (action_id source_id revision kind (dl_object_ref d)) kind (dl_object_kind d) (dl_object_ref d) class
    (summary kind (dl_object_ref d)) false None
    [("delta", JStr (delta_kind_value (dl_kind d))); ("reason", from_option JStr JNull (dl_reason d))].

Definition recert_action (d : Delta) (source_id revision : string) : ReconcileAction :=
  mkAction (action_id source_id revision RECERTIFY_WORKLOAD (dl_object_ref d)) RECERTIFY_WORKLOAD (dl_object_kind d) (dl_object_ref d) SOFT
    (summary RECERTIFY_WORKLOAD (dl_object_ref d)) false None [("delta", JStr (delta_kind_value (dl_kind d)))].

Section Planner.
Variable guardrails : Guardrails.

(** [_destructive_block] *)
Definition destructive_block (desired_count : nat) (destructive_seen : Z) (first_run confirmed : bool) : option string :=
  if negb (gr_allow_destructive guardrails) then Some "destructive actions are not permitted by guardrails"
  else if (desired_count =? 0)%nat && negb (gr_allow_empty guardrails) then Some "empty desired set cannot cascade destructive actions"
  else if first_run && gr_require_destructive_confirmation guardrails && negb confirmed
  then Some "first reconcile against unknown state requires confirmation"
  else if (gr_max_destructive_per_run guardrails <=? destructive_seen)%Z
  then Some ("destructive action rate limit reached (" +:+ pretty (gr_max_destructive_per_run guardrails) +:+ " per reconcile)")
  else None.

Definition blocked_for (reason : string) (a : ReconcileAction) : ReconcileAction :=
  mkAction (ra_action_id a) (ra_kind a) (ra_object_kind a) (ra_object_ref a) (ra_action_class a) (ra_summary a) true (Some reason) (ra_details a).

(** The loop of [plan]. *)
Fixpoint plan_deltas (l : list Delta) (source_id revision : string) (desired_count : nat) (first_run confirmed : bool) (destructive_seen : Z)
    : list ReconcileAction :=
  match l with
  | [] => []
  | d :: l' =>
      let a := to_action d source_id revision in
      let block := if destructive a then destructive_block desired_count destructive_seen first_run confirmed else None in
      let a' := match block with Some reason => blocked_for reason a | None => a end in
      let seen' := (if destructive a && bool_decide (block = None) then destructive_seen + 1 else destructive_seen)%Z in
      a' :: (if bool_decide (dl_kind d = UPDATE) && dl_recert d then [recert_action d source_id revision] else [])
         ++ plan_deltas l' source_id revision desired_count first_run confirmed seen'
  end.

(** [Planner.plan] *)
Definition plan (d : DiffResult) (source_id revision : string) (mode : ReconcileMode) (created_at : Z) (desired_count : nat)
    (first_run confirmed : bool) : ReconcilePlan :=
  mkPlan source_id revision mode
    (py_sort (λ a b, (action_order (ra_kind a) <=? action_order (ra_kind b))%nat)
       (plan_deltas (di_deltas d) source_id revision desired_count first_run confirmed 0))
    created_at.
End Planner.

(** ** Inline sources ([reconcile/loader.py], [reconcile/source.py]) *)

Inductive SourceKind := SK_DIRECTORY | SK_GIT | SK_INLINE.
Record SourceRef := mkSource { so_source_id : string; so_kind : SourceKind; so_manifests : option (list (odict string JsonValue)) }.

Section Loader.
(** [parse_manifest(...).model_dump(by_alias=True, mode="json", exclude_none=True)]
    and the same of a policy pack; an error carries its text. *)
Variable normal_manifest normal_pack : odict string JsonValue → string + odict string JsonValue.

Definition kind_alias (s : string) : option SpecKind :=
  od_get s [("workload", WORKLOAD); ("agentworkload", WORKLOAD); ("policy", POLICY); ("policy_pack", POLICY); ("policypack", POLICY);
            ("trigger", TRIGGER); ("budget", BUDGET)].

(** [raw.lower()] of ASCII text. *)
Definition lower_text (s : string) : string :=
  String.string_of_list_ascii ((λ c, let n := nat_of_ascii c in if (65 <=? n)%nat && (n <=? 90)%nat then ascii_of_nat (n + 32) else c)
    <$> String.list_ascii_of_string s).

(** [bool(v)] *)
Definition truthy_json (v : JsonValue) : bool :=
  match v with
  | JNull => false | JBool b => b | JInt z => negb (z =? 0)%Z | JFloat x => negb (f64_eqb x f64_zero)
  | JStr s => bool_decide (s ≠ EmptyString) | JList l => negb (bool_decide (length l = O)) | JObj d => negb (bool_decide (length d = O))
  end.

(** [metadata.setdefault("owner", metadata.get("team") or "platform")] *)
Definition with_owner (m : odict string JsonValue) : odict string JsonValue :=
  if od_mem "owner" m then m
  else m ++ [("owner", match od_get "team" m with Some v => if truthy_json v then v else JStr "platform" | None => JStr "platform" end)].

(** [_validate] *)
Definition validate_document (kind : SpecKind) (metadata : odict string JsonValue) (document : odict string JsonValue) (location : string)
    : string + odict string JsonValue :=
  match od_get "spec" document with
  | Some (JObj spec) =>
      let invalid (r : string + odict string JsonValue) : string + odict string JsonValue :=
        match r with inl e => inl (location +:+ ": invalid " +:+ spec_kind_value kind +:+ ": " +:+ e) | inr p => inr p end in
      match kind with
      | WORKLOAD => invalid (normal_manifest [("apiVersion", JStr "hiveplane/v1"); ("kind", JStr "AgentWorkload");
                                              ("metadata", JObj (with_owner metadata)); ("spec", JObj spec)])
      | POLICY => invalid (normal_pack [("apiVersion", JStr "hiveplane/v1"); ("kind", JStr "PolicyPack");
                                        ("metadata", JObj metadata); ("spec", JObj spec)])
      | _ => inr [("kind", JStr (spec_kind_value kind)); ("metadata", JObj metadata); ("spec", JObj spec)]
      end
  | _ => inl (location +:+ ": document requires a spec mapping")
  end.

(** [_to_spec] *)
Definition to_spec (d : odict string JsonValue) (source_id : string) (source : SpecSource) (revision tenant_id location : string) (now : Z)
    : string + DesiredSpec :=
  match od_get "kind" d with
  | Some (JStr raw) =>
      match kind_alias (lower_text raw) with
      | None => inl (location +:+ ": unknown document kind " +:+ py_repr raw)
      | Some kind =>
          match od_get "metadata" d with
          | Some (JObj metadata) =>
              match od_get "name" metadata with
              | Some v =>
                  if truthy_json v then
                    let name := json_str float_repr v in
                    match validate_document kind metadata d location with
                    | inl e => inl e
                    | inr payload =>
                        inr (mkSpec (source_id +:+ "/" +:+ spec_kind_value kind +:+ "/" +:+ name) tenant_id source_id source kind name revision
                               (sha256 (canonical_json float_repr (JObj payload))) payload now)
                    end
                  else inl (location +:+ ": document requires metadata.name")
              | None => inl (location +:+ ": document requires metadata.name")
              end
          | _ => inl (location +:+ ": document requires metadata.name")
          end
      end
  | v => inl (location +:+ ": unknown document kind " +:+ from_option (json_repr float_repr) "None" v)
  end.

(** The loop of [load_documents]; every document reads the clock. *)
Fixpoint load_from {X : Type} (clock : X → Z * X) (documents : list (odict string JsonValue)) (index : nat) (source_id tenant_id : string)
    (seen : list (SpecKind * string)) (x : X) : (string + list DesiredSpec) * X :=
  match documents with
  | [] => (inr [], x)
  | document :: rest =>
      let location := "inline:" +:+ pretty (Z.of_nat index) in
      let '(now, x') := clock x in
      match to_spec document source_id GIT "unresolved" tenant_id location now with
      | inl e => (inl e, x)
      | inr s =>
          if bool_decide ((ds_kind s, ds_name s) ∈ seen)
          then (inl (location +:+ ": duplicate " +:+ spec_kind_value (ds_kind s) +:+ " " +:+ py_repr (ds_name s)), x')
          else
            let '(r, x'') := load_from clock rest (S index) source_id tenant_id ((ds_kind s, ds_name s) :: seen) x' in
            (match r with inl e => inl e | inr l => inr (s :: l) end, x'')
      end
  end.

Definition at_revision (revision : string) (s : DesiredSpec) : DesiredSpec :=
  mkSpec (ds_spec_id s) (ds_tenant_id s) (ds_source_id s) (ds_source s) (ds_kind s) (ds_name s) revision (ds_content_hash s) (ds_spec s)
    (ds_updated_at s).

(** [_digest] *)
Definition digest (specs : list DesiredSpec) : string :=
  String.substring 0 16 (sha256 (String.concat "|"
    (py_sort str_leb ((λ s, spec_kind_value (ds_kind s) +:+ ":" +:+ ds_name s +:+ ":" +:+ ds_content_hash s) <$> specs)))).

(** [load_documents] *)
Definition load_documents {X : Type} (clock : X → Z * X) (documents : list (odict string JsonValue)) (source_id tenant_id : string) (x : X)
    : (string + DesiredSet) * X :=
  let '(r, x') := load_from clock documents 0 source_id tenant_id [] x in
  match r with
  | inl e => (inl e, x')
  | inr specs =>
      let revision := digest specs in
      let '(now, x'') := clock x' in
      (inr (mkSet source_id GIT revision (at_revision revision <$> specs) now), x'')
  end.
End Loader.
End Pure.

(** ** The in-memory store ([reconcile/store.py]) *)

Record ReconcileStore := mkStore {
  rs_specs : odict string DesiredSpec;
  rs_states : odict (string * string) ReconcileState;
  rs_drift : odict string DriftRecord;
  rs_runs : odict string ReconcileRun;
}.

Definition empty_store : ReconcileStore := mkStore [] [] [] [].

Definition spec_leb (a b : DesiredSpec) : bool :=
  if bool_decide (ds_kind a = ds_kind b) then str_leb (ds_name a) (ds_name b)
  else str_leb (spec_kind_value (ds_kind a)) (spec_kind_value (ds_kind b)).

Definition list_specs (source_id : option string) (ctx : TenantContext) (s : ReconcileStore) : list DesiredSpec :=
  py_sort spec_leb (filter (λ d, scopes ctx (ds_tenant_id d) && opt_is source_id (ds_source_id d) = true) (od_values (rs_specs s))).

Definition get_state (source_id : string) (ctx : TenantContext) (s : ReconcileStore) : option ReconcileState :=
  match od_get (tc_tenant_id ctx, source_id) (rs_states s) with
  | Some st => if scopes ctx (st_tenant_id st) then Some st else None
  | None => None
  end.

Definition list_states (ctx : TenantContext) (s : ReconcileStore) : list ReconcileState :=
  py_sort (λ a b, str_leb (st_source_id a) (st_source_id b)) (filter (λ st, scopes ctx (st_tenant_id st) = true) (od_values (rs_states s))).

Definition drift_leb (a b : DriftRecord) : bool :=
  if bool_decide (dr_detected_at a = dr_detected_at b) then str_leb (dr_drift_id a) (dr_drift_id b)
  else (dr_detected_at a <=? dr_detected_at b)%Z.

Definition list_drift (object_ref reconcile_run_id : option string) (ctx : TenantContext) (s : ReconcileStore) : list DriftRecord :=
  py_sort drift_leb
    (filter (λ d, scopes ctx (dr_tenant_id d) && opt_is object_ref (dr_object_ref d)
                  && match reconcile_run_id with Some r => bool_decide (dr_reconcile_run_id d = Some r) | None => true end = true)
       (od_values (rs_drift s))).

Definition get_run (run_id : string) (ctx : TenantContext) (s : ReconcileStore) : option ReconcileRun :=
  match od_get run_id (rs_runs s) with
  | Some r => if scopes ctx (rr_tenant_id r) then Some r else None
  | None => None
  end.

Definition run_leb (a b : ReconcileRun) : bool :=
  if bool_decide (rr_started_at a = rr_started_at b) then str_leb (rr_run_id a) (rr_run_id b)
  else (rr_started_at a <=? rr_started_at b)%Z.

(** [runs[-limit:]] *)
Definition last_items {A} (limit : Z) (l : list A) : list A :=
  if (0 <? limit)%Z then drop (length l - Z.to_nat limit) l else drop (Z.to_nat (- limit)) l.

Definition list_runs (source_id : option string) (limit : option Z) (ctx : TenantContext) (s : ReconcileStore) : list ReconcileRun :=
  let l := py_sort run_leb (filter (λ r, scopes ctx (rr_tenant_id r) && opt_is source_id (rr_source_id r) = true) (od_values (rs_runs s))) in
  match limit with Some n => last_items n l | None => l end.

(** ** What the controller asks of the registry *)

Class RegistryApi (W : Type) := {
  api_list : TenantContext → M W RegistryExn (list WorkloadRecord);
  api_create : TenantContext → Manifest → M W RegistryExn WorkloadRecord;
  api_update : TenantContext → string → Manifest → M W RegistryExn WorkloadRecord;
  api_request_re_certification : TenantContext → string → M W RegistryExn WorkloadRecord;
  api_delete : TenantContext → string → M W RegistryExn unit;
  api_quarantine : TenantContext → string → M W RegistryExn WorkloadRecord;
}.

Record World (W X : Type) := mkWorld {
  rw_registry : W;
  rw_store : ReconcileStore;
  rw_packs : Packs.store;
  rw_held : gset string;
  rw_ext : X;
}.
Arguments mkWorld {W X}.
Arguments rw_registry {W X}.
Arguments rw_store {W X}.
Arguments rw_packs {W X}.
Arguments rw_held {W X}.
Arguments rw_ext {W X}.

Record Env (X : Type) := mkEnv {
  ev_sha256 : string → string;
  ev_float_repr : f64 → string;
  ev_dump : Manifest → odict string JsonValue;
  ev_parse : odict string JsonValue → option Manifest;
  ev_normal_manifest : odict string JsonValue → string + odict string JsonValue;
  ev_normal_pack : odict string JsonValue → string + odict string JsonValue;
  ev_load_other : SourceRef → string → X → (string + DesiredSet) * X;
  ev_enforcer : option (DesiredSpec → X → bool * X);
  ev_has_packs : bool;
  ev_pinned : list string;
  ev_guardrails : Guardrails;
  ev_locking : bool;
  ev_clock : X → Z * X;
  ev_run_id : X → string * X;
}.
Arguments ev_sha256 {X}.
Arguments ev_float_repr {X}.
Arguments ev_dump {X}.
Arguments ev_parse {X}.
Arguments ev_normal_manifest {X}.
Arguments ev_normal_pack {X}.
Arguments ev_load_other {X}.
Arguments ev_enforcer {X}.
Arguments ev_has_packs {X}.
Arguments ev_pinned {X}.
Arguments ev_guardrails {X}.
Arguments ev_locking {X}.
Arguments ev_clock {X}.
Arguments ev_run_id {X}.

Section Controller.
Context {W X : Type} `{!RegistryApi W}.
Variable env : Env X.

Abbreviation RM := (M (World W X) ReconcileExn).

Definition on_registry {A} (m : M W RegistryExn A) : RM A :=
  λ w, let '(o, r) := m (rw_registry w) in
       (match o with Ret a => Ret a | Raise e => Raise (RcRegistry e) end,
        mkWorld r (rw_store w) (rw_packs w) (rw_held w) (rw_ext w)).

Definition on_ext {A} (f : X → A * X) : RM A :=
  λ w, let '(a, x) := f (rw_ext w) in (Ret a, mkWorld (rw_registry w) (rw_store w) (rw_packs w) (rw_held w) x).

Definition clock_now : RM Z := on_ext (ev_clock env).

Definition set_store (f : ReconcileStore → ReconcileStore) : RM unit :=
  modify (λ w, mkWorld (rw_registry w) (f (rw_store w)) (rw_packs w) (rw_held w) (rw_ext w)).

Fixpoint require_all (ctx : TenantContext) (l : list string) : RM unit :=
  match l with [] => ret tt | t :: l' => require RcScope ctx t ;;; require_all ctx l' end.

(** [replace_source_specs]; identifiers name the source, not the tenant. *)
Definition replace_source_specs (source_id : string) (specs : list DesiredSpec) (ctx : TenantContext) : RM unit :=
  require_all ctx (ds_tenant_id <$> specs) ;;;
  set_store (λ s, mkStore
    (foldl (λ d sp, od_set (ds_spec_id sp) sp d)
       (filter (λ e, bool_decide (ds_source_id e.2 = source_id) && scopes ctx (ds_tenant_id e.2) = false) (rs_specs s)) specs)
    (rs_states s) (rs_drift s) (rs_runs s)).

Definition save_state (st : ReconcileState) (ctx : TenantContext) : RM unit :=
  require RcScope ctx (st_tenant_id st) ;;;
  set_store (λ s, mkStore (rs_specs s) (od_set (st_tenant_id st, st_source_id st) st (rs_states s)) (rs_drift s) (rs_runs s)).

Definition add_drift (d : DriftRecord) (ctx : TenantContext) : RM unit :=
  require RcScope ctx (dr_tenant_id d) ;;;
  set_store (λ s, mkStore (rs_specs s) (rs_states s) (od_set (dr_drift_id d) d (rs_drift s)) (rs_runs s)).

Definition add_run (r : ReconcileRun) (ctx : TenantContext) : RM unit :=
  require RcScope ctx (rr_tenant_id r) ;;;
  set_store (λ s, mkStore (rs_specs s) (rs_states s) (rs_drift s) (od_set (rr_run_id r) r (rs_runs s))).

(** ** The observer ([reconcile/observe.py]) *)

Definition observed_of (records : list WorkloadRecord) (packs : list PolicyPack) : ObservedState :=
  mkObserved (foldl (λ d r, od_set (wr_name r) (ev_dump env (wr_manifest r)) d) [] records)
    (foldl (λ d p, od_set (pp_name p) (pp_version p) d) [] packs).

Definition snapshot (ctx : TenantContext) : RM ObservedState :=
  let* records := on_registry (api_list ctx) in
  let* packs := gets (λ w, if ev_has_packs env then Packs.list_packs ctx (rw_packs w) else []) in
  ret (observed_of records packs).

(** ** The executor ([reconcile/executor.py]) *)

Definition result_of (a : ReconcileAction) (s : ActionStatus) (detail : option string) : ActionResult :=
  mkActionResult (ra_action_id a) (ra_kind a) (ra_object_kind a) (ra_object_ref a) s detail.

Definition delta_for (k : ActionKind) : DeltaKind :=
  match k with
  | REGISTER_WORKLOAD => CREATE | UPDATE_WORKLOAD => UPDATE | RECERTIFY_WORKLOAD => UPDATE | ENFORCE_POLICY_VERSION => ENFORCE_POLICY
  | DEREGISTER_WORKLOAD => DEREGISTER | QUARANTINE_WORKLOAD => QUARANTINE
  end.

(** [_find_delta] *)
Definition find_delta (a : ReconcileAction) (d : DiffResult) : option Delta :=
  snd <$> list_find (λ x, dl_kind x = delta_for (ra_kind a) ∧ dl_object_ref x = ra_object_ref a) (di_deltas d).

Definition parse_manifest (payload : odict string JsonValue) : RM Manifest := of_option RcManifest (ev_parse env payload).

(** [try: m except E: handler] for one registry error. *)
Definition catching (p : RegistryExn → bool) (m : RM ActionResult) (h : ActionResult) : RM ActionResult :=
  λ w, match m w with
       | (Raise (RcRegistry e), w') => if p e then (Ret h, w') else (Raise (RcRegistry e), w')
       | r => r
       end.

Definition already_exists (e : RegistryExn) : bool := match e with WorkloadAlreadyExistsError _ => true | _ => false end.
Definition not_found (e : RegistryExn) : bool := match e with WorkloadNotFoundError _ => true | _ => false end.

(** [_do_register_workload], [_do_update_workload], [_do_recertify_workload],
    [_do_deregister_workload], [_do_quarantine_workload],
    [_do_enforce_policy_version] *)
Definition do_register (a : ReconcileAction) (d : option Delta) (ctx : TenantContext) : RM ActionResult :=
  match d ≫= dl_desired with
  | None => raise (RcRegistry (WorkloadNotFoundError (ra_object_ref a +:+ " (no desired spec)")))
  | Some desired =>
      let* m := parse_manifest (ds_spec desired) in
      catching already_exists (on_registry (api_create ctx m) ;;; ret (result_of a AS_APPLIED (Some "registered")))
        (result_of a AS_SKIPPED (Some "already registered"))
  end.

Definition do_update (a : ReconcileAction) (d : option Delta) (ctx : TenantContext) : RM ActionResult :=
  match d ≫= dl_payload with
  | None => ret (result_of a AS_FAILED (Some "no merged payload to apply"))
  | Some payload =>
      let* m := parse_manifest payload in
      on_registry (api_update ctx (ra_object_ref a) m) ;;; ret (result_of a AS_APPLIED (Some "manifest updated"))
  end.

Definition do_recertify (a : ReconcileAction) (ctx : TenantContext) : RM ActionResult :=
  on_registry (api_request_re_certification ctx (ra_object_ref a)) ;;; ret (result_of a AS_APPLIED (Some "re-certification requested")).

Definition do_deregister (a : ReconcileAction) (ctx : TenantContext) : RM ActionResult :=
  catching not_found (on_registry (api_delete ctx (ra_object_ref a)) ;;; ret (result_of a AS_APPLIED (Some "deregistered; history retained")))
    (result_of a AS_SKIPPED (Some "already absent")).

Definition do_quarantine (a : ReconcileAction) (ctx : TenantContext) : RM ActionResult :=
  on_registry (api_quarantine ctx (ra_object_ref a)) ;;; ret (result_of a AS_APPLIED (Some "quarantined")).

Definition do_enforce (a : ReconcileAction) (d : option Delta) : RM ActionResult :=
  match ev_enforcer env, d ≫= dl_desired with
  | Some f, Some desired =>
      let* ok := on_ext (f desired) in
      if ok : bool then ret (result_of a AS_APPLIED (Some "policy version enforced")) else raise RcEnforcer
  | _, _ => ret (result_of a AS_SKIPPED (Some "policy enforcement is not configured"))
  end.

(** [_dispatch] *)
Definition dispatch (a : ReconcileAction) (d : option Delta) (ctx : TenantContext) : RM ActionResult :=
  match ra_kind a with
  | REGISTER_WORKLOAD => do_register a d ctx
  | UPDATE_WORKLOAD => do_update a d ctx
  | RECERTIFY_WORKLOAD => do_recertify a ctx
  | DEREGISTER_WORKLOAD => do_deregister a ctx
  | QUARANTINE_WORKLOAD => do_quarantine a ctx
  | ENFORCE_POLICY_VERSION => do_enforce a d
  end.

Definition error_text (e : RegistryExn) : string := match e with WorkloadNotFoundError name => name | _ => EmptyString end.

(** [execute]: a missing workload fails the action, any other error the pass. *)
Definition execute (a : ReconcileAction) (d : DiffResult) (ctx : TenantContext) : RM ActionResult :=
  if ra_blocked a then ret (result_of a AS_BLOCKED (ra_block_reason a))
  else λ w, match dispatch a (find_delta a d) ctx w with
            | (Raise (RcRegistry (WorkloadNotFoundError name)), w') => (Ret (result_of a AS_FAILED (Some name)), w')
            | r => r
            end.

Fixpoint execute_all (l : list ReconcileAction) (d : DiffResult) (ctx : TenantContext) : RM (list ActionResult) :=
  match l with
  | [] => ret []
  | a :: l' => let* r := execute a d ctx in let* rs := execute_all l' d ctx in ret (r :: rs)
  end.

(** ** The controller ([reconcile/controller.py]) *)

Definition planned_result (a : ReconcileAction) : ActionResult :=
  result_of a (if ra_blocked a then AS_BLOCKED else AS_PLANNED) (ra_block_reason a).

Definition any_status (s : ActionStatus) (l : list ActionResult) : bool := existsb (λ r, bool_decide (ar_status r = s)) l.

(** [_outcome], [_state_status] *)
Definition outcome_of (sync : bool) (results : list ActionResult) : ReconcileOutcome :=
  if any_status AS_FAILED results then RO_ERROR
  else if sync then RO_IN_SYNC
  else if any_status AS_APPLIED results then RO_APPLIED
  else if any_status AS_BLOCKED results then RO_BLOCKED
  else RO_IN_SYNC.

Definition state_status (d : DiffResult) (results : list ActionResult) : ReconcileStatus :=
  if any_status AS_FAILED results then RS_ERROR
  else if any_status AS_BLOCKED results then RS_DRIFTED
  else if existsb (λ x, bool_decide (dr_resolution x = UNRESOLVED)) (di_drifts d) then RS_DRIFTED
  else RS_IN_SYNC.

(** [_observed_hash] *)
Definition observed_hash (o : ObservedState) : string :=
  ev_sha256 env (canonical_json (ev_float_repr env)
    (JObj [("workloads", JObj ((λ e, (e.1, JObj e.2)) <$> ob_workloads o));
           ("policy_versions", JObj ((λ e, (e.1, JStr e.2)) <$> ob_policy_versions o))])).

(** [SourceRef.load] *)
Definition load (source : SourceRef) (tenant_id : string) : RM DesiredSet :=
  match so_kind source with
  | SK_INLINE =>
      match so_manifests source with
      | Some (m :: ms) =>
          let* r := on_ext (load_documents (ev_sha256 env) (ev_float_repr env) (ev_normal_manifest env) (ev_normal_pack env) (ev_clock env)
                      (m :: ms) (so_source_id source) tenant_id) in
          match r with inl e => raise (RcLoader e) | inr d => ret d end
      | _ => raise (RcLoader ("inline source " +:+ py_repr (so_source_id source) +:+ " has no manifests"))
      end
  | _ =>
      let* r := on_ext (ev_load_other env source tenant_id) in
      match r with inl e => raise (RcLoader e) | inr d => ret d end
  end.

(** [_blocked_run], [_error_run] *)
Definition refused_run (run_id : string) (source : SourceRef) (started_at : Z) (mode : ReconcileMode) (outcome : ReconcileOutcome)
    (error : string) : RM ReconcileRun :=
  let* finished := clock_now in
  ret (mkRun run_id DEFAULT_TENANT_ID (so_source_id source) GIT "unknown" mode started_at (Some finished) outcome [] (Some error)).

Definition admin_context (tenant_id : string) : TenantContext := context_for_run tenant_id None None.

Definition workload_names (l : list DesiredSpec) : gset string := list_to_set (ds_name <$> filter (λ s, ds_kind s = WORKLOAD) l).

Fixpoint add_drifts (l : list DriftRecord) (ctx : TenantContext) : RM unit :=
  match l with [] => ret tt | d :: l' => add_drift d ctx ;;; add_drifts l' ctx end.

(** [_record] *)
Definition record_pass (source : SourceRef) (desired : DesiredSet) (observed : ObservedState) (d : DiffResult) (results : list ActionResult)
    (run : ReconcileRun) (ctx : TenantContext) : RM unit :=
  replace_source_specs (so_source_id source) (de_specs desired) ctx ;;;
  add_drifts (di_drifts d) ctx ;;;
  let* t := clock_now in
  save_state (mkState (so_source_id source) (tc_tenant_id ctx) (de_source desired) (de_revision desired) (observed_hash observed) (Some t)
                (state_status d results)) ctx ;;;
  add_run run ctx.

(** What a pass computes before it acts: the diff and the plan. *)
Definition diff_and_plan (desired : DesiredSet) (observed : ObservedState) (store : ReconcileStore) (source_id run_id tenant_id : string)
    (started_at : Z) (mode : ReconcileMode) (confirmed : bool) (ctx : TenantContext) : DiffResult * ReconcilePlan :=
  let previous := workload_names (list_specs (Some source_id) ctx store) in
  let other := workload_names (filter (λ s, ds_source_id s ≠ source_id) (list_specs None ctx store)) in
  let state := get_state source_id ctx store in
  let d := diff (ev_sha256 env) (ev_float_repr env) (ev_pinned env) desired observed run_id tenant_id started_at previous other in
  (d, plan (ev_sha256 env) (ev_guardrails env) d source_id (de_revision desired) mode started_at (length (de_specs desired))
        (bool_decide (state = None)) confirmed).

(** [_run_pass] *)
Definition run_pass (source : SourceRef) (run_id : string) (mode : ReconcileMode) (confirmed : bool) (tenant_id : string) (started_at : Z)
    : RM ReconcileRun :=
  let ctx := admin_context tenant_id in
  λ w, match load source tenant_id w with
       | (Raise (RcLoader e), w') => refused_run run_id source started_at mode RO_ERROR e w'
       | (Raise e, w') => (Raise e, w')
       | (Ret desired, w') =>
           (let* store := gets rw_store in
            let* observed := snapshot ctx in
            let '(d, p) := diff_and_plan desired observed store (so_source_id source) run_id tenant_id started_at mode confirmed ctx in
            match mode with
            | PLAN =>
                let* finished := clock_now in
                ret (mkRun run_id tenant_id (so_source_id source) (de_source desired) (de_revision desired) mode started_at (Some finished)
                       (if in_sync p then RO_IN_SYNC else RO_PLANNED) (planned_result <$> pl_actions p) None)
            | APPLY =>
                let* results := execute_all (pl_actions p) d ctx in
                let* finished := clock_now in
                let run := mkRun run_id tenant_id (so_source_id source) (de_source desired) (de_revision desired) mode started_at
                             (Some finished) (outcome_of (in_sync p) results) results None in
                record_pass source desired observed d results run ctx ;;; ret run
            end) w'
       end.

(** [InMemoryReconcileLock.hold] around a computation. *)
Definition holding (source_id : string) (busy : RM ReconcileRun) (m : RM ReconcileRun) : RM ReconcileRun :=
  λ w, if bool_decide (source_id ∈ rw_held w) then busy w
       else
         let '(o, w') := m (mkWorld (rw_registry w) (rw_store w) (rw_packs w) ({[source_id]} ∪ rw_held w) (rw_ext w)) in
         (o, mkWorld (rw_registry w') (rw_store w') (rw_packs w') (rw_held w' ∖ {[source_id]}) (rw_ext w')).

(** [reconcile] *)
Definition reconcile (source : SourceRef) (mode : ReconcileMode) (confirmed : bool) (tenant_id : string) : RM ReconcileRun :=
  let* run_id := on_ext (ev_run_id env) in
  let* started_at := clock_now in
  if bool_decide (mode = APPLY) && ev_locking env then
    holding (so_source_id source)
      (refused_run run_id source started_at mode RO_BLOCKED "another controller holds the lock for this source")
      (run_pass source run_id mode confirmed tenant_id started_at)
  else run_pass source run_id mode confirmed tenant_id started_at.

(** [status] *)
Definition status (source_id tenant_id : string) : RM StatusView :=
  let ctx := admin_context tenant_id in
  let* s := gets rw_store in
  let state := get_state source_id ctx s in
  let runs := list_runs (Some source_id) (Some 1%Z) ctx s in
  let open := filter (λ d, dr_resolution d = UNRESOLVED) (list_drift None None ctx s) in
  ret (mkStatusView source_id (from_option st_source GIT state) (from_option st_status RS_PENDING state) (st_last_revision <$> state)
         (state ≫= st_last_reconcile_at) (length open) (rr_run_id <$> last runs) (rr_outcome <$> last runs)).

(** ** Polling and webhooks ([reconcile/source.py]) *)

Definition poll (source : SourceRef) (mode : ReconcileMode) (confirmed : bool) (tenant_id : string) : RM (option ReconcileRun) :=
  let* desired := load source tenant_id in
  let* view := status (so_source_id source) tenant_id in
  if bool_decide (sv_last_revision view = Some (de_revision desired)) then ret None
  else let* r := reconcile source mode confirmed tenant_id in ret (Some r).
End Controller.

(** ** The registry implements it *)

Section Implementation.
Variables (sha256 : string → string) (float_repr : f64 → string) (dump_time : Z → string).
Context {Key Pub Y : Type}.
Variables (sign : Key → string → string) (clock : Y → Z * Y) (cfg : RegistryConfig (Key := Key) (Pub := Pub)).

Definition registry_api : RegistryApi (RegistryStore * Y) := {|
  api_list ctx := list_workloads ctx None None None None "name" false None 0;
  api_create := Registry.create sha256 float_repr dump_time sign clock cfg;
  api_update := Registry.update sha256 float_repr dump_time sign clock cfg;
  api_request_re_certification := Registry.request_re_certification clock;
  api_delete := Registry.delete;
  api_quarantine := Registry.quarantine clock;
|}.
End Implementation.
