(* ===== verification/ReconcilePass.v ===== *)
(** * What a reconcile pass may remove

    The guardrails of the planner, the actions it derives, and their effect
    through the executor and the controller, against the laws [RegistryLaws] of
    the registry's interface; [Registry] satisfies them.  And what a pass leaves
    to the next one: a deregistration that was blocked is forgotten. *)

From stdpp Require Import base strings pretty numbers gmap sets list.
From S2P Require Import Prelude Text Float64 Tenancy CoreModels Templates Manifest Conflict Policy Registry Reconcile.

#[local] Open Scope hp_scope.

(** ** Guardrails *)

Section Guard.
Variables (sha256 : string → string) (g : Guardrails).

Definition unblocked_destructive (a : ReconcileAction) : Prop := destructive a = true ∧ ra_blocked a = false.

#[export] Instance unblocked_dec a : Decision (unblocked_destructive a).
Proof. apply _. Defined.

(** What has to hold before anything destructive is done at all. *)
Definition guard_open (desired_count : nat) (first_run confirmed : bool) : Prop :=
  gr_allow_destructive g = true ∧ (desired_count ≠ 0%nat ∨ gr_allow_empty g = true) ∧
  (first_run = true → gr_require_destructive_confirmation g = true → confirmed = true).

Lemma destructive_block_None n seen first confirmed :
  destructive_block g n seen first confirmed = None ↔ guard_open n first confirmed ∧ (seen < gr_max_destructive_per_run g)%Z.
Proof.
  unfold destructive_block, guard_open. destruct (gr_allow_destructive g); cbn; [|naive_solver].
  destruct (gr_allow_empty g), (n =? 0)%nat eqn:En; cbn; try (apply Nat.eqb_eq in En; subst n);
    try apply Nat.eqb_neq in En; destruct first, (gr_require_destructive_confirmation g), confirmed; cbn;
    destruct (gr_max_destructive_per_run g <=? seen)%Z eqn:E; (apply Z.leb_le in E || apply Z.leb_gt in E); naive_solver lia.
Qed.

Definition count_destructive (l : list ReconcileAction) : Z := Z.of_nat (length (filter unblocked_destructive l)).

Lemma count_destructive_cons a l : count_destructive (a :: l) = ((if decide (unblocked_destructive a) then 1 else 0) + count_destructive l)%Z.
Proof. unfold count_destructive. rewrite filter_cons. case_decide; cbn [length]; lia. Qed.

Lemma count_destructive_app l k : count_destructive (l ++ k) = (count_destructive l + count_destructive k)%Z.
Proof. unfold count_destructive. rewrite filter_app, length_app. lia. Qed.

(** The action made of a delta, blocked or not. *)
Definition guarded (d : Delta) (source_id revision : string) (n : nat) (first confirmed : bool) (seen : Z) : ReconcileAction :=
  let a := to_action sha256 d source_id revision in
  match (if destructive a then destructive_block g n seen first confirmed else None) with Some reason => blocked_for reason a | None => a end.

Lemma guarded_fields d source_id revision n first confirmed seen :
  let a := guarded d source_id revision n first confirmed seen in
  (ra_kind a, ra_action_class a) = action_of (dl_kind d) ∧ ra_object_ref a = dl_object_ref d.
Proof. unfold guarded, to_action. destruct (dl_kind d); cbn; try destruct (destructive_block _ _ _ _ _); done. Qed.

Lemma guarded_unblocked d source_id revision n first confirmed seen :
  unblocked_destructive (guarded d source_id revision n first confirmed seen) ↔
  (action_of (dl_kind d)).2 = DESTRUCTIVE ∧ destructive_block g n seen first confirmed = None.
Proof.
  unfold guarded, unblocked_destructive, destructive, to_action. destruct (dl_kind d); cbn; try destruct (destructive_block _ _ _ _ _); naive_solver.
Qed.

Lemma plan_deltas_cons d l source_id revision n first confirmed seen :
  let a := guarded d source_id revision n first confirmed seen in
  plan_deltas sha256 g (d :: l) source_id revision n first confirmed seen =
  a :: (if bool_decide (dl_kind d = UPDATE) && dl_recert d then [recert_action sha256 d source_id revision] else [])
    ++ plan_deltas sha256 g l source_id revision n first confirmed (if decide (unblocked_destructive a) then seen + 1 else seen)%Z.
Proof.
  cbn zeta. cbn [plan_deltas]. fold (guarded d source_id revision n first confirmed seen). f_equal. f_equal. f_equal.
  rewrite (decide_ext _ _ _ _ (guarded_unblocked d source_id revision n first confirmed seen)).
  assert (destructive (to_action sha256 d source_id revision) = bool_decide ((action_of (dl_kind d)).2 = DESTRUCTIVE)) as ->.
  { unfold destructive, to_action. by destruct (dl_kind d). }
  case_bool_decide as H1; cbn; [|by rewrite decide_False by naive_solver].
  case_bool_decide as H2; [by rewrite decide_True|by rewrite decide_False by naive_solver].
Qed.

Lemma recert_harmless d source_id revision : ¬ unblocked_destructive (recert_action sha256 d source_id revision).
Proof. by intros [? _]. Qed.

Lemma plan_deltas_guard l source_id revision n first confirmed : ∀ seen,
  let acts := plan_deltas sha256 g l source_id revision n first confirmed seen in
  (0 ≤ count_destructive acts ≤ Z.max 0 (gr_max_destructive_per_run g - seen))%Z ∧
  (∀ a, a ∈ acts → unblocked_destructive a → guard_open n first confirmed) ∧
  (∀ a, a ∈ acts → ra_kind a ≠ RECERTIFY_WORKLOAD →
     ∃ d, d ∈ l ∧ ra_object_ref a = dl_object_ref d ∧ (ra_kind a, ra_action_class a) = action_of (dl_kind d)).
Proof.
  induction l as [|d l IH]; intros seen acts.
  - unfold acts. cbn. split; [unfold count_destructive; cbn; lia|]. split; intros a Ha; by apply not_elem_of_nil in Ha.
  - unfold acts. rewrite plan_deltas_cons. set (a := guarded _ _ _ _ _ _ _). set (seen' := if decide _ then _ else _).
    set (extra := if _ && _ then _ else _). destruct (IH seen') as (IH1 & IH2 & IH3).
    assert (count_destructive extra = 0%Z) as Hextra.
    { unfold extra. destruct (_ && _); [|done]. rewrite count_destructive_cons. by rewrite decide_False by apply recert_harmless. }
    assert (∀ b, b ∈ extra → ra_kind b = RECERTIFY_WORKLOAD ∧ ¬ unblocked_destructive b) as Hin.
    { unfold extra. destruct (_ && _); intros b Hb; [|by apply not_elem_of_nil in Hb]. apply list_elem_of_singleton in Hb as ->. split; [done|apply recert_harmless]. }
    assert (unblocked_destructive a → guard_open n first confirmed ∧ (seen < gr_max_destructive_per_run g)%Z) as Hua.
    { unfold a. rewrite guarded_unblocked. intros [_ H]. by apply destructive_block_None. }
    split; [|split].
    + rewrite count_destructive_cons, count_destructive_app, Hextra. unfold seen' in *. destruct (decide (unblocked_destructive a)) as [Hd|Hd]; [|lia].
      destruct (Hua Hd) as [_ ?]. lia.
    + intros b [->|[Hb|Hb]%elem_of_app]%elem_of_cons Hu; [by apply Hua|by apply Hin in Hb as [_ ?]|by eapply IH2].
    + intros b [->|[Hb|Hb]%elem_of_app]%elem_of_cons Hk.
      * exists d. split; [by left|]. pose proof (guarded_fields d source_id revision n first confirmed seen) as [H1 H2]. by split.
      * by apply Hin in Hb as [? _].
      * destruct (IH3 b Hb Hk) as (d' & ? & ?). exists d'. split; [by right|done].
Qed.

Lemma plan_guard (d : DiffResult) source_id revision mode t n first confirmed :
  let acts := pl_actions (plan sha256 g d source_id revision mode t n first confirmed) in
  (count_destructive acts ≤ Z.max 0 (gr_max_destructive_per_run g))%Z ∧
  (∀ a, a ∈ acts → unblocked_destructive a → guard_open n first confirmed) ∧
  (∀ a, a ∈ acts → ra_kind a ≠ RECERTIFY_WORKLOAD →
     ∃ x, x ∈ di_deltas d ∧ ra_object_ref a = dl_object_ref x ∧ (ra_kind a, ra_action_class a) = action_of (dl_kind x)).
Proof.
  unfold plan. cbn [pl_actions]. set (l := plan_deltas _ _ _ _ _ _ _ _ _).
  destruct (plan_deltas_guard (di_deltas d) source_id revision n first confirmed 0) as (H1 & H2 & H3). fold l in H1, H2, H3.
  assert (py_sort (λ a b, (action_order (ra_kind a) <=? action_order (ra_kind b))%nat) l ≡ₚ l) as Hp by apply py_sort_perm.
  split; [|split].
  - unfold count_destructive in *. rewrite Hp. lia.
  - intros a. rewrite Hp. apply H2.
  - intros a. rewrite Hp. apply H3.
Qed.
End Guard.

(** ** What a pass leaves to the next one *)

Section Next.
Context {W X : Type} `{!RegistryApi W}.
Variable env : Env X.

Abbreviation RM := (M (World W X) ReconcileExn).

(** The declared workloads, as the differ collects them. *)
Lemma by_name_mem kind l n : od_mem n (by_name kind l) = true ↔ n ∈ ds_name <$> filter (λ s, ds_kind s = kind) l.
Proof.
  rewrite od_mem_spec. unfold by_name. assert (∀ d, n ∈ od_keys (foldl (λ d s, if bool_decide (ds_kind s = kind) then od_set (ds_name s) s d else d) d l)
    ↔ n ∈ od_keys d ∨ n ∈ ds_name <$> filter (λ s, ds_kind s = kind) l) as H.
  2: { rewrite H. cbn. set_solver. }
  induction l as [|s l IH]; intros d; cbn [foldl]; [cbn; set_solver|]. rewrite IH, filter_cons. case_bool_decide as Hk.
  - rewrite decide_True by done. cbn. rewrite <-!od_mem_spec. unfold od_mem. rewrite od_get_set, elem_of_cons.
    destruct (decide (n = ds_name s)); naive_solver.
  - by rewrite decide_False.
Qed.

Lemma diff_undeclared_kind declared previous other n x : diff_undeclared declared previous other n = Some x →
  dl_object_ref x = n ∧ od_mem n declared = false ∧ n ∉ other ∧ (dl_kind x = DEREGISTER ∧ n ∈ previous ∨ dl_kind x = QUARANTINE ∧ n ∉ previous).
Proof.
  unfold diff_undeclared. destruct (od_mem n declared); [done|]. cbn. case_bool_decide; [done|].
  case_bool_decide; intros [= <-]; cbn; naive_solver.
Qed.

(** Where a delta comes from. *)
Lemma by_name_elem kind l e : e ∈ by_name kind l → e.1 ∈ ds_name <$> filter (λ s, ds_kind s = kind) l.
Proof. intros H. apply by_name_mem, od_mem_spec. unfold od_keys. by apply list_elem_of_fmap_2. Qed.

Lemma diff_delta desired observed run_id tenant_id t previous other x :
  x ∈ di_deltas (diff (ev_sha256 env) (ev_float_repr env) (ev_pinned env) desired observed run_id tenant_id t previous other) →
  ((dl_kind x = CREATE ∨ dl_kind x = UPDATE) ∧ dl_object_ref x ∈ desired_names WORKLOAD desired) ∨
  (dl_kind x = ENFORCE_POLICY ∧ dl_object_kind x = POLICY) ∨
  dl_object_ref x ∈ od_keys (ob_workloads observed) ∧
    diff_undeclared (by_name WORKLOAD (de_specs desired)) previous other (dl_object_ref x) = Some x.
Proof.
  unfold diff. cbn [di_deltas]. intros [H|[H|H]%elem_of_app]%elem_of_app.
  - apply elem_of_concat in H as (l & Hx & Hl). apply list_elem_of_fmap in Hl as ([dl dr] & -> & Hl). cbn in Hx.
    apply list_elem_of_fmap in Hl as ([n s] & He & Hn%by_name_elem). unfold diff_workload in He. cbn in He.
    destruct (od_get n (ob_workloads observed)); injection He as -> ->.
    + case_bool_decide; [by apply not_elem_of_nil in Hx|]. apply list_elem_of_singleton in Hx as ->. left. split; [by right|done].
    + apply list_elem_of_singleton in Hx as ->. left. split; [by left|done].
  - apply list_elem_of_omap in H as (n & Hn & Hx). pose proof (diff_undeclared_kind _ _ _ _ _ Hx) as (-> & _). by do 2 right.
  - apply list_elem_of_omap in H as (e & _ & Hx). unfold diff_policy in Hx. case_bool_decide; [done|]. injection Hx as <-. by right; left.
Qed.

Implicit Types w : World W X.

Lemma replaced_specs source_id specs ctx (w w' : World W X) u : replace_source_specs source_id specs ctx w = (Ret u, w') →
  ∀ x, x ∈ list_specs (Some source_id) ctx (rw_store w') → x ∈ specs.
Proof.
  unfold replace_source_specs. intros (u' & w1 & _ & H)%bind_inv x. unfold set_store, modify in H. injection H as _ <-. cbn [rw_store].
  unfold list_specs. rewrite py_sort_perm, list_elem_of_filter. cbn [rs_specs]. intros [Hx Hin].
  assert (∀ d, x ∈ od_values (foldl (λ d sp, od_set (ds_spec_id sp) sp d) d specs) → x ∈ od_values d ∨ x ∈ specs) as Hfold.
  { clear. induction specs as [|sp l IH]; intros d Hd; [by left|]. apply IH in Hd as [Hd|Hd]; [|by right; right].
    assert (x ∈ od_values d ∨ x = sp) as [|]; [|by left|subst; by right; left]. clear IH. unfold od_values in *.
    induction d as [|[k v] d IH]; cbn in Hd; [set_solver|]. case_decide; cbn in *; set_solver. }
  apply Hfold in Hin as [Hin|]; [|done]. unfold od_values in Hin. apply list_elem_of_fmap in Hin as ([k v] & -> & Hf).
  apply list_elem_of_filter in Hf as [Hf _]. cbn in *. destruct (scopes ctx (ds_tenant_id v)); [|done].
  rewrite andb_true_r in Hf. cbn in Hx. apply bool_decide_eq_false in Hf. unfold opt_is in Hx. by apply bool_decide_eq_true in Hx.
Qed.

(** The calls after it keep the specs. *)
Definition keeps_specs {A} (m : RM A) : Prop := ∀ w, rs_specs (rw_store (m w).2) = rs_specs (rw_store w).

Lemma keeps_specs_bind {A B} (m : RM A) (k : A → RM B) : keeps_specs m → (∀ a, keeps_specs (k a)) → keeps_specs (bind m k).
Proof. intros Hm Hk w. unfold bind. specialize (Hm w). destruct (m w) as [[a|e] w1]; cbn in *; [|done]. by rewrite Hk. Qed.

Lemma keeps_specs_require ctx t : keeps_specs (require RcScope ctx t).
Proof. intros w. unfold require. by destruct (scopes ctx t). Qed.

Lemma keeps_specs_clock : keeps_specs (clock_now env).
Proof. intros w. unfold clock_now, on_ext. by destruct (ev_clock env (rw_ext w)). Qed.

Lemma keeps_specs_drifts l ctx : keeps_specs (add_drifts l ctx).
Proof.
  induction l as [|x l IH]; [done|]. cbn. apply keeps_specs_bind; [|done]. by apply keeps_specs_bind; [apply keeps_specs_require|].
Qed.

Lemma recorded_specs source desired observed d results run ctx w u w' :
  record_pass env source desired observed d results run ctx w = (Ret u, w') →
  ∀ x, x ∈ list_specs (Some (so_source_id source)) ctx (rw_store w') → x ∈ de_specs desired.
Proof.
  unfold record_pass. intros (u1 & w1 & H1 & H2)%bind_inv x.
  assert (rs_specs (rw_store w') = rs_specs (rw_store w1)) as He.
  { match type of H2 with ?m w1 = _ => assert (keeps_specs m) as Hk; [|specialize (Hk w1); by rewrite H2 in Hk] end.
    apply keeps_specs_bind; [apply keeps_specs_drifts|intros _]. apply keeps_specs_bind; [apply keeps_specs_clock|intros t].
    by repeat (apply keeps_specs_bind; [apply keeps_specs_require || by apply keeps_specs_bind; [apply keeps_specs_require|]|intros _]). }
  unfold list_specs. rewrite He. by eapply replaced_specs.
Qed.

Lemma applied_recorded source run_id confirmed tenant_id t w run w' desired w1 :
  run_pass env source run_id APPLY confirmed tenant_id t w = (Ret run, w') → load env source tenant_id w = (Ret desired, w1) →
  ∀ n, n ∈ workload_names (list_specs (Some (so_source_id source)) (admin_context tenant_id) (rw_store w')) → n ∈ desired_names WORKLOAD desired.
Proof.
  unfold run_pass. intros H Hl n. rewrite Hl in H. apply bind_inv in H as (s & w2 & _ & H). apply bind_inv in H as (o & w3 & _ & H).
  destruct (diff_and_plan env desired _ _ _ _ _ _ _ _ _) as [d p]. apply bind_inv in H as (rs & w4 & _ & H).
  apply bind_inv in H as (fin & w5 & _ & H). apply bind_inv in H as (u & w6 & H & [= _ <-]). unfold workload_names, desired_names.
  rewrite elem_of_list_to_set, !list_elem_of_fmap. intros (x & -> & [Hk Hx]%list_elem_of_filter). exists x. split; [done|].
  apply list_elem_of_filter. split; [done|]. by eapply recorded_specs.
Qed.

(** A blocked deregistration is forgotten. A pass that acts replaces what
    is recorded as declared, whether or not its deregistrations went through;
    so a workload it left registered although undeclared is, at every next diff
    of that source that does not declare it again, to be quarantined (if it is
    observed and no other source declares it) and never to be deregistered. *)
Theorem blocked_deregistration_forgotten source run_id confirmed tenant_id t w run w' desired w1 n desired2 observed2 run_id2 t2 mode2 confirmed2 :
  run_pass env source run_id APPLY confirmed tenant_id t w = (Ret run, w') → load env source tenant_id w = (Ret desired, w1) →
  n ∉ desired_names WORKLOAD desired → n ∉ desired_names WORKLOAD desired2 →
  let ctx := admin_context tenant_id in
  let deltas := di_deltas (diff_and_plan env desired2 observed2 (rw_store w') (so_source_id source) run_id2 tenant_id t2 mode2 confirmed2 ctx).1 in
  (∀ x, x ∈ deltas → dl_object_ref x = n → dl_object_kind x = WORKLOAD → dl_kind x = QUARANTINE) ∧
  (n ∈ od_keys (ob_workloads observed2) →
   n ∉ workload_names (filter (λ s, ds_source_id s ≠ so_source_id source) (list_specs None ctx (rw_store w'))) →
   ∃ x, x ∈ deltas ∧ dl_object_ref x = n ∧ dl_kind x = QUARANTINE).
Proof.
  intros Hrun Hl Hn Hn2 ctx deltas. pose proof (applied_recorded _ _ _ _ _ _ _ _ _ _ Hrun Hl n) as Hprev. split.
  - intros x Hx Href Hk. apply diff_delta in Hx as [[_ Hx]|[[_ Hx]|[_ Hx]]]; [by rewrite Href in Hx|by rewrite Hk in Hx|].
    apply diff_undeclared_kind in Hx as (_ & _ & _ & [[_ Hx]|[Hx _]]); [|done]. rewrite Href in Hx. by apply Hprev in Hx.
  - intros Ho Hother. exists (mkDelta QUARANTINE WORKLOAD n None None false (Some "unmanaged workload outside desired state") []). split; [|by split].
    unfold deltas, diff_and_plan, diff. cbn [fst di_deltas]. apply elem_of_app. right. apply elem_of_app. left.
    apply list_elem_of_omap. exists n. split; [done|]. unfold diff_undeclared.
    destruct (od_mem n (by_name WORKLOAD (de_specs desired2))) eqn:Hm; [by apply by_name_mem in Hm|]. cbn.
    rewrite bool_decide_eq_false_2 by done. rewrite bool_decide_eq_false_2; [done|]. by intros H%Hprev.
Qed.
End Next.

(** ** What the registry promises *)

Class RegistryLaws (W : Type) `{!RegistryApi W} (registered : W → gset string) : Prop := {
  law_list : ∀ ctx w, (api_list ctx w).2 = w;
  law_create : ∀ ctx m w, registered w ⊆ registered (api_create ctx m w).2;
  law_update : ∀ ctx name m w, registered w ⊆ registered (api_update ctx name m w).2;
  law_request : ∀ ctx name w, registered w ⊆ registered (api_request_re_certification ctx name w).2;
  law_quarantine : ∀ ctx name w, registered w ⊆ registered (api_quarantine ctx name w).2;
  law_delete : ∀ ctx name w, registered w ∖ {[name]} ⊆ registered (api_delete ctx name w).2;
}.

Section Pass.
Context {W X : Type} `{!RegistryApi W} (registered : W → gset string) `{!RegistryLaws W registered}.
Variable env : Env X.

Abbreviation RM := (M (World W X) ReconcileExn).

(** The workloads a computation may remove. *)
Definition removes {A} (s : gset string) (m : RM A) : Prop :=
  ∀ w, registered (rw_registry w) ∖ s ⊆ registered (rw_registry (m w).2).

(** A computation that leaves the registry alone. *)
Definition off_registry {A} (m : RM A) : Prop := ∀ w, rw_registry (m w).2 = rw_registry w.

Lemma off_removes {A} s (m : RM A) : off_registry m → removes s m.
Proof. intros H w. rewrite (H w). set_solver. Qed.

Lemma removes_mono {A} s s' (m : RM A) : s ⊆ s' → removes s m → removes s' m.
Proof. intros Hs H w. specialize (H w). set_solver. Qed.

Lemma removes_bind {A B} s s' (m : RM A) (k : A → RM B) : removes s m → (∀ a, removes s' (k a)) → removes (s ∪ s') (bind m k).
Proof.
  intros Hm Hk w. unfold bind. specialize (Hm w). destruct (m w) as [[a|e] w1]; cbn in *; [|set_solver].
  specialize (Hk a w1). set_solver.
Qed.

Lemma removes_bind_l {A B} s (m : RM A) (k : A → RM B) : removes s m → (∀ a, off_registry (k a)) → removes s (bind m k).
Proof.
  intros Hm Hk. apply (removes_mono (s ∪ ∅)); [set_solver|]. apply removes_bind; [done|]. intros a. by apply off_removes.
Qed.

Lemma off_bind {A B} (m : RM A) (k : A → RM B) : off_registry m → (∀ a, off_registry (k a)) → off_registry (bind m k).
Proof. intros Hm Hk w. unfold bind. specialize (Hm w). destruct (m w) as [[a|e] w1]; cbn in *; [|done]. by rewrite Hk. Qed.

Lemma off_ret {A} (a : A) : off_registry (ret a).
Proof. done. Qed.

Lemma off_raise {A} e : off_registry (raise e : RM A).
Proof. done. Qed.

Lemma off_ext {A} (f : X → A * X) : off_registry (on_ext f).
Proof. intros w. unfold on_ext. by destruct (f (rw_ext w)). Qed.

Lemma off_store f : off_registry (set_store f).
Proof. done. Qed.

Lemma off_require ctx t : off_registry (require RcScope ctx t).
Proof. intros w. unfold require. by destruct (scopes ctx t). Qed.

Lemma removes_registry {A} s (m : M W RegistryExn A) :
  (∀ w, registered w ∖ s ⊆ registered (m w).2) → removes s (on_registry (X := X) m).
Proof. intros H w. unfold on_registry. specialize (H (rw_registry w)). by destruct (m (rw_registry w)) as [[] r]. Qed.

Lemma removes_catching s p (m : RM ActionResult) h : removes s m → removes s (catching p m h).
Proof. intros H w. unfold catching. specialize (H w). destruct (m w) as [[a|[]] w1]; try done. cbn in *. by destruct (p _). Qed.

(** What an action may remove. *)
Definition removable (a : ReconcileAction) : gset string :=
  if bool_decide (ra_kind a = DEREGISTER_WORKLOAD) && negb (ra_blocked a) then {[ra_object_ref a]} else ∅.

Definition none_removed (w w' : W) : registered w ⊆ registered w' → registered w ∖ ∅ ⊆ registered w' := λ H, ltac:(set_solver).

Lemma dispatch_removes a d ctx :
  removes (if bool_decide (ra_kind a = DEREGISTER_WORKLOAD) then {[ra_object_ref a]} else ∅) (dispatch env a d ctx).
Proof.
  assert (∀ (m : M W RegistryExn WorkloadRecord) k, (∀ w, registered w ⊆ registered (m w).2) → (∀ r, off_registry (k r)) →
    removes ∅ (bind (on_registry m) k : RM ActionResult)) as Hop.
  { intros m k Hm Hk. apply removes_bind_l; [|done]. apply removes_registry. intros w. by apply none_removed. }
  assert (∀ p (k : Manifest → RM ActionResult), (∀ m, removes ∅ (k m)) → removes ∅ (bind (parse_manifest env p) k)) as Hparse.
  { intros p k Hk. apply (removes_mono (∅ ∪ ∅)); [set_solver|]. apply removes_bind; [|done]. apply off_removes. unfold parse_manifest.
    by destruct (ev_parse env p). }
  unfold dispatch. destruct (ra_kind a); cbn [bool_decide].
  - rewrite bool_decide_eq_false_2 by done. unfold do_register. destruct (d ≫= dl_desired); [|by apply off_removes, off_raise].
    apply Hparse. intros m. apply removes_catching, Hop; [apply law_create|intros; apply off_ret].
  - rewrite bool_decide_eq_false_2 by done. unfold do_update. destruct (d ≫= dl_payload); [|by apply off_removes, off_ret].
    apply Hparse. intros m. apply Hop; [apply law_update|intros; apply off_ret].
  - rewrite bool_decide_eq_false_2 by done. unfold do_recertify. apply Hop; [apply law_request|intros; apply off_ret].
  - rewrite bool_decide_eq_true_2 by done. unfold do_deregister. apply removes_catching, removes_bind_l; [|intros; apply off_ret].
    apply removes_registry, law_delete.
  - rewrite bool_decide_eq_false_2 by done. unfold do_quarantine. apply Hop; [apply law_quarantine|intros; apply off_ret].
  - rewrite bool_decide_eq_false_2 by done. unfold do_enforce. apply off_removes.
    destruct (ev_enforcer env); [|apply off_ret]. destruct (d ≫= dl_desired); [|apply off_ret]. apply off_bind; [apply off_ext|].
    intros [|]; [apply off_ret|apply off_raise].
Qed.

Lemma execute_removes a d ctx : removes (removable a) (execute env a d ctx).
Proof.
  unfold execute, removable. destruct (ra_blocked a).
  - rewrite andb_false_r. apply off_removes, off_ret.
  - rewrite andb_true_r. intros w. pose proof (dispatch_removes a (find_delta a d) ctx w) as H.
    destruct (dispatch _ _ _ _ w) as [[r|[| |[]| |]] w1]; exact H.
Qed.

Definition removable_all (l : list ReconcileAction) : gset string := ⋃ (removable <$> l).

Lemma execute_all_removes l d ctx : removes (removable_all l) (execute_all env l d ctx).
Proof.
  induction l as [|a l IH]; [apply off_removes, off_ret|]. unfold removable_all. cbn. apply removes_bind; [apply execute_removes|].
  intros r. by apply removes_bind_l.
Qed.

Lemma removable_all_elem l n : n ∈ removable_all l ↔
  ∃ a, a ∈ l ∧ ra_object_ref a = n ∧ ra_kind a = DEREGISTER_WORKLOAD ∧ ra_blocked a = false.
Proof.
  unfold removable_all. rewrite elem_of_union_list. setoid_rewrite list_elem_of_fmap. unfold removable. split.
  - intros (s & (a & -> & Ha) & Hn). exists a. case_bool_decide; [|done]. destruct (ra_blocked a); [done|]. set_solver.
  - intros (a & Ha & Hr & Hk & Hb). exists {[n]}. split; [|set_solver]. exists a. rewrite bool_decide_eq_true_2 by done. rewrite Hb. by subst.
Qed.

Lemma removable_size l : (∀ a, a ∈ l → ra_kind a = DEREGISTER_WORKLOAD → ra_action_class a = DESTRUCTIVE) →
  (Z.of_nat (size (removable_all l)) ≤ count_destructive l)%Z.
Proof.
  induction l as [|a l IH]; intros Hl; [done|]. rewrite count_destructive_cons. change (removable_all (a :: l)) with (removable a ∪ removable_all l).
  pose proof (size_union_alt (removable a) (removable_all l)) as Hs. pose proof (subseteq_size (removable_all l ∖ removable a) (removable_all l) ltac:(set_solver)) as Hd.
  specialize (IH (λ b Hb, Hl b (list_elem_of_further _ _ _ Hb))). assert (size (removable a) ≤ if decide (unblocked_destructive a) then 1 else 0)%nat as Ha.
  { unfold removable. case_bool_decide as Hk; cbn; [|rewrite size_empty; lia]. destruct (ra_blocked a) eqn:Hb; cbn; [rewrite size_empty; lia|].
    rewrite size_singleton, decide_True; [done|]. split; [|done]. unfold destructive. rewrite bool_decide_eq_true. apply Hl; [by left|done]. }
  case_decide; lia.
Qed.

(** *** Nothing else of a pass touches the registry *)

Lemma off_load source tenant_id : off_registry (load env source tenant_id).
Proof.
  assert (∀ f : X → (string + DesiredSet) * X, off_registry (let* r := on_ext f in match r with inl e => raise (RcLoader e) | inr d => ret d end)) as H.
  { intros f. apply off_bind; [apply off_ext|]. intros [e|d]; [apply off_raise|apply off_ret]. }
  unfold load. destruct (so_kind source); [apply H..|]. destruct (so_manifests source) as [[|m ms]|]; [apply off_raise|apply H|apply off_raise].
Qed.

Lemma off_refused run_id source t mode outcome error : off_registry (refused_run env run_id source t mode outcome error).
Proof. apply off_bind; [apply off_ext|]. intros; apply off_ret. Qed.

Lemma off_snapshot ctx : off_registry (snapshot env ctx).
Proof.
  intros w. unfold snapshot, on_registry, bind. pose proof (law_list ctx (rw_registry w)) as H.
  destruct (api_list ctx (rw_registry w)) as [[l|e] r]; done.
Qed.

Lemma off_require_all ctx l : off_registry (require_all ctx l).
Proof. induction l as [|t l IH]; [apply off_ret|]. cbn. apply off_bind; [apply off_require|done]. Qed.

Lemma off_record source desired observed d results run ctx : off_registry (record_pass env source desired observed d results run ctx).
Proof.
  unfold record_pass. apply off_bind; [apply off_bind; [apply off_require_all|intros; apply off_store]|intros _].
  apply off_bind; [|intros _; apply off_bind; [apply off_ext|intros t; apply off_bind]].
  - induction (di_drifts d) as [|x l IH]; [apply off_ret|]. cbn. apply off_bind; [|done].
    apply off_bind; [apply off_require|intros; apply off_store].
  - apply off_bind; [apply off_require|intros; apply off_store].
  - intros _. apply off_bind; [apply off_require|intros; apply off_store].
Qed.

(** *** A pass *)

(** What a pass that got as far as acting decided. *)
Definition decided (source : SourceRef) (run_id : string) (confirmed : bool) (tenant_id : string) (t : Z) (w : World W X)
    (desired : DesiredSet) (d : DiffResult) (p : ReconcilePlan) : Prop :=
  ∃ w1 observed w2, load env source tenant_id w = (Ret desired, w1) ∧ snapshot env (admin_context tenant_id) w1 = (Ret observed, w2) ∧
    (d, p) = diff_and_plan env desired observed (rw_store w1) (so_source_id source) run_id tenant_id t APPLY confirmed (admin_context tenant_id).

Lemma run_pass_effect source run_id mode confirmed tenant_id t w :
  let w' := (run_pass env source run_id mode confirmed tenant_id t w).2 in
  rw_registry w' = rw_registry w ∨
  ∃ desired d p, mode = APPLY ∧ decided source run_id confirmed tenant_id t w desired d p ∧
    registered (rw_registry w) ∖ removable_all (pl_actions p) ⊆ registered (rw_registry w').
Proof.
  intros w'. unfold w', run_pass. pose proof (off_load source tenant_id w) as Hload.
  destruct (load env source tenant_id w) as [[desired|e] w1] eqn:El; cbn in Hload.
  2: { left. destruct e; try done. pose proof (off_refused run_id source t mode RO_ERROR message w1) as ->. done. }
  rewrite (bind_run _ _ w1 (rw_store w1) w1) by done.
  pose proof (off_snapshot (admin_context tenant_id) w1) as Hs.
  destruct (snapshot env (admin_context tenant_id) w1) as [[observed|e] w2] eqn:Es; cbn [snd] in Hs.
  2: { left. rewrite (bind_raise _ _ w1 e w2) by done. cbn [snd]. congruence. }
  rewrite (bind_run _ _ w1 observed w2) by done.
  destruct (diff_and_plan env desired _ _ _ _ _ _ _ _ _) as [d p] eqn:Ep. destruct mode.
  - left. transitivity (rw_registry w2); [|congruence]. apply off_bind; [apply off_ext|intros; apply off_ret].
  - right. exists desired, d, p. split; [done|]. split; [exists w1, observed, w2; split_and!; [done|done|by rewrite Ep]|].
    rewrite <-Hload, <-Hs. apply removes_bind_l; [apply execute_all_removes|]. intros results. apply off_bind; [apply off_ext|]. intros finished.
    apply off_bind; [apply off_record|intros; apply off_ret].
Qed.

Lemma load_store source tenant_id (w : World W X) : rw_store (load env source tenant_id w).2 = rw_store w.
Proof.
  assert (∀ f : X → (string + DesiredSet) * X,
    rw_store ((let* r := on_ext f in match r with inl e => raise (RcLoader e) | inr d => ret d end : RM DesiredSet) w).2 = rw_store w) as H.
  { intros f. unfold bind, on_ext. by destruct (f (rw_ext w)) as [[e|d] x]. }
  unfold load. destruct (so_kind source); [apply H..|]. by destruct (so_manifests source) as [[|m ms]|]; [|apply H|].
Qed.

(** The workloads removed between two states of the registry. *)
Definition gone (w w' : W) : gset string := registered w ∖ registered w'.

(** The conditions under which a workload may be removed, at the store [s]. *)
Definition removal_justified (source : SourceRef) (confirmed : bool) (tenant_id : string) (s : ReconcileStore) (desired : DesiredSet) (n : string) : Prop :=
  let ctx := admin_context tenant_id in
  guard_open (ev_guardrails env) (length (de_specs desired)) (bool_decide (get_state (so_source_id source) ctx s = None)) confirmed ∧
  n ∉ desired_names WORKLOAD desired ∧
  n ∈ workload_names (list_specs (Some (so_source_id source)) ctx s) ∧
  n ∉ workload_names (filter (λ x, ds_source_id x ≠ so_source_id source) (list_specs None ctx s)).

Lemma plan_removal source run_id confirmed tenant_id t mode desired observed s d p :
  diff_and_plan env desired observed s (so_source_id source) run_id tenant_id t mode confirmed (admin_context tenant_id) = (d, p) →
  (Z.of_nat (size (removable_all (pl_actions p))) ≤ Z.max 0 (gr_max_destructive_per_run (ev_guardrails env)))%Z ∧
  ∀ n, n ∈ removable_all (pl_actions p) → removal_justified source confirmed tenant_id s desired n.
Proof.
  unfold diff_and_plan. intros [= Hd Hp]. rewrite Hd in Hp.
  edestruct (plan_guard (ev_sha256 env) (ev_guardrails env) d) as (H1 & H2 & H3). rewrite Hp in H1, H2, H3. split.
  - etransitivity; [apply removable_size|exact H1]. intros a Ha Hk. destruct (H3 a Ha) as (x & _ & _ & Hx); [by rewrite Hk|].
    rewrite Hk in Hx. destruct (dl_kind x); cbn in Hx; by simplify_eq.
  - intros n (a & Ha & <- & Hk & Hb)%removable_all_elem. destruct (H3 a Ha) as (x & Hx & Href & Hx'); [by rewrite Hk|].
    rewrite Hk in Hx'. assert (dl_kind x = DEREGISTER ∧ ra_action_class a = DESTRUCTIVE) as [Hxk Hc] by (destruct (dl_kind x); cbn in Hx'; by simplify_eq).
    split; [apply (H2 a Ha); split; [by unfold destructive; rewrite Hc|done]|]. rewrite Href, <-Hd in *.
    apply diff_delta in Hx as [[[Hx|Hx] _]|[[Hx _]|[_ Hx]]]; [congruence..|]. apply diff_undeclared_kind in Hx as (_ & Hm & Ho & Hx).
    unfold desired_names. rewrite <-by_name_mem, Hm. destruct Hx as [[_ Hx]|[Hx _]]; [done|congruence].
Qed.

Lemma run_pass_removal source run_id mode confirmed tenant_id t w :
  let w' := (run_pass env source run_id mode confirmed tenant_id t w).2 in
  (Z.of_nat (size (gone (rw_registry w) (rw_registry w'))) ≤ Z.max 0 (gr_max_destructive_per_run (ev_guardrails env)))%Z ∧
  (∀ n, n ∈ gone (rw_registry w) (rw_registry w') →
     mode = APPLY ∧ ∃ desired w1, load env source tenant_id w = (Ret desired, w1) ∧
       removal_justified source confirmed tenant_id (rw_store w) desired n).
Proof.
  intros w'. destruct (run_pass_effect source run_id mode confirmed tenant_id t w) as [He|(desired & d & p & -> & Hd & Hr)].
  { unfold gone, w'. rewrite He, difference_diag_L, size_empty. split; [lia|set_solver]. }
  destruct Hd as (w1 & observed & w2 & El & Es & Ep). symmetry in Ep. apply plan_removal in Ep as [Hsize Hin]. unfold gone.
  assert (registered (rw_registry w) ∖ registered (rw_registry w') ⊆ removable_all (pl_actions p)) as Hsub.
  { intros n [Hn Hn']%elem_of_difference. destruct (decide (n ∈ removable_all (pl_actions p))) as [|Hne]; [done|]. destruct Hn'. by apply Hr, elem_of_difference. }
  pose proof (subseteq_size _ _ Hsub). split; [lia|]. intros n Hn%Hsub%Hin. split; [done|]. exists desired, w1. split; [done|].
  pose proof (load_store source tenant_id w) as Hs. rewrite El in Hs. cbn in Hs. by rewrite <-Hs.
Qed.

Lemma on_ext_run {A} (f : X → A * X) (w : World W X) :
  ∃ a w', on_ext f w = (Ret a, w') ∧ rw_registry w' = rw_registry w ∧ rw_store w' = rw_store w ∧ rw_held w' = rw_held w.
Proof. unfold on_ext. destruct (f (rw_ext w)) as [a x]. by eexists a, _. Qed.

(** A removal by a call of [reconcile]. *)
Lemma reconcile_removal source mode confirmed tenant_id w :
  let w' := (reconcile env source mode confirmed tenant_id w).2 in
  (Z.of_nat (size (gone (rw_registry w) (rw_registry w'))) ≤ Z.max 0 (gr_max_destructive_per_run (ev_guardrails env)))%Z ∧
  (∀ n, n ∈ gone (rw_registry w) (rw_registry w') →
     mode = APPLY ∧ (ev_locking env = true → so_source_id source ∉ rw_held w) ∧
     ∃ desired (w0 w1 : World W X), load env source tenant_id w0 = (Ret desired, w1) ∧ removal_justified source confirmed tenant_id (rw_store w) desired n).
Proof.
  unfold reconcile. destruct (on_ext_run (ev_run_id env) w) as (run_id & wa & Ea & Hra & Hsa & Hha).
  rewrite (bind_run _ _ w run_id wa) by done. destruct (on_ext_run (ev_clock env) wa) as (t & wb & Eb & Hrb & Hsb & Hhb).
  rewrite (bind_run _ _ wa t wb) by done. rewrite <-Hra, <-Hsa, <-Hha, <-Hrb, <-Hsb, <-Hhb. clear Ea Eb Hra Hsa Hha Hrb Hsb Hhb.
  destruct (bool_decide (mode = APPLY) && ev_locking env) eqn:Hlock.
  - apply andb_true_iff in Hlock as [Hlock _]. clear Hlock. cbn zeta. unfold holding. cbv beta. case_bool_decide as Hheld.
    { pose proof (off_refused run_id source t mode RO_BLOCKED "another controller holds the lock for this source" wb) as He.
      rewrite He. unfold gone. rewrite difference_diag_L, size_empty. split; [lia|set_solver]. }
    match goal with |- context [run_pass _ _ _ _ _ _ _ ?x] => set (wc := x) end.
    pose proof (run_pass_removal source run_id mode confirmed tenant_id t wc) as H. cbn zeta in H.
    destruct (run_pass _ _ _ _ _ _ _ wc) as [o w']. cbn in *. destruct H as [H1 H2]. split; [done|]. intros n Hn.
    destruct (H2 n Hn) as (? & desired & w1 & ? & ?). split; [done|]. split; [done|]. by exists desired, wc, w1.
  - destruct (run_pass_removal source run_id mode confirmed tenant_id t wb) as [H1 H2]. split; [done|]. intros n Hn.
    destruct (H2 n Hn) as (-> & desired & w1 & ? & ?). split; [done|]. split; [|by exists desired, wb, w1]. intros Hl. by rewrite Hl, bool_decide_eq_true_2 in Hlock.
Qed.
End Pass.



(** ** The registry keeps these promises *)

Section Implementation.
Variables (sha256 : string → string) (float_repr : f64 → string) (dump_time : Z → string).
Context {Key Pub Y : Type}.
Variables (sign : Key → string → string) (clock : Y → Z * Y) (cfg : RegistryConfig (Key := Key) (Pub := Pub)).

Definition registered_names (w : RegistryStore * Y) : gset string := list_to_set (od_keys (rg_workloads w.1)).

Definition grows (w w' : RegistryStore * Y) : Prop := registered_names w ⊆ registered_names w'.

#[local] Instance grows_preorder : PreOrder grows.
Proof. unfold grows. split; [by intros w|by intros a b c ? ?; etransitivity]. Qed.

Lemma grows_core {A} (m : M (RegistryStore * Y) RegistryExn A) : keeps same_core m → keeps grows m.
Proof. intros H w. destruct (H w) as (He & _). change (rg_workloads (m w).2.1 = rg_workloads w.1) in He. unfold grows, registered_names. by rewrite He. Qed.

Lemma grows_same {A} (m : M (RegistryStore * Y) RegistryExn A) : (∀ w, rg_workloads (m w).2.1 = rg_workloads w.1) → keeps grows m.
Proof. intros H w. unfold grows, registered_names. by rewrite H. Qed.

Lemma grows_bind {A B} (m : M (RegistryStore * Y) RegistryExn A) (k : A → M (RegistryStore * Y) RegistryExn B) :
  keeps grows m → (∀ a, keeps grows (k a)) → keeps grows (bind m k).
Proof. apply keeps_bind, _. Qed.

Lemma grows_store : keeps grows (Registry.store (X := Y)).
Proof. by apply grows_same. Qed.

Lemma grows_save ctx r : keeps grows (save_workload (X := Y) ctx r).
Proof.
  intros [s x]. assert (grows (s, x) (set_workloads s (od_set (wr_name r) r (rg_workloads s)), x)) as H.
  { unfold grows, registered_names. cbn [fst]. unfold set_workloads. cbn [rg_workloads]. rewrite od_keys_set.
    destruct (od_mem _ _); [done|]. rewrite list_to_set_app_L. set_solver. }
  unfold save_workload, require, bind. destruct (scopes ctx (wr_tenant_id r)); [|by apply grows_same]. cbn.
  destruct (od_get (wr_name r) (rg_workloads s)) as [e|]; [|exact H]. destruct (scopes ctx (wr_tenant_id e)); [exact H|]. unfold grows. set_solver.
Qed.

Lemma grows_add_version ctx v : keeps grows (add_version (X := Y) ctx v).
Proof. apply grows_bind; [apply grows_core, keeps_parent|]. intros _. by apply grows_same. Qed.

Lemma grows_now : keeps grows (Registry.now clock).
Proof. apply grows_core, keeps_now. Qed.

Lemma grows_build m v t tenant needs : keeps grows (build_record sha256 float_repr dump_time sign clock cfg m v t tenant needs).
Proof.
  apply grows_bind; [apply grows_same; intros w; exact (f_equal rg_workloads (proj2 (keeps_sign_bundle sha256 float_repr dump_time sign clock cfg m w)))|].
  intros b. by apply grows_same.
Qed.

Lemma grows_get ctx name : keeps grows (Registry.get (X := Y) ctx name).
Proof. apply grows_same. intros [s x]. exact (f_equal (λ r, rg_workloads r.2.1) (Registry.get_run ctx name s x)). Qed.

Lemma grows_validate m : keeps grows (validate_tools (X := Y) m).
Proof. intros [s x]. unfold validate_tools, bind, Registry.store, gets. cbn. by destruct (tools_error s m). Qed.

Lemma grows_supersede ctx l : keeps grows (supersede (X := Y) ctx l).
Proof.
  induction l as [|v l IH]; [by apply grows_same|]. apply grows_bind; [|done]. destruct (bool_decide _); [apply grows_add_version|by apply grows_same].
Qed.

Lemma grows_sync ctx m : keeps grows (sync_triggers clock ctx m).
Proof. apply grows_core, keeps_sync. Qed.

#[local] Hint Resolve grows_store grows_save grows_add_version grows_now grows_build grows_get grows_validate grows_supersede grows_sync : grows.

Ltac grow := repeat first
  [ apply grows_bind; [solve [auto with grows]|intros]
  | solve [auto with grows] | by apply grows_same
  | match goal with
    | |- keeps _ (match ?x with _ => _ end) => destruct x
    end ].

Lemma grows_create ctx m : keeps grows (Registry.create sha256 float_repr dump_time sign clock cfg ctx m).
Proof. unfold Registry.create. grow. Qed.

Lemma grows_update ctx name m : keeps grows (Registry.update sha256 float_repr dump_time sign clock cfg ctx name m).
Proof. unfold Registry.update. grow. Qed.

Lemma grows_request ctx name : keeps grows (Registry.request_re_certification clock ctx name).
Proof. unfold Registry.request_re_certification. grow. Qed.

Lemma grows_quarantine ctx name : keeps grows (Registry.quarantine clock ctx name).
Proof. unfold Registry.quarantine. grow. Qed.

Lemma delete_removes ctx name (w : RegistryStore * Y) : registered_names w ∖ {[name]} ⊆ registered_names (Registry.delete ctx name w).2.
Proof.
  destruct w as [s x]. unfold Registry.delete, delete_workload, bind, Registry.store, gets. cbn.
  destruct (get_workload s ctx name); cbn; [|unfold registered_names; set_solver].
  change (list_to_set (od_keys (rg_workloads s)) ∖ {[name]} ⊆ (list_to_set (od_keys (od_del name (rg_workloads s))) : gset string)).
  intros n [Hn Hne]%elem_of_difference. rewrite elem_of_list_to_set in *. rewrite not_elem_of_singleton in Hne.
  rewrite <-od_mem_spec in *. unfold od_mem in *. by rewrite od_get_del_ne.
Qed.

#[export] Instance registry_laws :
  RegistryLaws (RegistryStore * Y) (RegistryApi0 := registry_api sha256 float_repr dump_time sign clock cfg) registered_names.
Proof.
  split; cbn.
  - intros ctx w. done.
  - exact grows_create.
  - intros ctx name m. apply grows_update.
  - intros ctx name. apply grows_request.
  - intros ctx name. apply grows_quarantine.
  - exact delete_removes.
Qed.

(** What reconciling may remove from the registry, whatever the desired
    state, the fleet and the results of the single actions, and however the call
    ends: at most [max_destructive_per_run] workloads; and a workload only by an
    APPLY pass that holds the source's lock, with destructive actions allowed,
    a desired set that is not empty (unless that is allowed), confirmed if it is
    the first pass of the source (unless none is required), and only one that
    this source declared before, does not declare any more, and no other source
    declares. *)
Theorem reconcile_removal_bounded {X} (env : Env X) source mode confirmed tenant_id (w : World (RegistryStore * Y) X) :
  let api := registry_api sha256 float_repr dump_time sign clock cfg in
  let w' := (reconcile (RegistryApi0 := api) env source mode confirmed tenant_id w).2 in
  let gone := registered_names (rw_registry w) ∖ registered_names (rw_registry w') in
  let g := ev_guardrails env in
  let ctx := admin_context tenant_id in
  (Z.of_nat (size gone) ≤ Z.max 0 (gr_max_destructive_per_run g))%Z ∧
  ∀ n, n ∈ gone →
    mode = APPLY ∧ gr_allow_destructive g = true ∧ (ev_locking env = true → so_source_id source ∉ rw_held w) ∧
    (gr_require_destructive_confirmation g = true → confirmed = true ∨ get_state (so_source_id source) ctx (rw_store w) ≠ None) ∧
    n ∈ workload_names (list_specs (Some (so_source_id source)) ctx (rw_store w)) ∧
    n ∉ workload_names (filter (λ s, ds_source_id s ≠ so_source_id source) (list_specs None ctx (rw_store w))) ∧
    ∃ desired w0 w1, load env source tenant_id (w0 : World (RegistryStore * Y) X) = (Ret desired, w1) ∧
      n ∉ desired_names WORKLOAD desired ∧ (de_specs desired ≠ [] ∨ gr_allow_empty g = true).
Proof.
  intros api w' gone g ctx. destruct (reconcile_removal registered_names env source mode confirmed tenant_id w) as [H1 H2].
  split; [exact H1|]. intros n Hn. destruct (H2 n Hn) as (Hm & Hlock & desired & w0 & w1 & Hl & (Ha & He & Hf) & Hnd & Hp & Ho).
  do 3 (split; [done|]). split; [|do 2 (split; [done|]); exists desired, w0, w1; do 2 (split; [done|])].
  - intros Hr. unfold ctx. destruct (get_state _ _ _) eqn:Es; [by right|left]. by apply Hf; [apply bool_decide_eq_true|].
  - destruct He as [He|He]; [left|by right]. intros E. by rewrite E in He.
Qed.
End Implementation.
