(* ===== verification/ReconcileDemo.v ===== *)
(** * Reconciling a small fleet

    Two declared workloads, one of which is later taken out of the desired set:
    registered, blocked, forgotten, and removed when the guardrails allow it. *)

From stdpp Require Import base strings pretty numbers gmap sets list.
From S2P Require Import Prelude Text Float64 Tenancy CoreModels Canonical Templates Manifest Conflict Policy Registry RegistryDemo Reconcile ReconcilePass.

(** A manifest by its name and entrypoint, and back. *)
Definition named_manifest (name entrypoint : string) : Manifest :=
  let m := demo_manifest "ops" entrypoint UNCERTIFIED in
  {| ma_metadata := {| md_name := name; md_owner := "ops"; md_team := None; md_description := None; md_labels := ∅ |}; ma_spec := ma_spec m |}.

Definition demo_dump (m : Manifest) : odict string JsonValue :=
  [("metadata", JObj [("name", JStr (manifest_name m))]); ("spec", JObj [("runtime", JStr (rt_entrypoint (sp_runtime (ma_spec m))))])].

Definition str_at (k : string) (v : option JsonValue) : option string :=
  match v with Some (JObj d) => match od_get k d with Some (JStr s) => Some s | _ => None end | _ => None end.

Definition demo_parse (d : odict string JsonValue) : option Manifest :=
  name ← str_at "name" (od_get "metadata" d); entrypoint ← str_at "runtime" (od_get "spec" d); Some (named_manifest name entrypoint).

Definition demo_document (name entrypoint : string) : odict string JsonValue :=
  [("kind", JStr "workload"); ("metadata", JObj [("name", JStr name); ("owner", JStr "ops")]); ("spec", JObj [("runtime", JStr entrypoint)])].

Definition demo_normal (d : odict string JsonValue) : string + odict string JsonValue :=
  match demo_parse d with Some m => inr (demo_dump m) | None => inl "invalid" end.

Definition demo_env (g : Guardrails) : Env Z :=
  {| ev_sha256 := demo_hash; ev_float_repr := exact_repr; ev_dump := demo_dump; ev_parse := demo_parse; ev_normal_manifest := demo_normal;
     ev_normal_pack := inr; ev_load_other := λ _ _ x, (inl "unsupported", x); ev_enforcer := None; ev_has_packs := false; ev_pinned := [];
     ev_guardrails := g; ev_locking := true; ev_clock := demo_clock; ev_run_id := λ x, ("rr-" +:+ pretty x, (x + 1)%Z) |}.

Definition demo_api : RegistryApi (RegistryStore * Z) := registry_api demo_hash exact_repr demo_time demo_sign demo_clock demo_cfg.

Definition demo_source (documents : list (odict string JsonValue)) : SourceRef := mkSource "fleet" SK_INLINE (Some documents).

Definition demo_apply (g : Guardrails) (documents : list (odict string JsonValue)) (w : World (RegistryStore * Z) Z) :=
  reconcile (RegistryApi0 := demo_api) (demo_env g) (demo_source documents) APPLY true DEFAULT_TENANT_ID w.

Definition world0 : World (RegistryStore * Z) Z := mkWorld (empty_registry, 0%Z) empty_store [] ∅ 0%Z.

Definition both : list (odict string JsonValue) := [demo_document "w-a" "v1"; demo_document "w-b" "v1"].
Definition only_a : list (odict string JsonValue) := [demo_document "w-a" "v2"].

Definition results_of (o : outcome ReconcileExn ReconcileRun) : list (ActionKind * string * ActionStatus) :=
  match o with Ret r => (λ a, (ar_kind a, ar_object_ref a, ar_status a)) <$> rr_actions r | Raise _ => [] end.

Definition pass1 := demo_apply default_guardrails both world0.
Definition pass2 := demo_apply default_guardrails only_a pass1.2.
Definition pass3 := demo_apply default_guardrails only_a pass2.2.

Definition destructive_ok : Guardrails := mkGuardrails true false 10 true.

Example first_pass : results_of pass1.1 = [(REGISTER_WORKLOAD, "w-a", AS_APPLIED); (REGISTER_WORKLOAD, "w-b", AS_APPLIED)].
Proof. vm_compute. reflexivity. Qed.

(** A changed agent: updated and to be certified again; the removal is blocked. *)
Example second_pass :
  results_of pass2.1 = [(UPDATE_WORKLOAD, "w-a", AS_APPLIED); (RECERTIFY_WORKLOAD, "w-a", AS_APPLIED); (DEREGISTER_WORKLOAD, "w-b", AS_BLOCKED)].
Proof. vm_compute. reflexivity. Qed.

(** The removal is forgotten. *)
Example third_pass : results_of pass3.1 = [(QUARANTINE_WORKLOAD, "w-b", AS_BLOCKED)].
Proof. vm_compute. reflexivity. Qed.

(** Had destructive actions been allowed. *)
Example removing_pass :
  let p := demo_apply destructive_ok only_a pass1.2 in
  results_of p.1 = [(UPDATE_WORKLOAD, "w-a", AS_APPLIED); (RECERTIFY_WORKLOAD, "w-a", AS_APPLIED); (DEREGISTER_WORKLOAD, "w-b", AS_APPLIED)] ∧
  od_keys (rg_workloads (rw_registry p.2).1) = ["w-a"].
Proof. vm_compute. done. Qed.

(** The second pass, without the lock. *)
Definition blocked_pass : outcome ReconcileExn ReconcileRun * World (RegistryStore * Z) Z :=
  run_pass (RegistryApi0 := demo_api) (demo_env default_guardrails) (demo_source only_a) "rr-9" APPLY true DEFAULT_TENANT_ID 9 pass1.2.

Definition loaded : outcome ReconcileExn DesiredSet * World (RegistryStore * Z) Z :=
  load (demo_env default_guardrails) (demo_source only_a) DEFAULT_TENANT_ID pass1.2.

Definition no_set : DesiredSet := mkSet EmptyString API EmptyString [] 0.
Definition loaded_set : DesiredSet := match loaded.1 with Ret d => d | Raise _ => no_set end.
Definition no_run : ReconcileRun := mkRun EmptyString EmptyString EmptyString API EmptyString PLAN 0 None RO_ERROR [] None.

Definition still_observed : ObservedState := mkObserved [("w-b", demo_dump (named_manifest "w-b" "v1"))] [].

Definition next_deltas : list Delta :=
  di_deltas (diff_and_plan (demo_env default_guardrails) loaded_set still_observed (rw_store blocked_pass.2) "fleet" "rr-10" DEFAULT_TENANT_ID 10
    APPLY true (admin_context DEFAULT_TENANT_ID)).1.

Lemma blocked_deregistration_forgotten_witness :
  existsb (λ x, bool_decide (dl_object_ref x = "w-b") && bool_decide (dl_kind x = QUARANTINE)) next_deltas = true ∧
  od_keys (rg_workloads (rw_registry blocked_pass.2).1) = ["w-a"; "w-b"].
Proof.
  split; [|by vm_compute]. assert (blocked_pass = (Ret (returned no_run blocked_pass), blocked_pass.2)) as Hrun.
  { assert (match blocked_pass.1 with Ret _ => true | Raise _ => false end = true) as H by by vm_compute.
    unfold returned. by destruct blocked_pass as [[r|e] w]. }
  assert (loaded = (Ret loaded_set, loaded.2)) as Hl.
  { assert (match loaded.1 with Ret _ => true | Raise _ => false end = true) as H by by vm_compute.
    unfold loaded_set. by destruct loaded as [[r|e] w]. }
  destruct (blocked_deregistration_forgotten (RegistryApi0 := demo_api) (demo_env default_guardrails) (demo_source only_a) "rr-9" true
    DEFAULT_TENANT_ID 9 pass1.2 _ _ _ _ "w-b" loaded_set still_observed "rr-10" 10 APPLY true Hrun Hl) as [_ (x & Hx & Hr & Hk)].
  - by apply (bool_decide_unpack _); vm_compute.
  - by apply (bool_decide_unpack _); vm_compute.
  - by left.
  - by apply (bool_decide_unpack _); vm_compute.
  - apply existsb_elem. exists x. split; [exact Hx|]. by rewrite Hr, Hk, !bool_decide_eq_true_2.
Defined.
