(* ===== verification/Tenants.v ===== *)
(** * Tenants, teams and memberships ([tenancy/store.py], [tenancy/admin.py])

    The in-memory store copies on write and on read.  The administration
    service decides under which context a change runs; the clock acts on the
    environment's state. *)

From stdpp Require Import base strings list.
From S2P Require Import Prelude Text Float64 Tenancy.

#[local] Open Scope hp_scope.

Inductive TenantStatus := ACTIVE | SUSPENDED.

#[export] Instance TenantStatus_eq_dec : EqDecision TenantStatus.
Proof. solve_decision. Defined.

Record TenantQuota := mkQuota { tq_max_agents : option Z; tq_max_monthly_usd : option f64; tq_max_concurrent_runs : option Z }.

Definition no_quota : TenantQuota := mkQuota None None None.

Record Tenant := mkTenant { tn_tenant_id : string; tn_name : string; tn_created_at : Z; tn_status : TenantStatus; tn_quota : TenantQuota }.

Record Team := mkTeam { tm_team_id : string; tm_tenant_id : string; tm_name : string; tm_attribution_key : string; tm_created_at : Z }.

Record Membership := mkMembership {
  mb_membership_id : string; mb_tenant_id : string; mb_team_id : option string; mb_operator_id : string; mb_role : Role; mb_created_at : Z }.

Inductive TenancyExn :=
  | TenantScopeError (tenant_id : string)
  | TenantNotFoundError (tenant_id : string)
  | TenantAlreadyExistsError (tenant_id : string)
  | TenantSuspendedError (tenant_id : string)
  | InvalidTenant.

Definition tenant_valid (t : Tenant) : bool := between 1 64 (tn_tenant_id t) && between 1 253 (tn_name t).

Record TenantStore := mkTenantStore {
  ts_tenants : odict string Tenant;
  ts_teams : odict (string * string) Team;
  ts_memberships : odict string Membership;
}.

Definition empty_tenants : TenantStore := mkTenantStore [] [] [].

Definition TM (A : Type) : Type := M TenantStore TenancyExn A.

Definition require_scope (ctx : TenantContext) (tenant_id : string) : TM unit := require (TenantScopeError (tc_tenant_id ctx)) ctx tenant_id.

Definition put_tenant (t : Tenant) : TM unit :=
  modify (λ s, mkTenantStore (od_set (tn_tenant_id t) t (ts_tenants s)) (ts_teams s) (ts_memberships s)).

(** ** The store *)

Definition save_tenant (ctx : TenantContext) (t : Tenant) : TM unit := require_scope ctx (tn_tenant_id t) ;;; put_tenant t.

Definition get_tenant (ctx : TenantContext) (tenant_id : string) (s : TenantStore) : option Tenant :=
  if scopes ctx tenant_id then od_get tenant_id (ts_tenants s) else None.

Definition list_tenants (ctx : TenantContext) (s : TenantStore) : list Tenant :=
  py_sort (λ a b, str_leb (tn_tenant_id a) (tn_tenant_id b))
    (if tc_is_system ctx then od_values (ts_tenants s) else filter (λ t, scopes ctx (tn_tenant_id t) = true) (od_values (ts_tenants s))).

(** [set_status] and [set_quota]: a change of the stored tenant. *)
Definition change_tenant (ctx : TenantContext) (tenant_id : string) (f : Tenant → Tenant) : TM Tenant :=
  require_scope ctx tenant_id ;;;
  let* s := gets id in
  match od_get tenant_id (ts_tenants s) with
  | None => raise (TenantNotFoundError tenant_id)
  | Some t =>
      modify (λ s, mkTenantStore (od_set tenant_id (f t) (ts_tenants s)) (ts_teams s) (ts_memberships s)) ;;; ret (f t)
  end.

Definition with_status (status : TenantStatus) (t : Tenant) : Tenant := mkTenant (tn_tenant_id t) (tn_name t) (tn_created_at t) status (tn_quota t).
Definition with_quota (quota : TenantQuota) (t : Tenant) : Tenant := mkTenant (tn_tenant_id t) (tn_name t) (tn_created_at t) (tn_status t) quota.

Definition set_status (ctx : TenantContext) (tenant_id : string) (status : TenantStatus) : TM Tenant := change_tenant ctx tenant_id (with_status status).
Definition store_set_quota (ctx : TenantContext) (tenant_id : string) (quota : TenantQuota) : TM Tenant := change_tenant ctx tenant_id (with_quota quota).

Definition known_tenant (tenant_id : string) : TM unit :=
  let* s := gets id in if od_mem tenant_id (ts_tenants s) then ret tt else raise (TenantNotFoundError tenant_id).

Definition save_team (ctx : TenantContext) (t : Team) : TM unit :=
  require_scope ctx (tm_tenant_id t) ;;; known_tenant (tm_tenant_id t) ;;;
  modify (λ s, mkTenantStore (ts_tenants s) (od_set (tm_tenant_id t, tm_team_id t) t (ts_teams s)) (ts_memberships s)).

Definition get_team (ctx : TenantContext) (tenant_id team_id : string) (s : TenantStore) : option Team :=
  if scopes ctx tenant_id then od_get (tenant_id, team_id) (ts_teams s) else None.

Definition list_teams (ctx : TenantContext) (tenant_id : string) (s : TenantStore) : list Team :=
  if scopes ctx tenant_id
  then py_sort (λ a b, str_leb (tm_team_id a) (tm_team_id b)) (snd <$> filter (λ e, e.1.1 = tenant_id) (ts_teams s))
  else [].

Definition save_membership (ctx : TenantContext) (m : Membership) : TM unit :=
  require_scope ctx (mb_tenant_id m) ;;; known_tenant (mb_tenant_id m) ;;;
  modify (λ s, mkTenantStore (ts_tenants s) (ts_teams s) (od_set (mb_membership_id m) m (ts_memberships s))).

Definition get_membership (ctx : TenantContext) (membership_id : string) (s : TenantStore) : option Membership :=
  match od_get membership_id (ts_memberships s) with
  | Some m => if scopes ctx (mb_tenant_id m) then Some m else None
  | None => None
  end.

Definition membership_leb (a b : Membership) : bool := str_leb (mb_membership_id a) (mb_membership_id b).

Definition list_memberships (ctx : TenantContext) (tenant_id : string) (s : TenantStore) : list Membership :=
  if scopes ctx tenant_id then py_sort membership_leb (filter (λ m, mb_tenant_id m = tenant_id) (od_values (ts_memberships s))) else [].

Definition find_membership (ctx : TenantContext) (tenant_id operator_id : string) (s : TenantStore) : option Membership :=
  if scopes ctx tenant_id
  then head (py_sort membership_leb
               (filter (λ m, mb_tenant_id m = tenant_id ∧ mb_operator_id m = operator_id) (od_values (ts_memberships s))))
  else None.

(** [purge_tenant] *)
Definition purge_tenant (ctx : TenantContext) (tenant_id : string) : TM Z :=
  require_scope ctx tenant_id ;;;
  let* s := gets id in
  let teams := filter (λ e, e.1.1 = tenant_id) (ts_teams s) in
  let memberships := filter (λ e, mb_tenant_id e.2 = tenant_id) (ts_memberships s) in
  modify (λ s, mkTenantStore (od_del tenant_id (ts_tenants s)) (filter (λ e, e.1.1 ≠ tenant_id) (ts_teams s))
                 (filter (λ e, mb_tenant_id e.2 ≠ tenant_id) (ts_memberships s))) ;;;
  ret (Z.of_nat ((if od_mem tenant_id (ts_tenants s) then 1 else 0) + length teams + length memberships)).

(** ** Administration *)

Section Admin.
Variable trusted_local : bool.

(** [_require_system], [_admin_ctx] *)
Definition require_system (ctx : TenantContext) : TM unit :=
  if tc_is_system ctx || trusted_local then ret tt else raise (TenantScopeError (tc_tenant_id ctx)).

Definition admin_ctx (ctx : TenantContext) (tenant_id : string) : TM TenantContext :=
  if tc_is_system ctx || trusted_local then ret SYSTEM_CONTEXT
  else if bool_decide (tc_role ctx = ADMIN) && bool_decide (tc_tenant_id ctx = tenant_id) then ret ctx
  else raise (TenantScopeError (tc_tenant_id ctx)).

(** [create_tenant]; the clock is read when the tenant is built. *)
Definition on_store {X A} (m : TM A) : M (TenantStore * X) TenancyExn A := λ w, let '(o, s) := m w.1 in (o, (s, w.2)).

Definition create_tenant {X} (clock : X → Z * X) (ctx : TenantContext) (tenant_id name : string) (quota : option TenantQuota)
    : M (TenantStore * X) TenancyExn Tenant :=
  on_store (require_system ctx) ;;;
  let* w := gets id in
  match get_tenant SYSTEM_CONTEXT tenant_id w.1 with
  | Some _ => raise (TenantAlreadyExistsError tenant_id)
  | None =>
      let* now := (λ w, let '(t, x) := clock w.2 in (Ret t, (w.1, x))) in
      let t := mkTenant tenant_id name now ACTIVE (default no_quota quota) in
      if tenant_valid t then on_store (save_tenant SYSTEM_CONTEXT t) ;;; ret t else raise InvalidTenant
  end.

Definition suspend_tenant (ctx : TenantContext) (tenant_id : string) : TM Tenant :=
  let* write_ctx := admin_ctx ctx tenant_id in set_status write_ctx tenant_id SUSPENDED.

Definition reinstate_tenant (ctx : TenantContext) (tenant_id : string) : TM Tenant :=
  let* write_ctx := admin_ctx ctx tenant_id in set_status write_ctx tenant_id ACTIVE.

Definition set_quota (ctx : TenantContext) (tenant_id : string) (quota : TenantQuota) : TM Tenant :=
  let* write_ctx := admin_ctx ctx tenant_id in store_set_quota write_ctx tenant_id quota.
End Admin.

(** [require_active]: the system context bypasses the status. *)
Definition require_active (ctx : TenantContext) (tenant_id : string) (s : TenantStore) : TenancyExn + Tenant :=
  match get_tenant SYSTEM_CONTEXT tenant_id s with
  | None => inl (TenantNotFoundError tenant_id)
  | Some t => if negb (bool_decide (tn_status t = ACTIVE)) && negb (tc_is_system ctx) then inl (TenantSuspendedError tenant_id) else inr t
  end.

(** ** What a change reaches *)

(** The rows of a tenant. *)
Definition tenant_rows (t : string) (s : TenantStore) : option Tenant * list (string * string * Team) * list (string * Membership) :=
  (od_get t (ts_tenants s), filter (λ e, e.1.1 = t) (ts_teams s), filter (λ e, mb_tenant_id e.2 = t) (ts_memberships s)).

Lemma change_tenant_rows ctx tenant_id f s t : t ≠ tenant_id → tenant_rows t (change_tenant ctx tenant_id f s).2 = tenant_rows t s.
Proof.
  intros Hne. unfold change_tenant, require_scope, require, bind. destruct (scopes ctx tenant_id); [|done]. cbn.
  destruct (od_get tenant_id (ts_tenants s)) as [x|]; [|done]. unfold tenant_rows. cbn. by rewrite od_get_set_ne.
Qed.

(** Administration by a tenant's own context reaches that tenant only. *)
Lemma admin_ctx_own trusted ctx tenant_id s : trusted = false → tc_is_system ctx = false → tc_tenant_id ctx ≠ tenant_id →
  admin_ctx trusted ctx tenant_id s = (Raise (TenantScopeError (tc_tenant_id ctx)), s).
Proof. intros -> Hs Hne. unfold admin_ctx. rewrite Hs, (bool_decide_eq_false_2 (_ = tenant_id)), andb_false_r by done. done. Qed.

Lemma create_tenant_refused {X} trusted (clock : X → Z * X) ctx tenant_id name quota w : trusted = false → tc_is_system ctx = false →
  create_tenant trusted clock ctx tenant_id name quota w = (Raise (TenantScopeError (tc_tenant_id ctx)), w).
Proof. intros -> Hs. unfold create_tenant, on_store, require_system, bind. rewrite Hs. by destruct w. Qed.

(** A suspended tenant is refused everywhere but to the system context. *)
Lemma require_active_suspended ctx t s x : od_get t (ts_tenants s) = Some x → tn_status x = SUSPENDED → tc_is_system ctx = false →
  require_active ctx t s = inl (TenantSuspendedError t).
Proof. intros Hx Hst Hs. unfold require_active, get_tenant. cbn. by rewrite Hx, Hst, Hs. Qed.
