(* ===== verification/Auth.v ===== *)
(** * Keys, roles and the access audit ([auth/])

    Role-based permissions narrowed by scopes, the in-memory store, the key
    service and the service that authenticates operators and authorizes and
    records their actions.  SHA-256, key identifiers, tokens and the clock are
    parameters; the tenants are those of [Tenants]. *)

From stdpp Require Import base strings pretty numbers sets list.
From S2P Require Import Prelude Text Tenancy Tenants.

#[local] Open Scope hp_scope.

(** ** Roles and scopes ([auth/models.py], [auth/rbac.py]) *)

Inductive Permission :=
  | APPROVE | PROMOTE | KILL_SWITCH | RUN_INTERVENE | WORKLOAD_MANAGE | CERTIFY_MANAGE | SECRETS_MANAGE | KEYS_MANAGE
  | ARTIFACTS_MANAGE | CORPUS_MANAGE | EVENTS_MANAGE | REPORTS_MANAGE | REPLAY_MANAGE | POLICY_MANAGE | FLEET_READ.

Inductive Scope :=
  | S_RUNS_READ | S_RUNS_WRITE | S_FLEET_READ | S_APPROVALS_WRITE | S_PROMOTIONS_WRITE | S_KILL_SWITCH_WRITE | S_SECRETS_MANAGE
  | S_KEYS_MANAGE | S_ARTIFACTS_WRITE | S_CORPUS_WRITE | S_EVENTS_WRITE | S_REPORTS_WRITE | S_REPLAY_WRITE | S_WORKLOAD_WRITE
  | S_POLICY_WRITE.

Inductive AuthMethod := SESSION | API_KEY.
Inductive AccessResult := ALLOW | DENY.

#[export] Instance Permission_eq_dec : EqDecision Permission.
Proof. solve_decision. Defined.
#[export] Instance Scope_eq_dec : EqDecision Scope.
Proof. solve_decision. Defined.
#[export] Instance AuthMethod_eq_dec : EqDecision AuthMethod.
Proof. solve_decision. Defined.
#[export] Instance AccessResult_eq_dec : EqDecision AccessResult.
Proof. solve_decision. Defined.

Definition permission_value (p : Permission) : string :=
  match p with
  | APPROVE => "approve" | PROMOTE => "promote" | KILL_SWITCH => "kill_switch" | RUN_INTERVENE => "run_intervene"
  | WORKLOAD_MANAGE => "workload_manage" | CERTIFY_MANAGE => "certify_manage" | SECRETS_MANAGE => "secrets_manage"
  | KEYS_MANAGE => "keys_manage" | ARTIFACTS_MANAGE => "artifacts_manage" | CORPUS_MANAGE => "corpus_manage"
  | EVENTS_MANAGE => "events_manage" | REPORTS_MANAGE => "reports_manage" | REPLAY_MANAGE => "replay_manage"
  | POLICY_MANAGE => "policy_manage" | FLEET_READ => "fleet_read"
  end.

(** [ROLE_PERMISSIONS] *)
Definition role_permissions (r : Role) : list Permission :=
  match r with
  | ADMIN => [APPROVE; PROMOTE; KILL_SWITCH; RUN_INTERVENE; WORKLOAD_MANAGE; CERTIFY_MANAGE; SECRETS_MANAGE; KEYS_MANAGE;
              ARTIFACTS_MANAGE; CORPUS_MANAGE; EVENTS_MANAGE; REPORTS_MANAGE; REPLAY_MANAGE; POLICY_MANAGE; FLEET_READ]
  | APPROVER => [APPROVE; FLEET_READ]
  | VIEWER => [FLEET_READ]
  end.

(** [SCOPE_PERMISSIONS]; every scope implies one permission. *)
Definition scope_permissions (s : Scope) : list Permission :=
  match s with
  | S_RUNS_READ => [FLEET_READ] | S_RUNS_WRITE => [RUN_INTERVENE] | S_FLEET_READ => [FLEET_READ] | S_APPROVALS_WRITE => [APPROVE]
  | S_PROMOTIONS_WRITE => [PROMOTE] | S_KILL_SWITCH_WRITE => [KILL_SWITCH] | S_SECRETS_MANAGE => [SECRETS_MANAGE]
  | S_KEYS_MANAGE => [KEYS_MANAGE] | S_ARTIFACTS_WRITE => [ARTIFACTS_MANAGE] | S_CORPUS_WRITE => [CORPUS_MANAGE]
  | S_EVENTS_WRITE => [EVENTS_MANAGE] | S_REPORTS_WRITE => [REPORTS_MANAGE] | S_REPLAY_WRITE => [REPLAY_MANAGE]
  | S_WORKLOAD_WRITE => [WORKLOAD_MANAGE] | S_POLICY_WRITE => [POLICY_MANAGE]
  end.

(** [effective_permissions] *)
Definition effective_permissions (r : Role) (scopes : list Scope) : list Permission :=
  match scopes with
  | [] => role_permissions r
  | _ => filter (λ p, p ∈ scopes ≫= scope_permissions) (role_permissions r)
  end.

Record OperatorIdentity := mkIdentity {
  oi_operator_id : string; oi_tenant_id : string; oi_role : Role; oi_method : AuthMethod; oi_scopes : list Scope; oi_key_id : option string }.

(** [has_permission] *)
Definition has_permission (i : OperatorIdentity) (p : Permission) : bool :=
  bool_decide (p ∈ effective_permissions (oi_role i) (oi_scopes i)).

(** ** Records *)

Record ApiKeyRecord := mkKey {
  ak_key_id : string; ak_tenant_id : string; ak_role : Role; ak_scopes : list Scope; ak_hashed_key : string; ak_label : option string;
  ak_created_at : Z; ak_last_used_at : option Z; ak_revoked_at : option Z }.

Record ApiKeyIssued := mkIssued { ki_key_id : string; ki_token : string; ki_record : ApiKeyRecord }.

Record LoginEvent := mkLogin {
  le_tenant_id : string; le_actor : string; le_method : AuthMethod; le_ip : option string; le_result : AccessResult; le_created_at : Z }.

Record AccessEvent := mkAccess {
  ae_tenant_id : string; ae_actor : string; ae_method : AuthMethod; ae_action : string; ae_target : option string;
  ae_result : AccessResult; ae_created_at : Z }.

Definition key_valid (k : ApiKeyRecord) : bool :=
  between 1 64 (ak_tenant_id k) && bool_decide (ak_key_id k ≠ EmptyString) && bool_decide (ak_hashed_key k ≠ EmptyString).

Definition identity_valid (i : OperatorIdentity) : bool := bool_decide (oi_operator_id i ≠ EmptyString) && between 1 64 (oi_tenant_id i).

Inductive AuthExn :=
  | AuthenticationError (message : string)
  | AuthorizationError (actor : string) (p : Permission)
  | AuthScopeError (tenant_id : string)
  | AuthTenancyError (e : TenancyExn)
  | InvalidAuth.

(** ** The in-memory store ([auth/store.py]) *)

Record AuthStore := mkAuthStore { au_keys : odict string ApiKeyRecord; au_logins : list LoginEvent; au_access : list AccessEvent }.

Definition empty_auth : AuthStore := mkAuthStore [] [] [].

Definition get_key (key_id : string) (ctx : TenantContext) (s : AuthStore) : option ApiKeyRecord :=
  match od_get key_id (au_keys s) with Some k => if scopes ctx (ak_tenant_id k) then Some k else None | None => None end.

Definition find_key_by_hash (hashed_key : string) (s : AuthStore) : option ApiKeyRecord :=
  snd <$> list_find (λ k, ak_hashed_key k = hashed_key) (od_values (au_keys s)).

Definition list_keys (tenant_id : string) (ctx : TenantContext) (s : AuthStore) : list ApiKeyRecord :=
  if scopes ctx tenant_id
  then filter (λ k, ak_tenant_id k = tenant_id) (snd <$> py_sort (λ a b, str_leb a.1 b.1) (au_keys s))
  else [].

(** [events[offset:]], then [events[:limit]]. *)
Definition slice_index (n : Z) (len : nat) : nat := Z.to_nat (if (n <? 0)%Z then Z.of_nat len + n else n).
Definition page {A} (limit : option Z) (offset : Z) (l : list A) : list A :=
  let l := drop (slice_index offset (length l)) l in
  match limit with Some n => take (slice_index n (length l)) l | None => l end.

Definition list_logins (tenant_id : string) (since limit : option Z) (offset : Z) (ctx : TenantContext) (s : AuthStore) : list LoginEvent :=
  if scopes ctx tenant_id
  then page limit offset (filter (λ e, le_tenant_id e = tenant_id ∧ from_option (λ t, (t <=? le_created_at e)%Z) true since = true) (au_logins s))
  else [].

Definition list_access (tenant_id : string) (since limit : option Z) (offset : Z) (ctx : TenantContext) (s : AuthStore) : list AccessEvent :=
  if scopes ctx tenant_id
  then page limit offset (filter (λ e, ae_tenant_id e = tenant_id ∧ from_option (λ t, (t <=? ae_created_at e)%Z) true since = true) (au_access s))
  else [].

Record AuthWorld (X : Type) := mkAuthWorld {
  aw_tenants : TenantStore; aw_auth : AuthStore; aw_recent : odict (string * string * AuthMethod) Z; aw_ext : X }.
Arguments mkAuthWorld {X}.
Arguments aw_tenants {X}.
Arguments aw_auth {X}.
Arguments aw_recent {X}.
Arguments aw_ext {X}.

(** What the services are built with. *)
Record AuthEnv (X : Type) := mkAuthEnv {
  ev_sha256 : string → string;
  ev_clock : X → Z * X;
  ev_key_id : X → string * X;
  ev_token : X → string * X;
  ev_tenant_store : bool;
  ev_require_active : bool;
  ev_auth_enabled : bool;
  ev_login_interval : Z;
}.
Arguments ev_sha256 {X}.
Arguments ev_clock {X}.
Arguments ev_key_id {X}.
Arguments ev_token {X}.
Arguments ev_tenant_store {X}.
Arguments ev_require_active {X}.
Arguments ev_auth_enabled {X}.
Arguments ev_login_interval {X}.

Section Auth.
Context {X : Type}.
Variable env : AuthEnv X.

Abbreviation AM := (M (AuthWorld X) AuthExn).

Definition on_ext {A} (f : X → A * X) : AM A :=
  λ w, let '(a, x) := f (aw_ext w) in (Ret a, mkAuthWorld (aw_tenants w) (aw_auth w) (aw_recent w) x).

Definition now : AM Z := on_ext (ev_clock env).

Definition set_auth (f : AuthStore → AuthStore) : AM unit :=
  modify (λ w, mkAuthWorld (aw_tenants w) (f (aw_auth w)) (aw_recent w) (aw_ext w)).

Definition require_scope (ctx : TenantContext) (tenant_id : string) : AM unit := require (AuthScopeError (tc_tenant_id ctx)) ctx tenant_id.

(** [save_key], [save_login], [save_access] *)
Definition save_key (k : ApiKeyRecord) (ctx : TenantContext) : AM unit :=
  require_scope ctx (ak_tenant_id k) ;;;
  set_auth (λ s, mkAuthStore (od_set (ak_key_id k) k (au_keys s)) (au_logins s) (au_access s)).

Definition save_login (e : LoginEvent) (ctx : TenantContext) : AM unit :=
  require_scope ctx (le_tenant_id e) ;;; set_auth (λ s, mkAuthStore (au_keys s) (au_logins s ++ [e]) (au_access s)).

Definition save_access (e : AccessEvent) (ctx : TenantContext) : AM unit :=
  require_scope ctx (ae_tenant_id e) ;;; set_auth (λ s, mkAuthStore (au_keys s) (au_logins s) (au_access s ++ [e])).

(** [delete_events_before], [purge_tenant] *)
Definition delete_events_before (cutoff : Z) (tenant_id : string) (ctx : TenantContext) : AM Z :=
  require_scope ctx tenant_id ;;;
  let* s := gets aw_auth in
  let logins := filter (λ e, ¬ (le_tenant_id e = tenant_id ∧ (le_created_at e < cutoff)%Z)) (au_logins s) in
  let access := filter (λ e, ¬ (ae_tenant_id e = tenant_id ∧ (ae_created_at e < cutoff)%Z)) (au_access s) in
  set_auth (λ s, mkAuthStore (au_keys s) logins access) ;;;
  ret (Z.of_nat (length (au_logins s) - length logins + (length (au_access s) - length access))).

Definition purge_tenant (tenant_id : string) (ctx : TenantContext) : AM Z :=
  require_scope ctx tenant_id ;;;
  let* s := gets aw_auth in
  let keys := filter (λ e, ak_tenant_id e.2 ≠ tenant_id) (au_keys s) in
  let logins := filter (λ e, le_tenant_id e ≠ tenant_id) (au_logins s) in
  let access := filter (λ e, ae_tenant_id e ≠ tenant_id) (au_access s) in
  set_auth (λ _, mkAuthStore keys logins access) ;;;
  ret (Z.of_nat (length (au_keys s) - length keys + (length (au_logins s) - length logins) + (length (au_access s) - length access))).

(** ** Keys ([auth/keys.py]) *)

Definition hash_api_key (token : string) : string := ev_sha256 env token.

(** [create] *)
Definition create (tenant_id : string) (role : Role) (ctx : TenantContext) (scopes : list Scope) (label : option string) : AM ApiKeyIssued :=
  require_scope ctx tenant_id ;;;
  let* token := on_ext (ev_token env) in
  let* key_id := on_ext (ev_key_id env) in
  let* t := now in
  let k := mkKey key_id tenant_id role scopes (hash_api_key token) label t None None in
  if key_valid k then save_key k ctx ;;; ret (mkIssued key_id token k) else raise InvalidAuth.

(** [ensure_token] *)
Definition ensure_token (token tenant_id : string) (role : Role) (label : string) : AM bool :=
  let* s := gets aw_auth in
  match find_key_by_hash (hash_api_key token) s with
  | Some _ => ret false
  | None =>
      let* key_id := on_ext (ev_key_id env) in
      let* t := now in
      let k := mkKey key_id tenant_id role [] (hash_api_key token) (Some label) t None None in
      if key_valid k then save_key k SYSTEM_CONTEXT ;;; ret true else raise InvalidAuth
  end.

Definition used_at (t : Z) (k : ApiKeyRecord) : ApiKeyRecord :=
  mkKey (ak_key_id k) (ak_tenant_id k) (ak_role k) (ak_scopes k) (ak_hashed_key k) (ak_label k) (ak_created_at k) (Some t) (ak_revoked_at k).
Definition revoked_at (t : Z) (k : ApiKeyRecord) : ApiKeyRecord :=
  mkKey (ak_key_id k) (ak_tenant_id k) (ak_role k) (ak_scopes k) (ak_hashed_key k) (ak_label k) (ak_created_at k) (ak_last_used_at k) (Some t).

Definition identity_of (k : ApiKeyRecord) : OperatorIdentity :=
  mkIdentity (ak_key_id k) (ak_tenant_id k) (ak_role k) API_KEY (ak_scopes k) (Some (ak_key_id k)).

(** [authenticate] *)
Definition authenticate (token : string) : AM OperatorIdentity :=
  let* s := gets aw_auth in
  match find_key_by_hash (hash_api_key token) s with
  | Some k =>
      match ak_revoked_at k with
      | Some _ => raise (AuthenticationError "invalid or revoked API key")
      | None => let* t := now in save_key (used_at t k) SYSTEM_CONTEXT ;;; ret (identity_of k)
      end
  | None => raise (AuthenticationError "invalid or revoked API key")
  end.

(** [revoke] *)
Definition revoke (key_id : string) (ctx : TenantContext) : AM ApiKeyRecord :=
  let* s := gets aw_auth in
  match get_key key_id ctx s with
  | None => raise (AuthenticationError ("unknown API key " +:+ py_repr key_id))
  | Some k => let* t := now in save_key (revoked_at t k) ctx ;;; ret (revoked_at t k)
  end.

(** [usage] *)
Definition usage (tenant_id : string) (ctx : TenantContext) (s : AuthStore) : odict string (option Z) :=
  (λ k, (ak_key_id k, ak_last_used_at k)) <$> list_keys tenant_id ctx s.

(** ** The service ([auth/service.py]) *)

(** [_ensure_active] *)
Definition ensure_active (tenant_id : string) : AM unit :=
  if negb (ev_require_active env) then ret tt
  else
    let ctx := if bool_decide (tenant_id = SYSTEM_TENANT_ID) then SYSTEM_CONTEXT else context_for_run tenant_id None None in
    let* s := gets aw_tenants in
    match require_active ctx tenant_id s with
    | inr _ | inl (TenantNotFoundError _) => ret tt
    | inl e => raise (AuthTenancyError e)
    end.

Definition membership_of (tenant_id operator_id : string) (s : TenantStore) : option Membership :=
  find_membership (context_for_run tenant_id None None) tenant_id operator_id s.

(** [_resolve_role] *)
Definition resolve_role (tenant_id operator_id : string) (supplied : Role) : AM Role :=
  let* s := gets aw_tenants in
  ret match (if ev_tenant_store env then membership_of tenant_id operator_id s else None) with
      | Some m => mb_role m
      | None => if ev_auth_enabled env then VIEWER else supplied
      end.

(** [login] *)
Definition login (operator_id tenant_id : string) (role : Role) (method : AuthMethod) (scopes : list Scope) (ip : option string)
    : AM OperatorIdentity :=
  ensure_active tenant_id ;;;
  let* r := resolve_role tenant_id operator_id role in
  let i := mkIdentity operator_id tenant_id r method scopes None in
  if identity_valid i then
    let* t := now in
    save_login (mkLogin tenant_id operator_id method ip ALLOW t) (context_for_run tenant_id None None) ;;; ret i
  else raise InvalidAuth.

(** [_should_record_login] *)
Definition should_record_login (i : OperatorIdentity) (method : AuthMethod) : AM bool :=
  let key := (oi_tenant_id i, oi_operator_id i, method) in
  let* t := now in
  let* recent := gets aw_recent in
  if from_option (λ last, (t - last <? ev_login_interval env)%Z) false (od_get key recent) then ret false
  else modify (λ w, mkAuthWorld (aw_tenants w) (aw_auth w) (od_set key t (aw_recent w)) (aw_ext w)) ;;; ret true.

(** [authenticate_key] *)
Definition authenticate_key (token : string) (ip : option string) : AM OperatorIdentity :=
  let* i := authenticate token in
  ensure_active (oi_tenant_id i) ;;;
  let* due := should_record_login i API_KEY in
  (if due : bool then
     let* t := now in
     save_login (mkLogin (oi_tenant_id i) (oi_operator_id i) API_KEY ip ALLOW t) (context_for_run (oi_tenant_id i) None None)
   else ret tt) ;;;
  ret i.

(** [_effective_identity] *)
Definition effective_identity (i : OperatorIdentity) (s : TenantStore) : OperatorIdentity :=
  match (if ev_tenant_store env then membership_of (oi_tenant_id i) (oi_operator_id i) s else None) with
  | Some m => mkIdentity (oi_operator_id i) (oi_tenant_id i) (mb_role m) (oi_method i) (oi_scopes i) (oi_key_id i)
  | None => i
  end.

(** [authorize] *)
Definition authorize (i : OperatorIdentity) (p : Permission) (action target : option string) : AM unit :=
  let label := match action with Some a => if bool_decide (a = EmptyString) then permission_value p else a | None => permission_value p end in
  let* s := gets aw_tenants in
  let audit (r : AccessResult) : AM unit :=
    let* t := now in
    save_access (mkAccess (oi_tenant_id i) (oi_operator_id i) (oi_method i) label target r t) (context_for_run (oi_tenant_id i) None None) in
  if has_permission (effective_identity i s) p then audit ALLOW else audit DENY ;;; raise (AuthorizationError (oi_operator_id i) p).

(** ** Permissions *)

(** Scopes narrow, never widen: a permission is granted exactly when the
    role has it and, unless no scope is named, one of the scopes implies it. *)
Theorem effective_permissions_iff r scopes p :
  p ∈ effective_permissions r scopes ↔ p ∈ role_permissions r ∧ (scopes = [] ∨ ∃ s, s ∈ scopes ∧ p ∈ scope_permissions s).
Proof.
  unfold effective_permissions. destruct scopes as [|s0 l]; [naive_solver|]. rewrite list_elem_of_filter, list_elem_of_bind. naive_solver.
Qed.

(** ** What an authorization leaves behind *)

(** Every authorization is on record: it succeeds exactly when the
    identity, under the role of its membership if it has one, has the
    permission; either way it appends one access event of the identity's
    tenant, whose result says which, and changes no key, login or tenant. *)
Theorem authorize_recorded i p action target w :
  let allowed := has_permission (effective_identity i (aw_tenants w)) p in
  let '(o, w') := authorize i p action target w in
  o = (if allowed then Ret tt else Raise (AuthorizationError (oi_operator_id i) p)) ∧
  aw_tenants w' = aw_tenants w ∧ au_keys (aw_auth w') = au_keys (aw_auth w) ∧ au_logins (aw_auth w') = au_logins (aw_auth w) ∧
  ∃ e, au_access (aw_auth w') = au_access (aw_auth w) ++ [e] ∧ ae_tenant_id e = oi_tenant_id i ∧ ae_actor e = oi_operator_id i ∧
    ae_result e = if allowed then ALLOW else DENY.
Proof.
  cbn zeta. unfold authorize, save_access, require_scope, require, now, on_ext, set_auth, modify, bind, gets. cbn.
  destruct (has_permission _ p); destruct (ev_clock env (aw_ext w)) as [t x]; cbn; unfold scopes; cbn; rewrite bool_decide_eqb_refl; cbn; split_and!; try done; by eexists.
Qed.

(** ** A revoked key stays dead *)

(** Calls on the services, with the state that follows them. *)
Inductive AuthOp :=
  | OpCreate (tenant_id : string) (role : Role) (ctx : TenantContext) (scopes : list Scope) (label : option string)
  | OpEnsure (token tenant_id : string) (role : Role) (label : string)
  | OpAuthenticate (token : string) (ip : option string)
  | OpRevoke (key_id : string) (ctx : TenantContext)
  | OpLogin (operator_id tenant_id : string) (role : Role) (method : AuthMethod) (scopes : list Scope) (ip : option string)
  | OpAuthorize (i : OperatorIdentity) (p : Permission) (action target : option string)
  | OpDeleteEvents (cutoff : Z) (tenant_id : string) (ctx : TenantContext)
  | OpPurge (tenant_id : string) (ctx : TenantContext).

Definition run_op (o : AuthOp) (w : AuthWorld X) : AuthWorld X :=
  match o with
  | OpCreate t r ctx s l => (create t r ctx s l w).2
  | OpEnsure tok t r l => (ensure_token tok t r l w).2
  | OpAuthenticate tok ip => (authenticate_key tok ip w).2
  | OpRevoke k ctx => (revoke k ctx w).2
  | OpLogin o t r m s ip => (login o t r m s ip w).2
  | OpAuthorize i p a t => (authorize i p a t w).2
  | OpDeleteEvents c t ctx => (delete_events_before c t ctx w).2
  | OpPurge t ctx => (purge_tenant t ctx w).2
  end.

Fixpoint run_ops (l : list AuthOp) (w : AuthWorld X) : AuthWorld X := match l with [] => w | o :: l' => run_ops l' (run_op o w) end.

(** The identifier a call would give a new key. *)
Definition next_id (o : AuthOp) (w : AuthWorld X) : option string :=
  match o with
  | OpCreate _ _ _ _ _ => Some (ev_key_id env (ev_token env (aw_ext w)).2).1
  | OpEnsure _ _ _ _ => Some (ev_key_id env (aw_ext w)).1
  | _ => None
  end.

(** New keys get unused identifiers, and the tenant [t] is not purged. *)
Fixpoint orderly (t : string) (l : list AuthOp) (w : AuthWorld X) : Prop :=
  match l with
  | [] => True
  | o :: l' =>
      from_option (λ k, od_get k (au_keys (aw_auth w)) = None) True (next_id o w) ∧
      match o with OpPurge t' _ => t' ≠ t | _ => True end ∧ orderly t l' (run_op o w)
  end.

Definition keys_ok (d : odict string ApiKeyRecord) : Prop := od_wf d ∧ Forall (λ e, ak_key_id e.2 = e.1) d.

(** The first key with a hash. *)
Definition resolves (h : string) (d : odict string ApiKeyRecord) : option ApiKeyRecord :=
  snd <$> list_find (λ k, ak_hashed_key k = h) (od_values d).

Lemma resolves_cons h k v d : resolves h ((k, v) :: d) = if decide (ak_hashed_key v = h) then Some v else resolves h d.
Proof.
  unfold resolves, od_values. cbn. case_decide; [done|]. by destruct (list_find (λ k0, ak_hashed_key k0 = h) d.*2) as [[? ?]|].
Qed.

Lemma resolves_app h d d' : resolves h (d ++ d') = match resolves h d with Some k => Some k | None => resolves h d' end.
Proof. induction d as [|[k v] d IH]; [done|]. cbn [app]. rewrite !resolves_cons, IH. by case_decide. Qed.

(** Replacing a key by one with the same hash. *)
Lemma resolves_update h id k v d : keys_ok d → od_get id d = Some k → ak_hashed_key v = ak_hashed_key k →
  resolves h (od_set id v d) = match resolves h d with Some r => Some (if decide (ak_key_id r = id) then v else r) | None => None end.
Proof.
  intros [Hwf Hk]. revert Hwf Hk. induction d as [|[k' v'] d IH]; [done|]. intros [Hn Hwf]%NoDup_cons [Hid Hk]%Forall_cons Hg Hh. cbn in Hg, Hid.
  cbn [od_set]. destruct (decide (id = k')) as [->|Hne].
  - injection Hg as <-. rewrite !resolves_cons, Hh. case_decide; [by rewrite decide_True|].
    destruct (resolves h d) as [r|] eqn:Hr; [|done]. rewrite decide_False; [done|]. intros He. apply Hn. rewrite <-He.
    unfold resolves in Hr. destruct (list_find _ _) as [[n r']|] eqn:Hf; [|done]. injection Hr as ->.
    apply list_find_Some in Hf as (Hf & _). apply list_elem_of_lookup_2 in Hf. unfold od_values in Hf.
    apply list_elem_of_fmap in Hf as ([k2 v2] & -> & Hin). rewrite Forall_forall in Hk. rewrite (Hk _ Hin). unfold od_keys. apply list_elem_of_fmap. by exists (k2, v2).
  - rewrite !resolves_cons. case_decide; [by rewrite decide_False by congruence|]. by apply IH.
Qed.

(** What a call does to the keys: nothing, a change of one key that keeps its
    hash and does not lift a revocation, a new key, or a purge. *)
Inductive key_step (fresh purged : option string) : odict string ApiKeyRecord → odict string ApiKeyRecord → Prop :=
  | KSame d : key_step fresh purged d d
  | KUpdate d id k v : od_get id d = Some k → ak_key_id v = id → ak_hashed_key v = ak_hashed_key k → ak_tenant_id v = ak_tenant_id k →
      (is_Some (ak_revoked_at k) → is_Some (ak_revoked_at v)) → key_step fresh purged d (od_set id v d)
  | KNew d v : fresh = Some (ak_key_id v) → key_step fresh purged d (od_set (ak_key_id v) v d)
  | KPurge d t : purged = Some t → key_step fresh purged d (filter (λ e, ak_tenant_id e.2 ≠ t) d).

(** A key that is revoked and that its hash resolves to. *)
Definition dead (id h t : string) (d : odict string ApiKeyRecord) : Prop :=
  keys_ok d ∧ ∃ k, resolves h d = Some k ∧ ak_key_id k = id ∧ ak_tenant_id k = t ∧ is_Some (ak_revoked_at k).

Lemma keys_ok_set id v d : keys_ok d → ak_key_id v = id → keys_ok (od_set id v d).
Proof.
  intros [Hwf Hk] Hid. split; [by apply od_wf_set|]. apply Forall_forall. intros [k x] Hin. cbn.
  apply od_elem_get in Hin; [|by apply od_wf_set]. rewrite od_get_set in Hin. case_decide as He; [by simplify_eq|].
  rewrite Forall_forall in Hk. apply (Hk (k, x)). by apply od_get_Some_elem.
Qed.

Lemma resolves_elem h d k : keys_ok d → resolves h d = Some k → od_get (ak_key_id k) d = Some k.
Proof.
  intros [Hwf Hk] Hr. unfold resolves in Hr. destruct (list_find _ _) as [[n r]|] eqn:Hf; [|done]. injection Hr as ->.
  apply list_find_Some in Hf as (Hf & _). apply list_elem_of_lookup_2 in Hf. unfold od_values in Hf.
  apply list_elem_of_fmap in Hf as ([k2 v2] & -> & Hin). rewrite Forall_forall in Hk. cbn. specialize (Hk _ Hin). cbn in Hk. rewrite Hk. by apply od_elem_get.
Qed.

Lemma resolves_filter h t d k : resolves h d = Some k → ak_tenant_id k ≠ t → resolves h (filter (λ e, ak_tenant_id e.2 ≠ t) d) = Some k.
Proof.
  induction d as [|[k' v] d IH]; [done|]. rewrite resolves_cons, filter_cons. cbn. case_decide as Hh.
  - intros [= ->] Ht. rewrite decide_True by done. by rewrite resolves_cons, decide_True.
  - intros Hr Ht. case_decide; [rewrite resolves_cons, decide_False by done|]; by apply IH.
Qed.

Lemma keys_ok_filter t d : keys_ok d → keys_ok (filter (λ e, ak_tenant_id e.2 ≠ t) d).
Proof.
  intros [Hwf Hk]. split; [|rewrite Forall_forall in *; intros e [_ He]%list_elem_of_filter; by apply Hk]. unfold od_wf, od_keys in *. eapply sublist_NoDup; [exact Hwf|].
  apply fmap_sublist, sublist_filter.
Qed.

Lemma key_step_ok fresh purged d d' : key_step fresh purged d d' → keys_ok d → keys_ok d'.
Proof. intros Hs Hok. destruct Hs; [done|by apply keys_ok_set|by apply keys_ok_set|by apply keys_ok_filter]. Qed.

Lemma key_step_dead fresh purged id h t d d' : key_step fresh purged d d' → from_option (λ k, od_get k d = None) True fresh →
  purged ≠ Some t → dead id h t d → dead id h t d'.
Proof.
  intros Hs Hf Hp (Hok & k & Hr & Hid & Ht & Hrev). split; [by eapply key_step_ok|]. destruct Hs as [d|d id' k' v Hg Hv Hh Htv Hre|d v Hfr|d t' Hpt].
  - by exists k.
  - exists (if decide (ak_key_id k = id') then v else k). split; [by erewrite resolves_update, Hr|]. case_decide as He; [|done].
    pose proof (resolves_elem _ _ _ Hok Hr) as Hk. rewrite He, Hg in Hk. injection Hk as ->. split_and!; [congruence..|by apply Hre].
  - exists k. split; [|done]. rewrite Hfr in Hf. cbn in Hf. rewrite od_set_fresh by by unfold od_mem; rewrite Hf. by rewrite resolves_app, Hr.
  - exists k. split; [apply resolves_filter; [done|congruence]|done].
Qed.

(** What each call does. *)
Definition same_keys {A} (m : AM A) : Prop := ∀ w, au_keys (aw_auth (m w).2) = au_keys (aw_auth w).

Lemma same_keys_bind {A B} (m : AM A) (k : A → AM B) : same_keys m → (∀ a, same_keys (k a)) → same_keys (bind m k).
Proof. intros Hm Hk w. unfold bind. specialize (Hm w). destruct (m w) as [[a|e] w1]; cbn in *; [|done]. by rewrite Hk. Qed.

Lemma same_keys_ext {A} (f : X → A * X) : same_keys (on_ext f).
Proof. intros w. unfold on_ext. by destruct (f (aw_ext w)). Qed.

Lemma same_keys_now : same_keys now.
Proof. apply same_keys_ext. Qed.

Lemma same_keys_require ctx t : same_keys (require_scope ctx t).
Proof. intros w. unfold require_scope, require. by destruct (scopes ctx t). Qed.

Lemma same_keys_login e ctx : same_keys (save_login e ctx).
Proof. by apply same_keys_bind; [apply same_keys_require|]. Qed.

Lemma same_keys_access e ctx : same_keys (save_access e ctx).
Proof. by apply same_keys_bind; [apply same_keys_require|]. Qed.

Lemma same_keys_active t : same_keys (ensure_active t).
Proof.
  unfold ensure_active. destruct (negb _); [done|]. apply same_keys_bind; [done|]. intros s. destruct (require_active _ _ _) as [[]|]; done.
Qed.

#[local] Hint Resolve same_keys_ext same_keys_now same_keys_require same_keys_login same_keys_access same_keys_active : keys.

Ltac same_keys := repeat first
  [ solve [auto with keys | done]
  | apply same_keys_bind; [|intros]
  | match goal with |- same_keys (match ?x with _ => _ end) => destruct x end ].

Lemma step_login o t r m s ip : same_keys (login o t r m s ip).
Proof. unfold login, resolve_role, now. same_keys. Qed.

Lemma step_authorize i p a t : same_keys (authorize i p a t).
Proof. unfold authorize, now. apply same_keys_bind; [done|]. intros s. destruct (has_permission _ _); same_keys. Qed.

Lemma step_delete_events c t ctx : same_keys (delete_events_before c t ctx).
Proof. unfold delete_events_before. same_keys. Qed.

Lemma step_record i m : same_keys (should_record_login i m).
Proof. unfold should_record_login, now. same_keys. Qed.

(** Keys change by [save_key] only. *)
Lemma save_key_step (fresh purged : option string) k ctx w : key_step fresh purged (au_keys (aw_auth w)) (od_set (ak_key_id k) k (au_keys (aw_auth w))) →
  key_step fresh purged (au_keys (aw_auth w)) (au_keys (aw_auth (save_key k ctx w).2)).
Proof. unfold save_key, require_scope, require, bind. intros H. destruct (scopes ctx (ak_tenant_id k)); [exact H|apply KSame]. Qed.

Lemma step_then {A B} (fresh purged : option string) (m : AM A) (k : A → AM B) w : key_step fresh purged (au_keys (aw_auth w)) (au_keys (aw_auth (m w).2)) →
  (∀ a, same_keys (k a)) → key_step fresh purged (au_keys (aw_auth w)) (au_keys (aw_auth (bind m k w).2)).
Proof. intros Hm Hk. unfold bind. destruct (m w) as [[a|e] w1]; cbn in *; [|done]. by rewrite Hk. Qed.

Lemma step_after {A B} (fresh purged : option string) (m : AM A) (k : A → AM B) w : same_keys m →
  (∀ a w1, m w = (Ret a, w1) → key_step fresh purged (au_keys (aw_auth w1)) (au_keys (aw_auth (k a w1).2))) →
  key_step fresh purged (au_keys (aw_auth w)) (au_keys (aw_auth (bind m k w).2)).
Proof.
  intros Hm Hk. unfold bind. specialize (Hm w). destruct (m w) as [[a|e] w1] eqn:E; cbn in *; [|rewrite Hm; apply KSame].
  rewrite <-Hm. by apply Hk.
Qed.

Lemma require_scope_inv ctx t w u w1 : require_scope ctx t w = (Ret u, w1) → w1 = w ∧ scopes ctx t = true.
Proof. unfold require_scope, require. destruct (scopes ctx t); [|done]. by intros [= _ <-]. Qed.

Lemma auth_now_inv w t w1 : now w = (Ret t, w1) → aw_auth w1 = aw_auth w.
Proof. unfold now, on_ext. destruct (ev_clock env _). by intros [= _ <-]. Qed.

(** The identifiers of the calls are the keys of the store. *)
Definition store_ok (w : AuthWorld X) : Prop := keys_ok (au_keys (aw_auth w)).

Lemma step_create t r ctx s l w :
  key_step (Some (ev_key_id env (ev_token env (aw_ext w)).2).1) None (au_keys (aw_auth w)) (au_keys (aw_auth (create t r ctx s l w).2)).
Proof.
  unfold create. apply step_after; [apply same_keys_require|]. intros [] w1 Hr.
  apply require_scope_inv in Hr as [-> _].
  unfold bind, now, on_ext. destruct (ev_token env (aw_ext w)) as [tok x1] eqn:E1. cbn. destruct (ev_key_id env x1) as [id x2] eqn:E2. cbn.
  destruct (ev_clock env x2) as [now x3]. cbn. destruct (key_valid _); [|apply KSame].
  match goal with |- context [save_key ?k ?c ?w2] => pose proof (save_key_step (Some id) None k c w2) as H; destruct (save_key k c w2) as [[]] end;
    apply H; by apply KNew.
Qed.

Lemma step_ensure tok t r l w :
  key_step (Some (ev_key_id env (aw_ext w)).1) None (au_keys (aw_auth w)) (au_keys (aw_auth (ensure_token tok t r l w).2)).
Proof.
  unfold ensure_token. apply step_after; [done|]. intros s w0 [= <- <-]. destruct (find_key_by_hash _ _); [apply KSame|].
  apply step_after; [apply same_keys_ext|]. intros id w1 Hid. apply step_after; [apply same_keys_ext|]. intros now w2 _.
  destruct (key_valid _); [|apply KSame]. apply step_then; [|done]. apply save_key_step, KNew.
  unfold on_ext in Hid. destruct (ev_key_id env (aw_ext w)). by injection Hid as -> _.
Qed.

Lemma step_authenticate tok ip w : store_ok w →
  key_step None None (au_keys (aw_auth w)) (au_keys (aw_auth (authenticate_key tok ip w).2)).
Proof.
  intros Hok. unfold authenticate_key. apply step_then; [|intros i; same_keys].
  unfold authenticate, bind at 1, gets. destruct (find_key_by_hash _ _) as [k|] eqn:Hf; [|apply KSame]. destruct (ak_revoked_at k) eqn:Hrev; [apply KSame|].
  apply step_after; [apply same_keys_ext|]. intros t w1 Hn. apply step_then; [|done]. apply save_key_step.
  rewrite (auth_now_inv _ _ _ Hn).
  apply (KUpdate _ _ _ _ k); [exact (resolves_elem _ _ _ Hok Hf)|done..|by rewrite Hrev; intros []].
Qed.

Lemma get_key_elem id ctx s k : get_key id ctx s = Some k → od_get id (au_keys s) = Some k.
Proof. unfold get_key. destruct (od_get id (au_keys s)) as [k'|]; [|done]. by destruct (scopes ctx (ak_tenant_id k')). Qed.

Lemma step_revoke id ctx w : store_ok w → key_step None None (au_keys (aw_auth w)) (au_keys (aw_auth (revoke id ctx w).2)).
Proof.
  intros [Hwf Hk]. unfold revoke, bind at 1, gets. destruct (get_key id ctx (aw_auth w)) as [k|] eqn:Hg; [|apply KSame].
  apply get_key_elem in Hg. apply step_after; [apply same_keys_ext|]. intros t w1 Hn. apply step_then; [|done]. apply save_key_step.
  rewrite (auth_now_inv _ _ _ Hn).
  assert (ak_key_id k = id) as Hid. { rewrite Forall_forall in Hk. apply (Hk (id, k)). by apply od_get_Some_elem. }
  apply (KUpdate _ _ _ _ k); [by rewrite <-Hid in Hg|done..].
Qed.

Lemma step_purge t ctx w : key_step None (Some t) (au_keys (aw_auth w)) (au_keys (aw_auth (purge_tenant t ctx w).2)).
Proof.
  unfold purge_tenant. apply step_after; [apply same_keys_require|]. intros [] w1 Hr. by apply KPurge.
Qed.

Definition purged_by (o : AuthOp) : option string := match o with OpPurge t _ => Some t | _ => None end.

Lemma key_step_weaken fresh purged d d' f p : key_step fresh purged d d' → (fresh = None ∨ f = fresh) → (purged = None ∨ p = purged) → key_step f p d d'.
Proof. intros Hs Hf Hp. destruct Hs as [|????????|d v He|d t He]; [apply KSame|by eapply KUpdate|apply KNew; naive_solver|apply KPurge; naive_solver]. Qed.

Lemma op_step o w : store_ok w → key_step (next_id o w) (purged_by o) (au_keys (aw_auth w)) (au_keys (aw_auth (run_op o w))).
Proof.
  intros Hok. destruct o; cbn [run_op next_id purged_by].
  - apply step_create.
  - apply step_ensure.
  - by apply step_authenticate.
  - by apply step_revoke.
  - rewrite step_login. apply KSame.
  - rewrite step_authorize. apply KSame.
  - rewrite step_delete_events. apply KSame.
  - apply step_purge.
Qed.

Lemma run_ops_dead l id h t w : orderly t l w → dead id h t (au_keys (aw_auth w)) → dead id h t (au_keys (aw_auth (run_ops l w))).
Proof.
  revert w. induction l as [|o l IH]; intros w; [done|]. intros (Hf & Hp & Ho) Hd. cbn [run_ops]. apply IH; [done|].
  eapply key_step_dead; [apply op_step; apply Hd|exact Hf|destruct o; cbn in *; congruence|exact Hd].
Qed.

(** C13: Revocation is final: from the revocation of the key a token resolves to
    on, the token authenticates nobody, whatever calls follow (keys issued and
    seeded with any token, authentications, logins, authorizations, further
    revocations, purges of other tenants), as long as new keys get unused
    identifiers; it is refused without a trace in the keys. *)
Theorem revoked_key_dead token ctx k r w w1 l ip :
  store_ok w → find_key_by_hash (hash_api_key token) (aw_auth w) = Some k → revoke (ak_key_id k) ctx w = (Ret r, w1) →
  orderly (ak_tenant_id k) l w1 →
  authenticate_key token ip (run_ops l w1) = (Raise (AuthenticationError "invalid or revoked API key"), run_ops l w1).
Proof.
  intros Hok Hf Hr Ho. assert (dead (ak_key_id k) (hash_api_key token) (ak_tenant_id k) (au_keys (aw_auth w1))) as Hd.
  { pose proof (step_revoke (ak_key_id k) ctx w Hok) as Hs. rewrite Hr in Hs. split; [by eapply key_step_ok|].
    unfold revoke, bind at 1, gets in Hr. destruct (get_key _ _ _) as [k'|] eqn:Hg; [|done]. apply get_key_elem in Hg.
    pose proof (resolves_elem _ _ _ Hok Hf) as Hk. rewrite Hk in Hg. injection Hg as <-.
    apply bind_inv in Hr as (t & w2 & Hn & Hr). apply bind_inv in Hr as (u & w3 & Hs3 & [= _ <-]).
    pose proof (auth_now_inv _ _ _ Hn) as Hw2.
    unfold save_key in Hs3. apply bind_inv in Hs3 as (u' & w4 & Hq & Hs3). apply require_scope_inv in Hq as [-> _]. unfold set_auth, modify in Hs3. injection Hs3 as _ <-. cbn [aw_auth au_keys]. rewrite Hw2.
    exists (revoked_at t k). split; [|by split_and!]. erewrite resolves_update; [|done|exact Hk|done]. change (resolves _ _) with (find_key_by_hash (hash_api_key token) (aw_auth w)).
    rewrite Hf. by rewrite decide_True. }
  apply run_ops_dead with (l := l) in Hd as (_ & k' & Hk' & _ & _ & [t Ht]); [|done].
  unfold authenticate_key. apply bind_raise. unfold authenticate, bind, gets. change (find_key_by_hash _ _) with (resolves (hash_api_key token) (au_keys (aw_auth (run_ops l w1)))).
  by rewrite Hk', Ht.
Qed.
End Auth.
