(* ===== verification/Secrets.v ===== *)
(** * Versioned secrets ([secrets/])

    References and their texts, envelope encryption, the in-memory store and the
    service that creates, rotates, revokes and resolves secrets.  AES-GCM and
    randomness are parameters; text is its UTF-8 encoding. *)

From Stdlib Require Import Ascii.
From stdpp Require Import base strings pretty numbers gmap sets list.
From S2P Require Import Prelude Text Tenancy.

#[local] Open Scope hp_scope.

Inductive SecretExn :=
  | SecretError (message : string)
  | SecretNotFoundError (ref : string)
  | SecretAlreadyExistsError (tenant_id name : string)
  | SecretResolutionError (ref reason : string)
  | SecretLeakError (sink : string)
  | SecretScopeError (tenant_id : string)
  | InvalidSecret.

(** ** References ([secrets/models.py]) *)

Record SecretRef := mkRef { sr_tenant_id : string; sr_name : string; sr_version : option Z }.

#[export] Instance SecretRef_eq_dec : EqDecision SecretRef.
Proof. solve_decision. Defined.

Definition ref_valid (r : SecretRef) : bool :=
  between 1 64 (sr_tenant_id r) && between 1 253 (sr_name r) && match sr_version r with Some v => (1 <=? v)%Z | None => true end.

(** [text[len(prefix):]] where [text] starts with [prefix]. *)
Fixpoint strip_prefix (prefix text : string) : option string :=
  match prefix, text with
  | EmptyString, _ => Some text
  | String a p, String b t => if decide (a = b) then strip_prefix p t else None
  | _, EmptyString => None
  end.

(** [text.partition(sep)] *)
Definition partition_or (sep : ascii) (text : string) : string * string := default (text, EmptyString) (partition_on sep text).

(** [SecretRef.parse]; decimal digits are ASCII. *)
Definition parse_ref (text : string) : SecretExn + SecretRef :=
  let bad := inl (SecretError ("invalid secret ref " +:+ py_repr text)) in
  match strip_prefix "secret://" text with
  | None => bad
  | Some body =>
      match partition_on "/"%char body with
      | None => bad
      | Some (tenant, rest) =>
          let '(name, version_text) := partition_or "@"%char rest in
          if bool_decide (tenant = EmptyString) || bool_decide (name = EmptyString) then bad
          else
            let made (version : option Z) :=
              let r := mkRef tenant name version in if ref_valid r then inr r else inl InvalidSecret in
            if bool_decide (version_text = EmptyString) then made None
            else if negb (isdigit version_text) || (Z.of_N (undec 0 version_text) <? 1)%Z
            then inl (SecretError ("invalid secret version in " +:+ py_repr text))
            else made (Some (Z.of_N (undec 0 version_text)))
      end
  end.

(** [SecretRef.render] *)
Definition render_ref (r : SecretRef) : string :=
  "secret://" +:+ sr_tenant_id r +:+ "/" +:+ sr_name r +:+ match sr_version r with Some v => "@" +:+ pretty v | None => EmptyString end.

Inductive SecretInjectionKind := ENV | FILE.
Record SecretInjection := mkInjection { si_kind : SecretInjectionKind; si_name : option string; si_path : option string; si_mode : string }.

(** ** Encryption ([secrets/crypto.py]) *)

Record EncryptedValue := mkEncrypted {
  en_ciphertext : string; en_nonce : string; en_wrapped_key : string; en_key_nonce : string; en_key_id : string }.

(** What the service asks of a key provider. *)
Class KeyProvider (X : Type) := {
  kp_encrypt : string → X → EncryptedValue * X;
  kp_decrypt : EncryptedValue → SecretExn + string;
}.

(** And relies on: what was encrypted decrypts to itself, and names its key. *)
Class KeyProviderLaws (X : Type) `{!KeyProvider X} : Prop := {
  kp_round_trip : ∀ p x, kp_decrypt (kp_encrypt p x).1 = inr p;
  kp_named : ∀ p x, en_key_id (kp_encrypt p x).1 ≠ EmptyString;
}.

Section Local.
Context {X : Type}.
Variables (urandom : nat → X → string * X) (aes_encrypt : string → string → string → option string → string)
  (aes_decrypt : string → string → string → option string → option string).
Variables (master_key key_id : string).

(** [LocalKeyProvider.encrypt] *)
Definition local_encrypt (plaintext : string) (x : X) : EncryptedValue * X :=
  let '(data_key, x) := urandom 32 x in
  let '(nonce, x) := urandom 12 x in
  let ciphertext := aes_encrypt data_key nonce plaintext None in
  let '(key_nonce, x) := urandom 12 x in
  (mkEncrypted ciphertext nonce (aes_encrypt master_key key_nonce data_key (Some key_id)) key_nonce key_id, x).

(** [LocalKeyProvider.decrypt] *)
Definition local_decrypt (e : EncryptedValue) : SecretExn + string :=
  match aes_decrypt master_key (en_key_nonce e) (en_wrapped_key e) (Some (en_key_id e)) with
  | None => inl (SecretError "data key unwrap failed")
  | Some data_key =>
      match aes_decrypt data_key (en_nonce e) (en_ciphertext e) None with
      | None => inl (SecretError "secret decryption failed")
      | Some p => inr p
      end
  end.

#[local] Instance local_provider : KeyProvider X := {| kp_encrypt := local_encrypt; kp_decrypt := local_decrypt |}.

Hypothesis aes_round_trip : ∀ k n p a, aes_decrypt k n (aes_encrypt k n p a) a = Some p.
Hypothesis key_named : key_id ≠ EmptyString.

Lemma local_laws : KeyProviderLaws X.
Proof using aes_round_trip key_named.
  split; intros p x; cbn; [|unfold local_encrypt; destruct (urandom 32 x) as [dk x1], (urandom 12 x1) as [n x2]; cbn; by destruct (urandom 12 x2)]. unfold local_encrypt. destruct (urandom 32 x) as [dk x1], (urandom 12 x1) as [n x2]. cbn.
  destruct (urandom 12 x2) as [kn x3]. unfold local_decrypt. cbn. by rewrite !aes_round_trip.
Qed.
End Local.

(** ** The in-memory store ([secrets/store.py]) *)

Record SecretVersion := mkVersion {
  sv_secret_id : string; sv_tenant_id : string; sv_name : string; sv_version : Z; sv_value : EncryptedValue; sv_created_at : Z;
  sv_revoked_at : option Z }.

Record SecretRecord := mkSecret {
  sc_secret_id : string; sc_tenant_id : string; sc_name : string; sc_current_version : Z; sc_created_at : Z; sc_rotated_at : option Z;
  sc_versions : list Z }.

Record SecretMetadata := mkMetadata {
  sm_tenant_id : string; sm_name : string; sm_current_version : Z; sm_versions : list Z; sm_created_at : Z; sm_rotated_at : option Z;
  sm_consumers : list string }.

Record SecretStore := mkSecretStore {
  ss_secrets : odict (string * string) SecretRecord;
  ss_versions : odict (string * Z) SecretVersion;
  ss_version_tenants : odict (string * Z) string;
}.

Definition empty_secrets : SecretStore := mkSecretStore [] [] [].

Definition get_secret (tenant_id name : string) (ctx : TenantContext) (s : SecretStore) : option SecretRecord :=
  if scopes ctx tenant_id then od_get (tenant_id, name) (ss_secrets s) else None.

Definition pair_leb (a b : string * string) : bool := if bool_decide (a.1 = b.1) then str_leb a.2 b.2 else str_leb a.1 b.1.

Definition list_secrets (tenant_id : string) (ctx : TenantContext) (s : SecretStore) : list SecretRecord :=
  if scopes ctx tenant_id then snd <$> filter (λ e, e.1.1 = tenant_id) (py_sort (λ a b, pair_leb a.1 b.1) (ss_secrets s)) else [].

Definition get_version (secret_id : string) (version : Z) (ctx : TenantContext) (s : SecretStore) : option SecretVersion :=
  if scopes ctx (default EmptyString (od_get (secret_id, version) (ss_version_tenants s))) then od_get (secret_id, version) (ss_versions s) else None.

Definition list_versions (secret_id : string) (ctx : TenantContext) (s : SecretStore) : list SecretVersion :=
  snd <$> filter (λ e, e.1.1 = secret_id ∧ scopes ctx (default EmptyString (od_get e.1 (ss_version_tenants s))) = true)
            (py_sort (λ a b, if bool_decide (a.1.1 = b.1.1) then (a.1.2 <=? b.1.2)%Z else str_leb a.1.1 b.1.1) (ss_versions s)).

(** The service's state: the store, who resolved what, and what clocks,
    identifiers and keys act on. *)
Record SecretWorld (X : Type) := mkSecretWorld {
  sw_store : SecretStore; sw_consumers : odict (string * string) (list string); sw_ext : X }.
Arguments mkSecretWorld {X}.
Arguments sw_store {X}.
Arguments sw_consumers {X}.
Arguments sw_ext {X}.

Section Service.
Context {X : Type} `{!KeyProvider X}.
Variables (clock : X → Z * X) (new_id : X → string * X).

Abbreviation SM := (M (SecretWorld X) SecretExn).

Definition on_ext {A} (f : X → A * X) : SM A :=
  λ w, let '(a, x) := f (sw_ext w) in (Ret a, mkSecretWorld (sw_store w) (sw_consumers w) x).

Definition set_store (f : SecretStore → SecretStore) : SM unit := modify (λ w, mkSecretWorld (f (sw_store w)) (sw_consumers w) (sw_ext w)).

Definition require_scope (ctx : TenantContext) (tenant_id : string) : SM unit := require (SecretScopeError (tc_tenant_id ctx)) ctx tenant_id.

Definition save_secret (r : SecretRecord) (ctx : TenantContext) : SM unit :=
  require_scope ctx (sc_tenant_id r) ;;;
  set_store (λ s, mkSecretStore (od_set (sc_tenant_id r, sc_name r) r (ss_secrets s)) (ss_versions s) (ss_version_tenants s)).

Definition save_version (v : SecretVersion) (ctx : TenantContext) : SM unit :=
  require_scope ctx (sv_tenant_id v) ;;;
  set_store (λ s, let key := (sv_secret_id v, sv_version v) in
                  mkSecretStore (ss_secrets s) (od_set key v (ss_versions s)) (od_set key (sv_tenant_id v) (ss_version_tenants s))).

(** ** The service ([secrets/service.py]) *)

Definition ref_text (tenant_id name : string) : string := tenant_id +:+ "/" +:+ name.

(** [_require] *)
Definition require_secret (tenant_id name : string) (ctx : TenantContext) : SM SecretRecord :=
  let* s := gets sw_store in of_option (SecretNotFoundError (ref_text tenant_id name)) (get_secret tenant_id name ctx s).

(** [_encrypt_and_store]; the row's texts must not be empty. *)
Definition encrypt_and_store (secret_id tenant_id name : string) (version : Z) (value : string) (t : Z) (ctx : TenantContext) : SM unit :=
  let* e := on_ext (kp_encrypt value) in
  if bool_decide (secret_id = EmptyString) || bool_decide (tenant_id = EmptyString) || bool_decide (name = EmptyString)
     || bool_decide (en_key_id e = EmptyString)
  then raise InvalidSecret
  else save_version (mkVersion secret_id tenant_id name version e t None) ctx.

(** [put] *)
Definition put (tenant_id name value : string) (ctx : TenantContext) : SM SecretRecord :=
  let* s := gets sw_store in
  match get_secret tenant_id name ctx s with
  | Some _ => raise (SecretAlreadyExistsError tenant_id name)
  | None =>
      let* secret_id := on_ext new_id in
      let* t := on_ext clock in
      encrypt_and_store secret_id tenant_id name 1 value t ctx ;;;
      let r := mkSecret secret_id tenant_id name 1 t None [1%Z] in
      save_secret r ctx ;;; ret r
  end.

(** [rotate] *)
Definition rotate (tenant_id name value : string) (ctx : TenantContext) : SM SecretRecord :=
  let* r := require_secret tenant_id name ctx in
  let* t := on_ext clock in
  let version := (sc_current_version r + 1)%Z in
  encrypt_and_store (sc_secret_id r) tenant_id name version value t ctx ;;;
  let r := mkSecret (sc_secret_id r) (sc_tenant_id r) (sc_name r) version (sc_created_at r) (Some t) (sc_versions r ++ [version]) in
  save_secret r ctx ;;; ret r.

(** [consumers], [_to_metadata], [metadata], [list_secrets] *)
Definition consumers (tenant_id name : string) (w : SecretWorld X) : list string :=
  py_sort str_leb (default [] (od_get (tenant_id, name) (sw_consumers w))).

Definition to_metadata (r : SecretRecord) (w : SecretWorld X) : SecretMetadata :=
  mkMetadata (sc_tenant_id r) (sc_name r) (sc_current_version r) (sc_versions r) (sc_created_at r) (sc_rotated_at r)
    (consumers (sc_tenant_id r) (sc_name r) w).

Definition metadata (tenant_id name : string) (ctx : TenantContext) : SM SecretMetadata :=
  let* r := require_secret tenant_id name ctx in gets (to_metadata r).

Definition list_metadata (tenant_id : string) (ctx : TenantContext) : SM (list SecretMetadata) :=
  gets (λ w, (λ r, to_metadata r w) <$> list_secrets tenant_id ctx (sw_store w)).

(** [self._consumers.setdefault(key, set()).add(workload)] *)
Definition consumed (tenant_id name workload : string) (d : odict (string * string) (list string)) : odict (string * string) (list string) :=
  let l := default [] (od_get (tenant_id, name) d) in
  od_set (tenant_id, name) (if bool_decide (workload ∈ l) then l else l ++ [workload]) d.

Record ResolvedSecret := mkResolved { rs_ref : SecretRef; rs_value : string }.

(** [resolve] *)
Definition resolve (ref : SecretRef) (workload : option string) (ctx : option TenantContext) : SM ResolvedSecret :=
  let fail (reason : string) : SM ResolvedSecret := raise (SecretResolutionError (render_ref ref) reason) in
  if match ctx with Some c => negb (scopes c (sr_tenant_id ref)) | None => false end then fail "cross-tenant secret ref"
  else
    let scope := default (context_for_run (sr_tenant_id ref) None None) ctx in
    let* s := gets sw_store in
    match get_secret (sr_tenant_id ref) (sr_name ref) scope s with
    | None => fail "unknown secret"
    | Some r =>
        let version := default (sc_current_version r) (sr_version ref) in
        match get_version (sc_secret_id r) version scope s with
        | None => fail "unknown version"
        | Some v =>
            match sv_revoked_at v with
            | Some _ => fail "version revoked"
            | None =>
                match kp_decrypt (sv_value v) with
                | inl e => raise e
                | inr plaintext =>
                    (match workload with
                     | Some k => modify (λ w, mkSecretWorld (sw_store w) (consumed (sr_tenant_id ref) (sr_name ref) k (sw_consumers w)) (sw_ext w))
                     | None => ret tt
                     end) ;;;
                    ret (mkResolved (mkRef (sr_tenant_id ref) (sr_name ref) (Some version)) plaintext)
                end
            end
        end
    end.

(** [revoke_version] *)
Definition revoke_version (tenant_id name : string) (version : Z) (ctx : TenantContext) : SM unit :=
  let* r := require_secret tenant_id name ctx in
  let* s := gets sw_store in
  match get_version (sc_secret_id r) version ctx s with
  | None => raise (SecretNotFoundError (ref_text tenant_id name +:+ "@" +:+ pretty version))
  | Some v =>
      let* t := on_ext clock in
      save_version (mkVersion (sv_secret_id v) (sv_tenant_id v) (sv_name v) (sv_version v) (sv_value v) (sv_created_at v) (Some t)) ctx
  end.
End Service.

(** ** References round-trip *)

Lemma strip_prefix_app p t : strip_prefix p (p +:+ t) = Some t.
Proof. induction p as [|a p IH]; [done|]. cbn. by rewrite decide_True. Qed.

Lemma partition_app sep a r : all_chars (not_char sep) a = true → partition_on sep (a +:+ String sep r) = Some (a, r).
Proof. induction a as [|c a IH]; cbn; [by rewrite bool_decide_eqb_refl|]. intros [Hc%negb_true_iff Ha]%andb_true_iff. by rewrite Hc, (IH Ha). Qed.

Lemma partition_none sep a : all_chars (not_char sep) a = true → partition_on sep a = None.
Proof. induction a as [|c a IH]; cbn; [done|]. intros [Hc%negb_true_iff Ha]%andb_true_iff. by rewrite Hc, (IH Ha). Qed.

Lemma partition_on_before sep s a r : partition_on sep s = Some (a, r) → all_chars (not_char sep) a = true.
Proof.
  revert a. induction s as [|c s IH]; intros a; cbn; [done|]. case_bool_decide as Hc; [by intros [= <- _]|].
  destruct (partition_on sep s) as [[b r']|]; [|done]. intros [= <- <-]. cbn. unfold not_char at 1. rewrite bool_decide_eq_false_2 by done. by apply IH.
Qed.

Lemma partition_or_before sep s : all_chars (not_char sep) (partition_or sep s).1 = true.
Proof.
  unfold partition_or. destruct (partition_on sep s) as [[a r]|] eqn:E; [by eapply partition_on_before|]. cbn. revert E.
  induction s as [|c s IH]; cbn; [done|]. case_bool_decide as Hc; [done|]. destruct (partition_on sep s) as [[]|]; [done|]. intros _.
  unfold not_char at 1. rewrite bool_decide_eq_false_2 by done. by apply IH.
Qed.

(** What a reference that was parsed satisfies. *)
Definition ref_ok (r : SecretRef) : Prop :=
  ref_valid r = true ∧ all_chars (not_char "/"%char) (sr_tenant_id r) = true ∧ all_chars (not_char "@"%char) (sr_name r) = true.

Lemma parse_ref_ok text r : parse_ref text = inr r → ref_ok r.
Proof.
  unfold parse_ref. destruct (strip_prefix _ text) as [body|]; [|done]. destruct (partition_on "/"%char body) as [[t rest]|] eqn:Et; [|done].
  pose proof (partition_or_before "@"%char rest) as Hn. destruct (partition_or "@"%char rest) as [n v]. cbn in Hn.
  destruct (_ || _); [done|]. apply partition_on_before in Et.
  assert (∀ o, (if ref_valid (mkRef t n o) then inr (mkRef t n o) else inl InvalidSecret : SecretExn + SecretRef) = inr r → ref_ok r) as Hmade.
  { intros o. destruct (ref_valid (mkRef t n o)) eqn:Hv; [|done]. by intros [= <-]. }
  case_bool_decide; [apply Hmade|]. destruct (_ || _); [done|apply Hmade].
Qed.

Lemma between_nonempty hi s : between 1 hi s = true → s ≠ EmptyString.
Proof. intros H ->. done. Qed.

Lemma pretty_pos_digits z : (0 < z)%Z → isdigit (pretty z) = true ∧ Z.of_N (undec 0 (pretty z)) = z ∧ pretty z ≠ EmptyString.
Proof.
  intros Hz. destruct z as [|p|p]; [lia| |lia]. change (pretty (Zpos p)) with (pretty (Npos p)).
  assert (pretty (N.pos p) ≠ EmptyString) as Hne. { intros He. pose proof (undec_pretty (N.pos p)) as H. by rewrite He in H. }
  split_and!; [|by rewrite undec_pretty|done]. unfold isdigit. rewrite bool_decide_eq_true_2 by done. apply pretty_N_digits.
Qed.

Lemma parse_render r : ref_ok r → parse_ref (render_ref r) = inr r.
Proof.
  destruct r as [t n v]. intros (Hv & Ht & Hn). unfold parse_ref, render_ref. cbn [sr_tenant_id sr_name sr_version] in *.
  rewrite strip_prefix_app. change (t +:+ "/" +:+ ?x) with (t +:+ String "/" x). rewrite partition_app by done.
  pose proof Hv as Hv'. unfold ref_valid in Hv'. cbn in Hv'. apply andb_true_iff in Hv' as [[H1%between_nonempty H2%between_nonempty]%andb_true_iff H3].
  unfold partition_or. destruct v as [v|].
  - apply Z.leb_le in H3. destruct (pretty_pos_digits v) as (Hd & Hu & Hne); [lia|].
    change ("@" +:+ pretty v) with (String "@" (pretty v)). rewrite partition_app by done. cbn [from_option]. unfold id. cbv iota beta.
    rewrite !bool_decide_eq_false_2 by done. cbn [orb]. rewrite Hd, Hu. cbn [negb orb]. rewrite (proj2 (Z.ltb_ge v 1)) by lia. by rewrite Hv.
  - assert (n +:+ EmptyString = n) as -> by (clear; induction n as [|c n IH]; [done|]; cbn; f_equal; exact IH). rewrite partition_none by done. cbn [from_option]. unfold id. cbv iota beta. rewrite !bool_decide_eq_false_2 by done. cbn [orb].
    rewrite bool_decide_eq_true_2 by done. by rewrite Hv.
Qed.

(** References round-trip: whatever text a reference was parsed from, its
    canonical text parses to the same reference, so equal texts mean the same
    secret and version. *)
Theorem secret_ref_roundtrip text r : parse_ref text = inr r → parse_ref (render_ref r) = inr r.
Proof. intros H. by apply parse_render, (parse_ref_ok text). Qed.

Lemma secret_ref_roundtrip_witness :
  parse_ref "secret://acme/db/password@007" = inr (mkRef "acme" "db/password" (Some 7%Z)) ∧
  parse_ref (render_ref (mkRef "acme" "db/password" (Some 7%Z))) = inr (mkRef "acme" "db/password" (Some 7%Z)) ∧
  render_ref (mkRef "acme" "db/password" (Some 7%Z)) = "secret://acme/db/password@7".
Proof. split; [by vm_compute|]. split; [apply (secret_ref_roundtrip "secret://acme/db/password@007"); by vm_compute|by vm_compute]. Defined.
