(* ===== verification/SecretsSpec.v ===== *)
(** * What the secret store promises

    An abstract store: per tenant and name the list of the values put, each
    possibly revoked.  The service refines it: every call answers what the
    abstract store answers. *)

From stdpp Require Import base strings pretty numbers gmap sets list.
From S2P Require Import Prelude Text Tenancy Secrets.

#[local] Open Scope hp_scope.

(** ** The abstract store *)

Abbreviation Vault := (gmap (string * string) (list (string * bool))).

Inductive SecretOp :=
  | Put (tenant_id name value : string) (ctx : TenantContext)
  | Rotate (tenant_id name value : string) (ctx : TenantContext)
  | Revoke (tenant_id name : string) (version : Z) (ctx : TenantContext)
  | Resolve (ref : SecretRef) (workload : option string) (ctx : option TenantContext).

Inductive Answer := Done | Value (value : string) (version : Z) | AlreadyExists | Missing | Refused (reason : string) | OutOfScope | Invalid | Broken.

(** Version [v], counted from 1. *)
Definition at_version {A} (l : list A) (v : Z) : option A := if (1 <=? v)%Z then l !! Z.to_nat (v - 1) else None.

Definition vault_get (ctx : TenantContext) (t n : string) (m : Vault) : option (list (string * bool)) := if scopes ctx t then m !! (t, n) else None.

Definition spec_step (o : SecretOp) (m : Vault) : Answer * Vault :=
  match o with
  | Put t n x ctx =>
      match vault_get ctx t n m with
      | Some _ => (AlreadyExists, m)
      | None =>
          if bool_decide (t = EmptyString) || bool_decide (n = EmptyString) then (Invalid, m)
          else if scopes ctx t then (Done, <[(t, n) := [(x, false)]]> m) else (OutOfScope, m)
      end
  | Rotate t n x ctx =>
      match vault_get ctx t n m with Some l => (Done, <[(t, n) := l ++ [(x, false)]]> m) | None => (Missing, m) end
  | Revoke t n v ctx =>
      match vault_get ctx t n m with
      | Some l =>
          match at_version l v with
          | Some (x, _) => (Done, <[(t, n) := <[Z.to_nat (v - 1) := (x, true)]> l]> m)
          | None => (Missing, m)
          end
      | None => (Missing, m)
      end
  | Resolve r _ ctx =>
      if match ctx with Some c => negb (scopes c (sr_tenant_id r)) | None => false end then (Refused "cross-tenant secret ref", m)
      else match m !! (sr_tenant_id r, sr_name r) with
           | None => (Refused "unknown secret", m)
           | Some l =>
               let v := default (Z.of_nat (length l)) (sr_version r) in
               match at_version l v with
               | None => (Refused "unknown version", m)
               | Some (x, revoked) => (if revoked : bool then Refused "version revoked" else Value x v, m)
               end
           end
  end.

(** ** The service *)

Definition answer_exn (e : SecretExn) : Answer :=
  match e with
  | SecretAlreadyExistsError _ _ => AlreadyExists
  | SecretNotFoundError _ => Missing
  | SecretResolutionError _ reason => Refused reason
  | SecretScopeError _ => OutOfScope
  | InvalidSecret => Invalid
  | SecretError _ | SecretLeakError _ => Broken
  end.

Definition answer {A} (f : A → Answer) (o : outcome SecretExn A) : Answer := match o with Ret a => f a | Raise e => answer_exn e end.

Definition resolved_answer (r : ResolvedSecret) : Answer := Value (rs_value r) (default 0%Z (sr_version (rs_ref r))).

Section Refinement.
Context {X : Type} `{!KeyProvider X} `{!KeyProviderLaws X}.
Variables (clock : X → Z * X) (new_id : X → string * X).

Definition step (o : SecretOp) (w : SecretWorld X) : Answer * SecretWorld X :=
  match o with
  | Put t n x ctx => let '(r, w') := put clock new_id t n x ctx w in (answer (λ _, Done) r, w')
  | Rotate t n x ctx => let '(r, w') := rotate clock t n x ctx w in (answer (λ _, Done) r, w')
  | Revoke t n v ctx => let '(r, w') := revoke_version clock t n v ctx w in (answer (λ _, Done) r, w')
  | Resolve r k ctx => let '(o, w') := resolve r k ctx w in (answer resolved_answer o, w')
  end.

(** *** The simulation relation *)

Definition rows_match (t n sid : string) (l : list (string * bool)) (s : SecretStore) : Prop :=
  ∀ v, match od_get (sid, v) (ss_versions s), at_version l v with
       | None, None => True
       | Some row, Some x =>
           sv_secret_id row = sid ∧ sv_tenant_id row = t ∧ sv_name row = n ∧ sv_version row = v ∧
           od_get (sid, v) (ss_version_tenants s) = Some t ∧ kp_decrypt (sv_value row) = inr x.1 ∧ (sv_revoked_at row = None ↔ x.2 = false)
       | _, _ => False
       end.

Definition record_match (t n : string) (r : SecretRecord) (l : list (string * bool)) (s : SecretStore) : Prop :=
  sc_tenant_id r = t ∧ sc_name r = n ∧ t ≠ EmptyString ∧ n ≠ EmptyString ∧ sc_secret_id r ≠ EmptyString ∧ l ≠ [] ∧
  sc_current_version r = Z.of_nat (length l) ∧ rows_match t n (sc_secret_id r) l s.

Definition represents (s : SecretStore) (m : Vault) : Prop :=
  (∀ t n, match od_get (t, n) (ss_secrets s), m !! (t, n) with
          | None, None => True | Some r, Some l => record_match t n r l s | _, _ => False end) ∧
  (∀ k k' r r', od_get k (ss_secrets s) = Some r → od_get k' (ss_secrets s) = Some r' → sc_secret_id r = sc_secret_id r' → k = k').

(** New secrets get identifiers no row has. *)
Fixpoint fresh_ids (l : list SecretOp) (w : SecretWorld X) : Prop :=
  match l with
  | [] => True
  | o :: l' =>
      match o with
      | Put _ _ _ _ => (new_id (sw_ext w)).1 ≠ EmptyString ∧ ∀ v, od_get ((new_id (sw_ext w)).1, v) (ss_versions (sw_store w)) = None
      | _ => True
      end ∧ fresh_ids l' (step o w).2
  end.

Fixpoint run (l : list SecretOp) (w : SecretWorld X) : list Answer * SecretWorld X :=
  match l with [] => ([], w) | o :: l' => let '(a, w') := step o w in let '(rest, w'') := run l' w' in (a :: rest, w'') end.

Fixpoint spec_run (l : list SecretOp) (m : Vault) : list Answer * Vault :=
  match l with [] => ([], m) | o :: l' => let '(a, m') := spec_step o m in let '(rest, m'') := spec_run l' m' in (a :: rest, m'') end.

Lemma at_version_app {A} (l : list A) x v : at_version (l ++ [x]) v = if decide (v = Z.of_nat (length l) + 1)%Z then Some x else at_version l v.
Proof.
  unfold at_version. destruct (1 <=? v)%Z eqn:Hv; [|case_decide; [apply Z.leb_gt in Hv; lia|done]]. apply Z.leb_le in Hv. case_decide as He.
  - rewrite lookup_app_r by lia. replace (Z.to_nat (v - 1) - length l)%nat with 0%nat by lia. done.
  - destruct (decide (Z.to_nat (v - 1) < length l)%nat); [by rewrite lookup_app_l by lia|]. rewrite !lookup_ge_None_2; [done|lia|rewrite length_app; cbn; lia].
Qed.

Lemma at_version_insert {A} (l : list A) y u v : is_Some (at_version l u) →
  at_version (<[Z.to_nat (u - 1) := y]> l) v = if decide (v = u) then Some y else at_version l v.
Proof.
  unfold at_version. destruct (1 <=? u)%Z eqn:Hu; [|by intros []]. apply Z.leb_le in Hu. intros Hs.
  destruct (1 <=? v)%Z eqn:Hv; [|case_decide; [apply Z.leb_gt in Hv; lia|done]]. apply Z.leb_le in Hv. case_decide as He.
  - subst v. rewrite list_lookup_insert_eq; [done|]. by apply lookup_lt_is_Some_1.
  - rewrite list_lookup_insert_ne; [done|lia].
Qed.

Lemma represents_some s m t n r : represents s m → od_get (t, n) (ss_secrets s) = Some r → ∃ l, m !! (t, n) = Some l ∧ record_match t n r l s.
Proof. intros [H _] Hr. specialize (H t n). rewrite Hr in H. destruct (m !! (t, n)) as [l|]; [by exists l|done]. Qed.

Lemma represents_none s m t n : represents s m → od_get (t, n) (ss_secrets s) = None → m !! (t, n) = None.
Proof. intros [H _] Hr. specialize (H t n). rewrite Hr in H. by destruct (m !! (t, n)). Qed.

(** A change of one secret's rows and record. *)
Lemma represents_update s m s' t n r' l' : represents s m →
  od_get (t, n) (ss_secrets s') = Some r' → (∀ k, k ≠ (t, n) → od_get k (ss_secrets s') = od_get k (ss_secrets s)) →
  (∀ sid v, sid ≠ sc_secret_id r' → od_get (sid, v) (ss_versions s') = od_get (sid, v) (ss_versions s) ∧
     od_get (sid, v) (ss_version_tenants s') = od_get (sid, v) (ss_version_tenants s)) →
  (∀ k r, od_get k (ss_secrets s) = Some r → sc_secret_id r = sc_secret_id r' → k = (t, n)) →
  record_match t n r' l' s' → represents s' (<[(t, n) := l']> m).
Proof.
  intros [H1 H2] Hr Hother Hrows Hid Hm. split.
  - intros t0 n0. destruct (decide ((t0, n0) = (t, n))) as [He|Hne]; [injection He as -> ->; by rewrite Hr, lookup_insert_eq|].
    rewrite (Hother _ Hne), lookup_insert_ne by done. specialize (H1 t0 n0).
    destruct (od_get (t0, n0) (ss_secrets s)) as [r|] eqn:Hr0, (m !! (t0, n0)) as [l|]; try done.
    destruct H1 as (?&?&?&?&?&?&?&Hm0). do 7 (split; [done|]). intros v. specialize (Hm0 v).
    destruct (Hrows (sc_secret_id r) v) as [-> ->]; [|exact Hm0]. intros He. by apply Hne, (Hid _ r).
  - intros k k' r1 r2 Hg Hg' Hs. destruct (decide (k = (t, n))) as [->|Hk], (decide (k' = (t, n))) as [->|Hk']; [done|..].
    + rewrite Hr in Hg. injection Hg as <-. rewrite Hother in Hg' by done. symmetry. by eapply Hid.
    + rewrite Hr in Hg'. injection Hg' as <-. rewrite Hother in Hg by done. by eapply Hid.
    + rewrite Hother in Hg, Hg' by done. by eapply H2.
Qed.

(** What storing a version does. *)
Definition stored (v : SecretVersion) (s : SecretStore) : SecretStore :=
  mkSecretStore (ss_secrets s) (od_set (sv_secret_id v, sv_version v) v (ss_versions s))
    (od_set (sv_secret_id v, sv_version v) (sv_tenant_id v) (ss_version_tenants s)).

Lemma encrypt_and_store_run sid t n v x tm ctx (w : SecretWorld X) :
  let '(e, y) := kp_encrypt x (sw_ext w) in
  encrypt_and_store sid t n v x tm ctx w =
    if bool_decide (sid = EmptyString) || bool_decide (t = EmptyString) || bool_decide (n = EmptyString)
    then (Raise InvalidSecret, mkSecretWorld (sw_store w) (sw_consumers w) y)
    else if scopes ctx t then (Ret tt, mkSecretWorld (stored (mkVersion sid t n v e tm None) (sw_store w)) (sw_consumers w) y)
    else (Raise (SecretScopeError (tc_tenant_id ctx)), mkSecretWorld (sw_store w) (sw_consumers w) y).
Proof.
  pose proof (kp_named x (sw_ext w)) as Hk. destruct (kp_encrypt x (sw_ext w)) as [e y] eqn:E. cbn in Hk.
  unfold encrypt_and_store, on_ext. unfold bind at 1. rewrite E. rewrite (bool_decide_eq_false_2 (en_key_id e = _)), orb_false_r by done.
  destruct (_ || _); [done|]. unfold save_version, require_scope, require, bind. cbn [sv_tenant_id]. by destruct (scopes ctx t).
Qed.

Lemma stored_rows v s sid u :
  od_get (sid, u) (ss_versions (stored v s)) = (if decide ((sid, u) = (sv_secret_id v, sv_version v)) then Some v else od_get (sid, u) (ss_versions s)) ∧
  od_get (sid, u) (ss_version_tenants (stored v s)) =
    (if decide ((sid, u) = (sv_secret_id v, sv_version v)) then Some (sv_tenant_id v) else od_get (sid, u) (ss_version_tenants s)).
Proof. cbn. by rewrite !od_get_set. Qed.

Lemma represents_fresh s m sid : represents s m → (∀ v, od_get (sid, v) (ss_versions s) = None) →
  ∀ k r, od_get k (ss_secrets s) = Some r → sc_secret_id r ≠ sid.
Proof.
  intros Hrep Hf [t n] r Hr <-. destruct (represents_some _ _ _ _ _ Hrep Hr) as (l & _ & _ & _ & _ & _ & _ & Hl & _ & Hm).
  specialize (Hm 1%Z). rewrite Hf in Hm. destruct l; [done|]. done.
Qed.

(** Adding a version to a secret's rows. *)
Lemma rows_append t n sid l s x e tm : kp_decrypt e = inr x → rows_match t n sid l s →
  rows_match t n sid (l ++ [(x, false)]) (stored (mkVersion sid t n (Z.of_nat (length l) + 1) e tm None) s).
Proof.
  intros He Hm v. specialize (Hm v). rewrite at_version_app.
  destruct (stored_rows (mkVersion sid t n (Z.of_nat (length l) + 1) e tm None) s sid v) as [-> ->]. cbn [sv_secret_id sv_version sv_tenant_id].
  destruct (decide (v = (Z.of_nat (length l) + 1)%Z)) as [->|Hne].
  - rewrite !decide_True by done. by split_and!.
  - rewrite !decide_False by congruence. exact Hm.
Qed.

(** One call answers what the abstract store answers, and keeps representing it. *)
Definition refines (o : SecretOp) (w : SecretWorld X) (m : Vault) : Prop :=
  let '(a, w') := step o w in let '(b, m') := spec_step o m in a = b ∧ represents (sw_store w') m'.

Lemma get_matches ctx t n s m : represents s m →
  match get_secret t n ctx s, vault_get ctx t n m with
  | None, None => True
  | Some r, Some l => scopes ctx t = true ∧ od_get (t, n) (ss_secrets s) = Some r ∧ m !! (t, n) = Some l ∧ record_match t n r l s
  | _, _ => False
  end.
Proof.
  intros Hrep. unfold get_secret, vault_get. destruct (scopes ctx t); [|done]. destruct (od_get (t, n) (ss_secrets s)) as [r|] eqn:Hr.
  - destruct (represents_some _ _ _ _ _ Hrep Hr) as (l & -> & Hm). by split_and!.
  - by rewrite (represents_none _ _ _ _ Hrep Hr).
Qed.

Lemma put_refines t n x ctx w m : represents (sw_store w) m → (new_id (sw_ext w)).1 ≠ EmptyString →
  (∀ v, od_get ((new_id (sw_ext w)).1, v) (ss_versions (sw_store w)) = None) → refines (Put t n x ctx) w m.
Proof.
  intros Hrep Hne Hf. unfold refines. cbn [step spec_step]. unfold put, gets. rewrite (bind_run _ _ w (sw_store w) w) by done.
  pose proof (get_matches ctx t n _ _ Hrep) as Hg. destruct (get_secret t n ctx (sw_store w)) as [r|], (vault_get ctx t n m) as [l|] eqn:Hv; try done.
  unfold on_ext. unfold bind at 1. destruct (new_id (sw_ext w)) as [sid y] eqn:Ei. cbn in Hne, Hf. unfold bind at 1. cbn [sw_ext].
  destruct (clock y) as [tm y2]. pose proof (encrypt_and_store_run sid t n 1 x tm ctx (mkSecretWorld (sw_store w) (sw_consumers w) y2)) as He.
  pose proof (kp_round_trip x y2) as Hrt. cbn [sw_ext] in He. destruct (kp_encrypt x y2) as [e y3]. cbn [fst] in Hrt.
  rewrite (bool_decide_eq_false_2 (sid = _)) in He by done. cbn [orb] in He. cbn [sw_store sw_consumers].
  destruct (bool_decide (t = _) || bool_decide (n = _)) eqn:Hnames; [rewrite (bind_raise _ _ _ _ _ He); split; [reflexivity|exact Hrep]|].
  destruct (scopes ctx t) eqn:Hsc; [|rewrite (bind_raise _ _ _ _ _ He); split; [reflexivity|exact Hrep]]. rewrite (bind_run _ _ _ _ _ He).
  unfold save_secret, require_scope, require, bind. cbn [sc_tenant_id]. rewrite Hsc. cbn. split; [done|].
  apply orb_false_iff in Hnames as [Ht%bool_decide_eq_false Hn%bool_decide_eq_false].
  apply (represents_update (sw_store w) m _ t n (mkSecret sid t n 1 tm None [1%Z])); [done|apply od_get_set_eq|intros; by apply od_get_set_ne| | |].
  - intros sid' v Hs. cbn in *. by rewrite !od_get_set_ne by congruence.
  - intros k r Hr Hs. by destruct (represents_fresh _ _ _ Hrep Hf _ _ Hr).
  - do 7 (split; [done|]). apply (rows_append t n sid [] (sw_store w) x e tm Hrt). intros v. cbn. rewrite Hf. unfold at_version.
    by destruct (1 <=? v)%Z.
Qed.

Lemma rotate_refines t n x ctx w m : represents (sw_store w) m → refines (Rotate t n x ctx) w m.
Proof.
  intros Hrep. unfold refines. cbn [step spec_step]. unfold rotate, require_secret, gets.
  pose proof (get_matches ctx t n _ _ Hrep) as Hg. destruct (get_secret t n ctx (sw_store w)) as [r|] eqn:Hgr, (vault_get ctx t n m) as [l|] eqn:Hv; try done.
  2: { unfold bind, of_option. by rewrite Hgr. }
  destruct Hg as (Hsc & Hr & Hl & Ht & Hn & Htne & Hnne & Hsid & Hlne & Hcur & Hrows).
  unfold bind at 2. cbn beta. unfold bind at 1. unfold of_option. rewrite Hgr. cbn. unfold on_ext. unfold bind at 1. destruct (clock (sw_ext w)) as [tm y2].
  pose proof (encrypt_and_store_run (sc_secret_id r) t n (sc_current_version r + 1) x tm ctx (mkSecretWorld (sw_store w) (sw_consumers w) y2)) as He.
  pose proof (kp_round_trip x y2) as Hrt. cbn [sw_ext] in He. destruct (kp_encrypt x y2) as [e y3]. cbn [fst] in Hrt.
  rewrite !(bool_decide_eq_false_2 (_ = EmptyString)) in He by done. cbn [orb] in He. rewrite Hsc in He. rewrite (bind_run _ _ _ _ _ He).
  unfold save_secret, require_scope, require, bind. cbn [sc_tenant_id sc_name]. rewrite Ht, Hsc. cbn. rewrite Hn. split; [done|].
  set (r' := mkSecret _ _ _ _ _ _ _). apply (represents_update (sw_store w) m _ t n r'); [done|apply od_get_set_eq|intros; by apply od_get_set_ne| | |].
  - intros sid' v Hs. cbn in *. by rewrite !od_get_set_ne by congruence.
  - intros k r0 Hr0 Hs. by eapply (proj2 Hrep).
  - do 5 (split; [done|]). split; [by destruct l|]. split; [cbn; rewrite length_app, Hcur; cbn; lia|].
    cbn [sc_secret_id r']. rewrite Hcur. by apply (rows_append t n (sc_secret_id r) l (sw_store w) x e tm Hrt).
Qed.

(** Reading a version. *)
Lemma version_matches ctx t n r l v s : scopes ctx t = true → record_match t n r l s →
  match get_version (sc_secret_id r) v ctx s, at_version l v with
  | None, None => True
  | Some row, Some x =>
      sv_secret_id row = sc_secret_id r ∧ sv_tenant_id row = t ∧ sv_name row = n ∧ sv_version row = v ∧
      kp_decrypt (sv_value row) = inr x.1 ∧ (sv_revoked_at row = None ↔ x.2 = false)
  | _, _ => False
  end.
Proof.
  intros Hsc (_ & _ & _ & _ & _ & _ & _ & Hm). specialize (Hm v). unfold get_version.
  destruct (od_get (sc_secret_id r, v) (ss_versions s)) as [row|], (at_version l v) as [x|]; try done.
  - destruct Hm as (? & ? & ? & ? & -> & ? & ?). cbn. rewrite Hsc. by split_and!.
  - by destruct (scopes ctx (default EmptyString (od_get (sc_secret_id r, v) (ss_version_tenants s)))).
Qed.

Lemma revoke_refines t n v ctx w m : represents (sw_store w) m → refines (Revoke t n v ctx) w m.
Proof.
  intros Hrep. unfold refines. cbn [step spec_step]. unfold revoke_version, require_secret, gets.
  pose proof (get_matches ctx t n _ _ Hrep) as Hg. destruct (get_secret t n ctx (sw_store w)) as [r|] eqn:Hgr, (vault_get ctx t n m) as [l|] eqn:Hv; try done.
  2: { unfold bind, of_option. by rewrite Hgr. }
  destruct Hg as (Hsc & Hr & Hl & Hm). unfold bind at 2. cbn beta. unfold bind at 1. unfold of_option. rewrite Hgr. cbn.
  unfold bind at 1. pose proof (version_matches ctx t n r l v _ Hsc Hm) as Hver.
  destruct (get_version (sc_secret_id r) v ctx (sw_store w)) as [row|], (at_version l v) as [[x b]|] eqn:Hat; try done.
  destruct Hver as (Hs & Ht & Hn & Hvv & Hd & _). unfold on_ext, bind. destruct (clock (sw_ext w)) as [tm y].
  unfold save_version, require_scope, require, bind. cbn [sv_tenant_id]. rewrite Ht, Hsc. cbn. rewrite Hs, Hvv. split; [done|].
  destruct Hm as (Hrt & Hrn & Htne & Hnne & Hsid & Hlne & Hcur & Hrows).
  apply (represents_update (sw_store w) m _ t n r); [done|done|done| | |].
  - intros sid' u Hne. cbn. by rewrite !od_get_set_ne by congruence.
  - intros k r0 Hr0 He. by eapply (proj2 Hrep).
  - do 5 (split; [done|]). split; [intros He; apply (f_equal length) in He; rewrite length_insert in He; by destruct l|]. split; [by rewrite length_insert|]. intros u. specialize (Hrows u). cbn.
    rewrite at_version_insert by by rewrite Hat. rewrite !od_get_set. destruct (decide (u = v)) as [->|Hne].
    + rewrite !decide_True by done. by split_and!.
    + rewrite !decide_False by congruence. exact Hrows.
Qed.

Lemma resolve_refines r k ctx w m : represents (sw_store w) m → refines (Resolve r k ctx) w m.
Proof.
  intros Hrep. unfold refines. cbn [step spec_step]. unfold resolve, gets.
  assert (match ctx with Some c => negb (scopes c (sr_tenant_id r)) | None => false end = negb (scopes (default (context_for_run (sr_tenant_id r) None None) ctx) (sr_tenant_id r))) as ->.
  { destruct ctx; [done|]. by rewrite (scopes_own (sr_tenant_id r) None None : scopes (default _ None) _ = true). }
  destruct (scopes (default (context_for_run (sr_tenant_id r) None None) ctx) (sr_tenant_id r)) eqn:Hsc; [|done]. cbn [negb].
  unfold bind at 1. pose proof (get_matches (default (context_for_run (sr_tenant_id r) None None) ctx) (sr_tenant_id r) (sr_name r) _ _ Hrep) as Hg.
  unfold vault_get in Hg. rewrite Hsc in Hg.
  destruct (get_secret _ _ _ (sw_store w)) as [rec|], (m !! (sr_tenant_id r, sr_name r)) as [l|] eqn:Hl; try done.
  destruct Hg as (_ & Hr & _ & Hm). assert (sc_current_version rec = Z.of_nat (length l)) as -> by apply Hm.
  set (v := default (Z.of_nat (length l)) (sr_version r)).
  pose proof (version_matches _ _ _ _ _ v _ Hsc Hm) as Hver.
  destruct (get_version (sc_secret_id rec) v _ (sw_store w)) as [row|], (at_version l v) as [[x b]|]; try done.
  destruct Hver as (_ & _ & _ & _ & Hd & Hrev). cbn in Hd, Hrev. destruct (sv_revoked_at row) eqn:Hra.
  - assert (b = true) as -> by (destruct b; [done|by pose proof (proj2 Hrev eq_refl)]). done.
  - assert (b = false) as -> by by apply Hrev. rewrite Hd. by destruct k.
Qed.

Lemma step_refines o w m : represents (sw_store w) m → fresh_ids [o] w → refines o w m.
Proof.
  destruct o; intros Hrep Hf; [by apply put_refines; [|apply Hf..]|by apply rotate_refines|by apply revoke_refines|by apply resolve_refines].
Qed.

(** C14: The secret service implements the abstract store: starting from an
    empty store, every sequence of calls (creations, rotations, revocations,
    resolutions with or without a version, by any contexts) gets, one by one,
    the answers of the store that keeps per name the list of its values: a
    resolution returns exactly the value put as that version unless it was
    revoked, whatever was rotated since; nothing is returned across tenants. *)
Theorem secrets_refine_vault l w :
  sw_store w = empty_secrets → fresh_ids l w → (run l w).1 = (spec_run l ∅).1.
Proof.
  intros Hw. assert (represents (sw_store w) ∅) as Hrep.
  { rewrite Hw. split; [|done]. intros t n. cbn. by rewrite lookup_empty. }
  clear Hw. revert w Hrep. generalize (∅ : Vault). induction l as [|o l IH]; intros m w Hrep; [done|]. intros [Hf Hrest].
  pose proof (step_refines o w m Hrep (conj Hf I)) as Hs. unfold refines in Hs. cbn [run spec_run].
  destruct (step o w) as [a w'] eqn:Est, (spec_step o m) as [b m']. destruct Hs as [-> Hrep']. cbn [snd] in Hrest.
  specialize (IH m' w' Hrep' Hrest). destruct (run l w') as [as1 w2], (spec_run l m') as [as2 m2]. cbn in *. by rewrite IH.
Qed.
End Refinement.
