(* ===== verification/Redaction.v ===== *)
(** * Injection and redaction of secrets ([secrets/redaction.py], [secrets/injection.py])

    Redactors and their registry, what redacting a text leaves, and the injector
    that resolves the secrets a workload declares.  Text is a sequence of
    characters; the log filter is not modelled. *)

From Stdlib Require Import Ascii.
From stdpp Require Import base strings pretty numbers gmap sets list.
From S2P Require Import Prelude Text Tenancy CoreModels Manifest Secrets.

#[local] Open Scope hp_scope.

(** ** [str.replace] *)

Definition to_chars : string → list ascii := String.list_ascii_of_string.
Definition of_chars : list ascii → string := String.string_of_list_ascii.

(** The text begins with [old]. *)
Fixpoint starts (old s : list ascii) : bool :=
  match old, s with
  | [], _ => true
  | a :: old', b :: s' => bool_decide (a = b) && starts old' s'
  | _, [] => false
  end.

Fixpoint occurs (sub s : list ascii) : bool := starts sub s || match s with [] => false | _ :: s' => occurs sub s' end.

(** Occurrences from the left that do not overlap; [skip] characters of the
    last one are still to be passed over. *)
Fixpoint replace_chars (old new : list ascii) (skip : nat) (s : list ascii) : list ascii :=
  match s with
  | [] => []
  | c :: s' =>
      match skip with
      | S k => replace_chars old new k s'
      | O => if starts old s then new ++ replace_chars old new (pred (length old)) s' else c :: replace_chars old new 0 s'
      end
  end.

Definition replace (old new s : string) : string := of_chars (replace_chars (to_chars old) (to_chars new) 0 (to_chars s)).

Definition is_in (sub s : string) : bool := occurs (to_chars sub) (to_chars s).

Example replace_ex : replace "aa" "b" "aaaxaa" = "baxb".
Proof. vm_compute. reflexivity. Qed.

(** ** Redactors *)

Definition REDACTED : string := "[REDACTED]".

Definition Redactor : Type := list string.

(** [register], [unregister], [redact], [contains] and [assert_absent] *)
Definition register (value : string) (r : Redactor) : Redactor :=
  if bool_decide (value ≠ EmptyString) && negb (bool_decide (value ∈ r)) then r ++ [value] else r.

Fixpoint remove_first (value : string) (r : Redactor) : Redactor :=
  match r with [] => [] | v :: r' => if decide (v = value) then r' else v :: remove_first value r' end.
Definition unregister (value : string) (r : Redactor) : Redactor := if bool_decide (value ∈ r) then remove_first value r else r.

Definition redact_value (text value : string) : string :=
  if bool_decide (value ≠ EmptyString) && is_in value text then replace value REDACTED text else text.
Definition redact (r : Redactor) (text : string) : string := foldl redact_value text r.

Definition holds_secret (r : Redactor) (text : string) : bool := existsb (λ v, bool_decide (v ≠ EmptyString) && is_in v text) r.
Definition assert_absent (r : Redactor) (text sink : string) : SecretExn + unit :=
  if holds_secret r text then inl (SecretLeakError sink) else inr tt.

(** [RedactorRegistry]: a redactor per run. *)
Definition for_run (run_id : string) (d : odict string Redactor) : Redactor * odict string Redactor :=
  match od_get run_id d with Some r => (r, d) | None => ([], od_set run_id [] d) end.
Definition release (run_id : string) (d : odict string Redactor) : odict string Redactor := od_del run_id d.

(** ** Injection ([secrets/injection.py]) *)

Record InjectedSecret := mkInjected { is_ref : SecretRef; is_env : odict string string; is_files : odict string string; is_mode : string }.

(** The injector's state besides the service's: the runs' redactors and the one
    of the logs. *)
Record InjectWorld (X : Type) := mkInjectWorld { nw_secrets : SecretWorld X; nw_redactors : odict string Redactor; nw_sink : Redactor }.
Arguments mkInjectWorld {X}.
Arguments nw_secrets {X}.
Arguments nw_redactors {X}.
Arguments nw_sink {X}.

Section Injector.
Context {X : Type} `{!KeyProvider X}.
Variables (has_sink : bool) (injection_spec : option JsonValue → SecretExn + option SecretInjection).

Abbreviation IM := (M (InjectWorld X) SecretExn).

Definition on_secrets {A} (m : M (SecretWorld X) SecretExn A) : IM A :=
  λ w, let '(o, s) := m (nw_secrets w) in (o, mkInjectWorld s (nw_redactors w) (nw_sink w)).

(** The value is hidden in the run's texts and in the logs from here on. *)
Definition hide (run_id value : string) : IM unit :=
  modify (λ w, let '(r, d) := for_run run_id (nw_redactors w) in
               mkInjectWorld (nw_secrets w) (od_set run_id (register value r) d)
                 (if has_sink then register value (nw_sink w) else nw_sink w)).

Definition of_sum {A} (r : SecretExn + A) : IM A := match r with inl e => raise e | inr a => ret a end.

(** [inject] *)
Definition inject (ref : SecretRef) (injection : option SecretInjection) (run_id : string) (workload : option string)
    (ctx : option TenantContext) (allowed_refs : option (list string)) : IM InjectedSecret :=
  let rendered := render_ref ref in
  if match allowed_refs with Some l => negb (bool_decide (rendered ∈ l)) | None => false end
  then raise (SecretResolutionError rendered "ref is not declared by the workload")
  else
    let* resolved := on_secrets (resolve ref workload ctx) in
    hide run_id (rs_value resolved) ;;;
    let as_env (name : string) := mkInjected (rs_ref resolved) [(name, rs_value resolved)] [] "0400" in
    ret match injection with
        | Some i =>
            match si_kind i with
            | FILE => mkInjected (rs_ref resolved) []
                        [(match si_path i with Some p => if bool_decide (p = EmptyString) then "/run/secrets/" +:+ sr_name ref else p
                          | None => "/run/secrets/" +:+ sr_name ref end, rs_value resolved)] (si_mode i)
            | ENV => as_env match si_name i with Some n => if bool_decide (n = EmptyString) then sr_name ref else n | None => sr_name ref end
            end
        | None => as_env (sr_name ref)
        end.

(** [dict.update] *)
Definition od_update (d e : odict string string) : odict string string := foldl (λ d kv, od_set kv.1 kv.2 d) d e.

(** [inject_for_workload]: only what is delivered through the environment is
    returned. *)
Fixpoint inject_each (bindings : list SecretBinding) (allowed : list string) (run_id workload : string) (ctx : TenantContext)
    (env : odict string string) : IM (odict string string) :=
  match bindings with
  | [] => ret env
  | b :: rest =>
      let* ref := of_sum (parse_ref (sc_ref b)) in
      let* injection := of_sum (injection_spec (sc_injection b)) in
      let* i := inject ref injection run_id (Some workload) (Some ctx) (Some allowed) in
      inject_each rest allowed run_id workload ctx (od_update env (is_env i))
  end.

Definition inject_for_workload (m : Manifest) (run_id : string) (ctx : TenantContext) : IM (odict string string) :=
  let bindings := sp_secrets (ma_spec m) in
  inject_each bindings (sc_ref <$> bindings) run_id (manifest_name m) ctx [].

Definition release_run (run_id : string) : IM unit :=
  modify (λ w, mkInjectWorld (nw_secrets w) (release run_id (nw_redactors w)) (nw_sink w)).
End Injector.

(** ** What redaction leaves *)

Fixpoint suffixes {A} (l : list A) : list (list A) := match l with [] => [] | _ :: l' => l :: suffixes l' end.

(** No part of [u] can come to lie in the placeholder: none of its endings
    begins like it, none of the placeholder's endings begins like [u]. *)
Definition overlap_free (u p : list ascii) : bool :=
  forallb (λ s, negb (starts s p || starts p s)) (suffixes u) && forallb (λ q, negb (starts q u || starts u q)) (suffixes p).

Lemma starts_spec old s : starts old s = true ↔ ∃ r, s = old ++ r.
Proof.
  revert s. induction old as [|a old IH]; intros s; cbn; [split; [by exists s|done]|]. destruct s as [|b s]; [split; [done|by intros []]|].
  rewrite andb_true_iff, bool_decide_eq_true, IH. split; [intros [-> [r ->]]; by exists r|intros [r [= -> ->]]; split; [done|by exists r]].
Qed.

(** Two beginnings of a text are comparable. *)
Lemma starts_app u p r : starts u (p ++ r) = true → starts u p = true ∨ starts p u = true.
Proof.
  rewrite !starts_spec. intros [q H]. destruct (decide (length u ≤ length p)%nat) as [Hl|Hl].
  - left. exists (drop (length u) p). apply (f_equal (take (length u))) in H. rewrite take_app_le in H by done. rewrite take_app_length in H.
    by rewrite <-H at 1; rewrite take_drop.
  - right. exists (drop (length p) u). apply (f_equal (take (length p))) in H. rewrite take_app_length, take_app_le in H by lia.
    by rewrite H at 1; rewrite take_drop.
Qed.

Lemma suffixes_app {A} (a b : list A) : b ≠ [] → b ∈ suffixes (a ++ b).
Proof.
  intros Hb. induction a as [|x a IH]; cbn; [destruct b; [done|by left]|]. by right.
Qed.

Section Replacing.
Variables (old new : list ascii).
Hypothesis old_ne : old ≠ [].

Definition hidden (u : list ascii) : Prop := overlap_free u new = true.

Lemma hidden_suffix u s : hidden u → s ∈ suffixes u → ¬ (starts s new = true ∨ starts new s = true).
Proof.
  unfold hidden, overlap_free. rewrite andb_true_iff, forallb_elem. intros [H _] Hs. specialize (H s Hs).
  apply negb_true_iff, orb_false_iff in H as [H1 H2]. rewrite H1, H2. by intros [].
Qed.

Lemma hidden_in_new u q : hidden u → q ∈ suffixes new → ¬ (starts q u = true ∨ starts u q = true).
Proof.
  unfold hidden, overlap_free. rewrite andb_true_iff, !forallb_elem. intros [_ H] Hs. specialize (H q Hs).
  apply negb_true_iff, orb_false_iff in H as [H1 H2]. rewrite H1, H2. by intros [].
Qed.

(** What begins the result began the text. *)
Lemma starts_replaced u s v : hidden u → (v = [] ∨ v ∈ suffixes u) → starts v (replace_chars old new 0 s) = true → starts v s = true.
Proof using old_ne.
  intros Hu. revert v. induction s as [|c s IH]; intros v Hv; [done|]. cbn [replace_chars]. destruct (starts old (c :: s)) eqn:Ho.
  - intros Hs. destruct Hv as [->|Hv]; [done|]. apply starts_app in Hs. by destruct (hidden_suffix _ _ Hu Hv Hs).
  - destruct v as [|a v]; [done|]. cbn. rewrite !andb_true_iff. intros [Ha Hs]. split; [done|]. apply IH; [|done].
    destruct Hv as [|Hv]; [done|]. destruct v as [|b v]; [by left|right]. clear -Hv. induction u as [|x u IH]; cbn in Hv; [by apply not_elem_of_nil in Hv|].
    apply elem_of_cons in Hv as [[= <- <-]|Hv]; cbn; right; [by left|by apply IH].
Qed.

Lemma occurs_drop u k s : occurs u (drop k s) = true → occurs u s = true.
Proof.
  revert k. induction s as [|c s IH]; intros k; [by destruct k|]. destruct k as [|k]; [done|]. cbn [drop]. intros H%IH. cbn. by rewrite H, orb_true_r.
Qed.

Lemma occurs_new u p r : (∀ q, q ∈ suffixes p → ¬ (starts q u = true ∨ starts u q = true)) → occurs u (p ++ r) = true → occurs u r = true.
Proof.
  induction p as [|c p IH]; [done|]. intros Hp. cbn [app occurs]. rewrite orb_true_iff. intros [H|H].
  - apply (starts_app u (c :: p) r) in H. destruct (Hp (c :: p)); [by left|tauto].
  - apply IH; [|done]. intros q Hq. apply Hp. by right.
Qed.

(** What occurs in the result occurred in the text, and is not what was
    replaced. *)
Lemma occurs_replaced u s k : hidden u → u ≠ [] → occurs u (replace_chars old new k s) = true → occurs u (drop k s) = true ∧ u ≠ old.
Proof using old_ne.
  intros Hu Hne. revert k. induction s as [|c s IH]; intros k.
  - cbn [replace_chars]. destruct u; [done|]. by destruct k.
  - cbn [replace_chars]. destruct k as [|k]; [|intros H%IH; exact H]. destruct (starts old (c :: s)) eqn:Ho.
    + intros H%occurs_new; [|intros q; by apply hidden_in_new]. apply IH in H as [H ?]. split; [|done]. cbn. by rewrite (occurs_drop _ _ _ H), orb_true_r.
    + cbn [occurs drop]. rewrite orb_true_iff. intros [H|H].
      * assert (starts u (c :: s) = true) as Hs.
        { destruct u as [|a u]; [done|]. cbn in H |- *. apply andb_true_iff in H as [-> H]. apply (starts_replaced (a :: u)) in H; [done|done|].
          destruct u as [|b u]; [by left|right]. cbn. right. by left. }
        split; [by rewrite Hs|]. intros ->. congruence.
      * apply IH in H as [H ?]. rewrite drop_0 in H. split; [|done]. by rewrite H, orb_true_r.
Qed.
End Replacing.

(** A value that can be hidden: not empty, apart from the placeholder. *)
Definition hideable (v : string) : bool := bool_decide (v ≠ EmptyString) && overlap_free (to_chars v) (to_chars REDACTED).

Lemma to_chars_nonempty v : v ≠ EmptyString → to_chars v ≠ [].
Proof. by destruct v. Qed.

Lemma redact_value_in u v text : hideable u = true → is_in u (redact_value text v) = true → is_in u text = true ∧ u ≠ v.
Proof.
  intros [Hu%bool_decide_eq_true Ho]%andb_true_iff. unfold redact_value. destruct (bool_decide (v ≠ EmptyString) && is_in v text) eqn:Hv.
  - apply andb_true_iff in Hv as [Hv%bool_decide_eq_true _]. unfold is_in, replace, to_chars, of_chars.
    rewrite String.list_ascii_of_string_of_list_ascii. intros H. apply occurs_replaced in H as [H Hne]; [|by apply to_chars_nonempty|done|by apply to_chars_nonempty].
    rewrite drop_0 in H. split; [done|]. by intros ->.
  - intros H. split; [done|]. intros ->. by rewrite (bool_decide_eq_true_2 _ Hu), H in Hv.
Qed.

Lemma redact_in r text u : hideable u = true → is_in u (redact r text) = true → is_in u text = true ∧ u ∉ r.
Proof.
  intros Hu. unfold redact. revert text. induction r as [|v r IH]; intros text H; [by split; [|apply not_elem_of_nil]|]. cbn in H.
  apply IH in H as [H Hr]. apply redact_value_in in H as [H Hv]; [|done]. split; [done|]. by intros [?|?]%elem_of_cons.
Qed.

(** C39: Redaction is complete: when every live value can be hidden (it is not
    empty and no part of it can come to lie in the placeholder), no live value
    occurs in a redacted text, in whatever order and however overlapping they
    occurred, so the sink's check passes; and nothing is brought into the text
    that could pass for another such value. *)
Theorem redaction_complete r text sink :
  forallb hideable r = true →
  holds_secret r (redact r text) = false ∧ assert_absent r (redact r text) sink = inr tt ∧
  ∀ u, hideable u = true → is_in u (redact r text) = true → is_in u text = true.
Proof.
  intros Hr. assert (holds_secret r (redact r text) = false) as H.
  { apply existsb_none. intros v Hv. rewrite forallb_elem in Hr. specialize (Hr v Hv). apply andb_false_iff. right.
    destruct (is_in v (redact r text)) eqn:Hin; [|done]. by apply redact_in in Hin as [_ Hn]. }
  split; [done|]. split; [unfold assert_absent; by rewrite H|]. intros u Hu Hin. by apply redact_in in Hin as [? _].
Qed.

Lemma redaction_complete_witness :
  redact ["hunter2"; "ter2s"] "the hunter2s and hunter2" = "the [REDACTED]s and [REDACTED]" ∧
  assert_absent ["hunter2"; "ter2s"] (redact ["hunter2"; "ter2s"] "the hunter2s and hunter2") "log" = inr tt.
Proof. split; [by vm_compute|]. apply (redaction_complete ["hunter2"; "ter2s"]). by vm_compute. Defined.

(** A value that overlaps the placeholder is not hidden. *)
Example placeholder_value : holds_secret ["D]x"; "y"] (redact ["D]x"; "y"] "yx") = true.
Proof. by vm_compute. Qed.

(** Of two values one of which contains the other, registered in this order, a
    part is left in clear. *)
Example part_in_clear : redact ["pass"; "pass-word"] "my pass-word" = "my [REDACTED]-word".
Proof. by vm_compute. Qed.

(** ** What a workload is given *)

Section Delivery.
Context {X : Type} `{!KeyProvider X}.
Variables (has_sink : bool) (injection_spec : option JsonValue → SecretExn + option SecretInjection).
Variables (bindings : list SecretBinding) (run_id : string) (ctx : TenantContext).

(** A value of a declared secret of the context's tenant. *)
Definition declared_value (v : string) : Prop :=
  ∃ b ref, b ∈ bindings ∧ parse_ref (sc_ref b) = inr ref ∧ render_ref ref ∈ sc_ref <$> bindings ∧ scopes ctx (sr_tenant_id ref) = true ∧
    ∃ k (w0 w1 : SecretWorld X) res, resolve ref k (Some ctx) w0 = (Ret res, w1) ∧ rs_value res = v.

(** It is hidden in the run's texts, unless it is empty. *)
Definition hidden_in (w : InjectWorld X) (v : string) : Prop := v = EmptyString ∨ v ∈ default [] (od_get run_id (nw_redactors w)).

Definition delivered (env : odict string string) (w : InjectWorld X) : Prop :=
  ∀ k v, od_get k env = Some v → declared_value v ∧ hidden_in w v.

Lemma register_elem value r v : v ∈ r ∨ (v = value ∧ v ≠ EmptyString) → v ∈ register value r.
Proof.
  unfold register. intros [Hv|[-> Hv]].
  - destruct (_ && _); [apply elem_of_app; by left|done].
  - rewrite bool_decide_eq_true_2 by done. case_bool_decide; [done|]. cbn. apply elem_of_app. right. by left.
Qed.

Lemma hide_keeps value (w : InjectWorld X) v : hidden_in w v ∨ v = value → hidden_in (hide has_sink run_id value w).2 v.
Proof.
  intros Hv. destruct (decide (v = EmptyString)) as [->|Hne]; [by left|]. right. unfold hide, modify, for_run. cbn.
  assert (v ∈ default [] (od_get run_id (nw_redactors w)) ∨ v = value) as Hv' by (unfold hidden_in in Hv; naive_solver).
  destruct (od_get run_id (nw_redactors w)) as [r|]; cbn in *; rewrite od_get_set_eq; cbn; apply register_elem; tauto.
Qed.

Lemma inject_inv ref injection workload allowed w i w' :
  inject has_sink ref injection run_id workload (Some ctx) (Some allowed) w = (Ret i, w') →
  render_ref ref ∈ allowed ∧ scopes ctx (sr_tenant_id ref) = true ∧ (∀ v, hidden_in w v → hidden_in w' v) ∧
  ∃ (w0 w1 : SecretWorld X) res, resolve ref workload (Some ctx) w0 = (Ret res, w1) ∧ hidden_in w' (rs_value res) ∧
    ∀ k v, od_get k (is_env i) = Some v → v = rs_value res.
Proof.
  unfold inject. case_bool_decide as Hin; [|done]. cbn [negb]. intros (res & w1 & Hres & H)%bind_inv.
  apply bind_inv in H as (u & w2 & Hh & H). injection H as <- <-. split; [done|].
  assert (nw_redactors w1 = nw_redactors w ∧ ∃ s0, resolve ref workload (Some ctx) (nw_secrets w) = (Ret res, s0)) as [Hr [s0 Hs0]].
  { unfold on_secrets in Hres. destruct (resolve _ _ _ _) as [o s0]. injection Hres as -> <-. split; [done|by exists s0]. }
  split.
  { unfold resolve in Hs0. destruct (scopes ctx (sr_tenant_id ref)); [done|]. by cbn in Hs0. }
  assert (w2 = (hide has_sink run_id (rs_value res) w1).2) as -> by by rewrite Hh. split.
  - intros v Hv. apply hide_keeps. left. unfold hidden_in in *. by rewrite Hr.
  - exists (nw_secrets w), s0, res. split; [done|]. split; [apply hide_keeps; by right|]. intros k v.
    assert (∀ nm, od_get k [(nm, rs_value res)] = Some v → v = rs_value res) as Hone by (intros nm; cbn; case_decide; congruence).
    destruct injection as [j|]; [destruct (si_kind j)|]; [apply Hone|done|apply Hone].
Qed.

Lemma od_update_get d e k v : od_wf e → od_get k (od_update d e) = Some v → od_get k e = Some v ∨ od_get k d = Some v.
Proof.
  unfold od_update. revert d. induction e as [|[k' v'] e IH]; intros d; [by right|]. intros [Hn Hwf]%NoDup_cons. cbn [foldl fst snd].
  intros H. destruct (IH _ Hwf H) as [He|He].
  - left. cbn. case_decide as Hk; [|done]. subst k'. exfalso. apply Hn. apply od_get_Some_elem in He. by apply (list_elem_of_fmap_2 fst _ (k, v)).
  - rewrite od_get_set in He. cbn. case_decide; [by left|by right].
Qed.

Lemma inject_each_delivers l workload w env out w' : (∀ b, b ∈ l → b ∈ bindings) → delivered env w →
  inject_each has_sink injection_spec l (sc_ref <$> bindings) run_id workload ctx env w = (Ret out, w') → delivered out w'.
Proof.
  revert w env. induction l as [|b l IH]; intros w env Hl Hd; cbn [inject_each]; [by intros [= <- <-]|].
  intros (ref & w1 & Href & H)%bind_inv. apply bind_inv in H as (inj & w2 & Hinj & H). apply bind_inv in H as (i & w3 & Hi & H).
  assert (parse_ref (sc_ref b) = inr ref ∧ w1 = w) as [Hp ->] by (unfold of_sum in Href; destruct (parse_ref (sc_ref b)); [done|by injection Href as -> <-]).
  assert (w2 = w) as -> by (unfold of_sum in Hinj; destruct (injection_spec _); [done|by injection Hinj as _ <-]).
  apply inject_inv in Hi as Hi'. destruct Hi' as (Hall & Hsc & Hk & w0 & w1 & res & Hres & Hhid & Henv).
  eapply IH; [intros b' Hb'; apply Hl; by right| |exact H]. intros k v Hv.
  assert (od_wf (is_env i)) as Hwf.
  { clear -Hi. unfold inject in Hi. destruct (negb _); [done|]. apply bind_inv in Hi as (r & w4 & _ & Hi). apply bind_inv in Hi as (u & w5 & _ & Hi).
    injection Hi as <- _. destruct inj as [j|]; [destruct (si_kind j)|]; cbn; apply NoDup_singleton || apply NoDup_nil_2. }
  destruct (od_update_get _ _ _ _ Hwf Hv) as [He|He].
  - apply Henv in He as ->. split; [|done]. exists b, ref. do 4 (split; [done || (apply Hl; by left)|]). by exists (Some workload), w0, w1, res.
  - destruct (Hd k v He) as [? ?]. split; [done|]. by apply Hk.
Qed.
End Delivery.

(** A workload is given its own secrets only, and hidden ones: every value
    [inject_for_workload] puts into a run's environment was resolved for a
    reference the manifest declares, of a tenant the run's context scopes, and
    is by then registered with the run's redactor (unless it is empty). *)
Theorem injected_values_declared {X} `{!KeyProvider X} has_sink injection_spec m run_id ctx (w : InjectWorld X) env w' :
  inject_for_workload has_sink injection_spec m run_id ctx w = (Ret env, w') →
  ∀ k v, od_get k env = Some v → declared_value (X := X) (sp_secrets (ma_spec m)) ctx v ∧ hidden_in run_id w' v.
Proof. intros H. eapply inject_each_delivers; [| |exact H]; [done|by intros k v]. Qed.
