(* ===== verification/Identity.v ===== *)
(** * The tenancy boundary of the API ([api/deps.py], [api/identity.py], [api/tenants.py])

    From a request to an authenticated principal, a permission and an acting
    tenant, and the endpoints for keys, logins, secrets, the access audit and
    tenants, over the services of [Auth], [Secrets] and [Tenants]. *)

From stdpp Require Import base strings pretty numbers gmap sets list.
From S2P Require Import Prelude Text Tenancy Tenants Auth Secrets.

#[local] Open Scope hp_scope.

(** What the boundary reads of a request. *)
Record Request := mkRequest { rq_authorization : option string; rq_tenant : option string; rq_team : option string }.

Inductive ApiExn :=
  | HttpError (status : Z)
  | ApiAuth (e : AuthExn)
  | ApiTenancy (e : TenancyExn)
  | ApiSecret (e : SecretExn).

Record IdentityWorld (X : Type) := mkIdentityWorld {
  iw_auth : AuthWorld X; iw_secrets : SecretStore; iw_consumers : odict (string * string) (list string) }.
Arguments mkIdentityWorld {X}.
Arguments iw_auth {X}.
Arguments iw_secrets {X}.
Arguments iw_consumers {X}.

(** ** The acting tenant *)

Section Boundary.
Variable auth_enabled : bool.

(** [resolve_tenant] *)
Definition resolve_tenant (r : Request) (principal : option OperatorIdentity) : ApiExn + TenantContext :=
  if negb auth_enabled then
    inr match rq_tenant r with
        | None => DEFAULT_CONTEXT
        | Some t => mkTenantContext t (rq_team r) None ADMIN None false
        end
  else
    match principal with
    | None => inl (HttpError 401)
    | Some i =>
        if bool_decide (oi_tenant_id i = SYSTEM_TENANT_ID) then
          inr match rq_tenant r with
              | None => mkTenantContext SYSTEM_TENANT_ID (rq_team r) (Some (oi_operator_id i)) ADMIN None true
              | Some t => mkTenantContext t (rq_team r) (Some (oi_operator_id i)) ADMIN None false
              end
        else if match rq_tenant r with Some t => negb (bool_decide (t = oi_tenant_id i)) | None => false end then inl (HttpError 403)
        else inr (mkTenantContext (oi_tenant_id i) (rq_team r) (Some (oi_operator_id i)) (oi_role i) None false)
    end.

(** [get_ingest_tenant_context]; the tenant of the trigger that the path names,
    if it exists, is an argument. *)
Definition get_ingest_tenant_context (r : Request) (trigger_tenant : option string) : ApiExn + TenantContext :=
  if negb auth_enabled then resolve_tenant r None
  else match (match rq_tenant r with Some t => Some t | None => trigger_tenant end) with
       | None => inl (HttpError 401)
       | Some t => inr (mkTenantContext t (rq_team r) None VIEWER None false)
       end.
End Boundary.

Section Api.
Context {X : Type} `{!KeyProvider X}.
Variables (env : AuthEnv X) (new_secret_id : X → string * X).

Abbreviation IM := (M (IdentityWorld X) ApiExn).

(** [settings.auth.enabled], which the services are built with too. *)
Definition enabled : bool := ev_auth_enabled env.

Definition lift_exn {E A} (f : E → ApiExn) (o : outcome E A) : outcome ApiExn A := match o with Ret a => Ret a | Raise e => Raise (f e) end.

Definition on_auth {A} (f : AuthExn → ApiExn) (m : M (AuthWorld X) AuthExn A) : IM A :=
  λ w, let '(o, a) := m (iw_auth w) in (lift_exn f o, mkIdentityWorld a (iw_secrets w) (iw_consumers w)).

Definition on_tenants {A} (m : TM A) : IM A :=
  λ w, let a := iw_auth w in
       let '(o, s) := m (aw_tenants a) in
       (lift_exn ApiTenancy o, mkIdentityWorld (mkAuthWorld s (aw_auth a) (aw_recent a) (aw_ext a)) (iw_secrets w) (iw_consumers w)).

Definition on_tenants_and_clock {A} (m : M (TenantStore * X) TenancyExn A) : IM A :=
  λ w, let a := iw_auth w in
       let '(o, (s, x)) := m (aw_tenants a, aw_ext a) in
       (lift_exn ApiTenancy o, mkIdentityWorld (mkAuthWorld s (aw_auth a) (aw_recent a) x) (iw_secrets w) (iw_consumers w)).

Definition on_secrets {A} (f : SecretExn → ApiExn) (m : M (SecretWorld X) SecretExn A) : IM A :=
  λ w, let a := iw_auth w in
       let '(o, s) := m (mkSecretWorld (iw_secrets w) (iw_consumers w) (aw_ext a)) in
       (lift_exn f o, mkIdentityWorld (mkAuthWorld (aw_tenants a) (aw_auth a) (aw_recent a) (sw_ext s)) (sw_store s) (sw_consumers s)).

(** [get_principal] *)
Definition anonymous : OperatorIdentity := mkIdentity "anonymous" "default" ADMIN SESSION [] None.

Definition principal_exn (e : AuthExn) : ApiExn :=
  match e with
  | AuthenticationError _ => HttpError 401
  | AuthTenancyError (TenantSuspendedError _) => HttpError 403
  | e => ApiAuth e
  end.

Definition get_principal (r : Request) : IM OperatorIdentity :=
  if negb enabled then ret anonymous
  else match strip_prefix "Bearer " (default EmptyString (rq_authorization r)) with
       | None => raise (HttpError 401)
       | Some token => on_auth principal_exn (authenticate_key env token None)
       end.

(** [require_permission] *)
Definition permission_exn (e : AuthExn) : ApiExn := match e with AuthorizationError _ _ => HttpError 403 | e => ApiAuth e end.

Definition require_permission (p : Permission) (r : Request) : IM OperatorIdentity :=
  let* i := get_principal r in
  on_auth permission_exn (authorize env i p None None) ;;; ret i.

(** [get_tenant_context]; it authenticates once more. *)
Definition get_tenant_context (r : Request) : IM TenantContext :=
  let* principal := (if enabled then let* i := get_principal r in ret (Some i) else ret None) in
  match resolve_tenant enabled r principal with inl e => raise e | inr ctx => ret ctx end.

(** ** Endpoints *)

Inductive ApiCall :=
  | CreateKey (role : Role) (scopes : list Scope) (label : option string)
  | ListKeys
  | RevokeKey (key_id : string)
  | Login (operator_id tenant_id : string) (role : Role) (ip : option string)
  | WhoAmI
  | AccessAudit (since : option Z) (limit offset : Z)
  | PutSecret (name value : string)
  | RotateSecret (name value : string)
  | ListSecrets
  | ShowSecret (name : string)
  | CreateTenant (tenant_id name : string) (quota : option TenantQuota)
  | ListTenants
  | SuspendTenant (tenant_id : string)
  | ReinstateTenant (tenant_id : string)
  | SetQuota (tenant_id : string) (quota : TenantQuota).

Inductive Response :=
  | RIssued (k : ApiKeyIssued)
  | RKeys (l : list ApiKeyRecord)
  | RKey (k : ApiKeyRecord)
  | RIdentity (i : OperatorIdentity)
  | RAudit (logins : list LoginEvent) (events : list AccessEvent)
  | RSecret (m : SecretMetadata)
  | RSecrets (l : list SecretMetadata)
  | RTenant (t : Tenant)
  | RTenants (l : list Tenant).

(** The permission an endpoint asks for. *)
Definition permission_of (c : ApiCall) : option Permission :=
  match c with
  | CreateKey _ _ _ | ListKeys | RevokeKey _ => Some KEYS_MANAGE
  | Login _ _ _ _ | WhoAmI => None
  | AccessAudit _ _ _ => Some FLEET_READ
  | PutSecret _ _ | RotateSecret _ _ | ListSecrets | ShowSecret _ => Some SECRETS_MANAGE
  | CreateTenant _ _ _ | SuspendTenant _ | ReinstateTenant _ | SetQuota _ _ => Some KEYS_MANAGE
  | ListTenants => Some FLEET_READ
  end.

Definition revoke_exn (e : AuthExn) : ApiExn := match e with AuthenticationError _ => HttpError 404 | e => ApiAuth e end.
Definition login_exn (e : AuthExn) : ApiExn := match e with AuthTenancyError (TenantSuspendedError _) => HttpError 403 | e => ApiAuth e end.
Definition secret_exn (e : SecretExn) : ApiExn :=
  match e with SecretAlreadyExistsError _ _ => HttpError 409 | e => ApiSecret e end.
Definition missing_secret_exn (e : SecretExn) : ApiExn := match e with SecretNotFoundError _ => HttpError 404 | e => ApiSecret e end.

Definition trusted_local : bool := negb enabled.

(** The body of an endpoint, for the acting context. *)
Definition body (c : ApiCall) (ctx : TenantContext) (principal : OperatorIdentity) : IM Response :=
  let t := tc_tenant_id ctx in
  match c with
  | CreateKey role scopes label => let* k := on_auth ApiAuth (create env t role ctx scopes label) in ret (RIssued k)
  | ListKeys => let* a := gets iw_auth in ret (RKeys (list_keys t ctx (aw_auth a)))
  | RevokeKey key_id => let* k := on_auth revoke_exn (revoke env key_id ctx) in ret (RKey k)
  | Login operator_id tenant_id role ip =>
      if enabled then raise (HttpError 403)
      else let* i := on_auth login_exn (login env operator_id tenant_id role SESSION [] ip) in ret (RIdentity i)
  | WhoAmI => ret (RIdentity principal)
  | AccessAudit since limit offset =>
      let* a := gets iw_auth in
      ret (RAudit (list_logins t since (Some limit) offset ctx (aw_auth a)) (list_access t since (Some limit) offset ctx (aw_auth a)))
  | PutSecret name value =>
      on_secrets secret_exn (put (ev_clock env) new_secret_id t name value ctx) ;;;
      let* m := on_secrets ApiSecret (metadata t name ctx) in ret (RSecret m)
  | RotateSecret name value =>
      on_secrets missing_secret_exn (rotate (ev_clock env) t name value ctx) ;;;
      let* m := on_secrets ApiSecret (metadata t name ctx) in ret (RSecret m)
  | ListSecrets => let* l := on_secrets ApiSecret (list_metadata t ctx) in ret (RSecrets l)
  | ShowSecret name => let* m := on_secrets missing_secret_exn (metadata t name ctx) in ret (RSecret m)
  | CreateTenant tenant_id name quota =>
      let* x := on_tenants_and_clock (create_tenant trusted_local (ev_clock env) ctx tenant_id name quota) in ret (RTenant x)
  | ListTenants => let* a := gets iw_auth in ret (RTenants (list_tenants ctx (aw_tenants a)))
  | SuspendTenant tenant_id => let* x := on_tenants (suspend_tenant trusted_local ctx tenant_id) in ret (RTenant x)
  | ReinstateTenant tenant_id => let* x := on_tenants (reinstate_tenant trusted_local ctx tenant_id) in ret (RTenant x)
  | SetQuota tenant_id quota => let* x := on_tenants (set_quota trusted_local ctx tenant_id quota) in ret (RTenant x)
  end.

(** Whether the tenant is resolved before the permission is checked. *)
Definition tenant_first (c : ApiCall) : bool :=
  match c with CreateTenant _ _ _ | ListTenants | SuspendTenant _ | ReinstateTenant _ | SetQuota _ _ => true | _ => false end.

(** An endpoint with its dependencies. *)
Definition handle (c : ApiCall) (r : Request) : IM Response :=
  match permission_of c with
  | Some p =>
      if tenant_first c then
        let* ctx := get_tenant_context r in let* i := require_permission p r in body c ctx i
      else
        let* i := require_permission p r in let* ctx := get_tenant_context r in body c ctx i
  | None =>
      match c with
      | WhoAmI => let* i := get_principal r in body c DEFAULT_CONTEXT i
      | _ => body c DEFAULT_CONTEXT anonymous
      end
  end.
End Api.
