(* ===== verification/IdentityIsolation.v ===== *)
(** * Requests stay in their tenant

    With authentication enabled, what requests of other tenants' keys do to the
    rows of a tenant, over any sequence of calls: nothing. *)

From stdpp Require Import base strings pretty numbers gmap sets list.
From S2P Require Import Prelude Text Tenancy Tenants Auth Secrets Identity.

#[local] Open Scope hp_scope.

(** A write to a row outside a filter. *)
Lemma filter_od_set {K V} `{EqDecision K} (P : K * V → Prop) `{∀ x, Decision (P x)} k v (d : odict K V) :
  (∀ old, od_get k d = Some old → ¬ P (k, old)) → ¬ P (k, v) → filter P (od_set k v d) = filter P d.
Proof.
  intros Ho Hv. induction d as [|[k' v'] d IH]; cbn [od_set]; [by rewrite filter_cons_False|]. cbn [od_get] in Ho. case_decide as Hk.
  - subst k'. rewrite !filter_cons_False; [done|by apply Ho|done].
  - rewrite !filter_cons. rewrite IH by done. done.
Qed.

Lemma filter_snoc_out {A} (P : A → Prop) `{∀ x, Decision (P x)} l x : ¬ P x → filter P (l ++ [x]) = filter P l.
Proof. intros H1. rewrite filter_app, filter_cons_False by done. cbn. by rewrite app_nil_r. Qed.

(** ** Computations within a relation on states *)

Section Within.
Context {W E : Type} (R : W → W → Prop) (Rtrans : ∀ w1 w2 w3, R w1 w2 → R w2 w3 → R w1 w3).

Definition within {A} (w : W) (r : outcome E A * W) (Q : A → Prop) : Prop := R w r.2 ∧ ∀ a, r.1 = Ret a → Q a.

Lemma within_bind {A B} w (m : M W E A) (k : A → M W E B) Q S :
  within w (m w) Q → (∀ a w1, m w = (Ret a, w1) → R w w1 → Q a → within w1 (k a w1) S) → within w (bind m k w) S.
Proof.
  intros [H1 H2] Hk. unfold bind. destruct (m w) as [[a|e] w1] eqn:Hm; cbn in *; [|done].
  destruct (Hk a w1 eq_refl H1 (H2 a eq_refl)) as [H3 H4]. split; [by eapply Rtrans|done].
Qed.

Lemma within_ret {A} w (a : A) (Q : A → Prop) : R w w → Q a → within w (ret a w) Q.
Proof. intros Hw HQ. split; [done|]. by intros b [= <-]. Qed.

Lemma within_raise {A} w e (Q : A → Prop) : R w w → within w (raise e w) Q.
Proof. by split. Qed.

Lemma within_gets {A} w (f : W → A) : R w w → within w (gets f w) (λ a, a = f w).
Proof. intros Hw. split; [done|]. by intros a [= <-]. Qed.

Lemma within_mono {A} w (r : outcome E A * W) (Q S : A → Prop) : within w r Q → (∀ a, Q a → S a) → within w r S.
Proof. intros [H1 H2] HS. split; [done|]. intros a Ha. by apply HS, H2. Qed.
End Within.

Section Isolation.
Context {X : Type} `{!KeyProvider X}.
Variables (env : AuthEnv X) (new_secret_id : X → string * X) (used : X → string → Prop).

(** Identifiers are not issued twice. *)
Record fresh_ids : Prop := {
  fr_clock : ∀ x i, used x i → used (ev_clock env x).2 i;
  fr_token : ∀ x i, used x i → used (ev_token env x).2 i;
  fr_key : ∀ x i, used x i → used (ev_key_id env x).2 i;
  fr_secret : ∀ x i, used x i → used (new_secret_id x).2 i;
  fr_encrypt : ∀ p x i, used x i → used (kp_encrypt p x).2 i;
  fr_key_new : ∀ x, ¬ used x (ev_key_id env x).1 ∧ used (ev_key_id env x).2 (ev_key_id env x).1;
  fr_secret_new : ∀ x, ¬ used x (new_secret_id x).1 ∧ used (new_secret_id x).2 (new_secret_id x).1;
}.

Hypothesis Hfresh : fresh_ids.
Variable t : string.

(** ** Keys and audit *)

Definition keys_inv (x : X) (s : AuthStore) : Prop := keys_ok (au_keys s) ∧ ∀ id k, od_get id (au_keys s) = Some k → used x id.

(** The key a token resolves to, if any, is of another tenant and not the
    system's. *)
Definition outsider (token : string) (s : AuthStore) : Prop :=
  ∀ k, resolves (hash_api_key env token) (au_keys s) = Some k → ak_tenant_id k ≠ t ∧ ak_tenant_id k ≠ SYSTEM_TENANT_ID.

Definition foreign (i : OperatorIdentity) : Prop := oi_tenant_id i ≠ t ∧ oi_tenant_id i ≠ SYSTEM_TENANT_ID.

(** What is kept of the tenant [t], the identifiers in use and the tokens of
    outsiders. *)
Record auth_kept (w w' : AuthWorld X) : Prop := {
  ke_inv : keys_inv (aw_ext w') (aw_auth w');
  ke_tenants : aw_tenants w' = aw_tenants w;
  ke_keys : filter (λ e, ak_tenant_id e.2 = t) (au_keys (aw_auth w')) = filter (λ e, ak_tenant_id e.2 = t) (au_keys (aw_auth w));
  ke_logins : filter (λ e, le_tenant_id e = t) (au_logins (aw_auth w')) = filter (λ e, le_tenant_id e = t) (au_logins (aw_auth w));
  ke_access : filter (λ e, ae_tenant_id e = t) (au_access (aw_auth w')) = filter (λ e, ae_tenant_id e = t) (au_access (aw_auth w));
  ke_used : ∀ i, used (aw_ext w) i → used (aw_ext w') i;
  ke_out : ∀ token, outsider token (aw_auth w) → outsider token (aw_auth w');
}.

Lemma auth_kept_trans w1 w2 w3 : auth_kept w1 w2 → auth_kept w2 w3 → auth_kept w1 w3.
Proof. intros [] []. split; [done|congruence..|auto|auto]. Qed.

Abbreviation ok := (within (E:=AuthExn) auth_kept).
Abbreviation inv w := (auth_kept w w).

Lemma inv_of w : keys_inv (aw_ext w) (aw_auth w) → inv w.
Proof. by split. Qed.

Lemma kept_inv w w' : auth_kept w w' → inv w'.
Proof. intros H. apply inv_of, H. Qed.

(** A step of the clock, of the token factory or of the identifiers. *)
Lemma ok_ext {A} (f : X → A * X) w : (∀ x i, used x i → used (f x).2 i) → inv w → ok w (Auth.on_ext f w) (λ a, a = (f (aw_ext w)).1).
Proof.
  intros Hf [[Hk Hu]]. unfold Auth.on_ext. specialize (Hf (aw_ext w)). destruct (f (aw_ext w)) as [a x]. cbn in *.
  split; [|by intros ? [= ->]]. split; try done. split; [done|]. intros id k Hid. by eapply Hf, Hu.
Qed.

Lemma ok_require ctx t' w : inv w → ok w (Auth.require_scope ctx t' w) (λ _, scopes ctx t' = true).
Proof. intros Hw. unfold Auth.require_scope, require. destruct (scopes ctx t'); by split. Qed.

Lemma ok_modify w f : inv w → auth_kept w (f w) → ok w (modify f w) (λ _, True).
Proof. by split. Qed.

(** Writing a key of an outside tenant under an identifier that no key has, or
    a key of the same hash and tenant. *)
Lemma ok_save_key k ctx w : inv w → ak_tenant_id k ≠ t → ak_tenant_id k ≠ SYSTEM_TENANT_ID → used (aw_ext w) (ak_key_id k) →
  match od_get (ak_key_id k) (au_keys (aw_auth w)) with
  | None => True
  | Some old => ak_tenant_id old = ak_tenant_id k ∧ ak_hashed_key k = ak_hashed_key old
  end → ok w (save_key k ctx w) (λ _, True).
Proof.
  intros Hw Hne Hns Hu Hold. unfold save_key. eapply within_bind; [apply auth_kept_trans|by apply ok_require|]. intros [] w1 Hr _ _.
  apply require_scope_inv in Hr as [-> _]. pose proof (ke_inv _ _ Hw) as [Hk Hids]. apply ok_modify; [done|]. split; try done; cbn.
  - split; [by apply keys_ok_set|]. intros id k' Hg. cbn in Hg. rewrite od_get_set in Hg. case_decide; [by subst|by eapply Hids].
  - apply filter_od_set; [|done]. intros old Ho. rewrite Ho in Hold. cbn. by destruct Hold as [-> _].
  - intros token Hout k'. cbn [au_keys aw_auth set_auth modify fst snd]. destruct (od_get _ _) as [old|] eqn:Ho.
    + destruct Hold as [Ht Hh]. erewrite resolves_update; [|done|exact Ho|done]. unfold outsider in Hout.
      destruct (resolves _ _) as [r|] eqn:Hres; [|done]. intros [= <-]. case_decide; [done|by apply Hout].
    + rewrite od_set_fresh by by unfold od_mem; rewrite Ho. rewrite resolves_app. unfold outsider in Hout.
      destruct (resolves _ (au_keys _)) as [r|] eqn:Hres; [by intros [= <-]; apply Hout|].
      rewrite resolves_cons. case_decide; [by intros [= <-]|done].
Qed.

Lemma ok_save_login e ctx w : inv w → le_tenant_id e ≠ t → ok w (save_login e ctx w) (λ _, True).
Proof.
  intros Hw Hne. unfold save_login. eapply within_bind; [apply auth_kept_trans|by apply ok_require|]. intros [] w1 Hr Hw1 _.
  apply ok_modify; [by eapply kept_inv|]. destruct Hw1 as [[Hk Hids]]. split; try done; cbn. by apply filter_snoc_out.
Qed.

Lemma ok_save_access e ctx w : inv w → ae_tenant_id e ≠ t → ok w (save_access e ctx w) (λ _, True).
Proof.
  intros Hw Hne. unfold save_access. eapply within_bind; [apply auth_kept_trans|by apply ok_require|]. intros [] w1 Hr Hw1 _.
  apply ok_modify; [by eapply kept_inv|]. destruct Hw1 as [[Hk Hids]]. split; try done; cbn. by apply filter_snoc_out.
Qed.

Tactic Notation "chain" simple_intropattern_list(l) := eapply within_bind; [apply auth_kept_trans| |intros l].

Lemma ok_authorize i p a g w : inv w → foreign i → ok w (authorize env i p a g w) (λ _, True).
Proof.
  intros Hw [Hi _]. unfold authorize. chain s w0 [= <- <-] _ _; [by apply within_gets|].
  assert (∀ r label w1, inv w1 → ok w1 ((let* tm := now env in
    save_access (mkAccess (oi_tenant_id i) (oi_operator_id i) (oi_method i) label g r tm) (context_for_run (oi_tenant_id i) None None)) w1) (λ _, True)) as Ha.
  { intros r label w1 Hw1. chain tm w2 _ Hw2 _; [apply ok_ext; [apply (fr_clock Hfresh)|done]|]. apply ok_save_access; [by eapply kept_inv|done]. }
  destruct (has_permission _ p); [by apply Ha|]. chain u w1 _ Hw1 _; [by apply Ha|]. apply within_raise. by eapply kept_inv.
Qed.

Lemma ok_authenticate token w : inv w → outsider token (aw_auth w) → ok w (authenticate env token w) foreign.
Proof.
  intros Hw Hout. unfold authenticate. chain s w0 [= <- <-] _ _; [by apply within_gets|].
  destruct (find_key_by_hash _ _) as [k|] eqn:Hf; [|by apply within_raise]. destruct (ak_revoked_at k); [by apply within_raise|].
  destruct (Hout k Hf) as [Hkt Hks]. pose proof (ke_inv _ _ Hw) as [Hok Hids].
  pose proof (resolves_elem _ _ _ Hok Hf) as Hel.
  chain tm w1 Hn Hw1 _; [apply ok_ext; [apply (fr_clock Hfresh)|done]|]. pose proof (auth_now_inv _ _ _ _ Hn) as Hsame.
  chain u w2 _ Hw2 _; [|apply within_ret; [by eapply kept_inv|done]]. apply ok_save_key; [by eapply kept_inv|done..| |].
  - apply (ke_used _ _ Hw1). by eapply Hids.
  - cbn. rewrite Hsame, Hel. done.
Qed.

Lemma ok_active t' w : inv w → ok w (ensure_active env t' w) (λ _, True).
Proof.
  intros Hw. unfold ensure_active. destruct (negb _); [by apply within_ret|]. chain s w0 [= _ <-] _ _; [by apply within_gets|].
  destruct (require_active _ _ _) as [[]|]; first [by apply within_raise|by apply within_ret].
Qed.

Lemma ok_record i m w : inv w → ok w (should_record_login env i m w) (λ _, True).
Proof.
  intros Hw. unfold should_record_login. chain tm w1 _ Hw1 _; [apply ok_ext; [apply (fr_clock Hfresh)|done]|].
  apply kept_inv in Hw1. chain recent w2 [= <- <-] _ _; [by apply within_gets|].
  destruct (from_option _ _ _); [by apply within_ret|]. chain u w3 _ Hw3 _; [apply ok_modify; [done|by destruct Hw1]|]. apply within_ret; [by eapply kept_inv|done].
Qed.

Lemma ok_authenticate_key token ip w : inv w → outsider token (aw_auth w) → ok w (authenticate_key env token ip w) foreign.
Proof.
  intros Hw Hout. unfold authenticate_key. chain i w1 _ Hw1 Hi; [by apply ok_authenticate|]. apply kept_inv in Hw1.
  chain u w2 _ Hw2 _; [by apply ok_active|]. apply kept_inv in Hw2. chain due w3 _ Hw3 _; [by apply ok_record|]. apply kept_inv in Hw3.
  apply (within_bind _ auth_kept_trans _ _ _ (λ _, True)); [|intros u' w4 _ Hw4 _; apply within_ret; [by eapply kept_inv|done]].
  destruct due; [|by apply within_ret].
  chain tm w5 _ Hw5 _; [by apply ok_ext; [apply (fr_clock Hfresh)|]|]. apply ok_save_login; [by eapply kept_inv|apply Hi].
Qed.

(** Contexts of other tenants. *)
Definition outside (ctx : TenantContext) : Prop := tc_tenant_id ctx ≠ t ∧ tc_tenant_id ctx ≠ SYSTEM_TENANT_ID ∧ tc_is_system ctx = false.

Lemma outside_scopes ctx t' : outside ctx → scopes ctx t' = true → t' = tc_tenant_id ctx.
Proof. intros (_ & _ & Hs) [H|H]%scopes_other; congruence. Qed.

Lemma on_ext_inv {A} (f : X → A * X) w a w' : Auth.on_ext f w = (Ret a, w') → a = (f (aw_ext w)).1 ∧ aw_ext w' = (f (aw_ext w)).2 ∧ aw_auth w' = aw_auth w.
Proof. unfold Auth.on_ext. destruct (f (aw_ext w)). by intros [= <- <-]. Qed.

Lemma ok_create role ctx sc label w : inv w → outside ctx → ok w (create env (tc_tenant_id ctx) role ctx sc label w) (λ _, True).
Proof.
  intros Hw (Ht & Hs & _). unfold create. chain u w0 Hr _ _; [by apply ok_require|]. apply require_scope_inv in Hr as [-> _].
  chain token w1 _ Hw1 _; [by apply ok_ext; [apply (fr_token Hfresh)|]|].
  pose proof (ke_inv _ _ Hw1) as [_ Hids]. apply kept_inv in Hw1.
  chain id w2 Hid Hw2 _; [by apply ok_ext; [apply (fr_key Hfresh)|]|]. apply on_ext_inv in Hid as (-> & Hx & Hsame).
  destruct (fr_key_new Hfresh (aw_ext w1)) as [Hnew Hused]. rewrite <-Hx in Hused.
  apply kept_inv in Hw2. chain tm w3 Hnow Hw3 _; [by apply ok_ext; [apply (fr_clock Hfresh)|]|]. apply on_ext_inv in Hnow as (_ & _ & Hsame2).
  pose proof (kept_inv _ _ Hw3) as Hi. destruct (key_valid _); [|by apply within_raise].
  chain u' w4 _ Hw4 _; [|apply within_ret; [by eapply kept_inv|done]]. apply ok_save_key; [done..| |].
  - by apply (ke_used _ _ Hw3).
  - cbn. rewrite Hsame2, Hsame. destruct (od_get _ (au_keys (aw_auth w1))) as [old|] eqn:Ho; [|done]. destruct Hnew. by eapply Hids.
Qed.

Lemma ok_revoke key_id ctx w : inv w → outside ctx → ok w (revoke env key_id ctx w) (λ _, True).
Proof.
  intros Hw Hctx. unfold revoke. chain s w0 [= <- <-] _ _; [by apply within_gets|].
  destruct (get_key key_id ctx (aw_auth w)) as [k|] eqn:Hk; [|by apply within_raise].
  assert (scopes ctx (ak_tenant_id k) = true ∧ od_get key_id (au_keys (aw_auth w)) = Some k) as [Hsc Hget].
  { unfold get_key in Hk. destruct (od_get _ _) as [k'|]; [|done]. destruct (scopes ctx (ak_tenant_id k')) eqn:Hs; [|done]. by injection Hk as ->. }
  apply (outside_scopes _ _ Hctx) in Hsc. destruct Hctx as (Ht & Hs & _). pose proof (ke_inv _ _ Hw) as [[Hwf Hall] Hids].
  assert (ak_key_id k = key_id) as Hid. { rewrite Forall_forall in Hall. apply (Hall (key_id, k)). by apply od_get_Some_elem. }
  chain tm w1 Hnow Hw1 _; [by apply ok_ext; [apply (fr_clock Hfresh)|]|]. apply on_ext_inv in Hnow as (_ & _ & Hsame).
  chain u w2 _ Hw2 _; [|apply within_ret; [by eapply kept_inv|done]]. apply ok_save_key; [by eapply kept_inv|by cbn; rewrite Hsc..| |].
  - apply (ke_used _ _ Hw1). cbn. rewrite Hid. by eapply Hids.
  - cbn. by rewrite Hsame, Hid, Hget.
Qed.

(** ** Secrets *)

(** A secret's identifier belongs to one tenant, whose rows its versions are. *)
Record secrets_inv (x : X) (s : SecretStore) : Prop := {
  si_key : ∀ k r, od_get k (ss_secrets s) = Some r → k = (sc_tenant_id r, sc_name r) ∧ used x (sc_secret_id r);
  si_owner : ∀ k k' r r', od_get k (ss_secrets s) = Some r → od_get k' (ss_secrets s) = Some r' →
    sc_secret_id r = sc_secret_id r' → sc_tenant_id r = sc_tenant_id r';
  si_version : ∀ i v, od_get i (ss_versions s) = Some v →
    used x i.1 ∧ ∀ k r, od_get k (ss_secrets s) = Some r → sc_secret_id r = i.1 → sc_tenant_id r = sv_tenant_id v;
  si_tenants : ∀ i, od_get i (ss_version_tenants s) = sv_tenant_id <$> od_get i (ss_versions s);
}.

Lemma secrets_inv_mono x x' s : (∀ i, used x i → used x' i) → secrets_inv x s → secrets_inv x' s.
Proof. intros Hu []. split; naive_solver. Qed.

Record secrets_kept (w w' : SecretWorld X) : Prop := {
  sk_inv : secrets_inv (sw_ext w') (sw_store w');
  sk_consumers : sw_consumers w' = sw_consumers w;
  sk_secrets : filter (λ e, e.1.1 = t) (ss_secrets (sw_store w')) = filter (λ e, e.1.1 = t) (ss_secrets (sw_store w));
  sk_versions : filter (λ e, sv_tenant_id e.2 = t) (ss_versions (sw_store w')) = filter (λ e, sv_tenant_id e.2 = t) (ss_versions (sw_store w));
  sk_version_tenants : filter (λ e, e.2 = t) (ss_version_tenants (sw_store w')) = filter (λ e, e.2 = t) (ss_version_tenants (sw_store w));
  sk_used : ∀ i, used (sw_ext w) i → used (sw_ext w') i;
}.

Lemma secrets_kept_trans w1 w2 w3 : secrets_kept w1 w2 → secrets_kept w2 w3 → secrets_kept w1 w3.
Proof. intros [] []. split; [done|congruence..|auto]. Qed.

Abbreviation oks := (within (E:=SecretExn) secrets_kept).
Abbreviation sinv w := (secrets_kept w w).

Lemma secrets_kept_inv w w' : secrets_kept w w' → sinv w'.
Proof. intros []. by split. Qed.

Tactic Notation "chains" simple_intropattern_list(l) := eapply within_bind; [apply secrets_kept_trans| |intros l].

Lemma oks_ext {A} (f : X → A * X) w : (∀ x i, used x i → used (f x).2 i) → sinv w → oks w (Secrets.on_ext f w) (λ _, True).
Proof.
  intros Hf [Hi]. unfold Secrets.on_ext. specialize (Hf (sw_ext w)). destruct (f (sw_ext w)) as [a x]. cbn in *.
  split; [|done]. split; try done. by eapply secrets_inv_mono.
Qed.

Lemma oks_require ctx t' w : sinv w → oks w (Secrets.require_scope ctx t' w) (λ _, scopes ctx t' = true).
Proof. intros Hw. unfold Secrets.require_scope, require. destruct (scopes ctx t'); by split. Qed.

Lemma secrets_require_inv ctx t' (w w1 : SecretWorld X) u : Secrets.require_scope (X:=X) ctx t' w = (Ret u, w1) → w1 = w ∧ scopes ctx t' = true.
Proof. unfold Secrets.require_scope, require. destruct (scopes ctx t'); [|done]. by intros [= _ <-]. Qed.

Lemma secrets_ext_inv {A} (f : X → A * X) w a w' : Secrets.on_ext f w = (Ret a, w') →
  a = (f (sw_ext w)).1 ∧ sw_ext w' = (f (sw_ext w)).2 ∧ sw_store w' = sw_store w.
Proof. unfold Secrets.on_ext. destruct (f (sw_ext w)). by intros [= <- <-]. Qed.

Lemma oks_save_secret r ctx w : sinv w → sc_tenant_id r ≠ t → used (sw_ext w) (sc_secret_id r) →
  (∀ k r', od_get k (ss_secrets (sw_store w)) = Some r' → sc_secret_id r' = sc_secret_id r → sc_tenant_id r' = sc_tenant_id r) →
  (∀ i v, od_get i (ss_versions (sw_store w)) = Some v → i.1 = sc_secret_id r → sv_tenant_id v = sc_tenant_id r) →
  oks w (save_secret r ctx w) (λ _, True).
Proof.
  intros Hw Ht Hu Hown Hver. unfold save_secret. chains u w1 Hr _ _; [by apply oks_require|]. apply secrets_require_inv in Hr as [-> _].
  split; [|done]. destruct (sk_inv _ _ Hw) as [H1 H2 H3 H4]. split; try done; cbn; [|apply filter_od_set; [|done]; by intros].
  split; cbn.
  - intros k r'. rewrite od_get_set. case_decide; [by intros [= <-]; subst|by apply H1].
  - intros k k' r1 r2. rewrite !od_get_set. case_decide; case_decide; [by intros [= <-] [= <-]|intros [= <-] Hg He; symmetry; by eapply Hown|
      intros Hg [= <-] He; by eapply Hown|by apply H2].
  - intros i v Hi. destruct (H3 i v Hi) as [Hui Hvi]. split; [done|]. intros k r'. rewrite od_get_set. case_decide; [|by apply Hvi].
    intros [= <-] He. symmetry. by eapply Hver.
  - done.
Qed.

Lemma oks_save_version v ctx w : sinv w → sv_tenant_id v ≠ t → used (sw_ext w) (sv_secret_id v) →
  (∀ old, od_get (sv_secret_id v, sv_version v) (ss_versions (sw_store w)) = Some old → sv_tenant_id old = sv_tenant_id v) →
  (∀ k r, od_get k (ss_secrets (sw_store w)) = Some r → sc_secret_id r = sv_secret_id v → sc_tenant_id r = sv_tenant_id v) →
  oks w (save_version v ctx w) (λ _, True).
Proof.
  intros Hw Ht Hu Hold Hown. unfold save_version. chains u w1 Hr _ _; [by apply oks_require|]. apply secrets_require_inv in Hr as [-> _].
  split; [|done]. destruct (sk_inv _ _ Hw) as [H1 H2 H3 H4]. split; try done; cbn.
  - split; cbn; [done..| |].
    + intros i v'. rewrite od_get_set. case_decide; [intros [= <-]; subst; split; [done|by apply Hown]|by apply H3].
    + intros i. rewrite !od_get_set. case_decide; [done|by apply H4].
  - apply filter_od_set; [|done]. intros old Ho. cbn. by rewrite (Hold old Ho).
  - apply filter_od_set; [|done]. intros old Ho. cbn. rewrite H4 in Ho. destruct (od_get _ (ss_versions _)) as [o|] eqn:Hg; [|done].
    injection Ho as <-. by rewrite (Hold o eq_refl).
Qed.

Lemma save_version_inv v ctx (w w' : SecretWorld X) u : save_version v ctx w = (Ret u, w') →
  sw_ext w' = sw_ext w ∧ ss_secrets (sw_store w') = ss_secrets (sw_store w) ∧
  ss_versions (sw_store w') = od_set (sv_secret_id v, sv_version v) v (ss_versions (sw_store w)).
Proof. intros (u1 & w1 & [-> _]%secrets_require_inv & H)%bind_inv. by injection H as _ <-. Qed.

(** A version for a secret whose identifier no other tenant uses. *)
Lemma oks_store sid t' name version value tm ctx w : sinv w → t' ≠ t → used (sw_ext w) sid →
  (∀ i v, od_get i (ss_versions (sw_store w)) = Some v → i.1 = sid → sv_tenant_id v = t') →
  (∀ k r, od_get k (ss_secrets (sw_store w)) = Some r → sc_secret_id r = sid → sc_tenant_id r = t') →
  oks w (encrypt_and_store sid t' name version value tm ctx w) (λ _, True) ∧
  ∀ u w', encrypt_and_store sid t' name version value tm ctx w = (Ret u, w') → used (sw_ext w') sid ∧
    (∀ i v, od_get i (ss_versions (sw_store w')) = Some v → i.1 = sid → sv_tenant_id v = t') ∧
    (∀ k r, od_get k (ss_secrets (sw_store w')) = Some r → sc_secret_id r = sid → sc_tenant_id r = t').
Proof.
  intros Hw Ht Hu Hv Hr. unfold encrypt_and_store. split.
  - chains e w1 He Hw1 _; [by apply oks_ext; [apply (fr_encrypt Hfresh)|]|]. apply secrets_ext_inv in He as (_ & _ & Hs).
    pose proof (secrets_kept_inv _ _ Hw1) as Hi. destruct (_ || _); [by apply within_raise|]. apply oks_save_version; cbn; [done..| | |].
    + by apply (sk_used _ _ Hw1).
    + intros old. rewrite Hs. intros Ho. by apply (Hv _ _ Ho).
    + rewrite Hs. exact Hr.
  - intros u w' (e & w1 & He & H)%bind_inv. apply secrets_ext_inv in He as (_ & Hx & Hs). destruct (_ || _); [done|].
    apply save_version_inv in H as (Hx' & Hs' & Hv'). split_and!.
    + rewrite Hx', Hx. by apply (fr_encrypt Hfresh).
    + intros i v. rewrite Hv', Hs, od_get_set. case_decide; [by intros [= <-]|apply Hv].
    + rewrite Hs', Hs. exact Hr.
Qed.

Lemma require_secret_inv t' name ctx (w w' : SecretWorld X) r : require_secret (X:=X) t' name ctx w = (Ret r, w') →
  w' = w ∧ od_get (t', name) (ss_secrets (sw_store w)) = Some r.
Proof.
  unfold require_secret, bind, gets, of_option, get_secret. destruct (scopes ctx t'); [|done]. destruct (od_get _ _); [|done]. by intros [= <- <-].
Qed.

Lemma oks_require_secret t' name ctx w : sinv w → oks w (require_secret t' name ctx w) (λ _, True).
Proof. intros Hw. unfold require_secret, bind, gets, of_option. destruct (get_secret _ _ _ _); by split. Qed.

Lemma oks_put name value ctx w : sinv w → outside ctx → oks w (put (ev_clock env) new_secret_id (tc_tenant_id ctx) name value ctx w) (λ _, True).
Proof.
  intros Hw (Ht & _). unfold put. chains s w0 [= <- <-] _ _; [by apply within_gets|]. destruct (get_secret _ _ _ _); [by apply within_raise|].
  pose proof (sk_inv _ _ Hw) as [H1 _ H3 _].
  chains sid w1 Hid Hw1 _; [by apply oks_ext; [apply (fr_secret Hfresh)|]|]. apply secrets_ext_inv in Hid as (-> & Hx & Hs).
  destruct (fr_secret_new Hfresh (sw_ext w)) as [Hnew Hused]. rewrite <-Hx in Hused. apply secrets_kept_inv in Hw1.
  chains tm w2 Hn Hw2 _; [by apply oks_ext; [apply (fr_clock Hfresh)|]|]. apply secrets_ext_inv in Hn as (_ & Hx2 & Hs2).
  pose proof (secrets_kept_inv _ _ Hw2) as Hi2.
  edestruct (oks_store (new_secret_id (sw_ext w)).1 (tc_tenant_id ctx) name 1 value tm ctx w2 Hi2 Ht) as [Hok Hpost]; [by apply (sk_used _ _ Hw2)|rewrite Hs2, Hs..|].
  { intros i v Hg He. destruct Hnew. rewrite <-He. apply (H3 i v Hg). }
  { intros k r Hg He. destruct Hnew. rewrite <-He. apply (H1 k r Hg). }
  chains u w3 He Hw3 _; [exact Hok|]. destruct (Hpost _ _ He) as (Hu & Hv & Hr).
  chains u' w4 _ Hw4 _; [|apply within_ret; [by eapply secrets_kept_inv|done]]. by apply oks_save_secret; [eapply secrets_kept_inv|..].
Qed.

Lemma oks_rotate name value ctx w : sinv w → outside ctx → oks w (rotate (ev_clock env) (tc_tenant_id ctx) name value ctx w) (λ _, True).
Proof.
  intros Hw (Ht & _). unfold rotate. pose proof (sk_inv _ _ Hw) as [H1 H2 H3 _].
  chains r w0 Hr _ _; [by apply oks_require_secret|]. apply require_secret_inv in Hr as [-> Hr]. destruct (H1 _ _ Hr) as [Hk Hu]. injection Hk as Hrt Hrn.
  chains tm w2 Hn Hw2 _; [by apply oks_ext; [apply (fr_clock Hfresh)|]|]. apply secrets_ext_inv in Hn as (_ & Hx2 & Hs2).
  pose proof (secrets_kept_inv _ _ Hw2) as Hi2.
  edestruct (oks_store (sc_secret_id r) (tc_tenant_id ctx) name (sc_current_version r + 1) value tm ctx w2 Hi2 Ht) as [Hok Hpost]; [by apply (sk_used _ _ Hw2)|rewrite Hs2..|].
  { intros i v Hg Hi. rewrite Hrt. symmetry. by eapply (proj2 (H3 i v Hg)). }
  { intros k r' Hg He. rewrite Hrt. by eapply H2. }
  chains u w3 He Hw3 _; [exact Hok|]. destruct (Hpost _ _ He) as (Hu3 & Hv & Hown).
  chains u' w4 _ Hw4 _; [|apply within_ret; [by eapply secrets_kept_inv|done]]. apply oks_save_secret; cbn; rewrite <-?Hrt; first [done|by eapply secrets_kept_inv].
Qed.

Lemma oks_metadata name ctx w : sinv w → oks w (metadata (tc_tenant_id ctx) name ctx w) (λ _, True).
Proof.
  intros Hw. unfold metadata. chains r w0 Hr _ _; [by apply oks_require_secret|]. apply require_secret_inv in Hr as [-> Hr]. by split.
Qed.

(** ** Requests *)

(** Everything the stores hold of the tenant. *)
Definition tenant_view (w : IdentityWorld X) :=
  let a := iw_auth w in let s := iw_secrets w in
  (tenant_rows t (aw_tenants a), filter (λ e, ak_tenant_id e.2 = t) (au_keys (aw_auth a)),
   filter (λ e, le_tenant_id e = t) (au_logins (aw_auth a)), filter (λ e, ae_tenant_id e = t) (au_access (aw_auth a)),
   filter (λ e, e.1.1 = t) (ss_secrets s), filter (λ e, sv_tenant_id e.2 = t) (ss_versions s),
   filter (λ e, e.2 = t) (ss_version_tenants s), filter (λ e, e.1.1 = t) (iw_consumers w)).

Definition identity_inv (w : IdentityWorld X) : Prop :=
  keys_inv (aw_ext (iw_auth w)) (aw_auth (iw_auth w)) ∧ secrets_inv (aw_ext (iw_auth w)) (iw_secrets w).

Record identity_kept (w w' : IdentityWorld X) : Prop := {
  ki_inv : identity_inv w';
  ki_view : tenant_view w' = tenant_view w;
  ki_out : ∀ token, outsider token (aw_auth (iw_auth w)) → outsider token (aw_auth (iw_auth w'));
}.

Lemma identity_kept_trans w1 w2 w3 : identity_kept w1 w2 → identity_kept w2 w3 → identity_kept w1 w3.
Proof. intros [] []. split; [done|congruence|auto]. Qed.

Abbreviation oki := (within (E:=ApiExn) identity_kept).
Abbreviation iinv w := (identity_kept w w).

Lemma iinv_of w : identity_inv w → iinv w.
Proof. by split. Qed.

Lemma identity_kept_inv w w' : identity_kept w w' → iinv w'.
Proof. intros H. apply iinv_of, H. Qed.

Tactic Notation "chaini" simple_intropattern_list(l) := eapply within_bind; [apply identity_kept_trans| |intros l].

Lemma oki_auth {A} (f : AuthExn → ApiExn) (m : M (AuthWorld X) AuthExn A) w Q :
  iinv w → ok (iw_auth w) (m (iw_auth w)) Q → oki w (on_auth f m w) Q.
Proof.
  intros [[Hk Hs]] [H1 H2]. unfold on_auth. destruct (m (iw_auth w)) as [o a]. cbn in *. split; cbn.
  - destruct H1. split; cbn; [split; [done|by eapply secrets_inv_mono]|unfold tenant_view; cbn; congruence|done].
  - intros b Hb. apply H2. destruct o; cbn in Hb; congruence.
Qed.

Lemma oki_secrets {A} (f : SecretExn → ApiExn) (m : M (SecretWorld X) SecretExn A) w Q :
  (∀ v, sinv v → oks v (m v) Q) → iinv w → oki w (on_secrets f m w) Q.
Proof.
  intros Hm [[[Hk Hids] Hs]]. unfold on_secrets. set (v := mkSecretWorld (iw_secrets w) (iw_consumers w) (aw_ext (iw_auth w))).
  destruct (Hm v) as [H1 H2]; [by split|]. destruct (m v) as [o s]. cbn in *. split; cbn.
  - destruct H1. split; cbn; [split; [split; [done|by naive_solver]|done]|unfold tenant_view; cbn; subst v; cbn in *; congruence|done].
  - intros b Hb. apply H2. destruct o; cbn in Hb; congruence.
Qed.

Lemma oki_tenants {A} (m : TM A) w : iinv w → tenant_rows t (m (aw_tenants (iw_auth w))).2 = tenant_rows t (aw_tenants (iw_auth w)) →
  oki w (on_tenants m w) (λ _, True).
Proof.
  intros [[Hk Hs]] Hrows. unfold on_tenants. destruct (m _) as [o s]. cbn in *. split; [|done].
  split; cbn; [by split|unfold tenant_view; cbn; congruence|done].
Qed.

Hypothesis Hen : ev_auth_enabled env = true.

(** The request's token, if it has one, is an outsider's. *)
Definition request_outside (r : Request) (w : IdentityWorld X) : Prop :=
  ∀ token, strip_prefix "Bearer " (default EmptyString (rq_authorization r)) = Some token → outsider token (aw_auth (iw_auth w)).

Lemma request_kept r w w' : identity_kept w w' → request_outside r w → request_outside r w'.
Proof. intros Hk Hr token Ht. by eapply ki_out, Hr. Qed.

Lemma oki_principal r w : iinv w → request_outside r w → oki w (get_principal env r w) foreign.
Proof.
  intros Hw Hr. unfold get_principal, enabled. rewrite Hen. cbn [negb]. destruct (strip_prefix _ _) as [token|] eqn:Ht; [|by apply within_raise].
  apply oki_auth; [done|]. apply ok_authenticate_key; [apply inv_of, Hw|by apply Hr].
Qed.

Lemma oki_permission p r w : iinv w → request_outside r w → oki w (require_permission env p r w) (λ _, True).
Proof.
  intros Hw Hr. unfold require_permission. chaini i w1 _ Hw1 Hi; [by apply oki_principal|]. pose proof (identity_kept_inv _ _ Hw1) as Hi1.
  chaini u w2 _ Hw2 _; [apply oki_auth; [done|]; apply ok_authorize; [apply inv_of, Hi1|done]|]. apply within_ret; [by eapply identity_kept_inv|done].
Qed.

Lemma oki_context r w : iinv w → request_outside r w → oki w (get_tenant_context env r w) outside.
Proof.
  intros Hw Hr. unfold get_tenant_context, enabled. rewrite Hen. unfold bind at 2.
  pose proof (oki_principal r w Hw Hr) as [H1 H2]. unfold bind. destruct (get_principal env r w) as [[i|e] w1]; cbn in *; [|done].
  destruct (H2 i eq_refl) as [Hit His]. unfold resolve_tenant. cbn [negb]. rewrite bool_decide_eq_false_2 by done.
  assert (outside (mkTenantContext (oi_tenant_id i) (rq_team r) (Some (oi_operator_id i)) (oi_role i) None false)) as Ho by done.
  destruct (rq_tenant r) as [t'|]; [|split; [done|by intros ? [= <-]]]. destruct (negb _); [done|]. split; [done|by intros ? [= <-]].
Qed.

Lemma admin_rows ctx tenant_id f s : outside ctx →
  tenant_rows t (bind (admin_ctx false ctx tenant_id) (λ c, change_tenant c tenant_id f) s).2 = tenant_rows t s.
Proof.
  intros (Ht & _ & Hs). destruct (decide (tc_tenant_id ctx = tenant_id)) as [<-|Hne].
  - unfold admin_ctx, bind. rewrite Hs. cbn. destruct (_ && _); [|done]. by apply change_tenant_rows.
  - by rewrite (bind_raise _ _ _ _ _ (admin_ctx_own false ctx tenant_id s eq_refl Hs Hne)).
Qed.

Lemma oki_body c ctx i w : iinv w → outside ctx → oki w (body env new_secret_id c ctx i w) (λ _, True).
Proof.
  intros Hw Hctx. pose proof (inv_of _ (proj1 (ki_inv _ _ Hw))) as Ha.
  assert (∀ A (m : M (IdentityWorld X) ApiExn A) g, oki w (m w) (λ _, True) → oki w (bind m (λ a, ret (g a : Response)) w) (λ _, True)) as Hthen.
  { intros A m g Hm. chaini a w1 _ Hw1 _; [exact Hm|]. apply within_ret; [by eapply identity_kept_inv|done]. }
  assert (trusted_local env = false) as Htl by (unfold trusted_local, enabled; by rewrite Hen).
  destruct c; cbn [body]; rewrite ?Htl; try (apply Hthen).
  - apply oki_auth; [done|]. by apply ok_create.
  - by split.
  - apply oki_auth; [done|]. by apply ok_revoke.
  - unfold enabled. rewrite Hen. by apply within_raise.
  - by apply within_ret.
  - by split.
  - chaini r w1 _ Hw1 _; [apply oki_secrets; [|done]; intros v Hv; by apply oks_put|]. apply identity_kept_inv in Hw1.
    chaini m w2 _ Hw2 _; [apply oki_secrets; [|done]; intros v Hv; by apply oks_metadata|]. apply within_ret; [by eapply identity_kept_inv|done].
  - chaini r w1 _ Hw1 _; [apply oki_secrets; [|done]; intros v Hv; by apply oks_rotate|]. apply identity_kept_inv in Hw1.
    chaini m w2 _ Hw2 _; [apply oki_secrets; [|done]; intros v Hv; by apply oks_metadata|]. apply within_ret; [by eapply identity_kept_inv|done].
  - apply oki_secrets; [|done]. intros v Hv. by split.
  - apply oki_secrets; [|done]. intros v Hv. by apply oks_metadata.
  - unfold on_tenants_and_clock. rewrite create_tenant_refused by (done || apply Hctx). cbn. split; [|done].
    destruct Hw as [[]]. by split.
  - by split.
  - apply oki_tenants; [done|]. by apply admin_rows.
  - apply oki_tenants; [done|]. by apply admin_rows.
  - apply oki_tenants; [done|]. by apply admin_rows.
Qed.

Lemma oki_handle c r w : iinv w → request_outside r w → oki w (handle env new_secret_id c r w) (λ _, True).
Proof.
  intros Hw Hr. unfold handle. destruct (permission_of c) as [p|] eqn:Hp.
  - destruct (tenant_first c).
    + chaini ctx w1 _ Hw1 Hctx; [by apply oki_context|]. chaini i w2 _ Hw2 _;
        [apply oki_permission; [by eapply identity_kept_inv|by eapply request_kept]|]. apply oki_body; [by eapply identity_kept_inv|done].
    + chaini i w1 _ Hw1 _; [by apply oki_permission|]. chaini ctx w2 _ Hw2 Hctx;
        [apply oki_context; [by eapply identity_kept_inv|by eapply request_kept]|]. apply oki_body; [by eapply identity_kept_inv|done].
  - destruct c; try done.
    + cbn [body]. unfold enabled. rewrite Hen. by apply within_raise.
    + chaini i w1 _ Hw1 _; [by apply oki_principal|]. apply within_ret; [by eapply identity_kept_inv|done].
Qed.

(** Requests one after the other. *)
Fixpoint serve (l : list (ApiCall * Request)) (w : IdentityWorld X) : IdentityWorld X :=
  match l with [] => w | (c, r) :: l' => serve l' (handle env new_secret_id c r w).2 end.

Lemma serve_kept l w : iinv w → Forall (λ e, request_outside e.2 w) l → identity_kept w (serve l w).
Proof.
  revert w. induction l as [|[c r] l IH]; intros w Hw; [done|]. intros [Hr Hl]%Forall_cons. cbn [serve].
  pose proof (oki_handle c r w Hw Hr) as [Hk _]. eapply identity_kept_trans; [exact Hk|].
  apply IH; [by eapply identity_kept_inv|]. eapply Forall_impl; [exact Hl|]. intros e He. by eapply request_kept.
Qed.
End Isolation.

(** C12: Requests stay in their tenant: with authentication enabled, whatever
    sequence of calls is served (keys created and revoked, logins, secrets put
    and rotated, tenants created, suspended, reinstated and given quotas), with
    whatever headers, for requests whose bearer tokens resolve, to begin with,
    to no key of the tenant and to none of the system's, everything the stores
    hold of the tenant (its row, teams and memberships, its keys, its login and
    access events, its secrets and their versions, who consumed them) is as it
    was; identifiers are not issued twice. *)
Theorem requests_stay_in_tenant {X} `{!KeyProvider X} (env : AuthEnv X) new_secret_id used t l w :
  fresh_ids env new_secret_id used → ev_auth_enabled env = true → identity_inv used w →
  Forall (λ e, request_outside env t e.2 w) l →
  tenant_view t (serve env new_secret_id l w) = tenant_view t w.
Proof. intros Hf He Hi Hl. apply (ki_view env used), (serve_kept env new_secret_id used Hf t He); [by split|done]. Qed.
