(* ===== verification/IdentityDemo.v ===== *)
(** * Keys, secrets and requests on a concrete deployment *)

From stdpp Require Import base strings pretty numbers gmap sets list.
From S2P Require Import Prelude Text Tenancy CoreModels Manifest Tenants Auth Secrets SecretsSpec Redaction Identity IdentityIsolation ReconcileDemo.

#[local] Open Scope hp_scope.

(** The environment's state counts what was drawn from it. *)
Definition draw (prefix : string) (x : nat) : string * nat := (prefix +:+ pretty x, S x).

(** A cipher that prepends the key, the nonce and the associated data. *)
Definition toy_encrypt (k n p : string) (a : option string) : string := (k +:+ n +:+ default EmptyString a) +:+ p.
Definition toy_decrypt (k n c : string) (a : option string) : option string := strip_prefix (k +:+ n +:+ default EmptyString a) c.

#[export] Instance demo_provider : KeyProvider nat := local_provider (λ _, draw "r") toy_encrypt toy_decrypt "master" "kek-1".

#[export] Instance demo_laws : KeyProviderLaws nat.
Proof. apply local_laws; [|done]. intros k n p a. apply strip_prefix_app. Qed.

Definition demo_env : AuthEnv nat :=
  mkAuthEnv nat (λ s, "sha:" +:+ s) (λ x, (Z.of_nat x, S x)) (draw "k") (draw "t") true true true 60.

(** Identifiers are numbered. *)
Definition demo_used (x : nat) (i : string) : Prop := ∃ n, n < x ∧ (i = "k" +:+ pretty n ∨ i = "s" +:+ pretty n).

Lemma demo_fresh : IdentityIsolation.fresh_ids demo_env (draw "s") demo_used.
Proof.
  split; unfold demo_used; cbn; try (intros; destruct_and?; match goal with H : ∃ _, _ |- _ => destruct H as (n & Hn & Hi) end; exists n; split; [lia|done]).
  - intros x. split; [|exists x; split; [lia|by left]]. intros (n & Hn & [H|H]); [|done]. injection H as H. apply (inj pretty) in H. lia.
  - intros x. split; [|exists x; split; [lia|by right]]. intros (n & Hn & [H|H]); [done|]. injection H as H. apply (inj pretty) in H. lia.
Qed.

(** Two tenants with an administrator's key each; one has a secret. *)
Definition key_of (id tenant token : string) : ApiKeyRecord := mkKey id tenant ADMIN [] ("sha:" +:+ token) None 0 None None.
Definition acme_version : SecretVersion := mkVersion "s2" "acme" "db" 1 (fst (kp_encrypt "hunter2" 3%nat)) 0 None.

Definition demo_auth : AuthWorld nat :=
  mkAuthWorld (mkTenantStore [("acme", mkTenant "acme" "Acme" 0 ACTIVE no_quota); ("beta", mkTenant "beta" "Beta" 0 ACTIVE no_quota)] [] [])
    (mkAuthStore [("k0", key_of "k0" "acme" "A"); ("k1", key_of "k1" "beta" "B")] [] []) [] 10.

Definition demo_identity : IdentityWorld nat :=
  mkIdentityWorld demo_auth
    (mkSecretStore [(("acme", "db"), mkSecret "s2" "acme" "db" 1 0 None [1%Z])] [(("s2", 1%Z), acme_version)] [(("s2", 1%Z), "acme")])
    [(("acme", "db"), ["agent"])].

Lemma demo_identity_inv : identity_inv demo_used demo_identity.
Proof.
  split.
  - split; [split; [by apply (bool_decide_eq_true_1 _); vm_compute|by repeat constructor]|].
    intros id k. cbn. repeat case_decide; intros [= <-]; subst; [exists 0|exists 1]; split; first [lia|by left].
  - split; cbn.
    + intros k r. case_decide; [|done]. intros [= <-]. split; [done|]. exists 2. split; [lia|by right].
    + intros k k' r r'. repeat case_decide; by intros [= <-] [= <-].
    + intros i v. case_decide; [|done]. subst. intros [= <-]. split; [exists 2; split; [lia|by right]|].
      intros k r. case_decide; [|done]. by intros [= <-].
    + intros i. by case_decide.
Qed.

Definition bearer (token : string) (tenant : option string) : Request := mkRequest (Some ("Bearer " +:+ token)) tenant None.

(** What an administrator of the other tenant, and a stranger, may try. *)
Definition demo_calls : list (ApiCall * Request) :=
  [(CreateKey ADMIN [] None, bearer "B" None); (PutSecret "db" "mine", bearer "B" None); (RotateSecret "db" "mine2", bearer "B" None);
   (RevokeKey "k0", bearer "B" None); (ShowSecret "db", bearer "B" (Some "acme")); (SuspendTenant "acme", bearer "B" None);
   (SuspendTenant "beta", bearer "B" None); (PutSecret "db" "late", bearer "B" None); (RevokeKey "k0", bearer "guess" (Some "acme"));
   (CreateTenant "gamma" "Gamma" None, bearer "B" None); (WhoAmI, mkRequest None (Some "acme") None)].

Lemma requests_stay_in_tenant_witness :
  tenant_view "acme" (serve demo_env (draw "s") demo_calls demo_identity) = tenant_view "acme" demo_identity ∧
  od_keys (ss_secrets (iw_secrets (serve demo_env (draw "s") demo_calls demo_identity))) = [("acme", "db"); ("beta", "db")] ∧
  od_keys (au_keys (aw_auth (iw_auth (serve demo_env (draw "s") demo_calls demo_identity)))) = ["k0"; "k1"; "k17"].
Proof.
  split; [|split; vm_compute; reflexivity].
  apply (requests_stay_in_tenant demo_env (draw "s") demo_used "acme" demo_calls demo_identity demo_fresh eq_refl demo_identity_inv).
  unfold demo_calls. repeat apply Forall_cons_2; try (by apply Forall_nil_2); intros token Ht; vm_compute in Ht; first [done|injection Ht as <-]; intros k Hk; vm_compute in Hk; first [done|injection Hk as <-]; done.
Defined.

(** A key that is revoked; then its token is seeded again, used, and another
    tenant is purged. *)
Definition revoked_world : AuthWorld nat := (revoke demo_env "k1" SYSTEM_CONTEXT demo_auth).2.
Definition later_calls : list AuthOp :=
  [OpEnsure "B" "beta" ADMIN "again"; OpCreate "beta" ADMIN SYSTEM_CONTEXT [] None; OpAuthenticate "A" None; OpAuthenticate "B" None;
   OpPurge "acme" SYSTEM_CONTEXT; OpRevoke "k0" SYSTEM_CONTEXT].

Lemma revoked_key_dead_witness :
  (authenticate_key demo_env "B" None demo_auth).1 = Ret (identity_of (key_of "k1" "beta" "B")) ∧
  authenticate_key demo_env "B" None (run_ops demo_env later_calls revoked_world) =
    (Raise (AuthenticationError "invalid or revoked API key"), run_ops demo_env later_calls revoked_world).
Proof.
  split; [vm_compute; reflexivity|].
  apply (revoked_key_dead demo_env "B" SYSTEM_CONTEXT (key_of "k1" "beta" "B") (revoked_at 10 (key_of "k1" "beta" "B")) demo_auth).
  - split; [by apply (bool_decide_eq_true_1 _); vm_compute|by repeat constructor].
  - vm_compute. reflexivity.
  - vm_compute. reflexivity.
  - repeat split; vm_compute; first [reflexivity|discriminate|exact I].
Defined.

(** Calls on an empty store. *)
Definition no_secrets : SecretWorld nat := mkSecretWorld empty_secrets [] 0.
Definition acme_ctx : TenantContext := context_for_run "acme" None None.
Definition beta_ctx : TenantContext := context_for_run "beta" None None.
Definition secret_calls : list SecretOp :=
  [Put "acme" "db" "one" acme_ctx; Put "acme" "db" "again" acme_ctx; Rotate "acme" "db" "two" acme_ctx; Rotate "acme" "db" "three" beta_ctx;
   Resolve (mkRef "acme" "db" None) (Some "agent") (Some acme_ctx); Resolve (mkRef "acme" "db" (Some 1%Z)) None None;
   Revoke "acme" "db" 1 acme_ctx; Resolve (mkRef "acme" "db" (Some 1%Z)) None (Some acme_ctx); Resolve (mkRef "acme" "db" None) None (Some beta_ctx)].

Lemma secrets_refine_vault_witness :
  (SecretsSpec.run (λ x, (Z.of_nat x, S x)) (draw "s") secret_calls no_secrets).1 = (spec_run secret_calls ∅).1 ∧
  (spec_run secret_calls ∅).1 =
    [Done; AlreadyExists; Done; Missing; Value "two" 2; Value "one" 1; Done; Refused "version revoked"; Refused "cross-tenant secret ref"].
Proof.
  split; [|vm_compute; reflexivity]. apply (secrets_refine_vault (λ x, (Z.of_nat x, S x)) (draw "s") secret_calls no_secrets); [reflexivity|].
  cbn [SecretsSpec.fresh_ids secret_calls]. repeat split; try exact I; try discriminate; intros v; vm_compute; repeat (destruct v as [|p|p]; try reflexivity; try (destruct p; reflexivity)).
Defined.

(** A run of a workload that declares the secret. *)
Definition demo_workload : Manifest :=
  let m := named_manifest "agent" "main.py" in
  let s := ma_spec m in
  mkManifest (ma_metadata m)
    {| sp_runtime := sp_runtime s; sp_budget := sp_budget s; sp_model := sp_model s; sp_certification := sp_certification s;
       sp_triggers := sp_triggers s; sp_sandbox := sp_sandbox s; sp_output_shaping := sp_output_shaping s; sp_tools := sp_tools s;
       sp_approvals := sp_approvals s; sp_guards := sp_guards s; sp_fan_out := sp_fan_out s; sp_health := sp_health s;
       sp_observability := sp_observability s; sp_io := sp_io s; sp_secrets := [mkSecretBinding "secret://acme/db" None];
       sp_time_windows := sp_time_windows s |}.

Definition secret_world : InjectWorld nat := mkInjectWorld (mkSecretWorld (iw_secrets demo_identity) [] 10) [] [].
Definition no_injection (j : option JsonValue) : SecretExn + option SecretInjection := inr None.
Definition injected := inject_for_workload true no_injection demo_workload "run-1" acme_ctx secret_world.

Lemma injected_values_declared_witness :
  injected.1 = Ret [("db", "hunter2")] ∧ declared_value (X := nat) (sp_secrets (ma_spec demo_workload)) acme_ctx "hunter2" ∧
  hidden_in "run-1" injected.2 "hunter2".
Proof.
  split; [vm_compute; reflexivity|].
  apply (injected_values_declared true no_injection demo_workload "run-1" acme_ctx secret_world [("db", "hunter2")] injected.2) with (k := "db");
    vm_compute; reflexivity.
Defined.
