(* ===== verification/Progressive.v ===== *)
(** * Progressive delivery ([progressive/])

    Shadow runs, canary rollouts and model experiments over the in-memory store:
    routing, samples, the evaluation of a window and its decision.  The registry
    is an interface that [Registry] implements; the shadow runner, SHA-256,
    clocks, identifiers and the audit log are fields of an environment. *)

From Stdlib Require Import Ascii.
From stdpp Require Import base strings pretty numbers gmap sets list.
From S2P Require Import Prelude Text Float64 Calendar Tenancy CoreModels Canonical Conflict Registry.

#[local] Open Scope hp_scope.

(** ** Records ([progressive/models.py]) *)

Inductive ShadowStatus := SHADOW_COMPLETED | SHADOW_FAILED.

Record ShadowOutcome := mkOutcome {
  so_status : ShadowStatus; so_result : option JsonValue; so_cost_usd : f64; so_latency_ms : Z; so_tool_calls : list JsonValue;
  so_policy_decisions : list JsonValue; so_failure_reason : option string }.

Record ShadowRun := mkShadow {
  sh_shadow_run_id : string; sh_candidate_workload_id : string; sh_production_run_id : string; sh_input_ref : string;
  sh_candidate_version : option Z; sh_result : option JsonValue; sh_cost_usd : f64; sh_latency_ms : Z; sh_tool_calls : list JsonValue;
  sh_policy_decisions : list JsonValue; sh_budget_id : string; sh_status : ShadowStatus; sh_failure_reason : option string;
  sh_created_at : Z; sh_tenant_id : string }.

Record OutcomeDiff := mkDiff {
  od_output_changed : bool; od_production_output : option JsonValue; od_candidate_output : option JsonValue; od_cost_delta_usd : f64;
  od_latency_delta_ms : Z; od_tool_calls_added : list JsonValue; od_tool_calls_removed : list JsonValue;
  od_policy_decisions_added : list JsonValue; od_policy_decisions_removed : list JsonValue }.

Inductive CanaryState := PROPOSED | ACTIVE | PROMOTED | ROLLED_BACK.
Inductive CanaryArm := BASELINE | CANDIDATE.

#[export] Instance CanaryState_eq_dec : EqDecision CanaryState.
Proof. solve_decision. Defined.
#[export] Instance CanaryArm_eq_dec : EqDecision CanaryArm.
Proof. solve_decision. Defined.

Definition arm_value (a : CanaryArm) : string := match a with BASELINE => "baseline" | CANDIDATE => "candidate" end.
Definition arm_of (s : string) : option CanaryArm :=
  if bool_decide (s = "baseline") then Some BASELINE else if bool_decide (s = "candidate") then Some CANDIDATE else None.

Record CanaryRollout := mkRollout {
  cr_rollout_id : string; cr_workload_id : string; cr_baseline_version : Z; cr_candidate_version : Z; cr_traffic_pct : Z;
  cr_eligible_rule : odict string JsonValue; cr_window_seconds : Z; cr_min_sample : Z; cr_blast_radius_cap : option Z;
  cr_state : CanaryState; cr_window_start : Z; cr_window_end : Z; cr_candidate_quarantined : bool; cr_created_at : Z; cr_tenant_id : string }.

Definition rollout_valid (r : CanaryRollout) : bool :=
  bool_decide (cr_rollout_id r ≠ EmptyString) && bool_decide (cr_workload_id r ≠ EmptyString) && (1 <=? cr_baseline_version r)%Z
  && (1 <=? cr_candidate_version r)%Z && (0 <=? cr_traffic_pct r)%Z && (cr_traffic_pct r <=? 100)%Z && (0 <=? cr_window_seconds r)%Z
  && (0 <=? cr_min_sample r)%Z && match cr_blast_radius_cap r with Some c => (0 <=? c)%Z | None => true end && between 1 64 (cr_tenant_id r).

Record CanarySample := mkSample {
  cs_sample_id : string; cs_rollout_id : string; cs_run_id : string; cs_arm : CanaryArm; cs_metrics : odict string JsonValue;
  cs_judge_score : option f64; cs_sampled_at : Z; cs_tenant_id : string }.

Definition unit_score (x : f64) : bool := f64_leb f64_zero x && f64_leb x (f64_lit 1 1).

Definition sample_valid (s : CanarySample) : bool :=
  bool_decide (cs_sample_id s ≠ EmptyString) && bool_decide (cs_rollout_id s ≠ EmptyString) && bool_decide (cs_run_id s ≠ EmptyString)
  && from_option unit_score true (cs_judge_score s) && between 1 64 (cs_tenant_id s).

Record CanaryEvaluation := mkEvaluation {
  ce_rollout_id : string; ce_state : CanaryState; ce_baseline_samples : Z; ce_candidate_samples : Z; ce_baseline_error_rate : f64;
  ce_candidate_error_rate : f64; ce_baseline_judge_mean : option f64; ce_candidate_judge_mean : option f64; ce_sample_reached : bool;
  ce_blast_radius_exceeded : bool; ce_regression : bool; ce_ready : bool; ce_reason : string }.

Inductive DecisionAction := ABORT | PROMOTE | WAIT.
Record CanaryDecision := mkDecision { cd_rollout_id : string; cd_action : DecisionAction; cd_actor : string; cd_reason : string }.

Inductive ExperimentState := EX_RUNNING | EX_COMPLETED.
Record ExperimentCampaign := mkCampaign {
  ec_campaign_id : string; ec_workload_id : string; ec_state : ExperimentState; ec_winner_arm_id : option string; ec_rationale : option string;
  ec_created_at : Z; ec_tenant_id : string }.
Record ExperimentArm := mkArm {
  ea_arm_id : string; ea_campaign_id : string; ea_model_identity : string; ea_benchmark_run_id : option string; ea_score : option f64;
  ea_metrics : odict string JsonValue; ea_created_at : Z; ea_tenant_id : string }.

(** ** Errors ([progressive/errors.py]) *)

Inductive ProgressiveExn :=
  | ShadowNotFoundError (shadow_run_id : string)
  | ShadowBudgetExceededError (budget_id : string)
  | CanaryNotFoundError (rollout_id : string)
  | CanaryNotAllowedError (message : string)
  | ExperimentNotFoundError (campaign_id : string)
  | ProgressiveScopeError
  | ProgressiveRegistryError (e : RegistryExn)
  | ProgressiveOverflowError
  | ProgressiveExternalError (what : string)
  | InvalidProgressive.

(** ** The in-memory store ([progressive/store.py]); a record is scoped by its own tenant *)

Record ProgressiveStore := mkProgressiveStore {
  ps_shadow_runs : odict string ShadowRun; ps_rollouts : odict string CanaryRollout; ps_samples : list CanarySample;
  ps_campaigns : odict string ExperimentCampaign; ps_arms : list ExperimentArm }.

Definition empty_progressive : ProgressiveStore := mkProgressiveStore [] [] [] [] [].

(** Sorting by an instant, then by an identifier. *)
Definition when_leb {A} (when : A → Z) (id : A → string) (a b : A) : bool :=
  if bool_decide (when a = when b) then str_leb (id a) (id b) else (when a <=? when b)%Z.

Definition get_shadow_run (i : string) (ctx : TenantContext) (s : ProgressiveStore) : option ShadowRun :=
  match od_get i (ps_shadow_runs s) with Some r => if scopes ctx (sh_tenant_id r) then Some r else None | None => None end.

Definition list_shadow_runs (workload budget_id : option string) (ctx : TenantContext) (s : ProgressiveStore) : list ShadowRun :=
  py_sort (when_leb sh_created_at sh_shadow_run_id)
    (filter (λ r, scopes ctx (sh_tenant_id r) = true ∧ opt_is workload (sh_candidate_workload_id r) = true ∧
                  opt_is budget_id (sh_budget_id r) = true) (od_values (ps_shadow_runs s))).

Definition get_canary_rollout (i : string) (ctx : TenantContext) (s : ProgressiveStore) : option CanaryRollout :=
  match od_get i (ps_rollouts s) with Some r => if scopes ctx (cr_tenant_id r) then Some r else None | None => None end.

Definition list_canary_rollouts (workload : option string) (ctx : TenantContext) (s : ProgressiveStore) : list CanaryRollout :=
  py_sort (when_leb cr_created_at cr_rollout_id)
    (filter (λ r, scopes ctx (cr_tenant_id r) = true ∧ opt_is workload (cr_workload_id r) = true) (od_values (ps_rollouts s))).

Definition list_canary_samples (rollout_id : string) (ctx : TenantContext) (s : ProgressiveStore) : list CanarySample :=
  py_sort (when_leb cs_sampled_at cs_sample_id)
    (filter (λ x, scopes ctx (cs_tenant_id x) = true ∧ cs_rollout_id x = rollout_id) (ps_samples s)).

Definition get_campaign (i : string) (ctx : TenantContext) (s : ProgressiveStore) : option ExperimentCampaign :=
  match od_get i (ps_campaigns s) with Some c => if scopes ctx (ec_tenant_id c) then Some c else None | None => None end.

Definition list_campaigns (workload : option string) (ctx : TenantContext) (s : ProgressiveStore) : list ExperimentCampaign :=
  py_sort (when_leb ec_created_at ec_campaign_id)
    (filter (λ c, scopes ctx (ec_tenant_id c) = true ∧ opt_is workload (ec_workload_id c) = true) (od_values (ps_campaigns s))).

Definition get_arm (i : string) (ctx : TenantContext) (s : ProgressiveStore) : option ExperimentArm :=
  snd <$> list_find (λ a, ea_arm_id a = i ∧ scopes ctx (ea_tenant_id a) = true) (ps_arms s).

Definition list_arms (campaign_id : string) (ctx : TenantContext) (s : ProgressiveStore) : list ExperimentArm :=
  py_sort (when_leb ea_created_at ea_arm_id)
    (filter (λ a, scopes ctx (ea_tenant_id a) = true ∧ ea_campaign_id a = campaign_id) (ps_arms s)).

(** The first arm of that identifier, of whichever tenant, is replaced. *)
Fixpoint put_arm (a : ExperimentArm) (l : list ExperimentArm) : list ExperimentArm :=
  match l with [] => [a] | b :: l' => if bool_decide (ea_arm_id b = ea_arm_id a) then a :: l' else b :: put_arm a l' end.

(** ** What canaries ask of the registry *)

Class VersionApi (W : Type) := {
  va_get : TenantContext → string → M W RegistryExn (Z * string);
  va_promote : TenantContext → string → Z → M W RegistryExn unit;
}.

Record World (W X : Type) := mkWorld { pw_store : ProgressiveStore; pw_registry : W; pw_ext : X }.
Arguments mkWorld {W X}.
Arguments pw_store {W X}.
Arguments pw_registry {W X}.
Arguments pw_ext {W X}.

Record Env (X : Type) := mkEnv {
  pe_sha256_hex : string → string;
  pe_clock : X → Z * X;
  pe_rollout_id : X → string * X;
  pe_sample_id : X → string * X;
  pe_shadow_id : X → string * X;
  pe_campaign_id : X → string * X;
  pe_arm_id : X → string * X;
  pe_audit : option (string → string → string → string → TenantContext → X → (ProgressiveExn + unit) * X);
  pe_runner : Run → string → option Z → string → X → (ProgressiveExn + ShadowOutcome) * X;
  pe_budget_cap_usd : option f64;
  pe_fixed3 : f64 → string;
}.
Arguments pe_sha256_hex {X}.
Arguments pe_clock {X}.
Arguments pe_rollout_id {X}.
Arguments pe_sample_id {X}.
Arguments pe_shadow_id {X}.
Arguments pe_campaign_id {X}.
Arguments pe_arm_id {X}.
Arguments pe_audit {X}.
Arguments pe_runner {X}.
Arguments pe_budget_cap_usd {X}.
Arguments pe_fixed3 {X}.

(** ** Evidence *)

(** [int(text, 16)] of lower-case digits. *)
Definition hex_digit (c : ascii) : Z :=
  let n := Z.of_N (N_of_ascii c) in if (n <=? 57)%Z then (n - 48)%Z else (n - 87)%Z.
Fixpoint hex_value (acc : Z) (s : string) : Z := match s with EmptyString => acc | String c s' => hex_value (16 * acc + hex_digit c) s' end.

(** [sample_bucket] *)
Definition sample_bucket (sha256_hex : string → string) (run_id : string) : Z := (hex_value 0 (sha256_hex run_id) mod 100)%Z.

(** The truth value of a JSON value. *)
Definition json_truthy (v : JsonValue) : bool :=
  match v with
  | JNull => false | JBool b => b | JInt z => negb (z =? 0)%Z | JFloat x => negb (f64_eqb x f64_zero)
  | JStr s => bool_decide (s ≠ EmptyString) | JList l => match l with [] => false | _ => true end | JObj d => match d with [] => false | _ => true end
  end.

(** [_error_rate], [_judge_mean] *)
Definition error_rate (l : list CanarySample) : f64 :=
  match l with
  | [] => f64_zero
  | _ => int_truediv (Z.of_nat (length (filter (λ s, json_truthy (opt_json (od_get "error" (cs_metrics s))) = true) l))) (Z.of_nat (length l))
  end.

Definition judge_mean (l : list CanarySample) : option f64 :=
  match omap cs_judge_score l with
  | [] => None
  | scored => Some (f64_div (f64_sum scored) (f64_of_Z (Z.of_nat (length scored))))
  end.

Definition JUDGE_REGRESSION_MARGIN : f64 := f64_lit 1 5.
Definition AUTOMATION_ACTOR : string := "progressive-delivery".

(** [_evaluation_reason] *)
Definition evaluation_reason (sample_reached blast_radius_exceeded regression : bool) (candidate_samples min_sample : Z) : string :=
  if regression then "candidate regressed against baseline"
  else if blast_radius_exceeded then "blast-radius cap exceeded"
  else if negb sample_reached then "insufficient samples (" +:+ pretty candidate_samples +:+ "/" +:+ pretty min_sample +:+ ")"
  else "clean window".

(** The body of [evaluate]. *)
Definition evaluation_of (r : CanaryRollout) (samples : list CanarySample) : CanaryEvaluation :=
  let baseline := filter (λ s, cs_arm s = BASELINE) samples in
  let candidate := filter (λ s, cs_arm s = CANDIDATE) samples in
  let nb := Z.of_nat (length baseline) in
  let nc := Z.of_nat (length candidate) in
  let be := error_rate baseline in
  let ce := error_rate candidate in
  let bj := judge_mean baseline in
  let cj := judge_mean candidate in
  let sample_reached := (cr_min_sample r <=? nc)%Z && (cr_min_sample r <=? nb)%Z in
  let exceeded := match cr_blast_radius_cap r with Some c => (c <? nc)%Z | None => false end in
  let regression := f64_ltb (f64_add be (f64_lit 1 1000000000)) ce
                    || match bj, cj with Some b, Some c => f64_ltb c (f64_sub b JUDGE_REGRESSION_MARGIN) | _, _ => false end in
  mkEvaluation (cr_rollout_id r) (cr_state r) nb nc be ce bj cj sample_reached exceeded regression
    (sample_reached && negb regression && negb exceeded) (evaluation_reason sample_reached exceeded regression nc (cr_min_sample r)).

(** [is_eligible]: a missing attribute reads as [None]. *)
Definition is_eligible (r : CanaryRollout) (attributes : odict string JsonValue) : bool :=
  forallb (λ kv, json_eq (opt_json (od_get kv.1 attributes)) kv.2) (cr_eligible_rule r).

(** [_latency_ms] *)
Definition total_seconds (us : Z) : f64 := int_truediv us 1000000.
Definition latency_ms (r : Run) : Z :=
  match run_started_at r, run_finished_at r with
  | Some s, Some f => Z.max 0 (default 0%Z (f64_trunc (f64_mul (total_seconds (f - s)) (f64_of_Z 1000))))
  | _, _ => 0
  end.

(** [diff_shadow]; membership is by equality. *)
Definition json_in (v : JsonValue) (l : list JsonValue) : bool := existsb (λ w, json_eq v w) l.
Definition diff_shadow (production : Run) (shadow : ShadowRun) (production_latency_ms : option Z)
    (production_tool_calls production_policy_decisions : list JsonValue) : OutcomeDiff :=
  let less (a b : list JsonValue) := filter (λ v, json_in v b = false) a in
  mkDiff (negb (json_eq (opt_json (run_result production)) (opt_json (sh_result shadow)))) (run_result production) (sh_result shadow)
    (f64_sub (sh_cost_usd shadow) (run_cost_usd production)) (sh_latency_ms shadow - default (latency_ms production) production_latency_ms)
    (less (sh_tool_calls shadow) production_tool_calls) (less production_tool_calls (sh_tool_calls shadow))
    (less (sh_policy_decisions shadow) production_policy_decisions) (less production_policy_decisions (sh_policy_decisions shadow)).

Section Services.
Context {W X : Type} `{!VersionApi W}.
Variable env : Env X.

Abbreviation PM := (M (World W X) ProgressiveExn).

Definition on_ext {A} (f : X → A * X) : PM A := λ w, let '(a, x) := f (pw_ext w) in (Ret a, mkWorld (pw_store w) (pw_registry w) x).

Definition on_ext_exn {A} (f : X → (ProgressiveExn + A) * X) : PM A :=
  λ w, let '(r, x) := f (pw_ext w) in (match r with inl e => Raise e | inr a => Ret a end, mkWorld (pw_store w) (pw_registry w) x).

Definition on_registry {A} (m : M W RegistryExn A) : PM A :=
  λ w, let '(o, g) := m (pw_registry w) in
       (match o with Ret a => Ret a | Raise e => Raise (ProgressiveRegistryError e) end, mkWorld (pw_store w) g (pw_ext w)).

Definition put_store (f : ProgressiveStore → ProgressiveStore) : PM unit := modify (λ w, mkWorld (f (pw_store w)) (pw_registry w) (pw_ext w)).

Definition add_shadow_run (r : ShadowRun) (ctx : TenantContext) : PM unit :=
  require ProgressiveScopeError ctx (sh_tenant_id r) ;;;
  put_store (λ s, mkProgressiveStore (od_set (sh_shadow_run_id r) r (ps_shadow_runs s)) (ps_rollouts s) (ps_samples s) (ps_campaigns s) (ps_arms s)).

Definition add_canary_rollout (r : CanaryRollout) (ctx : TenantContext) : PM unit :=
  require ProgressiveScopeError ctx (cr_tenant_id r) ;;;
  put_store (λ s, mkProgressiveStore (ps_shadow_runs s) (od_set (cr_rollout_id r) r (ps_rollouts s)) (ps_samples s) (ps_campaigns s) (ps_arms s)).

Definition add_canary_sample (x : CanarySample) (ctx : TenantContext) : PM unit :=
  require ProgressiveScopeError ctx (cs_tenant_id x) ;;;
  put_store (λ s, mkProgressiveStore (ps_shadow_runs s) (ps_rollouts s) (ps_samples s ++ [x]) (ps_campaigns s) (ps_arms s)).

Definition add_campaign (c : ExperimentCampaign) (ctx : TenantContext) : PM unit :=
  require ProgressiveScopeError ctx (ec_tenant_id c) ;;;
  put_store (λ s, mkProgressiveStore (ps_shadow_runs s) (ps_rollouts s) (ps_samples s) (od_set (ec_campaign_id c) c (ps_campaigns s)) (ps_arms s)).

Definition add_arm (a : ExperimentArm) (ctx : TenantContext) : PM unit :=
  require ProgressiveScopeError ctx (ea_tenant_id a) ;;;
  put_store (λ s, mkProgressiveStore (ps_shadow_runs s) (ps_rollouts s) (ps_samples s) (ps_campaigns s) (put_arm a (ps_arms s))).

(** ** Canaries ([progressive/canary.py]) *)

(** [_record] *)
Definition audit (action : string) (r : CanaryRollout) (reason : option string) (ctx : TenantContext) (actor : string) : PM unit :=
  match pe_audit env with
  | None => ret tt
  | Some append =>
      on_ext_exn (append actor action (cr_rollout_id r)
        (cr_workload_id r +:+ " v" +:+ pretty (cr_candidate_version r) +:+ ": " +:+ default EmptyString reason) ctx)
  end.

(** [start] *)
Definition start (workload : string) (candidate_version traffic_pct window_seconds min_sample : Z) (blast_radius_cap : option Z)
    (eligible_rule : odict string JsonValue) (ctx : TenantContext) : PM CanaryRollout :=
  let* record := on_registry (va_get ctx workload) in
  let* now := on_ext (pe_clock env) in
  let* id := on_ext (pe_rollout_id env) in
  let window_end := (now + window_seconds * 1000000)%Z in
  if negb (dt_in_range window_end) then raise ProgressiveOverflowError
  else
    let r := mkRollout id workload record.1 candidate_version traffic_pct eligible_rule window_seconds min_sample blast_radius_cap ACTIVE now
               window_end false now record.2 in
    if rollout_valid r then add_canary_rollout r ctx ;;; audit "canary.started" r (Some "started") ctx AUTOMATION_ACTOR ;;; ret r
    else raise InvalidProgressive.

(** [get], [list], [active_for] *)
Definition get_rollout (rollout_id : string) (ctx : TenantContext) : PM CanaryRollout :=
  let* w := gets pw_store in of_option (CanaryNotFoundError rollout_id) (get_canary_rollout rollout_id ctx w).

Definition active_for (workload : string) (ctx : TenantContext) (s : ProgressiveStore) : option CanaryRollout :=
  snd <$> list_find (λ r, cr_state r = ACTIVE) (list_canary_rollouts (Some workload) ctx s).

(** [select_arm] *)
Definition select_arm (rollout_id run_id : string) (eligible : bool) (ctx : TenantContext) : PM CanaryArm :=
  let* r := get_rollout rollout_id ctx in
  if negb (bool_decide (cr_state r = ACTIVE)) || negb eligible then ret BASELINE
  else
    let* s := gets pw_store in
    let count := Z.of_nat (length (filter (λ x, cs_arm x = CANDIDATE) (list_canary_samples rollout_id ctx s))) in
    if match cr_blast_radius_cap r with Some c => (c <=? count)%Z | None => false end then ret BASELINE
    else ret (if (sample_bucket (pe_sha256_hex env) run_id <? cr_traffic_pct r)%Z then CANDIDATE else BASELINE).

Record CanaryAssignment := mkAssignment { as_rollout_id : string; as_arm : string; as_candidate_version : Z }.

Definition canary_ctx (r : Run) : TenantContext := context_for_run (run_tenant_id r) (run_team_id r) (run_attribution_key r).

(** [route] *)
Definition route (r : Run) : PM (option CanaryAssignment) :=
  let ctx := canary_ctx r in
  let* s := gets pw_store in
  match active_for (run_workload_id r) ctx s with
  | None => ret None
  | Some c =>
      let* arm := select_arm (cr_rollout_id c) (run_id r) (is_eligible c (run_task r)) ctx in
      ret (Some (mkAssignment (cr_rollout_id c) (arm_value arm) (cr_candidate_version c)))
  end.

(** [record_sample] *)
Definition record_sample (rollout_id run_id : string) (arm : CanaryArm) (metrics : odict string JsonValue) (judge_score : option f64)
    (ctx : TenantContext) : PM CanarySample :=
  let* r := get_rollout rollout_id ctx in
  let* id := on_ext (pe_sample_id env) in
  let* now := on_ext (pe_clock env) in
  let x := mkSample id rollout_id run_id arm metrics judge_score now (cr_tenant_id r) in
  if sample_valid x then add_canary_sample x ctx ;;; ret x else raise InvalidProgressive.

(** [evaluate] *)
Definition evaluate (rollout_id : string) (ctx : TenantContext) : PM CanaryEvaluation :=
  let* r := get_rollout rollout_id ctx in
  let* s := gets pw_store in
  ret (evaluation_of r (list_canary_samples rollout_id ctx s)).

Definition settled (r : CanaryRollout) (state : CanaryState) (quarantined : bool) : CanaryRollout :=
  mkRollout (cr_rollout_id r) (cr_workload_id r) (cr_baseline_version r) (cr_candidate_version r) (cr_traffic_pct r) (cr_eligible_rule r)
    (cr_window_seconds r) (cr_min_sample r) (cr_blast_radius_cap r) state (cr_window_start r) (cr_window_end r) quarantined (cr_created_at r)
    (cr_tenant_id r).

(** [promote], [abort] *)
Definition promote (rollout_id operator : string) (reason : option string) (ctx : TenantContext) : PM CanaryRollout :=
  let* r := get_rollout rollout_id ctx in
  on_registry (va_promote ctx (cr_workload_id r) (cr_candidate_version r)) ;;;
  let updated := settled r PROMOTED (cr_candidate_quarantined r) in
  add_canary_rollout updated ctx ;;; audit "canary.promoted" updated reason ctx operator ;;; ret updated.

Definition abort (rollout_id operator : string) (reason : option string) (ctx : TenantContext) : PM CanaryRollout :=
  let* r := get_rollout rollout_id ctx in
  on_registry (va_promote ctx (cr_workload_id r) (cr_baseline_version r)) ;;;
  let updated := settled r ROLLED_BACK true in
  add_canary_rollout updated ctx ;;; audit "canary.aborted" updated reason ctx operator ;;; ret updated.

(** [auto_decide]; a reason is never empty. *)
Definition auto_decide (rollout_id : string) (ctx : TenantContext) : PM CanaryDecision :=
  let* e := evaluate rollout_id ctx in
  let decision (a : DecisionAction) := mkDecision rollout_id a AUTOMATION_ACTOR (ce_reason e) in
  if ce_regression e then abort rollout_id AUTOMATION_ACTOR (Some (ce_reason e)) ctx ;;; ret (decision ABORT)
  else if ce_ready e then promote rollout_id AUTOMATION_ACTOR (Some (ce_reason e)) ctx ;;; ret (decision PROMOTE)
  else ret (decision WAIT).

(** [decide_due]: the rollouts are listed first. *)
Fixpoint decide_each (l : list CanaryRollout) (now : Z) (ctx : TenantContext) : PM (list CanaryDecision) :=
  match l with
  | [] => ret []
  | r :: l' =>
      if bool_decide (cr_state r = ACTIVE) && (cr_window_end r <=? now)%Z
      then let* d := auto_decide (cr_rollout_id r) ctx in let* ds := decide_each l' now ctx in ret (d :: ds)
      else decide_each l' now ctx
  end.

Definition decide_due (at_ : option Z) (ctx : TenantContext) : PM (list CanaryDecision) :=
  let* now := match at_ with Some t => ret t | None => on_ext (pe_clock env) end in
  let* s := gets pw_store in
  decide_each (list_canary_rollouts None ctx s) now ctx.

(** [record] *)
Definition record (r : Run) : PM unit :=
  match run_canary_rollout_id r, run_canary_arm r with
  | Some rollout_id, Some arm_text =>
      let ctx := canary_ctx r in
      let* arm := of_option (ProgressiveExternalError "ValueError") (arm_of arm_text) in
      record_sample rollout_id (run_id r) arm [("error", JBool (bool_decide (run_state r = FAILED))); ("cost_usd", JFloat (run_cost_usd r))] None ctx ;;;
      let* c := get_rollout rollout_id ctx in
      if bool_decide (cr_state c = ACTIVE)
      then let* now := on_ext (pe_clock env) in
           if (cr_window_end c <=? now)%Z then auto_decide (cr_rollout_id c) ctx ;;; ret tt else ret tt
      else ret tt
  | _, _ => ret tt
  end.

(** ** Shadow runs ([progressive/shadow.py]) *)

(** [ShadowService.start]; a process-wide lock is held throughout. *)
Definition start_shadow (production : Run) (candidate_workload_id : string) (candidate_version : option Z) (budget_id : string)
    (ctx : TenantContext) : PM ShadowRun :=
  let* s := gets pw_store in
  let spent := f64_sum (sh_cost_usd <$> list_shadow_runs None (Some budget_id) ctx s) in
  if match pe_budget_cap_usd env with Some cap => f64_leb cap spent | None => false end then raise (ShadowBudgetExceededError budget_id)
  else
    let* o := on_ext_exn (pe_runner env production candidate_workload_id candidate_version budget_id) in
    let* id := on_ext (pe_shadow_id env) in
    let* now := on_ext (pe_clock env) in
    let r := mkShadow id candidate_workload_id (run_id production) ("run:" +:+ run_id production) candidate_version (so_result o) (so_cost_usd o)
               (so_latency_ms o) (so_tool_calls o) (so_policy_decisions o) budget_id (so_status o) (so_failure_reason o) now
               (run_tenant_id production) in
    if bool_decide (id ≠ EmptyString) && bool_decide (candidate_workload_id ≠ EmptyString) && bool_decide (run_id production ≠ EmptyString)
       && from_option (λ v, (1 <=? v)%Z) true candidate_version && f64_leb f64_zero (so_cost_usd o) && (0 <=? so_latency_ms o)%Z
       && bool_decide (budget_id ≠ EmptyString) && between 1 64 (run_tenant_id production)
    then add_shadow_run r ctx ;;; ret r else raise InvalidProgressive.

(** [get] and [report]; the identifiers of the report and its difference. *)
Definition report (shadow_run_id : string) (production : Run) (production_latency_ms : option Z)
    (production_tool_calls production_policy_decisions : list JsonValue) (ctx : TenantContext) : PM (string * string * string * OutcomeDiff) :=
  let* s := gets pw_store in
  let* r := of_option (ShadowNotFoundError shadow_run_id) (get_shadow_run shadow_run_id ctx s) in
  ret (sh_shadow_run_id r, sh_production_run_id r, sh_candidate_workload_id r,
       diff_shadow production r production_latency_ms production_tool_calls production_policy_decisions).

(** ** Experiments ([progressive/experiments.py]) *)

Fixpoint add_arms (campaign_id : string) (now : Z) (identities : list string) (ctx : TenantContext) : PM unit :=
  match identities with
  | [] => ret tt
  | m :: rest =>
      let* id := on_ext (pe_arm_id env) in
      if bool_decide (id ≠ EmptyString) && bool_decide (campaign_id ≠ EmptyString) && bool_decide (m ≠ EmptyString)
         && between 1 64 (tc_tenant_id ctx)
      then add_arm (mkArm id campaign_id m None None [] now (tc_tenant_id ctx)) ctx ;;; add_arms campaign_id now rest ctx
      else raise InvalidProgressive
  end.

Definition start_experiment (workload : string) (arms : list string) (ctx : TenantContext) : PM ExperimentCampaign :=
  if (length arms <? 2)%nat then raise (CanaryNotAllowedError "an experiment requires at least two arms")
  else
    let* now := on_ext (pe_clock env) in
    let* id := on_ext (pe_campaign_id env) in
    let c := mkCampaign id workload EX_RUNNING None None now (tc_tenant_id ctx) in
    if bool_decide (id ≠ EmptyString) && bool_decide (workload ≠ EmptyString) && between 1 64 (tc_tenant_id ctx)
    then add_campaign c ctx ;;; add_arms id now arms ctx ;;; ret c
    else raise InvalidProgressive.

Definition require_campaign (campaign_id : string) (ctx : TenantContext) : PM ExperimentCampaign :=
  let* s := gets pw_store in of_option (ExperimentNotFoundError campaign_id) (get_campaign campaign_id ctx s).

Definition campaign_arms (campaign_id : string) (ctx : TenantContext) : PM (list ExperimentArm) :=
  require_campaign campaign_id ctx ;;; gets (λ w, list_arms campaign_id ctx (pw_store w)).

(** [record_result] *)
Definition record_result (arm_id benchmark_run_id : string) (score : option f64) (metrics : odict string JsonValue) (ctx : TenantContext)
    : PM ExperimentArm :=
  let* s := gets pw_store in
  let* a := of_option (ExperimentNotFoundError arm_id) (get_arm arm_id ctx s) in
  let updated := mkArm (ea_arm_id a) (ea_campaign_id a) (ea_model_identity a) (Some benchmark_run_id) score metrics (ea_created_at a) (ea_tenant_id a) in
  add_arm updated ctx ;;; ret updated.

(** [arm.score or 0.0] *)
Definition score_of (a : ExperimentArm) : f64 := match ea_score a with Some x => if f64_eqb x f64_zero then f64_zero else x | None => f64_zero end.

(** [max(scored, key=...)]: the first of the greatest. *)
Definition best_arm (a : ExperimentArm) (l : list ExperimentArm) : ExperimentArm :=
  foldl (λ best b, if f64_ltb (score_of best) (score_of b) then b else best) a l.

(** [select_winner] *)
Definition completed (c : ExperimentCampaign) (winner : option string) (rationale : string) : ExperimentCampaign :=
  mkCampaign (ec_campaign_id c) (ec_workload_id c) EX_COMPLETED winner (Some rationale) (ec_created_at c) (ec_tenant_id c).

Definition select_winner (campaign_id : string) (ctx : TenantContext) : PM ExperimentCampaign :=
  let* c := require_campaign campaign_id ctx in
  let* s := gets pw_store in
  let updated :=
    match filter (λ a, is_Some (ea_score a)) (list_arms campaign_id ctx s) with
    | [] => completed c (ec_winner_arm_id c) "no arm produced a benchmark score; no winner selected"
    | a :: rest =>
        let b := best_arm a rest in
        completed c (Some (ea_arm_id b))
          (ea_model_identity b +:+ " scored " +:+ pe_fixed3 env (score_of b) +:+ " (benchmark " +:+ default "None" (ea_benchmark_run_id b) +:+ ")")
    end in
  add_campaign updated ctx ;;; ret updated.
End Services.

(** ** The registry implements the interface *)

Section Implementation.
Context {Y : Type} (clock : Y → Z * Y).

#[local] Instance version_api : VersionApi (RegistryStore * Y) := {|
  va_get ctx name := let* r := Registry.get ctx name in ret (wr_current_version r, wr_tenant_id r);
  va_promote ctx name version := Registry.promote clock ctx name version ;;; ret tt
|}.
End Implementation.
