(* ===== verification/CanaryHistory.v ===== *)
(** * What automated canaries do over time

    Sequences of rollouts started, runs routed, outcomes recorded and due
    windows decided: a rollout is settled once, on the evidence of its window;
    how far the samples of a candidate can go beyond the blast-radius cap. *)

From stdpp Require Import base strings pretty numbers gmap sets list.
From S2P Require Import Prelude Text Float64 Calendar Tenancy CoreModels Canonical Conflict Registry RunService Progressive.

#[local] Open Scope hp_scope.

Section History.
Context {W X : Type} `{!VersionApi W}.
Variable env : Progressive.Env X.

Abbreviation World := (Progressive.World W X).
Abbreviation PM := (M World ProgressiveExn).

Definition rollouts (w : World) : odict string CanaryRollout := ps_rollouts (pw_store w).
Definition samples (w : World) : list CanarySample := ps_samples (pw_store w).

(** ** Computations that leave the store alone *)

Definition same_store (w w' : World) : Prop := pw_store w' = pw_store w.

#[local] Instance same_store_preorder : PreOrder same_store.
Proof. split; [done|]. intros w1 w2 w3 H1 H2. unfold same_store in *. congruence. Qed.

Lemma same_ext {A} (f : X → A * X) : keeps same_store (Progressive.on_ext (W := W) f).
Proof. intros w. unfold Progressive.on_ext. by destruct (f (pw_ext w)). Qed.

Lemma same_ext_exn {A} (f : X → (ProgressiveExn + A) * X) : keeps same_store (on_ext_exn (W := W) f).
Proof. intros w. unfold on_ext_exn. by destruct (f (pw_ext w)). Qed.

Lemma same_registry {A} (m : M W RegistryExn A) : keeps same_store (on_registry (X := X) m).
Proof. intros w. unfold on_registry. by destruct (m (pw_registry w)). Qed.

Lemma same_audit a r reason ctx actor : keeps same_store (Progressive.audit (W := W) env a r reason ctx actor).
Proof. unfold Progressive.audit. destruct (pe_audit env); [apply same_ext_exn|by intros w]. Qed.

Lemma same_get id ctx : keeps same_store (get_rollout (W := W) (X := X) id ctx).
Proof. intros w. unfold get_rollout, bind, gets, of_option. by destruct (get_canary_rollout _ _ _). Qed.

Lemma get_rollout_inv id ctx (w w' : World) r : get_rollout id ctx w = (Ret r, w') → w' = w ∧ get_canary_rollout id ctx (pw_store w) = Some r.
Proof. unfold get_rollout, bind, gets, of_option. destruct (get_canary_rollout _ _ _); [|done]. by intros [= <- <-]. Qed.

Lemma get_canary_inv id ctx s r : get_canary_rollout id ctx s = Some r → od_get id (ps_rollouts s) = Some r ∧ scopes ctx (cr_tenant_id r) = true.
Proof. unfold get_canary_rollout. destruct (od_get _ _) as [r'|]; [|done]. destruct (scopes ctx (cr_tenant_id r')) eqn:Hs; [|done]. by intros [= <-]. Qed.

Lemma keeps_run {A} (m : PM A) w o w' : keeps same_store m → m w = (o, w') → pw_store w' = pw_store w.
Proof. intros Hm He. specialize (Hm w). by rewrite He in Hm. Qed.

Lemma bind_cases {A B} (m : PM A) (k : A → PM B) w :
  (∃ e w1, m w = (Raise e, w1) ∧ bind m k w = (Raise e, w1)) ∨ (∃ a w1, m w = (Ret a, w1) ∧ bind m k w = k a w1).
Proof. unfold bind. destruct (m w) as [[a|e] w1]; [right|left]; by eexists _, _. Qed.

(** ** Settling *)

Definition put_rollout (r : CanaryRollout) (s : ProgressiveStore) : ProgressiveStore :=
  mkProgressiveStore (ps_shadow_runs s) (od_set (cr_rollout_id r) r (ps_rollouts s)) (ps_samples s) (ps_campaigns s) (ps_arms s).

Lemma add_rollout_run r ctx (w : World) :
  add_canary_rollout r ctx w =
  if scopes ctx (cr_tenant_id r) then (Ret tt, mkWorld (put_rollout r (pw_store w)) (pw_registry w) (pw_ext w)) else (Raise ProgressiveScopeError, w).
Proof. unfold add_canary_rollout, require, bind. by destruct (scopes ctx (cr_tenant_id r)). Qed.

Lemma canary_settle_spec (v : CanaryRollout → Z) (f : CanaryRollout → CanaryRollout) act reason ctx actor id (w : World) :
  (∀ r, cr_rollout_id (f r) = cr_rollout_id r) →
  let w' := ((let* r := get_rollout id ctx in
              on_registry (va_promote ctx (cr_workload_id r) (v r)) ;;;
              add_canary_rollout (f r) ctx ;;; Progressive.audit env act (f r) reason ctx actor ;;; ret (f r)) w).2 in
  samples w' = samples w ∧
  (rollouts w' = rollouts w ∨
   ∃ r, get_canary_rollout id ctx (pw_store w) = Some r ∧ rollouts w' = od_set (cr_rollout_id r) (f r) (rollouts w)).
Proof.
  intros Hid w'. subst w'. unfold samples, rollouts.
  destruct (bind_cases (get_rollout id ctx) (λ r, on_registry (va_promote ctx (cr_workload_id r) (v r)) ;;;
    add_canary_rollout (f r) ctx ;;; Progressive.audit env act (f r) reason ctx actor ;;; ret (f r)) w) as [(e & w1 & Hm & ->)|(r & w1 & Hm & ->)].
  { cbn [snd]. rewrite (keeps_run _ _ _ _ (same_get id ctx) Hm). by split; [|left]. }
  apply get_rollout_inv in Hm as [-> Hr].
  destruct (bind_cases (on_registry (va_promote ctx (cr_workload_id r) (v r))) (λ _, add_canary_rollout (f r) ctx ;;;
    Progressive.audit env act (f r) reason ctx actor ;;; ret (f r)) w) as [(e & w1 & Hm & ->)|(u & w1 & Hm & ->)];
    apply (keeps_run _ _ _ _ (same_registry _)) in Hm.
  { cbn [snd]. rewrite Hm. by split; [|left]. }
  destruct (bind_cases (add_canary_rollout (f r) ctx) (λ _, Progressive.audit env act (f r) reason ctx actor ;;; ret (f r)) w1) as [(e & w2 & Ha & ->)|(u' & w2 & Ha & ->)];
    rewrite add_rollout_run in Ha; destruct (scopes ctx (cr_tenant_id (f r))); try done.
  { injection Ha as <- <-. cbn [snd]. rewrite Hm. by split; [|left]. }
  injection Ha as <- <-. pose proof (keeps_bind same_store (Progressive.audit env act (f r) reason ctx actor) (λ _, ret (f r))
    (same_audit _ _ _ _ _) (λ _, keeps_ret _ _) (mkWorld (put_rollout (f r) (pw_store w1)) (pw_registry w1) (pw_ext w1))) as H3.
  unfold same_store in H3. cbn [pw_store] in H3. rewrite H3. unfold put_rollout. cbn. rewrite Hm.
  split; [done|right]. exists r. by rewrite Hid.
Qed.

(** The rollout [r] is settled as [r'] on the evidence in the store. *)
Definition decided (r r' : CanaryRollout) (s : ProgressiveStore) : Prop :=
  ∃ ctx, scopes ctx (cr_tenant_id r) = true ∧
    let e := evaluation_of r (list_canary_samples (cr_rollout_id r) ctx s) in
    (ce_regression e = true ∧ r' = settled r ROLLED_BACK true) ∨
    (ce_regression e = false ∧ ce_ready e = true ∧ r' = settled r PROMOTED (cr_candidate_quarantined r)).

Lemma decided_samples r r' s s' : ps_samples s = ps_samples s' → decided r r' s → decided r r' s'.
Proof. intros Hs (ctx & Hc & H). exists ctx. split; [done|]. unfold list_canary_samples in *. by rewrite <-Hs. Qed.

Definition rollouts_ok (w : World) : Prop := od_wf (rollouts w) ∧ ∀ k r, od_get k (rollouts w) = Some r → cr_rollout_id r = k.

Lemma evaluate_inv id ctx (w w' : World) e : evaluate id ctx w = (Ret e, w') →
  w' = w ∧ ∃ r, get_canary_rollout id ctx (pw_store w) = Some r ∧ e = evaluation_of r (list_canary_samples id ctx (pw_store w)).
Proof.
  intros (r & w1 & [-> Hg]%get_rollout_inv & H)%bind_inv. apply bind_inv in H as (s & w2 & [= <- <-] & H). injection H as <- <-.
  split; [done|]. by exists r.
Qed.

Lemma same_evaluate id ctx : keeps same_store (evaluate (W := W) (X := X) id ctx).
Proof. apply keeps_bind; [apply _|apply same_get|]. intros r. apply keeps_bind; [apply _|apply keeps_gets; apply _|]. intros s. by intros w. Qed.

Lemma auto_decide_spec id ctx w : rollouts_ok w →
  let w' := (auto_decide env id ctx w).2 in
  samples w' = samples w ∧
  (rollouts w' = rollouts w ∨
   ∃ r r', od_get id (rollouts w) = Some r ∧ decided r r' (pw_store w) ∧ rollouts w' = od_set id r' (rollouts w)).
Proof.
  intros [Hwf Hids] w'. subst w'. unfold auto_decide.
  assert (∀ {A} (m : PM A) d, (m ;;; ret (A := CanaryDecision) d) w = (match (m w).1 with Ret _ => Ret d | Raise e => Raise e end, (m w).2)) as Hthen.
  { intros A m d. unfold bind. by destruct (m w) as [[]]. }
  match goal with |- context [bind (evaluate id ctx) ?k w] =>
    destruct (bind_cases (evaluate id ctx) k w) as [(e & w1 & Hm & ->)|(e0 & w1 & Hm & ->)] end.
  { apply (keeps_run _ _ _ _ (same_evaluate id ctx)) in Hm. unfold samples, rollouts. cbn [snd]. rewrite Hm. by split; [|left]. }
  apply evaluate_inv in Hm as (-> & r & Hg & ->). cbn zeta.
  pose proof (get_canary_inv _ _ _ _ Hg) as [Hget Hsc]. pose proof (Hids _ _ Hget) as Hrid.
  set (e := evaluation_of r (list_canary_samples id ctx (pw_store w))).
  assert (∀ f, (f = (λ r, settled r ROLLED_BACK true) ∧ ce_regression e = true) ∨
     (f = (λ r, settled r PROMOTED (cr_candidate_quarantined r)) ∧ ce_regression e = false ∧ ce_ready e = true) → decided r (f r) (pw_store w)) as Hdec.
  { intros f Hf. exists ctx. split; [done|]. rewrite Hrid. fold e. cbn zeta. naive_solver. }
  destruct (ce_regression e) eqn:Hreg; [|destruct (ce_ready e) eqn:Hready; [|by split; [|left]]]; rewrite Hthen; cbn [snd].
  - destruct (canary_settle_spec cr_baseline_version (λ r, settled r ROLLED_BACK true) "canary.aborted" (Some (ce_reason e)) ctx AUTOMATION_ACTOR id w) as [H1 H2]; [done|].
    split; [exact H1|]. destruct H2 as [H2|(r0 & Hr0 & H2)]; [by left|right]. rewrite Hg in Hr0. injection Hr0 as <-.
    exists r, (settled r ROLLED_BACK true). split; [done|]. split; [apply (Hdec (λ r, settled r ROLLED_BACK true)); by left|]. by rewrite Hrid in H2.
  - destruct (canary_settle_spec cr_candidate_version (λ r, settled r PROMOTED (cr_candidate_quarantined r)) "canary.promoted" (Some (ce_reason e)) ctx AUTOMATION_ACTOR id w) as [H1 H2]; [done|].
    split; [exact H1|]. destruct H2 as [H2|(r0 & Hr0 & H2)]; [by left|right]. rewrite Hg in Hr0. injection Hr0 as <-.
    exists r, (settled r PROMOTED (cr_candidate_quarantined r)). split; [done|]. split; [apply (Hdec (λ r, settled r PROMOTED (cr_candidate_quarantined r))); by right|]. by rewrite Hrid in H2.
Qed.

(** ** Steps *)

Inductive Step :=
  | SStart (workload : string) (candidate_version traffic_pct window_seconds min_sample : Z) (blast_radius_cap : option Z)
      (eligible_rule : odict string JsonValue) (ctx : TenantContext)
  | SRoute (r : Run)
  | SRecord (r : Run)
  | SDue (at_ : option Z) (ctx : TenantContext).

Definition step (o : Step) (w : World) : World :=
  match o with
  | SStart wl v p n m c e ctx => (Progressive.start env wl v p n m c e ctx w).2
  | SRoute r => (route env r w).2
  | SRecord r => (record env r w).2
  | SDue t ctx => (decide_due env t ctx w).2
  end.

(** The identifier the next rollout would get. *)
Definition next_rollout (w : World) : string := (pe_rollout_id env (pe_clock env (pw_ext w)).2).1.

(** The window of [r] is over when the step looks at the time. *)
Definition elapsed (o : Step) (r : CanaryRollout) : Prop :=
  match o with SDue (Some t) _ => (cr_window_end r <= t)%Z | _ => ∃ x, (cr_window_end r <= (pe_clock env x).1)%Z end.

Lemma same_select id run e ctx : keeps same_store (select_arm (W := W) env id run e ctx).
Proof.
  apply keeps_bind; [apply _|apply same_get|]. intros r. destruct (_ || _); [apply keeps_ret, _|]. apply keeps_bind; [apply _|apply keeps_gets, _|].
  intros s. cbn zeta. destruct (match cr_blast_radius_cap r with Some c => _ | None => _ end); apply keeps_ret, _.
Qed.

Lemma same_route r : keeps same_store (route (W := W) env r).
Proof.
  apply keeps_bind; [apply _|by intros w|]. intros s. destruct (active_for _ _ _) as [c|]; [|by intros w].
  apply keeps_bind; [apply _|apply same_select|]. by intros arm w.
Qed.

Lemma registry_ext {A} (m : M W RegistryExn A) w : pw_ext ((on_registry m w).2 : World) = pw_ext w.
Proof. unfold on_registry. by destruct (m (pw_registry w)). Qed.

Lemma canary_ext_run {A} (f : X → A * X) (w : World) : Progressive.on_ext f w = (Ret (f (pw_ext w)).1, mkWorld (pw_store w) (pw_registry w) (f (pw_ext w)).2).
Proof. unfold Progressive.on_ext. by destruct (f (pw_ext w)). Qed.

Lemma ext_bind {A B} (f : X → A * X) (k : A → PM B) w :
  bind (Progressive.on_ext f) k w = k (f (pw_ext w)).1 (mkWorld (pw_store w) (pw_registry w) (f (pw_ext w)).2).
Proof. unfold bind. by rewrite canary_ext_run. Qed.

Lemma start_spec wl v p n m c e ctx w :
  let w' := (Progressive.start env wl v p n m c e ctx w).2 in
  samples w' = samples w ∧
  (rollouts w' = rollouts w ∨
   ∃ r, cr_rollout_id r = next_rollout w ∧ cr_state r = ACTIVE ∧ rollout_valid r = true ∧ rollouts w' = od_set (cr_rollout_id r) r (rollouts w)).
Proof.
  cbn zeta. unfold Progressive.start, samples, rollouts.
  match goal with |- context [bind ?m ?k w] => destruct (bind_cases m k w) as [(x & w1 & Hm & ->)|(rec & w1 & Hm & ->)] end;
    pose proof (keeps_run _ _ _ _ (same_registry _) Hm) as Hs; pose proof (registry_ext (va_get ctx wl) w) as Hx; rewrite Hm in Hx; cbn [snd] in *.
  { rewrite Hs. by split; [|left]. }
  rewrite !ext_bind. cbn [pw_ext]. rewrite Hx. fold (next_rollout w).
  set (w2 := mkWorld _ _ _).
  destruct (negb _); [by cbn; rewrite Hs; split; [|left]|]. set (r := mkRollout _ _ _ _ _ _ _ _ _ _ _ _ _ _ _).
  destruct (rollout_valid r) eqn:Hvalid; [|by cbn; rewrite Hs; split; [|left]].
  match goal with |- context [bind ?m ?k w2] => destruct (bind_cases m k w2) as [(x & w3 & Ha & ->)|(u & w3 & Ha & ->)] end;
    rewrite add_rollout_run in Ha; destruct (scopes ctx (cr_tenant_id r)); try done; injection Ha as <- <-.
  { cbn. rewrite Hs. by split; [|left]. }
  match goal with |- context [bind ?m ?k ?w4] => pose proof (keeps_bind same_store m k (same_audit _ _ _ _ _) (λ _, keeps_ret _ _) w4) as H3 end.
  unfold same_store in H3. rewrite H3. unfold put_rollout. cbn. rewrite Hs. split; [done|right]. by exists r.
Qed.

Lemma record_sample_spec rollout_id run arm metrics score ctx w : rollouts_ok w →
  let w' := (record_sample env rollout_id run arm metrics score ctx w).2 in
  rollouts w' = rollouts w ∧
  (samples w' = samples w ∨ ∃ x r, od_get rollout_id (rollouts w) = Some r ∧ cs_tenant_id x = cr_tenant_id r ∧ cs_rollout_id x = rollout_id ∧
     cs_arm x = arm ∧ cs_run_id x = run ∧ samples w' = samples w ++ [x]).
Proof.
  intros Hok. cbn zeta. unfold record_sample, samples, rollouts.
  match goal with |- context [bind ?m ?k w] => destruct (bind_cases m k w) as [(x & w1 & Hm & ->)|(r & w1 & Hm & ->)] end.
  { rewrite (keeps_run _ _ _ _ (same_get _ _) Hm) || (cbn [snd]; rewrite (keeps_run _ _ _ _ (same_get _ _) Hm)). by split; [|left]. }
  apply get_rollout_inv in Hm as [-> Hr]. apply get_canary_inv in Hr as [Hr Hsc]. rewrite !ext_bind.
  set (x := mkSample _ _ _ _ _ _ _ _). destruct (sample_valid x); [|by split; [|left]].
  unfold add_canary_sample, require, bind. change (cs_tenant_id x) with (cr_tenant_id r). destruct (scopes ctx (cr_tenant_id r)); [|by split; [|left]].
  cbn. split; [done|right]. by exists x, r.
Qed.

Lemma rollouts_ok_set w r : rollouts_ok w → ∀ w', rollouts w' = od_set (cr_rollout_id r) r (rollouts w) → rollouts_ok w'.
Proof.
  intros [Hwf Hids] w' He. unfold rollouts_ok. rewrite He. split; [by apply od_wf_set|]. intros k r'. rewrite od_get_set. case_decide; [by intros [= <-]|apply Hids].
Qed.

Lemma decided_id r r' s : decided r r' s → cr_rollout_id r' = cr_rollout_id r.
Proof. by intros (ctx & _ & [(_ & ->)|(_ & _ & ->)]). Qed.

Lemma auto_decide_ok id ctx w : rollouts_ok w → rollouts_ok (auto_decide env id ctx w).2.
Proof.
  intros Hok. destruct (auto_decide_spec id ctx w Hok) as [_ [He|(r & r' & Hr & Hd & He)]]; [unfold rollouts_ok; by rewrite He|].
  apply decided_id in Hd. pose proof (proj2 Hok _ _ Hr) as Hid. apply (rollouts_ok_set w r' Hok). rewrite He. congruence.
Qed.

(** What became of a rollout: nothing, or it was active, its window over, and
    it was settled on the evidence. *)
Definition settles (o : Step) (w w' : World) (id : string) : Prop :=
  od_get id (rollouts w') = od_get id (rollouts w) ∨
  ∃ r r', od_get id (rollouts w) = Some r ∧ od_get id (rollouts w') = Some r' ∧ cr_state r = ACTIVE ∧ elapsed o r ∧ decided r r' (pw_store w').

Lemma settles_eq o w1 w2 w1' w2' id : od_get id (rollouts w1) = od_get id (rollouts w2) → od_get id (rollouts w1') = od_get id (rollouts w2') →
  samples w1' = samples w2' → settles o w1 w1' id → settles o w2 w2' id.
Proof.
  unfold settles. intros -> -> Hs [He|(r & r' & Hr & Hr' & Ha & He & Hd)]; [by left|right]. exists r, r'. split_and!; try done. by eapply decided_samples.
Qed.

Lemma auto_decide_settles o id ctx w r : rollouts_ok w → od_get id (rollouts w) = Some r → cr_state r = ACTIVE → elapsed o r →
  settles o w (auto_decide env id ctx w).2 id ∧ ∀ i, i ≠ id → od_get i (rollouts (auto_decide env id ctx w).2) = od_get i (rollouts w).
Proof.
  intros Hok Hr Ha Hel. destruct (auto_decide_spec id ctx w Hok) as [Hs [He|(r0 & r' & Hr0 & Hd & He)]].
  - split; [left; by rewrite He|]. intros i _. by rewrite He.
  - rewrite Hr in Hr0. injection Hr0 as <-. split; [right|intros i Hi; by rewrite He, od_get_set_ne].
    exists r, r'. rewrite He, od_get_set_eq. split_and!; try done. by eapply decided_samples; [|exact Hd].
Qed.

Lemma decide_each_spec o ctx now l w : rollouts_ok w → NoDup (cr_rollout_id <$> l) → (∀ r, r ∈ l → od_get (cr_rollout_id r) (rollouts w) = Some r) →
  (∀ r, (cr_window_end r <= now)%Z → elapsed o r) →
  let w' := (decide_each env l now ctx w).2 in
  rollouts_ok w' ∧ samples w' = samples w ∧
  ∀ id, (id ∉ cr_rollout_id <$> l → od_get id (rollouts w') = od_get id (rollouts w)) ∧ settles o w w' id.
Proof.
  intros Hok Hnd Hin Hel. revert w Hok Hin. induction l as [|r l IH]; intros w Hok Hin; cbn zeta.
  { split; [done|]. split; [done|]. intros id. split; [done|by left]. }
  apply NoDup_cons in Hnd as [Hn Hnd]. cbn [decide_each]. destruct (bool_decide _ && _) eqn:Hdue.
  2:{ destruct (IH Hnd w Hok) as (H1 & H2 & H3); [intros r' Hr'; apply Hin; by right|]. split; [done|]. split; [done|].
      intros id. destruct (H3 id) as [H4 H5]. split; [|done]. intros Hid. apply H4. intros Hid'. apply Hid. by right. }
  apply andb_true_iff in Hdue as [Hact%bool_decide_eq_true Hwin%Z.leb_le].
  destruct (auto_decide_settles o (cr_rollout_id r) ctx w r Hok) as [Hmoved Hother]; [apply Hin; by left|done|by apply Hel|].
  pose proof (proj1 (auto_decide_spec (cr_rollout_id r) ctx w Hok)) as Hs1. pose proof (auto_decide_ok (cr_rollout_id r) ctx w Hok) as Hok1.
  match goal with |- context [bind ?m ?k w] => destruct (bind_cases m k w) as [(x & w1 & Hm & ->)|(d & w1 & Hm & ->)] end; rewrite Hm in *; cbn [fst snd] in *.
  { split; [done|]. split; [done|]. intros id. destruct (decide (id = cr_rollout_id r)) as [->|Hne].
    - split; [intros Hid; exfalso; apply Hid; by left|done].
    - split; [intros _|left]; by apply Hother. }
  destruct (IH Hnd w1 Hok1) as (H1 & H2 & H3).
  { intros r' Hr'. rewrite Hother; [apply Hin; by right|]. intros He. apply Hn. rewrite <-He. by apply list_elem_of_fmap_2. }
  match goal with |- context [bind ?m ?k w1] => assert ((bind m k w1).2 = (m w1).2) as -> by (unfold bind; by destruct (m w1) as [[]]) end.
  split; [done|]. split; [by rewrite H2|]. intros id. destruct (H3 id) as [H4 H5]. destruct (decide (id = cr_rollout_id r)) as [->|Hne].
  - split; [intros Hid; exfalso; apply Hid; by left|]. by eapply settles_eq; [..|exact Hmoved]; [|rewrite H4|rewrite H2].
  - split; [intros Hid; rewrite H4; [by apply Hother|]; intros Hid'; apply Hid; by right|].
    by eapply settles_eq; [..|exact H5]; [apply Hother|..].
Qed.

(** The rollouts that are listed have different identifiers. *)
Lemma listed_rollouts ctx w : rollouts_ok w →
  NoDup (cr_rollout_id <$> list_canary_rollouts None ctx (pw_store w)) ∧
  ∀ r, r ∈ list_canary_rollouts None ctx (pw_store w) → od_get (cr_rollout_id r) (rollouts w) = Some r.
Proof.
  intros [Hwf Hids]. unfold list_canary_rollouts. split.
  - rewrite py_sort_perm. apply (sublist_NoDup _ (cr_rollout_id <$> od_values (rollouts w))); [|apply fmap_sublist, sublist_filter].
    unfold od_values. rewrite <-list_fmap_compose. replace ((cr_rollout_id ∘ snd) <$> rollouts w) with (od_keys (rollouts w)); [exact Hwf|].
    unfold od_keys. apply list_fmap_ext. intros i [k r] Hi. cbn. symmetry. apply Hids, od_elem_get; [done|]. by eapply list_elem_of_lookup_2.
  - intros r. rewrite py_sort_perm, list_elem_of_filter. intros [_ Hr]. apply od_value_get in Hr as [k Hk]; [|done]. by rewrite (Hids _ _ Hk).
Qed.

(** A recorded outcome: at most one sample, of the run's arm; then the rollout
    may be settled. *)
Lemma canary_record_spec r w : rollouts_ok w →
  let w' := (record env r w).2 in
  rollouts_ok w' ∧ (∀ id, settles (SRecord r) w w' id) ∧
  (samples w' = samples w ∨
   ∃ x c arm, run_canary_rollout_id r = Some (cr_rollout_id c) ∧ run_canary_arm r = Some (arm_value arm) ∧
     od_get (cr_rollout_id c) (rollouts w) = Some c ∧ cs_tenant_id x = cr_tenant_id c ∧ cs_rollout_id x = cr_rollout_id c ∧ cs_arm x = arm ∧
     cs_run_id x = run_id r ∧ samples w' = samples w ++ [x]).
Proof.
  intros Hok. cbn zeta. unfold record. destruct (run_canary_rollout_id r) as [id|] eqn:Hid; [|by split; [|split; [left|left]]].
  destruct (run_canary_arm r) as [text|] eqn:Harm; [|by split; [|split; [left|left]]].
  destruct (arm_of text) as [arm|] eqn:Hof; [|by split; [|split; [left|left]]]. cbn [of_option].
  assert (text = arm_value arm) as -> by (unfold arm_of in Hof; repeat case_bool_decide; by simplify_eq).
  match goal with |- context [bind (ret arm) ?k w] => change (bind (ret arm) k w) with (k arm w) end. cbv beta.
  match goal with |- context [record_sample env id (run_id r) arm ?ms None ?ctx] =>
    pose proof (record_sample_spec id (run_id r) arm ms None ctx w Hok) as [Hr1 Hs1] end.
  match goal with |- context [bind ?m ?k w] => destruct (bind_cases m k w) as [(x & w1 & Hm & ->)|(x & w1 & Hm & ->)] end; rewrite Hm in *; cbn [fst snd] in *.
  all: assert (rollouts_ok w1) as Hok1 by (unfold rollouts_ok; by rewrite Hr1).
  all: assert (samples w1 = samples w ∨ ∃ x c a, Some id = Some (cr_rollout_id c) ∧ Some (arm_value arm) = Some (arm_value a) ∧
     od_get (cr_rollout_id c) (rollouts w) = Some c ∧ cs_tenant_id x = cr_tenant_id c ∧ cs_rollout_id x = cr_rollout_id c ∧ cs_arm x = a ∧
     cs_run_id x = run_id r ∧ samples w1 = samples w ++ [x]) as Hs
   by (destruct Hs1 as [->|(y & c & Hc & Ht & Hy & Ha & Hrun & ->)]; [by left|right]; pose proof (proj2 Hok _ _ Hc) as Hcid; exists y, c, arm; rewrite Hcid; done).
  { split; [done|]. split; [|done]. intros i. left. by rewrite Hr1. }
  assert (∀ w2, pw_store w2 = pw_store w1 → rollouts_ok w2 ∧ (∀ i, settles (SRecord r) w w2 i) ∧ (samples w2 = samples w ∨ ∃ x c a, Some id = Some (cr_rollout_id c) ∧ Some (arm_value arm) = Some (arm_value a) ∧
     od_get (cr_rollout_id c) (rollouts w) = Some c ∧ cs_tenant_id x = cr_tenant_id c ∧ cs_rollout_id x = cr_rollout_id c ∧ cs_arm x = a ∧
     cs_run_id x = run_id r ∧ samples w2 = samples w ++ [x])) as Hsame.
  { intros w2 He. unfold rollouts_ok, settles, rollouts, samples in *. rewrite He. split; [done|]. split; [|done]. intros i. left. by rewrite Hr1. }
  match goal with |- context [bind ?m ?k w1] => destruct (bind_cases m k w1) as [(e & w2 & Hg & ->)|(c & w2 & Hg & ->)] end.
  { apply Hsame. by apply (keeps_run _ _ _ _ (same_get _ _)) in Hg. }
  apply get_rollout_inv in Hg as [-> Hg]. apply get_canary_inv in Hg as [Hg _]. change (ps_rollouts (pw_store w1)) with (rollouts w1) in Hg.
  destruct (bool_decide (cr_state c = ACTIVE)) eqn:Hact; [apply bool_decide_eq_true in Hact|exact (Hsame w1 eq_refl)]. rewrite ext_bind.
  destruct (cr_window_end c <=? _)%Z eqn:Hwin; [|exact (Hsame (mkWorld _ _ _) eq_refl)]. apply Z.leb_le in Hwin.
  set (w2 := mkWorld _ _ _). destruct (Hsame w2 eq_refl) as (Hok2 & _ & Hs2). pose proof (proj2 Hok1 _ _ Hg) as Hcid. rewrite Hcid.
  match goal with |- context [bind ?m ?k w2] => assert ((bind m k w2).2 = (m w2).2) as -> by (unfold bind; by destruct (m w2) as [[]]) end.
  destruct (auto_decide_settles (SRecord r) id (canary_ctx r) w2 c Hok2) as [H1 H2]; [done|done|by exists (pw_ext w1)|].
  split; [by apply auto_decide_ok|]. destruct (auto_decide_spec id (canary_ctx r) w2 Hok2) as [Hsam _].
  split; [|by rewrite Hsam]. intros i.
  assert (settles (SRecord r) w2 (auto_decide env id (canary_ctx r) w2).2 i) as Hi.
  { destruct (decide (i = id)) as [->|Hne]; [exact H1|left; by apply H2]. }
  eapply settles_eq; [| | |exact Hi]; [|done..]. change (rollouts w2) with (rollouts w1). by rewrite Hr1.
Qed.

Lemma due_spec at_ ctx w : rollouts_ok w →
  let w' := (decide_due env at_ ctx w).2 in
  rollouts_ok w' ∧ samples w' = samples w ∧ ∀ id, settles (SDue at_ ctx) w w' id.
Proof.
  intros Hok. cbn zeta. unfold decide_due.
  assert (∀ now w1, pw_store w1 = pw_store w → (∀ r, (cr_window_end r <= now)%Z → elapsed (SDue at_ ctx) r) →
    let w' := (decide_each env (list_canary_rollouts None ctx (pw_store w1)) now ctx w1).2 in
    rollouts_ok w' ∧ samples w' = samples w ∧ ∀ id, settles (SDue at_ ctx) w w' id) as Hgo.
  { intros now w1 He Hel. assert (rollouts_ok w1) as Hok1 by (unfold rollouts_ok, rollouts; by rewrite He).
    destruct (listed_rollouts ctx w1 Hok1) as [Hnd Hin].
    destruct (decide_each_spec (SDue at_ ctx) ctx now (list_canary_rollouts None ctx (pw_store w1)) w1 Hok1 Hnd Hin Hel) as (H1 & H2 & H3).
    split; [done|]. split; [rewrite H2; unfold samples; by rewrite He|]. intros id. destruct (H3 id) as [_ H4].
    eapply settles_eq; [| | |exact H4]; [|done..]. unfold rollouts. by rewrite He. }
  destruct at_ as [t|].
  - by apply (Hgo t w).
  - rewrite ext_bind. apply (Hgo (pe_clock env (pw_ext w)).1 (mkWorld (pw_store w) (pw_registry w) (pe_clock env (pw_ext w)).2)); [done|]. intros r Hr. by exists (pw_ext w).
Qed.

Definition begins (o : Step) (w : World) (id : string) : Prop := match o with SStart _ _ _ _ _ _ _ _ => id = next_rollout w | _ => False end.

(** What a step does to the rollouts. *)
Lemma step_spec o w : rollouts_ok w →
  rollouts_ok (step o w) ∧
  ∀ id, settles o w (step o w) id ∨ (begins o w id ∧ ∃ r, od_get id (rollouts (step o w)) = Some r ∧ cr_state r = ACTIVE).
Proof.
  intros Hok. destruct o as [wl v p n m c e ctx|r|r|t ctx]; cbn [step].
  - destruct (start_spec wl v p n m c e ctx w) as [_ [He|(r & Hid & Ha & _ & He)]].
    + split; [unfold rollouts_ok; by rewrite He|]. intros id. left. left. by rewrite He.
    + split; [by eapply rollouts_ok_set|]. intros id. destruct (decide (id = cr_rollout_id r)) as [->|Hne].
      * right. split; [done|]. exists r. by rewrite He, od_get_set_eq.
      * left. left. by rewrite He, od_get_set_ne.
  - pose proof (same_route r w) as He. unfold rollouts_ok, settles, rollouts. rewrite He. split; [done|]. intros id. left. by left.
  - destruct (canary_record_spec r w Hok) as (H1 & H2 & _). split; [done|]. intros id. left. apply H2.
  - destruct (due_spec t ctx w Hok) as (H1 & _ & H2). split; [done|]. intros id. left. apply H2.
Qed.

(** ** Sequences *)

Fixpoint run_steps (l : list Step) (w : World) : World := match l with [] => w | o :: l' => run_steps l' (step o w) end.

(** A rollout that is started gets an identifier no rollout has. *)
Fixpoint fresh_rollouts (l : list Step) (w : World) : Prop :=
  match l with
  | [] => True
  | o :: l' => (∀ id, begins o w id → od_get id (rollouts w) = None) ∧ fresh_rollouts l' (step o w)
  end.

Lemma run_steps_app l1 l2 w : run_steps (l1 ++ l2) w = run_steps l2 (run_steps l1 w).
Proof. revert w. induction l1 as [|o l1 IH]; intros w; [done|]. apply IH. Qed.

Lemma settled_stays o w id r : rollouts_ok w → od_get id (rollouts w) = Some r → (∀ i, begins o w i → od_get i (rollouts w) = None) →
  cr_state r ≠ ACTIVE → od_get id (rollouts (step o w)) = Some r.
Proof.
  intros Hok Hr Hf Hs. destruct (proj2 (step_spec o w Hok) id) as [[He|(r0 & r' & Hr0 & _ & Ha & _)]|[Hb _]]; [by rewrite He|congruence|].
  apply Hf in Hb. congruence.
Qed.

Lemma decided_settled r r' s : decided r r' s → cr_state r' ≠ ACTIVE.
Proof. by intros (ctx & _ & [(_ & ->)|(_ & _ & ->)]). Qed.

(** When a rollout came to be as it is: it was so from the start, or a step
    began it, or a step settled it. *)
Lemma rollout_origin l w id r' : rollouts_ok w → fresh_rollouts l w → od_get id (rollouts (run_steps l w)) = Some r' →
  od_get id (rollouts w) = Some r' ∨ cr_state r' = ACTIVE ∨
  ∃ l1 o l2 r, l = l1 ++ o :: l2 ∧ od_get id (rollouts (run_steps l1 w)) = Some r ∧ cr_state r = ACTIVE ∧ elapsed o r ∧
    decided r r' (pw_store (run_steps (l1 ++ [o]) w)).
Proof.
  revert w. induction l as [|o l IH]; intros w Hok Hf Hr; [by left|]. destruct Hf as [Hb Hf]. cbn [run_steps] in Hr.
  destruct (step_spec o w Hok) as [Hok1 Hstep]. destruct (IH (step o w) Hok1 Hf Hr) as [Hr1|[Ha|(l1 & o' & l2 & r & -> & H1 & H2)]].
  - destruct (Hstep id) as [[He|(r & r1 & Hr0 & Hr1' & Ha & Hel & Hd)]|(_ & r & Hr1' & Ha)].
    + left. by rewrite <-He.
    + right. right. rewrite Hr1 in Hr1'. injection Hr1' as <-. by exists [], o, l, r.
    + right. left. congruence.
  - right. by left.
  - right. right. exists (o :: l1), o', l2, r. done.
Qed.

Lemma settled_forever l w id r : rollouts_ok w → fresh_rollouts l w → od_get id (rollouts w) = Some r → cr_state r ≠ ACTIVE →
  od_get id (rollouts (run_steps l w)) = Some r.
Proof.
  revert w. induction l as [|o l IH]; intros w Hok Hf Hr Hs; [done|]. destruct Hf as [Hb Hf].
  apply IH; [by apply step_spec|done|by apply settled_stays|done].
Qed.
End History.

(** C15: Automation settles a rollout once and on evidence: in any sequence of
    rollouts started, runs routed, outcomes recorded and due windows decided, a
    rollout that is settled stays as it is; and one that is found settled, and
    was not at first, was active before some step that saw its window over, and
    that step settled it by what the samples then in the store say (as listed in
    a context that may see it): rolled back, its candidate quarantined, if the
    candidate regressed; promoted if not, with at least [min_sample] samples of
    each arm and no more of the candidate's than the cap. *)
Theorem canary_settled_on_evidence {W X} `{!VersionApi W} (env : Progressive.Env X) l (w : Progressive.World W X) :
  rollouts_ok w → fresh_rollouts env l w →
  (∀ id r, od_get id (rollouts w) = Some r → cr_state r ≠ ACTIVE → od_get id (rollouts (run_steps env l w)) = Some r) ∧
  ∀ id r', od_get id (rollouts (run_steps env l w)) = Some r' → cr_state r' ≠ ACTIVE → od_get id (rollouts w) ≠ Some r' →
    ∃ l1 o l2 r ctx, l = l1 ++ o :: l2 ∧ od_get id (rollouts (run_steps env l1 w)) = Some r ∧ cr_state r = ACTIVE ∧ elapsed env o r ∧
      scopes ctx (cr_tenant_id r) = true ∧
      let e := evaluation_of r (list_canary_samples (cr_rollout_id r) ctx (pw_store (run_steps env (l1 ++ [o]) w))) in
      (ce_regression e = true ∧ r' = settled r ROLLED_BACK true ∨
       ce_regression e = false ∧ r' = settled r PROMOTED (cr_candidate_quarantined r) ∧
       (cr_min_sample r <= ce_candidate_samples e)%Z ∧ (cr_min_sample r <= ce_baseline_samples e)%Z ∧
       ∀ cap, cr_blast_radius_cap r = Some cap → (ce_candidate_samples e <= cap)%Z).
Proof.
  intros Hok Hf. split; [intros id r Hr Hs; by apply settled_forever|].
  intros id r' Hr' Hs Hne. destruct (rollout_origin env l w id r' Hok Hf Hr') as [?|[?|(l1 & o & l2 & r & Hl & Hr & Ha & Hel & ctx & Hsc & Hd)]]; [done|done|].
  exists l1, o, l2, r, ctx. do 5 (split; [done|]). cbn zeta in *. destruct Hd as [[H1 H2]|(H1 & H2 & H3)]; [by left|right].
  split; [done|]. split; [done|]. unfold evaluation_of in H2. cbn in H2 |- *.
  apply andb_true_iff in H2 as [[[H4%Z.leb_le H5%Z.leb_le]%andb_true_iff _]%andb_true_iff H6%negb_true_iff].
  split; [done|]. split; [done|]. intros cap Hcap. rewrite Hcap in H6. by apply Z.ltb_ge in H6.
Qed.
