(* ===== verification/CanaryCap.v ===== *)
(** * How far a candidate can go beyond its cap

    Runs are routed when they are submitted and sampled when they finish, so the
    cap is compared with the samples of finished runs only. *)

From stdpp Require Import base strings pretty numbers gmap sets list.
From S2P Require Import Prelude Text Float64 Calendar Tenancy CoreModels Canonical Conflict Registry RunService Progressive CanaryHistory.

#[local] Open Scope hp_scope.

Lemma filter_ext_in {A} (P Q : A → Prop) `{!∀ x, Decision (P x), !∀ x, Decision (Q x)} (l : list A) :
  (∀ x, x ∈ l → P x ↔ Q x) → filter P l = filter Q l.
Proof.
  induction l as [|a l IH]; intros HPQ; [done|]. assert (filter P l = filter Q l) as He by (apply IH; intros x Hx; apply HPQ; by right).
  rewrite !filter_cons, He. specialize (HPQ a ltac:(by left)). repeat case_decide; tauto.
Qed.

Section Cap.
Context {W X : Type} `{!VersionApi W}.
Variable env : Progressive.Env X.

Abbreviation World := (Progressive.World W X).

(** Runs are submitted, finish in any order and in any state, while rollouts are
    started and windows decided. *)
Inductive Event :=
  | ESubmit (r : Run)
  | EFinish (n : nat) (state : RunState) (cost : f64)
  | EStart (workload : string) (candidate_version traffic_pct window_seconds min_sample : Z) (blast_radius_cap : option Z)
      (eligible_rule : odict string JsonValue) (ctx : TenantContext)
  | EDue (at_ : option Z) (ctx : TenantContext).

(** A run as the run service stores it once it is assigned. *)
Definition assigned (r : Run) (a : CanaryAssignment) : Run :=
  run_copy r (RunService.Service.canary_update (as_rollout_id a, as_arm a, Some (as_candidate_version a))).

Definition finished (r : Run) (state : RunState) (cost : f64) : Run :=
  run_copy r {| u_state := Some state; u_updated_at := None; u_failure_reason := None; u_result := None; u_started_at := None;
                u_finished_at := None; u_trace_id := None; u_sandbox := None; u_sandbox_id := None; u_cost_usd := Some cost; u_canary := None |}.

(** The world and the runs under way that a rollout counts. *)
Definition play (e : Event) (s : World * list Run) : World * list Run :=
  let '(w, l) := s in
  match e with
  | ESubmit r => let '(o, w') := route env r w in (w', match o with Ret (Some a) => l ++ [assigned r a] | _ => l end)
  | EFinish n state cost => match l !! n with Some r => (step env (SRecord (finished r state cost)) w, base.delete n l) | None => (w, l) end
  | EStart wl v p n m c e ctx => (step env (SStart wl v p n m c e ctx) w, l)
  | EDue t ctx => (step env (SDue t ctx) w, l)
  end.

Fixpoint play_all (l : list Event) (s : World * list Run) : World * list Run := match l with [] => s | e :: l' => play_all l' (play e s) end.

(** Identifiers of rollouts are new, and no more than [n] assigned runs are
    under way at a time. *)
Fixpoint limited (n : nat) (l : list Event) (s : World * list Run) : Prop :=
  match l with
  | [] => True
  | e :: l' =>
      match e with EStart _ _ _ _ _ _ _ _ => od_get (next_rollout env s.1) (rollouts s.1) = None | _ => True end ∧
      (length (play e s).2 ≤ n)%nat ∧ limited n l' (play e s)
  end.

(** The candidate's samples of a rollout, and its runs under way. *)
Definition candidate_sample (id : string) (x : CanarySample) : Prop := cs_rollout_id x = id ∧ cs_arm x = CANDIDATE.
Definition candidate_run (id : string) (r : Run) : Prop := run_canary_rollout_id r = Some id ∧ run_canary_arm r = Some "candidate".

#[export] Instance candidate_sample_dec id x : Decision (candidate_sample id x).
Proof. unfold candidate_sample. apply _. Defined.
#[export] Instance candidate_run_dec id r : Decision (candidate_run id r).
Proof. unfold candidate_run. apply _. Defined.

Definition sampled (id : string) (w : World) : nat := length (filter (candidate_sample id) (samples w)).
Definition under_way (id : string) (l : list Run) : nat := length (filter (candidate_run id) l).

Definition cap_limit (n : nat) (cap : Z) : Z := if (cap =? 0)%Z then 0 else (cap + Z.of_nat n - 1)%Z.

Record counted (n : nat) (s : World * list Run) : Prop := {
  ct_rollouts : rollouts_ok s.1;
  ct_owned : ∀ x, x ∈ samples s.1 → ∃ c, od_get (cs_rollout_id x) (rollouts s.1) = Some c ∧ cs_tenant_id x = cr_tenant_id c;
  ct_known : ∀ r id, r ∈ s.2 → run_canary_rollout_id r = Some id → is_Some (od_get id (rollouts s.1));
  ct_limit : ∀ id c cap, od_get id (rollouts s.1) = Some c → cr_blast_radius_cap c = Some cap →
    (Z.of_nat (sampled id s.1) + Z.of_nat (under_way id s.2) ≤ cap_limit n cap)%Z;
  ct_caps : ∀ id c cap, od_get id (rollouts s.1) = Some c → cr_blast_radius_cap c = Some cap → (0 ≤ cap)%Z;
}.

(** ** What routing reads *)

Lemma active_for_inv workload ctx (w : World) c : rollouts_ok w → active_for workload ctx (pw_store w) = Some c →
  od_get (cr_rollout_id c) (rollouts w) = Some c ∧ scopes ctx (cr_tenant_id c) = true.
Proof.
  intros [Hwf Hids]. unfold active_for. destruct (list_find _ _) as [[i r]|] eqn:Hf; [|done]. cbn. intros [= <-].
  apply list_find_Some in Hf as (Hf & _). apply list_elem_of_lookup_2 in Hf. unfold list_canary_rollouts in Hf.
  rewrite py_sort_perm, list_elem_of_filter in Hf. destruct Hf as [[Hs _] Hf]. split; [|done].
  apply od_value_get in Hf as [k Hk]; [|done]. by rewrite (Hids _ _ Hk).
Qed.

(** The candidates a context sees are all there are. *)
Lemma listed_candidates n (s : World * list Run) ctx c : counted n s → od_get (cr_rollout_id c) (rollouts s.1) = Some c →
  scopes ctx (cr_tenant_id c) = true →
  length (filter (λ x, cs_arm x = CANDIDATE) (list_canary_samples (cr_rollout_id c) ctx (pw_store s.1))) = sampled (cr_rollout_id c) s.1.
Proof.
  intros Hc Hg Hs. unfold list_canary_samples, sampled. rewrite (Permutation_length (filter_Permutation _ _ _ (py_sort_perm _ _))).
  rewrite list_filter_filter. f_equal. apply filter_ext_in. intros x Hx. unfold candidate_sample.
  destruct (ct_owned _ _ Hc x Hx) as (c' & Hc' & Ht). split; [tauto|]. intros [Hr Ha]. rewrite Hr, Hg in Hc'. injection Hc' as <-. by rewrite Ht.
Qed.

Lemma arm_value_candidate a : arm_value a = "candidate" ↔ a = CANDIDATE.
Proof. by destruct a. Qed.

(** A run is given the candidate below the cap only. *)
Lemma route_inv n (s : World * list Run) r a w' : counted n s → route env r s.1 = (Ret (Some a), w') →
  ∃ c, od_get (as_rollout_id a) (rollouts s.1) = Some c ∧
    (as_arm a = "candidate" → ∀ cap, cr_blast_radius_cap c = Some cap → (Z.of_nat (sampled (as_rollout_id a) s.1) < cap)%Z).
Proof.
  intros Hc Hr. apply bind_inv in Hr as (st & w1 & [= <- <-] & Hr). destruct (active_for _ _ _) as [c|] eqn:Hact; [|done].
  apply active_for_inv in Hact as [Hg Hs]; [|apply Hc]. apply bind_inv in Hr as (arm & w2 & Harm & Hr). injection Hr as <- _. cbn.
  exists c. split; [done|]. rewrite arm_value_candidate. intros -> cap Hcap. unfold select_arm in Harm.
  apply bind_inv in Harm as (c' & w3 & Hget & Harm). apply get_rollout_inv in Hget as [-> Hget]. apply get_canary_inv in Hget as [Hget _].
  change (ps_rollouts (pw_store s.1)) with (rollouts s.1) in Hget. rewrite Hg in Hget. injection Hget as <-.
  destruct (_ || _); [done|]. apply bind_inv in Harm as (st & w4 & [= <- <-] & Harm). rewrite Hcap in Harm.
  rewrite (listed_candidates n s) in Harm by done. destruct (Z.leb_spec cap (Z.of_nat (sampled (cr_rollout_id c) s.1))); [done|lia].
Qed.

(** ** Every event keeps the count *)

(** Rollouts keep their cap and tenant; new ones have a cap that is valid. *)
Definition grown (w w' : World) : Prop :=
  (∀ id c, od_get id (rollouts w) = Some c →
     ∃ c', od_get id (rollouts w') = Some c' ∧ cr_blast_radius_cap c' = cr_blast_radius_cap c ∧ cr_tenant_id c' = cr_tenant_id c) ∧
  ∀ id c' cap, od_get id (rollouts w) = None → od_get id (rollouts w') = Some c' → cr_blast_radius_cap c' = Some cap → (0 ≤ cap)%Z.

Lemma settles_grown o w w' : (∀ id, settles env o w w' id) → grown w w'.
Proof.
  intros Hs. split.
  - intros id c Hc. destruct (Hs id) as [He|(r & r' & Hr & Hr' & _ & _ & ctx & _ & Hd)]; [exists c; by rewrite He|].
    rewrite Hc in Hr. injection Hr as <-. exists r'. split; [done|]. by destruct Hd as [(_ & ->)|(_ & _ & ->)].
  - intros id c' cap Hn Hc'. destruct (Hs id) as [He|(r & r' & Hr & _)]; congruence.
Qed.

Lemma filter_nil_none {A} (P : A → Prop) `{!∀ x, Decision (P x)} l : (∀ x, x ∈ l → ¬ P x) → length (filter P l) = 0%nat.
Proof.
  induction l as [|a l IH]; intros HP; [done|]. rewrite filter_cons_False; [apply IH; intros x Hx; apply HP; by right|apply HP; by left].
Qed.

Lemma counted_grown n w w' l l' : counted n (w, l) → rollouts_ok w' → grown w w' →
  (∀ x, x ∈ samples w' → x ∈ samples w ∨ ∃ c, od_get (cs_rollout_id x) (rollouts w) = Some c ∧ cs_tenant_id x = cr_tenant_id c) →
  (∀ r id, r ∈ l' → run_canary_rollout_id r = Some id → is_Some (od_get id (rollouts w))) →
  (∀ id c cap, od_get id (rollouts w) = Some c → cr_blast_radius_cap c = Some cap →
     (Z.of_nat (sampled id w') + Z.of_nat (under_way id l') ≤ cap_limit n cap)%Z) →
  counted n (w', l').
Proof.
  intros Hc Hok [Hold Hnew] Hsam Hrun Hlim.
  assert (∀ x, x ∈ samples w' → ∃ c, od_get (cs_rollout_id x) (rollouts w) = Some c ∧ cs_tenant_id x = cr_tenant_id c) as Hsam'.
  { intros x [Hx|Hx]%Hsam; [by apply (ct_owned _ _ Hc)|done]. }
  assert (∀ id c' cap, od_get id (rollouts w') = Some c' → cr_blast_radius_cap c' = Some cap →
    (∃ c, od_get id (rollouts w) = Some c ∧ cr_blast_radius_cap c = Some cap) ∨ (od_get id (rollouts w) = None ∧ 0 ≤ cap)%Z) as Hcase.
  { intros id c' cap Hc' Hcap. destruct (od_get id (rollouts w)) as [c|] eqn:He; [left|right; split; [done|by eapply Hnew]].
    destruct (Hold id c He) as (c2 & Hc2 & Hcap2 & _). exists c. split; [done|congruence]. }
  split; cbn [fst snd].
  - done.
  - intros x Hx. destruct (Hsam' x Hx) as (c & Hget & Ht). destruct (Hold _ _ Hget) as (c' & Hc' & _ & Ht'). exists c'. split; [done|congruence].
  - intros r id Hr Hid. destruct (Hrun r id Hr Hid) as [c Hget]. destruct (Hold _ _ Hget) as (c' & Hc' & _). by exists c'.
  - intros id c' cap Hc' Hcap. destruct (Hcase id c' cap Hc' Hcap) as [(c & Hget & Hcap')|[Hn Hpos]]; [by eapply Hlim|].
    unfold sampled, under_way. rewrite !filter_nil_none.
    + unfold cap_limit. destruct (Z.eqb_spec cap 0); lia.
    + intros r Hr [Hid _]. apply Hrun in Hid as [? ?]; [congruence|done].
    + intros x Hx [Hid _]. apply Hsam' in Hx as (c & Hget & _). congruence.
  - intros id c' cap Hc' Hcap. destruct (Hcase id c' cap Hc' Hcap) as [(c & Hget & Hcap')|[Hn Hpos]]; [by eapply (ct_caps _ _ Hc)|done].
Qed.

Lemma grown_refl w w' : rollouts w' = rollouts w → grown w w'.
Proof. intros He. split; [intros id c Hc; exists c; by rewrite He|intros id c' cap Hn; rewrite He; congruence]. Qed.

Lemma under_way_snoc id l r : under_way id (l ++ [r]) = (under_way id l + if decide (candidate_run id r) then 1 else 0)%nat.
Proof. unfold under_way. rewrite filter_app, length_app, filter_cons. cbn. by case_decide. Qed.

Lemma sampled_snoc id w w' x : samples w' = samples w ++ [x] → sampled id w' = (sampled id w + if decide (candidate_sample id x) then 1 else 0)%nat.
Proof. intros He. unfold sampled. rewrite He, filter_app, length_app, filter_cons. cbn. by case_decide. Qed.

Lemma under_way_delete id l n r : l !! n = Some r →
  under_way id l = (under_way id (base.delete n l) + if decide (candidate_run id r) then 1 else 0)%nat.
Proof.
  intros Hn. unfold under_way. rewrite (Permutation_length (filter_Permutation _ _ _ (delete_Permutation _ _ _ Hn))).
  rewrite filter_cons. case_decide; cbn; lia.
Qed.

Lemma counted_submit n r w l : counted n (w, l) → (length (play (ESubmit r) (w, l)).2 ≤ n)%nat → counted n (play (ESubmit r) (w, l)).
Proof.
  intros Hc Hn. cbn [play] in *. pose proof (same_route env r w) as Hs. pose proof (route_inv n (w, l) r) as Hroute. cbn [fst] in Hroute.
  destruct (route env r w) as [o w'] eqn:Hr. cbn [fst snd] in *. unfold same_store in Hs.
  assert (rollouts w' = rollouts w ∧ samples w' = samples w) as [Hr' Hs'] by (unfold rollouts, samples; by rewrite Hs).
  assert (rollouts_ok w') as Hok by (unfold rollouts_ok; rewrite Hr'; apply Hc).
  assert (∀ id, sampled id w' = sampled id w) as Hsam by (intros id; unfold sampled; by rewrite Hs').
  destruct o as [[a|]|]; apply (counted_grown n w w' l); try done; try (by apply grown_refl); rewrite ?Hs'; try (by intros x Hx; left).
  - intros r' id [Hin|Hin%list_elem_of_singleton]%elem_of_app Hid; [by eapply (ct_known _ _ Hc)|]. subst r'. cbn in Hid. injection Hid as <-.
    destruct (Hroute a w' Hc eq_refl) as (c & Hget & _). by exists c.
  - intros id c cap Hget Hcap. pose proof (ct_limit _ _ Hc id c cap Hget Hcap) as Hlim. cbn [fst snd] in Hlim.
    rewrite Hsam, under_way_snoc. case_decide as Hcand; [|lia]. destruct Hcand as [Hid Harm]. cbn in Hid, Harm. injection Hid as <-. injection Harm as Harm.
    destruct (Hroute a w' Hc eq_refl) as (c2 & Hget2 & Hlt). rewrite Hget in Hget2. injection Hget2 as <-. specialize (Hlt Harm cap Hcap).
    rewrite length_app in Hn. cbn in Hn. pose proof (ct_caps _ _ Hc _ _ _ Hget Hcap) as Hpos. 
    assert (under_way (as_rollout_id a) l ≤ length l)%nat by apply length_filter. unfold cap_limit. destruct (Z.eqb_spec cap 0); lia.
  - intros r' id Hin Hid. by eapply (ct_known _ _ Hc).
  - intros id c cap Hget Hcap. rewrite Hsam. by eapply (ct_limit _ _ Hc).
  - intros r' id Hin Hid. by eapply (ct_known _ _ Hc).
  - intros id c cap Hget Hcap. rewrite Hsam. by eapply (ct_limit _ _ Hc).
Qed.

Lemma counted_finish n k st cost w l : counted n (w, l) → counted n (play (EFinish k st cost) (w, l)).
Proof.
  intros Hc. cbn [play]. destruct (l !! k) as [r|] eqn:Hk; [|done]. cbn [step].
  destruct (canary_record_spec env (finished r st cost) w (ct_rollouts _ _ Hc)) as (Hok & Hset & Hsam).
  apply (counted_grown n w _ l); [done|done|by eapply settles_grown| | |].
  - intros x Hx. destruct Hsam as [He|(y & c & arm & _ & _ & Hget & Ht & Hid & _ & _ & He)]; rewrite He in Hx; [by left|].
    apply elem_of_app in Hx as [Hx| ->%list_elem_of_singleton]; [by left|right]. exists c. by rewrite Hid.
  - intros r' id Hin Hid. eapply (ct_known _ _ Hc); [|exact Hid]. cbn. rewrite (delete_Permutation _ _ _ Hk). by right.
  - intros id c cap Hget Hcap. pose proof (ct_limit _ _ Hc id c cap Hget Hcap) as Hlim. cbn [fst snd] in Hlim. rewrite (under_way_delete id l k r Hk) in Hlim.
    destruct Hsam as [He|(y & c2 & arm & Hr1 & Hr2 & _ & _ & Hid & Ha & _ & He)].
    + unfold sampled in *. rewrite He. lia.
    + rewrite (sampled_snoc id w _ y He). destruct (decide (candidate_sample id y)) as [[Hy1 Hy2]|]; [|lia].
      rewrite decide_True in Hlim; [lia|]. cbn in Hr1, Hr2. split; [congruence|]. rewrite Hr2. f_equal. apply arm_value_candidate. congruence.
Qed.

Lemma counted_start n wl v p m k c e ctx w l : counted n (w, l) → od_get (next_rollout env w) (rollouts w) = None →
  counted n (play (EStart wl v p m k c e ctx) (w, l)).
Proof.
  intros Hc Hn. cbn [play]. destruct (step_spec env (SStart wl v p m k c e ctx) w (ct_rollouts _ _ Hc)) as [Hok _]. cbn [step] in *.
  destruct (start_spec env wl v p m k c e ctx w) as [Hs Hr]. apply (counted_grown n w _ l); [done|done| | | |].
  - destruct Hr as [Hr|(r & Hid & _ & Hv & Hr)]; [by apply grown_refl|]. split.
    + intros id c0 Hget. exists c0. rewrite Hr, od_get_set_ne; [done|]. intros ->. congruence.
    + intros id c' cap Hnone. rewrite Hr, od_get_set. case_decide; [intros [= <-]|congruence]. intros Hcap.
      unfold rollout_valid in Hv. rewrite Hcap in Hv. apply andb_true_iff in Hv as [[_ Hv%Z.leb_le]%andb_true_iff _]. done.
  - intros x. rewrite Hs. by left.
  - intros r id. apply (ct_known _ _ Hc).
  - intros id c0 cap Hget Hcap. unfold sampled. rewrite Hs. by eapply (ct_limit _ _ Hc).
Qed.

Lemma counted_due n t ctx w l : counted n (w, l) → counted n (play (EDue t ctx) (w, l)).
Proof.
  intros Hc. cbn [play step]. destruct (due_spec env t ctx w (ct_rollouts _ _ Hc)) as (Hok & Hs & Hset).
  apply (counted_grown n w _ l); [done|done|by eapply settles_grown| | |].
  - intros x. rewrite Hs. by left.
  - intros r id. apply (ct_known _ _ Hc).
  - intros id c0 cap Hget Hcap. unfold sampled. rewrite Hs. by eapply (ct_limit _ _ Hc).
Qed.

Lemma counted_all n l s : counted n s → limited n l s → counted n (play_all l s).
Proof.
  revert s. induction l as [|e l IH]; intros s Hc; [done|]. intros (Hf & Hn & Hl). apply IH; [|done]. destruct s as [w runs].
  destruct e; [by apply counted_submit|by apply counted_finish|by apply counted_start|by apply counted_due].
Qed.
End Cap.

(** C16: The blast-radius cap bounds a candidate up to the runs under way: from
    an empty store on, while runs are submitted, finish in any order and in any
    state, and rollouts are started and settled, the samples and the unfinished
    runs of a candidate never exceed its cap by more than the number of assigned
    runs that can be under way at a time, less one; so with one run at a time
    the cap is kept, and a cap of zero always is. *)
Theorem blast_radius_bounded {W X} `{!VersionApi W} (env : Progressive.Env X) n l (w : Progressive.World W X) :
  pw_store w = empty_progressive → limited env n l (w, []) →
  ∀ id c cap, od_get id (rollouts (play_all env l (w, [])).1) = Some c → cr_blast_radius_cap c = Some cap →
    (Z.of_nat (sampled id (play_all env l (w, [])).1) + Z.of_nat (under_way id (play_all env l (w, [])).2) ≤
     if (cap =? 0)%Z then 0 else cap + Z.of_nat n - 1)%Z.
Proof.
  intros Hw Hl id c cap Hget Hcap. apply (ct_limit n _) with (c := c); [|done..]. apply counted_all; [|done].
  assert (rollouts w = [] ∧ samples w = []) as [Hr Hs] by (unfold rollouts, samples; by rewrite Hw).
  split; unfold rollouts_ok; cbn [fst snd]; rewrite ?Hr, ?Hs; try done; [split; [by apply NoDup_nil_2|done]|by intros x Hx%not_elem_of_nil|by intros x i Hx%not_elem_of_nil].
Qed.
