(* ===== verification/CanaryServing.v ===== *)
(** * What a canary serves

    The router of the run service over the canary service: which manifest a
    routed run executes, and what a decision changes in the registry. *)

From stdpp Require Import base strings pretty numbers gmap sets list.
From S2P Require Import Prelude Text Float64 Calendar Tenancy CoreModels Canonical Conflict Manifest Registry Admission RunService Progressive CanaryHistory CanaryCap.

#[local] Open Scope hp_scope.

(** ** The router *)

Section Router.
Context {W X : Type} `{!VersionApi W}.
Variable env : Progressive.Env X.

(** [CanaryService.route] as the run service's router; its world is part of what
    the run service's collaborators act on. *)
Definition router (r : Run) (w : Progressive.World W X) : outcome ExecExn (option (string * string * option Z)) * Progressive.World W X :=
  let '(o, w') := route env r w in
  (match o with
   | Ret a => Ret ((λ a, (as_rollout_id a, as_arm a, Some (as_candidate_version a))) <$> a)
   | Raise _ => Raise (ExternalError "canary")
   end, w').

Lemma route_registry r (w : Progressive.World W X) : pw_registry (route env r w).2 = pw_registry w.
Proof.
  unfold route, select_arm, get_rollout, bind, gets. destruct (active_for _ _ _); [|done]. destruct (get_canary_rollout _ _ _); [|done]. cbn.
  destruct (_ || _); [done|]. by destruct (match cr_blast_radius_cap _ with Some cap => _ | None => _ end).
Qed.

Lemma route_active r c (w : Progressive.World W X) : rollouts_ok w → active_for (run_workload_id r) (canary_ctx r) (pw_store w) = Some c →
  ∃ arm, route env r w = (Ret (Some (mkAssignment (cr_rollout_id c) (arm_value arm) (cr_candidate_version c))), w) ∧
    ((sample_bucket (pe_sha256_hex env) (run_id r) <? cr_traffic_pct c)%Z = false ∨ is_eligible c (run_task r) = false → arm = BASELINE).
Proof.
  intros Hok Ha. destruct (active_for_inv _ _ _ _ Hok Ha) as [Hg Hs]. unfold route, bind at 1, gets. rewrite Ha.
  assert (∃ arm, select_arm env (cr_rollout_id c) (run_id r) (is_eligible c (run_task r)) (canary_ctx r) w = (Ret arm, w) ∧
    ((sample_bucket (pe_sha256_hex env) (run_id r) <? cr_traffic_pct c)%Z = false ∨ is_eligible c (run_task r) = false → arm = BASELINE)) as (arm & Harm & Hb).
  { unfold select_arm, get_rollout, get_canary_rollout, bind, gets. unfold rollouts in Hg. rewrite Hg, Hs. cbn [of_option ret].
    destruct (is_eligible c (run_task r)); [|rewrite orb_true_r; by exists BASELINE]. destruct (negb _ || _); [by exists BASELINE|].
    destruct (match cr_blast_radius_cap c with Some cap => _ | None => _ end); [by exists BASELINE|]. eexists. split; [reflexivity|].
    intros [->|?]; done. }
  exists arm. unfold bind. rewrite Harm. done.
Qed.
End Router.

(** While a rollout of a workload is active, every production run of the
    workload that is submitted (unless it is a shadow or a probe) executes the
    candidate's manifest, whatever arm it is given: also a run that is not
    eligible, or falls outside the traffic percentage, and is accounted to the
    baseline. *)
Theorem every_arm_serves_candidate {W X} `{!VersionApi W} (env : Progressive.Env X) (renv : RunService.Env (Progressive.World W X))
    sub r c m rec (s : RunService.World (Progressive.World W X)) :
  canary_route renv = Some (router env) → Service.sub_context sub = PRODUCTION → Service.sub_shadow_of sub = None → Service.sub_probe sub = false →
  rollouts_ok (ext s) → active_for (run_workload_id r) (canary_ctx r) (pw_store (ext s)) = Some c → cr_candidate_version c ≠ 0%Z →
  registry_get renv (run_workload_id r) (run_ctx r) (ext s) = (Ret rec, ext s) →
  registry_get_version renv (run_workload_id r) (cr_candidate_version c) (run_ctx r) (ext s) = (Ret (Some m), ext s) →
  ∃ r' arm, Service.assign_canary renv sub r s = (Ret r', s) ∧ run_canary_arm r' = Some (arm_value arm) ∧
    (is_eligible c (run_task r) = false ∨ (sample_bucket (pe_sha256_hex env) (run_id r) <? cr_traffic_pct c)%Z = false → arm = BASELINE) ∧
    Service.transition_manifest renv r' s = (Ret m, s).
Proof.
  intros Hroute Hctx Hsh Hpr Hok Hact Hv Hget Hver. destruct (route_active env r c (ext s) Hok Hact) as (arm & Harm & Hb).
  exists (run_copy r (Service.canary_update (cr_rollout_id c, arm_value arm, Some (cr_candidate_version c)))), arm.
  split.
  { unfold Service.assign_canary. rewrite Hroute, Hctx, Hsh, Hpr. rewrite !bool_decide_eq_true_2 by done. cbn [andb negb]. unfold bind at 1, Service.on_ext, router. rewrite Harm. cbn.
    rewrite (proj2 (Z.eqb_neq _ _) Hv). by destruct s. }
  split; [done|]. split; [tauto|]. unfold Service.transition_manifest, bind, Service.on_ext. cbn.
  change (run_ctx (run_copy r _)) with (run_ctx r). rewrite Hget. cbn. rewrite Hver. by destruct s.
Qed.

(** ** The registry *)

Section Registry.
Context {X Y : Type} (clock : Y → Z * Y) (env : Progressive.Env X).

Abbreviation World := (Progressive.World (RegistryStore * Y) X).

#[local] Instance api : VersionApi (RegistryStore * Y) := version_api clock.

(** Workloads are stored under their names. *)
Definition names_ok (g : RegistryStore) : Prop := ∀ k r, od_get k (rg_workloads g) = Some r → wr_name r = k.

(** The manifest the registry serves for a workload. *)
Definition served (g : RegistryStore) (name : string) : option Manifest := wr_manifest <$> od_get name (rg_workloads g).

Definition same_served (g g' : RegistryStore) : Prop := names_ok g → names_ok g' ∧ ∀ name, served g' name = served g name.

#[local] Instance same_served_preorder : PreOrder same_served.
Proof.
  split; [by intros g|]. intros g1 g2 g3 H1 H2 Hok. destruct (H1 Hok) as [Hok2 He]. destruct (H2 Hok2) as [Hok3 He']. split; [done|].
  intros name. by rewrite He', He.
Qed.

Lemma promote_served ctx name version (g : RegistryStore * Y) : same_served g.1 (Registry.promote clock ctx name version g).2.1.
Proof.
  intros Hok. destruct g as [s y]. cbn [fst].
  assert (∀ w', Registry.promote clock ctx name version (s, y) = w' → w'.2.1 = s ∨
    ∃ r u, od_get name (rg_workloads s) = Some r ∧ wr_name u = wr_name r ∧ wr_manifest u = wr_manifest r ∧
      w'.2.1 = set_workloads s (od_set (wr_name r) u (rg_workloads s))) as Hp.
  { intros w'. unfold Registry.promote, bind at 1, Registry.get, bind at 1, Registry.store, gets. cbn [fst snd].
    destruct (get_workload s ctx name) as [r|] eqn:Hr; [|by intros <-; left]. apply get_workload_get in Hr as [Hg Hsc]. cbn [of_option ret].
    unfold bind at 1. cbn [fst snd]. unfold bind at 1. destruct (get_version s ctx name version) as [target|]; [|by intros <-; left]. cbn [of_option ret fst snd].
    destruct (wv_re_certification_required target && wr_needs_re_certification r); [by intros <-; left|].
    unfold bind at 1, Registry.now. cbn. destruct (clock y) as [t y']. cbn. set (u := record_copy r _). unfold bind.
    destruct (save_workload ctx u (s, y')) as [[a|e] w2] eqn:Hsave.
    - apply save_workload_inv in Hsave as [-> _]. intros <-. right. by exists r, u.
    - intros <-. left. cbn. unfold save_workload, require, bind in Hsave. cbn in Hsave. rewrite Hsc in Hsave. cbn in Hsave.
      destruct (od_get (wr_name r) (rg_workloads s)) as [x|]; [destruct (scopes ctx (wr_tenant_id x))|]; first [discriminate|by injection Hsave as _ <-]. }
  destruct (Hp _ eq_refl) as [->|(r & u & Hg & Hn & Hm & ->)]; [done|]. pose proof (Hok _ _ Hg) as Hname. rewrite Hname.
  unfold names_ok, served. cbn. split; intros k; [intros r'|]; rewrite od_get_set; case_decide; try done; try apply Hok.
  - intros [= <-]. congruence.
  - subst k. rewrite Hg. cbn. by rewrite Hm.
Qed.

Definition kept (w w' : World) : Prop := same_served (pw_registry w).1 (pw_registry w').1.

#[local] Instance kept_preorder : PreOrder kept.
Proof. split; [intros w; unfold kept; reflexivity|]. intros w1 w2 w3 H1 H2. unfold kept in *. by etrans. Qed.

Lemma kept_same {A} (m : M World ProgressiveExn A) : (∀ w, pw_registry (m w).2 = pw_registry w) → keeps kept m.
Proof. intros H1 w. unfold kept. rewrite H1. reflexivity. Qed.

Lemma served_ext {A} (f : X → A * X) : keeps kept (Progressive.on_ext (W := RegistryStore * Y) f).
Proof. apply kept_same. intros w. unfold Progressive.on_ext. by destruct (f (pw_ext w)). Qed.

Lemma served_audit a r reason ctx actor : keeps kept (Progressive.audit (W := RegistryStore * Y) env a r reason ctx actor).
Proof.
  apply kept_same. intros w. unfold Progressive.audit, on_ext_exn. destruct (pe_audit env) as [f|]; [|done]. by destruct (f _ _ _ _ _ (pw_ext w)).
Qed.

Lemma kept_get id ctx : keeps kept (get_rollout (W := RegistryStore * Y) (X := X) id ctx).
Proof. apply kept_same. intros w. unfold get_rollout, bind, gets, of_option. by destruct (get_canary_rollout _ _ _). Qed.

Lemma kept_add r ctx : keeps kept (add_canary_rollout (W := RegistryStore * Y) (X := X) r ctx).
Proof. apply kept_same. intros w. rewrite add_rollout_run. by destruct (scopes ctx (cr_tenant_id r)). Qed.

Lemma kept_sample r ctx : keeps kept (add_canary_sample (W := RegistryStore * Y) (X := X) r ctx).
Proof. apply kept_same. intros w. unfold add_canary_sample, require, bind. by destruct (scopes ctx (cs_tenant_id r)). Qed.

Lemma kept_va_get ctx name : keeps kept (on_registry (X := X) (va_get (W := RegistryStore * Y) ctx name)).
Proof.
  apply kept_same. intros w. unfold on_registry. cbn. unfold bind, Registry.get, bind, Registry.store, gets. destruct (get_workload _ _ _); cbn; by destruct w as [? [] ?].
Qed.

Lemma kept_va_promote ctx name v : keeps kept (on_registry (X := X) (va_promote (W := RegistryStore * Y) ctx name v)).
Proof.
  intros w. unfold kept, on_registry. cbn. unfold bind. pose proof (promote_served ctx name v (pw_registry w)) as Hp.
  by destruct (Registry.promote clock ctx name v (pw_registry w)) as [[a|e] g].
Qed.

#[local] Hint Resolve served_ext served_audit kept_get kept_add kept_sample kept_va_get kept_va_promote : kept.

Ltac kept := repeat first
  [ solve [auto with kept | by intros w; reflexivity | apply keeps_of_option, _]
  | apply keeps_bind; [apply _| |intros]
  | match goal with |- keeps _ (match ?x with _ => _ end) => destruct x end ].

Lemma kept_promote id op reason ctx : keeps kept (Progressive.promote (W := RegistryStore * Y) env id op reason ctx).
Proof. unfold Progressive.promote. kept. Qed.

Lemma kept_abort id op reason ctx : keeps kept (Progressive.abort (W := RegistryStore * Y) env id op reason ctx).
Proof. unfold Progressive.abort. kept. Qed.

#[local] Hint Resolve kept_promote kept_abort : kept.

Lemma kept_auto id ctx : keeps kept (auto_decide (W := RegistryStore * Y) env id ctx).
Proof. unfold auto_decide, evaluate. cbn zeta. kept. Qed.

#[local] Hint Resolve kept_auto : kept.

Lemma kept_each l now ctx : keeps kept (decide_each (W := RegistryStore * Y) env l now ctx).
Proof. induction l as [|r l IH]; cbn [decide_each]; kept. Qed.

#[local] Hint Resolve kept_each : kept.

Lemma kept_step (o : Step) w : kept w (step (VersionApi0 := version_api clock) env o w).
Proof.
  destruct o as [wl v p n m c e ctx|r|r|t ctx]; cbn [step].
  - revert w. change (keeps kept (Progressive.start (W := RegistryStore * Y) env wl v p n m c e ctx)). unfold Progressive.start. cbn zeta. kept.
  - unfold kept. rewrite (route_registry env r w). reflexivity.
  - revert w. change (keeps kept (record (W := RegistryStore * Y) env r)). unfold record, record_sample. cbn zeta. kept.
  - revert w. change (keeps kept (decide_due (W := RegistryStore * Y) env t ctx)). unfold decide_due. kept.
Qed.
End Registry.

(** What a decision changes: over the registry of [Registry], nothing that is
    done with canaries (starting, routing, recording, promoting, rolling back, by
    automation or by hand) changes the manifest the registry serves for any
    workload; only the version number it shows moves. *)
Theorem canary_keeps_served {X Y} (clock : Y → Z * Y) (env : Progressive.Env X) (w : Progressive.World (RegistryStore * Y) X) name :
  names_ok (pw_registry w).1 →
  (∀ o, served (pw_registry (step (VersionApi0 := version_api clock) env o w)).1 name = served (pw_registry w).1 name) ∧
  (∀ id op reason ctx, served (pw_registry (Progressive.promote (VersionApi0 := version_api clock) env id op reason ctx w).2).1 name = served (pw_registry w).1 name) ∧
  ∀ id op reason ctx, served (pw_registry (Progressive.abort (VersionApi0 := version_api clock) env id op reason ctx w).2).1 name = served (pw_registry w).1 name.
Proof.
  intros Hok. split; [|split].
  - intros o. by apply (kept_step clock env o w Hok).
  - intros id op reason ctx. by apply (kept_promote clock env id op reason ctx w Hok).
  - intros id op reason ctx. by apply (kept_abort clock env id op reason ctx w Hok).
Qed.
