(* ===== verification/CanaryDemo.v ===== *)
(** * Canaries on a small example *)

From stdpp Require Import base strings pretty numbers gmap sets list.
From S2P Require Import Prelude Text Float64 Calendar Tenancy CoreModels Canonical Conflict Manifest Registry Admission RunService Progressive CanaryHistory CanaryCap CanaryServing.

(** A registry that holds one version number. *)
#[local] Instance one_version : VersionApi Z := {|
  va_get _ _ := λ g, (Ret (g, "default"), g); va_promote _ _ v := λ _, (Ret tt, v) |}.

Definition counter (prefix : string) (x : nat) : string * nat := (prefix +:+ pretty x, S x).

(** Run identifiers serve as their own digests. *)
Definition canary_env : Progressive.Env nat :=
  {| pe_sha256_hex := λ s, s; pe_clock := λ x, (Z.of_nat x, S x); pe_rollout_id := counter "c"; pe_sample_id := counter "s";
     pe_shadow_id := counter "h"; pe_campaign_id := counter "e"; pe_arm_id := counter "a"; pe_audit := None;
     pe_runner := λ _ _ _ _ x, (inl (ProgressiveExternalError "none"), x); pe_budget_cap_usd := None; pe_fixed3 := λ _, "0.000" |}.

Definition canary_world : Progressive.World Z nat := Progressive.mkWorld empty_progressive 1%Z 0%nat.

Definition agent_run (id : string) : Run :=
  Service.new_run id
    (Service.mkSubmission "agent" "api" PRODUCTION [] None None None None false None false false None 0%Z)
    (mkRegistryRecord (demo_admission_workload CERTIFIED) (Some 1%Z) None) 0 None DEFAULT_CONTEXT.

Definition arm_run (id arm : string) (state : RunState) : Run := finished (assigned (agent_run id) (mkAssignment "c1" arm 2)) state f64_zero.

Definition canary_steps : list Step :=
  [SStart "agent" 2 50 1 1 (Some 5%Z) [] DEFAULT_CONTEXT; SRoute (agent_run "a0"); SRecord (arm_run "a0" "candidate" COMPLETED);
   SRecord (arm_run "a1" "baseline" FAILED); SDue (Some 2000000%Z) DEFAULT_CONTEXT; SRecord (arm_run "a2" "candidate" FAILED);
   SDue (Some 3000000%Z) DEFAULT_CONTEXT].

Lemma canary_world_ok : rollouts_ok canary_world.
Proof. split; [apply NoDup_nil_2|intros k r Hr; discriminate Hr]. Qed.

Lemma canary_settled_on_evidence_witness :
  cr_state <$> (od_get "c1" (rollouts (run_steps canary_env canary_steps canary_world))) = Some PROMOTED ∧ pw_registry (run_steps canary_env canary_steps canary_world) = 2%Z ∧
  ∃ l1 o l2 r, canary_steps = l1 ++ o :: l2 ∧ od_get "c1" (rollouts (run_steps canary_env l1 canary_world)) = Some r ∧ cr_state r = ACTIVE ∧
    elapsed canary_env o r.
Proof.
  split; [vm_compute; reflexivity|]. split; [vm_compute; reflexivity|].
  assert (match (od_get "c1" (rollouts (run_steps canary_env canary_steps canary_world))) with Some r => bool_decide (cr_state r = ACTIVE) = false | None => False end) as Hend by (vm_compute; reflexivity).
  destruct (od_get "c1" (rollouts (run_steps canary_env canary_steps canary_world))) as [r'|] eqn:He; [apply bool_decide_eq_false in Hend|destruct Hend].
  destruct (canary_settled_on_evidence canary_env canary_steps canary_world) as [_ H].
  - exact canary_world_ok.
  - split; [intros id ->; vm_compute; reflexivity|]. cbn [fresh_rollouts canary_steps begins].
    do 6 (split; [by intros id []|]). exact I.
  - destruct (H "c1" r' He) as (l1 & o & l2 & r & ctx & Hl & Hr & Ha & Hel & _).
    + exact Hend.
    + discriminate.
    + exists l1, o, l2, r. exact (conj Hl (conj Hr (conj Ha Hel))).
Defined.

(** A cap of one, and two runs under way at a time. *)
Definition canary_events : list Event :=
  [EStart "agent" 2 100 1000 1 (Some 1%Z) [] DEFAULT_CONTEXT; ESubmit (agent_run "a0"); ESubmit (agent_run "a1"); EFinish 0 COMPLETED f64_zero;
   EFinish 0 FAILED f64_zero; ESubmit (agent_run "a2"); EFinish 0 COMPLETED f64_zero].

Lemma blast_radius_bounded_witness :
  sampled "c1" (play_all canary_env canary_events (canary_world, [])).1 = 2%nat ∧
  (Z.of_nat (sampled "c1" (play_all canary_env canary_events (canary_world, [])).1) +
   Z.of_nat (under_way "c1" (play_all canary_env canary_events (canary_world, [])).2) ≤ if (1 =? 0)%Z then 0 else 1 + Z.of_nat 2 - 1)%Z.
Proof.
  split; [vm_compute; reflexivity|].
  assert (match od_get "c1" (rollouts (play_all canary_env canary_events (canary_world, [])).1) with
          | Some c => cr_blast_radius_cap c = Some 1%Z | None => False end) as Hend by (vm_compute; reflexivity).
  destruct (od_get "c1" (rollouts (play_all canary_env canary_events (canary_world, [])).1)) as [c|] eqn:He; [|destruct Hend].
  apply (blast_radius_bounded canary_env 2 canary_events canary_world) with (c := c); [reflexivity| |exact He|exact Hend].
  cbn [limited canary_events]. do 7 (split; [vm_compute; first [reflexivity|exact I]|split; [apply Nat.leb_le; vm_compute; reflexivity|]]). exact I.
Defined.

(** A rollout that gives the candidate no traffic, and a run service over it. *)
Definition idle_world : Progressive.World Z nat :=
  step canary_env (SStart "agent" 2 0 1000 1 None [] DEFAULT_CONTEXT) canary_world.

Definition candidate_manifest : AgentWorkload := demo_admission_workload PROVISIONAL.

Definition canary_service : RunService.Env (Progressive.World Z nat) :=
  {| clock := λ x, (0%Z, x); current_trace_id := λ _, None; float_str := λ _, "cost"; require_active := None;
     registry_get := λ _ _ x, (Ret (mkRegistryRecord (demo_admission_workload CERTIFIED) (Some 1%Z) None), x);
     registry_get_version := λ _ v _ x, (Ret (if (v =? 2)%Z then Some candidate_manifest else None), x);
     increment_production_runs := λ _ _ x, (Ret tt, x); scan_input := None; mark_untrusted := λ _ x, (Ret tt, x);
     gates := λ _, demo_gates (Ret false); canary_route := Some (router canary_env); canary_record := λ _, ret tt; approvals_request := None;
     budget_record_usage := None; guards_on_usage := None; guards_release := λ _ x, x; taint_clear := λ _ x, x; audit_append := None;
     sandbox_provision := None; sandbox_destroy := λ _ x, (Ret tt, x); executor_start := λ _ _ _, ret tt; executor_pause := λ _, ret true;
     executor_resume := λ _, ret true; executor_cancel := λ _, ret tt; fanout_notify := λ _ _, ret tt;
     fanout_notify_escalation := λ _ _, ret tt; eval_hook := None; terminal_hook := None; event_sink := None |}.

Definition idle_service : RunService.World (Progressive.World Z nat) := RunService.mkWorld [] None idle_world.

Definition production_submission : Service.Submission :=
  Service.mkSubmission "agent" "api" PRODUCTION [] None None None None false None false false None 0%Z.

Lemma every_arm_serves_candidate_witness :
  ∃ r' arm, Service.assign_canary canary_service production_submission (agent_run "a0") idle_service = (Ret r', idle_service) ∧
    run_canary_arm r' = Some (arm_value arm) ∧ arm = BASELINE ∧
    Service.transition_manifest canary_service r' idle_service = (Ret candidate_manifest, idle_service).
Proof.
  assert (match active_for "agent" (canary_ctx (agent_run "a0")) (pw_store idle_world) with
          | Some c => cr_candidate_version c = 2%Z ∧ cr_traffic_pct c = 0%Z | None => False end) as Hact by (vm_compute; split; reflexivity).
  destruct (active_for "agent" (canary_ctx (agent_run "a0")) (pw_store idle_world)) as [c|] eqn:Ha; [destruct Hact as [Hv Ht]|destruct Hact].
  destruct (every_arm_serves_candidate canary_env canary_service production_submission (agent_run "a0") c candidate_manifest
    (mkRegistryRecord (demo_admission_workload CERTIFIED) (Some 1%Z) None) idle_service) as (r' & arm & H1 & H2 & H3 & H4);
    [reflexivity|reflexivity|reflexivity|reflexivity| |exact Ha|by rewrite Hv|reflexivity|cbn; by rewrite Hv|].
  - apply (step_spec canary_env (SStart "agent" 2 0 1000 1 None [] DEFAULT_CONTEXT) canary_world canary_world_ok).
  - exists r', arm. split_and!; [exact H1|exact H2| |exact H4]. apply H3. right. rewrite Ht. vm_compute. reflexivity.
Defined.
