(* ===== verification/Rounding.v ===== *)
(** * [round(x, k)] and [format(x, ".kf")]

    Both round the exact value of the float to [k] decimals, halves to even.
    [round] then takes the nearest float to that decimal. *)

From Stdlib Require Import Floats.SpecFloat.
From stdpp Require Import base strings pretty numbers list.
From S2P Require Import Prelude Text Float64.

#[local] Open Scope hp_scope.

(** The integer nearest to [p / q], [0 <= p], [0 < q], halves to even. *)
Definition round_half_even (p q : Z) : Z :=
  let f := (p / q)%Z in
  match (2 * (p mod q) ?= q)%Z with
  | Lt => f
  | Gt => (f + 1)%Z
  | Eq => if Z.even f then f else (f + 1)%Z
  end.

(** The magnitude of a finite float times [10 ^ k], rounded. *)
Definition scaled (k : Z) (m : positive) (e : Z) : Z := round_half_even (Zpos m * 2 ^ (Z.max e 0) * 10 ^ k) (2 ^ (Z.max (- e) 0)).

Definition f64_round (k : Z) (x : f64) : f64 :=
  match x with
  | S754_finite s m e => let y := int_truediv (scaled k m e) (10 ^ k) in if s then f64_opp y else y
  | _ => x
  end.

(** Fixed-point notation with [S k] decimals. *)
Definition f64_fixed (k : nat) (x : f64) : string :=
  let sign (s : bool) : string := if s then "-" else EmptyString in
  let digits (z : Z) : string := let u := (10 ^ Z.of_nat k)%Z in pretty (z / u)%Z +:+ "." +:+ zpad k (z mod u) in
  match x with
  | S754_zero s => sign s +:+ digits 0%Z
  | S754_finite s m e => sign s +:+ digits (scaled (Z.of_nat k) m e)
  | S754_infinity s => sign s +:+ "inf"
  | S754_nan => "nan"
  end.

(** The result is within one half of the quotient. *)
Lemma round_half_even_near p q : (0 < q)%Z → (Z.abs (2 * (q * round_half_even p q - p)) ≤ q)%Z.
Proof.
  intros Hq. unfold round_half_even. pose proof (Z.mod_pos_bound p q Hq) as Hb. pose proof (Z.div_mod p q ltac:(lia)) as Hd.
  set (f := (p / q)%Z) in *. set (r := (p mod q)%Z) in *.
  destruct (Z.compare_spec (2 * r) q); [destruct (Z.even f)| |]; nia.
Qed.

Example round_six : f64_round 6 (f64_sub (f64_lit 9 10) (f64_lit 7 10)) = f64_lit 2 10. Proof. vm_compute. reflexivity. Qed.
Example round_negative : f64_round 6 (f64_sub (f64_lit 7 10) (f64_lit 9 10)) = f64_opp (f64_lit 2 10). Proof. vm_compute. reflexivity. Qed.
Example round_tie : f64_round 0 (f64_lit 5 2) = f64_of_Z 2. Proof. vm_compute. reflexivity. Qed.
Example fixed_three : f64_fixed 3 (f64_lit 2 10) = "0.200" ∧ f64_fixed 3 (f64_opp (f64_lit 12345 10)) = "-1234.500".
Proof. vm_compute. by split. Qed.
