(* ===== verification/Drift.v ===== *)
(** * Behavioural drift ([drift/])

    The detector, the in-memory store, the quarantine service with its owner
    notices, the monitor, the reinstatement service, the scheduler, and the
    endpoints of [api/drift.py].  The registry and the certification
    coordinator are seen through the class [FleetApi], which [DriftFleet]
    implements.  The clock (one for all the services), identifiers, the audit
    log, the run canceller, transports, the event sink and [isoformat] are
    parameters.  Instants are microseconds; calls are one at a time. *)

From stdpp Require Import base strings pretty numbers gmap sets list.
From S2P Require Import Prelude Text Float64 Rounding Calendar Tenancy CoreModels Canonical Conflict Manifest Certification Registry Promotion.

#[local] Open Scope hp_scope.

(** ** Records ([drift/models.py]) *)

Inductive DriftVerdict := STABLE | WARNING | DRIFTED.
Inductive QuarantineStatus := Q_ACTIVE | Q_REINSTATED.
Inductive ExpiryState := VALID | EXPIRING | EXPIRED | UNKNOWN.

#[export] Instance DriftVerdict_eq_dec : EqDecision DriftVerdict.
Proof. solve_decision. Defined.
#[export] Instance QuarantineStatus_eq_dec : EqDecision QuarantineStatus.
Proof. solve_decision. Defined.
#[export] Instance ExpiryState_eq_dec : EqDecision ExpiryState.
Proof. solve_decision. Defined.

Record DriftAssessment := mkAssessment {
  da_workload : string; da_baseline_attestation_id : option string; da_verdict : DriftVerdict; da_pass_rate_before : f64;
  da_pass_rate_after : f64; da_pass_rate_delta : f64; da_failed_before : Z; da_failed_after : Z; da_new_failures : Z;
  da_critical_failures : Z; da_threshold_pass_rate : f64; da_max_new_failures : Z; da_required_consecutive_failures : Z;
  da_consecutive_failures : Z; da_exceeded : bool; da_strong_signal : bool; da_should_quarantine : bool; da_reason : string;
  da_evidence : odict string JsonValue; da_tenant_id : string; da_timestamp : Z }.

(** The fields' bounds. *)
Definition assessment_valid (a : DriftAssessment) : bool :=
  bool_decide (da_workload a ≠ EmptyString) && unit_interval (da_pass_rate_before a) && unit_interval (da_pass_rate_after a)
  && (0 <=? da_failed_before a)%Z && (0 <=? da_failed_after a)%Z && (0 <=? da_new_failures a)%Z && (0 <=? da_critical_failures a)%Z
  && unit_interval (da_threshold_pass_rate a) && (0 <=? da_max_new_failures a)%Z && (1 <=? da_required_consecutive_failures a)%Z
  && (1 <=? da_consecutive_failures a)%Z && bool_decide (da_reason a ≠ EmptyString).

Record QuarantineRecord := mkQuarantine {
  qr_quarantine_id : string; qr_workload : string; qr_status : QuarantineStatus; qr_severity : Severity; qr_reason : string;
  qr_actor : string; qr_baseline_attestation_id : option string; qr_assessment : option DriftAssessment;
  qr_evidence : odict string JsonValue; qr_regression_diff : option (odict string JsonValue); qr_notified : list string;
  qr_cancelled_runs : list string; qr_tenant_id : string; qr_timestamp : Z; qr_reinstated_at : option Z; qr_reinstated_by : option string }.

Definition quarantine_valid (q : QuarantineRecord) : bool :=
  bool_decide (qr_quarantine_id q ≠ EmptyString) && bool_decide (qr_workload q ≠ EmptyString) && bool_decide (qr_reason q ≠ EmptyString).

(** The two copies the services make: with the notified targets, and reinstated. *)
Definition with_notified (q : QuarantineRecord) (notified : list string) : QuarantineRecord :=
  mkQuarantine (qr_quarantine_id q) (qr_workload q) (qr_status q) (qr_severity q) (qr_reason q) (qr_actor q) (qr_baseline_attestation_id q)
    (qr_assessment q) (qr_evidence q) (qr_regression_diff q) notified (qr_cancelled_runs q) (qr_tenant_id q) (qr_timestamp q)
    (qr_reinstated_at q) (qr_reinstated_by q).
Definition as_reinstated (q : QuarantineRecord) (at_ : Z) (operator : string) : QuarantineRecord :=
  mkQuarantine (qr_quarantine_id q) (qr_workload q) Q_REINSTATED (qr_severity q) (qr_reason q) (qr_actor q) (qr_baseline_attestation_id q)
    (qr_assessment q) (qr_evidence q) (qr_regression_diff q) (qr_notified q) (qr_cancelled_runs q) (qr_tenant_id q) (qr_timestamp q)
    (Some at_) (Some operator).

Record DriftSchedule := mkSchedule {
  dc_schedule_id : string; dc_workload : string; dc_interval_seconds : Z; dc_last_certified_at : option Z; dc_next_re_cert_run : Z;
  dc_expires_at : option Z; dc_status : string; dc_tenant_id : string }.

Definition schedule_valid (s : DriftSchedule) : bool := bool_decide (dc_workload s ≠ EmptyString) && (1 <=? dc_interval_seconds s)%Z.

Record DueWorkload := mkDue {
  dw_workload : string; dw_next_re_cert_run : Z; dw_expires_at : option Z; dw_overdue : bool; dw_expiry_state : ExpiryState }.

Record CertificationExpiry := mkExpiry {
  ce_workload : string; ce_state : ExpiryState; ce_expires : option Z; ce_days_remaining : option f64; ce_renewable : bool }.

(** ** Errors ([drift/errors.py]) *)

Inductive DriftExn :=
  | QuarantineNotFoundError (workload : string)
  | ReinstatementRefusedError (workload reason : string)
  | DriftNotConfiguredError (workload reason : string)
  | DriftRegistryError (e : RegistryExn)
  | DriftScopeError
  | DriftOverflowError
  | DriftExternalError (what : string)
  | InvalidDrift (what : string).

(** ** The detector ([drift/detector.py]) *)

Record DriftDetector := mkDetector {
  dd_threshold_pass_rate : f64; dd_max_new_failures : Z; dd_required_consecutive_failures : Z; dd_strong_multiplier : f64 }.

(** What the constructor accepts. *)
Definition detector_valid (d : DriftDetector) : bool :=
  unit_interval (dd_threshold_pass_rate d) && (0 <=? dd_max_new_failures d)%Z && (1 <=? dd_required_consecutive_failures d)%Z
  && negb (f64_ltb (dd_strong_multiplier d) (f64_lit 1 1)).

Section Detector.
Variable d : DriftDetector.

(** [_reason] *)
Definition drift_reason (verdict : DriftVerdict) (delta : f64) (new_failures critical_failures consecutive_failures : Z) : string :=
  let detail := "pass-rate drop " +:+ f64_fixed 3 delta +:+ " (threshold " +:+ f64_fixed 3 (dd_threshold_pass_rate d) +:+ "), "
    +:+ pretty new_failures +:+ " new failure(s), " +:+ pretty critical_failures +:+ " critical" in
  let ratio := "(" +:+ pretty consecutive_failures +:+ "/" +:+ pretty (dd_required_consecutive_failures d) +:+ "): " in
  match verdict with
  | STABLE => "performance within tolerance (pass-rate delta " +:+ f64_fixed 3 delta +:+ ", new failures " +:+ pretty new_failures +:+ ")"
  | WARNING => "drift threshold exceeded but not yet confirmed " +:+ ratio +:+ detail
  | DRIFTED => "behavioral drift confirmed " +:+ ratio +:+ detail
  end.

(** The tasks a comparison knows: those of the baseline, its failures, and the current failures. *)
Record TaskSets := mkSets { ts_baseline : option (gset string); ts_baseline_failed : option (gset string); ts_current_failed : option (gset string) }.

Definition new_failures_of (sets : TaskSets) (baseline current : EvalSummary) : Z :=
  match ts_baseline sets, ts_baseline_failed sets, ts_current_failed sets with
  | Some b, Some f, Some c => Z.of_nat (size (c ∩ (b ∖ f)))
  | _, _, _ => Z.max 0 (ev_tasks_failed current - ev_tasks_failed baseline)
  end.

Definition delta_of (baseline current : EvalSummary) : f64 := f64_round 6 (f64_sub (ev_pass_rate baseline) (ev_pass_rate current)).

Definition exceeds (delta : f64) (new_failures : Z) : bool :=
  f64_ltb (dd_threshold_pass_rate d) delta || (dd_max_new_failures d <? new_failures)%Z.

Definition strong (delta : f64) (critical_failures : Z) : bool :=
  (0 <? critical_failures)%Z || f64_leb (f64_mul (dd_threshold_pass_rate d) (dd_strong_multiplier d)) delta.

(** [assess] at the instant [now]. *)
Definition assess (workload : string) (baseline current : EvalSummary) (baseline_attestation_id : option string) (consecutive_failures : Z)
    (tenant_id : string) (sets : TaskSets) (now : Z) : DriftAssessment :=
  let delta := delta_of baseline current in
  let new_failures := new_failures_of sets baseline current in
  let critical_failures := ev_critical_failures current in
  let exceeded := exceeds delta new_failures in
  let strong_signal := strong delta critical_failures in
  let should_quarantine := exceeded && ((dd_required_consecutive_failures d <=? consecutive_failures)%Z || strong_signal) in
  let verdict := if negb exceeded then STABLE else if should_quarantine then DRIFTED else WARNING in
  mkAssessment workload baseline_attestation_id verdict (ev_pass_rate baseline) (ev_pass_rate current) delta (ev_tasks_failed baseline)
    (ev_tasks_failed current) new_failures critical_failures (dd_threshold_pass_rate d) (dd_max_new_failures d)
    (dd_required_consecutive_failures d) consecutive_failures exceeded strong_signal should_quarantine
    (drift_reason verdict delta new_failures critical_failures consecutive_failures)
    [("pass_rate_delta", JFloat delta); ("new_failures", JInt new_failures); ("critical_failures", JInt critical_failures);
     ("consecutive_failures", JInt consecutive_failures); ("threshold_pass_rate", JFloat (dd_threshold_pass_rate d));
     ("max_new_failures", JInt (dd_max_new_failures d))] tenant_id now.
End Detector.

(** [QuarantineService._severity] *)
Definition quarantine_severity (a : option DriftAssessment) : Severity :=
  match a with Some a => if (0 <? da_critical_failures a)%Z || da_strong_signal a then SEV_CRITICAL else SEV_WARNING | None => SEV_WARNING end.

Definition severity_value (s : Severity) : string := match s with SEV_NONE => "none" | SEV_WARNING => "warning" | SEV_CRITICAL => "critical" end.

(** ** The in-memory store ([drift/store.py]): each value with the tenant it was added under *)

Record DriftStore := mkDriftStore {
  ds_quarantines : odict string (QuarantineRecord * string);
  ds_assessments : list (DriftAssessment * string);
  ds_schedules : odict string (DriftSchedule * string) }.

Definition empty_drift : DriftStore := mkDriftStore [] [] [].

(** [_trailing_exceeded] *)
Fixpoint leading_exceeded (l : list DriftAssessment) : Z :=
  match l with [] => 0 | a :: l => if da_exceeded a then (1 + leading_exceeded l)%Z else 0 end.
Definition trailing_exceeded (l : list DriftAssessment) : Z := leading_exceeded (rev l).

(** [_latest_reinstatement] *)
Definition max_of (l : list Z) : option Z := match l with [] => None | x :: l => Some (foldl Z.max x l) end.
Definition latest_reinstatement (l : list QuarantineRecord) : option Z := max_of (omap qr_reinstated_at l).

(** Sorting by an instant, then by a name. *)
Definition at_leb {A} (when : A → Z) (id : A → string) (a b : A) : bool :=
  if bool_decide (when a = when b) then str_leb (id a) (id b) else (when a <=? when b)%Z.

Definition get_quarantine (i : string) (ctx : TenantContext) (s : DriftStore) : option QuarantineRecord :=
  match od_get i (ds_quarantines s) with Some (q, t) => if scopes ctx t then Some q else None | None => None end.

Definition list_quarantines (workload : option string) (status : option QuarantineStatus) (ctx : TenantContext) (s : DriftStore) : list QuarantineRecord :=
  py_sort (at_leb qr_timestamp qr_quarantine_id)
    (fst <$> filter (λ e, scopes ctx e.2 && opt_is workload (qr_workload e.1) && opt_is status (qr_status e.1) = true) (od_values (ds_quarantines s))).

Definition active_quarantine (workload : string) (ctx : TenantContext) (s : DriftStore) : option QuarantineRecord :=
  last (list_quarantines (Some workload) (Some Q_ACTIVE) ctx s).

Definition list_assessments (workload : string) (limit : option Z) (ctx : TenantContext) (s : DriftStore) : list DriftAssessment :=
  let items := py_sort (at_leb da_timestamp da_workload)
    (fst <$> filter (λ e, scopes ctx e.2 && bool_decide (da_workload e.1 = workload) = true) (ds_assessments s)) in
  match limit with Some n => drop (slice_bound (- n) (length items)) items | None => items end.

Definition consecutive_failures (workload : string) (ctx : TenantContext) (s : DriftStore) : Z :=
  let boundary := latest_reinstatement (list_quarantines (Some workload) None ctx s) in
  let items := list_assessments workload None ctx s in
  trailing_exceeded (match boundary with Some b => filter (λ a, (b < da_timestamp a)%Z) items | None => items end).

Definition list_schedules (ctx : TenantContext) (s : DriftStore) : list DriftSchedule :=
  py_sort (at_leb dc_next_re_cert_run dc_workload) (fst <$> filter (λ e, scopes ctx e.2 = true) (od_values (ds_schedules s))).

Definition put_quarantine (q : QuarantineRecord) (s : DriftStore) : DriftStore :=
  mkDriftStore (od_set (qr_quarantine_id q) (q, qr_tenant_id q) (ds_quarantines s)) (ds_assessments s) (ds_schedules s).
Definition put_assessment (a : DriftAssessment) (s : DriftStore) : DriftStore :=
  mkDriftStore (ds_quarantines s) (ds_assessments s ++ [(a, da_tenant_id a)]) (ds_schedules s).
Definition put_schedule (c : DriftSchedule) (s : DriftStore) : DriftStore :=
  mkDriftStore (ds_quarantines s) (ds_assessments s) (od_set (dc_schedule_id c) (c, dc_tenant_id c) (ds_schedules s)).

(** ** What drift asks of the registry and of the certification coordinator *)

Class FleetApi (W : Type) := {
  fa_get : TenantContext → string → M W RegistryExn WorkloadRecord;
  fa_list_workloads : TenantContext → M W RegistryExn (list WorkloadRecord);
  fa_quarantine : TenantContext → string → M W RegistryExn WorkloadRecord;
  fa_check_admission : TenantContext → string → AdmissionContext → M W RegistryExn AdmissionDecision;
  fa_records : TenantContext → string → M W RegistryExn (list CertificationRecord);
  fa_certify : TenantContext → string → TargetContext → option string → option string → M W RegistryExn CertificationRecord;
  fa_benchmark : TenantContext → string → TargetContext → option string → option string → M W RegistryExn BenchmarkResult;
}.

(** ** Notices ([drift/notify.py]) *)

Definition fan_out_value (t : FanOutType) : string := match t with FO_SLACK => "slack" | FO_TEAMS => "teams" | FO_JIRA => "jira" | FO_WEBHOOK => "webhook" end.

(** [_target] *)
Definition target (f : FanOutDestination) : string :=
  if Manifest.truthy (fd_url f) then default EmptyString (fd_url f)
  else if Manifest.truthy (fd_channel f) then default EmptyString (fd_channel f)
  else if Manifest.truthy (fd_project f) then default EmptyString (fd_project f)
  else fan_out_value (fd_type f).

Definition json_opt_str (o : option string) : JsonValue := match o with Some s => JStr s | None => JNull end.

(** [compose_quarantine_message] *)
Definition compose_quarantine_message (isoformat : Z → string) (q : QuarantineRecord) (owner : option string) : odict string JsonValue :=
  [("type", JStr "certification.quarantined"); ("workload_id", JStr (qr_workload q)); ("owner", json_opt_str owner);
   ("quarantine_id", JStr (qr_quarantine_id q)); ("severity", JStr (severity_value (qr_severity q))); ("reason", JStr (qr_reason q));
   ("baseline_attestation_id", json_opt_str (qr_baseline_attestation_id q));
   ("action_required", JStr "investigate drift, fix, re-certify, and reinstate"); ("evidence", JObj (qr_evidence q));
   ("regression_diff", from_option JObj JNull (qr_regression_diff q));
   ("pass_rate_before", from_option (λ a, JFloat (da_pass_rate_before a)) JNull (qr_assessment q));
   ("pass_rate_after", from_option (λ a, JFloat (da_pass_rate_after a)) JNull (qr_assessment q));
   ("consecutive_failures", from_option (λ a, JInt (da_consecutive_failures a)) JNull (qr_assessment q));
   ("timestamp", JStr (isoformat (qr_timestamp q)))].

Record FleetEvent := mkFleetEvent { fe_kind : string; fe_event_type : string; fe_tenant_id : string; fe_payload : odict string JsonValue; fe_occurred_at : Z }.

Record Notifier (X : Type) := mkNotifier {
  dn_transports : odict FanOutType (FanOutDestination → odict string JsonValue → X → bool * X); (* [false] when [send] raises *)
  dn_destinations : list FanOutDestination;
  dn_enabled : bool }.
Arguments mkNotifier {X}.
Arguments dn_transports {X}.
Arguments dn_destinations {X}.
Arguments dn_enabled {X}.

Record World (W X : Type) := mkWorld { dv_store : DriftStore; dv_fleet : W; dv_ext : X }.
Arguments mkWorld {W X}.
Arguments dv_store {W X}.
Arguments dv_fleet {W X}.
Arguments dv_ext {W X}.

Record Env (X : Type) := mkEnv {
  de_clock : X → Z * X;
  de_quarantine_id : X → string * X;
  de_audit : option (string → string → string → string → TenantContext → X → (DriftExn + unit) * X);
  de_notifier : option (Notifier X);
  de_canceller : option (string → X → (DriftExn + list string) * X);
  de_cancel_in_flight : bool;
  de_event_sink : option (FleetEvent → X → bool * X);
  de_isoformat : Z → string;
  de_detector : DriftDetector;
  de_quarantine_service : bool; (* whether the monitor has one *)
  de_default_interval : Z;
  de_renewal_window : Z }.
Arguments mkEnv {X}.
Arguments de_clock {X}.
Arguments de_quarantine_id {X}.
Arguments de_audit {X}.
Arguments de_notifier {X}.
Arguments de_canceller {X}.
Arguments de_cancel_in_flight {X}.
Arguments de_event_sink {X}.
Arguments de_isoformat {X}.
Arguments de_detector {X}.
Arguments de_quarantine_service {X}.
Arguments de_default_interval {X}.
Arguments de_renewal_window {X}.

(** What an endpoint answers; an exception it does not map is the server's error. *)
Inductive Response (A : Type) := Http (status : Z) (body : A) | HttpError (status : Z) | Uncaught (e : DriftExn).
Arguments Http {A}.
Arguments HttpError {A}.
Arguments Uncaught {A}.

Section Services.
Context {W X : Type} `{!FleetApi W}.
Variable env : Env X.

Abbreviation DM := (M (World W X) DriftExn).

Definition on_ext {A} (f : X → A * X) : DM A := λ w, let '(a, x) := f (dv_ext w) in (Ret a, mkWorld (dv_store w) (dv_fleet w) x).

Definition on_ext_exn {A} (f : X → (DriftExn + A) * X) : DM A :=
  λ w, let '(r, x) := f (dv_ext w) in (match r with inl e => Raise e | inr a => Ret a end, mkWorld (dv_store w) (dv_fleet w) x).

Definition on_fleet {A} (m : M W RegistryExn A) : DM A :=
  λ w, let '(o, g) := m (dv_fleet w) in
       (match o with Ret a => Ret a | Raise e => Raise (DriftRegistryError e) end, mkWorld (dv_store w) g (dv_ext w)).

Definition put_store (f : DriftStore → DriftStore) : DM unit := modify (λ w, mkWorld (f (dv_store w)) (dv_fleet w) (dv_ext w)).

(** [add_quarantine], which is [save_quarantine] too; [add_assessment], [save_schedule] *)
Definition add_quarantine (q : QuarantineRecord) (ctx : TenantContext) : DM unit :=
  require DriftScopeError ctx (qr_tenant_id q) ;;; put_store (put_quarantine q).
Definition add_assessment (a : DriftAssessment) (ctx : TenantContext) : DM unit :=
  require DriftScopeError ctx (da_tenant_id a) ;;; put_store (put_assessment a).
Definition save_schedule (c : DriftSchedule) (ctx : TenantContext) : DM unit :=
  require DriftScopeError ctx (dc_tenant_id c) ;;; put_store (put_schedule c).
Definition clear : DM unit := put_store (λ _, empty_drift).

Definition audit (actor action target detail : string) (ctx : TenantContext) : DM unit :=
  match de_audit env with None => ret tt | Some append => on_ext_exn (append actor action target detail ctx) end.

(** ** Quarantine ([drift/notify.py], [drift/quarantine.py]) *)

Fixpoint deliver (n : Notifier X) (message : odict string JsonValue) (l : list FanOutDestination) : DM (list string) :=
  match l with
  | [] => ret []
  | f :: l =>
      match od_get (fd_type f) (dn_transports n) with
      | None => deliver n message l
      | Some send =>
          let* ok := on_ext (send f message) in
          let* rest := deliver n message l in
          ret (if ok : bool then target f :: rest else rest)
      end
  end.

(** [notify_quarantine] *)
Definition notify_quarantine (n : Notifier X) (q : QuarantineRecord) (owner : option string) : DM (list string) :=
  if dn_enabled n then deliver n (compose_quarantine_message (de_isoformat env) q owner) (dn_destinations n) else ret [].

(** [_emit] *)
Definition emit (q : QuarantineRecord) : DM unit :=
  match de_event_sink env with
  | None => ret tt
  | Some sink =>
      let* now := on_ext (de_clock env) in
      if negb (between 1 64 (qr_tenant_id q)) then raise (InvalidDrift "event")
      else
      on_ext (sink (mkFleetEvent "drift" "drift.quarantined" (qr_tenant_id q)
        [("quarantine_id", JStr (qr_quarantine_id q)); ("workload", JStr (qr_workload q));
         ("severity", JStr (severity_value (qr_severity q))); ("reason", JStr (qr_reason q))] now)) ;;; ret tt
  end.

(** [_cancel] *)
Definition cancel (workload : string) : DM (list string) :=
  match de_canceller env with
  | Some f => if de_cancel_in_flight env then on_ext_exn (f workload) else ret []
  | None => ret []
  end.

(** The rest of [quarantine] once the workload has no quarantine in force. *)
Definition open_quarantine (record : WorkloadRecord) (workload reason : string) (assessment : option DriftAssessment)
    (regression_diff : option (odict string JsonValue)) (severity : option Severity) (actor : string) (ctx : TenantContext) : DM QuarantineRecord :=
  on_fleet (fa_quarantine ctx workload) ;;;
  let* cancelled := cancel workload in
  let resolved_severity := default (quarantine_severity assessment) severity in
  let* id := on_ext (de_quarantine_id env) in
  let* now := on_ext (de_clock env) in
  let q := mkQuarantine id workload Q_ACTIVE resolved_severity reason actor (assessment ≫= da_baseline_attestation_id) assessment
             (from_option da_evidence [] assessment) regression_diff [] cancelled (wr_tenant_id record) now None None in
  if quarantine_valid q then
    let* q := match de_notifier env with
              | None => ret q
              | Some n => let* notified := notify_quarantine n q (Some (wr_owner record)) in ret (with_notified q notified)
              end in
    add_quarantine q ctx ;;;
    audit actor "workload.quarantined" workload
      ("severity=" +:+ severity_value resolved_severity +:+ " reason=" +:+ reason +:+ " cancelled_runs=" +:+ pretty (Z.of_nat (length cancelled))) ctx ;;;
    emit q ;;;
    ret q
  else raise (InvalidDrift "quarantine").

(** [QuarantineService.quarantine] *)
Definition quarantine (workload reason : string) (assessment : option DriftAssessment) (regression_diff : option (odict string JsonValue))
    (severity : option Severity) (actor : string) (ctx : TenantContext) : DM QuarantineRecord :=
  let* record := on_fleet (fa_get ctx workload) in
  let* s := gets dv_store in
  match (if bool_decide (wr_certification_status record = QUARANTINED) then active_quarantine workload ctx s else None) with
  | Some existing => ret existing
  | None => open_quarantine record workload reason assessment regression_diff severity actor ctx
  end.

(** ** The monitor ([drift/monitor.py]) *)

(** [_baseline_record] *)
Definition baseline_record (ctx : TenantContext) (workload : string) : DM (option CertificationRecord) :=
  let* records := on_fleet (fa_records ctx workload) in
  ret (last (py_sort record_leb (filter (λ r, cf_status (cr_certification r) = CERTIFIED) records))).

(** [baseline] *)
Definition baseline (ctx : TenantContext) (workload : string) : DM (EvalSummary * string) :=
  let* latest := baseline_record ctx workload in
  match latest with
  | None => raise (DriftNotConfiguredError workload "no certified baseline record to compare against")
  | Some r => ret (at_eval_summary (cr_attestation r), at_attestation_id (cr_attestation r))
  end.

(** [a or b] of a string and of an optional one. *)
Definition or_str (a : option string) (b : string) : string := match a with Some EmptyString | None => b | Some s => s end.

(** [evaluate] *)
Definition evaluate (workload : string) (current : EvalSummary) (baseline_attestation_id : option string) (actor : string) (ctx : TenantContext)
    (sets : TaskSets) : DM DriftAssessment :=
  let* b := baseline ctx workload in
  let* s := gets dv_store in
  let streak := consecutive_failures workload ctx s in
  let* now := on_ext (de_clock env) in
  let a := assess (de_detector env) workload b.1 current (Some (or_str baseline_attestation_id b.2)) (streak + 1)
             (or_str (Some (tc_tenant_id ctx)) "default") sets now in
  if assessment_valid a then
    add_assessment a ctx ;;;
    (if da_should_quarantine a && de_quarantine_service env then
       quarantine workload (da_reason a) (Some a) None None actor ctx ;;; ret tt
     else ret tt) ;;;
    ret a
  else raise (InvalidDrift "assessment").

Definition failed_ids (tasks : list BenchmarkTaskResult) : gset string := list_to_set (tr_task_id <$> filter (λ t, tr_status t = FAIL) tasks).

(** [probe_and_evaluate] *)
Definition probe_and_evaluate (workload : string) (target_context : TargetContext) (corpus_ref model_identity : option string) (actor : string)
    (ctx : TenantContext) : DM DriftAssessment :=
  let* result := on_fleet (fa_benchmark ctx workload target_context corpus_ref model_identity) in
  let* b := baseline_record ctx workload in
  evaluate workload (to_eval_summary result) None actor ctx
    (mkSets ((λ r, list_to_set (tr_task_id <$> br_tasks (cr_benchmark_result r))) <$> b)
            ((λ r, failed_ids (br_tasks (cr_benchmark_result r))) <$> b) (Some (failed_ids (br_tasks result)))).

(** ** Reinstatement ([drift/reinstatement.py]) *)

Definition reinstate (workload operator : string) (corpus_ref model_identity : option string) (ctx : TenantContext) : DM QuarantineRecord :=
  let* s := gets dv_store in
  let* active := of_option (QuarantineNotFoundError workload) (active_quarantine workload ctx s) in
  on_fleet (fa_certify ctx workload TC_STAGING corpus_ref model_identity) ;;;
  let* production := on_fleet (fa_certify ctx workload TC_PRODUCTION corpus_ref model_identity) in
  let status := cf_status (cr_certification production) in
  if negb (bool_decide (status = CERTIFIED) || bool_decide (status = PROVISIONAL)) then
    raise (ReinstatementRefusedError workload ("fresh certification did not reach an admissible status (got '" +:+ status_value status +:+ "')"))
  else
    let* decision := on_fleet (fa_check_admission ctx workload PRODUCTION) in
    if negb (ad_admitted decision) then
      raise (ReinstatementRefusedError workload (or_str (ad_reason decision) "production admission still refused"))
    else
      let* now := on_ext (de_clock env) in
      let reinstated := as_reinstated active now operator in
      add_quarantine reinstated ctx ;;;
      audit operator "workload.reinstated" workload
        ("fresh certification " +:+ cr_record_id production +:+ " attestation=" +:+ at_attestation_id (cr_attestation production)) ctx ;;;
      ret reinstated.

(** ** The scheduler ([drift/scheduler.py]) *)

(** The constructor's guards. *)
Definition scheduler_valid : bool := (1 <=? de_default_interval env)%Z && (0 <=? de_renewal_window env)%Z.

(** [schedule] *)
Definition schedule (workload : string) (ctx : TenantContext) : DM DriftSchedule :=
  let* record := on_fleet (fa_get ctx workload) in
  let certification := sp_certification (ma_spec (wr_manifest record)) in
  let interval := from_option ce_re_cert_interval (de_default_interval env) certification in
  let last_certified := certification ≫= ce_certified_at in
  let next_run := (default (wr_created_at record) last_certified + interval * 1000000)%Z in
  if negb (dt_in_range next_run) then raise DriftOverflowError
  else
    let c := mkSchedule ("schedule-" +:+ workload) workload interval last_certified next_run (certification ≫= ce_expires_at) "scheduled"
               (wr_tenant_id record) in
    if schedule_valid c then ret c else raise (InvalidDrift "schedule").

Fixpoint schedule_all (ctx : TenantContext) (names : list string) : DM (list DriftSchedule) :=
  match names with
  | [] => ret []
  | n :: names => let* c := schedule n ctx in let* rest := schedule_all ctx names in ret (c :: rest)
  end.

(** [schedules] *)
Definition schedules (ctx : TenantContext) : DM (list DriftSchedule) :=
  let* records := on_fleet (fa_list_workloads ctx) in
  let* l := schedule_all ctx (wr_name <$> records) in
  ret (py_sort (λ a b, str_leb (dc_workload a) (dc_workload b)) l).

(** [timedelta(seconds=n)] holds less than a thousand million days. *)
Definition td_in_range (n : Z) : bool := (n <? 1000000000 * 86400)%Z.

(** [_expiry_state] *)
Definition expiry_state (expires_at : option Z) (now : Z) : outcome DriftExn ExpiryState :=
  match expires_at with
  | None => Ret UNKNOWN
  | Some e =>
      if (e <=? now)%Z then Ret EXPIRED
      else if negb (td_in_range (de_renewal_window env)) then Raise DriftOverflowError
      else if (e - now <=? de_renewal_window env * 1000000)%Z then Ret EXPIRING else Ret VALID
  end.

Definition lift_outcome {A} (o : outcome DriftExn A) : DM A := λ w, (o, w).

Fixpoint due_of (now : Z) (l : list DriftSchedule) : DM (list DueWorkload) :=
  match l with
  | [] => ret []
  | c :: l =>
      let* st := lift_outcome (expiry_state (dc_expires_at c) now) in
      let* rest := due_of now l in
      ret (if (dc_next_re_cert_run c <=? now)%Z || bool_decide (st = EXPIRED)
           then mkDue (dc_workload c) (dc_next_re_cert_run c) (dc_expires_at c) (dc_next_re_cert_run c <=? now)%Z st :: rest else rest)
  end.

(** [due] *)
Definition due (at_ : option Z) (ctx : TenantContext) : DM (list DueWorkload) :=
  let* now := match at_ with Some t => ret t | None => on_ext (de_clock env) end in
  let* l := schedules ctx in
  let* items := due_of now l in
  ret (py_sort (at_leb dw_next_re_cert_run dw_workload) items).

(** [expiry]: the clock is read again for the days that remain. *)
Definition expiry (workload : string) (ctx : TenantContext) : DM CertificationExpiry :=
  let* c := schedule workload ctx in
  let* now := on_ext (de_clock env) in
  let* st := lift_outcome (expiry_state (dc_expires_at c) now) in
  let* days := match dc_expires_at c with
               | None => ret None
               | Some e => let* later := on_ext (de_clock env) in ret (Some (f64_div (int_truediv (e - later) 1000000) (f64_of_Z 86400)))
               end in
  ret (mkExpiry (dc_workload c) st (dc_expires_at c) days true).

Definition urgency (s : ExpiryState) : Z := match s with EXPIRED => 0 | EXPIRING => 1 | VALID => 2 | UNKNOWN => 3 end.

Fixpoint expiry_all (ctx : TenantContext) (l : list DriftSchedule) : DM (list CertificationExpiry) :=
  match l with
  | [] => ret []
  | c :: l => let* x := expiry (dc_workload c) ctx in let* rest := expiry_all ctx l in ret (x :: rest)
  end.

(** [expiries] *)
Definition expiries (ctx : TenantContext) : DM (list CertificationExpiry) :=
  let* l := schedules ctx in
  let* items := expiry_all ctx l in
  ret (py_sort (at_leb (λ x, urgency (ce_state x)) ce_workload) items).

(** ** Endpoints ([api/drift.py]) *)

Definition respond {A} (status : Z) (codes : DriftExn → option Z) (m : DM A) : World W X → Response A * World W X :=
  λ w, let '(o, w') := m w in
       (match o with Ret a => Http status a | Raise e => match codes e with Some c => HttpError c | None => Uncaught e end end, w').

Definition not_found (e : DriftExn) : option Z := match e with DriftRegistryError (WorkloadNotFoundError _) => Some 404%Z | _ => None end.
Definition assess_codes (e : DriftExn) : option Z := match e with DriftNotConfiguredError _ _ => Some 409%Z | _ => not_found e end.
Definition reinstate_codes (e : DriftExn) : option Z :=
  match e with QuarantineNotFoundError _ => Some 404%Z | ReinstatementRefusedError _ _ => Some 409%Z | _ => not_found e end.

Definition list_due (ctx : TenantContext) := respond 200 (λ _, None) (due None ctx).
Definition get_schedules (ctx : TenantContext) := respond 200 (λ _, None) (schedules ctx).
Definition list_expiries (ctx : TenantContext) := respond 200 (λ _, None) (expiries ctx).
Definition assess_drift (workload : string) (current : EvalSummary) (baseline_attestation_id : option string) (ctx : TenantContext) :=
  respond 200 assess_codes (evaluate workload current baseline_attestation_id "drift-detector" ctx (mkSets None None None)).
Definition probe_drift (workload : string) (target_context : TargetContext) (corpus model_identity : option string) (ctx : TenantContext) :=
  respond 200 assess_codes (probe_and_evaluate workload target_context corpus model_identity "drift-detector" ctx).
Definition quarantine_endpoint (workload reason operator : string) (ctx : TenantContext) :=
  respond 201 not_found (quarantine workload reason None None None operator ctx).
Definition get_quarantine_endpoint (quarantine_id : string) (ctx : TenantContext) : World W X → Response QuarantineRecord * World W X :=
  λ w, (match get_quarantine quarantine_id ctx (dv_store w) with Some q => Http 200 q | None => HttpError 404 end, w).
Definition reinstate_endpoint (quarantine_id operator : string) (corpus model_identity : option string) (ctx : TenantContext)
    : World W X → Response QuarantineRecord * World W X :=
  λ w, match get_quarantine quarantine_id ctx (dv_store w) with
       | None => (HttpError 404, w)
       | Some q => respond 200 reinstate_codes (reinstate (qr_workload q) operator corpus model_identity ctx) w
       end.
End Services.

(** ** The wiring ([api/app.py], [_wire_drift]): the quarantine service is
    given no run canceller *)
Definition wire_drift {X} (drift_threshold_pass_rate : f64) (max_new_failures re_cert_interval_days required_consecutive_failures : Z)
    (strong_multiplier : f64) (renewal_window_days : Z) (cancel_in_flight : bool) (clock : X → Z * X) (quarantine_id : X → string * X)
    (audit_log : option (string → string → string → string → TenantContext → X → (DriftExn + unit) * X)) (notifier : option (Notifier X))
    (publish : option (FleetEvent → X → bool * X)) (isoformat : Z → string) : Env X :=
  {| de_clock := clock; de_quarantine_id := quarantine_id; de_audit := audit_log; de_notifier := notifier; de_canceller := None;
     de_cancel_in_flight := cancel_in_flight; de_event_sink := publish; de_isoformat := isoformat;
     de_detector := mkDetector drift_threshold_pass_rate max_new_failures required_consecutive_failures strong_multiplier;
     de_quarantine_service := true; de_default_interval := re_cert_interval_days * 86400; de_renewal_window := renewal_window_days * 86400 |}.
