(* ===== verification/DriftHistory.v ===== *)
(** * Runs of the drift services

    Sequences of evaluations, probes, quarantines and reinstatements, also
    failed ones, from an empty store.  The store's streak, computed from
    sorted instants and the last reinstatement, is a counter over the log of
    what happened; a quarantine is lifted only by a reinstatement that found
    the workload admitted again. *)

From stdpp Require Import base strings pretty numbers gmap sets sorting list.
From S2P Require Import Prelude Text Float64 Rounding Calendar Tenancy CoreModels Canonical Conflict Manifest Certification Registry Promotion Drift.

#[local] Open Scope hp_scope.

(** ** Lists *)

Lemma max_of_spec l m : max_of l = Some m → m ∈ l ∧ ∀ y, y ∈ l → (y ≤ m)%Z.
Proof.
  destruct l as [|x l]; [done|]. intros [= <-]. revert x. induction l as [|z l IH]; intros x.
  - split; [by apply list_elem_of_singleton|]. intros y ->%list_elem_of_singleton. simpl. lia.
  - cbn [foldl]. destruct (IH (Z.max x z)) as [H1 H2]. split.
    + apply elem_of_cons in H1 as [H1|H1]; [|set_solver]. rewrite H1. destruct (Z.max_spec x z) as [[_ ->]|[_ ->]]; set_solver.
    + intros y Hy. pose proof (H2 (Z.max x z) ltac:(set_solver)). apply elem_of_cons in Hy as [->|Hy]; [lia|].
      apply elem_of_cons in Hy as [->|Hy]; [lia|]. apply H2. set_solver.
Qed.

(** After every one of some instants. *)
Definition unsealed (bs : list Z) (t : Z) : bool := forallb (λ b, b <? t)%Z bs.

Lemma unsealed_spec bs t : unsealed bs t = true ↔ ∀ b, b ∈ bs → (b < t)%Z.
Proof. unfold unsealed. rewrite forallb_forall. setoid_rewrite <-list_elem_of_In. by setoid_rewrite Z.ltb_lt. Qed.

Lemma unsealed_ext bs bs' t : (∀ b, b ∈ bs ↔ b ∈ bs') → unsealed bs t = unsealed bs' t.
Proof. intros H. apply eq_true_iff_eq. rewrite !unsealed_spec. by setoid_rewrite H. Qed.

Lemma after_boundary (l : list DriftAssessment) bs :
  (match max_of bs with Some b => filter (λ a, (b < da_timestamp a)%Z) l | None => l end) = filter (λ a, unsealed bs (da_timestamp a) = true) l.
Proof.
  destruct (max_of bs) as [m|] eqn:Hm.
  - apply max_of_spec in Hm as [Hin Hle]. apply list_filter_iff. intros a. rewrite unsealed_spec. split; [|by auto].
    intros Ha b Hb. specialize (Hle b Hb). lia.
  - destruct bs; [|done]. induction l as [|a l IH]; [done|]. rewrite filter_cons_True by done. by rewrite <-IH.
Qed.

Lemma trailing_snoc l a : trailing_exceeded (l ++ [a]) = if da_exceeded a then (1 + trailing_exceeded l)%Z else 0%Z.
Proof. unfold trailing_exceeded. by rewrite rev_unit. Qed.

Lemma omap_single {A B} `{EqDecision A} (f : A → option B) l k y :
  NoDup l → k ∈ l → f k = Some y → (∀ j, j ∈ l → j ≠ k → f j = None) → omap f l = [y].
Proof.
  induction l as [|z l IH]; [by intros _ ?%elem_of_nil|]. intros [Hz Hnd]%NoDup_cons Hk Hf Hne.
  assert (∀ l', (∀ j, j ∈ l' → f j = None) → omap f l' = []) as Hnone.
  { induction l' as [|j l' IH']; [done|]. intros Hj. simpl. rewrite Hj by set_solver. apply IH'. set_solver. }
  simpl. apply elem_of_cons in Hk as [->|Hk].
  - rewrite Hf. f_equal. apply Hnone. intros j Hj. apply Hne; [set_solver|]. by intros ->.
  - rewrite (Hne z); [|set_solver|by intros ->]. apply IH; [done..|]. set_solver.
Qed.

Section History.
Context {W X : Type} `{!FleetApi W}.
Variable env : Drift.Env X.

Abbreviation World := (Drift.World W X).
Abbreviation DM := (M World DriftExn).

(** ** The surroundings: a clock that advances, identifiers that are never issued twice *)

Variable issued : X → string → Prop.

Definition instant (x : X) : Z := (de_clock env x).1.
Definition adv (x x' : X) : Prop := (instant x ≤ instant x')%Z ∧ ∀ i, issued x i → issued x' i.

#[local] Instance adv_preorder : PreOrder adv.
Proof. split; [by intros x|]. intros x y z [H1 H2] [H3 H4]. split; [lia|by auto]. Qed.

Record surroundings : Prop := {
  su_clock : ∀ x, (instant x < instant (de_clock env x).2)%Z ∧ adv x (de_clock env x).2;
  su_id : ∀ x, ¬ issued x (de_quarantine_id env x).1 ∧ issued (de_quarantine_id env x).2 (de_quarantine_id env x).1 ∧ adv x (de_quarantine_id env x).2;
  su_audit : ∀ f a b c d ctx x, de_audit env = Some f → adv x (f a b c d ctx x).2;
  su_transport : ∀ n t send f m x, de_notifier env = Some n → od_get t (dn_transports n) = Some send → adv x (send f m x).2;
  su_cancel : ∀ f wl x, de_canceller env = Some f → adv x (f wl x).2;
  su_sink : ∀ f e x, de_event_sink env = Some f → adv x (f e x).2 }.

Hypothesis Hsu : surroundings.

(** ** Computations that leave the store alone *)

Definition quiet (w w' : World) : Prop := dv_store w' = dv_store w ∧ adv (dv_ext w) (dv_ext w').

#[local] Instance quiet_preorder : PreOrder quiet.
Proof.
  split; [by intros w|]. intros w1 w2 w3 [H1 H2] [H3 H4]. split; [congruence|]. by transitivity (dv_ext w2).
Qed.

(** The fleet too. *)
Definition steady (w w' : World) : Prop := quiet w w' ∧ dv_fleet w' = dv_fleet w.

#[local] Instance steady_preorder : PreOrder steady.
Proof. split; [by intros w|]. intros w1 w2 w3 [H1 H2] [H3 H4]. split; [by transitivity w2|congruence]. Qed.

Lemma steady_quiet {A} (m : DM A) : keeps steady m → keeps quiet m.
Proof. intros H w. apply H. Qed.

Lemma steady_ext {A} (f : X → A * X) : (∀ x, adv x (f x).2) → keeps steady (Drift.on_ext (W := W) f).
Proof. intros H w. unfold Drift.on_ext. specialize (H (dv_ext w)). destruct (f (dv_ext w)); (split; [by split|done]). Qed.

Lemma steady_ext_exn {A} (f : X → (DriftExn + A) * X) : (∀ x, adv x (f x).2) → keeps steady (Drift.on_ext_exn (W := W) f).
Proof. intros H w. unfold Drift.on_ext_exn. specialize (H (dv_ext w)). destruct (f (dv_ext w)); (split; [by split|done]). Qed.

Lemma steady_reading : keeps steady (Drift.on_ext (W := W) (de_clock env)).
Proof. apply steady_ext. intros x. apply Hsu. Qed.

Lemma steady_audit a b c d ctx : keeps steady (Drift.audit (W := W) env a b c d ctx).
Proof. unfold Drift.audit. destruct (de_audit env) as [f|] eqn:Hf; [|by intros w]. apply steady_ext_exn. intros x. by apply Hsu. Qed.

Lemma steady_deliver n m l : de_notifier env = Some n → keeps steady (deliver (W := W) n m l).
Proof.
  intros Hn. induction l as [|f l IH]; simpl; [by intros w|]. destruct (od_get (fd_type f) (dn_transports n)) as [send|] eqn:Hs; [|done].
  apply keeps_bind; [apply _|apply steady_ext; intros x; by eapply su_transport|]. intros ok.
  apply keeps_bind; [apply _|done|]. by intros rest w.
Qed.

Lemma steady_notify n q owner : de_notifier env = Some n → keeps steady (notify_quarantine (W := W) env n q owner).
Proof. intros Hn. unfold notify_quarantine. destruct (dn_enabled n); [by apply steady_deliver|by intros w]. Qed.

Lemma steady_emit q : keeps steady (emit (W := W) env q).
Proof.
  unfold emit. destruct (de_event_sink env) as [f|] eqn:Hf; [|by intros w]. apply keeps_bind; [apply _|apply steady_reading|]. intros now.
  destruct (negb _); [by intros w|]. apply keeps_bind; [apply _|apply steady_ext; intros x; by apply Hsu|]. by intros u w.
Qed.

Lemma steady_cancel wl : keeps steady (cancel (W := W) env wl).
Proof.
  unfold cancel. destruct (de_canceller env) as [f|] eqn:Hf; [|by intros w]. destruct (de_cancel_in_flight env); [|by intros w].
  apply steady_ext_exn. intros x. by apply Hsu.
Qed.

Lemma quiet_clock : keeps quiet (Drift.on_ext (W := W) (de_clock env)).
Proof. apply steady_quiet, steady_reading. Qed.
Lemma quiet_audit a b c d ctx : keeps quiet (Drift.audit (W := W) env a b c d ctx).
Proof. apply steady_quiet, steady_audit. Qed.
Lemma quiet_notify n q owner : de_notifier env = Some n → keeps quiet (notify_quarantine (W := W) env n q owner).
Proof. intros Hn. by apply steady_quiet, steady_notify. Qed.
Lemma quiet_emit q : keeps quiet (emit (W := W) env q).
Proof. apply steady_quiet, steady_emit. Qed.
Lemma quiet_cancel wl : keeps quiet (cancel (W := W) env wl).
Proof. apply steady_quiet, steady_cancel. Qed.

Lemma quiet_fleet {A} (m : M W RegistryExn A) : keeps quiet (on_fleet (X := X) m).
Proof. intros w. unfold on_fleet. by destruct (m (dv_fleet w)). Qed.

Lemma quiet_baseline_record ctx wl : keeps quiet (Drift.baseline_record (X := X) ctx wl).
Proof. apply keeps_bind; [apply _|apply quiet_fleet|]. by intros l w. Qed.

Lemma quiet_baseline ctx wl : keeps quiet (baseline (X := X) ctx wl).
Proof. apply keeps_bind; [apply _|apply quiet_baseline_record|]. by intros [r|] w. Qed.

Lemma quiet_run {A} (m : DM A) w o w' : keeps quiet m → m w = (o, w') → quiet w w'.
Proof. intros Hm He. specialize (Hm w). by rewrite He in Hm. Qed.

Lemma drift_bind_cases {A B} (m : DM A) (k : A → DM B) w :
  (∃ e w1, m w = (Raise e, w1) ∧ bind m k w = (Raise e, w1)) ∨ (∃ a w1, m w = (Ret a, w1) ∧ bind m k w = k a w1).
Proof. unfold bind. destruct (m w) as [[a|e] w1]; [right|left]; by eexists _, _. Qed.

Tactic Notation "next_bind" ident(a) ident(w1) ident(H1) :=
  match goal with |- context [bind ?m ?k ?w] => destruct (drift_bind_cases m k w) as [(a & w1 & H1 & ->)|(a & w1 & H1 & ->)] end.

(** ** What an operation does to the store *)

Definition opened (x x' : X) (q : QuarantineRecord) : Prop :=
  qr_status q = Q_ACTIVE ∧ qr_reinstated_at q = None ∧ ¬ issued x (qr_quarantine_id q) ∧ issued x' (qr_quarantine_id q) ∧
  (instant x ≤ qr_timestamp q < instant x')%Z.

(** [lifts] tells whether a quarantine may be lifted. *)
Inductive effect (lifts : bool) (s : DriftStore) (x x' : X) : DriftStore → Prop :=
  | eff_none : adv x x' → effect lifts s x x' s
  | eff_open q : adv x x' → opened x x' q → effect lifts s x x' (put_quarantine q s)
  | eff_eval a : adv x x' → (instant x ≤ da_timestamp a < instant x')%Z → effect lifts s x x' (put_assessment a s)
  | eff_eval_open a q : adv x x' → opened x x' q → (instant x ≤ da_timestamp a < instant x')%Z →
      effect lifts s x x' (put_quarantine q (put_assessment a s))
  | eff_lift q ctx now operator : lifts = true → adv x x' → active_quarantine (qr_workload q) ctx s = Some q → (instant x ≤ now < instant x')%Z →
      effect lifts s x x' (put_quarantine (as_reinstated q now operator) s).

Definition effect_of (lifts : bool) (w w' : World) : Prop := effect lifts (dv_store w) (dv_ext w) (dv_ext w') (dv_store w').

Lemma opened_pre x x1 x' q : adv x x1 → opened x1 x' q → opened x x' q.
Proof. intros [H1 H2] (?&?&Hn&?&?). split_and!; [done..| |done|lia|lia]. intros Hi. by apply Hn, H2. Qed.
Lemma opened_post x x1 x' q : adv x1 x' → opened x x1 q → opened x x' q.
Proof. intros [H1 H2] (?&?&Hn&?&?). split_and!; [done..|by apply H2|lia|lia]. Qed.

(** Opening a quarantine, or not. *)
Definition may_open (w w' : World) : Prop :=
  adv (dv_ext w) (dv_ext w') ∧
  (dv_store w' = dv_store w ∨ ∃ q, opened (dv_ext w) (dv_ext w') q ∧ dv_store w' = put_quarantine q (dv_store w)).

Lemma may_open_quiet w w' : quiet w w' → may_open w w'.
Proof. intros [H1 H2]. split; [done|by left]. Qed.
Lemma may_open_pre w w1 w' : quiet w w1 → may_open w1 w' → may_open w w'.
Proof.
  intros [H1 H2] [H3 H4]. split; [by transitivity (dv_ext w1)|]. rewrite H1 in H4. destruct H4 as [?|(q & Hq & ?)]; [by left|right].
  exists q. split; [|done]. by apply opened_pre with (dv_ext w1).
Qed.

(** A computation of parts that leave the store alone, up to one that may not. *)
Lemma may_open_bind {A B} (m : DM A) (k : A → DM B) w :
  keeps quiet m → (∀ a w1, m w = (Ret a, w1) → may_open w1 (k a w1).2) → may_open w (bind m k w).2.
Proof.
  intros Hm Hk. destruct (drift_bind_cases m k w) as [(e & w1 & He & ->)|(a & w1 & He & ->)].
  - by apply may_open_quiet, (quiet_run m w (Raise e)).
  - apply may_open_pre with w1; [by apply (quiet_run m w (Ret a))|by apply Hk].
Qed.

Lemma add_quarantine_run q ctx (w : World) :
  add_quarantine q ctx w =
  if scopes ctx (qr_tenant_id q) then (Ret tt, mkWorld (put_quarantine q (dv_store w)) (dv_fleet w) (dv_ext w)) else (Raise DriftScopeError, w).
Proof. unfold add_quarantine, require, bind. by destruct (scopes ctx (qr_tenant_id q)). Qed.

Lemma put_then_quiet {A} q ctx (k : unit → DM A) w : (∀ u, keeps quiet (k u)) →
  let w' := (bind (add_quarantine q ctx) k w).2 in
  adv (dv_ext w) (dv_ext w') ∧ (dv_store w' = dv_store w ∨ dv_store w' = put_quarantine q (dv_store w)).
Proof.
  intros Hk w'. subst w'. unfold bind. rewrite add_quarantine_run. destruct (scopes ctx (qr_tenant_id q)); [|by split; [|left]].
  destruct (Hk tt (mkWorld (put_quarantine q (dv_store w)) (dv_fleet w) (dv_ext w))) as [H1 H2]. split; [done|by right].
Qed.

Lemma open_spec record wl reason a diff sev actor ctx w :
  may_open w (open_quarantine env record wl reason a diff sev actor ctx w).2.
Proof.
  unfold open_quarantine. apply may_open_bind; [apply quiet_fleet|]. intros _ w1 _.
  apply may_open_bind; [apply quiet_cancel|]. intros cancelled w2 _. cbn zeta.
  next_bind id w3 Hi.
  { unfold Drift.on_ext in Hi. by destruct (de_quarantine_id env (dv_ext w2)). }
  destruct (su_id Hsu (dv_ext w2)) as (Hfresh & His & Hadv). unfold Drift.on_ext in Hi.
  destruct (de_quarantine_id env (dv_ext w2)) as [i x2] eqn:Ei. injection Hi as <- <-. cbn [fst snd] in *.
  unfold bind at 1. unfold Drift.on_ext. cbn [dv_ext]. destruct (su_clock Hsu x2) as [Hc1 Hc2].
  destruct (de_clock env x2) as [now x3] eqn:Ec. cbn [fst snd] in *. destruct (quarantine_valid _).
  2:{ apply may_open_quiet. split; [done|]. cbn. by transitivity x2. }
  set (q0 := mkQuarantine i wl Q_ACTIVE _ reason actor _ a _ diff [] cancelled _ now None None).
  cbn [dv_store dv_fleet].
  set (m := match de_notifier env with Some n => _ | None => _ end).
  next_bind q w5 Hm.
  all: assert (keeps quiet m) as Hq by (subst m; destruct (de_notifier env) eqn:Hn; [apply keeps_bind; [apply _|by apply quiet_notify|by intros l w0]|by intros w0]).
  all: apply (quiet_run _ _ _ _ Hq) in Hm as Hm'; destruct Hm' as [H1 H2]; cbn in H1, H2.
  { apply may_open_quiet. split; [done|]. transitivity x2; [done|]. by transitivity x3. }
  assert (∃ l, q = with_notified q0 l) as [l Hl].
  { subst m. destruct (de_notifier env).
    - apply bind_inv in Hm as (l & w6 & _ & [= <- _]). by exists l.
    - injection Hm as <- _. by exists []. }
  assert (opened (dv_ext w2) x3 q) as Hop.
  { subst q. unfold opened. cbn. unfold adv, instant in *. rewrite Ec in *. cbn in *.
    split_and!; [done|done|done|by apply Hc2|destruct Hadv; cbn in *; lia|lia]. }
  match goal with |- context [bind (add_quarantine q ctx) ?k w5] => destruct (put_then_quiet q ctx k w5) as [H3 H4] end.
  { intros u. apply keeps_bind; [apply _|apply quiet_audit|]. intros u'. apply keeps_bind; [apply _|apply quiet_emit|]. by intros u'' w0. }
  split; [transitivity x2; [done|]; transitivity x3; [done|]; by transitivity (dv_ext w5)|].
  rewrite H1 in H4. destruct H4 as [H4|H4]; [by left|right]. exists q. split; [|done].
  apply opened_post with x3; [by transitivity (dv_ext w5)|done].
Qed.

Lemma steady_run {A} (m : DM A) w o w' : keeps steady m → m w = (o, w') → steady w w'.
Proof. intros Hm He. specialize (Hm w). by rewrite He in Hm. Qed.

(** What a quarantine that is returned has done. *)
Lemma open_returns record wl reason a diff sev actor ctx w q w' :
  open_quarantine env record wl reason a diff sev actor ctx w = (Ret q, w') →
  opened (dv_ext w) (dv_ext w') q ∧ dv_store w' = put_quarantine q (dv_store w) ∧ scopes ctx (qr_tenant_id q) = true ∧ qr_workload q = wl ∧
  ∃ r, fa_quarantine ctx wl (dv_fleet w) = (Ret r, dv_fleet w').
Proof.
  unfold open_quarantine. intros (r & w1 & Hf & H)%bind_inv. unfold on_fleet in Hf.
  destruct (fa_quarantine ctx wl (dv_fleet w)) as [[r'|] g] eqn:Hq; [|done]. injection Hf as <- <-.
  apply bind_inv in H as (cancelled & w2 & Hc & H). apply (steady_run _ _ _ _ (steady_cancel wl)) in Hc as [[Hs2 Ha2] Hg2].
  apply bind_inv in H as (id & w3 & Hid & H). destruct (su_id Hsu (dv_ext w2)) as (Hfresh & His & Hadv). unfold Drift.on_ext in Hid.
  destruct (de_quarantine_id env (dv_ext w2)) as [i x3] eqn:Ei. injection Hid as <- <-.
  apply bind_inv in H as (now & w4 & Hn & H). destruct (su_clock Hsu x3) as [Hc1 Hc2]. unfold Drift.on_ext in Hn. cbn in Hn.
  destruct (de_clock env x3) as [t x4] eqn:Ec. injection Hn as <- <-. cbn [fst snd dv_store dv_fleet dv_ext] in *.
  cbn zeta in H. destruct (quarantine_valid _); [|done]. apply bind_inv in H as (q0 & w5 & Hn & H).
  set (q1 := mkQuarantine i wl Q_ACTIVE _ reason actor _ a _ diff [] cancelled _ t None None) in *.
  assert (steady (mkWorld (dv_store w2) (dv_fleet w2) x4) w5 ∧ ∃ l, q0 = with_notified q1 l) as [[[Hs5 Ha5] Hg5] [l Hl]].
  { destruct (de_notifier env) as [n|] eqn:En; [|injection Hn as <- <-; split; [done|by exists []]].
    apply bind_inv in Hn as (l & w6 & Hn & [= <- <-]). split; [by apply (steady_run _ _ _ _ (steady_notify n q1 _ En)) in Hn|by exists l]. }
  apply bind_inv in H as (u & w6 & Hadd & H). rewrite add_quarantine_run in Hadd. destruct (scopes ctx (qr_tenant_id q0)) eqn:Hsc; [|done].
  injection Hadd as <- <-. apply bind_inv in H as (u' & w7 & Hau & H). apply (steady_run _ _ _ _ (steady_audit _ _ _ _ _)) in Hau as [[Hs7 Ha7] Hg7].
  apply bind_inv in H as (u'' & w8 & Hem & [= <- <-]). apply (steady_run _ _ _ _ (steady_emit _)) in Hem as [[Hs8 Ha8] Hg8].
  cbn [dv_store dv_ext dv_fleet] in *. split_and!.
  - apply opened_post with x4; [transitivity (dv_ext w5); [done|by transitivity (dv_ext w7)]|]. subst q0. split_and!; [done|done| |by apply Hc2| |].
    + intros Hi. by apply Hfresh, Ha2.
    + destruct Ha2 as [Ha2 _], Hadv as [Hadv _]. unfold instant in *. rewrite Ec in *. cbn in *. lia.
    + unfold instant in *. rewrite Ec in *. cbn in *. lia.
  - rewrite Hs8, Hs7, Hs5, Hs2. done.
  - done.
  - by subst q0.
  - exists r'. by rewrite Hg8, Hg7, Hg5, Hg2.
Qed.

Lemma quarantine_spec wl reason a diff sev actor ctx w : may_open w (quarantine env wl reason a diff sev actor ctx w).2.
Proof.
  unfold quarantine. apply may_open_bind; [apply quiet_fleet|]. intros record w1 _. apply may_open_bind; [by intros w0|]. intros s w2 _.
  destruct (if bool_decide (wr_certification_status record = QUARANTINED) then active_quarantine wl ctx s else None).
  - by apply may_open_quiet.
  - apply open_spec.
Qed.

(** ** Operations and runs *)

Inductive Op :=
  | OEvaluate (workload : string) (current : EvalSummary) (attestation : option string) (actor : string) (ctx : TenantContext) (sets : TaskSets)
  | OProbe (workload : string) (target_context : TargetContext) (corpus_ref model_identity : option string) (actor : string) (ctx : TenantContext)
  | OQuarantine (workload reason : string) (assessment : option DriftAssessment) (regression_diff : option (odict string JsonValue))
      (severity : option Severity) (actor : string) (ctx : TenantContext)
  | OReinstate (workload operator : string) (corpus_ref model_identity : option string) (ctx : TenantContext).

Definition exec (o : Op) (w : World) : World :=
  match o with
  | OEvaluate wl cur att actor ctx sets => (evaluate env wl cur att actor ctx sets w).2
  | OProbe wl tc corpus model actor ctx => (probe_and_evaluate env wl tc corpus model actor ctx w).2
  | OQuarantine wl reason a diff sev actor ctx => (quarantine env wl reason a diff sev actor ctx w).2
  | OReinstate wl operator corpus model ctx => (reinstate env wl operator corpus model ctx w).2
  end.

Definition run_ops (ops : list Op) (w : World) : World := foldl (λ w o, exec o w) w ops.

(** ** Effects *)

Lemma effect_pre b w w1 w' : quiet w w1 → effect_of b w1 w' → effect_of b w w'.
Proof.
  intros [H1 H2] He. unfold effect_of in *. rewrite H1 in He. remember (dv_store w') as s' eqn:Hs. clear Hs H1.
  pose proof H2 as [H3 _].
  destruct He as [?|q ? Hq|a ? ?|a q ? Hq ?|q ctx now op ? ? Ha ?].
  5: apply eff_lift with ctx; [done| |done|].
  1-4: constructor.
  all: first [by transitivity (dv_ext w1)|by apply opened_pre with (dv_ext w1)|lia].
Qed.

Lemma may_open_effect b w w' : may_open w w' → effect_of b w w'.
Proof. intros [H1 [H2|(q & Hq & H2)]]; unfold effect_of; rewrite H2; by constructor. Qed.

Lemma evaluate_effect b0 wl cur att actor ctx sets w : effect_of b0 w (evaluate env wl cur att actor ctx sets w).2.
Proof.
  unfold evaluate.
  next_bind b w1 Hb; apply (quiet_run _ _ _ _ (quiet_baseline ctx wl)) in Hb.
  { by apply may_open_effect, may_open_quiet. }
  apply effect_pre with w1; [done|]. unfold bind at 1, gets. unfold bind at 1, Drift.on_ext. destruct (su_clock Hsu (dv_ext w1)) as [Hc1 Hc2].
  destruct (de_clock env (dv_ext w1)) as [now x2] eqn:Ec. cbn [snd dv_store dv_fleet] in *. set (a := assess _ _ _ _ _ _ _ _ _).
  assert (instant (dv_ext w1) ≤ da_timestamp a < instant x2)%Z as Hts by (unfold instant in *; rewrite Ec in *; cbn in *; lia).
  destruct (assessment_valid a); [|by constructor]. unfold bind at 1. unfold add_assessment, require, bind at 1.
  destruct (scopes ctx (da_tenant_id a)); [|by constructor]. cbn [ret modify put_store dv_store dv_fleet dv_ext].
  set (w2 := mkWorld (put_assessment a (dv_store w1)) (dv_fleet w1) x2).
  assert (∀ m : DM unit, (∀ w, may_open w (m w).2) → effect_of b0 w1 (bind m (λ _, ret a) w2).2) as Hgen.
  { intros m Hm. assert ((bind m (λ _, ret a) w2).2 = (m w2).2) as -> by (unfold bind; by destruct (m w2) as [[]]).
    destruct (Hm w2) as [H1 [H2|(q & Hq & H2)]]; unfold effect_of; rewrite H2; subst w2; cbn [dv_ext dv_store] in *.
    - apply eff_eval; [by transitivity x2|]. destruct H1; lia.
    - apply eff_eval_open; [by transitivity x2|by apply opened_pre with x2|]. destruct H1; lia. }
  apply Hgen. intros w0. destruct (da_should_quarantine a && de_quarantine_service env); [|by apply may_open_quiet].
  assert (∀ m : DM QuarantineRecord, (bind m (λ _, ret tt) w0).2 = (m w0).2) as -> by (intros m; unfold bind; by destruct (m w0) as [[]]).
  apply quarantine_spec.
Qed.

(** The call found the workload admitted to production again. *)
Definition readmitted (wl : string) (corpus_ref model_identity : option string) (ctx : TenantContext) (g : W) : Prop :=
  ∃ c0 g1 c g2 d g3,
    fa_certify ctx wl TC_STAGING corpus_ref model_identity g = (Ret c0, g1) ∧
    fa_certify ctx wl TC_PRODUCTION corpus_ref model_identity g1 = (Ret c, g2) ∧
    (cf_status (cr_certification c) = CERTIFIED ∨ cf_status (cr_certification c) = PROVISIONAL) ∧
    fa_check_admission ctx wl PRODUCTION g2 = (Ret d, g3) ∧ ad_admitted d = true.

Lemma active_workload wl ctx s q : active_quarantine wl ctx s = Some q → qr_workload q = wl ∧ qr_status q = Q_ACTIVE ∧
  ∃ t, (q, t) ∈ od_values (ds_quarantines s) ∧ scopes ctx t = true.
Proof.
  unfold active_quarantine, list_quarantines. intros H%last_Some_elem_of. rewrite py_sort_perm in H.
  apply list_elem_of_fmap in H as ([q' t] & -> & [H Hin]%list_elem_of_filter). cbn in *. unfold opt_is in H.
  apply andb_true_iff in H as [[H1 H2%bool_decide_eq_true]%andb_true_iff H3%bool_decide_eq_true]. split_and!; [done..|]. by exists t.
Qed.

Lemma on_fleet_cases {A B} (m : M W RegistryExn A) (k : A → DM B) w :
  (∃ e g, m (dv_fleet w) = (Raise e, g) ∧ bind (on_fleet m) k w = (Raise (DriftRegistryError e), mkWorld (dv_store w) g (dv_ext w))) ∨
  (∃ a g, m (dv_fleet w) = (Ret a, g) ∧ bind (on_fleet m) k w = k a (mkWorld (dv_store w) g (dv_ext w))).
Proof. unfold bind, on_fleet. destruct (m (dv_fleet w)) as [[a|e] g]; [right|left]; by eexists _, _. Qed.

Tactic Notation "next_fleet" ident(a) ident(g1) ident(H1) :=
  match goal with |- context [bind (on_fleet ?m) ?k ?w] => destruct (on_fleet_cases m k w) as [(a & g1 & H1 & ->)|(a & g1 & H1 & ->)] end.

(** A reinstatement leaves the store as it was, or lifts the quarantine in
    force of a workload that is admitted again. *)
Lemma reinstate_spec wl operator corpus model ctx w :
  let w' := (reinstate env wl operator corpus model ctx w).2 in
  adv (dv_ext w) (dv_ext w') ∧
  (dv_store w' = dv_store w ∨
   ∃ q now, active_quarantine wl ctx (dv_store w) = Some q ∧ readmitted wl corpus model ctx (dv_fleet w) ∧
     (instant (dv_ext w) ≤ now < instant (dv_ext w'))%Z ∧ dv_store w' = put_quarantine (as_reinstated q now operator) (dv_store w)).
Proof.
  intros w'. subst w'. unfold reinstate.
  next_bind s w1 H1; [done|]. injection H1 as <- <-.
  next_bind q w1 H1; unfold of_option in H1; destruct (active_quarantine wl ctx (dv_store w)) as [q'|] eqn:Hq; try done;
    injection H1 as <- <-; [by split; [|left]|].
  next_fleet c0 g1 H1; [by split; [|left]|].
  next_fleet c g2 H2; [by split; [|left]|].
  cbn [dv_fleet dv_store dv_ext] in *. cbn zeta. destruct (negb _) eqn:Hst; [by split; [|left]|].
  next_fleet d g3 H3; [by split; [|left]|].
  cbn [dv_fleet dv_store dv_ext] in *. destruct (negb (ad_admitted d)) eqn:Had; [by split; [|left]|].
  destruct (su_clock Hsu (dv_ext w)) as [Hc1 Hc2].
  next_bind now w4 H4; unfold Drift.on_ext in H4; cbn [dv_ext dv_store dv_fleet] in H4;
    destruct (de_clock env (dv_ext w)) as [now' x2] eqn:Ec; [done|]. injection H4 as <- <-. cbn [snd] in *.
  match goal with |- context [bind (add_quarantine ?q ctx) ?k ?w] => destruct (put_then_quiet q ctx k w) as [H4 H5] end.
  { intros u. apply keeps_bind; [apply _|apply quiet_audit|]. by intros u' w0. }
  cbn [dv_ext dv_store] in *. split; [by transitivity x2|]. destruct H5 as [H5|H5]; [by left|right].
  exists q', now'. split; [done|]. split.
  - exists c0, g1, c, g2, d, g3. split_and!; [done..| |done|by apply negb_false_iff in Had].
    apply negb_false_iff, orb_true_iff in Hst as [H%bool_decide_eq_true|H%bool_decide_eq_true]; [by left|by right].
  - split; [|done]. destruct H4 as [H4 _]. unfold instant in *. rewrite Ec in *. cbn in *. lia.
Qed.

Definition reinstates (o : Op) : bool := match o with OReinstate _ _ _ _ _ => true | _ => false end.

Lemma exec_effect o w : effect_of (reinstates o) w (exec o w).
Proof.
  destruct o; simpl.
  - apply evaluate_effect.
  - unfold probe_and_evaluate.
    next_bind r w1 H1;
      apply (quiet_run _ _ _ _ (quiet_fleet _)) in H1; [by apply may_open_effect, may_open_quiet|]. apply effect_pre with w1; [done|].
    next_bind b w2 H2;
      apply (quiet_run _ _ _ _ (quiet_baseline_record _ _)) in H2; [by apply may_open_effect, may_open_quiet|]. apply effect_pre with w2; [done|].
    apply evaluate_effect.
  - apply may_open_effect, quarantine_spec.
  - destruct (reinstate_spec workload operator corpus_ref model_identity ctx w) as [H1 [H2|(q & now & Hq & _ & Ht & H2)]];
      unfold effect_of; rewrite H2; [by constructor|]. apply (eff_lift _ _ _ _ q ctx now operator); [done|done| |done].
    by destruct (active_workload _ _ _ _ Hq) as [-> _].
Qed.

(** ** The store's invariant *)

Record store_ok (s : DriftStore) (x : X) : Prop := {
  ok_wf : od_wf (ds_quarantines s);
  ok_entry : ∀ k q t, od_get k (ds_quarantines s) = Some (q, t) →
    qr_quarantine_id q = k ∧ t = qr_tenant_id q ∧ issued x k ∧ (qr_timestamp q < instant x)%Z ∧
    (qr_status q = Q_ACTIVE ↔ qr_reinstated_at q = None) ∧ ∀ b, qr_reinstated_at q = Some b → (b < instant x)%Z;
  ok_assessment : ∀ a t, (a, t) ∈ ds_assessments s → t = da_tenant_id a ∧ (da_timestamp a < instant x)%Z;
  ok_sorted : StronglySorted Z.lt ((λ e, da_timestamp e.1) <$> ds_assessments s) }.

Lemma empty_ok x : store_ok empty_drift x.
Proof. split; [apply NoDup_nil_2|done|by intros a t ?%elem_of_nil|constructor]. Qed.

Lemma ok_later s x x' : adv x x' → store_ok s x → store_ok s x'.
Proof.
  intros [H1 H2] [Hwf He Ha Hs]. split; [done| | |done].
  - intros k q t Hk. destruct (He k q t Hk) as (?&?&?&?&?&Hb). split_and!; [done|done|by apply H2|lia|done|]. intros b Hq. specialize (Hb b Hq). lia.
  - intros a t Hin. destruct (Ha a t Hin). split; [done|lia].
Qed.

Lemma sorted_snoc l z : StronglySorted Z.lt l → (∀ y, y ∈ l → (y < z)%Z) → StronglySorted Z.lt (l ++ [z]).
Proof.
  induction l as [|y l IH]; intros Hs Hz; simpl; [by repeat constructor|]. apply StronglySorted_inv in Hs as [Hs Hf]. constructor.
  - apply IH; [done|set_solver].
  - apply Forall_app. split; [done|]. apply Forall_singleton. apply Hz. set_solver.
Qed.

Lemma ok_assess s x x' a : store_ok s x → adv x x' → (instant x ≤ da_timestamp a < instant x')%Z → store_ok (put_assessment a s) x'.
Proof.
  intros Hok Hadv Ht. pose proof (ok_later _ _ _ Hadv Hok) as [Hwf He Ha Hs]. split; [done|done| |].
  - intros a' t [Hin|Hin]%elem_of_app; [by apply Ha|]. apply list_elem_of_singleton in Hin as [= -> ->]. split; [done|lia].
  - cbn. rewrite fmap_app. apply sorted_snoc; [done|]. intros y Hy. apply list_elem_of_fmap in Hy as ([a' t] & -> & Hin).
    destruct Hok as [_ _ Ha' _]. destruct (Ha' a' t Hin) as [_ ?]. cbn. lia.
Qed.

Lemma ok_put s x q : store_ok s x →
  issued x (qr_quarantine_id q) → (qr_timestamp q < instant x)%Z → (qr_status q = Q_ACTIVE ↔ qr_reinstated_at q = None) →
  (∀ b, qr_reinstated_at q = Some b → (b < instant x)%Z) → store_ok (put_quarantine q s) x.
Proof.
  intros [Hwf He Ha Hs] H1 H2 H3 H4. split; [by apply od_wf_set| |done|done]. intros k q' t. cbn. rewrite od_get_set.
  case_decide as Hk; [|apply He]. intros [= <- <-]. by rewrite Hk.
Qed.

Lemma effect_ok b s x x' s' : store_ok s x → effect b s x x' s' → store_ok s' x'.
Proof.
  intros Hok [Hadv|q Hadv Hq|a Hadv Ht|a q Hadv Hq Ht|q ctx now operator _ Hadv Hact Ht].
  - by eapply ok_later.
  - destruct Hq as (H1 & H2 & _ & H3 & H4). apply ok_put; [by eapply ok_later|done|lia|naive_solver|naive_solver].
  - by eapply ok_assess.
  - destruct Hq as (H1 & H2 & _ & H3 & H4). apply ok_put; [by eapply ok_assess|done|lia|naive_solver|naive_solver].
  - apply active_workload in Hact as (_ & Hst & t & Hin & _). pose proof (ok_later _ _ _ Hadv Hok) as Hok'.
    apply od_value_get in Hin as [k Hk]; [|apply Hok]. destruct (ok_entry _ _ Hok' k q t Hk) as (Hid & _ & Hi & Hts & _ & _).
    apply ok_put; [done|by cbn; rewrite Hid|done|done|]. intros b' [= <-]. lia.
Qed.

Lemma run_ok ops w : store_ok (dv_store w) (dv_ext w) → store_ok (dv_store (run_ops ops w)) (dv_ext (run_ops ops w)).
Proof.
  revert w. induction ops as [|o ops IH]; intros w Hok; [done|]. simpl. apply IH. eapply effect_ok; [done|apply exec_effect].
Qed.

(** ** The log *)

Inductive DriftEvent := Evaluated (a : DriftAssessment) | Lifted (q : QuarantineRecord).

(** The quarantine a change of the store lifted under a key. *)
Definition lifted_at (s s' : DriftStore) (k : string) : option DriftEvent :=
  match od_get k (ds_quarantines s), od_get k (ds_quarantines s') with
  | Some (q, _), Some (q', _) => if bool_decide (qr_status q = Q_ACTIVE) && bool_decide (qr_status q' = Q_REINSTATED) then Some (Lifted q') else None
  | _, _ => None
  end.

Definition events (s s' : DriftStore) : list DriftEvent :=
  (Evaluated <$> (drop (length (ds_assessments s)) (ds_assessments s')).*1) ++ omap (lifted_at s s') (od_keys (ds_quarantines s)).

Fixpoint log_of (ops : list Op) (w : World) : list DriftEvent :=
  match ops with [] => [] | o :: ops => events (dv_store w) (dv_store (exec o w)) ++ log_of ops (exec o w) end.

(** The counter of one workload, as one tenant context sees it. *)
Definition tick (wl : string) (ctx : TenantContext) (n : Z) (e : DriftEvent) : Z :=
  match e with
  | Evaluated a => if scopes ctx (da_tenant_id a) && bool_decide (da_workload a = wl) then (if da_exceeded a then 1 + n else 0)%Z else n
  | Lifted q => if scopes ctx (qr_tenant_id q) && bool_decide (qr_workload q = wl) then 0%Z else n
  end.

Definition counter (wl : string) (ctx : TenantContext) (log : list DriftEvent) : Z := foldl (tick wl ctx) 0%Z log.

(** The store's own view of the same: reinstatement instants and assessments. *)
Definition boundaries (wl : string) (ctx : TenantContext) (s : DriftStore) : list Z :=
  omap qr_reinstated_at (list_quarantines (Some wl) None ctx s).

Definition visible (wl : string) (ctx : TenantContext) (s : DriftStore) : list DriftAssessment :=
  fst <$> filter (λ e, scopes ctx e.2 && bool_decide (da_workload e.1 = wl) = true) (ds_assessments s).

Lemma boundaries_elem wl ctx s b : od_wf (ds_quarantines s) →
  b ∈ boundaries wl ctx s ↔
  ∃ k q t, od_get k (ds_quarantines s) = Some (q, t) ∧ scopes ctx t = true ∧ qr_workload q = wl ∧ qr_reinstated_at q = Some b.
Proof.
  intros Hwf. unfold boundaries, list_quarantines. rewrite list_elem_of_omap. setoid_rewrite py_sort_perm. setoid_rewrite list_elem_of_fmap.
  setoid_rewrite list_elem_of_filter. split.
  - intros (q & ([q' t] & -> & [H Hin]) & Hb). cbn in *. unfold opt_is in H. rewrite andb_true_r in H.
    apply andb_true_iff in H as [H1 H2%bool_decide_eq_true]. apply od_value_get in Hin as [k Hk]; [|done]. by exists k, q', t.
  - intros (k & q & t & Hk & Hs & Hw & Hb). exists q. split; [|done]. exists (q, t). split; [done|].
    split; [|by apply od_get_value in Hk]. cbn. rewrite Hs, bool_decide_eq_true_2 by done. done.
Qed.

Lemma list_visible wl ctx s x : store_ok s x → list_assessments wl None ctx s = visible wl ctx s.
Proof.
  intros [_ _ _ Hs]. unfold list_assessments. fold (visible wl ctx s). apply py_sort_id. unfold visible.
  assert (StronglySorted (λ a b, (da_timestamp a < da_timestamp b)%Z)
    (fst <$> filter (λ e, scopes ctx e.2 && bool_decide (da_workload e.1 = wl) = true) (ds_assessments s))) as H.
  { induction (ds_assessments s) as [|[a t] l IH]; [constructor|]. apply StronglySorted_inv in Hs as [Hs Hf]. specialize (IH Hs).
    rewrite filter_cons. case_decide; [|done]. cbn. constructor; [done|]. apply Forall_forall. intros y Hy.
    apply list_elem_of_fmap in Hy as ([y' t'] & -> & [_ Hin]%list_elem_of_filter). cbn.
    rewrite Forall_forall in Hf. apply (Hf (da_timestamp y')). apply list_elem_of_fmap. by exists (y', t'). }
  apply StronglySorted_Sorted. eapply StronglySorted_ind with (3 := H); [constructor|]. intros a l _ IH Hf. constructor; [done|].
  eapply Forall_impl; [exact Hf|]. intros y Hy. cbn in Hy. unfold at_leb. rewrite bool_decide_eq_false_2 by lia. apply Z.leb_le. lia.
Qed.

Lemma streak_of wl ctx s x : store_ok s x →
  consecutive_failures wl ctx s = trailing_exceeded (filter (λ a, unsealed (boundaries wl ctx s) (da_timestamp a) = true) (visible wl ctx s)).
Proof. intros Hok. unfold consecutive_failures, latest_reinstatement. rewrite (list_visible _ _ _ x) by done. by rewrite after_boundary. Qed.

Lemma list_eq_nil {A} (l : list A) : (∀ x, ¬ x ∈ l) → l = [].
Proof. destruct l as [|x l]; [done|]. intros H. destruct (H x). set_solver. Qed.

Lemma filter_bool_ext {A} (f g : A → bool) (l : list A) : (∀ x, x ∈ l → f x = g x) → filter (λ x, f x = true) l = filter (λ x, g x = true) l.
Proof.
  induction l as [|x l IH]; intros H; [done|]. rewrite !filter_cons. rewrite (H x) by set_solver.
  case_decide; rewrite IH; by set_solver.
Qed.

Lemma streak_same wl ctx s s' x x' : store_ok s x → store_ok s' x' → visible wl ctx s' = visible wl ctx s →
  (∀ b, b ∈ boundaries wl ctx s' ↔ b ∈ boundaries wl ctx s) → consecutive_failures wl ctx s' = consecutive_failures wl ctx s.
Proof.
  intros H1 H2 Hv Hb. rewrite (streak_of _ _ s' x'), (streak_of _ _ s x) by done. rewrite Hv. f_equal.
  apply filter_bool_ext. intros a _. by apply unsealed_ext.
Qed.

(** One change of the store is so many ticks of the counter. *)
Lemma put_opened_boundaries wl ctx s x x' q b : store_ok s x → opened x x' q → b ∈ boundaries wl ctx (put_quarantine q s) ↔ b ∈ boundaries wl ctx s.
Proof.
  intros Hok (Ha & Hn & Hf & _). rewrite !boundaries_elem; [|by apply Hok|by apply od_wf_set, Hok]. cbn. split.
  - intros (k & q' & t & Hk & H). rewrite od_get_set in Hk. case_decide; [naive_solver|]. by exists k, q', t.
  - intros (k & q' & t & Hk & H). exists k, q', t. rewrite od_get_set_ne; [done|]. intros ->.
    by destruct (ok_entry _ _ Hok _ _ _ Hk) as (_ & _ & ? & _).
Qed.

Lemma assess_tick wl ctx s x x' a : store_ok s x → adv x x' → (instant x ≤ da_timestamp a < instant x')%Z →
  consecutive_failures wl ctx (put_assessment a s) = tick wl ctx (consecutive_failures wl ctx s) (Evaluated a).
Proof.
  intros Hok Hadv Ht. pose proof (ok_assess _ _ _ _ Hok Hadv Ht) as Hok'. rewrite (streak_of _ _ _ x'), (streak_of _ _ s x) by done. unfold tick.
  change (boundaries wl ctx (put_assessment a s)) with (boundaries wl ctx s). unfold visible. cbn [put_assessment ds_assessments].
  rewrite filter_app, fmap_app, filter_app. destruct (scopes ctx (da_tenant_id a) && bool_decide (da_workload a = wl)) eqn:Hv.
  - rewrite (filter_cons_True _ (a, da_tenant_id a)) by done. rewrite filter_nil. cbn [fmap list_fmap fst]. rewrite filter_cons_True.
    + rewrite filter_nil. apply trailing_snoc.
    + apply unsealed_spec. intros b Hb. apply boundaries_elem in Hb as (k & q & t & Hk & _ & _ & Hb); [|by apply Hok].
      destruct (ok_entry _ _ Hok _ _ _ Hk) as (_ & _ & _ & _ & _ & H). specialize (H b Hb). lia.
  - rewrite (filter_cons_False _ (a, da_tenant_id a)) by (cbn; by rewrite Hv). cbn. by rewrite app_nil_r.
Qed.

Lemma lift_tick wl ctx s x x' q ctx' now operator : store_ok s x → adv x x' → active_quarantine (qr_workload q) ctx' s = Some q →
  (instant x ≤ now < instant x')%Z →
  consecutive_failures wl ctx (put_quarantine (as_reinstated q now operator) s)
  = tick wl ctx (consecutive_failures wl ctx s) (Lifted (as_reinstated q now operator)).
Proof.
  intros Hok Hadv Hact Ht. pose proof (effect_ok true _ _ _ _ Hok (eff_lift true _ _ _ q ctx' now operator eq_refl Hadv Hact Ht)) as Hok'.
  apply active_workload in Hact as (_ & Hst & t & Hin & _). apply od_value_get in Hin as [k Hk]; [|apply Hok].
  destruct (ok_entry _ _ Hok k q t Hk) as (Hid & Ht' & _ & _ & Hn & _). rewrite Hst in Hn. destruct Hn as [Hn _]. specialize (Hn eq_refl).
  unfold tick. cbn. destruct (scopes ctx (qr_tenant_id q) && bool_decide (qr_workload q = wl)) eqn:Hv.
  - rewrite (streak_of _ _ _ x') by done. apply andb_true_iff in Hv as [Hs Hw%bool_decide_eq_true].
    assert (now ∈ boundaries wl ctx (put_quarantine (as_reinstated q now operator) s)) as Hb.
    { apply boundaries_elem; [by apply od_wf_set, Hok|]. exists (qr_quarantine_id q), (as_reinstated q now operator), (qr_tenant_id q).
      cbn. by rewrite od_get_set_eq. }
    replace (filter _ _) with (@nil DriftAssessment); [done|]. symmetry. apply list_eq_nil. intros a [H Ha]%list_elem_of_filter. revert H.
    rewrite unsealed_spec. intros H. specialize (H now Hb). unfold visible in Ha. apply list_elem_of_fmap in Ha as ([a' t''] & -> & [_ Ha]%list_elem_of_filter).
    destruct (ok_assessment _ _ Hok _ _ Ha). cbn in *. lia.
  - apply streak_same with x x'; [done..|]. intros b. rewrite !boundaries_elem; [|by apply Hok|by apply od_wf_set, Hok]. cbn. split.
    + intros (j & q' & t' & Hj & H1 & H2 & H3). rewrite od_get_set in Hj. case_decide; [|by exists j, q', t'].
      injection Hj as <- <-. cbn in *. by rewrite H1, bool_decide_eq_true_2 in Hv.
    + intros (j & q' & t' & Hj & H1 & H2 & H3). exists j, q', t'. rewrite od_get_set_ne; [done|]. intros ->. rewrite Hid in Hj. naive_solver.
Qed.

Lemma no_lift s s' : (∀ k q t, od_get k (ds_quarantines s) = Some (q, t) → od_get k (ds_quarantines s') = Some (q, t)) →
  omap (lifted_at s s') (od_keys (ds_quarantines s)) = [].
Proof.
  intros H. assert (∀ l, omap (lifted_at s s') l = []) as Hall; [|done]. induction l as [|k l IH]; [done|]. simpl.
  replace (lifted_at s s' k) with (@None DriftEvent); [done|]. unfold lifted_at. destruct (od_get k (ds_quarantines s)) as [[q t]|] eqn:Hk; [|done].
  rewrite (H _ _ _ Hk). by destruct (qr_status q).
Qed.

Lemma opened_keeps s x x' q k q' t : store_ok s x → opened x x' q → od_get k (ds_quarantines s) = Some (q', t) →
  od_get k (ds_quarantines (put_quarantine q s)) = Some (q', t).
Proof.
  intros Hok (_ & _ & Hf & _) Hk. cbn. rewrite od_get_set_ne; [done|]. intros ->. by destruct (ok_entry _ _ Hok _ _ _ Hk) as (_ & _ & ? & _).
Qed.

Lemma effect_ticks b0 wl ctx s x x' s' : store_ok s x → effect b0 s x x' s' →
  consecutive_failures wl ctx s' = foldl (tick wl ctx) (consecutive_failures wl ctx s) (events s s').
Proof.
  intros Hok Heff. pose proof (effect_ok _ _ _ _ _ Hok Heff) as Hok'. unfold events.
  destruct Heff as [Hadv|q Hadv Hq|a Hadv Ht|a q Hadv Hq Ht|q ctx' now operator _ Hadv Hact Ht]; cbn [put_assessment put_quarantine ds_assessments] in *;
    rewrite ?drop_all, ?drop_app_length.
  - by rewrite no_lift.
  - rewrite no_lift by (intros k q' t; by apply (opened_keeps s x x')). cbn. apply streak_same with x x'; [done..|].
    intros b. by apply put_opened_boundaries with x x'.
  - rewrite no_lift by done. by apply assess_tick with x x'.
  - rewrite no_lift by (intros k q' t; by apply (opened_keeps s x x')). cbn.
    pose proof (ok_assess _ _ _ a Hok Hadv Ht) as Hoka. assert (opened x x' q) as Hq' by done.
    rewrite (streak_same wl ctx (put_assessment a s) _ x' x'); [by apply assess_tick with x x'|done..|].
    intros b. apply (put_opened_boundaries wl ctx s x x' q b Hok Hq).
  - cbn [fmap list_fmap app]. pose proof (active_workload _ _ _ _ Hact) as (_ & Hst & t & Hin & _).
    apply od_value_get in Hin as [k Hk]; [|apply Hok]. destruct (ok_entry _ _ Hok k q t Hk) as (Hid & _).
    rewrite (omap_single _ _ k (Lifted (as_reinstated q now operator))).
    + cbn [foldl]. by apply lift_tick with x x' ctx'.
    + apply Hok.
    + apply od_get_Some_elem in Hk. apply list_elem_of_fmap. by exists (k, (q, t)).
    + unfold lifted_at. rewrite Hk. cbn. by rewrite <-Hid, od_get_set_eq, Hst.
    + intros j _ Hj. unfold lifted_at. cbn. rewrite Hid, od_get_set_ne by done. destruct (od_get j (ds_quarantines s)) as [[q' t']|]; [|done].
      by destruct (qr_status q').
Qed.

Lemma streak_counts wl ctx ops w : store_ok (dv_store w) (dv_ext w) →
  consecutive_failures wl ctx (dv_store (run_ops ops w)) = foldl (tick wl ctx) (consecutive_failures wl ctx (dv_store w)) (log_of ops w).
Proof.
  revert w. induction ops as [|o ops IH]; intros w Hok; [done|]. simpl. rewrite foldl_app.
  rewrite <-(effect_ticks _ wl ctx _ (dv_ext w) (dv_ext (exec o w)) _ Hok (exec_effect o w)). apply IH.
  eapply effect_ok; [done|apply exec_effect].
Qed.

(** ** Theorems *)

(** The events that concern a workload, as a context sees them. *)
Definition concerns (wl : string) (ctx : TenantContext) (e : DriftEvent) : bool :=
  match e with
  | Evaluated a => scopes ctx (da_tenant_id a) && bool_decide (da_workload a = wl)
  | Lifted q => scopes ctx (qr_tenant_id q) && bool_decide (qr_workload q = wl)
  end.

Definition exceeding (e : DriftEvent) : bool := match e with Evaluated a => da_exceeded a | Lifted _ => false end.

(** The last [n] events that concern the workload are evaluations over a threshold. *)
Definition confirmed (wl : string) (ctx : TenantContext) (n : Z) (log : list DriftEvent) : Prop :=
  ∃ l1 l2, filter (λ e, concerns wl ctx e = true) log = l1 ++ l2 ∧ Z.of_nat (length l2) = n ∧ Forall (λ e, exceeding e = true) l2.

Lemma counter_confirms wl ctx log n : (0 ≤ n)%Z → (n ≤ counter wl ctx log)%Z ↔ confirmed wl ctx n log.
Proof.
  intros Hn. unfold counter. revert n Hn. induction log as [|e log IH] using rev_ind; intros n Hn.
  - cbn. split.
    + intros H. exists [], []. split_and!; [done|cbn; lia|done].
    + intros (l1 & l2 & [_ ->]%eq_sym%app_nil & <- & _). cbn. lia.
  - rewrite foldl_snoc. unfold confirmed. rewrite filter_app.
    assert (0 ≤ foldl (tick wl ctx) 0 log)%Z as Hpos by (apply IH; [done|]; exists (filter (λ e, concerns wl ctx e = true) log), []; by rewrite app_nil_r).
    destruct (concerns wl ctx e) eqn:Hc.
    2:{ rewrite (filter_cons_False _ e), filter_nil, app_nil_r by (by rewrite Hc). unfold concerns in Hc.
        destruct e; unfold tick; rewrite Hc; by apply IH. }
    rewrite (filter_cons_True _ e), filter_nil by done.
    destruct (exceeding e) eqn:He.
    + destruct e as [a|q]; [|done]. cbn in Hc, He. cbn [tick]. rewrite Hc, He. fold (tick wl ctx) in *. split.
      * intros H. destruct (decide (n = 0%Z)) as [->|Hne]; [exists (filter (λ e, concerns wl ctx e = true) log ++ [Evaluated a]), []; by rewrite app_nil_r|].
        assert (n - 1 ≤ foldl (tick wl ctx) 0 log)%Z as H' by lia. apply (IH (n - 1)%Z ltac:(lia)) in H' as (l1 & l2 & H1 & H2 & H3).
        exists l1, (l2 ++ [Evaluated a]). rewrite H1, app_assoc, length_app. split_and!; [done|cbn; lia|]. apply Forall_app. by split; [|apply Forall_singleton].
      * intros (l1 & l2 & H1 & H2 & H3). destruct l2 as [|e' l2 _] using rev_ind; [cbn in H2; lia|]. rewrite app_assoc in H1.
        apply app_inj_tail in H1 as [H1 <-]. rewrite length_app in H2. cbn in H2. apply Forall_app in H3 as [H3 _].
        enough (n - 1 ≤ foldl (tick wl ctx) 0 log)%Z by lia. apply (IH (n - 1)%Z ltac:(lia)). exists l1, l2. split_and!; [done|lia|done].
    + assert (tick wl ctx (foldl (tick wl ctx) 0%Z log) e = 0%Z) as -> by (destruct e; cbn in Hc, He; unfold tick; rewrite Hc; [by rewrite He|done]). split.
      * intros H. exists (filter (λ e, concerns wl ctx e = true) log ++ [e]), []. rewrite app_nil_r. split_and!; [done|cbn; lia|done].
      * intros (l1 & l2 & H1 & H2 & H3). destruct l2 as [|e' l2 _] using rev_ind; [cbn in H2; lia|]. rewrite app_assoc in H1.
        apply app_inj_tail in H1 as [_ <-]. apply Forall_app in H3 as [_ H3]. apply Forall_inv in H3. congruence.
Qed.

Lemma drift_evaluate_inv wl cur att actor ctx sets (w w' : World) a : Drift.evaluate env wl cur att actor ctx sets w = (Ret a, w') →
  assessment_valid a = true ∧ ∃ base id tenant now,
    a = assess (de_detector env) wl base cur id (consecutive_failures wl ctx (dv_store w) + 1) tenant sets now.
Proof.
  unfold Drift.evaluate. intros (b & w1 & Hb & H)%bind_inv. apply (quiet_run _ _ _ _ (quiet_baseline ctx wl)) in Hb as [Hs _].
  apply bind_inv in H as (s & w2 & [= <- <-] & H). apply bind_inv in H as (now & w3 & _ & H). cbn zeta in H.
  destruct (assessment_valid _) eqn:Hv; [|done]. apply bind_inv in H as (u & w4 & _ & H). apply bind_inv in H as (u' & w5 & _ & H).
  injection H as <- _. split; [done|]. rewrite <-Hs. by eexists _, _, _, _.
Qed.

(** While the clock advances between readings, the order of the calls is the order of
    the evaluations: one asks for a quarantine exactly when it exceeds a threshold
    and either carries a strong signal or ends an unbroken run of the required
    number of exceeding evaluations of that workload, unbroken also by
    reinstatements. *)
Lemma quarantine_confirmed_in_order ops w0 wl cur att actor ctx sets a w' :
  dv_store w0 = empty_drift → evaluate env wl cur att actor ctx sets (run_ops ops w0) = (Ret a, w') →
  da_should_quarantine a = true ↔
  da_exceeded a = true ∧
  (da_strong_signal a = true ∨ confirmed wl ctx (dd_required_consecutive_failures (de_detector env) - 1) (log_of ops w0)).
Proof.
  intros H0 He. apply drift_evaluate_inv in He as (Hv & base & id & tenant & now & ->).
  assert (store_ok (dv_store w0) (dv_ext w0)) as Hok by (rewrite H0; apply empty_ok).
  rewrite (streak_counts wl ctx ops w0 Hok), H0. change (consecutive_failures wl ctx empty_drift) with 0%Z. fold (counter wl ctx (log_of ops w0)).
  assert (1 ≤ dd_required_consecutive_failures (de_detector env))%Z as Hreq.
  { unfold assessment_valid in Hv. rewrite !andb_true_iff in Hv. cbn in Hv. destruct Hv as [[[_ H%Z.leb_le] _] _]. done. }
  rewrite <-counter_confirms by lia. unfold assess. cbn zeta. cbn [da_should_quarantine da_exceeded da_strong_signal].
  rewrite andb_true_iff, orb_true_iff, Z.leb_le. assert (∀ x y : Z, (x ≤ y + 1 ↔ x - 1 ≤ y)%Z) as -> by lia. tauto.
Qed.

End History.

(** ** Whatever the clock does *)

Section Recorded.
Context {W X : Type} `{!FleetApi W}.
Variable env : Drift.Env X.

Abbreviation World := (Drift.World W X).
Abbreviation DM := (M World DriftExn).

Definition same_store (w w' : World) : Prop := dv_store w' = dv_store w.
#[local] Instance same_store_preorder : PreOrder same_store.
Proof. split; [by intros w|]. intros a b c H1 H2. by transitivity (dv_store b). Qed.

(** Assessments are only added, and no quarantine is lifted. *)
Definition recorded (w w' : World) : Prop :=
  (∃ l, ds_assessments (dv_store w') = ds_assessments (dv_store w) ++ ((λ a, (a, da_tenant_id a)) <$> l)) ∧
  ∀ id q t, od_get id (ds_quarantines (dv_store w')) = Some (q, t) → qr_status q = Q_REINSTATED → od_get id (ds_quarantines (dv_store w)) = Some (q, t).
#[local] Instance recorded_preorder : PreOrder recorded.
Proof.
  split; [intros w; split; [exists []; by rewrite app_nil_r|done]|].
  intros a b c [[l1 H1] H2] [[l2 H3] H4]. split; [|by auto]. exists (l1 ++ l2). by rewrite H3, H1, fmap_app, app_assoc.
Qed.

Lemma same_recorded w w' : same_store w w' → recorded w w'.
Proof. unfold same_store, recorded. intros ->. split; [exists []; by rewrite app_nil_r|done]. Qed.
Lemma keeps_same_recorded {A} (m : DM A) : keeps same_store m → keeps recorded m.
Proof. intros H w. apply same_recorded, H. Qed.

Lemma recorded_ext {A} (f : X → A * X) : keeps same_store (Drift.on_ext (W := W) f).
Proof. intros w. unfold Drift.on_ext. by destruct (f (dv_ext w)). Qed.
Lemma recorded_ext_exn {A} (f : X → (DriftExn + A) * X) : keeps same_store (Drift.on_ext_exn (W := W) f).
Proof. intros w. unfold Drift.on_ext_exn. by destruct (f (dv_ext w)). Qed.
Lemma same_fleet {A} (m : M W RegistryExn A) : keeps same_store (on_fleet (X := X) m).
Proof. intros w. unfold on_fleet. by destruct (m (dv_fleet w)). Qed.
Lemma recorded_audit a b c d ctx : keeps same_store (Drift.audit (W := W) env a b c d ctx).
Proof. unfold Drift.audit. destruct (de_audit env); [apply recorded_ext_exn|apply keeps_ret, _]. Qed.
Lemma same_deliver n m l : keeps same_store (deliver (W := W) (X := X) n m l).
Proof.
  induction l as [|f l IH]; simpl; [apply keeps_ret, _|]. destruct (od_get _ _); [|done].
  apply keeps_bind; [apply _|apply recorded_ext|intros ok]. apply keeps_bind; [apply _|done|intros; apply keeps_ret, _].
Qed.
Lemma same_notify n q owner : keeps same_store (notify_quarantine (W := W) env n q owner).
Proof. unfold notify_quarantine. destruct (dn_enabled n); [apply same_deliver|apply keeps_ret, _]. Qed.
Lemma same_emit q : keeps same_store (emit (W := W) env q).
Proof.
  unfold emit. destruct (de_event_sink env); [|apply keeps_ret, _]. apply keeps_bind; [apply _|apply recorded_ext|intros now].
  destruct (negb _); [apply keeps_raise, _|]. apply keeps_bind; [apply _|apply recorded_ext|intros; apply keeps_ret, _].
Qed.
Lemma same_cancel wl : keeps same_store (cancel (W := W) env wl).
Proof.
  unfold cancel. destruct (de_canceller env); [|apply keeps_ret, _]. destruct (de_cancel_in_flight env); [apply recorded_ext_exn|apply keeps_ret, _].
Qed.
Lemma same_baseline_record ctx wl : keeps same_store (Drift.baseline_record (X := X) ctx wl).
Proof. apply keeps_bind; [apply _|apply same_fleet|intros; apply keeps_ret, _]. Qed.
Lemma same_baseline ctx wl : keeps same_store (baseline (X := X) ctx wl).
Proof. apply keeps_bind; [apply _|apply same_baseline_record|]. intros [r|]; [apply keeps_ret, _|apply keeps_raise, _]. Qed.

Lemma keeps_bind_post {A B} (R : World → World → Prop) `{!PreOrder R} (m : DM A) (k : A → DM B) (P : A → Prop) :
  keeps R m → (∀ w a w', m w = (Ret a, w') → P a) → (∀ a, P a → keeps R (k a)) → keeps R (bind m k).
Proof.
  intros Hm HP Hk w. specialize (Hm w). unfold bind. destruct (m w) as [[a|e] w1] eqn:Heq; [|done]. etrans; [exact Hm|].
  apply Hk. by eapply HP.
Qed.

Lemma recorded_open q ctx : qr_status q = Q_ACTIVE → keeps recorded (add_quarantine (W := W) (X := X) q ctx).
Proof.
  intros Hq w. rewrite add_quarantine_run. destruct (scopes ctx (qr_tenant_id q)); [|by apply same_recorded].
  split; [exists []; by rewrite app_nil_r|]. intros id q' t. cbn. rewrite od_get_set. case_decide; [|done]. intros [= <- _]. congruence.
Qed.
Lemma recorded_assessment a ctx : keeps recorded (add_assessment (W := W) (X := X) a ctx).
Proof.
  intros w. unfold add_assessment, require, bind. destruct (scopes ctx (da_tenant_id a)); [|by apply same_recorded]. split; [by exists [a]|done].
Qed.

Lemma recorded_open_quarantine record wl reason a diff sev actor ctx : keeps recorded (open_quarantine env record wl reason a diff sev actor ctx).
Proof.
  unfold open_quarantine. apply keeps_bind; [apply _|apply keeps_same_recorded, same_fleet|intros _].
  apply keeps_bind; [apply _|apply keeps_same_recorded, same_cancel|intros cancelled].
  apply keeps_bind; [apply _|apply keeps_same_recorded, recorded_ext|intros id]. apply keeps_bind; [apply _|apply keeps_same_recorded, recorded_ext|intros now].
  cbn zeta. destruct (quarantine_valid _); [|apply keeps_raise, _].
  apply (keeps_bind_post _ _ _ (λ q, qr_status q = Q_ACTIVE)).
  - destruct (de_notifier env); [|apply keeps_ret, _]. apply keeps_bind; [apply _|apply keeps_same_recorded, same_notify|intros; apply keeps_ret, _].
  - intros w q w'. destruct (de_notifier env); [|by intros [= <- _]]. by intros (l & w1 & _ & [= <- _])%bind_inv.
  - intros q Hq. apply keeps_bind; [apply _|by apply recorded_open|intros _]. apply keeps_same_recorded.
    apply keeps_bind; [apply _|apply recorded_audit|intros _]. apply keeps_bind; [apply _|apply same_emit|intros _]. apply keeps_ret, _.
Qed.

Lemma recorded_quarantine wl reason a diff sev actor ctx : keeps recorded (quarantine env wl reason a diff sev actor ctx).
Proof.
  unfold quarantine. apply keeps_bind; [apply _|apply keeps_same_recorded, same_fleet|intros record].
  apply keeps_bind; [apply _|apply keeps_gets, _|intros s].
  destruct (if bool_decide _ then _ else None); [apply keeps_ret, _|apply recorded_open_quarantine].
Qed.

Lemma recorded_evaluate wl cur att actor ctx sets : keeps recorded (evaluate env wl cur att actor ctx sets).
Proof.
  unfold evaluate. apply keeps_bind; [apply _|apply keeps_same_recorded, same_baseline|intros b].
  apply keeps_bind; [apply _|apply keeps_gets, _|intros s]. apply keeps_bind; [apply _|apply keeps_same_recorded, recorded_ext|intros now].
  cbn zeta. destruct (assessment_valid _); [|apply keeps_raise, _]. apply keeps_bind; [apply _|apply recorded_assessment|intros _].
  apply keeps_bind; [apply _| |intros _; apply keeps_ret, _]. case_match; [|apply keeps_ret, _].
  apply keeps_bind; [apply _|apply recorded_quarantine|intros _; apply keeps_ret, _].
Qed.

Lemma put_then_same {A} q ctx (k : unit → DM A) w : (∀ u, keeps same_store (k u)) →
  let w' := (bind (add_quarantine q ctx) k w).2 in dv_store w' = dv_store w ∨ dv_store w' = put_quarantine q (dv_store w).
Proof.
  intros Hk w'. subst w'. unfold bind. rewrite add_quarantine_run. destruct (scopes ctx (qr_tenant_id q)); [right|by left].
  exact (Hk tt (mkWorld (put_quarantine q (dv_store w)) (dv_fleet w) (dv_ext w))).
Qed.

(** A reinstatement leaves the store as it was, or lifts the quarantine in force of a
    workload that is admitted again. *)
Lemma reinstate_cases wl operator corpus model ctx w :
  let w' := (reinstate env wl operator corpus model ctx w).2 in
  dv_store w' = dv_store w ∨
  ∃ q now, active_quarantine wl ctx (dv_store w) = Some q ∧ readmitted wl corpus model ctx (dv_fleet w) ∧
    dv_store w' = put_quarantine (as_reinstated q now operator) (dv_store w).
Proof.
  intros w'. assert (w' = (reinstate env wl operator corpus model ctx w).2) as Hw by done. clearbody w'. revert Hw.
  unfold reinstate. unfold bind at 1, gets. unfold bind at 1, of_option.
  destruct (active_quarantine wl ctx (dv_store w)) as [q|] eqn:Hq; [|intros ->; by left]. cbn [ret].
  match goal with |- context [bind (on_fleet ?m) ?k ?w0] => destruct (on_fleet_cases m k w0) as [(c0 & g1 & H1 & ->)|(c0 & g1 & H1 & ->)] end; [intros ->; by left|].
  match goal with |- context [bind (on_fleet ?m) ?k ?w0] => destruct (on_fleet_cases m k w0) as [(c & g2 & H2 & ->)|(c & g2 & H2 & ->)] end; [intros ->; by left|].
  cbn [dv_fleet dv_store dv_ext] in *. cbn zeta. destruct (negb _) eqn:Hst; [intros ->; by left|].
  match goal with |- context [bind (on_fleet ?m) ?k ?w0] => destruct (on_fleet_cases m k w0) as [(d & g3 & H3 & ->)|(d & g3 & H3 & ->)] end; [intros ->; by left|].
  cbn [dv_fleet dv_store dv_ext] in *. destruct (negb (ad_admitted d)) eqn:Had; [intros ->; by left|].
  unfold bind at 1, Drift.on_ext at 1. cbn [dv_ext dv_store dv_fleet]. destruct (de_clock env (dv_ext w)) as [now x2]. cbn zeta.
  match goal with |- context [bind (add_quarantine ?q ctx) ?k ?w0] => destruct (put_then_same q ctx k w0) as [H|H] end.
  { intros u. apply keeps_bind; [apply _|apply recorded_audit|intros _; apply keeps_ret, _]. }
  { intros ->. by left. }
  intros ->. right. exists q, now. split; [done|]. split; [|exact H]. exists c0, g1, c, g2, d, g3.
  split; [exact H1|]. split; [exact H2|]. split; [|split; [exact H3|by apply negb_false_iff in Had]].
  apply negb_false_iff, orb_true_iff in Hst as [H'%bool_decide_eq_true|H'%bool_decide_eq_true]; [by left|by right].
Qed.

Lemma exec_recorded o w : reinstates o = false → recorded w (exec env o w).
Proof.
  destruct o; cbn; try done; intros _.
  - apply recorded_evaluate.
  - unfold probe_and_evaluate. revert w. change (keeps recorded (bind (on_fleet (fa_benchmark ctx workload target_context corpus_ref model_identity)) (λ result,
      let* b := Drift.baseline_record ctx workload in
      evaluate env workload (to_eval_summary result) None actor ctx
        (mkSets ((λ r, list_to_set (tr_task_id <$> br_tasks (cr_benchmark_result r))) <$> b)
                ((λ r, failed_ids (br_tasks (cr_benchmark_result r))) <$> b) (Some (failed_ids (br_tasks result))))))).
    apply keeps_bind; [apply _|apply keeps_same_recorded, same_fleet|intros result].
    apply keeps_bind; [apply _|apply keeps_same_recorded, same_baseline_record|intros b]. apply recorded_evaluate.
  - apply recorded_quarantine.
Qed.
Lemma exec_lifts o w id q t :
  od_get id (ds_quarantines (dv_store (exec env o w))) = Some (q, t) → qr_status q = Q_REINSTATED →
  od_get id (ds_quarantines (dv_store w)) = Some (q, t) ∨
  ∃ wl operator corpus model ctx q0 now, o = OReinstate wl operator corpus model ctx ∧
    active_quarantine wl ctx (dv_store w) = Some q0 ∧ q = as_reinstated q0 now operator ∧ readmitted wl corpus model ctx (dv_fleet w).
Proof.
  intros Hg Hst. destruct (reinstates o) eqn:Hr; [|left; by apply (exec_recorded o w Hr)].
  destruct o as [| | |wl operator corpus model ctx]; try done.
  pose proof (reinstate_cases wl operator corpus model ctx w) as Hw. cbn zeta in Hw.
  change (reinstate env wl operator corpus model ctx w).2 with (exec env (OReinstate wl operator corpus model ctx) w) in Hw.
  destruct Hw as [H|(q0 & now & Hq0 & Hre & H)]; rewrite H in Hg; [by left|].
  cbn in Hg. rewrite od_get_set in Hg. case_decide; [|by left]. injection Hg as <- _. right.
  by exists wl, operator, corpus, model, ctx, q0, now.
Qed.

Lemma run_lifts ops w id q t :
  od_get id (ds_quarantines (dv_store (run_ops env ops w))) = Some (q, t) → qr_status q = Q_REINSTATED →
  od_get id (ds_quarantines (dv_store w)) = Some (q, t) ∨
  ∃ l1 wl operator corpus model ctx l2 q0 now, ops = l1 ++ OReinstate wl operator corpus model ctx :: l2 ∧
    let w1 := run_ops env l1 w in
    active_quarantine wl ctx (dv_store w1) = Some q0 ∧ q = as_reinstated q0 now operator ∧ readmitted wl corpus model ctx (dv_fleet w1).
Proof.
  revert w. induction ops as [|o ops IH]; intros w Hg Hst; [by left|]. simpl in Hg.
  destruct (IH (exec env o w)) as [H|(l1 & wl & operator & corpus & model & ctx & l2 & q0 & now & -> & H)]; [done|done| |].
  - apply exec_lifts in H as [H|(wl & operator & corpus & model & ctx & q0 & now & -> & H)]; [by left| |done].
    right. by exists [], wl, operator, corpus, model, ctx, ops, q0, now.
  - right. by exists (o :: l1), wl, operator, corpus, model, ctx, l2, q0, now.
Qed.

(** C20: Whatever evaluations, probes, quarantines and reinstatements ran from an empty
    store, and whatever clocks, identifiers, notices and audit did meanwhile, a
    quarantine on record as lifted was lifted by a reinstatement of its workload
    that certified the workload afresh, for staging and for production, to an
    admissible status, and found it admitted to production again; it is the
    quarantine that was in force, with the time and the operator of the lifting
    added. *)
Theorem lifted_only_readmitted ops w0 id q t :
  dv_store w0 = empty_drift → od_get id (ds_quarantines (dv_store (run_ops env ops w0))) = Some (q, t) → qr_status q = Q_REINSTATED →
  ∃ l1 wl operator corpus model ctx l2 q0 now, ops = l1 ++ OReinstate wl operator corpus model ctx :: l2 ∧
    let w1 := run_ops env l1 w0 in
    active_quarantine wl ctx (dv_store w1) = Some q0 ∧ q = as_reinstated q0 now operator ∧ readmitted wl corpus model ctx (dv_fleet w1).
Proof.
  intros H0 Hg Hst. destruct (run_lifts ops w0 id q t Hg Hst) as [H|H]; [|done]. by rewrite H0 in H.
Qed.

(** The assessments the calls put on record, in their order. *)
Fixpoint assessments_of (ops : list Op) (w : World) : list DriftAssessment :=
  match ops with
  | [] => []
  | o :: ops => (drop (length (ds_assessments (dv_store w))) (ds_assessments (dv_store (exec env o w)))).*1 ++ assessments_of ops (exec env o w)
  end.

Lemma exec_assessments o w : ∃ l,
  ds_assessments (dv_store (exec env o w)) = ds_assessments (dv_store w) ++ ((λ a, (a, da_tenant_id a)) <$> l).
Proof.
  destruct (reinstates o) eqn:Hr; [|apply (exec_recorded o w Hr)]. exists []. rewrite app_nil_r. destruct o as [| | |wl operator corpus model ctx]; try done.
  destruct (reinstate_cases wl operator corpus model ctx w) as [H|(q0 & now & _ & _ & H)]; cbn in *; by rewrite H.
Qed.

Lemma run_assessments ops w :
  ds_assessments (dv_store (run_ops env ops w)) = ds_assessments (dv_store w) ++ ((λ a, (a, da_tenant_id a)) <$> assessments_of ops w).
Proof.
  revert w. induction ops as [|o ops IH]; intros w; cbn [assessments_of]; [by rewrite app_nil_r|]. cbn [run_ops foldl]. fold (run_ops env ops (exec env o w)).
  rewrite IH. destruct (exec_assessments o w) as [l Hl]. rewrite Hl, <-app_assoc, drop_app_length, fmap_app.
  assert (((λ a, (a, da_tenant_id a)) <$> l).*1 = l) as ->; [|done]. induction l as [|a l IHl]; [done|]. cbn. f_equal. clear -l. induction l as [|a l IHl]; [done|]. cbn. by f_equal.
Qed.

(** The assessments of a workload that a context sees and that come after every
    reinstatement on record, in the order of their instants. *)
Definition since_lifted (wl : string) (ctx : TenantContext) (s : DriftStore) (l : list DriftAssessment) : list DriftAssessment :=
  filter (λ a, forallb (λ q, from_option (λ b, b <? da_timestamp a)%Z true (qr_reinstated_at q)) (list_quarantines (Some wl) None ctx s) = true)
    (py_sort (at_leb da_timestamp da_workload) (filter (λ a, scopes ctx (da_tenant_id a) = true ∧ da_workload a = wl) l)).

Lemma since_lifted_eq wl ctx s l : ds_assessments s = (λ a, (a, da_tenant_id a)) <$> l →
  consecutive_failures wl ctx s = trailing_exceeded (since_lifted wl ctx s l).
Proof.
  intros Hl. unfold consecutive_failures, latest_reinstatement, list_assessments, since_lifted. rewrite after_boundary. f_equal.
  assert (fst <$> filter (λ e, scopes ctx e.2 && bool_decide (da_workload e.1 = wl) = true) (ds_assessments s)
          = filter (λ a, scopes ctx (da_tenant_id a) = true ∧ da_workload a = wl) l) as ->.
  { rewrite Hl. clear Hl. induction l as [|a l IH]; [done|]. cbn [fmap list_fmap]. rewrite !filter_cons. cbn [fst snd].
    destruct (decide (scopes ctx (da_tenant_id a) = true ∧ da_workload a = wl)) as [[H1 H2]|H].
    - rewrite decide_True by (by rewrite H1, bool_decide_eq_true_2). cbn. by f_equal.
    - rewrite decide_False; [exact IH|]. intros [H1 H2%bool_decide_eq_true]%andb_true_iff. by apply H. }
  apply list_filter_iff. intros a. generalize (list_quarantines (Some wl) None ctx s). intros qs. apply eq_iff_eq_true.
  induction qs as [|q qs IH]; [done|]. cbn. destruct (qr_reinstated_at q) as [b|]; cbn; [by rewrite <-IH|exact IH].
Qed.

(** The last [n] of them exceed a threshold. *)
Definition ends_exceeding (n : Z) (l : list DriftAssessment) : Prop :=
  ∃ l1 l2, l = l1 ++ l2 ∧ Z.of_nat (length l2) = n ∧ Forall (λ a, da_exceeded a = true) l2.

Lemma trailing_ends l n : (0 ≤ n)%Z → (n ≤ trailing_exceeded l)%Z ↔ ends_exceeding n l.
Proof.
  revert n. induction l as [|a l IH] using rev_ind; intros n Hn.
  - cbn. split; [intros H; exists [], []; split_and!; [done|cbn; lia|done]|]. intros (l1 & l2 & [_ ->]%eq_sym%app_nil & <- & _). cbn. lia.
  - rewrite trailing_snoc. assert (0 ≤ trailing_exceeded l)%Z as Hpos by (apply IH; [done|]; exists l, []; by rewrite app_nil_r).
    destruct (decide (n = 0%Z)) as [->|Hne].
    { split; [intros _; exists (l ++ [a]), []; by rewrite app_nil_r|]. intros _. destruct (da_exceeded a); lia. }
    split.
    + destruct (da_exceeded a) eqn:He; [|lia]. intros H. destruct (proj1 (IH (n - 1)%Z ltac:(lia)) ltac:(lia)) as (l1 & l2 & -> & H2 & H3).
      exists l1, (l2 ++ [a]). rewrite app_assoc, length_app. split_and!; [done|cbn; lia|]. apply Forall_app. by split; [|apply Forall_singleton].
    + intros (l1 & l2 & H1 & H2 & H3). destruct l2 as [|a' l2 _] using rev_ind; [cbn in H2; lia|]. rewrite app_assoc in H1.
      apply app_inj_tail in H1 as [-> <-]. rewrite length_app in H2. cbn in H2. apply Forall_app in H3 as [H3 Ha%Forall_inv]. rewrite Ha.
      enough (n - 1 ≤ trailing_exceeded (l1 ++ l2))%Z by lia. apply IH; [lia|]. exists l1, l2. split_and!; [done|lia|done].
Qed.

(** C19: No quarantine on one flaky evaluation: whatever evaluations, probes,
    quarantines and reinstatements came before (failed ones included, for any
    workloads and tenants), and whatever the clock and the other surroundings did,
    an evaluation asks for a quarantine exactly when it exceeds a threshold and
    either carries a strong signal or finds the required number less one of
    exceeding evaluations at the end of those on record: the evaluations of that
    workload that came after every reinstatement of it on record, in the order of
    their timestamps. *)
Theorem drift_quarantine_confirmed ops w0 wl cur att actor ctx sets a w' :
  dv_store w0 = empty_drift → let w := run_ops env ops w0 in evaluate env wl cur att actor ctx sets w = (Ret a, w') →
  da_should_quarantine a = true ↔
  da_exceeded a = true ∧
  (da_strong_signal a = true ∨
   ends_exceeding (dd_required_consecutive_failures (de_detector env) - 1) (since_lifted wl ctx (dv_store w) (assessments_of ops w0))).
Proof.
  intros H0 w He. apply (drift_evaluate_inv env (λ _ _, False)) in He as (Hv & base & id & tenant & now & ->).
  pose proof (run_assessments ops w0) as Hl. rewrite H0 in Hl. cbn in Hl. fold w in Hl.
  rewrite (since_lifted_eq wl ctx _ _ Hl).
  assert (1 ≤ dd_required_consecutive_failures (de_detector env))%Z as Hreq.
  { unfold assessment_valid in Hv. rewrite !andb_true_iff in Hv. cbn in Hv. destruct Hv as [[[_ H%Z.leb_le] _] _]. done. }
  rewrite <-trailing_ends by lia. unfold assess. cbn zeta. cbn [da_should_quarantine da_exceeded da_strong_signal].
  rewrite andb_true_iff, orb_true_iff, Z.leb_le. assert (∀ x y : Z, (x ≤ y + 1 ↔ x - 1 ≤ y)%Z) as -> by lia. tauto.
Qed.
End Recorded.
