(* ===== verification/DriftFleet.v ===== *)
(** * Drift over the registry and the certification coordinator

    What the drift services rely on of a fleet ([FleetLaws]), the registry
    with its coordinator as such a fleet, and what quarantining and
    scheduling do over any of them. *)

From stdpp Require Import base strings pretty numbers gmap sets sorting list.
From S2P Require Import Prelude Text Float64 Rounding Calendar Tenancy CoreModels Canonical Conflict Manifest Certification Registry Promotion Drift DriftHistory.

#[local] Open Scope hp_scope.

Class FleetLaws (W : Type) `{!FleetApi W} := {
  fl_ok : W → Prop;
  fl_workload : W → TenantContext → string → option WorkloadRecord;
  fl_get ctx n g : fa_get ctx n g = (match fl_workload g ctx n with Some r => Ret r | None => Raise (WorkloadNotFoundError n) end, g);
  fl_list ctx g : fl_ok g → ∃ l, fa_list_workloads ctx g = (Ret l, g) ∧ ∀ n, n ∈ wr_name <$> l ↔ is_Some (fl_workload g ctx n);
  fl_quarantine ctx n g r g' : fl_ok g → fa_quarantine ctx n g = (Ret r, g') →
    wr_certification_status r = QUARANTINED ∧ fl_workload g' ctx n = Some r;
  fl_admission ctx n c g d g' : c ≠ SANDBOX → fa_check_admission ctx n c g = (Ret d, g') → ad_admitted d = true →
    ∃ r, fl_workload g ctx n = Some r ∧ wr_certification_status r ≠ QUARANTINED;
}.

(** ** The registry and its coordinator *)

Section Fleet.
Variables (sha256 : string → string) (float_repr : f64 → string) (dump_time : Z → string) (fmt_cost : f64 → string).
Context {Key Pub X : Type}.
Variables (sign : Key → string → string) (verify : Pub → string → string → bool) (clock : X → Z * X).
Variable cfg : RegistryConfig (Key := Key) (Pub := Pub).
Variable sv : ServiceConfig (Key := Key) (X := X).
Variable co : CoordinatorConfig (X := X).
Variables (value_repr : JsonValue → string) (names_repr : list string → string).

Definition FleetState : Type := (Registry.World (X := X) * CertificationStore)%type.

Definition of_registry {A} (m : Reg (X := X) A) : M FleetState RegistryExn A := λ w, let '(o, r) := m w.1 in (o, (r, w.2)).

(** The coordinator's [certify] with its record store. *)
Definition coordinator_certify (ctx : TenantContext) (workload : string) (t : TargetContext) (corpus_ref model_identity : option string)
    : M FleetState RegistryExn CertificationRecord :=
  λ w, match certify sha256 float_repr dump_time fmt_cost sign verify clock cfg sv co value_repr names_repr ctx w.2 workload t corpus_ref
                     model_identity FULL w.1 with
       | (Ret (c, records), r) => (Ret c, (r, records))
       | (Raise e, r) => (Raise e, (r, w.2))
       end.

#[export] Instance registry_fleet : FleetApi FleetState := {|
  fa_get ctx n := of_registry (Registry.get ctx n);
  fa_list_workloads ctx := of_registry (list_workloads ctx None None None None "name" false None 0);
  fa_quarantine ctx n := of_registry (Registry.quarantine clock ctx n);
  fa_check_admission ctx n c := of_registry (check_admission sha256 float_repr dump_time verify clock cfg ctx n c);
  fa_records ctx n := λ w, (Ret (certification_list ctx (Some n) None None 0 w.2), w);
  fa_certify := coordinator_certify;
  fa_benchmark ctx n _ corpus_ref model_identity := of_registry (benchmark sha256 co value_repr names_repr ctx n corpus_ref model_identity);
|}.

Definition names_ok (w : FleetState) : Prop :=
  od_wf (rg_workloads w.1.1) ∧ ∀ k r, od_get k (rg_workloads w.1.1) = Some r → wr_name r = k.

Lemma listed_names ctx (w : FleetState) : names_ok w →
  ∃ l, of_registry (list_workloads ctx None None None None "name" false None 0) w = (Ret l, w) ∧
    ∀ n, n ∈ wr_name <$> l ↔ is_Some (get_workload w.1.1 ctx n).
Proof.
  intros [Hwf Hn]. destruct w as [[s x] records]. cbn in Hwf, Hn.
  exists (py_sort (λ a b, str_leb (wr_name a) (wr_name b)) (filter (λ r, true = true) (store_list_workloads s ctx))). split; [done|].
  intros n. rewrite list_elem_of_fmap. setoid_rewrite py_sort_perm. setoid_rewrite list_elem_of_filter. unfold store_list_workloads.
  setoid_rewrite list_elem_of_filter. cbn. split.
  - intros (r & -> & _ & Hs & [k Hk]%od_value_get); [|done]. rewrite (Hn _ _ Hk). exists r. by apply get_workload_get.
  - intros [r [Hk Hs]%get_workload_get]. exists r. rewrite (Hn _ _ Hk). split_and!; [done..|]. by apply od_get_value in Hk.
Qed.

Lemma quarantine_status ctx n (w : FleetState) r w' : names_ok w → of_registry (Registry.quarantine clock ctx n) w = (Ret r, w') →
  wr_certification_status r = QUARANTINED ∧ get_workload w'.1.1 ctx n = Some r.
Proof.
  intros [_ Hn] H. destruct w as [[s x] records]. unfold of_registry in H. cbn in Hn, H.
  destruct (Registry.quarantine clock ctx n (s, x)) as [o w1] eqn:Hq. injection H as -> <-. unfold Registry.quarantine in Hq.
  apply bind_inv in Hq as (r0 & w2 & Hg & Hq). rewrite get_run in Hg. destruct (get_workload s ctx n) as [r0'|] eqn:Hr0; [|done]. injection Hg as <- <-.
  apply bind_inv in Hq as (t & w3 & Ht & Hq). apply Registry.now_inv in Ht as [-> _]. apply bind_inv in Hq as (u & w4 & Hsave & [= <- <-]).
  apply save_workload_inv in Hsave as [-> Hs]. apply get_workload_get in Hr0 as [Hr0 _]. split; [done|]. cbn.
  apply get_workload_get. cbn in *. rewrite <-(Hn _ _ Hr0) at 1. by rewrite od_get_set_eq.
Qed.

Lemma admitted_not_quarantined ctx n c (w : FleetState) d w' : c ≠ SANDBOX →
  of_registry (check_admission sha256 float_repr dump_time verify clock cfg ctx n c) w = (Ret d, w') → ad_admitted d = true →
  ∃ r, get_workload w.1.1 ctx n = Some r ∧ wr_certification_status r ≠ QUARANTINED.
Proof.
  intros Hc H Ha. destruct w as [[s x] records]. unfold of_registry in H. cbn in H.
  destruct (check_admission sha256 float_repr dump_time verify clock cfg ctx n c (s, x)) as [o w1] eqn:Hq. injection H as -> <-. cbn.
  destruct c; [done| |].
  - unfold check_admission in Hq. apply bind_inv in Hq as (r & w2 & Hg & [= <- <-]). rewrite get_run in Hg.
    destruct (get_workload s ctx n) as [r'|] eqn:Hr; [|done]. injection Hg as <- <-. exists r'. split; [done|]. intros E. by rewrite E in Ha.
  - apply check_production_inv in Hq as (r & Hr & _ & _ & Hadm). destruct (Hadm Ha) as (_ & _ & Hst & _). exists r. split; [done|].
    destruct Hst as [E|E]; by rewrite E.
Qed.

#[export] Instance registry_fleet_laws : FleetLaws FleetState.
Proof.
  refine {| fl_ok := names_ok; fl_workload w ctx n := get_workload w.1.1 ctx n |}.
  - intros ctx n [[s x] records]. cbn. unfold of_registry, Registry.get, bind, Registry.store, gets. cbn. by destruct (get_workload s ctx n).
  - intros ctx g. apply listed_names.
  - intros ctx n g r g'. apply quarantine_status.
  - intros ctx n c g d g'. apply admitted_not_quarantined.
Defined.
End Fleet.

(** ** What the services do over such a fleet *)

Lemma at_leb_le {A} (when : A → Z) id a b : at_leb when id a b = true → (when a ≤ when b)%Z.
Proof. unfold at_leb. case_bool_decide; [lia|]. by intros ?%Z.leb_le. Qed.

Lemma at_leb_total {A} (when : A → Z) id a b : at_leb when id a b = true ∨ at_leb when id b a = true.
Proof.
  unfold at_leb. destruct (decide (when a = when b)) as [E|E].
  - rewrite (bool_decide_eq_true_2 (when a = when b)), (bool_decide_eq_true_2 (when b = when a)) by congruence. unfold str_leb. rewrite (String.compare_antisym (id b) (id a)).
    destruct (String.compare (id a) (id b)); simpl; auto.
  - rewrite (bool_decide_eq_false_2 (when a = when b)), (bool_decide_eq_false_2 (when b = when a)) by congruence. rewrite !Z.leb_le. lia.
Qed.

Lemma sorted_last {A} (when : A → Z) l y x : StronglySorted (λ a b, (when a ≤ when b)%Z) l → last l = Some y → x ∈ l → (when x ≤ when y)%Z.
Proof.
  intros Hs Hl Hx. apply last_Some in Hl as [l' ->]. apply elem_of_app in Hx as [Hx|Hx]; [|by apply list_elem_of_singleton in Hx as ->].
  induction l' as [|z l' IH]; [by apply elem_of_nil in Hx|]. apply StronglySorted_inv in Hs as [Hs Hf].
  apply elem_of_cons in Hx as [->|Hx]; [|by apply IH]. rewrite Forall_forall in Hf. apply Hf. set_solver.
Qed.

(** The latest element of a list is the last one of the sorted list. *)
Lemma latest_last {A} (when : A → Z) id (l : list A) x :
  x ∈ l → (∀ y, y ∈ l → y = x ∨ (when y < when x)%Z) → last (py_sort (at_leb when id) l) = Some x.
Proof.
  intros Hx Hmax. destruct (last (py_sort (at_leb when id) l)) as [y|] eqn:Hl.
  - f_equal. assert (y ∈ l) as Hy by (apply last_Some_elem_of in Hl; by rewrite py_sort_perm in Hl).
    destruct (Hmax y Hy) as [->|Hlt]; [done|].
    enough (when x ≤ when y)%Z by lia. apply (sorted_last when (py_sort (at_leb when id) l)); [|done|by rewrite py_sort_perm].
    apply Sorted_StronglySorted; [intros a b c; lia|]. pose proof (py_sort_sorted (at_leb when id) l (at_leb_total when id)) as Hs.
    clear Hl Hlt. induction Hs as [|a l' _ IH Hd]; [constructor|]. constructor; [done|]. destruct Hd as [|b l'' Hab]; constructor. by apply at_leb_le in Hab.
  - apply last_None in Hl. rewrite <-(py_sort_perm (at_leb when id) l), Hl in Hx. by apply elem_of_nil in Hx.
Qed.

Section Laws.
Context {W X : Type} `{!FleetApi W, !FleetLaws W}.
Variables (env : Drift.Env X) (issued : X → string → Prop).
Hypothesis Hsu : surroundings env issued.

Abbreviation World := (Drift.World W X).

Lemma get_inv ctx n (w w' : World) r : on_fleet (fa_get ctx n) w = (Ret r, w') → w' = w ∧ fl_workload (dv_fleet w) ctx n = Some r.
Proof.
  unfold on_fleet. rewrite fl_get. destruct w as [s g x]. cbn. destruct (fl_workload g ctx n) as [r'|]; [|done]. by intros [= <- <-].
Qed.

(** The quarantine just opened is the one in force. *)
Lemma opened_in_force ctx (s : DriftStore) x x' q : store_ok env issued s x → opened env issued x x' q →
  scopes ctx (qr_tenant_id q) = true → active_quarantine (qr_workload q) ctx (put_quarantine q s) = Some q.
Proof.
  intros Hok (Ha & Hn & Hf & _ & Ht) Hsc. unfold active_quarantine, list_quarantines. apply latest_last.
  - apply list_elem_of_fmap. exists (q, qr_tenant_id q). split; [done|]. apply list_elem_of_filter. split.
    + cbn. by rewrite Hsc, Ha, bool_decide_eq_true_2.
    + eapply od_get_value, od_get_set_eq.
  - intros y Hy. apply list_elem_of_fmap in Hy as ([y' t] & -> & [_ Hy]%list_elem_of_filter). cbn in *.
    apply od_value_get in Hy as [k Hk]; [|by apply od_wf_set, Hok]. rewrite od_get_set in Hk. case_decide; [injection Hk as <- _; by left|right].
    destruct (ok_entry _ _ _ _ Hok _ _ _ Hk) as (_ & _ & _ & Hlt & _). lia.
Qed.

(** Quarantining a workload withdraws it: when the call returns, the
    workload is quarantined, neither staging nor production admits it, the
    returned record is active and in force, and asking again (for any reason,
    by anyone) changes nothing and returns that record. *)
Theorem quarantine_withdraws ops w0 wl reason assessment diff severity actor ctx q w' :
  dv_store w0 = empty_drift → let w := run_ops env ops w0 in fl_ok (dv_fleet w) →
  quarantine env wl reason assessment diff severity actor ctx w = (Ret q, w') →
  qr_workload q = wl ∧ qr_status q = Q_ACTIVE ∧ active_quarantine wl ctx (dv_store w') = Some q ∧
  (∃ r, fl_workload (dv_fleet w') ctx wl = Some r ∧ wr_certification_status r = QUARANTINED) ∧
  (∀ c d g, c ≠ SANDBOX → fa_check_admission ctx wl c (dv_fleet w') = (Ret d, g) → ad_admitted d = false) ∧
  (∀ reason' assessment' diff' severity' actor', quarantine env wl reason' assessment' diff' severity' actor' ctx w' = (Ret q, w')).
Proof.
  intros H0 w Hfl H. assert (store_ok env issued (dv_store w) (dv_ext w)) as Hok by (apply run_ok; [done|]; rewrite H0; apply empty_ok).
  assert (active_quarantine wl ctx (dv_store w') = Some q ∧ ∃ r, fl_workload (dv_fleet w') ctx wl = Some r ∧ wr_certification_status r = QUARANTINED)
    as [Hq (r & Hr & Hst)].
  { unfold quarantine in H. apply bind_inv in H as (r0 & w1 & [-> Hr0]%get_inv & H). apply bind_inv in H as (s & w1 & [= <- <-] & H).
    destruct (if bool_decide (wr_certification_status r0 = QUARANTINED) then _ else None) as [q'|] eqn:Hex.
    - injection H as -> <-. case_bool_decide; [|done]. split; [done|]. by exists r0.
    - apply (open_returns env issued Hsu) in H as (Hop & Hs & Hsc & Hwl & r & Hfq). apply fl_quarantine in Hfq as [Hst Hr]; [|done].
      split; [|by exists r]. rewrite Hs, <-Hwl. by apply opened_in_force with (dv_ext w) (dv_ext w'). }
  destruct (active_workload _ _ _ _ Hq) as (Hwl & Hact & _). split_and!; [done|done|done|by exists r| |].
  - intros c d g Hc Hd. destruct (ad_admitted d) eqn:Had; [|done]. apply fl_admission in Hd as (r' & Hr' & Hne); [|done|done].
    rewrite Hr in Hr'. by injection Hr' as <-.
  - intros. unfold quarantine, bind, on_fleet. rewrite fl_get, Hr. destruct w' as [s' g' x']. cbn in *. rewrite Hst. cbn. by rewrite Hq.
Qed.

End Laws.

(** ** What is due *)

Section Due.
Context {W X : Type} `{!FleetApi W, !FleetLaws W}.
Variable env : Drift.Env X.

Abbreviation World := (Drift.World W X).

Definition cadence (r : WorkloadRecord) : Z := from_option ce_re_cert_interval (de_default_interval env) (sp_certification (ma_spec (wr_manifest r))).
Definition next_run (r : WorkloadRecord) : Z :=
  (default (wr_created_at r) (sp_certification (ma_spec (wr_manifest r)) ≫= ce_certified_at) + cadence r * 1000000)%Z.
Definition expires (r : WorkloadRecord) : option Z := sp_certification (ma_spec (wr_manifest r)) ≫= ce_expires_at.

(** A workload whose schedule can be computed. *)
Definition schedulable (n : string) (r : WorkloadRecord) : Prop :=
  n ≠ EmptyString ∧ dt_in_range (next_run r) = true ∧ (1 ≤ cadence r)%Z.

Definition due_at (now : Z) (r : WorkloadRecord) : Prop := (next_run r ≤ now)%Z ∨ ∃ e, expires r = Some e ∧ (e ≤ now)%Z.

Lemma schedule_run n ctx (w : World) :
  (∃ r c, fl_workload (dv_fleet w) ctx n = Some r ∧ schedulable n r ∧ schedule env n ctx w = (Ret c, w) ∧
     dc_workload c = n ∧ dc_next_re_cert_run c = next_run r ∧ dc_expires_at c = expires r) ∨
  ((∀ r, fl_workload (dv_fleet w) ctx n = Some r → ¬ schedulable n r) ∧ ∃ e, schedule env n ctx w = (Raise e, w)).
Proof.
  unfold schedule, bind, on_fleet. rewrite fl_get. destruct w as [s g x]. cbn [dv_fleet dv_store dv_ext].
  destruct (fl_workload g ctx n) as [r|] eqn:Hr; [|right; split; [done|by eexists]]. cbn zeta.
  fold (cadence r). fold (expires r). fold (next_run r). destruct (dt_in_range (next_run r)) eqn:Hin; cbn [negb].
  2:{ right. split; [|by eexists]. intros r' [= <-] (_ & H & _). congruence. }
  unfold schedule_valid. cbn [dc_workload dc_interval_seconds]. destruct (bool_decide (n ≠ EmptyString) && (1 <=? cadence r)%Z) eqn:Hv.
  - apply andb_true_iff in Hv as [H1%bool_decide_eq_true H2%Z.leb_le]. left. by eexists r, _.
  - right. split; [|by eexists]. intros r' [= <-] (H1 & _ & H2). apply andb_false_iff in Hv as [H%bool_decide_eq_false|H%Z.leb_gt]; [done|lia].
Qed.

Lemma schedule_all_run ctx names (w : World) :
  (∃ l, schedule_all env ctx names w = (Ret l, w) ∧
     Forall2 (λ n c, ∃ r, fl_workload (dv_fleet w) ctx n = Some r ∧ schedulable n r ∧ dc_workload c = n ∧ dc_next_re_cert_run c = next_run r ∧
                          dc_expires_at c = expires r) names l) ∨
  ((∃ n, n ∈ names ∧ ∀ r, fl_workload (dv_fleet w) ctx n = Some r → ¬ schedulable n r) ∧ ∃ e, schedule_all env ctx names w = (Raise e, w)).
Proof.
  induction names as [|n names IH]; simpl; [left; by exists []|].
  destruct (schedule_run n ctx w) as [(r & c & Hr & Hok & Hs & H1 & H2 & H3)|(Hno & e & Hs)].
  - unfold bind. rewrite Hs. destruct IH as [(l & -> & Hl)|((m & Hm & Hno) & e & ->)].
    + left. exists (c :: l). split; [done|]. constructor; [|done]. by exists r.
    + right. split; [|by eexists]. exists m. split; [set_solver|done].
  - right. unfold bind. rewrite Hs. split; [|by eexists]. exists n. split; [set_solver|done].
Qed.

Lemma due_of_run now l (w : World) : td_in_range (de_renewal_window env) = true →
  ∃ items, due_of env now l w = (Ret items, w) ∧
    ∀ n, n ∈ dw_workload <$> items ↔ ∃ c, c ∈ l ∧ dc_workload c = n ∧ ((dc_next_re_cert_run c ≤ now)%Z ∨ ∃ e, dc_expires_at c = Some e ∧ (e ≤ now)%Z).
Proof.
  intros Htd. induction l as [|c l (items & IH & Hitems)]; [exists []; split; [done|]; intros n; split; [by intros ?%elem_of_nil|by intros (c & ?%elem_of_nil & _)]|].
  assert (∃ st, expiry_state env (dc_expires_at c) now = Ret st ∧ (st = EXPIRED ↔ ∃ e, dc_expires_at c = Some e ∧ (e ≤ now)%Z)) as (st & Hst & Hexp).
  { unfold expiry_state. destruct (dc_expires_at c) as [e|]; [|exists UNKNOWN; naive_solver]. destruct (Z.leb_spec e now); [exists EXPIRED; naive_solver|].
    rewrite Htd. cbn. destruct (e - now <=? _)%Z; [exists EXPIRING|exists VALID]; split; try done; split; try done; intros (e' & [= <-] & ?); lia. }
  simpl. unfold bind, lift_outcome. rewrite Hst, IH. eexists. split; [done|]. intros n.
  assert ((dc_next_re_cert_run c <=? now)%Z || bool_decide (st = EXPIRED) = true ↔ (dc_next_re_cert_run c ≤ now)%Z ∨ ∃ e, dc_expires_at c = Some e ∧ (e ≤ now)%Z) as Hb
    by (rewrite orb_true_iff, Z.leb_le, bool_decide_eq_true, Hexp; done).
  destruct ((dc_next_re_cert_run c <=? now)%Z || bool_decide (st = EXPIRED)).
  - rewrite fmap_cons, elem_of_cons, Hitems. cbn. setoid_rewrite elem_of_cons. split; [naive_solver|]. intros (c' & [->|Hc] & <- & H); [by left|right]. by exists c'.
  - rewrite Hitems. setoid_rewrite elem_of_cons. split; [naive_solver|]. intros (c' & [->|Hc] & H1 & H2); [|by exists c'].
    apply Hb in H2. done.
Qed.

(** What is due, and when nobody learns it: [due] answers exactly when
    every workload in scope has a cadence of at least a second and a next run
    that is a date; its answer is then the workloads whose next run is reached
    or whose certification has expired, in order.  One manifest with a cadence
    of zero, which manifests allow, makes it fail for the whole tenant. *)
Theorem due_answers_iff now ctx (w : World) : td_in_range (de_renewal_window env) = true → fl_ok (dv_fleet w) →
  ((∃ items, due env (Some now) ctx w = (Ret items, w)) ↔ ∀ n r, fl_workload (dv_fleet w) ctx n = Some r → schedulable n r) ∧
  ((∃ items, due env (Some now) ctx w = (Ret items, w)) ∨ ∃ e, due env (Some now) ctx w = (Raise e, w)) ∧
  ∀ items, due env (Some now) ctx w = (Ret items, w) →
    Sorted (λ a b, at_leb dw_next_re_cert_run dw_workload a b = true) items ∧
    ∀ n, n ∈ dw_workload <$> items ↔ ∃ r, fl_workload (dv_fleet w) ctx n = Some r ∧ due_at now r.
Proof.
  intros Htd Hok. destruct (fl_list ctx (dv_fleet w) Hok) as (records & Hlist & Hnames).
  assert (∀ o, schedule_all env ctx (wr_name <$> records) w = (o, w) →
    due env (Some now) ctx w = match o with
      | Ret l => (Ret (py_sort (at_leb dw_next_re_cert_run dw_workload)
                   (match due_of env now (py_sort (λ a b, str_leb (dc_workload a) (dc_workload b)) l) w with (Ret i, _) => i | _ => [] end)), w)
      | Raise e => (Raise e, w) end) as Hdue.
  { intros o Ho. unfold due, schedules, bind, on_fleet. cbn [ret]. rewrite Hlist. destruct w as [s g x]. cbn [dv_fleet dv_store dv_ext ret] in *. rewrite Ho.
    destruct o as [l|e]; [|done]. cbn [ret].
    destruct (due_of_run now (py_sort (λ a b, str_leb (dc_workload a) (dc_workload b)) l) (mkWorld s g x) Htd) as (items & -> & _). done. }
  destruct (schedule_all_run ctx (wr_name <$> records) w) as [(l & Hl & Hall)|((n & Hn & Hno) & e & He)].
  - rewrite (Hdue _ Hl). split_and!; [|left; by eexists|].
    + split; [|by eexists]. intros _ n r Hr. assert (n ∈ wr_name <$> records) as Hn by (apply Hnames; by eexists).
      apply list_elem_of_lookup in Hn as [i Hi]. destruct (Forall2_lookup_l _ _ _ _ _ Hall Hi) as (c & _ & r' & Hr' & Hs & _). congruence.
    + intros items [= <-]. split; [apply py_sort_sorted, at_leb_total|]. intros n.
      destruct (due_of_run now (py_sort (λ a b, str_leb (dc_workload a) (dc_workload b)) l) w Htd) as (items & -> & Hi).
      rewrite (py_sort_perm (at_leb dw_next_re_cert_run dw_workload) items), Hi. setoid_rewrite py_sort_perm. unfold due_at. split.
      * intros (c & Hc & <- & H). apply list_elem_of_lookup in Hc as [i Hc].
        destruct (Forall2_lookup_r _ _ _ _ _ Hall Hc) as (m & _ & r & Hr & _ & -> & H2 & H3). exists r. rewrite <-H2, <-H3. done.
      * intros (r & Hr & H). assert (n ∈ wr_name <$> records) as Hn by (apply Hnames; by eexists).
        apply list_elem_of_lookup in Hn as [i Hn]. destruct (Forall2_lookup_l _ _ _ _ _ Hall Hn) as (c & Hc & r' & Hr' & _ & H1 & H2 & H3).
        rewrite Hr in Hr'. injection Hr' as <-. exists c. rewrite H2, H3. split_and!; [by eapply list_elem_of_lookup_2|done|done].
  - rewrite (Hdue _ He). split_and!; [|right; by eexists|done]. split; [by intros [items [=]]|]. intros H.
    apply Hnames in Hn as [r Hr]. destruct (Hno r Hr). by apply H.
Qed.

End Due.

(** ** The endpoint *)

(** The endpoint lifts the latest quarantine in force of the workload, which
    need not be the one that was asked for. *)
Theorem reinstate_other_quarantine {W X} `{!FleetApi W} (env : Drift.Env X) issued id operator corpus model ctx (w w' : Drift.World W X) q q' r :
  surroundings env issued →
  get_quarantine id ctx (dv_store w) = Some q → active_quarantine (qr_workload q) ctx (dv_store w) = Some q' → qr_quarantine_id q' ≠ id →
  reinstate_endpoint env id operator corpus model ctx w = (Http 200 r, w') →
  qr_quarantine_id r = qr_quarantine_id q' ∧ get_quarantine id ctx (dv_store w') = Some q.
Proof.
  intros Hsu Hg Ha Hne H. unfold reinstate_endpoint in H. rewrite Hg in H. unfold respond in H.
  destruct (reinstate env (qr_workload q) operator corpus model ctx w) as [[r'|e] w1] eqn:Hr; [|by destruct (reinstate_codes e)].
  injection H as -> ->. pose proof (reinstate_spec env issued Hsu (qr_workload q) operator corpus model ctx w) as [_ Hs]. rewrite Hr in Hs. cbn in Hs.
  unfold reinstate in Hr. apply bind_inv in Hr as (s & w1 & [= <- <-] & Hr). apply bind_inv in Hr as (a & w1 & Hq & Hr). rewrite Ha in Hq. injection Hq as <- <-.
  apply bind_inv in Hr as (c0 & w2 & _ & Hr). apply bind_inv in Hr as (c & w3 & _ & Hr). cbn zeta in Hr. destruct (negb _); [done|].
  apply bind_inv in Hr as (d & w4 & _ & Hr). destruct (negb _); [done|]. apply bind_inv in Hr as (now & w5 & _ & Hr). cbn zeta in Hr.
  apply bind_inv in Hr as (u & w6 & _ & Hr). apply bind_inv in Hr as (u' & w7 & _ & [= <- _]). split; [done|].
  destruct Hs as [->|(q0 & t & Hq0 & _ & _ & ->)]; [done|]. rewrite Ha in Hq0. injection Hq0 as <-.
  unfold get_quarantine, put_quarantine in *. cbn. by rewrite od_get_set_ne.
Qed.

(** As the application wires it, a quarantine cancels no run, whatever
    [cancel_in_flight] says. *)
Theorem wired_cancels_nothing {W X} `{!FleetApi W} rate failures days required strong window cancels clock new_id log notifier publish iso
    record wl reason a diff sev actor ctx (w w' : Drift.World W X) q :
  open_quarantine (wire_drift rate failures days required strong window cancels clock new_id log notifier publish iso)
    record wl reason a diff sev actor ctx w = (Ret q, w') → qr_cancelled_runs q = [].
Proof.
  unfold open_quarantine. intros (r & w1 & _ & H)%bind_inv. apply bind_inv in H as (c & w2 & [= <- _] & H). cbn zeta in H.
  apply bind_inv in H as (id & w3 & _ & H). apply bind_inv in H as (now & w4 & _ & H). destruct (quarantine_valid _); [|done].
  apply bind_inv in H as (q' & w5 & Hq & H). apply bind_inv in H as (u & w6 & _ & H). apply bind_inv in H as (u' & w7 & _ & H).
  apply bind_inv in H as (u'' & w8 & _ & [= <- _]). cbn in Hq. destruct notifier; [apply bind_inv in Hq as (l & w9 & _ & [= <- _])|injection Hq as <- _]; done.
Qed.
