(* ===== verification/DriftDemo.v ===== *)
(** * Drift over the demonstration registry

    A certified workload drifts twice, is quarantined, and is reinstated over
    the registry and the coordinator themselves: the hypotheses of the
    theorems on drift hold together. *)

From stdpp Require Import base strings pretty numbers gmap sets sorting list.
From S2P Require Import Prelude Text Float64 Rounding Calendar Tenancy CoreModels Canonical Conflict Manifest Certification Registry RegistryDemo Promotion PromotionDemo Drift DriftHistory DriftFleet.

#[local] Open Scope hp_scope.

(** A corpus of one task, which the executor passes. *)
Definition drift_corpus : BenchmarkCorpus :=
  {| co_id := "triage"; co_version := 1;
     co_tasks := [{| bt_id := "t1"; bt_name := "t1"; bt_input := []; bt_expected := None;
       bt_check := {| ck_type := EXACT_MATCH; ck_field := Some "label"; ck_value := JStr "bug"; ck_required_actions := []; ck_forbidden_actions := [];
                      ck_criteria := []; ck_min_score := None; ck_callable := None |};
       bt_critical := false; bt_timeout_seconds := 60; bt_allow_network := false; bt_profiles := ["full"] |}] |}.

Definition drift_co : CoordinatorConfig (X := Z) :=
  {| co_load_corpus := λ _, ret drift_corpus;
     co_execute := λ _ _, ret {| te_output := [("label", JStr "bug")]; te_actions := []; te_latency_ms := 10; te_tokens := 5; te_cost_usd := f64_zero;
                                 te_trace_id := None; te_network_used := false; te_model_identity := None |};
     co_now := demo_now; co_benchmark_version := "1.0.0"; co_environment := sv_environment demo_sv |}.

Abbreviation Fleet := (FleetState (X := Z)).

#[local] Instance demo_fleet : FleetApi Fleet :=
  registry_fleet demo_hash exact_repr demo_time (λ _, "0") demo_sign signed_ok demo_clock demo_cfg demo_sv drift_co (λ _, "v") (λ _, "n").
#[local] Instance demo_fleet_laws : FleetLaws Fleet :=
  registry_fleet_laws demo_hash exact_repr demo_time (λ _, "0") demo_sign signed_ok demo_clock demo_cfg demo_sv drift_co (λ _, "v") (λ _, "n").

(** The certified workload and the record of its certification. *)
Definition demo_records : CertificationStore :=
  match (demo_certify TC_PRODUCTION survived).1 with
  | Ret c => default {| cs_records := []; cs_tenants := [] |} (certification_add DEFAULT_CONTEXT c {| cs_records := []; cs_tenants := [] |})
  | Raise _ => {| cs_records := []; cs_tenants := [] |}
  end.

Definition drift_env : Drift.Env nat :=
  {| de_clock := λ x, (Z.of_nat x, S x); de_quarantine_id := λ x, ("q" +:+ pretty x, S x); de_audit := None; de_notifier := None; de_canceller := None;
     de_cancel_in_flight := true; de_event_sink := None; de_isoformat := pretty;
     de_detector := mkDetector (f64_lit 1 10) 2 2 (f64_of_Z 2); de_quarantine_service := true; de_default_interval := 1209600;
     de_renewal_window := 259200 |}.

Definition drift_issued (x : nat) (i : string) : Prop := ∃ n, (n < x)%nat ∧ i = "q" +:+ pretty n.

Lemma drift_surroundings : surroundings drift_env drift_issued.
Proof.
  assert (∀ x, adv drift_env drift_issued x (S x)) as Hadv.
  { intros x. split; [change (Z.of_nat x ≤ Z.of_nat (S x))%Z; lia|]. intros i (n & Hn & ->). exists n. split; [lia|done]. }
  split; try done.
  - intros x. split; [change (Z.of_nat x < Z.of_nat (S x))%Z; lia|apply Hadv].
  - intros x. split_and!; [|exists x; split; [change (x < S x)%nat; lia|done]|apply Hadv]. intros (n & Hn & [= E]). apply (inj pretty) in E. lia.
Qed.

Definition drift_world : Drift.World Fleet nat := Drift.mkWorld empty_drift (certified, demo_records) 0%nat.

(** A drop of fifteen points: over the threshold of ten, no strong signal. *)
Definition weak_summary : EvalSummary :=
  {| ev_pass_rate := f64_lit 85 100; ev_critical_failures := 0; ev_p95_latency_ms := 10; ev_tasks_passed := 17; ev_tasks_failed := 3 |}.

Definition weak_evaluation : Op := OEvaluate "triage" weak_summary None "drift-detector" DEFAULT_CONTEXT (mkSets None None (Some ∅)).
Abbreviation weak_call := (evaluate (W := Fleet) drift_env "triage" weak_summary None "drift-detector" DEFAULT_CONTEXT (mkSets None None (Some ∅))).

Definition verdict_of (r : outcome DriftExn DriftAssessment * Drift.World Fleet nat) : option DriftVerdict :=
  match r.1 with Ret a => Some (da_verdict a) | Raise _ => None end.

Example weak_verdicts :
  verdict_of (weak_call drift_world) = Some WARNING ∧ verdict_of (weak_call (run_ops drift_env [weak_evaluation] drift_world)) = Some DRIFTED.
Proof. vm_compute. by split. Qed.

Definition drift_ops : list Op := [weak_evaluation; weak_evaluation; OReinstate "triage" "ops" None None DEFAULT_CONTEXT].
Definition q_status (w : Drift.World Fleet nat) : list QuarantineStatus := (λ e, qr_status e.1) <$> od_values (ds_quarantines (dv_store w)).

Example drift_lifecycle :
  q_status (run_ops drift_env [weak_evaluation] drift_world) = [] ∧
  q_status (run_ops drift_env [weak_evaluation; weak_evaluation] drift_world) = [Q_ACTIVE] ∧
  q_status (run_ops drift_env drift_ops drift_world) = [Q_REINSTATED].
Proof. vm_compute. done. Qed.

Lemma drift_quarantine_confirmed_witness :
  ∃ a w', weak_call (run_ops drift_env [weak_evaluation] drift_world) = (Ret a, w') ∧ da_strong_signal a = false ∧
    (da_exceeded a = true ∧
     (da_strong_signal a = true ∨
      ends_exceeding 1 (since_lifted "triage" DEFAULT_CONTEXT (dv_store (run_ops drift_env [weak_evaluation] drift_world))
                          (assessments_of drift_env [weak_evaluation] drift_world)))).
Proof.
  assert (match weak_call (run_ops drift_env [weak_evaluation] drift_world) with
          | (Ret a, _) => da_should_quarantine a = true ∧ da_strong_signal a = false | _ => False end) as H by (vm_compute; split; reflexivity).
  destruct (weak_call (run_ops drift_env [weak_evaluation] drift_world)) as [[a|e] w'] eqn:He; [destruct H as [Hq Hs]|destruct H].
  exists a, w'. split; [reflexivity|]. split; [exact Hs|].
  apply (drift_quarantine_confirmed drift_env [weak_evaluation] drift_world "triage" weak_summary None
    "drift-detector" DEFAULT_CONTEXT (mkSets None None (Some ∅)) a w'); [reflexivity|exact He|exact Hq].
Defined.

Lemma lifted_only_readmitted_witness :
  ∃ l1 wl operator corpus model ctx l2 q0, drift_ops = l1 ++ OReinstate wl operator corpus model ctx :: l2 ∧
    active_quarantine wl ctx (dv_store (run_ops drift_env l1 drift_world)) = Some q0 ∧
    readmitted wl corpus model ctx (dv_fleet (run_ops drift_env l1 drift_world)).
Proof.
  assert (match od_values (ds_quarantines (dv_store (run_ops drift_env drift_ops drift_world))) with
          | [(q, t)] => od_get (qr_quarantine_id q) (ds_quarantines (dv_store (run_ops drift_env drift_ops drift_world))) = Some (q, t) ∧
                        qr_status q = Q_REINSTATED
          | _ => False end) as H by (vm_compute; split; reflexivity).
  destruct (od_values (ds_quarantines (dv_store (run_ops drift_env drift_ops drift_world)))) as [|[q t] [|]]; [destruct H| |destruct H]. destruct H as [Hg Hs].
  destruct (lifted_only_readmitted drift_env drift_ops drift_world (qr_quarantine_id q) q t eq_refl Hg Hs)
    as (l1 & wl & operator & corpus & model & ctx & l2 & q0 & now & H1 & H2 & _ & H3).
  exists l1, wl, operator, corpus, model, ctx, l2, q0. exact (conj H1 (conj H2 H3)).
Defined.

Lemma demo_names_ok : names_ok (certified, demo_records).
Proof.
  assert (od_keys (rg_workloads certified.1) = ["triage"]) as Hk by (vm_compute; reflexivity).
  assert (wr_name <$> od_get "triage" (rg_workloads certified.1) = Some "triage") as Hn by (vm_compute; reflexivity).
  split; cbn [fst snd].
  - unfold od_wf. rewrite Hk. apply NoDup_singleton.
  - intros k r Hr. assert (k ∈ od_keys (rg_workloads certified.1)) as Hin
      by (apply od_get_Some_elem in Hr; apply list_elem_of_fmap; exists (k, r); split; [reflexivity|exact Hr]).
    rewrite Hk in Hin. apply list_elem_of_singleton in Hin as ->. rewrite Hr in Hn. by injection Hn.
Qed.

(** The first quarantine of the certified workload. *)
Abbreviation first_quarantine := (quarantine (W := Fleet) drift_env "triage" "reported" None None None "ops" DEFAULT_CONTEXT drift_world).

Lemma quarantine_withdraws_witness :
  ∃ q w', first_quarantine = (Ret q, w') ∧ active_quarantine "triage" DEFAULT_CONTEXT (dv_store w') = Some q ∧
    quarantine (W := Fleet) drift_env "triage" "again" None None None "eve" DEFAULT_CONTEXT w' = (Ret q, w').
Proof.
  assert (match first_quarantine with (Ret _, _) => True | _ => False end) as H by (vm_compute; exact I).
  destruct first_quarantine as [[q|e] w'] eqn:He; [|destruct H]. exists q, w'. split; [reflexivity|].
  destruct (quarantine_withdraws drift_env drift_issued drift_surroundings [] drift_world "triage" "reported" None None None "ops" DEFAULT_CONTEXT q w')
    as (_ & _ & H3 & _ & _ & H6); [reflexivity|exact demo_names_ok|exact He|]. exact (conj H3 (H6 _ _ _ _ _)).
Defined.

(** In a million seconds and more the workload is due. *)
Lemma due_answers_iff_witness :
  ∃ items, due (W := Fleet) drift_env (Some 2000000000000%Z) DEFAULT_CONTEXT drift_world = (Ret items, drift_world) ∧
    dw_workload <$> items = ["triage"] ∧ Sorted (λ a b, at_leb dw_next_re_cert_run dw_workload a b = true) items.
Proof.
  assert (match due (W := Fleet) drift_env (Some 2000000000000%Z) DEFAULT_CONTEXT drift_world with
          | (Ret items, _) => dw_workload <$> items = ["triage"] | _ => False end) as H by (vm_compute; reflexivity).
  assert (fl_ok (dv_fleet drift_world)) as Hok by exact demo_names_ok.
  destruct (due_answers_iff drift_env 2000000000000 DEFAULT_CONTEXT drift_world eq_refl Hok) as (_ & [(items & Hi)|(e & He)] & Hdue).
  - rewrite Hi in H. exists items. exact (conj Hi (conj H (proj1 (Hdue items Hi)))).
  - rewrite He in H. destruct H.
Defined.

(** A manifest that asks for a cadence of zero seconds is accepted; with it
    registered beside nothing else, [due] fails. *)
Definition zero_certification : CertificationSpec :=
  {| ce_benchmark_corpus := Some "triage.yaml"; ce_staging_threshold := f64_lit 4 5; ce_production_threshold := f64_lit 9 10;
     ce_no_critical_failures := true; ce_latency_budget_ms := 30000; ce_re_cert_interval := 0; ce_status := UNCERTIFIED;
     ce_attestation_id := None; ce_certified_at := None; ce_certified_by := None; ce_expires_at := None |}.

Definition zero_world : Drift.World Fleet nat :=
  Drift.mkWorld empty_drift
    ((demo_create DEFAULT_CONTEXT (with_certification (demo_manifest "a" "v1" UNCERTIFIED) zero_certification) (empty_registry, 10%Z)).2,
     {| cs_records := []; cs_tenants := [] |}) 0%nat.

Example zero_cadence_fails :
  certification_valid 10 zero_certification = true ∧
  (due (W := Fleet) drift_env (Some 20%Z) DEFAULT_CONTEXT zero_world).1 = Raise (InvalidDrift "schedule").
Proof. vm_compute. done. Qed.
