(* ===== verification/PackRegistry.v ===== *)
(** * The policy pack registry ([policy/pack_registry.py])

    Linting, publishing, resolving and applying packs over the in-memory pack
    store of [Policy], and the two endpoints of [api/policy.py] that change
    it.  Recursion goes as deep as the interpreter lets it: [depth] calls,
    beyond which [RecursionError] is raised. *)

From stdpp Require Import base strings pretty numbers gmap sets relations list.
From S2P Require Import Prelude Text Tenancy CoreModels Policy.

#[local] Open Scope hp_scope.

Record PackLintResult := mkLint { pl_valid : bool; pl_issues : list string }.

Inductive PackExn := PackPolicyError (e : PolicyExn) | PackKeyError (name : string) | PackRecursionError | PackAuditError.

Abbreviation Catalog := (odict string PolicyPack).

(** [_has_cycle]; [None] is [RecursionError]. *)
Fixpoint has_cycle (depth : nat) (catalog : Catalog) (pack : PolicyPack) (seen : list string) : option bool :=
  match depth with
  | O => None
  | S depth =>
      (fix go (parents : list string) : option bool :=
         match parents with
         | [] => Some false
         | parent :: parents =>
             if bool_decide (parent ∈ seen) then Some true
             else match od_get parent catalog with
                  | None => go parents
                  | Some p => match has_cycle depth catalog p (seen ++ [parent]) with
                              | None => None
                              | Some true => Some true
                              | Some false => go parents
                              end
                  end
         end) (pp_inherits pack)
  end.

(** [lint] *)
Definition lint (depth : nat) (pack : PolicyPack) (catalog : Catalog) : option PackLintResult :=
  let unknown := (λ parent, "inherits unknown pack " +:+ py_repr parent) <$> filter (λ parent, od_mem parent catalog = false) (pp_inherits pack) in
  cycle ← has_cycle depth catalog pack [pp_name pack];
  let issues := unknown ++ (if cycle : bool then ["inheritance cycle detected"] else []) in
  Some (mkLint (bool_decide (issues = [])) issues).

(** [resolve] *)
Fixpoint resolve (depth : nat) (catalog : Catalog) (pack : PolicyPack) : option (list PolicyPack) :=
  match depth with
  | O => None
  | S depth =>
      (fix go (parents : list string) : option (list PolicyPack) :=
         match parents with
         | [] => Some [pack]
         | parent :: parents =>
             match od_get parent catalog with
             | None => go parents
             | Some p => above ← resolve depth catalog p; rest ← go parents; Some (above ++ rest)
             end
         end) (pp_inherits pack)
  end.

(** The copy of a pack that is pinned to a team. *)
Definition pinned (team : string) (p : PolicyPack) : PolicyPack :=
  mkPack (team +:+ ":" +:+ pp_name p) team (pp_version p) (pp_tenant_id p) (pp_default p) (pp_overrides p) [].

Definition lift_policy {A} (m : M Packs.store PolicyExn A) : M Packs.store PackExn A :=
  λ s, let '(o, s') := m s in (match o with Ret a => Ret a | Raise e => Raise (PackPolicyError e) end, s').

(** [publish] *)
Definition publish (pack : PolicyPack) (ctx : TenantContext) : M Packs.store PackExn PolicyPack :=
  lift_policy (Packs.save pack ctx) ;;; ret pack.

Fixpoint pin_all (team : string) (ctx : TenantContext) (chain : list PolicyPack) : M Packs.store PackExn (list PolicyPack) :=
  match chain with
  | [] => ret []
  | p :: chain =>
      lift_policy (Packs.save (pinned team p) ctx) ;;;
      let* rest := pin_all team ctx chain in
      ret (pinned team p :: rest)
  end.

(** [apply]'s catalog: of packs of one name, the last one listed. *)
Definition catalog_of (packs : list PolicyPack) : Catalog := foldl (λ d p, od_set (pp_name p) p d) [] packs.

(** [apply] *)
Definition apply (depth : nat) (name team : string) (ctx : TenantContext) : M Packs.store PackExn (list PolicyPack) :=
  let* s := get in
  let catalog := catalog_of (Packs.list_packs ctx s) in
  let* root := of_option (PackKeyError name) (od_get name catalog) in
  let* chain := of_option PackRecursionError (resolve depth catalog root) in
  pin_all team ctx chain.

(** ** Endpoints ([api/policy.py]) *)

Section Endpoints.
Variable audit : string → string → string → string → TenantContext → M Packs.store PackExn unit.

(** [register_policy_pack] *)
Definition register_policy_pack (pack : PolicyPack) (ctx : TenantContext) (operator_id : string) : M Packs.store PackExn PolicyPack :=
  let scoped := mkPack (pp_name pack) (pp_team pack) (pp_version pack) (tc_tenant_id ctx) (pp_default pack) (pp_overrides pack) (pp_inherits pack) in
  lift_policy (Packs.save scoped ctx) ;;;
  audit operator_id "policy_pack.registered" (pp_name scoped +:+ "@" +:+ pp_version scoped) ("team=" +:+ pp_team scoped) ctx ;;;
  ret scoped.

(** [apply_policy_pack]; [None] is the status 404. *)
Definition apply_policy_pack (depth : nat) (name team : string) (ctx : TenantContext) (operator_id : string)
    : M Packs.store PackExn (option (list PolicyPack)) :=
  let* applied := try_except (let* l := apply depth name team ctx in ret (Some l))
                    (λ e, match e with PackKeyError _ => ret None | _ => raise e end) in
  match applied with
  | None => ret None
  | Some l => audit operator_id "policy_pack.applied" name ("team=" +:+ team) ctx ;;; ret (Some l)
  end.
End Endpoints.

(** ** Cycles and resolution *)

Section Cycles.
Variable catalog : Catalog.

(** A catalog is keyed by its packs' names. *)
Definition keyed : Prop := ∀ n p, od_get n catalog = Some p → pp_name p = n.
Hypothesis Hkeyed : keyed.

(** The pack [n] of the catalog inherits from its pack [m]. *)
Definition inherits (n m : string) : Prop := ∃ p q, od_get n catalog = Some p ∧ m ∈ pp_inherits p ∧ od_get m catalog = Some q.

(** The loop of [resolve] over the parents. *)
Fixpoint chain_above (f : PolicyPack → option (list PolicyPack)) (l : list string) : option (list PolicyPack) :=
  match l with
  | [] => Some []
  | n :: l => match od_get n catalog with
              | None => chain_above f l
              | Some q => above ← f q; rest ← chain_above f l; Some (above ++ rest)
              end
  end.

Lemma resolve_S depth p : resolve (S depth) catalog p = (above ← chain_above (resolve depth catalog) (pp_inherits p); Some (above ++ [p])).
Proof.
  simpl. induction (pp_inherits p) as [|n l IH]; [done|]. simpl. destruct (od_get n catalog) as [q|]; [|done].
  destruct (resolve depth catalog q) as [above|]; [|done]. simpl. rewrite IH.
  destruct (chain_above _ l) as [rest|]; [|done]. simpl. by rewrite app_assoc.
Qed.

Lemma chain_above_spec f l r : chain_above f l = Some r →
  (∀ n q, n ∈ l → od_get n catalog = Some q → ∃ above l1 l2, f q = Some above ∧ r = l1 ++ above ++ l2) ∧
  (∀ x, x ∈ r → ∃ n q above, n ∈ l ∧ od_get n catalog = Some q ∧ f q = Some above ∧ x ∈ above).
Proof.
  revert r. induction l as [|n l IH]; intros r H; simpl in H; [injection H as <-; split; [by intros n q ?%elem_of_nil|by intros x ?%elem_of_nil]|].
  destruct (od_get n catalog) as [q|] eqn:Hq.
  - destruct (f q) as [above|] eqn:Ha; [|done]. destruct (chain_above f l) as [rest|] eqn:Hr; [|done]. injection H as <-.
    destruct (IH rest eq_refl) as [H1 H2]. split.
    + intros m q' [->|Hm]%elem_of_cons Hq'; [rewrite Hq in Hq'; injection Hq' as <-; by exists above, [], rest|].
      destruct (H1 m q' Hm Hq') as (above' & l1 & l2 & Hf & ->). exists above', (above ++ l1), l2. by rewrite app_assoc.
    + intros x [Hx|Hx]%elem_of_app; [exists n, q, above; set_solver|]. destruct (H2 x Hx) as (m & q' & above' & ? & ? & ? & ?).
      exists m, q', above'. set_solver.
  - destruct (IH r H) as [H1 H2]. split; [intros m q [->|Hm]%elem_of_cons Hq'; [congruence|by apply (H1 m q)]|].
    intros x Hx. destruct (H2 x Hx) as (m & q & above & ? & ?). exists m, q, above. set_solver.
Qed.

(** Resolution only answers where inheritance is well-founded. *)
Lemma resolve_acc depth p r : resolve depth catalog p = Some r → od_get (pp_name p) catalog = Some p → Acc (flip inherits) (pp_name p).
Proof.
  revert p r. induction depth as [|depth IH]; intros p r Hr Hp; [done|]. rewrite resolve_S in Hr.
  destruct (chain_above _ (pp_inherits p)) as [above|] eqn:Ha; [|done]. apply chain_above_spec in Ha as [Ha _].
  constructor. intros m (p' & q & Hp' & Hm & Hq). rewrite Hp in Hp'. injection Hp' as <-.
  destruct (Ha m q Hm Hq) as (r' & _ & _ & Hr' & _). rewrite <-(Hkeyed _ _ Hq). apply (IH q r'); [done|]. by rewrite (Hkeyed _ _ Hq).
Qed.

Lemma acc_no_loop n m : Acc (flip inherits) n → rtc inherits n m → ¬ tc inherits m m.
Proof.
  intros Hacc Hrt. assert (Acc (flip inherits) m) as Hm.
  { revert Hacc. induction Hrt as [|x y z Hxy _ IH]; intros Hacc; [done|]. apply IH. destruct Hacc as [H]. by apply H. }
  clear Hacc Hrt n. induction Hm as [x _ IH]. intros Hl.
  assert (∃ y, inherits x y ∧ rtc inherits y x) as (y & Hy & Hyx).
  { inversion Hl as [? ? H|? y ? H Ht]; subst; [by exists x|]. exists y. split; [done|by apply tc_rtc]. }
  apply (IH y Hy). apply tc_rtc_l with x; [done|by apply tc_once].
Qed.

(** The loop of [has_cycle] over the parents. *)
Fixpoint any_cycle (f : string → PolicyPack → option bool) (seen l : list string) : option bool :=
  match l with
  | [] => Some false
  | n :: l =>
      if bool_decide (n ∈ seen) then Some true
      else match od_get n catalog with
           | None => any_cycle f seen l
           | Some q => match f n q with None => None | Some true => Some true | Some false => any_cycle f seen l end
           end
  end.

Lemma has_cycle_S depth p seen :
  has_cycle (S depth) catalog p seen = any_cycle (λ n q, has_cycle depth catalog q (seen ++ [n])) seen (pp_inherits p).
Proof.
  simpl. induction (pp_inherits p) as [|n l IH]; [done|]. simpl. case_bool_decide; [done|]. destruct (od_get n catalog) as [q|]; [|done].
  by destruct (has_cycle depth catalog q (seen ++ [n])) as [[]|].
Qed.

Lemma any_cycle_false f seen l : any_cycle f seen l = Some false → ∀ n q, n ∈ l → od_get n catalog = Some q → f n q = Some false.
Proof.
  induction l as [|m l IH]; intros H n q Hn Hq; [by apply elem_of_nil in Hn|]. simpl in H. case_bool_decide; [done|].
  apply elem_of_cons in Hn as [->|Hn].
  - rewrite Hq in H. by destruct (f m q) as [[]|].
  - apply IH; [|done|done]. destruct (od_get m catalog) as [q'|]; [|done]. by destruct (f m q') as [[]|].
Qed.

Lemma any_cycle_true f seen l : any_cycle f seen l = Some true →
  ∃ n, n ∈ l ∧ (n ∈ seen ∨ n ∉ seen ∧ ∃ q, od_get n catalog = Some q ∧ f n q = Some true).
Proof.
  induction l as [|m l IH]; intros H; [done|]. simpl in H. case_bool_decide as Hm; [exists m; split; [set_solver|by left]|].
  assert (any_cycle f seen l = Some true ∨ ∃ q, od_get m catalog = Some q ∧ f m q = Some true) as [H1|(q & H1 & H2)].
  { destruct (od_get m catalog) as [q'|] eqn:E; [|by left]. destruct (f m q') as [[]|] eqn:E'; [right; by exists q'|by left|done]. }
  - destruct (IH H1) as (n & Hn & Hc). exists n. split; [set_solver|done].
  - exists m. split; [set_solver|]. right. split; [done|]. by exists q.
Qed.

(** The depth is never reached: every call sees one more pack of the catalog. *)
Definition unseen (seen : list string) : nat := length (filter (.∉ seen) (od_keys catalog)).

Lemma unseen_snoc seen n q : n ∉ seen → od_get n catalog = Some q → unseen (seen ++ [n]) < unseen seen.
Proof.
  intros Hn Hq. apply od_get_Some_elem in Hq. assert (n ∈ od_keys catalog) as Hk by (apply list_elem_of_fmap; by exists (n, q)).
  unfold unseen. clear Hq. induction (od_keys catalog) as [|k l IH]; [by apply elem_of_nil in Hk|].
  assert (length (filter (.∉ seen ++ [n]) l) ≤ length (filter (.∉ seen) l)) as Hle.
  { clear IH Hk. induction l as [|z l IH]; [done|]. rewrite !filter_cons. repeat case_decide; simpl; [lia|set_solver|lia|lia]. }
  rewrite !filter_cons. destruct (decide (k = n)) as [->|Hkn].
  - rewrite decide_False by set_solver. rewrite decide_True by done. simpl. lia.
  - apply elem_of_cons in Hk as [->|Hk]; [done|]. specialize (IH Hk). repeat case_decide; simpl; [lia|set_solver|set_solver|lia].
Qed.

Lemma has_cycle_total depth p seen : unseen seen < depth → is_Some (has_cycle depth catalog p seen).
Proof.
  revert p seen. induction depth as [|depth IH]; intros p seen Hd; [lia|]. rewrite has_cycle_S.
  induction (pp_inherits p) as [|n l IHl]; simpl; [done|]. case_bool_decide as Hn; [done|]. destruct (od_get n catalog) as [q|] eqn:Hq; [|done].
  destruct (IH q (seen ++ [n])) as [[] ->]; [|done|done]. pose proof (unseen_snoc seen n q Hn Hq). lia.
Qed.

Lemma clean_resolves depth p seen : has_cycle depth catalog p seen = Some false → is_Some (resolve depth catalog p).
Proof.
  revert p seen. induction depth as [|depth IH]; intros p seen H; [done|]. rewrite has_cycle_S in H. rewrite resolve_S.
  pose proof (any_cycle_false _ _ _ H) as Hall. clear H.
  assert (is_Some (chain_above (resolve depth catalog) (pp_inherits p))) as [above ->]; [|done].
  induction (pp_inherits p) as [|n l IHl]; simpl; [done|]. destruct IHl as [rest ->]; [intros m q Hm; apply Hall; set_solver|].
  destruct (od_get n catalog) as [q|] eqn:Hq; [|done]. destruct (IH q (seen ++ [n])) as [above ->]; [|done]. apply (Hall n q); [set_solver|done].
Qed.

Lemma cycle_loops depth p seen : has_cycle depth catalog p seen = Some true → od_get (pp_name p) catalog = Some p →
  (∀ n, n ∈ seen → rtc inherits n (pp_name p)) → ∃ m, rtc inherits (pp_name p) m ∧ tc inherits m m.
Proof.
  revert p seen. induction depth as [|depth IH]; intros p seen H Hp Hseen; [done|]. rewrite has_cycle_S in H.
  apply any_cycle_true in H as (n & Hn & [Hin|(Hin & q & Hq & H)]).
  - exists (pp_name p). split; [done|]. pose proof (Hseen n Hin) as Hrt.
    assert (is_Some (od_get n catalog)) as [q Hq].
    { inversion Hrt as [|? y ? (a & b & Ha & _ & _) _]; subst; by eexists. }
    apply tc_rtc_r with n; [|done]. apply tc_once. by exists p, q.
  - pose proof (Hkeyed _ _ Hq) as Hname.
    assert (inherits (pp_name p) (pp_name q)) as Hedge by (rewrite Hname; by exists p, q).
    destruct (IH q (seen ++ [n]) H) as (m & Hm & Hloop).
    + by rewrite Hname.
    + intros k [Hk|Hk]%elem_of_app; [apply rtc_r with (pp_name p); [by apply Hseen|done]|]. apply list_elem_of_singleton in Hk as ->. by rewrite Hname.
    + exists m. split; [by apply rtc_l with (pp_name q)|done].
Qed.

(** Every pack comes after the parents of it that the catalog holds. *)
Definition parents_first (r : list PolicyPack) : Prop :=
  ∀ i q n q', r !! i = Some q → n ∈ pp_inherits q → od_get n catalog = Some q' → ∃ j, j < i ∧ r !! j = Some q'.

Lemma parents_first_app a b : parents_first a → parents_first b → parents_first (a ++ b).
Proof.
  intros Ha Hb i q n q' Hi Hn Hq. apply lookup_app_Some in Hi as [Hi|[Hlen Hi]].
  - destruct (Ha i q n q' Hi Hn Hq) as (j & Hj & Hl). exists j. split; [done|]. by apply lookup_app_l_Some.
  - destruct (Hb _ q n q' Hi Hn Hq) as (j & Hj & Hl). exists (length a + j). split; [lia|]. rewrite lookup_app_r by lia.
    by replace (length a + j - length a) with j by lia.
Qed.

Lemma chain_parents_first f l r : chain_above f l = Some r →
  (∀ n q above, n ∈ l → od_get n catalog = Some q → f q = Some above → parents_first above) → parents_first r.
Proof.
  revert r. induction l as [|n l IH]; intros r H Hf; simpl in H; [injection H as <-; intros i q n q' Hi; by rewrite lookup_nil in Hi|].
  destruct (od_get n catalog) as [q|] eqn:Hq; [|apply IH; [done|]; intros m q' a Hm; apply Hf; set_solver].
  destruct (f q) as [above|] eqn:Ha; [|done]. destruct (chain_above f l) as [rest|] eqn:Hr; [|done]. injection H as <-.
  apply parents_first_app; [apply (Hf n q above); [set_solver|done|done]|]. apply IH; [done|]. intros m q' a Hm. apply Hf. set_solver.
Qed.

(** What a resolved chain is: the pack last, the packs it inherits from,
    parents first. *)
Lemma resolve_spec depth p r : resolve depth catalog p = Some r → od_get (pp_name p) catalog = Some p →
  last r = Some p ∧ parents_first r ∧
  ∀ q, q ∈ r ↔ od_get (pp_name q) catalog = Some q ∧ rtc inherits (pp_name p) (pp_name q).
Proof.
  revert p r. induction depth as [|depth IH]; intros p r Hr Hp; [done|]. rewrite resolve_S in Hr.
  destruct (chain_above _ (pp_inherits p)) as [above|] eqn:Ha; [|done]. injection Hr as <-. pose proof Ha as [Hin Hout]%chain_above_spec.
  assert (∀ n q, od_get n catalog = Some q → od_get (pp_name q) catalog = Some q) as Hq by (intros n q H; by rewrite (Hkeyed _ _ H)).
  split_and!; [by rewrite last_snoc| |].
  - intros i q n q' Hi Hn Hq'. apply lookup_app_Some in Hi as [Hi|[Hlen Hi]].
    + apply chain_parents_first in Ha; [|intros m x a _ Hx Hr; apply (IH x a Hr); by eapply Hq].
      destruct (Ha i q n q' Hi Hn Hq') as (j & Hj & Hl). exists j. split; [done|]. by apply lookup_app_l_Some.
    + apply list_lookup_singleton_Some in Hi as [Hi <-]. destruct (Hin n q' Hn Hq') as (a & l1 & l2 & Hr & ->).
      apply IH in Hr as (Hlast & _ & _); [|by eapply Hq]. apply last_Some in Hlast as [a' ->].
      exists (length l1 + length a'). rewrite !length_app in Hlen. simpl in Hlen. split; [lia|].
      rewrite <-app_assoc, lookup_app_r by lia. replace (length l1 + length a' - length l1) with (length a') by lia.
      rewrite <-!app_assoc. by rewrite lookup_app_r, Nat.sub_diag.
  - intros q. rewrite elem_of_app, list_elem_of_singleton. split.
    + intros [Hqa| ->]; [|by split]. destruct (Hout q Hqa) as (n & q' & a & Hn & Hq' & Hr & Hqa').
      apply IH in Hr as (_ & _ & Hmem); [|by eapply Hq]. apply Hmem in Hqa' as [H1 H2]. split; [done|].
      apply rtc_l with (pp_name q'); [|done]. rewrite (Hkeyed _ _ Hq'). by exists p, q'.
    + intros [Hqq Hrt]. inversion Hrt as [|? m ? (p' & q' & Hp' & Hm & Hq') Hrest]; subst; [right; congruence|]. left.
      rewrite Hp in Hp'. injection Hp' as <-. destruct (Hin m q' Hm Hq') as (a & l1 & l2 & Hr & ->).
      apply IH in Hr as (_ & _ & Hmem); [|by eapply Hq]. rewrite !elem_of_app. right. left. apply Hmem.
      split; [done|]. by rewrite (Hkeyed _ _ Hq').
Qed.
End Cycles.

(** C18: Linting for cycles and resolving are two sides of one thing.  For a
    pack of a catalog, with at least as many calls allowed as the catalog has
    packs and one: either lint finds no cycle, and the chain is resolved — the
    pack last, exactly the packs it inherits from, directly or not, each after
    its own parents — or lint finds one, which exists, and no depth of calls is
    enough to resolve the pack. *)
Theorem lint_resolves catalog depth p : keyed catalog → od_get (pp_name p) catalog = Some p → S (length catalog) ≤ depth →
  (has_cycle depth catalog p [pp_name p] = Some false ∧
   ∃ r, resolve depth catalog p = Some r ∧ last r = Some p ∧ parents_first catalog r ∧
     ∀ q, q ∈ r ↔ od_get (pp_name q) catalog = Some q ∧ rtc (inherits catalog) (pp_name p) (pp_name q)) ∨
  (has_cycle depth catalog p [pp_name p] = Some true ∧
   (∃ n, rtc (inherits catalog) (pp_name p) n ∧ tc (inherits catalog) n n) ∧ ∀ depth', resolve depth' catalog p = None).
Proof.
  intros Hk Hp Hd. destruct (has_cycle_total catalog Hk depth p [pp_name p]) as [[] Hc].
  - unfold unseen. eapply Nat.le_lt_trans; [apply length_filter|]. unfold od_keys. rewrite length_fmap. lia.
  - right. split; [done|]. destruct (cycle_loops catalog Hk _ _ _ Hc Hp) as (n & H1 & H2); [by intros m ->%list_elem_of_singleton|].
    split; [by exists n|]. intros depth'. destruct (resolve depth' catalog p) as [r|] eqn:Hr; [|done].
    apply (resolve_acc catalog Hk) in Hr; [|done]. by destruct (acc_no_loop catalog _ _ Hr H1).
  - left. split; [done|]. destruct (clean_resolves catalog Hk _ _ _ Hc) as [r Hr]. exists r. split; [done|].
    by apply (resolve_spec catalog Hk depth).
Qed.

(** ** Applying *)

Lemma save_run pack ctx s :
  Packs.save pack ctx s =
  if scopes ctx (pp_tenant_id pack) then
    (if od_mem (pp_tenant_id pack, pp_name pack) s then (Raise (PolicyPackAlreadyExistsError (pp_name pack)), s)
     else (Ret tt, od_set (pp_tenant_id pack, pp_name pack) pack s))
  else (Raise TenantScopeError, s).
Proof. unfold Packs.save, require, bind, get. destruct (scopes ctx (pp_tenant_id pack)); [|done]. simpl. by destruct (od_mem _ s). Qed.

Definition pin_key (team : string) (p : PolicyPack) : string * string := (pp_tenant_id p, team +:+ ":" +:+ pp_name p).

Lemma save_pinned team p ctx s :
  Packs.save (pinned team p) ctx s =
  if scopes ctx (pp_tenant_id p) then
    (if od_mem (pin_key team p) s then (Raise (PolicyPackAlreadyExistsError (pp_name (pinned team p))), s)
     else (Ret tt, od_set (pin_key team p) (pinned team p) s))
  else (Raise TenantScopeError, s).
Proof. exact (save_run (pinned team p) ctx s). Qed.

Lemma pin_all_run team ctx chain s :
  let fresh := Forall (λ p, scopes ctx (pp_tenant_id p) = true ∧ od_mem (pin_key team p) s = false) chain ∧ NoDup (pin_key team <$> chain) in
  (fresh ∧ pin_all team ctx chain s = (Ret (pinned team <$> chain), foldl (λ s p, od_set (pin_key team p) (pinned team p) s) s chain)) ∨
  (¬ fresh ∧ ∃ e s', pin_all team ctx chain s = (Raise (PackPolicyError e), s')).
Proof.
  revert s. induction chain as [|p chain IH]; intros s fresh; [left; split; [split; constructor|done]|].
  cbn [pin_all]. unfold bind, lift_policy. rewrite save_pinned.
  destruct (scopes ctx (pp_tenant_id p)) eqn:Hs; [|right; split; [|by eexists _, _]; intros [[[H _] _]%Forall_cons _]; congruence].
  destruct (od_mem (pin_key team p) s) eqn:Hm; [right; split; [|by eexists _, _]; intros [[[_ H] _]%Forall_cons _]; congruence|].
  assert (∀ q, od_mem (pin_key team q) (od_set (pin_key team p) (pinned team p) s) = false ↔ od_mem (pin_key team q) s = false ∧ pin_key team q ≠ pin_key team p) as Hmem.
  { intros q. unfold od_mem. rewrite od_get_set. case_decide as E; (split; [intros H|intros [H1 H2]]); done. }
  destruct (IH (od_set (pin_key team p) (pinned team p) s)) as [[[H1 H2] ->]|[Hno (e & s' & ->)]].
  - left. split; [|done]. split.
    + constructor; [by split|]. eapply Forall_impl; [exact H1|]. intros q [Hq1 Hq2%Hmem]. by destruct Hq2.
    + apply NoDup_cons. split; [|done]. intros (q & Hq & Hin)%list_elem_of_fmap. rewrite Forall_forall in H1.
      destruct (H1 q Hin) as [_ [_ Hne]%Hmem]. by apply Hne.
  - right. split; [|by eexists _, _]. intros [[_ H1]%Forall_cons [H2 H3]%NoDup_cons]. apply Hno. split; [|done].
    apply Forall_forall. intros q Hq. rewrite Forall_forall in H1. destruct (H1 q Hq) as [? ?]. split; [done|]. apply Hmem. split; [done|].
    intros E. apply H2. apply list_elem_of_fmap. by exists q.
Qed.

(** What applying a pack to a team does: it answers exactly when the pack
    is published, its inheritance resolves, no pack is reached in two ways and
    none of the chain has been pinned to the team before; it has then stored
    the chain's packs under the team, in the chain's order.  So a pack with two
    parents that share an ancestor can never be applied, nor a second pack over
    an ancestor the team has already. *)
Theorem apply_pins_once depth name team ctx s :
  let catalog := catalog_of (Packs.list_packs ctx s) in
  (∃ applied s', apply depth name team ctx s = (Ret applied, s')) ↔
  ∃ root chain, od_get name catalog = Some root ∧ resolve depth catalog root = Some chain ∧ NoDup (pin_key team <$> chain) ∧
    Forall (λ p, scopes ctx (pp_tenant_id p) = true ∧ od_mem (pin_key team p) s = false) chain ∧
    apply depth name team ctx s = (Ret (pinned team <$> chain), foldl (λ s p, od_set (pin_key team p) (pinned team p) s) s chain).
Proof.
  intros catalog. split; [|intros (root & chain & _ & _ & _ & _ & ->); by eexists _, _].
  intros (applied & s' & H). pose proof H as H'. unfold apply in H. apply bind_inv in H as (s0 & s1 & [= <- <-] & H). fold catalog in H. cbn zeta in H.
  apply bind_inv in H as (root & s1 & Hr & H). destruct (od_get name catalog) as [root'|] eqn:Hroot; [|done]. injection Hr as <- <-.
  apply bind_inv in H as (chain & s1 & Hc & H). destruct (resolve depth catalog root') as [chain'|] eqn:Hchain; [|done]. injection Hc as <- <-.
  exists root', chain'. destruct (pin_all_run team ctx chain' s) as [[[H1 H2] Hrun]|[_ (e & s1 & Hrun)]]; rewrite Hrun in H; [|done].
  injection H as <- <-. split_and!; [done|done|done|done|exact H'].
Qed.

(** ** Packs that inherit *)

Definition rule_pack (name : string) (action : DecisionOutcome) (above : list string) : PolicyPack :=
  mkPack name "security" "1" "default" false
    [mkOverride (mkMatch None None) [mkRule action None None]] above.

Definition published (packs : list PolicyPack) : Packs.store := (λ p, ((pp_tenant_id p, pp_name p), p)) <$> packs.

(** A baseline that denies, and a child that escalates. *)
Definition two_packs : Packs.store := published [rule_pack "a-team" ESCALATE ["z-base"]; rule_pack "z-base" DENY []].
Definition two_catalog : Catalog := catalog_of (Packs.list_packs DEFAULT_CONTEXT two_packs).

Lemma two_keyed : keyed two_catalog.
Proof.
  intros n p H. assert (two_catalog = [("a-team", rule_pack "a-team" ESCALATE ["z-base"]); ("z-base", rule_pack "z-base" DENY [])]) as E
    by (vm_compute; reflexivity).
  rewrite E in H. simpl in H. repeat case_decide; [| |done]; injection H as <-; done.
Qed.

Lemma lint_resolves_witness :
  ∃ r, resolve 3 two_catalog (rule_pack "a-team" ESCALATE ["z-base"]) = Some r ∧ last r = Some (rule_pack "a-team" ESCALATE ["z-base"]) ∧
    parents_first two_catalog r.
Proof.
  assert (has_cycle 3 two_catalog (rule_pack "a-team" ESCALATE ["z-base"]) ["a-team"] = Some false) as Hc by (vm_compute; reflexivity).
  destruct (lint_resolves two_catalog 3 (rule_pack "a-team" ESCALATE ["z-base"])) as [(_ & r & H1 & H2 & H3 & _)|(H & _)];
    [exact two_keyed|vm_compute; reflexivity|vm_compute; repeat constructor| |].
  - exists r. exact (conj H1 (conj H2 H3)).
  - change (pp_name (rule_pack "a-team" ESCALATE ["z-base"])) with "a-team" in H. rewrite Hc in H. discriminate H.
Defined.

(** Once applied, the child's rule is met first, although its parent's rules
    come first in the chain: a team's packs are listed by name. *)
Example child_met_first :
  let s := (apply 10 "a-team" "t" DEFAULT_CONTEXT two_packs).2 in
  (match (apply 10 "a-team" "t" DEFAULT_CONTEXT two_packs).1 with Ret l => pp_name <$> l | Raise _ => [] end) = ["t:z-base"; "t:a-team"] ∧
  pp_name <$> Packs.for_team (Some "t") DEFAULT_CONTEXT s = ["t:a-team"; "t:z-base"].
Proof. vm_compute. done. Qed.

(** Two parents with a common one: two packs are stored, then
    the call fails. *)
Example diamond_fails :
  let s := published [rule_pack "top" DENY ["left"; "right"]; rule_pack "left" DENY ["base"]; rule_pack "right" DENY ["base"]; rule_pack "base" DENY []] in
  let r := apply 10 "top" "t" DEFAULT_CONTEXT s in
  r.1 = Raise (PackPolicyError (PolicyPackAlreadyExistsError "t:base")) ∧
  pp_name <$> Packs.for_team (Some "t") DEFAULT_CONTEXT r.2 = ["t:base"; "t:left"].
Proof. vm_compute. done. Qed.

(** A pack that inherits from itself is published, and cannot be applied. *)
Example loop_fails :
  (publish (rule_pack "self" DENY ["self"]) DEFAULT_CONTEXT []).1 = Ret (rule_pack "self" DENY ["self"]) ∧
  (apply 1000 "self" "t" DEFAULT_CONTEXT (published [rule_pack "self" DENY ["self"]])).1 = Raise PackRecursionError.
Proof. vm_compute. done. Qed.
