(* ===== verification/Incident.v ===== *)
(** * Incident mode ([incident/], [api/fleet.py])

    Halting and resuming the fleet or a scope of it over the in-memory store,
    with the scheduler's freeze as [api/app.py] wires it, and the gate that
    admission consults.  The clock, identifiers, transports, [isoformat] and
    the audit log are parameters. *)

From stdpp Require Import base strings pretty numbers gmap sets list.
From S2P Require Import Prelude Text Float64 Tenancy CoreModels Scheduler Policy Admission Manifest Drift.

#[local] Open Scope hp_scope.

(** ** Records *)

Inductive HaltScope := FLEET | TENANT | WORKLOAD.

#[export] Instance HaltScope_eq_dec : EqDecision HaltScope.
Proof. solve_decision. Defined.

Definition scope_value (s : HaltScope) : string := match s with FLEET => "fleet" | TENANT => "tenant" | WORKLOAD => "workload" end.

Record IncidentRecord := mkIncident {
  ic_incident_id : string; ic_scope : HaltScope; ic_scope_ref : option string; ic_trigger : string; ic_reason : option string; ic_actor : string;
  ic_halted_at : Z; ic_resumed_at : option Z; ic_resumed_by : option string; ic_owners_notified : list string }.

Definition incident_valid (r : IncidentRecord) : bool :=
  between 1 64 (ic_incident_id r) && opt_between 0 64 (ic_scope_ref r) && between 1 64 (ic_trigger r) && opt_between 0 2000 (ic_reason r)
  && between 1 253 (ic_actor r) && opt_between 0 253 (ic_resumed_by r).

Definition is_active (r : IncidentRecord) : bool := match ic_resumed_at r with None => true | Some _ => false end.

(** The two copies the service makes. *)
Definition with_owners (r : IncidentRecord) (owners : list string) : IncidentRecord :=
  mkIncident (ic_incident_id r) (ic_scope r) (ic_scope_ref r) (ic_trigger r) (ic_reason r) (ic_actor r) (ic_halted_at r) (ic_resumed_at r)
    (ic_resumed_by r) owners.
Definition as_resumed (r : IncidentRecord) (at_ : Z) (actor : string) : IncidentRecord :=
  mkIncident (ic_incident_id r) (ic_scope r) (ic_scope_ref r) (ic_trigger r) (ic_reason r) (ic_actor r) (ic_halted_at r) (Some at_) (Some actor)
    (ic_owners_notified r).

Inductive IncidentExn := NoActiveIncidentError | InvalidIncident | IncidentExternalError (what : string).

(** ** The store *)

Abbreviation IncidentStore := (odict string IncidentRecord).

Definition halted_leb (a b : IncidentRecord) : bool := (ic_halted_at a <=? ic_halted_at b)%Z.
Definition active_all (s : IncidentStore) : list IncidentRecord := py_sort halted_leb (filter (λ r, is_active r = true) (od_values s)).
Definition active (s : IncidentStore) : option IncidentRecord := last (active_all s).
Definition list_incidents (s : IncidentStore) : list IncidentRecord := py_sort halted_leb (od_values s).

(** ** Reading *)

(** [_covers] *)
Definition covers (tenant_id workload : option string) (r : IncidentRecord) : bool :=
  match ic_scope r with
  | FLEET => true
  | TENANT => match tenant_id with Some t => bool_decide (ic_scope_ref r = Some t) | None => false end
  | WORKLOAD => match workload with Some w => bool_decide (ic_scope_ref r = Some w) | None => false end
  end.

(** [halted]: a store that cannot be read halts everything. *)
Definition halted {E} (reading : outcome E (list IncidentRecord)) (tenant_id workload : option string) : bool :=
  match reading with Raise _ => true | Ret l => existsb (covers tenant_id workload) l end.

(** [IncidentHaltGate.halted] over the in-memory store. *)
Definition halt_gate (s : IncidentStore) (tenant_id workload : string) : outcome ExecExn bool :=
  Ret (halted (E := ExecExn) (Ret (active_all s)) (Some tenant_id) (Some workload)).

Definition visible_to (tenant_id : string) (r : IncidentRecord) : bool :=
  match ic_scope r with FLEET => true | TENANT => bool_decide (ic_scope_ref r = Some tenant_id) | WORKLOAD => false end.

(** [active_for], [history], [history_for] *)
Definition active_for (tenant_id : string) (s : IncidentStore) : option IncidentRecord :=
  match active s with Some r => if visible_to tenant_id r then Some r else None | None => None end.
Definition history (s : IncidentStore) : list IncidentRecord := rev (list_incidents s).
Definition history_for (tenant_id : string) (s : IncidentStore) : list IncidentRecord := filter (λ r, visible_to tenant_id r = true) (history s).

(** ** The service *)

Record World (X : Type) := mkWorld { iw_store : IncidentStore; iw_queue : Scheduler; iw_ext : X }.
Arguments mkWorld {X}.
Arguments iw_store {X}.
Arguments iw_queue {X}.
Arguments iw_ext {X}.

Record Env (X : Type) := mkEnv {
  ie_clock : X → Z * X;
  ie_incident_id : X → string * X;
  ie_audit : option (string → string → string → string → X → (IncidentExn + unit) * X);
  ie_notifier : option (Notifier X);
  ie_isoformat : Z → string;
  ie_drain : option (Scheduler → Scheduler);
  ie_undrain : option (Scheduler → Scheduler) }.
Arguments mkEnv {X}.
Arguments ie_clock {X}.
Arguments ie_incident_id {X}.
Arguments ie_audit {X}.
Arguments ie_notifier {X}.
Arguments ie_isoformat {X}.
Arguments ie_drain {X}.
Arguments ie_undrain {X}.

(** [compose_incident_message] *)
Definition compose_incident_message (isoformat : Z → string) (r : IncidentRecord) : odict string JsonValue :=
  [("type", JStr "fleet.halted"); ("incident_id", JStr (ic_incident_id r)); ("scope", JStr (scope_value (ic_scope r)));
   ("scope_ref", json_opt_str (ic_scope_ref r)); ("trigger", JStr (ic_trigger r)); ("reason", json_opt_str (ic_reason r));
   ("actor", JStr (ic_actor r)); ("halted_at", JStr (isoformat (ic_halted_at r)));
   ("action_required", JStr "investigate the incident; run `hiveplane fleet resume` to recover")].

Section Service.
Context {X : Type}.
Variable env : Env X.

Abbreviation IM := (M (World X) IncidentExn).

Definition on_ext {A} (f : X → A * X) : IM A := λ w, let '(a, x) := f (iw_ext w) in (Ret a, mkWorld (iw_store w) (iw_queue w) x).
Definition save (r : IncidentRecord) : IM unit := modify (λ w, mkWorld (od_set (ic_incident_id r) r (iw_store w)) (iw_queue w) (iw_ext w)).
Definition on_queue (f : option (Scheduler → Scheduler)) : IM unit :=
  match f with None => ret tt | Some f => modify (λ w, mkWorld (iw_store w) (f (iw_queue w)) (iw_ext w)) end.

Definition audit (actor action id detail : string) : IM unit :=
  match ie_audit env with
  | None => ret tt
  | Some append => λ w, let '(r, x) := append actor action id detail (iw_ext w) in
                        (match r with inl e => Raise e | inr u => Ret u end, mkWorld (iw_store w) (iw_queue w) x)
  end.

(** [IncidentBroadcaster.notify] *)
Fixpoint broadcast (n : Notifier X) (message : odict string JsonValue) (l : list FanOutDestination) : IM (list string) :=
  match l with
  | [] => ret []
  | f :: l =>
      match od_get (fd_type f) (dn_transports n) with
      | None => broadcast n message l
      | Some send =>
          let* ok := on_ext (send f message) in
          let* rest := broadcast n message l in
          ret (if ok : bool then target f :: rest else rest)
      end
  end.
Definition notify (n : Notifier X) (r : IncidentRecord) : IM (list string) :=
  if dn_enabled n then broadcast n (compose_incident_message (ie_isoformat env) r) (dn_destinations n) else ret [].

(** [reason or text] *)
Definition reason_text (r : IncidentRecord) : string :=
  match ic_reason r with Some EmptyString | None => "scope=" +:+ scope_value (ic_scope r) | Some s => s end.

(** [pause] *)
Definition pause (actor : string) (reason : option string) (scope : HaltScope) (scope_ref : option string) (trigger : string) : IM IncidentRecord :=
  let* id := on_ext (ie_incident_id env) in
  let* now := on_ext (ie_clock env) in
  let r := mkIncident id scope scope_ref trigger reason actor now None None [] in
  if incident_valid r then
    save r ;;;
    on_queue (ie_drain env) ;;;
    let* r := match ie_notifier env with
              | None => ret r
              | Some n =>
                  let* owners := notify n r in
                  match owners with [] => ret r | _ => save (with_owners r owners) ;;; ret (with_owners r owners) end
              end in
    audit actor "fleet.paused" (ic_incident_id r) (reason_text r) ;;;
    ret r
  else raise InvalidIncident.

(** What [resume] acts on. *)
Definition resume_target (incident_id : option string) (s : IncidentStore) : option IncidentRecord :=
  r ← (match incident_id with Some i => od_get i s | None => active s end);
  if is_active r then Some r else None.

(** [resume] *)
Definition resume (actor : string) (incident_id : option string) : IM IncidentRecord :=
  let* s := gets iw_store in
  let* r := of_option NoActiveIncidentError (resume_target incident_id s) in
  let* now := on_ext (ie_clock env) in
  save (as_resumed r now actor) ;;;
  on_queue (ie_undrain env) ;;;
  audit actor "fleet.resumed" (ic_incident_id r) ("halted_by=" +:+ ic_actor r) ;;;
  ret (as_resumed r now actor).

(** ** Endpoints ([api/fleet.py]) *)

(** [_actor] *)
Definition actor_of (operator_id : string) (requested : option string) : string :=
  if bool_decide (operator_id ≠ EmptyString) && negb (bool_decide (operator_id = "anonymous")) then operator_id else or_str requested operator_id.

Record FleetState := mkFleetState { fs_halted : bool; fs_active : option IncidentRecord; fs_history : list IncidentRecord }.

Definition pause_fleet (operator_id : string) (requested reason : option string) (scope : HaltScope) (scope_ref : option string) (trigger : string) :=
  pause (actor_of operator_id requested) reason scope scope_ref trigger.
(** [None] is the status 409. *)
Definition resume_fleet (operator_id : string) (requested incident_id : option string) : IM (option IncidentRecord) :=
  try_except (let* r := resume (actor_of operator_id requested) incident_id in ret (Some r))
    (λ e, match e with NoActiveIncidentError => ret None | _ => raise e end).
Definition fleet_state (tenant_id : string) (s : IncidentStore) : FleetState :=
  let a := active_for tenant_id s in
  mkFleetState (match a with Some _ => true | None => false end) a (history_for tenant_id s).

(** ** The wiring ([api/app.py]): any pause freezes the whole queue, any resume
    lifts that freeze *)
Definition drain_fleet : Scheduler → Scheduler := freeze None None.
Definition undrain_fleet : Scheduler → Scheduler := unfreeze None None.

(** ** Runs *)

Inductive IncidentOp :=
  | OPause (actor : string) (reason : option string) (scope : HaltScope) (scope_ref : option string) (trigger : string)
  | OResume (actor : string) (incident_id : option string).

Definition perform (o : IncidentOp) (w : World X) : World X :=
  match o with
  | OPause actor reason scope ref trigger => (pause actor reason scope ref trigger w).2
  | OResume actor id => (resume actor id w).2
  end.
Definition perform_all (ops : list IncidentOp) (w : World X) : World X := foldl (λ w o, perform o w) w ops.

(** What a call makes of the halts: one is declared, one is lifted, or none. *)
Inductive IncidentEvent := Declared (r : IncidentRecord) | Ended (incident_id : string).

Definition event_of (o : IncidentOp) (w : World X) : option IncidentEvent :=
  match o with
  | OPause actor reason scope ref trigger =>
      let '(id, x) := ie_incident_id env (iw_ext w) in
      let r := mkIncident id scope ref trigger reason actor (ie_clock env x).1 None None [] in
      if incident_valid r then Some (Declared r) else None
  | OResume _ id => Ended ∘ ic_incident_id <$> resume_target id (iw_store w)
  end.

Fixpoint incident_log (ops : list IncidentOp) (w : World X) : list IncidentEvent :=
  match ops with [] => [] | o :: ops => option_list (event_of o w) ++ incident_log ops (perform o w) end.

(** The halts in force after a log. *)
Definition apply_event (d : IncidentStore) (e : IncidentEvent) : IncidentStore :=
  match e with Declared r => od_set (ic_incident_id r) r d | Ended id => od_del id d end.
Definition in_force (log : list IncidentEvent) : IncidentStore := foldl apply_event [] log.

(** The store shows exactly these as active, up to who was notified. *)
Definition shows (s : IncidentStore) (d : IncidentStore) : Prop :=
  ∀ id, (r ← od_get id s; if is_active r then Some (with_owners r []) else None) = (λ r, with_owners r []) <$> od_get id d.

Definition store_wf (s : IncidentStore) : Prop := od_wf s ∧ ∀ id r, od_get id s = Some r → ic_incident_id r = id.

(** The rest of a call leaves the store and the queue alone. *)
Definition still (w w' : World X) : Prop := iw_store w' = iw_store w ∧ iw_queue w' = iw_queue w.

#[local] Instance still_preorder : PreOrder still.
Proof. split; [by intros w|]. intros a b c [H1 H2] [H3 H4]. split; congruence. Qed.

Lemma still_ext {A} (f : X → A * X) : keeps still (on_ext f).
Proof. intros w. unfold on_ext. by destruct (f (iw_ext w)). Qed.

Lemma still_audit a b c d : keeps still (audit a b c d).
Proof. unfold audit. destruct (ie_audit env) as [f|]; [|by intros w]. intros w. by destruct (f a b c d (iw_ext w)). Qed.

Lemma still_broadcast n m l : keeps still (broadcast n m l).
Proof.
  induction l as [|f l IH]; simpl; [by intros w|]. destruct (od_get (fd_type f) (dn_transports n)) as [send|]; [|done].
  apply keeps_bind; [apply _|apply still_ext|]. intros ok. apply keeps_bind; [apply _|done|]. by intros rest w.
Qed.

Lemma still_notify n r : keeps still (notify n r).
Proof. unfold notify. destruct (dn_enabled n); [apply still_broadcast|by intros w]. Qed.

Definition drained (w : World X) : Scheduler := default id (ie_drain env) (iw_queue w).
Definition undrained (w : World X) : Scheduler := default id (ie_undrain env) (iw_queue w).

Lemma bind_on_ext {A B} (f : X → A * X) (k : A → IM B) w :
  bind (on_ext f) k w = k (f (iw_ext w)).1 (mkWorld (iw_store w) (iw_queue w) (f (iw_ext w)).2).
Proof. unfold bind, on_ext. by destruct (f (iw_ext w)). Qed.

Lemma bind_save {B} r (k : unit → IM B) w : bind (save r) k w = k tt (mkWorld (od_set (ic_incident_id r) r (iw_store w)) (iw_queue w) (iw_ext w)).
Proof. done. Qed.

Lemma bind_on_queue {B} f (k : unit → IM B) w : bind (on_queue f) k w = k tt (mkWorld (iw_store w) (default id f (iw_queue w)) (iw_ext w)).
Proof. destruct f as [f|]; [done|]. by destruct w. Qed.

Lemma pause_spec actor reason scope ref trigger w :
  let w' := (pause actor reason scope ref trigger w).2 in
  match event_of (OPause actor reason scope ref trigger) w with
  | Some (Declared r) => (∃ owners, iw_store w' = od_set (ic_incident_id r) (with_owners r owners) (iw_store w)) ∧ iw_queue w' = drained w
  | _ => still w w'
  end.
Proof.
  cbn [event_of]. unfold pause. rewrite !bind_on_ext. cbn [iw_ext iw_store iw_queue].
  destruct (ie_incident_id env (iw_ext w)) as [id x]. cbn [fst snd]. destruct (ie_clock env x) as [now x']. cbn [fst snd].
  set (r := mkIncident id scope ref trigger reason actor now None None []). destruct (incident_valid r); [|by split].
  rewrite bind_save, bind_on_queue. cbn [iw_ext iw_store iw_queue]. set (s1 := od_set (ic_incident_id r) r (iw_store w)).
  fold (drained w). set (w1 := mkWorld s1 (drained w) x').
  match goal with |- context [bind ?a ?b w1] => set (m := a); set (k := b) end.
  assert (∃ owners, iw_store (m w1).2 = od_set (ic_incident_id r) (with_owners r owners) (iw_store w) ∧ iw_queue (m w1).2 = drained w) as (owners & H1 & H2).
  { subst m. destruct (ie_notifier env) as [n|]; [|by exists []]. pose proof (still_notify n r w1) as [H1 H2]. unfold bind.
    destruct (notify n r w1) as [[owners|e] w2]; cbn in H1, H2; [|by exists []]. destruct owners as [|o owners]; [by exists []|].
    exists (o :: owners). cbn. rewrite H1, H2. unfold w1, s1, r. cbn. by rewrite od_set_set. }
  assert (still (m w1).2 (bind m k w1).2) as [H3 H4].
  { unfold bind. destruct (m w1) as [[r'|e] w2]; [|done]. apply keeps_bind; [apply _|apply still_audit|by intros ? ?]. }
  split; [exists owners; by rewrite H3|by rewrite H4].
Qed.

Lemma resume_spec actor id w :
  let w' := (resume actor id w).2 in
  match resume_target id (iw_store w) with
  | Some r => (∃ now, iw_store w' = od_set (ic_incident_id r) (as_resumed r now actor) (iw_store w)) ∧ iw_queue w' = undrained w
  | None => still w w'
  end.
Proof.
  unfold resume. assert (∀ k : IncidentStore → IM IncidentRecord, bind (gets iw_store) k w = k (iw_store w) w) as -> by done.
  destruct (resume_target id (iw_store w)) as [r|]; [|done]. cbn [of_option].
  assert (∀ k : IncidentRecord → IM IncidentRecord, bind (ret r) k w = k r w) as -> by done.
  rewrite bind_on_ext. destruct (ie_clock env (iw_ext w)) as [now x]. cbn [fst snd].
  rewrite bind_save, bind_on_queue. cbn [iw_ext iw_store iw_queue]. fold (undrained w). set (w1 := mkWorld _ _ _).
  match goal with |- context [bind ?a ?k w1] => assert (still w1 (bind a k w1).2) as [H3 H4] end.
  { apply keeps_bind; [apply _|apply still_audit|by intros ? ?]. }
  split; [exists now|]; by rewrite ?H3, ?H4.
Qed.

(** *** Sequences of calls *)

Lemma od_wf_apply d e : od_wf d → od_wf (apply_event d e).
Proof. destruct e; simpl; auto with odict. Qed.

Lemma store_wf_set (s : IncidentStore) r owners :
  store_wf s → store_wf (od_set (ic_incident_id r) (with_owners r owners) s).
Proof.
  intros [H1 H2]. split; [by apply od_wf_set|]. intros id r'. rewrite od_get_set. case_decide as Hi; [|apply H2].
  intros [= <-]. by subst.
Qed.

Lemma store_wf_resumed (s : IncidentStore) r at_ actor : store_wf s → store_wf (od_set (ic_incident_id r) (as_resumed r at_ actor) s).
Proof.
  intros [H1 H2]. split; [by apply od_wf_set|]. intros id r'. rewrite od_get_set. case_decide as Hi; [|apply H2].
  intros [= <-]. by subst.
Qed.

Lemma active_elem s r : r ∈ active_all s ↔ r ∈ od_values s ∧ is_active r = true.
Proof. unfold active_all. rewrite (py_sort_perm halted_leb). rewrite list_elem_of_filter. tauto. Qed.

Lemma resume_target_spec id s r : store_wf s → resume_target id s = Some r → od_get (ic_incident_id r) s = Some r ∧ is_active r = true.
Proof.
  intros [H1 H2]. unfold resume_target. intros (r' & Hr & Ha)%bind_Some. destruct (is_active r') eqn:E; simplify_eq. split; [|done].
  destruct id as [id|]; [by rewrite (H2 _ _ Hr)|]. unfold active in Hr. apply last_Some_elem_of, active_elem in Hr as [Hr _].
  destruct (od_value_get _ _ Hr H1) as [k Hk]. by rewrite (H2 _ _ Hk).
Qed.

Lemma perform_shows o w d :
  store_wf (iw_store w) → od_wf d → shows (iw_store w) d →
  store_wf (iw_store (perform o w)) ∧ shows (iw_store (perform o w)) (foldl apply_event d (option_list (event_of o w))).
Proof.
  intros Hs Hd Hsh. destruct o as [actor reason scope ref trigger|actor id].
  - pose proof (pause_spec actor reason scope ref trigger w) as H. cbv zeta in H. cbn [perform].
    destruct (event_of _ w) as [[r|i]|] eqn:E.
    + destruct H as ((owners & ->) & _). cbn. split; [by apply store_wf_set|]. intros i. rewrite !od_get_set. case_decide; [|apply Hsh]. cbn.
      assert (is_active r = true) as Ha; [|unfold is_active, with_owners in *; cbn; by rewrite Ha].
      cbn in E. destruct (ie_incident_id env (iw_ext w)). destruct (incident_valid _); by simplify_eq.
    + exfalso. cbn in E. destruct (ie_incident_id env (iw_ext w)). by destruct (incident_valid _).
    + destruct H as [-> _]. done.
  - pose proof (resume_spec actor id w) as H. cbv zeta in H. cbn [perform event_of]. destruct (resume_target id (iw_store w)) as [r|] eqn:E.
    + destruct H as ((now & ->) & _). cbn. split; [by apply store_wf_resumed|]. intros i. rewrite od_get_set, od_get_del by done.
      case_decide; [done|apply Hsh].
    + destruct H as [-> _]. done.
Qed.

Lemma perform_all_shows ops w d :
  store_wf (iw_store w) → od_wf d → shows (iw_store w) d →
  store_wf (iw_store (perform_all ops w)) ∧ shows (iw_store (perform_all ops w)) (foldl apply_event d (incident_log ops w)).
Proof.
  revert w d. induction ops as [|o ops IH]; intros w d Hs Hd Hsh; [done|]. destruct (perform_shows o w d Hs Hd Hsh) as [H1 H2].
  cbn [perform_all foldl incident_log]. rewrite foldl_app. apply IH; [done| |done]. destruct (event_of o w); simpl; [by apply od_wf_apply|done].
Qed.

Lemma covers_stripped t wl r : covers t wl (with_owners r []) = covers t wl r.
Proof. done. Qed.

Lemma existsb_spec {A} (f : A → bool) l : existsb f l = true ↔ ∃ x, x ∈ l ∧ f x = true.
Proof. rewrite existsb_exists. by setoid_rewrite list_elem_of_In. Qed.

Lemma shows_halts s d t wl : store_wf s → od_wf d → shows s d → existsb (covers t wl) (active_all s) = existsb (covers t wl) (od_values d).
Proof.
  intros [Hs _] Hd Hsh. apply eq_true_iff_eq. rewrite !existsb_spec. split; intros (r & Hr & Hc).
  - apply active_elem in Hr as [Hr Ha]. destruct (od_value_get _ _ Hr Hs) as [k Hk]. specialize (Hsh k). rewrite Hk in Hsh. cbn in Hsh.
    rewrite Ha in Hsh. symmetry in Hsh. apply fmap_Some in Hsh as (r' & Hr' & He). exists r'. split; [by eapply od_get_value|].
    by rewrite <- covers_stripped, <- He, covers_stripped.
  - destruct (od_value_get _ _ Hr Hd) as [k Hk]. specialize (Hsh k). rewrite Hk in Hsh. cbn in Hsh.
    apply bind_Some in Hsh as (r' & Hr' & He). destruct (is_active r') eqn:Ha; [|done]. injection He as He'.
    exists r'. split; [apply active_elem; split; [by eapply od_get_value|done]|].
    rewrite <- covers_stripped. change (covers t wl (with_owners r' []) = true). replace (with_owners r' []) with (with_owners r []); [done|].
    unfold with_owners. by f_equal.
Qed.

(** What a run meets at the halt gate. *)
Definition in_halt (halts : IncidentStore) (r : Run) (wl : AgentWorkload) : bool :=
  existsb (covers (Some (run_tenant_id r)) (Some (wl_name wl))) (od_values halts).

(** C21: whatever sequence of pauses and resumes ran from an empty store, the halt
    gate of admission stops a run exactly when a halt that was declared and not
    lifted since covers its tenant or workload, and such a run is refused
    without any other gate being consulted. *)
Theorem halts_decide_admission ops w g r wl req :
  iw_store w = [] → g_halt g = Some (halt_gate (iw_store (perform_all ops w))) →
  Admission.halted g r wl = in_halt (in_force (incident_log ops w)) r wl ∧
  (in_halt (in_force (incident_log ops w)) r wl = true → ∀ context, run_context r = Some context →
   ∃ checks, admission_check g r wl req = Ret (refused r context checks "fleet halted: incident mode is active")).
Proof.
  intros Hw Hg.
  assert (store_wf (iw_store (perform_all ops w)) ∧ shows (iw_store (perform_all ops w)) (in_force (incident_log ops w))) as [H1 H2].
  { apply perform_all_shows; [|apply od_wf_nil|]; rewrite Hw; [split; [apply od_wf_nil|done]|done]. }
  assert (Admission.halted g r wl = in_halt (in_force (incident_log ops w)) r wl) as Hh.
  { unfold Admission.halted, in_halt. rewrite Hg. cbn. apply shows_halts; [done| |done]. unfold in_force.
    generalize (incident_log ops w). intros l. assert (∀ d, od_wf d → od_wf (foldl apply_event d l)) as Hwf; [|apply Hwf, od_wf_nil].
    induction l as [|e l IH]; intros d Hd; [done|]. by apply IH, od_wf_apply. }
  split; [done|]. intros Hi context Hc. rewrite Hi in Hh. exists (halt_checks g r wl). unfold admission_check. by rewrite Hc, Hh.
Qed.

(** The freeze of the queue follows the last event alone: any pause freezes the
    whole queue, and lifting any halt thaws it, whatever others are in force. *)
Theorem queue_follows_last_event ops w :
  ie_drain env = Some drain_fleet → ie_undrain env = Some undrain_fleet →
  sc_frozen_all (iw_queue (perform_all ops w)) =
    match last (incident_log ops w) with
    | Some (Declared _) => true | Some (Ended _) => false | None => sc_frozen_all (iw_queue w)
    end.
Proof.
  intros Hd Hu. revert w. induction ops as [|o ops IH]; intros w; [done|]. cbn [perform_all foldl incident_log]. change (foldl _ _ ops) with (perform_all ops (perform o w)).
  rewrite last_app, IH. destruct (last (incident_log ops (perform o w))) as [e|]; [done|].
  destruct o as [actor reason scope ref trigger|actor id].
  - pose proof (pause_spec actor reason scope ref trigger w) as H. cbv zeta in H. cbn [perform].
    destruct (event_of _ w) as [[r|i]|] eqn:E.
    + destruct H as [_ ->]. cbn. unfold drained. by rewrite Hd.
    + exfalso. cbn in E. destruct (ie_incident_id env (iw_ext w)). by destruct (incident_valid _).
    + by destruct H as [_ ->].
  - pose proof (resume_spec actor id w) as H. cbv zeta in H. cbn [perform event_of]. destruct (resume_target id (iw_store w)) as [r|].
    + destruct H as [_ ->]. cbn. unfold undrained. by rewrite Hu.
    + by destruct H as [_ ->].
Qed.
End Service.

(** ** A concrete fleet *)

Definition demo_ids : Env nat := mkEnv (λ n, (Z.of_nat n, S n)) (λ n, ("inc-" +:+ pretty n, S n)) None None (λ _, "t") (Some drain_fleet) (Some undrain_fleet).
Definition demo_world : World nat := mkWorld [] (scheduler_init demo_config) 0.

Definition demo_halt_gates (s : IncidentStore) : Gates :=
  {| g_halt := Some (halt_gate s); g_check_admission := g_check_admission (demo_gates (Ret false)); g_attestation_model := λ _ _, Ret None;
     g_budget := λ w _ _, Ret (unlimited_check w); g_policy := engine_policy no_zones 0 0 []; g_sandbox := λ w c a, Ret false |}.

(** The tenant is halted, then another one; the second halt is lifted. *)
Definition demo_ops : list IncidentOp :=
  [OPause "op" None TENANT (Some "acme") "operator"; OPause "op" (Some "why") TENANT (Some "beta") "operator"; OResume "op" None].

Abbreviation demo_store := (iw_store (perform_all demo_ids demo_ops demo_world)).

Lemma halts_decide_admission_witness :
  in_halt (in_force (incident_log demo_ids demo_ops demo_world)) demo_admission_run (demo_admission_workload CERTIFIED) = true ∧
  ∃ checks, admission_check (demo_halt_gates demo_store) demo_admission_run (demo_admission_workload CERTIFIED) false =
    Ret (refused demo_admission_run STAGING checks "fleet halted: incident mode is active").
Proof.
  split; [vm_compute; reflexivity|].
  apply (proj2 (halts_decide_admission demo_ids demo_ops demo_world (demo_halt_gates demo_store) demo_admission_run
    (demo_admission_workload CERTIFIED) false eq_refl eq_refl)); vm_compute; reflexivity.
Defined.

(** Lifting the second halt thaws the queue, though the first is in force. *)
Example thawed_while_halted :
  sc_frozen_all (iw_queue (perform_all demo_ids demo_ops demo_world)) = false ∧ length (active_all demo_store) = 1%nat.
Proof. vm_compute. done. Qed.

(** A halt of another tenant's workload, declared later, hides a halt of the
    whole fleet from the state that a tenant is shown. *)
Example later_halt_hides_fleet_halt :
  let s := iw_store (perform_all demo_ids [OPause "op" None FLEET None "operator"; OPause "op" None WORKLOAD (Some "other") "operator"] demo_world) in
  fs_halted (fleet_state "acme" s) = false ∧ halt_gate s "acme" "w" = Ret true.
Proof. vm_compute. done. Qed.

(** A scoped halt that names nothing stops nobody. *)
Example unnamed_scope_halts_nobody t wl :
  halt_gate (iw_store (perform_all demo_ids [OPause "op" None TENANT None "operator"; OPause "op" None WORKLOAD None "operator"] demo_world)) t wl = Ret false.
Proof. vm_compute. done. Qed.
