(* ===== verification/Health.v ===== *)
(** * Agent health, error budgets and burn-through ([health/], [core/health.py])

    The health of a workload over the runs of a window, its objectives and burn
    rate, what an exhausted budget triggers, and the sweep that applies it with
    its debounce; approval analytics and the plane's own metrics.  What the
    service looks up is its environment, as in the code; instants are
    microseconds. *)

From stdpp Require Import base strings pretty numbers gmap sets list.
From S2P Require Import Prelude Text Float64 Rounding Tenancy CoreModels Scheduler Policy Guards Approvals Admission Certification Registry Drift.

#[local] Open Scope hp_scope.

(** ** Records ([health/models.py]) *)

Inductive HealthStatus := HEALTHY | DEGRADED | UNHEALTHY | INSUFFICIENT_DATA.
Inductive Objective := AVAILABILITY | QUALITY.
Inductive ObjectiveStatus := OBJ_OK | AT_RISK | BREACHED.

#[export] Instance HealthStatus_eq_dec : EqDecision HealthStatus.
Proof. solve_decision. Defined.
#[export] Instance Objective_eq_dec : EqDecision Objective.
Proof. solve_decision. Defined.
#[export] Instance ObjectiveStatus_eq_dec : EqDecision ObjectiveStatus.
Proof. solve_decision. Defined.

Record SloTarget := mkSlo { st_availability_target : f64; st_quality_target : option f64; st_window_seconds : Z }.

Record SloObjective := mkObjective {
  so_objective : Objective; so_target : f64; so_window_seconds : Z; so_error_budget : f64; so_consumed : f64; so_remaining : f64;
  so_observed : option f64; so_status : ObjectiveStatus }.

Record WorkloadHealth := mkWorkloadHealth {
  wh_workload : string; wh_window_seconds : Z; wh_terminal_runs : Z; wh_failed_runs : Z; wh_failure_rate : f64; wh_mttr_seconds : option Z;
  wh_readiness : bool; wh_quality_score : option f64; wh_drift_status : string; wh_breaker_open : bool; wh_objectives : list SloObjective;
  wh_insufficient_data : bool; wh_status : HealthStatus; wh_generated_at : Z }.

Record BurnRate := mkBurn {
  br_workload : string; br_window_seconds : Z; br_observed_error_rate : f64; br_allowed_error_rate : f64; br_burn_rate : f64;
  br_critical : bool; br_alert : bool }.

Record BurnThroughAction := mkAction { ba_workload : string; ba_action : string; ba_reason : string; ba_burn_rate : option f64 }.

Definition one : f64 := f64_lit 1 1.
Definition ge_zero (x : f64) : bool := f64_leb f64_zero x.
Definition unit_interval (x : f64) : bool := ge_zero x && f64_leb x one.
Definition objective_valid (o : SloObjective) : bool := ge_zero (so_error_budget o) && ge_zero (so_consumed o) && ge_zero (so_remaining o).
Definition health_valid (h : WorkloadHealth) : bool :=
  bool_decide (wh_workload h ≠ EmptyString) && (0 <? wh_window_seconds h)%Z && unit_interval (wh_failure_rate h)
  && match wh_mttr_seconds h with Some n => (0 <=? n)%Z | None => true end.
Definition burn_valid (b : BurnRate) : bool :=
  bool_decide (br_workload b ≠ EmptyString) && (0 <? br_window_seconds b)%Z && unit_interval (br_observed_error_rate b)
  && unit_interval (br_allowed_error_rate b) && ge_zero (br_burn_rate b).

Inductive HealthExn :=
  | InvalidHealth (what : string) | KeyError | HealthOverflow
  | HealthRegistryError (e : RegistryExn) | HealthDriftError (e : DriftExn) | HealthBreakerError (e : Guards.Breaker.BreakerExn) | HealthExternal (what : string).

(** [WorkloadHealth.objective] *)
Definition objective_of (h : WorkloadHealth) (o : Objective) : outcome HealthExn SloObjective :=
  match filter (λ e, so_objective e = o) (wh_objectives h) with e :: _ => Ret e | [] => Raise KeyError end.

(** ** The model ([health/service.py]) *)

Definition TERMINAL : list RunState := [COMPLETED; FAILED].
Definition seconds (n : Z) : Z := n * 1000000.

Definition finished_leb (a b : Run) : bool :=
  at_leb (λ r, default (run_updated_at r) (run_finished_at r)) run_id a b.

(** [_terminal_runs] *)
Definition in_window (cutoff : Z) (r : Run) : bool :=
  bool_decide (run_state r ∈ TERMINAL) && match run_finished_at r with Some f => (cutoff <=? f)%Z | None => false end.
Definition terminal_runs (runs : list Run) (now window_seconds : Z) : list Run :=
  py_sort finished_leb (filter (λ r, in_window (now - seconds window_seconds) r = true) runs).

Definition count_failed (l : list Run) : Z := Z.of_nat (length (filter (λ r, run_state r = FAILED) l)).
Definition count (l : list Run) : Z := Z.of_nat (length l).

(** [_mttr_seconds]: the time from every failure to the next success. *)
Fixpoint next_completed (l : list Run) : option Z :=
  match l with
  | [] => None
  | r :: l => if bool_decide (run_state r = COMPLETED) then match run_finished_at r with Some f => Some f | None => next_completed l end
              else next_completed l
  end.
Fixpoint gaps (l : list Run) : list f64 :=
  match l with
  | [] => []
  | r :: l =>
      match (if bool_decide (run_state r = FAILED) then run_finished_at r else None) with
      | Some f => match next_completed l with Some g => total_seconds (g - f) :: gaps l | None => gaps l end
      | None => gaps l
      end
  end.
Definition mttr_seconds (l : list Run) : outcome HealthExn (option Z) :=
  match gaps l with
  | [] => Ret None
  | g => match f64_trunc (f64_div (f64_sum g) (f64_of_Z (Z.of_nat (length g)))) with Some n => Ret (Some n) | None => Raise HealthOverflow end
  end.

Definition checked {A} (what : string) (valid : A → bool) (a : A) : outcome HealthExn A := if valid a then Ret a else Raise (InvalidHealth what).

(** [(1.0 - target) * terminal] *)
Definition error_budget (target : f64) (terminal : Z) : f64 := f64_mul (f64_sub one target) (f64_of_Z terminal).

(** [_availability_objective] *)
Definition availability_objective (target : f64) (window_seconds terminal failed : Z) : outcome HealthExn SloObjective :=
  let budget := error_budget target terminal in
  let consumed := f64_of_Z failed in
  let status := if f64_ltb budget consumed then BREACHED
                else if f64_ltb f64_zero budget && f64_ltb (f64_mul (f64_lit 1 2) budget) consumed then AT_RISK else OBJ_OK in
  checked "objective" objective_valid
    {| so_objective := AVAILABILITY; so_target := target; so_window_seconds := window_seconds; so_error_budget := f64_round 10 budget;
       so_consumed := consumed; so_remaining := f64_round 10 (f64_max f64_zero (f64_sub budget consumed));
       so_observed := if (terminal =? 0)%Z then None else Some (f64_sub one (int_truediv failed terminal)); so_status := status |}.

(** [_quality_objective] *)
Definition quality_objective (target : f64) (window_seconds terminal : Z) (score : f64) : outcome HealthExn SloObjective :=
  let budget := error_budget target terminal in
  let consumed := f64_mul (f64_max f64_zero (f64_sub target score)) (f64_of_Z terminal) in
  let status := if f64_ltb score target then BREACHED else if f64_ltb score (f64_add target (f64_lit 1 20)) then AT_RISK else OBJ_OK in
  checked "objective" objective_valid
    {| so_objective := QUALITY; so_target := target; so_window_seconds := window_seconds; so_error_budget := f64_round 10 budget;
       so_consumed := f64_round 10 consumed; so_remaining := f64_round 10 (f64_max f64_zero (f64_sub budget consumed));
       so_observed := Some score; so_status := status |}.

Definition and_then {A B} (o : outcome HealthExn A) (k : A → outcome HealthExn B) : outcome HealthExn B :=
  match o with Ret a => k a | Raise e => Raise e end.

(** The objectives that are computed. *)
Definition objectives_of (slo : option SloTarget) (quality_score : option f64) (terminal failed : Z) : outcome HealthExn (list SloObjective) :=
  match slo with
  | Some slo =>
      if (terminal =? 0)%Z then Ret []
      else
        and_then (availability_objective (st_availability_target slo) (st_window_seconds slo) terminal failed) (λ a,
          match st_quality_target slo, quality_score with
          | Some target, Some score =>
              and_then (quality_objective target (st_window_seconds slo) terminal score) (λ q, Ret [a; q])
          | _, _ => Ret [a]
          end)
  | None => Ret []
  end.

(** [compute_health] *)
Definition compute_health (workload : string) (runs : list Run) (now window_seconds : Z) (slo : option SloTarget) (quality_score : option f64)
    (drift_status : string) (breaker_open readiness : bool) (min_runs_for_score : Z) : outcome HealthExn WorkloadHealth :=
  let terminal := terminal_runs runs now window_seconds in
  let failed := count_failed terminal in
  and_then (objectives_of slo quality_score (count terminal) failed) (λ objectives,
    let insufficient := (count terminal <? min_runs_for_score)%Z in
    let status := if insufficient then INSUFFICIENT_DATA
                  else if negb readiness then UNHEALTHY
                  else if existsb (λ o, bool_decide (so_status o ≠ OBJ_OK)) objectives || bool_decide (drift_status ≠ "clean") then DEGRADED
                  else HEALTHY in
    and_then (mttr_seconds terminal) (λ mttr,
      checked "health" health_valid
        {| wh_workload := workload; wh_window_seconds := window_seconds; wh_terminal_runs := count terminal; wh_failed_runs := failed;
           wh_failure_rate := if (count terminal =? 0)%Z then f64_zero else int_truediv failed (count terminal); wh_mttr_seconds := mttr;
           wh_readiness := readiness; wh_quality_score := quality_score; wh_drift_status := drift_status; wh_breaker_open := breaker_open;
           wh_objectives := objectives; wh_insufficient_data := insufficient; wh_status := status; wh_generated_at := now |})).

(** ** The service *)

Record Env (W : Type) := mkEnv {
  hl_runs : string → TenantContext → Z → list RunState → M W HealthExn (list Run);
  hl_quality : string → TenantContext → M W HealthExn (option f64);
  hl_drift : string → TenantContext → M W HealthExn string;
  hl_breaker : string → TenantContext → M W HealthExn bool;
  hl_status : string → TenantContext → M W HealthExn string;
  hl_slo : string → TenantContext → M W HealthExn (option SloTarget);
  hl_workloads : TenantContext → M W HealthExn (list string);
  hl_clock : W → Z * W;
  hl_window : Z;
  hl_min_runs : Z;
  hl_quarantine : option (string → string → TenantContext → M W HealthExn unit);
  hl_throttle : option (string → string → TenantContext → M W HealthExn unit);
  hl_debounce : Z;
  hl_float_str : f64 → string }.
Arguments mkEnv {W}.
Arguments hl_runs {W}.
Arguments hl_quality {W}.
Arguments hl_drift {W}.
Arguments hl_breaker {W}.
Arguments hl_status {W}.
Arguments hl_slo {W}.
Arguments hl_workloads {W}.
Arguments hl_clock {W}.
Arguments hl_window {W}.
Arguments hl_min_runs {W}.
Arguments hl_quarantine {W}.
Arguments hl_throttle {W}.
Arguments hl_debounce {W}.
Arguments hl_float_str {W}.

(** The service's own state is when each action last fired. *)
Record World (W : Type) := mkWorld { hw_alerts : odict (string * string) Z; hw_plane : W }.
Arguments mkWorld {W}.
Arguments hw_alerts {W}.
Arguments hw_plane {W}.

Definition CRITICAL_MULTIPLIER : f64 := f64_lit 144 10.

Section Service.
Context {W : Type}.
Variable env : Env W.

Abbreviation HM := (M (World W) HealthExn).

Definition on_plane {A} (m : M W HealthExn A) : HM A := λ w, let '(o, p) := m (hw_plane w) in (o, mkWorld (hw_alerts w) p).
Definition clock : HM Z := λ w, let '(t, p) := hl_clock env (hw_plane w) in (Ret t, mkWorld (hw_alerts w) p).
Definition of_outcome {A} (o : outcome HealthExn A) : HM A := λ w, (o, w).

(** [workload] *)
Definition workload (name : string) (ctx : TenantContext) : HM WorkloadHealth :=
  let* status := on_plane (hl_status env name ctx) in
  let* breaker_open := on_plane (hl_breaker env name ctx) in
  let readiness := negb (bool_decide (status ∈ ["quarantined"; "uncertified"])) && negb breaker_open in
  let* now := clock in
  let* runs := on_plane (hl_runs env name ctx (now - seconds (hl_window env)) TERMINAL) in
  let* slo := on_plane (hl_slo env name ctx) in
  let* quality := on_plane (hl_quality env name ctx) in
  let* drift := on_plane (hl_drift env name ctx) in
  of_outcome (compute_health name runs now (hl_window env) slo quality drift breaker_open readiness (hl_min_runs env)).

Fixpoint each {A} (f : string → HM A) (names : list string) : HM (list A) :=
  match names with [] => ret [] | n :: names => let* a := f n in let* rest := each f names in ret (a :: rest) end.

(** [fleet] *)
Definition fleet (ctx : TenantContext) : HM (list WorkloadHealth) :=
  let* names := on_plane (hl_workloads env ctx) in
  each (λ n, workload n ctx) (py_sort str_leb names).

(** [burn_rate] *)
Definition burn_rate (name : string) (window_seconds : Z) (critical_multiplier : f64) (ctx : TenantContext) : HM BurnRate :=
  let* slo := on_plane (hl_slo env name ctx) in
  let target := match slo with Some s => st_availability_target s | None => f64_lit 99 100 end in
  let* now := clock in
  let* runs := on_plane (hl_runs env name ctx (now - seconds window_seconds) TERMINAL) in
  let terminal := terminal_runs runs now window_seconds in
  let failed := count_failed terminal in
  let observed := if (count terminal =? 0)%Z then f64_zero else int_truediv failed (count terminal) in
  let allowed := f64_sub one target in
  let burn := if f64_ltb f64_zero allowed then f64_div observed allowed else f64_zero in
  of_outcome (checked "burn" burn_valid
    {| br_workload := name; br_window_seconds := window_seconds; br_observed_error_rate := observed; br_allowed_error_rate := allowed;
       br_burn_rate := burn; br_critical := f64_leb critical_multiplier burn; br_alert := f64_leb one burn |}).

Definition exhausted (h : WorkloadHealth) : option SloObjective :=
  match filter (λ o, so_objective o = AVAILABILITY) (wh_objectives h) with
  | o :: _ => if bool_decide (so_status o = BREACHED) then Some o else None
  | [] => None
  end.

(** [burn_through] *)
Definition burn_through (name : string) (ctx : TenantContext) : HM (option BurnThroughAction) :=
  let* h := workload name ctx in
  match exhausted h with
  | Some o =>
      ret (Some {| ba_workload := name; ba_action := "quarantine";
                   ba_reason := "availability error budget exhausted (" +:+ hl_float_str env (so_consumed o) +:+ "/"
                                +:+ hl_float_str env (so_error_budget o) +:+ ")"; ba_burn_rate := None |})
  | None =>
      let* fast := burn_rate name 3600 CRITICAL_MULTIPLIER ctx in
      ret (if br_critical fast
           then Some {| ba_workload := name; ba_action := "throttle";
                        ba_reason := "fast burn " +:+ f64_fixed 1 (br_burn_rate fast) +:+ "x exceeds critical threshold";
                        ba_burn_rate := Some (br_burn_rate fast) |}
           else None)
  end.

(** [_apply] *)
Definition apply_action (a : BurnThroughAction) (ctx : TenantContext) : HM unit :=
  if bool_decide (ba_action a = "quarantine")
  then match hl_quarantine env with Some f => on_plane (f (ba_workload a) (ba_reason a) ctx) | None => ret tt end
  else if bool_decide (ba_action a = "throttle")
  then match hl_throttle env with Some f => on_plane (f (ba_workload a) (ba_reason a) ctx) | None => ret tt end
  else ret tt.

(** [enforce] *)
Definition enforce (name : string) (ctx : TenantContext) : HM (option BurnThroughAction) :=
  let* a := burn_through name ctx in
  match a with Some a => apply_action a ctx ;;; ret (Some a) | None => ret None end.

(** [_should_fire] *)
Definition too_soon (now last : Z) : bool := f64_ltb (total_seconds (now - last)) (f64_of_Z (hl_debounce env)).
Definition should_fire (name action : string) : HM bool :=
  let* now := clock in
  let* alerts := gets hw_alerts in
  if (match od_get (name, action) alerts with Some last => too_soon now last | None => false end) then ret false
  else modify (λ w, mkWorld (od_set (name, action) now (hw_alerts w)) (hw_plane w)) ;;; ret true.

(** [sweep] *)
Fixpoint sweep_names (names : list string) (ctx : TenantContext) : HM (list BurnThroughAction) :=
  match names with
  | [] => ret []
  | n :: names =>
      let* a := burn_through n ctx in
      match a with
      | None => sweep_names names ctx
      | Some a =>
          let* fire := should_fire n (ba_action a) in
          if fire : bool then apply_action a ctx ;;; let* rest := sweep_names names ctx in ret (a :: rest) else sweep_names names ctx
      end
  end.
Definition sweep (ctx : TenantContext) : HM (list BurnThroughAction) :=
  let* names := on_plane (hl_workloads env ctx) in
  sweep_names (py_sort str_leb names) ctx.
End Service.

(** ** Approval analytics ([health/analytics.py]) *)

Record ApprovalReport := mkReport {
  rp_total : Z; rp_pending : Z; rp_decided : Z; rp_approved : Z; rp_denied : Z; rp_mean_latency_seconds : option f64;
  rp_by_approver : odict string f64; rp_bottleneck : option string }.

Definition latency (r : ApprovalRecord) : option (string * f64) :=
  match ap_decided_at r, ap_decided_by r with Some d, Some who => Some (who, total_seconds (d - ap_requested_at r)) | _, _ => None end.

(** [latencies[who].append(seconds)] *)
Definition add_latency (d : odict string (list f64)) (e : string * f64) : odict string (list f64) :=
  od_set e.1 (default [] (od_get e.1 d) ++ [e.2]) d.

Definition mean (l : list f64) : f64 := f64_div (f64_sum l) (f64_of_Z (Z.of_nat (length l))).
Definition with_status (s : ApprovalStatus) (l : list ApprovalRecord) : Z := Z.of_nat (length (filter (λ r, ap_status r = s) l)).

Definition approval_analytics (records : list ApprovalRecord) : ApprovalReport :=
  let all := omap latency records in
  let by_approver := (λ e : string * list f64, (e.1, mean e.2)) <$> foldl add_latency [] all in
  {| rp_total := Z.of_nat (length records); rp_pending := with_status PENDING records;
     rp_decided := with_status APPROVED records + with_status DENIED records;
     rp_approved := with_status APPROVED records; rp_denied := with_status DENIED records;
     rp_mean_latency_seconds := match all with [] => None | _ => Some (mean all.*2) end;
     rp_by_approver := by_approver;
     rp_bottleneck := fst <$> py_best (λ a b : string * f64, f64_ltb b.2 a.2) by_approver |}.

(** Every record is pending or decided. *)
Theorem analytics_partition records : rp_total (approval_analytics records) = (rp_pending (approval_analytics records) + rp_decided (approval_analytics records))%Z.
Proof.
  cbn. unfold with_status. induction records as [|r l IH]; [done|]. rewrite !filter_cons. cbn [length].
  destruct (ap_status r); repeat case_decide; try congruence; cbn [length]; lia.
Qed.

(** ** Plane metrics ([health/plane_metrics.py]) *)

Abbreviation Labels := (odict string string).
Record PlaneMetrics := mkMetrics { pm_counters : odict (string * Labels) f64; pm_gauges : odict (string * Labels) f64 }.

Definition label_leb (a b : string * string) : bool := if bool_decide (a.1 = b.1) then str_leb a.2 b.2 else str_leb a.1 b.1.
(** [_labels] *)
Definition labels (l : Labels) : Labels := py_sort label_leb l.
Definition increment (name : string) (amount : f64) (l : Labels) (m : PlaneMetrics) : PlaneMetrics :=
  let key := (name, labels l) in mkMetrics (od_set key (f64_add (default f64_zero (od_get key (pm_counters m))) amount) (pm_counters m)) (pm_gauges m).
Definition set_gauge (name : string) (value : f64) (l : Labels) (m : PlaneMetrics) : PlaneMetrics :=
  mkMetrics (pm_counters m) (od_set (name, labels l) value (pm_gauges m)).

(** Tuples of strings compare item by item. *)
Fixpoint labels_leb (a b : Labels) : bool :=
  match a, b with
  | [], _ => true
  | _ :: _, [] => false
  | x :: a, y :: b => if bool_decide (x = y) then labels_leb a b else label_leb x y
  end.
Definition metric_leb (a b : (string * Labels) * f64) : bool :=
  if bool_decide (a.1.1 = b.1.1) then labels_leb a.1.2 b.1.2 else str_leb a.1.1 b.1.1.

Definition quote : string := String (Ascii.ascii_of_nat 34) EmptyString.
Definition newline : string := String (Ascii.ascii_of_nat 10) EmptyString.

Section Render.
Variable float_str : f64 → string.

Definition is_integer (x : f64) : bool :=
  match f64_trunc x with Some z => f64_leb_Z x z && negb (f64_leb_Z x (z - 1)) && f64_eqb x (f64_of_Z z) | None => false end.
(** [_render_number], [_render_labels], [render] *)
Definition render_number (x : f64) : string := match f64_trunc x with Some z => if is_integer x then pretty z else float_str x | None => float_str x end.
Definition render_labels (l : Labels) : string :=
  match l return string with [] => EmptyString | _ => "{" +:+ String.concat "," ((λ e, e.1 +:+ "=" +:+ quote +:+ e.2 +:+ quote) <$> l) +:+ "}" end.
Definition render_line (e : (string * Labels) * f64) : string := e.1.1 +:+ render_labels e.1.2 +:+ " " +:+ render_number e.2.
Definition render (m : PlaneMetrics) : string :=
  match ((render_line <$> py_sort metric_leb (pm_counters m)) ++ (render_line <$> py_sort metric_leb (pm_gauges m)))%list with
  | [] => EmptyString
  | lines => String.concat newline lines +:+ newline
  end.
End Render.

(** ** What burn-through and the sweep guarantee *)

Section Laws.
Context {W : Type}.
Variable env : Env W.

Abbreviation HM := (M (World W) HealthExn).

(** What the sweep fires, with the instant it read. *)
Fixpoint names_log (names : list string) (ctx : TenantContext) (w : World W) : list (Z * (string * string)) :=
  match names with
  | [] => []
  | n :: names =>
      match burn_through env n ctx w with
      | (Ret None, w) => names_log names ctx w
      | (Ret (Some a), w) =>
          let now := (hl_clock env (hw_plane w)).1 in
          match should_fire env n (ba_action a) w with
          | (Ret true, w) => (now, (n, ba_action a)) :: match apply_action env a ctx w with (Ret _, w) => names_log names ctx w | _ => [] end
          | (Ret false, w) => names_log names ctx w
          | _ => []
          end
      | _ => []
      end
  end.
Definition sweep_log (ctx : TenantContext) (w : World W) : list (Z * (string * string)) :=
  match on_plane (hl_workloads env ctx) w with (Ret names, w) => names_log (py_sort str_leb names) ctx w | _ => [] end.

Inductive HealthOp :=
  | HSweep (ctx : TenantContext)
  | HEnforce (name : string) (ctx : TenantContext)
  | HOther (f : W → W).  (** anything else that happens to the plane *)

Definition perform (o : HealthOp) (w : World W) : World W :=
  match o with
  | HSweep ctx => (sweep env ctx w).2
  | HEnforce name ctx => (enforce env name ctx w).2
  | HOther f => mkWorld (hw_alerts w) (f (hw_plane w))
  end.
Definition op_log (o : HealthOp) (w : World W) : list (Z * (string * string)) := match o with HSweep ctx => sweep_log ctx w | _ => [] end.
Fixpoint firing_log (ops : list HealthOp) (w : World W) : list (Z * (string * string)) :=
  match ops with [] => [] | o :: ops => op_log o w ++ firing_log ops (perform o w) end.

(** When an action was last fired for a workload. *)
Definition last_of (key : string * string) (log : list (Z * (string * string))) : option Z := last (filter (λ e, e.2 = key) log).*1.

(** Every entry comes no sooner than the debounce after the one before it. *)
Definition spaced (log : list (Z * (string * string))) : Prop :=
  ∀ l1 t key l2 t0, log = l1 ++ (t, key) :: l2 → last_of key l1 = Some t0 → too_soon env t t0 = false.

Definition alerts_ok (log : list (Z * (string * string))) (w : World W) : Prop := spaced log ∧ ∀ key, od_get key (hw_alerts w) = last_of key log.

Definition same_alerts (w w' : World W) : Prop := hw_alerts w' = hw_alerts w.

#[local] Instance same_alerts_preorder : PreOrder same_alerts.
Proof. split; [by intros w|]. unfold same_alerts. intros a b c H1 H2. congruence. Qed.

Lemma same_plane {A} (m : M W HealthExn A) : keeps same_alerts (on_plane m).
Proof. intros w. unfold on_plane. by destruct (m (hw_plane w)). Qed.

Lemma same_clock : keeps same_alerts (clock env).
Proof. intros w. unfold clock. by destruct (hl_clock env (hw_plane w)). Qed.

Lemma same_outcome {A} (o : outcome HealthExn A) : keeps same_alerts (of_outcome (W := W) o).
Proof. by intros w. Qed.

Hint Resolve same_plane same_clock same_outcome : keeps.

Lemma same_workload n ctx : keeps same_alerts (workload env n ctx).
Proof. unfold workload. repeat (apply keeps_bind; [apply _|auto with keeps|intros ?]). auto with keeps. Qed.

Lemma same_burn_rate n s c ctx : keeps same_alerts (burn_rate env n s c ctx).
Proof. unfold burn_rate. repeat (apply keeps_bind; [apply _|auto with keeps|intros ?]). auto with keeps. Qed.

Lemma same_burn_through n ctx : keeps same_alerts (burn_through env n ctx).
Proof.
  unfold burn_through. apply keeps_bind; [apply _|apply same_workload|]. intros h. destruct (exhausted h); [apply keeps_ret, _|].
  apply keeps_bind; [apply _|apply same_burn_rate|]. intros b. apply keeps_ret, _.
Qed.

Lemma same_apply a ctx : keeps same_alerts (apply_action env a ctx).
Proof.
  unfold apply_action. case_bool_decide; [destruct (hl_quarantine env)|case_bool_decide; [destruct (hl_throttle env)|]]; auto with keeps; apply keeps_ret, _.
Qed.

Lemma same_enforce n ctx : keeps same_alerts (enforce env n ctx).
Proof.
  unfold enforce. apply keeps_bind; [apply _|apply same_burn_through|]. intros [a|]; [|apply keeps_ret, _].
  apply keeps_bind; [apply _|apply same_apply|]. intros u. apply keeps_ret, _.
Qed.

Lemma alerts_ok_same log w w' : same_alerts w w' → alerts_ok log w → alerts_ok log w'.
Proof. intros H [H1 H2]. split; [done|]. intros key. by rewrite H. Qed.

Lemma last_of_snoc key log e : last_of key (log ++ [e]) = if decide (e.2 = key) then Some e.1 else last_of key log.
Proof.
  unfold last_of. rewrite filter_app, fmap_app. rewrite filter_cons, filter_nil. case_decide; simpl; [by rewrite last_snoc|by rewrite app_nil_r].
Qed.

Lemma spaced_snoc log t key : spaced log → (∀ t0, last_of key log = Some t0 → too_soon env t t0 = false) → spaced (log ++ [(t, key)]).
Proof.
  intros Hs Ht l1 t' key' l2 t0 Heq Hl. destruct l2 as [|e l2 _] using rev_ind.
  - apply app_inj_tail in Heq as [-> [= -> ->]]. by apply Ht.
  - rewrite app_comm_cons, app_assoc in Heq. apply app_inj_tail in Heq as [-> _]. by eapply Hs.
Qed.

Lemma should_fire_ok log n a w b w' : alerts_ok log w → should_fire env n a w = (Ret b, w') →
  alerts_ok (log ++ if b then [((hl_clock env (hw_plane w)).1, (n, a))] else []) w'.
Proof.
  intros [Hs Ha] H. unfold should_fire in H. apply bind_inv in H as (now & w1 & Hc & H). unfold clock in Hc.
  destruct (hl_clock env (hw_plane w)) as [t p]. injection Hc as <- <-. apply bind_inv in H as (al & w2 & [= <- <-] & H). cbn in H |- *.
  destruct (match od_get (n, a) (hw_alerts w) with Some _ => _ | None => _ end) eqn:Hf.
  - injection H as <- <-. rewrite app_nil_r. by split.
  - apply bind_inv in H as (u & w3 & [= <- <-] & [= <- <-]). split; cbn.
    + apply spaced_snoc; [done|]. intros t0 Ht0. by rewrite Ha, Ht0 in Hf.
    + intros key. rewrite od_get_set, last_of_snoc. cbn. repeat case_decide; congruence.
Qed.

Lemma should_fire_returns n a w : ∃ b w', should_fire env n a w = (Ret b, w').
Proof.
  unfold should_fire, clock, bind, gets, modify, ret. destruct (hl_clock env (hw_plane w)) as [t p]. cbn.
  destruct (match od_get _ _ with Some _ => _ | None => _ end); eauto.
Qed.

Lemma burn_through_of n ctx w a w' : burn_through env n ctx w = (Ret (Some a), w') → ba_workload a = n.
Proof.
  unfold burn_through. intros (h & w1 & _ & H)%bind_inv. destruct (exhausted h); [by injection H as <- _|].
  apply bind_inv in H as (b & w2 & _ & H). destruct (br_critical b); [by injection H as <- _|done].
Qed.

Lemma sweep_names_ok names ctx log w :
  alerts_ok log w →
  alerts_ok (log ++ names_log names ctx w) (sweep_names env names ctx w).2 ∧
  ∀ l w', sweep_names env names ctx w = (Ret l, w') → (names_log names ctx w).*2 = (λ a, (ba_workload a, ba_action a)) <$> l.
Proof.
  revert log w. induction names as [|n names IH]; intros log w Hok; cbn [sweep_names names_log].
  { rewrite app_nil_r. split; [done|]. by intros l w' [= <- _]. }
  pose proof (same_burn_through n ctx w) as Hsame.
  destruct (burn_through env n ctx w) as [[[a|]|e] w1] eqn:Hb; cbn in Hsame; apply (alerts_ok_same _ _ _ Hsame) in Hok.
  - rewrite (bind_run _ _ _ _ _ Hb). cbv beta iota. destruct (should_fire_returns n (ba_action a) w1) as (b & w2 & Hf).
    rewrite (bind_run _ _ _ _ _ Hf), Hf. apply (should_fire_ok log) in Hf; [|done]. destruct b; [|rewrite app_nil_r in Hf; by apply IH].
    pose proof (same_apply a ctx w2) as Hsa. destruct (apply_action env a ctx w2) as [[u|e] w3] eqn:Hap; cbn in Hsa; apply (alerts_ok_same _ _ _ Hsa) in Hf.
    + rewrite (bind_run _ _ _ _ _ Hap). cbv beta. destruct (IH _ _ Hf) as [H1 H2]. rewrite <-app_assoc in H1.
      destruct (sweep_names env names ctx w3) as [[l|e] w4] eqn:Hsw.
      * rewrite (bind_run _ _ _ _ _ Hsw). split; [done|]. intros l' w' [= <- <-]. cbn. rewrite (H2 _ _ eq_refl).
        apply burn_through_of in Hb as ->. done.
      * rewrite (bind_raise _ _ _ _ _ Hsw). by split.
    + rewrite (bind_raise _ _ _ _ _ Hap). by split.
  - rewrite (bind_run _ _ _ _ _ Hb). cbv beta iota. by apply IH.
  - rewrite (bind_raise _ _ _ _ _ Hb), app_nil_r. by split.
Qed.

Lemma sweep_ok ctx log w : alerts_ok log w →
  alerts_ok (log ++ sweep_log ctx w) (sweep env ctx w).2 ∧
  ∀ l w', sweep env ctx w = (Ret l, w') → (sweep_log ctx w).*2 = (λ a, (ba_workload a, ba_action a)) <$> l.
Proof.
  intros Hok. unfold sweep, sweep_log. pose proof (same_plane (hl_workloads env ctx) w) as Hs.
  destruct (on_plane (hl_workloads env ctx) w) as [[names|e] w1] eqn:Hn; cbn in Hs; apply (alerts_ok_same _ _ _ Hs) in Hok.
  - rewrite (bind_run _ _ _ _ _ Hn). by apply sweep_names_ok.
  - rewrite (bind_raise _ _ _ _ _ Hn), app_nil_r. by split.
Qed.

Lemma perform_ok o log w : alerts_ok log w → alerts_ok (log ++ op_log o w) (perform o w).
Proof.
  intros Hok. destruct o as [ctx|n ctx|f]; cbn [op_log perform]; rewrite ?app_nil_r.
  - by apply sweep_ok.
  - eapply alerts_ok_same; [apply same_enforce|done].
  - by apply (alerts_ok_same _ w).
Qed.

(** C23: whatever happens to the plane between them, the sweeps never fire the same
    action for the same workload again within the debounce window of the
    firing before it (by the instants the service read), and a sweep that
    returns lists exactly the actions it fired, in order. *)
Theorem sweeps_debounced ops w :
  hw_alerts w = [] →
  spaced (firing_log ops w) ∧
  ∀ ctx l w', sweep env ctx (foldl (λ w o, perform o w) w ops) = (Ret l, w') →
    spaced (firing_log (ops ++ [HSweep ctx]) w) ∧
    firing_log (ops ++ [HSweep ctx]) w = firing_log ops w ++ sweep_log ctx (foldl (λ w o, perform o w) w ops) ∧
    (sweep_log ctx (foldl (λ w o, perform o w) w ops)).*2 = (λ a, (ba_workload a, ba_action a)) <$> l.
Proof.
  intros Hw. assert (∀ ops log w, alerts_ok log w → alerts_ok (log ++ firing_log ops w) (foldl (λ w o, perform o w) w ops)) as Hrun.
  { clear. induction ops as [|o ops IH]; intros log w Hok; cbn; [by rewrite app_nil_r|]. rewrite app_assoc. by apply IH, perform_ok. }
  assert (alerts_ok [] w) as H0.
  { split; [|by rewrite Hw]. intros l1 t key l2 t0 H. by destruct l1. }
  assert (∀ ops w ctx, firing_log (ops ++ [HSweep ctx]) w = firing_log ops w ++ sweep_log ctx (foldl (λ w o, perform o w) w ops)) as Hlog.
  { clear. induction ops as [|o ops IH]; intros w ctx; cbn; [by rewrite app_nil_r|]. by rewrite IH, app_assoc. }
  split; [apply (Hrun ops [] w H0)|]. intros ctx l w' Hsw. split_and!; [apply (Hrun (ops ++ [HSweep ctx]) [] w H0)|by rewrite Hlog|].
  by eapply sweep_ok; [apply (Hrun ops [] w H0)|].
Qed.
End Laws.
