(* ===== verification/HealthFleet.v ===== *)
(** * Health over the fleet ([api/app.py], [api/health.py])

    The health service as it is wired: over the registry, the quarantines of
    drift, the circuit breakers and the run store; what enforcing a burned
    budget does to the workload, and the service on a concrete fleet.  The
    online evaluation, the clock and the text of a float are parameters. *)

From stdpp Require Import base strings pretty numbers gmap sets list.
From S2P Require Import Prelude Text Float64 Rounding Tenancy CoreModels Scheduler Policy Guards Admission RunStore Manifest Certification Registry RegistryDemo Promotion PromotionDemo Drift DriftHistory DriftFleet DriftDemo Health.

#[local] Open Scope hp_scope.

(** ** The wiring ([api/app.py], [_wire_health]) *)

Record Plane (F X : Type) := mkPlane {
  pl_drift : Drift.World F X; pl_breakers : Breaker.Registry; pl_bundles : Bundles; pl_throttled : gset string }.
Arguments mkPlane {F X}.
Arguments pl_drift {F X}.
Arguments pl_breakers {F X}.
Arguments pl_bundles {F X}.
Arguments pl_throttled {F X}.

Section Wiring.
Context {F X : Type} `{!FleetApi F}.
Variable denv : Drift.Env X.
Variable quality : string → TenantContext → X → (HealthExn + option f64) * X.
Variables (window_seconds min_runs : Z) (float_str : f64 → string).

Abbreviation PM := (M (Plane F X) HealthExn).

Definition with_drift (p : Plane F X) (d : Drift.World F X) : Plane F X := mkPlane d (pl_breakers p) (pl_bundles p) (pl_throttled p).

Definition of_drift {A} (m : M (Drift.World F X) DriftExn A) : PM A :=
  λ p, let '(o, d) := m (pl_drift p) in (match o with Ret a => Ret a | Raise e => Raise (HealthDriftError e) end, with_drift p d).
Definition of_fleet {A} (m : M F RegistryExn A) : PM A :=
  λ p, let '(o, g) := m (dv_fleet (pl_drift p)) in
       (match o with Ret a => Ret a | Raise e => Raise (HealthRegistryError e) end,
        with_drift p (Drift.mkWorld (dv_store (pl_drift p)) g (dv_ext (pl_drift p)))).
Definition of_ext {A} (f : X → A * X) : PM A :=
  λ p, let '(a, x) := f (dv_ext (pl_drift p)) in (Ret a, with_drift p (Drift.mkWorld (dv_store (pl_drift p)) (dv_fleet (pl_drift p)) x)).

(** [_slo] *)
Definition slo_lookup (name : string) (ctx : TenantContext) : PM (option SloTarget) :=
  let* r := of_fleet (fa_get ctx name) in
  let h := sp_health (ma_spec (wr_manifest r)) in
  ret (Some (mkSlo (he_availability_target h) (Some (he_quality_target h)) (he_error_budget_window h))).

(** [_drift]: asked without the acting tenant. *)
Definition drift_lookup (name : string) (ctx : TenantContext) : PM string :=
  gets (λ p, match active_quarantine name DEFAULT_CONTEXT (dv_store (pl_drift p)) with Some _ => "detected" | None => "clean" end).

(** [_breaker]: breakers are kept per name. *)
Definition breaker_lookup (name : string) (ctx : TenantContext) : PM bool :=
  let* now := of_ext (de_clock denv) in
  λ p, let '(o, r) := Breaker.snapshot now "workload" name (pl_breakers p) in
       (match o with
        | Ret c => Ret (match Breaker.cb_state c with Breaker.OPEN => true | _ => false end)
        | Raise e => Raise (HealthBreakerError e)
        end, mkPlane (pl_drift p) r (pl_bundles p) (pl_throttled p)).

Definition quality_lookup (name : string) (ctx : TenantContext) : PM (option f64) :=
  let* r := of_ext (quality name ctx) in match r with inl e => raise e | inr q => ret q end.

Definition status_lookup (name : string) (ctx : TenantContext) : PM string :=
  let* r := of_fleet (fa_get ctx name) in ret (status_value (wr_certification_status r)).

Definition run_history (name : string) (ctx : TenantContext) (finished_after : Z) (states : list RunState) : PM (list Run) :=
  gets (λ p, list_runs (Some name) None (Some finished_after) (Some states) ctx (pl_bundles p)).

Definition workload_lookup (ctx : TenantContext) : PM (list string) :=
  let* l := of_fleet (fa_list_workloads ctx) in ret (wr_name <$> l).

(** [_quarantine] *)
Definition quarantine_action (name reason : string) (ctx : TenantContext) : PM unit :=
  let* _ := of_drift (Drift.quarantine denv name reason None None None "health" ctx) in ret tt.

(** [_throttle] *)
Definition throttle_action (name reason : string) (ctx : TenantContext) : PM unit :=
  modify (λ p, mkPlane (pl_drift p) (pl_breakers p) (pl_bundles p) ({[name]} ∪ pl_throttled p)) ;;;
  of_drift (Drift.audit denv "health" "health.throttle" name reason ctx).

Definition wire_health : Env (Plane F X) :=
  {| hl_runs := run_history; hl_quality := quality_lookup; hl_drift := drift_lookup; hl_breaker := breaker_lookup; hl_status := status_lookup;
     hl_slo := slo_lookup; hl_workloads := workload_lookup;
     hl_clock p := let '(t, x) := de_clock denv (dv_ext (pl_drift p)) in
                   (t, with_drift p (Drift.mkWorld (dv_store (pl_drift p)) (dv_fleet (pl_drift p)) x));
     hl_window := window_seconds; hl_min_runs := min_runs; hl_quarantine := Some quarantine_action; hl_throttle := Some throttle_action;
     hl_debounce := 300; hl_float_str := float_str |}.

(** [_health_tick]: the sweep of the background ticker; a failure is logged. *)
Definition health_tick : M (World (Plane F X)) HealthExn unit := suppress (let* _ := sweep wire_health SYSTEM_CONTEXT in ret tt).

(** ** Endpoints ([api/health.py]) *)

Definition fleet_health (ctx : TenantContext) := fleet wire_health ctx.
Definition workload_health (name : string) (ctx : TenantContext) := workload wire_health name ctx.
Definition workload_slo (name : string) (ctx : TenantContext) : M (World (Plane F X)) HealthExn (list SloObjective) :=
  let* h := workload wire_health name ctx in ret (wh_objectives h).
Definition workload_burn (name : string) (ctx : TenantContext) := burn_rate wire_health name 3600 CRITICAL_MULTIPLIER ctx.
Definition enforce_burn_through (name : string) (ctx : TenantContext) := enforce wire_health name ctx.
End Wiring.


(** ** Enforcing a burned budget *)

Section Laws.
Context {F X : Type} `{!FleetApi F, !FleetLaws F}.
Variables (denv : Drift.Env X) (issued : X → string → Prop).
Hypothesis Hsu : surroundings denv issued.
Variable quality : string → TenantContext → X → (HealthExn + option f64) * X.
Variables (window_seconds min_runs : Z) (float_str : f64 → string).

Abbreviation PW := (Health.World (Plane F X)).
Abbreviation PM := (M (Plane F X) HealthExn).
Abbreviation env := (wire_health denv quality window_seconds min_runs float_str).

(** Looking up leaves the workloads, the quarantines, the runs and the throttled
    names alone. *)
Definition reads (p p' : Plane F X) : Prop :=
  dv_fleet (pl_drift p') = dv_fleet (pl_drift p) ∧ dv_store (pl_drift p') = dv_store (pl_drift p) ∧ pl_bundles p' = pl_bundles p ∧
  pl_throttled p' = pl_throttled p.
Definition reads_w (w w' : PW) : Prop := reads (hw_plane w) (hw_plane w').

#[local] Instance reads_preorder : PreOrder reads.
Proof. split; [by intros p|]. intros a b c (?&?&?&?) (?&?&?&?). unfold reads. split_and!; congruence. Qed.
#[local] Instance reads_w_preorder : PreOrder reads_w.
Proof. split; [by intros w; unfold reads_w|]. intros a b c H1 H2. unfold reads_w in *. by etrans. Qed.

Lemma reads_get n ctx : keeps reads (of_fleet (X := X) (fa_get ctx n)).
Proof. intros p. unfold of_fleet. rewrite fl_get. by destruct (fl_workload _ ctx n). Qed.

Lemma reads_ext {A} (f : X → A * X) : keeps reads (of_ext (F := F) f).
Proof. intros p. unfold of_ext. by destruct (f (dv_ext (pl_drift p))). Qed.

Lemma reads_slo n ctx : keeps reads (slo_lookup (X := X) n ctx).
Proof. apply keeps_bind; [apply _|apply reads_get|]. intros r. apply keeps_ret, _. Qed.

Lemma reads_status n ctx : keeps reads (status_lookup (X := X) n ctx).
Proof. apply keeps_bind; [apply _|apply reads_get|]. intros r. apply keeps_ret, _. Qed.

Lemma reads_quality n ctx : keeps reads (quality_lookup (F := F) quality n ctx).
Proof. apply keeps_bind; [apply _|apply reads_ext|]. intros [e|q]; [apply keeps_raise, _|apply keeps_ret, _]. Qed.

Lemma reads_breaker n ctx : keeps reads (breaker_lookup (F := F) denv n ctx).
Proof.
  apply keeps_bind; [apply _|apply reads_ext|]. intros now p. unfold reads. by destruct (Breaker.snapshot _ _ _ _).
Qed.

Lemma reads_plane {A} (m : PM A) : keeps reads m → keeps reads_w (on_plane m).
Proof. intros H w. specialize (H (hw_plane w)). unfold on_plane, reads_w. by destruct (m (hw_plane w)). Qed.

Lemma reads_clock : keeps reads_w (clock env).
Proof. intros w. unfold clock, reads_w. cbn. by destruct (de_clock denv _). Qed.

Lemma reads_run {A} (m : M PW HealthExn A) w o w' : keeps reads_w m → m w = (o, w') → reads_w w w'.
Proof. intros Hm He. specialize (Hm w). by rewrite He in Hm. Qed.

Lemma slo_inv n ctx w slo w' : on_plane (slo_lookup n ctx) w = (Ret slo, w') →
  ∃ r, slo = Some (let hs := sp_health (ma_spec (wr_manifest r)) in
                   mkSlo (he_availability_target hs) (Some (he_quality_target hs)) (he_error_budget_window hs)) ∧
    fl_workload (dv_fleet (pl_drift (hw_plane w))) ctx n = Some r ∧ reads_w w w'.
Proof.
  intros H. assert (reads_w w w') as Hrd by by eapply reads_run, H; apply reads_plane, reads_slo.
  unfold on_plane, slo_lookup, of_fleet, bind in H. rewrite fl_get in H. destruct (fl_workload _ ctx n) as [r|] eqn:Hr; [|done].
  cbn in H. injection H as <- <-. by exists r.
Qed.

(** A quarantine that burn-through asks for rests on an exhausted budget. *)
Lemma burn_quarantine n ctx w a w' : burn_through env n ctx w = (Ret (Some a), w') → ba_action a = "quarantine" →
  ∃ h o, workload env n ctx w = (Ret h, w') ∧
    filter (λ o, so_objective o = AVAILABILITY) (wh_objectives h) = o :: tail (filter (λ o, so_objective o = AVAILABILITY) (wh_objectives h)) ∧
    so_status o = BREACHED ∧ ba_workload a = n.
Proof.
  unfold burn_through. intros (h & w1 & Hw & H)%bind_inv Ha. unfold exhausted in H.
  destruct (filter _ (wh_objectives h)) as [|o l] eqn:Hl.
  { apply bind_inv in H as (b & w2 & _ & H). destruct (br_critical b); [|done]. injection H as <- _. done. }
  case_bool_decide as Hs.
  - injection H as <- <-. exists h, o. by rewrite Hl.
  - apply bind_inv in H as (b & w2 & _ & H). destruct (br_critical b); [|done]. injection H as <- _. done.
Qed.

Lemma quarantine_action_inv n reason ctx w u w' : fl_ok (dv_fleet (pl_drift (hw_plane w))) →
  on_plane (quarantine_action denv n reason ctx) w = (Ret u, w') →
  ∃ r, fl_workload (dv_fleet (pl_drift (hw_plane w'))) ctx n = Some r ∧ wr_certification_status r = QUARANTINED ∧
    pl_bundles (hw_plane w') = pl_bundles (hw_plane w).
Proof.
  intros Hfl H. unfold on_plane in H. destruct (quarantine_action denv n reason ctx (hw_plane w)) as [o p] eqn:Hq. injection H as -> <-.
  unfold quarantine_action in Hq. apply bind_inv in Hq as (q & p1 & Hq & [= _ <-]). unfold of_drift in Hq.
  destruct (Drift.quarantine denv n reason None None None "health" ctx (pl_drift (hw_plane w))) as [[q0|e0] d0] eqn:Hd; [|done].
  injection Hq as _ <-. cbn. unfold Drift.quarantine in Hd. apply bind_inv in Hd as (r0 & d1 & [-> Hr0]%get_inv & Hd).
  apply bind_inv in Hd as (s & d1 & [= <- <-] & Hd).
  destruct (if bool_decide (wr_certification_status r0 = QUARANTINED) then _ else None) as [ex|] eqn:Hex.
  - injection Hd as _ <-. case_bool_decide; [|done]. by exists r0.
  - apply (open_returns denv issued Hsu) in Hd as (_ & _ & _ & _ & r & Hfq). apply fl_quarantine in Hfq as [Hst Hr]; [|done]. by exists r.
Qed.

(** What the health of a workload was computed from. *)
Lemma workload_inv n ctx w h w' : workload env n ctx w = (Ret h, w') →
  reads_w w w' ∧ ∃ now q d b ready r, fl_workload (dv_fleet (pl_drift (hw_plane w))) ctx n = Some r ∧
    let hs := sp_health (ma_spec (wr_manifest r)) in
    compute_health n (list_runs (Some n) None (Some (now - seconds window_seconds)%Z) (Some TERMINAL) ctx (pl_bundles (hw_plane w))) now window_seconds
      (Some (mkSlo (he_availability_target hs) (Some (he_quality_target hs)) (he_error_budget_window hs))) q d b ready min_runs = Ret h.
Proof.
  unfold workload. intros H.
  apply bind_inv in H as (st & w1 & H1 & H). apply (reads_run _ _ _ _ (reads_plane _ (reads_status n ctx))) in H1.
  apply bind_inv in H as (br & w2 & H2 & H). apply (reads_run _ _ _ _ (reads_plane _ (reads_breaker n ctx))) in H2.
  apply bind_inv in H as (now & w3 & H3 & H). apply (reads_run _ _ _ _ reads_clock) in H3.
  assert (reads_w w w3) as H03 by (do 2 (etrans; [eassumption|]); done).
  apply bind_inv in H as (runs & w4 & Hr & H). unfold on_plane in Hr. cbn in Hr. injection Hr as <- <-.
  apply bind_inv in H as (slo & w5 & H5 & H). apply slo_inv in H5 as (r & -> & Hr & H35).
  apply bind_inv in H as (q & w6 & H6 & H). apply (reads_run _ _ _ _ (reads_plane _ (reads_quality n ctx))) in H6.
  apply bind_inv in H as (d & w7 & Hd & H). unfold on_plane in Hd. cbn in Hd. injection Hd as _ <-. injection H as Hh <-.
  assert (reads_w w w6) as H06 by (etrans; [exact H03|]; etrans; [exact H35|exact H6]).
  split; [exact H06|]. destruct H03 as (Hf & _ & Hb & _). cbn in Hr. rewrite Hf in Hr. rewrite Hb in Hh.
  by exists now, q, d, br, (negb (bool_decide (st ∈ ["quarantined"; "uncertified"])) && negb br), r.
Qed.

Lemma availability_breached slo q terminal failed l o :
  objectives_of (Some slo) q terminal failed = Ret l → filter (λ o, so_objective o = AVAILABILITY) l = o :: tail (filter (λ o, so_objective o = AVAILABILITY) l) →
  so_status o = BREACHED → terminal ≠ 0%Z ∧ f64_ltb (error_budget (st_availability_target slo) terminal) (f64_of_Z failed) = true.
Proof.
  unfold objectives_of. destruct (Z.eqb_spec terminal 0) as [->|Hn]; [by intros [= <-]|]. unfold availability_objective, checked.
  set (st := if f64_ltb _ _ then BREACHED else _). destruct (objective_valid _); [cbn [and_then]|done]. intros H Hf Hs. split; [done|].
  assert (∃ l', l = mkObjective AVAILABILITY (st_availability_target slo) (st_window_seconds slo)
    (f64_round 10 (error_budget (st_availability_target slo) terminal)) (f64_of_Z failed)
    (f64_round 10 (f64_max f64_zero (f64_sub (error_budget (st_availability_target slo) terminal) (f64_of_Z failed))))
    (if (terminal =? 0)%Z then None else Some (f64_sub one (int_truediv failed terminal))) st :: l') as [l' ->].
  { destruct (st_quality_target slo) as [t|]; [|injection H as <-; by exists []]. destruct q as [s|]; [|injection H as <-; by exists []].
    unfold quality_objective, checked in H. destruct (objective_valid _); [|done]. injection H as <-. by eexists. }
  rewrite filter_cons_True in Hf by done. injection Hf as <-. cbn in Hs. unfold st in Hs.
  destruct (f64_ltb (error_budget _ _) _); [done|]. by destruct (_ && _).
Qed.

Lemma compute_objectives n runs now window slo q d b ready mn h :
  compute_health n runs now window slo q d b ready mn = Ret h →
  objectives_of slo q (count (terminal_runs runs now window)) (count_failed (terminal_runs runs now window)) = Ret (wh_objectives h).
Proof.
  unfold compute_health. destruct (objectives_of _ _ _ _) as [l|]; [|done]. cbn [and_then]. destruct (mttr_seconds _); [|done]. cbn [and_then].
  unfold checked. destruct (health_valid _); [|done]. by intros [= <-].
Qed.

(** The runs that the budget is measured on. *)
Definition measured (n : string) (ctx : TenantContext) (now : Z) (bs : Bundles) : list Run :=
  terminal_runs (list_runs (Some n) None (Some (now - seconds window_seconds)%Z) (Some TERMINAL) ctx bs) now window_seconds.

(** When enforcing answers that it quarantined a workload, more of its runs that
    ended within the window had failed than its availability target leaves
    room for, at least one of them; afterwards the workload is quarantined,
    neither staging nor production admits it, and its runs are as they were. *)
Theorem enforce_quarantines n ctx w a w' :
  fl_ok (dv_fleet (pl_drift (hw_plane w))) → enforce env n ctx w = (Ret (Some a), w') → ba_action a = "quarantine" →
  (∃ now r, fl_workload (dv_fleet (pl_drift (hw_plane w))) ctx n = Some r ∧ measured n ctx now (pl_bundles (hw_plane w)) ≠ [] ∧
     f64_ltb (error_budget (he_availability_target (sp_health (ma_spec (wr_manifest r)))) (count (measured n ctx now (pl_bundles (hw_plane w)))))
       (f64_of_Z (count_failed (measured n ctx now (pl_bundles (hw_plane w))))) = true) ∧
  (∃ r, fl_workload (dv_fleet (pl_drift (hw_plane w'))) ctx n = Some r ∧ wr_certification_status r = QUARANTINED) ∧
  (∀ c d g, c ≠ SANDBOX → fa_check_admission ctx n c (dv_fleet (pl_drift (hw_plane w'))) = (Ret d, g) → ad_admitted d = false) ∧
  pl_bundles (hw_plane w') = pl_bundles (hw_plane w).
Proof.
  intros Hfl H Ha. unfold enforce in H. apply bind_inv in H as (oa & w1 & Hb & H). destruct oa as [a'|]; [|done].
  apply bind_inv in H as (u & w2 & Hap & [= <- <-]). apply burn_quarantine in Hb as (h & o & Hw & Hl & Hs & Hwl); [|done].
  apply workload_inv in Hw as (Hrd & now & q & d & b & ready & r & Hr & Hc). cbv zeta in Hc.
  apply compute_objectives in Hc. apply (availability_breached _ _ _ _ _ o) in Hc as [Hne Hlt]; [|done|done].
  split.
  { exists now, r. split; [done|]. split; [|done]. unfold measured. intros E. apply Hne. unfold count. by rewrite E. }
  destruct Hrd as (Hf & _ & Hbu & _).
  unfold apply_action in Hap. rewrite bool_decide_eq_true_2 in Hap by done. cbn [hl_quarantine wire_health] in Hap. rewrite Hwl in Hap.
  apply quarantine_action_inv in Hap as (r' & Hr' & Hst & Hbu'); [|by rewrite Hf].
  split; [by exists r'|]. split; [|congruence].
  intros c d' g Hcx Hd. destruct (ad_admitted d') eqn:Had; [|done]. apply fl_admission in Hd as (r2 & Hr2 & Hne2); [|done|done].
  rewrite Hr' in Hr2. by injection Hr2 as <-.
Qed.
End Laws.

(** ** A concrete fleet *)

#[local] Existing Instances demo_fleet demo_fleet_laws.

(** One run of the certified workload, a probe, failed a moment ago; five runs are
    asked for before health is scored. *)
Definition failed_run : Run :=
  
  {| run_id := "r1"; run_workload_id := "triage"; run_caller := "probe"; run_state := FAILED; run_model_identity := None; run_created_at := 0;
     run_updated_at := 0; run_started_at := Some 0%Z; run_finished_at := Some 0%Z; run_trigger_origin := None; run_pipeline_origin := None;
     run_agent_tool_origin := None; run_manifest_version := Some 1%Z; run_context := Some SANDBOX; run_sandbox := true; CoreModels.run_task := [];
     run_result := None; run_failure_reason := None; run_cost_usd := f64_zero; run_sandbox_id := None; run_trace_id := None; run_shadow_of := None;
     run_probe := true; run_read_only := false; run_canary_rollout_id := None; run_canary_arm := None; run_tenant_id := DEFAULT_TENANT_ID;
     run_team_id := None; run_attribution_key := None |}.

Definition one_failure : Bundles :=
  [((DEFAULT_TENANT_ID, "r1"), {| bu_run := failed_run; bu_admission := None; bu_events := []; bu_usage := []; bu_deliveries := [] |})].

Definition health_world : Health.World (Plane Fleet nat) := Health.mkWorld [] (mkPlane drift_world ∅ one_failure ∅).
Definition demo_health : Health.Env (Plane Fleet nat) := wire_health drift_env (λ _ _ x, (inr None, x)) 86400 5 (λ _, "x").

Definition action_of (o : outcome HealthExn (option BurnThroughAction)) : option string :=
  match o with Ret (Some a) => Some (ba_action a) | _ => None end.

(** Health says that there is too little to judge by, and the failure of a single
    probe quarantines the workload. *)
Example one_failed_probe_quarantines :
  (match (workload demo_health "triage" DEFAULT_CONTEXT health_world).1 with
   | Ret h => wh_status h = INSUFFICIENT_DATA ∧ wh_insufficient_data h = true | _ => False end) ∧
  action_of (enforce demo_health "triage" DEFAULT_CONTEXT health_world).1 = Some "quarantine".
Proof. vm_compute. done. Qed.

Lemma enforce_quarantines_witness :
  ∃ a w', enforce demo_health "triage" DEFAULT_CONTEXT health_world = (Ret (Some a), w') ∧
    ∃ r, fl_workload (dv_fleet (pl_drift (hw_plane w'))) DEFAULT_CONTEXT "triage" = Some r ∧ wr_certification_status r = QUARANTINED.
Proof.
  assert (match enforce demo_health "triage" DEFAULT_CONTEXT health_world with
          | (Ret (Some a), _) => ba_action a = "quarantine" | _ => False end) as H by (vm_compute; reflexivity).
  destruct (enforce demo_health "triage" DEFAULT_CONTEXT health_world) as [[[a|]|e] w'] eqn:He; [|destruct H..]. exists a, w'. split; [reflexivity|].
  exact (proj1 (proj2 (enforce_quarantines drift_env drift_issued drift_surroundings (λ _ _ x, (inr None, x)) 86400 5 (λ _, "x") "triage"
    DEFAULT_CONTEXT health_world a w' demo_names_ok He H))).
Defined.

(** Two sweeps in a row: the second finds the budget burned still and holds. *)
Lemma sweeps_debounced_witness :
  length (firing_log demo_health [HSweep SYSTEM_CONTEXT] health_world) = 1%nat ∧
  spaced demo_health (firing_log demo_health [HSweep SYSTEM_CONTEXT; HSweep SYSTEM_CONTEXT] health_world) ∧
  (sweep demo_health SYSTEM_CONTEXT (sweep demo_health SYSTEM_CONTEXT health_world).2).1 = Ret [].
Proof.
  split; [vm_compute; reflexivity|]. split; [|vm_compute; reflexivity].
  exact (proj1 (sweeps_debounced demo_health [HSweep SYSTEM_CONTEXT; HSweep SYSTEM_CONTEXT] health_world eq_refl)).
Defined.
