(* ===== verification/Probes.v ===== *)
(** * Synthetic probes ([probes/])

    The schedules, results and budget of the probes of a control plane, the
    pass over what is due, and the endpoints of [api/health.py].  The runner,
    the clock and identifiers are the service's environment; instants are
    microseconds. *)

From stdpp Require Import base strings pretty numbers gmap sets list.
From S2P Require Import Prelude Text Float64 Tenancy CoreModels Drift.

#[local] Open Scope hp_scope.

(** ** Records ([probes/models.py]) *)

Inductive ProbeStatus := PROBE_PASSED | PROBE_FAILED.

Record ProbeSpec := mkSpec {
  pc_workload_id : string; pc_input : odict string JsonValue; pc_expected : option JsonValue; pc_interval_seconds : Z; pc_tenant_id : string }.
Record ProbeOutcome := mkOutcome { po_passed : bool; po_latency_ms : Z; po_cost_usd : f64; po_detail : odict string JsonValue }.
Record ProbeWarning := mkWarning { pw_workload_id : string; pw_reason : string; pw_created_at : Z }.
Record ProbeResult := mkResult {
  pr_probe_id : string; pr_workload_id : string; pr_passed : bool; pr_status : ProbeStatus; pr_latency_ms : Z; pr_cost_usd : f64;
  pr_detail : odict string JsonValue; pr_warning : option ProbeWarning; pr_created_at : Z; pr_tenant_id : string }.
Record ProbeSchedule := mkSchedule {
  ps_workload_id : string; ps_interval_seconds : Z; ps_next_run : Z; ps_last_run : option Z; ps_tenant_id : string }.

Definition spec_valid (s : ProbeSpec) : bool :=
  bool_decide (pc_workload_id s ≠ EmptyString) && (0 <? pc_interval_seconds s)%Z && between 1 64 (pc_tenant_id s).
Definition result_valid (r : ProbeResult) : bool :=
  bool_decide (pr_probe_id r ≠ EmptyString) && bool_decide (pr_workload_id r ≠ EmptyString) && (0 <=? pr_latency_ms r)%Z
  && f64_leb f64_zero (pr_cost_usd r) && between 1 64 (pr_tenant_id r).

Inductive ProbeExn := ProbeScopeError | ProbeBudgetExceededError (workload_id : string) | NoRunnerError | InvalidProbe | ProbeExternalError.

(** ** The service ([probes/service.py]) *)

Record World (X : Type) := mkWorld {
  pb_schedules : odict (string * string) ProbeSchedule; pb_specs : odict (string * string) ProbeSpec;
  pb_results : odict string (list ProbeResult); pb_ext : X }.
Arguments mkWorld {X}.
Arguments pb_schedules {X}.
Arguments pb_specs {X}.
Arguments pb_results {X}.
Arguments pb_ext {X}.

Record Env (X : Type) := mkEnv {
  pe_runner : option (ProbeSpec → X → (ProbeExn + ProbeOutcome) * X);
  pe_budget_cap_usd : option f64;
  pe_clock : X → Z * X;
  pe_probe_id : X → string * X }.
Arguments mkEnv {X}.
Arguments pe_runner {X}.
Arguments pe_budget_cap_usd {X}.
Arguments pe_clock {X}.
Arguments pe_probe_id {X}.

Definition results_of {X} (w : World X) (workload_id : string) : list ProbeResult := default [] (od_get workload_id (pb_results w)).
(** [probe_spend], [_last_cost]: over the results of the workload's name, of any tenant. *)
Definition spend (l : list ProbeResult) : f64 := f64_sum (pr_cost_usd <$> l).
Definition last_cost (l : list ProbeResult) : f64 := match last l with Some r => pr_cost_usd r | None => f64_zero end.
Definition probe_spend {X} (w : World X) (workload_id : string) : f64 := spend (results_of w workload_id).
Definition exhausted (cap : option f64) (l : list ProbeResult) : bool :=
  match cap with Some c => f64_leb c (f64_add (spend l) (last_cost l)) | None => false end.

(** [degraded] *)
Definition degraded {X} (w : World X) (workload_id : string) : bool :=
  match last (results_of w workload_id) with Some r => negb (pr_passed r) | None => false end.

(** [list_results] *)
Definition list_results {X} (workload_id : string) (ctx : TenantContext) (w : World X) : list ProbeResult :=
  filter (λ r, scopes ctx (pr_tenant_id r) = true) (results_of w workload_id).

Definition schedule_leb (a b : ProbeSchedule) : bool :=
  if bool_decide (ps_tenant_id a = ps_tenant_id b) then str_leb (ps_workload_id a) (ps_workload_id b) else str_leb (ps_tenant_id a) (ps_tenant_id b).

(** [schedules] *)
Definition schedules {X} (ctx : TenantContext) (w : World X) : list ProbeSchedule :=
  py_sort schedule_leb (filter (λ s, scopes ctx (ps_tenant_id s) = true) (od_values (pb_schedules w))).

Definition advanced (s : ProbeSchedule) (now : Z) : ProbeSchedule :=
  mkSchedule (ps_workload_id s) (ps_interval_seconds s) (now + ps_interval_seconds s * 1000000) (Some now) (ps_tenant_id s).

Section Service.
Context {X : Type}.
Variable env : Env X.

Abbreviation PM := (M (World X) ProbeExn).

Definition on_ext {A} (f : X → A * X) : PM A :=
  λ w, let '(a, x) := f (pb_ext w) in (Ret a, mkWorld (pb_schedules w) (pb_specs w) (pb_results w) x).

(** [schedule] *)
Definition schedule (spec : ProbeSpec) (ctx : TenantContext) : PM ProbeSchedule :=
  require ProbeScopeError ctx (pc_tenant_id spec) ;;;
  let* now := on_ext (pe_clock env) in
  let s := mkSchedule (pc_workload_id spec) (pc_interval_seconds spec) now None (pc_tenant_id spec) in
  let key := (pc_tenant_id spec, pc_workload_id spec) in
  modify (λ w, mkWorld (od_set key s (pb_schedules w)) (od_set key spec (pb_specs w)) (pb_results w) (pb_ext w)) ;;;
  ret s.

(** [due] *)
Definition due (at_ : option Z) (ctx : TenantContext) : PM (list ProbeSchedule) :=
  let* now := match at_ with Some t => ret t | None => on_ext (pe_clock env) end in
  gets (λ w, filter (λ s, (ps_next_run s <=? now)%Z = true) (schedules ctx w)).

(** What a run leaves behind: its result, and its schedule advanced. *)
Definition recorded (spec : ProbeSpec) (r : ProbeResult) (now : Z) (w : World X) : World X :=
  let key := (pc_tenant_id spec, pc_workload_id spec) in
  mkWorld (match od_get key (pb_schedules w) with Some s => od_set key (advanced s now) (pb_schedules w) | None => pb_schedules w end) (pb_specs w)
    (od_set (pc_workload_id spec) (results_of w (pc_workload_id spec) ++ [r]) (pb_results w)) (pb_ext w).

(** [run] *)
Definition run (spec : ProbeSpec) (ctx : TenantContext) : PM ProbeResult :=
  require ProbeScopeError ctx (pc_tenant_id spec) ;;;
  let* l := gets (λ w, results_of w (pc_workload_id spec)) in
  if exhausted (pe_budget_cap_usd env) l then raise (ProbeBudgetExceededError (pc_workload_id spec))
  else
    match pe_runner env with
    | None => raise NoRunnerError
    | Some runner =>
        let* o := on_ext (runner spec) in
        match o with
        | inl e => raise e
        | inr o =>
            let* now := on_ext (pe_clock env) in
            let* id := on_ext (pe_probe_id env) in
            let r := mkResult id (pc_workload_id spec) (po_passed o) (if po_passed o then PROBE_PASSED else PROBE_FAILED) (po_latency_ms o) (po_cost_usd o)
                       (po_detail o)
                       (if po_passed o then None
                        else Some (mkWarning (pc_workload_id spec) "synthetic probe failed (early drift warning)" now)) now (pc_tenant_id spec) in
            if result_valid r then modify (recorded spec r now) ;;; ret r else raise InvalidProbe
        end
    end.

(** [run_due] *)
Fixpoint run_each (l : list ProbeSchedule) (ctx : TenantContext) : PM (list ProbeResult) :=
  match l with
  | [] => ret []
  | s :: l =>
      let* spec := gets (λ w, od_get (ps_tenant_id s, ps_workload_id s) (pb_specs w)) in
      match spec with
      | None => run_each l ctx
      | Some spec => let* r := run spec ctx in let* rest := run_each l ctx in ret (r :: rest)
      end
  end.
Definition run_due (at_ : option Z) (ctx : TenantContext) : PM (list ProbeResult) :=
  let* now := match at_ with Some t => ret t | None => on_ext (pe_clock env) end in
  let* l := due (Some now) ctx in
  run_each l ctx.

(** [clear] *)
Definition clear : PM unit := modify (λ w, mkWorld [] [] [] (pb_ext w)).

(** ** Endpoints ([api/health.py]) and the ticker *)

Definition list_probes (ctx : TenantContext) (workload_id : option string) (w : World X) : list ProbeResult :=
  match workload_id with
  | Some i => list_results i ctx w
  | None => mjoin ((λ s, list_results (ps_workload_id s) ctx w) <$> schedules ctx w)
  end.
Definition with_tenant (s : ProbeSpec) (t : string) : ProbeSpec := mkSpec (pc_workload_id s) (pc_input s) (pc_expected s) (pc_interval_seconds s) t.
Definition schedule_probe (spec : ProbeSpec) (ctx : TenantContext) : PM ProbeSchedule := schedule (with_tenant spec (tc_tenant_id ctx)) ctx.
Definition run_due_probes (ctx : TenantContext) : PM (list ProbeResult) := run_due None ctx.
Definition probe_tick : PM unit := suppress (let* _ := run_due None SYSTEM_CONTEXT in ret tt).

(** ** The budget *)

Inductive ProbeOp :=
  | OSchedule (spec : ProbeSpec) (ctx : TenantContext) | ORun (spec : ProbeSpec) (ctx : TenantContext)
  | ORunDue (at_ : option Z) (ctx : TenantContext) | OClear.

Definition perform (o : ProbeOp) (w : World X) : World X :=
  match o with
  | OSchedule spec ctx => (schedule spec ctx w).2
  | ORun spec ctx => (run spec ctx w).2
  | ORunDue at_ ctx => (run_due at_ ctx w).2
  | OClear => (clear w).2
  end.

(** Every result was recorded while the spend so far, and the cost of the one before
    it once more, stayed under the cap. *)
Definition capped (cap : option f64) (l : list ProbeResult) : Prop := ∀ l1 r l2, l = l1 ++ r :: l2 → exhausted cap l1 = false.
Definition all_capped (w : World X) : Prop := ∀ n, capped (pe_budget_cap_usd env) (results_of w n).
Definition keeps_cap (w w' : World X) : Prop := all_capped w → all_capped w'.

#[local] Instance keeps_cap_preorder : PreOrder keeps_cap.
Proof. split; [by intros w ?|]. intros a b c H1 H2 H. auto. Qed.

Lemma cap_ext {A} (f : X → A * X) : keeps keeps_cap (on_ext f).
Proof. intros w. unfold on_ext. destruct (f (pb_ext w)). intros Hw n. apply Hw. Qed.

Lemma cap_require ctx t : keeps keeps_cap (require ProbeScopeError ctx t).
Proof. unfold require. destruct (scopes ctx t); [apply keeps_ret, _|apply keeps_raise, _]. Qed.

Lemma capped_snoc cap l r : capped cap l → exhausted cap l = false → capped cap (l ++ [r]).
Proof.
  intros Hc He l1 r' l2 Heq. destruct l2 as [|e l2 _] using rev_ind.
  - by apply app_inj_tail in Heq as [-> _].
  - rewrite app_comm_cons, app_assoc in Heq. apply app_inj_tail in Heq as [-> _]. by eapply Hc.
Qed.

Lemma on_ext_results {A} (f : X → A * X) (w : World X) a w' n : on_ext f w = (Ret a, w') → results_of w' n = results_of w n.
Proof. unfold on_ext. destruct (f (pb_ext w)). by intros [= _ <-]. Qed.

Lemma on_ext_returns {A} (f : X → A * X) (w : World X) : ∃ a w', on_ext f w = (Ret a, w').
Proof. unfold on_ext. destruct (f (pb_ext w)). eauto. Qed.

Lemma cap_run spec ctx : keeps keeps_cap (run spec ctx).
Proof.
  unfold run. apply keeps_bind; [apply _|apply cap_require|]. intros [] w Hw. unfold bind at 1, gets.
  destruct (exhausted _ _) eqn:He; [done|]. destruct (pe_runner env) as [runner|]; [|done].
  destruct (on_ext_returns (runner spec) w) as (o & w1 & H1). rewrite (bind_run _ _ _ _ _ H1).
  pose proof (λ n, on_ext_results _ _ _ _ n H1) as R1. destruct o as [e|o]; [intros n; cbn; rewrite R1; apply Hw|].
  destruct (on_ext_returns (pe_clock env) w1) as (now & w2 & H2). rewrite (bind_run _ _ _ _ _ H2).
  pose proof (λ n, on_ext_results _ _ _ _ n H2) as R2.
  destruct (on_ext_returns (pe_probe_id env) w2) as (id & w3 & H3). rewrite (bind_run _ _ _ _ _ H3).
  pose proof (λ n, on_ext_results _ _ _ _ n H3) as R3.
  assert (∀ n, results_of w3 n = results_of w n) as R by (intros n; by rewrite R3, R2, R1). cbv beta zeta.
  destruct (result_valid _); [|intros n; cbn; rewrite R; apply Hw].
  intros n. cbn. unfold results_of at 1. cbn [recorded pb_results]. rewrite od_get_set. case_decide as Hn; cbn [default].
  - subst n. apply (capped_snoc _ (results_of w3 (pc_workload_id spec))); rewrite R; [apply Hw|done].
  - change (capped (pe_budget_cap_usd env) (results_of w3 n)). rewrite R. apply Hw.
Qed.

Lemma cap_run_each l ctx : keeps keeps_cap (run_each l ctx).
Proof.
  induction l as [|s l IH]; cbn [run_each]; [apply keeps_ret, _|]. apply keeps_bind; [apply _|apply keeps_gets, _|]. intros [spec|]; [|done].
  apply keeps_bind; [apply _|apply cap_run|]. intros r. apply keeps_bind; [apply _|done|]. intros rest. apply keeps_ret, _.
Qed.

Lemma cap_run_due at_ ctx : keeps keeps_cap (run_due at_ ctx).
Proof.
  unfold run_due. apply keeps_bind; [apply _|destruct at_; [apply keeps_ret, _|apply cap_ext]|]. intros now.
  apply keeps_bind; [apply _|unfold due; apply keeps_bind; [apply _|apply keeps_ret, _|intros t; apply keeps_gets, _]|]. intros l. apply cap_run_each.
Qed.

Lemma cap_schedule spec ctx : keeps keeps_cap (schedule spec ctx).
Proof.
  unfold schedule. apply keeps_bind; [apply _|apply cap_require|]. intros _. apply keeps_bind; [apply _|apply cap_ext|]. intros now.
  apply keeps_bind; [apply _|by intros w Hw n; apply Hw|]. intros _. apply keeps_ret, _.
Qed.

(** The budget holds: whatever is scheduled and run, by whichever tenants, from an
    empty service on, every recorded run of a workload began with a spend that
    left room under the cap for the cost of the run before it. *)
Theorem probes_capped ops w n : pb_results w = [] → capped (pe_budget_cap_usd env) (results_of (foldl (λ w o, perform o w) w ops) n).
Proof.
  intros Hw. assert (all_capped w) as H0 by (intros m; unfold results_of; rewrite Hw; intros l1 r l2 H; by destruct l1).
  clear Hw. revert w H0. induction ops as [|o ops IH]; intros w H0; [apply H0|]. cbn. apply IH.
  destruct o; [by apply cap_schedule|by apply cap_run|by apply cap_run_due|]. intros m l1 r l2 H. by destruct l1.
Qed.

(** One exhausted workload stops the whole pass: what comes after it in the order is
    not run, and as its schedule does not move, not in any later pass either. *)
Theorem exhausted_blocks_pass now ctx w s rest spec :
  filter (λ s, (ps_next_run s <=? now)%Z = true) (schedules ctx w) = s :: rest →
  od_get (ps_tenant_id s, ps_workload_id s) (pb_specs w) = Some spec → scopes ctx (pc_tenant_id spec) = true →
  exhausted (pe_budget_cap_usd env) (results_of w (pc_workload_id spec)) = true →
  run_due (Some now) ctx w = (Raise (ProbeBudgetExceededError (pc_workload_id spec)), w).
Proof.
  intros Hd Hs Hsc He. unfold run_due, due, bind, ret, gets. rewrite Hd. cbn [run_each]. unfold bind, gets. rewrite Hs.
  unfold run, require, bind, gets. rewrite Hsc. cbn. by rewrite He.
Qed.
End Service.

(** ** Two tenants share a budget *)

Definition probe_env : Env nat :=
  mkEnv (Some (λ _ x, (inr (mkOutcome true 5 (f64_lit 6 10) []), x))) (Some (f64_lit 1 1)) (λ x, (Z.of_nat x, S x)) (λ x, ("probe-" +:+ pretty x, S x)).
Definition probe_of (tenant workload : string) : ProbeSpec := mkSpec workload [] None 300 tenant.
Definition probe_ops : list ProbeOp :=
  [OSchedule (probe_of "acme" "w") (context_for_run "acme" None None); OSchedule (probe_of "beta" "w") (context_for_run "beta" None None);
   OSchedule (probe_of "beta" "x") (context_for_run "beta" None None)].
Abbreviation probe_world := (foldl (λ w o, perform probe_env o w) (mkWorld [] [] [] 0) probe_ops).

(** The first tenant's probe uses up the budget of the workload's name: the pass fails
    for the second tenant, whose other workload is never reached. *)
Example tenants_share_probe_budget :
  let w := (run_due probe_env None SYSTEM_CONTEXT probe_world).2 in
  length (results_of w "w") = 1%nat ∧ results_of w "x" = [] ∧
  (run_due probe_env None SYSTEM_CONTEXT w).1 = Raise (ProbeBudgetExceededError "w") ∧
  results_of (run_due probe_env None SYSTEM_CONTEXT w).2 "x" = [].
Proof. vm_compute. done. Qed.

Lemma probes_capped_witness : capped (Some (f64_lit 1 1)) (results_of (foldl (λ w o, perform probe_env o w) probe_world [ORunDue None SYSTEM_CONTEXT]) "w").
Proof.
  change (foldl (λ w o, perform probe_env o w) probe_world [ORunDue None SYSTEM_CONTEXT])
    with (foldl (λ w o, perform probe_env o w) (mkWorld [] [] [] 0) (probe_ops ++ [ORunDue None SYSTEM_CONTEXT])).
  exact (probes_capped probe_env (probe_ops ++ [ORunDue None SYSTEM_CONTEXT]) (mkWorld [] [] [] 0) "w" eq_refl).
Defined.
