(* ===== verification/Chaos.v ===== *)
(** * Chaos drills ([chaos/])

    The engine that runs seeded failures behind its guardrails and reports on
    them, with the drills that [chaos/factory.py] wires to the worker registry
    and the tool kill switch.  The clock, identifiers, the authorizer and the
    text of an exception or of [repr] are parameters. *)

From stdpp Require Import base strings pretty numbers gmap sets list.
From S2P Require Import Prelude Text Float64 Tenancy CoreModels Approvals WorkerIdentity Workers.

#[local] Open Scope hp_scope.

(** ** Records ([chaos/models.py]) *)

Inductive DrillKind := KILL_WORKER | REVOKE_CERT | EXHAUST_BUDGET | INJECT_TOOL_FAILURE.
Inductive DrillScope := DRILL_SANDBOX | DRILL_TENANT.
Inductive DrillVerdict := DRILL_PASS | DRILL_FAIL | DRILL_REFUSED.

#[export] Instance DrillKind_eq_dec : EqDecision DrillKind.
Proof. solve_decision. Defined.
#[export] Instance DrillVerdict_eq_dec : EqDecision DrillVerdict.
Proof. solve_decision. Defined.

Definition kind_value (k : DrillKind) : string :=
  match k with
  | KILL_WORKER => "kill-worker" | REVOKE_CERT => "revoke-cert" | EXHAUST_BUDGET => "exhaust-budget" | INJECT_TOOL_FAILURE => "inject-tool-failure"
  end.

Record DrillRequest := mkRequest {
  dr_kind : DrillKind; dr_scope : DrillScope; dr_scope_ref : string; dr_seed : option Z; dr_production : bool; dr_allow_production : bool;
  dr_requested_by : string }.
Record DrillReport := mkReport {
  dp_drill_id : string; dp_kind : DrillKind; dp_scope : DrillScope; dp_scope_ref : string; dp_injected : string; dp_observed : string;
  dp_verdict : DrillVerdict; dp_started_at : Z; dp_finished_at : Z; dp_notes : list string }.
Record DrillOutcome := mkOutcome { dx_observed : string; dx_passed : bool }.

Definition report_valid (r : DrillReport) : bool := bool_decide (dp_drill_id r ≠ EmptyString) && bool_decide (dp_observed r ≠ EmptyString).

(** [_INJECTED] *)
Definition INJECTED (k : DrillKind) : string :=
  match k with
  | KILL_WORKER => "killed a worker mid-run" | REVOKE_CERT => "revoked a certification mid-flight"
  | EXHAUST_BUDGET => "forced budget exhaustion" | INJECT_TOOL_FAILURE => "injected a tool failure"
  end.

Inductive ChaosExn := InvalidReport | DrillRefusedError (reason : string) | DrillRaised (text : string).

(** ** The engine ([chaos/engine.py]) *)

(** Its reports, and the plane [P] that the drills act on. *)
Record World (P : Type) := mkWorld { ce_reports : odict string DrillReport; ce_plane : P }.
Arguments mkWorld {P}.
Arguments ce_reports {P}.
Arguments ce_plane {P}.

Record Env (P : Type) := mkEnv {
  ce_drills : odict DrillKind (DrillRequest → P → outcome string DrillOutcome * P); (* an exception by its text *)
  ce_authorizer : option (DrillRequest → bool);
  ce_audit : option (DrillReport → P → (ChaosExn + unit) * P);
  ce_clock : P → Z * P;
  ce_drill_id : P → string * P }.
Arguments mkEnv {P}.
Arguments ce_drills {P}.
Arguments ce_authorizer {P}.
Arguments ce_audit {P}.
Arguments ce_clock {P}.
Arguments ce_drill_id {P}.

Section Engine.
Context {P : Type}.
Variables (env : Env P) (str_repr : string → string).

Abbreviation CM := (M (World P) ChaosExn).

Definition on_plane {A} (f : P → A * P) : CM A := λ w, let '(a, p) := f (ce_plane w) in (Ret a, mkWorld (ce_reports w) p).

(** [_report] *)
Definition report (request : DrillRequest) (started : Z) (observed : string) (verdict : DrillVerdict) (notes : list string) : CM DrillReport :=
  let* id := on_plane (ce_drill_id env) in
  let* finished := on_plane (ce_clock env) in
  let r := mkReport id (dr_kind request) (dr_scope request) (dr_scope_ref request) (INJECTED (dr_kind request)) observed verdict started finished notes in
  if report_valid r then
    modify (λ w, mkWorld (od_set id r (ce_reports w)) (ce_plane w)) ;;;
    (match ce_audit env with
     | None => ret tt
     | Some audit => let* a := on_plane (audit r) in match a with inl e => raise e | inr u => ret u end
     end) ;;;
    ret r
  else raise InvalidReport.

(** [_refuse] *)
Definition refuse (request : DrillRequest) (started : Z) (reason : string) : CM DrillReport := report request started reason DRILL_REFUSED [reason].

(** The guardrail of [run]: why the drill is refused. *)
Definition refusal (request : DrillRequest) : option string :=
  if dr_production request then
    if negb (dr_allow_production request) then Some "production drill requires allow_production"
    else if negb (match ce_authorizer env with Some f => f request | None => false end) then Some "production drill requires an admin authorizer"
    else None
  else None.

(** [run] *)
Definition run (request : DrillRequest) : CM DrillReport :=
  let* started := on_plane (ce_clock env) in
  match refusal request with
  | Some reason => refuse request started reason
  | None =>
      match od_get (dr_kind request) (ce_drills env) with
      | None => refuse request started ("no handler for drill " +:+ str_repr (kind_value (dr_kind request)))
      | Some handler =>
          let* o := on_plane (handler request) in
          match o with
          | Raise e => report request started ("drill raised " +:+ e) DRILL_FAIL []
          | Ret o =>
              report request started (dx_observed o) (if dx_passed o then DRILL_PASS else DRILL_FAIL)
                (match dr_seed request with Some s => ["seed=" +:+ pretty s] | None => [] end)
          end
      end
  end.

(** [reports], [report] *)
Definition reports (w : World P) : list DrillReport := rev (py_sort (λ a b, (dp_started_at a <=? dp_started_at b)%Z) (rev (od_values (ce_reports w)))).
Definition report_of (drill_id : string) (w : World P) : option DrillReport := od_get drill_id (ce_reports w).

(** [ensure_authorized] *)
Definition ensure_authorized (request : DrillRequest) (authorized : bool) : CM unit :=
  if dr_production request && (negb (dr_allow_production request) || negb authorized)
  then raise (DrillRefusedError "production drill not authorized") else ret tt.
End Engine.

(** ** The wired drills ([chaos/factory.py]) *)

Record Services (X : Type) := mkServices { cs_workers : Workers.World X; cs_switch : KillSwitch.t; cs_now : Z }.
Arguments mkServices {X}.
Arguments cs_workers {X}.
Arguments cs_switch {X}.
Arguments cs_now {X}.

Section Factory.
Context {X : Type}.
Variables (wenv : Workers.Env X) (worker_error : WorkerExn → string) (approval_error : ApprovalExn → string) (str_repr : string → string).

Definition with_workers (s : Services X) (w : Workers.World X) : Services X := mkServices w (cs_switch s) (cs_now s).

Definition kill_worker (request : DrillRequest) (s : Services X) : outcome string DrillOutcome * Services X :=
  match mark_unhealthy wenv None None (cs_workers s) with
  | (Raise e, w) => (Raise (worker_error e), with_workers s w)
  | (Ret unhealthy, w) =>
      match reclaim wenv None w with
      | (Raise e, w) => (Raise (worker_error e), with_workers s w)
      | (Ret reassigned, w) =>
          (Ret (mkOutcome ("marked " +:+ pretty (Z.of_nat (length unhealthy)) +:+ " worker(s) unhealthy; reassigned "
                           +:+ pretty (Z.of_nat (length reassigned)) +:+ " lease(s)") true), with_workers s w)
      end
  end.

Definition inject_tool_failure (request : DrillRequest) (s : Services X) : outcome string DrillOutcome * Services X :=
  let '(o, k) := KillSwitch.disable (cs_now s) (dr_scope_ref request) "chaos" (Some "seeded tool failure") true (cs_switch s) in
  (match o with Ret _ => Ret (mkOutcome ("disabled tool " +:+ str_repr (dr_scope_ref request)) true) | Raise e => Raise (approval_error e) end,
   mkServices (cs_workers s) k (cs_now s)).

(** [build_chaos_engine], as [api/app.py] calls it: no authorizer, no audit log. *)
Definition build_chaos_engine (clock : Services X → Z * Services X) (drill_id : Services X → string * Services X) : Env (Services X) :=
  mkEnv [(KILL_WORKER, kill_worker); (INJECT_TOOL_FAILURE, inject_tool_failure)] None None clock drill_id.

(** ** What the guardrails keep *)

Lemma bind_on_plane {P A B} (f : P → A * P) (k : A → M (World P) ChaosExn B) w :
  bind (on_plane f) k w = k (f (ce_plane w)).1 (mkWorld (ce_reports w) (f (ce_plane w)).2).
Proof. unfold bind, on_plane. by destruct (f (ce_plane w)). Qed.

(** A drill that the guardrails refuse runs nothing: its outcome does not depend on
    the drills there are. *)
Theorem refused_runs_nothing {P} (env : Env P) drills request w :
  is_Some (refusal env request) →
  run (mkEnv drills (ce_authorizer env) (ce_audit env) (ce_clock env) (ce_drill_id env)) str_repr request w = run env str_repr request w.
Proof. intros [reason Hr]. unfold run. rewrite !bind_on_plane. change (refusal (mkEnv _ _ _ _ _) request) with (refusal env request). by rewrite Hr. Qed.

Lemma steady_report {P} (env : Env P) (get : P → bool) request started observed verdict notes w :
  (∀ p, get (ce_clock env p).2 = get p) → (∀ p, get (ce_drill_id env p).2 = get p) → ce_audit env = None →
  get (ce_plane (report env request started observed verdict notes w).2) = get (ce_plane w).
Proof.
  intros Hc Hi Ha. unfold report. rewrite Ha, !bind_on_plane. destruct (report_valid _); cbn; by rewrite Hc, Hi.
Qed.

(** As wired, no production drill ever runs, with or without [allow_production]; and a
    tool drill that does not call itself a production drill disables the tool for the
    whole plane, whatever scope it names. *)
Theorem wired_drills clock drill_id request (w : World (Services X)) :
  (∀ s, (clock s).2 = s) → (∀ s, cs_switch (drill_id s).2 = cs_switch s) →
  let env := build_chaos_engine clock drill_id in
  let w' := (run env str_repr request w).2 in
  if dr_production request then is_Some (refusal env request)
  else dr_kind request = INJECT_TOOL_FAILURE → dr_scope_ref request ≠ EmptyString →
    KillSwitch.is_disabled (dr_scope_ref request) (cs_switch (ce_plane w')) = true.
Proof.
  intros Hc Hi env w'. destruct (dr_production request) eqn:Hp.
  { unfold refusal. rewrite Hp. cbn. destruct (dr_allow_production request); eauto. }
  intros Hk Hs. subst w'. set (get := λ s : Services X, KillSwitch.is_disabled (dr_scope_ref request) (cs_switch s)).
  change (get (ce_plane (run env str_repr request w).2) = true).
  assert (∀ observed verdict notes w1, get (ce_plane w1) = true →
    get (ce_plane (report env request (clock (ce_plane w)).1 observed verdict notes w1).2) = true) as Hrep.
  { intros observed verdict notes w1 <-. apply steady_report; [intros p; cbn; by rewrite Hc|intros p; unfold get; cbn; by rewrite Hi|done]. }
  unfold run. rewrite bind_on_plane. unfold refusal. rewrite Hp, Hk. cbn [ce_drills env build_chaos_engine od_get].
  rewrite decide_False, decide_True, bind_on_plane by done. cbn [ce_plane ce_reports ce_clock env build_chaos_engine].
  assert (get (inject_tool_failure request (clock (ce_plane w)).2).2 = true) as Hg.
  { unfold inject_tool_failure, KillSwitch.disable, KillSwitch.kill_set, nonempty, get. rewrite !bool_decide_true by done. cbn.
    unfold KillSwitch.is_disabled. cbn. by rewrite od_get_set_eq. }
  destruct (inject_tool_failure request (clock (ce_plane w)).2) as [[o|e] p] eqn:Ho; cbn [fst snd] in *; by apply Hrep.
Qed.
End Factory.
