(* ===== verification/Delivery.v ===== *)
(** * Telling people: results, messages, escalations

    [FanOut] (execution/fanout.py), then the in-memory store of delivery/store.py at
    the top of the file, [Sending] (delivery/templating.py, channels.py, service.py)
    and [Escalation] (the escalation service of delivery/service.py). *)

From Stdlib Require Import Ascii.
From stdpp Require Import base strings pretty numbers gmap sets list relations.
From S2P Require Import Prelude Text Float64 Calendar Tenancy AuditTrail CoreModels Canonical Admission RunStore RunService Manifest Drift.

#[local] Open Scope hp_scope.

(** ** Results of runs *)

(** Delivering a run's outcome to the destinations its manifest names, every
    attempt recorded with the run.  Transports are functions that send or raise;
    the run service's notification hooks are this service, which keeps the
    promises the run service asks of its hooks. *)

Module FanOut.
#[local] Open Scope hp_scope.

(** A transport's [send]: the text of the exception it raises, if it does. *)
Abbreviation Sender X := (FanOutDestination → odict string JsonValue → X → option string * X).

Record Env (X : Type) := mkEnv {
  fe_transports : odict FanOutType (Sender X);
  fe_enabled : bool;
  fe_max_retries : Z;
  fe_clock : X → Z * X;
  fe_verification_base_url : option string;
  fe_artifact_lookup : option (string → X → option (list JsonValue) * X) }.
Arguments mkEnv {X}.
Arguments fe_transports {X}.
Arguments fe_enabled {X}.
Arguments fe_max_retries {X}.
Arguments fe_clock {X}.
Arguments fe_verification_base_url {X}.
Arguments fe_artifact_lookup {X}.

(** [base.rstrip] of slashes *)
Definition rstrip_slash (s : string) : string :=
  let fix drop l := match l with c :: l' => if bool_decide (c = "/"%char) then drop l' else l | [] => [] end in
  String.string_of_list_ascii (rev (drop (rev (String.list_ascii_of_string s)))).

(** [_destinations] *)
Definition destinations (r : Run) (m : Manifest) : list FanOutDestination :=
  match run_state r with
  | COMPLETED => fo_on_completed (sp_fan_out (ma_spec m))
  | FAILED => fo_on_failed (sp_fan_out (ma_spec m))
  | _ => []
  end.

(** [_message] *)
Definition verification_url (attestation_id base : option string) : option string :=
  match attestation_id, base with
  | Some a, Some b => if truthy attestation_id && truthy base then Some (rstrip_slash b +:+ "/attestations/" +:+ a +:+ "/verify") else None
  | _, _ => None
  end.
Definition message (r : Run) (m : Manifest) (base : option string) (artifacts : list JsonValue) : odict string JsonValue :=
  let attestation_id := sp_certification (ma_spec m) ≫= ce_attestation_id in
  [("run_id", JStr (run_id r)); ("workload", JStr (run_workload_id r)); ("state", JStr (run_state_value (run_state r)));
   ("failure_reason", json_opt_str (run_failure_reason r)); ("cost_usd", JFloat (run_cost_usd r)); ("attestation_id", json_opt_str attestation_id);
   ("verification_url", json_opt_str (verification_url attestation_id base)); ("artifacts", JList artifacts)].

(** [SlackTransport.send], [WebhookTransport.send] over a poster *)
Definition slack_send {X} (dumps : odict string JsonValue → string) (webhook_url : option string)
    (post : string → odict string JsonValue → X → option string * X) : Sender X :=
  λ d msg x, if truthy webhook_url then post (default EmptyString webhook_url) [("text", JStr (dumps msg))] x else (Some "no slack webhook configured", x).
Definition webhook_send {X} (default_url : option string) (post : string → odict string JsonValue → X → option string * X) : Sender X :=
  λ d msg x,
    let url := if truthy (fd_url d) then fd_url d else default_url in
    if truthy url then post (default EmptyString url) msg x else (Some "no webhook url configured", x).

Section FanOut.
Context {X : Type}.
Variable env : Env X.

Abbreviation SM := (SvcM X).

Definition on_ext {A} (f : X → A * X) : SM A := Service.on_ext (λ x, let '(a, x) := f x in (Ret a, x)).

(** [_artifacts]: a failing lookup gives none. *)
Definition artifacts (r : Run) : SM (list JsonValue) :=
  match fe_artifact_lookup env with
  | None => ret []
  | Some f => let* l := on_ext (f (run_id r)) in ret (default [] l)
  end.

(** The loop of [_attempt]: the attempts made and, when none succeeded, the last error. *)
Fixpoint send_loop (n : nat) (send : X → option string * X) (attempts : N) (error : option string) : SM (N * bool * option string) :=
  match n with
  | O => ret (attempts, false, error)
  | S n =>
      let* e := on_ext send in
      match e with
      | None => ret ((attempts + 1)%N, true, None)
      | Some text => send_loop n send (attempts + 1)%N (Some text)
      end
  end.

(** [_finish] *)
Definition finish (r : Run) (d : DeliveryRecord) : SM DeliveryRecord := Service.on_store (add_delivery d (run_ctx r)) ;;; ret d.

(** [_attempt] *)
Definition attempt (r : Run) (f : FanOutDestination) (msg : odict string JsonValue) : SM DeliveryRecord :=
  let* t := on_ext (fe_clock env) in
  let record status attempts error := mkDelivery (run_id r) (fan_out_value (fd_type f)) (target f) status attempts error t in
  match od_get (fd_type f) (fe_transports env) with
  | None => finish r (record DELIVERY_FAILED 0%N (Some "no transport configured"))
  | Some send =>
      let* o := send_loop (Z.to_nat (fe_max_retries env + 1)) (send f msg) 0 None in
      let '(attempts, ok, error) := o in
      finish r (if (ok : bool) then record DELIVERY_DELIVERED attempts None else record DELIVERY_FAILED attempts error)
  end.

Fixpoint deliver_each (l : list FanOutDestination) (r : Run) (msg : odict string JsonValue) : SM (list DeliveryRecord) :=
  match l with
  | [] => ret []
  | f :: l => let* d := attempt r f msg in let* rest := deliver_each l r msg in ret (d :: rest)
  end.

Definition notify_to (l : list FanOutDestination) (r : Run) (m : Manifest) : SM (list DeliveryRecord) :=
  if fe_enabled env then
    let* a := artifacts r in
    deliver_each l r (message r m (fe_verification_base_url env) a)
  else ret [].

(** [notify], [notify_escalation] *)
Definition notify (r : Run) (m : Manifest) : SM (list DeliveryRecord) := notify_to (destinations r m) r m.
Definition notify_escalation (r : Run) (m : Manifest) : SM (list DeliveryRecord) := notify_to (fo_on_escalation (sp_fan_out (ma_spec m))) r m.

(** ** What is recorded *)

(** One destination's record. *)
Definition delivered_to (r : Run) (f : FanOutDestination) (d : DeliveryRecord) : Prop :=
  dl_run_id d = run_id r ∧ dl_target d = target f ∧ dl_destination_type d = fan_out_value (fd_type f) ∧
  (Z.of_N (dl_attempts d) ≤ Z.max 0 (fe_max_retries env + 1))%Z ∧
  ((dl_status d = DELIVERY_DELIVERED ∧ (0 < dl_attempts d)%N ∧ dl_error d = None) ∨
   (dl_status d = DELIVERY_FAILED ∧
    (od_get (fd_type f) (fe_transports env) = None → dl_attempts d = 0%N ∧ dl_error d = Some "no transport configured") ∧
    (od_get (fd_type f) (fe_transports env) ≠ None → Z.of_N (dl_attempts d) = Z.max 0 (fe_max_retries env + 1)))).

Lemma on_ext_store {A} (f : X → A * X) w : ∃ a x, on_ext f w = (Ret a, RunService.mkWorld (store w) (sched w) x).
Proof. unfold on_ext, Service.on_ext. destruct (f (RunService.ext w)) as [a x]. by exists a, x. Qed.

Lemma send_loop_spec n send k e w :
  ∃ attempts ok error x, send_loop n send k e w = (Ret (attempts, ok, error), RunService.mkWorld (store w) (sched w) x) ∧
    (if (ok : bool) then (k < attempts ≤ k + N.of_nat n)%N ∧ error = None else attempts = (k + N.of_nat n)%N).
Proof.
  revert k e w. induction n as [|n IH]; intros k e w; cbn [send_loop].
  { exists k, false, e, (RunService.ext w). destruct w. split; [done|lia]. }
  unfold bind. destruct (on_ext_store send w) as (a & x & ->). destruct a as [text|].
  - destruct (IH (k + 1)%N (Some text) (RunService.mkWorld (store w) (sched w) x)) as (attempts & ok & error & x' & -> & H). cbn.
    exists attempts, ok, error, x'. split; [done|]. destruct ok; [destruct H; split; [lia|done]|lia].
  - exists (k + 1)%N, true, None, x. split; [done|]. split; [lia|done].
Qed.

Definition with_delivery (b : RunBundle) (l : list DeliveryRecord) : RunBundle :=
  mkBundle (bu_run b) (bu_admission b) (bu_events b) (bu_usage b) (bu_deliveries b ++ l).

Lemma finish_eq r d w b : dl_run_id d = run_id r → od_get (run_tenant_id r, run_id r) (store w) = Some b →
  finish r d w = (Ret d, RunService.mkWorld (od_set (run_tenant_id r, run_id r) (with_delivery b [d]) (store w)) (sched w) (RunService.ext w)).
Proof.
  intros Hd Hb. unfold finish, bind, Service.on_store, add_delivery, update_bundle. rewrite Hd, (Lifecycle.find_run_ctx r _ b) by done. by rewrite Hb.
Qed.

Lemma attempt_eq r f msg w b : od_get (run_tenant_id r, run_id r) (store w) = Some b →
  ∃ d x, delivered_to r f d ∧
    attempt r f msg w = (Ret d, RunService.mkWorld (od_set (run_tenant_id r, run_id r) (with_delivery b [d]) (store w)) (sched w) x).
Proof.
  intros Hb. unfold attempt. unfold bind at 1. destruct (on_ext_store (fe_clock env) w) as (t & x & ->).
  destruct (od_get (fd_type f) (fe_transports env)) as [send|] eqn:Hs.
  - unfold bind at 1. match goal with |- context [send_loop ?n ?s ?k ?e ?w0] => destruct (send_loop_spec n s k e w0) as (attempts & ok & error & x' & -> & Hok) end.
    cbn [store sched] in *. eexists _, x'. rewrite (finish_eq r _ _ b) by (by destruct ok). cbn [store sched RunService.ext]. split; [|reflexivity].
    unfold delivered_to. destruct ok; cbn; (split_and!; [done|done|done|lia|]); rewrite Hs; [left; split_and!; [done|lia|done]|right; split_and!; [done|done|lia]].
  - eexists _, x. rewrite (finish_eq r _ _ b) by done. cbn [store sched RunService.ext]. split; [|reflexivity].
    unfold delivered_to. cbn. rewrite Hs. split_and!; [done|done|done|lia|]. by right.
Qed.

Lemma deliver_each_eq l r msg w b : od_get (run_tenant_id r, run_id r) (store w) = Some b →
  ∃ ds x s, Forall2 (delivered_to r) l ds ∧ deliver_each l r msg w = (Ret ds, RunService.mkWorld s (sched w) x) ∧
    od_get (run_tenant_id r, run_id r) s = Some (with_delivery b ds) ∧
    ∀ k, k ≠ (run_tenant_id r, run_id r) → od_get k s = od_get k (store w).
Proof.
  revert w b. induction l as [|f l IH]; intros w b Hb; cbn [deliver_each].
  - exists [], (RunService.ext w), (store w). split; [constructor|]. split; [by destruct w|]. split; [|done]. unfold with_delivery. rewrite app_nil_r. by destruct b.
  - unfold bind at 1. destruct (attempt_eq r f msg w b Hb) as (d & x & Hd & ->).
    match goal with |- context [deliver_each l r msg] => idtac end. unfold bind at 1.
    match goal with |- context [deliver_each l r msg ?w0] => destruct (IH w0 (with_delivery b [d])) as (ds & x' & s & Hds & -> & Hg & Hk); [by cbn; rewrite od_get_set_eq|] end.
    exists (d :: ds), x', s. split; [by constructor|]. split; [done|]. split.
    + rewrite Hg. unfold with_delivery. cbn. by rewrite <-app_assoc.
    + intros k Hne. rewrite Hk by done. cbn. by apply od_get_set_ne.
Qed.

(** Notifying of a run on record makes exactly one record for every destination the
    manifest names for its state, in order, appended to the run's deliveries; a
    destination without transport is not tried, every other one is tried until it
    succeeds, one time more than [max_retries] at most; nothing else of any run
    changes. *)
Theorem outcomes_recorded r m w b :
  fe_enabled env = true → od_get (run_tenant_id r, run_id r) (store w) = Some b →
  ∃ ds x s, notify r m w = (Ret ds, RunService.mkWorld s (sched w) x) ∧ Forall2 (delivered_to r) (destinations r m) ds ∧
    od_get (run_tenant_id r, run_id r) s = Some (mkBundle (bu_run b) (bu_admission b) (bu_events b) (bu_usage b) (bu_deliveries b ++ ds)) ∧
    ∀ k, k ≠ (run_tenant_id r, run_id r) → od_get k s = od_get k (store w).
Proof.
  intros He Hb. unfold notify, notify_to. rewrite He. unfold bind.
  assert (∃ a x, artifacts r w = (Ret a, RunService.mkWorld (store w) (sched w) x)) as (a & x & ->).
  { unfold artifacts. destruct (fe_artifact_lookup env) as [f|]; [|exists [], (RunService.ext w); by destruct w].
    unfold bind. destruct (on_ext_store (f (run_id r)) w) as (l & x & ->). by exists (default [] l), x. }
  match goal with |- context [deliver_each ?l r ?msg ?w0] => destruct (deliver_each_eq l r msg w0 b Hb) as (ds & x' & s & Hds & -> & Hg & Hk) end.
  exists ds, x', s. by split_and!.
Qed.
End FanOut.

(** ** As the run service's hooks *)

#[local] Existing Instances Lifecycle.guarantee_preorder Lifecycle.run_evolves_preorder.

Lemma add_delivery_evolves d ctx s : Lifecycle.evolves s (add_delivery d ctx s).2.
Proof.
  intros Hs. unfold add_delivery. match goal with |- context [update_bundle ?r ?c ?f s] =>
    destruct (update_bundle_cases r c f s) as [[-> _]|(k & b & -> & Hk & Hb)] end; simpl.
  - by apply Lifecycle.evolves_refl.
  - destruct Hs as [[Hwf Hi] Hok]. apply (Lifecycle.put_evolves s k b); [done|by destruct (Hi _ _ Hb)|by destruct (Hok _ _ Hb)| |done].
    split; [reflexivity|]. split; done.
Qed.



Section Wired.
Context {X : Type}.
Variables (env : Env X) (full : Run → AgentWorkload → Manifest).

Lemma on_ext_safe {A} (f : X → A * X) : keeps Lifecycle.guarantee (on_ext f).
Proof. apply Lifecycle.safe_ext. Qed.

Lemma notify_to_safe l r m : keeps Lifecycle.guarantee (notify_to env l r m).
Proof.
  unfold notify_to. destruct (fe_enabled env); [|apply keeps_ret, _]. apply keeps_bind; [apply _| |intros a].
  { unfold artifacts. destruct (fe_artifact_lookup env); [|apply keeps_ret, _]. apply keeps_bind; [apply _|apply on_ext_safe|intros; apply keeps_ret, _]. }
  generalize (message r m (fe_verification_base_url env) a). intros msg. induction l as [|f l IH]; cbn [deliver_each]; [apply keeps_ret, _|].
  assert (∀ d, keeps Lifecycle.guarantee (finish (X := X) r d)) as Hfin.
  { intros d. unfold finish. apply keeps_bind; [apply _| |intros; apply keeps_ret, _]. intros w. unfold Service.on_store.
    pose proof (add_delivery_evolves d (run_ctx r) (store w)) as He. destruct (add_delivery d (run_ctx r) (store w)). exact He. }
  apply keeps_bind; [apply _| |intros d; apply keeps_bind; [apply _|done|intros; apply keeps_ret, _]].
  unfold attempt. apply keeps_bind; [apply _|apply on_ext_safe|intros t]. destruct (od_get _ _) as [send|]; [|apply Hfin].
  apply keeps_bind; [apply _| |intros [[n ok] e]; destruct ok; apply Hfin].
  generalize (Z.to_nat (fe_max_retries env + 1)), 0%N, (@None string). intros n. induction n as [|n IHn]; intros k e; cbn [send_loop]; [apply keeps_ret, _|].
  apply keeps_bind; [apply _|apply on_ext_safe|intros [text|]]; [apply IHn|apply keeps_ret, _].
Qed.

(** [build_run_service]: the fan-out as the run service's notifications; [full] is
    the whole manifest behind the part the run service reads. *)
Definition wire_fanout (e : RunService.Env X) : RunService.Env X :=
  {| RunService.clock := RunService.clock e; current_trace_id := current_trace_id e; float_str := float_str e; require_active := require_active e;
     registry_get := registry_get e; registry_get_version := registry_get_version e; increment_production_runs := increment_production_runs e;
     scan_input := scan_input e; mark_untrusted := mark_untrusted e; gates := gates e; canary_route := canary_route e; canary_record := canary_record e;
     approvals_request := approvals_request e; budget_record_usage := budget_record_usage e; guards_on_usage := guards_on_usage e;
     guards_release := guards_release e; taint_clear := taint_clear e; audit_append := audit_append e; sandbox_provision := sandbox_provision e;
     sandbox_destroy := sandbox_destroy e; executor_start := executor_start e; executor_pause := executor_pause e; executor_resume := executor_resume e;
     executor_cancel := executor_cancel e;
     fanout_notify := λ r m, let* _ := notify env r (full r m) in ret tt;
     fanout_notify_escalation := λ r m, let* _ := notify_escalation env r (full r m) in ret tt;
     eval_hook := eval_hook e; terminal_hook := terminal_hook e; RunService.event_sink := RunService.event_sink e |}.

(** The fan-out discharges what the run service asks of its notifications, so all
    that is proved of runs holds with it. *)
Theorem fanout_wired_safe e : Lifecycle.env_safe e → Lifecycle.env_safe (wire_fanout e).
Proof.
  intros [H1 H2 H3 H4 _ _ H7 H8 H9 H10]. split; try done; intros r m; cbn; (apply keeps_bind; [apply _|apply notify_to_safe|intros; apply keeps_ret, _]).
Qed.
End Wired.

End FanOut.

(** ** The store *)

(** The in-memory store of delivery attempts, interactive decisions, used
    approval tokens and notification preferences. *)

(** ** Records *)

Inductive DeliveryChannel := CH_SLACK | CH_TEAMS | CH_JIRA | CH_GITHUB_PR | CH_PAGERDUTY | CH_DISCORD | CH_LINEAR | CH_EMAIL | CH_WEBHOOK.
Inductive DeliveryEventType := EV_COMPLETED | EV_FAILED | EV_ESCALATION | EV_APPROVAL_REQUESTED | EV_APPROVAL_RESOLVED | EV_BUDGET_ALERT.
Inductive DeliveryStatus := DLV_DELIVERED | DLV_FAILED | DLV_SUPPRESSED | DLV_BATCHED | DLV_DEAD_LETTER.

Record DeliveryDestination := mkDestination { dd_channel : DeliveryChannel; dd_target : string }.
Record DeliveryAttempt := mkAttempt {
  at_attempt_id : string; at_tenant_id : string; at_event_type : DeliveryEventType; at_channel : DeliveryChannel; at_target : string;
  at_status : DeliveryStatus; at_attempts : Z; at_run_id : option string; at_approval_id : option string; at_error : option string;
  at_created_at : Z; at_delivered_at : option Z }.
Record NotificationPreference := mkPreference {
  np_team_id : string; np_tenant_id : string; np_events : list DeliveryEventType; np_channels : list DeliveryChannel;
  np_destinations : list DeliveryDestination; np_batch_window_s : Z; np_quiet_hours_start : option Z; np_quiet_hours_end : option Z;
  np_critical_bypasses_quiet : bool }.
Record ApprovalDecisionRecord := mkDecision {
  ad_approval_id : string; ad_operator_id : string; ad_decision : string; ad_channel : string; ad_reason : option string; ad_tenant_id : string;
  ad_decided_at : Z }.

Inductive DeliveryStoreExn := DeliveryScopeError.

(** ** The store *)

Record DeliveryStore := mkDeliveryStore {
  ds_attempts : odict string DeliveryAttempt; ds_decisions : odict string ApprovalDecisionRecord; ds_tokens : gset string;
  ds_preferences : odict (string * string) NotificationPreference }.

Definition empty_delivery : DeliveryStore := mkDeliveryStore [] [] ∅ [].

Abbreviation DSM := (M DeliveryStore DeliveryStoreExn).

Definition with_attempts (s : DeliveryStore) (d : odict string DeliveryAttempt) : DeliveryStore :=
  mkDeliveryStore d (ds_decisions s) (ds_tokens s) (ds_preferences s).

Definition save_attempt (a : DeliveryAttempt) (ctx : TenantContext) : DSM unit :=
  require DeliveryScopeError ctx (at_tenant_id a) ;;; modify (λ s, with_attempts s (od_set (at_attempt_id a) a (ds_attempts s))).

(** [for _, x in sorted(d.items())] *)
Definition by_key {V} (d : odict string V) : list V := (py_sort (λ a b, str_leb a.1 b.1) d).*2.

Definition list_attempts (tenant_id : string) (ctx : TenantContext) (s : DeliveryStore) : list DeliveryAttempt :=
  if scopes ctx tenant_id then filter (λ a, at_tenant_id a = tenant_id) (by_key (ds_attempts s)) else [].

Definition old_attempt (cutoff : Z) (tenant_id : string) (e : string * DeliveryAttempt) : bool :=
  bool_decide (at_tenant_id e.2 = tenant_id) && (at_created_at e.2 <? cutoff)%Z.

Definition delete_attempts_before (cutoff : Z) (tenant_id : string) (ctx : TenantContext) (s : DeliveryStore) : Z * DeliveryStore :=
  if scopes ctx tenant_id
  then (Z.of_nat (length (filter (λ e, old_attempt cutoff tenant_id e = true) (ds_attempts s))),
        with_attempts s (filter (λ e, old_attempt cutoff tenant_id e = false) (ds_attempts s)))
  else (0%Z, s).

Definition save_decision (d : ApprovalDecisionRecord) (ctx : TenantContext) : DSM unit :=
  require DeliveryScopeError ctx (ad_tenant_id d) ;;;
  modify (λ s, mkDeliveryStore (ds_attempts s) (od_set (ad_approval_id d) d (ds_decisions s)) (ds_tokens s) (ds_preferences s)).

Definition get_decision (approval_id : string) (ctx : TenantContext) (s : DeliveryStore) : option ApprovalDecisionRecord :=
  match od_get approval_id (ds_decisions s) with Some d => if scopes ctx (ad_tenant_id d) then Some d else None | None => None end.

Definition list_decisions (tenant_id : string) (ctx : TenantContext) (s : DeliveryStore) : list ApprovalDecisionRecord :=
  if scopes ctx tenant_id then filter (λ d, ad_tenant_id d = tenant_id) (by_key (ds_decisions s)) else [].

(** [claim_token]: one atomic step under the store's lock. *)
Definition claim_token (token_id : string) (s : DeliveryStore) : bool * DeliveryStore :=
  if bool_decide (token_id ∈ ds_tokens s) then (false, s)
  else (true, mkDeliveryStore (ds_attempts s) (ds_decisions s) ({[token_id]} ∪ ds_tokens s) (ds_preferences s)).

Definition save_preference (p : NotificationPreference) (ctx : TenantContext) : DSM unit :=
  require DeliveryScopeError ctx (np_tenant_id p) ;;;
  modify (λ s, mkDeliveryStore (ds_attempts s) (ds_decisions s) (ds_tokens s) (od_set (np_tenant_id p, np_team_id p) p (ds_preferences s))).

Definition get_preference (tenant_id team_id : string) (ctx : TenantContext) (s : DeliveryStore) : option NotificationPreference :=
  if scopes ctx tenant_id then od_get (tenant_id, team_id) (ds_preferences s) else None.

Definition pair_leb (a b : string * string) : bool := if bool_decide (a.1 = b.1) then str_leb a.2 b.2 else str_leb a.1 b.1.
Definition list_preferences (tenant_id : string) (ctx : TenantContext) (s : DeliveryStore) : list NotificationPreference :=
  if scopes ctx tenant_id
  then filter (λ p, np_tenant_id p = tenant_id) (py_sort (λ a b, pair_leb a.1 b.1) (ds_preferences s)).*2 else [].

(** [purge_tenant]: used tokens stay. *)
Definition purge_tenant (tenant_id : string) (s : DeliveryStore) : Z * DeliveryStore :=
  (Z.of_nat (length (filter (λ e, at_tenant_id e.2 = tenant_id) (ds_attempts s)) + length (filter (λ e, ad_tenant_id e.2 = tenant_id) (ds_decisions s))
             + length (filter (λ e, np_tenant_id e.2 = tenant_id) (ds_preferences s))),
   mkDeliveryStore (filter (λ e, at_tenant_id e.2 ≠ tenant_id) (ds_attempts s)) (filter (λ e, ad_tenant_id e.2 ≠ tenant_id) (ds_decisions s))
     (ds_tokens s) (filter (λ e, np_tenant_id e.2 ≠ tenant_id) (ds_preferences s))).

Definition clear (s : DeliveryStore) : DeliveryStore := empty_delivery.

(** ** Tokens are used once *)

Inductive StoreOp :=
  | SAttempt (a : DeliveryAttempt) (ctx : TenantContext) | SExpire (cutoff : Z) (tenant_id : string) (ctx : TenantContext)
  | SDecision (d : ApprovalDecisionRecord) (ctx : TenantContext) | SClaim (token_id : string)
  | SPreference (p : NotificationPreference) (ctx : TenantContext) | SPurge (tenant_id : string).

Definition store_op (o : StoreOp) (s : DeliveryStore) : DeliveryStore :=
  match o with
  | SAttempt a ctx => (save_attempt a ctx s).2
  | SExpire c t ctx => (delete_attempts_before c t ctx s).2
  | SDecision d ctx => (save_decision d ctx s).2
  | SClaim t => (claim_token t s).2
  | SPreference p ctx => (save_preference p ctx s).2
  | SPurge t => (purge_tenant t s).2
  end.

Lemma store_op_tokens o s : ds_tokens s ⊆ ds_tokens (store_op o s).
Proof.
  destruct o; cbn [store_op]; unfold save_attempt, delete_attempts_before, save_decision, claim_token, save_preference, require, bind, modify, ret, raise.
  all: try (destruct (scopes _ _); cbn; set_solver). - case_bool_decide; cbn; set_solver. - done.
Qed.

(** A token is claimed once: after a claim, whatever is saved, expired, claimed or
    purged in between, every further claim of it is refused. *)
Theorem token_claimed_once token_id ops s : (claim_token token_id (foldl (λ s o, store_op o s) (claim_token token_id s).2 ops)).1 = false.
Proof.
  assert (∀ s, token_id ∈ ds_tokens s → token_id ∈ ds_tokens (foldl (λ s o, store_op o s) s ops)) as H.
  { clear s. induction ops as [|o ops IH]; intros s Hs; [done|]. cbn. apply IH. by apply store_op_tokens. }
  unfold claim_token at 1. rewrite bool_decide_eq_true_2; [done|]. apply H. unfold claim_token. case_bool_decide; cbn; set_solver.
Qed.

(** Expiring deletes exactly the tenant's attempts before the cutoff. *)
Lemma expired_attempts cutoff tenant_id ctx s a :
  scopes ctx tenant_id = true →
  a ∈ ds_attempts (delete_attempts_before cutoff tenant_id ctx s).2 ↔ a ∈ ds_attempts s ∧ old_attempt cutoff tenant_id a = false.
Proof. intros H. unfold delete_attempts_before. rewrite H. cbn. rewrite list_elem_of_filter. tauto. Qed.

(** ** Messages *)

(** Envelopes, their rendering for nine channels, and the service that delivers
    them under a team's preferences: suppressed, held for a window, sent with
    retries, or given up.  The transport is a function that sends or raises. *)

Module Sending.
#[local] Open Scope hp_scope.

Import FanOut(rstrip_slash).

#[export] Instance DeliveryChannel_eq_dec : EqDecision DeliveryChannel.
Proof. solve_decision. Defined.
#[export] Instance DeliveryEventType_eq_dec : EqDecision DeliveryEventType.
Proof. solve_decision. Defined.
#[export] Instance DeliveryStatus_eq_dec : EqDecision DeliveryStatus.
Proof. solve_decision. Defined.

(** ** Envelopes *)

Record DeliveryEnvelope := mkEnvelope {
  ev_event_type : DeliveryEventType; ev_tenant_id : string; ev_team_id : option string; ev_workload : option string; ev_run_id : option string;
  ev_approval_id : option string; ev_status : option string; ev_summary : string; ev_trace_link : option string; ev_attestation_link : option string;
  ev_public_verify_link : option string; ev_artifact_links : list string }.

Definition event_value (e : DeliveryEventType) : string :=
  match e with
  | EV_COMPLETED => "completed" | EV_FAILED => "failed" | EV_ESCALATION => "escalation" | EV_APPROVAL_REQUESTED => "approval_requested"
  | EV_APPROVAL_RESOLVED => "approval_resolved" | EV_BUDGET_ALERT => "budget_alert"
  end.

(** [render_envelope]: none when the tenant id is not valid. *)
Definition link_to (base_url : option string) (path : string) (id : option string) : option string :=
  if truthy base_url && truthy id then Some (rstrip_slash (default EmptyString base_url) +:+ path +:+ default EmptyString id) else None.
Definition render_envelope (event_type : DeliveryEventType) (tenant_id : string) (team_id workload run_id approval_id status : option string)
    (summary : string) (base_url public_verify_base_url attestation_id : option string) (artifact_ids : list string) : option DeliveryEnvelope :=
  if between 1 64 tenant_id then Some (mkEnvelope event_type tenant_id team_id workload run_id approval_id status summary
    (link_to base_url "/runs/" run_id) (link_to base_url "/attestations/" attestation_id) (link_to public_verify_base_url "/verify/" attestation_id)
    (if truthy base_url then (λ a, rstrip_slash (default EmptyString base_url) +:+ "/artifacts/" +:+ a) <$> artifact_ids else [])) else None.

(** ** Channel adapters *)

Definition links (e : DeliveryEnvelope) : list string :=
  omap (λ l, if truthy l then l else None) [ev_trace_link e; ev_attestation_link e; ev_public_verify_link e].
Definition plain (e : DeliveryEnvelope) : string := if bool_decide (ev_summary e ≠ EmptyString) then ev_summary e else event_value (ev_event_type e).

Definition newline : string := String (Ascii.ascii_of_nat 10) EmptyString.
Definition quoted (s : string) : string := String Json.dquote (s +:+ String Json.dquote EmptyString).
Definition link_html (l : string) : string := "<p><a href=" +:+ quoted l +:+ ">" +:+ l +:+ "</a></p>".

(** [render]: no adapter raises. *)
Definition render (c : DeliveryChannel) (e : DeliveryEnvelope) : odict string JsonValue :=
  match c with
  | CH_SLACK =>
      [("blocks", JList [JObj [("type", JStr "section"); ("text", JObj [("type", JStr "mrkdwn"); ("text", JStr (plain e))])];
          JObj [("type", JStr "context"); ("elements", JList ((λ l, JObj [("type", JStr "mrkdwn"); ("text", JStr l)]) <$> links e))]]);
       ("approval_id", json_opt_str (ev_approval_id e))]
  | CH_TEAMS =>
      [("type", JStr "message");
       ("attachments", JList [JObj [("contentType", JStr "application/vnd.microsoft.card.adaptive");
          ("content", JObj [("type", JStr "AdaptiveCard"); ("body", JList [JObj [("type", JStr "TextBlock"); ("text", JStr (plain e))]])])]])]
  | CH_JIRA => [("fields", JObj [("summary", JStr (plain e)); ("description", JStr (String.concat newline (links e)))])]
  | CH_GITHUB_PR =>
      [("body", JStr (plain e +:+ match links e with [] => EmptyString | _ => newline +:+ newline +:+ String.concat newline (links e) end))]
  | CH_PAGERDUTY =>
      [("event_action", JStr "trigger");
       ("payload", JObj [("summary", JStr (plain e)); ("source", json_opt_str (if truthy (ev_workload e) then ev_workload e else ev_run_id e));
                         ("severity", JStr "warning")]);
       ("links", JList ((λ l, JObj [("href", JStr l); ("text", JStr "trace")]) <$> links e))]
  | CH_DISCORD => [("content", JStr (plain e)); ("embeds", JList ((λ l, JObj [("url", JStr l)]) <$> links e))]
  | CH_LINEAR => [("title", JStr (plain e)); ("description", JStr (String.concat newline (links e)))]
  | CH_EMAIL =>
      [("subject", JStr ("[HivePlane] " +:+ plain e)); ("html", JStr ("<p>" +:+ plain e +:+ "</p>" +:+ String.concat "" (link_html <$> links e)));
       ("text", JStr (plain e +:+ newline +:+ String.concat newline (links e))); ("approval_id", json_opt_str (ev_approval_id e))]
  | CH_WEBHOOK =>
      [("event_type", JStr (event_value (ev_event_type e))); ("tenant_id", JStr (ev_tenant_id e)); ("team_id", json_opt_str (ev_team_id e));
       ("workload", json_opt_str (ev_workload e)); ("run_id", json_opt_str (ev_run_id e)); ("approval_id", json_opt_str (ev_approval_id e));
       ("status", json_opt_str (ev_status e)); ("summary", JStr (ev_summary e)); ("trace_link", json_opt_str (ev_trace_link e));
       ("attestation_link", json_opt_str (ev_attestation_link e)); ("public_verify_link", json_opt_str (ev_public_verify_link e));
       ("artifact_links", JList (JStr <$> ev_artifact_links e))]
  end.

(** [MessageSender.send]: the text of the exception, if it raises. *)
Abbreviation MessageSender X := (DeliveryChannel → string → odict string JsonValue → X → option string * X).

(** [UrllibSender.send] over a poster *)
Definition urllib_send {X} (post : string → odict string JsonValue → X → option string * X) : MessageSender X :=
  λ c target payload x, if String.prefix "http://" target || String.prefix "https://" target then post target payload x else (None, x).

(** ** The service *)

Record BufferedBatch := mkBatch { bb_envelope : DeliveryEnvelope; bb_destination : DeliveryDestination; bb_due_at : Z; bb_ctx : TenantContext }.

Inductive DeliveryExn := TenantInactive | DeliveryScope | DeliveryOverflow | InvalidAttempt.

Record World (X : Type) := mkWorld { dl_store : DeliveryStore; dl_batches : list BufferedBatch; dl_ext : X }.
Arguments mkWorld {X}.
Arguments dl_store {X}.
Arguments dl_batches {X}.
Arguments dl_ext {X}.

Record Env (X : Type) := mkEnv {
  dl_send : MessageSender X;
  dl_clock : X → Z * X;
  dl_max_attempts : Z;
  dl_attempt_id : X → string * X;
  dl_require_active : option (string → X → bool * X) }.
Arguments mkEnv {X}.
Arguments dl_send {X}.
Arguments dl_clock {X}.
Arguments dl_max_attempts {X}.
Arguments dl_attempt_id {X}.
Arguments dl_require_active {X}.

Definition attempt_valid (a : DeliveryAttempt) : bool :=
  (1 <=? chars (at_attempt_id a))%nat && between 1 64 (at_tenant_id a) && between 1 2000 (at_target a) && (0 <=? at_attempts a)%Z.

(** [_in_quiet_hours]: [now.hour] of a clock in UTC *)
Definition hour_of (now : Z) : Z := (now / 3600000000 mod 24)%Z.
Definition in_quiet_hours (p : NotificationPreference) (now : Z) : bool :=
  match np_quiet_hours_start p, np_quiet_hours_end p with
  | Some s, Some e => if (s <=? e)%Z then (s <=? hour_of now)%Z && (hour_of now <? e)%Z else (s <=? hour_of now)%Z || (hour_of now <? e)%Z
  | _, _ => false
  end.

(** [preference] *)
Definition preference (team_id : option string) (tenant_id : string) (ctx : TenantContext) (s : DeliveryStore) : option NotificationPreference :=
  match team_id with Some t => get_preference tenant_id t ctx s | None => None end.

(** [_classify] *)
Definition classify (e : DeliveryEnvelope) (d : DeliveryDestination) (critical : bool) (now : Z) (ctx : TenantContext) (s : DeliveryStore)
    : option DeliveryStatus :=
  match preference (ev_team_id e) (ev_tenant_id e) ctx s with
  | None => None
  | Some p =>
      if negb (bool_decide (np_tenant_id p = ev_tenant_id e)) then None
      else if negb (bool_decide (np_events p = [])) && negb (bool_decide (ev_event_type e ∈ np_events p)) then Some DLV_SUPPRESSED
      else if negb (bool_decide (np_channels p = [])) && negb (bool_decide (dd_channel d ∈ np_channels p)) then Some DLV_SUPPRESSED
      else if in_quiet_hours p now && negb (critical && np_critical_bypasses_quiet p) then Some DLV_SUPPRESSED
      else if (0 <? np_batch_window_s p)%Z then Some DLV_BATCHED
      else None
  end.

(** What [deliver] does with the destinations it is not given. *)
Definition resolved_destinations (e : DeliveryEnvelope) (given : option (list DeliveryDestination)) (scope : TenantContext) (s : DeliveryStore)
    : list DeliveryDestination :=
  match given with
  | Some l => l
  | None =>
      match preference (ev_team_id e) (ev_tenant_id e) scope s with
      | Some p => if bool_decide (np_tenant_id p = ev_tenant_id e) then np_destinations p else []
      | None => []
      end
  end.

Section Service.
Context {X : Type}.
Variable env : Env X.

Abbreviation DM := (M (World X) DeliveryExn).

Definition on_ext {A} (f : X → A * X) : DM A := λ w, let '(a, x) := f (dl_ext w) in (Ret a, mkWorld (dl_store w) (dl_batches w) x).
Definition put_batches (f : list BufferedBatch → list BufferedBatch) : DM unit := modify (λ w, mkWorld (dl_store w) (f (dl_batches w)) (dl_ext w)).
Definition store_attempt (a : DeliveryAttempt) (ctx : TenantContext) : DM unit :=
  λ w, let '(o, s) := save_attempt a ctx (dl_store w) in
       (match o with Ret u => Ret u | Raise _ => Raise DeliveryScope end, mkWorld s (dl_batches w) (dl_ext w)).

Definition new_attempt (e : DeliveryEnvelope) (d : DeliveryDestination) (status : DeliveryStatus) (attempts : Z)
    (error : option string) (now : Z) (delivered_at : option Z) (id : string) : DM DeliveryAttempt :=
  let a := mkAttempt id (ev_tenant_id e) (ev_event_type e) (dd_channel d) (dd_target d) status attempts (ev_run_id e) (ev_approval_id e) error now delivered_at in
  if attempt_valid a then ret a else raise InvalidAttempt.

(** [_buffer] *)
Definition buffer (e : DeliveryEnvelope) (d : DeliveryDestination) (now : Z) (ctx : TenantContext) : DM unit :=
  let* s := gets dl_store in
  let window := from_option np_batch_window_s 0%Z (preference (ev_team_id e) (ev_tenant_id e) ctx s) in
  if (window <=? 0)%Z then ret tt
  else
    let due := (now + window * 1000000)%Z in
    if dt_in_range due then put_batches (λ l, l ++ [mkBatch e d due ctx]) else raise DeliveryOverflow.

(** [_send]: [count] attempts have been made. *)
Fixpoint send_loop (n : nat) (e : DeliveryEnvelope) (d : DeliveryDestination) (now : Z) (count : Z) (error : option string)
    : DM DeliveryAttempt :=
  match n with
  | O => let* id := on_ext (dl_attempt_id env) in new_attempt e d DLV_DEAD_LETTER (dl_max_attempts env) error now None id
  | S n =>
      let* r := on_ext (dl_send env (dd_channel d) (dd_target d) (render (dd_channel d) e)) in
      match r with
      | Some text => send_loop n e d now (count + 1) (Some text)
      | None =>
          let* id := on_ext (dl_attempt_id env) in
          let* t := on_ext (dl_clock env) in
          new_attempt e d DLV_DELIVERED (count + 1) None now (Some t) id
      end
  end.
Definition send (e : DeliveryEnvelope) (d : DeliveryDestination) (now : Z) : DM DeliveryAttempt :=
  send_loop (Z.to_nat (dl_max_attempts env)) e d now 0 None.

(** [_deliver_one] *)
Definition deliver_one (e : DeliveryEnvelope) (d : DeliveryDestination) (critical : bool) (ctx : TenantContext) : DM DeliveryAttempt :=
  let* now := on_ext (dl_clock env) in
  let* s := gets dl_store in
  match classify e d critical now ctx s with
  | Some status =>
      let* id := on_ext (dl_attempt_id env) in
      let* a := new_attempt e d status 0 None now None id in
      when (bool_decide (status = DLV_BATCHED)) (buffer e d now ctx) ;;;
      ret a
  | None => send e d now
  end.

Fixpoint deliver_each (l : list DeliveryDestination) (e : DeliveryEnvelope) (critical : bool) (ctx : TenantContext) : DM (list DeliveryAttempt) :=
  match l with
  | [] => ret []
  | d :: l =>
      let* a := deliver_one e d critical ctx in
      store_attempt a ctx ;;;
      let* rest := deliver_each l e critical ctx in ret (a :: rest)
  end.

(** The context a delivery runs under. *)
Definition scope_for (e : DeliveryEnvelope) (ctx : TenantContext) : TenantContext :=
  if scopes ctx (ev_tenant_id e) then ctx else context_for_run (ev_tenant_id e) None None.

(** [deliver] *)
Definition deliver (e : DeliveryEnvelope) (given : option (list DeliveryDestination)) (critical : bool) (ctx : TenantContext)
    : DM (list DeliveryAttempt) :=
  match dl_require_active env with
  | None => ret tt
  | Some gate => let* ok := on_ext (gate (ev_tenant_id e)) in if ok : bool then ret tt else raise TenantInactive
  end ;;;
  let scope := scope_for e ctx in
  let* s := gets dl_store in
  deliver_each (resolved_destinations e given scope s) e critical scope.

(** [flush_due] *)
Fixpoint send_batches (l : list BufferedBatch) (now : Z) : DM (list DeliveryAttempt) :=
  match l with
  | [] => ret []
  | b :: l =>
      let* a := send (bb_envelope b) (bb_destination b) now in
      store_attempt a (bb_ctx b) ;;;
      let* rest := send_batches l now in ret (a :: rest)
  end.
Definition flush_due : DM (list DeliveryAttempt) :=
  let* now := on_ext (dl_clock env) in
  let* l := gets dl_batches in
  put_batches (filter (λ b, (now < bb_due_at b)%Z)) ;;;
  send_batches (filter (λ b, (bb_due_at b ≤ now)%Z) l) now.

(** [pending_batches], [set_preference], [attempts] *)
Definition pending_batches (w : World X) : nat := length (dl_batches w).
Definition set_preference (p : NotificationPreference) (ctx : TenantContext) : DM unit :=
  λ w, let '(o, s) := save_preference p ctx (dl_store w) in
       (match o with Ret u => Ret u | Raise _ => Raise DeliveryScope end, mkWorld s (dl_batches w) (dl_ext w)).
Definition attempts (tenant_id : string) (ctx : TenantContext) (w : World X) : list DeliveryAttempt := list_attempts tenant_id ctx (dl_store w).
Definition delivery_audit (ctx : TenantContext) (w : World X) : list DeliveryAttempt := attempts (tc_tenant_id ctx) ctx w.
(** The ticker: a failing flush is logged. *)
Definition batch_tick : DM unit := suppress (let* _ := flush_due in ret tt).
End Service.

(** ** What becomes of a message *)

Section Outcomes.
Context {X : Type}.
Variable env : Env X.

(** The attempt [a] carries the envelope to the destination. *)
Definition about (e : DeliveryEnvelope) (d : DeliveryDestination) (a : DeliveryAttempt) : Prop :=
  at_tenant_id a = ev_tenant_id e ∧ at_event_type a = ev_event_type e ∧ at_channel a = dd_channel d ∧ at_target a = dd_target d.

(** It was handed to the transport: until that did not raise, [max_attempts] times at most. *)
Definition sent (e : DeliveryEnvelope) (d : DeliveryDestination) (now : Z) (a : DeliveryAttempt) : Prop :=
  about e d a ∧ at_created_at a = now ∧
  ((at_status a = DLV_DELIVERED ∧ (1 ≤ at_attempts a ≤ dl_max_attempts env)%Z ∧ at_error a = None) ∨
   (at_status a = DLV_DEAD_LETTER ∧ at_attempts a = dl_max_attempts env)).

(** What the preferences that hold say, and nothing else, decides. *)
Definition handled (e : DeliveryEnvelope) (critical : bool) (ctx : TenantContext) (s : DeliveryStore) (d : DeliveryDestination)
    (a : DeliveryAttempt) : Prop :=
  match classify e d critical (at_created_at a) ctx s with
  | Some status => about e d a ∧ at_status a = status ∧ at_attempts a = 0%Z
  | None => sent e d (at_created_at a) a
  end.

(** The messages held back, in the order of their attempts. *)
Definition held (e : DeliveryEnvelope) (ctx : TenantContext) (s : DeliveryStore) (p : DeliveryDestination * DeliveryAttempt)
    : option BufferedBatch :=
  if bool_decide (at_status p.2 = DLV_BATCHED)
  then Some (mkBatch e p.1 (at_created_at p.2 + from_option np_batch_window_s 0 (preference (ev_team_id e) (ev_tenant_id e) ctx s) * 1000000) ctx)
  else None.

Lemma on_ext_eq {A} (f : X → A * X) w : ∃ a x, on_ext f w = (Ret a, mkWorld (dl_store w) (dl_batches w) x).
Proof. unfold on_ext. destruct (f (dl_ext w)) as [a x]. by exists a, x. Qed.

Lemma new_attempt_inv e d st n err now dat id w a w' : new_attempt (X := X) e d st n err now dat id w = (Ret a, w') →
  w' = w ∧ about e d a ∧ at_status a = st ∧ at_attempts a = n ∧ at_error a = err ∧ at_created_at a = now.
Proof. unfold new_attempt. destruct (attempt_valid _); [|done]. by intros [= <- <-]. Qed.

Lemma send_loop_inv n e d now k err w a w' : (0 ≤ k)%Z → (k + Z.of_nat n = Z.max 0 (dl_max_attempts env))%Z →
  send_loop env n e d now k err w = (Ret a, w') →
  dl_store w' = dl_store w ∧ dl_batches w' = dl_batches w ∧ sent e d now a.
Proof.
  revert k err w. induction n as [|n IH]; intros k err w Hk Hn H; cbn [send_loop] in H.
  - unfold bind in H. destruct (on_ext_eq (dl_attempt_id env) w) as (id & x & Heq). rewrite Heq in H.
    apply new_attempt_inv in H as (-> & Ha & Hst & Hat & _ & Hc). split_and!; [done|done|]. split; [done|]. split; [done|]. by right.
  - unfold bind at 1 in H. match type of H with context [on_ext ?f w] => destruct (on_ext_eq f w) as (r & x & Heq) end. rewrite Heq in H.
    destruct r as [text|].
    + apply IH in H as (Hs & Hb & Hsent); [done|lia|lia].
    + unfold bind in H. destruct (on_ext_eq (dl_attempt_id env) (mkWorld (dl_store w) (dl_batches w) x)) as (id & x1 & Heq1). rewrite Heq1 in H. cbn [dl_store dl_batches] in H.
      destruct (on_ext_eq (dl_clock env) (mkWorld (dl_store w) (dl_batches w) x1)) as (t & x2 & Heq2). rewrite Heq2 in H. cbn [dl_store dl_batches] in H.
      apply new_attempt_inv in H as (-> & Ha & Hst & Hat & He & Hc). split_and!; [done|done|]. split; [done|]. split; [done|]. left. split_and!; [done|lia|lia|done].
Qed.

Lemma send_inv e d now w a w' : send env e d now w = (Ret a, w') →
  dl_store w' = dl_store w ∧ dl_batches w' = dl_batches w ∧ sent e d now a.
Proof. apply send_loop_inv; [done|lia]. Qed.

Lemma classify_batched e d critical now ctx s : classify e d critical now ctx s = Some DLV_BATCHED →
  (0 < from_option np_batch_window_s 0 (preference (ev_team_id e) (ev_tenant_id e) ctx s))%Z.
Proof.
  unfold classify. destruct (preference _ _ _ _) as [p|]; [|done]. repeat (case_match; try done). cbn. intros _. lia.
Qed.

Lemma classify_not_sent e d critical now ctx s st : classify e d critical now ctx s = Some st → st = DLV_SUPPRESSED ∨ st = DLV_BATCHED.
Proof. unfold classify. destruct (preference _ _ _ _) as [p|]; [|done]. repeat (case_match; try done); intros [= <-]; auto. Qed.

Lemma deliver_one_inv e d critical ctx w a w' : deliver_one env e d critical ctx w = (Ret a, w') →
  dl_store w' = dl_store w ∧ handled e critical ctx (dl_store w) d a ∧
  dl_batches w' = dl_batches w ++ omap (held e ctx (dl_store w)) [(d, a)].
Proof.
  unfold deliver_one, handled. intros H. unfold bind at 1 in H. destruct (on_ext_eq (dl_clock env) w) as (now & x & Heq). rewrite Heq in H.
  unfold bind at 1, gets at 1 in H. cbn [dl_store] in H. destruct (classify e d critical now ctx (dl_store w)) as [st|] eqn:Hc.
  - unfold bind at 1 in H. destruct (on_ext_eq (dl_attempt_id env) (mkWorld (dl_store w) (dl_batches w) x)) as (id & x1 & Heq1). rewrite Heq1 in H.
    cbn [dl_store dl_batches] in H. apply bind_inv in H as (a' & w2 & Hn & H). apply new_attempt_inv in Hn as (-> & Hab & Hst & Hat & _ & Hcr).
    apply bind_inv in H as (u & w3 & Hb & [= <- <-]). rewrite Hcr, Hc. unfold when in Hb. cbn [omap list_omap]. unfold held. cbn [fst snd]. rewrite Hst, Hcr.
    case_bool_decide as Hbat.
    + rewrite Hbat in Hc. apply classify_batched in Hc. unfold buffer in Hb. unfold bind at 1, gets in Hb. cbn [dl_store] in Hb.
      destruct (_ <=? 0)%Z eqn:Hw in Hb; [lia|]. destruct (dt_in_range _) in Hb; [|done]. injection Hb as _ <-. by split_and!.
    + injection Hb as _ <-. cbn. rewrite app_nil_r. by split_and!.
  - apply send_inv in H as (Hs & Hb & Hsent). destruct Hsent as (Hab & Hcr & Hd). rewrite Hcr, Hc. cbn [dl_store dl_batches] in *. rewrite Hs, Hb.
    split_and!; [done|by split_and!|]. cbn [omap list_omap]. unfold held. cbn [fst snd].
    rewrite bool_decide_eq_false_2; [by rewrite app_nil_r|]. destruct Hd as [(-> & _)|(-> & _)]; done.
Qed.

(** Recording an attempt leaves the preferences alone. *)
Lemma store_attempt_inv a ctx w u w' : store_attempt (X := X) a ctx w = (Ret u, w') →
  ds_preferences (dl_store w') = ds_preferences (dl_store w) ∧ dl_batches w' = dl_batches w ∧ od_get (at_attempt_id a) (ds_attempts (dl_store w')) = Some a.
Proof.
  unfold store_attempt, save_attempt, require. destruct (scopes _ _); [|done]. cbn. intros [= _ <-]. cbn. split_and!; [done|done|]. by rewrite od_get_set_eq.
Qed.

Lemma same_preferences s s' : ds_preferences s' = ds_preferences s →
  ∀ team tenant ctx, preference team tenant ctx s' = preference team tenant ctx s.
Proof. intros H team tenant ctx. unfold preference, get_preference. by rewrite H. Qed.

Lemma deliver_each_inv l e critical ctx w ats w' : deliver_each env l e critical ctx w = (Ret ats, w') →
  Forall2 (handled e critical ctx (dl_store w)) l ats ∧ dl_batches w' = dl_batches w ++ omap (held e ctx (dl_store w)) (zip l ats).
Proof.
  revert w ats. induction l as [|d l IH]; intros w ats; cbn [deliver_each].
  { intros [= <- <-]. split; [constructor|]. cbn. by rewrite app_nil_r. }
  intros (a & w1 & (Hs & Hh & Hb)%deliver_one_inv & H)%bind_inv. apply bind_inv in H as (u & w2 & (Hp & Hb2 & _)%store_attempt_inv & H).
  apply bind_inv in H as (rest & w3 & Hr & [= <- <-]). apply IH in Hr as [Hall Hb3]. rewrite Hs in Hp. pose proof (same_preferences _ _ Hp) as Hpref.
  assert (∀ d a, handled e critical ctx (dl_store w2) d a ↔ handled e critical ctx (dl_store w) d a) as Hhe by (intros; unfold handled, classify; by rewrite Hpref).
  assert (∀ p, held e ctx (dl_store w2) p = held e ctx (dl_store w) p) as Hhd by (intros; unfold held; by rewrite Hpref).
  split.
  - constructor; [done|]. eapply Forall2_impl; [exact Hall|]. intros; by apply Hhe.
  - rewrite Hb3, Hb2, Hb, <-app_assoc. f_equal. cbn [zip zip_with omap list_omap]. assert (∀ q : list (DeliveryDestination * DeliveryAttempt), omap (held e ctx (dl_store w2)) q = omap (held e ctx (dl_store w)) q) as Homap by (intros q; induction q as [|p' q' IHq]; [done|]; cbn [omap list_omap]; by rewrite Hhd, IHq). rewrite Homap. by destruct (held e ctx (dl_store w) (d, a)).
Qed.

(** A delivery that returns makes one attempt for every destination, in order; the
    team's preferences alone decide which are suppressed, which are held until
    their window ends and which are sent; what is sent is tried until it succeeds,
    [max_attempts] times at most, and dead-lettered otherwise. *)
Theorem preferences_decide e given critical ctx w ats w' :
  deliver env e given critical ctx w = (Ret ats, w') →
  let scope := scope_for e ctx in
  Forall2 (handled e critical scope (dl_store w)) (resolved_destinations e given scope (dl_store w)) ats ∧
  dl_batches w' = dl_batches w ++ omap (held e scope (dl_store w)) (zip (resolved_destinations e given scope (dl_store w)) ats).
Proof.
  intros (u & w1 & Hg & H)%bind_inv scope. assert (dl_store w1 = dl_store w ∧ dl_batches w1 = dl_batches w) as [Hs Hb].
  { destruct (dl_require_active env) as [gate|]; [|by injection Hg as _ <-]. unfold bind in Hg. destruct (on_ext_eq (gate (ev_tenant_id e)) w) as (ok & x & Heq).
    rewrite Heq in Hg. destruct ok; [|done]. by injection Hg as _ <-. }
  unfold bind at 1, gets in H. fold scope in H. rewrite Hs in H. apply deliver_each_inv in H as [H1 H2]. rewrite Hs, Hb in *. done.
Qed.

Lemma send_batches_inv l now w ats w' : send_batches env l now w = (Ret ats, w') →
  dl_batches w' = dl_batches w ∧ Forall2 (λ b a, sent (bb_envelope b) (bb_destination b) now a) l ats.
Proof.
  revert w ats. induction l as [|b l IH]; intros w ats; cbn [send_batches]; [by intros [= <- <-]|].
  intros (a & w2 & (_ & Hb & Ha)%send_inv & H)%bind_inv. apply bind_inv in H as (u & w3 & (_ & Hb3 & _)%store_attempt_inv & H).
  apply bind_inv in H as (rest & w4 & Hr & [= <- <-]). apply IH in Hr as [Hb4 Hall]. split; [congruence|by constructor].
Qed.

(** A flush that returns sends exactly the held messages whose window has ended. *)
Lemma flush_sends_due w ats w' : flush_due env w = (Ret ats, w') →
  let now := (dl_clock env (dl_ext w)).1 in
  dl_batches w' = filter (λ b, (now < bb_due_at b)%Z) (dl_batches w) ∧
  Forall2 (λ b a, sent (bb_envelope b) (bb_destination b) now a) (filter (λ b, (bb_due_at b ≤ now)%Z) (dl_batches w)) ats.
Proof.
  intros H now. unfold flush_due in H. unfold bind at 1, on_ext in H. destruct (dl_clock env (dl_ext w)) as [t x] eqn:Ht. cbn [fst] in now. subst now.
  by apply send_batches_inv in H.
Qed.
End Outcomes.

End Sending.

(** ** Unanswered approvals *)

(** Every approval waits for the operator on call; once its response window has
    passed, the next operator of the rotation is asked, until the rotation ends.
    The notifier is a function on an external state that may raise. *)

Module Escalation.
#[local] Open Scope hp_scope.

(** [EscalationPolicy], [_Pending], [EscalationRecord] *)
Record EscalationPolicy := mkPolicy { ep_targets : list string; ep_response_window_s : Z }.
Record Pending := mkPending { pe_approval_id : string; pe_tenant_id : string; pe_level : nat; pe_target : string; pe_due_at : Z }.
Record EscalationRecord := mkRecord {
  er_approval_id : string; er_tenant_id : string; er_level : nat; er_target : string; er_fired_at : Z; er_responded_at : option Z }.

Definition policy_valid (p : EscalationPolicy) : bool := negb (bool_decide (ep_targets p = [])) && (0 <? ep_response_window_s p)%Z.
Definition record_valid (r : EscalationRecord) : bool :=
  (1 <=? chars (er_approval_id r))%nat && between 1 64 (er_tenant_id r) && (1 <=? er_level r)%nat && between 1 253 (er_target r).

Inductive EscalationExn := NotifierFailed | InvalidRecord | EscalationOverflow | NoTarget.

Record World (X : Type) := mkWorld { es_pending : odict string Pending; es_history : list EscalationRecord; es_ext : X }.
Arguments mkWorld {X}.
Arguments es_pending {X}.
Arguments es_history {X}.
Arguments es_ext {X}.

Section Escalation.
Context {X : Type}.
Variables (policy : EscalationPolicy) (notifier : string → string → string → X → bool * X) (clock : X → Z * X).

Abbreviation EM := (M (World X) EscalationExn).

Definition now_ : EM Z := λ w, let '(t, x) := clock (es_ext w) in (Ret t, mkWorld (es_pending w) (es_history w) x).
Definition notify (approval_id target reason : string) : EM unit :=
  λ w, let '(ok, x) := notifier approval_id target reason (es_ext w) in
       (if (ok : bool) then Ret tt else Raise NotifierFailed, mkWorld (es_pending w) (es_history w) x).
Definition set_pending (f : odict string Pending → odict string Pending) : EM unit := modify (λ w, mkWorld (f (es_pending w)) (es_history w) (es_ext w)).
Definition record (r : EscalationRecord) : EM EscalationRecord :=
  if record_valid r then modify (λ w, mkWorld (es_pending w) (es_history w ++ [r]) (es_ext w)) ;;; ret r else raise InvalidRecord.

(** [now + timedelta(seconds=response_window_s)] *)
Definition due_after (now : Z) : EM Z :=
  let due := (now + ep_response_window_s policy * 1000000)%Z in if dt_in_range due then ret due else raise EscalationOverflow.

(** [targets[level - 1]] *)
Definition target_at (level : nat) : EM string := of_option NoTarget (ep_targets policy !! (level - 1)%nat).

(** [register] *)
Definition register (approval_id tenant_id : string) : EM EscalationRecord :=
  let* now := now_ in
  let* target := target_at 1 in
  let* due := due_after now in
  set_pending (od_set approval_id (mkPending approval_id tenant_id 1 target due)) ;;;
  notify approval_id target "approval requested" ;;;
  record (mkRecord approval_id tenant_id 1 target now None).

(** [respond] *)
Definition respond (approval_id : string) : EM unit :=
  let* d := gets es_pending in
  match od_get approval_id d with
  | None => ret tt
  | Some p =>
      set_pending (od_del approval_id) ;;;
      let* now := now_ in
      let* _ := record (mkRecord approval_id (pe_tenant_id p) (pe_level p) (pe_target p) (pe_due_at p) (Some now)) in ret tt
  end.

(** One approval of [check]: the record it fires. *)
Definition check_one (now : Z) (approval_id : string) (p : Pending) : EM (option EscalationRecord) :=
  if (now <? pe_due_at p)%Z then ret None
  else if (length (ep_targets policy) <=? pe_level p)%nat then set_pending (od_del approval_id) ;;; ret None
  else
    let level := (pe_level p + 1)%nat in
    let* target := target_at level in
    let* due := due_after now in
    set_pending (od_set approval_id (mkPending (pe_approval_id p) (pe_tenant_id p) level target due)) ;;;
    notify approval_id target ("escalation level " +:+ pretty (N.of_nat level)) ;;;
    let* r := record (mkRecord approval_id (pe_tenant_id p) level target now None) in
    ret (Some r).

Fixpoint check_each (now : Z) (l : odict string Pending) : EM (list EscalationRecord) :=
  match l with
  | [] => ret []
  | (i, p) :: l =>
      let* o := check_one now i p in
      let* rest := check_each now l in
      ret (match o with Some r => r :: rest | None => rest end)
  end.

(** [check] *)
Definition check : EM (list EscalationRecord) :=
  let* now := now_ in
  let* d := gets es_pending in
  check_each now d.

(** [pending], [history] *)
Definition pending (w : World X) : list Pending := od_values (es_pending w).
Definition history (w : World X) : list EscalationRecord := es_history w.

(** A tick of the ticker: only the leader escalates, and a failing check is logged. *)
Definition escalation_tick (is_leader : bool) : EM unit := when is_leader (suppress (let* _ := check in ret tt)).

(** ** The rotation *)

(** What a check that returns makes of one pending approval. *)
Definition climbed (now : Z) (p : Pending) : option Pending :=
  if (now <? pe_due_at p)%Z then Some p
  else match ep_targets policy !! pe_level p with
       | None => None
       | Some t => Some (mkPending (pe_approval_id p) (pe_tenant_id p) (pe_level p + 1) t (now + ep_response_window_s policy * 1000000))
       end.
Definition fired (now : Z) (e : string * Pending) : option EscalationRecord :=
  if (now <? pe_due_at e.2)%Z then None
  else match ep_targets policy !! pe_level e.2 with
       | None => None
       | Some t => Some (mkRecord e.1 (pe_tenant_id e.2) (pe_level e.2 + 1) t now None)
       end.

(** The approval under its own id, at the rank it was asked at. *)
Definition on_rotation (e : string * Pending) : Prop :=
  pe_approval_id e.2 = e.1 ∧ (1 ≤ pe_level e.2)%nat ∧ ep_targets policy !! (pe_level e.2 - 1)%nat = Some (pe_target e.2).

Definition rotation_wf (w : World X) : Prop := od_wf (es_pending w) ∧ Forall on_rotation (es_pending w).

Lemma es_now_inv w t w' : now_ w = (Ret t, w') → t = (clock (es_ext w)).1 ∧ es_pending w' = es_pending w ∧ es_history w' = es_history w.
Proof. unfold now_. destruct (clock (es_ext w)) as [t0 x]. by intros [= <- <-]. Qed.

Lemma notify_inv i t r w o w' : notify i t r w = (o, w') → es_pending w' = es_pending w ∧ es_history w' = es_history w.
Proof. unfold notify. destruct (notifier i t r (es_ext w)) as [ok x]. by intros [= <- <-]. Qed.

Lemma es_record_inv r w r' w' : record r w = (Ret r', w') → r' = r ∧ es_pending w' = es_pending w ∧ es_history w' = es_history w ++ [r].
Proof. unfold record. destruct (record_valid r); [|done]. by intros [= <- <-]. Qed.

Lemma record_pending r w : es_pending (record r w).2 = es_pending w.
Proof. unfold record. by destruct (record_valid r). Qed.

Lemma due_after_inv now w due w' : due_after now w = (Ret due, w') → w' = w ∧ due = (now + ep_response_window_s policy * 1000000)%Z.
Proof. unfold due_after. destruct (dt_in_range _); [|done]. by intros [= <- <-]. Qed.

Lemma target_at_inv n w t w' : target_at n w = (Ret t, w') → w' = w ∧ ep_targets policy !! (n - 1)%nat = Some t.
Proof. unfold target_at. destruct (ep_targets policy !! (n - 1)%nat); [|done]. by intros [= <- <-]. Qed.

(** What one step does to the dictionary, and to the history. *)
Lemma check_one_inv now i p w o w' : check_one now i p w = (Ret o, w') →
  es_pending w' = match climbed now p with
                  | Some p' => if (now <? pe_due_at p)%Z then es_pending w else od_set i p' (es_pending w)
                  | None => od_del i (es_pending w) end ∧
  o = fired now (i, p) ∧ es_history w' = es_history w ++ option_list o.
Proof.
  unfold check_one, climbed, fired. cbn [fst snd]. destruct (now <? pe_due_at p)%Z; [intros [= <- <-]; cbn; by rewrite app_nil_r|].
  destruct (_ <=? _)%nat eqn:Hlen.
  - rewrite lookup_ge_None_2 by (apply Nat.leb_le; exact Hlen). intros [= <- <-]. cbn. by rewrite app_nil_r.
  - intros (t & w1 & [-> Ht]%target_at_inv & H)%bind_inv. replace (pe_level p + 1 - 1)%nat with (pe_level p) in Ht by lia. rewrite Ht.
    apply bind_inv in H as (due & w1 & [-> ->]%due_after_inv & H). apply bind_inv in H as (u1 & w1 & [= _ <-] & H).
    apply bind_inv in H as (u2 & w2 & [Hp Hh]%notify_inv & H). apply bind_inv in H as (r & w3 & (-> & Hp3 & Hh3)%es_record_inv & [= <- <-]).
    rewrite Hp3, Hp, Hh3, Hh. by cbn.
Qed.

Lemma od_set_middle i p v (a b : odict string Pending) : i ∉ od_keys a → od_set i v (a ++ (i, p) :: b) = a ++ (i, v) :: b.
Proof.
  induction a as [|[k q] a IH]; cbn; [by rewrite decide_True by done|]. intros [Hk Ha]%not_elem_of_cons. rewrite decide_False by done. by rewrite IH.
Qed.
Lemma od_del_middle i p (a b : odict string Pending) : i ∉ od_keys a → od_del i (a ++ (i, p) :: b) = a ++ b.
Proof.
  induction a as [|[k q] a IH]; cbn; [by rewrite decide_True by done|]. intros [Hk Ha]%not_elem_of_cons. rewrite decide_False by done. by rewrite IH.
Qed.

(** The dictionary a check at [now] leaves. *)
Definition climb (now : Z) (d : odict string Pending) : odict string Pending := omap (λ e, (e.1,.) <$> climbed now e.2) d.

Lemma climb_cons now i p d : climb now ((i, p) :: d) = (from_option (λ p', [(i, p')]) [] (climbed now p)) ++ climb now d.
Proof. unfold climb. cbn. by destruct (climbed now p). Qed.

Lemma climb_keys now i d : i ∈ od_keys (climb now d) → i ∈ od_keys d.
Proof.
  induction d as [|[k p] d IH]; [done|]. rewrite climb_cons. destruct (climbed now p); cbn; rewrite ?elem_of_cons; intuition auto.
Qed.

Lemma check_each_inv now a l w rs w' : od_wf (a ++ l) → es_pending w = climb now a ++ l → check_each now l w = (Ret rs, w') →
  es_pending w' = climb now (a ++ l) ∧ rs = omap (fired now) l ∧ es_history w' = es_history w ++ rs.
Proof.
  revert a w rs. induction l as [|[i p] l IH]; intros a w rs Hwf Hw; cbn [check_each].
  { intros [= <- <-]. rewrite Hw, !app_nil_r. done. }
  intros (o & w1 & (Hp & -> & Hh)%check_one_inv & H)%bind_inv. apply bind_inv in H as (rest & w2 & H & [= <- <-]).
  assert (i ∉ od_keys (climb now a)) as Hi.
  { intros Hin%climb_keys. unfold od_wf, od_keys in Hwf. rewrite fmap_app in Hwf. apply NoDup_app in Hwf as (_ & Hd & _). apply (Hd i); [done|]. by left. }
  assert (a ++ (i, p) :: l = (a ++ [(i, p)]) ++ l) as Ha by by rewrite <-app_assoc. rewrite Ha in *.
  apply (IH (a ++ [(i, p)])) in H; [|done|].
  - destruct H as (-> & -> & ->). split; [done|]. rewrite Hh, <-app_assoc. cbn [omap list_omap]. by destruct (fired now (i, p)).
  - unfold climb. rewrite omap_app. fold (climb now a) (climb now [(i, p)]). rewrite climb_cons, Hp, Hw. cbn [climb]. rewrite <-app_assoc.
    destruct (climbed now p) as [p'|] eqn:Hc; cbn; [|by apply od_del_middle].
    destruct (now <? pe_due_at p)%Z eqn:Hd; [|by apply od_set_middle]. unfold climbed in Hc. rewrite Hd in Hc. by injection Hc as ->.
Qed.

(** A check that returns moves every approval whose window has passed one operator
    up the rotation with a fresh window, forgets those the last operator left, leaves
    the others, and fires, in order, exactly one record for each it moved. *)
Theorem check_escalates w rs w' : rotation_wf w → check w = (Ret rs, w') →
  let now := (clock (es_ext w)).1 in
  es_pending w' = climb now (es_pending w) ∧ rs = omap (fired now) (es_pending w) ∧ es_history w' = es_history w ++ rs.
Proof.
  intros [Hwf _] (t & w1 & (-> & Hp & Hh)%es_now_inv & H)%bind_inv now. apply bind_inv in H as (d & w2 & [= <- <-] & H).
  rewrite Hp, <-Hh in *. by apply (check_each_inv now []).
Qed.

(** ** The invariant *)

Definition keeps_rotation (w w' : World X) : Prop := rotation_wf w → rotation_wf w'.
#[local] Instance keeps_rotation_preorder : PreOrder keeps_rotation.
Proof. split; [intros w H; exact H|intros a b c H1 H2 H; auto]. Qed.

Lemma same_rotation w w' : es_pending w' = es_pending w → keeps_rotation w w'.
Proof. unfold keeps_rotation, rotation_wf. by intros ->. Qed.

Lemma now_keeps : keeps keeps_rotation now_.
Proof. intros w. apply same_rotation. unfold now_. by destruct (clock (es_ext w)). Qed.
Lemma notify_keeps i t r : keeps keeps_rotation (notify i t r).
Proof. intros w. apply same_rotation. unfold notify. by destruct (notifier i t r (es_ext w)). Qed.
Lemma record_keeps r : keeps keeps_rotation (record r).
Proof. intros w. apply same_rotation, record_pending. Qed.
Lemma due_after_keeps now : keeps keeps_rotation (due_after now).
Proof. unfold due_after. destruct (dt_in_range _); [apply keeps_ret, _|apply keeps_raise, _]. Qed.

Lemma on_rotation_set i p (d : odict string Pending) : on_rotation (i, p) → Forall on_rotation d → Forall on_rotation (od_set i p d).
Proof.
  intros Hp. induction d as [|[k q] d IH]; cbn; [by constructor|]. intros [Hq Hd]%Forall_cons. case_decide; [subst|]; constructor; auto.
Qed.
Lemma on_rotation_del i (d : odict string Pending) : Forall on_rotation d → Forall on_rotation (od_del i d).
Proof. induction d as [|[k q] d IH]; cbn; [done|]. intros [Hq Hd]%Forall_cons. case_decide; [done|]. constructor; auto. Qed.

Lemma set_keeps i p : on_rotation (i, p) → keeps keeps_rotation (set_pending (od_set i p)).
Proof. intros Hp w [Hw Hf]. split; cbn; [by apply od_wf_set|by apply on_rotation_set]. Qed.
Lemma del_keeps i : keeps keeps_rotation (set_pending (od_del i)).
Proof. intros w [Hw Hf]. split; cbn; [by apply od_wf_del|by apply on_rotation_del]. Qed.

Lemma target_keeps {A} n (k : string → EM A) :
  (∀ t, ep_targets policy !! (n - 1)%nat = Some t → keeps keeps_rotation (k t)) → keeps keeps_rotation (let* t := target_at n in k t).
Proof.
  intros Hk. unfold target_at. destruct (ep_targets policy !! (n - 1)%nat) as [t|] eqn:Ht; [exact (Hk t eq_refl)|].
  intros w H. exact H.
Qed.

Lemma register_keeps i tenant : keeps keeps_rotation (register i tenant).
Proof.
  unfold register. apply keeps_bind; [apply _|apply now_keeps|intros now]. apply target_keeps. intros t Ht.
  apply keeps_bind; [apply _|apply due_after_keeps|intros due].
  apply keeps_bind; [apply _|by apply set_keeps|intros _]. apply keeps_bind; [apply _|apply notify_keeps|intros _]. apply record_keeps.
Qed.

Lemma respond_keeps i : keeps keeps_rotation (respond i).
Proof.
  unfold respond. apply keeps_bind; [apply _|apply keeps_gets, _|intros d]. destruct (od_get i d) as [p|]; [|apply keeps_ret, _].
  apply keeps_bind; [apply _|apply del_keeps|intros _]. apply keeps_bind; [apply _|apply now_keeps|intros now].
  apply keeps_bind; [apply _|apply record_keeps|intros _]. apply keeps_ret, _.
Qed.

Lemma check_one_keeps now i p : on_rotation (i, p) → keeps keeps_rotation (check_one now i p).
Proof.
  intros (Hi & Hl & _). unfold check_one. destruct (now <? pe_due_at p)%Z; [apply keeps_ret, _|].
  destruct (_ <=? _)%nat; [apply keeps_bind; [apply _|apply del_keeps|intros _; apply keeps_ret, _]|].
  apply target_keeps. intros t Ht. apply keeps_bind; [apply _|apply due_after_keeps|intros due].
  apply keeps_bind; [apply _|apply set_keeps; split_and!; cbn in *; [done|lia|done]|intros _].
  apply keeps_bind; [apply _|apply notify_keeps|intros _]. apply keeps_bind; [apply _|apply record_keeps|intros r; apply keeps_ret, _].
Qed.

Lemma check_keeps : keeps keeps_rotation check.
Proof.
  intros w. unfold check. unfold bind at 1. pose proof (now_keeps w) as Hn. destruct (now_ w) as [[t|e] w1] eqn:Ht; [|exact Hn]. cbn in Hn.
  unfold bind, gets. intros Hw. specialize (Hn Hw).
  assert (∀ l w, Forall on_rotation l → rotation_wf w → rotation_wf (check_each t l w).2) as He.
  { clear. intros l. induction l as [|[i p] l IH]; intros w Hl Hw; [done|]. apply Forall_cons in Hl as [Hp Hl]. cbn [check_each].
    pose proof (check_one_keeps t i p Hp w Hw) as H1. unfold bind. destruct (check_one t i p w) as [[o|e] w1]; [|done]. specialize (IH w1 Hl H1).
    by destruct (check_each t l w1) as [[r|e] w2]. }
  apply He; [by destruct Hn|done].
Qed.

(** The calls a process makes, returning or raising; the notifier and the clock move
    the external state in between. *)
Inductive escalation_step : World X → World X → Prop :=
  | es_register i tenant w : escalation_step w (register i tenant w).2
  | es_respond i w : escalation_step w (respond i w).2
  | es_check w : escalation_step w (check w).2
  | es_outside x w : escalation_step w (mkWorld (es_pending w) (es_history w) x).

Lemma step_keeps w w' : escalation_step w w' → keeps_rotation w w'.
Proof. intros []; [apply register_keeps|apply respond_keeps|apply check_keeps|by apply same_rotation]. Qed.

Lemma rotation_always_wf x w : rtc escalation_step (mkWorld [] [] x) w → rotation_wf w.
Proof.
  intros H. assert (keeps_rotation (mkWorld [] [] x) w) as Hk; [|by apply Hk; repeat constructor].
  induction H as [w|w1 w2 w3 Hs _ IH]; [done|]. etrans; [by apply step_keeps|exact IH].
Qed.

(** ** An approval nobody answers *)

(** [n] checks at which [i]'s window had passed, among steps that leave it alone. *)
Inductive unanswered (i : string) : nat → World X → World X → Prop :=
  | un_nil w : unanswered i 0 w w
  | un_check n w1 rs w2 w3 p :
      check w1 = (Ret rs, w2) → od_get i (es_pending w1) = Some p → (pe_due_at p ≤ (clock (es_ext w1)).1)%Z →
      unanswered i n w2 w3 → unanswered i (S n) w1 w3
  | un_other n w1 w2 w3 :
      escalation_step w1 w2 → od_get i (es_pending w2) = od_get i (es_pending w1) → unanswered i n w2 w3 → unanswered i n w1 w3.

Lemma climb_get now i d : od_wf d → od_get i (climb now d) = od_get i d ≫= climbed now.
Proof.
  unfold od_wf. induction d as [|[k p] d IH]; [done|]. cbn [od_keys fmap list_fmap fst]. intros [Hk Hd]%NoDup_cons. rewrite climb_cons. cbn [od_get].
  case_decide as Hik.
  - subst k. cbn. destruct (climbed now p) as [p'|]; cbn; [by rewrite decide_True by done|]. apply od_get_None. intros H%climb_keys. by apply Hk.
  - destruct (climbed now p); cbn; [rewrite decide_False by done|]; by apply IH.
Qed.

(** An approval nobody answers is asked of the operators one after the other,
    whatever else the service does in between: after [n] checks past its window it
    waits for the operator [n] ranks up, and is forgotten when there is none. *)
Theorem rotation_climbs i n w w' p : rotation_wf w → od_get i (es_pending w) = Some p → unanswered i n w w' →
  match ep_targets policy !! (pe_level p - 1 + n)%nat with
  | Some t => ∃ due, od_get i (es_pending w') = Some (mkPending i (pe_tenant_id p) (pe_level p + n) t due)
  | None => od_get i (es_pending w') = None
  end.
Proof.
  intros Hw Hp Hu. revert p Hw Hp. induction Hu as [w|n w1 rs w2 w3 q Hc Hq Hd Hu IH|n w1 w2 w3 Hs Hsame Hu IH]; intros p Hw Hp.
  - destruct Hw as [Hwf Hf]. pose proof (proj1 (Forall_forall _ _) Hf _ (od_get_Some_elem _ _ _ Hp)) as (Hi & Hl & Ht). cbn in *.
    rewrite Nat.add_0_r, Ht. exists (pe_due_at p). rewrite Hp, Nat.add_0_r. f_equal. destruct p; cbn in *. by subst.
  - rewrite Hp in Hq. injection Hq as <-. pose proof (check_keeps w1 Hw) as Hw2. rewrite Hc in Hw2. cbn in Hw2.
    pose proof Hw as [Hwf Hf]. pose proof (proj1 (Forall_forall _ _) Hf _ (od_get_Some_elem _ _ _ Hp)) as (Hi & Hl & Ht). cbn in *.
    unfold check in Hc. apply bind_inv in Hc as (t & w0 & (-> & Hp0 & Hh0)%es_now_inv & Hc). apply bind_inv in Hc as (d & w0' & [= <- <-] & Hc).
    apply (check_each_inv _ []) in Hc as (Hp2 & _ & _); [|by rewrite Hp0|by rewrite Hp0]. cbn [app] in Hp2. rewrite Hp0 in Hp2.
    assert (od_get i (es_pending w2) = climbed (clock (es_ext w1)).1 p) as Hg by by rewrite Hp2, climb_get, Hp.
    unfold climbed in Hg. rewrite (proj2 (Z.ltb_ge _ _)) in Hg by lia.
    destruct (ep_targets policy !! pe_level p) as [t|] eqn:Htt.
    + specialize (IH _ Hw2 Hg). cbn in IH. replace (pe_level p - 1 + S n)%nat with (pe_level p + 1 - 1 + n)%nat by lia.
      destruct (ep_targets policy !! _); [|done]. destruct IH as [due ->]. exists due. do 2 f_equal. lia.
    + assert (ep_targets policy !! (pe_level p - 1 + S n)%nat = None) as -> by (apply lookup_ge_None; apply lookup_ge_None in Htt; lia).
      clear -Hu Hg. induction Hu; [done|congruence|]. apply IHHu. congruence.
  - specialize (IH p). apply IH; [by apply (step_keeps w1)|congruence].
Qed.
End Escalation.

(** ** Two operators *)

Module Demo.
Definition two : EscalationPolicy := mkPolicy ["alice"; "bob"] 900.
Definition quiet (_ _ _ : string) (x : Z) : bool * Z := (true, x).
Definition wall (x : Z) : Z * Z := (x, x).
Definition at_time (t : Z) (w : World Z) : World Z := mkWorld (es_pending w) (es_history w) t.
Definition w0 : World Z := (register two quiet wall "appr-1" "acme" (mkWorld [] [] 0%Z)).2.
(** The approval of the first window, past it. *)
Definition w1 : World Z := at_time 900000000 w0.
Definition w2 : World Z := (check two quiet wall w1).2.
Definition w3 : World Z := at_time 2000000000 w2.
Definition w4 : World Z := (check two quiet wall w3).2.

Definition asked (t : Z) : odict string Pending := [("appr-1", mkPending "appr-1" "acme" 2 "bob" t)].

Lemma w0_wf : rotation_wf two w0.
Proof. apply register_keeps. repeat constructor. Qed.

Lemma check_escalates_witness :
  check two quiet wall w1 = (Ret [mkRecord "appr-1" "acme" 2 "bob" 900000000 None], w2) ∧ es_pending w2 = asked 1800000000.
Proof.
  assert (check two quiet wall w1 = (Ret [mkRecord "appr-1" "acme" 2 "bob" 900000000 None], w2)) as Hc by (vm_compute; reflexivity).
  split; [exact Hc|]. destruct (check_escalates two quiet wall w1 _ w2 w0_wf Hc) as [Hp _]. rewrite Hp. reflexivity.
Defined.

Lemma demo_unanswered : unanswered two quiet wall "appr-1" 2 w0 w4.
Proof.
  apply (un_other _ _ _ _ _ _ w1); [apply es_outside|reflexivity|]. eapply (un_check _ _ _ _ _ _ _ w2); [reflexivity|reflexivity|by vm_compute|].
  apply (un_other _ _ _ _ _ _ w3); [apply es_outside|reflexivity|]. eapply (un_check _ _ _ _ _ _ _ w4); [reflexivity|reflexivity|by vm_compute|]. apply un_nil.
Qed.

Lemma rotation_climbs_witness : od_get "appr-1" (es_pending w4) = None.
Proof. exact (rotation_climbs two quiet wall "appr-1" 2 w0 w4 _ w0_wf eq_refl demo_unanswered). Defined.
End Demo.

End Escalation.
