(* ===== verification/Artifacts.v ===== *)
(** * Artifacts and their retention ([artifacts/], [fleet/artifacts.py])

    Capturing, reading and deleting artifacts over the in-memory store, the
    retention policies of a tenant and the purge of what has expired, with the
    endpoints of [api/artifacts.py].  The blob backend, SHA-256, the scrubber,
    the clock, identifiers and the audit log are the services' environment;
    bytes are strings of 8-bit characters, instants are microseconds. *)

From stdpp Require Import base strings pretty numbers gmap sets list.
From S2P Require Import Prelude Text Calendar Base64 Tenancy Drift.

#[local] Open Scope hp_scope.

(** ** Records *)

Record RetentionPolicy := mkPolicy {
  rp_policy_id : string; rp_tenant_id : string; rp_data_class : string; rp_retain_days : Z; rp_legal_hold : bool }.
Record Artifact := mkArtifact {
  ar_artifact_id : string; ar_tenant_id : string; ar_run_id : string; ar_location : string; ar_size_bytes : Z; ar_content_hash : string;
  ar_retention_policy_id : option string; ar_created_at : Z; ar_expires_at : option Z }.
Record PurgeResult := mkPurged { pg_purged : list string; pg_skipped_legal_hold : list string; pg_completed_at : Z }.

Definition policy_valid (p : RetentionPolicy) : bool :=
  between 1 64 (rp_policy_id p) && between 1 64 (rp_tenant_id p) && between 1 128 (rp_data_class p) && (0 <=? rp_retain_days p)%Z.

Definition LOCATION_SCHEMES : list string := ["s3://"; "minio://"; "file://"].
(** [_location_is_path_or_uri] *)
Definition location_ok (l : string) : bool := negb (contains "://" l) || existsb (λ s, String.prefix s l) LOCATION_SCHEMES.
Definition artifact_valid (a : Artifact) : bool :=
  between 1 128 (ar_artifact_id a) && between 1 64 (ar_tenant_id a) && between 1 64 (ar_run_id a) && between 1 2048 (ar_location a)
  && (0 <=? ar_size_bytes a)%Z && between 1 128 (ar_content_hash a) && opt_between 0 64 (ar_retention_policy_id a) && location_ok (ar_location a).

Inductive ArtifactExn :=
  | ArtifactNotFoundError (artifact_id : string) | RetentionPolicyNotFoundError (policy_id : string) | ArtifactScopeError | InvalidArtifact | InvalidContent
  | DateOverflow | BlobError (what : string) | ArtifactAuditError.

(** [now + timedelta(days=n)] *)
Definition plus_days (t n : Z) : option Z :=
  let t' := (t + n * 86400000000)%Z in if (n <=? 999999999)%Z && (-999999999 <=? n)%Z && dt_in_range t' then Some t' else None.

(** ** The store ([artifacts/store.py]) *)

Abbreviation Key := (string * string)%type.
Record ArtifactStore := mkStore { as_artifacts : odict Key Artifact; as_retention : odict Key RetentionPolicy }.

Definition get_artifact (artifact_id tenant_id : string) (ctx : TenantContext) (s : ArtifactStore) : option Artifact :=
  if scopes ctx tenant_id then od_get (tenant_id, artifact_id) (as_artifacts s) else None.

Definition list_artifacts (tenant_id : string) (run_id : option string) (ctx : TenantContext) (s : ArtifactStore) : list Artifact :=
  if scopes ctx tenant_id
  then py_sort (at_leb ar_created_at ar_artifact_id)
         (filter (λ e : Key * Artifact, bool_decide (e.1.1 = tenant_id) && opt_is run_id (ar_run_id e.2) = true) (as_artifacts s)).*2
  else [].

Definition has_expired (now : Z) (a : Artifact) : bool := match ar_expires_at a with Some e => (e <=? now)%Z | None => false end.

(** Whose artifacts a purge looks at. *)
Definition purge_scope (tenant_id : option string) (ctx : TenantContext) : option string :=
  match tenant_id with Some t => Some t | None => if tc_is_system ctx then None else Some (tc_tenant_id ctx) end.

Definition expired (now : Z) (tenant_id : option string) (ctx : TenantContext) (s : ArtifactStore) : list Artifact :=
  if match tenant_id with Some t => negb (scopes ctx t) | None => false end then []
  else py_sort (at_leb (λ a, default 0%Z (ar_expires_at a)) ar_artifact_id)
         (filter (λ e : Key * Artifact, opt_is (purge_scope tenant_id ctx) e.1.1 && has_expired now e.2 = true) (as_artifacts s)).*2.

Definition get_retention (policy_id tenant_id : string) (ctx : TenantContext) (s : ArtifactStore) : option RetentionPolicy :=
  if scopes ctx tenant_id then od_get (tenant_id, policy_id) (as_retention s) else None.

Definition list_retention (tenant_id : string) (ctx : TenantContext) (s : ArtifactStore) : list RetentionPolicy :=
  if scopes ctx tenant_id
  then py_sort (λ a b, str_leb (rp_policy_id a) (rp_policy_id b)) (filter (λ e : Key * RetentionPolicy, e.1.1 = tenant_id) (as_retention s)).*2
  else [].

Definition retention_tenants (s : ArtifactStore) : list string := py_sort str_leb (remove_dups (od_keys (as_retention s)).*1).

Definition purge_tenant_rows (tenant_id : string) (s : ArtifactStore) : Z * ArtifactStore :=
  (Z.of_nat (length (filter (λ e : Key * Artifact, e.1.1 = tenant_id) (as_artifacts s))
             + length (filter (λ e : Key * RetentionPolicy, e.1.1 = tenant_id) (as_retention s))),
   mkStore (filter (λ e, e.1.1 ≠ tenant_id) (as_artifacts s)) (filter (λ e, e.1.1 ≠ tenant_id) (as_retention s))).

(** ** The services ([artifacts/service.py]) *)

Record World (X : Type) := mkWorld { aw_store : ArtifactStore; aw_ext : X }.
Arguments mkWorld {X}.
Arguments aw_store {X}.
Arguments aw_ext {X}.

Record Env (X : Type) := mkEnv {
  ae_put : string → string → X → (ArtifactExn + string) * X;
  ae_get : string → X → (ArtifactExn + string) * X;
  ae_delete : string → X → (ArtifactExn + unit) * X;
  ae_sha256 : string → string;
  ae_scrub : option (string → string);
  ae_clock : X → Z * X;
  ae_artifact_id : X → string * X;
  ae_audit : option (string → string → string → option string → X → (ArtifactExn + unit) * X) }.
Arguments mkEnv {X}.
Arguments ae_put {X}.
Arguments ae_get {X}.
Arguments ae_delete {X}.
Arguments ae_sha256 {X}.
Arguments ae_scrub {X}.
Arguments ae_clock {X}.
Arguments ae_artifact_id {X}.
Arguments ae_audit {X}.

(** Well-formed UTF-8, by the ranges of the second byte. *)
Definition byte_in (lo hi : N) (c : Ascii.ascii) : bool := let n := Ascii.N_of_ascii c in (lo <=? n)%N && (n <=? hi)%N.
Definition cont : Ascii.ascii → bool := byte_in 128 191.
Fixpoint utf8 (l : list Ascii.ascii) : bool :=
  match l with
  | [] => true
  | a :: l1 =>
      if byte_in 0 127 a then utf8 l1
      else match l1 with
           | [] => false
           | b :: l2 =>
               if byte_in 194 223 a then cont b && utf8 l2
               else match l2 with
                    | [] => false
                    | c :: l3 =>
                        if byte_in 224 239 a
                        then (if byte_in 224 224 a then byte_in 160 191 b else if byte_in 237 237 a then byte_in 128 159 b else cont b) && cont c && utf8 l3
                        else match l3 with
                             | [] => false
                             | d :: l4 =>
                                 byte_in 240 244 a
                                 && (if byte_in 240 240 a then byte_in 144 191 b else if byte_in 244 244 a then byte_in 128 143 b else cont b)
                                 && cont c && cont d && utf8 l4
                             end
                    end
           end
  end.

(** [_scrub] *)
Definition scrub_bytes (scrub : option (string → string)) (data : string) : string :=
  match scrub with
  | Some f => let l := String.list_ascii_of_string data in if existsb (byte_in 0 0) l then data else if utf8 l then f data else data
  | None => data
  end.

Section Service.
Context {X : Type}.
Variable env : Env X.

Abbreviation AM := (M (World X) ArtifactExn).

Definition on_ext {A} (f : X → A * X) : AM A := λ w, let '(a, x) := f (aw_ext w) in (Ret a, mkWorld (aw_store w) x).
Definition on_ext_exn {A} (f : X → (ArtifactExn + A) * X) : AM A :=
  λ w, let '(r, x) := f (aw_ext w) in (match r with inl e => Raise e | inr a => Ret a end, mkWorld (aw_store w) x).
Definition put_store (f : ArtifactStore → ArtifactStore) : AM unit := modify (λ w, mkWorld (f (aw_store w)) (aw_ext w)).

Definition save_artifact (a : Artifact) (ctx : TenantContext) : AM unit :=
  require ArtifactScopeError ctx (ar_tenant_id a) ;;;
  put_store (λ s, mkStore (od_set (ar_tenant_id a, ar_artifact_id a) a (as_artifacts s)) (as_retention s)).
Definition delete_artifact (artifact_id tenant_id : string) (ctx : TenantContext) : AM unit :=
  if scopes ctx tenant_id then put_store (λ s, mkStore (od_del (tenant_id, artifact_id) (as_artifacts s)) (as_retention s)) else ret tt.
Definition save_retention (p : RetentionPolicy) (ctx : TenantContext) : AM unit :=
  require ArtifactScopeError ctx (rp_tenant_id p) ;;;
  put_store (λ s, mkStore (as_artifacts s) (od_set (rp_tenant_id p, rp_policy_id p) p (as_retention s))).

Definition audit (actor action subject : string) (detail : option string) : AM unit :=
  match ae_audit env with Some f => on_ext_exn (f actor action subject detail) | None => ret tt end.

(** [content_address] *)
Definition content_address (data : string) : string := "sha256:" +:+ ae_sha256 env data.

Definition expiry_of (p : option RetentionPolicy) (now : Z) : outcome ArtifactExn (option Z) :=
  match p with
  | None => Ret None
  | Some p => match plus_days now (rp_retain_days p) with Some t => Ret (Some t) | None => Raise DateOverflow end
  end.

(** [capture] *)
Definition capture (tenant_id run_id filename data : string) (retention_policy_id : option string) (actor : string) (ctx : TenantContext) : AM Artifact :=
  let data := scrub_bytes (ae_scrub env) data in
  let* artifact_id := on_ext (ae_artifact_id env) in
  let* location := on_ext_exn (ae_put env (tenant_id +:+ "/" +:+ run_id +:+ "/" +:+ ae_sha256 env data +:+ "/" +:+ artifact_id +:+ "/" +:+ filename) data) in
  let* policy := match retention_policy_id with
                 | None => ret None
                 | Some i =>
                     let* s := gets aw_store in
                     match get_retention i tenant_id ctx s with Some p => ret (Some p) | None => raise (RetentionPolicyNotFoundError i) end
                 end in
  let* now := on_ext (ae_clock env) in
  let* expires := (λ w, (expiry_of policy now, w)) in
  let a := mkArtifact artifact_id tenant_id run_id location (Z.of_nat (String.length data)) (content_address data) retention_policy_id now expires in
  if artifact_valid a then
    save_artifact a ctx ;;;
    audit actor "artifact.stored" artifact_id (Some ("run=" +:+ run_id +:+ " hash=" +:+ content_address data)) ;;;
    ret a
  else raise InvalidArtifact.

(** [get], [data], [list], [delete], [purge_tenant] *)
Definition get (artifact_id tenant_id : string) (ctx : TenantContext) : AM Artifact :=
  let* s := gets aw_store in of_option (ArtifactNotFoundError artifact_id) (get_artifact artifact_id tenant_id ctx s).
Definition data (artifact_id tenant_id : string) (ctx : TenantContext) : AM (Artifact * string) :=
  let* a := get artifact_id tenant_id ctx in let* bytes := on_ext_exn (ae_get env (ar_location a)) in ret (a, bytes).
Definition list_ (tenant_id : string) (run_id : option string) (ctx : TenantContext) : AM (list Artifact) :=
  gets (λ w, list_artifacts tenant_id run_id ctx (aw_store w)).
Definition delete (artifact_id tenant_id actor : string) (ctx : TenantContext) : AM unit :=
  let* a := get artifact_id tenant_id ctx in
  on_ext_exn (ae_delete env (ar_location a)) ;;;
  delete_artifact artifact_id tenant_id ctx ;;;
  audit actor "artifact.deleted" artifact_id None.

Fixpoint delete_blobs (l : list Artifact) : AM unit :=
  match l with [] => ret tt | a :: l => on_ext_exn (ae_delete env (ar_location a)) ;;; delete_blobs l end.
Definition purge_tenant (tenant_id : string) : AM Z :=
  let* l := list_ tenant_id None SYSTEM_CONTEXT in
  delete_blobs l ;;;
  λ w, let '(n, s) := purge_tenant_rows tenant_id (aw_store w) in (Ret n, mkWorld s (aw_ext w)).

(** [RetentionService] *)
Definition set_policy (p : RetentionPolicy) (actor : string) (ctx : TenantContext) : AM RetentionPolicy :=
  save_retention p ctx ;;;
  audit actor "retention.policy.set" (rp_policy_id p)
    (Some ("retain_days=" +:+ pretty (rp_retain_days p) +:+ " hold=" +:+ (if rp_legal_hold p then "True" else "False"))) ;;;
  ret p.
Definition policies (tenant_id : string) (ctx : TenantContext) (s : ArtifactStore) : list RetentionPolicy := list_retention tenant_id ctx s.
Definition run_has_artifacts (tenant_id run_id : string) (ctx : TenantContext) (s : ArtifactStore) : bool :=
  match list_artifacts tenant_id (Some run_id) ctx s with [] => false | _ => true end.

(** The policy an artifact was captured under. *)
Definition policy_of (a : Artifact) (ctx : TenantContext) (s : ArtifactStore) : option RetentionPolicy :=
  i ← ar_retention_policy_id a; get_retention i (ar_tenant_id a) ctx s.
Definition on_hold (a : Artifact) (ctx : TenantContext) (s : ArtifactStore) : bool :=
  match policy_of a ctx s with Some p => rp_legal_hold p | None => false end.

(** [purge_due] *)
Fixpoint purge_each (l : list Artifact) (ctx : TenantContext) : AM (list string * list string) :=
  match l with
  | [] => ret ([], [])
  | a :: l =>
      let* s := gets aw_store in
      if on_hold a ctx s then let* r := purge_each l ctx in ret (r.1, ar_artifact_id a :: r.2)
      else
        on_ext_exn (ae_delete env (ar_location a)) ;;;
        delete_artifact (ar_artifact_id a) (ar_tenant_id a) ctx ;;;
        audit "system" "artifact.purged" (ar_artifact_id a) None ;;;
        let* r := purge_each l ctx in ret (ar_artifact_id a :: r.1, r.2)
  end.
Definition purge_due (tenant_id : option string) (at_ : option Z) (ctx : TenantContext) : AM PurgeResult :=
  let* now := match at_ with Some t => ret t | None => on_ext (ae_clock env) end in
  let* l := gets (λ w, expired now tenant_id ctx (aw_store w)) in
  let* r := purge_each l ctx in
  ret (mkPurged r.1 r.2 now).

(** ** Endpoints ([api/artifacts.py]): always of the acting tenant; content that is not
    base64 is the 400, the other errors the services' own. *)

Definition capture_artifact (run_id filename content : string) (retention_policy_id : option string) (operator : string) (ctx : TenantContext)
    : AM Artifact :=
  match b64decode content with
  | None => raise InvalidContent
  | Some bytes => capture (tc_tenant_id ctx) run_id filename bytes retention_policy_id operator ctx
  end.
Definition list_artifacts_endpoint (run_id : option string) (ctx : TenantContext) : AM (list Artifact) := list_ (tc_tenant_id ctx) run_id ctx.
Definition get_artifact_endpoint (artifact_id : string) (ctx : TenantContext) : AM Artifact := get artifact_id (tc_tenant_id ctx) ctx.
Definition get_artifact_content (artifact_id : string) (ctx : TenantContext) : AM string :=
  let* r := data artifact_id (tc_tenant_id ctx) ctx in ret r.2.
Definition set_retention_policy (policy_id data_class : string) (retain_days : Z) (legal_hold : bool) (operator : string) (ctx : TenantContext)
    : AM RetentionPolicy :=
  set_policy (mkPolicy policy_id (tc_tenant_id ctx) data_class retain_days legal_hold) operator ctx.
Definition purge_expired (ctx : TenantContext) : AM PurgeResult := purge_due (Some (tc_tenant_id ctx)) None ctx.

(** ** What a purge may delete *)

Definition store_ok (s : ArtifactStore) : Prop :=
  od_wf (as_artifacts s) ∧ ∀ k a, od_get k (as_artifacts s) = Some a → k = (ar_tenant_id a, ar_artifact_id a).

Definition policies_ok (s : ArtifactStore) : Prop := ∀ k p, (k, p) ∈ as_retention s → k = (rp_tenant_id p, rp_policy_id p).

(** Only artifacts of which [P] holds go, and nothing comes; policies stay. *)
Definition only_deletes (P : ArtifactStore → Artifact → Prop) (w w' : World X) : Prop :=
  store_ok (aw_store w) →
  store_ok (aw_store w') ∧ as_retention (aw_store w') = as_retention (aw_store w) ∧
  ∀ k, od_get k (as_artifacts (aw_store w')) = od_get k (as_artifacts (aw_store w)) ∨
       ∃ a, od_get k (as_artifacts (aw_store w)) = Some a ∧ od_get k (as_artifacts (aw_store w')) = None ∧ P (aw_store w) a.

(** What a purge of a scope may delete: it has expired, and the policy it was
    captured under is not on legal hold. *)
Definition purgeable (now : Z) (scope : option string) (ctx : TenantContext) (s : ArtifactStore) (a : Artifact) : Prop :=
  opt_is scope (ar_tenant_id a) = true ∧ has_expired now a = true ∧ on_hold a ctx s = false.

Lemma on_hold_retention a ctx s s' : as_retention s' = as_retention s → on_hold a ctx s' = on_hold a ctx s.
Proof. intros H. unfold on_hold, policy_of, get_retention. by rewrite H. Qed.

#[local] Instance only_deletes_preorder now scope ctx : PreOrder (only_deletes (purgeable now scope ctx)).
Proof.
  split; [intros w Hw; split_and!; [done|done|by left]|].
  intros a b c H1 H2 Ha. destruct (H1 Ha) as (Hb & R1 & K1). destruct (H2 Hb) as (Hc & R2 & K2). split_and!; [done|congruence|].
  intros k. destruct (K2 k) as [E2|(x & E2 & N2 & P2)]; [|right].
  - rewrite E2. apply K1.
  - destruct (K1 k) as [E1|(y & _ & N1 & _)]; [|congruence]. exists x. split_and!; [congruence|done|].
    destruct P2 as (?&?&Ho). split_and!; [done|done|]. by rewrite <-(on_hold_retention x ctx _ _ R1).
Qed.

Section Purge.
Variables (now : Z) (scope : option string) (ctx : TenantContext).
Abbreviation R := (only_deletes (purgeable now scope ctx)).

Lemma same_store_deletes (w w' : World X) : aw_store w' = aw_store w → R w w'.
Proof. intros E Hw. rewrite E. split_and!; [done|done|by left]. Qed.

Lemma deletes_ext {A} (f : X → A * X) : keeps R (on_ext f).
Proof. intros w. apply same_store_deletes. unfold on_ext. by destruct (f (aw_ext w)). Qed.

Lemma deletes_ext_exn {A} (f : X → (ArtifactExn + A) * X) : keeps R (on_ext_exn f).
Proof. intros w. apply same_store_deletes. unfold on_ext_exn. by destruct (f (aw_ext w)). Qed.

Lemma deletes_audit a b c d : keeps R (audit a b c d).
Proof. unfold audit. destruct (ae_audit env); [apply deletes_ext_exn|apply keeps_ret, _]. Qed.

Lemma deletes_artifact a w :
  opt_is scope (ar_tenant_id a) = true → has_expired now a = true → on_hold a ctx (aw_store w) = false →
  (∀ b, od_get (ar_tenant_id a, ar_artifact_id a) (as_artifacts (aw_store w)) = Some b → b = a) →
  R w (delete_artifact (ar_artifact_id a) (ar_tenant_id a) ctx w).2.
Proof.
  intros Hs He Ho Ha [Hwf Hk]. unfold delete_artifact. destruct (scopes ctx (ar_tenant_id a)); [|split_and!; [done|done|by left]].
  cbn. split_and!; [|done|].
  - split; cbn; [by apply od_wf_del|]. intros k b. rewrite od_get_del by done. case_decide; [done|apply Hk].
  - intros k. rewrite od_get_del by done. case_decide as E; [|by left]. subst k.
    destruct (od_get (ar_tenant_id a, ar_artifact_id a) (as_artifacts (aw_store w))) as [b|] eqn:Hb; [right|by left].
    exists b. rewrite (Ha b eq_refl). split_and!; [done|done|done].
Qed.

Lemma purge_each_deletes l w :
  store_ok (aw_store w) →
  Forall (λ a, opt_is scope (ar_tenant_id a) = true ∧ has_expired now a = true ∧
               ∀ b, od_get (ar_tenant_id a, ar_artifact_id a) (as_artifacts (aw_store w)) = Some b → b = a) l →
  R w (purge_each l ctx w).2.
Proof.
  revert w. induction l as [|a l IH]; intros w Hw Hl; cbn [purge_each]; [by apply same_store_deletes|].
  apply Forall_cons in Hl as [(Hs & He & Ha) Hl]. unfold bind at 1, gets.
  assert (∀ w1, R w w1 → R w1 (purge_each l ctx w1).2) as Hrest.
  { intros w1 H1. destruct (H1 Hw) as (Hw1 & _ & K1). apply IH; [done|]. eapply Forall_impl; [exact Hl|].
    intros a' (?&?&Ha'). split_and!; [done|done|]. intros b Hb. apply Ha'. destruct (K1 (ar_tenant_id a', ar_artifact_id a')) as [E|(?&_&E&_)]; congruence. }
  destruct (on_hold a ctx (aw_store w)) eqn:Ho.
  { unfold bind. pose proof (Hrest w ltac:(reflexivity)) as H. by destruct (purge_each l ctx w) as [[r|e] w']. }
  assert (∀ B (m : AM B) (k : B → AM (list string * list string)) w0, keeps R m → R w w0 →
    (∀ b w1, R w w1 → R w (k b w1).2) → R w (bind m k w0).2) as step.
  { intros B m k w0 Hm H0 Hk. specialize (Hm w0). unfold bind. destruct (m w0) as [[b|e] w1]; cbn in *; [apply Hk|]; by etrans. }
  unfold bind at 1. pose proof (deletes_ext_exn (ae_delete env (ar_location a)) w) as Hd.
  assert (aw_store (on_ext_exn (ae_delete env (ar_location a)) w).2 = aw_store w) as Hst by (unfold on_ext_exn; by destruct (ae_delete env _ _)).
  destruct (on_ext_exn (ae_delete env (ar_location a)) w) as [[u|e] w1]; cbn in Hd, Hst; [|done].
  assert (R w (delete_artifact (ar_artifact_id a) (ar_tenant_id a) ctx w1).2) as H2.
  { etrans; [exact Hd|]. apply deletes_artifact; [done|done|by rewrite Hst|by rewrite Hst]. }
  unfold bind at 1. destruct (delete_artifact _ _ ctx w1) as [[u2|e] w2]; cbn in H2; [|done].
  apply step; [apply deletes_audit|done|]. intros u3 w3 H3. pose proof (Hrest w3 H3) as H4. unfold bind.
  destruct (purge_each l ctx w3) as [[r|e] w4]; cbn in *; by etrans.
Qed.
End Purge.

(** Whether it returns or fails half-way, a purge deletes no artifact but expired
    ones of its scope whose policy is not on hold, and it changes no policy. *)
Lemma purge_due_deletes tenant_id now ctx w :
  store_ok (aw_store w) → only_deletes (purgeable now (purge_scope tenant_id ctx) ctx) w (purge_due tenant_id (Some now) ctx w).2.
Proof.
  intros Hw. unfold purge_due, bind at 1 2, gets, ret at 1.
  assert (only_deletes (purgeable now (purge_scope tenant_id ctx) ctx) w (purge_each (expired now tenant_id ctx (aw_store w)) ctx w).2) as H.
  { apply purge_each_deletes; [done|]. unfold expired. destruct (match tenant_id with Some _ => _ | None => _ end); [done|].
    apply Forall_forall. intros a Ha. rewrite py_sort_perm, list_elem_of_fmap in Ha. destruct Ha as ([k b] & -> & [Hf Hin]%list_elem_of_filter).
    cbn in *. apply andb_true_iff in Hf as [Hf1 Hf2]. destruct Hw as [Hwf Hk]. apply od_elem_get in Hin; [|done].
    pose proof (Hk _ _ Hin) as ->. cbn in Hf1. split_and!; [done|done|]. intros b' Hb'. congruence. }
  unfold bind. by destruct (purge_each _ ctx w) as [[r|e] w'].
Qed.
End Service.
