(* ===== verification/Retention.v ===== *)
(** * Enforcing retention ([reporting/retention.py])

    The sweep that maps every tenant's retention policies onto the stores that
    hold the class of data: runs, login and delivery logs, artifacts, metering
    and the audit chain.  Over the modelled stores; the audit log lies with what
    the artifact service's environment sees of the world. *)

From stdpp Require Import base strings pretty numbers gmap sets list.
From S2P Require Import Prelude Text Calendar Tenancy CoreModels AuditTrail Cost RunStore Tenants Auth Drift Delivery Artifacts.

#[local] Open Scope hp_scope.

(** ** Classes of data ([reporting/models.py]) *)

Inductive RetentionDataClass := RC_RUNS | RC_LOGS | RC_ARTIFACTS | RC_AUDIT | RC_METERING.

Definition class_value (c : RetentionDataClass) : string :=
  match c with RC_RUNS => "runs" | RC_LOGS => "logs" | RC_ARTIFACTS => "artifacts" | RC_AUDIT => "audit" | RC_METERING => "metering" end.
(** [RetentionDataClass(value)] *)
Definition class_of (s : string) : option RetentionDataClass :=
  head (filter (λ c, class_value c = s) [RC_RUNS; RC_LOGS; RC_ARTIFACTS; RC_AUDIT; RC_METERING]).

Record StorePurgeCount := mkCount { sc_store : string; sc_deleted : Z }.
Record RetentionPurgeResult := mkSwept { rr_classes : list StorePurgeCount; rr_completed_at : Z }.

Inductive RetentionExn :=
  | RetentionArtifactError (e : ArtifactExn) | RetentionAuthError (e : AuthExn) | RetentionCostError (e : CostExn) | RetentionOverflow
  | InvalidAuditRecord | InvalidPolicy.

(** ** The enforcer *)

Record World (Y A : Type) := mkWorld {
  rw_artifacts : Artifacts.World (AuditLog * Y); rw_runs : Bundles; rw_cost : CostStore; rw_auth : AuthWorld A; rw_delivery : DeliveryStore;
  rw_tenants : list string }.
Arguments mkWorld {Y A}.
Arguments rw_artifacts {Y A}.
Arguments rw_runs {Y A}.
Arguments rw_cost {Y A}.
Arguments rw_auth {Y A}.
Arguments rw_delivery {Y A}.
Arguments rw_tenants {Y A}.

Definition prefix_of (n : nat) (s : string) : string := String.substring 0 n s.
Definition plain_context (tenant_id : string) : TenantContext := context_for_run tenant_id None None.

Lemma scopes_plain t : scopes (plain_context t) t = true.
Proof. apply scopes_own. Qed.

Section Enforcer.
Context {Y A : Type}.
Variables (aenv : Artifacts.Env (AuditLog * Y)) (clock : Y → Z * Y).
Variables (sha256 : string → string) (isoformat : Z → string) (scrub : string → string).

Abbreviation RM := (M (World Y A) RetentionExn).

Definition log_of (w : World Y A) : AuditLog := (aw_ext (rw_artifacts w)).1.
Definition store_of (w : World Y A) : ArtifactStore := aw_store (rw_artifacts w).
Definition with_artifacts (a : Artifacts.World (AuditLog * Y)) (w : World Y A) : World Y A :=
  mkWorld a (rw_runs w) (rw_cost w) (rw_auth w) (rw_delivery w) (rw_tenants w).
Definition with_log (l : AuditLog) (w : World Y A) : World Y A :=
  with_artifacts (Artifacts.mkWorld (store_of w) (l, (aw_ext (rw_artifacts w)).2)) w.

Definition of_artifacts {B} (m : M (Artifacts.World (AuditLog * Y)) ArtifactExn B) : RM B :=
  λ w, let '(o, a) := m (rw_artifacts w) in (match o with Ret b => Ret b | Raise e => Raise (RetentionArtifactError e) end, with_artifacts a w).
Definition of_auth {B} (m : M (AuthWorld A) AuthExn B) : RM B :=
  λ w, let '(o, a) := m (rw_auth w) in
       (match o with Ret b => Ret b | Raise e => Raise (RetentionAuthError e) end,
        mkWorld (rw_artifacts w) (rw_runs w) (rw_cost w) a (rw_delivery w) (rw_tenants w)).
Definition of_cost {B} (m : M CostStore CostExn B) : RM B :=
  λ w, let '(o, c) := m (rw_cost w) in
       (match o with Ret b => Ret b | Raise e => Raise (RetentionCostError e) end,
        mkWorld (rw_artifacts w) (rw_runs w) c (rw_auth w) (rw_delivery w) (rw_tenants w)).

Definition read_clock : RM Z :=
  λ w, let '(t, y) := clock (aw_ext (rw_artifacts w)).2 in (Ret t, with_artifacts (Artifacts.mkWorld (store_of w) (log_of w, y)) w).

(** [self._audit_log.append] *)
Definition append (actor action subject detail : string) (ctx : TenantContext) : RM unit :=
  let* now := read_clock in
  λ w, match scrubbing_append sha256 isoformat scrub now actor action subject (Some detail) ctx (log_of w) with
       | Some (_, l) => (Ret tt, with_log l w)
       | None => (Raise InvalidAuditRecord, w)
       end.

(** [set_policy] *)
Definition policy_id_of (tenant_id : string) (c : RetentionDataClass) : string := prefix_of 64 ("retention:" +:+ tenant_id +:+ ":" +:+ class_value c).
Definition set_policy (tenant_id : string) (c : RetentionDataClass) (retain_days : Z) (legal_hold : bool) (actor : string) : RM RetentionPolicy :=
  modify (λ w, mkWorld (rw_artifacts w) (rw_runs w) (rw_cost w) (rw_auth w) (rw_delivery w) (tenant_id :: rw_tenants w)) ;;;
  let p := mkPolicy (policy_id_of tenant_id c) tenant_id (class_value c) retain_days legal_hold in
  if policy_valid p then of_artifacts (Artifacts.set_policy aenv p actor (plain_context tenant_id)) else raise InvalidPolicy.

Definition policies_of (tenant_id : string) (s : ArtifactStore) : list RetentionPolicy := Artifacts.policies tenant_id (plain_context tenant_id) s.
Definition policies (tenant_id : string) : RM (list RetentionPolicy) := gets (λ w, policies_of tenant_id (store_of w)).

(** [_audit_policy_map]: of several audit policies of a tenant the last stays. *)
Definition audit_policy (s : ArtifactStore) (scope : string) : option RetentionPolicy :=
  last (filter (λ p, rp_data_class p = class_value RC_AUDIT) (policies_of scope s)).
Definition audit_policy_map (tenants : list string) (w : World Y A) : string → option RetentionPolicy :=
  λ scope, if bool_decide (scope ∈ rw_tenants w ++ tenants) then audit_policy (store_of w) scope else None.

(** [_audit_protect]: [None] is the overflow of the cutoff. *)
Definition audit_protect (m : string → option RetentionPolicy) (now : Z) (r : AuditRecord) : option bool :=
  match m (AuditTrail.ar_tenant_id r) with
  | None => Some true
  | Some p => if rp_legal_hold p then Some true
              else cutoff ← plus_days now (- rp_retain_days p); Some (cutoff <=? AuditTrail.ar_created_at r)%Z
  end.

(** Pruning the chain; an overflow leaves the loop at the record it was asked about. *)
Definition prune_audit (m : string → option RetentionPolicy) (now : Z) : RM Z :=
  λ w, let '(n, l) := audit_prune now (Some (λ r, default true (audit_protect m now r))) (log_of w) in
       (match head (al_records l) with
        | Some r => if (AuditTrail.ar_created_at r <? now)%Z && match audit_protect m now r with None => true | Some _ => false end
                    then Raise RetentionOverflow else Ret (Z.of_nat n)
        | None => Ret (Z.of_nat n)
        end, with_log l w).

Definition delete_runs (cutoff : Z) (tenant_id : string) : RM Z :=
  λ w, let skip run := run_has_artifacts tenant_id run (plain_context tenant_id) (store_of w) in
       let '(n, bs) := delete_terminal_before cutoff tenant_id (plain_context tenant_id) (Some skip) (rw_runs w) in
       (Ret (Z.of_nat n), mkWorld (rw_artifacts w) bs (rw_cost w) (rw_auth w) (rw_delivery w) (rw_tenants w)).

Definition delete_attempts (cutoff : Z) (tenant_id : string) : RM Z :=
  λ w, let '(n, d) := delete_attempts_before cutoff tenant_id (plain_context tenant_id) (rw_delivery w) in
       (Ret n, mkWorld (rw_artifacts w) (rw_runs w) (rw_cost w) (rw_auth w) d (rw_tenants w)).

(** [_purge_class] *)
Definition purge_class (p : RetentionPolicy) (c : RetentionDataClass) (cutoff now : Z) (m : string → option RetentionPolicy) : RM StorePurgeCount :=
  let t := rp_tenant_id p in
  let* deleted := match c with
                  | RC_RUNS => delete_runs cutoff t
                  | RC_LOGS =>
                      let* a := of_auth (Auth.delete_events_before cutoff t (plain_context t)) in
                      let* b := delete_attempts cutoff t in ret (a + b)%Z
                  | RC_ARTIFACTS =>
                      let* r := of_artifacts (Artifacts.purge_due aenv (Some t) (Some now) (plain_context t)) in
                      ret (Z.of_nat (length (pg_purged r)))
                  | RC_METERING => let* n := of_cost (Cost.delete_events_before cutoff t (plain_context t)) in ret (Z.of_nat n)
                  | RC_AUDIT => prune_audit m now
                  end in
  append "system" "retention.purged" (t +:+ ":" +:+ class_value c) ("store=" +:+ class_value c +:+ " deleted=" +:+ pretty deleted) SYSTEM_CONTEXT ;;;
  ret (mkCount (class_value c) deleted).

(** The loops of [purge_due]. *)
Fixpoint sweep_policies (l : list RetentionPolicy) (now : Z) (m : string → option RetentionPolicy) : RM (list StorePurgeCount) :=
  match l with
  | [] => ret []
  | p :: l =>
      match (if rp_legal_hold p then None else class_of (rp_data_class p)) with
      | None => sweep_policies l now m
      | Some c =>
          match plus_days now (- rp_retain_days p) with
          | None => raise RetentionOverflow
          | Some cutoff =>
              let* n := purge_class p c cutoff now m in
              let* rest := sweep_policies l now m in ret (n :: rest)
          end
      end
  end.
Fixpoint sweep_tenants (l : list string) (now : Z) (m : string → option RetentionPolicy) : RM (list StorePurgeCount) :=
  match l with
  | [] => ret []
  | t :: l =>
      let* ps := policies t in
      let* a := sweep_policies ps now m in
      let* b := sweep_tenants l now m in ret (a ++ b)
  end.

(** [purge_due] *)
Definition swept_tenants (tenant_id : option string) (w : World Y A) : list string :=
  match tenant_id with Some t => [t] | None => remove_dups (rw_tenants w ++ retention_tenants (store_of w)) end.
Definition purge_due (tenant_id : option string) (at_ : option Z) : RM RetentionPurgeResult :=
  let* now := match at_ with Some t => ret t | None => read_clock end in
  let* tenants := gets (swept_tenants tenant_id) in
  let* m := gets (audit_policy_map tenants) in
  let* classes := sweep_tenants (py_sort str_leb tenants) now m in
  ret (mkSwept classes now).

(** ** Endpoints ([api/reporting.py]) and the ticker *)

Definition put_retention_policy (c : RetentionDataClass) (retain_days : Z) (legal_hold : bool) (operator : string) (ctx : TenantContext) :=
  set_policy (tc_tenant_id ctx) c retain_days legal_hold operator.
Definition enforce_retention (ctx : TenantContext) := purge_due (Some (tc_tenant_id ctx)) None.
Definition retention_tick : RM unit := suppress (let* _ := purge_due None None in ret tt).
End Enforcer.

(** ** The wiring ([api/app.py]): the artifact service over the same audit log,
    which it appends to under the default context *)
Definition beside {Y B} (f : Y → B * Y) (x : AuditLog * Y) : B * (AuditLog * Y) := let '(b, y) := f x.2 in (b, (x.1, y)).
Definition wire_artifacts {Y} (put : string → string → Y → (ArtifactExn + string) * Y) (fetch : string → Y → (ArtifactExn + string) * Y)
    (remove : string → Y → (ArtifactExn + unit) * Y) (hash : string → string) (scrub_text : option (string → string)) (clock : Y → Z * Y)
    (artifact_id : Y → string * Y) (sha256 : string → string) (isoformat : Z → string) (scrub : string → string) : Artifacts.Env (AuditLog * Y) :=
  {| ae_put k d := beside (put k d); ae_get l := beside (fetch l); ae_delete l := beside (remove l); ae_sha256 := hash; ae_scrub := scrub_text;
     ae_clock := beside clock; ae_artifact_id := beside artifact_id;
     ae_audit := Some (λ actor action subject detail x,
       let '(now, y) := clock x.2 in
       match scrubbing_append sha256 isoformat scrub now actor action subject detail DEFAULT_CONTEXT x.1 with
       | Some (_, l) => (inr tt, (l, y)) | None => (inl ArtifactAuditError, (x.1, y)) end) |}.

(** ** What a sweep may delete *)

Lemma head_filter {T} (P : T → Prop) `{∀ x, Decision (P x)} (l : list T) x : head (filter P l) = Some x → P x.
Proof. intros Hx. assert (x ∈ filter P l) as H1 by (destruct (filter P l); simplify_eq; set_solver). by apply list_elem_of_filter in H1 as [? _]. Qed.

Lemma class_of_value s c : class_of s = Some c → s = class_value c.
Proof. intros H%head_filter. done. Qed.

Lemma prune_keeps before f log r :
  r ∈ al_records log → r ∈ al_records (audit_prune before (Some f) log).2 ∨ ((AuditTrail.ar_created_at r < before)%Z ∧ f r = false).
Proof.
  unfold audit_prune. destruct (prune_loop before (Some f) (al_records log) (al_anchor log) 0) as [[l anchor] n] eqn:Hp.
  apply prune_loop_suffix in Hp as (pre & -> & _ & _ & Hall). cbn. intros [Hr|Hr]%elem_of_app; [right|by left].
  by apply (proj1 (Forall_forall _ _) Hall).
Qed.

Lemma append_grows {sha256 isoformat scrub now actor action subject detail ctx log} r log' :
  scrubbing_append sha256 isoformat scrub now actor action subject detail ctx log = Some (r, log') →
  log_inv sha256 isoformat log → log_inv sha256 isoformat log' ∧ al_records log ⊆ al_records log'.
Proof.
  intros H Hl. split; [by eapply log_inv_append|]. unfold scrubbing_append, audit_append in H. destruct (audit_record_valid _); [|done].
  injection H as _ <-. cbn. set_solver.
Qed.

Section Safety.
Context {Y A : Type}.
Variables (put : string → string → Y → (ArtifactExn + string) * Y) (fetch : string → Y → (ArtifactExn + string) * Y)
  (remove : string → Y → (ArtifactExn + unit) * Y) (hash : string → string) (scrub_text : option (string → string)) (clock : Y → Z * Y)
  (artifact_id : Y → string * Y).
Variables (sha256 : string → string) (isoformat : Z → string) (scrub : string → string).
Variables (pol : ArtifactStore) (now : Z).

Abbreviation aenv := (wire_artifacts put fetch remove hash scrub_text clock artifact_id sha256 isoformat scrub).
Abbreviation World := (World Y A).

(** A policy of the tenant for the class, not on hold, whose days are over. *)
Definition due_by (c : RetentionDataClass) (tenant_id : string) (created_at : Z) : Prop :=
  ∃ p cutoff, p ∈ policies_of tenant_id pol ∧ rp_data_class p = class_value c ∧ rp_legal_hold p = false ∧
    plus_days now (- rp_retain_days p) = Some cutoff ∧ (created_at < cutoff)%Z.
Definition artifact_due (a : Artifact) : Prop :=
  (∃ p, p ∈ policies_of (ar_tenant_id a) pol ∧ rp_data_class p = class_value RC_ARTIFACTS ∧ rp_legal_hold p = false) ∧
  has_expired now a = true ∧ on_hold a (plain_context (ar_tenant_id a)) pol = false.
Definition run_due (k : string * string) (b : RunBundle) (s : ArtifactStore) : Prop :=
  terminal (run_state (bu_run b)) = true ∧ due_by RC_RUNS k.1 (run_updated_at (bu_run b)) ∧ run_has_artifacts k.1 k.2 (plain_context k.1) s = false.

Record world_ok (w : World) : Prop := {
  wo_policies : as_retention (store_of w) = as_retention pol;
  wo_artifacts : store_ok (store_of w);
  wo_runs : store_inv (rw_runs w);
  wo_log : log_inv sha256 isoformat (log_of w) }.

Record kept (w w' : World) : Prop := {
  kp_artifacts : ∀ k, od_get k (as_artifacts (store_of w')) = od_get k (as_artifacts (store_of w)) ∨
    ∃ a, od_get k (as_artifacts (store_of w)) = Some a ∧ od_get k (as_artifacts (store_of w')) = None ∧ artifact_due a;
  kp_runs : ∀ k, od_get k (rw_runs w') = od_get k (rw_runs w) ∨
    ∃ b, od_get k (rw_runs w) = Some b ∧ od_get k (rw_runs w') = None ∧ run_due k b (store_of w');
  kp_audit : ∀ r, r ∈ al_records (log_of w) → r ∈ al_records (log_of w') ∨ due_by RC_AUDIT (AuditTrail.ar_tenant_id r) (AuditTrail.ar_created_at r);
  kp_events : ∀ e, e ∈ ct_events (rw_cost w) → e ∈ ct_events (rw_cost w') ∨ due_by RC_METERING (ue_tenant_id e.2) (mo_utc (ue_occurred_at e.2));
  kp_attempts : ∀ e, e ∈ ds_attempts (rw_delivery w) → e ∈ ds_attempts (rw_delivery w') ∨ due_by RC_LOGS (at_tenant_id e.2) (at_created_at e.2);
  kp_logins : ∀ e, e ∈ au_logins (aw_auth (rw_auth w)) → e ∈ au_logins (aw_auth (rw_auth w')) ∨ due_by RC_LOGS (le_tenant_id e) (le_created_at e);
  kp_access : ∀ e, e ∈ au_access (aw_auth (rw_auth w)) → e ∈ au_access (aw_auth (rw_auth w')) ∨ due_by RC_LOGS (ae_tenant_id e) (ae_created_at e) }.

Definition safe (w w' : World) : Prop := world_ok w → world_ok w' ∧ kept w w'.

Lemma kept_refl w : kept w w.
Proof. split; intros; by left. Qed.

Lemma no_artifacts_mono t run (w w' : World) :
  store_ok (store_of w) → store_ok (store_of w') →
  (∀ k, od_get k (as_artifacts (store_of w')) = od_get k (as_artifacts (store_of w)) ∨ od_get k (as_artifacts (store_of w')) = None) →
  run_has_artifacts t run (plain_context t) (store_of w) = false → run_has_artifacts t run (plain_context t) (store_of w') = false.
Proof.
  intros [H1 _] [H1' _] Hk H. unfold run_has_artifacts in *. destruct (list_artifacts t (Some run) _ (store_of w')) as [|a l] eqn:Hl; [done|].
  assert (a ∈ list_artifacts t (Some run) (plain_context t) (store_of w')) as Ha by (rewrite Hl; set_solver).
  assert (a ∈ list_artifacts t (Some run) (plain_context t) (store_of w)) as Ha'; [|destruct (list_artifacts _ _ _ (store_of w)); set_solver].
  unfold list_artifacts in *. destruct (scopes _ _); [|set_solver]. rewrite py_sort_perm, list_elem_of_fmap in *.
  destruct Ha as ([k b] & -> & [Hf Hin]%list_elem_of_filter). exists (k, b). split; [done|]. apply list_elem_of_filter. split; [done|].
  apply od_elem_get in Hin; [|done]. destruct (Hk k) as [E|E]; rewrite E in Hin; [by apply od_get_Some_elem|done].
Qed.

Lemma kept_trans a b c : world_ok b → world_ok c → kept a b → kept b c → kept a c.
Proof.
  intros Hb Hc [A1 A2 A3 A4 A5 A6 A7] [B1 B2 B3 B4 B5 B6 B7]. split.
  - intros k. destruct (B1 k) as [E|(x & E & N & D)].
    + destruct (A1 k) as [E'|(x & E' & N' & D)]; [left; congruence|right; exists x; split_and!; [done|congruence|done]].
    + destruct (A1 k) as [E'|(y & _ & N' & _)]; [|congruence]. right. exists x. split_and!; [congruence|done|done].
  - intros k. assert (∀ k x, run_due k x (store_of b) → run_due k x (store_of c)) as Hm.
    { intros k' x (?&?&Hn). split_and!; [done|done|]. eapply no_artifacts_mono; [apply Hb|apply Hc| |exact Hn].
      intros k0. destruct (B1 k0) as [?|(?&_&?&_)]; auto. }
    destruct (B2 k) as [E|(x & E & N & D)].
    + destruct (A2 k) as [E'|(x & E' & N' & D)]; [left; congruence|right; exists x; split_and!; [done|congruence|by apply Hm]].
    + destruct (A2 k) as [E'|(y & _ & N' & _)]; [|congruence]. right. exists x. split_and!; [congruence|done|done].
  - intros x Hx. destruct (A3 x Hx) as [Hx'|Hd]; [by apply B3|by right].
  - intros x Hx. destruct (A4 x Hx) as [Hx'|Hd]; [by apply B4|by right].
  - intros x Hx. destruct (A5 x Hx) as [Hx'|Hd]; [by apply B5|by right].
  - intros x Hx. destruct (A6 x Hx) as [Hx'|Hd]; [by apply B6|by right].
  - intros x Hx. destruct (A7 x Hx) as [Hx'|Hd]; [by apply B7|by right].
Qed.

#[local] Instance safe_preorder : PreOrder safe.
Proof.
  split; [intros w Hw; split; [done|apply kept_refl]|]. intros a b c H1 H2 Ha. destruct (H1 Ha) as [Hb K1]. destruct (H2 Hb) as [Hc K2].
  split; [done|]. by apply (kept_trans a b c).
Qed.

Hypothesis pol_ok : policies_ok pol.

Abbreviation RM := (M World RetentionExn).

(** The chain only grows. *)
Definition grows (l l' : AuditLog) : Prop := log_inv sha256 isoformat l → log_inv sha256 isoformat l' ∧ al_records l ⊆ al_records l'.

#[local] Instance grows_preorder : PreOrder grows.
Proof. split; [by intros l|]. intros a b c H1 H2 Ha. destruct (H1 Ha) as [Hb ?]. destruct (H2 Hb) as [Hc ?]. split; [done|set_solver]. Qed.

Lemma safe_frame (w w' : World) :
  store_of w' = store_of w → rw_runs w' = rw_runs w → rw_cost w' = rw_cost w → rw_delivery w' = rw_delivery w → rw_auth w' = rw_auth w →
  grows (log_of w) (log_of w') → safe w w'.
Proof.
  intros E1 E2 E3 E4 E5 Hg [H1 H2 H3 H4]. destruct (Hg H4) as [H4' Hsub]. split.
  - split; rewrite ?E1, ?E2; done.
  - split; rewrite ?E1, ?E2, ?E3, ?E4, ?E5; try (intros; by left). intros r Hr. left. by apply Hsub.
Qed.

Lemma safe_clock : keeps safe (read_clock (A := A) clock).
Proof.
  intros w. unfold read_clock. destruct (clock _) as [t y]. by apply safe_frame.
Qed.

Lemma safe_append a b c d ctx : keeps safe (append (A := A) clock sha256 isoformat scrub a b c d ctx).
Proof.
  apply keeps_bind; [apply _|apply safe_clock|]. intros t w. destruct (scrubbing_append _ _ _ _ _ _ _ _ _ _) as [[r l]|] eqn:Hl; [|reflexivity].
  apply safe_frame; try done. intros Hi. by eapply append_grows.
Qed.

Lemma safe_delete_runs p cutoff :
  p ∈ policies_of (rp_tenant_id p) pol → rp_data_class p = class_value RC_RUNS → rp_legal_hold p = false →
  plus_days now (- rp_retain_days p) = Some cutoff → keeps safe (delete_runs (Y := Y) (A := A) cutoff (rp_tenant_id p)).
Proof.
  intros Hp Hc Hh Hd w Hok. unfold delete_runs, delete_terminal_before. set (keys := (filter _ (rw_runs w)).*1). cbn [snd].
  set (w' := mkWorld _ _ _ _ _ _). pose proof (wo_runs w Hok) as Hinv. destruct Hinv as [Hwf Hk].
  assert (world_ok w') as Hok'. { destruct Hok. split; try done. cbn. by apply del_all_inv. }
  split; [done|]. split; try (intros; by left). intros k. cbn [rw_runs w']. rewrite (proj2 (od_del_all keys (rw_runs w) k Hwf)).
  case_decide as Hin; [right|by left]. apply list_elem_of_fmap in Hin as ([k0 b] & -> & [Hs Hin]%list_elem_of_filter). cbn [fst].
  apply od_elem_get in Hin; [|done]. exists b. split_and!; [done|done|]. unfold stale in Hs. cbn in Hs.
  apply andb_true_iff in Hs as [Hs Hskip]. apply andb_true_iff in Hs as [Hs Hcut]. apply andb_true_iff in Hs as [Ht Hterm].
  apply bool_decide_eq_true in Ht. apply negb_true_iff in Hskip. destruct (Hk _ _ Hin) as [Hkey _]. split_and!; [done| |].
  - exists p, cutoff. rewrite Ht. split_and!; [done..|]. by apply Z.ltb_lt.
  - rewrite Ht, Hkey. exact Hskip.
Qed.

Lemma safe_delete_attempts p cutoff :
  p ∈ policies_of (rp_tenant_id p) pol → rp_data_class p = class_value RC_LOGS → rp_legal_hold p = false →
  plus_days now (- rp_retain_days p) = Some cutoff → keeps safe (delete_attempts (Y := Y) (A := A) cutoff (rp_tenant_id p)).
Proof.
  intros Hp Hc Hh Hd w Hok. unfold delete_attempts, delete_attempts_before. rewrite scopes_plain. cbn [snd].
  split; [by destruct Hok|]. split; try (intros; by left). intros e He. cbn.
  destruct (old_attempt cutoff (rp_tenant_id p) e) eqn:Ho; [right|left; by apply list_elem_of_filter].
  unfold old_attempt in Ho. apply andb_true_iff in Ho as [Ht%bool_decide_eq_true Hlt%Z.ltb_lt]. exists p, cutoff. by rewrite Ht.
Qed.

Lemma safe_delete_auth p cutoff :
  p ∈ policies_of (rp_tenant_id p) pol → rp_data_class p = class_value RC_LOGS → rp_legal_hold p = false →
  plus_days now (- rp_retain_days p) = Some cutoff →
  keeps safe (of_auth (Y := Y) (Auth.delete_events_before (X := A) cutoff (rp_tenant_id p) (plain_context (rp_tenant_id p)))).
Proof.
  intros Hp Hc Hh Hd w Hok. unfold of_auth, Auth.delete_events_before, require_scope, require. rewrite scopes_plain. cbn.
  split; [by destruct Hok|]. split; try (intros; by left); intros e He; cbn.
  all: match goal with |- context [filter ?P ?l] => destruct (decide (P e)) as [Hk|Hk]; [left; by apply list_elem_of_filter|right] end.
  all: apply dec_stable in Hk as [Ht Hlt]; exists p, cutoff; by rewrite Ht.
Qed.

Lemma safe_delete_cost p cutoff :
  p ∈ policies_of (rp_tenant_id p) pol → rp_data_class p = class_value RC_METERING → rp_legal_hold p = false →
  plus_days now (- rp_retain_days p) = Some cutoff →
  keeps safe (of_cost (Y := Y) (A := A) (Cost.delete_events_before cutoff (rp_tenant_id p) (plain_context (rp_tenant_id p)))).
Proof.
  intros Hp Hc Hh Hd w Hok. unfold of_cost, Cost.delete_events_before. rewrite scopes_plain. cbn.
  split; [by destruct Hok|]. split; try (intros; by left). intros e He. cbn.
  match goal with |- context [filter ?P ?l] => destruct (decide (P e)) as [Hk|Hk]; [left; by apply list_elem_of_filter|right] end.
  apply not_false_is_true, andb_true_iff in Hk as [Ht%bool_decide_eq_true Hlt%Z.ltb_lt]. exists p, cutoff. by rewrite Ht.
Qed.

(** What protects a record is its tenant's audit policy. *)
Definition map_ok (m : string → option RetentionPolicy) : Prop :=
  ∀ t p, m t = Some p → p ∈ policies_of t pol ∧ rp_data_class p = class_value RC_AUDIT.

Lemma unprotected_due m r : map_ok m → default true (audit_protect m now r) = false → due_by RC_AUDIT (AuditTrail.ar_tenant_id r) (AuditTrail.ar_created_at r).
Proof.
  intros Hm. unfold audit_protect. destruct (m (AuditTrail.ar_tenant_id r)) as [p|] eqn:Hp; [|done]. apply Hm in Hp as [Hin Hc].
  destruct (rp_legal_hold p) eqn:Hh; [done|]. destruct (plus_days now (- rp_retain_days p)) as [cutoff|] eqn:Hd; [|done]. cbn. intros Hlt%Z.leb_gt.
  by exists p, cutoff.
Qed.

Lemma safe_prune m : map_ok m → keeps safe (prune_audit (Y := Y) (A := A) m now).
Proof.
  intros Hm w Hok. unfold prune_audit. destruct (audit_prune now _ (log_of w)) as [n l] eqn:Hp. cbn [snd].
  assert (l = (audit_prune now (Some (λ r, default true (audit_protect m now r))) (log_of w)).2) as Hl by by rewrite Hp.
  split.
  - destruct Hok as [H1 H2 H3 H4]. split; try done. cbn. rewrite Hl. by apply log_inv_prune.
  - split; try (intros; by left). intros r Hr. cbn. rewrite Hl. apply (prune_keeps now (λ r, default true (audit_protect m now r))) in Hr as [Hr|[_ Hr]]; [by left|right].
    by apply unprotected_due in Hr.
Qed.

Abbreviation AW := (Artifacts.World (AuditLog * Y)).
Definition agrows (a a' : AW) : Prop := grows (aw_ext a).1 (aw_ext a').1.
#[local] Instance agrows_preorder : PreOrder agrows.
Proof. split; [intros a; unfold agrows; reflexivity|]. intros a b c H1 H2. unfold agrows in *. by etrans. Qed.

Lemma agrows_purge_each l ctx : keeps agrows (purge_each aenv l ctx).
Proof.
  induction l as [|a l IH]; cbn [purge_each]; [apply keeps_ret, _|]. apply keeps_bind; [apply _|apply keeps_gets, _|]. intros s.
  destruct (on_hold a ctx s); [apply keeps_bind; [apply _|done|intros r; apply keeps_ret, _]|].
  apply keeps_bind; [apply _| |].
  { intros w. unfold on_ext_exn. cbn. unfold beside. destruct (remove (ar_location a) (aw_ext w).2) as [r y]. unfold agrows. reflexivity. }
  intros _. apply keeps_bind; [apply _| |].
  { unfold delete_artifact. destruct (scopes _ _); [|apply keeps_ret, _]. intros w. unfold agrows. reflexivity. }
  intros _. apply keeps_bind; [apply _| |intros _; apply keeps_bind; [apply _|done|intros r; apply keeps_ret, _]].
  intros w. unfold audit, on_ext_exn, agrows. cbn. destruct (clock (aw_ext w).2) as [t y].
  destruct (scrubbing_append _ _ _ _ _ _ _ _ _ _) as [[r l']|] eqn:Hl; cbn; [|reflexivity]. intros Hi. by eapply append_grows.
Qed.

Lemma agrows_purge_due t ctx : keeps agrows (Artifacts.purge_due aenv t (Some now) ctx).
Proof.
  unfold Artifacts.purge_due. apply keeps_bind; [apply _|apply keeps_ret, _|]. intros n. apply keeps_bind; [apply _|apply keeps_gets, _|]. intros l.
  apply keeps_bind; [apply _|apply agrows_purge_each|]. intros r. apply keeps_ret, _.
Qed.

Lemma on_hold_policies a ctx s s' : as_retention s' = as_retention s → on_hold a ctx s' = on_hold a ctx s.
Proof. intros H. unfold on_hold, policy_of, get_retention. by rewrite H. Qed.

Lemma safe_purge_artifacts p :
  p ∈ policies_of (rp_tenant_id p) pol → rp_data_class p = class_value RC_ARTIFACTS → rp_legal_hold p = false →
  keeps safe (of_artifacts (A := A) (Artifacts.purge_due aenv (Some (rp_tenant_id p)) (Some now) (plain_context (rp_tenant_id p)))).
Proof.
  intros Hp Hc Hh w [Hr Ha Hruns Hlog]. unfold of_artifacts.
  pose proof (purge_due_deletes aenv (Some (rp_tenant_id p)) now (plain_context (rp_tenant_id p)) (rw_artifacts w) Ha Ha) as (Ha' & Hr' & Hk).
  pose proof (agrows_purge_due (Some (rp_tenant_id p)) (plain_context (rp_tenant_id p)) (rw_artifacts w) Hlog) as [Hl' Hsub].
  destruct (Artifacts.purge_due _ _ _ _ (rw_artifacts w)) as [o a]. cbn [snd] in *. split.
  - split; [etrans; [exact Hr'|exact Hr]|exact Ha'|exact Hruns|exact Hl'].
  - split; try (intros; by left).
    + intros k. destruct (Hk k) as [E|(x & E & N & Ht & He & Ho)]; [by left|right]. exists x. split_and!; [done|done|].
      cbn in Ht. apply bool_decide_eq_true in Ht. split_and!; [exists p; by rewrite <-Ht|done|].
      rewrite <-Ht, <-Ho. symmetry. apply on_hold_policies. by rewrite <-Hr.
    + intros r Hin. left. by apply Hsub.
Qed.

Lemma safe_purge_class p c cutoff m :
  p ∈ policies_of (rp_tenant_id p) pol → rp_data_class p = class_value c → rp_legal_hold p = false →
  plus_days now (- rp_retain_days p) = Some cutoff → map_ok m → keeps safe (purge_class (A := A) aenv clock sha256 isoformat scrub p c cutoff now m).
Proof.
  intros Hp Hc Hh Hd Hm. unfold purge_class. apply keeps_bind; [apply _| |].
  - destruct c.
    + by apply safe_delete_runs.
    + apply keeps_bind; [apply _|by apply safe_delete_auth|]. intros a. apply keeps_bind; [apply _|by apply safe_delete_attempts|]. intros b. apply keeps_ret, _.
    + apply keeps_bind; [apply _|by apply safe_purge_artifacts|]. intros r. apply keeps_ret, _.
    + by apply safe_prune.
    + apply keeps_bind; [apply _|by apply safe_delete_cost|]. intros n. apply keeps_ret, _.
  - intros deleted. apply keeps_bind; [apply _|apply safe_append|]. intros u. apply keeps_ret, _.
Qed.

Lemma safe_sweep_policies l m : (∀ p, p ∈ l → p ∈ policies_of (rp_tenant_id p) pol) → map_ok m →
  keeps safe (sweep_policies (A := A) aenv clock sha256 isoformat scrub l now m).
Proof.
  intros Hl Hm. induction l as [|p l IH]; cbn [sweep_policies]; [apply keeps_ret, _|].
  assert (∀ p, p ∈ l → p ∈ policies_of (rp_tenant_id p) pol) as Hl' by (intros q Hq; apply Hl; set_solver).
  destruct (rp_legal_hold p) eqn:Hh; [by apply IH|]. destruct (class_of (rp_data_class p)) as [c|] eqn:Hc; [|by apply IH].
  destruct (plus_days now (- rp_retain_days p)) as [cutoff|] eqn:Hd; [|apply keeps_raise, _].
  apply keeps_bind; [apply _| |intros n; apply keeps_bind; [apply _|by apply IH|intros r; apply keeps_ret, _]].
  apply safe_purge_class; [|by apply class_of_value|done|done|done]. apply Hl. set_solver.
Qed.

(** A tenant's policies are its own. *)
Lemma policies_own t p : p ∈ policies_of t pol → rp_tenant_id p = t.
Proof.
  unfold policies_of, Artifacts.policies, list_retention. rewrite scopes_plain, py_sort_perm, list_elem_of_fmap.
  intros ([k q] & -> & [Hk Hin]%list_elem_of_filter). cbn in *. by rewrite (pol_ok k q Hin) in Hk.
Qed.

Lemma policies_of_retention t (s : ArtifactStore) : as_retention s = as_retention pol → policies_of t s = policies_of t pol.
Proof. intros H. unfold policies_of, Artifacts.policies, list_retention. by rewrite H. Qed.

Lemma safe_policies {B} t (k : list RetentionPolicy → RM B) : keeps safe (k (policies_of t pol)) → keeps safe (bind (policies (Y := Y) (A := A) t) k).
Proof. intros Hk w Hok. unfold bind, policies, gets. rewrite (policies_of_retention t _ (wo_policies w Hok)). by apply Hk. Qed.

Lemma safe_sweep_tenants l m : map_ok m → keeps safe (sweep_tenants (A := A) aenv clock sha256 isoformat scrub l now m).
Proof.
  intros Hm. induction l as [|t l IH]; cbn [sweep_tenants]; [apply keeps_ret, _|]. apply safe_policies, keeps_bind; [apply _| |].
  - apply safe_sweep_policies; [|done]. intros p Hp. by rewrite (policies_own t p Hp).
  - intros a. apply keeps_bind; [apply _|done|]. intros b. apply keeps_ret, _.
Qed.

Lemma safe_purge_due tenant_id w : world_ok w → safe w (purge_due (A := A) aenv clock sha256 isoformat scrub tenant_id (Some now) w).2.
Proof.
  intros Hok. unfold purge_due, bind at 1 2 3, gets, ret at 1.
  assert (map_ok (audit_policy_map (swept_tenants tenant_id w) w)) as Hm.
  { intros t p. unfold audit_policy_map. destruct (bool_decide _); [|done]. unfold audit_policy. intros Hp%last_Some_elem_of.
    apply list_elem_of_filter in Hp as [Hc Hp]. by rewrite (policies_of_retention t _ (wo_policies w Hok)) in Hp. }
  assert (keeps safe (let* classes := sweep_tenants (A := A) aenv clock sha256 isoformat scrub (py_sort str_leb (swept_tenants tenant_id w)) now
    (audit_policy_map (swept_tenants tenant_id w) w) in ret (mkSwept classes now))) as H; [|apply H].
  apply keeps_bind; [apply _|by apply safe_sweep_tenants|]. intros c. apply keeps_ret, _.
Qed.
End Safety.

(** C24: a retention sweep, of one tenant or of all, whether it completes or raises
    half-way, deletes only what a policy lets go: a record of any class goes
    only when its own tenant has a policy for the class that is not on legal
    hold and whose days are over (for an artifact: its own expiry, fixed when it
    was captured, is over and the policy it was captured under is not on hold);
    a run goes only when it is terminal and owns no artifact any more.  The
    audit chain still verifies. *)
Theorem sweep_deletes_only_due {Y A} put fetch remove hash scrub_text (clock : Y → Z * Y) artifact_id sha256 isoformat scrub tenant_id now (w : World Y A) :
  let s := store_of w in
  let w' := (purge_due (wire_artifacts put fetch remove hash scrub_text clock artifact_id sha256 isoformat scrub) clock sha256 isoformat scrub
               tenant_id (Some now) w).2 in
  policies_ok s → store_ok s → store_inv (rw_runs w) → log_inv sha256 isoformat (log_of w) →
  kept s now w w' ∧ as_retention (store_of w') = as_retention s ∧ audit_verify sha256 isoformat (log_of w') = true.
Proof.
  intros s w' Hp Hs Hr Hl. assert (world_ok sha256 isoformat s w) as Hok by by split.
  destruct (safe_purge_due put fetch remove hash scrub_text clock artifact_id sha256 isoformat scrub s now Hp tenant_id w Hok Hok) as [[H1 _ _ H4] Hk].
  split_and!; [done|done|]. apply audit_verify_chained, H4.
Qed.

(** ** A concrete plane *)

Definition demo_log_entry (actor tenant : string) (l : AuditLog) : AuditLog :=
  match audit_append AuditTrail.demo_hash demo_isoformat 5 actor "act" "subject" None (plain_context tenant) l with Some (_, l') => l' | None => l end.

Definition demo_policy (id tenant class : string) (days : Z) (hold : bool) : RetentionPolicy := mkPolicy id tenant class days hold.

Definition demo_store (ps : list RetentionPolicy) : ArtifactStore := mkStore [] ((λ p, ((rp_tenant_id p, rp_policy_id p), p)) <$> ps).

Definition demo_retention (ps : list RetentionPolicy) (l : AuditLog) (bs : Bundles) : World nat unit :=
  mkWorld (Artifacts.mkWorld (demo_store ps) (l, 0%nat)) bs empty_cost_store (mkAuthWorld empty_tenants empty_auth [] tt) empty_delivery [].

Definition demo_clock (x : nat) : Z * nat := (Z.of_nat x, S x).
Abbreviation demo_wired := (wire_artifacts (λ k _ x, (inr ("file://" +:+ k), x)) (λ _ x, (inr EmptyString, x)) (λ _ x, (inr tt, x)) (λ _, "00") None demo_clock
  (λ x, ("art", x)) AuditTrail.demo_hash demo_isoformat (λ s, s)).
Abbreviation demo_sweep tenant now w := (purge_due (A := unit) demo_wired demo_clock AuditTrail.demo_hash demo_isoformat (λ s, s) tenant (Some now) w).

Definition a_month : Z := 2592000000000.

(** A finished run of the tenant, last updated at the epoch. *)
Definition old_run : Bundles :=
  [(("acme", "r1"), {| bu_run := {| run_id := "r1"; run_workload_id := "w"; run_caller := "op"; run_state := COMPLETED; run_model_identity := None;
     run_created_at := 0; run_updated_at := 0; run_started_at := None; run_finished_at := Some 0%Z; run_trigger_origin := None;
     run_pipeline_origin := None; run_agent_tool_origin := None; run_manifest_version := Some 1%Z; run_context := Some STAGING; run_sandbox := false;
     run_task := []; run_result := None; run_failure_reason := None; run_cost_usd := Float64.f64_zero; run_sandbox_id := None; run_trace_id := None;
     run_shadow_of := None; run_probe := false; run_read_only := false; run_canary_rollout_id := None; run_canary_arm := None;
     run_tenant_id := "acme"; run_team_id := None; run_attribution_key := None |};
     bu_admission := None; bu_events := []; bu_usage := []; bu_deliveries := [] |})].

Definition runs_policy : RetentionPolicy := demo_policy "p1" "acme" "runs" 10 false.
Abbreviation swept_world := (demo_retention [runs_policy] (demo_log_entry "op" "acme" audit_init) old_run).

Lemma sweep_deletes_only_due_witness :
  rw_runs swept_world ≠ [] ∧ rw_runs (demo_sweep None a_month swept_world).2 = [] ∧
  kept (store_of swept_world) a_month swept_world (demo_sweep None a_month swept_world).2.
Proof.
  split; [discriminate|]. split; [vm_compute; reflexivity|].
  refine (proj1 (sweep_deletes_only_due _ _ _ _ _ demo_clock _ AuditTrail.demo_hash demo_isoformat (λ s, s) None a_month swept_world _ _ _ _)).
  - intros k p [= -> ->]%list_elem_of_singleton. reflexivity.
  - split; [apply od_wf_nil|]. intros k a [=].
  - split; [apply NoDup_singleton|]. intros k b. simpl. case_decide as Hk; [|intros [=]]. intros [= <-]. subst k. split; [reflexivity|]. intros i e Hi.
    destruct i; discriminate Hi.
  - unfold demo_retention, log_of. cbn [rw_artifacts Artifacts.aw_ext fst]. unfold demo_log_entry.
    destruct (audit_append _ _ _ _ _ _ _ _ _) as [[r l]|] eqn:Hl; [|apply log_inv_init]. eapply log_inv_append; [apply log_inv_init|exact Hl].
Defined.

(** A tenant whose name has fifty-four characters has one policy for all classes: the
    identifier is cut before the class. *)
Definition long_tenant : string := "tenant-tenant-tenant-tenant-tenant-tenant-tenant-tenan".

Example one_policy_for_all_classes :
  policy_id_of long_tenant RC_RUNS = policy_id_of long_tenant RC_AUDIT ∧
  let w := (set_policy demo_wired long_tenant RC_AUDIT 3650 false "op"
              (set_policy demo_wired long_tenant RC_RUNS 30 true "op" (demo_retention [] audit_init [])).2).2 in
  rp_data_class <$> policies_of long_tenant (store_of w) = ["audit"].
Proof. vm_compute. done. Qed.

(** Of two audit policies of a tenant the later identifier decides: the other one's
    legal hold protects nothing. *)
Example audit_hold_overridden :
  let w := demo_retention [demo_policy "hold" "acme" "audit" 0 true; demo_policy "retention:acme:audit" "acme" "audit" 0 false]
             (demo_log_entry "op" "acme" audit_init) [] in
  length (al_records (log_of w)) = 1%nat ∧ "acme" ∉ AuditTrail.ar_tenant_id <$> al_records (log_of (demo_sweep None a_month w).2).
Proof. vm_compute. split; [reflexivity|]. set_solver. Qed.

(** The sweep's own entries belong to the system tenant, which has no policy: once one of
    them has become the oldest record, nothing is pruned any more. *)
Example audit_pruning_ends :
  let w := demo_retention [demo_policy "retention:acme:audit" "acme" "audit" 0 false] (demo_log_entry "op" "acme" (demo_log_entry "system" SYSTEM_TENANT_ID audit_init)) [] in
  (demo_sweep None a_month w).1 = Ret (mkSwept [mkCount "audit" 0] a_month).
Proof. vm_compute. done. Qed.

(** One policy of more days than the calendar has stops the sweep of every tenant after
    it. *)
Example one_policy_stops_the_sweep :
  let w := demo_retention [demo_policy "p" "a" "runs" 1000000 false; runs_policy] audit_init old_run in
  (demo_sweep None a_month w).1 = Raise RetentionOverflow ∧ rw_runs (demo_sweep None a_month w).2 = old_run.
Proof. vm_compute. done. Qed.
