(* ===== verification/Purge.v ===== *)
(** * Purging a tenant ([reporting/purge.py])

    Deleting a tenant from every target store under a signed certificate, and
    checking such a certificate.  SHA-256, the signature scheme and the text of
    instants are parameters; the targets, the check of legal holds, the clock
    and the audit log are the service's environment. *)

From stdpp Require Import base strings pretty numbers gmap sets list.
From S2P Require Import Prelude Text Float64 Base64 Tenancy CoreModels AuditTrail Canonical Drift Retention.

#[local] Open Scope hp_scope.

(** ** Records ([reporting/models.py]) *)

Record PackSignature := mkSignature { sg_key_id : string; sg_algorithm : string; sg_digest : string; sg_signature : string }.
Record PurgeCertificate := mkCertificate {
  pc_purge_id : string; pc_tenant_id : string; pc_scope : string; pc_stores : list StorePurgeCount; pc_total_deleted : Z; pc_completed_at : Z;
  pc_verifier : string; pc_signature : PackSignature }.
Record PurgeRecord := mkRecord {
  pr_purge_id : string; pr_tenant_id : string; pr_scope : string; pr_certificate : PurgeCertificate; pr_completed_at : Z }.

Definition count_valid (c : StorePurgeCount) : bool := between 1 64 (sc_store c) && (0 <=? sc_deleted c)%Z.
Definition signature_valid (s : PackSignature) : bool :=
  between 1 253 (sg_key_id s) && between 1 32 (sg_algorithm s) && between 1 512 (sg_digest s) && between 1 1024 (sg_signature s).
Definition certificate_valid (c : PurgeCertificate) : bool :=
  between 1 64 (pc_purge_id c) && between 1 64 (pc_tenant_id c) && between 1 64 (pc_scope c) && forallb count_valid (pc_stores c)
  && (0 <=? pc_total_deleted c)%Z && between 1 253 (pc_verifier c) && signature_valid (pc_signature c).

Inductive PurgeExn := PurgeIncompleteError (tenant_id detail : string) | PurgeScopeError | InvalidPurge | PurgeAuditError | PurgeTargetError (store : string).

Definition total (l : list StorePurgeCount) : Z := foldr (λ c n, (sc_deleted c + n)%Z) 0%Z l.

(** ** The service *)

Record World (W : Type) := mkWorld { pu_records : odict string PurgeRecord; pu_plane : W }.
Arguments mkWorld {W}.
Arguments pu_records {W}.
Arguments pu_plane {W}.

Record Env (W : Type) := mkEnv {
  pe_targets : list (string * (string → M W PurgeExn Z));
  pe_legal_hold : string → W → bool;
  pe_clock : W → Z * W;
  pe_audit : option (string → string → string → string → TenantContext → W → (PurgeExn + unit) * W) }.
Arguments mkEnv {W}.
Arguments pe_targets {W}.
Arguments pe_legal_hold {W}.
Arguments pe_clock {W}.
Arguments pe_audit {W}.

Section Purge.
Context {W Key Pub : Type}.
Variables (sha256 : string → string) (float_repr : f64 → string) (isoformat dump_time : Z → string).
Variables (sign : Key → string → string) (verify_sig : Pub → string → string → bool).
Variables (env : Env W) (private_key : Key) (key_id : string).

Abbreviation UM := (M (World W) PurgeExn).

Definition DOMAIN : string := "hiveplane/reporting/purge/v1|".

(** [certificate.model_dump(mode="json", exclude={"signature"})] *)
Definition document (c : PurgeCertificate) : JsonValue :=
  JObj [("purge_id", JStr (pc_purge_id c)); ("tenant_id", JStr (pc_tenant_id c)); ("scope", JStr (pc_scope c));
        ("stores", JList ((λ s, JObj [("store", JStr (sc_store s)); ("deleted", JInt (sc_deleted s))]) <$> pc_stores c));
        ("total_deleted", JInt (pc_total_deleted c)); ("completed_at", JStr (dump_time (pc_completed_at c))); ("verifier", JStr (pc_verifier c))].
(** [_signing_payload] *)
Definition signing_payload (c : PurgeCertificate) : string := DOMAIN +:+ canonical_json float_repr (document c).

(** [_purge_id] *)
Definition purge_id_of (tenant_id : string) (completed_at : Z) (counts : list StorePurgeCount) : string :=
  "purge-" +:+ prefix_of 20 (sha256 (String.concat "|" (tenant_id :: isoformat completed_at :: ((λ c, sc_store c +:+ "=" +:+ pretty (sc_deleted c)) <$> counts)))).

Definition with_signature (c : PurgeCertificate) (s : PackSignature) : PurgeCertificate :=
  mkCertificate (pc_purge_id c) (pc_tenant_id c) (pc_scope c) (pc_stores c) (pc_total_deleted c) (pc_completed_at c) (pc_verifier c) s.
(** [_placeholder_signature] *)
Definition zeros (n : nat) : string := Text.zeros n.
Definition nul_bytes (n : nat) : string := String.string_of_list_ascii (replicate n Ascii.zero).
Definition placeholder_signature : PackSignature := mkSignature key_id "ed25519" (zeros 64) (b64encode (nul_bytes 64)).
Definition sign_certificate (c : PurgeCertificate) : PurgeCertificate :=
  with_signature c (mkSignature key_id "ed25519" (sha256 (signing_payload c)) (b64encode (sign private_key (signing_payload c)))).

Definition on_plane {A} (m : M W PurgeExn A) : UM A := λ w, let '(o, p) := m (pu_plane w) in (o, mkWorld (pu_records w) p).

Fixpoint run_targets (l : list (string * (string → M W PurgeExn Z))) (tenant_id : string) : UM (list StorePurgeCount) :=
  match l with
  | [] => ret []
  | (name, purge) :: l => let* n := on_plane (purge tenant_id) in
      if count_valid (mkCount name n) then let* rest := run_targets l tenant_id in ret (mkCount name n :: rest) else raise InvalidPurge
  end.

(** [save_purge] of the reporting store *)
Definition save_purge (r : PurgeRecord) (ctx : TenantContext) : UM unit :=
  require PurgeScopeError ctx (pr_tenant_id r) ;;;
  let* records := gets pu_records in
  if match od_get (pr_purge_id r) records with Some old => negb (bool_decide (pr_tenant_id old = pr_tenant_id r)) | None => false end
  then raise PurgeScopeError
  else modify (λ w, mkWorld (od_set (pr_purge_id r) r (pu_records w)) (pu_plane w)).

(** [purge] *)
Definition purge (ctx : TenantContext) (tenant_id actor : string) : UM PurgeRecord :=
  let* held := gets (λ w, pe_legal_hold env tenant_id (pu_plane w)) in
  if held : bool then raise (PurgeIncompleteError tenant_id "legal hold is active")
  else
    let* counts := run_targets (pe_targets env) tenant_id in
    let* completed_at := (λ w, let '(t, p) := pe_clock env (pu_plane w) in (Ret t, mkWorld (pu_records w) p)) in
    let id := purge_id_of tenant_id completed_at counts in
    let c := mkCertificate id tenant_id "tenant" counts (total counts) completed_at actor placeholder_signature in
    if certificate_valid c && signature_valid (pc_signature (sign_certificate c)) then
      let r := mkRecord id tenant_id "tenant" (sign_certificate c) completed_at in
      save_purge r ctx ;;;
      (match pe_audit env with
       | None => ret tt
       | Some f =>
           let* a := on_plane (λ p, let '(x, p) := f actor "tenant.purged" id ("tenant=" +:+ tenant_id +:+ " deleted=" +:+ pretty (total counts)) ctx p in (Ret x, p)) in
           match a with inl e => raise e | inr u => ret u end
       end) ;;;
      ret r
    else raise InvalidPurge.

(** [verify] *)
Definition verify (r : PurgeRecord) (public_key : Pub) : bool :=
  let c := pr_certificate r in
  bool_decide (sg_algorithm (pc_signature c) = "ed25519")
  && bool_decide (pr_purge_id r = pc_purge_id c) && bool_decide (pr_tenant_id r = pc_tenant_id c) && bool_decide (pr_scope r = pc_scope c)
  && bool_decide (pr_completed_at r = pc_completed_at c)
  && (pc_total_deleted c =? total (pc_stores c))%Z
  && bool_decide (sha256 (signing_payload c) = sg_digest (pc_signature c))
  && match b64decode (sg_signature (pc_signature c)) with Some s => verify_sig public_key s (signing_payload c) | None => false end.

(** [list] *)
Definition list_purges (ctx : TenantContext) (w : World W) : list PurgeRecord :=
  py_sort (Drift.at_leb pr_completed_at pr_purge_id)
    (filter (λ r, (tc_is_system ctx || bool_decide (pr_tenant_id r = tc_tenant_id ctx)) = true) (od_values (pu_records w))).

(** Endpoints ([api/reporting.py]): [None] out of scope (403), [Raise] of an incomplete purge the 409. *)
Definition purge_endpoint (ctx : TenantContext) (tenant_id operator : string) : UM (option PurgeRecord) :=
  if scopes ctx tenant_id then let* r := purge ctx tenant_id operator in ret (Some r) else ret None.
Definition list_purge_records (ctx : TenantContext) (tenant_id : string) (w : World W) : option (list PurgeRecord) :=
  if scopes ctx tenant_id then Some (filter (λ r, pr_tenant_id r = tenant_id) (list_purges ctx w)) else None.

(** ** What a certificate says *)

(** What the targets answered, one after the other. *)
Fixpoint answers (l : list (string * (string → M W PurgeExn Z))) (tenant_id : string) (p : W) : list Z :=
  match l with
  | [] => []
  | (_, f) :: l => match f tenant_id p with (Ret n, p) => n :: answers l tenant_id p | (Raise _, _) => [] end
  end.

Lemma run_targets_counts l tenant_id w counts w' : run_targets l tenant_id w = (Ret counts, w') →
  sc_store <$> counts = l.*1 ∧ sc_deleted <$> counts = answers l tenant_id (pu_plane w).
Proof.
  revert w counts w'. induction l as [|[name f] l IH]; intros w counts w'; cbn [run_targets answers].
  { by intros [= <- _]. }
  intros (n & w1 & Hn & H)%bind_inv. destruct (count_valid _); [|done]. apply bind_inv in H as (rest & w2 & Hr & [= <- <-]). unfold on_plane in Hn.
  destruct (f tenant_id (pu_plane w)) as [[m|e] p]; [|done]. injection Hn as -> <-. apply IH in Hr as [H1 H2]. cbn in *. by rewrite H1, H2.
Qed.

Lemma sign_keeps_payload c s : signing_payload (with_signature c s) = signing_payload c.
Proof. done. Qed.

(** The steps of a purge that returns. *)
Lemma purge_inv ctx tenant_id actor w r w' : purge ctx tenant_id actor w = (Ret r, w') →
  ∃ counts w2 t p, pe_legal_hold env tenant_id (pu_plane w) = false ∧ run_targets (pe_targets env) tenant_id w = (Ret counts, w2) ∧
    pe_clock env (pu_plane w2) = (t, p) ∧
    let id := purge_id_of tenant_id t counts in
    r = mkRecord id tenant_id "tenant" (sign_certificate (mkCertificate id tenant_id "tenant" counts (total counts) t actor placeholder_signature)) t ∧
    pu_records w' = od_set id r (pu_records w2) ∧
    match pe_audit env with
    | None => pu_plane w' = p
    | Some f => f actor "tenant.purged" id ("tenant=" +:+ tenant_id +:+ " deleted=" +:+ pretty (total counts)) ctx p = (inr tt, pu_plane w')
    end.
Proof.
  intros H. unfold purge in H. apply bind_inv in H as (held & w1 & [= <- <-] & H). destruct (pe_legal_hold env tenant_id (pu_plane w)) eqn:Hh; [done|].
  apply bind_inv in H as (counts & w2 & Hc & H). apply bind_inv in H as (t & w3 & Ht & H). cbv zeta in H. destruct (certificate_valid _ && _); [|done].
  apply bind_inv in H as (u & w4 & Hs & H). apply bind_inv in H as (u' & w5 & Ha & [= <- <-]).
  destruct (pe_clock env (pu_plane w2)) as [t' p] eqn:Hclk. injection Ht as -> <-. exists counts, w2, t, p.
  unfold save_purge in Hs. apply bind_inv in Hs as (v & w6 & Hr & Hs). unfold require in Hr. destruct (scopes _ _); [|done]. injection Hr as _ <-.
  apply bind_inv in Hs as (records & w7 & [= <- <-] & Hs). destruct (match od_get _ _ with Some _ => _ | None => _ end); [done|]. injection Hs as _ <-.
  cbn [pu_records pu_plane] in Ha. split_and!; try done.
  all: destruct (pe_audit env) as [f|]; [|by injection Ha as _ <-].
  all: apply bind_inv in Ha as (x & w6 & Hx & Ha); unfold on_plane in Hx; cbn [pu_plane pu_records] in Hx.
  all: destruct (f actor "tenant.purged" _ _ ctx p) as [y q] eqn:Hf; injection Hx as -> <-; destruct x as [|[]]; [done|]; injection Ha as _ <-; done.
Qed.

(** A purge that returns leaves a record that verifies under the service's key; its
    certificate names exactly the target stores, in order, with what each of
    them answered that it deleted, and the sum; and no legal hold was active. *)
Theorem purge_certified public_key ctx tenant_id actor w r w' :
  (∀ m, verify_sig public_key (sign private_key m) m = true) →
  purge ctx tenant_id actor w = (Ret r, w') →
  verify r public_key = true ∧ pe_legal_hold env tenant_id (pu_plane w) = false ∧
  sc_store <$> pc_stores (pr_certificate r) = (pe_targets env).*1 ∧
  sc_deleted <$> pc_stores (pr_certificate r) = answers (pe_targets env) tenant_id (pu_plane w) ∧
  pr_tenant_id r = tenant_id ∧ od_get (pr_purge_id r) (pu_records w') = Some r.
Proof.
  intros Hv (counts & w2 & t & p & Hh & Hc & _ & -> & Hrec & _)%purge_inv. apply run_targets_counts in Hc as [H1 H2].
  split_and!; [|done|done|done|done|by rewrite Hrec, od_get_set_eq].
  unfold verify. cbn [pr_certificate pr_purge_id pr_tenant_id pr_scope pr_completed_at]. unfold sign_certificate. rewrite !sign_keeps_payload.
  cbn [with_signature pc_signature sg_algorithm pc_purge_id pc_tenant_id pc_scope pc_completed_at pc_total_deleted pc_stores sg_digest sg_signature].
  rewrite !bool_decide_eq_true_2 by done. cbn [andb]. rewrite Z.eqb_refl, b64_roundtrip. apply Hv.
Qed.
End Purge.

(** ** A concrete purge *)

Definition demo_env : Env nat :=
  {| pe_targets := [("runs", λ _ n, (Ret (Z.of_nat n), 0%nat)); ("audit", λ _ n, (Ret 0%Z, n))]; pe_legal_hold _ _ := false;
     pe_clock n := (7%Z, n); pe_audit := None |}.
Abbreviation demo_purge := (purge (Key := unit) (λ _, "digest") (λ _, EmptyString) pretty pretty (λ _ m, m) demo_env tt "reporting" DEFAULT_CONTEXT "default" "operator").
Definition demo_result : PurgeRecord :=
  match (demo_purge (mkWorld [] 5%nat)).1 with Ret r => r | Raise _ => mkRecord "" "" "" (mkCertificate "" "" "" [] 0 0 "" (mkSignature "" "" "" "")) 0 end.

Lemma purge_certified_witness :
  sc_deleted <$> pc_stores (pr_certificate demo_result) = [5; 0]%Z ∧
  verify (λ _, "digest") (λ _, EmptyString) pretty (λ _ s m, bool_decide (s = m)) demo_result tt = true.
Proof.
  split; [vm_compute; reflexivity|].
  refine (proj1 (purge_certified (λ _, "digest") (λ _, EmptyString) pretty pretty (λ _ m, m) (λ _ s m, bool_decide (s = m)) demo_env tt "reporting" tt
    DEFAULT_CONTEXT "default" "operator" (mkWorld [] 5%nat) demo_result (demo_purge (mkWorld [] 5%nat)).2 _ _)).
  - intros m. by apply bool_decide_eq_true.
  - vm_compute. reflexivity.
Defined.
