(* ===== verification/PurgeFleet.v ===== *)
(** * Purging a tenant from the plane ([api/app.py])

    The targets the plane gives the purge service: the artifact service, the
    run, cost, login, delivery, reporting and tenancy stores, and five names that
    stand for no store; the check of legal holds and the audit log.  The
    reporting store's own deletion is a parameter. *)

From stdpp Require Import base strings pretty numbers gmap sets list.
From S2P Require Import Prelude Text Float64 Base64 Tenancy CoreModels AuditTrail Canonical Cost RunStore Tenants Auth Drift Delivery Artifacts Retention Purge.

#[local] Open Scope hp_scope.

Section Fleet.
Context {Y A R Key : Type}.
Variables (put : string → string → Y → (ArtifactExn + string) * Y) (fetch : string → Y → (ArtifactExn + string) * Y)
  (remove : string → Y → (ArtifactExn + unit) * Y) (hash : string → string) (scrub_text : option (string → string)) (clock : Y → Z * Y)
  (artifact_id : Y → string * Y) (purge_tenant_reports : string → R → Z * R).
Variables (sha256 : string → string) (float_repr : f64 → string) (isoformat dump_time : Z → string) (scrub : string → string)
  (sign : Key → string → string) (private_key : Key) (key_id : string).

Abbreviation aenv := (wire_artifacts put fetch remove hash scrub_text clock artifact_id sha256 isoformat scrub).
Abbreviation Stores := (Retention.World Y A).
Abbreviation Plane := (Stores * R)%type.
Abbreviation TM := (M Plane PurgeExn).

(** A target's callable, on the part of the plane it acts on. *)
Definition on_stores {E B} (name : string) (m : M Stores E B) : TM B :=
  λ p, let '(o, s) := m p.1 in (match o with Ret b => Ret b | Raise _ => Raise (PurgeTargetError name) end, (s, p.2)).

Definition artifacts_target (t : string) : M Stores RetentionExn Z := of_artifacts (Artifacts.purge_tenant aenv t).
Definition runs_target (t : string) : M Stores RetentionExn Z :=
  λ w, let '(n, bs) := RunStore.purge_tenant t SYSTEM_CONTEXT (rw_runs w) in
       (Ret (Z.of_nat n), Retention.mkWorld (rw_artifacts w) bs (rw_cost w) (rw_auth w) (rw_delivery w) (rw_tenants w)).
Definition cost_target (t : string) : M Stores RetentionExn Z := let* n := of_cost (Cost.purge_tenant t) in ret (Z.of_nat n).
Definition auth_target (t : string) : M Stores RetentionExn Z := of_auth (Auth.purge_tenant t SYSTEM_CONTEXT).
Definition delivery_target (t : string) : M Stores RetentionExn Z :=
  λ w, let '(n, d) := Delivery.purge_tenant t (rw_delivery w) in
       (Ret n, Retention.mkWorld (rw_artifacts w) (rw_runs w) (rw_cost w) (rw_auth w) d (rw_tenants w)).
Definition tenancy_target (t : string) : M Stores TenancyExn Z :=
  λ w, let '(o, ts) := Tenants.purge_tenant SYSTEM_CONTEXT t (aw_tenants (rw_auth w)) in
       (o, Retention.mkWorld (rw_artifacts w) (rw_runs w) (rw_cost w)
             (mkAuthWorld ts (aw_auth (rw_auth w)) (aw_recent (rw_auth w)) (Auth.aw_ext (rw_auth w))) (rw_delivery w) (rw_tenants w)).
Definition reports_target (t : string) : TM Z := λ p, let '(n, r) := purge_tenant_reports t p.2 in (Ret n, (p.1, r)).
Definition no_target (t : string) : TM Z := ret 0%Z.

(** The list given to [TenantPurgeService], in its order. *)
Definition wired_targets : list (string * (string → TM Z)) :=
  [("artifacts", λ t, on_stores "artifacts" (artifacts_target t)); ("runs", λ t, on_stores "runs" (runs_target t));
   ("cost", λ t, on_stores "cost" (cost_target t)); ("auth", λ t, on_stores "auth" (auth_target t));
   ("delivery", λ t, on_stores "delivery" (delivery_target t)); ("reports", reports_target);
   ("tenancy", λ t, on_stores "tenancy" (tenancy_target t));
   ("audit", no_target); ("eval", no_target); ("feedback", no_target); ("progressive", no_target); ("reconcile", no_target)].

Definition legal_hold_check (t : string) (p : Plane) : bool := existsb rp_legal_hold (Artifacts.policies t SYSTEM_CONTEXT (store_of p.1)).

Definition wire_purge : Env Plane :=
  {| pe_targets := wired_targets; pe_legal_hold := legal_hold_check;
     pe_clock p := let '(t, y) := clock (Artifacts.aw_ext (rw_artifacts p.1)).2 in
                   (t, (with_artifacts (Artifacts.mkWorld (store_of p.1) (log_of p.1, y)) p.1, p.2));
     pe_audit := Some (λ actor action subject detail ctx p,
       let '(o, s) := append clock sha256 isoformat scrub actor action subject detail ctx p.1 in
       (match o with Ret u => inr u | Raise _ => inl PurgeAuditError end, (s, p.2))) |}.

(** ** What each target leaves *)

(** The tenant's rows are gone from the modelled stores, all others are as they
    were, and the audit log is untouched. *)
Record purged (t : string) (w w' : Stores) : Prop := {
  pd_artifacts : ∀ e, e ∈ as_artifacts (store_of w') ↔ e.1.1 ≠ t ∧ e ∈ as_artifacts (store_of w);
  pd_policies : ∀ e, e ∈ as_retention (store_of w') ↔ e.1.1 ≠ t ∧ e ∈ as_retention (store_of w);
  pd_runs : ∀ k, od_get k (rw_runs w') = if decide (k.1 = t) then None else od_get k (rw_runs w);
  pd_events : ∀ e, e ∈ ct_events (rw_cost w') ↔ ue_tenant_id e.2 ≠ t ∧ e ∈ ct_events (rw_cost w);
  pd_periods : ∀ e, e ∈ ct_periods (rw_cost w') ↔ bp_tenant_id e.2 ≠ t ∧ e ∈ ct_periods (rw_cost w);
  pd_alerts : ∀ e, e ∈ ct_alerts (rw_cost w') ↔ al_tenant_id e.2 ≠ t ∧ e ∈ ct_alerts (rw_cost w);
  pd_dead : ∀ e, e ∈ ct_dead (rw_cost w') ↔ ue_tenant_id e.1 ≠ t ∧ e ∈ ct_dead (rw_cost w);
  pd_keys : ∀ e, e ∈ au_keys (aw_auth (rw_auth w')) ↔ ak_tenant_id e.2 ≠ t ∧ e ∈ au_keys (aw_auth (rw_auth w));
  pd_logins : ∀ e, e ∈ au_logins (aw_auth (rw_auth w')) ↔ le_tenant_id e ≠ t ∧ e ∈ au_logins (aw_auth (rw_auth w));
  pd_access : ∀ e, e ∈ au_access (aw_auth (rw_auth w')) ↔ ae_tenant_id e ≠ t ∧ e ∈ au_access (aw_auth (rw_auth w));
  pd_attempts : ∀ e, e ∈ ds_attempts (rw_delivery w') ↔ at_tenant_id e.2 ≠ t ∧ e ∈ ds_attempts (rw_delivery w);
  pd_decisions : ∀ e, e ∈ ds_decisions (rw_delivery w') ↔ ad_tenant_id e.2 ≠ t ∧ e ∈ ds_decisions (rw_delivery w);
  pd_preferences : ∀ e, e ∈ ds_preferences (rw_delivery w') ↔ np_tenant_id e.2 ≠ t ∧ e ∈ ds_preferences (rw_delivery w);
  pd_tokens : ds_tokens (rw_delivery w') = ds_tokens (rw_delivery w);
  pd_tenants : ∀ k, od_get k (ts_tenants (aw_tenants (rw_auth w'))) = if decide (k = t) then None else od_get k (ts_tenants (aw_tenants (rw_auth w)));
  pd_teams : ∀ e, e ∈ ts_teams (aw_tenants (rw_auth w')) ↔ e.1.1 ≠ t ∧ e ∈ ts_teams (aw_tenants (rw_auth w));
  pd_memberships : ∀ e, e ∈ ts_memberships (aw_tenants (rw_auth w')) ↔ mb_tenant_id e.2 ≠ t ∧ e ∈ ts_memberships (aw_tenants (rw_auth w)) }.

Lemma run_targets_cons {W} n f (l : list (string * (string → M W PurgeExn Z))) t w counts w' :
  run_targets ((n, f) :: l) t w = (Ret counts, w') →
  ∃ m p rest, f t (pu_plane w) = (Ret m, p) ∧ run_targets l t (Purge.mkWorld (pu_records w) p) = (Ret rest, w') ∧ counts = mkCount n m :: rest.
Proof.
  intros (m & w1 & Hm & H)%bind_inv. destruct (count_valid _); [|done]. apply bind_inv in H as (rest & w2 & Hr & [= <- <-]).
  unfold on_plane in Hm. destruct (f t (pu_plane w)) as [o p]. injection Hm as -> <-. by exists m, p, rest.
Qed.

Lemma on_stores_inv {E B} name (m : M Stores E B) p b p' : on_stores name m p = (Ret b, p') → ∃ s, m p.1 = (Ret b, s) ∧ p' = (s, p.2).
Proof. unfold on_stores. destruct (m p.1) as [[b'|e] s]; intros [= <- <-]. by exists s. Qed.

Lemma delete_blobs_frame l (a a' : Artifacts.World (AuditLog * Y)) u :
  delete_blobs aenv l a = (Ret u, a') → aw_store a' = aw_store a ∧ (Artifacts.aw_ext a').1 = (Artifacts.aw_ext a).1.
Proof.
  revert a. induction l as [|x l IH]; intros a; cbn [delete_blobs]; [by intros [= _ <-]|].
  intros (v & a1 & Hx & H)%bind_inv. apply IH in H as [-> ->]. unfold on_ext_exn in Hx. cbn in Hx. unfold beside in Hx.
  destruct (remove (ar_location x) (Artifacts.aw_ext a).2) as [[e|b] y]; by injection Hx as _ <-.
Qed.

Lemma artifacts_target_eq t w n w' : artifacts_target t w = (Ret n, w') →
  ∃ y, w' = with_artifacts (Artifacts.mkWorld (purge_tenant_rows t (store_of w)).2 (log_of w, y)) w.
Proof.
  unfold artifacts_target, of_artifacts. destruct (Artifacts.purge_tenant aenv t (rw_artifacts w)) as [[m|e] a] eqn:Ha; intros [= <- <-].
  unfold Artifacts.purge_tenant in Ha. apply bind_inv in Ha as (l & a1 & [= _ <-] & Ha). apply bind_inv in Ha as (u & a2 & Hd & Ha).
  apply delete_blobs_frame in Hd as [Hs Hl]. rewrite Hs in Ha. destruct (purge_tenant_rows t (aw_store (rw_artifacts w))) as [k s] eqn:Hp.
  injection Ha as _ <-. exists (Artifacts.aw_ext a2).2. unfold store_of. rewrite Hp. cbn. f_equal. f_equal. rewrite (surjective_pairing (Artifacts.aw_ext a2)).
  by rewrite Hl.
Qed.

Definition with_auth (s : AuthStore) (ts : TenantStore) (w : Stores) : Stores :=
  Retention.mkWorld (rw_artifacts w) (rw_runs w) (rw_cost w) (mkAuthWorld ts s (aw_recent (rw_auth w)) (Auth.aw_ext (rw_auth w)))
    (rw_delivery w) (rw_tenants w).

Lemma cost_target_eq t w : ∃ n, cost_target t w =
  (Ret n, Retention.mkWorld (rw_artifacts w) (rw_runs w) (Cost.purge_tenant t (rw_cost w)).2 (rw_auth w) (rw_delivery w) (rw_tenants w)).
Proof. eexists. reflexivity. Qed.

Lemma auth_target_eq t w : ∃ n, auth_target t w =
  (Ret n, with_auth (mkAuthStore (filter (λ e, ak_tenant_id e.2 ≠ t) (au_keys (aw_auth (rw_auth w))))
             (filter (λ e, le_tenant_id e ≠ t) (au_logins (aw_auth (rw_auth w)))) (filter (λ e, ae_tenant_id e ≠ t) (au_access (aw_auth (rw_auth w)))))
             (aw_tenants (rw_auth w)) w).
Proof. eexists. reflexivity. Qed.

Lemma tenancy_target_eq t w : ∃ n, tenancy_target t w =
  (Ret n, with_auth (aw_auth (rw_auth w)) (mkTenantStore (od_del t (ts_tenants (aw_tenants (rw_auth w))))
             (filter (λ e, e.1.1 ≠ t) (ts_teams (aw_tenants (rw_auth w)))) (filter (λ e, mb_tenant_id e.2 ≠ t) (ts_memberships (aw_tenants (rw_auth w))))) w).
Proof. eexists. reflexivity. Qed.

Lemma runs_purged t k (bs : Bundles) : od_wf bs →
  od_get k (RunStore.purge_tenant t SYSTEM_CONTEXT bs).2 = if decide (k.1 = t) then None else od_get k bs.
Proof.
  intros Hwf. unfold RunStore.purge_tenant. cbn [snd]. rewrite (proj2 (od_del_all _ bs k Hwf)). case_decide as Hk.
  - apply list_elem_of_filter in Hk as [Hk _]. by rewrite decide_True.
  - case_decide as Ht; [|done]. destruct (od_get k bs) eqn:Hb; [|done]. destruct Hk. apply list_elem_of_filter.
    split; [done|]. apply od_mem_spec. unfold od_mem. by rewrite Hb.
Qed.

Lemma wired_targets_purge t (p : Plane) ps counts (w' : Purge.World Plane) :
  od_wf (rw_runs p.1) → od_wf (ts_tenants (aw_tenants (rw_auth p.1))) →
  run_targets wired_targets t (Purge.mkWorld ps p) = (Ret counts, w') →
  purged t p.1 (pu_plane w').1 ∧ log_of (pu_plane w').1 = log_of p.1.
Proof.
  intros Hruns Hten H. unfold wired_targets in H. do 12 (apply run_targets_cons in H as (? & ? & ? & ? & H & _)). cbn [pu_plane pu_records] in *.
  injection H as _ <-. cbn [pu_plane].
  repeat match goal with Hs : on_stores _ _ _ = _ |- _ => apply on_stores_inv in Hs as (? & Hs & ->) end.
  repeat match goal with Hs : no_target _ _ = _ |- _ => injection Hs as _ <- end.
  match goal with Hs : reports_target _ _ = _ |- _ => unfold reports_target in Hs; destruct (purge_tenant_reports _ _); injection Hs as _ <- end.
  cbn [fst snd] in *.
  match goal with Hs : artifacts_target _ _ = _ |- _ => apply artifacts_target_eq in Hs as [y ->] end.
  match goal with Hs : runs_target _ _ = _ |- _ => injection Hs as _ <- end.
  match goal with Hs : cost_target _ _ = _ |- _ => edestruct cost_target_eq as [? E]; rewrite E in Hs; clear E; injection Hs as _ <- end.
  match goal with Hs : auth_target _ _ = _ |- _ => edestruct auth_target_eq as [? E]; rewrite E in Hs; clear E; injection Hs as _ <- end.
  match goal with Hs : delivery_target _ _ = _ |- _ => injection Hs as _ <- end.
  match goal with Hs : tenancy_target _ _ = _ |- _ => edestruct tenancy_target_eq as [? E]; rewrite E in Hs; clear E; injection Hs as _ <- end.
  split; [|done]. split; cbn; try (intros entry; rewrite list_elem_of_filter; done); [intros k; by apply runs_purged|done|intros k; by apply od_get_del].
Qed.

Lemma append_log actor action subject detail ctx (s s' : Stores) u :
  append clock sha256 isoformat scrub actor action subject detail ctx s = (Ret u, s') →
  ∃ r a, al_records (log_of s') = al_records (log_of s) ++ [r] ∧ s' = with_artifacts a s ∧ aw_store a = store_of s.
Proof.
  unfold append. intros (t & s1 & Hc & H)%bind_inv. unfold read_clock in Hc. destruct (clock _) as [t' y]. injection Hc as -> <-.
  destruct (scrubbing_append _ _ _ _ _ _ _ _ _ _) as [[r l]|] eqn:Hl; [|done]. injection H as _ <-. unfold scrubbing_append, audit_append in Hl.
  destruct (audit_record_valid _); [|done]. injection Hl as _ <-. eexists _, _. split; [reflexivity|]. split; reflexivity.
Qed.

(** C25: a purge of a tenant that returns leaves no row of it (artifacts and retention
    policies; runs; usage events, budget periods, alerts and dead letters; keys,
    logins and accesses; delivery attempts, decisions and preferences; the tenant,
    its teams and memberships) in the artifact, run, cost, login, delivery and
    tenancy stores, takes no other row out of them and adds none; no policy of the
    tenant was on legal hold; the audit log keeps every entry and gains one. *)
Theorem tenant_purged ctx t actor (w w' : Purge.World Plane) r :
  od_wf (rw_runs (pu_plane w).1) → od_wf (ts_tenants (aw_tenants (rw_auth (pu_plane w).1))) →
  purge sha256 float_repr isoformat dump_time sign wire_purge private_key key_id ctx t actor w = (Ret r, w') →
  purged t (pu_plane w).1 (pu_plane w').1 ∧
  Forall (λ p, rp_legal_hold p = false) (Artifacts.policies t SYSTEM_CONTEXT (store_of (pu_plane w).1)) ∧
  ∃ e, al_records (log_of (pu_plane w').1) = al_records (log_of (pu_plane w).1) ++ [e].
Proof.
  intros Hruns Hten (counts & w2 & t0 & p & Hh & Hc & Hclk & _ & _ & Ha)%purge_inv. cbn [pe_targets pe_legal_hold pe_clock pe_audit wire_purge] in *.
  destruct w as [ps p0]. apply wired_targets_purge in Hc as [Hp Hl]; [|done|done]. destruct (clock _) as [t1 y]. injection Hclk as -> <-.
  destruct (append _ _ _ _ _ _ _ _ _ _) as [[u|e] s] eqn:Happ; [|done]. injection Ha as -> Hs. rewrite <-Hs.
  apply append_log in Happ as (e & a & Hrec & -> & Hst). cbn [fst] in *. split; [|split].
  - destruct Hp. split; cbn; unfold store_of; cbn; rewrite ?Hst; done.
  - apply Forall_forall. intros q Hq. unfold legal_hold_check in Hh. cbn in Hh. destruct (rp_legal_hold q) eqn:E; [|done].
    rewrite <-not_true_iff_false in Hh. destruct Hh. apply existsb_exists. exists q. split; [by apply list_elem_of_In|done].
  - exists e. rewrite Hrec. f_equal. f_equal. exact Hl.
Qed.
End Fleet.

(** ** A concrete purge *)

Definition demo_plane : Purge.World (Retention.World nat unit * nat) :=
  Purge.mkWorld [] (demo_retention [runs_policy] (demo_log_entry "op" "acme" audit_init) old_run, 3%nat).

Abbreviation demo_fleet_purge t := (purge (Key := unit) AuditTrail.demo_hash (λ _, EmptyString) demo_isoformat demo_isoformat (λ _ m, m)
  (wire_purge (λ k _ x, (inr ("file://" +:+ k), x)) (λ _ x, (inr EmptyString, x)) (λ _ x, (inr tt, x)) (λ _, "00") None demo_clock (λ x, ("art", x))
     (λ _ n, (Z.of_nat n, 0%nat)) AuditTrail.demo_hash demo_isoformat (λ s, s)) tt "reporting" SYSTEM_CONTEXT t "operator").

Definition demo_record : PurgeRecord :=
  match (demo_fleet_purge "acme" demo_plane).1 with
  | Ret r => r
  | Raise _ => mkRecord "" "" "" (mkCertificate "" "" "" [] 0 0 "" (mkSignature "" "" "" "")) 0
  end.

Lemma demo_purge_returns : demo_fleet_purge "acme" demo_plane = (Ret demo_record, (demo_fleet_purge "acme" demo_plane).2).
Proof.
  assert (outcome_ok (demo_fleet_purge "acme" demo_plane).1 = true) as H by (vm_compute; reflexivity).
  unfold demo_record. destruct (demo_fleet_purge "acme" demo_plane) as [[r|e] w]; [reflexivity|discriminate H].
Qed.

Lemma tenant_purged_witness :
  rw_runs (pu_plane demo_plane).1 ≠ [] ∧ od_get ("acme", "r1") (rw_runs (pu_plane (demo_fleet_purge "acme" demo_plane).2).1) = None ∧
  purged "acme" (pu_plane demo_plane).1 (pu_plane (demo_fleet_purge "acme" demo_plane).2).1.
Proof.
  split; [discriminate|]. split; [vm_compute; reflexivity|].
  refine (proj1 (tenant_purged _ _ _ _ _ _ _ _ _ _ _ _ _ _ _ _ _ _ _ _ _ _ _ _ demo_purge_returns)).
  - change (NoDup [("acme", "r1")]). apply NoDup_singleton.
  - change (NoDup (@nil string)). apply NoDup_nil_2.
Defined.

(** A hold set under the tenant's policies refuses the purge. *)
Example held_tenant_not_purged :
  (demo_fleet_purge "acme" (Purge.mkWorld [] (demo_retention [demo_policy "p" "acme" "runs" 1 true] audit_init old_run, 0%nat))).1
  = Raise (PurgeIncompleteError "acme" "legal hold is active").
Proof. reflexivity. Qed.

(** The certificate of a complete purge names five stores that no target touches. *)
Example named_but_untouched :
  (λ c, (sc_store c, sc_deleted c)) <$> pc_stores (pr_certificate demo_record) =
  [("artifacts", 1); ("runs", 1); ("cost", 0); ("auth", 0); ("delivery", 0); ("reports", 3); ("tenancy", 0); ("audit", 0); ("eval", 0);
   ("feedback", 0); ("progressive", 0); ("reconcile", 0)]%Z.
Proof. vm_compute. reflexivity. Qed.
