(* ===== verification/ApprovalFlow.v ===== *)
(** * Deciding an approval ([api/approvals.py], [delivery/approvals.py])

    From an operator's decision, given over HTTP or by a signed token from a
    message, to the approval record and the paused run it stands for: the
    approval service, the run service and the delivery store together.
    HMAC-SHA256, the JSON parser and [str] of a float are parameters, as in
    [WorkerIdentity], whose token format this is. *)

From stdpp Require Import base strings pretty relations numbers gmap sets list.
From S2P Require Import Prelude Text Float64 Tenancy CoreModels Canonical Templates WorkerIdentity Approvals Admission RunStore RunService PipelineRuns Delivery.

#[local] Open Scope hp_scope.

Record World (Y : Type) := mkWorld { fl_plane : PlaneOf Y; fl_delivery : DeliveryStore }.
Arguments mkWorld {Y}.
Arguments fl_plane {Y}.
Arguments fl_delivery {Y}.

Inductive FlowExn :=
  | InvalidApprovalTokenError (message : string) | AlreadyResolvedError (approval_id : string)
  | FlowApprovalError (e : ApprovalExn) | FlowRunError (e : ExecExn) | RunNotPaused (run_id : string)
  | TokenEncodeError | TokenTypeError | TokenValueError | TokenOverflow | TokenKeyError | InvalidDecision | FlowScopeError.

(** [InteractiveResolution] *)
Record InteractiveResolution := mkResolution {
  ir_approval_id : string; ir_run_id : string; ir_tenant_id : string; ir_operator_id : string; ir_decision : string;
  ir_reason : option string; ir_channel : string; ir_ctx : TenantContext }.

Definition decision_valid (d : ApprovalDecisionRecord) : bool :=
  (1 <=? chars (ad_approval_id d))%nat && (1 <=? chars (ad_operator_id d))%nat
  && bool_decide (ad_decision d = "approve" ∨ ad_decision d = "deny") && between 1 64 (ad_tenant_id d).

Section Flow.
Context {Y : Type}.
Variable senv : RunService.Env Y.
Variables (event_sink : option (ApprovalEvent → ApprovalRecord → RunService.World Y → outcome ApprovalExn unit * RunService.World Y))
          (escalation_respond : option (string → RunService.World Y → outcome ApprovalExn unit * RunService.World Y)).
Variables (clock : Y → Z * Y) (token_id_factory : Y → string * Y).
Variables (hmac_sha256 : string → string → string) (loads : string → option JsonValue) (float_repr : f64 → string).
Variables (secret : string) (ttl_seconds : Z).

Abbreviation FM := (M (World Y) FlowExn).

Definition on_ext {A} (f : Y → A * Y) : FM A :=
  λ w, let x := Approvals.ext (fl_plane w) in
       let '(a, y) := f (RunService.ext x) in
       (Ret a, mkWorld (Approvals.mkWorld (records (fl_plane w)) (RunService.mkWorld (store x) (sched x) y)) (fl_delivery w)).
Definition on_approvals {A} (m : M (PlaneOf Y) ApprovalExn A) : FM A :=
  λ w, let '(o, p) := m (fl_plane w) in (match o with Ret a => Ret a | Raise e => Raise (FlowApprovalError e) end, mkWorld p (fl_delivery w)).
Definition on_runs {A} (m : M (RunService.World Y) ExecExn A) : FM A :=
  λ w, let '(o, x) := m (Approvals.ext (fl_plane w)) in
       (match o with Ret a => Ret a | Raise e => Raise (FlowRunError e) end, mkWorld (Approvals.mkWorld (records (fl_plane w)) x) (fl_delivery w)).

(** ** [apply_approval_decision] *)

(** [ApprovalService.decide] with the clock read between its two halves. *)
Definition decide (approval_id : string) (status : ApprovalStatus) (operator : string) (reason : option string) (ctx : TenantContext)
    : FM ApprovalRecord :=
  let* r := on_approvals (decide_read approval_id status ctx) in
  let* t := on_ext clock in
  on_approvals (decide_write event_sink escalation_respond t r status operator reason ctx).

(** [_require_paused] *)
Definition require_paused (run_id : string) (ctx : TenantContext) : FM unit :=
  let* r := on_runs (Service.require_run run_id ctx) in
  if bool_decide (run_state r = PAUSED) then ret tt else raise (RunNotPaused run_id).

(** [reason or "approval denied"] *)
Definition denial_reason (reason : option string) : string :=
  match reason with Some s => if nonempty s then s else "approval denied" | None => "approval denied" end.

(** What follows the checks, for a decision of either kind. *)
Definition apply_checked (approval_id decision operator : string) (reason : option string) (ctx : TenantContext) : FM ApprovalRecord :=
  if bool_decide (decision = "approve") then
    let* record := decide approval_id APPROVED operator reason ctx in
    let* _ := on_runs (Service.intervene senv (ap_run_id record) RESUME operator ctx) in
    ret record
  else
    let* record := decide approval_id DENIED operator reason ctx in
    let* _ := on_runs (Service.fail senv (ap_run_id record) operator (denial_reason reason) ctx) in
    ret record.

Definition apply_approval_decision (approval_id decision operator : string) (reason : option string) (ctx : TenantContext)
    (expected_run_id : option string) : FM ApprovalRecord :=
  if negb (bool_decide (decision = "approve") || bool_decide (decision = "deny")) then raise (InvalidApprovalTokenError "invalid decision")
  else
    let* approval := on_approvals (get_approval approval_id ctx) in
    if match expected_run_id with Some e => bool_decide (ap_run_id approval ≠ e) | None => false end
    then raise (InvalidApprovalTokenError "approval token run does not match the approval")
    else
      require_paused (ap_run_id approval) ctx ;;;
      apply_checked approval_id decision operator reason ctx.

(** Endpoints of [api/approvals.py]; the operator is the authenticated principal. *)
Definition approve (approval_id operator : string) (reason : option string) (ctx : TenantContext) : FM ApprovalRecord :=
  apply_approval_decision approval_id "approve" operator reason ctx None.
Definition deny (approval_id operator : string) (reason : option string) (ctx : TenantContext) : FM ApprovalRecord :=
  apply_approval_decision approval_id "deny" operator reason ctx None.
Definition comment_endpoint (approval_id operator text : string) (ctx : TenantContext) : FM ApprovalRecord :=
  let* t := on_ext clock in on_approvals (comment t approval_id operator text ctx).
Definition delegate_endpoint (approval_id assignee operator : string) (ctx : TenantContext) : FM ApprovalRecord :=
  let* t := on_ext clock in on_approvals (delegate t approval_id assignee operator ctx).
Definition list_endpoint (status : option ApprovalStatus) (workload : option string) (ctx : TenantContext) : FM (list ApprovalRecord) :=
  gets (λ w, list_approvals status workload None ctx (records (fl_plane w))).

(** ** [InteractiveApprovalService] *)

Definition approval_payload (jti approval_id run_id tenant_id : string) (exp : Z) : odict string JsonValue :=
  [("jti", JStr jti); ("apv", JStr approval_id); ("run", JStr run_id); ("tid", JStr tenant_id); ("exp", JInt (int_timestamp exp))].

(** [issue] *)
Definition issue (approval_id run_id tenant_id : string) : FM string :=
  let* now := on_ext clock in
  let* jti := on_ext token_id_factory in
  let exp := (now + ttl_seconds * 1000000)%Z in
  if dt_in_range exp then ret (token_text hmac_sha256 float_repr secret (approval_payload jti approval_id run_id tenant_id exp)) else raise TokenOverflow.

(** [int(payload.get("exp", 0))] *)
Definition claim_int (d : odict string JsonValue) (k : string) : outcome FlowExn Z :=
  match od_get k d with
  | None => Ret 0%Z
  | Some (JInt z) => Ret z
  | Some (JBool b) => Ret (if b then 1 else 0)%Z
  | Some (JStr s) => match py_int s with Some z => Ret z | None => Raise TokenValueError end
  | Some (JFloat x) => match f64_trunc x with Some z => Ret z | None => Raise (if f64_is_nan x then TokenValueError else TokenOverflow) end
  | Some _ => Raise TokenTypeError
  end.

(** [_verify] *)
Definition verify_token (token : string) : FM (odict string JsonValue * string) :=
  match rsplit_dot token with
  | None => raise (InvalidApprovalTokenError "malformed approval token")
  | Some (encoded, signature) =>
      if negb (is_ascii_text encoded) then raise TokenEncodeError
      else if negb (is_ascii_text signature) then raise TokenTypeError
      else if bool_decide (signature ≠ WorkerIdentity.sign hmac_sha256 secret encoded)
      then raise (InvalidApprovalTokenError "invalid approval token signature")
      else
        match unb64 encoded ≫= loads with
        | None => raise (InvalidApprovalTokenError "malformed approval token payload")
        | Some (JObj payload) =>
            let* exp := (λ w, (claim_int payload "exp", w)) in
            let* now := on_ext clock in
            if (exp <=? int_timestamp now)%Z then raise (InvalidApprovalTokenError "approval token expired")
            else ret (payload, get_str float_repr payload "jti")
        | Some _ => raise TokenTypeError
        end
  end.

Definition claim (jti : string) : FM bool := λ w, let '(b, d) := claim_token jti (fl_delivery w) in (Ret b, mkWorld (fl_plane w) d).
Definition put_decision (d : ApprovalDecisionRecord) (ctx : TenantContext) : FM unit :=
  λ w, let '(o, s) := save_decision d ctx (fl_delivery w) in (match o with Ret u => Ret u | Raise _ => Raise FlowScopeError end, mkWorld (fl_plane w) s).

(** The callback [_resolve_interactive] of [api/app.py]. *)
Definition resolve_interactive (r : InteractiveResolution) : FM unit :=
  let* _ := apply_approval_decision (ir_approval_id r) (ir_decision r) (ir_operator_id r) (ir_reason r) (ir_ctx r) (Some (ir_run_id r)) in ret tt.

(** What [resolve] does once the token names an unused approval of the tenant. *)
Definition resolve_claimed (jti approval_id run_id decision operator_id : string) (reason : option string) (channel tenant_id : string)
    (ctx : TenantContext) : FM ApprovalDecisionRecord :=
  let* first := claim jti in
  if negb first then raise (AlreadyResolvedError approval_id)
  else
    resolve_interactive (mkResolution approval_id run_id tenant_id operator_id decision reason channel ctx) ;;;
    let* t := on_ext clock in
    let d := mkDecision approval_id operator_id decision channel reason tenant_id t in
    if decision_valid d then put_decision d ctx ;;; ret d else raise InvalidDecision.

(** [resolve] *)
Definition resolve (token decision operator_id : string) (reason : option string) (channel tenant_id : string) (ctx : TenantContext)
    : FM ApprovalDecisionRecord :=
  if negb (bool_decide (decision = "approve") || bool_decide (decision = "deny")) then raise (InvalidApprovalTokenError "invalid decision")
  else
    let* v := verify_token token in
    match od_get "apv" v.1 with
    | None => raise TokenKeyError
    | Some apv =>
        let approval_id := json_str float_repr apv in
        if bool_decide (get_str float_repr v.1 "tid" ≠ tenant_id) then raise (InvalidApprovalTokenError "approval token tenant mismatch")
        else
          let* known := gets (λ w, get_decision approval_id ctx (fl_delivery w)) in
          match known with
          | Some _ => raise (AlreadyResolvedError approval_id)
          | None => resolve_claimed v.2 approval_id (get_str float_repr v.1 "run") decision operator_id reason channel tenant_id ctx
          end
    end.

(** [decision] and the endpoint of [api/delivery.py] *)
Definition decision_of (approval_id : string) (ctx : TenantContext) (w : World Y) : option ApprovalDecisionRecord :=
  get_decision approval_id ctx (fl_delivery w).
Definition resolve_approval (token decision operator_id : string) (reason : option string) (channel : string) (ctx : TenantContext)
    : FM ApprovalDecisionRecord :=
  resolve token decision operator_id reason channel (tc_tenant_id ctx) ctx.
End Flow.

(** ** A transition that returns *)

#[local] Existing Instance Lifecycle.guarantee_preorder.

Section Logged.
Context {X : Type}.
Variable env : RunService.Env X.

Lemma manifest_frame r w o w' : Service.transition_manifest env r w = (o, w') → store w' = store w.
Proof.
  unfold Service.transition_manifest, bind, Service.on_ext.
  destruct (registry_get env _ _ (RunService.ext w)) as [[rec|e] x]; [|by intros [= _ <-]].
  destruct (run_canary_rollout_id r), (run_manifest_version r) as [v|]; try by intros [= _ <-].
  cbn [RunService.ext]. destruct (registry_get_version env _ _ _ x) as [[m|e] x']; by intros [= _ <-].
Qed.

Lemma provision_frame r u target m w u' w' : Service.provision env r u target m w = (Ret u', w') →
  store w' = store w ∧ (u' = u ∨ ∃ sid, u' = run_copy u (Service.sandbox_id_update sid)).
Proof.
  unfold Service.provision. destruct (sandbox_provision env) as [prov|]; [|by intros [= -> <-]; split; [|left]].
  destruct (_ && _); [|by intros [= -> <-]; split; [|left]]. unfold bind, Service.on_ext.
  destruct (prov _ _ (RunService.ext w)) as [[sid|e] x]; [|done]. intros [= <- <-]. split; [done|]. right. by exists sid.
Qed.

(** It has logged its state change; into a terminal state, the run stays as it was
    committed. *)
Lemma transition_logged run target actor detail fr res ctx w u w' b :
  Lifecycle.env_safe env → Lifecycle.store_ok (store w) → find run ctx (store w) = Some b → actor ≠ EmptyString →
  Service.transition env run target actor detail fr res ctx w = (Ret u, w') →
  run_state u = target ∧ (∀ f, fr = Some f → run_failure_reason u = Some f) ∧
  ∃ b' e, od_get (run_tenant_id (bu_run b), run) (store w') = Some b' ∧ bu_events b ++ [e] `prefix_of` bu_events b' ∧ ev_to_state e = Some target ∧
    (terminal target = true → bu_run b' = u).
Proof.
  intros Henv Hok Hf Ha H. destruct (Lifecycle.find_own_key run ctx (store w) b Hok Hf) as (Hid & Hg & Hbok & Hinv).
  unfold Service.transition in H. apply bind_inv in H as (r & w1 & Hr & H). rewrite (Lifecycle.require_run_eq run ctx w b Hf) in Hr. injection Hr as <- <-.
  destruct (can_transition (run_state (bu_run b)) target) eqn:Hc; [|done]. cbn [negb] in H.
  apply bind_inv in H as (m & w2 & Hm%manifest_frame & H). apply bind_inv in H as (t & w3 & Ht & H).
  assert (store w3 = store w) as H3. { unfold Service.now, Service.on_ext in Ht. destruct (RunService.clock env _). by injection Ht as _ <-. }
  apply bind_inv in H as (trace & w4 & [= <- <-] & H). apply bind_inv in H as (u0 & w5 & Hp & H).
  set (v := run_copy (bu_run b) _) in Hp. apply provision_frame in Hp as [H5 Hu0]. rewrite H3 in H5.
  pose proof (Lifecycle.transition_updates_result (bu_run b) target t fr res (current_trace_id env (RunService.ext w3)) (proj1 Hbok) Hc) as Hres. fold v in Hres.
  assert (Lifecycle.transition_result (bu_run b) target u0) as Hres'.
  { destruct Hu0 as [->|[sid ->]]; [done|]. apply Lifecycle.sandbox_id_result; [|done]. destruct (terminal (run_state (bu_run b))) eqn:Hterm; [|done].
    by rewrite (terminal_no_step _ _ Hterm) in Hc. }
  assert (∀ f, fr = Some f → run_failure_reason u0 = Some f) as Hfr by (intros f ->; by destruct Hu0 as [->|[sid ->]]).
  pose proof Hres' as (Hst & _ & (_ & [Hui Hut _ _ _ _ _ _ _ _ _ _ _ _ _ _] & _)). rewrite <-H5 in Hg. rewrite <-Hid in Hg.
  match type of H with bind (Service.on_store _) (λ _, bind (Service.append_event _ _ ?ty _ _ _ _ _) (λ _, ?k)) _ = _ =>
    set (k0 := k) in H; rewrite <-Hst in H;
    destruct (Lifecycle.commit_eq env run b u0 ty actor detail k0 w5 Hg Hid Hui Hut Ha ltac:(rewrite <-Hid; apply Hbok)) as (e & x & He & Heq) end.
  rewrite Hst in *. rewrite Heq in H. match type of H with k0 ?w6 = _ => set (w7 := w6) in H end.
  assert (keeps Lifecycle.guarantee k0) as Hk.
  { apply keeps_bind; [apply _|by apply Lifecycle.safe_start_execution|intros _]. apply keeps_bind; [apply _|apply Lifecycle.safe_destroy|intros _].
    apply keeps_bind; [apply _|by apply Lifecycle.safe_finish|intros _; apply keeps_ret, _]. }
  specialize (Hk w7).
  destruct (Lifecycle.commit_bundle (run_tenant_id (bu_run b), run_id (bu_run b)) b u0 e) as (Hi' & Ho' & He'); [by rewrite Hid|done|by rewrite Hst|by rewrite Hst|by rewrite Hst|].
  rewrite <-H5 in Hok. destruct (Lifecycle.put_evolves _ _ b _ Hg Hi' Ho' He' Hok) as [Hok7 _].
  assert (u = u0) as ->.
  { unfold k0 in H. do 3 (apply bind_inv in H as (? & ? & _ & H)). by injection H. }
  rewrite H in Hk. destruct (Hk Hok7) as [_ Hev]. rewrite <-Hid.
  destruct (Hev (run_tenant_id (bu_run b), run_id (bu_run b)) _ (od_get_set_eq _ _ _)) as (b' & Hb' & Hr & Hes & _).
  split; [done|]. split; [done|]. exists b', (with_sequence e (next_sequence (bu_events b))). split_and!; [done|done|done|].
  intros Hterm. destruct Hr as (_&_&Hfin). apply Hfin. cbn. by rewrite Hst.
Qed.
End Logged.

(** ** What a decision does *)

Section Decisions.
Context {Y : Type}.
Variable senv : RunService.Env Y.
Variables (event_sink : option (ApprovalEvent → ApprovalRecord → RunService.World Y → outcome ApprovalExn unit * RunService.World Y))
          (escalation_register : option (string → string → RunService.World Y → outcome ApprovalExn unit * RunService.World Y))
          (escalation_respond : option (string → RunService.World Y → outcome ApprovalExn unit * RunService.World Y)).
Variables (clock : Y → Z * Y) (token_id_factory : Y → string * Y).
Variables (hmac_sha256 : string → string → string) (loads : string → option JsonValue) (float_repr : f64 → string).
Variables (secret : string) (ttl_seconds : Z).

Abbreviation runs_of w := (store (Approvals.ext (fl_plane w))).
Abbreviation APPLY := (apply_approval_decision senv event_sink escalation_respond clock).
Abbreviation RESOLVE := (resolve senv event_sink escalation_respond clock hmac_sha256 loads float_repr secret).

(** The approvals' callbacks write no runs. *)
Record callbacks_quiet : Prop := {
  cq_sink : ∀ f ev r x, event_sink = Some f → store (f ev r x).2 = store x;
  cq_respond : ∀ f i x, escalation_respond = Some f → store (f i x).2 = store x }.

Definition same_runs (p p' : PlaneOf Y) : Prop := store (Approvals.ext p') = store (Approvals.ext p).
#[local] Instance same_runs_preorder : PreOrder same_runs.
Proof. unfold same_runs. split; [done|]. intros a b c H1 H2. by etrans. Qed.

Lemma same_runs_ext f : (∀ x, store (f x).2 = store x) → keeps same_runs (Approvals.on_ext f).
Proof. intros H p. unfold same_runs, Approvals.on_ext. specialize (H (Approvals.ext p)). by destruct (f (Approvals.ext p)). Qed.

Lemma decide_write_runs t r st op reason ctx : callbacks_quiet → keeps same_runs (decide_write event_sink escalation_respond t r st op reason ctx).
Proof.
  intros [H1 H2]. unfold decide_write. apply keeps_bind; [apply _| |intros _].
  { unfold store_save, require. apply keeps_bind; [apply _| |intros _; by apply keeps_modify]. destruct (scopes _ _); [apply keeps_ret, _|apply keeps_raise, _]. }
  apply keeps_bind; [apply _| |intros _].
  { unfold emit. destruct event_sink as [f|]; [|apply keeps_ret, _]. apply keeps_suppress; [apply _|]. apply same_runs_ext. intros x. by apply H1. }
  apply keeps_bind; [apply _| |intros _; apply keeps_ret, _].
  destruct escalation_respond as [f|]; [|apply keeps_ret, _]. apply keeps_suppress; [apply _|]. apply same_runs_ext. intros x. by apply H2.
Qed.

Lemma on_approvals_inv {A} (m : M (PlaneOf Y) ApprovalExn A) w a w' :
  on_approvals m w = (Ret a, w') → ∃ p, m (fl_plane w) = (Ret a, p) ∧ w' = mkWorld p (fl_delivery w).
Proof. unfold on_approvals. destruct (m (fl_plane w)) as [[b|e] p]; intros [= <- <-]. by exists p. Qed.

Lemma on_runs_inv {A} (m : M (RunService.World Y) ExecExn A) w a w' :
  on_runs m w = (Ret a, w') →
  ∃ x, m (Approvals.ext (fl_plane w)) = (Ret a, x) ∧ w' = mkWorld (Approvals.mkWorld (records (fl_plane w)) x) (fl_delivery w).
Proof. unfold on_runs. destruct (m (Approvals.ext (fl_plane w))) as [[b|e] x]; intros [= <- <-]. by exists x. Qed.

Lemma tick_frame {A} (f : Y → A * Y) w a w' : on_ext f w = (a, w') →
  records (fl_plane w') = records (fl_plane w) ∧ runs_of w' = runs_of w ∧ fl_delivery w' = fl_delivery w.
Proof. unfold on_ext. destruct (f _) as [b y]. by intros [= _ <-]. Qed.

Lemma winv_records (p p' : PlaneOf Y) : records p' = records p → winv p → winv p'.
Proof. unfold winv. by intros ->. Qed.

(** A decision that returns: the approval was pending and now carries it. *)
Lemma apply_decide_inv i st op reason ctx w r w' : winv (fl_plane w) →
  decide event_sink escalation_respond clock i st op reason ctx w = (Ret r, w') →
  ∃ a t, od_get i (records (fl_plane w)) = Some a ∧ ap_status a = PENDING ∧ scopes ctx (ap_tenant_id a) = true ∧
    r = with_decision a st t op reason ∧ records (fl_plane w') = od_set i r (records (fl_plane w)) ∧ fl_delivery w' = fl_delivery w ∧
    (callbacks_quiet → runs_of w' = runs_of w).
Proof.
  intros Hw H. unfold decide in H. apply bind_inv in H as (a & w1 & (p & Hr & ->)%on_approvals_inv & H).
  apply decide_read_spec in Hr as (-> & Hne & Hi & Ha & Hp & Hs); [|done]. apply bind_inv in H as (t & w2 & Ht & H).
  apply tick_frame in Ht as (R2 & S2 & D2). cbn [fl_plane fl_delivery] in *. apply on_approvals_inv in H as (p2 & H & ->).
  exists a, t. split_and!; try done; cbn [fl_plane].
  - destruct (decide_write_ok event_sink escalation_respond t a st op reason ctx (fl_plane w2) Hs) as [x Hx]. rewrite Hx in H. by injection H as <- _.
  - destruct (decide_write_ok event_sink escalation_respond t a st op reason ctx (fl_plane w2) Hs) as [x Hx]. rewrite Hx in H. injection H as <- <-.
    cbn. by rewrite R2, Hi.
  - intros Hq. pose proof (decide_write_runs t a st op reason ctx Hq (fl_plane w2)) as Hk. rewrite H in Hk. unfold same_runs in Hk. cbn in Hk. by rewrite Hk.
Qed.

(** The checks before it. *)
Lemma apply_inv i decision op reason ctx expected w r w' :
  APPLY i decision op reason ctx expected w = (Ret r, w') →
  (decision = "approve" ∨ decision = "deny") ∧
  ∃ a b, od_get i (records (fl_plane w)) = Some a ∧ (∀ e, expected = Some e → ap_run_id a = e) ∧
    find (ap_run_id a) ctx (runs_of w) = Some b ∧ run_state (bu_run b) = PAUSED ∧
    apply_checked senv event_sink escalation_respond clock i decision op reason ctx w = (Ret r, w').
Proof.
  intros H. unfold apply_approval_decision in H. destruct (negb (_ || _)) eqn:Hd; [done|]. apply negb_false_iff, orb_true_iff in Hd.
  rewrite !bool_decide_eq_true in Hd. split; [done|].
  apply bind_inv in H as (a & w1 & (p & Hg & ->)%on_approvals_inv & H). pose proof (get_approval_spec i ctx (fl_plane w)) as Hspec.
  rewrite Hg in Hspec. destruct Hspec as (-> & Ha & _). destruct (match expected with Some e => _ | None => _ end) eqn:He; [done|].
  apply bind_inv in H as (u & w2 & Hp & H). unfold require_paused in Hp. apply bind_inv in Hp as (r0 & w3 & (x & Hr & ->)%on_runs_inv & Hp).
  cbn [fl_plane fl_delivery] in *. unfold Service.require_run, bind, gets, get_run in Hr.
  destruct (find (ap_run_id a) ctx _) as [b|] eqn:Hf; [|done]. injection Hr as <- <-. case_bool_decide as Hpa; [|done]. injection Hp as _ <-.
  exists a, b. split_and!; try done.
  - intros e ->. by case_bool_decide.
  - rewrite <-H. f_equal. destruct w as [[rs x] d]. done.
Qed.

(** What the store's guarantee says of one bundle. *)
Lemma logged_later (x x' : RunService.World Y) k b l : Lifecycle.guarantee x x' → Lifecycle.store_ok (store x) →
  od_get k (store x) = Some b → l `prefix_of` bu_events b → ∃ b', od_get k (store x') = Some b' ∧ l `prefix_of` bu_events b'.
Proof. intros Hg Hok Hb Hl. destruct (Hg Hok) as [_ Hev]. destruct (Hev k b Hb) as (b' & Hb' & _ & He & _). exists b'. split; [done|by etrans]. Qed.

(** C9: a decision that returns was taken on a pending approval of a run that was
    paused, the run its token named if it came by one; it is recorded with its
    operator; approving, the run has been set running again, denying, it has
    failed for good with the reason given. *)
Theorem decision_applied i decision op reason ctx expected w r w' :
  winv (fl_plane w) → Lifecycle.store_ok (runs_of w) → Lifecycle.env_safe senv → callbacks_quiet → op ≠ EmptyString →
  APPLY i decision op reason ctx expected w = (Ret r, w') →
  ∃ a b b' e, od_get i (records (fl_plane w)) = Some a ∧ ap_status a = PENDING ∧ (∀ run, expected = Some run → ap_run_id a = run) ∧
    find (ap_run_id a) ctx (runs_of w) = Some b ∧ run_state (bu_run b) = PAUSED ∧
    od_get i (records (fl_plane w')) = Some r ∧ ap_decided_by r = Some op ∧ ap_decision_reason r = reason ∧
    od_get (run_tenant_id (bu_run b), ap_run_id a) (runs_of w') = Some b' ∧ bu_events b ++ [e] `prefix_of` bu_events b' ∧
    ((decision = "approve" ∧ ap_status r = APPROVED ∧ ev_to_state e = Some RUNNING) ∨
     (decision = "deny" ∧ ap_status r = DENIED ∧ ev_to_state e = Some FAILED ∧ run_state (bu_run b') = FAILED ∧
      run_failure_reason (bu_run b') = Some (denial_reason reason))).
Proof.
  intros Hw Hok Henv Hq Hop H. apply apply_inv in H as (Hd & a & b & Ha & He & Hf & Hpa & H). unfold apply_checked in H.
  case_bool_decide as Happ; [|destruct Hd as [|Hd]; [done|]].
  - apply bind_inv in H as (r0 & w1 & Hdec & H). apply bind_inv in H as (u & w2 & (x & Hi & ->)%on_runs_inv & H). injection H as <- <-.
    apply apply_decide_inv in Hdec as (a' & t & Ha' & Hp & _ & -> & Hrec & _ & Hruns); [|done]. assert (a' = a) as -> by congruence. specialize (Hruns Hq).
    change (ap_run_id (with_decision a APPROVED t op reason)) with (ap_run_id a) in Hi. cbn [fl_plane records ext] in *.
    unfold Service.intervene in Hi. apply bind_inv in Hi as (r1 & w3 & Hr & Hi). rewrite (Lifecycle.require_run_eq _ ctx _ b) in Hr by (by rewrite Hruns).
    injection Hr as <- <-. rewrite Hpa, bool_decide_eq_false_2 in Hi by (intros []; done). apply bind_inv in Hi as (v & w4 & Ht & Hi). pose proof Ht as Ht0.
    apply transition_logged with (b := b) in Ht as (_ & _ & b1 & e & Hb1 & Hpre & Hev & _);
      [|done|by rewrite Hruns|by rewrite Hruns|done].
    match type of Hi with ?m w4 = _ => assert (keeps Lifecycle.guarantee m) as Hk end.
    { apply keeps_bind; [apply _|apply Henv|intros ok]. apply keeps_bind; [apply _| |intros _].
      { apply keeps_when; [apply _|]. apply keeps_bind; [apply _|apply Lifecycle.safe_ext|intros rec; apply Henv]. }
      apply keeps_bind; [apply _|apply Lifecycle.safe_append_event|intros _]. apply keeps_bind; [apply _|apply Lifecycle.safe_now|intros _].
      apply keeps_bind; [apply _|apply Lifecycle.safe_audit|intros _; apply keeps_ret, _]. }
    assert (Lifecycle.store_ok (store w4)) as Hok4.
    { pose proof (Lifecycle.safe_transition senv Henv (ap_run_id a) RUNNING op None None None ctx Hop (Approvals.ext (fl_plane w1))) as Hs.
      rewrite Ht0 in Hs. apply Hs. by rewrite Hruns. }
    specialize (Hk w4). rewrite Hi in Hk. destruct (logged_later _ _ _ _ _ Hk Hok4 Hb1 Hpre) as (b' & Hb' & Hpre').
    exists a, b, b', e. split_and!; try done; [by rewrite Hrec, od_get_set_eq|]. by left.
  - subst decision. apply bind_inv in H as (r0 & w1 & Hdec & H). apply bind_inv in H as (u & w2 & (x & Hi & ->)%on_runs_inv & H). injection H as <- <-.
    apply apply_decide_inv in Hdec as (a' & t & Ha' & Hp & _ & -> & Hrec & _ & Hruns); [|done]. assert (a' = a) as -> by congruence. specialize (Hruns Hq).
    change (ap_run_id (with_decision a DENIED t op reason)) with (ap_run_id a) in Hi. cbn [fl_plane records ext] in *.
    unfold Service.fail in Hi. apply bind_inv in Hi as (r1 & w3 & Hr & Hi). rewrite (Lifecycle.require_run_eq _ ctx _ b) in Hr by (by rewrite Hruns).
    injection Hr as <- <-. destruct (negb _) eqn:Hc in Hi; [done|].
    apply transition_logged with (b := b) in Hi as (Hst & Hfr & b' & e & Hb1 & Hpre & Hev & Hfin); [|done|by rewrite Hruns|by rewrite Hruns|done].
    specialize (Hfin eq_refl). exists a, b, b', e. split_and!; try done; [by rewrite Hrec, od_get_set_eq|]. right. subst u. split_and!; try done. by apply Hfr.
Qed.

(** ** Tokens *)

(** The claims of a token, its signature aside. *)
Definition token_claims (token : string) : option (odict string JsonValue) :=
  match rsplit_dot token with
  | None => None
  | Some (encoded, _) => match unb64 encoded ≫= loads with Some (JObj p) => Some p | _ => None end
  end.

(** Signed under the secret, and not expired by the reading [now]. *)
Definition token_good (token : string) (now : Z) (p : odict string JsonValue) : Prop :=
  ∃ encoded exp, rsplit_dot token = Some (encoded, WorkerIdentity.sign hmac_sha256 secret encoded) ∧ token_claims token = Some p ∧
    claim_int p "exp" = Ret exp ∧ (int_timestamp now < exp)%Z.

Abbreviation reading w := (clock (RunService.ext (Approvals.ext (fl_plane w)))).1.

Lemma verify_token_inv token w v w' : verify_token clock hmac_sha256 loads float_repr secret token w = (Ret v, w') →
  token_good token (reading w) v.1 ∧ v.2 = get_str float_repr v.1 "jti" ∧
  records (fl_plane w') = records (fl_plane w) ∧ fl_delivery w' = fl_delivery w.
Proof.
  unfold verify_token, token_good, token_claims. destruct (rsplit_dot token) as [[encoded signature]|]; [|done].
  destruct (negb (is_ascii_text encoded)); [done|]. destruct (negb (is_ascii_text signature)); [done|]. case_bool_decide as Hs; [done|]. subst signature.
  destruct (unb64 encoded ≫= loads) as [[| | | | | |p]|]; try done. intros (exp & w1 & He & H)%bind_inv.
  injection He as He <-. apply bind_inv in H as (now & w2 & Ht & H). pose proof (tick_frame _ _ _ _ Ht) as (HR & _ & HD).
  unfold on_ext in Ht. destruct (clock _) as [t y] eqn:Hc. injection Ht as <- _. destruct (exp <=? int_timestamp t)%Z eqn:Hx; [done|]. injection H as <- <-.
  cbn [fst snd] in *. split_and!; try done. exists encoded, exp. split_and!; try done. lia.
Qed.

(** Applying a decision settles the approval and leaves the delivery store alone. *)
Lemma apply_decides i decision op reason ctx expected w r w' : winv (fl_plane w) → APPLY i decision op reason ctx expected w = (Ret r, w') →
  ∃ a, od_get i (records (fl_plane w)) = Some a ∧ ap_status a = PENDING ∧ (∀ e, expected = Some e → ap_run_id a = e) ∧
    od_get i (records (fl_plane w')) = Some r ∧ ap_status r ≠ PENDING ∧ fl_delivery w' = fl_delivery w.
Proof.
  intros Hw H. apply apply_inv in H as (_ & a & b & Ha & He & _ & _ & H). unfold apply_checked in H.
  case_bool_decide; apply bind_inv in H as (r0 & w1 & Hdec & H); apply bind_inv in H as (u & w2 & (x & _ & ->)%on_runs_inv & H); injection H as <- <-;
    apply apply_decide_inv in Hdec as (a' & t & Ha' & Hp & _ & -> & Hrec & HD & _); try done; exists a; rewrite Ha in Ha'; injection Ha' as <-;
    cbn [fl_plane fl_delivery records]; rewrite Hrec, od_get_set_eq; by split_and!.
Qed.

Lemma resolve_inv token dec op reason ch tenant ctx w d w' : winv (fl_plane w) →
  RESOLVE token dec op reason ch tenant ctx w = (Ret d, w') →
  ∃ p apv a, token_good token (reading w) p ∧ od_get "apv" p = Some apv ∧ json_str float_repr apv = ad_approval_id d ∧
    get_str float_repr p "tid" = tenant ∧ od_get (ad_approval_id d) (records (fl_plane w)) = Some a ∧ ap_status a = PENDING ∧
    ap_run_id a = get_str float_repr p "run" ∧ get_str float_repr p "jti" ∉ ds_tokens (fl_delivery w) ∧
    get_str float_repr p "jti" ∈ ds_tokens (fl_delivery w') ∧
    ∃ a', od_get (ad_approval_id d) (records (fl_plane w')) = Some a' ∧ ap_status a' ≠ PENDING.
Proof.
  intros Hw H. unfold resolve in H. destruct (negb (_ || _)); [done|]. apply bind_inv in H as (v & w1 & Hv & H).
  apply verify_token_inv in Hv as (Hgood & Hjti & HR & HD). destruct (od_get "apv" v.1) as [apv|] eqn:Hapv; [|done]. case_bool_decide as Htid; [done|].
  apply bind_inv in H as (known & w2 & [= <- <-] & H). destruct (get_decision _ _ _); [done|].
  unfold resolve_claimed in H. apply bind_inv in H as (first & w3 & Hc & H). unfold claim, claim_token in Hc. rewrite HD in Hc.
  destruct (bool_decide (v.2 ∈ _)) eqn:Hin in Hc; injection Hc as <- <-; [done|]. apply bool_decide_eq_false in Hin. cbn [negb] in H. apply bind_inv in H as (u & w4 & Hr & H).
  unfold resolve_interactive in Hr. apply bind_inv in Hr as (r & w5 & Hap & [= _ <-]). cbn [ir_approval_id ir_run_id ir_decision ir_operator_id ir_reason ir_ctx] in Hap.
  apply bind_inv in H as (t & w6 & Ht & H). apply tick_frame in Ht as (R6 & _ & D6). destruct (decision_valid _); [|done].
  apply bind_inv in H as (u' & w7 & Hput & [= <- <-]). unfold put_decision, save_decision, require in Hput.
  destruct (scopes _ _); [|done]. cbn in Hput. injection Hput as _ <-. cbn [ad_approval_id fl_plane fl_delivery ds_tokens].
  apply apply_decides in Hap as (a & Ha & Hp & He & Hr & Hnp & HD5); [|by apply (winv_records _ _ HR)]. cbn [fl_plane fl_delivery] in *.
  rewrite HR in Ha. exists v.1, apv, a. rewrite <-Hjti, D6, HD5, R6. cbn [ds_tokens].
  assert (v.2 ∈ {[v.2]} ∪ ds_tokens (fl_delivery w)) by set_solver. split_and!; try done; [by apply He|]. by exists r.
Qed.

(** ** Sequences of calls *)

(** One call of the plane that concerns approvals, runs or deliveries. *)
Inductive flow_step : World Y → World Y → Prop :=
  | fw_approvals p p' d : approval_step event_sink escalation_register escalation_respond p p' → flow_step (mkWorld p d) (mkWorld p' d)
  | fw_runs rs x x' d : Lifecycle.svc_step senv x x' → flow_step (mkWorld (Approvals.mkWorld rs x) d) (mkWorld (Approvals.mkWorld rs x') d)
  | fw_delivery p o d : flow_step (mkWorld p d) (mkWorld p (store_op o d))
  | fw_issue i run tenant w : flow_step w (issue clock token_id_factory hmac_sha256 float_repr secret ttl_seconds i run tenant w).2
  | fw_apply i decision op reason ctx expected w : flow_step w (APPLY i decision op reason ctx expected w).2
  | fw_resolve token dec op reason ch tenant ctx w : flow_step w (RESOLVE token dec op reason ch tenant ctx w).2.

#[local] Existing Instance Approvals.grows_preorder.

(** Decisions are final, used tokens stay used. *)
Definition settled (w w' : World Y) : Prop :=
  winv (fl_plane w) → winv (fl_plane w') ∧ Approvals.grows (fl_plane w) (fl_plane w') ∧ ds_tokens (fl_delivery w) ⊆ ds_tokens (fl_delivery w').
#[local] Instance settled_preorder : PreOrder settled.
Proof.
  split; [intros w Hw; split_and!; [done|reflexivity|done]|]. intros a b c H1 H2 Ha. destruct (H1 Ha) as (Hb & G1 & T1). destruct (H2 Hb) as (Hc & G2 & T2).
  split_and!; [done|by etrans|set_solver].
Qed.

Lemma approvals_same_grow (p p' : PlaneOf Y) : records p' = records p → Approvals.grows p p'.
Proof. destruct p as [rs x], p' as [rs' x']. cbn. intros ->. apply (grows_ext (Approvals.mkWorld rs x) x'). Qed.

Lemma settled_same (w w' : World Y) : records (fl_plane w') = records (fl_plane w) → ds_tokens (fl_delivery w) ⊆ ds_tokens (fl_delivery w') → settled w w'.
Proof. intros HR HT Hw. split_and!; [by apply (winv_records _ _ HR)|by apply approvals_same_grow|done]. Qed.

Lemma settled_assume (w w' : World Y) : (winv (fl_plane w) → settled w w') → settled w w'.
Proof. intros H Hw. by apply H. Qed.

Lemma settled_ext {A} (f : Y → A * Y) : keeps settled (on_ext f).
Proof. intros w. destruct (on_ext f w) as [a w'] eqn:H. apply tick_frame in H as (HR & _ & HD). apply settled_same; [done|]. cbn. by rewrite HD. Qed.

Lemma settled_runs {A} (m : M (RunService.World Y) ExecExn A) : keeps settled (on_runs m).
Proof. intros w. unfold on_runs. destruct (m _) as [[a|e] x]; by apply settled_same. Qed.

Lemma settled_approvals {A} (m : M (PlaneOf Y) ApprovalExn A) : (∀ p, (m p).2 = p) → keeps settled (on_approvals m).
Proof. intros Hm w. unfold on_approvals. specialize (Hm (fl_plane w)). destruct (m (fl_plane w)) as [[a|e] p]; cbn in Hm; subst p; by apply settled_same. Qed.

Lemma settled_decide i st op reason ctx : keeps settled (decide event_sink escalation_respond clock i st op reason ctx).
Proof.
  intros w. apply settled_assume. intros Hw. unfold decide. unfold bind at 1, on_approvals at 1. pose proof (decide_read_state i st ctx (fl_plane w)) as Hst.
  destruct (decide_read i st ctx (fl_plane w)) as [[a|e] p] eqn:Hr; cbn in Hst; subst p; [|by apply settled_same].
  apply decide_read_spec in Hr as (_ & Hne & Hi & Ha & Hp & _); [|done].
  unfold bind. match goal with |- context [on_ext clock ?w0] => destruct (on_ext clock w0) as [[t|e] w2] eqn:Ht end;
    apply tick_frame in Ht as (HR & _ & HD); cbn [fl_plane fl_delivery] in *; [|apply settled_same; cbn; [by rewrite HR|by rewrite HD]].
  pose proof (winv_records _ _ HR Hw) as Hw2. unfold on_approvals.
  assert (Approvals.grows (fl_plane w2) (decide_write event_sink escalation_respond t a st op reason ctx (fl_plane w2)).2) as Hg.
  { apply save_update_grows with a; [done|by rewrite HR; cbn; rewrite Hi| | |apply decide_write_tail_keeps].
    - unfold evolves; split_and!; try done.
    - unfold decided_fields; cbn. naive_solver. }
  intros _. destruct (decide_write _ _ _ _ _ _ _ _ _) as [[r|e] p]; cbn in Hg |- *; (split_and!; [by apply Hg| |by rewrite HD]); (etrans; [by apply approvals_same_grow|exact Hg]).
Qed.

Lemma settled_apply i decision op reason ctx expected : keeps settled (APPLY i decision op reason ctx expected).
Proof.
  unfold apply_approval_decision. destruct (negb _); [apply keeps_raise, _|]. apply keeps_bind; [apply _| |intros a].
  { apply settled_approvals. intros p. pose proof (get_approval_spec i ctx p) as H. destruct (get_approval i ctx p) as [[a|e] p']; by destruct H as [-> _]. }
  destruct (match expected with Some e => _ | None => _ end); [apply keeps_raise, _|]. apply keeps_bind; [apply _| |intros _].
  { unfold require_paused. apply keeps_bind; [apply _|apply settled_runs|intros r]. case_bool_decide; [apply keeps_ret, _|apply keeps_raise, _]. }
  unfold apply_checked. case_bool_decide; (apply keeps_bind; [apply _|apply settled_decide|intros r]);
    (apply keeps_bind; [apply _|apply settled_runs|intros u; apply keeps_ret, _]).
Qed.

Lemma settled_resolve token dec op reason ch tenant ctx : keeps settled (RESOLVE token dec op reason ch tenant ctx).
Proof.
  unfold resolve. destruct (negb _); [apply keeps_raise, _|]. apply keeps_bind; [apply _| |intros v].
  { unfold verify_token. repeat case_match; try apply keeps_raise, _. apply keeps_bind; [apply _| |intros exp].
    { intros w. by apply settled_same. }
    apply keeps_bind; [apply _|apply settled_ext|intros now]. case_match; [apply keeps_raise, _|apply keeps_ret, _]. }
  destruct (od_get "apv" v.1) as [apv|]; [|apply keeps_raise, _]. case_bool_decide; [apply keeps_raise, _|].
  apply keeps_bind; [apply _|apply keeps_gets, _|intros known]. destruct known; [apply keeps_raise, _|]. unfold resolve_claimed.
  apply keeps_bind; [apply _| |intros first].
  { intros w. unfold claim. pose proof (store_op_tokens (SClaim v.2) (fl_delivery w)) as Htok. cbn in Htok. destruct (claim_token _ _) as [b d]. by apply settled_same. }
  destruct (negb first); [apply keeps_raise, _|]. apply keeps_bind; [apply _| |intros _].
  { unfold resolve_interactive. apply keeps_bind; [apply _|apply settled_apply|intros r; apply keeps_ret, _]. }
  apply keeps_bind; [apply _|apply settled_ext|intros t]. destruct (decision_valid _); [|apply keeps_raise, _].
  apply keeps_bind; [apply _| |intros _; apply keeps_ret, _]. intros w. unfold put_decision.
  match goal with |- context [save_decision ?d ctx _] => pose proof (store_op_tokens (SDecision d ctx) (fl_delivery w)) as Htok; cbn in Htok;
    destruct (save_decision d ctx (fl_delivery w)) as [[u|e] s] end; by apply settled_same.
Qed.

Lemma flow_settled w w' : flow_step w w' → settled w w'.
Proof.
  intros H. destruct H as [p p' d H|rs x x' d H|p o d| i run tenant w| |].
  - intros Hw. pose proof (approval_step_grows _ _ _ _ _ Hw H) as Hg. split_and!; [by apply Hg|done|done].
  - by apply settled_same.
  - apply settled_same; [done|]. apply store_op_tokens.
  - assert (keeps settled (issue clock token_id_factory hmac_sha256 float_repr secret ttl_seconds i run tenant)) as Hk; [|apply Hk].
    unfold issue. apply keeps_bind; [apply _|apply settled_ext|intros now]. apply keeps_bind; [apply _|apply settled_ext|intros jti].
    case_match; [apply keeps_ret, _|apply keeps_raise, _].
  - apply settled_apply.
  - apply settled_resolve.
Qed.

Lemma flows_settled w w' : rtc flow_step w w' → settled w w'.
Proof. induction 1 as [|a b c H _ IH]; [reflexivity|]. etrans; [by apply flow_settled|done]. Qed.

(** C8: a token that resolves an approval was signed under the secret, has not
    expired, and was issued for the tenant, the approval and its run; whatever
    calls follow, no later token resolves that approval again, and none with the
    same identifier resolves anything. *)
Theorem token_resolves_once token dec op reason ch tenant ctx w d w1 w2 :
  winv (fl_plane w) → RESOLVE token dec op reason ch tenant ctx w = (Ret d, w1) → rtc flow_step w1 w2 →
  ∃ p apv a, token_good token (reading w) p ∧ od_get "apv" p = Some apv ∧ json_str float_repr apv = ad_approval_id d ∧
    get_str float_repr p "tid" = tenant ∧ od_get (ad_approval_id d) (records (fl_plane w)) = Some a ∧ ap_status a = PENDING ∧
    ap_run_id a = get_str float_repr p "run" ∧
    ∀ token' dec' op' reason' ch' tenant' ctx' d' w3, RESOLVE token' dec' op' reason' ch' tenant' ctx' w2 = (Ret d', w3) →
      ad_approval_id d' ≠ ad_approval_id d ∧
      ∃ p', token_claims token' = Some p' ∧ get_str float_repr p' "jti" ≠ get_str float_repr p "jti".
Proof.
  intros Hw H Hsteps. assert (settled w w1) as Hs1. { pose proof (settled_resolve token dec op reason ch tenant ctx w) as Hs. by rewrite H in Hs. }
  apply resolve_inv in H as (p & apv & a & Hgood & Hapv & Hid & Htid & Ha & Hp & Hrun & _ & Hjti & a1 & Ha1 & Hnp); [|done].
  destruct (Hs1 Hw) as (Hw1 & _ & _). destruct (flows_settled _ _ Hsteps Hw1) as (Hw2 & Hg & HT). exists p, apv, a. split_and!; try done.
  intros token' dec' op' reason' ch' tenant' ctx' d' w3 H'.
  apply resolve_inv in H' as (p' & apv' & a' & (encoded & exp & _ & Hcl & _) & _ & _ & _ & Ha' & Hp' & _ & Hfresh & _); [|done]. split.
  - intros Heq. rewrite Heq in Ha'. destruct (Hg Hw1) as [_ Hg']. specialize (Hg' (ad_approval_id d)). rewrite Ha1 in Hg'.
    destruct Hg' as (a2 & Ha2 & _ & _ & _ & _ & _ & _ & Hfin). destruct (Hfin Hnp). congruence.
  - exists p'. split; [done|]. intros Heq. rewrite Heq in Hfresh. set_solver.
Qed.
End Decisions.

(** ** A concrete plane *)
Module Demo.
Import RunService.Demo RunService.Lifecycle.

Definition tick (x : Z) : Z * Z := (x, (x + 1)%Z).
Definition next_id (x : Z) : string * Z := ("apv-" +:+ pretty x, x).
Definition mac (key text : string) : string := key.
Definition no_floats (x : f64) : string := EmptyString.
Definition payload : odict string JsonValue := approval_payload "apv-9" "ap1" "r1" "acme" 900000009.
(** A parser that knows one document. *)
Definition loads (text : string) : option JsonValue :=
  if bool_decide (text = Canonical.dumps no_floats (JObj payload)) then Some (JObj payload) else None.

(** A run paused by the operator, waiting for an approval. *)
Definition w_paused : RunService.World Z :=
  (Service.intervene quiet "r1" PAUSE "op" acme (Service.transition quiet "r1" RUNNING "op" None None None acme (w_queued quiet)).2).2.
Definition w_asked : World Z :=
  mkWorld (Approvals.request None None "ap1" 10 "r1" "w" "rule" "reason" None None None (Some acme) (Approvals.mkWorld [] w_paused)).2 empty_delivery.

Abbreviation demo_issue := (issue tick next_id mac no_floats "key" 900).
Abbreviation demo_resolve := (resolve quiet None None tick mac loads no_floats "key").
Abbreviation demo_apply := (apply_approval_decision quiet None None tick).

Definition w_issued : World Z := (demo_issue "ap1" "r1" "acme" w_asked).2.
Definition token : string := match (demo_issue "ap1" "r1" "acme" w_asked).1 with Ret t => t | Raise _ => EmptyString end.

Definition run_state_of (w : World Z) : option RunState :=
  (λ b, run_state (bu_run b)) <$> od_get ("acme", "r1") (store (Approvals.ext (fl_plane w))).

Lemma w_paused_ok : store_ok (store w_paused).
Proof.
  apply (safe_intervene quiet (quiet_safe None) "r1" PAUSE "op" acme); [done|].
  apply (safe_transition quiet (quiet_safe None) "r1" RUNNING "op" None None None acme); [done|]. apply w_queued_ok, quiet_safe.
Qed.

Lemma w_asked_inv : winv (fl_plane w_asked).
Proof.
  apply (request_grows None None "ap1" 10 "r1" "w" "rule" "reason" None None None (Some acme) (Approvals.mkWorld [] w_paused)); [reflexivity|].
  split; [apply od_wf_nil|]. intros k r [=].
Qed.

Lemma w_issued_inv : winv (fl_plane w_issued).
Proof. apply (winv_records (fl_plane w_asked)); [|apply w_asked_inv]. vm_compute. reflexivity. Qed.

Definition approved : outcome FlowExn ApprovalDecisionRecord * World Z := demo_resolve token "approve" "alice" None "slack" "acme" acme w_issued.
Definition decision : ApprovalDecisionRecord :=
  match approved.1 with Ret d => d | Raise _ => mkDecision EmptyString EmptyString EmptyString EmptyString None EmptyString 0 end.

Lemma approved_eq : approved = (Ret decision, approved.2).
Proof.
  assert (outcome_ok approved.1 = true) as H by (vm_compute; reflexivity). unfold decision. destruct approved as [[d|e] w]; [reflexivity|discriminate H].
Qed.

(** The token is accepted once; a second use of it, after any comment, is not. *)
Lemma token_resolves_once_witness :
  run_state_of approved.2 = Some RUNNING ∧ ad_approval_id decision = "ap1" ∧
  get_decision "ap1" acme (fl_delivery approved.2) = Some decision ∧
  ∃ a, od_get "ap1" (records (fl_plane w_issued)) = Some a ∧ ap_status a = PENDING.
Proof.
  split; [vm_compute; reflexivity|]. split; [vm_compute; reflexivity|]. split; [vm_compute; reflexivity|].
  destruct (token_resolves_once quiet None None None tick next_id mac loads no_floats "key" 900 token "approve" "alice" None "slack" "acme" acme w_issued
    decision approved.2 approved.2 w_issued_inv approved_eq (rtc_refl _ _)) as (p & apv & a & _ & _ & _ & _ & Ha & Hp & _).
  exists a. split; [|exact Hp]. assert (ad_approval_id decision = "ap1") as E by (vm_compute; reflexivity). rewrite E in Ha. exact Ha.
Defined.

Abbreviation denied := (demo_apply "ap1" "deny" "alice" (Some "no") acme None w_asked).
Definition denied_record : ApprovalRecord :=
  match denied.1 with
  | Ret r => r
  | Raise _ => {| ap_approval_id := EmptyString; ap_run_id := EmptyString; ap_workload := EmptyString; ap_rule := EmptyString; ap_reason := EmptyString;
      ap_action_class := None; ap_tool_id := None; ap_requested_at := 0; ap_status := PENDING; ap_decided_at := None; ap_decided_by := None;
      ap_decision_reason := None; ap_delegated_to := None; ap_delegated_by := None; ap_comments := []; ap_tenant_id := EmptyString |}
  end.

Lemma no_callbacks : callbacks_quiet (Y := Z) None None.
Proof. split; intros f ? ? ?; discriminate. Qed.

Lemma denied_eq : denied = (Ret denied_record, denied.2).
Proof.
  assert (outcome_ok denied.1 = true) as H by (vm_compute; reflexivity). unfold denied_record. destruct (demo_apply _ _ _ _ _ _ _) as [[d|e] w]; [reflexivity|discriminate H].
Qed.

Lemma decision_applied_witness :
  run_state_of denied.2 = Some FAILED ∧
  ∃ a, od_get "ap1" (records (fl_plane w_asked)) = Some a ∧ ap_status a = PENDING.
Proof.
  split; [vm_compute; reflexivity|].
  destruct (decision_applied quiet None None tick "ap1" "deny" "alice" (Some "no") acme None w_asked denied_record denied.2 w_asked_inv w_paused_ok
    (quiet_safe None) no_callbacks (λ H, match H in _ = s return match s with EmptyString => False | _ => True end with eq_refl => I end) denied_eq)
    as (a & b & b' & e & Ha & Hp & _).
  exists a. split; [exact Ha|exact Hp].
Defined.

(** The decision is written before the run is moved: when the registry does not
    answer, the approval is approved and the token used, and the run stays
    paused; nothing can decide the approval again. *)
Definition silent : RunService.Env Z :=
  {| RunService.clock := RunService.clock quiet; current_trace_id := current_trace_id quiet; float_str := float_str quiet; require_active := None;
     registry_get := λ _ _ x, (Raise (ExternalError "registry"), x); registry_get_version := registry_get_version quiet;
     increment_production_runs := increment_production_runs quiet; scan_input := None; mark_untrusted := mark_untrusted quiet; gates := gates quiet;
     canary_route := None; canary_record := canary_record quiet; approvals_request := None; budget_record_usage := None; guards_on_usage := None;
     guards_release := guards_release quiet; taint_clear := taint_clear quiet; audit_append := None; sandbox_provision := None;
     sandbox_destroy := sandbox_destroy quiet; executor_start := executor_start quiet; executor_pause := executor_pause quiet;
     executor_resume := executor_resume quiet; RunService.executor_cancel := RunService.executor_cancel quiet; fanout_notify := fanout_notify quiet;
     fanout_notify_escalation := fanout_notify_escalation quiet; eval_hook := None; terminal_hook := None; RunService.event_sink := None |}.

Example approved_but_paused :
  let w := (resolve silent None None tick mac loads no_floats "key" token "approve" "alice" None "slack" "acme" acme w_issued).2 in
  (ap_status <$> od_get "ap1" (records (fl_plane w))) = Some APPROVED ∧ run_state_of w = Some PAUSED ∧
  (demo_resolve token "approve" "alice" None "slack" "acme" acme w).1 = Raise (AlreadyResolvedError "ap1") ∧
  (demo_apply "ap1" "approve" "alice" None acme None w).1 = Raise (FlowApprovalError (ApprovalAlreadyDecidedError "ap1")).
Proof. vm_compute. split_and!; reflexivity. Qed.

(** A token presented in the name of another tenant is refused and stays good. *)
Example token_of_other_tenant_refused :
  (demo_resolve token "approve" "mallory" None "slack" "globex" (context_for_run "globex" None None) w_issued).1
  = Raise (InvalidApprovalTokenError "approval token tenant mismatch").
Proof. vm_compute. reflexivity. Qed.
End Demo.
